(* ===== verification/_CoqProject ===== *)
-Q . S2P
Prelude.v
Text.v
Numeric.v
Doubles.v
Rounding.v
OrderedMap.v
Wire.v
Ids.v
NtpTime.v
RtpDefines.v
RtcpCommon.v
SenderReport.v
RtcpBuilder.v
RtcpParser.v
RtcpRoundTrip.v
Rtp.v
FrameCollector.v
FrameCrypto.v
BitVector.v
StatsTracker.v
Bandwidth.v
Alarm.v
IpAddress.v
Config.v
Mdns.v
MdnsWriter.v
MdnsReader.v
MdnsReaderProps.v
MdnsWriterProps.v
MdnsNames.v
MdnsRoundTrip.v
MdnsProps.v
MdnsOrder.v
Capture.v
DesktopSender.v
DesktopSenderInv.v
DesktopSenderProps.v
Environment.v
ClockDrift.v
Statistics.v
CastMessage.v
CastSocket.v
CastDemo.v
CastSocketProps.v
Multimap.v
ConnectionRouter.v
ConnectionProps.v
ChannelProps.v
Handshake.v
CastChannel.v
CastPorts.v
StatisticsEvents.v
ClockOffset.v
ClockOffsetProps.v
StatisticsAnalyzer.v
StatisticsProps.v
Receiver.v
ReceiverInv.v
ReceiverFeedback.v
ReceiverSteps.v
ReceiverConsume.v
ReceiverJitter.v
ReceiverProps.v
ReceiverStream.v
ReceiverDemo.v
ReceiverRouter.v
ReceiverRouterProps.v
SenderRouter.v
SenderRouterInv.v
SenderRouterProps.v
Sender.v
SenderInv.v
SenderProps.v
SenderInstance.v
Json.v
Answer.v
Offer.v
NegotiationDemo.v
AnswerProps.v
OfferProps.v
