(* ===== verification/Prelude.v ===== *)
(** * Verification of the Cast Streaming transport of streamer-plus

    The program is an implementation of the Open Screen and Cast protocols.
    This development covers the transport core of Cast Streaming
    ([cast/streaming/impl]), the utilities it is built on ([util]), and the
    application that streams a desktop with it ([streamer_plus]); the messages
    of multicast DNS, by which receivers are found ([discovery]); the channels
    over which senders and receivers exchange Cast messages ([cast/common/channel]);
    and the OFFER and ANSWER with which they agree on streams ([cast/streaming/public]).

    A Cast stream has a sender and a receiver that share an RTCP session.

    - The sender ([SenderImpl], file [Sender]) accepts encoded frames,
      encrypts them ([FrameCrypto]), keeps up to 120 of them in flight, and has
      them split into RTP packets ([Rtp], [RtpPacketizer]).  Sender Reports are
      written by [SenderReport].
    - The receiver parses RTP packets ([Rtp], [RtpPacketParser]), collects the
      packets of a frame ([FrameCollector]), keeps loss statistics
      ([StatsTracker]) and tells the sender what has arrived in compound RTCP
      packets ([RtcpBuilder]).
    - The sender parses those ([RtcpParser]) into events about the checkpoint,
      acknowledged frames, missing packets and picture loss; they release
      frames and select packets for retransmission.
    - The bandwidth of the network is estimated from bursts and
      acknowledgements ([Bandwidth]).
    - The application streamer_plus captures the desktop ([Capture]) and hands
      media to encoders that feed senders ([DesktopSender]).

    ** Files

    - [Prelude]: outcomes of a run (a value, a failed [OSP_CHECK], an access out
      of bounds), machine integers, record update, bytes, and their lemmas and
      tactics.
    - [Numeric], [Wire], [Ids], [NtpTime], [RtpDefines]: util/saturate_cast.h,
      util/integer_division.h, util/big_endian.h, impl/packet_util.h,
      impl/expanded_value_base.h, public/frame_id.h, rtp_time.h, ssrc.cc,
      impl/ntp_time, impl/rtp_defines.
    - [RtcpCommon], [SenderReport], [RtcpBuilder], [RtcpParser]: the RTCP side,
      impl/rtcp_common, impl/sender_report_builder, impl/sender_report_parser,
      impl/compound_rtcp_builder, impl/compound_rtcp_parser.  [RtcpRoundTrip]
      composes the last two: what a receiver builds is what the sender's client
      is told.
    - [Rtp], [FrameCollector], [FrameCrypto]: impl/rtp_packetizer,
      impl/rtp_packet_parser, impl/frame_collector, impl/frame_crypto.
    - [BitVector]: util/bit_vector and the interface [FlagSet] it implements;
      the sender is verified against the interface.
    - [StatsTracker], [Bandwidth]: impl/packet_receive_stats_tracker,
      impl/bandwidth_estimator.
    - [Sender], [SenderInv], [SenderProps]: impl/sender_impl; its invariant;
      its properties over reachable states.
    - [Alarm]: util/alarm, the alarm with its cancellable functors on the task
      runner's queue, and the abstract alarm it implements.
    - [Environment]: public/environment.
    - [SenderRouter], [SenderRouterInv], [SenderRouterProps]:
      sender_packet_router, for any senders that obey the laws of a class;
      its invariant; its properties.  [SenderInstance] shows that [SenderImpl]
      obeys the laws.
    - [ClockDrift]: impl/clock_drift_smoother, in binary64 arithmetic.
    - [Receiver]: impl/receiver_impl.  [ReceiverInv] holds the invariant of its
      ring of frames, [ReceiverFeedback] what its feedback contains,
      [ReceiverSteps] and [ReceiverConsume] that each operation keeps the
      invariant, [ReceiverJitter] that the jitter it reports stays in its 32
      bits, [ReceiverProps] the properties over runs, [ReceiverStream] the
      composition with a sender, and [ReceiverDemo] a concrete run.
    - [ReceiverRouter], [ReceiverRouterProps]: impl/receiver_packet_router, for
      any packet consumers that obey the laws of a class.
    - [Text]: characters, numbers in text, and the errors of platform/base.
      [IpAddress]: platform/base/ip_address.  [Doubles]: facts about rounding.
    - Statistics: [Statistics] public/statistics, what is reported;
      [StatisticsEvents] impl/statistics_common, statistics_collector and
      statistics_dispatcher, what happened to frames and packets;
      [StatisticsAnalyzer] impl/statistics_analyzer, which turns events into
      reports, for any estimator of the clocks' offset.  [ClockOffset] is the
      estimator of clock_offset_estimator_impl, a Kalman filter in binary64
      arithmetic.  [StatisticsProps] and [ClockOffsetProps] hold their
      theorems, [OrderedMap] the maps they keep (std::map), and [Rounding] what
      rounding preserves.
    - The application streamer_plus (cast/standalone_sender/streamer_plus):
      [Config] its command line, [Capture] its queue and the copying of samples,
      [DesktopSender], [DesktopSenderInv], [DesktopSenderProps] the media sender
      between capture and encoders, for any encoders that obey the laws of two
      classes.
    - Multicast DNS (discovery/mdns/public): [Mdns] the records, names and
      messages of mdns_records and the fields of mdns_constants; [MdnsWriter]
      mdns_writer, the sender's buffer and the order of records; [MdnsReader]
      mdns_reader.  [MdnsReaderProps] shows that reading is safe,
      [MdnsWriterProps] what is appended and how much, [MdnsNames] that
      compressed names are spelled as they were, [MdnsRoundTrip] that reading
      inverts writing, part by part; [MdnsProps] and [MdnsOrder] hold the
      theorems.
    - Cast channels (cast/common/channel): [CastMessage] the messages of
      proto/cast_channel.proto and message_util, and the operations of the
      protobuf and JSON libraries as classes with their laws; [CastSocket]
      message_framer and cast_socket; [Multimap] std::multimap;
      [ConnectionRouter] virtual_connection_router and
      connection_namespace_handler; [CastPorts] namespace_router and
      cast_socket_message_port.  [CastSocketProps] shows that messages cross a
      channel, [ConnectionProps] what the table of connections holds,
      [ChannelProps] the invariant over runs, [Handshake] how a connection is
      made, and [CastChannel] the theorems about the channel; [CastDemo] has
      concrete libraries for the examples.
    - Session negotiation: [Json] util/json/json_helpers, simple_fraction and the
      text functions they use, on a JSON library that is a class with its laws;
      [Answer] cast/streaming/resolution and public/answer_messages; [Offer]
      public/offer_messages and message_fields.  [AnswerProps] and [OfferProps]
      hold their theorems, [NegotiationDemo] a concrete library and messages.

    ** Conventions of the model

    Functions of the code become functions on records of the code's fields; a
    function that can fail a check or leave its buffer returns an [outcome].
    Integers are [Z]; a conversion to a type of [w] bits is written out ([u8],
    [u16], [u32], [u64] and their signed and saturating forms), and where the
    code relies on signed arithmetic that does not overflow, the model computes
    the exact value and the theorems that need the bound state it.  Times and
    durations are numbers of microseconds, the clock's unit; casts to coarser
    units truncate toward zero ([Z.quot]).  Bytes are [Z] between 0 and 255 and
    a buffer under construction is the pair of the bytes written and the room
    left.  Null frame IDs and unset times are the values the code uses
    ([INT64_MIN], [INT64_MAX]).  Loops become structural recursion, or
    recursion on fuel that is computed from the loop's bound (the number of
    frames between two identifiers, the length of a packet: a chunk is at least
    four bytes long); the totality theorems show that it is enough, since
    running out of it would be a fault or would stop short of the result they
    state.

    Checks with [OSP_CHECK] abort; [OSP_DCHECK], logging and tracing are left
    out.  Objects a component calls out to are represented by the calls made,
    in order.

    ** What is shown

    - Parsers: for every input they return and stay in the packet
      ([rtp_parser_total], [sender_report_parser_total],
      [compound_parser_contract], whose only exception is
      [short_application_packet_faults]).
    - Round trips: what one end writes is what the other end reads
      ([feedback_roundtrip], [rtp_packet_roundtrip],
      [sender_report_roundtrip], [report_blocks_roundtrip], [decrypt_encrypt],
      [ntp_roundtrip], [expansion_recovers_truncated]), and frames are
      reassembled whatever the order of their packets ([frame_reassembly]).
    - Sender: an invariant of every reachable state, absence of aborts, the
      outcome of every operation, and draining of the send queue; the two ways
      in which it can abort ([cancel_then_send_aborts],
      [ack_ahead_then_checkpoint_aborts]).
    - Statistics: loss statistics, round trip time, and the bandwidth estimate
      as the quantities they are meant to be.
    - Receiver: it never aborts while RTP packets arrive less than 2^30 ticks
      apart, its checkpoint is the last frame up to which
      all are complete, its feedback names exactly the packets missing and the
      frames complete, the sender's parser reads just that, frames are consumed
      in order and intact, only late frames are skipped, and announced playout
      delays apply from the frame that announced them.  [stream_is_delivered]
      composes packetizer, encryption, parser, collector, receiver and
      decryption.
    - Routers: bursts are paced, prioritised and happen when asked for, and they
      empty the queues of real senders; packets are routed by SSRC, and a
      receiver's router listens to one peer.
    - The alarm behaves as one that has a single pending task.
    - The application: command lines it accepts are valid, and what is written
      as flags is read back; captured pictures are packed exactly and the latest
      is served; the media sender never aborts, resubmission ends, one picture
      is in flight, bitrates keep their bounds (with exact arithmetic on the
      floating point the code uses), both tracks keep one clock, and stalled
      tracks stop it.
    - Statistics: the analysis of audio and video never aborts, its maps stay
      small, every event is counted once ([events_are_counted]), and reports
      keep coming ([reports_keep_coming]).  The offset between the clocks is
      known up to half the range of the latencies, in the arithmetic the code
      uses ([clock_offset_is_known]).  A packet of the packetizer is identified
      from its bytes when its metadata name the frame's RTP timestamp
      ([sent_packets_are_identified]); the sender names 0, with the
      consequences of [sender_packets_are_misidentified].  The first report
      holds memory that was not initialised ([first_report_is_uninitialised]),
      and an event of an unknown medium aborts ([unknown_stream_aborts_analysis]).
    - Cast channels: messages sent arrive in their order, each with its last
      byte ([messages_cross_the_channel]); the channel never aborts, its
      connections are those added and not removed ([connections_change]), and an
      exchange of CONNECT and CONNECTED makes one on both sides, unless the
      identifier is one that is lost ([handshake_connects]).  The exceptions: a
      connection whose local identifier is less than another's of its socket is lost
      ([lesser_connection_is_lost]), namespaces of more than 30 characters need
      no connection ([long_namespaces_need_no_connection]), a frame that is not
      valid blocks its socket ([invalid_frame_blocks_socket]), and a message over
      another socket aborts a port ([other_socket_aborts_port]).
    - Addresses and endpoints are read back as printed, with one exception.
    - Multicast DNS: every packet can be read without end or overrun, and what
      is read is well formed; messages are read back as written, names up to
      case ([mdns_roundtrip], for a hash without collisions among the names of
      the message, which the code takes for granted); the computed size is
      enough; names and records are strictly ordered.  The exceptions are
      records of the type ANY ([any_record_aborts]), comparisons of records
      that point to the root ([record_comparison_aborts]) and the size of NSEC
      data ([nsec_size_is_short]).
    - Negotiation: an ANSWER is read back as written, whatever is accepted can be
      written ([answer_roundtrip], [accepted_answers_can_be_written]) and has a
      pixel rate ([pixel_rate_is_required]); an OFFER is read back as written
      ([offer_roundtrip]), its streams are the entries with a known type and
      codec ([offered_streams]), it can be written again exactly if its delays
      and bit rates are positive ([accepted_offers]), and some that are malformed
      stop the process ([malformed_offers_abort]).

    ** Not modelled

    - The sessions that exchange ANSWER and OFFER, capabilities and RPC messages
      (protobuf), and the requests of sender and receiver applications; the OSP
      protocol: messages of generated CBOR code over a QUIC library;
      certificates, whose logic is BoringSSL's.
    - The mDNS responder and querier and DNS-SD, which are caches and schedules
      of the messages modelled here; the CDDL compiler, a build tool.
    - GStreamer pipelines, codecs, portals, sockets and threads, and the other
      applications.
    - The environment hands a packet it sends to the statistics collector: the
      collector is modelled by itself ([CollectPacketSentEvent]), the routers'
      theorems say nothing of it.
    - An observer or consumer that calls back into the object that calls it: the
      calls are recorded instead.
    - Conversions of a double that is out of range to int, which C++ leaves
      undefined: integers of the application's bitrates and of the sizes of its
      pictures are exact.
    AES in counter mode (BoringSSL) is a parameter: a key stream of the key, the
    nonce and the length. *)

From stdpp Require Export base list numbers strings gmap sorting.
From Stdlib Require Export ZArith Lia.
#[export] Set Default Proof Using "Type".
Open Scope Z_scope.

(** * Failure

    A run of the code either returns, stops the process in a failed
    [OSP_CHECK], or performs a memory access outside of its span (undefined
    behaviour in C++, a hardened-library trap in practice). *)

Inductive fault : Set :=
  | CheckFailed     (* OSP_CHECK / OSP_NOTREACHED *)
  | OutOfBounds     (* read or write past the end of a span or vector *)
  | Undefined.      (* another operation undefined in C++, such as a negative shift *)

#[export] Instance fault_eq_dec : EqDecision fault.
Proof. solve_decision. Defined.

Inductive outcome (A : Type) : Type :=
  | Ret (a : A)
  | Fault (f : fault).
Arguments Ret {A} a.
Arguments Fault {A} f.

#[export] Instance outcome_ret : MRet outcome := fun A => @Ret A.
#[export] Instance outcome_bind : MBind outcome := fun A B k m =>
  match m with Ret a => k a | Fault f => Fault f end.
#[export] Instance outcome_fmap : FMap outcome := fun A B g m =>
  match m with Ret a => Ret (g a) | Fault f => Fault f end.

(** [OSP_CHECK(b)]. *)
Definition OSP_CHECK (b : bool) : outcome unit :=
  if b then Ret tt else Fault CheckFailed.

(** Reading an element that must exist. *)
Definition in_bounds {A} (o : option A) : outcome A :=
  match o with Some a => Ret a | None => Fault OutOfBounds end.

Definition returns {A} (m : outcome A) : Prop := exists a, m = Ret a.

Lemma bind_Ret_inv {A B} (m : outcome A) (k : A -> outcome B) b :
  (m ≫= k) = Ret b -> exists a, m = Ret a /\ k a = Ret b.
Proof. destruct m; simpl; [eauto | discriminate]. Qed.

Lemma OSP_CHECK_true b : b = true -> OSP_CHECK b = Ret tt.
Proof. by intros ->. Qed.

Lemma OSP_CHECK_Ret_inv b u : OSP_CHECK b = Ret u -> b = true.
Proof. by destruct b. Qed.

Lemma in_bounds_Ret_inv {A} (o : option A) a : in_bounds o = Ret a -> o = Some a.
Proof. destruct o; simpl; congruence. Qed.

(** [inv_outcome] peels a hypothesis [m = Ret b] into one equation per step. *)
Ltac inv_outcome :=
  repeat match goal with
  | H : (_ ≫= _) = Ret _ |- _ =>
      let a := fresh "a" in let H1 := fresh "Hm" in let H2 := fresh "Hk" in
      apply bind_Ret_inv in H as (a & H1 & H2); cbv beta in H2
  | H : OSP_CHECK _ = Ret _ |- _ => apply OSP_CHECK_Ret_inv in H
  | H : in_bounds _ = Ret _ |- _ => apply in_bounds_Ret_inv in H
  | H : Ret _ = Ret _ |- _ => injection H as H; subst
  | H : Fault _ = Ret _ |- _ => discriminate H
  | H : mret _ = Ret _ |- _ => unfold mret, outcome_ret in H
  end.

(** * Record update

    [r <| f := v |>] replaces the field [f] of [r].  A record takes part by an
    instance of [Eta], its own eta expansion. *)

Class Eta (R : Type) := eta : R -> R.
Class Update {R T : Type} (proj : R -> T) := update : T -> R -> R.
#[global] Arguments update {R T} proj {_} v r /.
#[global] Hint Mode Update + + + : typeclass_instances.

Ltac derive_update :=
  match goal with
  | |- @Update ?R ?T ?proj =>
      let e := constr:(eta : R -> R) in
      let e := eval hnf in e in
      let v := fresh "v" in let r := fresh "r" in
      intros v r;
      let body := eval cbv beta in (e r) in
      let abs := eval pattern (proj r) in body in
      match abs with
      | ?F _ => let u := eval cbv beta in (F v) in exact u
      end
  end.
#[export] Hint Extern 0 (Update _) => derive_update : typeclass_instances.

Declare Scope record_scope.
Notation "r <| f := v |>" := (update f v r)
  (at level 1, left associativity, format "r  <| f  :=  v |>") : record_scope.
Open Scope record_scope.

(** * Machine integers

    An unsigned w-bit integer is a [Z] in [0, 2^w); a signed one a [Z] in
    [-2^(w-1), 2^(w-1)).  [wrap] and [swrap] are the conversions. *)

Definition wrap (w : Z) (z : Z) : Z := z mod 2 ^ w.
Definition swrap (w : Z) (z : Z) : Z :=
  let u := z mod 2 ^ w in if u <? 2 ^ (w - 1) then u else u - 2 ^ w.

Abbreviation u8 := (wrap 8).
Abbreviation u16 := (wrap 16).
Abbreviation u32 := (wrap 32).
Abbreviation u64 := (wrap 64).

Definition is_u (w z : Z) : Prop := 0 <= z < 2 ^ w.
Definition is_s (w z : Z) : Prop := - 2 ^ (w - 1) <= z < 2 ^ (w - 1).

Definition INT_MAX : Z := 2 ^ 31 - 1.
Definition INT_MIN : Z := - 2 ^ 31.
Definition INT64_MAX : Z := 2 ^ 63 - 1.
Definition INT64_MIN : Z := - 2 ^ 63.

Lemma wrap_is_u w z : 0 <= w -> is_u w (wrap w z).
Proof. intros. apply Z.mod_pos_bound, Z.pow_pos_nonneg; lia. Qed.

Lemma wrap_small w z : is_u w z -> wrap w z = z.
Proof. apply Z.mod_small. Qed.

Lemma wrap_wrap w z : 0 <= w -> wrap w (wrap w z) = wrap w z.
Proof. intros. by apply wrap_small, wrap_is_u. Qed.

Lemma swrap_is_s w z : 0 < w -> is_s w (swrap w z).
Proof.
  intros Hw. unfold swrap, is_s.
  pose proof (Z.mod_pos_bound z (2 ^ w) ltac:(apply Z.pow_pos_nonneg; lia)).
  assert (2 ^ w = 2 * 2 ^ (w - 1)) as Hp
    by (rewrite <- Z.pow_succ_r by lia; f_equal; lia).
  destruct (Z.ltb_spec (z mod 2 ^ w) (2 ^ (w - 1))); lia.
Qed.

Lemma land_ones_wrap w z : 0 <= w -> Z.land z (Z.ones w) = wrap w z.
Proof. intros. by apply Z.land_ones. Qed.

(** High bits of a bounded integer are clear, so joining disjoint bit fields
    is an addition. *)
Lemma testbit_high w z n : is_u w z -> 0 <= w <= n -> Z.testbit z n = false.
Proof.
  intros Hz Hn. rewrite <- (wrap_small w z Hz). unfold wrap.
  by apply Z.mod_pow2_bits_high.
Qed.

Lemma land_shiftl_low hi lo k : 0 <= k -> is_u k lo -> Z.land (Z.shiftl hi k) lo = 0.
Proof.
  intros Hk Hlo. apply Z.bits_inj'. intros n Hn.
  rewrite Z.land_spec, Z.bits_0, Z.shiftl_spec by lia.
  destruct (Z.lt_ge_cases n k).
  - by rewrite Z.testbit_neg_r by lia.
  - rewrite (testbit_high k lo) by (done || lia). apply andb_false_r.
Qed.

Lemma lor_shiftl_add hi lo k :
  0 <= k -> is_u k lo -> Z.lor (Z.shiftl hi k) lo = hi * 2 ^ k + lo.
Proof.
  intros Hk Hlo. pose proof (land_shiftl_low hi lo k Hk Hlo) as H0.
  by rewrite <- Z.lxor_lor, <- Z.add_nocarry_lxor, Z.shiftl_mul_pow2 by done.
Qed.

(** Replacing the low [k] bits of [v] by those of [x]. *)
Lemma lor_clear_low v x k :
  0 <= k -> is_u k x -> Z.lor (Z.land v (Z.lnot (Z.ones k))) x = v / 2 ^ k * 2 ^ k + x.
Proof.
  intros Hk Hx. rewrite <- lor_shiftl_add by done. f_equal.
  rewrite <- Z.shiftr_div_pow2 by lia. rewrite <- Z.ldiff_land.
  by rewrite Z.ldiff_ones_r.
Qed.

(** Splitting a positive number of bits off the top. *)
Lemma shiftr_lor_shiftl hi lo k :
  0 <= k -> is_u k lo -> Z.shiftr (Z.lor (Z.shiftl hi k) lo) k = hi.
Proof.
  intros Hk Hlo. rewrite lor_shiftl_add by done.
  rewrite Z.shiftr_div_pow2 by lia. unfold is_u in Hlo.
  rewrite Z.div_add_l by lia. rewrite Z.div_small by lia. lia.
Qed.

Lemma land_ones_lor_shiftl hi lo k :
  0 <= k -> is_u k lo -> Z.land (Z.lor (Z.shiftl hi k) lo) (Z.ones k) = lo.
Proof.
  intros Hk Hlo. rewrite lor_shiftl_add by done. rewrite Z.land_ones by lia.
  unfold is_u in Hlo. rewrite Z.add_comm, Z.mod_add by lia. by apply Z.mod_small.
Qed.

(** * Bytes

    A byte is a [Z] in [0, 256); a [ByteView] or a byte vector is a list of
    them. *)

Definition bytes_ok (bs : list Z) : Prop := Forall (is_u 8) bs.

(** Length of a list as a [Z], as [size()] is used in the code's comparisons. *)
Definition zlen {A} (l : list A) : Z := Z.of_nat (length l).

Lemma zlen_app {A} (l k : list A) : zlen (l ++ k) = zlen l + zlen k.
Proof. unfold zlen. rewrite length_app. lia. Qed.
Lemma zlen_nonneg {A} (l : list A) : 0 <= zlen l.
Proof. unfold zlen. lia. Qed.
Lemma zlen_nil {A} : zlen (@nil A) = 0.
Proof. done. Qed.
Lemma zlen_cons {A} (x : A) l : zlen (x :: l) = 1 + zlen l.
Proof. unfold zlen. simpl length. lia. Qed.

Create HintDb cast.
#[export] Hint Unfold is_u is_s : cast.
Create Rewrite HintDb zlen.
#[export] Hint Resolve zlen_nonneg wrap_is_u : cast.
#[export] Hint Rewrite @zlen_app @zlen_cons @zlen_nil : zlen.

#[global] Arguments Z.add : simpl never.
#[global] Arguments Z.sub : simpl never.
#[global] Arguments Z.mul : simpl never.
#[global] Arguments Z.div : simpl never.
#[global] Arguments Z.modulo : simpl never.
#[global] Arguments Z.quot : simpl never.
#[global] Arguments Z.pow : simpl never.
#[global] Arguments Z.shiftl : simpl never.
#[global] Arguments Z.shiftr : simpl never.
#[global] Arguments Z.land : simpl never.
#[global] Arguments Z.lor : simpl never.
#[global] Arguments Z.of_nat : simpl never.
#[global] Arguments Z.to_nat : simpl never.
#[global] Arguments wrap : simpl never.
#[global] Arguments swrap : simpl never.

(** [case_bool] splits on the boolean test the goal or a hypothesis is stuck
    on, in its propositional form. *)
Ltac case_test b :=
  lazymatch b with
  | ?x =? ?y => destruct (Z.eqb_spec x y)
  | ?x <? ?y => destruct (Z.ltb_spec x y)
  | ?x <=? ?y => destruct (Z.leb_spec x y)
  | negb ?b' => case_test b'
  | ?b1 && ?b2 => case_test b1
  | ?b1 || ?b2 => case_test b1
  | _ => destruct b eqn:?
  end; simpl in *.
Ltac case_bool :=
  match goal with
  | |- context [if ?b then _ else _] =>
      lazymatch type of b with bool => case_test b end
  end.

(** Discharge an [OSP_CHECK] whose condition follows by arithmetic. *)
Lemma OSP_CHECK_leb x y : x <= y -> OSP_CHECK (x <=? y) = Ret tt.
Proof. intros. unfold OSP_CHECK. by rewrite (proj2 (Z.leb_le _ _)). Qed.
Lemma OSP_CHECK_ltb x y : x < y -> OSP_CHECK (x <? y) = Ret tt.
Proof. intros. unfold OSP_CHECK. by rewrite (proj2 (Z.ltb_lt _ _)). Qed.
Lemma OSP_CHECK_eqb x y : x = y -> OSP_CHECK (x =? y) = Ret tt.
Proof. intros ->. unfold OSP_CHECK. by rewrite Z.eqb_refl. Qed.
Lemma OSP_CHECK_neqb x y : x <> y -> OSP_CHECK (negb (x =? y)) = Ret tt.
Proof. intros. unfold OSP_CHECK. by rewrite (proj2 (Z.eqb_neq _ _)). Qed.

(** * Sorted lists *)

Lemma StronglySorted_related {A} (R : A -> A -> Prop) l a b :
  StronglySorted R l -> a ∈ l -> b ∈ l -> a = b \/ R a b \/ R b a.
Proof.
  induction 1 as [| x l Hs IH Hall]; [intros []%not_elem_of_nil |].
  rewrite Forall_forall in Hall. rewrite !elem_of_cons. intros [-> | Ha] [-> | Hb]; auto.
Qed.

Lemma StronglySorted_impl {A} (R S : A -> A -> Prop) l :
  StronglySorted R l -> (forall a b, R a b -> S a b) -> StronglySorted S l.
Proof.
  intros Hs Himpl. induction Hs as [| x l Hs IH Hall]; constructor; [done |].
  eapply Forall_impl; [exact Hall | auto].
Qed.

(** A strictly increasing list is determined by its elements. *)
Lemma StronglySorted_lt_ext (l k : list Z) :
  StronglySorted Z.lt l -> StronglySorted Z.lt k -> (forall x, x ∈ l <-> x ∈ k) -> l = k.
Proof.
  intros Hl. revert k. induction Hl as [| x l Hl IH Hx]; intros k Hk Heq.
  - destruct k as [| y k]; [done |]. exfalso. apply (not_elem_of_nil y), Heq, list_elem_of_here.
  - destruct k as [| y k].
    { exfalso. apply (not_elem_of_nil x), Heq, list_elem_of_here. }
    inversion Hk as [| ? ? Hk' Hy]; subst. rewrite Forall_forall in Hx, Hy.
    assert (x = y) as <-.
    { pose proof (proj1 (Heq x) (list_elem_of_here _ _)) as Hxk.
      pose proof (proj2 (Heq y) (list_elem_of_here _ _)) as Hyl.
      apply elem_of_cons in Hxk as [-> | Hxk]; [done |].
      apply elem_of_cons in Hyl as [-> | Hyl]; [done |].
      apply Hy in Hxk. apply Hx in Hyl. lia. }
    f_equal. apply IH; [done |]. intros z. specialize (Heq z). rewrite !elem_of_cons in Heq.
    split; intros Hz.
    + destruct (proj1 Heq (or_intror Hz)) as [-> | ?]; [| done]. apply Hx in Hz. lia.
    + destruct (proj2 Heq (or_intror Hz)) as [-> | ?]; [| done]. apply Hy in Hz. lia.
Qed.

Lemma StronglySorted_lt_app (l k : list Z) m :
  StronglySorted Z.lt l -> StronglySorted Z.lt k ->
  Forall (fun x => x < m) l -> Forall (fun x => m <= x) k -> StronglySorted Z.lt (l ++ k).
Proof.
  intros Hl Hk Hlm Hkm. induction Hl as [| x l Hl IH Hx]; [done |].
  apply Forall_cons in Hlm as [Hxm Hlm]. simpl. constructor; [auto |].
  apply Forall_app. split; [done |]. eapply Forall_impl; [exact Hkm |]. simpl. lia.
Qed.

Lemma filter_all {A} (P : A -> Prop) `{!forall x, Decision (P x)} l : Forall P l -> filter P l = l.
Proof. induction 1 as [| x l Hx _ IH]; [done |]. by rewrite filter_cons_True, IH. Qed.

Lemma StronglySorted_filter {A} (R : A -> A -> Prop) (P : A -> Prop)
    `{!forall x, Decision (P x)} l :
  StronglySorted R l -> StronglySorted R (filter P l).
Proof.
  induction 1 as [| x l Hs IH Hx]; [constructor |]. rewrite filter_cons.
  destruct (decide (P x)); [| done]. constructor; [done |].
  rewrite Forall_forall in Hx. apply Forall_forall. intros y [_ Hy]%list_elem_of_filter. auto.
Qed.

(** Closed sortedness and element-wise goals, down to arithmetic. *)
Ltac solve_list :=
  repeat first [apply SSorted_nil | apply SSorted_cons | apply List.Forall_nil
               | apply List.Forall_cons].
