(* ===== verification/Text.v ===== *)
(** Text: strings of the C++ standard library as lists of characters, with the
    searches, [std::from_chars] and the printing of numbers that the code uses,
    and errors with a message (platform/base/error.h). *)

From Stdlib Require Export Ascii.
From Stdlib Require String.
From S2P Require Import Prelude.

Notation str := (list ascii).
#[export] Instance ascii_eq_dec : EqDecision ascii := ascii_dec.

(** A literal. *)
Definition lit (s : string) : str := String.list_ascii_of_string s.
Arguments lit s%_string.

(** * Errors *)

Inductive ErrorCode := kParseError | kParameterInvalid | kInvalidIPV4Address | kInvalidIPV6Address
  | kIndexOutOfBounds | kMdnsReadFailure | kMdnsNonConformingFailure | kInsufficientBuffer
  | kNone | kAgain | kSocketClosedFailure | kNoActiveConnection | kAlreadyClosed | kCastV2InvalidMessage
  | kItemNotFound | kJsonParseError | kUnencryptedOffer | kUnknownCodec | kInvalidCodecParameter.
#[export] Instance ErrorCode_eq_dec : EqDecision ErrorCode.
Proof. solve_decision. Defined.
Record Error := mkError { error_code : ErrorCode; message : str }.

Inductive ErrorOr (A : Type) : Type :=
  | ok (a : A)
  | err (e : Error).
Arguments ok {A} a.
Arguments err {A} e.

#[export] Instance ErrorOr_ret : MRet ErrorOr := fun A => @ok A.
#[export] Instance ErrorOr_bind : MBind ErrorOr := fun A B f m =>
  match m with ok a => f a | err e => err e end.

(** * Characters and searches *)

Definition char_code (c : ascii) : Z := Z.of_N (N_of_ascii c).

Definition find_char (c : ascii) (s : str) : option nat := fst <$> list_find (c =.) s.
Definition rfind_char (c : ascii) (s : str) : option nat :=
  (fun i => (length s - 1 - i)%nat) <$> find_char c (reverse s).

Fixpoint starts_with (prefix s : str) : bool :=
  match prefix, s with
  | [], _ => true
  | c :: prefix, d :: s => bool_decide (c = d) && starts_with prefix s
  | _ :: _, [] => false
  end.
Definition ends_with (suffix s : str) : bool := starts_with (reverse suffix) (reverse s).

(** The first and last place where [pattern] occurs. *)
Fixpoint find_str (pattern s : str) : option nat :=
  if starts_with pattern s then Some 0%nat
  else match s with [] => None | _ :: s => S <$> find_str pattern s end.
Fixpoint rfind_str (pattern s : str) : option nat :=
  match s with
  | [] => if starts_with pattern s then Some 0%nat else None
  | _ :: s' => match rfind_str pattern s' with
               | Some i => Some (S i)
               | None => if starts_with pattern s then Some 0%nat else None
               end
  end.

Definition substr (pos n : nat) (s : str) : str := take n (drop pos s).
Definition count_char (c : ascii) (s : str) : Z := zlen (filter (c =.) s).

(** * Numbers *)

Definition digit_value (base : Z) (c : ascii) : option Z :=
  let k := char_code c in
  let d := if (48 <=? k) && (k <=? 57) then k - 48
           else if (97 <=? k) && (k <=? 122) then k - 87
           else if (65 <=? k) && (k <=? 90) then k - 55 else 36 in
  if d <? base then Some d else None.

Definition digits_value (base : Z) (ds : list Z) : Z := foldl (fun a d => a * base + d) 0 ds.

Fixpoint take_digits (base : Z) (s : str) : list Z * str :=
  match s with
  | [] => ([], [])
  | c :: s' => match digit_value base c with
               | Some d => let '(ds, rest) := take_digits base s' in (d :: ds, rest)
               | None => ([], s)
               end
  end.

(** [std::from_chars] into an unsigned type with greatest value [limit]: the
    number and what follows it, or nothing when it reports an error (no digit,
    or out of range). *)
Definition from_chars (base limit : Z) (s : str) : option (Z * str) :=
  match take_digits base s with
  | ([], _) => None
  | (ds, rest) => if digits_value base ds <=? limit then Some (digits_value base ds, rest) else None
  end.

(** [std::from_chars] into an [int]. *)
Definition from_chars_int (s : str) : option (Z * str) :=
  match s with
  | "-"%char :: s' => '(v, rest) ← from_chars 10 (INT_MAX + 1) s'; Some (- v, rest)
  | _ => from_chars 10 INT_MAX s
  end.

Definition digit_char (d : Z) : ascii := ascii_of_N (Z.to_N (if d <? 10 then 48 + d else 87 + d)).

Fixpoint print_loop (fuel : nat) (base n : Z) (acc : list Z) : list Z :=
  match fuel with
  | O => acc
  | S fuel => let acc := n mod base :: acc in
              if n <? base then acc else print_loop fuel base (n / base) acc
  end.

(** The digits of a number, most significant first. *)
Definition digits (base n : Z) : list Z := print_loop (Z.to_nat (Z.log2 n) + 1) base n [].
Definition print_number (base n : Z) : str := map digit_char (digits base n).
Definition to_string (n : Z) : str := print_number 10 n.

(** [std::setw] and [std::setfill('0')]. *)
Definition pad_left (width : nat) (s : str) : str := replicate (width - length s) "0"%char ++ s.

(** * Lemmas *)

Definition digits_ok (base : Z) (ds : list Z) : Prop := Forall (fun d => 0 <= d < base) ds.

Lemma digits_value_snoc base ds d : digits_value base (ds ++ [d]) = digits_value base ds * base + d.
Proof. unfold digits_value. by rewrite foldl_app. Qed.

Lemma foldl_digits base acc ds :
  foldl (fun a d => a * base + d) acc ds = acc * base ^ zlen ds + digits_value base ds.
Proof.
  induction ds as [| d ds IH] using rev_ind; [rewrite zlen_nil; cbn; lia |].
  rewrite foldl_app, digits_value_snoc, zlen_app. change (zlen [d]) with 1. cbn [foldl].
  rewrite IH, Z.pow_add_r by (apply zlen_nonneg || done). rewrite Z.pow_1_r. lia.
Qed.

Lemma digits_value_app base a b :
  digits_value base (a ++ b) = digits_value base a * base ^ zlen b + digits_value base b.
Proof. unfold digits_value at 1. by rewrite foldl_app, foldl_digits. Qed.

Lemma digits_value_nonneg base ds : 0 <= base -> digits_ok base ds -> 0 <= digits_value base ds.
Proof.
  intros Hb. induction ds as [| d ds IH] using rev_ind; [done |].
  intros [Hds Hd]%Forall_app. inversion_clear Hd.
  rewrite digits_value_snoc. specialize (IH Hds). nia.
Qed.

Lemma digits_value_zeros base n ds : digits_value base (replicate n 0 ++ ds) = digits_value base ds.
Proof.
  induction n as [| n IH]; [done |]. cbn [replicate app]. unfold digits_value in *. cbn [foldl]. exact IH.
Qed.

Lemma print_loop_spec base fuel n acc :
  2 <= base -> 0 <= n < base ^ Z.of_nat fuel -> (0 < fuel)%nat ->
  exists ds, print_loop fuel base n acc = ds ++ acc /\ digits_ok base ds
    /\ digits_value base ds = n /\ ds <> [].
Proof.
  intros Hb. revert n acc. induction fuel as [| fuel IH]; intros n acc Hn Hf; [lia |].
  cbn [print_loop]. pose proof (Z.mod_pos_bound n base ltac:(lia)) as Hm.
  destruct (Z.ltb_spec n base) as [Hlt | Hge].
  - exists [n]. rewrite Z.mod_small by lia. split; [done |]. split; [apply Forall_singleton; lia | done].
  - assert (0 <= n / base < base ^ Z.of_nat fuel) as Hq.
    { split; [apply Z.div_pos; lia |]. apply Z.div_lt_upper_bound; [lia |].
      rewrite Nat2Z.inj_succ, Z.pow_succ_r in Hn by lia. lia. }
    destruct fuel as [| fuel']; [cbn in Hq; assert (1 <= n / base) by (apply Z.div_le_lower_bound; lia); lia |].
    destruct (IH (n / base) (n mod base :: acc) Hq ltac:(lia)) as (ds & -> & Hds & Hv & Hne).
    exists (ds ++ [n mod base]). split; [by rewrite <- app_assoc |]. split.
    + apply Forall_app. split; [done | by apply Forall_singleton].
    + rewrite digits_value_snoc, Hv. split; [| by destruct ds].
      pose proof (Z.div_mod n base ltac:(lia)). lia.
Qed.

Lemma digits_spec base n :
  2 <= base -> 0 <= n ->
  digits_ok base (digits base n) /\ digits_value base (digits base n) = n /\ digits base n <> [].
Proof.
  intros Hb Hn. unfold digits.
  destruct (print_loop_spec base (Z.to_nat (Z.log2 n) + 1) n [] Hb) as (ds & E & H).
  - split; [done |]. pose proof (Z.log2_nonneg n).
    replace (Z.of_nat (Z.to_nat (Z.log2 n) + 1)) with (Z.succ (Z.log2 n)) by lia.
    apply Z.lt_le_trans with (2 ^ Z.succ (Z.log2 n)); [| apply Z.pow_le_mono_l; lia].
    destruct (Z.eq_dec n 0) as [-> | ?]; [done | apply Z.log2_spec; lia].
  - lia.
  - by rewrite E, app_nil_r.
Qed.

(** What is not a digit ends a number. *)
Definition stops (base : Z) (s : str) : Prop :=
  match s with [] => True | c :: _ => digit_value base c = None end.

Lemma digit_value_char base d : 0 <= d < base -> base <= 36 -> digit_value base (digit_char d) = Some d.
Proof.
  intros Hd Hb. unfold digit_value, digit_char, char_code.
  rewrite N_ascii_embedding by (case_match; lia). rewrite Z2N.id by (case_match; lia).
  destruct (Z.ltb_spec d 10) as [Hlt | Hge].
  - replace ((48 <=? 48 + d) && (48 + d <=? 57)) with true by lia. case_match; [f_equal; lia | lia].
  - replace ((48 <=? 87 + d) && (87 + d <=? 57)) with false by lia.
    replace ((97 <=? 87 + d) && (87 + d <=? 122)) with true by lia. case_match; [f_equal; lia | lia].
Qed.

Lemma take_digits_app base ds rest :
  digits_ok base ds -> base <= 36 -> stops base rest ->
  take_digits base (map digit_char ds ++ rest) = (ds, rest).
Proof.
  intros Hds Hb Hr. induction Hds as [| d ds Hd _ IH].
  - destruct rest as [| c rest]; [done |]. cbn in *. by rewrite Hr.
  - cbn [map app take_digits]. rewrite digit_value_char by done. by rewrite IH.
Qed.

Lemma from_chars_digits base limit ds rest :
  digits_ok base ds -> base <= 36 -> stops base rest -> ds <> [] -> digits_value base ds <= limit ->
  from_chars base limit (map digit_char ds ++ rest) = Some (digits_value base ds, rest).
Proof.
  intros Hds Hb Hr Hne Hl. unfold from_chars. rewrite take_digits_app by done.
  destruct ds; [done |]. by rewrite (proj2 (Z.leb_le _ _)).
Qed.

Lemma from_chars_print base limit n rest :
  2 <= base <= 36 -> 0 <= n <= limit -> stops base rest ->
  from_chars base limit (print_number base n ++ rest) = Some (n, rest).
Proof.
  intros Hb Hn Hr. destruct (digits_spec base n ltac:(lia) ltac:(lia)) as (Hds & Hv & Hne).
  unfold print_number. rewrite from_chars_digits by (done || lia). by rewrite Hv.
Qed.

Lemma pad_left_digits width ds :
  pad_left width (map digit_char ds) = map digit_char (replicate (width - length ds) 0 ++ ds).
Proof. unfold pad_left. rewrite map_app, length_map. f_equal. by induction (width - length ds)%nat; cbn; f_equal. Qed.

Lemma print_first base n : 2 <= base <= 36 -> 0 <= n ->
  exists d ds, print_number base n = digit_char d :: map digit_char ds /\ 0 <= d < base.
Proof.
  intros Hb Hn. destruct (digits_spec base n ltac:(lia) Hn) as (Hds & _ & Hne). unfold print_number.
  destruct (digits base n) as [| d ds]; [done |]. exists d, ds. split; [done |]. by inversion Hds.
Qed.

Lemma find_char_app c a b : c ∉ a -> find_char c (a ++ c :: b) = Some (length a).
Proof.
  intros Hc. unfold find_char. rewrite list_find_app_r.
  - cbn. rewrite decide_True by done. done.
  - apply list_find_None, Forall_forall. by intros x Hx ->.
Qed.

Lemma find_char_None c s : c ∉ s -> find_char c s = None.
Proof. intros Hc. unfold find_char. rewrite (proj2 (list_find_None _ _)); [done |]. apply Forall_forall. by intros x Hx ->. Qed.

Lemma rfind_char_app c a b : c ∉ b -> rfind_char c (a ++ c :: b) = Some (length a).
Proof.
  intros Hc. unfold rfind_char. rewrite reverse_app, reverse_cons, <- app_assoc. cbn [app].
  rewrite find_char_app by (by rewrite elem_of_reverse). cbn. rewrite length_app, length_reverse. cbn. f_equal. lia.
Qed.
