(* ===== verification/Numeric.v ===== *)
(** Integer and floating-point helpers of util/: saturating casts, divisions
    that round up or to nearest, field bitmasks, and the double-precision
    conversions between RTP ticks and clock durations. *)

From Stdlib Require Import SpecFloat.
From S2P Require Import Prelude.

(** * saturate_cast (util/saturate_cast.h) *)

(** Cases 1 to 3, by the limits of the target type. *)
Definition saturate_same_sign (lo hi from : Z) : Z :=
  if from <=? lo then lo else if hi <=? from then hi else from.
Definition saturate_signed_to_unsigned (hi from : Z) : Z :=
  if from <=? 0 then 0 else if hi <=? from then hi else from.
Definition saturate_unsigned_to_signed (hi from : Z) : Z :=
  if hi <=? from then hi else from.

Definition saturate_int32 : Z -> Z := saturate_same_sign INT_MIN INT_MAX.
Definition saturate_uint8 : Z -> Z := saturate_signed_to_unsigned 255.

Lemma saturate_same_sign_clamp lo hi x :
  lo <= hi -> saturate_same_sign lo hi x = Z.max lo (Z.min hi x).
Proof.
  intros. unfold saturate_same_sign.
  destruct (Z.leb_spec x lo), (Z.leb_spec hi x); lia.
Qed.

Lemma saturate_int32_range x : is_s 32 (saturate_int32 x).
Proof.
  unfold saturate_int32. rewrite saturate_same_sign_clamp by done.
  unfold is_s, INT_MIN, INT_MAX. lia.
Qed.

Lemma saturate_uint8_clamp x : saturate_uint8 x = Z.max 0 (Z.min 255 x).
Proof.
  unfold saturate_uint8, saturate_signed_to_unsigned.
  destruct (Z.leb_spec x 0), (Z.leb_spec 255 x); lia.
Qed.

(** * Double-precision arithmetic

    IEEE 754 binary64 with rounding to nearest even, as [SpecFloat] defines
    it. *)

Definition double := spec_float.
Definition double_of_Z (z : Z) : double := binary_normalize 53 1024 z 0 false.
Definition ddiv : double -> double -> double := SFdiv 53 1024.
Definition dmul : double -> double -> double := SFmul 53 1024.
Definition dadd : double -> double -> double := SFadd 53 1024.
Definition dsub : double -> double -> double := SFsub 53 1024.
Definition dgeb (a b : double) : bool := SFleb b a.
Definition dleb (a b : double) : bool := SFleb a b.

(** Conversion of a finite double to the integer it truncates to, and
    [lround]: to nearest, halves away from zero. *)
Definition double_trunc (d : double) : Z :=
  match d with
  | S754_finite s m e =>
      let a := if 0 <=? e then Zpos m * 2 ^ e else Zpos m / 2 ^ (- e) in
      if s then - a else a
  | _ => 0
  end.
Definition lround (d : double) : Z :=
  match d with
  | S754_finite s m e =>
      let a := if 0 <=? e then Zpos m * 2 ^ e
               else (Zpos m + 2 ^ (- e - 1)) / 2 ^ (- e) in
      if s then - a else a
  | _ => 0
  end.

(** Case 4 for a signed target of [digits] value bits, and its rounding
    variant. *)
Definition saturate_double (digits : Z) (from : double) : Z :=
  let kMaxIntPlusOne := dmul (double_of_Z (2 ^ (digits - 1))) (double_of_Z 2) in
  let kMaxInt := dsub kMaxIntPlusOne (double_of_Z 1) in
  if dgeb from kMaxInt then 2 ^ digits - 1
  else if dleb from (SFopp kMaxIntPlusOne) then - 2 ^ digits
  else double_trunc from.
Definition rounded_saturate_int64 (from : double) : Z :=
  let saturated := saturate_double 63 from in
  if (saturated =? INT64_MIN) || (saturated =? INT64_MAX) then saturated
  else lround from.

Example rounded_saturate_examples :
  rounded_saturate_int64 (ddiv (double_of_Z (-5)) (double_of_Z 2)) = -3
  /\ rounded_saturate_int64 (double_of_Z (2 ^ 70)) = INT64_MAX
  /\ rounded_saturate_int64 (double_of_Z (- 2 ^ 63)) = INT64_MIN.
Proof. vm_compute. auto. Qed.

(** * Rounding divisions (util/integer_division.h)

    [Z.quot] is the truncating division of C++. *)

Definition DivideRoundingUp (num denom : Z) : Z :=
  let '(num, denom) := if denom <? 0 then (- num, - denom) else (num, denom) in
  if num <? 0 then Z.quot num denom else Z.quot (num + denom - 1) denom.

(** The [unsigned int] instance, used for [int] arguments: the sum wraps. *)
Definition DividePositivesRoundingUp (num denom : Z) : Z :=
  u32 (u32 (u32 num + u32 denom) - 1) / u32 denom.

Definition DivideRoundingNearest (num denom : Z) : Z :=
  let '(num, denom) := if denom <? 0 then (- num, - denom) else (num, denom) in
  if num <? 0 then Z.quot (num - Z.quot (denom - 1) 2) denom
  else Z.quot (num + Z.quot denom 2) denom.

Lemma ceil_div_spec n d q :
  0 <= n -> 0 < d -> q = (n + d - 1) / d -> n <= q * d < n + d.
Proof. intros Hn Hd ->. Z.div_mod_to_equations. nia. Qed.

Lemma DividePositivesRoundingUp_eq num denom :
  0 <= num -> 0 < denom -> num + denom < 2 ^ 32 ->
  DividePositivesRoundingUp num denom = (num + denom - 1) / denom.
Proof.
  intros. unfold DividePositivesRoundingUp.
  rewrite (wrap_small 32 num), (wrap_small 32 denom) by (unfold is_u; lia).
  rewrite (wrap_small 32 (num + denom)) by (unfold is_u; lia).
  by rewrite wrap_small by (unfold is_u; lia).
Qed.

Lemma ceil_quot_pos n d :
  0 < d ->
  let q := if n <? 0 then Z.quot n d else Z.quot (n + d - 1) d in
  (q - 1) * d < n <= q * d.
Proof.
  intros Hd. cbv zeta. destruct (Z.ltb_spec n 0).
  - assert (exists m, n = - m /\ 0 < m) as (m & -> & Hm) by (exists (- n); lia).
    rewrite Z.quot_opp_l, Z.quot_div_nonneg by lia.
    pose proof (Z.div_mod m d ltac:(lia)). pose proof (Z.mod_pos_bound m d Hd). nia.
  - rewrite Z.quot_div_nonneg by lia.
    pose proof (Z.div_mod (n + d - 1) d ltac:(lia)).
    pose proof (Z.mod_pos_bound (n + d - 1) d Hd). nia.
Qed.

(** The result is the least integer not below the quotient, for any signs. *)
Lemma DivideRoundingUp_ceil num denom :
  denom <> 0 ->
  let q := DivideRoundingUp num denom in
  if 0 <? denom then (q - 1) * denom < num <= q * denom
  else q * denom <= num < (q - 1) * denom.
Proof.
  intros Hd. unfold DivideRoundingUp.
  destruct (Z.ltb_spec denom 0) as [Hn | Hn].
  - rewrite (proj2 (Z.ltb_ge 0 denom)) by lia. cbv beta iota zeta.
    pose proof (ceil_quot_pos (- num) (- denom) ltac:(lia)) as H. cbv zeta in H. nia.
  - rewrite (proj2 (Z.ltb_lt 0 denom)) by lia. cbv beta iota zeta.
    pose proof (ceil_quot_pos num denom ltac:(lia)) as H. cbv zeta in H. lia.
Qed.

(** * FieldBitmask (cast/streaming/impl/packet_util.h) *)

Definition FieldBitmask (field_size_in_bits : Z) : Z :=
  Z.shiftl 1 field_size_in_bits - 1.

Lemma FieldBitmask_ones k : 0 <= k -> FieldBitmask k = Z.ones k.
Proof.
  intros. unfold FieldBitmask. rewrite Z.ones_equiv, Z.shiftl_mul_pow2 by done. lia.
Qed.
