(* ===== verification/Doubles.v ===== *)
(** Facts about the binary64 arithmetic of Numeric.v: what truncating the
    product of an integer and a constant gives. *)

From Stdlib Require Import SpecFloat.
From S2P Require Import Prelude Numeric.

Lemma shr_1_m r : 0 <= shr_m r -> shr_m (shr_1 r) = shr_m r / 2.
Proof.
  destruct r as [[| [p | p |] | p] b c]; cbn [shr_m shr_1]; intros; try done; try lia.
  - rewrite Pos2Z.inj_xI. apply Z.div_unique with 1; lia.
  - rewrite Pos2Z.inj_xO, Z.mul_comm. symmetry. by apply Z.div_mul.
Qed.

Lemma iter_shr_m p : forall r, 0 <= shr_m r -> shr_m (SpecFloat.iter_pos shr_1 p r) = shr_m r / 2 ^ Zpos p.
Proof.
  assert (Hs : forall r, 0 <= shr_m r -> 0 <= shr_m (shr_1 r)).
  { intros r Hr. rewrite shr_1_m by done. by apply Z.div_pos. }
  assert (Hdiv : forall a p, 0 <= a -> 0 <= a / 2 ^ Zpos p) by (intros; apply Z.div_pos; lia).
  induction p as [p IH | p IH |]; intros r Hr; cbn [SpecFloat.iter_pos].
  - rewrite IH, IH, shr_1_m by (rewrite ?IH; auto).
    rewrite !Z.div_div by lia. f_equal. rewrite Pos2Z.inj_xI.
    replace (2 * Zpos p + 1) with (1 + Zpos p + Zpos p) by lia. rewrite !Z.pow_add_r by lia. ring.
  - rewrite IH, IH by (rewrite ?IH; auto).
    rewrite Z.div_div by lia. f_equal. rewrite Pos2Z.inj_xO, <- Z.pow_add_r by lia. f_equal. lia.
  - by rewrite shr_1_m.
Qed.

Lemma Zdigits2_log2 m : 0 < m -> Zdigits2 m = Z.log2 m + 1.
Proof.
  destruct m as [| p | p]; try lia. intros _. cbn [Zdigits2].
  induction p as [p IH | p IH |]; cbn [digits2_pos]; [| | done].
  - rewrite Pos2Z.inj_succ, IH, Pos2Z.inj_xI, Z.log2_succ_double by lia. lia.
  - rewrite Pos2Z.inj_succ, IH, Pos2Z.inj_xO, Z.log2_double by lia. lia.
Qed.

Lemma round_nearest_near m l : m <= round_nearest_even m l <= m + 1.
Proof. unfold round_nearest_even. repeat case_match; lia. Qed.

Lemma fexp_normal e : -1021 <= e -> fexp 53 1024 e = e - 53.
Proof. unfold fexp, emin. lia. Qed.

(** How many bits are rounded off a mantissa. *)
Definition excess_bits (m : Z) : Z := Z.max 0 (Z.log2 m - 52).

Lemma shr_fexp_m m e :
  0 < m -> -1022 <= Z.log2 m + e ->
  shr_m (shr_fexp 53 1024 m e loc_Exact).1 = m / 2 ^ excess_bits m /\
  (shr_fexp 53 1024 m e loc_Exact).2 = e + excess_bits m.
Proof.
  intros Hm He. unfold shr_fexp. rewrite Zdigits2_log2, fexp_normal by lia.
  replace (Z.log2 m + 1 + e - 53 - e) with (Z.log2 m - 52) by lia. unfold excess_bits, shr.
  destruct (Z.log2 m - 52) as [| p | p] eqn:E.
  - rewrite Z.max_id, Z.pow_0_r, Z.div_1_r, Z.add_0_r. done.
  - rewrite Z.max_r by lia. cbn [fst snd]. by rewrite iter_shr_m by (cbn; lia).
  - rewrite Z.max_l by lia. rewrite Z.pow_0_r, Z.div_1_r, Z.add_0_r. done.
Qed.

(** Rounding a positive number gives a neighbour of what is left of its
    mantissa. *)
Lemma round_positive m e :
  0 < m -> -1022 <= Z.log2 m + e -> e + excess_bits m < 971 ->
  exists q m' e', m / 2 ^ excess_bits m <= q <= m / 2 ^ excess_bits m + 1 /\ (excess_bits m = 0 -> q = m) /\
    binary_round_aux 53 1024 false m e loc_Exact = S754_finite false m' e' /\
    (e' = e + excess_bits m /\ q = Zpos m' \/ e' = e + excess_bits m + 1 /\ q = 2 * Zpos m' /\ q = 2 ^ 53).
Proof.
  intros Hm He Hmax. unfold binary_round_aux. destruct (shr_fexp_m m e Hm He) as [E1 E2].
  pose proof (Z.log2_nonneg m) as Hl.
  set (k := excess_bits m) in *. assert (Hk : 0 <= k) by (unfold k, excess_bits; lia).
  assert (Hbits : 1 <= m / 2 ^ k < 2 ^ 53).
  { pose proof (Z.log2_spec m Hm) as [Hlo Hhi]. split.
    - apply Z.div_le_lower_bound; [lia |]. rewrite Z.mul_1_r. etransitivity; [| exact Hlo].
      apply Z.pow_le_mono_r; [lia |]. unfold k, excess_bits. lia.
    - apply Z.div_lt_upper_bound; [lia |]. rewrite <- Z.pow_add_r by lia. eapply Z.lt_le_trans; [exact Hhi |].
      apply Z.pow_le_mono_r; [lia |]. unfold k, excess_bits. lia. }
  assert (Hk0 : k = 0 -> shr_fexp 53 1024 m e loc_Exact = (Build_shr_record m false false, e)).
  { intros Hk'. unfold shr_fexp. rewrite Zdigits2_log2, fexp_normal by lia.
    unfold k, excess_bits in Hk'. unfold shr. by destruct (Z.log2 m + 1 + e - 53 - e) eqn:?; try lia. }
  destruct (shr_fexp 53 1024 m e loc_Exact) as [r e1]. cbn [fst snd] in E1, E2. subst e1.
  pose proof (round_nearest_near (shr_m r) (loc_of_shr_record r)) as Hq.
  assert (Hq0 : k = 0 -> round_nearest_even (shr_m r) (loc_of_shr_record r) = m).
  { intros Hk'. by injection (Hk0 Hk') as -> _. }
  set (q := round_nearest_even _ _) in *. rewrite E1 in Hq. clearbody q.
  assert (Hlog : Z.log2 q <= 53).
  { apply Z.lt_succ_r. apply Z.log2_lt_pow2; lia. }
  pose proof (Z.log2_nonneg q).
  assert (Hmk : Z.log2 m + e <= 52 + e + k) by (unfold k, excess_bits; lia).
  assert (Hqe : -1022 <= Z.log2 q + (e + k)).
  { destruct (Z.eq_dec k 0) as [Hz | Hz]; [rewrite Hq0 by done; lia |].
    assert (52 <= Z.log2 q); [| lia].
    apply Z.log2_le_pow2; [lia |]. etransitivity; [| apply Hq]. apply Z.div_le_lower_bound; [lia |].
    rewrite <- Z.pow_add_r by lia. etransitivity; [| apply (Z.log2_spec m Hm)].
    apply Z.pow_le_mono_r; [lia |]. unfold k, excess_bits in *. lia. }
  destruct (shr_fexp_m q (e + k)) as [F1 F2]; [lia | done |].
  destruct (shr_fexp 53 1024 q (e + k) loc_Exact) as [r' e2]. cbn [fst snd] in F1, F2. subst e2. rewrite F1.
  unfold excess_bits at 1 2 3. destruct (Z.eq_dec (Z.log2 q) 53) as [E53 | N53].
  - assert (2 ^ 53 <= q) by (apply Z.log2_le_pow2; lia). assert (q = 2 ^ 53) as -> by lia.
    exists (2 ^ 53), (2 ^ 52)%positive, (e + k + 1). split; [exact Hq |]. split; [exact Hq0 |].
    change (Z.log2 (2 ^ 53)) with 53. change (Z.max 0 (53 - 52)) with 1. change (2 ^ 53 / 2 ^ 1) with (Zpos (2 ^ 52)).
    cbn match. rewrite (proj2 (Z.leb_le _ _)) by lia. split; [done |]. right. done.
  - rewrite Z.max_l by lia. rewrite Z.pow_0_r, Z.div_1_r, Z.add_0_r.
    destruct q as [| p | p]; try lia. exists (Zpos p), p, (e + k). split; [exact Hq |]. split; [exact Hq0 |].
    rewrite (proj2 (Z.leb_le _ _)) by lia. split; [done |]. by left.
Qed.

(** An integer of at most 53 bits is represented exactly. *)
Lemma double_of_Z_exact z :
  0 < z < 2 ^ 53 -> exists m, double_of_Z z = S754_finite false m (Z.log2 z - 52) /\ Zpos m = z * 2 ^ (52 - Z.log2 z).
Proof.
  intros Hz. destruct z as [| p | p]; try lia. unfold double_of_Z, binary_normalize, binary_round.
  pose proof (Z.log2_nonneg (Zpos p)). assert (Z.log2 (Zpos p) <= 52) by (apply Z.lt_succ_r, Z.log2_lt_pow2; lia).
  change (Zpos (digits2_pos p)) with (Zdigits2 (Zpos p)). rewrite Zdigits2_log2, fexp_normal by lia.
  unfold shl_align. replace (Z.log2 (Zpos p) + 1 + 0 - 53 - 0) with (Z.log2 (Zpos p) - 52) by lia.
  replace (Z.log2 (Zpos p) + 1 + 0 - 53) with (Z.log2 (Zpos p) - 52) by lia.
  assert (exists m, (match Z.log2 (Zpos p) - 52 with
    | Zneg d => (Pos.iter xO p d, Z.log2 (Zpos p) - 52) | _ => (p, 0) end) = (m, Z.log2 (Zpos p) - 52) /\
    Zpos m = Zpos p * 2 ^ (52 - Z.log2 (Zpos p))) as (m & -> & Hm).
  { destruct (Z.log2 (Zpos p) - 52) as [| d | d] eqn:E; [| lia |].
    - exists p. split; [done |]. replace (52 - _) with 0 by lia. lia.
    - eexists. split; [done |]. replace (52 - Z.log2 (Zpos p)) with (Zpos d) by lia.
      clear. induction d as [| d IH] using Pos.peano_ind; [cbn; lia |].
      rewrite Pos.iter_succ, Pos2Z.inj_succ, Z.pow_succ_r, Pos2Z.inj_xO, IH by lia. ring. }
  assert (Hl : Z.log2 (Zpos m) = 52) by (rewrite Hm, Z.log2_mul_pow2 by lia; lia).
  assert (Hk : excess_bits (Zpos m) = 0) by (unfold excess_bits; lia).
  destruct (round_positive (Zpos m) (Z.log2 (Zpos p) - 52)) as (q & m' & e' & _ & Hq & -> & Hcase); [lia | lia | lia |].
  specialize (Hq Hk). rewrite Hk in Hcase. exists m. destruct Hcase as [[-> ->] | (-> & _ & ->)].
  - split; [| done]. injection Hq as ->. f_equal. lia.
  - rewrite <- Hq in Hl. by rewrite Z.log2_pow2 in Hl.
Qed.

(** Truncating the product of an integer of 31 bits and a constant: the exact
    product, up to an error that only matters next to an integer. *)
Lemma trunc_product z mc ec :
  0 < z < 2 ^ 31 -> 2 ^ 52 <= Zpos mc < 2 ^ 53 -> -60 <= ec <= -52 ->
  z * Zpos mc / 2 ^ (- ec) <= double_trunc (dmul (double_of_Z z) (S754_finite false mc ec))
    <= (z * Zpos mc + 2 ^ 31) / 2 ^ (- ec).
Proof.
  intros Hz Hmc Hec. destruct (double_of_Z_exact z) as (m & -> & Hm); [lia |].
  assert (0 <= Z.log2 z <= 30) by (split; [apply Z.log2_nonneg | apply Z.lt_succ_r, Z.log2_lt_pow2; lia]).
  set (E := Z.log2 z - 52) in *. unfold dmul, SFmul. cbn [xorb].
  assert (Hl : Z.log2 (Zpos m) = 52) by (rewrite Hm, Z.log2_mul_pow2 by lia; lia).
  assert (Hlc : Z.log2 (Zpos mc) = 52) by (by apply Z.log2_unique; [lia |]).
  assert (HL : 104 <= Z.log2 (Zpos (m * mc)) <= 105).
  { rewrite Pos2Z.inj_mul. pose proof (Z.log2_mul_below (Zpos m) (Zpos mc)).
    pose proof (Z.log2_mul_above (Zpos m) (Zpos mc)). lia. }
  set (k := excess_bits (Zpos (m * mc))). assert (Hk : 52 <= k <= 53) by (unfold k, excess_bits; lia).
  destruct (round_positive (Zpos (m * mc)) (E + ec)) as (q & m' & e' & Hq & _ & -> & Hcase); [lia | lia | fold k; lia |].
  fold k in Hq, Hcase. cbn [double_trunc]. rewrite (proj2 (Z.leb_gt _ _)) by lia.
  set (j := - (E + ec + k)).
  assert (Zpos m' / 2 ^ (- e') = q / 2 ^ j) as ->.
  { destruct Hcase as [[-> ->] | (-> & -> & _)]; [done |].
    replace (2 ^ j) with (2 * 2 ^ (- (E + ec + k + 1))).
    - by rewrite Z.div_mul_cancel_l by lia.
    - rewrite <- Z.pow_succ_r by lia. f_equal. lia. }
  replace (52 - Z.log2 z) with (- E) in Hm by lia. rewrite Pos2Z.inj_mul, Hm in Hq.
  assert (Hpow : 2 ^ (k + j) = 2 ^ (- E) * 2 ^ (- ec)) by (rewrite <- Z.pow_add_r by lia; f_equal; lia).
  assert (Hsame : forall x, x * 2 ^ (- E) / 2 ^ k / 2 ^ j = x / 2 ^ (- ec)).
  { intros x. rewrite Z.div_div, <- Z.pow_add_r, Hpow, Z.mul_comm by lia. by rewrite Z.div_mul_cancel_l by lia. }
  split.
  - rewrite <- (Hsame (z * Zpos mc)). apply Z.div_le_mono; [lia |]. etransitivity; [| apply Hq].
    apply Z.eq_le_incl. f_equal. ring.
  - rewrite <- (Hsame (z * Zpos mc + 2 ^ 31)). apply Z.div_le_mono; [lia |]. etransitivity; [apply Hq |].
    rewrite <- (Z.div_add _ 1) by lia. apply Z.div_le_mono; [lia |].
    rewrite Z.mul_add_distr_r, <- Z.pow_add_r, Z.mul_1_l by lia.
    assert (2 ^ k <= 2 ^ (31 + - E)) by (apply Z.pow_le_mono_r; lia). lia.
Qed.
