(* ===== verification/Rounding.v ===== *)
(** Rounding of binary64 arithmetic (Numeric.v) against numbers that are
    represented: the result of an operation is on the same side of such a number
    as the exact result.

    Values are counted in units of 2^-3000, in which all of them are integers. *)

From Stdlib Require Import SpecFloat.
From S2P Require Import Prelude Numeric Doubles.

#[local] Notation scale := 3000 (only parsing).
Definition units (m e : Z) : Z := m * 2 ^ (e + scale).

Definition value (f : double) : Z :=
  match f with S754_finite s m e => cond_Zopp s (units (Zpos m) e) | _ => 0 end.

(** Numbers of at most 53 bits. *)
Definition represented (y : Z) : Prop := exists j t, y = units j t /\ Z.abs j < 2 ^ 53 /\ - scale <= t.

(** Finite numbers with an exponent in a range. *)
Definition within (lo hi : Z) (f : double) : Prop :=
  match f with
  | S754_finite _ m e => Zpos m < 2 ^ 53 /\ lo <= e <= hi
  | S754_zero _ => True
  | _ => False
  end.

(** [r] is on the side of [num / den] of every represented number. *)
Definition rounds (num den : Z) (r : double) : Prop :=
  forall y, represented y -> (num <= y * den -> value r <= y) /\ (y * den <= num -> y <= value r).

Lemma units_pos m e : 0 < m -> 0 < units m e \/ e < - scale.
Proof. unfold units. intros. destruct (Z_lt_le_dec e (-3000)); [by right | left]. apply Z.mul_pos_pos; lia. Qed.

Lemma units_shift m e k : 0 <= k -> - scale <= e -> units m (e + k) = units (m * 2 ^ k) e.
Proof. unfold units. intros. rewrite <- Z.mul_assoc, <- Z.pow_add_r by lia. do 2 f_equal. lia. Qed.

Lemma represented_opp y : represented y -> represented (- y).
Proof. intros (j & t & -> & Hj & Ht). exists (- j), t. unfold units. split; [lia |]. split; [lia | done]. Qed.

Lemma represented_value lo hi f : - scale <= lo -> within lo hi f -> represented (value f).
Proof.
  intros Hlo. destruct f as [s | s | | s m e]; cbn; try done.
  - intros _. exists 0, 0. done.
  - intros [Hm He]. destruct s; cbn.
    + exists (- Zpos m), e. unfold units. split; [lia |]. split; lia.
    + exists (Zpos m), e. split; [done |]. split; lia.
Qed.

(** ** Rounding a mantissa *)

Lemma iter_shr_exact p : forall m, 0 <= m -> m mod 2 ^ Zpos p = 0 ->
  SpecFloat.iter_pos shr_1 p (Build_shr_record m false false) = Build_shr_record (m / 2 ^ Zpos p) false false.
Proof.
  assert (H1 : forall m, 0 <= m -> m mod 2 = 0 -> shr_1 (Build_shr_record m false false) = Build_shr_record (m / 2) false false).
  { intros [| [q | q |] | q] Hm H2; cbn [shr_1]; try done; try lia.
    - exfalso. rewrite Pos2Z.inj_xI, Z.add_comm, Z.mul_comm, Z.mod_add in H2 by lia. done.
    - f_equal. rewrite Pos2Z.inj_xO, Z.mul_comm. symmetry. by apply Z.div_mul. }
  assert (Hsplit : forall m a b, 0 <= m -> 0 <= a -> 0 <= b -> m mod 2 ^ (a + b) = 0 ->
    m mod 2 ^ a = 0 /\ (m / 2 ^ a) mod 2 ^ b = 0).
  { intros m a b Hm Ha Hb H. rewrite Z.pow_add_r, Z.rem_mul_r in H by lia.
    pose proof (Z.mod_pos_bound m (2 ^ a)). pose proof (Z.mod_pos_bound (m / 2 ^ a) (2 ^ b)). nia. }
  induction p as [p IH | p IH |]; intros m Hm H; cbn [SpecFloat.iter_pos].
  - rewrite (Pos2Z.inj_xI p) in H |- *. replace (2 * Zpos p + 1) with (1 + (Zpos p + Zpos p)) in H |- * by lia.
    destruct (Hsplit m 1 (Zpos p + Zpos p)) as [Ha Hb]; [lia | lia | lia | done |]. change (2 ^ 1) with 2 in *.
    destruct (Hsplit (m / 2) (Zpos p) (Zpos p)) as [Hc Hd]; [by apply Z.div_pos | lia | lia | done |].
    rewrite H1, IH, IH by (try done; repeat apply Z.div_pos; lia).
    rewrite !Z.div_div by lia. do 2 f_equal. rewrite !Z.pow_add_r by lia. ring.
  - rewrite (Pos2Z.inj_xO p) in H |- *. replace (2 * Zpos p) with (Zpos p + Zpos p) in H |- * by lia.
    destruct (Hsplit m (Zpos p) (Zpos p)) as [Hc Hd]; [lia | lia | lia | done |].
    rewrite IH, IH by (try done; repeat apply Z.div_pos; lia).
    rewrite !Z.div_div by lia. do 2 f_equal. by rewrite Z.pow_add_r by lia.
  - by apply H1.
Qed.

(** The mantissa that is left, and that it is rounded only if something was cut
    off. *)
Lemma shr_fexp_cut m e l :
  0 < m -> -1022 <= Z.log2 m + e ->
  exists r, shr_fexp 53 1024 m e l = (r, e + excess_bits m) /\ shr_m r = m / 2 ^ excess_bits m /\
    (l = loc_Exact -> m mod 2 ^ excess_bits m = 0 -> loc_of_shr_record r = loc_Exact).
Proof.
  intros Hm He. unfold shr_fexp. rewrite Zdigits2_log2, fexp_normal by lia.
  replace (Z.log2 m + 1 + e - 53 - e) with (Z.log2 m - 52) by lia. unfold excess_bits, shr.
  assert (Hrec : shr_m (shr_record_of_loc m l) = m) by (by destruct l as [| []]).
  destruct (Z.log2 m - 52) as [| p | p] eqn:E.
  - rewrite Z.max_id, Z.add_0_r, Z.pow_0_r, Z.div_1_r. eexists. split; [done |]. split; [done |]. by intros ->.
  - rewrite Z.max_r by lia. eexists. split; [done |]. split; [rewrite iter_shr_m by lia; by rewrite Hrec |].
    intros -> Hmod. cbn [shr_record_of_loc]. by rewrite iter_shr_exact by (done || lia).
  - rewrite Z.max_l by lia. rewrite Z.add_0_r, Z.pow_0_r, Z.div_1_r. eexists. split; [done |]. split; [done |]. by intros ->.
Qed.

Lemma round_aux s m e l :
  0 < m -> -1022 <= Z.log2 m + e -> e + excess_bits m < 971 ->
  let k := excess_bits m in
  exists q m' e', m / 2 ^ k <= q <= m / 2 ^ k + 1 /\ (l = loc_Exact -> m mod 2 ^ k = 0 -> q = m / 2 ^ k) /\
    binary_round_aux 53 1024 s m e l = S754_finite s m' e' /\ Zpos m' < 2 ^ 53 /\ e + k <= e' <= e + k + 1 /\
    (e' = e + k /\ q = Zpos m' \/ e' = e + k + 1 /\ q = 2 * Zpos m') /\ (52 <= Z.log2 m -> 2 ^ 52 <= Zpos m').
Proof.
  intros Hm He Hmax k. unfold binary_round_aux. destruct (shr_fexp_cut m e l Hm He) as (r & -> & E1 & Hex). fold k in E1, Hex |- *.
  pose proof (Z.log2_nonneg m) as Hl.
  assert (Hk : 0 <= k) by (unfold k, excess_bits; lia).
  assert (Hbits : 1 <= m / 2 ^ k < 2 ^ 53).
  { pose proof (Z.log2_spec m Hm) as [Hlo Hhi]. split.
    - apply Z.div_le_lower_bound; [lia |]. rewrite Z.mul_1_r. etransitivity; [| exact Hlo].
      apply Z.pow_le_mono_r; [lia |]. unfold k, excess_bits. lia.
    - apply Z.div_lt_upper_bound; [lia |]. rewrite <- Z.pow_add_r by lia. eapply Z.lt_le_trans; [exact Hhi |].
      apply Z.pow_le_mono_r; [lia |]. unfold k, excess_bits. lia. }
  pose proof (round_nearest_near (shr_m r) (loc_of_shr_record r)) as Hq.
  assert (Hq0 : l = loc_Exact -> m mod 2 ^ k = 0 -> round_nearest_even (shr_m r) (loc_of_shr_record r) = shr_m r).
  { intros H1 H2. by rewrite (Hex H1 H2). }
  set (q := round_nearest_even _ _) in *. rewrite E1 in Hq, Hq0. clearbody q.
  assert (Hlog : Z.log2 q <= 53) by (apply Z.lt_succ_r, Z.log2_lt_pow2; lia).
  pose proof (Z.log2_nonneg q).
  assert (Hqe : -1022 <= Z.log2 q + (e + k)).
  { destruct (Z.eq_dec k 0) as [Hz | Hz].
    - rewrite Hz in *. change (2 ^ 0) with 1 in *. rewrite Z.div_1_r in *.
      pose proof (Z.log2_le_mono m q). lia.
    - assert (52 <= Z.log2 q); [| unfold k, excess_bits in *; lia].
      apply Z.log2_le_pow2; [lia |]. etransitivity; [| apply Hq]. apply Z.div_le_lower_bound; [lia |].
      rewrite <- Z.pow_add_r by lia. etransitivity; [| apply (Z.log2_spec m Hm)].
      apply Z.pow_le_mono_r; [lia |]. unfold k, excess_bits in *. lia. }
  destruct (shr_fexp_m q (e + k)) as [F1 F2]; [lia | done |].
  destruct (shr_fexp 53 1024 q (e + k) loc_Exact) as [r' e2]. cbn [fst snd] in F1, F2. subst e2. rewrite F1.
  exists q. destruct (Z.eq_dec (Z.log2 q) 53) as [E53 | N53].
  - assert (2 ^ 53 <= q) by (apply Z.log2_le_pow2; lia). assert (q = 2 ^ 53) as -> by lia.
    exists (2 ^ 52)%positive, (e + k + 1). change (excess_bits (2 ^ 53)) with 1. change (2 ^ 53 / 2 ^ 1) with (Zpos (2 ^ 52)).
    cbn match. rewrite (proj2 (Z.leb_le _ _)) by lia. split_and!; try done; try lia; by right.
  - assert (excess_bits q = 0) as -> by (unfold excess_bits; lia). rewrite Z.pow_0_r, Z.div_1_r, Z.add_0_r.
    destruct q as [| p | p]; try lia. exists p, (e + k).
    rewrite (proj2 (Z.leb_le _ _)) by lia. split_and!; try done; try lia; [apply Z.log2_lt_pow2; lia |].
    intros H52. etransitivity; [| exact (proj1 Hq)]. apply Z.div_le_lower_bound; [lia |]. rewrite <- Z.pow_add_r by lia.
    etransitivity; [| apply (Z.log2_spec m Hm)]. apply Z.pow_le_mono_r; [lia |]. unfold k, excess_bits. lia.
Qed.

(** The rounded number against a represented one. *)
Section Side.
Context (m e k q j t : Z).
Hypotheses (Hm : 0 < m) (He : - scale <= e) (Hk : k = excess_bits m) (Ht : - scale <= t) (Hj : 0 <= j < 2 ^ 53)
  (Hq : m / 2 ^ k <= q <= m / 2 ^ k + 1).

Lemma excess_nonneg : 0 <= k.
Proof using Hk. rewrite Hk. unfold excess_bits. lia. Qed.

Lemma cut_large : k = 0 \/ 2 ^ 52 <= m / 2 ^ k.
Proof using Hm Hk.
  destruct (Z.eq_dec k 0) as [| Hz]; [by left | right]. pose proof excess_nonneg. apply Z.div_le_lower_bound; [lia |].
  rewrite <- Z.pow_add_r by lia. etransitivity; [| apply (Z.log2_spec m Hm)]. apply Z.pow_le_mono_r; [lia |].
  unfold excess_bits in *. lia.
Qed.

(** The represented number is a multiple of the last place, or below it. *)
Lemma on_grid : e + k <= t -> exists y, units j t = units y (e + k) /\ 0 <= y.
Proof using He Hk Hj.
  intros Hle. pose proof excess_nonneg. exists (j * 2 ^ (t - (e + k))). split; [| lia].
  rewrite <- units_shift by lia. f_equal. lia.
Qed.

Lemma units_mono x y : x <= y <-> units x (e + k) <= units y (e + k).
Proof using He Hk. pose proof excess_nonneg. unfold units. apply Z.mul_le_mono_pos_r. lia. Qed.

Lemma units_le x y : x <= y -> units x (e + k) <= units y (e + k).
Proof using He Hk. apply units_mono. Qed.
Lemma units_le_inv x y : units x (e + k) <= units y (e + k) -> x <= y.
Proof using He Hk. apply units_mono. Qed.

Lemma units_cut : units m e = units (m / 2 ^ k) (e + k) + units (m mod 2 ^ k) e.
Proof using He Hk.
  pose proof excess_nonneg. rewrite units_shift by lia. unfold units. rewrite <- Z.mul_add_distr_r. f_equal.
  rewrite (Z.div_mod m (2 ^ k)) at 1 by lia. lia.
Qed.

Lemma units_rest x : 0 <= x < 2 ^ k -> 0 <= units x e < units 1 (e + k).
Proof using He Hk.
  intros Hx. pose proof excess_nonneg. rewrite units_shift by lia. unfold units in *.
  assert (0 < 2 ^ (e + 3000)) by lia. rewrite Z.mul_1_l. nia.
Qed.

(** Below the last place a represented number is below what was not cut. *)
Lemma below_grid : t < e + k -> k = 0 \/ units j t <= units (m / 2 ^ k) (e + k).
Proof using Hm He Hk Ht Hj.
  intros Hlt. destruct cut_large as [| Hc]; [by left | right]. pose proof excess_nonneg.
  etransitivity; [| by apply units_le].
  unfold units in *. replace (e + k + 3000) with ((t + 3000) + (e + k - t)) by lia. rewrite (Z.pow_add_r 2 (t + 3000) (e + k - t)) by lia.
  assert (2 ^ 1 <= 2 ^ (e + k - t)) by (apply Z.pow_le_mono_r; lia).
  assert (0 < 2 ^ (t + 3000)) by (apply Z.pow_pos_nonneg; lia).
  assert (j <= 2 ^ 52 * 2 ^ (e + k - t)) by lia. rewrite (Z.mul_comm (2 ^ (t + 3000))), Z.mul_assoc.
  apply Z.mul_le_mono_nonneg_r; lia.
Qed.

Lemma rounded_below :
  (units m e <= units j t /\ (m mod 2 ^ k = 0 -> q = m / 2 ^ k)) \/ units (m + 1) e <= units j t ->
  units q (e + k) <= units j t.
Proof using Hm He Hk Ht Hj Hq.
  intros Hx. pose proof excess_nonneg. pose proof units_cut. pose proof (Z.mod_pos_bound m (2 ^ k)).
  pose proof (units_rest (m mod 2 ^ k)).
  assert (Hm1 : units (m + 1) e = units m e + units 1 e) by (unfold units; lia).
  assert (0 < units 1 e) by (unfold units; apply Z.mul_pos_pos; [lia | apply Z.pow_pos_nonneg; lia]).
  destruct (Z_lt_le_dec t (e + k)) as [Hlt | Hle].
  - destruct (below_grid Hlt) as [Hz | Hb].
    + rewrite Hz in *. rewrite Z.add_0_r, Z.pow_0_r, Z.mod_1_r, Z.div_1_r in *.
      destruct Hx as [[Hx Hexact] | Hx]; [by rewrite Hexact |]. etransitivity; [| exact Hx].
      unfold units. apply Z.mul_le_mono_nonneg_r; [lia | lia].
    + destruct Hx as [[Hx Hexact] | Hx]; [| exfalso; lia].
      assert (Hz : units (m mod 2 ^ k) e = 0) by lia.
      assert (m mod 2 ^ k = 0) as Hmod by (unfold units in Hz; nia). rewrite (Hexact Hmod). lia.
  - destruct (on_grid Hle) as (y & Hy & Hy0). rewrite Hy in Hx |- *. apply units_le.
    destruct (Z_le_gt_dec q (m / 2 ^ k)) as [Hqf | Hqc].
    + enough (m / 2 ^ k <= y) by lia. apply units_le_inv. destruct Hx as [[Hx _] | Hx]; lia.
    + enough (m / 2 ^ k < y) by lia. apply Z.lt_nge. intros Hle'. apply units_le in Hle'.
      destruct Hx as [[Hx Hexact] | Hx]; [| lia].
      assert (Hz : units (m mod 2 ^ k) e = 0) by lia.
      assert (m mod 2 ^ k = 0) as Hmod by (unfold units in Hz; nia). rewrite (Hexact Hmod) in Hqc. lia.
Qed.

Lemma rounded_above : units j t <= units m e -> units j t <= units q (e + k).
Proof using Hm He Hk Ht Hj Hq.
  intros Hx. pose proof excess_nonneg. pose proof units_cut. pose proof (Z.mod_pos_bound m (2 ^ k)).
  pose proof (units_rest (m mod 2 ^ k)). destruct (Z_lt_le_dec t (e + k)) as [Hlt | Hle].
  - destruct (below_grid Hlt) as [Hz | Hb].
    + rewrite Hz in *. rewrite Z.add_0_r, Z.pow_0_r, Z.div_1_r in *. etransitivity; [exact Hx |].
      unfold units. apply Z.mul_le_mono_nonneg_r; [lia | lia].
    + etransitivity; [exact Hb |]. apply units_le. lia.
  - destruct (on_grid Hle) as (y & Hy & Hy0). rewrite Hy in Hx |- *. apply units_le.
    enough (y <= m / 2 ^ k) by lia. apply Z.lt_succ_r. apply Z.lt_nge. intros Hle'. apply units_le in Hle'.
    unfold units in *. lia.
Qed.
End Side.

(** ** The result of an operation *)

(** The exact result is [num / den], the mantissa of which was computed with
    what is left of it. *)
Definition located (m e : Z) (l : location) (num den : Z) : Prop :=
  match l with
  | loc_Exact => units m e * den = num
  | loc_Inexact _ => units m e * den < num < units (m + 1) e * den /\ 52 <= Z.log2 m
  end.

Lemma represented_pos y : represented y -> 0 < y -> exists j t, y = units j t /\ 0 <= j < 2 ^ 53 /\ - 3000 <= t.
Proof.
  intros (j & t & -> & Hj & Ht) Hy. exists j, t. split; [done |]. split; [| done]. unfold units in Hy.
  assert (0 < 2 ^ (t + 3000)) by (apply Z.pow_pos_nonneg; lia). split; [| lia].
  destruct (Z_lt_le_dec j 0); [| done]. nia.
Qed.

(** What a represented number knows of a mantissa of 53 bits or more. *)
Lemma represented_grid m e j t :
  0 < m -> 52 <= Z.log2 m -> - 3000 <= e -> - 3000 <= t -> 0 <= j < 2 ^ 53 ->
  (units m e < units j t -> units (m + 1) e <= units j t) /\ (units j t < units (m + 1) e -> units j t <= units m e).
Proof.
  intros Hm Hlog He Ht Hj. assert (2 ^ 52 <= m) by (apply Z.log2_le_pow2; lia).
  assert (Hg : 0 < 2 ^ (e + 3000)) by (apply Z.pow_pos_nonneg; lia).
  destruct (Z_lt_le_dec t e) as [Hlt | Hle].
  - assert (units j t <= units m e); [| lia]. unfold units.
    replace (e + 3000) with ((t + 3000) + (e - t)) by lia. rewrite (Z.pow_add_r 2 (t + 3000) (e - t)) by lia.
    assert (2 ^ 1 <= 2 ^ (e - t)) by (apply Z.pow_le_mono_r; lia).
    assert (0 < 2 ^ (t + 3000)) by (apply Z.pow_pos_nonneg; lia). rewrite (Z.mul_comm (2 ^ (t + 3000))), Z.mul_assoc.
    apply Z.mul_le_mono_nonneg_r; nia.
  - replace t with (e + (t - e)) by lia. rewrite units_shift by lia. generalize (j * 2 ^ (t - e)) as y. intros y.
    unfold units. split; intros H'; apply Z.mul_lt_mono_pos_r in H'; try done; apply Z.mul_le_mono_nonneg_r; lia.
Qed.

Lemma aux_rounds_pos m e l num den :
  0 < m -> - 3000 <= e -> -1022 <= Z.log2 m + e -> e + excess_bits m < 971 -> 0 < den -> located m e l num den ->
  forall s, exists m' e', binary_round_aux 53 1024 s m e l = S754_finite s m' e' /\ Zpos m' < 2 ^ 53 /\
    e + excess_bits m <= e' <= e + excess_bits m + 1 /\ rounds num den (S754_finite false m' e').
Proof.
  intros Hm He Hlog Hmax Hden Hl s. destruct (round_aux s m e l Hm Hlog Hmax) as (q & m' & e' & Hq & Hex & E & Hm' & He' & Hcase & _).
  assert (Hk : 0 <= excess_bits m) by (unfold excess_bits; lia).
  exists m', e'. split; [exact E |]. split; [done |]. split; [done |].
  assert (Hval : units (Zpos m') e' = units q (e + excess_bits m)).
  { destruct Hcase as [[-> ->] | [-> ->]]; [done |]. rewrite (units_shift _ (e + excess_bits m) 1) by lia. f_equal. lia. }
  assert (Hpos : 0 < units m e) by (unfold units; apply Z.mul_pos_pos; [done | apply Z.pow_pos_nonneg; lia]).
  assert (Hnum : units m e * den <= num) by (destruct l; cbn [located] in Hl; lia).
  intros y Hy. cbn [value cond_Zopp]. rewrite Hval. split; intros Hle.
  - assert (0 < y) by nia. destruct (represented_pos y Hy) as (j & t & -> & Hj & Ht); [done |].
    apply (rounded_below m e (excess_bits m) q j t); try done. destruct l as [| c]; cbn [located] in Hl.
    + left. split; [nia |]. intros. by apply Hex.
    + right. destruct Hl as [Hl Hl2]. apply (proj1 (represented_grid m e j t Hm Hl2 He Ht Hj)).
      apply (Z.mul_lt_mono_pos_r den); lia.
  - destruct (Z_lt_le_dec 0 y) as [Hy0 | Hy0].
    + destruct (represented_pos y Hy) as (j & t & -> & Hj & Ht); [done |].
      apply (rounded_above m e (excess_bits m) q j t); try done. destruct l as [| c]; cbn [located] in Hl; [nia |].
      destruct Hl as [Hl Hl2]. apply (proj2 (represented_grid m e j t Hm Hl2 He Ht Hj)).
      apply (Z.mul_lt_mono_pos_r den); lia.
    + assert (0 <= units q (e + excess_bits m)); [| lia]. unfold units.
      assert (0 <= m / 2 ^ excess_bits m) by (apply Z.div_pos; lia). apply Z.mul_nonneg_nonneg; lia.
Qed.

Lemma rounds_opp num den f m e : f = S754_finite false m e -> rounds num den f -> rounds (- num) den (S754_finite true m e).
Proof.
  intros -> Hr y Hy. destruct (Hr (- y) (represented_opp y Hy)) as [H1 H2]. cbn [value cond_Zopp] in *. split; intros; lia.
Qed.

Lemma aux_rounds s m e l num den :
  0 < m -> - 3000 <= e -> -1022 <= Z.log2 m + e -> e + excess_bits m < 971 -> 0 < den -> located m e l num den ->
  exists m' e', binary_round_aux 53 1024 s m e l = S754_finite s m' e' /\ Zpos m' < 2 ^ 53 /\
    e + excess_bits m <= e' <= e + excess_bits m + 1 /\ rounds (cond_Zopp s num) den (S754_finite s m' e').
Proof.
  intros Hm He Hlog Hmax Hden Hl. destruct (aux_rounds_pos m e l num den Hm He Hlog Hmax Hden Hl s) as (m' & e' & E & Hm' & He' & Hr).
  exists m', e'. split; [done |]. split; [done |]. split; [done |]. destruct s; [by eapply rounds_opp | done].
Qed.

(** ** Sums *)

Lemma shl_align_units m e e' :
  - 3000 <= e -> - 3000 <= e' ->
  exists m', shl_align m e e' = (m', Z.min e e') /\ Zpos m' = Zpos m * 2 ^ (e - Z.min e e').
Proof.
  intros He He'. unfold shl_align. destruct (e' - e) as [| d | d] eqn:E.
  - exists m. rewrite Z.min_l by lia. split; [done |]. rewrite Z.sub_diag. lia.
  - exists m. rewrite Z.min_l by lia. split; [done |]. rewrite Z.sub_diag. lia.
  - rewrite Z.min_r by lia. eexists. split; [done |]. replace (e - e') with (Zpos d) by lia.
    clear. induction d as [| d IH] using Pos.peano_ind; [cbn; lia |].
    rewrite Pos.iter_succ, Pos2Z.inj_succ, Z.pow_succ_r, Pos2Z.inj_xO, IH by lia. ring.
Qed.

Lemma round_rounds s m e :
  - 900 <= e -> Z.log2 (Zpos m) + e < 900 ->
  exists m' e', binary_round 53 1024 s m e = S754_finite s m' e' /\ Zpos m' < 2 ^ 53 /\
    Z.log2 (Zpos m) + e - 52 <= e' <= Z.log2 (Zpos m) + e - 51 /\ rounds (cond_Zopp s (units (Zpos m) e)) 1 (S754_finite s m' e').
Proof.
  intros He Hlog. unfold binary_round. pose proof (Z.log2_nonneg (Zpos m)).
  change (Zpos (digits2_pos m)) with (Zdigits2 (Zpos m)). rewrite Zdigits2_log2, fexp_normal by lia.
  destruct (shl_align_units m e (Z.log2 (Zpos m) + 1 + e - 53)) as (m1 & -> & Hm1); [lia | lia |].
  set (e1 := Z.min e _) in *. assert (Hlog1 : Z.log2 (Zpos m1) = Z.log2 (Zpos m) + (e - e1)).
  { rewrite Hm1. rewrite Z.log2_mul_pow2 by (unfold e1; lia). lia. }
  assert (Hu : units (Zpos m1) e1 = units (Zpos m) e).
  { rewrite Hm1. rewrite <- units_shift by (unfold e1; lia). f_equal. lia. }
  assert (Hx : excess_bits (Zpos m1) = Z.log2 (Zpos m) + e - 52 - e1) by (unfold excess_bits, e1 in *; lia).
  destruct (aux_rounds s (Zpos m1) e1 loc_Exact (units (Zpos m) e) 1) as (m' & e' & E & Hm' & He' & Hr);
    [lia | unfold e1; lia | lia | lia | lia | cbn [located]; lia |].
  exists m', e'. split; [exact E |]. split; [done |]. split; [lia | done].
Qed.

(** A sum of units, which is neither too small nor too large. *)
Lemma normalize_rounds M e :
  - 900 <= e -> Z.abs M < 2 ^ (900 - e) ->
  within (e - 52) 900 (binary_normalize 53 1024 M e false) /\ rounds (units M e) 1 (binary_normalize 53 1024 M e false).
Proof.
  intros He HM. destruct M as [| p | p]; cbn [binary_normalize].
  - split; [done |]. intros y _. unfold units. cbn [value]. lia.
  - destruct (round_rounds false p e He) as (m' & e' & -> & Hm' & He' & Hr).
    { enough (Z.log2 (Zpos p) < 900 - e) by lia. apply Z.log2_lt_pow2; lia. }
    split; [| exact Hr]. cbn. pose proof (Z.log2_nonneg (Zpos p)). split; [done |].
    enough (Z.log2 (Zpos p) < 900 - e) by lia. apply Z.log2_lt_pow2; lia.
  - destruct (round_rounds true p e He) as (m' & e' & -> & Hm' & He' & Hr).
    { enough (Z.log2 (Zpos p) < 900 - e) by lia. apply Z.log2_lt_pow2; lia. }
    replace (units (Zneg p) e) with (cond_Zopp true (units (Zpos p) e)) by (unfold units; cbn [cond_Zopp]; lia).
    split; [| exact Hr]. cbn. pose proof (Z.log2_nonneg (Zpos p)). split; [done |].
    enough (Z.log2 (Zpos p) < 900 - e) by lia. apply Z.log2_lt_pow2; lia.
Qed.

(** The terms of a sum, at the smaller exponent. *)
Lemma value_at s m e e' :
  - 3000 <= e' <= e ->
  exists M, cond_Zopp s (Zpos (fst (shl_align m e e'))) = M /\ units M e' = value (S754_finite s m e) /\
    Z.abs M = Zpos m * 2 ^ (e - e').
Proof.
  intros He. destruct (shl_align_units m e e') as (m1 & -> & Hm1); [lia | lia |]. rewrite Z.min_r in Hm1 |- * by lia. cbn [fst].
  eexists. split; [done |]. cbn [value]. split; [| rewrite <- Hm1; by destruct s].
  replace e with (e' + (e - e')) at 1 by lia. rewrite units_shift, <- Hm1 by lia. destruct s; cbn [cond_Zopp]; unfold units; lia.
Qed.

Lemma sum_bound lo hi mf ef mg eg M N :
  - 900 <= lo -> hi <= 800 -> Zpos mf < 2 ^ 53 /\ lo <= ef <= hi -> Zpos mg < 2 ^ 53 /\ lo <= eg <= hi ->
  Z.abs M = Zpos mf * 2 ^ (ef - Z.min ef eg) -> Z.abs N = Zpos mg * 2 ^ (eg - Z.min ef eg) ->
  Z.abs (M + N) < 2 ^ (900 - Z.min ef eg) /\ Z.abs (M - N) < 2 ^ (900 - Z.min ef eg).
Proof.
  intros Hlo Hhi Hf Hg HM HN. set (e := Z.min ef eg) in *.
  assert (Hb : forall m x, Zpos m < 2 ^ 53 -> e <= x <= hi -> Zpos m * 2 ^ (x - e) < 2 ^ (53 + (hi - e))).
  { intros m x Hm Hx. rewrite Z.pow_add_r by lia. apply Z.le_lt_trans with (Zpos m * 2 ^ (hi - e)).
    - apply Z.mul_le_mono_nonneg_l; [lia |]. apply Z.pow_le_mono_r; lia.
    - apply Z.mul_lt_mono_pos_r; [| done]. apply Z.pow_pos_nonneg; lia. }
  pose proof (Hb mf ef ltac:(lia) ltac:(lia)). pose proof (Hb mg eg ltac:(lia) ltac:(lia)).
  assert (2 * 2 ^ (53 + (hi - e)) <= 2 ^ (900 - e)); [| lia].
  rewrite <- Z.pow_succ_r by lia. apply Z.pow_le_mono_r; lia.
Qed.

Lemma dadd_rounds lo hi f g :
  - 900 <= lo -> lo <= hi -> hi <= 800 -> within lo hi f -> within lo hi g ->
  within (lo - 52) 900 (dadd f g) /\ rounds (value f + value g) 1 (dadd f g).
Proof.
  intros Hlo Hlh Hhi Hf Hg. unfold dadd.
  assert (Hweak : forall x, within lo hi x -> within (lo - 52) 900 x) by (intros [| | |]; cbn; try done; lia).
  destruct f as [sf | sf | | sf mf ef], g as [sg | sg | | sg mg eg]; try done.
  - destruct sf, sg; (split; [done | intros y _; cbn; lia]).
  - split; [by apply Hweak |]. intros y _. cbn [SFadd]. change (value (S754_zero sf)) with 0. lia.
  - split; [by apply Hweak |]. intros y _. cbn [SFadd]. change (value (S754_zero sg)) with 0. lia.
  - cbn [SFadd]. cbn in Hf, Hg.
    destruct (value_at sf mf ef (Z.min ef eg)) as (M & -> & HM & HMa); [lia |].
    destruct (value_at sg mg eg (Z.min ef eg)) as (N & -> & HN & HNa); [lia |].
    assert (Hsum : units (M + N) (Z.min ef eg) = value (S754_finite sf mf ef) + value (S754_finite sg mg eg))
      by (rewrite <- HM, <- HN; unfold units; lia).
    rewrite <- Hsum. destruct (normalize_rounds (M + N) (Z.min ef eg)) as [H1 H2]; [lia | by apply (sum_bound lo hi mf ef mg eg) |]. split; [| done].
    destruct (binary_normalize _ _ _ _ _); cbn in *; try done. lia.
Qed.

Lemma dsub_rounds lo hi f g :
  - 900 <= lo -> lo <= hi -> hi <= 800 -> within lo hi f -> within lo hi g ->
  within (lo - 52) 900 (dsub f g) /\ rounds (value f - value g) 1 (dsub f g).
Proof.
  intros Hlo Hlh Hhi Hf Hg. unfold dsub.
  assert (Hweak : forall x, within lo hi x -> within (lo - 52) 900 x) by (intros [| | |]; cbn; try done; lia).
  destruct f as [sf | sf | | sf mf ef], g as [sg | sg | | sg mg eg]; try done.
  - destruct sf, sg; (split; [done | intros y _; cbn; lia]).
  - cbn [SFsub]. split; [by apply (Hweak (S754_finite (negb sg) mg eg)) |]. intros y _. destruct sg; cbn; lia.
  - cbn [SFsub]. split; [by apply (Hweak (S754_finite sf mf ef)) |]. intros y _. change (value (S754_zero sg)) with 0. lia.
  - cbn [SFsub]. cbn in Hf, Hg.
    destruct (value_at sf mf ef (Z.min ef eg)) as (M & -> & HM & HMa); [lia |].
    destruct (value_at sg mg eg (Z.min ef eg)) as (N & -> & HN & HNa); [lia |].
    assert (Hsum : units (M - N) (Z.min ef eg) = value (S754_finite sf mf ef) - value (S754_finite sg mg eg))
      by (rewrite <- HM, <- HN; unfold units; lia).
    rewrite <- Hsum. destruct (normalize_rounds (M - N) (Z.min ef eg)) as [H1 H2]; [lia | by apply (sum_bound lo hi mf ef mg eg) |].
    split; [| done]. destruct (binary_normalize _ _ _ _ _); cbn in *; try done. lia.
Qed.

(** ** Products and quotients *)

Lemma excess_bound m : 0 < m -> 0 <= excess_bits m <= Z.log2 m.
Proof. intros. unfold excess_bits. pose proof (Z.log2_nonneg m). lia. Qed.

Lemma units_mul m1 e1 m2 e2 :
  - 1000 <= e1 -> - 1000 <= e2 -> units (Zpos (m1 * m2)) (e1 + e2) * 2 ^ 3000 = units (Zpos m1) e1 * units (Zpos m2) e2.
Proof.
  intros H1 H2. unfold units. rewrite Pos2Z.inj_mul.
  assert (2 ^ (e1 + e2 + 3000) * 2 ^ 3000 = 2 ^ (e1 + 3000) * 2 ^ (e2 + 3000)) as Hp.
  { rewrite <- !Z.pow_add_r by lia. f_equal. lia. }
  rewrite <- Z.mul_assoc, Hp. ring.
Qed.

Lemma dmul_rounds lo hi f g :
  - 400 <= lo -> lo <= hi -> hi <= 300 -> within lo hi f -> within lo hi g ->
  within (2 * lo) 900 (dmul f g) /\ rounds (value f * value g) (2 ^ 3000) (dmul f g).
Proof.
  intros Hlo Hlh Hhi Hf Hg. unfold dmul. destruct f as [sf | sf | | sf mf ef], g as [sg | sg | | sg mg eg]; try done.
  - split; [done |]. intros y _. cbn. lia.
  - split; [done |]. intros y _. cbn [SFmul]. change (value (S754_zero sf)) with 0. cbn. lia.
  - split; [done |]. intros y _. cbn [SFmul]. change (value (S754_zero sg)) with 0. cbn. lia.
  - cbn [SFmul]. cbn in Hf, Hg. destruct Hf as [Hmf Hef], Hg as [Hmg Heg].
    assert (Hlog : Z.log2 (Zpos (mf * mg)) < 106).
    { apply Z.log2_lt_pow2; [lia |]. rewrite Pos2Z.inj_mul. change (2 ^ 106) with (2 ^ 53 * 2 ^ 53). apply Z.mul_lt_mono_nonneg; lia. }
    pose proof (Z.log2_nonneg (Zpos (mf * mg))). pose proof (excess_bound (Zpos (mf * mg)) ltac:(lia)).
    destruct (aux_rounds (xorb sf sg) (Zpos (mf * mg)) (ef + eg) loc_Exact
      (units (Zpos mf) ef * units (Zpos mg) eg) (2 ^ 3000)) as (m' & e' & -> & Hm' & He' & Hr); try lia.
    + cbn [located]. by apply units_mul; lia.
    + split; [cbn; split; [done | lia] |]. replace (value (S754_finite sf mf ef) * value (S754_finite sg mg eg))
        with (cond_Zopp (xorb sf sg) (units (Zpos mf) ef * units (Zpos mg) eg)); [done |].
      destruct sf, sg; cbn [value cond_Zopp xorb]; ring.
Qed.

(** What is left of a division places the quotient. *)
Lemma new_location_located q r e m num :
  0 < m -> 0 <= r < m -> 52 <= Z.log2 q -> - 3000 <= e -> num = (m * q + r) * 2 ^ (e + 3000) ->
  located q e (new_location m r) num m.
Proof.
  intros Hm Hr Hq He ->. assert (0 < 2 ^ (e + 3000)) as Hp by (apply Z.pow_pos_nonneg; lia).
  assert (Hcase : (new_location m r = loc_Exact /\ r = 0) \/ exists c, new_location m r = loc_Inexact c /\ 0 < r).
  { unfold new_location, new_location_even, new_location_odd.
    destruct (Z.even m); destruct (Z.eqb_spec r 0) as [-> | Hn]; try (by left); right; eexists; (split; [done | lia]). }
  unfold located, units. destruct Hcase as [[-> ->] | (c & -> & Hr0)]; [ring |]. split; [| done].
  set (p := 2 ^ (e + 3000)) in *. clearbody p. split.
  - replace (q * p * m) with (m * q * p) by ring. apply Z.mul_lt_mono_pos_r; lia.
  - replace ((q + 1) * p * m) with ((m * q + m) * p) by ring. apply Z.mul_lt_mono_pos_r; lia.
Qed.

(** The quotient of two mantissas: what [SFdiv_core_binary] computes. *)
Lemma div_located m1 e1 m2 e2 q e l :
  -900 <= e1 - e2 <= 900 -> Zpos m1 < 2 ^ 53 -> Zpos m2 < 2 ^ 53 ->
  SFdiv_core_binary 53 1024 (Zpos m1) e1 (Zpos m2) e2 = (q, e, l) ->
  0 < q /\ e1 - e2 - 107 <= e <= e1 - e2 /\ -54 <= Z.log2 q + e - (e1 - e2) <= 54 /\ 52 <= Z.log2 q /\
  located q e l (Zpos m1 * 2 ^ (e1 - e2 + 3000)) (Zpos m2).
Proof.
  intros He Hm1 Hm2. unfold SFdiv_core_binary. rewrite !Zdigits2_log2 by lia.
  assert (H1 : 0 <= Z.log2 (Zpos m1) < 53) by (split; [apply Z.log2_nonneg | apply Z.log2_lt_pow2; lia]).
  assert (H2 : 0 <= Z.log2 (Zpos m2) < 53) by (split; [apply Z.log2_nonneg | apply Z.log2_lt_pow2; lia]).
  rewrite fexp_normal by lia.
  set (e' := Z.min _ _). set (s := e1 - e2 - e').
  assert (Hs : 0 <= s) by (unfold s; lia).
  assert (Hm' : (match s with Z0 => Zpos m1 | Zpos _ => Z.shiftl (Zpos m1) s | Zneg _ => 0 end) = Zpos m1 * 2 ^ s).
  { destruct s; [lia | by rewrite Z.shiftl_mul_pow2 | lia]. }
  rewrite Hm'.
  pose proof (Z_div_mod (Zpos m1 * 2 ^ s) (Zpos m2) ltac:(lia)) as Hmod.
  destruct (Z.div_eucl _ _) as [q0 r]. destruct Hmod as [Hdiv Hr]. intros [= <- <- <-].
  pose proof (Z.log2_spec (Zpos m1) ltac:(lia)) as [Ha Hb]. pose proof (Z.log2_spec (Zpos m2) ltac:(lia)) as [Hc Hd].
  set (l1 := Z.log2 (Zpos m1)) in *. set (l2 := Z.log2 (Zpos m2)) in *.
  assert (Hs' : s = Z.max (53 + l2 - l1) 0) by (unfold s, e'; lia). clearbody s.
  assert (Hlow : 2 ^ (l1 + s - l2 - 1) <= q0).
  { apply Z.lt_succ_r. apply (Z.mul_lt_mono_pos_l (2 ^ Z.succ l2)); [lia |]. rewrite <- Z.pow_add_r by lia.
    replace (Z.succ l2 + (l1 + s - l2 - 1)) with (l1 + s) by lia.
    apply Z.le_lt_trans with (Zpos m1 * 2 ^ s); [rewrite Z.pow_add_r by lia; apply Z.mul_le_mono_nonneg_r; lia |].
    rewrite Hdiv. apply Z.lt_le_trans with (Zpos m2 * Z.succ q0); [lia |].
    assert (0 <= q0).
    { assert (0 < Zpos m1 * 2 ^ s) by (apply Z.mul_pos_pos; lia). apply Z.lt_succ_r, (Z.mul_lt_mono_pos_l (Zpos m2)); lia. }
    apply Z.mul_le_mono_nonneg_r; lia. }
  assert (Hup : q0 < 2 ^ (l1 + s - l2 + 1)).
  { apply (Z.mul_lt_mono_pos_l (2 ^ l2)); [lia |]. rewrite <- Z.pow_add_r by lia.
    replace (l2 + (l1 + s - l2 + 1)) with (Z.succ l1 + s) by lia.
    assert (0 < 2 ^ (l1 + s - l2 - 1)) by (apply Z.pow_pos_nonneg; lia).
    apply Z.le_lt_trans with (Zpos m1 * 2 ^ s); [| rewrite Z.pow_add_r by lia; apply Z.mul_lt_mono_pos_r; lia].
    rewrite Hdiv. apply Z.le_trans with (Zpos m2 * q0); [| lia]. apply Z.mul_le_mono_nonneg_r; lia. }
  assert (0 < q0) by (eapply Z.lt_le_trans; [| exact Hlow]; apply Z.pow_pos_nonneg; lia).
  assert (Hq1 : l1 + s - l2 - 1 <= Z.log2 q0) by (apply Z.log2_le_pow2; lia).
  assert (Hq2 : Z.log2 q0 < l1 + s - l2 + 1) by (apply Z.log2_lt_pow2; lia).
  assert (He' : e' = e1 - e2 - s) by (unfold e'; lia).
  split; [done |]. split; [lia |]. split; [lia |]. split; [lia |].
  apply new_location_located; [lia | lia | lia | lia |]. rewrite <- Hdiv, <- Z.mul_assoc, <- Z.pow_add_r by lia.
  do 2 f_equal. lia.
Qed.

Lemma ddiv_rounds lo hi f g :
  - 400 <= lo -> lo <= hi -> hi <= 400 -> within lo hi f -> within lo hi g -> 0 < value g ->
  within (lo - hi - 107) 900 (ddiv f g) /\ rounds (value f * 2 ^ 3000) (value g) (ddiv f g).
Proof.
  intros Hlo Hlh Hhi Hf Hg Hpos. unfold ddiv. destruct f as [sf | sf | | sf mf ef], g as [sg | sg | | sg mg eg]; try done.
  - split; [done |]. intros y _. cbn [SFdiv]. change (value (S754_zero sf)) with 0.
    change (value (S754_zero (xorb sf sg))) with 0. split; intros; nia.
  - cbn [SFdiv]. cbn in Hf, Hg. destruct Hf as [Hmf Hef], Hg as [Hmg Heg].
    assert (sg = false) as ->.
    { destruct sg; [| done]. cbn [value cond_Zopp] in Hpos. unfold units in Hpos.
      assert (0 < Zpos mg * 2 ^ (eg + 3000)) by (apply Z.mul_pos_pos; [lia | apply Z.pow_pos_nonneg; lia]). lia. }
    destruct (SFdiv_core_binary 53 1024 (Zpos mf) ef (Zpos mg) eg) as [[q e] l] eqn:E.
    destruct (div_located mf ef mg eg q e l) as (Hq & He & Hlog & _ & Hl); [lia | done | done | done |].
    pose proof (excess_bound q Hq).
    destruct (aux_rounds (xorb sf false) q e l (Zpos mf * 2 ^ (ef - eg + 3000)) (Zpos mg)) as (m' & e' & -> & Hm' & He' & Hr);
      [done | lia | lia | lia | lia | done |].
    split; [cbn; split; [done | lia] |]. intros y Hy. destruct (Hr y Hy) as [H1 H2]. rewrite xorb_false_r in *.
    cbn [value cond_Zopp] in *. unfold units in *.
    assert (Hscale : Zpos mf * 2 ^ (ef + 3000) * 2 ^ 3000 = Zpos mf * 2 ^ (ef - eg + 3000) * 2 ^ (eg + 3000)).
    { rewrite <- !Z.mul_assoc, <- !Z.pow_add_r by lia. do 2 f_equal. lia. }
    assert (0 < 2 ^ (eg + 3000)) as Hp by (apply Z.pow_pos_nonneg; lia).
    assert (Hnum : cond_Zopp sf (Zpos mf * 2 ^ (ef + 3000)) * 2 ^ 3000
      = cond_Zopp sf (Zpos mf * 2 ^ (ef - eg + 3000)) * 2 ^ (eg + 3000)) by (destruct sf; cbn [cond_Zopp]; lia).
    rewrite Hnum. rewrite (Z.mul_assoc y). set (p := 2 ^ (eg + 3000)) in *. clearbody p.
    split; intros Hle; [apply H1 | apply H2]; apply (Z.mul_le_mono_pos_r _ _ p); done.
Qed.

(** ** Bounds on the exponent, and integers *)

Lemma units_exp e e' : - 3000 <= e -> - 3000 <= e' -> units 1 e <= units 1 e' <-> e <= e'.
Proof. intros. unfold units. rewrite !Z.mul_1_l, <- Z.pow_le_mono_r_iff by lia. lia. Qed.

(** A bound on the size of a number bounds its exponent. *)
Lemma within_above lo hi f b :
  - 3000 <= lo -> - 3000 <= b -> within lo hi f -> Z.abs (value f) <= units 1 b -> within lo b f.
Proof.
  intros Hlo Hb. destruct f as [| | | s m e]; cbn; try done. intros [Hm He] Hv. split; [done |]. split; [lia |].
  apply units_exp; [lia | lia |]. etransitivity; [| exact Hv]. unfold units.
  assert (0 < 2 ^ (e + 3000)) by (apply Z.pow_pos_nonneg; lia). destruct s; cbn [cond_Zopp]; nia.
Qed.

Lemma within_below lo hi f b :
  - 3000 <= lo -> - 2900 <= b -> within lo hi f -> units 1 b <= Z.abs (value f) -> within (b - 53) hi f.
Proof.
  intros Hlo Hb. destruct f as [| | | s m e]; cbn; try done. intros [Hm He] Hv. split; [done |]. split; [| lia].
  enough (b <= e + 53) by lia. apply units_exp; [lia | lia |]. etransitivity; [exact Hv |].
  rewrite (units_shift 1 e 53) by lia. unfold units.
  assert (0 < 2 ^ (e + 3000)) by (apply Z.pow_pos_nonneg; lia). destruct s; cbn [cond_Zopp]; nia.
Qed.

Lemma within_weak lo hi lo' hi' f : lo' <= lo -> hi <= hi' -> within lo hi f -> within lo' hi' f.
Proof. destruct f; cbn; lia. Qed.

Definition int (z : Z) : Z := units z 0.

Lemma int_le x y : int x <= int y <-> x <= y.
Proof. unfold int, units. symmetry. apply Z.mul_le_mono_pos_r. done. Qed.

Lemma int_represented z : Z.abs z < 2 ^ 53 -> represented (int z).
Proof. intros. by exists z, 0. Qed.

Lemma int_log2_bound z b : 0 <= b -> Z.abs z <= 2 ^ b -> Z.abs (int z) <= units 1 b.
Proof.
  intros Hb Hz. unfold int, units. rewrite Z.abs_mul, (Z.abs_eq (2 ^ (0 + 3000))) by (apply Z.pow_nonneg; lia).
  replace (b + 3000) with (b + (0 + 3000)) by lia. rewrite (Z.pow_add_r 2 b) by lia. rewrite Z.mul_1_l.
  apply Z.mul_le_mono_nonneg_r; [| done]. apply Z.pow_nonneg; lia.
Qed.

(** Integers of at most 53 bits are represented. *)
Lemma double_of_Z_int z : Z.abs z < 2 ^ 53 -> within (-52) 53 (double_of_Z z) /\ value (double_of_Z z) = int z.
Proof.
  intros Hz. unfold double_of_Z. destruct (normalize_rounds z 0) as [Hw Hr]; [lia | |].
  { eapply Z.lt_le_trans; [exact Hz |]. apply Z.pow_le_mono_r; lia. }
  destruct (Hr (int z)) as [H1 H2]; [by apply int_represented |].
  assert (Hv : value (binary_normalize 53 1024 z 0 false) = int z) by (unfold int in *; lia).
  split; [| exact Hv]. apply (within_above _ 900); [lia | lia | by apply within_weak with (-52) 900; [lia | lia |] |].
  rewrite Hv. apply int_log2_bound; lia.
Qed.

(** Truncation. *)
Lemma double_trunc_value lo hi f : - 3000 <= lo -> within lo hi f -> double_trunc f = Z.quot (value f) (2 ^ 3000).
Proof.
  intros Hlo. destruct f as [| | | s m e]; cbn [within]; try done. intros [Hm He]. cbn [double_trunc value].
  assert (Hpos : (if 0 <=? e then Zpos m * 2 ^ e else Zpos m / 2 ^ (- e)) = Z.quot (units (Zpos m) e) (2 ^ 3000)).
  { unfold units. assert (0 < 2 ^ 3000) as Hp by (apply Z.pow_pos_nonneg; lia).
    assert (0 < 2 ^ (e + 3000)) as Hq by (apply Z.pow_pos_nonneg; lia).
    rewrite Z.quot_div_nonneg by (try apply Z.mul_nonneg_nonneg; lia). destruct (Z.leb_spec 0 e) as [He0 | He0].
    - rewrite Z.pow_add_r by lia. rewrite Z.mul_assoc. symmetry. apply Z.div_mul. lia.
    - replace (2 ^ 3000) with (2 ^ (- e) * 2 ^ (e + 3000)) by (rewrite <- Z.pow_add_r by lia; f_equal; lia).
      symmetry. apply Z.div_mul_cancel_r; [| lia]. apply Z.pow_nonzero; lia. }
  rewrite Hpos. destruct s; cbn [cond_Zopp]; [| done]. rewrite Z.quot_opp_l; [done |]. apply Z.pow_nonzero; lia.
Qed.

Lemma double_trunc_between lo hi f a b :
  - 3000 <= lo -> within lo hi f -> int a <= value f <= int b -> a <= double_trunc f <= b.
Proof.
  intros Hlo Hf [Ha Hb]. rewrite (double_trunc_value lo hi f Hlo Hf).
  assert (Hq : forall z, Z.quot (int z) (2 ^ 3000) = z) by (intros z; apply Z.quot_mul; apply Z.pow_nonzero; lia).
  rewrite <- (Hq a), <- (Hq b). assert (0 < 2 ^ 3000) by (apply Z.pow_pos_nonneg; lia).
  split; apply Z.quot_le_mono; lia.
Qed.

(** ** Normal numbers

    Whose mantissa has all of its 53 bits: the exponents of these are ordered as
    they are, which the comparison of doubles relies on. *)

Definition normal (f : double) : Prop :=
  match f with S754_finite _ m _ => 2 ^ 52 <= Zpos m | _ => True end.

Lemma aux_normal s m e l :
  0 < m -> -1022 <= Z.log2 m + e -> e + excess_bits m < 971 -> 52 <= Z.log2 m ->
  normal (binary_round_aux 53 1024 s m e l).
Proof.
  intros Hm He Hmax H52. destruct (round_aux s m e l Hm He Hmax) as (q & m' & e' & _ & _ & -> & _ & _ & _ & Hn).
  by apply Hn.
Qed.

Lemma double_of_Z_normal z : Z.abs z < 2 ^ 53 -> normal (double_of_Z z).
Proof.
  intros Hz. unfold double_of_Z.
  assert (forall s m, Zpos m < 2 ^ 53 -> normal (binary_round 53 1024 s m 0)) as Hr.
  { intros s m Hm. unfold binary_round. pose proof (Z.log2_nonneg (Zpos m)).
    assert (Z.log2 (Zpos m) < 53) as Hlog by (apply Z.log2_lt_pow2; lia).
    change (Zpos (digits2_pos m)) with (Zdigits2 (Zpos m)). rewrite Zdigits2_log2, fexp_normal by lia.
    destruct (shl_align_units m 0 (Z.log2 (Zpos m) + 1 + 0 - 53)) as (m1 & -> & Hm1); [lia | lia |].
    set (e1 := Z.min 0 _) in *. assert (Hlog1 : Z.log2 (Zpos m1) = Z.log2 (Zpos m) + (0 - e1)).
    { rewrite Hm1. rewrite Z.log2_mul_pow2 by (unfold e1; lia). lia. }
    apply aux_normal; [lia | lia | unfold excess_bits, e1 in *; lia | unfold e1 in *; lia]. }
  destruct z as [| m | m]; cbn [binary_normalize]; [done | apply Hr; lia | apply Hr; lia].
Qed.

Lemma ddiv_normal lo hi f g :
  - 400 <= lo -> lo <= hi -> hi <= 400 -> within lo hi f -> within lo hi g -> normal (ddiv f g).
Proof.
  intros Hlo Hlh Hhi Hf Hg. unfold ddiv. destruct f as [sf | sf | | sf mf ef], g as [sg | sg | | sg mg eg]; try done.
  cbn [SFdiv]. cbn in Hf, Hg. destruct Hf as [Hmf Hef], Hg as [Hmg Heg].
  destruct (SFdiv_core_binary 53 1024 (Zpos mf) ef (Zpos mg) eg) as [[q e] l] eqn:E.
  destruct (div_located mf ef mg eg q e l) as (Hq & He & Hlog & H52 & _); [lia | done | done | done |].
  pose proof (excess_bound q Hq). apply aux_normal; lia.
Qed.

Lemma dmul_normal lo hi f g :
  - 400 <= lo -> lo <= hi -> hi <= 300 -> within lo hi f -> within lo hi g -> normal f -> normal g -> normal (dmul f g).
Proof.
  intros Hlo Hlh Hhi Hf Hg Nf Ng. unfold dmul. destruct f as [sf | sf | | sf mf ef], g as [sg | sg | | sg mg eg]; try done.
  cbn [SFmul]. cbn in Hf, Hg, Nf, Ng. destruct Hf as [Hmf Hef], Hg as [Hmg Heg].
  assert (Hlog : Z.log2 (Zpos (mf * mg)) < 106).
  { apply Z.log2_lt_pow2; [lia |]. rewrite Pos2Z.inj_mul. change (2 ^ 106) with (2 ^ 53 * 2 ^ 53). apply Z.mul_lt_mono_nonneg; lia. }
  assert (104 <= Z.log2 (Zpos (mf * mg))) as H104.
  { apply Z.log2_le_pow2; [lia |]. rewrite Pos2Z.inj_mul. change (2 ^ 104) with (2 ^ 52 * 2 ^ 52). apply Z.mul_le_mono_nonneg; lia. }
  pose proof (excess_bound (Zpos (mf * mg)) ltac:(lia)). apply aux_normal; lia.
Qed.

Lemma normal_exponent lo hi f b :
  - 3000 <= lo -> - 2900 <= b -> within lo hi f -> normal f -> Z.abs (value f) < units 1 b -> within lo (b - 53) f.
Proof.
  intros Hlo Hb. destruct f as [| | | s m e]; cbn; try done. intros [Hm He] Hn Hv. split; [done |]. split; [lia |].
  enough (e + 52 < b) by lia. apply Z.lt_nge. intros Hge%(units_exp b (e + 52)); [| lia | lia].
  rewrite (units_shift 1 e 52) in Hge by lia. unfold units in *.
  assert (0 < 2 ^ (e + 3000)) by (apply Z.pow_pos_nonneg; lia). destruct s; cbn [cond_Zopp] in Hv; nia.
Qed.

(** [lround], and the saturating conversion where it does not saturate. *)
Lemma lround_between lo hi f a b :
  - 3000 <= lo -> within lo hi f -> int a <= value f <= int b -> a <= lround f <= b.
Proof.
  intros Hlo. destruct f as [s | | | s m e]; cbn [within]; try done.
  { intros _ [Ha Hb]. change (value (S754_zero s)) with (int 0) in *. pose proof (proj1 (int_le a 0) Ha). pose proof (proj1 (int_le 0 b) Hb). cbn [lround]. lia. }
  intros [Hm He]. cbn [value lround].
  set (mag := if 0 <=? e then Zpos m * 2 ^ e else _).
  assert (forall x, int x <= units (Zpos m) e -> x <= mag) as Hlow.
  { intros x Hx. unfold mag, int, units in *. destruct (Z.leb_spec 0 e) as [He0 | He0].
    - replace (e + 3000) with (e + (0 + 3000)) in Hx by lia. rewrite (Z.pow_add_r 2 e), Z.mul_assoc in Hx by lia.
      apply Z.mul_le_mono_pos_r in Hx; [done | apply Z.pow_pos_nonneg; lia].
    - replace (2 ^ (0 + 3000)) with (2 ^ (- e) * 2 ^ (e + 3000)) in Hx by (rewrite <- Z.pow_add_r by lia; f_equal; lia).
      assert (0 < 2 ^ (e + 3000)) by (apply Z.pow_pos_nonneg; lia). assert (0 < 2 ^ (- e)) by (apply Z.pow_pos_nonneg; lia).
      rewrite Z.mul_assoc in Hx. apply Z.mul_le_mono_pos_r in Hx; [| done].
      assert (0 <= 2 ^ (- e - 1)) by (apply Z.pow_nonneg; lia). apply Z.div_le_lower_bound; lia. }
  assert (forall x, units (Zpos m) e <= int x -> mag <= x) as Hhigh.
  { intros x Hx. unfold mag, int, units in *. destruct (Z.leb_spec 0 e) as [He0 | He0].
    - replace (e + 3000) with (e + (0 + 3000)) in Hx by lia. rewrite (Z.pow_add_r 2 e), Z.mul_assoc in Hx by lia.
      apply Z.mul_le_mono_pos_r in Hx; [done | apply Z.pow_pos_nonneg; lia].
    - replace (2 ^ (0 + 3000)) with (2 ^ (- e) * 2 ^ (e + 3000)) in Hx by (rewrite <- Z.pow_add_r by lia; f_equal; lia).
      assert (0 < 2 ^ (e + 3000)) by (apply Z.pow_pos_nonneg; lia). assert (0 < 2 ^ (- e)) by (apply Z.pow_pos_nonneg; lia).
      rewrite Z.mul_assoc in Hx. apply Z.mul_le_mono_pos_r in Hx; [| done].
      assert (2 ^ (- e - 1) < 2 ^ (- e)) by (apply Z.pow_lt_mono_r; lia).
      enough ((Zpos m + 2 ^ (- e - 1)) / 2 ^ (- e) < x + 1) by lia. apply Z.div_lt_upper_bound; lia. }
  clearbody mag. assert (forall x, int (- x) = - int x) as Hopp by (intros; unfold int, units; ring).
  destruct s; cbn [cond_Zopp]; intros [Ha Hb]; [| split; auto].
  specialize (Hlow (- b)). specialize (Hhigh (- a)). rewrite Hopp in *. lia.
Qed.

Lemma rounded_saturate_between lo hi f a b :
  - 3000 <= lo -> within lo hi f -> normal f -> - 2 ^ 62 <= a -> b <= 2 ^ 62 -> int a <= value f <= int b ->
  a <= rounded_saturate_int64 f <= b.
Proof.
  intros Hlo Hf Hn Ha Hb Hv.
  assert (within lo 10 f) as Hf'.
  { apply (normal_exponent lo hi f 63); try done. apply Z.le_lt_trans with (int (2 ^ 62)).
    - assert (int (- 2 ^ 62) = - int (2 ^ 62)) as Ho by (unfold int, units; ring).
      pose proof (proj2 (int_le (- 2 ^ 62) a) Ha). pose proof (proj2 (int_le b (2 ^ 62)) Hb). lia.
    - unfold int, units. apply Z.lt_le_trans with (2 ^ 63 * 2 ^ (0 + 3000)); [by apply Z.mul_lt_mono_pos_r |].
      rewrite <- Z.pow_add_r by lia. lia. }
  unfold rounded_saturate_int64, saturate_double, dgeb, dleb.
  set (m1 := dsub (dmul (double_of_Z (2 ^ (63 - 1))) (double_of_Z 2)) (double_of_Z 1)).
  assert (m1 = S754_finite false 4503599627370496 11) as -> by (by vm_compute).
  set (m2 := SFopp _). assert (m2 = S754_finite true 4503599627370496 11) as -> by (by vm_compute).
  assert (SFleb (S754_finite false 4503599627370496 11) f = false /\ SFleb f (S754_finite true 4503599627370496 11) = false)
    as [-> ->].
  { destruct f as [s | s | | s m e]; cbn in Hf'; try done. destruct Hf' as [_ [_ He]]. unfold SFleb, SFcompare.
    destruct s; split; try done.
    - by rewrite (proj2 (Z.compare_lt_iff e 11)) by lia.
    - by rewrite (proj2 (Z.compare_gt_iff 11 e)) by lia. }
  pose proof (double_trunc_between lo hi f a b Hlo Hf Hv). pose proof (lround_between lo hi f a b Hlo Hf Hv).
  by destruct (_ || _).
Qed.
