(* ===== verification/OrderedMap.v ===== *)
(** Maps kept in the order of their keys (std::map), as association lists.

    [map_find], [map_set], [map_erase] and [map_begin] are [find], assignment
    through [operator[]], [erase] of a key and [begin]; erasing the first entry is
    [tail]. *)

From S2P Require Import Prelude.

(** The order of a key type. *)
Class KeyOrder (K : Type) := {
  kcmp : K -> K -> comparison;
  kcmp_eq a b : kcmp a b = Eq <-> a = b;
  kcmp_opp a b : kcmp b a = CompOpp (kcmp a b);
  kcmp_trans a b c : kcmp a b = Lt -> kcmp b c = Lt -> kcmp a c = Lt }.

#[export] Program Instance Z_KeyOrder : KeyOrder Z := {| kcmp := Z.compare |}.
Next Obligation. apply Z.compare_eq_iff. Qed.
Next Obligation. apply Z.compare_antisym. Qed.
Next Obligation. intros a b c. rewrite !Z.compare_lt_iff. lia. Qed.

(** Pairs are ordered by their first components, then by their second. *)
Definition pair_cmp {A B} `{KeyOrder A, KeyOrder B} (x y : A * B) : comparison :=
  match kcmp x.1 y.1 with Eq => kcmp x.2 y.2 | c => c end.

#[export] Program Instance pair_KeyOrder {A B} `{KeyOrder A, KeyOrder B} : KeyOrder (A * B) := {| kcmp := pair_cmp |}.
Next Obligation.
  intros A B HA HB [a b] [c d]. unfold pair_cmp. cbn. pose proof (kcmp_eq a c). pose proof (kcmp_eq b d).
  destruct (kcmp a c); naive_solver.
Qed.
Next Obligation.
  intros A B HA HB [a b] [c d]. unfold pair_cmp. cbn. rewrite (kcmp_opp a c), (kcmp_opp b d). by destruct (kcmp a c).
Qed.
Next Obligation.
  intros A B HA HB [a b] [c d] [e f]. unfold pair_cmp. cbn. intros H1 H2. destruct (kcmp a c) eqn:E1; try done.
  - apply kcmp_eq in E1 as ->. destruct (kcmp c e) eqn:E2; try done. by eapply kcmp_trans.
  - destruct (kcmp c e) eqn:E2; try done.
    + apply kcmp_eq in E2 as <-. by rewrite E1.
    + by rewrite (kcmp_trans a c e).
Qed.

(** Lists are ordered as words of a dictionary. *)
Fixpoint list_cmp {A} `{KeyOrder A} (k l : list A) : comparison :=
  match k, l with
  | [], [] => Eq
  | [], _ :: _ => Lt
  | _ :: _, [] => Gt
  | a :: k, b :: l => match kcmp a b with Eq => list_cmp k l | c => c end
  end.

#[export] Program Instance list_KeyOrder {A} `{KeyOrder A} : KeyOrder (list A) := {| kcmp := list_cmp |}.
Next Obligation.
  intros A HA k. induction k as [| a k IH]; intros [| b l]; cbn; try done. pose proof (kcmp_eq a b). specialize (IH l).
  destruct (kcmp a b); naive_solver.
Qed.
Next Obligation.
  intros A HA k. induction k as [| a k IH]; intros [| b l]; cbn; try done. rewrite (kcmp_opp a b), IH. by destruct (kcmp a b).
Qed.
Next Obligation.
  intros A HA k. induction k as [| a k IH]; intros [| b l] [| c m]; cbn; try done. intros H1 H2.
  destruct (kcmp a b) eqn:E1; try done.
  - apply kcmp_eq in E1 as ->. destruct (kcmp b c); try done. by eapply IH.
  - destruct (kcmp b c) eqn:E2; try done.
    + apply kcmp_eq in E2 as <-. by rewrite E1.
    + by rewrite (kcmp_trans a b c).
Qed.

(** An enumeration is ordered by its values. *)
Definition KeyOrder_by {K} (index : K -> Z) (H : forall a b, index a = index b -> a = b) : KeyOrder K.
Proof.
  refine {| kcmp a b := Z.compare (index a) (index b) |}; intros.
  - rewrite Z.compare_eq_iff. naive_solver.
  - apply Z.compare_antisym.
  - revert H0 H1. rewrite !Z.compare_lt_iff. lia.
Defined.

Section OrderedMap.
Context {K V : Type} `{KeyOrder K}.
Implicit Types (m : list (K * V)) (k : K) (v : V).

Fixpoint map_find k m : option V :=
  match m with
  | [] => None
  | (k', v) :: m => if kcmp k k' is Eq then Some v else map_find k m
  end.

Fixpoint map_set k v m : list (K * V) :=
  match m with
  | [] => [(k, v)]
  | (k', v') :: m =>
      match kcmp k k' with
      | Lt => (k, v) :: (k', v') :: m
      | Eq => (k, v) :: m
      | Gt => (k', v') :: map_set k v m
      end
  end.

Fixpoint map_erase k m : list (K * V) :=
  match m with
  | [] => []
  | (k', v') :: m => if kcmp k k' is Eq then m else (k', v') :: map_erase k m
  end.

Definition map_begin m : option (K * V) := head m.

(** ** The order of the keys *)

Definition ordered m : Prop := StronglySorted (fun a b => kcmp a.1 b.1 = Lt) m.

Lemma kcmp_refl k : kcmp k k = Eq.
Proof. by apply kcmp_eq. Qed.

Lemma map_find_set k v m k' : map_find k' (map_set k v m) = if kcmp k' k is Eq then Some v else map_find k' m.
Proof.
  induction m as [| [a b] m IH]; cbn; [done |]. destruct (kcmp k a) eqn:E; cbn.
  - apply kcmp_eq in E as ->. by destruct (kcmp k' a).
  - done.
  - rewrite IH. destruct (kcmp k' a) eqn:E'; try done. apply kcmp_eq in E' as ->.
    rewrite (kcmp_opp k a), E. done.
Qed.

Lemma map_find_set_eq k v m : map_find k (map_set k v m) = Some v.
Proof. by rewrite map_find_set, kcmp_refl. Qed.

Lemma map_find_set_ne k v m k' : k' <> k -> map_find k' (map_set k v m) = map_find k' m.
Proof. intros Hne. rewrite map_find_set. destruct (kcmp k' k) eqn:E; try done. by apply kcmp_eq in E. Qed.

Lemma map_find_erase_ne k m k' : k' <> k -> map_find k' (map_erase k m) = map_find k' m.
Proof.
  intros Hne. induction m as [| [a b] m IH]; cbn; [done |]. destruct (kcmp k a) eqn:E; cbn; rewrite ?IH; try done.
  apply kcmp_eq in E as ->. destruct (kcmp k' a) eqn:E; try done. by apply kcmp_eq in E.
Qed.

Lemma map_find_elem k v m : map_find k m = Some v -> (k, v) ∈ m.
Proof.
  induction m as [| [a b] m IH]; cbn; [done |]. destruct (kcmp k a) eqn:E; intros Hf; [| set_solver ..].
  apply kcmp_eq in E as ->. injection Hf as ->. set_solver.
Qed.

Lemma map_find_None k m : map_find k m = None <-> Forall (fun kv => kcmp k kv.1 <> Eq) m.
Proof.
  induction m as [| [a b] m IH]; cbn; [by split |]. rewrite Forall_cons, <- IH. cbn.
  destruct (kcmp k a); naive_solver.
Qed.

Lemma map_set_elem k v m kv : kv ∈ map_set k v m -> kv = (k, v) \/ kv ∈ m.
Proof.
  induction m as [| [a b] m IH]; cbn; [set_solver |]. destruct (kcmp k a); set_solver.
Qed.

Lemma map_erase_elem k m kv : kv ∈ map_erase k m -> kv ∈ m.
Proof. induction m as [| [a b] m IH]; cbn; [done |]. destruct (kcmp k a); set_solver. Qed.

Lemma ordered_set k v m : ordered m -> ordered (map_set k v m).
Proof.
  intros Ho. induction Ho as [| [a b] m Hm IH Hall]; cbn; [repeat constructor |].
  destruct (kcmp k a) eqn:E; cbn.
  - apply kcmp_eq in E as ->. by constructor.
  - constructor; [by constructor |]. constructor; [done |]. eapply Forall_impl; [exact Hall |]. cbn. intros [c d] Hc.
    by eapply kcmp_trans.
  - constructor; [done |]. apply Forall_forall. intros kv Hkv. apply map_set_elem in Hkv as [-> | Hkv].
    + cbn. by rewrite kcmp_opp, E.
    + by eapply Forall_forall in Hall.
Qed.

Lemma ordered_erase k m : ordered m -> ordered (map_erase k m).
Proof.
  intros Ho. induction Ho as [| [a b] m Hm IH Hall]; cbn; [constructor |]. destruct (kcmp k a); try done;
    (constructor; [done |]); apply Forall_forall; intros kv Hkv; apply map_erase_elem in Hkv;
    by eapply Forall_forall in Hall.
Qed.

Lemma ordered_tail m : ordered m -> ordered (tail m).
Proof. by intros [| kv m' Hm Hall]; [constructor | cbn]. Qed.

(** A key erased from an ordered map is gone. *)
Lemma map_find_erase_eq k m : ordered m -> map_find k (map_erase k m) = None.
Proof.
  intros Ho. induction Ho as [| [a b] m Hm IH Hall]; cbn; [done |]. destruct (kcmp k a) eqn:E; cbn; rewrite ?E; try done.
  apply kcmp_eq in E as ->. apply map_find_None. eapply Forall_impl; [exact Hall |]. cbn. intros kv ->. done.
Qed.

Lemma elem_map_find k v m : ordered m -> (k, v) ∈ m -> map_find k m = Some v.
Proof.
  intros Ho. induction Ho as [| [a b] m Hm IH Hall]; cbn; [set_solver |]. intros [[= -> ->] | Hin]%elem_of_cons.
  - by rewrite kcmp_refl.
  - eapply Forall_forall in Hall; [| exact Hin]. cbn in Hall. rewrite kcmp_opp, Hall. cbn. by apply IH.
Qed.

(** ** Sizes *)

Lemma length_set k v m : (length (map_set k v m) <= S (length m))%nat.
Proof. induction m as [| [a b] m IH]; cbn; [lia |]. destruct (kcmp k a); cbn; lia. Qed.

Lemma length_set_found k v m : is_Some (map_find k m) -> ordered m -> length (map_set k v m) = length m.
Proof.
  intros Hf Ho. induction Ho as [| [a b] m Hm IH Hall]; cbn in *; [by destruct Hf |].
  destruct (kcmp k a) eqn:E; cbn; [done | | by rewrite IH].
  exfalso. destruct Hf as [w Hw]. apply map_find_elem in Hw. eapply Forall_forall in Hall; [| exact Hw]. cbn in Hall.
  by rewrite kcmp_opp, E in Hall.
Qed.

Lemma length_erase k m : (length (map_erase k m) <= length m)%nat.
Proof. induction m as [| [a b] m IH]; cbn; [lia |]. destruct (kcmp k a); cbn; lia. Qed.

Lemma length_erase_found k m : is_Some (map_find k m) -> S (length (map_erase k m)) = length m.
Proof.
  induction m as [| [a b] m IH]; cbn; [by intros [] |]. destruct (kcmp k a); cbn; intros Hf; rewrite ?IH; done.
Qed.
End OrderedMap.

#[global] Hint Mode KeyOrder ! : typeclass_instances.
Create HintDb omap.
#[export] Hint Resolve ordered_set ordered_erase ordered_tail : omap.
