(* ===== verification/Wire.v ===== *)
(** Big-endian integers (util/big_endian.h) and the field-by-field readers and
    writers of cast/streaming/impl/packet_util.h. *)

From S2P Require Import Prelude.

(** * Byte order *)

(** The [n] bytes of [v], most significant first, and their value. *)
Fixpoint be_encode (n : nat) (v : Z) : list Z :=
  match n with
  | O => []
  | S m => u8 (Z.shiftr v (8 * Z.of_nat m)) :: be_encode m v
  end.
Definition be_decode (bs : list Z) : Z :=
  foldl (fun acc b => Z.lor (Z.shiftl acc 8) b) 0 bs.

(** What the code does on either architecture: the value's bytes in memory
    order, and [ByteSwap], which reverses them. *)
Inductive arch := LittleEndianArch | BigEndianArch.
Definition IsBigEndianArchitecture (a : arch) : bool :=
  match a with BigEndianArch => true | LittleEndianArch => false end.
Fixpoint le_bytes (n : nat) (v : Z) : list Z :=
  match n with O => [] | S m => u8 v :: le_bytes m (Z.shiftr v 8) end.
Fixpoint le_value (bs : list Z) : Z :=
  match bs with [] => 0 | b :: r => Z.lor b (Z.shiftl (le_value r) 8) end.
Definition store (a : arch) (n : nat) (v : Z) : list Z :=
  if IsBigEndianArchitecture a then reverse (le_bytes n v) else le_bytes n v.
Definition load (a : arch) (bs : list Z) : Z :=
  if IsBigEndianArchitecture a then le_value (reverse bs) else le_value bs.
Definition ByteSwap (n : nat) (x : Z) : Z := le_value (reverse (le_bytes n x)).
Definition WriteBigEndian (a : arch) (n : nat) (val : Z) : list Z :=
  store a n (if IsBigEndianArchitecture a then val else ByteSwap n val).
Definition ReadBigEndian (a : arch) (bs : list Z) : Z :=
  let result := load a bs in
  if IsBigEndianArchitecture a then result else ByteSwap (length bs) result.

(** * Reading *)

(** [ConsumeField<Integer>] for an [n]-byte unsigned integer. *)
Definition ConsumeField (n : nat) (buf : list Z) : outcome (Z * list Z) :=
  if (n <=? length buf)%nat then Ret (be_decode (take n buf), drop n buf)
  else Fault OutOfBounds.

(** [subspan(k)]. *)
Definition subspan (k : Z) (buf : list Z) : outcome (list Z) :=
  if k <=? zlen buf then Ret (drop (Z.to_nat k) buf) else Fault OutOfBounds.

(** [subspan(0, k)]. *)
Definition subspan_first (k : Z) (buf : list Z) : outcome (list Z) :=
  if k <=? zlen buf then Ret (take (Z.to_nat k) buf) else Fault OutOfBounds.

(** * Writing

    A [ByteBuffer] being filled from its start: the bytes written so far and
    the number of bytes left.  Reserved space holds zeros until it is filled. *)

Record ByteBuffer := mkBuffer { written : list Z; room : Z }.
#[export] Instance eta_ByteBuffer : Eta ByteBuffer :=
  fun b => mkBuffer (written b) (room b).

Definition new_buffer (size : Z) : ByteBuffer := mkBuffer [] size.

Definition append_bytes (bs : list Z) (b : ByteBuffer) : outcome ByteBuffer :=
  if zlen bs <=? room b then Ret (mkBuffer (written b ++ bs) (room b - zlen bs))
  else Fault OutOfBounds.

Definition AppendField (n : nat) (value : Z) (b : ByteBuffer) : outcome ByteBuffer :=
  append_bytes (be_encode n value) b.

(** [ReserveSpace] returns the offset of the reserved bytes. *)
Definition ReserveSpace (num_bytes : Z) (b : ByteBuffer) : outcome (Z * ByteBuffer) :=
  b' ← append_bytes (replicate (Z.to_nat num_bytes) 0) b;
  Ret (zlen (written b), b').

(** Overwriting bytes at an offset that was reserved. *)
Definition fill (off : Z) (bs : list Z) (l : list Z) : list Z :=
  take (Z.to_nat off) l ++ bs ++ drop (Z.to_nat off + length bs) l.
Definition fill_at (off : Z) (bs : list Z) (b : ByteBuffer) : ByteBuffer :=
  b <| written := fill off bs (written b) |>.

(** * Lemmas *)

Lemma length_be_encode n v : length (be_encode n v) = n.
Proof. induction n; simpl; congruence. Qed.

Lemma zlen_be_encode n v : zlen (be_encode n v) = Z.of_nat n.
Proof. unfold zlen. by rewrite length_be_encode. Qed.

Lemma be_encode_1 v : be_encode 1 v = [u8 v].
Proof. cbn [be_encode]. change (8 * Z.of_nat 0) with 0. by rewrite Z.shiftr_0_r. Qed.

Lemma be_encode_bytes n v : bytes_ok (be_encode n v).
Proof. induction n; constructor; [by apply wrap_is_u | done]. Qed.

Lemma be_decode_app bs b :
  be_decode (bs ++ [b]) = Z.lor (Z.shiftl (be_decode bs) 8) b.
Proof. unfold be_decode. by rewrite foldl_app. Qed.

Lemma foldl_be_shift bs acc :
  bytes_ok bs ->
  foldl (fun acc b => Z.lor (Z.shiftl acc 8) b) acc bs
  = acc * 2 ^ (8 * zlen bs) + be_decode bs.
Proof.
  intros Hok. revert acc. induction Hok as [| b bs Hb Hbs IH]; intros acc.
  - simpl. unfold zlen; simpl. unfold be_decode; simpl. lia.
  - unfold be_decode. simpl foldl. rewrite IH.
    rewrite (IH (Z.lor (Z.shiftl 0 8) b)).
    rewrite !(lor_shiftl_add _ b 8) by (done || lia).
    autorewrite with zlen.
    replace (8 * (1 + zlen bs)) with (8 + 8 * zlen bs) by lia.
    rewrite Z.pow_add_r by (pose proof (zlen_nonneg bs); lia). lia.
Qed.

Lemma be_decode_cons b bs :
  is_u 8 b -> bytes_ok bs ->
  be_decode (b :: bs) = b * 2 ^ (8 * zlen bs) + be_decode bs.
Proof. intros. unfold be_decode at 1. simpl. by apply foldl_be_shift. Qed.

Lemma be_decode_bound bs : bytes_ok bs -> is_u (8 * zlen bs) (be_decode bs).
Proof.
  induction 1 as [| b bs Hb Hbs IH]; [done |].
  rewrite be_decode_cons by done. autorewrite with zlen. unfold is_u in *.
  pose proof (zlen_nonneg bs).
  replace (8 * (1 + zlen bs)) with (8 + 8 * zlen bs) by lia.
  rewrite Z.pow_add_r by lia. nia.
Qed.

Lemma be_decode_encode n v : be_decode (be_encode n v) = wrap (8 * Z.of_nat n) v.
Proof.
  induction n as [| n IH]; [unfold wrap; by rewrite Z.mod_1_r |].
  cbn [be_encode]. rewrite be_decode_cons by (apply wrap_is_u; lia) || apply be_encode_bytes.
  rewrite IH, zlen_be_encode. unfold wrap. rewrite Z.shiftr_div_pow2 by lia.
  replace (8 * Z.of_nat (S n)) with (8 * Z.of_nat n + 8) by lia.
  rewrite Z.pow_add_r by lia. rewrite Z.rem_mul_r by lia. lia.
Qed.

Lemma be_encode_decode bs : bytes_ok bs -> be_encode (length bs) (be_decode bs) = bs.
Proof.
  intros Hok. revert Hok. cut (forall hi, bytes_ok bs ->
    be_encode (length bs) (hi * 2 ^ (8 * zlen bs) + be_decode bs) = bs).
  { intros H Hok. specialize (H 0 Hok). by rewrite Z.mul_0_l in H. }
  induction bs as [| b bs IH]; intros hi Hok; [done |].
  apply Forall_cons in Hok as [Hb Hbs]. pose proof (be_decode_bound bs Hbs) as Hbound.
  pose proof (zlen_nonneg bs). cbn [length be_encode].
  rewrite be_decode_cons by done. f_equal.
  - rewrite Z.shiftr_div_pow2 by lia. fold (zlen bs). autorewrite with zlen.
    replace (8 * (1 + zlen bs)) with (8 + 8 * zlen bs) by lia.
    rewrite Z.pow_add_r by lia. unfold is_u in *.
    replace (hi * (2 ^ 8 * 2 ^ (8 * zlen bs)) + (b * 2 ^ (8 * zlen bs) + be_decode bs))
      with ((hi * 2 ^ 8 + b) * 2 ^ (8 * zlen bs) + be_decode bs) by lia.
    rewrite Z.div_add_l, Z.div_small, Z.add_0_r by lia.
    unfold wrap. rewrite Z.add_comm, Z.mod_add by lia. by apply Z.mod_small.
  - specialize (IH (hi * 2 ^ 8 + b) Hbs). etrans; [| exact IH]. f_equal.
    autorewrite with zlen. replace (8 * (1 + zlen bs)) with (8 + 8 * zlen bs) by lia.
    rewrite Z.pow_add_r by lia. lia.
Qed.

Lemma be_encode_wrap n v : be_encode n (wrap (8 * Z.of_nat n) v) = be_encode n v.
Proof.
  rewrite <- be_decode_encode. rewrite <- (length_be_encode n v) at 1.
  apply be_encode_decode, be_encode_bytes.
Qed.

Lemma be_decode_encode_small n v :
  is_u (8 * Z.of_nat n) v -> be_decode (be_encode n v) = v.
Proof. intros. rewrite be_decode_encode. by apply wrap_small. Qed.

(** Memory order and byte swapping cancel: both architectures write the
    most significant byte first, and read it back. *)
Lemma length_le_bytes n v : length (le_bytes n v) = n.
Proof. revert v. induction n; intros; simpl; congruence. Qed.

Lemma be_encode_le_bytes n v : be_encode n v = reverse (le_bytes n v).
Proof.
  revert v. induction n as [| n IH]; intros v; [done |].
  cbn [le_bytes]. rewrite reverse_cons, <- IH. clear IH.
  revert v. induction n as [| n IH]; intros v.
  { cbn [be_encode app]. change (8 * Z.of_nat 0) with 0. by rewrite Z.shiftr_0_r. }
  change (be_encode (S n) (Z.shiftr v 8))
    with (u8 (Z.shiftr (Z.shiftr v 8) (8 * Z.of_nat n)) :: be_encode n (Z.shiftr v 8)).
  cbn [app]. rewrite <- IH. cbn [be_encode]. f_equal. f_equal.
  rewrite Z.shiftr_shiftr by lia. f_equal. lia.
Qed.

Lemma le_value_reverse bs : le_value bs = be_decode (reverse bs).
Proof.
  induction bs as [| b bs IH]; [done |].
  rewrite reverse_cons, be_decode_app, <- IH. simpl. apply Z.lor_comm.
Qed.

Lemma le_bytes_ok n v : bytes_ok (le_bytes n v).
Proof. revert v. induction n as [|n IH]; intros v; cbn [le_bytes]; constructor; [by apply wrap_is_u | apply IH]. Qed.

Lemma le_bytes_le_value bs : bytes_ok bs -> le_bytes (length bs) (le_value bs) = bs.
Proof.
  intros Hok. rewrite le_value_reverse.
  apply (inj reverse). rewrite <- be_encode_le_bytes.
  rewrite <- (length_reverse bs). apply be_encode_decode. by apply Forall_reverse.
Qed.

Lemma ByteSwap_bytes n v : le_bytes n (ByteSwap n v) = reverse (le_bytes n v).
Proof.
  unfold ByteSwap. rewrite <- (length_le_bytes n v) at 1. rewrite <- length_reverse.
  apply le_bytes_le_value, Forall_reverse, le_bytes_ok.
Qed.

Lemma WriteBigEndian_be a n v : WriteBigEndian a n v = be_encode n v.
Proof.
  rewrite be_encode_le_bytes. destruct a; unfold WriteBigEndian, store; simpl; [| done].
  apply ByteSwap_bytes.
Qed.

Lemma ReadBigEndian_be a bs : bytes_ok bs -> ReadBigEndian a bs = be_decode bs.
Proof.
  intros Hok. destruct a; unfold ReadBigEndian, load; simpl;
    rewrite ?le_value_reverse, ?reverse_involutive; [| done].
  unfold ByteSwap. rewrite <- le_value_reverse, le_bytes_le_value by done.
  by rewrite le_value_reverse, reverse_involutive.
Qed.

(** Readers. *)
Lemma ConsumeField_app n pre rest :
  length pre = n -> ConsumeField n (pre ++ rest) = Ret (be_decode pre, rest).
Proof.
  intros <-. unfold ConsumeField. rewrite length_app.
  rewrite (proj2 (Nat.leb_le _ _)) by lia. by rewrite take_app_length, drop_app_length.
Qed.

Lemma ConsumeField_encode n v rest :
  ConsumeField n (be_encode n v ++ rest) = Ret (wrap (8 * Z.of_nat n) v, rest).
Proof. rewrite ConsumeField_app by apply length_be_encode. by rewrite be_decode_encode. Qed.

Lemma ConsumeField_ok n buf :
  (n <= length buf)%nat -> ConsumeField n buf = Ret (be_decode (take n buf), drop n buf).
Proof. intros. unfold ConsumeField. by rewrite (proj2 (Nat.leb_le _ _)). Qed.

Lemma ConsumeField_short n buf : zlen buf < Z.of_nat n -> ConsumeField n buf = Fault OutOfBounds.
Proof.
  unfold zlen, ConsumeField. intros Hlen. by rewrite (proj2 (Nat.leb_gt _ _)) by lia.
Qed.

Lemma ConsumeField_Ret n buf v rest :
  ConsumeField n buf = Ret (v, rest) ->
  zlen buf = Z.of_nat n + zlen rest /\ (bytes_ok buf -> is_u (8 * Z.of_nat n) v /\ bytes_ok rest).
Proof.
  unfold ConsumeField. destruct (Nat.leb_spec n (length buf)) as [Hle | Hle]; [| done].
  intros [= <- <-]. unfold zlen. rewrite length_drop. split; [lia |].
  intros Hok. split; [| by apply Forall_drop].
  pose proof (be_decode_bound (take n buf) (Forall_take _ _ _ Hok)) as Hb.
  unfold zlen in Hb. rewrite length_take in Hb. by rewrite Nat.min_l in Hb by lia.
Qed.

Lemma subspan_app pre rest : subspan (zlen pre) (pre ++ rest) = Ret rest.
Proof.
  unfold subspan. rewrite (proj2 (Z.leb_le _ _)) by (autorewrite with zlen; pose proof (zlen_nonneg rest); lia).
  unfold zlen. by rewrite Nat2Z.id, drop_app_length.
Qed.

Lemma subspan_first_app pre rest : subspan_first (zlen pre) (pre ++ rest) = Ret pre.
Proof.
  unfold subspan_first. rewrite (proj2 (Z.leb_le _ _)) by (autorewrite with zlen; pose proof (zlen_nonneg rest); lia).
  unfold zlen. by rewrite Nat2Z.id, take_app_length.
Qed.

(** Writers. *)
Lemma append_bytes_ok bs b :
  zlen bs <= room b -> append_bytes bs b = Ret (mkBuffer (written b ++ bs) (room b - zlen bs)).
Proof. intros. unfold append_bytes. by rewrite (proj2 (Z.leb_le _ _)). Qed.

Lemma AppendField_ok n v b :
  Z.of_nat n <= room b ->
  AppendField n v b = Ret (mkBuffer (written b ++ be_encode n v) (room b - Z.of_nat n)).
Proof.
  intros. unfold AppendField. rewrite append_bytes_ok; rewrite zlen_be_encode; done.
Qed.

Lemma fill_reserved pre z bs post :
  length z = length bs -> fill (zlen pre) bs (pre ++ z ++ post) = pre ++ bs ++ post.
Proof.
  intros Hz. unfold fill, zlen. rewrite Nat2Z.id, take_app_length. do 2 f_equal.
  rewrite drop_app_add. rewrite <- Hz. apply drop_app_length.
Qed.

#[export] Hint Rewrite zlen_be_encode : zlen.

(** Readers return whenever the span is long enough. *)
Lemma ConsumeField_total n buf :
  Z.of_nat n <= zlen buf ->
  exists v rest, ConsumeField n buf = Ret (v, rest) /\ zlen rest = zlen buf - Z.of_nat n
    /\ (bytes_ok buf -> is_u (8 * Z.of_nat n) v /\ bytes_ok rest).
Proof.
  intros Hlen. unfold zlen in Hlen.
  eexists _, _. split; [apply ConsumeField_ok; lia |].
  assert (ConsumeField n buf = Ret (be_decode (take n buf), drop n buf)) as H
    by (apply ConsumeField_ok; lia).
  apply ConsumeField_Ret in H as [H1 H2]. split; [lia | done].
Qed.

Lemma subspan_total k buf :
  0 <= k <= zlen buf ->
  exists rest, subspan k buf = Ret rest /\ zlen rest = zlen buf - k
    /\ (bytes_ok buf -> bytes_ok rest).
Proof.
  intros Hk. unfold subspan. rewrite (proj2 (Z.leb_le _ _)) by lia.
  eexists. split; [done |]. unfold zlen in *. rewrite length_drop. split; [lia |].
  intros Hok. by apply Forall_drop.
Qed.

Lemma subspan_first_total k buf :
  0 <= k <= zlen buf ->
  exists l, subspan_first k buf = Ret l /\ zlen l = k /\ (bytes_ok buf -> bytes_ok l).
Proof.
  intros Hk. unfold subspan_first. rewrite (proj2 (Z.leb_le _ _)) by lia.
  eexists. split; [done |]. unfold zlen in *. rewrite length_take. split; [lia |].
  intros Hok. by apply Forall_take.
Qed.

#[global] Opaque be_encode be_decode ConsumeField AppendField append_bytes
  ReserveSpace subspan subspan_first.
#[global] Arguments fill : simpl never.

(** One step of a reader whose input starts with an encoded field, and of a
    writer with enough room. *)
Ltac read_field := rewrite ConsumeField_encode; simpl.
Ltac write_field :=
  rewrite AppendField_ok by (simpl; change (Z.of_nat 1) with 1 in *; lia); simpl.

(** The same steps when only the length of the input is known. *)
Ltac read_any_with tac :=
  match goal with
  | |- context [ConsumeField ?n ?b] =>
      let v := fresh "v" in let r := fresh "rest" in
      let Hl := fresh "Hlen" in let Hok := fresh "Hok" in
      destruct (ConsumeField_total n b) as (v & r & -> & Hl & Hok); [lia |]; tac ()
  | |- context [subspan ?k ?b] =>
      let r := fresh "rest" in let Hl := fresh "Hlen" in let Hok := fresh "Hok" in
      destruct (subspan_total k b) as (r & -> & Hl & Hok); [lia |]; tac ()
  | |- context [subspan_first ?k ?b] =>
      let r := fresh "rest" in let Hl := fresh "Hlen" in let Hok := fresh "Hok" in
      destruct (subspan_first_total k b) as (r & -> & Hl & Hok); [lia |]; tac ()
  end.
Ltac read_any := read_any_with ltac:(fun _ => simpl).
(** Without simplifying the continuation. *)
Ltac read_any_only := read_any_with ltac:(fun _ => cbn [mbind outcome_bind]).

(** Both architectures put the same bytes on the wire, and a value written
    by one and read by the other comes back truncated to its width. *)
Theorem big_endian_portable (a b : arch) (n : nat) (v : Z) :
  WriteBigEndian a n v = WriteBigEndian b n v
  /\ ReadBigEndian b (WriteBigEndian a n v) = wrap (8 * Z.of_nat n) v.
Proof.
  rewrite !WriteBigEndian_be. split; [done |].
  rewrite ReadBigEndian_be by apply be_encode_bytes. apply be_decode_encode.
Qed.
