(* ===== verification/Ids.v ===== *)
(** Frame identifiers, RTP timestamps and SSRCs: the bit-truncation and
    re-expansion of cast/streaming/impl/expanded_value_base.h, and the types
    built on it (cast/streaming/public/frame_id.h, cast/streaming/rtp_time.h,
    cast/streaming/ssrc.h).

    A value of these types is its 64-bit signed integer.  Signed overflow is
    undefined in C++; the arithmetic here is exact and the theorems that need
    it bound their inputs. *)

From S2P Require Import Prelude Numeric.

(** * ExpandedValueBase, with [w] the width of the short unsigned type *)

Definition lower_8_bits (value : Z) : Z := u8 value.
Definition lower_16_bits (value : Z) : Z := u16 value.
Definition lower_32_bits (value : Z) : Z := u32 value.

Definition short_max (w : Z) : Z := 2 ^ w - 1.

Definition ExpandLessThanOrEqual (w value x : Z) : Z :=
  let result := Z.lor (Z.land value (Z.lnot (short_max w))) x in
  if value <? result then result - (short_max w + 1) else result.

Definition ExpandGreaterThan (w value x : Z) : Z :=
  ExpandLessThanOrEqual w (value + short_max w + 1) x.

Definition max_distance_for_expansion (w : Z) : Z := Z.quot (short_max w) 2.

Definition Expand (w value x : Z) : Z :=
  ExpandLessThanOrEqual w (value + max_distance_for_expansion w) x.

(** * FrameId *)

Abbreviation FrameId := Z (only parsing).
Definition null_frame_id : FrameId := INT64_MIN.
Definition is_null (f : FrameId) : bool := f =? null_frame_id.
Definition first_frame_id : FrameId := 0.
Definition leader_frame_id : FrameId := -1.

(** * RtpTimeDelta and RtpTimeTicks *)

Definition ToDuration (ticks rtp_timebase : Z) : outcome Z :=
  OSP_CHECK (0 <? rtp_timebase) ;;
  Ret (rounded_saturate_int64
         (dmul (ddiv (double_of_Z ticks) (double_of_Z rtp_timebase))
               (double_of_Z 1000000))).

Definition FromDuration (duration rtp_timebase : Z) : Z :=
  rounded_saturate_int64
    (dmul (ddiv (double_of_Z duration) (double_of_Z 1000000))
          (double_of_Z rtp_timebase)).

Example ToDuration_examples :
  ToDuration 90000 90000 = Ret 1000000 /\ ToDuration (-1) 90000 = Ret (-11)
  /\ FromDuration 33333 90000 = 3000 /\ ToDuration 5 0 = Fault CheckFailed.
Proof. vm_compute. auto. Qed.

(** * Ssrc *)

Definition kNullSsrc : Z := 0.
Definition ComparePriority (ssrc_a ssrc_b : Z) : Z := swrap 32 ssrc_a - swrap 32 ssrc_b.

(** * Properties of the expansions *)

#[global] Arguments ExpandLessThanOrEqual : simpl never.
#[global] Arguments ExpandGreaterThan : simpl never.
#[global] Arguments Expand : simpl never.

Lemma short_max_ones w : 0 <= w -> short_max w = Z.ones w.
Proof. intros. unfold short_max. rewrite Z.ones_equiv. lia. Qed.

Lemma pow2_pos w : 0 <= w -> 0 < 2 ^ w.
Proof. intros. by apply Z.pow_pos_nonneg. Qed.

Lemma ExpandLessThanOrEqual_range w value x :
  0 <= w -> is_u w x ->
  let r := ExpandLessThanOrEqual w value x in
  value - 2 ^ w < r <= value /\ r mod 2 ^ w = x.
Proof.
  intros Hw Hx. cbv zeta. unfold ExpandLessThanOrEqual.
  rewrite short_max_ones, lor_clear_low by done.
  rewrite Z.ones_equiv. pose proof (pow2_pos w Hw). unfold is_u in Hx.
  pose proof (Z.div_mod value (2 ^ w) ltac:(lia)).
  pose proof (Z.mod_pos_bound value (2 ^ w) ltac:(lia)).
  destruct (Z.ltb_spec value (value / 2 ^ w * 2 ^ w + x)).
  - split; [nia |].
    replace (value / 2 ^ w * 2 ^ w + x - (Z.pred (2 ^ w) + 1))
      with (x + (value / 2 ^ w - 1) * 2 ^ w) by lia.
    rewrite Z.mod_add by lia. by apply Z.mod_small.
  - split; [nia |]. rewrite Z.add_comm, Z.mod_add by lia. by apply Z.mod_small.
Qed.

(** Two values with the same low bits, less than a period apart, are equal. *)
Lemma mod_window_unique w a b lo :
  0 <= w -> a mod 2 ^ w = b mod 2 ^ w ->
  lo < a <= lo + 2 ^ w -> lo < b <= lo + 2 ^ w -> a = b.
Proof.
  intros Hw He Ha Hb. pose proof (pow2_pos w Hw).
  pose proof (Z.div_mod a (2 ^ w) ltac:(lia)). pose proof (Z.div_mod b (2 ^ w) ltac:(lia)).
  assert (a / 2 ^ w = b / 2 ^ w) by nia. nia.
Qed.

(** Re-expanding the low bits of [v] gives [v] back when the reference is the
    greatest value [v] could have had. *)
Lemma ExpandLessThanOrEqual_recovers w value v :
  0 <= w -> value - 2 ^ w < v <= value ->
  ExpandLessThanOrEqual w value (wrap w v) = v.
Proof.
  intros Hw Hv.
  destruct (ExpandLessThanOrEqual_range w value (wrap w v) Hw (wrap_is_u w v Hw)) as [Hr Hm].
  apply (mod_window_unique w _ _ (value - 2 ^ w)); [done | | lia | lia].
  rewrite Hm. unfold wrap. done.
Qed.

Lemma ExpandGreaterThan_recovers w value v :
  0 <= w -> value < v <= value + 2 ^ w ->
  ExpandGreaterThan w value (wrap w v) = v.
Proof.
  intros Hw Hv. unfold ExpandGreaterThan, short_max.
  apply ExpandLessThanOrEqual_recovers; lia.
Qed.

Lemma ExpandGreaterThan_range w value x :
  0 <= w -> is_u w x ->
  let r := ExpandGreaterThan w value x in
  value < r <= value + 2 ^ w /\ r mod 2 ^ w = x.
Proof.
  intros Hw Hx. cbv zeta. unfold ExpandGreaterThan, short_max.
  destruct (ExpandLessThanOrEqual_range w (value + (2 ^ w - 1) + 1) x Hw Hx). split; lia.
Qed.

Lemma max_distance_half w : 0 < w -> max_distance_for_expansion w = 2 ^ (w - 1) - 1.
Proof.
  intros Hw. unfold max_distance_for_expansion, short_max.
  pose proof (pow2_pos (w - 1) ltac:(lia)).
  assert (2 ^ w = 2 * 2 ^ (w - 1)) as Hp by (rewrite <- Z.pow_succ_r by lia; f_equal; lia).
  rewrite Z.quot_div_nonneg by lia. Z.div_mod_to_equations. lia.
Qed.

(** [Expand] recovers every value at most half a period away. *)
Lemma Expand_recovers w value v :
  0 < w -> value - 2 ^ (w - 1) <= v < value + 2 ^ (w - 1) ->
  Expand w value (wrap w v) = v.
Proof.
  intros Hw Hv. unfold Expand. rewrite max_distance_half by done.
  assert (2 ^ w = 2 * 2 ^ (w - 1)) as Hp by (rewrite <- Z.pow_succ_r by lia; f_equal; lia).
  apply ExpandLessThanOrEqual_recovers; lia.
Qed.

Lemma Expand_range w value x :
  0 < w -> is_u w x ->
  let r := Expand w value x in
  value - 2 ^ (w - 1) <= r < value + 2 ^ (w - 1) /\ r mod 2 ^ w = x.
Proof.
  intros Hw Hx. cbv zeta. unfold Expand. rewrite max_distance_half by done.
  assert (2 ^ w = 2 * 2 ^ (w - 1)) as Hp by (rewrite <- Z.pow_succ_r by lia; f_equal; lia).
  destruct (ExpandLessThanOrEqual_range w (value + (2 ^ (w - 1) - 1)) x ltac:(lia) Hx).
  split; lia.
Qed.

(** A frame ID or RTP timestamp truncated to [w] bits is recovered exactly
    by each of the three expansions on the whole window it is designed for. *)
Theorem expansion_recovers_truncated (w value v : Z) :
  0 < w ->
  (value - 2 ^ w < v <= value -> ExpandLessThanOrEqual w value (wrap w v) = v)
  /\ (value < v <= value + 2 ^ w -> ExpandGreaterThan w value (wrap w v) = v)
  /\ (value - 2 ^ (w - 1) <= v < value + 2 ^ (w - 1) -> Expand w value (wrap w v) = v).
Proof.
  intros Hw. split_and!; intros Hv.
  - apply ExpandLessThanOrEqual_recovers; lia.
  - apply ExpandGreaterThan_recovers; lia.
  - by apply Expand_recovers.
Qed.

Lemma expansion_recovers_truncated_witness :
  0 < 8 /\ ExpandLessThanOrEqual 8 514 (wrap 8 510) = 510
  /\ Expand 8 250 (wrap 8 300) = 300.
Proof.
  split; [lia |]. split.
  - apply (expansion_recovers_truncated 8 514 510); lia.
  - apply (expansion_recovers_truncated 8 250 300); lia.
Defined.
