(* ===== verification/NtpTime.v ===== *)
(** Conversion between the local clock and 64-bit NTP timestamps
    (cast/streaming/impl/ntp_time.h and .cc).

    Clock times and durations are counts of microseconds
    (platform/base/trivial_clock_traits.h), NTP seconds and fractions counts of
    seconds and of 2^-32 seconds.  [Z.quot] is the truncation of
    [duration_cast]; the cast factor 2^32/10^6 is reduced to 2^26/15625, as
    std::ratio reduces it. *)

From S2P Require Import Prelude.

Definition NtpSecondsPart (timestamp : Z) : Z := Z.shiftr timestamp 32.
Definition NtpFractionPart (timestamp : Z) : Z := Z.land timestamp 0xffffffff.
Definition AssembleNtpTimestamp (seconds fraction : Z) : Z :=
  Z.lor (u64 (Z.shiftl (u64 seconds) 32)) (u32 fraction).

Definition kTimeBetweenNtpEpochAndUnixEpoch : Z := 2208988800.

Definition duration_cast_seconds (us : Z) : Z := Z.quot us 1000000.
Definition duration_cast_fraction (us : Z) : Z := Z.quot (us * 67108864) 15625.
Definition fraction_to_duration (f : Z) : Z := Z.quot (f * 15625) 67108864.
Definition seconds_to_duration (s : Z) : Z := s * 1000000.

Record NtpTimeConverter := mkConverter { start_time : Z; since_ntp_epoch : Z }.

Definition new_NtpTimeConverter (now since_unix_epoch : Z) : NtpTimeConverter :=
  mkConverter now (since_unix_epoch + kTimeBetweenNtpEpochAndUnixEpoch).

Definition ToNtpTimestamp (c : NtpTimeConverter) (time_point : Z) : Z :=
  let time_since_start := time_point - start_time c in
  let whole_seconds := duration_cast_seconds time_since_start in
  let remainder :=
    duration_cast_fraction (time_since_start - seconds_to_duration whole_seconds) in
  AssembleNtpTimestamp (since_ntp_epoch c + whole_seconds) remainder.

Definition kNtpSecondsPerEra : Z := Z.shiftl 1 32.

Definition ToLocalTime (c : NtpTimeConverter) (timestamp : Z) : Z :=
  let ntp_seconds := NtpSecondsPart timestamp in
  let ntp_seconds :=
    if ntp_seconds <=? kTimeBetweenNtpEpochAndUnixEpoch
    then ntp_seconds + kNtpSecondsPerEra else ntp_seconds in
  let whole_seconds := ntp_seconds - since_ntp_epoch c in
  let seconds_since_start := seconds_to_duration whole_seconds + start_time c in
  let remainder := fraction_to_duration (NtpFractionPart timestamp) in
  seconds_since_start + remainder.

(** * Lemmas *)

Lemma Assemble_add s f :
  is_u 32 f -> AssembleNtpTimestamp s f = wrap 32 s * 2 ^ 32 + f.
Proof.
  intros Hf. unfold AssembleNtpTimestamp. rewrite (wrap_small 32 f Hf).
  assert (u64 (Z.shiftl (u64 s) 32) = Z.shiftl (wrap 32 s) 32) as ->.
  { rewrite !Z.shiftl_mul_pow2 by lia. unfold wrap.
    rewrite (Z.mul_comm _ (2 ^ 32)). change (2 ^ 64) with (2 ^ 32 * 2 ^ 32).
    rewrite Z.mul_mod_distr_l by lia. rewrite Z.mul_comm. f_equal.
    change (2 ^ 64) with (2 ^ 32 * 2 ^ 32).
    rewrite (Z.rem_mul_r s) by lia.
    rewrite (Z.mul_comm (2 ^ 32) (_ mod _)), Z.mod_add, Z.mod_mod by lia. done. }
  apply lor_shiftl_add; [lia | done].
Qed.

Lemma NtpSecondsPart_join s f : is_u 32 f -> NtpSecondsPart (s * 2 ^ 32 + f) = s.
Proof.
  intros Hf. unfold NtpSecondsPart, is_u in *. rewrite Z.shiftr_div_pow2 by lia.
  rewrite Z.div_add_l, Z.div_small by lia. lia.
Qed.

Lemma NtpFractionPart_join s f : is_u 32 f -> NtpFractionPart (s * 2 ^ 32 + f) = f.
Proof.
  intros Hf. unfold NtpFractionPart. change 0xffffffff with (Z.ones 32).
  rewrite Z.land_ones by lia. unfold is_u in Hf.
  rewrite Z.add_comm, Z.mod_add by lia. by apply Z.mod_small.
Qed.

Lemma ToNtpTimestamp_is_u64 c t : is_u 64 (ToNtpTimestamp c t).
Proof.
  unfold ToNtpTimestamp, AssembleNtpTimestamp. cbv zeta.
  set (s := u64 _). set (f := u32 _).
  pose proof (wrap_is_u 32 (duration_cast_fraction
     (t - start_time c - seconds_to_duration (duration_cast_seconds (t - start_time c))))
     ltac:(lia)) as Hf. fold f in Hf.
  assert (s = Z.shiftl (s / 2 ^ 32) 32) as ->.
  { subst s. set (x := u64 (since_ntp_epoch c + _)).
    rewrite !Z.shiftl_mul_pow2 by lia. unfold wrap.
    rewrite (Z.mul_comm x). change (2 ^ 64) with (2 ^ 32 * 2 ^ 32).
    rewrite Z.mul_mod_distr_l by lia.
    rewrite (Z.mul_comm (2 ^ 32) (x mod 2 ^ 32)), Z.div_mul by lia. done. }
  rewrite lor_shiftl_add by (lia || done).
  assert (is_u 64 s) as Hs by (apply wrap_is_u; lia).
  unfold is_u in *. Z.div_mod_to_equations. lia.
Qed.

(** The microsecond remainder of a second survives the trip through 2^-32
    units up to one microsecond. *)
Lemma fraction_roundtrip r :
  0 <= r < 1000000 ->
  is_u 32 (duration_cast_fraction r)
  /\ r - 1 <= fraction_to_duration (duration_cast_fraction r) <= r
  /\ (r mod 15625 = 0 -> fraction_to_duration (duration_cast_fraction r) = r).
Proof.
  intros Hr. unfold is_u, fraction_to_duration, duration_cast_fraction.
  rewrite (Z.quot_div_nonneg (r * _)) by lia.
  assert (0 <= r * 67108864 / 15625) by (apply Z.div_pos; lia).
  rewrite Z.quot_div_nonneg by lia.
  split; [| split]; Z.div_mod_to_equations; lia.
Qed.

Lemma ToNtp_parts c t :
  start_time c <= t ->
  let d := t - start_time c in
  NtpSecondsPart (ToNtpTimestamp c t) = wrap 32 (since_ntp_epoch c + d / 1000000)
  /\ NtpFractionPart (ToNtpTimestamp c t) = duration_cast_fraction (d mod 1000000).
Proof.
  intros Ht. cbv zeta. unfold ToNtpTimestamp, duration_cast_seconds, seconds_to_duration.
  set (d := t - start_time c). rewrite Z.quot_div_nonneg by lia.
  replace (d - d / 1000000 * 1000000) with (d mod 1000000) by (rewrite Z.mod_eq by lia; lia).
  destruct (fraction_roundtrip (d mod 1000000)) as [Hf _]; [by apply Z.mod_pos_bound |].
  rewrite Assemble_add by done. split.
  - by apply NtpSecondsPart_join.
  - by apply NtpFractionPart_join.
Qed.

(** Converting a local time at or after the session start to NTP and back
    loses at most the last microsecond, and nothing on multiples of 1/64 s,
    including across the 2036 roll-over of the NTP seconds. *)
Theorem ntp_roundtrip (c : NtpTimeConverter) (t : Z) :
  start_time c <= t ->
  kTimeBetweenNtpEpochAndUnixEpoch
    < since_ntp_epoch c + (t - start_time c) / 1000000
    <= kTimeBetweenNtpEpochAndUnixEpoch + 2 ^ 32 ->
  t - 1 <= ToLocalTime c (ToNtpTimestamp c t) <= t
  /\ ((t - start_time c) mod 15625 = 0 -> ToLocalTime c (ToNtpTimestamp c t) = t).
Proof.
  intros Ht Hera. destruct (ToNtp_parts c t Ht) as [Hs Hf]. cbv zeta in Hs, Hf.
  unfold ToLocalTime. rewrite Hs, Hf. set (d := t - start_time c) in *.
  set (s := since_ntp_epoch c + d / 1000000) in *.
  destruct (fraction_roundtrip (d mod 1000000)) as (_ & Hr & Hex);
    [by apply Z.mod_pos_bound |].
  assert ((if wrap 32 s <=? kTimeBetweenNtpEpochAndUnixEpoch
           then wrap 32 s + kNtpSecondsPerEra else wrap 32 s) = s) as ->.
  { unfold wrap, kTimeBetweenNtpEpochAndUnixEpoch, kNtpSecondsPerEra in *.
    change (Z.shiftl 1 32) with (2 ^ 32). destruct (Z.lt_ge_cases s (2 ^ 32)).
    - rewrite Z.mod_small by lia. by rewrite (proj2 (Z.leb_gt _ _)) by lia.
    - assert (s mod 2 ^ 32 = s - 2 ^ 32) as -> by (symmetry; apply (Z.mod_unique _ _ 1); lia).
      rewrite (proj2 (Z.leb_le _ _)) by lia. lia. }
  assert (d = d / 1000000 * 1000000 + d mod 1000000) as Hd
    by (rewrite (Z.div_mod d 1000000) at 1 by lia; lia).
  unfold seconds_to_duration. subst s. split; [subst d; lia |].
  intros Hm. rewrite Hex; [subst d; lia |].
  rewrite Hd in Hm. replace 1000000 with (64 * 15625) in Hm at 2 by lia.
  rewrite Z.add_comm, Z.mul_assoc, Z.mod_add in Hm by lia. done.
Qed.

Lemma ntp_roundtrip_witness :
  let c := new_NtpTimeConverter 5000000 1700000000 in
  5999999 <= ToLocalTime c (ToNtpTimestamp c 6000000) <= 6000000.
Proof.
  intros c. apply (ntp_roundtrip c 6000000); vm_compute; intuition congruence.
Defined.

(** Before the session start the truncating casts leave a positive fraction
    on the unreduced second: the timestamp is a second late. *)
Example ntp_before_start_is_late :
  let c := new_NtpTimeConverter 5000000 1700000000 in
  ToLocalTime c (ToNtpTimestamp c 4500000) = 5500000.
Proof. vm_compute. reflexivity. Qed.
