(* ===== verification/RtpDefines.v ===== *)
(** Wire constants and payload types of Cast RTP and RTCP
    (cast/streaming/impl/rtp_defines.h and .cc, and the codec enumerations of
    cast/streaming/public/constants.h). *)

From S2P Require Import Prelude Numeric.

(** * Constants *)

Definition kAllPacketsLost : Z := 0xffff.
Definition kMaxAllowedFramePacketId : Z := kAllPacketsLost - 1.
Definition kRtpPacketMinValidSize : Z := 18.
Definition kRtpRequiredFirstByte : Z := 128.
Definition kRtpMarkerBitMask : Z := 128.
Definition kRtpPayloadTypeMask : Z := 127.
Definition kRtpKeyFrameBitMask : Z := 128.
Definition kRtpHasReferenceFrameIdBitMask : Z := 64.
Definition kRtpExtensionCountMask : Z := 63.
Definition kAdaptiveLatencyRtpExtensionType : Z := 1.
Definition kNumExtensionDataSizeFieldBits : Z := 10.
Definition kRtcpCommonHeaderSize : Z := 4.
Definition kRtcpRequiredVersionAndPaddingBits : Z := 4.
Definition kRtcpReportCountFieldNumBits : Z := 5.
Definition kRtcpSenderReportSize : Z := 24.
Definition kRtcpReceiverReportSize : Z := 4.
Definition kRtcpReportBlockSize : Z := 24.
Definition kRtcpCumulativePacketsFieldNumBits : Z := 24.
Definition kRtcpFeedbackHeaderSize : Z := 16.
Definition kRtcpCastIdentifierWord : Z := 0x43415354.
Definition kRtcpFeedbackLossFieldSize : Z := 4.
Definition kRtcpFeedbackAckHeaderSize : Z := 6.
Definition kRtcpCst2IdentifierWord : Z := 0x43535432.
Definition kRtcpMinAckBitVectorOctets : Z := 2.
Definition kRtcpMaxAckBitVectorOctets : Z := 254.
Definition kRtcpExtendedReportHeaderSize : Z := 4.
Definition kRtcpExtendedReportBlockHeaderSize : Z := 4.
Definition kRtcpReceiverReferenceTimeReportBlockType : Z := 4.
Definition kRtcpReceiverReferenceTimeReportBlockSize : Z := 8.
Definition kRtcpPictureLossIndicatorHeaderSize : Z := 8.
Definition kRtcpReceiverFrameLogMessageHeaderSize : Z := 8.
Definition kRtcpReceiverFrameLogMessageBlockSize : Z := 4.
Definition kCastName : Z := 0x43415354.
Definition kMaxUnackedFrames : Z := 120.
Definition kRequiredNetworkPacketSize : Z := 256.

(** * Payload types

    Several enumerators of [RtpPayloadType] share a value, so a payload type is
    its underlying byte. *)

Definition kNull : Z := 0.
Definition kAudioFirst : Z := 96.
Definition kAudioOpus : Z := 96.
Definition kAudioAac : Z := 97.
Definition kAudioPcm16 : Z := 98.
Definition kAudioVarious : Z := 99.
Definition kAudioLast : Z := kAudioVarious.
Definition kVideoFirst : Z := 100.
Definition kVideoVp8 : Z := 100.
Definition kVideoH264 : Z := 101.
Definition kVideoVarious : Z := 102.
Definition kVideoVp9 : Z := 103.
Definition kVideoAv1 : Z := 104.
Definition kVideoLast : Z := kVideoAv1.
Definition kAudioHackForAndroidTV : Z := 127.
Definition kVideoHackForAndroidTV : Z := 96.

Inductive AudioCodec := AacCodec | OpusCodec | AudioNotSpecified.
Inductive VideoCodec := H264Codec | Vp8Codec | HevcCodec | VideoNotSpecified | Vp9Codec | Av1Codec.
Inductive StreamType := kUnknownStream | kAudio | kVideo.

Definition GetPayloadType_audio (codec : AudioCodec) (use_android_rtp_hack : bool) : Z :=
  if use_android_rtp_hack then kAudioHackForAndroidTV
  else match codec with
       | AacCodec => kAudioAac
       | OpusCodec => kAudioOpus
       | AudioNotSpecified => kAudioVarious
       end.

Definition GetPayloadType_video (codec : VideoCodec) (use_android_rtp_hack : bool) : Z :=
  if use_android_rtp_hack then kVideoHackForAndroidTV
  else match codec with
       | Vp9Codec | Vp8Codec => kVideoVp8
       | HevcCodec | H264Codec => kVideoH264
       | Av1Codec => kVideoAv1
       | VideoNotSpecified => kVideoVarious
       end.

Definition ToStreamType (type : Z) (use_android_rtp_hack : bool) : StreamType :=
  if use_android_rtp_hack && (type =? kAudioHackForAndroidTV) then kAudio
  else if use_android_rtp_hack && (type =? kVideoHackForAndroidTV) then kVideo
  else if (kAudioFirst <=? type) && (type <=? kAudioLast) then kAudio
  else if (kVideoFirst <=? type) && (type <=? kVideoLast) then kVideo
  else kUnknownStream.

Definition IsRtpPayloadType (raw_byte : Z) : bool :=
  existsb (Z.eqb raw_byte)
    [kAudioOpus; kAudioAac; kAudioPcm16; kAudioVarious; kVideoVp8; kVideoH264;
     kVideoVp9; kVideoAv1; kVideoVarious; kAudioHackForAndroidTV].

(** * RTCP packet types *)

Inductive RtcpPacketType :=
  | NullPacketType | SenderReport | ReceiverReport | SourceDescription
  | ApplicationDefined | PayloadSpecific | ExtendedReports.
#[export] Instance RtcpPacketType_eq_dec : EqDecision RtcpPacketType.
Proof. solve_decision. Defined.

Definition RtcpPacketType_byte (t : RtcpPacketType) : Z :=
  match t with
  | NullPacketType => 0 | SenderReport => 200 | ReceiverReport => 201
  | SourceDescription => 202 | ApplicationDefined => 204
  | PayloadSpecific => 206 | ExtendedReports => 207
  end.

(** The enumerator a byte casts to, if it is one. *)
Definition RtcpPacketType_of_byte (b : Z) : option RtcpPacketType :=
  if b =? 0 then Some NullPacketType else if b =? 200 then Some SenderReport
  else if b =? 201 then Some ReceiverReport else if b =? 202 then Some SourceDescription
  else if b =? 204 then Some ApplicationDefined else if b =? 206 then Some PayloadSpecific
  else if b =? 207 then Some ExtendedReports else None.

Definition IsRtcpPacketType (raw_byte : Z) : bool :=
  match RtcpPacketType_of_byte raw_byte with
  | None | Some NullPacketType => false
  | Some _ => true
  end.

Inductive RtcpSubtype := NullSubtype | PictureLossIndicator | ReceiverLog | Feedback.
#[export] Instance RtcpSubtype_eq_dec : EqDecision RtcpSubtype.
Proof. solve_decision. Defined.

Definition RtcpSubtype_value (s : RtcpSubtype) : Z :=
  match s with
  | NullSubtype => 0 | PictureLossIndicator => 1 | ReceiverLog => 2 | Feedback => 15
  end.

Lemma RtcpPacketType_of_to t : RtcpPacketType_of_byte (RtcpPacketType_byte t) = Some t.
Proof. by destruct t. Qed.

Lemma IsRtcpPacketType_spec b :
  IsRtcpPacketType b = true <->
  exists t, t <> NullPacketType /\ b = RtcpPacketType_byte t.
Proof.
  split.
  - unfold IsRtcpPacketType, RtcpPacketType_of_byte.
    repeat match goal with |- context [?x =? ?k] => destruct (Z.eqb_spec x k) end; intros H;
      try discriminate H; subst;
      [exists SenderReport | exists ReceiverReport | exists SourceDescription
      | exists ApplicationDefined | exists PayloadSpecific | exists ExtendedReports]; done.
  - intros (t & Ht & ->). unfold IsRtcpPacketType. rewrite RtcpPacketType_of_to. by destruct t.
Qed.

(** Every payload type the sender negotiates is accepted on the wire, fits
    the 7-bit field, and is classified as the stream it was chosen for. *)
Theorem payload_types_round_trip (a : AudioCodec) (v : VideoCodec) (hack : bool) :
  let pa := GetPayloadType_audio a hack in
  let pv := GetPayloadType_video v hack in
  IsRtpPayloadType pa = true /\ IsRtpPayloadType pv = true
  /\ Z.land pa kRtpPayloadTypeMask = pa /\ Z.land pv kRtpPayloadTypeMask = pv
  /\ ToStreamType pa hack = kAudio /\ ToStreamType pv hack = kVideo.
Proof. destruct a, v, hack; repeat split. Qed.
