(* ===== verification/RtcpCommon.v ===== *)
(** RTCP building blocks (cast/streaming/impl/rtcp_common.h and .cc), the
    session they share (rtcp_session.h and .cc), and the packet routing scan of
    packet_util.cc. *)

From S2P Require Import Prelude Numeric Wire Ids NtpTime RtpDefines.

(** * RtcpSession *)

Record RtcpSession := mkSession {
  sender_ssrc : Z; receiver_ssrc : Z; session_start_time : Z;
  ntp_converter : NtpTimeConverter }.

Definition new_RtcpSession (sender receiver start since_unix_epoch : Z) : outcome RtcpSession :=
  OSP_CHECK (negb (sender =? kNullSsrc)) ;;
  OSP_CHECK (negb (receiver =? kNullSsrc)) ;;
  OSP_CHECK (negb (sender =? receiver)) ;;
  Ret (mkSession sender receiver start (new_NtpTimeConverter start since_unix_epoch)).

(** * RtcpCommonHeader

    The union [with] is the integer it stores; its members are two readings of
    that integer. *)

Record RtcpCommonHeader := mkHeader {
  packet_type : RtcpPacketType; with_value : Z; payload_size : Z }.
#[export] Instance eta_RtcpCommonHeader : Eta RtcpCommonHeader :=
  fun h => mkHeader (packet_type h) (with_value h) (payload_size h).

Definition report_count (h : RtcpCommonHeader) : Z := with_value h.
Definition to_RtcpSubtype (v : Z) : RtcpSubtype :=
  if v =? 1 then PictureLossIndicator else if v =? 2 then ReceiverLog
  else if v =? 15 then Feedback else NullSubtype.
Definition subtype (h : RtcpCommonHeader) : RtcpSubtype := to_RtcpSubtype (with_value h).

Definition header_byte0 (h : RtcpCommonHeader) : outcome Z :=
  let byte0 := u8 (Z.shiftl kRtcpRequiredVersionAndPaddingBits kRtcpReportCountFieldNumBits) in
  match packet_type h with
  | SenderReport | ReceiverReport =>
      OSP_CHECK (report_count h <=? FieldBitmask kRtcpReportCountFieldNumBits) ;;
      Ret (u8 (Z.lor byte0 (report_count h)))
  | SourceDescription => Ret byte0
  | ApplicationDefined | PayloadSpecific =>
      match subtype h with
      | NullSubtype => Fault CheckFailed
      | s => Ret (u8 (Z.lor byte0 (RtcpSubtype_value s)))
      end
  | ExtendedReports => Ret byte0
  | NullPacketType => Fault CheckFailed
  end.

Definition header_AppendFields (h : RtcpCommonHeader) (buffer : ByteBuffer) : outcome ByteBuffer :=
  OSP_CHECK (kRtcpCommonHeaderSize <=? room buffer) ;;
  byte0 ← header_byte0 h;
  buffer ← AppendField 1 byte0 buffer;
  buffer ← AppendField 1 (RtcpPacketType_byte (packet_type h)) buffer;
  OSP_CHECK (u64 (payload_size h) mod 4 =? 0) ;;
  AppendField 2 (u64 (payload_size h) / 4) buffer.

Definition header_Parse (buffer : list Z) : outcome (option RtcpCommonHeader) :=
  if zlen buffer <? kRtcpCommonHeaderSize then Ret None else
  '(byte0, buffer) ← ConsumeField 1 buffer;
  if negb (Z.shiftr byte0 kRtcpReportCountFieldNumBits =? kRtcpRequiredVersionAndPaddingBits)
  then Ret None else
  let report_count_or_subtype := Z.land byte0 (FieldBitmask kRtcpReportCountFieldNumBits) in
  '(byte1, buffer) ← ConsumeField 1 buffer;
  if negb (IsRtcpPacketType byte1) then Ret None else
  match RtcpPacketType_of_byte byte1 with
  | None => Ret None
  | Some t =>
      let with_ :=
        match t with
        | SenderReport | ReceiverReport => report_count_or_subtype
        | ApplicationDefined | PayloadSpecific =>
            RtcpSubtype_value (to_RtcpSubtype report_count_or_subtype)
        | _ => 0
        end in
      '(words, _) ← ConsumeField 2 buffer;
      Ret (Some (mkHeader t with_ (words * 4)))
  end.

(** * StatusReportId *)

Definition ToStatusReportId (ntp_timestamp : Z) : Z := u32 (Z.shiftr ntp_timestamp 16).

(** * RtcpReportBlock

    [delay_since_last_report] counts 1/65536 s. *)

Record RtcpReportBlock := mkReportBlock {
  ssrc : Z;
  packet_fraction_lost_numerator : Z;
  cumulative_packets_lost : Z;
  extended_high_sequence_number : Z;
  jitter : Z;
  last_status_report_id : Z;
  delay_since_last_report : Z }.
#[export] Instance eta_RtcpReportBlock : Eta RtcpReportBlock := fun r =>
  mkReportBlock (ssrc r) (packet_fraction_lost_numerator r) (cumulative_packets_lost r)
    (extended_high_sequence_number r) (jitter r) (last_status_report_id r)
    (delay_since_last_report r).

Definition empty_report_block : RtcpReportBlock := mkReportBlock 0 0 0 0 0 0 0.
Definition kPacketFractionLostDenominator : Z := 256.

Definition SetPacketFractionLostNumerator
    (num_apparently_sent num_received : Z) (r : RtcpReportBlock) : RtcpReportBlock :=
  if num_apparently_sent <=? 0 then r <| packet_fraction_lost_numerator := 0 |>
  else
    let numerator :=
      Z.quot ((num_apparently_sent - num_received) * kPacketFractionLostDenominator)
             num_apparently_sent in
    r <| packet_fraction_lost_numerator := saturate_uint8 numerator |>.

Definition SetCumulativePacketsLost
    (num_apparently_sent num_received : Z) (r : RtcpReportBlock) : RtcpReportBlock :=
  let num_lost := num_apparently_sent - num_received in
  r <| cumulative_packets_lost :=
         Z.min (Z.max num_lost 0) (FieldBitmask kRtcpCumulativePacketsFieldNumBits) |>.

(** Delay ticks to microseconds and back; the cast factor 10^6/65536 reduces to
    15625/1024. *)
Definition delay_to_duration (delay : Z) : Z := Z.quot (delay * 15625) 1024.
Definition duration_cast_delay (us : Z) : Z := Z.quot (us * 1024) 15625.
Definition kMaxValidReportedDelay : Z := 2 ^ 32 - 1.

Definition SetDelaySinceLastReport (local_clock_delay : Z) (r : RtcpReportBlock) : RtcpReportBlock :=
  if delay_to_duration kMaxValidReportedDelay <? local_clock_delay
  then r <| delay_since_last_report := kMaxValidReportedDelay |>
  else if local_clock_delay <=? 0 then r <| delay_since_last_report := 0 |>
  else r <| delay_since_last_report := duration_cast_delay local_clock_delay |>.

Definition report_block_AppendFields (r : RtcpReportBlock) (buffer : ByteBuffer)
    : outcome ByteBuffer :=
  OSP_CHECK (kRtcpReportBlockSize <=? room buffer) ;;
  buffer ← AppendField 4 (ssrc r) buffer;
  OSP_CHECK (0 <=? packet_fraction_lost_numerator r) ;;
  OSP_CHECK (packet_fraction_lost_numerator r <=? 255) ;;
  OSP_CHECK (0 <=? cumulative_packets_lost r) ;;
  OSP_CHECK (cumulative_packets_lost r <=? FieldBitmask kRtcpCumulativePacketsFieldNumBits) ;;
  buffer ← AppendField 4
    (Z.lor (Z.shiftl (packet_fraction_lost_numerator r) kRtcpCumulativePacketsFieldNumBits)
           (Z.land (cumulative_packets_lost r)
                   (FieldBitmask kRtcpCumulativePacketsFieldNumBits))) buffer;
  buffer ← AppendField 4 (extended_high_sequence_number r) buffer;
  let jitter_ticks := Z.quot (jitter r) 1 in
  OSP_CHECK (0 <=? jitter_ticks) ;;
  OSP_CHECK (jitter_ticks <=? 2 ^ 32 - 1) ;;
  buffer ← AppendField 4 jitter_ticks buffer;
  buffer ← AppendField 4 (last_status_report_id r) buffer;
  let delay_ticks := delay_since_last_report r in
  OSP_CHECK (0 <=? delay_ticks) ;;
  OSP_CHECK (delay_ticks <=? 2 ^ 32 - 1) ;;
  AppendField 4 delay_ticks buffer.

(** The loop of [ParseOne], over the remaining blocks. *)
Fixpoint ParseOne_loop (blocks : nat) (buffer : list Z) (ssrc : Z)
    (result : option RtcpReportBlock) : outcome (option RtcpReportBlock) :=
  match blocks with
  | O => Ret result
  | S blocks =>
      '(block_ssrc, buffer) ← ConsumeField 4 buffer;
      if negb (block_ssrc =? ssrc) then
        buffer ← subspan (kRtcpReportBlockSize - 4) buffer;
        ParseOne_loop blocks buffer ssrc result
      else
        '(second_word, buffer) ← ConsumeField 4 buffer;
        '(high_seq, buffer) ← ConsumeField 4 buffer;
        '(jitter_ticks, buffer) ← ConsumeField 4 buffer;
        '(report_id, buffer) ← ConsumeField 4 buffer;
        '(delay, buffer) ← ConsumeField 4 buffer;
        ParseOne_loop blocks buffer ssrc
          (Some (mkReportBlock ssrc
             (Z.shiftr second_word kRtcpCumulativePacketsFieldNumBits)
             (Z.land second_word (FieldBitmask kRtcpCumulativePacketsFieldNumBits))
             high_seq jitter_ticks report_id delay))
  end.

Definition ParseOne (buffer : list Z) (report_count : Z) (ssrc : Z)
    : outcome (option RtcpReportBlock) :=
  if zlen buffer <? kRtcpReportBlockSize * report_count then Ret None
  else ParseOne_loop (Z.to_nat report_count) buffer ssrc None.

(** * PacketNack *)

Record PacketNack := mkNack { nack_frame_id : Z; nack_packet_id : Z }.
#[export] Instance PacketNack_eq_dec : EqDecision PacketNack.
Proof. solve_decision. Defined.

Definition PacketNack_ltb (a b : PacketNack) : bool :=
  (nack_frame_id a <? nack_frame_id b)
  || ((nack_frame_id a =? nack_frame_id b) && (nack_packet_id a <? nack_packet_id b)).

(** * Receiver event logs *)

Inductive EventType :=
  | kUnknownEvent | kFrameCaptureBegin | kFrameCaptureEnd | kFrameEncoded
  | kFrameAckReceived | kFrameAckSent | kFrameDecoded | kFramePlayedOut
  | kPacketSentToNetwork | kPacketRetransmitted | kPacketRtxRejected
  | kPacketReceived | kFrameDroppedByEncoder.
#[export] Instance EventType_eq_dec : EqDecision EventType.
Proof. solve_decision. Defined.

(** Wire types are the byte values of [StatisticsEvent::WireType]. *)
Definition FromWireType (wire_type : Z) : EventType :=
  if existsb (Z.eqb wire_type) [1; 5; 11] then kFrameAckSent
  else if existsb (Z.eqb wire_type) [2; 6; 12] then kFramePlayedOut
  else if existsb (Z.eqb wire_type) [3; 7; 13] then kFrameDecoded
  else if existsb (Z.eqb wire_type) [4; 8; 14] then kPacketReceived
  else kUnknownEvent.

Definition ToWireType (type : EventType) : Z :=
  match type with
  | kFrameAckSent => 11 | kFramePlayedOut => 12 | kFrameDecoded => 13
  | kPacketReceived => 14 | _ => 0
  end.

(** [delay] and [packet_id] are meaningful for the event types that set them
    and zero otherwise. *)
Record RtcpReceiverEventLogMessage := mkEventLog {
  event_type : EventType; event_timestamp : Z; event_delay : Z; event_packet_id : Z }.
Record RtcpReceiverFrameLogMessage := mkFrameLog {
  log_rtp_timestamp : Z; log_messages : list RtcpReceiverEventLogMessage }.

(** * InspectPacketForRouting (packet_util.cc) *)

Inductive ApparentPacketType := UNKNOWN | RTP | RTCP.
#[export] Instance ApparentPacketType_eq_dec : EqDecision ApparentPacketType.
Proof. solve_decision. Defined.

Definition InspectPacketForRouting (packet : list Z) : outcome (ApparentPacketType * Z) :=
  if (kRtpPacketMinValidSize <=? zlen packet)
     && (nth 0 packet 0 =? kRtpRequiredFirstByte)
     && IsRtpPayloadType (Z.land (nth 1 packet 0) kRtpPayloadTypeMask)
  then
    rest ← subspan 8 packet;
    '(s, _) ← ConsumeField 4 rest;
    Ret (RTP, s)
  else if kRtcpCommonHeaderSize + 4 <=? zlen packet then
    header ← header_Parse packet;
    match header with
    | Some _ =>
        rest ← subspan kRtcpCommonHeaderSize packet;
        '(s, _) ← ConsumeField 4 rest;
        Ret (RTCP, s)
    | None => Ret (UNKNOWN, 0)
    end
  else Ret (UNKNOWN, 0).

(** * The common header round trip *)

Definition header_wf (h : RtcpCommonHeader) : Prop :=
  0 <= payload_size h < 2 ^ 18 /\ payload_size h mod 4 = 0 /\
  match packet_type h with
  | SenderReport | ReceiverReport => 0 <= with_value h <= 31
  | ApplicationDefined | PayloadSpecific => with_value h ∈ [1; 2; 15]
  | ExtendedReports | SourceDescription => with_value h = 0
  | NullPacketType => False
  end.

Definition header_encode (h : RtcpCommonHeader) : list Z :=
  be_encode 1 (128 + with_value h)
  ++ be_encode 1 (RtcpPacketType_byte (packet_type h))
  ++ be_encode 2 (payload_size h / 4).

Lemma zlen_header_encode h : zlen (header_encode h) = 4.
Proof. unfold header_encode. by autorewrite with zlen. Qed.

Lemma header_wf_with h : header_wf h -> 0 <= with_value h <= 31.
Proof.
  intros (_ & _ & H). destruct (packet_type h); try lia;
  rewrite !elem_of_cons, elem_of_nil in H; lia.
Qed.

Lemma header_byte0_ok h : header_wf h -> header_byte0 h = Ret (128 + with_value h).
Proof.
  intros Hwf. pose proof (header_wf_with h Hwf) as Hw. destruct Hwf as (_ & _ & Ht).
  assert (forall w, 0 <= w <= 31 -> u8 (Z.lor 128 w) = 128 + w) as Hlor.
  { intros w Hw'. change 128 with (Z.shiftl 4 5) at 1.
    rewrite lor_shiftl_add by (unfold is_u; lia). apply wrap_small. unfold is_u. lia. }
  unfold header_byte0, subtype, report_count.
  change (u8 (Z.shiftl kRtcpRequiredVersionAndPaddingBits kRtcpReportCountFieldNumBits)) with 128.
  change (FieldBitmask kRtcpReportCountFieldNumBits) with 31.
  destruct (packet_type h); try done.
  - rewrite OSP_CHECK_leb by lia. simpl. by rewrite Hlor.
  - rewrite OSP_CHECK_leb by lia. simpl. by rewrite Hlor.
  - by rewrite Ht.
  - rewrite !elem_of_cons, elem_of_nil in Ht. by destruct Ht as [-> | [-> | [-> |]]].
  - rewrite !elem_of_cons, elem_of_nil in Ht. by destruct Ht as [-> | [-> | [-> |]]].
  - by rewrite Ht.
Qed.

Lemma header_AppendFields_ok h b :
  header_wf h -> 4 <= room b ->
  header_AppendFields h b = Ret (mkBuffer (written b ++ header_encode h) (room b - 4)).
Proof.
  intros Hwf Hroom. unfold header_AppendFields, kRtcpCommonHeaderSize.
  rewrite OSP_CHECK_leb, (header_byte0_ok h Hwf) by lia. simpl.
  destruct Hwf as (Hp & Hp4 & _).
  rewrite (wrap_small 64) by (unfold is_u; lia).
  do 2 write_field. rewrite OSP_CHECK_eqb by lia. simpl. write_field.
  unfold header_encode. by rewrite <- !app_assoc, <- !Z.sub_add_distr.
Qed.

Lemma header_Parse_encode h rest :
  header_wf h -> header_Parse (header_encode h ++ rest) = Ret (Some h).
Proof.
  intros Hwf. pose proof (header_wf_with h Hwf) as Hw.
  destruct Hwf as (Hp & Hp4 & Ht). unfold header_Parse, kRtcpCommonHeaderSize.
  rewrite zlen_app, zlen_header_encode, (proj2 (Z.ltb_ge _ _))
    by (pose proof (zlen_nonneg rest); lia).
  unfold header_encode. rewrite <- !app_assoc. read_field.
  change (8 * Z.of_nat 1) with 8. change (8 * Z.of_nat 2) with 16 in *.
  rewrite (wrap_small 8) by (unfold is_u; lia).
  replace (128 + with_value h) with (Z.lor (Z.shiftl 4 5) (with_value h))
    by (rewrite lor_shiftl_add by (unfold is_u; lia); lia).
  change kRtcpReportCountFieldNumBits with 5.
  rewrite shiftr_lor_shiftl by (unfold is_u; lia). simpl.
  change (FieldBitmask 5) with (Z.ones 5).
  rewrite land_ones_lor_shiftl by (unfold is_u; lia).
  read_field. change (8 * Z.of_nat 1) with 8. change (8 * Z.of_nat 2) with 16.
  assert (wrap 8 (RtcpPacketType_byte (packet_type h)) = RtcpPacketType_byte (packet_type h))
    as -> by (by destruct (packet_type h)).
  rewrite (proj2 (IsRtcpPacketType_spec _)), RtcpPacketType_of_to
    by (exists (packet_type h); destruct (packet_type h); done).
  simpl. read_field. change (8 * Z.of_nat 2) with 16.
  rewrite wrap_small by (unfold is_u; Z.div_mod_to_equations; lia).
  do 2 f_equal. destruct h as [t w p]; simpl in *.
  f_equal; [| Z.div_mod_to_equations; lia].
  destruct t; try done;
    rewrite !elem_of_cons, elem_of_nil in Ht; by destruct Ht as [-> | [-> | [-> |]]].
Qed.

(** Parsing a header never reads past the span; what it returns has a payload
    size that is a whole number of words. *)
Lemma header_Parse_total buf :
  exists o, header_Parse buf = Ret o
    /\ forall h, o = Some h -> 4 <= zlen buf /\ packet_type h <> NullPacketType
       /\ payload_size h mod 4 = 0 /\ (bytes_ok buf -> 0 <= payload_size h < 2 ^ 18)
       /\ (packet_type h = SenderReport \/ packet_type h = ReceiverReport ->
             bytes_ok buf -> 0 <= with_value h <= 31).
Proof.
  unfold header_Parse, kRtcpCommonHeaderSize.
  destruct (Z.ltb_spec (zlen buf) 4) as [| Hlen]; [by eexists |].
  unfold zlen in Hlen.
  destruct buf as [| b0 [| b1 [| b2 [| b3 rest]]]]; simpl in Hlen; try lia. clear Hlen.
  change (b0 :: b1 :: b2 :: b3 :: rest) with ([b0] ++ [b1] ++ [b2; b3] ++ rest).
  rewrite ConsumeField_app by done. simpl. destruct (negb _); [by eexists |].
  change (b1 :: b2 :: b3 :: rest) with ([b1] ++ b2 :: b3 :: rest).
  rewrite (ConsumeField_app 1 [b1]) by done. simpl.
  destruct (IsRtcpPacketType (be_decode [b1])) eqn:Ht; simpl; [| by eexists].
  apply IsRtcpPacketType_spec in Ht as (t & Ht & ->).
  rewrite RtcpPacketType_of_to.
  change (b2 :: b3 :: rest) with ([b2; b3] ++ rest).
  rewrite (ConsumeField_app 2 [b2; b3]) by done. simpl.
  eexists; split; [done |]. intros h [= <-]. simpl. split_and!.
  - pose proof (zlen_nonneg rest). autorewrite with zlen. lia.
  - done.
  - by rewrite Z.mod_mul.
  - intros Hok. assert (bytes_ok [b2; b3]) as Hb2.
    { apply Forall_cons in Hok as [_ Hok]. apply Forall_cons in Hok as [_ Hok].
      by apply (Forall_app _ [b2; b3] rest) in Hok as [? _]. }
    pose proof (be_decode_bound _ Hb2) as Hb. unfold is_u in Hb.
    change (8 * zlen [b2; b3]) with 16 in Hb. lia.
  - intros _ _. change (FieldBitmask kRtcpReportCountFieldNumBits) with (Z.ones 5).
    rewrite Z.land_ones by lia.
    pose proof (Z.mod_pos_bound (be_decode [b0]) (2 ^ 5) ltac:(lia)).
    unfold to_RtcpSubtype. destruct t; try lia; repeat case_bool; simpl; lia.
Qed.

(** * Report blocks *)

Definition report_block_wf (r : RtcpReportBlock) : Prop :=
  is_u 32 (ssrc r) /\ is_u 8 (packet_fraction_lost_numerator r)
  /\ is_u 24 (cumulative_packets_lost r) /\ is_u 32 (extended_high_sequence_number r)
  /\ is_u 32 (jitter r) /\ is_u 32 (last_status_report_id r)
  /\ is_u 32 (delay_since_last_report r).

Definition report_block_encode (r : RtcpReportBlock) : list Z :=
  be_encode 4 (ssrc r)
  ++ be_encode 4 (packet_fraction_lost_numerator r * 2 ^ 24 + cumulative_packets_lost r)
  ++ be_encode 4 (extended_high_sequence_number r)
  ++ be_encode 4 (jitter r) ++ be_encode 4 (last_status_report_id r)
  ++ be_encode 4 (delay_since_last_report r).

Lemma zlen_report_block_encode r : zlen (report_block_encode r) = 24.
Proof. unfold report_block_encode. by autorewrite with zlen. Qed.

Lemma report_block_AppendFields_ok r b :
  report_block_wf r -> 24 <= room b ->
  report_block_AppendFields r b
  = Ret (mkBuffer (written b ++ report_block_encode r) (room b - 24)).
Proof.
  intros (Hs & Hf & Hc & He & Hj & Hl & Hd) Hroom. unfold is_u in *.
  unfold report_block_AppendFields, kRtcpReportBlockSize, kRtcpCumulativePacketsFieldNumBits.
  change (FieldBitmask 24) with (Z.ones 24). rewrite Z.quot_1_r.
  rewrite OSP_CHECK_leb by lia. simpl. write_field.
  do 4 (rewrite OSP_CHECK_leb by (change (Z.ones 24) with (2 ^ 24 - 1); lia); simpl).
  rewrite land_ones_wrap, wrap_small, lor_shiftl_add by (unfold is_u; lia).
  do 2 write_field. do 2 (rewrite OSP_CHECK_leb by lia; simpl).
  do 2 write_field. do 2 (rewrite OSP_CHECK_leb by lia; simpl). write_field.
  unfold report_block_encode. rewrite <- !app_assoc, <- !Z.sub_add_distr. done.
Qed.

(** One iteration of the parser on one encoded block. *)
Lemma ParseOne_loop_encode n r rest s acc :
  report_block_wf r ->
  ParseOne_loop (S n) (report_block_encode r ++ rest) s acc
  = ParseOne_loop n rest s (if ssrc r =? s then Some r else acc).
Proof.
  intros (Hs & Hf & Hc & He & Hj & Hl & Hd).
  unfold report_block_encode. rewrite <- !app_assoc.
  cbn [ParseOne_loop]. read_field. change (8 * Z.of_nat 4) with 32.
  rewrite (wrap_small 32 (ssrc r)) by done.
  destruct (Z.eqb_spec (ssrc r) s) as [Heq | Hne]; simpl.
  - do 5 read_field. change (8 * Z.of_nat 4) with 32.
    change kRtcpCumulativePacketsFieldNumBits with 24.
    change (FieldBitmask 24) with (Z.ones 24).
    rewrite <- lor_shiftl_add by (done || lia).
    assert (forall lo, is_u 24 lo -> is_u 32 (Z.lor
      (Z.shiftl (packet_fraction_lost_numerator r) 24) lo)) as Hw.
    { intros lo Hlo. rewrite lor_shiftl_add by (done || lia). unfold is_u in *. lia. }
    rewrite (wrap_small 32 (Z.lor _ _)) by auto.
    rewrite shiftr_lor_shiftl, land_ones_lor_shiftl by (done || lia).
    rewrite !(wrap_small 32) by done. subst s. by destruct r.
  - match goal with |- context [subspan ?k ?l] =>
      replace k with (zlen (be_encode 4 (packet_fraction_lost_numerator r * 2 ^ 24
         + cumulative_packets_lost r) ++ be_encode 4 (extended_high_sequence_number r)
         ++ be_encode 4 (jitter r) ++ be_encode 4 (last_status_report_id r)
         ++ be_encode 4 (delay_since_last_report r)))
        by (autorewrite with zlen; done)
    end.
    rewrite !app_assoc. rewrite subspan_app. done.
Qed.

Definition find_report_block (rs : list RtcpReportBlock) (s : Z) : option RtcpReportBlock :=
  foldl (fun acc r => if ssrc r =? s then Some r else acc) None rs.

Lemma ParseOne_encode rs rest s :
  Forall report_block_wf rs ->
  ParseOne (concat (map report_block_encode rs) ++ rest) (zlen rs) s
  = Ret (find_report_block rs s).
Proof.
  intros Hwf. unfold ParseOne, kRtcpReportBlockSize.
  assert (zlen (concat (map report_block_encode rs)) = 24 * zlen rs) as Hlen.
  { clear Hwf. induction rs as [| r rs IH]; [done |]. simpl.
    rewrite zlen_app, zlen_cons, zlen_report_block_encode, IH. lia. }
  rewrite zlen_app, Hlen, (proj2 (Z.ltb_ge _ _)) by (pose proof (zlen_nonneg rest); lia).
  unfold find_report_block, zlen. rewrite Nat2Z.id. clear Hlen.
  generalize (@None RtcpReportBlock). induction Hwf as [| r rs Hr Hrs IH]; intros acc; [done |].
  simpl concat. rewrite <- app_assoc. simpl length.
  rewrite ParseOne_loop_encode by done. apply IH.
Qed.


Lemma ParseOne_loop_total n buf s acc :
  24 * Z.of_nat n <= zlen buf -> returns (ParseOne_loop n buf s acc).
Proof.
  revert buf acc. induction n as [| n IH]; intros buf acc Hlen; [by eexists |].
  cbn [ParseOne_loop]. unfold kRtcpReportBlockSize. read_any. case_bool.
  - do 5 read_any. apply IH. lia.
  - read_any. apply IH. lia.
Qed.

Lemma ParseOne_total buf n s : 0 <= n -> returns (ParseOne buf n s).
Proof.
  intros Hn. unfold ParseOne, kRtcpReportBlockSize. case_bool; [by eexists |].
  apply ParseOne_loop_total. lia.
Qed.

Lemma InspectPacketForRouting_total packet : returns (InspectPacketForRouting packet).
Proof.
  unfold InspectPacketForRouting, kRtpPacketMinValidSize, kRtcpCommonHeaderSize.
  destruct (Z.leb_spec 18 (zlen packet)) as [Hl | _]; simpl.
  - destruct (_ && _); [do 2 read_any; by eexists |].
    rewrite (proj2 (Z.leb_le _ _)) by lia.
    destruct (header_Parse_total packet) as ([h |] & -> & _); simpl; [| by eexists].
    do 2 read_any. by eexists.
  - case_bool; [| by eexists].
    destruct (header_Parse_total packet) as ([h |] & -> & _); simpl; [| by eexists].
    do 2 read_any. by eexists.
Qed.

(** * One packet of a compound RTCP packet

    The head of the loops of [CompoundRtcpParser::Parse] and
    [SenderReportParser::Parse]: a header, its payload, and what follows. *)

Definition NextChunk (buffer : list Z)
    : outcome (option (RtcpCommonHeader * list Z * list Z)) :=
  header ← header_Parse buffer;
  match header with
  | None => Ret None
  | Some h =>
      buffer ← subspan kRtcpCommonHeaderSize buffer;
      if zlen buffer <? payload_size h then Ret None else
      payload ← subspan_first (payload_size h) buffer;
      buffer ← subspan (payload_size h) buffer;
      Ret (Some (h, payload, buffer))
  end.

Lemma NextChunk_encode h payload rest :
  header_wf h -> zlen payload = payload_size h ->
  NextChunk (header_encode h ++ payload ++ rest) = Ret (Some (h, payload, rest)).
Proof.
  intros Hwf Hlen. unfold NextChunk. rewrite header_Parse_encode by done. simpl.
  unfold kRtcpCommonHeaderSize. rewrite <- (zlen_header_encode h), subspan_app. simpl.
  rewrite zlen_app, Hlen, (proj2 (Z.ltb_ge _ _)) by (pose proof (zlen_nonneg rest); lia).
  rewrite <- Hlen, subspan_first_app. simpl. by rewrite subspan_app.
Qed.

Lemma NextChunk_total buf :
  bytes_ok buf ->
  exists o, NextChunk buf = Ret o /\
    forall h p r, o = Some (h, p, r) ->
      (length r < length buf)%nat /\ bytes_ok p /\ bytes_ok r
      /\ zlen p = payload_size h /\ packet_type h <> NullPacketType
      /\ (packet_type h = SenderReport \/ packet_type h = ReceiverReport ->
          0 <= report_count h).
Proof.
  intros Hok. unfold NextChunk, kRtcpCommonHeaderSize.
  destruct (header_Parse_total buf) as ([h |] & -> & Hh); simpl; [| by eexists].
  destruct (Hh h eq_refl) as (Hlen & Ht & _ & Hp & Hw). specialize (Hp Hok).
  read_any. destruct (Z.ltb_spec (zlen rest) (payload_size h)); [by eexists |].
  read_any. read_any. eexists. split; [done |]. intros ??? [= <- <- <-].
  specialize (Hok0 Hok). unfold zlen in *. split_and!; auto; [lia |].
  unfold report_count. intros Hsr. specialize (Hw Hsr Hok). lia.
Qed.

(** * Claims *)

(** A common header that the code can write is parsed back to itself,
    whatever follows it, and is the first four bytes written. *)
Theorem common_header_roundtrip (h : RtcpCommonHeader) (b : ByteBuffer) (rest : list Z) :
  header_wf h -> 4 <= room b ->
  exists bytes, header_AppendFields h b = Ret (mkBuffer (written b ++ bytes) (room b - 4))
    /\ zlen bytes = 4 /\ header_Parse (bytes ++ rest) = Ret (Some h).
Proof.
  intros Hwf Hroom. exists (header_encode h). split_and!.
  - by apply header_AppendFields_ok.
  - apply zlen_header_encode.
  - by apply header_Parse_encode.
Qed.

Lemma common_header_roundtrip_witness :
  let h := mkHeader PayloadSpecific 15 20 in
  exists bytes, header_AppendFields h (new_buffer 64) = Ret (mkBuffer ([] ++ bytes) 60)
    /\ zlen bytes = 4 /\ header_Parse (bytes ++ [7]) = Ret (Some h).
Proof.
  intros h. apply (common_header_roundtrip h (new_buffer 64) [7]).
  - split_and!; simpl; [lia | lia | reflexivity |]. by right; right; left.
  - simpl. lia.
Defined.

(** Report blocks written one after another are found again by recipient:
    parsing for an SSRC returns the last block addressed to it, or nothing. *)
Theorem report_blocks_roundtrip (rs : list RtcpReportBlock) (s : Z) (rest : list Z) :
  Forall report_block_wf rs ->
  (forall r, r ∈ rs -> forall b, 24 <= room b ->
     report_block_AppendFields r b
     = Ret (mkBuffer (written b ++ report_block_encode r) (room b - 24)))
  /\ ParseOne (concat (map report_block_encode rs) ++ rest) (zlen rs) s
     = Ret (find_report_block rs s).
Proof.
  intros Hwf. split; [| by apply ParseOne_encode].
  intros r Hr b Hb. apply report_block_AppendFields_ok; [| done].
  rewrite Forall_forall in Hwf. auto.
Qed.

Lemma report_blocks_roundtrip_witness :
  let r := mkReportBlock 42 3 1000 70000 15 0xa3b4c5d6 65536 in
  let q := r <| ssrc := 43 |> in
  ParseOne (concat (map report_block_encode [q; r]) ++ []) 2 42 = Ret (Some r).
Proof.
  intros r q. apply (report_blocks_roundtrip [q; r] 42 []).
  repeat constructor; vm_compute; intuition congruence.
Defined.

(** The loss statistics a receiver reports always fit their wire fields,
    and the delay is the input rounded down to 1/65536 s unless it is outside
    the representable range, where it is clamped. *)
Theorem report_setters_bounded (sent recv delay : Z) (r : RtcpReportBlock) :
  is_u 8 (packet_fraction_lost_numerator (SetPacketFractionLostNumerator sent recv r))
  /\ is_u 24 (cumulative_packets_lost (SetCumulativePacketsLost sent recv r))
  /\ is_u 32 (delay_since_last_report (SetDelaySinceLastReport delay r))
  /\ (0 <= recv <= sent -> 0 < sent ->
        packet_fraction_lost_numerator (SetPacketFractionLostNumerator sent recv r)
        = Z.min 255 ((sent - recv) * 256 / sent))
  /\ (sent <= recv ->
        packet_fraction_lost_numerator (SetPacketFractionLostNumerator sent recv r) = 0)
  /\ (0 <= delay <= 65535999999 ->
        let ticks := delay_since_last_report (SetDelaySinceLastReport delay r) in
        ticks * 15625 <= delay * 1024 < (ticks + 1) * 15625).
Proof.
  unfold SetPacketFractionLostNumerator, SetCumulativePacketsLost, SetDelaySinceLastReport.
  unfold kPacketFractionLostDenominator, delay_to_duration, kMaxValidReportedDelay.
  change (FieldBitmask kRtcpCumulativePacketsFieldNumBits) with (2 ^ 24 - 1).
  unfold duration_cast_delay. rewrite (Z.quot_div_nonneg ((2 ^ 32 - 1) * 15625)) by lia.
  change ((2 ^ 32 - 1) * 15625 / 1024) with 65535999984.
  split; [| split; [| split; [| split; [| split]]]]; unfold is_u.
  - destruct (Z.leb_spec sent 0); simpl; [lia |]. rewrite saturate_uint8_clamp. lia.
  - simpl. lia.
  - destruct (Z.ltb_spec 65535999984 delay), (Z.leb_spec delay 0); simpl; try lia.
    rewrite Z.quot_div_nonneg by lia. Z.div_mod_to_equations. lia.
  - intros Hr Hs. rewrite (proj2 (Z.leb_gt _ _)) by lia. simpl.
    rewrite Z.quot_div_nonneg, saturate_uint8_clamp by nia.
    pose proof (Z.div_pos ((sent - recv) * 256) sent ltac:(lia) ltac:(lia)). lia.
  - intros Hr. destruct (Z.leb_spec sent 0); simpl; [done |].
    rewrite saturate_uint8_clamp.
    assert (Z.quot ((sent - recv) * 256) sent <= 0); [| lia].
    replace ((sent - recv) * 256) with (- ((recv - sent) * 256)) by lia.
    rewrite Z.quot_opp_l, Z.quot_div_nonneg by lia.
    pose proof (Z.div_pos ((recv - sent) * 256) sent ltac:(lia) ltac:(lia)). lia.
  - intros Hd. cbv zeta.
    destruct (Z.ltb_spec 65535999984 delay), (Z.leb_spec delay 0); simpl; try lia.
    rewrite Z.quot_div_nonneg by lia. Z.div_mod_to_equations. lia.
Qed.

Lemma report_setters_bounded_witness :
  packet_fraction_lost_numerator (SetPacketFractionLostNumerator 100 75 empty_report_block) = 64.
Proof.
  destruct (report_setters_bounded 100 75 0 empty_report_block) as (_ & _ & _ & H & _).
  rewrite H; [reflexivity | lia | lia].
Defined.
