(* ===== verification/SenderReport.v ===== *)
(** Sender Reports: the builder on the sending side and the parser on the
    receiving side (cast/streaming/impl/sender_report_builder.cc and
    sender_report_parser.cc). *)

From S2P Require Import Prelude Numeric Wire Ids NtpTime RtpDefines RtcpCommon.

(** * RtcpSenderReport (rtcp_common.h) *)

Record RtcpSenderReport := mkSenderReport {
  sr_reference_time : Z;
  sr_rtp_timestamp : Z;
  send_packet_count : Z;
  send_octet_count : Z;
  report_block : option RtcpReportBlock }.
#[export] Instance eta_RtcpSenderReport : Eta RtcpSenderReport := fun r =>
  mkSenderReport (sr_reference_time r) (sr_rtp_timestamp r) (send_packet_count r)
    (send_octet_count r) (report_block r).

(** * Builder *)

Definition kRequiredBufferSize : Z :=
  kRtcpCommonHeaderSize + kRtcpSenderReportSize + kRtcpReportBlockSize.

Definition SenderReportBuilder_BuildPacket (session : RtcpSession)
    (sender_report : RtcpSenderReport) (buffer : ByteBuffer)
    : outcome (list Z * Z) :=
  OSP_CHECK (kRequiredBufferSize <=? room buffer) ;;
  let header :=
    match report_block sender_report with
    | Some _ => mkHeader SenderReport 1 (kRtcpSenderReportSize + kRtcpReportBlockSize)
    | None => mkHeader SenderReport 0 kRtcpSenderReportSize
    end in
  buffer ← header_AppendFields header buffer;
  buffer ← AppendField 4 (sender_ssrc session) buffer;
  let ntp_timestamp := ToNtpTimestamp (ntp_converter session) (sr_reference_time sender_report) in
  buffer ← AppendField 8 ntp_timestamp buffer;
  buffer ← AppendField 4 (lower_32_bits (sr_rtp_timestamp sender_report)) buffer;
  buffer ← AppendField 4 (send_packet_count sender_report) buffer;
  buffer ← AppendField 4 (send_octet_count sender_report) buffer;
  buffer ← match report_block sender_report with
           | Some r => report_block_AppendFields r buffer
           | None => Ret buffer
           end;
  Ret (written buffer, ToStatusReportId ntp_timestamp).

Definition GetRecentReportTime (session : RtcpSession) (report_id on_or_before : Z) : Z :=
  let max_timestamp := ToNtpTimestamp (ntp_converter session) on_or_before in
  let reconstructed :=
    Z.lor (Z.land max_timestamp (Z.shiftl 0xffff 48)) (u64 (Z.shiftl report_id 16)) in
  let reconstructed :=
    if max_timestamp <? reconstructed then u64 (reconstructed - Z.shiftl 1 48)
    else reconstructed in
  ToLocalTime (ntp_converter session) reconstructed.

(** * Parser

    Its state is the last parsed RTP timestamp. *)

Record SenderReportWithId := mkReportWithId { report_id : Z; base_report : RtcpSenderReport }.

Definition parse_sender_report (session : RtcpSession) (last_parsed_rtp_timestamp : Z)
    (header : RtcpCommonHeader) (chunk : list Z) : outcome SenderReportWithId :=
  '(ntp_timestamp, chunk) ← ConsumeField 8 chunk;
  '(rtp, chunk) ← ConsumeField 4 chunk;
  '(packets, chunk) ← ConsumeField 4 chunk;
  '(octets, chunk) ← ConsumeField 4 chunk;
  block ← ParseOne chunk (report_count header) (receiver_ssrc session);
  Ret (mkReportWithId (ToStatusReportId ntp_timestamp)
         (mkSenderReport (ToLocalTime (ntp_converter session) ntp_timestamp)
            (Expand 32 last_parsed_rtp_timestamp rtp) packets octets block)).

Fixpoint SenderReportParser_loop (fuel : nat) (session : RtcpSession)
    (last_parsed_rtp_timestamp : Z) (buffer : list Z) (sender_report : option SenderReportWithId)
    : outcome (option (option SenderReportWithId)) :=
  match buffer with
  | [] => Ret (Some sender_report)
  | _ =>
    match fuel with
    | O => Fault OutOfBounds
    | S fuel =>
      next ← NextChunk buffer;
      match next with
      | None => Ret None
      | Some (header, chunk, buffer) =>
          if negb (bool_decide (packet_type header = SenderReport)) then
            SenderReportParser_loop fuel session last_parsed_rtp_timestamp buffer sender_report
          else if payload_size header <? kRtcpSenderReportSize then Ret None
          else
            '(s, chunk) ← ConsumeField 4 chunk;
            if negb (s =? sender_ssrc session) then
              SenderReportParser_loop fuel session last_parsed_rtp_timestamp buffer sender_report
            else
              report ← parse_sender_report session last_parsed_rtp_timestamp header chunk;
              SenderReportParser_loop fuel session last_parsed_rtp_timestamp buffer (Some report)
      end
    end
  end.

(** Every iteration consumes at least a header, so the length of the packet is
    enough fuel. *)
Definition SenderReportParser_Parse (session : RtcpSession) (last_parsed_rtp_timestamp : Z)
    (buffer : list Z) : outcome (option SenderReportWithId * Z) :=
  result ← SenderReportParser_loop (length buffer) session last_parsed_rtp_timestamp buffer None;
  match result with
  | None | Some None => Ret (None, last_parsed_rtp_timestamp)
  | Some (Some r) => Ret (Some r, sr_rtp_timestamp (base_report r))
  end.

(** * Lemmas *)

Definition sender_report_wf (r : RtcpSenderReport) : Prop :=
  is_u 32 (send_packet_count r) /\ is_u 32 (send_octet_count r)
  /\ match report_block r with Some b => report_block_wf b | None => True end.

Definition blocks_of (o : option RtcpReportBlock) : list RtcpReportBlock :=
  match o with Some b => [b] | None => [] end.

Definition sender_report_header (r : RtcpSenderReport) : RtcpCommonHeader :=
  mkHeader SenderReport (zlen (blocks_of (report_block r)))
    (24 + 24 * zlen (blocks_of (report_block r))).

Definition sender_report_payload (s : RtcpSession) (r : RtcpSenderReport) : list Z :=
  be_encode 4 (sender_ssrc s)
  ++ be_encode 8 (ToNtpTimestamp (ntp_converter s) (sr_reference_time r))
  ++ be_encode 4 (sr_rtp_timestamp r)
  ++ be_encode 4 (send_packet_count r) ++ be_encode 4 (send_octet_count r)
  ++ concat (map report_block_encode (blocks_of (report_block r))).

Lemma sender_report_header_wf r : header_wf (sender_report_header r).
Proof. destruct r as [? ? ? ? []]; split_and!; done. Qed.

Lemma BuildPacket_ok s r size :
  sender_report_wf r -> 52 <= size ->
  SenderReportBuilder_BuildPacket s r (new_buffer size)
  = Ret (header_encode (sender_report_header r) ++ sender_report_payload s r,
         ToStatusReportId (ToNtpTimestamp (ntp_converter s) (sr_reference_time r))).
Proof.
  intros (Hp & Ho & Hb) Hsize. unfold SenderReportBuilder_BuildPacket.
  unfold kRequiredBufferSize, kRtcpCommonHeaderSize, kRtcpSenderReportSize, kRtcpReportBlockSize.
  rewrite OSP_CHECK_leb by (simpl; lia). simpl.
  assert (match report_block r with
          | Some _ => mkHeader SenderReport 1 (24 + 24) | None => mkHeader SenderReport 0 24 end
          = sender_report_header r) as ->
    by (unfold sender_report_header; destruct (report_block r); done).
  rewrite header_AppendFields_ok by (apply sender_report_header_wf || (simpl; lia)).
  simpl. do 5 write_field.
  unfold sender_report_payload, lower_32_bits.
  change 32 with (8 * Z.of_nat 4). rewrite be_encode_wrap.
  destruct (report_block r) as [blk |]; simpl.
  - rewrite report_block_AppendFields_ok by (done || (simpl; lia)). simpl.
    by rewrite !app_nil_r, <- !app_assoc.
  - by rewrite !app_nil_r, <- !app_assoc.
Qed.

(** What the parser makes of one encoded report that is addressed to it. *)
Definition received_report (ss rs : RtcpSession) (last : Z) (r : RtcpSenderReport)
    : SenderReportWithId :=
  let ntp := ToNtpTimestamp (ntp_converter ss) (sr_reference_time r) in
  mkReportWithId (ToStatusReportId ntp)
    (mkSenderReport (ToLocalTime (ntp_converter rs) ntp)
       (Expand 32 last (wrap 32 (sr_rtp_timestamp r)))
       (send_packet_count r) (send_octet_count r)
       (find_report_block (blocks_of (report_block r)) (receiver_ssrc rs))).

Lemma zlen_sender_report_payload s r :
  zlen (sender_report_payload s r) = payload_size (sender_report_header r).
Proof.
  unfold sender_report_payload, sender_report_header. destruct (report_block r); simpl;
    autorewrite with zlen; rewrite ?zlen_report_block_encode; done.
Qed.

Lemma parse_sender_report_ok ss rs last r :
  sender_report_wf r ->
  parse_sender_report rs last (sender_report_header r)
    (drop 4 (sender_report_payload ss r)) = Ret (received_report ss rs last r).
Proof.
  intros (Hp & Ho & Hb). unfold sender_report_payload, parse_sender_report, received_report.
  rewrite drop_app_length' by (by rewrite length_be_encode).
  read_field. change (8 * Z.of_nat 8) with 64.
  rewrite (wrap_small 64) by apply ToNtpTimestamp_is_u64.
  do 3 read_field. change (8 * Z.of_nat 4) with 32.
  rewrite !(wrap_small 32 (send_packet_count r)), !(wrap_small 32 (send_octet_count r)) by done.
  assert (Forall report_block_wf (blocks_of (report_block r))) as Hbs
    by (destruct (report_block r); simpl; auto).
  pose proof (ParseOne_encode _ [] (receiver_ssrc rs) Hbs) as Hparse.
  rewrite app_nil_r in Hparse. unfold report_count, sender_report_header. simpl.
  by rewrite Hparse.
Qed.

Lemma SenderReportParser_loop_total fuel s last buf acc :
  bytes_ok buf -> (length buf <= fuel)%nat -> (forall r, acc = Some r -> is_u 32 (report_id r)) ->
  exists o, SenderReportParser_loop fuel s last buf acc = Ret o
    /\ forall r, o = Some (Some r) -> is_u 32 (report_id r).
Proof.
  revert buf acc. induction fuel as [| fuel IH]; intros buf acc Hok Hf Hacc.
  { destruct buf; [| simpl in Hf; lia]. eexists. split; [done |]. intros r [= ->]. by apply Hacc. }
  destruct buf as [| b0 buf]; [eexists; split; [done |]; intros r [= ->]; by apply Hacc |].
  cbn [SenderReportParser_loop].
  destruct (NextChunk_total (b0 :: buf) Hok) as ([[[h p] r] |] & -> & Hn); simpl; [| by eexists].
  destruct (Hn h p r eq_refl) as (Hr & Hp & Hrok & Hlen & _ & Hc).
  unfold kRtcpSenderReportSize.
  destruct (decide (packet_type h = SenderReport)) as [Ht | Ht].
  2: { rewrite bool_decide_false by done. simpl. apply IH; [done | simpl in *; lia | done]. }
  rewrite bool_decide_true by done. simpl. case_bool; [by eexists |].
  read_any. destruct (negb _); [apply IH; [done | simpl in *; lia | done] |].
  unfold parse_sender_report. do 4 read_any.
  match goal with |- context [ParseOne ?a ?b ?c] =>
    destruct (ParseOne_total a b c) as [o ->]; [by apply Hc; left |] end.
  simpl. apply IH; [done | simpl in *; lia |]. intros r' [= <-]. by apply wrap_is_u.
Qed.

(** Running the parser on a packet that is a single chunk. *)
Lemma SenderReportParser_first_chunk s last h p acc :
  header_wf h -> zlen p = payload_size h ->
  exists n, SenderReportParser_loop (length (header_encode h ++ p)) s last (header_encode h ++ p) acc
  = if negb (bool_decide (packet_type h = SenderReport)) then
      SenderReportParser_loop n s last [] acc
    else if payload_size h <? kRtcpSenderReportSize then Ret None
    else
      '(x, chunk) ← ConsumeField 4 p;
      if negb (x =? sender_ssrc s) then SenderReportParser_loop n s last [] acc
      else
        report ← parse_sender_report s last h chunk;
        SenderReportParser_loop n s last [] (Some report).
Proof.
  intros Hwf Hlen. pose proof (zlen_header_encode h) as Hz.
  pose proof (NextChunk_encode h p [] Hwf Hlen) as Hn. rewrite app_nil_r in Hn.
  destruct (header_encode h ++ p) as [| b l] eqn:Hb.
  { destruct (header_encode h); done. }
  exists (length l). cbn [length SenderReportParser_loop]. by rewrite Hn.
Qed.

Lemma SenderReportParser_Parse_ok (s : RtcpSession) (last : Z) (buf : list Z) :
  bytes_ok buf ->
  exists o last', SenderReportParser_Parse s last buf = Ret (o, last')
    /\ match o with Some r => is_u 32 (report_id r) | None => last' = last end.
Proof.
  intros Hok. unfold SenderReportParser_Parse.
  destruct (SenderReportParser_loop_total (length buf) s last buf None Hok (le_n _) ltac:(done)) as (o & -> & Ho).
  simpl. destruct o as [[r |] |]; eexists _, _; (split; [done |]); [by apply Ho | done | done].
Qed.

(** Whatever bytes arrive, the Sender Report parser stays inside the packet
    and terminates; the identifier of a report has 32 bits, and on failure the
    parser's state is unchanged. *)
Theorem sender_report_parser_total (s : RtcpSession) (last : Z) (buf : list Z) :
  bytes_ok buf ->
  exists o last', SenderReportParser_Parse s last buf = Ret (o, last')
    /\ match o with Some r => is_u 32 (report_id r) | None => last' = last end.
Proof. apply SenderReportParser_Parse_ok. Qed.

Lemma sender_report_parser_total_witness :
  let s := mkSession 1 2 0 (new_NtpTimeConverter 0 1700000000) in
  exists o last', SenderReportParser_Parse s 5 [128; 200; 0; 1; 0] = Ret (o, last')
    /\ match o with Some r => is_u 32 (report_id r) | None => last' = 5 end.
Proof.
  intros s. apply sender_report_parser_total. repeat constructor; vm_compute; congruence.
Defined.

(** A Sender Report built by a sender is parsed by the receiver of the same
    session to the same counts, the report ID the builder returned, the RTP
    timestamp re-expanded, the reference time on the receiver's clock, and its
    report block if it is addressed to this receiver. *)
Theorem sender_report_roundtrip (ss rs : RtcpSession) (last size : Z) (r : RtcpSenderReport) :
  sender_report_wf r -> 52 <= size ->
  is_u 32 (sender_ssrc ss) -> sender_ssrc rs = sender_ssrc ss ->
  exists packet id, SenderReportBuilder_BuildPacket ss r (new_buffer size) = Ret (packet, id)
    /\ report_id (received_report ss rs last r) = id
    /\ SenderReportParser_Parse rs last packet
       = Ret (Some (received_report ss rs last r),
              Expand 32 last (wrap 32 (sr_rtp_timestamp r))).
Proof.
  intros Hwf Hsize Hssrc Hsame. eexists _, _.
  split; [by apply BuildPacket_ok |]. split; [done |].
  unfold SenderReportParser_Parse.
  destruct (SenderReportParser_first_chunk rs last (sender_report_header r)
    (sender_report_payload ss r) None) as [n ->];
    [apply sender_report_header_wf | apply zlen_sender_report_payload |]. simpl.
  unfold kRtcpSenderReportSize.
  rewrite (proj2 (Z.ltb_ge _ _)) by (pose proof (zlen_nonneg (blocks_of (report_block r))); lia).
  pose proof (parse_sender_report_ok ss rs last r Hwf) as Hparse. revert Hparse.
  unfold sender_report_payload at 1 2.
  rewrite drop_app_length' by (by rewrite length_be_encode). read_field. intros Hparse.
  change (8 * Z.of_nat 4) with 32. rewrite (wrap_small 32) by done.
  rewrite Hsame, Z.eqb_refl. simpl. rewrite Hparse. simpl. by destruct n.
Qed.

Lemma sender_report_roundtrip_witness :
  let s := mkSession 1 2 0 (new_NtpTimeConverter 0 1700000000) in
  let r := mkSenderReport 1000000 90000 7 700
             (Some (mkReportBlock 2 3 1000 70000 15 0xa3b4c5d6 65536)) in
  exists packet id, SenderReportBuilder_BuildPacket s r (new_buffer 64) = Ret (packet, id)
    /\ report_id (received_report s s 80000 r) = id
    /\ SenderReportParser_Parse s 80000 packet = Ret (Some (received_report s s 80000 r), 90000).
Proof.
  intros s r. apply (sender_report_roundtrip s s 80000 64 r); vm_compute; intuition congruence.
Defined.

(** * Recovering a report's send time from its 32-bit identifier *)

(** The reconstruction of [GetRecentReportTime] is an expansion to the greatest
    timestamp, at most the maximum, with the identifier's middle bits. *)
Lemma reconstructed_timestamp (m n : Z) :
  is_u 64 m -> is_u 64 n -> n <= m -> m - n < 2 ^ 48 - 2 ^ 16 ->
  let r := Z.lor (Z.land m (Z.shiftl 0xffff 48)) (u64 (Z.shiftl (ToStatusReportId n) 16)) in
  (if m <? r then u64 (r - Z.shiftl 1 48) else r) = n / 2 ^ 16 * 2 ^ 16.
Proof.
  intros Hm Hn Hle Hd. cbv zeta. unfold ToStatusReportId.
  set (id := u32 (Z.shiftr n 16)).
  assert (is_u 32 id) as Hid by (apply wrap_is_u; lia).
  assert (u64 (Z.shiftl id 16) = id * 2 ^ 16) as ->.
  { rewrite Z.shiftl_mul_pow2 by lia. apply wrap_small. unfold is_u in *. lia. }
  assert (Z.land m (Z.shiftl 0xffff 48) = Z.shiftl (m / 2 ^ 48) 48) as ->.
  { apply Z.bits_inj'. intros k Hk. rewrite Z.land_spec, !Z.shiftl_spec by lia.
    rewrite <- Z.shiftr_div_pow2 by lia. destruct (Z.lt_ge_cases k 48).
    - rewrite !(Z.testbit_neg_r _ (k - 48)) by lia. apply andb_false_r.
    - rewrite Z.shiftr_spec by lia. replace (k - 48 + 48) with k by lia.
      change 65535 with (Z.ones 16). destruct (Z.lt_ge_cases k 64).
      + rewrite Z.ones_spec_low by lia. apply andb_true_r.
      + rewrite (testbit_high 64 m) by (done || lia). done. }
  rewrite lor_shiftl_add by (unfold is_u in *; lia).
  assert (id * 2 ^ 16 = (n / 2 ^ 16 * 2 ^ 16) mod 2 ^ 48) as Hmod.
  { subst id. unfold wrap. rewrite Z.shiftr_div_pow2 by lia.
    change (2 ^ 48) with (2 ^ 32 * 2 ^ 16). by rewrite Z.mul_mod_distr_r by lia. }
  set (n' := n / 2 ^ 16 * 2 ^ 16) in *. unfold is_u in *.
  assert (n - 2 ^ 16 < n' <= n) as Hn' by (subst n'; Z.div_mod_to_equations; lia).
  assert (0 <= n') by (subst n'; Z.div_mod_to_equations; lia).
  change (Z.shiftl 1 48) with (2 ^ 48). rewrite Hmod.
  pose proof (Z.div_mod n' (2 ^ 48) ltac:(lia)).
  pose proof (Z.div_mod m (2 ^ 48) ltac:(lia)).
  pose proof (Z.mod_pos_bound m (2 ^ 48) ltac:(lia)).
  pose proof (Z.mod_pos_bound n' (2 ^ 48) ltac:(lia)).
  destruct (Z.ltb_spec m (m / 2 ^ 48 * 2 ^ 48 + n' mod 2 ^ 48)); [| nia].
  assert (m / 2 ^ 48 = n' / 2 ^ 48 + 1) by nia.
  rewrite wrap_small by (unfold is_u; nia). nia.
Qed.

(** In the range of NTP seconds that needs no era correction, the timestamp is
    the seconds and fraction joined, so it grows with time. *)
Lemma ToNtpTimestamp_value c t :
  start_time c <= t -> 0 <= since_ntp_epoch c + (t - start_time c) / 1000000 < 2 ^ 32 ->
  ToNtpTimestamp c t
  = (since_ntp_epoch c + (t - start_time c) / 1000000) * 2 ^ 32
    + (((t - start_time c) mod 1000000) * 67108864) / 15625.
Proof.
  intros Ht Hs. unfold ToNtpTimestamp, duration_cast_seconds, seconds_to_duration.
  set (d := t - start_time c) in *. rewrite Z.quot_div_nonneg by lia.
  replace (d - d / 1000000 * 1000000) with (d mod 1000000) by (rewrite Z.mod_eq by lia; lia).
  pose proof (Z.mod_pos_bound d 1000000 ltac:(lia)).
  destruct (fraction_roundtrip (d mod 1000000)) as [Hf _]; [lia |].
  rewrite Assemble_add, wrap_small by done. unfold duration_cast_fraction.
  by rewrite Z.quot_div_nonneg by lia.
Qed.

Lemma ToNtpTimestamp_mono c t t' :
  start_time c <= t -> t <= t' ->
  0 <= since_ntp_epoch c + (t - start_time c) / 1000000 ->
  since_ntp_epoch c + (t' - start_time c) / 1000000 < 2 ^ 32 ->
  ToNtpTimestamp c t <= ToNtpTimestamp c t'
  /\ (ToNtpTimestamp c t' - ToNtpTimestamp c t) * 15625
     <= (t' - t) * 67108864 + 15625.
Proof.
  intros Hs Ht Hlo Hhi.
  assert ((t - start_time c) / 1000000 <= (t' - start_time c) / 1000000)
    by (apply Z.div_le_mono; lia).
  rewrite !ToNtpTimestamp_value by lia. Z.div_mod_to_equations. lia.
Qed.

(** The send time of a recent Sender Report is recovered from the 32-bit
    report ID a receiver echoes: at most 17 microseconds early, never late, for
    reports less than 65535 seconds old. *)
Theorem recent_report_time (s : RtcpSession) (t now : Z) :
  let c := ntp_converter s in
  start_time c <= t -> t <= now -> now - t <= 65535000000 ->
  kTimeBetweenNtpEpochAndUnixEpoch < since_ntp_epoch c ->
  since_ntp_epoch c + (now - start_time c) / 1000000 < 2 ^ 32 ->
  t - 17 <= GetRecentReportTime s (ToStatusReportId (ToNtpTimestamp c t)) now <= t.
Proof.
  intros c Hst Htn Hage Hlo Hhi. unfold GetRecentReportTime. fold c.
  assert (0 <= (t - start_time c) / 1000000) by (apply Z.div_pos; lia).
  assert ((t - start_time c) / 1000000 <= (now - start_time c) / 1000000)
    by (apply Z.div_le_mono; lia).
  unfold kTimeBetweenNtpEpochAndUnixEpoch in Hlo.
  destruct (ToNtpTimestamp_mono c t now) as [Hm1 Hm2]; [lia.. |].
  rewrite reconstructed_timestamp by (apply ToNtpTimestamp_is_u64 || lia).
  rewrite ToNtpTimestamp_value by lia.
  set (d := t - start_time c) in *. set (sec := since_ntp_epoch c + d / 1000000) in *.
  pose proof (Z.mod_pos_bound d 1000000 ltac:(lia)) as Hr.
  destruct (fraction_roundtrip (d mod 1000000) Hr) as (Hf & _ & _).
  unfold duration_cast_fraction in Hf. rewrite Z.quot_div_nonneg in Hf by lia.
  set (f := d mod 1000000 * 67108864 / 15625) in *.
  assert ((sec * 2 ^ 32 + f) / 2 ^ 16 * 2 ^ 16 = sec * 2 ^ 32 + f / 2 ^ 16 * 2 ^ 16) as ->.
  { replace (sec * 2 ^ 32) with (sec * 2 ^ 16 * 2 ^ 16) by lia.
    rewrite Z.div_add_l by lia. lia. }
  unfold is_u in Hf. set (f' := f / 2 ^ 16 * 2 ^ 16).
  assert (f - 2 ^ 16 < f' <= f /\ 0 <= f') as Hf' by (subst f'; Z.div_mod_to_equations; lia).
  unfold ToLocalTime. rewrite NtpSecondsPart_join, NtpFractionPart_join by (unfold is_u; lia).
  unfold kTimeBetweenNtpEpochAndUnixEpoch. rewrite (proj2 (Z.leb_gt _ _)) by (subst sec; lia).
  unfold seconds_to_duration, fraction_to_duration. rewrite Z.quot_div_nonneg by lia.
  clearbody f'. subst f sec. Z.div_mod_to_equations. lia.
Qed.

Lemma recent_report_time_witness :
  let s := mkSession 1 2 0 (new_NtpTimeConverter 0 1700000000) in
  999983 <= GetRecentReportTime s (ToStatusReportId (ToNtpTimestamp (ntp_converter s) 1000000)) 5000000
    <= 1000000.
Proof. intros s. apply (recent_report_time s 1000000 5000000); vm_compute; congruence. Defined.
