(* ===== verification/RtcpBuilder.v ===== *)
(** The compound RTCP packets a receiver sends
    (cast/streaming/impl/compound_rtcp_builder.cc). *)

From S2P Require Import Prelude Numeric Wire Ids NtpTime RtpDefines RtcpCommon.

(** * State *)

Definition kDefaultTargetPlayoutDelay : Z := 400.

Record CompoundRtcpBuilder := mkBuilder {
  checkpoint_frame_id : Z;
  playout_delay : Z;  (* milliseconds *)
  receiver_report_for_next_packet : option RtcpReportBlock;
  nacks_for_next_packet : list PacketNack;
  acks_for_next_packet : list Z;
  logs_for_next_packet : list RtcpReceiverFrameLogMessage;
  picture_loss_indicator : bool;
  feedback_count : Z }.
#[export] Instance eta_CompoundRtcpBuilder : Eta CompoundRtcpBuilder := fun b =>
  mkBuilder (checkpoint_frame_id b) (playout_delay b) (receiver_report_for_next_packet b)
    (nacks_for_next_packet b) (acks_for_next_packet b) (logs_for_next_packet b)
    (picture_loss_indicator b) (feedback_count b).

Definition new_CompoundRtcpBuilder : CompoundRtcpBuilder :=
  mkBuilder leader_frame_id kDefaultTargetPlayoutDelay None [] [] [] false 0.

(** * Setters *)

Definition SetCheckpointFrame (frame_id : Z) (b : CompoundRtcpBuilder)
    : outcome CompoundRtcpBuilder :=
  OSP_CHECK (checkpoint_frame_id b <=? frame_id) ;;
  Ret (b <| checkpoint_frame_id := frame_id |>).

Definition SetPlayoutDelay (delay : Z) (b : CompoundRtcpBuilder) : CompoundRtcpBuilder :=
  b <| playout_delay := delay |>.
Definition SetPictureLossIndicator (is_lost : bool) (b : CompoundRtcpBuilder) : CompoundRtcpBuilder :=
  b <| picture_loss_indicator := is_lost |>.
Definition IncludeReceiverReportInNextPacket (r : RtcpReportBlock) (b : CompoundRtcpBuilder)
    : CompoundRtcpBuilder :=
  b <| receiver_report_for_next_packet := Some r |>.

(** The consistency checks on the lists are [OSP_DCHECK]s, absent from release
    builds. *)
Definition IncludeFeedbackInNextPacket (nacks : list PacketNack) (acks : list Z)
    (b : CompoundRtcpBuilder) : CompoundRtcpBuilder :=
  b <| nacks_for_next_packet := nacks |> <| acks_for_next_packet := acks |>.
Definition IncludeReceiverLogsInNextPacket (logs : list RtcpReceiverFrameLogMessage)
    (b : CompoundRtcpBuilder) : CompoundRtcpBuilder :=
  b <| logs_for_next_packet := logs |>.

(** * Receiver report, reference time, picture loss *)

Definition AppendReceiverReportPacket (session : RtcpSession) (b : CompoundRtcpBuilder)
    (buffer : ByteBuffer) : outcome (CompoundRtcpBuilder * ByteBuffer) :=
  let header :=
    match receiver_report_for_next_packet b with
    | Some _ => mkHeader ReceiverReport 1 (kRtcpReceiverReportSize + kRtcpReportBlockSize)
    | None => mkHeader ReceiverReport 0 kRtcpReceiverReportSize
    end in
  buffer ← header_AppendFields header buffer;
  buffer ← AppendField 4 (receiver_ssrc session) buffer;
  match receiver_report_for_next_packet b with
  | Some r =>
      buffer ← report_block_AppendFields r buffer;
      Ret (b <| receiver_report_for_next_packet := None |>, buffer)
  | None => Ret (b, buffer)
  end.

Definition AppendReceiverReferenceTimeReportPacket (session : RtcpSession) (send_time : Z)
    (buffer : ByteBuffer) : outcome ByteBuffer :=
  let header := mkHeader ExtendedReports 0
    (kRtcpExtendedReportHeaderSize + kRtcpExtendedReportBlockHeaderSize
     + kRtcpReceiverReferenceTimeReportBlockSize) in
  buffer ← header_AppendFields header buffer;
  buffer ← AppendField 4 (receiver_ssrc session) buffer;
  buffer ← AppendField 1 kRtcpReceiverReferenceTimeReportBlockType buffer;
  buffer ← AppendField 1 0 buffer;
  buffer ← AppendField 2 (kRtcpReceiverReferenceTimeReportBlockSize / 4) buffer;
  AppendField 8 (ToNtpTimestamp (ntp_converter session) send_time) buffer.

Definition AppendPictureLossIndicatorPacket (session : RtcpSession) (buffer : ByteBuffer)
    : outcome ByteBuffer :=
  let header := mkHeader PayloadSpecific (RtcpSubtype_value PictureLossIndicator)
    kRtcpPictureLossIndicatorHeaderSize in
  buffer ← header_AppendFields header buffer;
  buffer ← AppendField 4 (receiver_ssrc session) buffer;
  AppendField 4 (sender_ssrc session) buffer.

(** * Loss fields *)

(** The inner loop: gathers into [bit_vector] the NACKs of the same frame that
    are within 8 packets of the first, and returns the rest of the list. *)
Fixpoint loss_bit_vector (frame_id first_packet_id bit_vector : Z) (nacks : list PacketNack)
    : outcome (Z * list PacketNack) :=
  match nacks with
  | [] => Ret (bit_vector, [])
  | n :: rest =>
      if negb (nack_frame_id n =? frame_id) then Ret (bit_vector, nacks) else
      let shift := nack_packet_id n - first_packet_id - 1 in
      if 8 <=? shift then Ret (bit_vector, nacks)
      else if shift <? 0 then Fault Undefined
      else loss_bit_vector frame_id first_packet_id
             (u8 (Z.lor bit_vector (Z.shiftl 1 shift))) rest
  end.

(** The outer loop; [remaining] is [max_num_loss_fields - num_loss_fields]. *)
Fixpoint loss_fields_loop (remaining : nat) (nacks : list PacketNack) (num_loss_fields : Z)
    (buffer : ByteBuffer) : outcome (Z * ByteBuffer) :=
  match remaining, nacks with
  | O, _ | _, [] => Ret (num_loss_fields, buffer)
  | S remaining, n :: rest =>
      '(bit_vector, rest) ←
        loss_bit_vector (nack_frame_id n) (nack_packet_id n) 0 rest;
      buffer ← AppendField 1 (lower_8_bits (nack_frame_id n)) buffer;
      buffer ← AppendField 2 (nack_packet_id n) buffer;
      buffer ← AppendField 1 bit_vector buffer;
      loss_fields_loop remaining rest (num_loss_fields + 1) buffer
  end.

(** [std::find_if] for the first NACK after the checkpoint. *)
Fixpoint skip_nacks (checkpoint : Z) (nacks : list PacketNack) : list PacketNack :=
  match nacks with
  | [] => []
  | n :: rest => if checkpoint <? nack_frame_id n then nacks else skip_nacks checkpoint rest
  end.

Definition AppendCastFeedbackLossFields (b : CompoundRtcpBuilder) (buffer : ByteBuffer)
    : outcome (Z * CompoundRtcpBuilder * ByteBuffer) :=
  match nacks_for_next_packet b with
  | [] => Ret (0, b, buffer)
  | nacks =>
      let max_num_loss_fields := Z.min (room buffer / kRtcpFeedbackLossFieldSize) 255 in
      '(num, buffer) ← loss_fields_loop (Z.to_nat max_num_loss_fields)
        (skip_nacks (checkpoint_frame_id b) nacks) 0 buffer;
      Ret (num, b <| nacks_for_next_packet := [] |>, buffer)
  end.

(** * ACK bit vector *)

(** [ack_bitvector[octet_index] |= 1 << shift], the vector starting at offset
    [off] of the buffer. *)
Definition set_ack_bit (off octet_index shift : Z) (buffer : ByteBuffer) : ByteBuffer :=
  buffer <| written :=
    alter (fun octet => u8 (Z.lor octet (Z.shiftl 1 shift)))
      (Z.to_nat (off + octet_index)) (written buffer) |>.

(** The loop over the ACKs; each element is skipped, ends the loop or sets a
    bit, growing the vector when needed. *)
Fixpoint ack_loop (off first_frame_id : Z) (acks : list Z) (num_octets : Z)
    (buffer : ByteBuffer) : outcome (Z * ByteBuffer) :=
  match acks with
  | [] => Ret (num_octets, buffer)
  | frame_id :: acks =>
      let bit_index := swrap 32 (frame_id - first_frame_id) in
      if bit_index <? 0 then ack_loop off first_frame_id acks num_octets buffer else
      let octet_index := Z.quot bit_index 8 in
      let shift := Z.rem bit_index 8 in
      if num_octets <=? octet_index then
        let num_additional := DividePositivesRoundingUp (octet_index + 1 - num_octets) 4 * 4 in
        if room buffer <? num_additional then Ret (num_octets, buffer) else
        let new_count := num_octets + num_additional in
        if kRtcpMaxAckBitVectorOctets <? new_count then Ret (num_octets, buffer) else
        '(_, buffer) ← ReserveSpace num_additional buffer;
        ack_loop off first_frame_id acks new_count (set_ack_bit off octet_index shift buffer)
      else ack_loop off first_frame_id acks num_octets (set_ack_bit off octet_index shift buffer)
  end.

Definition AppendCastFeedbackAckFields (b : CompoundRtcpBuilder) (buffer : ByteBuffer)
    : outcome (CompoundRtcpBuilder * ByteBuffer) :=
  if room buffer <? kRtcpFeedbackAckHeaderSize + kRtcpMinAckBitVectorOctets then Ret (b, buffer)
  else
    buffer ← AppendField 4 kRtcpCst2IdentifierWord buffer;
    buffer ← AppendField 1 (feedback_count b) buffer;
    '(octet_count_field, buffer) ← ReserveSpace 1 buffer;
    '(ack_bitvector, buffer) ← ReserveSpace kRtcpMinAckBitVectorOctets buffer;
    '(num_octets, buffer) ←
      match acks_for_next_packet b with
      | [] => Ret (kRtcpMinAckBitVectorOctets, buffer)
      | acks => ack_loop ack_bitvector (checkpoint_frame_id b + 2) acks
                  kRtcpMinAckBitVectorOctets buffer
      end;
    OSP_CHECK (num_octets <=? 255) ;;
    Ret (b <| acks_for_next_packet := [] |>,
         fill_at octet_count_field (be_encode 1 num_octets) buffer).

Definition AppendCastFeedbackPacket (session : RtcpSession) (b : CompoundRtcpBuilder)
    (buffer : ByteBuffer) : outcome (CompoundRtcpBuilder * ByteBuffer) :=
  '(space_for_header, buffer) ← ReserveSpace kRtcpCommonHeaderSize buffer;
  let initial_buffer_size := room buffer in
  buffer ← AppendField 4 (receiver_ssrc session) buffer;
  buffer ← AppendField 4 (sender_ssrc session) buffer;
  buffer ← AppendField 4 kRtcpCastIdentifierWord buffer;
  buffer ← AppendField 1 (lower_8_bits (checkpoint_frame_id b)) buffer;
  '(loss_count_field, buffer) ← ReserveSpace 1 buffer;
  OSP_CHECK (0 <? playout_delay b) ;;
  OSP_CHECK (playout_delay b <=? 65535) ;;
  buffer ← AppendField 2 (playout_delay b) buffer;
  '(num_loss_fields, b, buffer) ← AppendCastFeedbackLossFields b buffer;
  OSP_CHECK (num_loss_fields <=? 255) ;;
  let buffer := fill_at loss_count_field (be_encode 1 num_loss_fields) buffer in
  '(b, buffer) ← AppendCastFeedbackAckFields b buffer;
  let header := mkHeader PayloadSpecific (RtcpSubtype_value Feedback)
    (initial_buffer_size - room buffer) in
  header_bytes ← header_AppendFields header (new_buffer kRtcpCommonHeaderSize);
  Ret (b <| feedback_count := u8 (feedback_count b + 1) |>,
       fill_at space_for_header (written header_bytes) buffer).

(** * Receiver log *)

Definition to_milliseconds (us : Z) : Z := Z.quot us 1000.

(** The loop over the events of one frame; [true] when the buffer is full. *)
Fixpoint log_events_loop (first_timestamp : Z) (events : list RtcpReceiverEventLogMessage)
    (buffer : ByteBuffer) : outcome (bool * ByteBuffer) :=
  match events with
  | [] => Ret (false, buffer)
  | e :: events =>
      if room buffer <? kRtcpReceiverFrameLogMessageBlockSize then Ret (true, buffer) else
      let delay_delta_or_packet_id :=
        if bool_decide (event_type e = kPacketReceived) then event_packet_id e
        else u16 (to_milliseconds (event_delay e)) in
      buffer ← AppendField 2 delay_delta_or_packet_id buffer;
      let wire_type := ToWireType (event_type e) in
      let wire_timestamp := u16 (to_milliseconds (event_timestamp e - first_timestamp)) in
      buffer ← AppendField 2
        (Z.lor (Z.shiftl wire_type 12) (Z.land wire_timestamp 0xFFF)) buffer;
      log_events_loop first_timestamp events buffer
  end.

Fixpoint frame_logs_loop (session : RtcpSession) (logs : list RtcpReceiverFrameLogMessage)
    (buffer : ByteBuffer) : outcome ByteBuffer :=
  match logs with
  | [] => Ret buffer
  | log :: logs =>
      if room buffer <? kRtcpReceiverFrameLogMessageHeaderSize then Ret buffer else
      buffer ← AppendField 4 (lower_32_bits (log_rtp_timestamp log)) buffer;
      let num_events_wire := u8 (zlen (log_messages log) - 1) in
      first ← in_bounds (head (log_messages log));
      let event_timestamp_wire :=
        u32 (to_milliseconds (event_timestamp first - session_start_time session)) in
      buffer ← AppendField 4
        (u32 (Z.lor (Z.shiftl num_events_wire 24) (Z.land event_timestamp_wire 0xFFFFFF))) buffer;
      '(full, buffer) ← log_events_loop (event_timestamp first) (log_messages log) buffer;
      if full : bool then Ret buffer else frame_logs_loop session logs buffer
  end.

Definition FinalizeReceiverLogPacket (space_for_header payload_size : Z)
    (b : CompoundRtcpBuilder) (buffer : ByteBuffer) : outcome (CompoundRtcpBuilder * ByteBuffer) :=
  let header := mkHeader ApplicationDefined (RtcpSubtype_value ReceiverLog) payload_size in
  header_bytes ← header_AppendFields header (new_buffer kRtcpCommonHeaderSize);
  Ret (b <| logs_for_next_packet := [] |>,
       fill_at space_for_header (written header_bytes) buffer).

Definition AppendReceiverLogPacket (session : RtcpSession) (b : CompoundRtcpBuilder)
    (buffer : ByteBuffer) : outcome (CompoundRtcpBuilder * ByteBuffer) :=
  match logs_for_next_packet b with
  | [] => Ret (b, buffer)
  | logs =>
      '(space_for_header, buffer) ← ReserveSpace kRtcpCommonHeaderSize buffer;
      let initial_buffer_size := room buffer in
      buffer ← AppendField 4 (receiver_ssrc session) buffer;
      buffer ← AppendField 4 kCastName buffer;
      buffer ← frame_logs_loop session logs buffer;
      FinalizeReceiverLogPacket space_for_header (initial_buffer_size - room buffer) b buffer
  end.

(** * BuildPacket *)

Definition kRequiredBufferSize : Z := 256.

Definition BuildPacket (session : RtcpSession) (send_time : Z) (b : CompoundRtcpBuilder)
    (buffer : ByteBuffer) : outcome (CompoundRtcpBuilder * list Z) :=
  OSP_CHECK (kRequiredBufferSize <=? room buffer) ;;
  '(b, buffer) ← AppendReceiverReportPacket session b buffer;
  buffer ← AppendReceiverReferenceTimeReportPacket session send_time buffer;
  buffer ← (if picture_loss_indicator b
            then AppendPictureLossIndicatorPacket session buffer else Ret buffer);
  '(b, buffer) ← AppendCastFeedbackPacket session b buffer;
  '(b, buffer) ← AppendReceiverLogPacket session b buffer;
  Ret (b, written buffer).
