(* ===== verification/RtcpParser.v ===== *)
(** The compound RTCP packets a sender receives
    (cast/streaming/impl/compound_rtcp_parser.cc).  Client callbacks are the
    list of events a parse emits, in order. *)

From S2P Require Import Prelude Numeric Wire Ids NtpTime RtpDefines RtcpCommon.

(** * Canonical NACK lists *)

(** The sort key treats [kAllPacketsLost] as coming first: packet IDs are
    compared after adding one, modulo 2^16. *)
Definition nack_sort_ltb (a b : PacketNack) : bool :=
  PacketNack_ltb (mkNack (nack_frame_id a) (u16 (nack_packet_id a + 1)))
                 (mkNack (nack_frame_id b) (u16 (nack_packet_id b + 1))).

(** Elements that compare equal are identical, so the result of [std::sort] is
    determined. *)
Definition nack_sort_le (a b : PacketNack) : Prop := nack_sort_ltb b a = false.
#[export] Instance nack_sort_le_dec : RelDecision nack_sort_le.
Proof. intros a b. unfold nack_sort_le. apply _. Defined.

(** The "to-keep" pass: [kept] is the element kept last. *)
Fixpoint keep_nacks (kept : PacketNack) (packets : list PacketNack) : list PacketNack :=
  match packets with
  | [] => [kept]
  | have :: packets =>
      if negb (nack_frame_id have =? nack_frame_id kept)
         || (negb (nack_packet_id kept =? kAllPacketsLost)
             && negb (nack_packet_id have =? nack_packet_id kept))
      then kept :: keep_nacks have packets
      else keep_nacks kept packets
  end.

Definition CanonicalizePacketNackVector (packets : list PacketNack) : list PacketNack :=
  match merge_sort nack_sort_le packets with
  | [] => []
  | first :: packets => keep_nacks first packets
  end.

(** * State, results of a parse, client events *)

Definition kNullTimePoint : Z := INT64_MIN.
Definition kTimeSyncRequestName : Z :=
  Z.shiftl 84 24 + Z.shiftl 73 16 + Z.shiftl 77 8 + 69.

Record CompoundRtcpParser := mkParser {
  latest_receiver_timestamp : Z; latest_frame_log_rtp_timestamp : Z }.
#[export] Instance eta_CompoundRtcpParser : Eta CompoundRtcpParser := fun p =>
  mkParser (latest_receiver_timestamp p) (latest_frame_log_rtp_timestamp p).
Definition new_CompoundRtcpParser : CompoundRtcpParser := mkParser kNullTimePoint 0.

Record ParseResults := mkResults {
  receiver_reference_time : Z;
  receiver_report : option RtcpReportBlock;
  log_messages : list RtcpReceiverFrameLogMessage;
  feedback_checkpoint : Z;
  target_playout_delay : Z;
  received_frames : list Z;
  packet_nacks : list PacketNack;
  picture_loss : bool }.
#[export] Instance eta_ParseResults : Eta ParseResults := fun r =>
  mkResults (receiver_reference_time r) (receiver_report r) (log_messages r)
    (feedback_checkpoint r) (target_playout_delay r) (received_frames r)
    (packet_nacks r) (picture_loss r).
Definition no_results : ParseResults :=
  mkResults kNullTimePoint None [] null_frame_id 0 [] [] false.

Inductive ClientEvent :=
  | OnReceiverReferenceTimeAdvanced (reference_time : Z)
  | OnReceiverReport (report : RtcpReportBlock)
  | OnCastReceiverFrameLogMessages (messages : list RtcpReceiverFrameLogMessage)
  | OnReceiverIndicatesPictureLoss
  | OnReceiverCheckpoint (frame_id playout_delay : Z)
  | OnReceiverHasFrames (acks : list Z)
  | OnReceiverIsMissingPackets (nacks : list PacketNack).

(** * The packets of a compound

    Each parser returns whether the input is well formed, and the results. *)

Definition ParseReceiverReport (session : RtcpSession) (input : list Z)
    (num_report_blocks : Z) (r : ParseResults) : outcome (bool * ParseResults) :=
  if zlen input <? kRtcpReceiverReportSize then Ret (false, r) else
  '(s, input) ← ConsumeField 4 input;
  if s =? receiver_ssrc session then
    report ← ParseOne input num_report_blocks (sender_ssrc session);
    Ret (true, r <| receiver_report := report |>)
  else Ret (true, r).

(** The events of one frame; [None] when the input is too short. *)
Fixpoint ParseEvents_loop (num_events : nat) (base : Z) (input : list Z)
    (messages : list RtcpReceiverEventLogMessage)
    : outcome (option (list RtcpReceiverEventLogMessage * list Z)) :=
  match num_events with
  | O => Ret (Some (messages, input))
  | S num_events =>
      if zlen input <? kRtcpReceiverFrameLogMessageBlockSize then Ret None else
      '(delay_delta_or_packet_id, input) ← ConsumeField 2 input;
      '(event_type_and_timestamp_delta, input) ← ConsumeField 2 input;
      let event_type := FromWireType (Z.shiftr event_type_and_timestamp_delta 12) in
      if bool_decide (event_type = kUnknownEvent)
      then ParseEvents_loop num_events base input messages else
      let timestamp := base + Z.land event_type_and_timestamp_delta 0xFFF * 1000 in
      let event_log :=
        if bool_decide (event_type = kPacketReceived)
        then mkEventLog event_type timestamp 0 delay_delta_or_packet_id
        else mkEventLog event_type timestamp (swrap 16 delay_delta_or_packet_id * 1000) 0 in
      ParseEvents_loop num_events base input (messages ++ [event_log])
  end.

(** [messages] are those of the frames before; the parser's state is the last
    RTP timestamp. *)
Fixpoint ParseFrameLogMessages_loop (fuel : nat) (session : RtcpSession) (latest : Z)
    (input : list Z) (messages : list RtcpReceiverFrameLogMessage)
    : outcome (bool * Z * list RtcpReceiverFrameLogMessage) :=
  match input with
  | [] => Ret (true, latest, messages)
  | _ =>
    match fuel with
    | O => Fault OutOfBounds
    | S fuel =>
      if zlen input <? kRtcpReceiverFrameLogMessageHeaderSize then Ret (false, latest, []) else
      '(truncated_rtp_timestamp, input) ← ConsumeField 4 input;
      '(data, input) ← ConsumeField 4 input;
      let raw_timestamp := Z.land data 0xFFFFFF in
      let base := session_start_time session + raw_timestamp * 1000 in
      let num_events := 1 + u8 (Z.shiftr data 24) in
      let rtp_timestamp := Expand 32 latest truncated_rtp_timestamp in
      events ← ParseEvents_loop (Z.to_nat num_events) base input [];
      match events with
      | None => Ret (false, latest, [])
      | Some (events, input) =>
          ParseFrameLogMessages_loop fuel session rtp_timestamp input
            (messages ++ [mkFrameLog rtp_timestamp events])
      end
    end
  end.

Definition ParseFrameLogMessages (session : RtcpSession) (latest : Z) (input : list Z)
    (messages : list RtcpReceiverFrameLogMessage)
    : outcome (bool * Z * list RtcpReceiverFrameLogMessage) :=
  ParseFrameLogMessages_loop (length input) session latest input messages.

Definition ParseApplicationDefined (session : RtcpSession) (st : RtcpSubtype)
    (input : list Z) (p : CompoundRtcpParser) (r : ParseResults)
    : outcome (bool * CompoundRtcpParser * ParseResults) :=
  '(source_ssrc, input) ← ConsumeField 4 input;
  '(name, input) ← ConsumeField 4 input;
  if negb (source_ssrc =? receiver_ssrc session) then Ret (true, p, r)
  else if negb (name =? kCastName) then Ret (name =? kTimeSyncRequestName, p, r)
  else match st with
  | ReceiverLog =>
      '(ok, latest, messages) ←
        ParseFrameLogMessages session (latest_frame_log_rtp_timestamp p) input (log_messages r);
      Ret (ok, p <| latest_frame_log_rtp_timestamp := latest |>, r <| log_messages := messages |>)
  | _ => Ret (true, p, r)
  end.

(** [while (bits)] over a NACK bit vector; eight iterations clear a byte. *)
Fixpoint nack_bits_loop (fuel : nat) (frame_id packet_id bits : Z) (nacks : list PacketNack)
    : list PacketNack :=
  match fuel with
  | O => nacks
  | S fuel =>
      if bits =? 0 then nacks else
      let packet_id := u16 (packet_id + 1) in
      let nacks := if Z.land bits 1 =? 0 then nacks
                   else nacks ++ [mkNack frame_id packet_id] in
      nack_bits_loop fuel frame_id packet_id (Z.shiftr bits 1) nacks
  end.

Fixpoint nack_fields_loop (loss_field_count : nat) (feedback_frame_id : Z) (input : list Z)
    (nacks : list PacketNack) : outcome (list PacketNack * list Z) :=
  match loss_field_count with
  | O => Ret (nacks, input)
  | S loss_field_count =>
      '(truncated_frame_id, input) ← ConsumeField 1 input;
      let frame_id := ExpandGreaterThan 8 feedback_frame_id truncated_frame_id in
      '(packet_id, input) ← ConsumeField 2 input;
      '(bits, input) ← ConsumeField 1 input;
      let nacks := nacks ++ [mkNack frame_id packet_id] in
      let nacks := if negb (packet_id =? kAllPacketsLost)
                   then nack_bits_loop 8 frame_id packet_id bits nacks else nacks in
      nack_fields_loop loss_field_count feedback_frame_id input nacks
  end.

(** [while (bits)] over an octet of the ACK bit vector. *)
Fixpoint ack_bits_loop (fuel : nat) (frame_id bits : Z) (frames : list Z) : list Z :=
  match fuel with
  | O => frames
  | S fuel =>
      if bits =? 0 then frames else
      let frames := if Z.land bits 1 =? 0 then frames else frames ++ [frame_id] in
      ack_bits_loop fuel (frame_id + 1) (Z.shiftr bits 1) frames
  end.

Fixpoint ack_octets_loop (octet_count : nat) (starting_frame_id : Z) (input : list Z)
    (frames : list Z) : outcome (list Z) :=
  match octet_count with
  | O => Ret frames
  | S octet_count =>
      '(bits, input) ← ConsumeField 1 input;
      ack_octets_loop octet_count (starting_frame_id + 8) input
        (ack_bits_loop 8 starting_frame_id bits frames)
  end.

(** The optional CST2 part; [None] when it is malformed. *)
Definition ParseCst2 (feedback_frame_id : Z) (input : list Z) (frames : list Z)
    : outcome (option (list Z)) :=
  if zlen input <? kRtcpFeedbackAckHeaderSize then Ret (Some frames) else
  '(word, input) ← ConsumeField 4 input;
  if negb (word =? kRtcpCst2IdentifierWord) then Ret (Some frames) else
  input ← subspan 1 input;
  '(octet_count, input) ← ConsumeField 1 input;
  if zlen input <? octet_count then Ret None else
  frames ← ack_octets_loop (Z.to_nat octet_count) (feedback_frame_id + 2) input frames;
  Ret (Some frames).

Definition ParseFeedback (session : RtcpSession) (input : list Z) (max_feedback_frame_id : Z)
    (r : ParseResults) : outcome (bool * ParseResults) :=
  OSP_CHECK (negb (is_null max_feedback_frame_id)) ;;
  if zlen input <? kRtcpFeedbackHeaderSize then Ret (false, r) else
  '(receiver, input) ← ConsumeField 4 input;
  if negb (receiver =? receiver_ssrc session) then Ret (true, r) else
  '(sender, input) ← ConsumeField 4 input;
  if negb (sender =? sender_ssrc session) then Ret (true, r) else
  '(word, input) ← ConsumeField 4 input;
  if negb (word =? kRtcpCastIdentifierWord) then Ret (false, r) else
  '(truncated_frame_id, input) ← ConsumeField 1 input;
  let feedback_frame_id := ExpandLessThanOrEqual 8 max_feedback_frame_id truncated_frame_id in
  '(loss_field_count, input) ← ConsumeField 1 input;
  '(playout_delay, input) ← ConsumeField 2 input;
  if negb (is_null (feedback_checkpoint r)) && (feedback_frame_id <? feedback_checkpoint r)
  then Ret (true, r) else
  let r := r <| feedback_checkpoint := feedback_frame_id |>
             <| target_playout_delay := playout_delay |>
             <| received_frames := [] |> <| packet_nacks := [] |> in
  if zlen input <? kRtcpFeedbackLossFieldSize * loss_field_count then Ret (false, r) else
  '(nacks, input) ← nack_fields_loop (Z.to_nat loss_field_count) feedback_frame_id input [];
  let r := r <| packet_nacks := nacks |> in
  frames ← ParseCst2 feedback_frame_id input [];
  match frames with
  | None => Ret (false, r)
  | Some frames => Ret (true, r <| received_frames := frames |>)
  end.

(** [None] when the input is malformed. *)
Fixpoint ParseExtendedReports_loop (fuel : nat) (session : RtcpSession) (input : list Z)
    (reference_time : Z) : outcome (option Z) :=
  match input with
  | [] => Ret (Some reference_time)
  | _ =>
    match fuel with
    | O => Fault OutOfBounds
    | S fuel =>
      if zlen input <? kRtcpExtendedReportBlockHeaderSize then Ret None else
      '(block_type, input) ← ConsumeField 1 input;
      input ← subspan 1 input;
      '(words, input) ← ConsumeField 2 input;
      let block_data_size := words * 4 in
      if zlen input <? block_data_size then Ret None else
      if (block_type =? kRtcpReceiverReferenceTimeReportBlockType) && negb (block_data_size =? 8)
      then Ret None else
      reference_time ←
        (if block_type =? kRtcpReceiverReferenceTimeReportBlockType then
           '(ntp, _) ← ConsumeField 8 input;
           Ret (ToLocalTime (ntp_converter session) ntp)
         else Ret reference_time);
      input ← subspan block_data_size input;
      ParseExtendedReports_loop fuel session input reference_time
    end
  end.

Definition ParseExtendedReports (session : RtcpSession) (input : list Z) (r : ParseResults)
    : outcome (bool * ParseResults) :=
  if zlen input <? kRtcpExtendedReportHeaderSize then Ret (false, r) else
  '(s, input) ← ConsumeField 4 input;
  if negb (s =? receiver_ssrc session) then Ret (true, r) else
  time ← ParseExtendedReports_loop (length input) session input (receiver_reference_time r);
  match time with
  | None => Ret (false, r)
  | Some time => Ret (true, r <| receiver_reference_time := time |>)
  end.

Definition ParsePictureLossIndicator (session : RtcpSession) (input : list Z) (r : ParseResults)
    : outcome (bool * ParseResults) :=
  if zlen input <? kRtcpPictureLossIndicatorHeaderSize then Ret (false, r) else
  '(receiver, input) ← ConsumeField 4 input;
  if negb (receiver =? receiver_ssrc session) then Ret (true, r) else
  '(sender, input) ← ConsumeField 4 input;
  if negb (sender =? sender_ssrc session) then Ret (true, r)
  else Ret (true, r <| picture_loss := true |>).

(** * Parse *)

(** The switch on the packet type. *)
Definition ParseChunk (session : RtcpSession) (max_feedback_frame_id : Z)
    (header : RtcpCommonHeader) (payload : list Z) (p : CompoundRtcpParser) (r : ParseResults)
    : outcome (bool * CompoundRtcpParser * ParseResults) :=
  let keep (res : bool * ParseResults) := (res.1, p, res.2) in
  match packet_type header with
  | ReceiverReport => keep <$> ParseReceiverReport session payload (report_count header) r
  | ApplicationDefined => ParseApplicationDefined session (subtype header) payload p r
  | PayloadSpecific =>
      match subtype header with
      | PictureLossIndicator => keep <$> ParsePictureLossIndicator session payload r
      | Feedback => keep <$> ParseFeedback session payload max_feedback_frame_id r
      | _ => Ret (true, p, r)
      end
  | ExtendedReports => keep <$> ParseExtendedReports session payload r
  | _ => Ret (true, p, r)
  end.

Fixpoint Parse_loop (fuel : nat) (session : RtcpSession) (max_feedback_frame_id : Z)
    (buffer : list Z) (p : CompoundRtcpParser) (r : ParseResults)
    : outcome (bool * CompoundRtcpParser * ParseResults) :=
  match buffer with
  | [] => Ret (true, p, r)
  | _ =>
    match fuel with
    | O => Fault OutOfBounds
    | S fuel =>
      next ← NextChunk buffer;
      match next with
      | None => Ret (false, p, r)
      | Some (header, payload, buffer) =>
          '(ok, p, r) ← ParseChunk session max_feedback_frame_id header payload p r;
          if ok : bool then Parse_loop fuel session max_feedback_frame_id buffer p r
          else Ret (false, p, r)
      end
    end
  end.

(** The events after the reference time. *)
Definition dispatch (r : ParseResults) : list ClientEvent :=
  match receiver_report r with Some report => [OnReceiverReport report] | None => [] end
  ++ match log_messages r with [] => [] | l => [OnCastReceiverFrameLogMessages l] end
  ++ (if is_null (feedback_checkpoint r) then []
      else [OnReceiverCheckpoint (feedback_checkpoint r) (target_playout_delay r)])
  ++ match received_frames r with [] => [] | l => [OnReceiverHasFrames l] end
  ++ match CanonicalizePacketNackVector (packet_nacks r) with
     | [] => [] | l => [OnReceiverIsMissingPackets l] end
  ++ if picture_loss r then [OnReceiverIndicatesPictureLoss] else [].

(** A compound's packets are at least four bytes long, so its length is enough
    fuel. *)
Definition Parse (session : RtcpSession) (buffer : list Z) (max_feedback_frame_id : Z)
    (p : CompoundRtcpParser) : outcome (bool * CompoundRtcpParser * list ClientEvent) :=
  '(ok, p, r) ← Parse_loop (length buffer) session max_feedback_frame_id buffer p no_results;
  if negb ok then Ret (false, p, []) else
  let t := receiver_reference_time r in
  if t =? kNullTimePoint then Ret (true, p, dispatch r)
  else if negb (latest_receiver_timestamp p =? kNullTimePoint)
          && (t <? latest_receiver_timestamp p) then Ret (true, p, [])
  else Ret (true, p <| latest_receiver_timestamp := t |>,
            OnReceiverReferenceTimeAdvanced t :: dispatch r).

(** * Canonicalization *)

Definition nack_lt (a b : PacketNack) : Prop := PacketNack_ltb a b = true.
Definition nack_ok (n : PacketNack) : Prop := is_u 16 (nack_packet_id n).

(** The key order puts [kAllPacketsLost] before the other packets of a frame. *)
Definition sort_key (n : PacketNack) : Z :=
  if nack_packet_id n =? kAllPacketsLost then 0 else nack_packet_id n + 1.

Lemma u16_succ i : is_u 16 i -> u16 (i + 1) = if i =? kAllPacketsLost then 0 else i + 1.
Proof.
  unfold is_u, kAllPacketsLost. intros Hi. destruct (Z.eqb_spec i 0xffff) as [-> | Hne]; [done |].
  apply wrap_small. unfold is_u. lia.
Qed.

Lemma nack_lt_iff a b :
  nack_lt a b <-> nack_frame_id a < nack_frame_id b
    \/ nack_frame_id a = nack_frame_id b /\ nack_packet_id a < nack_packet_id b.
Proof. unfold nack_lt, PacketNack_ltb. lia. Qed.

Lemma nack_sort_le_iff a b : nack_ok a -> nack_ok b ->
  nack_sort_le a b <-> nack_frame_id a < nack_frame_id b
    \/ nack_frame_id a = nack_frame_id b /\ sort_key a <= sort_key b.
Proof.
  intros Ha Hb. unfold nack_sort_le, nack_sort_ltb, PacketNack_ltb; simpl.
  rewrite !u16_succ by done. unfold sort_key. lia.
Qed.

#[export] Instance nack_sort_le_trans : Transitive nack_sort_le.
Proof.
  intros a b c. unfold nack_sort_le, nack_sort_ltb, PacketNack_ltb; simpl. lia.
Qed.
#[export] Instance nack_sort_le_total : Total nack_sort_le.
Proof.
  intros a b. unfold nack_sort_le, nack_sort_ltb, PacketNack_ltb; simpl.
  destruct (Z.lt_trichotomy (nack_frame_id a) (nack_frame_id b)); lia.
Qed.

(** What holds between an element kept and the ones kept after it. *)
Definition kept_before (a b : PacketNack) : Prop :=
  nack_frame_id a < nack_frame_id b
  \/ nack_frame_id a = nack_frame_id b /\ nack_packet_id a <> kAllPacketsLost
     /\ nack_packet_id b <> kAllPacketsLost /\ nack_packet_id a < nack_packet_id b.
#[export] Instance kept_before_trans : Transitive kept_before.
Proof. intros a b c. unfold kept_before. lia. Qed.

Lemma keep_nacks_cons kept l : exists t, keep_nacks kept l = kept :: t.
Proof. revert kept. induction l as [| h l IH]; intros k; simpl; [by eexists |]. case_match; eauto. Qed.

Lemma kept_next kept have :
  nack_ok kept -> nack_ok have -> nack_sort_le kept have ->
  negb (nack_frame_id have =? nack_frame_id kept)
  || (negb (nack_packet_id kept =? kAllPacketsLost)
      && negb (nack_packet_id have =? nack_packet_id kept)) = true ->
  kept_before kept have.
Proof.
  intros Hk Hh Hle Hkeep. apply nack_sort_le_iff in Hle; [| done..].
  unfold kept_before, sort_key, nack_ok, is_u in *. revert Hle Hkeep.
  repeat (case_bool || lia).
Qed.

Lemma keep_nacks_sorted kept l :
  Forall nack_ok (kept :: l) -> StronglySorted nack_sort_le (kept :: l) ->
  Sorted kept_before (keep_nacks kept l).
Proof.
  revert kept. induction l as [| have l IH]; intros kept Hok Hs; [repeat constructor |].
  apply Forall_cons in Hok as [Hk Hok]. pose proof Hok as Hok'.
  apply Forall_cons in Hok as [Hh Hok].
  inversion Hs as [| ? ? Hs' Hle]; subst. inversion Hs'; subst. inversion Hle; subst.
  simpl. case_match eqn:Hkeep.
  - destruct (keep_nacks_cons have l) as [t Ht]. constructor; [by apply IH |].
    rewrite Ht. constructor. by apply kept_next.
  - apply IH; [by constructor | by constructor].
Qed.

Lemma keep_nacks_elem kept l n : n ∈ keep_nacks kept l -> n ∈ kept :: l.
Proof.
  revert kept. induction l as [| have l IH]; intros kept; simpl; [done |].
  case_match; intros Hn.
  - apply elem_of_cons in Hn as [-> | Hn%IH]; set_solver.
  - apply IH in Hn. set_solver.
Qed.

Lemma keep_nacks_covers kept l n :
  n ∈ kept :: l ->
  n ∈ keep_nacks kept l \/ mkNack (nack_frame_id n) kAllPacketsLost ∈ keep_nacks kept l.
Proof.
  revert kept. induction l as [| have l IH]; intros kept Hn; simpl; [tauto |].
  case_match eqn:Hkeep.
  - rewrite !elem_of_cons in *. destruct Hn as [-> | Hn]; [tauto |].
    destruct (IH have) as [? | ?]; [set_solver | tauto | tauto].
  - apply elem_of_cons in Hn as [-> | [-> | Hn]%elem_of_cons];
      [apply IH; set_solver | | apply IH; set_solver].
    destruct (keep_nacks_cons kept l) as [t ->].
    destruct kept as [kf kp], have as [hf hp]; simpl in *.
    destruct (Z.eqb_spec hf kf), (Z.eqb_spec kp kAllPacketsLost), (Z.eqb_spec hp kp);
      try discriminate; subst; rewrite !elem_of_cons; tauto.
Qed.

Lemma Canonicalize_sorted l :
  Forall nack_ok l -> StronglySorted kept_before (CanonicalizePacketNackVector l).
Proof.
  intros Hok. unfold CanonicalizePacketNackVector.
  pose proof (Sorted_merge_sort nack_sort_le l) as Hs%Sorted_StronglySorted; [| apply _].
  rewrite <- (merge_sort_Permutation nack_sort_le l) in Hok.
  destruct (merge_sort nack_sort_le l); [constructor |].
  apply Sorted_StronglySorted; [apply _ |]. by apply keep_nacks_sorted.
Qed.

Lemma Canonicalize_elem l n : n ∈ CanonicalizePacketNackVector l -> n ∈ l.
Proof.
  unfold CanonicalizePacketNackVector. intros Hn.
  rewrite <- (merge_sort_Permutation nack_sort_le l).
  destruct (merge_sort nack_sort_le l); [done |]. by apply keep_nacks_elem.
Qed.

Lemma Canonicalize_covers l n :
  n ∈ l -> n ∈ CanonicalizePacketNackVector l
           \/ mkNack (nack_frame_id n) kAllPacketsLost ∈ CanonicalizePacketNackVector l.
Proof.
  unfold CanonicalizePacketNackVector. intros Hn.
  rewrite <- (merge_sort_Permutation nack_sort_le l) in Hn.
  destruct (merge_sort nack_sort_le l); [by apply not_elem_of_nil in Hn |].
  by apply keep_nacks_covers.
Qed.

Lemma Canonicalize_lt l :
  Forall nack_ok l -> StronglySorted nack_lt (CanonicalizePacketNackVector l).
Proof.
  intros Hok. pose proof (Canonicalize_sorted l Hok) as Hs.
  apply (StronglySorted_impl _ _ _ Hs).
  intros a b. rewrite nack_lt_iff. unfold kept_before. lia.
Qed.

(** The NACK list given to the client is strictly increasing, and consists
    of the parsed NACKs except that a frame reported as wholly lost has no
    other entry. *)
Theorem canonical_nacks (l : list PacketNack) :
  Forall nack_ok l ->
  StronglySorted nack_lt (CanonicalizePacketNackVector l)
  /\ forall n, n ∈ CanonicalizePacketNackVector l
       <-> n ∈ l /\ (nack_packet_id n = kAllPacketsLost
                     \/ mkNack (nack_frame_id n) kAllPacketsLost ∉ l).
Proof.
  intros Hok. split; [by apply Canonicalize_lt |]. intros n. split.
  - intros Hn. split; [by apply Canonicalize_elem |].
    destruct (decide (nack_packet_id n = kAllPacketsLost)) as [| Hne]; [by left | right].
    intros Hl%Canonicalize_covers. simpl in Hl.
    assert (mkNack (nack_frame_id n) kAllPacketsLost ∈ CanonicalizePacketNackVector l)
      as Hin by (destruct Hl; done).
    pose proof (StronglySorted_related _ _ _ _ (Canonicalize_sorted l Hok) Hn Hin) as Hrel.
    destruct n as [f i]. unfold kept_before in Hrel. simpl in *.
    destruct Hrel as [[= ->] | [Hrel | Hrel]]; [done | lia..].
  - intros [Hn Hcase]. destruct (Canonicalize_covers l n Hn) as [| Hin]; [done |].
    destruct Hcase as [Hall | Hnot]; [by destruct n; simpl in *; subst |].
    by apply Canonicalize_elem in Hin.
Qed.

Lemma canonical_nacks_witness :
  CanonicalizePacketNackVector
    [mkNack 7 3; mkNack 6 2; mkNack 7 kAllPacketsLost; mkNack 6 1; mkNack 6 2]
  = [mkNack 6 1; mkNack 6 2; mkNack 7 kAllPacketsLost]
  /\ StronglySorted nack_lt (CanonicalizePacketNackVector
    [mkNack 7 3; mkNack 6 2; mkNack 7 kAllPacketsLost; mkNack 6 1; mkNack 6 2]).
Proof.
  split; [vm_compute; reflexivity |]. apply canonical_nacks.
  repeat constructor; vm_compute; congruence.
Defined.

(** * What every parse delivers *)

(** Results that satisfy the contract of the client, given the greatest frame
    the receiver can know of. *)
Definition results_ok (max : Z) (r : ParseResults) : Prop :=
  (feedback_checkpoint r = null_frame_id /\ received_frames r = [] /\ packet_nacks r = [])
  \/ (max - 256 < feedback_checkpoint r <= max /\ is_u 16 (target_playout_delay r)
      /\ StronglySorted Z.lt (received_frames r)
      /\ Forall (fun f => feedback_checkpoint r + 2 <= f) (received_frames r)
      /\ Forall (fun n => nack_ok n /\ feedback_checkpoint r < nack_frame_id n
                          <= feedback_checkpoint r + 256) (packet_nacks r)).

Lemma results_ok_empty max : results_ok max no_results.
Proof. by left. Qed.

Lemma nack_bits_loop_ok (P : PacketNack -> Prop) fuel frame_id packet_id bits nacks :
  (forall i, is_u 16 i -> P (mkNack frame_id i)) -> Forall P nacks ->
  Forall P (nack_bits_loop fuel frame_id packet_id bits nacks).
Proof.
  intros HP. revert packet_id bits nacks. induction fuel as [| fuel IH]; intros pid bits nacks Hn;
    cbn [nack_bits_loop]; [done |].
  destruct (bits =? 0); [done |]. apply IH. destruct (_ =? _); [done |].
  apply Forall_app_2; [done |]. repeat constructor. apply HP, wrap_is_u. lia.
Qed.

#[global] Arguments nack_bits_loop : simpl never.

Lemma nack_fields_loop_ok count fb input nacks :
  bytes_ok input -> kRtcpFeedbackLossFieldSize * Z.of_nat count <= zlen input ->
  Forall (fun n => nack_ok n /\ fb < nack_frame_id n <= fb + 256) nacks ->
  exists nacks' rest, nack_fields_loop count fb input nacks = Ret (nacks', rest)
    /\ bytes_ok rest /\ Forall (fun n => nack_ok n /\ fb < nack_frame_id n <= fb + 256) nacks'.
Proof.
  unfold kRtcpFeedbackLossFieldSize. revert input nacks.
  induction count as [| count IH]; intros input nacks Hok Hlen Hn; simpl; [eauto |].
  do 3 read_any. specialize (Hok0 Hok) as [Hf Hok0]. specialize (Hok1 Hok0) as [Hi Hok1].
  specialize (Hok2 Hok1) as [_ Hok2].
  change (8 * Z.of_nat 1) with 8 in *. change (8 * Z.of_nat 2) with 16 in *.
  destruct (ExpandGreaterThan_range 8 fb v ltac:(lia) Hf) as [Hr _].
  assert (Forall (fun n => nack_ok n /\ fb < nack_frame_id n <= fb + 256)
    (nacks ++ [mkNack (ExpandGreaterThan 8 fb v) v0])) as Hn'.
  { apply Forall_app_2; [done |]. repeat constructor; simpl; [apply Hi.. | lia | lia]. }
  apply IH; [done | lia |].
  destruct (negb _); [| done]. apply nack_bits_loop_ok; [| done].
  intros i Hu. split; [done | simpl; lia].
Qed.

Lemma ack_bits_loop_ok lo fuel frame_id bits frames :
  StronglySorted Z.lt frames -> Forall (fun f => lo <= f < frame_id) frames -> lo <= frame_id ->
  StronglySorted Z.lt (ack_bits_loop fuel frame_id bits frames)
  /\ Forall (fun f => lo <= f < frame_id + Z.of_nat fuel) (ack_bits_loop fuel frame_id bits frames).
Proof.
  revert frame_id bits frames.
  induction fuel as [| fuel IH]; intros f bits frames Hs Hf Hlo; cbn [ack_bits_loop].
  { split; [done |]. eapply Forall_impl; [exact Hf | simpl; lia]. }
  destruct (bits =? 0).
  { split; [done |]. eapply Forall_impl; [exact Hf | simpl; lia]. }
  replace (f + Z.of_nat (S fuel)) with (f + 1 + Z.of_nat fuel) by lia.
  apply IH; [| | lia].
  - case_bool; [done |]. apply (StronglySorted_lt_app _ _ f); [done | repeat constructor | |].
    + eapply Forall_impl; [exact Hf | simpl; lia].
    + repeat constructor. lia.
  - case_bool; [eapply Forall_impl; [exact Hf | simpl; lia] |].
    apply Forall_app_2; [eapply Forall_impl; [exact Hf | simpl; lia] |].
    repeat constructor; lia.
Qed.

#[global] Arguments ack_bits_loop : simpl never.

Lemma ack_octets_loop_ok lo count start input frames :
  Z.of_nat count <= zlen input ->
  StronglySorted Z.lt frames -> Forall (fun f => lo <= f < start) frames -> lo <= start ->
  exists frames', ack_octets_loop count start input frames = Ret frames'
    /\ StronglySorted Z.lt frames' /\ Forall (fun f => lo <= f) frames'.
Proof.
  revert start input frames. induction count as [| count IH]; intros st input frames Hl Hs Hf Hlo;
    simpl.
  { eexists. split_and!; [done | done |]. eapply Forall_impl; [exact Hf | simpl; lia]. }
  read_any. destruct (ack_bits_loop_ok lo 8 st v frames Hs Hf Hlo) as [Hs' Hf'].
  apply IH; [lia | done | | lia]. eapply Forall_impl; [exact Hf' | simpl; lia].
Qed.

Lemma ParseCst2_ok fb input :
  bytes_ok input ->
  exists o, ParseCst2 fb input [] = Ret o
    /\ forall l, o = Some l -> StronglySorted Z.lt l /\ Forall (fun f => fb + 2 <= f) l.
Proof.
  intros Hok. unfold ParseCst2, kRtcpFeedbackAckHeaderSize.
  assert (forall l, Some (@nil Z) = Some l ->
    StronglySorted Z.lt l /\ Forall (fun f => fb + 2 <= f) l) as Hnil
    by (intros l [= <-]; repeat constructor).
  case_bool; [by eexists |]. read_any. case_bool; [| by eexists].
  do 2 read_any. case_bool; [by eexists |].
  specialize (Hok0 Hok) as [_ Hok0]. specialize (Hok2 (Hok1 Hok0)) as [Hv0 _].
  unfold is_u in Hv0.
  destruct (ack_octets_loop_ok (fb + 2) (Z.to_nat v0) (fb + 2) rest1 []) as (l & -> & Hs & Hf);
    [lia | constructor | constructor | lia |].
  eexists. split; [done |]. by intros l' [= <-].
Qed.

Lemma ParseEvents_loop_total n base input msgs :
  bytes_ok input ->
  exists o, ParseEvents_loop n base input msgs = Ret o
    /\ forall m rest, o = Some (m, rest) -> bytes_ok rest /\ (length rest <= length input)%nat.
Proof.
  unfold kRtcpReceiverFrameLogMessageBlockSize. revert input msgs.
  induction n as [| n IH]; intros input msgs Hok; cbn [ParseEvents_loop].
  { eexists. split; [done |]. intros ? ? [= <- <-]. split; [done | lia]. }
  unfold kRtcpReceiverFrameLogMessageBlockSize in *.
  case_bool; [by eexists |]. do 2 read_any.
  specialize (Hok0 Hok) as [_ Hok0]. specialize (Hok1 Hok0) as [_ Hok1].
  match goal with |- context [if ?b then ParseEvents_loop _ _ _ ?m1 else ParseEvents_loop _ _ _ ?m2] =>
    assert (exists m, (if b then ParseEvents_loop n base rest0 m1 else ParseEvents_loop n base rest0 m2)
      = ParseEvents_loop n base rest0 m) as [m ->] by (destruct b; eauto) end.
  destruct (IH rest0 m Hok1) as (o & -> & Ho). eexists. split; [done |].
  intros m' r' Heq. destruct (Ho m' r' Heq) as [? ?]. split; [done |].
  unfold zlen in *. lia.
Qed.

#[global] Arguments ParseEvents_loop : simpl never.

Lemma ParseFrameLogMessages_loop_total fuel s latest input msgs :
  bytes_ok input -> (length input <= fuel)%nat ->
  returns (ParseFrameLogMessages_loop fuel s latest input msgs).
Proof.
  revert latest input msgs. induction fuel as [| fuel IH]; intros latest input msgs Hok Hf.
  { destruct input; [by eexists | simpl in Hf; lia]. }
  destruct input as [| b input]; [by eexists |].
  cbn [ParseFrameLogMessages_loop]. unfold kRtcpReceiverFrameLogMessageHeaderSize.
  destruct (Z.ltb_spec (zlen (b :: input)) 8); [by eexists |].
  do 2 read_any_only.
  specialize (Hok0 Hok) as [_ Hok0]. specialize (Hok1 Hok0) as [_ Hok1].
  match goal with |- context [ParseEvents_loop ?n ?b ?i ?m] =>
    destruct (ParseEvents_loop_total n b i m Hok1) as (o & -> & Ho) end.
  cbn [mbind outcome_bind]. destruct o as [[m rest'] |]; [| by eexists].
  destruct (Ho m rest' eq_refl) as [Hr Hle].
  apply IH; [done |]. unfold zlen in *. simpl in *. lia.
Qed.

Lemma ParseApplicationDefined_ok max s st input p r :
  bytes_ok input -> results_ok max r -> 8 <= zlen input ->
  exists ok p' r', ParseApplicationDefined s st input p r = Ret (ok, p', r') /\ results_ok max r'
    /\ latest_receiver_timestamp p' = latest_receiver_timestamp p.
Proof.
  intros Hok Hr Hlen. unfold ParseApplicationDefined. do 2 read_any.
  case_bool; [| by eexists _, _, _]. case_bool; [| by eexists _, _, _].
  specialize (Hok0 Hok) as [_ Hok0]. specialize (Hok1 Hok0) as [_ Hok1].
  destruct st; [by eexists _, _, _ | by eexists _, _, _ | | by eexists _, _, _].
  unfold ParseFrameLogMessages.
  match goal with |- context [ParseFrameLogMessages_loop ?n ?b ?i ?m ?k] =>
    destruct (ParseFrameLogMessages_loop_total n b i m k Hok1 (le_n _)) as ([[ok l] m'] & ->) end.
  simpl. eexists _, _, _. split; [done | auto].
Qed.

Lemma ParseApplicationDefined_short s st input p r :
  zlen input < 8 -> ParseApplicationDefined s st input p r = Fault OutOfBounds.
Proof.
  intros Hlen. unfold ParseApplicationDefined.
  destruct (decide (zlen input < 4)) as [H4 | H4].
  - by rewrite ConsumeField_short.
  - read_any. by rewrite ConsumeField_short by lia.
Qed.

Lemma ParseReceiverReport_ok max s input n r :
  bytes_ok input -> results_ok max r -> 0 <= n ->
  exists ok r', ParseReceiverReport s input n r = Ret (ok, r') /\ results_ok max r'.
Proof.
  intros Hok Hr Hn. unfold ParseReceiverReport, kRtcpReceiverReportSize.
  case_bool; [eauto |]. read_any. case_bool; [| eauto].
  match goal with |- context [ParseOne ?a ?b ?c] =>
    destruct (ParseOne_total a b c Hn) as [o ->] end.
  eexists _, _. by split.
Qed.

Lemma ParsePictureLossIndicator_ok max s input r :
  results_ok max r ->
  exists ok r', ParsePictureLossIndicator s input r = Ret (ok, r') /\ results_ok max r'.
Proof.
  intros Hr. unfold ParsePictureLossIndicator, kRtcpPictureLossIndicatorHeaderSize.
  case_bool; [eauto |]. read_any. case_bool; [| eauto]. read_any. case_bool; eauto.
Qed.

Lemma ParseExtendedReports_loop_total fuel s input t :
  bytes_ok input -> (length input <= fuel)%nat ->
  returns (ParseExtendedReports_loop fuel s input t).
Proof.
  revert input t. induction fuel as [| fuel IH]; intros input t Hok Hf.
  { destruct input; [by eexists | simpl in Hf; lia]. }
  destruct input as [| b input]; [by eexists |].
  cbn [ParseExtendedReports_loop]. unfold kRtcpExtendedReportBlockHeaderSize.
  case_bool; [by eexists |]. do 3 read_any.
  specialize (Hok0 Hok) as [_ Hok0]. specialize (Hok2 (Hok1 Hok0)) as [Hv Hok2].
  unfold is_u in Hv. case_bool; [by eexists |].
  destruct (Z.eqb_spec v kRtcpReceiverReferenceTimeReportBlockType); simpl.
  - case_bool; [| by eexists]. read_any.
    match goal with |- context [subspan ?k ?b] =>
      destruct (subspan_total k b) as (r' & -> & Hlen' & Hok'); [lia |] end.
    apply IH; [by apply Hok' |]. unfold zlen in *. simpl in *. lia.
  - read_any. apply IH; [by apply Hok3 |]. unfold zlen in *. simpl in *. lia.
Qed.

Lemma ParseExtendedReports_ok max s input r :
  bytes_ok input -> results_ok max r ->
  exists ok r', ParseExtendedReports s input r = Ret (ok, r') /\ results_ok max r'.
Proof.
  intros Hok Hr. unfold ParseExtendedReports, kRtcpExtendedReportHeaderSize.
  case_bool; [eauto |]. read_any. case_bool; [| eauto].
  specialize (Hok0 Hok) as [_ Hok0].
  match goal with |- context [ParseExtendedReports_loop ?a ?b ?c ?d] =>
    destruct (ParseExtendedReports_loop_total a b c d Hok0 (le_n _)) as [o ->] end.
  simpl. destruct o; eauto.
Qed.

Lemma ParseFeedback_ok max s input r :
  bytes_ok input -> results_ok max r -> is_null max = false ->
  exists ok r', ParseFeedback s input max r = Ret (ok, r') /\ (ok = true -> results_ok max r').
Proof.
  intros Hok Hr Hmax. unfold ParseFeedback, kRtcpFeedbackHeaderSize. rewrite Hmax. simpl.
  case_bool; [by eexists _, _ |]. read_any. case_bool; [| by eexists _, _].
  read_any. case_bool; [| by eexists _, _]. read_any. case_bool; [| by eexists _, _].
  do 3 read_any.
  specialize (Hok0 Hok) as [_ Hok0]. specialize (Hok1 Hok0) as [_ Hok1].
  specialize (Hok2 Hok1) as [_ Hok2]. specialize (Hok3 Hok2) as [Hf Hok3].
  specialize (Hok4 Hok3) as [Hc Hok4]. specialize (Hok5 Hok4) as [Hd Hok5].
  change (8 * Z.of_nat 1) with 8 in *. change (8 * Z.of_nat 2) with 16 in *.
  destruct (ExpandLessThanOrEqual_range 8 max v2 ltac:(lia) Hf) as [Hfb _].
  set (fb := ExpandLessThanOrEqual 8 max v2) in *.
  destruct (_ && _); [eauto |].
  destruct (Z.ltb_spec (zlen rest4) (kRtcpFeedbackLossFieldSize * v3)); [by eexists _, _ |].
  destruct (nack_fields_loop_ok (Z.to_nat v3) fb rest4 []) as (nacks & rest' & -> & Hr' & Hn);
    [done | unfold is_u in Hc; rewrite Z2Nat.id; lia | constructor |]. simpl.
  destruct (ParseCst2_ok fb rest' Hr') as (o & -> & Ho). simpl.
  destruct o as [l |]; [| by eexists _, _].
  destruct (Ho l eq_refl) as [Hs Hl]. eexists _, _. split; [done |]. intros _. right.
  simpl. split_and!; try done; lia.
Qed.

Lemma ParseChunk_ok s max h payload p r :
  bytes_ok payload -> results_ok max r -> is_null max = false ->
  (packet_type h = ReceiverReport -> 0 <= report_count h) ->
  (packet_type h = ApplicationDefined -> 8 <= zlen payload) ->
  exists ok p' r', ParseChunk s max h payload p r = Ret (ok, p', r')
    /\ (ok = true -> results_ok max r')
    /\ latest_receiver_timestamp p' = latest_receiver_timestamp p.
Proof.
  intros Hok Hr Hmax Hc Happ. unfold ParseChunk.
  destruct (packet_type h); try by eexists _, _, _.
  - destruct (ParseReceiverReport_ok max s payload (report_count h) r) as (ok & r' & -> & ?);
      [auto.. |]. by eexists _, _, _.
  - destruct (ParseApplicationDefined_ok max s (subtype h) payload p r) as (ok & p' & r' & -> & ? & ?);
      [auto.. |]. by eexists _, _, _.
  - destruct (subtype h); try by eexists _, _, _.
    + destruct (ParsePictureLossIndicator_ok max s payload r Hr) as (ok & r' & -> & ?).
      by eexists _, _, _.
    + destruct (ParseFeedback_ok max s payload r Hok Hr Hmax) as (ok & r' & -> & ?).
      by eexists _, _, _.
  - destruct (ParseExtendedReports_ok max s payload r Hok Hr) as (ok & r' & -> & ?).
    by eexists _, _, _.
Qed.

(** The packets a compound is made of. *)
Inductive chunk_of : list Z -> RtcpCommonHeader -> list Z -> Prop :=
  | chunk_here buf h p rest : NextChunk buf = Ret (Some (h, p, rest)) -> chunk_of buf h p
  | chunk_later buf h p rest h' p' :
      NextChunk buf = Ret (Some (h, p, rest)) -> chunk_of rest h' p' -> chunk_of buf h' p'.

(** An application-defined packet too short for its SSRC and name. *)
Definition has_short_application_packet (buf : list Z) : Prop :=
  exists h p, chunk_of buf h p /\ packet_type h = ApplicationDefined /\ zlen p < 8.

Lemma Parse_loop_cases fuel s max buf p r :
  bytes_ok buf -> (length buf <= fuel)%nat -> results_ok max r -> is_null max = false ->
  (exists ok p' r', Parse_loop fuel s max buf p r = Ret (ok, p', r')
     /\ (ok = true -> results_ok max r')
     /\ latest_receiver_timestamp p' = latest_receiver_timestamp p)
  \/ (Parse_loop fuel s max buf p r = Fault OutOfBounds /\ has_short_application_packet buf).
Proof.
  revert buf p r. induction fuel as [| fuel IH]; intros buf p r Hok Hf Hr Hmax.
  { destruct buf; [left; by eexists _, _, _ | simpl in Hf; lia]. }
  destruct buf as [| b buf]; [left; by eexists _, _, _ |]. cbn [Parse_loop].
  destruct (NextChunk_total (b :: buf) Hok) as ([[[h pl] rest] |] & Hnext & Hn).
  2: { rewrite Hnext. left. by eexists _, _, _. }
  destruct (Hn h pl rest eq_refl) as (Hlt & Hpok & Hrok & _ & _ & Hc).
  rewrite Hnext. cbn [mbind outcome_bind].
  destruct (decide (packet_type h = ApplicationDefined /\ zlen pl < 8)) as [[Ht Hs] | Hlong].
  { right. split; [| exists h, pl; split; [by eapply chunk_here | done]].
    unfold ParseChunk. rewrite Ht. by rewrite ParseApplicationDefined_short. }
  destruct (ParseChunk_ok s max h pl p r) as (ok & p1 & r1 & -> & Hr1 & Hp1);
    [done | done | done | auto | intros; by apply Z.nlt_ge; intros ?; apply Hlong |].
  cbn [mbind outcome_bind]. destruct ok; [| left; by eexists _, _, _].
  destruct (IH rest p1 r1) as [(ok & p2 & r2 & -> & Hr2 & Hp2) | [-> (h' & pl' & Hch & Hs)]];
    [done | simpl in *; lia | auto | done | left | right].
  - eexists _, _, _. split; [done |]. split; [done |]. by rewrite Hp2.
  - split; [done |]. exists h', pl'. split; [by eapply chunk_later | done].
Qed.

(** The events a client may receive in one parse, given [max]. *)
Definition client_contract (max : Z) (events : list ClientEvent) : Prop :=
  (forall f d, OnReceiverCheckpoint f d ∈ events -> max - 256 < f <= max /\ is_u 16 d)
  /\ (forall acks, OnReceiverHasFrames acks ∈ events ->
        exists f d, OnReceiverCheckpoint f d ∈ events
          /\ acks <> [] /\ StronglySorted Z.lt acks /\ Forall (fun a => f + 2 <= a) acks)
  /\ (forall nacks, OnReceiverIsMissingPackets nacks ∈ events ->
        exists f d, OnReceiverCheckpoint f d ∈ events
          /\ StronglySorted kept_before nacks
          /\ Forall (fun n => nack_ok n /\ f < nack_frame_id n <= f + 256) nacks).

Lemma client_contract_nil max : client_contract max [].
Proof. repeat split; intros; set_solver. Qed.

Lemma dispatch_elem r e :
  e ∈ dispatch r <->
  (exists b, receiver_report r = Some b /\ e = OnReceiverReport b)
  \/ (log_messages r <> [] /\ e = OnCastReceiverFrameLogMessages (log_messages r))
  \/ (is_null (feedback_checkpoint r) = false
      /\ e = OnReceiverCheckpoint (feedback_checkpoint r) (target_playout_delay r))
  \/ (received_frames r <> [] /\ e = OnReceiverHasFrames (received_frames r))
  \/ (CanonicalizePacketNackVector (packet_nacks r) <> []
      /\ e = OnReceiverIsMissingPackets (CanonicalizePacketNackVector (packet_nacks r)))
  \/ (picture_loss r = true /\ e = OnReceiverIndicatesPictureLoss).
Proof.
  unfold dispatch. rewrite !elem_of_app.
  destruct (receiver_report r), (log_messages r), (is_null (feedback_checkpoint r)),
    (received_frames r), (CanonicalizePacketNackVector (packet_nacks r)), (picture_loss r);
    rewrite ?list_elem_of_singleton, ?elem_of_nil; naive_solver.
Qed.

Lemma dispatch_contract max r :
  -1 <= max -> results_ok max r -> client_contract max (dispatch r).
Proof.
  intros Hmax [(Hnull & Hf & Hn) | (Hfb & Hd & Hs & Hf & Hn)].
  - split; [| split]; intros *; rewrite dispatch_elem, ?Hf, ?Hn, ?Hnull;
      change (is_null null_frame_id) with true; unfold CanonicalizePacketNackVector; naive_solver.
  - assert (is_null (feedback_checkpoint r) = false) as Hnn.
    { unfold is_null, null_frame_id, INT64_MIN. lia. }
    assert (OnReceiverCheckpoint (feedback_checkpoint r) (target_playout_delay r) ∈ dispatch r)
      as Hcp by (rewrite dispatch_elem; auto).
    assert (Forall nack_ok (packet_nacks r)) as Hok.
    { eapply Forall_impl; [exact Hn | naive_solver]. }
    split; [| split].
    + intros f d. rewrite dispatch_elem. naive_solver.
    + intros acks Ha. rewrite dispatch_elem in Ha. eexists _, _. split; [exact Hcp |].
      naive_solver.
    + intros nacks Ha. rewrite dispatch_elem in Ha. eexists _, _. split; [exact Hcp |].
      assert (nacks = CanonicalizePacketNackVector (packet_nacks r)) as -> by naive_solver.
      split; [by apply Canonicalize_sorted |]. apply Forall_forall. intros n Hin%Canonicalize_elem.
      rewrite Forall_forall in Hn. auto.
Qed.

(** A sequence of packets received, and all the events they cause. *)
Fixpoint ParseAll (session : RtcpSession) (packets : list (list Z * Z)) (p : CompoundRtcpParser)
    : outcome (CompoundRtcpParser * list ClientEvent) :=
  match packets with
  | [] => Ret (p, [])
  | (buffer, max) :: packets =>
      '(_, p, events) ← Parse session buffer max p;
      '(p, later) ← ParseAll session packets p;
      Ret (p, events ++ later)
  end.

Fixpoint reference_times (events : list ClientEvent) : list Z :=
  match events with
  | [] => []
  | OnReceiverReferenceTimeAdvanced t :: events => t :: reference_times events
  | _ :: events => reference_times events
  end.

Lemma reference_times_app e1 e2 :
  reference_times (e1 ++ e2) = reference_times e1 ++ reference_times e2.
Proof. induction e1 as [| [] e1 IH]; simpl; congruence. Qed.

Lemma reference_times_dispatch r : reference_times (dispatch r) = [].
Proof.
  unfold dispatch. rewrite !reference_times_app.
  by destruct (receiver_report r), (log_messages r), (is_null (feedback_checkpoint r)),
    (received_frames r), (CanonicalizePacketNackVector (packet_nacks r)), (picture_loss r).
Qed.

Lemma ParseApplicationDefined_timestamp s st input p r ok p' r' :
  ParseApplicationDefined s st input p r = Ret (ok, p', r') ->
  latest_receiver_timestamp p' = latest_receiver_timestamp p.
Proof.
  unfold ParseApplicationDefined. intros H.
  apply bind_Ret_inv in H as ([v i] & _ & H). apply bind_Ret_inv in H as ([n i'] & _ & H).
  destruct (negb _); [by injection H as <- <- <- |].
  destruct (negb _); [by injection H as <- <- <- |].
  destruct st; try by injection H as <- <- <-.
  apply bind_Ret_inv in H as ([[ok' l] m] & _ & H). by injection H as <- <- <-.
Qed.

Lemma ParseChunk_timestamp s max h pl p r ok p' r' :
  ParseChunk s max h pl p r = Ret (ok, p', r') ->
  latest_receiver_timestamp p' = latest_receiver_timestamp p.
Proof.
  unfold ParseChunk. intros H.
  assert (forall m, (fun res : bool * ParseResults => (res.1, p, res.2)) <$> m = Ret (ok, p', r') ->
    latest_receiver_timestamp p' = latest_receiver_timestamp p) as Hkeep.
  { intros [x | f]; [| done]. by intros [= <- <- <-]. }
  destruct (packet_type h), (subtype h);
    (by apply Hkeep in H) || (by injection H as <- <- <-)
    || (by apply ParseApplicationDefined_timestamp in H).
Qed.

Lemma Parse_loop_timestamp fuel s max buf p r ok p' r' :
  Parse_loop fuel s max buf p r = Ret (ok, p', r') ->
  latest_receiver_timestamp p' = latest_receiver_timestamp p.
Proof.
  revert buf p r. induction fuel as [| fuel IH]; intros buf p r.
  { destruct buf; [intros [= <- <- <-]; done | done]. }
  destruct buf as [| b buf]; [intros [= <- <- <-]; done |]. cbn [Parse_loop]. intros H.
  apply bind_Ret_inv in H as ([[[h pl] rest] |] & _ & H); [| by injection H as <- <- <-].
  apply bind_Ret_inv in H as ([[ok1 p1] r1] & Hch & H).
  assert (latest_receiver_timestamp p1 = latest_receiver_timestamp p) as <-.
  { by eapply ParseChunk_timestamp. }
  destruct ok1; [by eapply IH | by injection H as <- <- <-].
Qed.

Lemma Parse_timestamps s buf max p ok p' events :
  Parse s buf max p = Ret (ok, p', events) ->
  (reference_times events = [] /\ latest_receiver_timestamp p' = latest_receiver_timestamp p)
  \/ (exists t, reference_times events = [t] /\ latest_receiver_timestamp p' = t
      /\ t <> kNullTimePoint
      /\ (latest_receiver_timestamp p = kNullTimePoint \/ latest_receiver_timestamp p <= t)).
Proof.
  unfold Parse. intros H. apply bind_Ret_inv in H as ([[ok1 p1] r] & Hloop & H).
  apply Parse_loop_timestamp in Hloop. destruct ok1; simpl in H.
  2: { injection H as <- <- <-. by left. }
  rewrite <- Hloop.
  destruct (Z.eqb_spec (receiver_reference_time r) kNullTimePoint) as [| Ht].
  { injection H as <- <- <-. left. by rewrite reference_times_dispatch. }
  destruct (negb _ && _) eqn:Hstale; injection H as <- <- <-.
  - by left.
  - right. exists (receiver_reference_time r). simpl. rewrite reference_times_dispatch.
    split_and!; [done.. |].
    destruct (Z.eqb_spec (latest_receiver_timestamp p1) kNullTimePoint); [by left | right].
    simpl in Hstale. lia.
Qed.

Lemma ParseAll_timestamps s packets p p' events :
  ParseAll s packets p = Ret (p', events) ->
  StronglySorted Z.le (reference_times events)
  /\ (latest_receiver_timestamp p <> kNullTimePoint ->
      Forall (Z.le (latest_receiver_timestamp p)) (reference_times events)).
Proof.
  revert p events. induction packets as [| [buf max] packets IH]; intros p events; simpl.
  { intros [= <- <-]. split; [constructor | by constructor]. }
  intros H. apply bind_Ret_inv in H as ([[ok p1] e1] & Hp & H).
  apply bind_Ret_inv in H as ([p2 e2] & Hall & H). injection H as <- <-.
  destruct (IH _ _ Hall) as [Hs Hf]. rewrite reference_times_app.
  destruct (Parse_timestamps _ _ _ _ _ _ _ Hp) as [[-> Heq] | (t & -> & Heq & Hne & Hle)].
  - rewrite <- Heq. by split.
  - rewrite Heq in Hf. specialize (Hf Hne). simpl. split; [by constructor |].
    intros Hnn. destruct Hle as [? | Hle]; [done |]. constructor; [done |].
    eapply Forall_impl; [exact Hf | simpl; lia].
Qed.

Lemma Parse_cases (s : RtcpSession) (buf : list Z) (max : Z)
    (p : CompoundRtcpParser) :
  bytes_ok buf -> -1 <= max ->
  (exists ok p' events, Parse s buf max p = Ret (ok, p', events)
     /\ client_contract max events /\ (ok = false -> events = []))
  \/ (Parse s buf max p = Fault OutOfBounds /\ has_short_application_packet buf).
Proof.
  intros Hok Hmax. assert (is_null max = false) as Hnn.
  { unfold is_null, null_frame_id, INT64_MIN. lia. }
  unfold Parse.
  destruct (Parse_loop_cases (length buf) s max buf p no_results Hok (le_n _)
    (results_ok_empty max) Hnn) as [(ok & p1 & r & -> & Hr & _) | [-> Hs]]; [left | by right].
  cbn [mbind outcome_bind]. destruct ok; simpl.
  2: { eexists _, _, _. split; [done |]. split; [apply client_contract_nil | done]. }
  pose proof (dispatch_contract max r Hmax (Hr eq_refl)) as Hc.
  destruct (_ =? _); [by eexists _, _, _ |]. destruct (_ && _).
  - eexists _, _, _. split; [done |]. split; [apply client_contract_nil | done].
  - eexists _, _, _. split; [done |]. split; [| done]. destruct Hc as (H1 & H2 & H3).
    split; [| split].
    + intros f d [? | Hin]%elem_of_cons; [done | by apply H1].
    + intros acks [? | Hin]%elem_of_cons; [done |].
      destruct (H2 acks Hin) as (f & d & Hf & ?). exists f, d. split; [by right | done].
    + intros nacks [? | Hin]%elem_of_cons; [done |].
      destruct (H3 nacks Hin) as (f & d & Hf & ?). exists f, d. split; [by right | done].
Qed.

(** * Claims *)

(** Whatever bytes arrive, parsing a compound packet either returns or reads
    past the end of an application-defined packet shorter than eight bytes, its
    only fault.  When it returns, the client receives a checkpoint within the
    256 frames up to [max], frame ACKs in strictly increasing order beyond the
    frame after the checkpoint, and packet NACKs in strictly increasing order
    for the 256 frames after the checkpoint, an entry for all packets of a frame
    being its only one; a malformed packet delivers nothing. *)
Theorem compound_parser_contract (s : RtcpSession) (buf : list Z) (max : Z)
    (p : CompoundRtcpParser) :
  bytes_ok buf -> -1 <= max ->
  (exists ok p' events, Parse s buf max p = Ret (ok, p', events)
     /\ client_contract max events /\ (ok = false -> events = []))
  \/ (Parse s buf max p = Fault OutOfBounds /\ has_short_application_packet buf).
Proof. apply Parse_cases. Qed.

Lemma compound_parser_contract_witness :
  let s := mkSession 1 2 0 (new_NtpTimeConverter 0 1700000000) in
  let buf := [143; 206; 0; 5; 0; 0; 0; 2; 0; 0; 0; 1; 67; 65; 83; 84; 7; 1; 1; 144;
              9; 0; 3; 129] in
  (exists ok p' events, Parse s buf 10 new_CompoundRtcpParser = Ret (ok, p', events)
     /\ client_contract 10 events /\ (ok = false -> events = []))
  \/ (Parse s buf 10 new_CompoundRtcpParser = Fault OutOfBounds
      /\ has_short_application_packet buf).
Proof.
  intros s buf. apply compound_parser_contract; [| lia].
  repeat constructor; vm_compute; congruence.
Defined.

(** An application-defined RTCP packet with an empty payload makes the
    parser read past the end of the buffer, in every session and state. *)
Theorem short_application_packet_faults (s : RtcpSession) (max : Z) (p : CompoundRtcpParser) :
  Parse s [130; 204; 0; 0] max p = Fault OutOfBounds.
Proof. reflexivity. Qed.

(** Over any sequence of received packets, the receiver reference times
    delivered to the client never decrease. *)
Theorem reference_times_monotone (s : RtcpSession) (packets : list (list Z * Z))
    (p p' : CompoundRtcpParser) (events : list ClientEvent) :
  ParseAll s packets p = Ret (p', events) -> StronglySorted Z.le (reference_times events).
Proof. intros H. by apply ParseAll_timestamps in H as [? _]. Qed.

Definition reference_time_packet (seconds : Z) : list Z :=
  [128; 207; 0; 4; 0; 0; 0; 2; 4; 0; 0; 2] ++ be_encode 4 seconds ++ [0; 0; 0; 0].

Lemma reference_times_monotone_witness :
  let s := mkSession 1 2 0 (new_NtpTimeConverter 0 1700000000) in
  let packets := map (fun t => (reference_time_packet (3908988800 + t), 10)) [5; 7; 6; 9] in
  exists p' events, ParseAll s packets new_CompoundRtcpParser = Ret (p', events)
    /\ reference_times events = [5000000; 7000000; 9000000]
    /\ StronglySorted Z.le (reference_times events).
Proof.
  intros s packets. eexists _, _. split; [vm_compute; reflexivity |].
  split; [vm_compute; reflexivity |].
  apply (reference_times_monotone s packets new_CompoundRtcpParser
    (mkParser 9000000 0)). vm_compute. reflexivity.
Defined.
