(* ===== verification/RtcpRoundTrip.v ===== *)
(** What a sender understands of the compound packet a receiver builds: the
    composition of RtcpBuilder.v and RtcpParser.v over one session. *)

From S2P Require Import Prelude Numeric Wire Ids NtpTime RtpDefines RtcpCommon.
From S2P Require Import RtcpBuilder RtcpParser.

(** * Bit vectors as lists of positions *)

(** The positions of the set bits among the [n] lowest, the lowest being [lo]. *)
Fixpoint set_bits (lo : Z) (n : nat) (bits : Z) : list Z :=
  match n with
  | O => []
  | S n => (if Z.land bits 1 =? 0 then [] else [lo]) ++ set_bits (lo + 1) n (Z.shiftr bits 1)
  end.

Lemma land_1_testbit bits : (Z.land bits 1 =? 0) = negb (Z.testbit bits 0).
Proof.
  change 1 with (Z.ones 1). rewrite Z.land_ones by lia. change (2 ^ 1) with 2.
  rewrite <- Z.bit0_mod. by destruct (Z.testbit bits 0).
Qed.

Lemma set_bits_elem lo n bits x :
  x ∈ set_bits lo n bits <-> lo <= x < lo + Z.of_nat n /\ Z.testbit bits (x - lo) = true.
Proof.
  revert lo bits. induction n as [| n IH]; intros lo bits; simpl.
  { rewrite elem_of_nil. split; [done | lia]. }
  rewrite elem_of_app, IH, land_1_testbit.
  destruct (decide (x = lo)) as [-> | Hne].
  - rewrite Z.sub_diag. destruct (Z.testbit bits 0); simpl; rewrite ?list_elem_of_singleton.
    + split; [intros _; split; [lia | done] | by left].
    + rewrite elem_of_nil. split; [intros [[] | [? _]]; lia | intros [_ ?]; done].
  - assert (x ∈ (if negb (Z.testbit bits 0) then [] else [lo]) <-> False) as ->.
    { destruct (Z.testbit bits 0); simpl; rewrite ?list_elem_of_singleton, ?elem_of_nil; done. }
    split.
    + intros [[] | [Hr Hb]]. rewrite Z.shiftr_spec in Hb by lia.
      replace (x - (lo + 1) + 1) with (x - lo) in Hb by lia. split; [lia | done].
    + intros [Hr Hb]. right. rewrite Z.shiftr_spec by lia.
      replace (x - (lo + 1) + 1) with (x - lo) by lia. split; [lia | done].
Qed.

Lemma set_bits_sorted lo n bits : StronglySorted Z.lt (set_bits lo n bits).
Proof.
  revert lo bits. induction n as [| n IH]; intros lo bits; simpl; [constructor |].
  destruct (_ =? _); [apply IH |]. constructor; [apply IH |].
  apply Forall_forall. intros x. change (x ∈ set_bits (lo + 1) n (Z.shiftr bits 1) -> lo < x).
  rewrite set_bits_elem. lia.
Qed.

Lemma set_bits_0 lo n : set_bits lo n 0 = [].
Proof. revert lo. induction n as [| n IH]; intros lo; [done |]. simpl. by rewrite Z.shiftr_0_l, IH. Qed.

Lemma ack_bits_loop_eq n lo bits frames :
  ack_bits_loop n lo bits frames = frames ++ set_bits lo n bits.
Proof.
  revert lo bits frames. induction n as [| n IH]; intros lo bits frames.
  { by rewrite app_nil_r. }
  change (ack_bits_loop (S n) lo bits frames) with
    (if bits =? 0 then frames else
     ack_bits_loop n (lo + 1) (Z.shiftr bits 1)
       (if Z.land bits 1 =? 0 then frames else frames ++ [lo])).
  destruct (Z.eqb_spec bits 0) as [-> |]; [by rewrite set_bits_0, app_nil_r |].
  rewrite IH. simpl. destruct (Z.land bits 1 =? 0); [done |]. by rewrite <- app_assoc.
Qed.

Lemma nack_bits_loop_eq n f i bits nacks :
  nack_bits_loop n f (u16 i) bits nacks
  = nacks ++ map (fun x => mkNack f (u16 x)) (set_bits (i + 1) n bits).
Proof.
  revert i bits nacks. induction n as [| n IH]; intros i bits nacks.
  { by rewrite app_nil_r. }
  change (nack_bits_loop (S n) f (u16 i) bits nacks) with
    (if bits =? 0 then nacks else
     nack_bits_loop n f (u16 (u16 i + 1)) (Z.shiftr bits 1)
       (if Z.land bits 1 =? 0 then nacks else nacks ++ [mkNack f (u16 (u16 i + 1))])).
  assert (u16 (u16 i + 1) = u16 (i + 1)) as -> by (unfold wrap; by rewrite Zplus_mod_idemp_l).
  destruct (Z.eqb_spec bits 0) as [-> |]; [by rewrite set_bits_0, app_nil_r |].
  rewrite IH. simpl set_bits. destruct (Z.land bits 1 =? 0); [done |].
  by rewrite <- app_assoc.
Qed.

(** * NACKs *)

(** The group of NACKs one loss field carries. *)
Lemma loss_bit_vector_spec f first bits nacks :
  StronglySorted nack_lt nacks -> is_u 8 bits -> 0 <= first ->
  Forall (fun n => nack_frame_id n = f -> first < nack_packet_id n) nacks ->
  exists ids rest bits',
    loss_bit_vector f first bits nacks = Ret (bits', rest)
    /\ nacks = map (mkNack f) ids ++ rest
    /\ is_u 8 bits' /\ StronglySorted Z.lt ids /\ Forall (fun i => first < i <= first + 8) ids
    /\ forall i, 0 <= i -> Z.testbit bits' i = Z.testbit bits i || bool_decide (first + 1 + i ∈ ids).
Proof.
  intros Hs. revert bits. induction Hs as [| [nf np] nacks Hs IH Hlt]; intros bits Hb Hfirst Hgt.
  - exists [], [], bits. simpl. do 3 (split; [done |]). do 2 (split; [constructor |]).
    intros i _. by rewrite orb_false_r.
  - simpl. apply Forall_cons in Hgt as [Hn Hgt]. simpl in Hn.
    assert (forall r, exists ids rest bits', Ret (bits, r) = Ret (bits', rest)
      /\ r = map (mkNack f) ids ++ rest
      /\ is_u 8 bits' /\ StronglySorted Z.lt ids /\ Forall (fun i => first < i <= first + 8) ids
      /\ forall i, 0 <= i -> Z.testbit bits' i = Z.testbit bits i || bool_decide (first + 1 + i ∈ ids))
      as Hstop.
    { intros r. exists [], r, bits. simpl. do 3 (split; [done |]). do 2 (split; [constructor |]).
      intros i _. by rewrite orb_false_r. }
    destruct (Z.eqb_spec nf f) as [-> | Hne]; simpl; [| apply Hstop].
    destruct (Z.leb_spec 8 (np - first - 1)); [apply Hstop |].
    specialize (Hn eq_refl). rewrite (proj2 (Z.ltb_ge _ _)) by lia.
    assert (is_u 8 (Z.lor bits (Z.shiftl 1 (np - first - 1)))) as Hb'.
    { rewrite Z.lor_comm. unfold is_u in *.
      split; [apply Z.lor_nonneg; split; [apply Z.shiftl_nonneg |]; lia |].
      apply Z.log2_lt_cancel. change (Z.log2 (2 ^ 8)) with 8.
      rewrite Z.log2_lor by (rewrite ?Z.shiftl_nonneg; lia).
      rewrite Z.shiftl_1_l, Z.log2_pow2 by lia.
      pose proof (Z.log2_le_mono bits 255 ltac:(lia)). change (Z.log2 255) with 7 in *. lia. }
    rewrite wrap_small by done.
    destruct (IH _ Hb' Hfirst Hgt) as (ids & rest & bits' & -> & -> & Hb8 & Hids & Hr & Hbit).
    exists (np :: ids), rest, bits'. do 3 (split; [done |]). split; [| split].
    + constructor; [done |]. apply Forall_app in Hlt as [Hlt _].
      rewrite Forall_forall in Hlt. apply Forall_forall. intros i Hi.
      assert (nack_lt (mkNack f np) (mkNack f i)) as Hl by (apply Hlt, list_elem_of_fmap; eauto).
      rewrite nack_lt_iff in Hl. simpl in Hl. lia.
    + constructor; [lia | done].
    + intros i Hi. rewrite Hbit by done. rewrite Z.lor_spec, Z.shiftl_1_l, Z.pow2_bits_eqb by lia.
      destruct (Z.testbit bits i); simpl; [done |].
      apply eq_true_iff_eq. rewrite orb_true_iff, !bool_decide_eq_true, elem_of_cons, Z.eqb_eq.
      split; [intros [? | ?]; [left; lia | by right] | intros [? | ?]; [left; lia | by right]].
Qed.

(** One loss field, written and read back. *)
Definition loss_field (f first bits : Z) : list Z :=
  be_encode 1 f ++ be_encode 2 first ++ be_encode 1 bits.

Lemma nack_fields_loop_field k fb f first bits rest acc :
  fb < f <= fb + 256 -> is_u 16 first -> is_u 8 bits ->
  nack_fields_loop (S k) fb (loss_field f first bits ++ rest) acc
  = nack_fields_loop k fb rest
      (acc ++ mkNack f first ::
        if first =? kAllPacketsLost then []
        else map (fun x => mkNack f (u16 x)) (set_bits (first + 1) 8 bits)).
Proof.
  intros Hf Hfirst Hbits. unfold loss_field. rewrite <- !app_assoc. cbn [nack_fields_loop].
  do 3 (rewrite ConsumeField_encode; cbn [mbind outcome_bind]).
  change (8 * Z.of_nat 1) with 8. change (8 * Z.of_nat 2) with 16.
  rewrite ExpandGreaterThan_recovers, (wrap_small 16 first), (wrap_small 8 bits) by (done || lia).
  f_equal. destruct (first =? kAllPacketsLost); simpl; [done |].
  pose proof (nack_bits_loop_eq 8 f first bits (acc ++ [mkNack f first])) as Heq.
  rewrite (wrap_small 16 first) in Heq by done. rewrite Heq. by rewrite <- app_assoc.
Qed.

Definition nack_in_window (fb : Z) (n : PacketNack) : Prop :=
  nack_ok n /\ fb < nack_frame_id n <= fb + 256.

(** The packet IDs of a group are what its bit vector decodes to. *)
Lemma group_decodes f first ids bits :
  is_u 16 first -> StronglySorted Z.lt ids -> Forall (fun i => first < i <= first + 8) ids ->
  Forall nack_ok (map (mkNack f) ids) ->
  (forall i, 0 <= i -> Z.testbit bits i = Z.testbit 0 i || bool_decide (first + 1 + i ∈ ids)) ->
  (if first =? kAllPacketsLost then []
   else map (fun x => mkNack f (u16 x)) (set_bits (first + 1) 8 bits)) = map (mkNack f) ids.
Proof.
  intros Hfirst Hs Hr Hok Hbit.
  assert (Forall (is_u 16) ids) as Hu.
  { exact (proj1 (List.Forall_map (mkNack f) nack_ok ids) Hok). }
  destruct (Z.eqb_spec first kAllPacketsLost) as [-> | Hne].
  { destruct ids as [| i ids]; [done |].
    apply Forall_cons in Hr as [Hi _]. apply Forall_cons in Hu as [Hu _].
    unfold kAllPacketsLost, is_u in *. lia. }
  assert (set_bits (first + 1) 8 bits = ids) as ->.
  { apply StronglySorted_lt_ext; [apply set_bits_sorted | done |]. intros x.
    rewrite set_bits_elem. rewrite Forall_forall in Hr. split.
    - intros [Hx Hb]. rewrite Hbit in Hb by lia. rewrite Z.bits_0 in Hb. simpl in Hb.
      apply bool_decide_eq_true in Hb. by replace (first + 1 + (x - (first + 1))) with x in Hb by lia.
    - intros Hx. pose proof (Hr x Hx) as Hb. simpl in Hb. split; [lia |]. rewrite Hbit by lia. rewrite Z.bits_0. simpl.
      apply bool_decide_eq_true. by replace (first + 1 + (x - (first + 1))) with x by lia. }
  apply map_ext_Forall. eapply Forall_impl; [exact Hu |]. intros i Hi. by rewrite wrap_small.
Qed.

Lemma loss_fields_roundtrip remaining nacks num b fb :
  StronglySorted nack_lt nacks -> Forall (nack_in_window fb) nacks ->
  4 * Z.of_nat remaining <= room b ->
  exists (k : nat) fields taken,
    loss_fields_loop remaining nacks num b
    = Ret (num + Z.of_nat k, mkBuffer (written b ++ fields) (room b - 4 * Z.of_nat k))
    /\ zlen fields = 4 * Z.of_nat k /\ (k <= remaining)%nat /\ (k <= length nacks)%nat
    /\ taken `prefix_of` nacks
    /\ ((length nacks <= remaining)%nat -> taken = nacks)
    /\ forall rest acc, nack_fields_loop k fb (fields ++ rest) acc = Ret (acc ++ taken, rest).
Proof.
  revert nacks num b. induction remaining as [| rem IH]; intros nacks num b Hs Hw Hroom.
  { exists O, [], []. destruct b as [w r]. simpl. rewrite app_nil_r.
    split; [f_equal; f_equal; [lia | f_equal; lia] |].
    do 2 (split; [done |]). split; [lia |]. split; [apply prefix_nil |].
    split; [destruct nacks; simpl; [done | lia] | intros; by rewrite app_nil_r]. }
  destruct nacks as [| [f first] nacks].
  { exists O, [], []. destruct b as [w r]. simpl. rewrite app_nil_r.
    split; [f_equal; f_equal; [lia | f_equal; lia] |].
    split; [done |]. split; [lia |]. split; [done |]. split; [apply prefix_nil |].
    split; [done | intros; by rewrite app_nil_r]. }
  inversion Hs as [| ? ? Hs' Hlt]; subst. apply Forall_cons in Hw as [[Hfirst Hf] Hw].
  unfold nack_ok in Hfirst. simpl in Hfirst, Hf.
  destruct (loss_bit_vector_spec f first 0 nacks Hs') as
    (ids & rest & bits & Hbv & -> & Hb8 & Hids & Hr & Hbit);
    [done | apply Hfirst | |].
  { eapply Forall_impl; [exact Hlt |]. intros [f' i]. rewrite nack_lt_iff. simpl. lia. }
  apply Forall_app in Hw as [Hwg Hwr].
  assert (Forall nack_ok (map (mkNack f) ids)) as Hok
    by (eapply Forall_impl; [exact Hwg | by intros ? [? _]]).
  pose proof (group_decodes f first ids bits Hfirst Hids Hr Hok Hbit) as Hdec.
  cbn [loss_fields_loop nack_frame_id nack_packet_id]. rewrite Hbv. cbn [mbind outcome_bind].
  do 3 (rewrite AppendField_ok by (simpl room; change (Z.of_nat 1) with 1; change (Z.of_nat 2) with 2; lia);
        cbn [mbind outcome_bind written room]).
  assert (StronglySorted nack_lt rest) as Hsr.
  { clear - Hs'. induction (map (mkNack f) ids); [done |]. apply IHl. by inversion Hs'. }
  edestruct (IH rest (num + 1)
    (mkBuffer (((written b ++ be_encode 1 (lower_8_bits f)) ++ be_encode 2 first) ++ be_encode 1 bits)
              (room b - Z.of_nat 1 - Z.of_nat 2 - Z.of_nat 1)))
    as (k & fields & taken & Heq & Hzf & Hk & Hkn & Hpre & Hall & Hparse);
    [done | done | simpl room; lia |].
  exists (S k), (loss_field f first bits ++ fields), (mkNack f first :: map (mkNack f) ids ++ taken).
  rewrite Heq. cbn [written room]. unfold lower_8_bits.
  change 8 with (8 * Z.of_nat 1). rewrite be_encode_wrap.
  split; [| split; [| split; [lia | split; [| split; [| split]]]]].
  - f_equal. f_equal; [lia |]. f_equal; [| lia]. unfold loss_field. by rewrite <- !app_assoc.
  - unfold loss_field. autorewrite with zlen. lia.
  - simpl. rewrite length_app. lia.
  - by apply prefix_cons, prefix_app.
  - intros Hlen. simpl in Hlen. rewrite length_app in Hlen. f_equal. f_equal. apply Hall. lia.
  - intros rest' acc. rewrite <- app_assoc, nack_fields_loop_field by done. rewrite Hdec, Hparse.
    by rewrite <- app_assoc.
Qed.

(** * ACKs *)

(** The frames an ACK bit vector stands for. *)
Fixpoint frames_of (start : Z) (octets : list Z) : list Z :=
  match octets with
  | [] => []
  | bits :: octets => set_bits start 8 bits ++ frames_of (start + 8) octets
  end.

#[global] Arguments set_bits : simpl never.

Lemma frames_of_elem start octets x :
  x ∈ frames_of start octets <->
  exists i bits, octets !! i = Some bits
    /\ 0 <= x - start - 8 * Z.of_nat i < 8 /\ Z.testbit bits (x - start - 8 * Z.of_nat i) = true.
Proof.
  revert start. induction octets as [| bits octets IH]; intros start; simpl.
  { rewrite elem_of_nil. split; [done |]. intros (i & b & H & _). done. }
  rewrite elem_of_app, set_bits_elem, IH. split.
  - intros [[Hr Hb] | (i & b & Hi & Hr & Hb)].
    + exists O, bits. split; [done |]. rewrite Z.mul_0_r, Z.sub_0_r. split; [lia | done].
    + exists (S i), b. replace (x - start - 8 * Z.of_nat (S i))
        with (x - (start + 8) - 8 * Z.of_nat i) by lia. done.
  - intros ([| i] & b & Hi & Hr & Hb); simpl in Hi.
    + injection Hi as ->. left. rewrite Z.mul_0_r, Z.sub_0_r in *. split; [lia | done].
    + right. exists i, b. replace (x - (start + 8) - 8 * Z.of_nat i)
        with (x - start - 8 * Z.of_nat (S i)) by lia. done.
Qed.

Lemma frames_of_sorted start octets : StronglySorted Z.lt (frames_of start octets).
Proof.
  revert start. induction octets as [| bits octets IH]; intros start; simpl; [constructor |].
  apply (StronglySorted_lt_app _ _ (start + 8)); [apply set_bits_sorted | apply IH | |];
    apply Forall_forall; intros x Hx.
  - apply set_bits_elem in Hx. lia.
  - apply frames_of_elem in Hx as (i & b & _ & Hr & _). lia.
Qed.

Lemma ack_octets_loop_eq start octets rest frames :
  bytes_ok octets ->
  ack_octets_loop (length octets) start (octets ++ rest) frames
  = Ret (frames ++ frames_of start octets).
Proof.
  intros Hok. revert start frames. induction Hok as [| bits octets Hb Hok IH]; intros start frames.
  { simpl. by rewrite app_nil_r. }
  change ((bits :: octets) ++ rest) with ([bits] ++ octets ++ rest). cbn [length ack_octets_loop].
  rewrite ConsumeField_app by done. cbn [mbind outcome_bind].
  assert (be_decode [bits] = bits) as ->.
  { rewrite be_decode_cons by (done || constructor). change (be_decode []) with 0.
    change (zlen (@nil Z)) with 0. lia. }
  rewrite IH, ack_bits_loop_eq. simpl. by rewrite <- app_assoc.
Qed.

(** Setting one bit adds one frame; growing the vector adds none. *)
Lemma frames_of_set_bit start octets f x :
  bytes_ok octets -> 0 <= f - start < 8 * zlen octets ->
  x ∈ frames_of start (alter (fun o => u8 (Z.lor o (Z.shiftl 1 ((f - start) mod 8))))
                         (Z.to_nat ((f - start) / 8)) octets)
  <-> x ∈ frames_of start octets \/ x = f.
Proof.
  intros Hok Hf. rewrite !frames_of_elem.
  set (k := Z.to_nat ((f - start) / 8)). set (m := (f - start) mod 8).
  assert (8 * Z.of_nat k + m = f - start /\ 0 <= m < 8) as [Hkm Hm].
  { subst k m. pose proof (Z.div_pos (f - start) 8 ltac:(lia) ltac:(lia)).
    rewrite Z2Nat.id by done. Z.div_mod_to_equations. lia. }
  destruct (lookup_lt_is_Some_2 octets k) as [ok Hk]; [unfold zlen in Hf; lia |].
  assert (forall j, 0 <= j < 8 ->
    Z.testbit (u8 (Z.lor ok (Z.shiftl 1 m))) j = Z.testbit ok j || (m =? j)) as Hbits.
  { intros j Hj. unfold wrap. rewrite Z.mod_pow2_bits_low by lia.
    by rewrite Z.lor_spec, Z.shiftl_1_l, Z.pow2_bits_eqb by lia. }
  split.
  - intros (i & b & Hi & Hr & Hb). destruct (decide (i = k)) as [-> | Hne].
    + rewrite list_lookup_alter_eq, Hk in Hi. simpl in Hi. injection Hi as <-.
      rewrite Hbits in Hb by done. apply orb_true_iff in Hb as [Hb | Hb]; [left; eauto 10 | right].
      lia.
    + rewrite list_lookup_alter_ne in Hi by done. left. eauto 10.
  - intros [(i & b & Hi & Hr & Hb) | ->].
    + destruct (decide (i = k)) as [-> | Hne].
      * assert (b = ok) as -> by congruence. exists k, (u8 (Z.lor ok (Z.shiftl 1 m))).
        rewrite list_lookup_alter_eq, Hk, Hbits, Hb by done. done.
      * exists i, b. rewrite list_lookup_alter_ne by done. done.
    + exists k, (u8 (Z.lor ok (Z.shiftl 1 m))). rewrite list_lookup_alter_eq, Hk.
      replace (f - start - 8 * Z.of_nat k) with m by lia. rewrite Hbits, Z.eqb_refl by done.
      rewrite orb_true_r. done.
Qed.

Lemma frames_of_grow start octets n x :
  x ∈ frames_of start (octets ++ replicate n 0) <-> x ∈ frames_of start octets.
Proof.
  rewrite !frames_of_elem. split; intros (i & b & Hi & Hr & Hb); exists i, b.
  - apply lookup_app_Some in Hi as [Hi | [_ Hi]]; [done |].
    apply lookup_replicate in Hi as [-> _]. by rewrite Z.bits_0 in Hb.
  - split; [by apply lookup_app_l_Some | done].
Qed.

Lemma bytes_ok_alter g k octets :
  (forall o, is_u 8 (g o)) -> bytes_ok octets -> bytes_ok (alter g k octets).
Proof. intros Hg Hok. apply Forall_alter; [done | auto]. Qed.

Lemma ReserveSpace_ok n b :
  0 <= n <= room b ->
  ReserveSpace n b
  = Ret (zlen (written b), mkBuffer (written b ++ replicate (Z.to_nat n) 0) (room b - n)).
Proof.
  intros Hn. with_strategy transparent [ReserveSpace] unfold ReserveSpace.
  rewrite append_bytes_ok by (unfold zlen; rewrite length_replicate; lia). simpl.
  unfold zlen at 2. rewrite length_replicate, Z2Nat.id by lia. done.
Qed.

(** What the ACK loop leaves in the buffer: the vector [octets'], in which the
    frames of a prefix of the ACKs have been added to those of [octets]. *)
Definition acks_written (first : Z) (acks octets octets' taken : list Z) (space : Z) : Prop :=
  bytes_ok octets' /\ zlen octets <= zlen octets' /\ zlen octets' - zlen octets <= space
  /\ (zlen octets' - zlen octets) mod 4 = 0
  /\ (zlen octets <= 254 -> zlen octets' <= 254)
  /\ taken `prefix_of` acks
  /\ (forall x, x ∈ frames_of first octets'
        <-> x ∈ frames_of first octets \/ (x ∈ taken /\ first <= x))
  /\ (forall m, 0 <= m -> zlen octets + 4 * m <= 254 -> 4 * m <= space ->
        Forall (fun f => f < first + 8 * (zlen octets + 4 * m)) acks -> taken = acks).

(** Growing the vector so that it holds octet [k]. *)
Lemma num_additional_spec n k :
  0 <= n <= k -> k < 2 ^ 30 ->
  let add := DividePositivesRoundingUp (k + 1 - n) 4 * 4 in
  k + 1 <= n + add < k + 5 /\ add mod 4 = 0 /\ 0 < add.
Proof.
  intros Hn Hk. cbv zeta. rewrite DividePositivesRoundingUp_eq by lia.
  rewrite Z.mod_mul by lia. Z.div_mod_to_equations. lia.
Qed.

Lemma swrap_small w z : 0 < w -> is_s w z -> swrap w z = z.
Proof.
  intros Hw Hz. unfold swrap, is_s in *.
  assert (2 ^ w = 2 * 2 ^ (w - 1)) as Hp by (rewrite <- Z.pow_succ_r by lia; f_equal; lia).
  destruct (decide (0 <= z)).
  - rewrite Z.mod_small by lia. by rewrite (proj2 (Z.ltb_lt _ _)) by lia.
  - replace (z mod 2 ^ w) with (z + 2 ^ w).
    + rewrite (proj2 (Z.ltb_ge _ _)) by lia. lia.
    + rewrite <- (Z.mod_add z 1) by lia. rewrite Z.mul_1_l, Z.mod_small by lia. done.
Qed.

Lemma acks_written_nil first octets space :
  bytes_ok octets -> 0 <= space -> acks_written first [] octets octets [] space.
Proof.
  intros Hok Hs. unfold acks_written. rewrite Z.sub_diag.
  do 2 (split; [done || lia |]). split; [lia |]. split; [done |]. split; [done |].
  split; [done |]. split; [| done]. intros x. rewrite elem_of_nil. tauto.
Qed.

(** Stopping early takes nothing more; it cannot happen while the vector may
    still grow far enough for the frame at hand. *)
Lemma acks_written_stop first f acks octets space :
  bytes_ok octets -> 0 <= space ->
  (forall m, 0 <= m -> zlen octets + 4 * m <= 254 -> 4 * m <= space ->
     first + 8 * (zlen octets + 4 * m) <= f) ->
  acks_written first (f :: acks) octets octets [] space.
Proof.
  intros Hok Hs Hstop. unfold acks_written. rewrite Z.sub_diag.
  do 2 (split; [done || lia |]). split; [lia |]. split; [done |]. split; [done |].
  split; [apply prefix_nil |]. split; [intros x; rewrite elem_of_nil; tauto |].
  intros m Hm H254 Hsp Hall. apply Forall_cons in Hall as [Hf _].
  specialize (Hstop m Hm H254 Hsp). lia.
Qed.

Lemma acks_written_cons first f acks octets octets2 octets' taken add space :
  acks_written first acks octets2 octets' taken (space - add) ->
  zlen octets2 = zlen octets + add -> 0 <= add <= space -> add mod 4 = 0 ->
  (forall x, x ∈ frames_of first octets2 <-> x ∈ frames_of first octets \/ x = f) ->
  first <= f -> (zlen octets <= 254 -> zlen octets + add <= 254) ->
  (forall m, 0 <= m -> f < first + 8 * (zlen octets + 4 * m) -> add <= 4 * m) ->
  acks_written first (f :: acks) octets octets' (f :: taken) space.
Proof.
  intros (H1 & H2 & H3 & H4 & H5 & H6 & H7 & H8) Hlen Hadd Hadd4 Hfr Hf H254 Hmin.
  split; [done |]. split; [lia |]. split; [lia |].
  split; [Z.div_mod_to_equations; lia |]. split; [intros; apply H5; rewrite Hlen; auto |].
  split; [by apply prefix_cons |]. split.
  - intros x. rewrite H7, Hfr, elem_of_cons.
    split; [intros [[? | ->] | ?]; tauto | intros [? | [[-> | ?] ?]]; tauto].
  - intros m Hm Ha Hb Hall. apply Forall_cons in Hall as [Hfm Hall]. f_equal.
    specialize (Hmin m Hm Hfm).
    assert (4 * (add / 4) = add) as Hq by (Z.div_mod_to_equations; lia).
    apply (H8 (m - add / 4)); [lia | lia | lia |].
    eapply Forall_impl; [exact Hall |]. simpl. intros x. rewrite Hlen. lia.
Qed.

(** Setting the bit of [f] after growing the vector by [add] octets. *)
Lemma ack_set_step first f pre octets add space :
  bytes_ok octets -> 0 <= add -> 0 <= f - first < 8 * (zlen octets + add) ->
  exists octets2,
    set_ack_bit (zlen pre) ((f - first) / 8) ((f - first) mod 8)
      (mkBuffer (pre ++ octets ++ replicate (Z.to_nat add) 0) space)
    = mkBuffer (pre ++ octets2) space
    /\ bytes_ok octets2 /\ zlen octets2 = zlen octets + add
    /\ forall x, x ∈ frames_of first octets2 <-> x ∈ frames_of first octets \/ x = f.
Proof.
  intros Hok Hadd Hf. set (o1 := octets ++ replicate (Z.to_nat add) 0).
  assert (zlen o1 = zlen octets + add) as Hlen.
  { unfold o1, zlen. rewrite length_app, length_replicate. lia. }
  assert (bytes_ok o1) as Hok1.
  { apply Forall_app_2; [done |]. apply Forall_replicate. unfold is_u. lia. }
  eexists. split.
  { unfold set_ack_bit. simpl. f_equal.
    rewrite Z2Nat.inj_add by (apply zlen_nonneg || (apply Z.div_pos; lia)).
    unfold zlen at 1. rewrite Nat2Z.id. apply alter_app_r. }
  split; [| split].
  - apply bytes_ok_alter; [| done]. intros o. apply wrap_is_u. lia.
  - rewrite <- Hlen. unfold zlen. by rewrite length_alter.
  - intros x. rewrite frames_of_set_bit by (done || lia). unfold o1. by rewrite frames_of_grow.
Qed.

Lemma ack_loop_spec acks first pre octets space :
  bytes_ok octets -> 0 <= space -> zlen octets < 2 ^ 20 ->
  Forall (fun f => is_s 32 (f - first)) acks ->
  exists octets' taken,
    ack_loop (zlen pre) first acks (zlen octets) (mkBuffer (pre ++ octets) space)
    = Ret (zlen octets', mkBuffer (pre ++ octets') (space - (zlen octets' - zlen octets)))
    /\ acks_written first acks octets octets' taken space.
Proof.
  intros Hok Hspace Hlen Hacks. revert octets space Hok Hspace Hlen.
  induction Hacks as [| f acks Hf Hacks IH]; intros octets space Hok Hspace Hlen.
  { exists octets, []. split; [simpl; f_equal; f_equal; f_equal; lia | by apply acks_written_nil]. }
  cbn [ack_loop]. rewrite swrap_small by (done || lia).
  destruct (Z.ltb_spec (f - first) 0) as [Hneg | Hpos].
  { destruct (IH octets space Hok Hspace Hlen) as (o' & taken & -> & H1 & H2 & H3 & H4 & H5 & H6 & H7 & H8).
    exists o', (f :: taken). split; [done |].
    split; [done |]. do 4 (split; [done |]). split; [by apply prefix_cons |]. split.
    - intros x. rewrite H7, elem_of_cons. split; [tauto |]. intros [? | [[-> | ?] ?]]; [tauto | lia | tauto].
    - intros m Hm Ha Hb Hc. apply Forall_cons in Hc as [_ Hc]. f_equal. by eapply H8. }
  rewrite Z.quot_div_nonneg, Z.rem_mod_nonneg by lia.
  unfold is_s in Hf. pose proof (Z.div_pos (f - first) 8 ltac:(lia) ltac:(lia)) as Hk0.
  assert ((f - first) / 8 < 2 ^ 28) as Hk by (Z.div_mod_to_equations; lia).
  destruct (Z.leb_spec (zlen octets) ((f - first) / 8)) as [Hgrow | Hin].
  - destruct (num_additional_spec (zlen octets) ((f - first) / 8)) as (Hadd & Hadd4 & Hadd0);
      [pose proof (zlen_nonneg octets); lia | lia |].
    set (add := DividePositivesRoundingUp ((f - first) / 8 + 1 - zlen octets) 4 * 4) in *.
    simpl room. unfold kRtcpMaxAckBitVectorOctets.
    destruct (Z.ltb_spec space add) as [Hsp | Hsp].
    { exists octets, []. split; [f_equal; f_equal; f_equal; lia |].
      apply acks_written_stop; [done | done |]. intros m Hm _ Hsm.
      assert (4 * m < add) by lia. Z.div_mod_to_equations. lia. }
    destruct (Z.ltb_spec 254 (zlen octets + add)) as [H254 | H254].
    { exists octets, []. split; [f_equal; f_equal; f_equal; lia |].
      apply acks_written_stop; [done | done |]. intros m Hm H254' _.
      assert (4 * m < add) by lia. Z.div_mod_to_equations. lia. }
    rewrite ReserveSpace_ok by (simpl; lia). cbn [mbind outcome_bind written room].
    rewrite <- app_assoc.
    destruct (ack_set_step first f pre octets add (space - add)) as (octets2 & -> & Hok2 & Hlen2 & Hfr);
      [done | lia | Z.div_mod_to_equations; lia |].
    rewrite <- Hlen2.
    destruct (IH octets2 (space - add)) as (o' & taken & -> & Hw); [done | lia | lia |].
    exists o', (f :: taken). split; [f_equal; f_equal; f_equal; lia |].
    eapply acks_written_cons; [exact Hw | done | lia | lia | done | lia | done |].
    intros m Hm Hfm. Z.div_mod_to_equations. lia.
  - destruct (ack_set_step first f pre octets 0 space) as (octets2 & Hset & Hok2 & Hlen2 & Hfr);
      [done | lia | Z.div_mod_to_equations; lia |].
    rewrite app_nil_r in Hset. rewrite Hset. replace (zlen octets) with (zlen octets2) by lia.
    destruct (IH octets2 space) as (o' & taken & -> & Hw); [done | lia | lia |].
    exists o', (f :: taken). split; [done |].
    eapply (acks_written_cons first f acks octets octets2 o' taken 0 space);
      [by rewrite Z.sub_0_r | done | lia | done | done | lia | lia | lia].
Qed.

(** * The feedback packet *)

#[global] Arguments ack_loop : simpl never.

Lemma skip_nacks_filter c nacks :
  StronglySorted nack_lt nacks -> skip_nacks c nacks = filter (fun n => c < nack_frame_id n) nacks.
Proof.
  induction 1 as [| n nacks Hs IH Hlt]; [done |]. simpl.
  destruct (Z.ltb_spec c (nack_frame_id n)) as [Hc | Hc].
  - rewrite filter_cons_True by done. f_equal. symmetry. apply filter_all.
    eapply Forall_impl; [exact Hlt |]. intros m. simpl. rewrite nack_lt_iff. lia.
  - rewrite filter_cons_False by lia. done.
Qed.

Lemma AppendCastFeedbackLossFields_spec b buffer :
  StronglySorted nack_lt (nacks_for_next_packet b) ->
  Forall nack_ok (nacks_for_next_packet b) ->
  Forall (fun n => nack_frame_id n <= checkpoint_frame_id b + 256) (nacks_for_next_packet b) ->
  0 <= room buffer ->
  let nacks := filter (fun n => checkpoint_frame_id b < nack_frame_id n) (nacks_for_next_packet b) in
  exists (k : nat) fields taken,
    AppendCastFeedbackLossFields b buffer
    = Ret (Z.of_nat k, b <| nacks_for_next_packet := [] |>,
           mkBuffer (written buffer ++ fields) (room buffer - 4 * Z.of_nat k))
    /\ zlen fields = 4 * Z.of_nat k /\ Z.of_nat k <= 255 /\ (k <= length nacks)%nat
    /\ 4 * Z.of_nat k <= room buffer
    /\ taken `prefix_of` nacks
    /\ (zlen nacks <= 255 -> 4 * zlen nacks <= room buffer -> taken = nacks)
    /\ forall rest, nack_fields_loop k (checkpoint_frame_id b) (fields ++ rest) []
                    = Ret (taken, rest).
Proof.
  intros Hs Hok Hf Hroom. cbv zeta. unfold AppendCastFeedbackLossFields.
  destruct (nacks_for_next_packet b) as [| n0 ns] eqn:Hn.
  - exists O, [], []. simpl. rewrite app_nil_r, Z.mul_0_r, Z.sub_0_r.
    destruct b, buffer; simpl in *; subst. split_and!; try done; lia.
  - rewrite <- Hn in *. unfold kRtcpFeedbackLossFieldSize.
    rewrite skip_nacks_filter by done.
    set (nacks := filter _ _).
    pose proof (Z.div_pos (room buffer) 4 Hroom ltac:(lia)) as Hdiv.
    destruct (loss_fields_roundtrip (Z.to_nat (Z.min (room buffer / 4) 255)) nacks 0 buffer
      (checkpoint_frame_id b)) as (k & fields & taken & -> & Hz & Hk & Hkn & Hpre & Hall & Hparse).
    + by apply StronglySorted_filter.
    + apply Forall_forall. intros n [Hc Hin]%list_elem_of_filter.
      rewrite Forall_forall in Hok, Hf. split; [auto |]. specialize (Hf n Hin). lia.
    + rewrite Z2Nat.id by lia. Z.div_mod_to_equations. lia.
    + exists k, fields, taken. cbn [mbind outcome_bind].
      split; [done |]. split; [done |]. split; [lia |]. split; [done |].
      split; [Z.div_mod_to_equations; lia |]. split; [done |].
      split; [| intros rest; apply Hparse].
      intros H255 H4. apply Hall. unfold zlen in *. Z.div_mod_to_equations. lia.
Qed.

(** The CST2 part. *)
Definition cst2 (count : Z) (octets : list Z) : list Z :=
  be_encode 4 kRtcpCst2IdentifierWord ++ be_encode 1 count ++ be_encode 1 (zlen octets) ++ octets.

Lemma AppendCastFeedbackAckFields_spec b buffer :
  8 <= room buffer ->
  Forall (fun f => is_s 32 (f - (checkpoint_frame_id b + 2))) (acks_for_next_packet b) ->
  exists octets taken,
    AppendCastFeedbackAckFields b buffer
    = Ret (b <| acks_for_next_packet := [] |>,
           mkBuffer (written buffer ++ cst2 (feedback_count b) octets)
                    (room buffer - (6 + zlen octets)))
    /\ acks_written (checkpoint_frame_id b + 2) (acks_for_next_packet b) [0; 0] octets taken
         (room buffer - 8).
Proof.
  intros Hroom Hacks. unfold AppendCastFeedbackAckFields.
  unfold kRtcpFeedbackAckHeaderSize, kRtcpMinAckBitVectorOctets.
  rewrite (proj2 (Z.ltb_ge _ _)) by lia. do 2 write_field.
  rewrite ReserveSpace_ok by (simpl; lia). cbn [mbind outcome_bind written room].
  rewrite ReserveSpace_ok by (simpl; lia). cbn [mbind outcome_bind written room].
  set (head := (written buffer ++ be_encode 4 kRtcpCst2IdentifierWord)
                 ++ be_encode 1 (feedback_count b)).
  change (replicate (Z.to_nat 1) 0) with [0]. change (replicate (Z.to_nat 2) 0) with [0; 0].
  edestruct (ack_loop_spec (acks_for_next_packet b) (checkpoint_frame_id b + 2) (head ++ [0]) [0; 0]
    (room buffer - 8)) as (octets & taken & Heq & Hw); [| lia | done | done |].
  { do 2 (apply Forall_cons; split; [unfold is_u; lia |]). constructor. }
  exists octets, taken. split; [| exact Hw].
  destruct Hw as (_ & _ & _ & _ & H254 & _). specialize (H254 ltac:(done)).
  replace (room buffer - Z.of_nat 4 - Z.of_nat 1 - 1 - 2) with (room buffer - 8) by lia.
  assert (match acks_for_next_packet b with
    | [] => Ret (2, mkBuffer ((head ++ [0]) ++ [0; 0]) (room buffer - 8))
    | z :: l => ack_loop (zlen (head ++ [0])) (checkpoint_frame_id b + 2) (z :: l) 2
                  (mkBuffer ((head ++ [0]) ++ [0; 0]) (room buffer - 8))
    end = Ret (zlen octets, mkBuffer ((head ++ [0]) ++ octets)
                 (room buffer - 8 - (zlen octets - zlen [0; 0])))) as ->.
  { change (zlen [0; 0]) with 2 in *. by destruct (acks_for_next_packet b). }
  cbn [mbind outcome_bind]. rewrite OSP_CHECK_leb by lia. simpl. unfold fill_at. simpl.
  rewrite <- app_assoc, fill_reserved by (by rewrite length_be_encode).
  change (zlen [0; 0]) with 2. f_equal. f_equal. unfold cst2, head. rewrite <- !app_assoc.
  f_equal. lia.
Qed.

Lemma ParseCst2_cst2 fb count octets :
  bytes_ok octets -> zlen octets <= 254 ->
  ParseCst2 fb (cst2 count octets) [] = Ret (Some (frames_of (fb + 2) octets)).
Proof.
  intros Hok Hlen. unfold ParseCst2, cst2, kRtcpFeedbackAckHeaderSize.
  pose proof (zlen_nonneg octets).
  rewrite (proj2 (Z.ltb_ge _ _)) by (autorewrite with zlen; lia).
  rewrite ConsumeField_encode. cbn [mbind outcome_bind].
  change (wrap (8 * Z.of_nat 4) kRtcpCst2IdentifierWord =? kRtcpCst2IdentifierWord) with true.
  cbn [negb]. change 1 with (zlen (be_encode 1 count)) at 1.
  change (zlen (be_encode 1 count)) with 1.
  replace 1 with (zlen (be_encode 1 count)) at 1 by (by rewrite zlen_be_encode).
  rewrite subspan_app. cbn [mbind outcome_bind].
  rewrite ConsumeField_encode. cbn [mbind outcome_bind]. change (8 * Z.of_nat 1) with 8.
  rewrite wrap_small by (unfold is_u; lia). rewrite (proj2 (Z.ltb_ge _ _)) by lia.
  unfold zlen at 1. rewrite Nat2Z.id. rewrite <- (app_nil_r octets) at 2.
  by rewrite ack_octets_loop_eq.
Qed.

(** Without room for a bit vector nothing is written, and nothing is read. *)
Lemma AppendCastFeedbackAckFields_no_room b buffer :
  room buffer < 8 -> AppendCastFeedbackAckFields b buffer = Ret (b, buffer).
Proof.
  intros H. unfold AppendCastFeedbackAckFields, kRtcpFeedbackAckHeaderSize,
    kRtcpMinAckBitVectorOctets. by rewrite (proj2 (Z.ltb_lt _ _)) by lia.
Qed.

(** What the receiver must have collected: the conditions its [OSP_DCHECK]s
    check, and frame identifiers within the range of the wire format. *)
Definition feedback_wf (b : CompoundRtcpBuilder) : Prop :=
  0 < playout_delay b <= 65535
  /\ StronglySorted kept_before (nacks_for_next_packet b)
  /\ Forall nack_ok (nacks_for_next_packet b)
  /\ Forall (fun n => nack_frame_id n <= checkpoint_frame_id b + 256) (nacks_for_next_packet b)
  /\ StronglySorted Z.lt (acks_for_next_packet b)
  /\ Forall (fun f => is_s 32 (f - (checkpoint_frame_id b + 2))) (acks_for_next_packet b).

Definition expected_nacks (b : CompoundRtcpBuilder) : list PacketNack :=
  filter (fun n => checkpoint_frame_id b < nack_frame_id n) (nacks_for_next_packet b).
Definition expected_acks (b : CompoundRtcpBuilder) : list Z :=
  filter (fun f => checkpoint_frame_id b + 2 <= f) (acks_for_next_packet b).

(** The room needed by all of the feedback when the last ACK is less than
    [8 * (2 + 4 * m)] frames after the first that can be encoded. *)
Definition feedback_fits (b : CompoundRtcpBuilder) (m space : Z) : Prop :=
  zlen (expected_nacks b) <= 255 /\ 0 <= m /\ 2 + 4 * m <= 254
  /\ 20 + 4 * zlen (expected_nacks b) + 8 + 4 * m <= space
  /\ Forall (fun f => f < checkpoint_frame_id b + 2 + 8 * (2 + 4 * m)) (acks_for_next_packet b).

Lemma prefix_filter {A} (P : A -> Prop) `{!forall x, Decision (P x)} (l k : list A) :
  l `prefix_of` k -> filter P l `prefix_of` filter P k.
Proof. intros [r ->]. rewrite filter_app. by apply prefix_app_r. Qed.

Lemma StronglySorted_prefix {A} (R : A -> A -> Prop) l k :
  l `prefix_of` k -> StronglySorted R k -> StronglySorted R l.
Proof.
  intros [r ->]. induction l as [| x l IH]; intros Hs; [constructor |].
  inversion Hs as [| ? ? Hs' Hx]; subst. apply Forall_app in Hx as [Hx _]. constructor; auto.
Qed.

(** The ACK part, in both cases. *)
Lemma AppendCastFeedbackAckFields_spec2 b buffer :
  StronglySorted Z.lt (acks_for_next_packet b) ->
  Forall (fun f => is_s 32 (f - (checkpoint_frame_id b + 2))) (acks_for_next_packet b) ->
  exists tail acks b',
    AppendCastFeedbackAckFields b buffer
    = Ret (b', mkBuffer (written buffer ++ tail) (room buffer - zlen tail))
    /\ (b' = b \/ b' = b <| acks_for_next_packet := [] |>)
    /\ (tail = [] \/ zlen tail <= room buffer) /\ zlen tail <= 260 /\ zlen tail mod 4 = 0
    /\ acks `prefix_of` expected_acks b
    /\ (forall m, 0 <= m -> 2 + 4 * m <= 254 -> 8 + 4 * m <= room buffer ->
          Forall (fun f => f < checkpoint_frame_id b + 2 + 8 * (2 + 4 * m)) (acks_for_next_packet b) ->
          acks = expected_acks b)
    /\ ParseCst2 (checkpoint_frame_id b) tail [] = Ret (Some acks).
Proof.
  intros Hs Hacks. destruct (decide (room buffer < 8)) as [Hroom | Hroom].
  - exists [], [], b. rewrite AppendCastFeedbackAckFields_no_room by done.
    split; [rewrite app_nil_r, zlen_nil, Z.sub_0_r; by destruct buffer |].
    split; [by left |]. split; [by left |]. split; [done |]. split; [done |].
    split; [apply prefix_nil |]. split; [intros; lia | done].
  - destruct (AppendCastFeedbackAckFields_spec b buffer ltac:(lia) Hacks)
      as (octets & taken & -> & Hw).
    destruct Hw as (Hok & Hlen & Hsp & H4 & H254 & Hpre & Hfr & Hall).
    change (zlen [0; 0]) with 2 in *. specialize (H254 ltac:(lia)).
    assert (zlen (cst2 (feedback_count b) octets) = 6 + zlen octets) as Hz.
    { unfold cst2. autorewrite with zlen. lia. }
    exists (cst2 (feedback_count b) octets), (filter (fun f => checkpoint_frame_id b + 2 <= f) taken),
      (b <| acks_for_next_packet := [] |>).
    rewrite Hz. split; [done |]. split; [by right |]. split; [right; lia |]. split; [lia |].
    split; [Z.div_mod_to_equations; lia |]. split; [by apply prefix_filter |]. split.
    + intros m Hm1 Hm2 Hm3 Hf. unfold expected_acks. f_equal. apply (Hall m); lia || done.
    + rewrite ParseCst2_cst2 by done. do 2 f_equal.
      apply StronglySorted_lt_ext; [apply frames_of_sorted | |].
      * apply StronglySorted_filter. by eapply StronglySorted_prefix.
      * intros x. rewrite Hfr, list_elem_of_filter.
        assert (x ∈ frames_of (checkpoint_frame_id b + 2) [0; 0] <-> False) as ->; [| tauto].
        rewrite (frames_of_grow _ [] 2 x). simpl. by rewrite elem_of_nil.
Qed.

Definition feedback_payload (s : RtcpSession) (checkpoint num_loss_fields delay : Z)
    (tail : list Z) : list Z :=
  be_encode 4 (receiver_ssrc s) ++ be_encode 4 (sender_ssrc s)
  ++ be_encode 4 kRtcpCastIdentifierWord
  ++ be_encode 1 checkpoint ++ be_encode 1 num_loss_fields ++ be_encode 2 delay ++ tail.

Definition same_session (rs ss : RtcpSession) : Prop :=
  receiver_ssrc ss = receiver_ssrc rs /\ sender_ssrc ss = sender_ssrc rs
  /\ is_u 32 (receiver_ssrc rs) /\ is_u 32 (sender_ssrc rs).

Definition with_feedback (b : CompoundRtcpBuilder) (nacks : list PacketNack) (acks : list Z)
    (r : ParseResults) : ParseResults :=
  r <| feedback_checkpoint := checkpoint_frame_id b |>
    <| target_playout_delay := playout_delay b |>
    <| received_frames := acks |> <| packet_nacks := nacks |>.

Lemma ParseFeedback_payload rs ss b (k : nat) fields tail nacks acks max r :
  same_session rs ss -> -1 <= max -> max - 256 < checkpoint_frame_id b <= max ->
  0 < playout_delay b <= 65535 -> Z.of_nat k <= 255 -> zlen fields = 4 * Z.of_nat k ->
  nack_fields_loop k (checkpoint_frame_id b) (fields ++ tail) [] = Ret (nacks, tail) ->
  ParseCst2 (checkpoint_frame_id b) tail [] = Ret (Some acks) ->
  feedback_checkpoint r = null_frame_id ->
  ParseFeedback ss
    (feedback_payload rs (checkpoint_frame_id b) (Z.of_nat k) (playout_delay b) (fields ++ tail))
    max r = Ret (true, with_feedback b nacks acks r).
Proof.
  intros (Hrs & Hss & Hur & Hus) Hmax Hcp Hdelay Hk Hz Hn Ha Hnull.
  unfold ParseFeedback, feedback_payload, kRtcpFeedbackHeaderSize, kRtcpFeedbackLossFieldSize.
  assert (is_null max = false) as ->. { unfold is_null, null_frame_id, INT64_MIN. lia. }
  cbn [negb]. rewrite OSP_CHECK_true by done. cbn [mbind outcome_bind].
  pose proof (zlen_nonneg fields). pose proof (zlen_nonneg tail).
  rewrite (proj2 (Z.ltb_ge _ _)) by (rewrite !zlen_app, !zlen_be_encode; lia).
  rewrite ConsumeField_encode. cbn [mbind outcome_bind]. change (8 * Z.of_nat 4) with 32.
  rewrite wrap_small, Hrs, Z.eqb_refl by done. cbn [negb].
  rewrite ConsumeField_encode. cbn [mbind outcome_bind]. change (8 * Z.of_nat 4) with 32.
  rewrite wrap_small, Hss, Z.eqb_refl by done. cbn [negb].
  rewrite ConsumeField_encode. cbn [mbind outcome_bind].
  change (wrap (8 * Z.of_nat 4) kRtcpCastIdentifierWord =? kRtcpCastIdentifierWord) with true.
  cbn [negb]. do 3 (rewrite ConsumeField_encode; cbn [mbind outcome_bind]).
  change (8 * Z.of_nat 1) with 8. change (8 * Z.of_nat 2) with 16.
  rewrite ExpandLessThanOrEqual_recovers by lia.
  rewrite (wrap_small 8 (Z.of_nat k)), (wrap_small 16 (playout_delay b)) by (unfold is_u; lia).
  rewrite Hnull. change (is_null null_frame_id) with true. cbn [negb andb].
  rewrite (proj2 (Z.ltb_ge _ _)) by (rewrite zlen_app; lia).
  rewrite Nat2Z.id, Hn. cbn [mbind outcome_bind]. rewrite Ha. done.
Qed.

(** A packet of the compound: header and payload. *)
Definition chunk (h : RtcpCommonHeader) (payload : list Z) : list Z := header_encode h ++ payload.
Definition chunk_wf (h : RtcpCommonHeader) (payload : list Z) : Prop :=
  header_wf h /\ zlen payload = payload_size h.

Lemma kept_before_lt l : StronglySorted kept_before l -> StronglySorted nack_lt l.
Proof.
  intros Hs. apply (StronglySorted_impl _ _ _ Hs). intros a b. rewrite nack_lt_iff.
  unfold kept_before. lia.
Qed.

Lemma be_encode_lower_8 v : be_encode 1 (lower_8_bits v) = be_encode 1 v.
Proof. apply (be_encode_wrap 1). Qed.

Lemma length_header_encode h : length (header_encode h) = 4%nat.
Proof. pose proof (zlen_header_encode h). unfold zlen in *. lia. Qed.

(** Filling in the two reserved spaces. *)
Lemma feedback_bytes pre hdr r s c cp nl d f t :
  length hdr = 4%nat -> length nl = 1%nat ->
  fill (zlen pre) hdr
    (fill (zlen (((((pre ++ [0; 0; 0; 0]) ++ r) ++ s) ++ c) ++ cp)) nl
      ((((((((pre ++ [0; 0; 0; 0]) ++ r) ++ s) ++ c) ++ cp) ++ [0]) ++ d) ++ f) ++ t)
  = pre ++ hdr ++ r ++ s ++ c ++ cp ++ nl ++ d ++ f ++ t.
Proof.
  intros Hh Hn. set (q := ((((pre ++ [0; 0; 0; 0]) ++ r) ++ s) ++ c) ++ cp).
  replace (((q ++ [0]) ++ d) ++ f) with (q ++ [0] ++ (d ++ f)) by (by rewrite <- !app_assoc).
  rewrite fill_reserved by done. unfold q. rewrite <- !app_assoc.
  by rewrite fill_reserved.
Qed.

(** What building a feedback packet leaves of the builder. *)
Definition same_but_feedback (b b' : CompoundRtcpBuilder) : Prop :=
  checkpoint_frame_id b' = checkpoint_frame_id b /\ playout_delay b' = playout_delay b
  /\ receiver_report_for_next_packet b' = receiver_report_for_next_packet b
  /\ picture_loss_indicator b' = picture_loss_indicator b
  /\ logs_for_next_packet b' = logs_for_next_packet b.

Lemma AppendCastFeedbackPacket_spec rs b buffer :
  feedback_wf b -> 20 <= room buffer ->
  exists h payload nacks acks b',
    AppendCastFeedbackPacket rs b buffer
    = Ret (b', mkBuffer (written buffer ++ chunk h payload) (room buffer - zlen (chunk h payload)))
    /\ chunk_wf h payload /\ packet_type h = PayloadSpecific /\ subtype h = Feedback
    /\ zlen (chunk h payload) <= Z.min (room buffer) 1300
    /\ same_but_feedback b b'
    /\ nacks `prefix_of` expected_nacks b /\ acks `prefix_of` expected_acks b
    /\ (forall m, feedback_fits b m (room buffer) ->
          nacks = expected_nacks b /\ acks = expected_acks b)
    /\ forall ss max r, same_session rs ss -> -1 <= max -> max - 256 < checkpoint_frame_id b <= max ->
         feedback_checkpoint r = null_frame_id ->
         ParseFeedback ss payload max r = Ret (true, with_feedback b nacks acks r).
Proof.
  intros (Hdelay & Hkept & Hnok & Hnf & Has & Har) Hroom. pose proof (kept_before_lt _ Hkept) as Hns.
  unfold AppendCastFeedbackPacket, kRtcpCommonHeaderSize.
  rewrite ReserveSpace_ok by lia. cbn [mbind outcome_bind written room].
  do 3 (rewrite AppendField_ok by (cbn [room]; change (Z.of_nat 4) with 4; lia);
        cbn [mbind outcome_bind written room]).
  rewrite AppendField_ok by (cbn [room]; change (Z.of_nat 4) with 4; change (Z.of_nat 1) with 1; lia).
  cbn [mbind outcome_bind written room].
  rewrite ReserveSpace_ok by (cbn [room]; change (Z.of_nat 4) with 4; change (Z.of_nat 1) with 1; lia).
  cbn [mbind outcome_bind written room].
  rewrite OSP_CHECK_ltb, OSP_CHECK_leb by lia. cbn [mbind outcome_bind].
  rewrite AppendField_ok
    by (cbn [room]; change (Z.of_nat 4) with 4; change (Z.of_nat 1) with 1; change (Z.of_nat 2) with 2; lia).
  cbn [mbind outcome_bind written room].
  change (Z.of_nat 4) with 4; change (Z.of_nat 1) with 1; change (Z.of_nat 2) with 2.
  change (replicate (Z.to_nat 4) 0) with [0; 0; 0; 0]. change (replicate (Z.to_nat 1) 0) with [0].
  replace (room buffer - 4 - 4 - 4 - 4 - 1 - 1 - 2) with (room buffer - 20) by lia.
  edestruct (AppendCastFeedbackLossFields_spec b) as
    (k & fields & nacks & Hloss & Hzf & Hk & Hkn & Hkr & Hnp & Hnall & Hnparse);
    [done.. | | rewrite Hloss].
  { cbn [room]. lia. }
  cbn [mbind outcome_bind written room] in *. rewrite OSP_CHECK_leb by lia.
  cbn [mbind outcome_bind].
  set (b1 := b <| nacks_for_next_packet := [] |>).
  edestruct (AppendCastFeedbackAckFields_spec2 b1) as
    (tail & acks & b2 & Hack & Hb2 & Htr & Htail & Ht4 & Hap & Haall & Haparse);
    [done | done | rewrite Hack].
  change (expected_acks b1) with (expected_acks b) in *.
  change (checkpoint_frame_id b1) with (checkpoint_frame_id b) in *.
  change (acks_for_next_packet b1) with (acks_for_next_packet b) in *.
  unfold fill_at in *. cbn [mbind outcome_bind written room update] in *.
  set (payload := feedback_payload rs (checkpoint_frame_id b) (Z.of_nat k) (playout_delay b)
                    (fields ++ tail)).
  pose proof (zlen_nonneg tail) as Htail0.
  assert (zlen payload = 16 + 4 * Z.of_nat k + zlen tail) as Hzp.
  { unfold payload, feedback_payload. autorewrite with zlen. lia. }
  set (h := mkHeader PayloadSpecific 15 (zlen payload)).
  assert (header_wf h) as Hwf.
  { split; [simpl; lia |]. split; [simpl; rewrite Hzp; Z.div_mod_to_equations; lia |].
    simpl. rewrite !elem_of_cons. tauto. }
  replace (room buffer - 4 - (room buffer - 20 - 4 * Z.of_nat k - zlen tail))
    with (zlen payload) by lia.
  change (RtcpSubtype_value Feedback) with 15. change (mkHeader PayloadSpecific 15 (zlen payload)) with h.
  rewrite (header_AppendFields_ok h _ Hwf) by (simpl; lia). cbn [mbind outcome_bind].
  exists h, payload, nacks, acks. eexists. split; [f_equal; f_equal |].
  { rewrite be_encode_lower_8, feedback_bytes by
      (rewrite ?length_be_encode; done || apply length_header_encode).
    unfold chunk, payload, feedback_payload, new_buffer. cbn [written room]. f_equal.
    rewrite zlen_app, zlen_header_encode.
    fold (feedback_payload rs
      (checkpoint_frame_id b) (Z.of_nat k) (playout_delay b) (fields ++ tail)).
    fold payload. lia. }
  split; [by split |]. split; [done |]. split; [done |].
  split; [unfold chunk; rewrite zlen_app, zlen_header_encode; destruct Htr as [-> |]; [rewrite zlen_nil in *|]; lia |].
  split; [by destruct Hb2 as [-> | ->] |].
  split; [done |]. split; [done |]. split.
  - intros m (H255 & Hm & Hm254 & Hsp & Hall). unfold expected_nacks in *.
    pose proof (zlen_nonneg (expected_nacks b)).
    assert (Z.of_nat k <= zlen (expected_nacks b)) by (unfold zlen, expected_nacks; lia).
    unfold expected_nacks in *.
    split; [apply Hnall; lia | apply (Haall m); lia || done].
  - intros ss max r Hses Hmax Hcp Hnull. by apply (ParseFeedback_payload rs ss b k).
Qed.

(** * The other packets *)

Ltac append_step :=
  rewrite AppendField_ok
    by (cbn [room]; change (Z.of_nat 4) with 4; change (Z.of_nat 1) with 1;
        change (Z.of_nat 2) with 2; change (Z.of_nat 8) with 8; lia);
  cbn [mbind outcome_bind written room].

Definition report_wf (b : CompoundRtcpBuilder) : Prop :=
  match receiver_report_for_next_packet b with Some r => report_block_wf r | None => True end.

(** The report the sender accepts: the receiver's, if it is about this sender. *)
Definition expected_report (ss : RtcpSession) (b : CompoundRtcpBuilder) : option RtcpReportBlock :=
  match receiver_report_for_next_packet b with
  | Some r => if ssrc r =? sender_ssrc ss then Some r else None
  | None => None
  end.

Lemma AppendReceiverReportPacket_spec rs b buffer :
  report_wf b -> 32 <= room buffer ->
  exists h payload,
    AppendReceiverReportPacket rs b buffer
    = Ret (b <| receiver_report_for_next_packet := None |>,
           mkBuffer (written buffer ++ chunk h payload) (room buffer - zlen (chunk h payload)))
    /\ chunk_wf h payload /\ packet_type h = ReceiverReport
    /\ zlen (chunk h payload) <= 32
    /\ be_encode 4 (receiver_ssrc rs) `prefix_of` payload
    /\ forall ss r, same_session rs ss ->
         ParseReceiverReport ss payload (report_count h) r
         = Ret (true, r <| receiver_report := expected_report ss b |>).
Proof.
  intros Hwf Hroom. unfold AppendReceiverReportPacket, report_wf, expected_report in *.
  unfold kRtcpReceiverReportSize, kRtcpReportBlockSize.
  destruct (receiver_report_for_next_packet b) as [blk |] eqn:Hb.
  - exists (mkHeader ReceiverReport 1 28), (be_encode 4 (receiver_ssrc rs) ++ report_block_encode blk).
    assert (chunk_wf (mkHeader ReceiverReport 1 28)
      (be_encode 4 (receiver_ssrc rs) ++ report_block_encode blk)) as Hch.
    { split; [by split_and! |]. simpl. by rewrite zlen_app, zlen_be_encode, zlen_report_block_encode. }
    rewrite header_AppendFields_ok by (apply Hch || lia). cbn [mbind outcome_bind written room].
    append_step. rewrite report_block_AppendFields_ok by (done || (cbn [room]; change (Z.of_nat 4) with 4; lia)).
    cbn [mbind outcome_bind written room].
    assert (zlen (chunk (mkHeader ReceiverReport 1 28)
      (be_encode 4 (receiver_ssrc rs) ++ report_block_encode blk)) = 32) as Hz.
    { unfold chunk. by rewrite !zlen_app, zlen_header_encode, zlen_be_encode, zlen_report_block_encode. }
    rewrite Hz. split; [f_equal; f_equal; unfold chunk; rewrite <- !app_assoc; f_equal; lia |].
    split; [done |]. split; [done |]. split; [done |].
    split; [by apply prefix_app_r |].
    intros ss r (Hrs & Hss & Hur & Hus). unfold ParseReceiverReport, kRtcpReceiverReportSize.
    rewrite (proj2 (Z.ltb_ge _ _))
      by (rewrite zlen_app, zlen_be_encode, zlen_report_block_encode; done).
    read_field. change (8 * Z.of_nat 4) with 32. rewrite wrap_small, Hrs, Z.eqb_refl by done.
    pose proof (ParseOne_encode [blk] [] (sender_ssrc ss) ltac:(by constructor)) as Hp.
    simpl in Hp. rewrite !app_nil_r in Hp. change (zlen [blk]) with 1 in Hp.
    unfold report_count. simpl. rewrite Hp. done.
  - exists (mkHeader ReceiverReport 0 4), (be_encode 4 (receiver_ssrc rs)).
    assert (chunk_wf (mkHeader ReceiverReport 0 4) (be_encode 4 (receiver_ssrc rs))) as Hch.
    { split; [by split_and! |]. simpl. by rewrite zlen_be_encode. }
    rewrite header_AppendFields_ok by (apply Hch || lia). cbn [mbind outcome_bind written room].
    append_step.
    assert (zlen (chunk (mkHeader ReceiverReport 0 4) (be_encode 4 (receiver_ssrc rs))) = 8) as Hz.
    { unfold chunk. by rewrite !zlen_app, zlen_header_encode, zlen_be_encode. }
    rewrite Hz. split.
    { f_equal. f_equal; [destruct b; simpl in *; by subst |].
      unfold chunk. rewrite <- !app_assoc. f_equal. lia. }
    split; [done |]. split; [done |]. split; [done |]. split; [done |].
    intros ss r (Hrs & Hss & Hur & Hus). unfold ParseReceiverReport, kRtcpReceiverReportSize.
    rewrite (proj2 (Z.ltb_ge _ _)) by (by rewrite zlen_be_encode).
    pose proof (ConsumeField_encode 4 (receiver_ssrc rs) []) as Hc. rewrite app_nil_r in Hc.
    rewrite Hc. simpl. change (8 * Z.of_nat 4) with 32. rewrite wrap_small, Hrs, Z.eqb_refl by done.
    done.
Qed.

Definition received_time (rs ss : RtcpSession) (send_time : Z) : Z :=
  ToLocalTime (ntp_converter ss) (ToNtpTimestamp (ntp_converter rs) send_time).

Lemma AppendReferenceTime_spec rs send_time buffer :
  20 <= room buffer ->
  exists h payload,
    AppendReceiverReferenceTimeReportPacket rs send_time buffer
    = Ret (mkBuffer (written buffer ++ chunk h payload) (room buffer - zlen (chunk h payload)))
    /\ chunk_wf h payload /\ packet_type h = ExtendedReports /\ zlen (chunk h payload) = 20
    /\ forall ss r, same_session rs ss ->
         ParseExtendedReports ss payload r
         = Ret (true, r <| receiver_reference_time := received_time rs ss send_time |>).
Proof.
  intros Hroom. unfold AppendReceiverReferenceTimeReportPacket.
  change (kRtcpExtendedReportHeaderSize + kRtcpExtendedReportBlockHeaderSize
          + kRtcpReceiverReferenceTimeReportBlockSize) with 16.
  change (kRtcpReceiverReferenceTimeReportBlockSize / 4) with 2.
  set (ntp := ToNtpTimestamp (ntp_converter rs) send_time).
  set (h := mkHeader ExtendedReports 0 16).
  set (rest := be_encode 1 4 ++ be_encode 1 0 ++ be_encode 2 2 ++ be_encode 8 ntp).
  exists h, (be_encode 4 (receiver_ssrc rs) ++ rest).
  assert (chunk_wf h (be_encode 4 (receiver_ssrc rs) ++ rest)) as Hch.
  { split; [by split_and! |]. unfold rest. by autorewrite with zlen. }
  assert (zlen (chunk h (be_encode 4 (receiver_ssrc rs) ++ rest)) = 20) as Hz.
  { unfold chunk. rewrite zlen_app, zlen_header_encode. destruct Hch as [_ ->]. done. }
  rewrite header_AppendFields_ok by (apply Hch || lia). cbn [mbind outcome_bind written room].
  do 5 append_step. rewrite Hz. split; [| split; [done | split; [done | split; [done |]]]].
  { f_equal. f_equal; [| lia]. unfold chunk, rest. by rewrite <- !app_assoc. }
  intros ss r (Hrs & Hss & Hur & Hus). unfold ParseExtendedReports, kRtcpExtendedReportHeaderSize.
  rewrite (proj2 (Z.ltb_ge _ _)) by (unfold rest; by autorewrite with zlen).
  rewrite ConsumeField_encode. cbn [mbind outcome_bind]. change (8 * Z.of_nat 4) with 32.
  rewrite wrap_small, Hrs, Z.eqb_refl by done. cbn [negb].
  assert (ParseExtendedReports_loop (length rest) ss rest (receiver_reference_time r)
          = Ret (Some (received_time rs ss send_time))) as ->; [| done].
  clear Hch Hz. subst rest. rewrite length_app, length_be_encode. cbn [Nat.add].
  destruct (be_encode 1 4 ++ be_encode 1 0 ++ be_encode 2 2 ++ be_encode 8 ntp) as [| x l] eqn:Hx.
  { apply (f_equal length) in Hx. rewrite !length_app, !length_be_encode in Hx. done. }
  cbn [ParseExtendedReports_loop]. rewrite <- Hx. clear x l Hx.
  unfold kRtcpExtendedReportBlockHeaderSize.
  rewrite (proj2 (Z.ltb_ge _ _)) by (by autorewrite with zlen).
  rewrite ConsumeField_encode. cbn [mbind outcome_bind].
  pose proof (subspan_app (be_encode 1 0) (be_encode 2 2 ++ be_encode 8 ntp)) as Hsub.
  rewrite zlen_be_encode in Hsub. change (Z.of_nat 1) with 1 in Hsub. rewrite Hsub.
  cbn [mbind outcome_bind]. rewrite ConsumeField_encode. cbn [mbind outcome_bind].
  change (wrap (8 * Z.of_nat 2) 2 * 4) with 8. change (wrap (8 * Z.of_nat 1) 4) with 4.
  rewrite zlen_be_encode. change (Z.of_nat 8 <? 8) with false. cbn [negb andb Z.eqb].
  change (4 =? kRtcpReceiverReferenceTimeReportBlockType) with true. cbn [negb andb].
  change (8 =? 8) with true. cbn [negb].
  pose proof (ConsumeField_encode 8 ntp []) as Hc. rewrite app_nil_r in Hc. rewrite Hc.
  cbn [mbind outcome_bind]. change (8 * Z.of_nat 8) with 64.
  rewrite (wrap_small 64) by apply ToNtpTimestamp_is_u64.
  pose proof (subspan_app (be_encode 8 ntp) []) as Hs8.
  rewrite app_nil_r, zlen_be_encode in Hs8. change (Z.of_nat 8) with 8 in Hs8. rewrite Hs8.
  match goal with |- context [ParseExtendedReports_loop ?n] => by destruct n end.
Qed.

Lemma AppendPictureLossIndicator_spec rs buffer :
  12 <= room buffer ->
  exists h payload,
    AppendPictureLossIndicatorPacket rs buffer
    = Ret (mkBuffer (written buffer ++ chunk h payload) (room buffer - zlen (chunk h payload)))
    /\ chunk_wf h payload /\ packet_type h = PayloadSpecific /\ subtype h = PictureLossIndicator
    /\ zlen (chunk h payload) = 12
    /\ forall ss r, same_session rs ss ->
         ParsePictureLossIndicator ss payload r = Ret (true, r <| picture_loss := true |>).
Proof.
  intros Hroom. unfold AppendPictureLossIndicatorPacket, kRtcpPictureLossIndicatorHeaderSize.
  change (RtcpSubtype_value PictureLossIndicator) with 1.
  set (h := mkHeader PayloadSpecific 1 8).
  exists h, (be_encode 4 (receiver_ssrc rs) ++ be_encode 4 (sender_ssrc rs)).
  assert (chunk_wf h (be_encode 4 (receiver_ssrc rs) ++ be_encode 4 (sender_ssrc rs))) as Hch.
  { split; [| by autorewrite with zlen]. split; [done |]. split; [done |].
    simpl. rewrite !elem_of_cons. tauto. }
  assert (zlen (chunk h (be_encode 4 (receiver_ssrc rs) ++ be_encode 4 (sender_ssrc rs))) = 12) as Hz.
  { unfold chunk. rewrite zlen_app, zlen_header_encode. destruct Hch as [_ ->]. done. }
  rewrite header_AppendFields_ok by (apply Hch || lia). cbn [mbind outcome_bind written room].
  do 2 append_step. rewrite Hz. split.
  { f_equal. f_equal; [| lia]. unfold chunk. by rewrite <- !app_assoc. }
  do 4 (split; [done |]).
  intros ss r (Hrs & Hss & Hur & Hus). unfold ParsePictureLossIndicator, kRtcpPictureLossIndicatorHeaderSize.
  rewrite (proj2 (Z.ltb_ge _ _)) by (by autorewrite with zlen).
  rewrite ConsumeField_encode. cbn [mbind outcome_bind]. change (8 * Z.of_nat 4) with 32.
  rewrite wrap_small, Hrs, Z.eqb_refl by done. cbn [negb].
  pose proof (ConsumeField_encode 4 (sender_ssrc rs) []) as Hc. rewrite app_nil_r in Hc. rewrite Hc.
  cbn [mbind outcome_bind]. change (8 * Z.of_nat 4) with 32.
  by rewrite wrap_small, Hss, Z.eqb_refl by done.
Qed.

(** * The whole compound *)

Lemma keep_nacks_id kept l :
  StronglySorted kept_before (kept :: l) -> keep_nacks kept l = kept :: l.
Proof.
  revert kept. induction l as [| have l IH]; intros kept Hs; [done |].
  inversion Hs as [| ? ? Hs' Hk]; subst. apply Forall_cons in Hk as [Hk _].
  cbn [keep_nacks].
  assert (negb (nack_frame_id have =? nack_frame_id kept)
     || (negb (nack_packet_id kept =? kAllPacketsLost)
         && negb (nack_packet_id have =? nack_packet_id kept)) = true) as ->.
  { unfold kept_before in Hk. lia. }
  by rewrite IH.
Qed.

(** A list that is already canonical is delivered unchanged. *)
Lemma Canonicalize_id l :
  Forall nack_ok l -> StronglySorted kept_before l -> CanonicalizePacketNackVector l = l.
Proof.
  intros Hok Hs. unfold CanonicalizePacketNackVector.
  assert (merge_sort nack_sort_le l = l) as ->.
  { apply (StronglySorted_unique_strong nack_sort_le).
    - intros [f1 i1] [f2 i2] H1 H2 Hle1 Hle2.
      rewrite Forall_forall in Hok.
      rewrite merge_sort_Permutation in H1.
      apply nack_sort_le_iff in Hle1, Hle2; [| by apply Hok ..].
      pose proof (Hok _ H1) as Ho1. pose proof (Hok _ H2) as Ho2.
      unfold sort_key, nack_ok, is_u, kAllPacketsLost in *. simpl in *.
      f_equal; [lia |]. destruct (Z.eqb_spec i1 0xffff), (Z.eqb_spec i2 0xffff); lia.
    - apply StronglySorted_merge_sort; apply _.
    - apply Sorted_StronglySorted; [apply _ |]. clear - Hok Hs.
      induction Hs as [| x l Hs IH Hx]; [constructor |].
      apply Forall_cons in Hok as [Hxo Hok]. constructor; [auto |].
      destruct l as [| y l]; constructor. apply Forall_cons in Hok as [Hyo _].
      apply Forall_cons in Hx as [Hxy _]. apply nack_sort_le_iff; [done | done |].
      unfold kept_before, sort_key in *.
      destruct (Z.eqb_spec (nack_packet_id x) kAllPacketsLost),
        (Z.eqb_spec (nack_packet_id y) kAllPacketsLost); lia.
    - apply merge_sort_Permutation. }
  destruct l; [done |]. by apply keep_nacks_id.
Qed.

Lemma Parse_loop_chunk fuel ss max h payload rest p r :
  chunk_wf h payload -> (length (chunk h payload ++ rest) <= fuel)%nat ->
  exists fuel', (length rest <= fuel')%nat /\
    Parse_loop fuel ss max (chunk h payload ++ rest) p r
    = '(ok, p, r) ← ParseChunk ss max h payload p r;
      if ok : bool then Parse_loop fuel' ss max rest p r else Ret (false, p, r).
Proof.
  intros [Hwf Hlen] Hf. unfold chunk in *.
  pose proof (NextChunk_encode h payload rest Hwf Hlen) as Hn. rewrite app_assoc in Hn.
  rewrite !length_app, length_header_encode in Hf.
  destruct ((header_encode h ++ payload) ++ rest) as [| x l] eqn:Hx.
  { apply (f_equal length) in Hx. rewrite !length_app, length_header_encode in Hx. done. }
  destruct fuel as [| fuel]; [simpl in Hf; lia |].
  exists fuel. split; [lia |]. cbn [Parse_loop]. by rewrite Hn.
Qed.

(** The events of one feedback packet. *)
Definition feedback_events (ss : RtcpSession) (b : CompoundRtcpBuilder) (t : Z)
    (nacks : list PacketNack) (acks : list Z) : list ClientEvent :=
  [OnReceiverReferenceTimeAdvanced t]
  ++ match expected_report ss b with Some r => [OnReceiverReport r] | None => [] end
  ++ [OnReceiverCheckpoint (checkpoint_frame_id b) (playout_delay b)]
  ++ match acks with [] => [] | _ => [OnReceiverHasFrames acks] end
  ++ match nacks with [] => [] | _ => [OnReceiverIsMissingPackets nacks] end
  ++ if picture_loss_indicator b then [OnReceiverIndicatesPictureLoss] else [].

Definition feedback_results (ss : RtcpSession) (b : CompoundRtcpBuilder) (t : Z)
    (nacks : list PacketNack) (acks : list Z) : ParseResults :=
  mkResults t (expected_report ss b) [] (checkpoint_frame_id b) (playout_delay b) acks nacks
    (picture_loss_indicator b).

(** The optional picture loss indicator. *)
Lemma picture_loss_optional rs b buffer :
  12 <= room buffer ->
  exists cs,
    (if picture_loss_indicator b then AppendPictureLossIndicatorPacket rs buffer else Ret buffer)
    = Ret (mkBuffer (written buffer ++ concat (map (fun c => chunk c.1 c.2) cs))
             (room buffer - zlen (concat (map (fun c => chunk c.1 c.2) cs))))
    /\ Forall (fun c => chunk_wf c.1 c.2) cs
    /\ zlen (concat (map (fun c => chunk c.1 c.2) cs)) <= 12
    /\ forall ss max p r fuel rest, same_session rs ss ->
         (length (concat (map (fun c => chunk c.1 c.2) cs) ++ rest) <= fuel)%nat ->
         exists fuel', (length rest <= fuel')%nat /\
           Parse_loop fuel ss max (concat (map (fun c => chunk c.1 c.2) cs) ++ rest) p r
           = Parse_loop fuel' ss max rest p
               (if picture_loss_indicator b then r <| picture_loss := true |> else r).
Proof.
  intros Hroom. destruct (picture_loss_indicator b).
  - destruct (AppendPictureLossIndicator_spec rs buffer Hroom)
      as (h & pl & -> & Hw & Ht & Hs & Hl & Hp).
    exists [(h, pl)]. cbn [map concat fst snd]. rewrite app_nil_r.
    split; [done |]. split; [by constructor |]. split; [lia |].
    intros ss max p r fuel rest Hses Hf.
    destruct (Parse_loop_chunk fuel ss max h pl rest p r Hw Hf) as (fuel' & Hf' & ->).
    exists fuel'. split; [done |]. unfold ParseChunk at 1. by rewrite Ht, Hs, Hp.
  - exists []. cbn [map concat]. rewrite app_nil_r, zlen_nil, Z.sub_0_r. split; [by destruct buffer |].
    split; [constructor |]. split; [done |]. intros ss max p r fuel rest _ Hf. by exists fuel.
Qed.

(** The packets before the log, and what parsing them yields.  The first starts
    with the header of a receiver report and the receiver's SSRC. *)
Lemma BuildPacket_prefix rs b size send_time :
  feedback_wf b -> report_wf b -> 256 <= size ->
  exists b' chunks nacks acks,
    let written := concat (map (fun c => chunk c.1 c.2) chunks) in
    BuildPacket rs send_time b (new_buffer size)
    = ('(b, buffer) ← AppendReceiverLogPacket rs b' (mkBuffer written (size - zlen written));
       Ret (b, Wire.written buffer))
    /\ Forall (fun c => chunk_wf c.1 c.2) chunks
    /\ (exists h payload cs, chunks = (h, be_encode 4 (receiver_ssrc rs) ++ payload) :: cs
          /\ packet_type h = ReceiverReport)
    /\ zlen written <= Z.min size 1364
    /\ same_but_feedback (b <| receiver_report_for_next_packet := None |>) b'
    /\ nacks `prefix_of` expected_nacks b /\ acks `prefix_of` expected_acks b
    /\ (forall m, feedback_fits b m (size - 64) -> nacks = expected_nacks b /\ acks = expected_acks b)
    /\ forall ss max p fuel, same_session rs ss -> -1 <= max ->
         max - 256 < checkpoint_frame_id b <= max -> (length written <= fuel)%nat ->
         Parse_loop fuel ss max written p no_results
         = Ret (true, p, feedback_results ss b (received_time rs ss send_time) nacks acks).
Proof.
  intros Hwf Hrep Hsize. unfold BuildPacket, kRequiredBufferSize.
  rewrite OSP_CHECK_leb by (simpl; lia). cbn [mbind outcome_bind].
  destruct (AppendReceiverReportPacket_spec rs b (new_buffer size) Hrep)
    as (h1 & p1 & -> & Hw1 & Ht1 & Hl1 & [p1' ->] & Hp1); [simpl; lia |].
  set (p1 := be_encode 4 (receiver_ssrc rs) ++ p1') in *.
  cbn [mbind outcome_bind written room new_buffer].
  set (b1 := b <| receiver_report_for_next_packet := None |>).
  edestruct (AppendReferenceTime_spec rs send_time)
    as (h2 & p2 & Heq2 & Hw2 & Ht2 & Hl2 & Hp2); [| rewrite Heq2; clear Heq2]; [cbn [room]; lia |].
  cbn [mbind outcome_bind written room].
  change (picture_loss_indicator b1) with (picture_loss_indicator b).
  edestruct (picture_loss_optional rs b) as (cs & Heq3 & Hw3 & Hl3 & Hp3);
    [| rewrite Heq3; clear Heq3]; [cbn [room]; lia |].
  cbn [mbind outcome_bind written room].
  edestruct (AppendCastFeedbackPacket_spec rs b1)
    as (h4 & p4 & nacks & acks & b2 & Heq4 & Hw4 & Ht4 & Hs4 & Hl4 & Hsame & Hn & Ha & Hall & Hp4);
    [done | | rewrite Heq4; clear Heq4]; [cbn [room]; lia |].
  cbn [mbind outcome_bind written room] in *.
  exists b2, ([(h1, p1); (h2, p2)] ++ cs ++ [(h4, p4)]), nacks, acks. cbv zeta.
  rewrite !map_app, !concat_app. cbn [map concat fst snd].
  split; [do 3 f_equal; [rewrite !app_nil_r, <- !app_assoc; done | autorewrite with zlen; lia] |].
  split; [repeat (apply Forall_app_2 || apply Forall_cons_2 || apply Forall_nil_2); done |].
  split; [by eexists _, _, _ |].
  split; [autorewrite with zlen; lia |]. split; [done |]. split; [done |]. split; [done |].
  split.
  { intros m (F1 & F2 & F3 & F4 & F5). apply (Hall m). split; [exact F1 |]. do 2 (split; [done |]).
    split; [| exact F5]. cbn [room]. change (expected_nacks b1) with (expected_nacks b). lia. }
  intros ss max p fuel Hses Hmax Hcp Hfuel.
  rewrite !app_nil_r, <- !app_assoc in *.
  destruct (Parse_loop_chunk fuel ss max h1 p1 (chunk h2 p2 ++ concat (map (fun c => chunk c.1 c.2) cs)
    ++ chunk h4 p4) p no_results Hw1 Hfuel) as (fuel2 & Hfuel2 & ->).
  unfold ParseChunk at 1. rewrite Ht1, Hp1 by done. cbn [fmap outcome_fmap mbind outcome_bind fst snd].
  edestruct (Parse_loop_chunk fuel2 ss max h2 p2) as (fuel3 & Hfuel3 & ->); [done | done |].
  unfold ParseChunk at 1. rewrite Ht2, Hp2 by done. cbn [fmap outcome_fmap mbind outcome_bind fst snd].
  destruct (Hp3 ss max p (no_results <| receiver_report := expected_report ss b |>
     <| receiver_reference_time := received_time rs ss send_time |>) fuel3 (chunk h4 p4) Hses Hfuel3)
    as (fuel4 & Hfuel4 & ->).
  rewrite <- (app_nil_r (chunk h4 p4)) in *.
  edestruct (Parse_loop_chunk fuel4 ss max h4 p4 []) as (fuel5 & _ & ->); [done | done |].
  unfold ParseChunk at 1. rewrite Ht4, Hs4, Hp4 by (done || by destruct (picture_loss_indicator b)).
  cbn [fmap outcome_fmap mbind outcome_bind fst snd]. unfold feedback_results.
  by destruct fuel5, (picture_loss_indicator b).
Qed.

(** Without a log that is all. *)
Lemma BuildPacket_chunks rs b size send_time :
  feedback_wf b -> report_wf b -> logs_for_next_packet b = [] -> 256 <= size ->
  exists b' chunks nacks acks,
    let written := concat (map (fun c => chunk c.1 c.2) chunks) in
    BuildPacket rs send_time b (new_buffer size) = Ret (b', written)
    /\ Forall (fun c => chunk_wf c.1 c.2) chunks
    /\ zlen written <= size
    /\ nacks `prefix_of` expected_nacks b /\ acks `prefix_of` expected_acks b
    /\ (forall m, feedback_fits b m (size - 64) -> nacks = expected_nacks b /\ acks = expected_acks b)
    /\ forall ss max p fuel, same_session rs ss -> -1 <= max ->
         max - 256 < checkpoint_frame_id b <= max -> (length written <= fuel)%nat ->
         Parse_loop fuel ss max written p no_results
         = Ret (true, p, feedback_results ss b (received_time rs ss send_time) nacks acks).
Proof.
  intros Hwf Hrep Hlogs Hsize.
  destruct (BuildPacket_prefix rs b size send_time Hwf Hrep Hsize)
    as (b' & chunks & nacks & acks & Hbuild & Hw & _ & Hlen & (_ & _ & _ & _ & Hl) & H).
  exists b', chunks, nacks, acks. cbv zeta in *. rewrite Hbuild.
  unfold AppendReceiverLogPacket. rewrite Hl. change (logs_for_next_packet (b <| _ := None |>)) with (logs_for_next_packet b).
  cbn [logs_for_next_packet update]. rewrite Hlogs. cbn [mbind outcome_bind Wire.written].
  split; [done |]. split; [done |]. split; [lia | exact H].
Qed.

Lemma BuildPacket_Parse (rs ss : RtcpSession) (b : CompoundRtcpBuilder) (size send_time : Z)
    (max : Z) (p : CompoundRtcpParser) :
  same_session rs ss -> feedback_wf b -> report_wf b -> logs_for_next_packet b = [] ->
  256 <= size -> -1 <= max -> max - 256 < checkpoint_frame_id b <= max ->
  let t := received_time rs ss send_time in
  t <> kNullTimePoint ->
  latest_receiver_timestamp p = kNullTimePoint \/ latest_receiver_timestamp p <= t ->
  exists b' packet nacks acks,
    BuildPacket rs send_time b (new_buffer size) = Ret (b', packet)
    /\ zlen packet <= size
    /\ nacks `prefix_of` expected_nacks b /\ acks `prefix_of` expected_acks b
    /\ (forall m, feedback_fits b m (size - 64) -> nacks = expected_nacks b /\ acks = expected_acks b)
    /\ Parse ss packet max p
       = Ret (true, p <| latest_receiver_timestamp := t |>, feedback_events ss b t nacks acks).
Proof.
  intros Hses Hwf Hrep Hlogs Hsize Hmax Hcp t Ht Hlatest.
  destruct (BuildPacket_chunks rs b size send_time Hwf Hrep Hlogs Hsize)
    as (b' & chunks & nacks & acks & Hbuild & _ & Hlen & Hn & Ha & Hall & Hparse).
  eexists b', _, nacks, acks. split; [exact Hbuild |]. do 4 (split; [done |]).
  unfold Parse. rewrite (Hparse ss max p _ Hses Hmax Hcp) by lia. cbn [mbind outcome_bind negb].
  unfold feedback_results at 1 2 3. cbn [receiver_reference_time].
  change (received_time rs ss send_time) with t. rewrite (proj2 (Z.eqb_neq _ _)) by done.
  assert (negb (latest_receiver_timestamp p =? kNullTimePoint)
          && (t <? latest_receiver_timestamp p) = false) as ->.
  { destruct Hlatest as [-> | ?]; [done |]. rewrite (proj2 (Z.ltb_ge _ _)) by done.
    by rewrite andb_false_r. }
  f_equal. f_equal. unfold feedback_events, dispatch, feedback_results.
  cbn [receiver_report log_messages feedback_checkpoint target_playout_delay received_frames
       packet_nacks picture_loss app].
  assert (is_null (checkpoint_frame_id b) = false) as ->.
  { unfold is_null, null_frame_id, INT64_MIN. lia. }
  destruct Hwf as (_ & Hkept & Hnok & _).
  rewrite Canonicalize_id.
  - by destruct (expected_report ss b), acks, nacks.
  - destruct Hn as [rest Hrest]. assert (Forall nack_ok (expected_nacks b)) as Hex.
    { unfold expected_nacks. apply Forall_forall. intros n [_ Hin]%list_elem_of_filter.
      rewrite Forall_forall in Hnok. auto. }
    rewrite Hrest in Hex. by apply Forall_app in Hex as [? _].
  - eapply StronglySorted_prefix; [exact Hn |]. by apply StronglySorted_filter.
Qed.

(** * Claims *)

(** C7 Feedback reaches the sender.  The packet a receiver builds fits its
    buffer, and parsing it at the other end of the session delivers, in order:
    the reference time, the report if it is about this sender, the checkpoint
    with the playout delay, the frame ACKs, the packet NACKs and the picture
    loss.  The ACKs and NACKs delivered are a prefix of those the receiver
    collected that lie beyond the checkpoint, and all of them when the buffer
    is large enough.  This is for a packet without receiver event logs (they are
    off unless the session negotiates them): the logs of one that has some may
    not fit it, and then the packet is not read back, see
    overfull_log_packet_rejected.  The checkpoint is one of the last 256 frames
    the sender has sent, the only ones a truncated frame identifier tells apart,
    and the packet is not older than the last one parsed. *)
Theorem feedback_roundtrip (rs ss : RtcpSession) (b : CompoundRtcpBuilder) (size send_time : Z)
    (max : Z) (p : CompoundRtcpParser) :
  same_session rs ss -> feedback_wf b -> report_wf b -> logs_for_next_packet b = [] ->
  256 <= size -> -1 <= max -> max - 256 < checkpoint_frame_id b <= max ->
  let t := received_time rs ss send_time in
  t <> kNullTimePoint ->
  latest_receiver_timestamp p = kNullTimePoint \/ latest_receiver_timestamp p <= t ->
  exists b' packet nacks acks,
    BuildPacket rs send_time b (new_buffer size) = Ret (b', packet)
    /\ zlen packet <= size
    /\ nacks `prefix_of` expected_nacks b /\ acks `prefix_of` expected_acks b
    /\ (forall m, feedback_fits b m (size - 64) -> nacks = expected_nacks b /\ acks = expected_acks b)
    /\ Parse ss packet max p
       = Ret (true, p <| latest_receiver_timestamp := t |>, feedback_events ss b t nacks acks).
Proof. apply BuildPacket_Parse. Qed.

Lemma feedback_roundtrip_witness :
  let s := mkSession 1 2 0 (new_NtpTimeConverter 0 1700000000) in
  let b := mkBuilder 300 400 (Some (mkReportBlock 1 3 1000 70000 15 7 65536))
             [mkNack 301 5; mkNack 301 7; mkNack 301 13; mkNack 301 14; mkNack 303 kAllPacketsLost]
             [302; 304; 330] [] true 9 in
  let t := received_time s s 5000000 in
  exists b' packet nacks acks,
    BuildPacket s 5000000 b (new_buffer 1472) = Ret (b', packet)
    /\ zlen packet <= 1472
    /\ nacks `prefix_of` expected_nacks b /\ acks `prefix_of` expected_acks b
    /\ (forall m, feedback_fits b m (1472 - 64) -> nacks = expected_nacks b /\ acks = expected_acks b)
    /\ Parse s packet 340 new_CompoundRtcpParser
       = Ret (true, new_CompoundRtcpParser <| latest_receiver_timestamp := t |>,
              feedback_events s b t nacks acks).
Proof.
  intros s b t. apply (feedback_roundtrip s s b 1472 5000000 340 new_CompoundRtcpParser);
    [unfold same_session, is_u; cbn; lia | | unfold report_wf, report_block_wf, is_u; cbn; lia | done | lia | lia
    | cbn; lia | vm_compute; congruence |].
  - unfold feedback_wf. cbn [playout_delay nacks_for_next_packet acks_for_next_packet b].
    split; [lia |]. split; [| split; [| split; [| split]]]; solve_list;
      unfold kept_before, nack_ok, is_u, is_s, kAllPacketsLost; cbn; lia.
  - by left.
Defined.

(** A receiver log that does not fit its packet: the event count of the frame
    is written before the events are cut off at the end of the buffer. *)
Definition overfull_log_builder : CompoundRtcpBuilder :=
  mkBuilder 5 400 None [] [] [mkFrameLog 90000 (repeat (mkEventLog kFrameAckSent 1000000 0 0) 60)]
    false 0.

(** A frame log with more events than the packet has room for makes the
    sender reject the whole compound packet, feedback included. *)
Theorem overfull_log_packet_rejected :
  let s := mkSession 1 2 0 (new_NtpTimeConverter 0 1700000000) in
  exists b' packet p',
    BuildPacket s 5000000 overfull_log_builder (new_buffer 256) = Ret (b', packet)
    /\ Parse s packet 10 new_CompoundRtcpParser = Ret (false, p', []).
Proof.
  intros s. eexists _, _, _. split; [vm_compute; reflexivity | vm_compute; reflexivity].
Qed.
