(* ===== verification/Rtp.v ===== *)
(** RTP packets: the packetizer on the sending side and the parser on the
    receiving side (cast/streaming/impl/rtp_packetizer.cc and
    rtp_packet_parser.cc), and the frames they carry
    (cast/streaming/public/encoded_frame.h). *)

From S2P Require Import Prelude Numeric Wire Ids NtpTime RtpDefines RtcpCommon.

(** * EncodedFrame

    Times are in microseconds, the playout delay in milliseconds. *)

Inductive Dependency := kUnknownDependency | kDependent | kIndependent | kKeyFrame.
#[export] Instance Dependency_eq_dec : EqDecision Dependency.
Proof. solve_decision. Defined.

Record EncodedFrame := mkFrame {
  dependency : Dependency;
  frame_id : Z;
  referenced_frame_id : Z;
  rtp_timestamp : Z;
  reference_time : Z;
  new_playout_delay : Z;
  capture_begin_time : Z;
  capture_end_time : Z;
  data : list Z }.
#[export] Instance eta_EncodedFrame : Eta EncodedFrame := fun f =>
  mkFrame (dependency f) (frame_id f) (referenced_frame_id f) (rtp_timestamp f)
    (reference_time f) (new_playout_delay f) (capture_begin_time f) (capture_end_time f) (data f).

Definition new_EncodedFrame : EncodedFrame :=
  mkFrame kUnknownDependency null_frame_id null_frame_id 0 0 0 INT64_MIN INT64_MIN [].

(** * Packetizer *)

Definition kBaseRtpHeaderSize : Z := kRtpPacketMinValidSize + 1.
Definition kAdaptiveLatencyHeaderSize : Z := 4.
Definition kMaxRtpHeaderSize : Z := kBaseRtpHeaderSize + kAdaptiveLatencyHeaderSize.

(** The first sequence number is random. *)
Record RtpPacketizer := mkPacketizer {
  payload_type_7bits : Z; packetizer_sender_ssrc : Z; max_packet_size : Z; next_sequence_number : Z }.
#[export] Instance eta_RtpPacketizer : Eta RtpPacketizer := fun p =>
  mkPacketizer (payload_type_7bits p) (packetizer_sender_ssrc p) (max_packet_size p)
    (next_sequence_number p).

Definition new_RtpPacketizer (payload_type ssrc max_size first_sequence_number : Z)
    : outcome RtpPacketizer :=
  OSP_CHECK (IsRtpPayloadType payload_type) ;;
  OSP_CHECK (kMaxRtpHeaderSize <? max_size) ;;
  Ret (mkPacketizer payload_type ssrc max_size first_sequence_number).

Definition max_payload_size (p : RtpPacketizer) : Z := max_packet_size p - kMaxRtpHeaderSize.

Definition ComputeNumberOfPackets (p : RtpPacketizer) (frame : EncodedFrame) : Z :=
  let num_packets := DividePositivesRoundingUp (zlen (data frame)) (max_payload_size p) in
  let num_packets := Z.max 1 num_packets in
  if num_packets <=? kMaxAllowedFramePacketId then num_packets else -1.

(** [frame.data.subspan(start, size)]. *)
Definition subspan2 (start size : Z) (buf : list Z) : outcome (list Z) :=
  if (0 <=? start) && (0 <=? size) && (start + size <=? zlen buf)
  then Ret (take (Z.to_nat size) (drop (Z.to_nat start) buf)) else Fault OutOfBounds.

Definition GeneratePacket (p : RtpPacketizer) (frame : EncodedFrame) (packet_id : Z)
    (buffer : ByteBuffer) : outcome (RtpPacketizer * list Z) :=
  OSP_CHECK (max_packet_size p <=? room buffer) ;;
  let num_packets := ComputeNumberOfPackets p frame in
  OSP_CHECK (0 <? num_packets) ;;
  OSP_CHECK (packet_id <? num_packets) ;;
  let is_last_packet := packet_id =? num_packets - 1 in
  let include_adaptive_latency_change :=
    (packet_id =? 0) && (0 <? new_playout_delay frame) in
  OSP_CHECK (negb include_adaptive_latency_change || (new_playout_delay frame <=? 65535)) ;;
  let header_size :=
    if include_adaptive_latency_change then kBaseRtpHeaderSize + kAdaptiveLatencyHeaderSize
    else kBaseRtpHeaderSize in
  let data_chunk_start := max_payload_size p * packet_id in
  let data_chunk_size :=
    if is_last_packet then zlen (data frame) - data_chunk_start else max_payload_size p in
  let packet_size := header_size + data_chunk_size in
  OSP_CHECK (packet_size <=? max_packet_size p) ;;
  buffer ← AppendField 1 kRtpRequiredFirstByte buffer;
  buffer ← AppendField 1
    (Z.lor (if is_last_packet then kRtpMarkerBitMask else 0) (payload_type_7bits p)) buffer;
  buffer ← AppendField 2 (next_sequence_number p) buffer;
  let p := p <| next_sequence_number := u16 (next_sequence_number p + 1) |> in
  buffer ← AppendField 4 (lower_32_bits (rtp_timestamp frame)) buffer;
  buffer ← AppendField 4 (packetizer_sender_ssrc p) buffer;
  buffer ← AppendField 1
    (Z.lor (Z.lor (if bool_decide (dependency frame = kKeyFrame) then kRtpKeyFrameBitMask else 0)
                  kRtpHasReferenceFrameIdBitMask)
           (if include_adaptive_latency_change then 1 else 0)) buffer;
  buffer ← AppendField 1 (lower_8_bits (frame_id frame)) buffer;
  buffer ← AppendField 2 packet_id buffer;
  buffer ← AppendField 2 (num_packets - 1) buffer;
  buffer ← AppendField 1 (lower_8_bits (referenced_frame_id frame)) buffer;
  buffer ←
    (if include_adaptive_latency_change then
       buffer ← AppendField 2
         (Z.lor (Z.shiftl kAdaptiveLatencyRtpExtensionType kNumExtensionDataSizeFieldBits) 2) buffer;
       AppendField 2 (new_playout_delay frame) buffer
     else Ret buffer);
  data_chunk ← subspan2 data_chunk_start data_chunk_size (data frame);
  buffer ← append_bytes data_chunk buffer;
  Ret (p, take (Z.to_nat packet_size) (written buffer)).

(** * Parser *)

Record RtpPacketParser := mkRtpParser {
  rtp_sender_ssrc : Z; last_parsed_rtp_timestamp : Z; highest_rtp_frame_id : Z }.
#[export] Instance eta_RtpPacketParser : Eta RtpPacketParser := fun p =>
  mkRtpParser (rtp_sender_ssrc p) (last_parsed_rtp_timestamp p) (highest_rtp_frame_id p).
Definition new_RtpPacketParser (ssrc : Z) : RtpPacketParser := mkRtpParser ssrc 0 first_frame_id.

Record ParseResult := mkParseResult {
  payload_type : Z;
  sequence_number : Z;
  part_rtp_timestamp : Z;
  is_key_frame : bool;
  part_frame_id : Z;
  packet_id : Z;
  max_packet_id : Z;
  part_referenced_frame_id : Z;
  part_new_playout_delay : Z;
  payload : list Z }.

(** The loop over the Cast extensions, with the playout delay found so far. *)
Fixpoint extensions_loop (num_cast_extensions : nat) (delay : Z) (buffer : list Z)
    : outcome (option (Z * list Z)) :=
  match num_cast_extensions with
  | O => Ret (Some (delay, buffer))
  | S num_cast_extensions =>
      if zlen buffer <? 2 then Ret None else
      '(type_and_size, buffer) ← ConsumeField 2 buffer;
      let type := u8 (Z.shiftr type_and_size kNumExtensionDataSizeFieldBits) in
      let size := Z.land type_and_size (FieldBitmask kNumExtensionDataSizeFieldBits) in
      if zlen buffer <? size then Ret None else
      if (type =? kAdaptiveLatencyRtpExtensionType) && negb (size =? 2) then Ret None else
      delay ← (if type =? kAdaptiveLatencyRtpExtensionType
               then '(v, _) ← ConsumeField 2 buffer; Ret v else Ret delay);
      buffer ← subspan size buffer;
      extensions_loop num_cast_extensions delay buffer
  end.

Definition RtpPacketParser_Parse (p : RtpPacketParser) (buffer : list Z)
    : outcome (option ParseResult * RtpPacketParser) :=
  if zlen buffer <? kRtpPacketMinValidSize then Ret (None, p) else
  '(byte0, buffer) ← ConsumeField 1 buffer;
  if negb (byte0 =? kRtpRequiredFirstByte) then Ret (None, p) else
  '(byte1, buffer) ← ConsumeField 1 buffer;
  let type := Z.land byte1 kRtpPayloadTypeMask in
  if negb (IsRtpPayloadType type) then Ret (None, p) else
  '(seq, buffer) ← ConsumeField 2 buffer;
  '(truncated_ts, buffer) ← ConsumeField 4 buffer;
  let ts := Expand 32 (last_parsed_rtp_timestamp p) truncated_ts in
  '(s, buffer) ← ConsumeField 4 buffer;
  if negb (s =? rtp_sender_ssrc p) then Ret (None, p) else
  '(byte12, buffer) ← ConsumeField 1 buffer;
  let is_key := negb (Z.land byte12 kRtpKeyFrameBitMask =? 0) in
  let has_referenced_frame_id := negb (Z.land byte12 kRtpHasReferenceFrameIdBitMask =? 0) in
  let num_cast_extensions := Z.land byte12 kRtpExtensionCountMask in
  '(truncated_fid, buffer) ← ConsumeField 1 buffer;
  let fid := Expand 8 (highest_rtp_frame_id p) truncated_fid in
  '(pid, buffer) ← ConsumeField 2 buffer;
  '(max_pid, buffer) ← ConsumeField 2 buffer;
  if max_pid =? kAllPacketsLost then Ret (None, p) else
  if max_pid <? pid then Ret (None, p) else
  if has_referenced_frame_id && (zlen buffer =? 0) then Ret (None, p) else
  '(rfid, buffer) ←
    (if has_referenced_frame_id then
       '(truncated_rfid, buffer) ← ConsumeField 1 buffer;
       Ret (Expand 8 fid truncated_rfid, buffer)
     else Ret (if is_key then fid else fid - 1, buffer));
  extensions ← extensions_loop (Z.to_nat num_cast_extensions) 0 buffer;
  match extensions with
  | None => Ret (None, p)
  | Some (delay, payload) =>
      Ret (Some (mkParseResult type seq ts is_key fid pid max_pid rfid delay payload),
           p <| last_parsed_rtp_timestamp := ts |>
             <| highest_rtp_frame_id := Z.max (highest_rtp_frame_id p) fid |>)
  end.

(** * Lemmas *)

(** What the packetizer is given: a valid payload type, room for a payload, and
    a frame that can be packetized. *)
Definition packetizer_wf (p : RtpPacketizer) : Prop :=
  IsRtpPayloadType (payload_type_7bits p) = true /\ is_u 32 (packetizer_sender_ssrc p)
  /\ is_u 16 (next_sequence_number p)
  /\ kMaxRtpHeaderSize < max_packet_size p < 2 ^ 16.

Definition chunk_of_frame (p : RtpPacketizer) (frame : EncodedFrame) (i : Z) : list Z :=
  take (Z.to_nat (max_payload_size p)) (drop (Z.to_nat (max_payload_size p * i)) (data frame)).

Lemma ComputeNumberOfPackets_spec p frame :
  packetizer_wf p -> zlen (data frame) < 2 ^ 31 -> 0 < ComputeNumberOfPackets p frame ->
  let n := ComputeNumberOfPackets p frame in
  let m := max_payload_size p in
  1 <= n <= 65534 /\ 0 < m
  /\ (n - 1) * m <= zlen (data frame) <= n * m
  /\ (1 < n -> (n - 1) * m < zlen (data frame)).
Proof.
  intros (_ & _ & _ & Hmax) Hlen Hn. cbv zeta. unfold ComputeNumberOfPackets in *.
  assert (0 < max_payload_size p < 2 ^ 16) as Hm
    by (unfold max_payload_size, kMaxRtpHeaderSize, kBaseRtpHeaderSize, kAdaptiveLatencyHeaderSize,
          kRtpPacketMinValidSize in *; lia).
  pose proof (zlen_nonneg (data frame)).
  rewrite DividePositivesRoundingUp_eq in * by lia.
  destruct (ceil_div_spec (zlen (data frame)) (max_payload_size p) _ ltac:(lia) ltac:(lia) eq_refl)
    as [H1 H2].
  set (q := (zlen (data frame) + max_payload_size p - 1) / max_payload_size p) in *.
  unfold kMaxAllowedFramePacketId, kAllPacketsLost in *.
  destruct (Z.leb_spec (Z.max 1 q) (65535 - 1)); [| lia].
  destruct (Z.max_spec 1 q) as [[? ->] | [? ->]]; nia.
Qed.

(** The payloads of a frame's packets, in order, are its data. *)
Lemma concat_chunks (m : nat) (l : list Z) (n : nat) :
  (0 < m)%nat -> (length l <= n * m)%nat ->
  concat (map (fun i => take m (drop (m * i) l)) (seq 0 n)) = l.
Proof.
  intros Hm. revert l. induction n as [| n IH]; intros l Hl.
  { destruct l; [done | simpl in Hl; lia]. }
  cbn [seq map concat]. rewrite Nat.mul_0_r, drop_0, <- seq_shift, map_map.
  transitivity (take m l ++ drop m l); [| apply take_drop]. f_equal.
  rewrite <- (IH (drop m l)) by (rewrite length_drop; simpl in Hl; lia).
  f_equal. apply map_ext. intros i. rewrite drop_drop. f_equal. f_equal. lia.
Qed.

(** The bytes of a packet, and what a parser at the other end expects. *)
Definition announces_delay (frame : EncodedFrame) (i : Z) : bool :=
  (i =? 0) && (0 <? new_playout_delay frame).

Definition byte12 (frame : EncodedFrame) (i : Z) : Z :=
  (if bool_decide (dependency frame = kKeyFrame) then 128 else 0) + 64
  + (if announces_delay frame i then 1 else 0).

Definition extension_bytes (frame : EncodedFrame) (i : Z) : list Z :=
  if announces_delay frame i
  then be_encode 2 (1 * 2 ^ 10 + 2) ++ be_encode 2 (new_playout_delay frame) else [].

Definition packet_bytes (p : RtpPacketizer) (frame : EncodedFrame) (i : Z) : list Z :=
  let n := ComputeNumberOfPackets p frame in
  be_encode 1 128
  ++ be_encode 1 ((if i =? n - 1 then 128 else 0) + payload_type_7bits p)
  ++ be_encode 2 (next_sequence_number p) ++ be_encode 4 (rtp_timestamp frame)
  ++ be_encode 4 (packetizer_sender_ssrc p) ++ be_encode 1 (byte12 frame i)
  ++ be_encode 1 (frame_id frame) ++ be_encode 2 i ++ be_encode 2 (n - 1)
  ++ be_encode 1 (referenced_frame_id frame)
  ++ extension_bytes frame i ++ chunk_of_frame p frame i.

Definition expected_part (p : RtpPacketizer) (frame : EncodedFrame) (i : Z) : ParseResult :=
  mkParseResult (payload_type_7bits p) (next_sequence_number p) (rtp_timestamp frame)
    (bool_decide (dependency frame = kKeyFrame)) (frame_id frame) i
    (ComputeNumberOfPackets p frame - 1) (referenced_frame_id frame)
    (if announces_delay frame i then new_playout_delay frame else 0) (chunk_of_frame p frame i).

Definition frame_wf (p : RtpPacketizer) (frame : EncodedFrame) : Prop :=
  zlen (data frame) < 2 ^ 31 /\ 0 < ComputeNumberOfPackets p frame
  /\ new_playout_delay frame <= 65535.

Lemma payload_type_bounds v : IsRtpPayloadType v = true -> 96 <= v <= 127.
Proof. unfold IsRtpPayloadType, kAudioOpus, kAudioAac, kAudioPcm16, kAudioVarious, kVideoVp8,
  kVideoH264, kVideoVarious, kVideoVp9, kVideoAv1, kAudioHackForAndroidTV. simpl. lia. Qed.

(** The size of the part of the frame that packet [i] carries. *)
Lemma chunk_size p frame i :
  packetizer_wf p -> frame_wf p frame -> 0 <= i < ComputeNumberOfPackets p frame ->
  let size := if i =? ComputeNumberOfPackets p frame - 1
              then zlen (data frame) - max_payload_size p * i else max_payload_size p in
  0 <= size <= max_payload_size p /\ max_payload_size p * i + size <= zlen (data frame)
  /\ take (Z.to_nat size) (drop (Z.to_nat (max_payload_size p * i)) (data frame))
     = chunk_of_frame p frame i
  /\ zlen (chunk_of_frame p frame i) = size.
Proof.
  intros Hp (Hlen & Hn & _) Hi. cbv zeta.
  destruct (ComputeNumberOfPackets_spec p frame Hp Hlen Hn) as (Hn1 & Hm & Hb & Hb').
  set (n := ComputeNumberOfPackets p frame) in *. set (m := max_payload_size p) in *.
  assert (zlen (drop (Z.to_nat (m * i)) (data frame)) = zlen (data frame) - m * i) as Hd.
  { unfold zlen in *. rewrite length_drop. nia. }
  unfold chunk_of_frame. fold m.
  destruct (Z.eqb_spec i (n - 1)) as [-> | Hne].
  - split; [nia |]. split; [nia |].
    rewrite !take_ge by (unfold zlen in *; nia). split; [done |]. exact Hd.
  - assert (m * i + m <= zlen (data frame)) by nia. split; [lia |]. split; [done |].
    split; [done |]. unfold zlen in *. rewrite length_take. lia.
Qed.

Lemma zlen_extension_bytes frame i :
  zlen (extension_bytes frame i) = if announces_delay frame i then 4 else 0.
Proof. unfold extension_bytes. destruct (announces_delay frame i); [| done]. by autorewrite with zlen. Qed.

Lemma zlen_packet_bytes p frame i :
  zlen (packet_bytes p frame i)
  = 19 + (if announces_delay frame i then 4 else 0) + zlen (chunk_of_frame p frame i).
Proof. unfold packet_bytes. autorewrite with zlen. rewrite zlen_extension_bytes. lia. Qed.

Lemma byte1_lor (b : bool) v :
  0 <= v < 128 -> Z.lor (if b then 128 else 0) v = (if b then 128 else 0) + v.
Proof.
  intros Hv. destruct b; [| by rewrite Z.lor_0_l].
  change 128 with (Z.shiftl 1 7). rewrite lor_shiftl_add by (unfold is_u; lia). done.
Qed.

Lemma byte12_lor frame i :
  Z.lor (Z.lor (if bool_decide (dependency frame = kKeyFrame) then kRtpKeyFrameBitMask else 0)
           kRtpHasReferenceFrameIdBitMask) (if announces_delay frame i then 1 else 0)
  = byte12 frame i.
Proof. unfold byte12. by destruct (bool_decide _), (announces_delay frame i). Qed.

Lemma GeneratePacket_ok p frame i buffer :
  packetizer_wf p -> frame_wf p frame -> 0 <= i < ComputeNumberOfPackets p frame ->
  written buffer = [] -> max_packet_size p <= room buffer ->
  GeneratePacket p frame i buffer
  = Ret (p <| next_sequence_number := u16 (next_sequence_number p + 1) |>, packet_bytes p frame i)
  /\ zlen (packet_bytes p frame i) <= max_packet_size p.
Proof.
  intros Hp Hf Hi Hw Hroom. pose proof (chunk_size p frame i Hp Hf Hi) as Hsize.
  pose proof Hp as (Hpt & _ & _ & Hmax). destruct Hf as (Hlen & Hn & Hdelay).
  apply payload_type_bounds in Hpt.
  unfold GeneratePacket. rewrite (OSP_CHECK_leb (max_packet_size p)) by done.
  rewrite (OSP_CHECK_ltb 0), (OSP_CHECK_ltb i) by (done || apply Hi). cbn [mbind outcome_bind]. fold (announces_delay frame i).
  rewrite (OSP_CHECK_true (negb (announces_delay frame i) || _)).
  2: { rewrite (proj2 (Z.leb_le _ _)) by lia. apply orb_true_r. }
  cbn [mbind outcome_bind].
  set (n := ComputeNumberOfPackets p frame) in *.
  set (size := if i =? n - 1 then zlen (data frame) - max_payload_size p * i
               else max_payload_size p) in *.
  destruct Hsize as (Hs1 & Hs2 & Hchunk & Hzc).
  assert (zlen (packet_bytes p frame i)
          = (if announces_delay frame i then kBaseRtpHeaderSize + kAdaptiveLatencyHeaderSize
             else kBaseRtpHeaderSize) + size) as Hz.
  { rewrite zlen_packet_bytes, Hzc. by destruct (announces_delay frame i). }
  assert (max_payload_size p = max_packet_size p - 23) as Hmp by done.
  assert (zlen (packet_bytes p frame i) <= max_packet_size p) as Hzp.
  { rewrite Hz. change kBaseRtpHeaderSize with 19. change kAdaptiveLatencyHeaderSize with 4.
    destruct (announces_delay frame i); lia. }
  split; [| done]. rewrite <- Hz, OSP_CHECK_leb by done. cbn [mbind outcome_bind].
  change kMaxRtpHeaderSize with 23 in *.
  do 10 (rewrite AppendField_ok
    by (cbn [room]; change (Z.of_nat 1) with 1; change (Z.of_nat 2) with 2; change (Z.of_nat 4) with 4; lia);
    cbn [mbind outcome_bind written room]).
  rewrite byte12_lor.
  change (kRtpMarkerBitMask) with 128. rewrite byte1_lor by lia.
  assert (forall b, 23 <= room b + 19 -> (if announces_delay frame i then
       b' ← AppendField 2 (Z.lor (Z.shiftl kAdaptiveLatencyRtpExtensionType kNumExtensionDataSizeFieldBits) 2) b;
       AppendField 2 (new_playout_delay frame) b'
     else Ret b) = Ret (mkBuffer (written b ++ extension_bytes frame i)
                         (room b - zlen (extension_bytes frame i)))) as Hext.
  { intros b Hb. rewrite zlen_extension_bytes. unfold extension_bytes.
    destruct (announces_delay frame i).
    - do 2 (rewrite AppendField_ok by (cbn [room]; change (Z.of_nat 2) with 2; lia);
            cbn [mbind outcome_bind written room]).
      rewrite <- app_assoc. f_equal. f_equal. lia.
    - rewrite app_nil_r, Z.sub_0_r. by destruct b. }
  rewrite Hext
    by (cbn [room]; change (Z.of_nat 1) with 1; change (Z.of_nat 2) with 2; change (Z.of_nat 4) with 4; lia).
  cbn [mbind outcome_bind written room]. unfold subspan2.
  pose proof (Z.mul_nonneg_nonneg (max_payload_size p) i ltac:(lia) ltac:(lia)).
  rewrite !(proj2 (Z.leb_le _ _)) by lia. cbn [andb mbind outcome_bind]. rewrite Hchunk.
  rewrite append_bytes_ok.
  2: { cbn [room]. change (Z.of_nat 1) with 1; change (Z.of_nat 2) with 2; change (Z.of_nat 4) with 4.
       rewrite zlen_packet_bytes in Hzp. rewrite zlen_extension_bytes.
       destruct (announces_delay frame i); lia. }
  cbn [mbind outcome_bind written]. rewrite Hw, app_nil_l. f_equal. f_equal.
  rewrite take_ge.
  - unfold packet_bytes, lower_8_bits, lower_32_bits. fold n.
    change 8 with (8 * Z.of_nat 1). change 32 with (8 * Z.of_nat 4).
    rewrite !be_encode_wrap, <- !app_assoc. done.
  - unfold zlen in Hz |- *. unfold packet_bytes, zlen in *. rewrite !length_app in *.
    rewrite !length_be_encode in *. lia.
Qed.

(** What the receiving parser must be close to. *)
Definition in_expansion_range (q : RtpPacketParser) (frame : EncodedFrame) : Prop :=
  last_parsed_rtp_timestamp q - 2 ^ 31 <= rtp_timestamp frame < last_parsed_rtp_timestamp q + 2 ^ 31
  /\ highest_rtp_frame_id q - 128 <= frame_id frame < highest_rtp_frame_id q + 128
  /\ frame_id frame - 128 <= referenced_frame_id frame < frame_id frame + 128.

Lemma byte12_fields frame i :
  is_u 8 (byte12 frame i)
  /\ negb (Z.land (byte12 frame i) kRtpKeyFrameBitMask =? 0)
     = bool_decide (dependency frame = kKeyFrame)
  /\ negb (Z.land (byte12 frame i) kRtpHasReferenceFrameIdBitMask =? 0) = true
  /\ Z.land (byte12 frame i) kRtpExtensionCountMask = if announces_delay frame i then 1 else 0.
Proof.
  unfold byte12. destruct (bool_decide _), (announces_delay frame i); by split; [split |].
Qed.

Lemma extensions_loop_ok frame i rest :
  new_playout_delay frame <= 65535 ->
  extensions_loop (Z.to_nat (if announces_delay frame i then 1 else 0)) 0
    (extension_bytes frame i ++ rest)
  = Ret (Some (if announces_delay frame i then new_playout_delay frame else 0, rest)).
Proof.
  intros Hd. unfold extension_bytes. destruct (announces_delay frame i) eqn:Ha; [| done].
  unfold announces_delay in Ha. apply andb_true_iff in Ha as [_ Ha].
  change (Z.to_nat 1) with 1%nat. cbn [extensions_loop]. rewrite <- app_assoc.
  pose proof (zlen_nonneg rest).
  rewrite (proj2 (Z.ltb_ge _ _)) by (rewrite !zlen_app, !zlen_be_encode; lia).
  rewrite ConsumeField_encode. cbn [mbind outcome_bind].
  change (wrap (8 * Z.of_nat 2) (1 * 2 ^ 10 + 2)) with 1026.
  change (Z.land 1026 (FieldBitmask kNumExtensionDataSizeFieldBits)) with 2.
  change (u8 (Z.shiftr 1026 kNumExtensionDataSizeFieldBits)) with 1.
  rewrite (proj2 (Z.ltb_ge _ _)) by (rewrite zlen_app, zlen_be_encode; lia).
  change (1 =? kAdaptiveLatencyRtpExtensionType) with true. change (2 =? 2) with true.
  cbn [negb andb]. rewrite ConsumeField_encode. cbn [mbind outcome_bind].
  change (8 * Z.of_nat 2) with 16. rewrite wrap_small by (unfold is_u; lia).
  pose proof (subspan_app (be_encode 2 (new_playout_delay frame)) rest) as Hsub.
  rewrite zlen_be_encode in Hsub. change (Z.of_nat 2) with 2 in Hsub. by rewrite Hsub.
Qed.

(** The marker bit does not disturb the payload type. *)
Lemma payload_type_masked (last : bool) v :
  96 <= v <= 127 -> Z.land (u8 ((if last then 128 else 0) + v)) kRtpPayloadTypeMask = v.
Proof.
  intros Hv. rewrite wrap_small by (unfold is_u; destruct last; lia).
  change kRtpPayloadTypeMask with (Z.ones 7). rewrite Z.land_ones by lia. destruct last.
  - change (128 + v) with (1 * 2 ^ 7 + v). rewrite Z.add_comm, Z.mod_add by lia.
    apply Z.mod_small. lia.
  - apply Z.mod_small. lia.
Qed.

Lemma Parse_packet_bytes p q frame i :
  packetizer_wf p -> frame_wf p frame -> 0 <= i < ComputeNumberOfPackets p frame ->
  in_expansion_range q frame -> rtp_sender_ssrc q = packetizer_sender_ssrc p ->
  RtpPacketParser_Parse q (packet_bytes p frame i)
  = Ret (Some (expected_part p frame i),
         q <| last_parsed_rtp_timestamp := rtp_timestamp frame |>
           <| highest_rtp_frame_id := Z.max (highest_rtp_frame_id q) (frame_id frame) |>).
Proof.
  intros Hp Hf Hi (Hts & Hfid & Hrfid) Hs. pose proof Hp as (Hpt & Hssrc & Hseq & _).
  destruct Hf as (Hlen & Hn & Hdelay).
  destruct (ComputeNumberOfPackets_spec p frame Hp Hlen Hn) as (Hn1 & _).
  pose proof (payload_type_bounds _ Hpt) as Hptb.
  destruct (byte12_fields frame i) as (Hb12 & Hkey & Href & Hext).
  unfold RtpPacketParser_Parse, kRtpPacketMinValidSize.
  rewrite (proj2 (Z.ltb_ge _ _)).
  2: { rewrite zlen_packet_bytes. pose proof (zlen_nonneg (chunk_of_frame p frame i)).
       destruct (announces_delay frame i); lia. }
  unfold packet_bytes. set (n := ComputeNumberOfPackets p frame) in *.
  rewrite ConsumeField_encode. cbn [mbind outcome_bind].
  change (wrap (8 * Z.of_nat 1) 128 =? kRtpRequiredFirstByte) with true. cbn [negb].
  rewrite ConsumeField_encode. cbn [mbind outcome_bind]. change (8 * Z.of_nat 1) with 8.
  assert (Z.land (u8 ((if i =? n - 1 then 128 else 0) + payload_type_7bits p)) kRtpPayloadTypeMask
          = payload_type_7bits p) as -> by (by apply payload_type_masked).
  rewrite Hpt. cbn [negb].
  do 2 (rewrite ConsumeField_encode; cbn [mbind outcome_bind]).
  rewrite ConsumeField_encode. cbn [mbind outcome_bind]. change (8 * Z.of_nat 4) with 32.
  rewrite (wrap_small 32 (packetizer_sender_ssrc p)), Hs, Z.eqb_refl by done. cbn [negb].
  do 4 (rewrite ConsumeField_encode; cbn [mbind outcome_bind]).
  change (8 * Z.of_nat 1) with 8. change (8 * Z.of_nat 2) with 16.
  rewrite (wrap_small 16 (n - 1)), (wrap_small 16 i), (wrap_small 8 (byte12 frame i))
    by (done || (unfold is_u; lia)).
  rewrite (proj2 (Z.eqb_neq _ _)) by (unfold kAllPacketsLost; lia).
  rewrite (proj2 (Z.ltb_ge _ _)) by lia. rewrite Href.
  rewrite (proj2 (Z.eqb_neq _ _)).
  2: { rewrite zlen_app, zlen_be_encode.
       pose proof (zlen_nonneg (extension_bytes frame i ++ chunk_of_frame p frame i)). lia. }
  cbn [andb]. rewrite ConsumeField_encode. cbn [mbind outcome_bind].
  change (8 * Z.of_nat 1) with 8.
  rewrite !(Expand_recovers 8), (Expand_recovers 32) by lia.
  rewrite Hext, extensions_loop_ok by done. cbn [mbind outcome_bind].
  rewrite (wrap_small 16 (next_sequence_number p)) by done. by rewrite Hkey.
Qed.

Lemma extensions_loop_total n delay buf :
  bytes_ok buf -> is_u 16 delay ->
  exists o, extensions_loop n delay buf = Ret o
    /\ match o with Some (delay', _) => is_u 16 delay' | None => True end.
Proof.
  revert delay buf. induction n as [| n IH]; intros delay buf Hok Hd; cbn [extensions_loop]; [by eexists |].
  destruct (Z.ltb_spec (zlen buf) 2); [by eexists |].
  read_any_only. specialize (Hok0 Hok) as [Hv Hok0]. change (8 * Z.of_nat 2) with 16 in Hv.
  set (size := Z.land v (FieldBitmask kNumExtensionDataSizeFieldBits)).
  assert (0 <= size) by (apply Z.land_nonneg; left; apply Hv).
  destruct (Z.ltb_spec (zlen rest) size); [by eexists |].
  destruct (Z.eqb_spec (u8 (Z.shiftr v kNumExtensionDataSizeFieldBits))
              kAdaptiveLatencyRtpExtensionType); cbn [andb].
  - destruct (Z.eqb_spec size 2); cbn [negb]; [| by eexists].
    read_any_only. specialize (Hok1 Hok0) as [Hv0 Hok1].
    destruct (subspan_total size rest) as (r' & -> & _ & Hr'); [lia |]. apply IH; auto.
  - destruct (subspan_total size rest) as (r' & -> & _ & Hr'); [lia |]. apply IH; auto.
Qed.

Lemma InspectPacketForRouting_packet p frame i :
  packetizer_wf p -> frame_wf p frame -> 0 <= i < ComputeNumberOfPackets p frame ->
  InspectPacketForRouting (packet_bytes p frame i) = Ret (RTP, packetizer_sender_ssrc p).
Proof.
  intros Hp Hf Hi. pose proof Hp as (Hpt & Hssrc & _). pose proof (payload_type_bounds _ Hpt) as Hptb.
  unfold InspectPacketForRouting, kRtpPacketMinValidSize. rewrite (proj2 (Z.leb_le _ _)).
  2: { rewrite zlen_packet_bytes. pose proof (zlen_nonneg (chunk_of_frame p frame i)).
       destruct (announces_delay frame i); lia. }
  unfold packet_bytes. rewrite (be_encode_1 128), (be_encode_1 (_ + _)). cbn [nth app].
  change (u8 128 =? kRtpRequiredFirstByte) with true.
  set (n := ComputeNumberOfPackets p frame) in *.
  assert (Z.land (u8 ((if i =? n - 1 then 128 else 0) + payload_type_7bits p)) kRtpPayloadTypeMask
          = payload_type_7bits p) as -> by (by apply payload_type_masked).
  rewrite Hpt. cbn [andb].
  set (tail := be_encode 4 (packetizer_sender_ssrc p) ++ _).
  change (u8 128 :: u8 ((if i =? n - 1 then 128 else 0) + payload_type_7bits p) ::
    be_encode 2 (next_sequence_number p) ++ be_encode 4 (rtp_timestamp frame) ++ tail)
    with ([u8 128; u8 ((if i =? n - 1 then 128 else 0) + payload_type_7bits p)] ++
    be_encode 2 (next_sequence_number p) ++ be_encode 4 (rtp_timestamp frame) ++ tail).
  rewrite !app_assoc. match goal with |- context [subspan 8 (?l ++ tail)] => set (pre := l) end.
  assert (zlen pre = 8) as Hpre.
  { subst pre. by autorewrite with zlen. }
  rewrite <- Hpre, subspan_app. cbn [mbind outcome_bind]. unfold tail.
  rewrite ConsumeField_encode. cbn [mbind outcome_bind]. change (8 * Z.of_nat 4) with 32.
  by rewrite wrap_small.
Qed.

Lemma concat_payloads p frame :
  packetizer_wf p -> frame_wf p frame ->
  concat (map (fun j => payload (expected_part p frame j))
            (seqZ 0 (ComputeNumberOfPackets p frame))) = data frame.
Proof.
  intros Hp (Hlen & Hn & _).
  destruct (ComputeNumberOfPackets_spec p frame Hp Hlen Hn) as (Hn1 & Hm & Hb & _).
  set (n := ComputeNumberOfPackets p frame) in *. set (m := max_payload_size p) in *.
  transitivity (concat (map (fun i => take (Z.to_nat m) (drop (Z.to_nat m * i) (data frame)))
    (seq 0 (Z.to_nat n)))); [| apply concat_chunks; [lia |]].
  2: { unfold zlen in Hb. apply Nat2Z.inj_le. rewrite Nat2Z.inj_mul, !Z2Nat.id by lia. lia. }
  f_equal. unfold seqZ. rewrite map_map. apply map_ext. intros j.
  unfold expected_part, chunk_of_frame. cbn [payload]. fold m. f_equal. f_equal.
  rewrite Z.add_0_r, Z2Nat.inj_mul by lia. by rewrite Nat2Z.id.
Qed.

(** What the parser guarantees, whatever the bytes. *)
Definition parse_ok (q : RtpPacketParser) (o : option ParseResult) (q' : RtpPacketParser) : Prop :=
  match o with
  | None => q' = q
  | Some part =>
      0 <= packet_id part <= max_packet_id part /\ max_packet_id part < kAllPacketsLost
      /\ IsRtpPayloadType (payload_type part) = true /\ is_u 16 (part_new_playout_delay part)
      /\ highest_rtp_frame_id q' = Z.max (highest_rtp_frame_id q) (part_frame_id part)
      /\ last_parsed_rtp_timestamp q' = part_rtp_timestamp part
      /\ Z.abs (part_rtp_timestamp part - last_parsed_rtp_timestamp q) <= 2 ^ 31
  end.

Lemma RtpPacketParser_Parse_ok q buf :
  bytes_ok buf -> exists o q', RtpPacketParser_Parse q buf = Ret (o, q') /\ parse_ok q o q'.
Proof.
  intros Hok. unfold RtpPacketParser_Parse, parse_ok, kRtpPacketMinValidSize.
  destruct (Z.ltb_spec (zlen buf) 18); [by eexists _, _ |].
  read_any_only. destruct (negb _); [by eexists _, _ |].
  read_any_only. destruct (IsRtpPayloadType _) eqn:Hpt; cbn [negb]; [| by eexists _, _].
  do 3 read_any_only. destruct (negb _); [by eexists _, _ |].
  do 4 read_any_only.
  specialize (Hok0 Hok) as [_ Hok0]. specialize (Hok1 Hok0) as [_ Hok1].
  specialize (Hok2 Hok1) as [_ Hok2]. specialize (Hok3 Hok2) as [Hts Hok3].
  specialize (Hok4 Hok3) as [_ Hok4]. specialize (Hok5 Hok4) as [_ Hok5].
  specialize (Hok6 Hok5) as [_ Hok6]. specialize (Hok7 Hok6) as [Hpid Hok7].
  specialize (Hok8 Hok7) as [Hmax Hok8]. change (8 * Z.of_nat 2) with 16 in *.
  unfold kAllPacketsLost in *. unfold is_u in *.
  destruct (Z.eqb_spec v7 0xffff); [by eexists _, _ |].
  destruct (Z.ltb_spec v7 v6); [by eexists _, _ |].
  assert (forall f rest', bytes_ok rest' -> exists o q',
    (extensions ← extensions_loop (Z.to_nat (Z.land v4 kRtpExtensionCountMask)) 0 rest';
     match extensions with
     | None => Ret (None, q)
     | Some (delay, payload) =>
         Ret (Some (mkParseResult (Z.land v0 kRtpPayloadTypeMask) v1
                 (Expand 32 (last_parsed_rtp_timestamp q) v2)
                 (negb (Z.land v4 kRtpKeyFrameBitMask =? 0))
                 (Expand 8 (highest_rtp_frame_id q) v5) v6 v7 f delay payload),
              q <| last_parsed_rtp_timestamp := Expand 32 (last_parsed_rtp_timestamp q) v2 |>
                <| highest_rtp_frame_id :=
                     Z.max (highest_rtp_frame_id q) (Expand 8 (highest_rtp_frame_id q) v5) |>)
     end) = Ret (o, q') /\ match o with
       | None => q' = q
       | Some part =>
           0 <= packet_id part <= max_packet_id part /\ max_packet_id part < 65535
           /\ IsRtpPayloadType (payload_type part) = true
           /\ 0 <= part_new_playout_delay part < 2 ^ 16
           /\ highest_rtp_frame_id q' = Z.max (highest_rtp_frame_id q) (part_frame_id part)
           /\ last_parsed_rtp_timestamp q' = part_rtp_timestamp part
           /\ Z.abs (part_rtp_timestamp part - last_parsed_rtp_timestamp q) <= 2 ^ 31
       end) as Hend.
  { intros f rest' Hr. destruct (extensions_loop_total (Z.to_nat (Z.land v4 kRtpExtensionCountMask)) 0 rest' Hr ltac:(done))
      as ([[delay pl] |] & -> & Hd); cbn [mbind outcome_bind]; eexists _, _; (split; [done |]); [| done].
    simpl. destruct (Expand_range 32 (last_parsed_rtp_timestamp q) v2) as [Hnear _]; [lia | exact Hts |].
    change (2 ^ (32 - 1)) with (2 ^ 31) in Hnear. split; [lia |]. split; [lia |]. do 4 (split; [done |]). lia. }
  destruct (negb (Z.land v4 kRtpHasReferenceFrameIdBitMask =? 0)); cbn [andb].
  - destruct (Z.eqb_spec (zlen rest7) 0); [by eexists _, _ |].
    pose proof (zlen_nonneg rest7). read_any_only. apply Hend. by apply Hok9.
  - apply Hend. done.
Qed.

(** * Claims *)

(** Whatever bytes arrive, the RTP parser stays inside the packet; a packet
    it accepts has a packet ID in range and a playout delay of 16 bits, moves the highest frame ID only
    forward and is at most 2^31 ticks from the last one, and a rejected packet leaves the parser unchanged. *)
Theorem rtp_parser_total (q : RtpPacketParser) (buf : list Z) :
  bytes_ok buf ->
  exists o q', RtpPacketParser_Parse q buf = Ret (o, q') /\ parse_ok q o q'.
Proof. apply RtpPacketParser_Parse_ok. Qed.

Lemma rtp_parser_total_witness :
  let buf := [128; 96; 0; 1; 0; 0; 0; 7; 0; 0; 0; 1; 192; 5; 0; 0; 0; 2; 5; 1; 2; 3] in
  exists o q', RtpPacketParser_Parse (new_RtpPacketParser 1) buf = Ret (o, q')
    /\ parse_ok (new_RtpPacketParser 1) o q'.
Proof.
  intros buf. apply (rtp_parser_total (new_RtpPacketParser 1) buf).
  repeat constructor; vm_compute; congruence.
Defined.

(** Every packet the packetizer makes of a frame is at most the maximum
    packet size, is routed as an RTP packet of the sender, and is parsed by the
    receiver of the same stream to the frame's metadata and that packet's part
    of the data; the parts of all the packets, in order, are the data. *)
Theorem rtp_packet_roundtrip (p : RtpPacketizer) (q : RtpPacketParser) (frame : EncodedFrame)
    (i : Z) (buffer : ByteBuffer) :
  packetizer_wf p -> frame_wf p frame -> 0 <= i < ComputeNumberOfPackets p frame ->
  written buffer = [] -> max_packet_size p <= room buffer ->
  in_expansion_range q frame -> rtp_sender_ssrc q = packetizer_sender_ssrc p ->
  exists packet p' q',
    GeneratePacket p frame i buffer = Ret (p', packet)
    /\ zlen packet <= max_packet_size p
    /\ next_sequence_number p' = u16 (next_sequence_number p + 1)
    /\ InspectPacketForRouting packet = Ret (RTP, packetizer_sender_ssrc p)
    /\ RtpPacketParser_Parse q packet = Ret (Some (expected_part p frame i), q')
    /\ concat (map (fun j => payload (expected_part p frame j))
                 (seqZ 0 (ComputeNumberOfPackets p frame))) = data frame.
Proof.
  intros Hp Hf Hi Hw Hroom Hr Hs.
  destruct (GeneratePacket_ok p frame i buffer Hp Hf Hi Hw Hroom) as [Hg Hz].
  eexists (packet_bytes p frame i), _, _. split; [exact Hg |]. split; [done |]. split; [done |].
  split; [by apply InspectPacketForRouting_packet |]. split; [by apply Parse_packet_bytes |].
  by apply concat_payloads.
Qed.

Lemma rtp_packet_roundtrip_witness :
  let p := mkPacketizer 96 7 26 65535 in
  let q := mkRtpParser 7 90000 255 in
  let frame := mkFrame kKeyFrame 256 256 91000 0 250 INT64_MIN INT64_MIN [1; 2; 3; 4; 5; 6; 7; 8] in
  exists packet p' q',
    GeneratePacket p frame 2 (new_buffer 64) = Ret (p', packet)
    /\ zlen packet <= 26
    /\ next_sequence_number p' = u16 (65535 + 1)
    /\ InspectPacketForRouting packet = Ret (RTP, 7)
    /\ RtpPacketParser_Parse q packet = Ret (Some (expected_part p frame 2), q')
    /\ concat (map (fun j => payload (expected_part p frame j))
                 (seqZ 0 (ComputeNumberOfPackets p frame))) = data frame.
Proof.
  intros p q frame. apply (rtp_packet_roundtrip p q frame 2 (new_buffer 64)).
  - split; [reflexivity |]. unfold is_u. vm_compute. intuition congruence.
  - vm_compute. intuition congruence.
  - vm_compute. intuition congruence.
  - reflexivity.
  - vm_compute. congruence.
  - vm_compute. intuition congruence.
  - reflexivity.
Defined.
