(* ===== verification/FrameCollector.v ===== *)
(** Reassembly of a frame from its packets, in any order and with duplicates
    (cast/streaming/impl/frame_collector.cc). *)

From S2P Require Import Prelude Numeric Wire Ids NtpTime RtpDefines RtcpCommon Rtp.

(** * State

    A chunk is [None] until its packet has been collected.  The code keeps the
    packet's buffer and a view of the payload inside it; the model keeps the
    payload, so the two checks that the view lies inside the buffer, which hold
    for every view the RTP parser returns, have no counterpart. *)

Definition kUnknownNumberOfPackets : Z := INT_MAX.

Record FrameCollector := mkCollector {
  frame_ : EncodedFrame; num_missing_packets : Z; chunks : list (option (list Z)) }.
#[export] Instance eta_FrameCollector : Eta FrameCollector := fun c =>
  mkCollector (frame_ c) (num_missing_packets c) (chunks c).

Definition new_FrameCollector : FrameCollector :=
  mkCollector new_EncodedFrame kUnknownNumberOfPackets [].
Definition Reset (c : FrameCollector) : FrameCollector :=
  mkCollector new_EncodedFrame kUnknownNumberOfPackets [].
Definition set_frame_id (id : Z) (c : FrameCollector) : FrameCollector :=
  c <| frame_ := (frame_ c) <| frame_id := id |> |>.
Definition is_complete (c : FrameCollector) : bool := num_missing_packets c =? 0.

(** [std::vector::resize]. *)
Definition resize_chunks (n : Z) (l : list (option (list Z))) : list (option (list Z)) :=
  take (Z.to_nat n) l ++ replicate (Z.to_nat n - length l) None.

(** * Operations *)

Definition part_dependency (part : ParseResult) : Dependency :=
  if is_key_frame part then kKeyFrame
  else if part_frame_id part =? part_referenced_frame_id part then kIndependent
  else kDependent.

Definition CollectRtpPacket (part : ParseResult) (c : FrameCollector)
    : outcome (bool * FrameCollector) :=
  OSP_CHECK (negb (is_null (frame_id (frame_ c)))) ;;
  if negb (part_frame_id part =? frame_id (frame_ c)) then Ret (false, c) else
  let frame_packet_count := max_packet_id part + 1 in
  let first := num_missing_packets c =? kUnknownNumberOfPackets in
  let c := if first then
             c <| num_missing_packets := frame_packet_count |>
               <| chunks := resize_chunks frame_packet_count (chunks c) |>
           else c in
  if negb first && negb (frame_packet_count =? zlen (chunks c)) then Ret (false, c) else
  if zlen (chunks c) <=? packet_id part then Ret (false, c) else
  chunk ← in_bounds (chunks c !! Z.to_nat (packet_id part));
  match chunk with
  | Some _ => Ret (true, c)
  | None =>
      let c :=
        if packet_id part =? 0 then
          c <| frame_ :=
            (frame_ c) <| dependency := part_dependency part |>
                     <| referenced_frame_id := part_referenced_frame_id part |>
                     <| rtp_timestamp := part_rtp_timestamp part |>
                     <| new_playout_delay := part_new_playout_delay part |> |>
        else c in
      let c := c <| chunks := <[Z.to_nat (packet_id part) := Some (payload part)]> (chunks c) |>
                 <| num_missing_packets := num_missing_packets c - 1 |> in
      OSP_CHECK (0 <=? num_missing_packets c) ;;
      Ret (true, c)
  end.

(** The packets of the chunks from [first] on that are not collected. *)
Fixpoint missing_from (id first : Z) (l : list (option (list Z))) : list PacketNack :=
  match l with
  | [] => []
  | None :: l => mkNack id (u16 first) :: missing_from id (first + 1) l
  | Some _ :: l => missing_from id (first + 1) l
  end.

(** The elements appended to [nacks]. *)
Definition GetMissingPackets (c : FrameCollector) : outcome (list PacketNack) :=
  OSP_CHECK (negb (is_null (frame_id (frame_ c)))) ;;
  if is_complete c then Ret []
  else if zlen (chunks c) <=? num_missing_packets c
  then Ret [mkNack (frame_id (frame_ c)) kAllPacketsLost]
  else Ret (missing_from (frame_id (frame_ c)) 0 (chunks c)).

Definition PeekFrameMetadata (c : FrameCollector) : outcome EncodedFrame :=
  OSP_CHECK (is_complete c) ;; Ret (frame_ c).

Definition payload_of (chunk : option (list Z)) : list Z := default [] chunk.

Definition GetFramePayloadSize (c : FrameCollector) : outcome Z :=
  OSP_CHECK (is_complete c) ;;
  Ret (foldl (fun n chunk => n + zlen (payload_of chunk)) 0 (chunks c)).

Definition GetPayloadChunks (c : FrameCollector) : outcome (list (list Z)) :=
  OSP_CHECK (is_complete c) ;; Ret (map payload_of (chunks c)).

(** * Invariant *)

Fixpoint num_none (l : list (option (list Z))) : Z :=
  match l with
  | [] => 0
  | None :: l => 1 + num_none l
  | Some _ :: l => num_none l
  end.

Definition collector_ok (c : FrameCollector) : Prop :=
  is_null (frame_id (frame_ c)) = false
  /\ ((num_missing_packets c = kUnknownNumberOfPackets /\ chunks c = [])
      \/ (num_missing_packets c = num_none (chunks c) /\ 0 < zlen (chunks c) <= 65535)).

(** What the RTP parser guarantees of its results. *)
Definition part_ok (part : ParseResult) : Prop :=
  0 <= packet_id part <= max_packet_id part /\ max_packet_id part < kAllPacketsLost.

Lemma num_none_bounds l : 0 <= num_none l <= zlen l.
Proof. unfold zlen. induction l as [| [] l IH]; simpl; lia. Qed.

Lemma num_none_insert l i v :
  l !! i = Some None -> num_none (<[i := Some v]> l) = num_none l - 1.
Proof.
  revert i. induction l as [| [] l IH]; intros [| i] Hi; simpl in *; try done.
  - by rewrite IH.
  - lia.
  - rewrite IH by done. lia.
Qed.

Lemma num_none_replicate n : num_none (replicate n None) = Z.of_nat n.
Proof. induction n as [| n IH]; [done |]. cbn [replicate num_none]. rewrite IH. lia. Qed.

Lemma resize_chunks_nil n : resize_chunks n [] = replicate (Z.to_nat n) None.
Proof. unfold resize_chunks. rewrite take_nil. simpl. f_equal. lia. Qed.

Lemma zlen_insert {A} i (x : A) l : zlen (<[i := x]> l) = zlen l.
Proof. unfold zlen. by rewrite length_insert. Qed.

Lemma foldl_sizes l k :
  foldl (fun s chunk => s + zlen (payload_of chunk)) k l = k + zlen (concat (map payload_of l)).
Proof.
  revert k. induction l as [| c l IH]; intros k; simpl; [unfold zlen; simpl; lia |].
  rewrite IH, zlen_app. lia.
Qed.

(** [CollectRtpPacket] never faults and keeps the invariant, whatever the
    packet. *)
Lemma CollectRtpPacket_ok part c :
  collector_ok c -> part_ok part ->
  exists ok c', CollectRtpPacket part c = Ret (ok, c') /\ collector_ok c'
    /\ frame_id (frame_ c') = frame_id (frame_ c).
Proof.
  intros [Hnull Hinv] [Hpid Hmax]. unfold CollectRtpPacket, kAllPacketsLost in *. rewrite Hnull.
  change (OSP_CHECK (negb false)) with (Ret tt). cbn [mbind outcome_bind].
  destruct (negb _); [by eexists _, _ |].
  set (first := num_missing_packets c =? kUnknownNumberOfPackets).
  set (c1 := if first then _ else c).
  assert (is_null (frame_id (frame_ c1)) = false /\ frame_id (frame_ c1) = frame_id (frame_ c)
          /\ num_missing_packets c1 = num_none (chunks c1) /\ 0 < zlen (chunks c1) <= 65535)
    as (Hn1 & Hid1 & Hm1 & Hl1).
  { subst c1 first. destruct Hinv as [[Hu Hc] | [Hm Hl]].
    - rewrite Hu, Hc, resize_chunks_nil. change (kUnknownNumberOfPackets =? kUnknownNumberOfPackets) with true.
      cbn [num_missing_packets chunks frame_ update]. split; [done |]. split; [done |].
      rewrite num_none_replicate. unfold zlen. rewrite length_replicate. lia.
    - pose proof (num_none_bounds (chunks c)).
      rewrite (proj2 (Z.eqb_neq _ _)) by (unfold kUnknownNumberOfPackets, INT_MAX; lia).
      split; [done |]. split; [done |]. split; [done | lia]. }
  assert (collector_ok c1) as Hok1 by (split; [done | by right]).
  destruct (negb first && _); [by eexists _, _ |].
  destruct (Z.leb_spec (zlen (chunks c1)) (packet_id part)); [by eexists _, _ |].
  destruct (lookup_lt_is_Some_2 (chunks c1) (Z.to_nat (packet_id part))) as [chunk Hchunk];
    [unfold zlen in *; lia |].
  rewrite Hchunk. cbn [in_bounds mbind outcome_bind]. destruct chunk as [v |]; [by eexists _, _ |].
  pose proof (num_none_insert _ _ (payload part) Hchunk) as Hnn.
  pose proof (num_none_bounds (<[Z.to_nat (packet_id part) := Some (payload part)]> (chunks c1))) as Hnb.
  match goal with |- context [if packet_id part =? 0 then ?a else ?b] =>
    assert (num_missing_packets (if packet_id part =? 0 then a else b) = num_missing_packets c1
      /\ chunks (if packet_id part =? 0 then a else b) = chunks c1
      /\ frame_id (frame_ (if packet_id part =? 0 then a else b)) = frame_id (frame_ c1))
      as (Ha & Hb & Hc) by (by destruct (packet_id part =? 0));
    set (c2 := if packet_id part =? 0 then a else b) in * end.
  cbn [num_missing_packets chunks frame_ update].
  rewrite Ha, Hb, OSP_CHECK_leb by lia. cbn [mbind outcome_bind].
  eexists _, _. split; [done |]. split; [| simpl; congruence].
  split; [simpl; congruence |]. right. cbn [num_missing_packets chunks].
  rewrite zlen_insert. split; [lia | done].
Qed.

(** The metadata of the frame [fid] whose first packet is [part]. *)
Definition metadata_of (fid : Z) (part : ParseResult) : EncodedFrame :=
  mkFrame (part_dependency part) fid (part_referenced_frame_id part) (part_rtp_timestamp part)
    0 (part_new_playout_delay part) INT64_MIN INT64_MIN [].

(** * Provenance

    What has been collected comes from packets of the frame that agree on their
    number, and the metadata from the first of them. *)

Definition has_first (c : FrameCollector) : Prop := exists p, chunks c !! 0%nat = Some (Some p).

Definition content_ok (origin : ParseResult -> Prop) (fid : Z) (c : FrameCollector) : Prop :=
  (forall i p, chunks c !! i = Some (Some p) ->
     exists part, origin part /\ part_frame_id part = fid /\ packet_id part = Z.of_nat i
       /\ max_packet_id part + 1 = zlen (chunks c) /\ payload part = p
       /\ (i = 0%nat -> frame_ c = metadata_of fid part))
  /\ (~ has_first c -> frame_ c = new_EncodedFrame <| frame_id := fid |>).

Lemma content_ok_free origin fid : content_ok origin fid (set_frame_id fid new_FrameCollector).
Proof. by split. Qed.

Lemma CollectRtpPacket_content (origin : ParseResult -> Prop) fid part c ok c' :
  collector_ok c -> frame_id (frame_ c) = fid -> part_ok part -> origin part ->
  content_ok origin fid c -> CollectRtpPacket part c = Ret (ok, c') ->
  content_ok origin fid c' /\ (has_first c' -> has_first c \/ (ok = true /\ packet_id part = 0))
  /\ (ok = true -> part_frame_id part = fid).
Proof.
  intros [Hnull Hinv] Hid [Hpid Hmax] Ho [Hc Hn]. unfold CollectRtpPacket, kAllPacketsLost in *. rewrite Hnull.
  change (OSP_CHECK (negb false)) with (Ret tt). cbn [mbind outcome_bind].
  destruct (Z.eqb_spec (part_frame_id part) (frame_id (frame_ c))) as [Hf | Hf]; cbn [negb].
  2: { intros [= <- <-]. split; [by split |]. split; [by left | done]. }
  set (first := num_missing_packets c =? kUnknownNumberOfPackets).
  set (c1 := if first then _ else c).
  assert (content_ok origin fid c1 /\ (has_first c1 -> has_first c)) as [[Hc1 Hn1] Hfirst].
  { subst c1 first. destruct Hinv as [[Hu Hnil] | [Hm Hl]].
    - rewrite Hu, Hnil, resize_chunks_nil, Z.eqb_refl. cbn [chunks frame_ update].
      assert (forall i p, (replicate (Z.to_nat (max_packet_id part + 1)) None : list (option (list Z))) !! i <> Some (Some p)) as Hno
        by (intros i p [? _]%lookup_replicate; done).
      split; [split |].
      + by intros i p Hi%Hno.
      + intros _. apply Hn. unfold has_first. rewrite Hnil. by intros [? ?].
      + by intros [p Hp%Hno].
    - pose proof (num_none_bounds (chunks c)).
      rewrite (proj2 (Z.eqb_neq _ _)) by (unfold kUnknownNumberOfPackets, INT_MAX; lia). by split. }
  assert (frame_id (frame_ c1) = fid) as Hid1 by (subst c1; by destruct first).
  destruct (negb first && _) eqn:Hcount; [intros [= <- <-]; split; [by split |]; split; [by auto | congruence] |].
  destruct (Z.leb_spec (zlen (chunks c1)) (packet_id part)) as [Hl | Hl];
    [intros [= <- <-]; split; [by split |]; split; [by auto | congruence] |].
  assert (max_packet_id part + 1 = zlen (chunks c1)) as Hcnt.
  { subst c1 first. destruct Hinv as [[Hu Hnil] | [Hm Hlz]].
    - rewrite Hu, Z.eqb_refl. cbn [chunks update]. rewrite Hnil, resize_chunks_nil.
      unfold zlen. rewrite length_replicate. lia.
    - pose proof (num_none_bounds (chunks c)).
      rewrite (proj2 (Z.eqb_neq _ _)) in Hcount |- * by (unfold kUnknownNumberOfPackets, INT_MAX; lia).
      cbn [negb andb] in Hcount. apply negb_false_iff, Z.eqb_eq in Hcount. done. }
  destruct (chunks c1 !! Z.to_nat (packet_id part)) as [[v |] |] eqn:Hlook; cbn [in_bounds mbind outcome_bind];
    [intros [= <- <-]; split; [by split |]; split; [by auto | congruence] | | done].
  intros H. inv_outcome. clear Hm. cbn [chunks frame_ update].
  split; [| split; [| congruence]].
  - split.
    + intros i p Hi. cbn [chunks update] in Hi. apply list_lookup_insert_Some in Hi as [(<- & [= <-] & Hlt) | [Hne Hi]].
      * exists part. split; [done |]. split; [congruence |]. split; [lia |]. split; [| split; [done |]].
        { cbn [chunks update]. rewrite zlen_insert. by destruct (packet_id part =? 0). }
        intros H0. rewrite (proj2 (Z.eqb_eq _ _)) by lia. cbn [frame_ update].
        unfold metadata_of. rewrite Hn1.
        { done. }
        unfold has_first. replace 0%nat with (Z.to_nat (packet_id part)) by lia. rewrite Hlook. by intros [? ?].
      * assert (chunks c1 !! i = Some (Some p)) as Hi1 by (by destruct (packet_id part =? 0)).
        destruct (Hc1 i p Hi1) as (part' & Ho' & Hf' & Hp' & Hm' & Hpl & Hfr).
        exists part'. split; [done |]. split; [done |]. split; [done |].
        split; [cbn [chunks update]; rewrite zlen_insert; by destruct (packet_id part =? 0) |].
        split; [done |]. intros ->. rewrite (proj2 (Z.eqb_neq _ _)) by lia. by apply Hfr.
    + intros Hno. destruct (Z.eqb_spec (packet_id part) 0) as [E | E]; cbn [frame_ update].
      * destruct Hno. unfold has_first. cbn [chunks update]. rewrite E. cbn. exists (payload part).
        apply list_lookup_insert_eq. apply lookup_lt_Some in Hlook. by rewrite E in Hlook.
      * apply Hn1. intros [p Hp]. apply Hno. exists p. cbn [chunks update].
        rewrite list_lookup_insert_ne by lia. done.
  - intros [p Hp]. cbn [chunks update] in Hp.
    apply list_lookup_insert_Some in Hp as [(E & _) | [_ Hp]]; [right; split; [done | lia] | left].
    apply Hfirst. exists p. by destruct (packet_id part =? 0).
Qed.

(** A packet that is refused completes nothing. *)
Lemma CollectRtpPacket_refused part c c' :
  collector_ok c -> part_ok part -> CollectRtpPacket part c = Ret (false, c') ->
  is_complete c = false -> is_complete c' = false.
Proof.
  intros [Hnull _] [Hpid Hmax]. unfold CollectRtpPacket. rewrite Hnull.
  change (OSP_CHECK (negb false)) with (Ret tt). cbn [mbind outcome_bind].
  destruct (negb (part_frame_id part =? _)); [by intros [= <-] |].
  set (c1 := if _ =? kUnknownNumberOfPackets then _ else c).
  assert (is_complete c = false -> is_complete c1 = false) as Hc1.
  { subst c1. destruct (_ =? kUnknownNumberOfPackets); [| done]. intros _. unfold is_complete. cbn.
    apply Z.eqb_neq. lia. }
  destruct (_ && _); [by intros [= <-] |]. destruct (_ <=? _); [by intros [= <-] |].
  destruct (chunks c1 !! _) as [[v |] |]; cbn [in_bounds mbind outcome_bind]; [done | | done].
  intros H. by inv_outcome.
Qed.

(** * Reassembly *)

(** The packets received for a frame, in the order received. *)
Fixpoint CollectAll (parts : list ParseResult) (c : FrameCollector)
    : outcome (list bool * FrameCollector) :=
  match parts with
  | [] => Ret ([], c)
  | part :: parts =>
      '(ok, c) ← CollectRtpPacket part c;
      '(oks, c) ← CollectAll parts c;
      Ret (ok :: oks, c)
  end.

Section Reassembly.
#[local] Set Default Proof Using "All".
(** The [n] parts of one frame. *)
Context (fid n : Z) (parts : Z -> ParseResult).
Hypothesis fid_not_null : is_null fid = false.
Hypothesis n_bounds : 0 < n <= 65534.
Hypothesis parts_frame : forall i, 0 <= i < n -> part_frame_id (parts i) = fid.
Hypothesis parts_max : forall i, 0 <= i < n -> max_packet_id (parts i) = n - 1.
Hypothesis parts_id : forall i, 0 <= i < n -> packet_id (parts i) = i.

Definition chunk_at (ids : list Z) (j : Z) : option (list Z) :=
  if bool_decide (j ∈ ids) then Some (payload (parts j)) else None.

(** The collector's state once the packets [ids] have been collected. *)
Definition collected (ids : list Z) : FrameCollector :=
  let l := map (chunk_at ids) (seqZ 0 n) in
  mkCollector
    (if bool_decide (0 ∈ ids) then metadata_of fid (parts 0)
     else new_EncodedFrame <| frame_id := fid |>) (num_none l) l.

Lemma zlen_chunks ids : zlen (map (chunk_at ids) (seqZ 0 n)) = n.
Proof. unfold zlen. rewrite length_map, length_seqZ. lia. Qed.

Lemma lookup_chunks ids i :
  0 <= i < n -> map (chunk_at ids) (seqZ 0 n) !! Z.to_nat i = Some (chunk_at ids i).
Proof.
  intros Hi. change (map (chunk_at ids) (seqZ 0 n)) with (chunk_at ids <$> seqZ 0 n).
  rewrite list_lookup_fmap, lookup_seqZ_lt by lia. simpl. do 2 f_equal. lia.
Qed.

Lemma insert_chunks ids i :
  0 <= i < n ->
  <[Z.to_nat i := Some (payload (parts i))]> (map (chunk_at ids) (seqZ 0 n))
  = map (chunk_at (i :: ids)) (seqZ 0 n).
Proof.
  intros Hi. apply list_eq. intros k.
  destruct (decide (k < Z.to_nat n)%nat) as [Hk | Hk].
  2: { rewrite !lookup_ge_None_2; rewrite ?length_insert, ?length_map, ?length_seqZ; [done | lia | lia]. }
  rewrite <- (Nat2Z.id k). rewrite (lookup_chunks (i :: ids)) by lia.
  destruct (decide (k = Z.to_nat i)) as [-> | Hne].
  - rewrite Z2Nat.id, list_lookup_insert_eq by (rewrite ?length_map, ?length_seqZ; lia).
    unfold chunk_at. rewrite bool_decide_true by (by left). done.
  - rewrite Nat2Z.id, list_lookup_insert_ne by done. rewrite <- (Nat2Z.id k), lookup_chunks by lia.
    unfold chunk_at. f_equal. rewrite Nat2Z.id.
    rewrite (bool_decide_ext (Z.of_nat k ∈ i :: ids) (Z.of_nat k ∈ ids)); [done |].
    rewrite elem_of_cons. split; [intros [? | ?]; [lia | done] | by right].
Qed.

Lemma collect_step ids i :
  0 <= i < n -> CollectRtpPacket (parts i) (collected ids) = Ret (true, collected (i :: ids)).
Proof.
  intros Hi. unfold CollectRtpPacket.
  assert (frame_id (frame_ (collected ids)) = fid) as Hf.
  { unfold collected. cbn. by destruct (bool_decide _). }
  rewrite Hf, fid_not_null. change (OSP_CHECK (negb false)) with (Ret tt).
  cbn [mbind outcome_bind]. rewrite parts_frame, Z.eqb_refl by done. cbn [negb].
  set (l := map (chunk_at ids) (seqZ 0 n)).
  pose proof (num_none_bounds l) as Hb. pose proof (zlen_chunks ids) as Hl. fold l in Hl.
  change (num_missing_packets (collected ids)) with (num_none l).
  rewrite (proj2 (Z.eqb_neq _ _)) by (unfold kUnknownNumberOfPackets, INT_MAX; lia).
  cbn [negb andb]. change (chunks (collected ids)) with l.
  rewrite parts_max, Hl by done. rewrite Z.sub_add, Z.eqb_refl. cbn [negb].
  rewrite parts_id by done. rewrite (proj2 (Z.leb_gt _ _)) by lia.
  unfold l at 1. rewrite lookup_chunks by done. cbn [in_bounds mbind outcome_bind].
  unfold chunk_at. case_bool_decide as Hin.
  - f_equal. f_equal. unfold collected.
    assert (map (chunk_at (i :: ids)) (seqZ 0 n) = map (chunk_at ids) (seqZ 0 n)) as ->.
    { apply map_ext. intros j. unfold chunk_at.
      rewrite (bool_decide_ext (j ∈ i :: ids) (j ∈ ids)); [done |]. set_solver. }
    rewrite (bool_decide_ext (0 ∈ i :: ids) (0 ∈ ids)); [done |]. set_solver.
  - assert (l !! Z.to_nat i = Some None) as Hnone.
    { unfold l. rewrite lookup_chunks by done. unfold chunk_at. by rewrite bool_decide_false. }
    pose proof (num_none_insert l _ (payload (parts i)) Hnone) as Hnn.
    unfold l in Hnn at 1. rewrite insert_chunks in Hnn by done.
    pose proof (num_none_bounds (map (chunk_at (i :: ids)) (seqZ 0 n))) as Hb'.
    assert (forall m : EncodedFrame, m = (if bool_decide (0 ∈ i :: ids) then metadata_of fid (parts 0)
       else new_EncodedFrame <| frame_id := fid |>) ->
      mkCollector m (num_none l - 1) (<[Z.to_nat i := Some (payload (parts i))]> l)
      = collected (i :: ids)) as Heq.
    { intros m ->. unfold collected. rewrite <- Hnn. f_equal. unfold l. by apply insert_chunks. }
    destruct (Z.eqb_spec i 0) as [-> | Hne]; cbn [num_missing_packets chunks frame_ update];
      change (num_missing_packets (collected ids)) with (num_none l);
      change (chunks (collected ids)) with l;
      rewrite OSP_CHECK_leb by lia; cbn [mbind outcome_bind]; f_equal; f_equal; apply Heq.
    + rewrite bool_decide_true by (by left). unfold metadata_of, collected.
      rewrite bool_decide_false by done. done.
    + rewrite (bool_decide_ext (0 ∈ i :: ids) (0 ∈ ids)); [done |].
      rewrite elem_of_cons. split; [intros [? | ?]; [lia | done] | by right].
Qed.

Definition fresh : FrameCollector := set_frame_id fid new_FrameCollector.

(** The first packet sizes the collector. *)
Lemma collect_first i :
  0 <= i < n -> CollectRtpPacket (parts i) fresh = Ret (true, collected [i]).
Proof.
  intros Hi. rewrite <- (collect_step [] i Hi). unfold CollectRtpPacket.
  assert (map (chunk_at []) (seqZ 0 n) = replicate (Z.to_nat n) None) as Hl.
  { symmetry. apply replicate_as_elem_of. split; [by rewrite length_map, length_seqZ |].
    intros x (j & -> & _)%list_elem_of_fmap. done. }
  assert (collected [] = mkCollector (frame_ fresh) n (replicate (Z.to_nat n) None)) as ->.
  { unfold collected. rewrite Hl, num_none_replicate. cbn. f_equal. lia. }
  change (frame_id (frame_ fresh)) with fid. change (chunks fresh) with (@nil (option (list Z))).
  cbn [frame_ num_missing_packets chunks]. change (frame_id (frame_ fresh)) with fid.
  change (num_missing_packets fresh =? kUnknownNumberOfPackets) with true.
  rewrite parts_max, Z.sub_add, resize_chunks_nil by done.
  rewrite (proj2 (Z.eqb_neq n kUnknownNumberOfPackets)) by (unfold kUnknownNumberOfPackets, INT_MAX; lia).
  cbn [negb andb frame_ num_missing_packets chunks update].
  assert (zlen (replicate (Z.to_nat n) (@None (list Z))) = n) as ->
    by (unfold zlen; rewrite length_replicate; lia).
  by rewrite parts_frame, !Z.eqb_refl by done.
Qed.

Lemma collect_all ids seen :
  Forall (fun i => 0 <= i < n) ids ->
  CollectAll (map parts ids) (collected seen)
  = Ret (map (fun _ => true) ids, collected (rev ids ++ seen)).
Proof.
  intros Hids. revert seen. induction Hids as [| i ids Hi Hids IH]; intros seen; [done |].
  cbn [map CollectAll]. rewrite collect_step by done. cbn [mbind outcome_bind].
  rewrite IH. cbn [mbind outcome_bind rev]. by rewrite <- app_assoc.
Qed.

Lemma collected_complete ids :
  is_complete (collected ids) = true <-> forall i, 0 <= i < n -> i ∈ ids.
Proof.
  unfold is_complete. cbn [num_missing_packets collected]. rewrite Z.eqb_eq.
  assert (forall l, num_none (map (chunk_at ids) l) = 0 <-> forall i, i ∈ l -> i ∈ ids) as ->.
  { induction l as [| j l IH]; [split; [intros _ i []%not_elem_of_nil | done] |].
    pose proof (num_none_bounds (map (chunk_at ids) l)).
    cbn [map]. unfold chunk_at at 1. case_bool_decide as Hj; cbn [num_none].
    - rewrite IH. split; [intros Hall i [-> | ?]%elem_of_cons; auto | set_solver].
    - split; [lia |]. intros Hall. by destruct Hj; apply Hall; left. }
  split; intros H i Hi; apply H; [apply elem_of_seqZ; lia | apply elem_of_seqZ in Hi; lia].
Qed.

Lemma missing_from_eq ids k m :
  0 <= k -> k + m <= 65535 ->
  missing_from fid k (map (chunk_at ids) (seqZ k m))
  = map (mkNack fid) (filter (fun i => i ∉ ids) (seqZ k m)).
Proof.
  destruct (decide (0 <= m)) as [Hm |].
  2: { intros _ _. by rewrite seqZ_nil by lia. }
  revert k. pattern m. apply natlike_ind; [| | done]; clear m Hm.
  - intros k _ _. by rewrite seqZ_nil.
  - intros m Hm IH k Hk Hkm. rewrite seqZ_cons by lia.
    replace (Z.pred (Z.succ m)) with m by lia. cbn [map]. unfold chunk_at at 1.
    rewrite filter_cons. case_bool_decide as Hin; cbn [missing_from].
    + rewrite decide_False by tauto. rewrite <- IH by lia. done.
    + rewrite decide_True by done. rewrite wrap_small by (unfold is_u; lia). cbn [map].
      f_equal. rewrite <- IH by lia. done.
Qed.

Lemma collected_missing ids :
  GetMissingPackets (collected ids)
  = Ret (if bool_decide (filter (fun i => i ∈ ids) (seqZ 0 n) = [])
         then [mkNack fid kAllPacketsLost]
         else map (mkNack fid) (filter (fun i => i ∉ ids) (seqZ 0 n))).
Proof.
  unfold GetMissingPackets.
  assert (frame_id (frame_ (collected ids)) = fid) as ->
    by (cbn; by destruct (bool_decide _)).
  rewrite fid_not_null. change (OSP_CHECK (negb false)) with (Ret tt). cbn [mbind outcome_bind].
  assert (forall l, num_none (map (chunk_at ids) l) = zlen (filter (fun i => i ∉ ids) l)) as Hnum.
  { induction l as [| j l IH]; [done |]. cbn [map]. unfold chunk_at at 1. rewrite filter_cons.
    case_bool_decide as Hj; cbn [num_none].
    - by rewrite decide_False by tauto.
    - rewrite decide_True by done. rewrite IH. by autorewrite with zlen. }
  unfold is_complete. cbn [num_missing_packets chunks collected]. rewrite Hnum, zlen_chunks.
  assert (forall l, zlen (filter (fun i => i ∈ ids) l) + zlen (filter (fun i => i ∉ ids) l) = zlen l)
    as Hsum.
  { induction l as [| j l IH]; [done |]. rewrite !filter_cons.
    destruct (decide (j ∈ ids)), (decide (j ∉ ids)); try tauto; autorewrite with zlen; lia. }
  specialize (Hsum (seqZ 0 n)).
  assert (zlen (seqZ 0 n) = n) as Hn by (unfold zlen; rewrite length_seqZ; lia).
  pose proof (zlen_nonneg (filter (fun i => i ∈ ids) (seqZ 0 n))) as Hnn.
  case_bool_decide as Hnil.
  - rewrite Hnil, zlen_nil in Hsum. rewrite (proj2 (Z.eqb_neq _ _)) by lia.
    by rewrite (proj2 (Z.leb_le _ _)) by lia.
  - assert (0 < zlen (filter (fun i => i ∈ ids) (seqZ 0 n))) as Hpos.
    { destruct (filter (fun i => i ∈ ids) (seqZ 0 n)); [done |]. rewrite zlen_cons.
      pose proof (zlen_nonneg l). lia. }
    destruct (Z.eqb_spec (zlen (filter (fun i => i ∉ ids) (seqZ 0 n))) 0) as [H0 | H0].
    + destruct (filter (fun i => i ∉ ids) (seqZ 0 n)); [done |]. rewrite zlen_cons in H0.
      pose proof (zlen_nonneg l). lia.
    + rewrite (proj2 (Z.leb_gt _ _)) by lia. by rewrite missing_from_eq by lia.
Qed.

Lemma collected_chunks ids :
  is_complete (collected ids) = true ->
  GetPayloadChunks (collected ids) = Ret (map (fun j => payload (parts j)) (seqZ 0 n))
  /\ PeekFrameMetadata (collected ids) = Ret (metadata_of fid (parts 0)).
Proof.
  intros Hc. pose proof (proj1 (collected_complete ids) Hc) as Hall.
  unfold GetPayloadChunks, PeekFrameMetadata. rewrite Hc. cbn [OSP_CHECK mbind outcome_bind].
  split; cbn [collected chunks frame_].
  - f_equal. rewrite map_map. apply map_ext_in. intros j Hj%list_elem_of_In%elem_of_seqZ.
    unfold chunk_at. by rewrite bool_decide_true by (apply Hall; lia).
  - by rewrite bool_decide_true by (apply Hall; lia).
Qed.

End Reassembly.

(** * Claims *)

(** The collector never faults, whatever packets the RTP parser hands it:
    its count of missing packets is always the number of chunks not yet
    collected. *)
Theorem collector_safe (parts : list ParseResult) (c : FrameCollector) :
  collector_ok c -> Forall part_ok parts ->
  exists oks c', CollectAll parts c = Ret (oks, c') /\ collector_ok c'
    /\ returns (GetMissingPackets c')
    /\ (is_complete c' = true -> returns (GetPayloadChunks c') /\ returns (GetFramePayloadSize c')).
Proof.
  intros Hc Hparts. revert c Hc. induction Hparts as [| part parts Hp Hparts IH]; intros c Hc.
  - eexists _, _. split; [done |]. split; [done |]. destruct Hc as [Hnull _].
    unfold GetMissingPackets, GetPayloadChunks, GetFramePayloadSize. rewrite Hnull.
    change (OSP_CHECK (negb false)) with (Ret tt). cbn [mbind outcome_bind].
    split; [destruct (is_complete c), (zlen (chunks c) <=? num_missing_packets c); by eexists | intros ->; split; by eexists].
  - destruct (CollectRtpPacket_ok part c Hc Hp) as (ok & c1 & Heq & Hc1 & _).
    destruct (IH c1 Hc1) as (oks & c2 & Heq2 & Hc2).
    exists (ok :: oks), c2. cbn [CollectAll]. rewrite Heq. cbn [mbind outcome_bind].
    rewrite Heq2. by split.
Qed.

Lemma collector_safe_witness :
  let c := set_frame_id 5 new_FrameCollector in
  let part := mkParseResult 96 1 900 true 5 1 2 5 0 [7] in
  exists oks c', CollectAll [part; part] c = Ret (oks, c') /\ collector_ok c'
    /\ returns (GetMissingPackets c')
    /\ (is_complete c' = true -> returns (GetPayloadChunks c') /\ returns (GetFramePayloadSize c')).
Proof.
  intros c part. apply (collector_safe [part; part] c).
  - split; [reflexivity | left; split; reflexivity].
  - repeat constructor; vm_compute; congruence.
Defined.

(** C33 A frame split by the packetizer is reassembled whatever the order in
    which its packets arrive and however often: every packet is accepted, the
    packets reported missing are exactly those not yet received (or the whole
    frame, when none was), the frame is complete exactly when all have been
    received, and then its payload is the frame's data and its metadata the
    sender's. *)
Theorem frame_reassembly (p : RtpPacketizer) (frame : EncodedFrame) (ids : list Z) :
  packetizer_wf p -> frame_wf p frame -> is_null (frame_id frame) = false ->
  let n := ComputeNumberOfPackets p frame in
  Forall (fun i => 0 <= i < n) ids ->
  exists c,
    CollectAll (map (expected_part p frame) ids) (set_frame_id (frame_id frame) new_FrameCollector)
    = Ret (map (fun _ => true) ids, c)
    /\ GetMissingPackets c
       = Ret (if bool_decide (ids = []) then [mkNack (frame_id frame) kAllPacketsLost]
              else map (mkNack (frame_id frame)) (filter (fun i => i ∉ ids) (seqZ 0 n)))
    /\ (is_complete c = true <-> forall i, 0 <= i < n -> i ∈ ids)
    /\ (is_complete c = true ->
          (exists payloads, GetPayloadChunks c = Ret payloads /\ concat payloads = data frame)
          /\ GetFramePayloadSize c = Ret (zlen (data frame))
          /\ PeekFrameMetadata c
             = Ret (mkFrame (part_dependency (expected_part p frame 0)) (frame_id frame)
                      (referenced_frame_id frame) (rtp_timestamp frame) 0
                      (if announces_delay frame 0 then new_playout_delay frame else 0)
                      INT64_MIN INT64_MIN [])).
Proof.
  intros Hp Hf Hnull n Hids. pose proof Hf as (Hlen & Hn & _).
  destruct (ComputeNumberOfPackets_spec p frame Hp Hlen Hn) as (Hn1 & _). fold n in Hn1.
  assert (0 < n <= 65534) as Hnb by lia.
  set (parts := expected_part p frame). set (fid := frame_id frame) in *.
  assert (forall i, 0 <= i < n -> part_frame_id (parts i) = fid) as Pf by done.
  assert (forall i, 0 <= i < n -> max_packet_id (parts i) = n - 1) as Pm by done.
  assert (forall i, 0 <= i < n -> packet_id (parts i) = i) as Pi by done.
  destruct ids as [| i ids].
  { exists (fresh fid). split; [done |]. split; [| split; [| done]].
    - unfold GetMissingPackets. change (frame_id (frame_ (fresh fid))) with fid. by rewrite Hnull.
    - split; [done |]. intros Hall. specialize (Hall 0 ltac:(lia)). by apply not_elem_of_nil in Hall. }
  apply Forall_cons in Hids as [Hi Hids].
  exists (collected fid n parts (rev ids ++ [i])).
  assert (forall x, x ∈ rev ids ++ [i] <-> x ∈ i :: ids) as Hrev.
  { intros x. rewrite elem_of_app, !list_elem_of_In, <- in_rev. simpl. tauto. }
  split; [| split; [| split]].
  - cbn [map CollectAll]. change (set_frame_id fid new_FrameCollector) with (fresh fid).
    rewrite (collect_first fid n parts Hnull Hnb Pf Pm Pi) by done. cbn [mbind outcome_bind].
    by rewrite (collect_all fid n parts Hnull Hnb Pf Pm Pi).
  - rewrite (collected_missing fid n parts Hnull Hnb Pf Pm Pi), (bool_decide_false (_ :: _ = [])) by done.
    rewrite bool_decide_false.
    + do 2 f_equal. apply list_filter_iff. intros x. by rewrite Hrev.
    + intros Hnil. assert (i ∈ filter (fun x => x ∈ rev ids ++ [i]) (seqZ 0 n)) as Hin.
      { apply list_elem_of_filter. split; [apply Hrev; by left | apply elem_of_seqZ; lia]. }
      rewrite Hnil in Hin. by apply not_elem_of_nil in Hin.
  - rewrite (collected_complete fid n parts Hnull Hnb Pf Pm Pi).
    split; intros H x Hx; apply Hrev; auto.
  - intros Hc. destruct (collected_chunks fid n parts Hnull Hnb Pf Pm Pi _ Hc) as [Hch Hm].
    pose proof (concat_payloads p frame Hp Hf) as Hcat. fold n parts in Hcat.
    split; [by eexists |]. split; [| exact Hm].
    unfold GetPayloadChunks, GetFramePayloadSize in *. rewrite Hc in *.
    cbn [OSP_CHECK mbind outcome_bind] in *. injection Hch as Hch.
    rewrite foldl_sizes. cbn [collected chunks] in *. rewrite Hch.
    rewrite Z.add_0_l. exact (f_equal (fun l => Ret (zlen l)) Hcat).
Qed.

Lemma frame_reassembly_witness :
  let p := mkPacketizer 96 7 26 65535 in
  let frame := mkFrame kDependent 256 255 91000 0 250 INT64_MIN INT64_MIN [1; 2; 3; 4; 5; 6; 7; 8] in
  exists c,
    CollectAll (map (expected_part p frame) [2; 0; 2]) (set_frame_id 256 new_FrameCollector)
    = Ret (map (fun _ => true) [2; 0; 2], c)
    /\ GetMissingPackets c = Ret (map (mkNack 256) (filter (fun i => i ∉ [2; 0; 2]) (seqZ 0 3))).
Proof.
  intros p frame.
  destruct (frame_reassembly p frame [2; 0; 2]) as (c & H1 & H2 & _).
  - split; [reflexivity |]. unfold is_u. vm_compute. intuition congruence.
  - vm_compute. intuition congruence.
  - reflexivity.
  - repeat constructor; vm_compute; congruence.
  - exists c. split; [exact H1 | exact H2].
Defined.
