(* ===== verification/FrameCrypto.v ===== *)
(** Encryption of frame payloads (cast/streaming/impl/frame_crypto.cc).  The
    AES primitives are OpenSSL's, outside the repository: they are parameters,
    and the theorems use what counter mode guarantees. *)

From S2P Require Import Prelude Numeric Wire Ids NtpTime RtpDefines RtcpCommon Rtp.

(** The running state of counter mode: the counter block, the key stream block
    and the offset in it. *)
Definition ctr_state : Type := list Z * list Z * Z.

(** [EncodedFrame::CopyMetadataTo]. *)
Definition CopyMetadataTo (src dest : EncodedFrame) : EncodedFrame :=
  mkFrame (dependency src) (frame_id src) (referenced_frame_id src) (rtp_timestamp src)
    (reference_time src) (new_playout_delay src) (capture_begin_time src) (capture_end_time src)
    (data dest).

(** The nonce of a frame: its identifier in bytes 8 to 11, masked. *)
Definition aes_nonce (cast_iv_mask : list Z) (id : Z) : list Z :=
  zip_with Z.lxor (replicate 8 0 ++ be_encode 4 (lower_32_bits id) ++ replicate 4 0) cast_iv_mask.

Section FrameCrypto.
Context {AES_KEY : Type}.
Variable AES_ctr128_encrypt : AES_KEY -> ctr_state -> list Z -> list Z * ctr_state.

Record FrameCrypto := mkCrypto { aes_key : AES_KEY; cast_iv_mask : list Z }.

(** [AES_set_encrypt_key] gives no key when it fails. *)
Definition new_FrameCrypto (set_encrypt_key : list Z -> option AES_KEY) (key mask : list Z)
    : outcome FrameCrypto :=
  match set_encrypt_key key with
  | Some k => Ret (mkCrypto k mask)
  | None => Fault CheckFailed
  end.

(** The loop over the chunks; [out] is what has been written. *)
Fixpoint crypt_loop (key : AES_KEY) (st : ctr_state) (out_size : Z) (chunks : list (list Z))
    (out : list Z) : outcome (list Z) :=
  match chunks with
  | [] => Ret out
  | chunk :: chunks =>
      OSP_CHECK (zlen out + zlen chunk <=? out_size) ;;
      let '(bytes, st) := AES_ctr128_encrypt key st chunk in
      crypt_loop key st out_size chunks (out ++ bytes)
  end.

Definition Crypt (c : FrameCrypto) (id : Z) (chunks : list (list Z)) (out_size : Z)
    : outcome (list Z) :=
  OSP_CHECK (negb (is_null id)) ;;
  out ← crypt_loop (aes_key c) (aes_nonce (cast_iv_mask c) id, replicate 16 0, 0)
          out_size chunks [];
  OSP_CHECK (zlen out =? out_size) ;;
  Ret out.

Definition Encrypt (c : FrameCrypto) (encoded_frame : EncodedFrame) : outcome EncodedFrame :=
  bytes ← Crypt c (frame_id encoded_frame) [data encoded_frame] (zlen (data encoded_frame));
  Ret (CopyMetadataTo encoded_frame (new_EncodedFrame <| data := bytes |>)).

Definition Decrypt (c : FrameCrypto) (id : Z) (chunks : list (list Z)) (out_size : Z)
    : outcome (list Z) := Crypt c id chunks out_size.

(** Counter mode is a stream cipher: it keeps lengths, encrypting in pieces
    is encrypting the whole, and it is its own inverse from the same state. *)
Hypothesis ctr_length : forall k st l, length (AES_ctr128_encrypt k st l).1 = length l.
Hypothesis ctr_stream : forall k st a b,
  AES_ctr128_encrypt k st (a ++ b)
  = let '(x, st1) := AES_ctr128_encrypt k st a in
    let '(y, st2) := AES_ctr128_encrypt k st1 b in (x ++ y, st2).
Hypothesis ctr_involutive : forall k st l,
  bytes_ok l -> (AES_ctr128_encrypt k st (AES_ctr128_encrypt k st l).1).1 = l.

#[local] Set Default Proof Using "All".

Lemma ctr_nil k st : (AES_ctr128_encrypt k st []).1 = [].
Proof. pose proof (ctr_length k st []) as H. by destruct (_.1). Qed.

Lemma crypt_loop_concat k st size chunks out :
  chunks <> [] -> zlen out + zlen (concat chunks) <= size ->
  crypt_loop k st size chunks out
  = Ret (out ++ (AES_ctr128_encrypt k st (concat chunks)).1).
Proof.
  revert st out. induction chunks as [| c chunks IH]; intros st out Hne Hlen; [done |].
  cbn [crypt_loop concat] in *. rewrite zlen_app in Hlen.
  pose proof (zlen_nonneg (concat chunks)). rewrite OSP_CHECK_leb by lia. cbn [mbind outcome_bind].
  rewrite ctr_stream. pose proof (ctr_length k st c) as Hc.
  destruct (AES_ctr128_encrypt k st c) as [x st1]. simpl in Hc.
  destruct chunks as [| c' chunks].
  - cbn [crypt_loop concat]. pose proof (ctr_nil k st1) as Hnil.
    destruct (AES_ctr128_encrypt k st1 []) as [y st2]. simpl in *. by rewrite Hnil, app_nil_r.
  - rewrite IH; [| done |].
    + destruct (AES_ctr128_encrypt k st1 (concat (c' :: chunks))) as [y st2]. simpl.
      by rewrite <- app_assoc.
    + rewrite zlen_app. assert (zlen x = zlen c) as -> by (unfold zlen; lia). lia.
Qed.

Lemma Crypt_concat c id chunks :
  is_null id = false -> chunks <> [] ->
  Crypt c id chunks (zlen (concat chunks))
  = Ret (AES_ctr128_encrypt (aes_key c) (aes_nonce (cast_iv_mask c) id, replicate 16 0, 0)
           (concat chunks)).1.
Proof.
  intros Hid Hne. unfold Crypt. rewrite Hid. change (OSP_CHECK (negb false)) with (Ret tt).
  cbn [mbind outcome_bind]. rewrite crypt_loop_concat by (done || (rewrite zlen_nil; lia)).
  cbn [mbind outcome_bind app].
  rewrite OSP_CHECK_eqb; [done |]. unfold zlen. by rewrite ctr_length.
Qed.

(** Decrypting the chunks of an encrypted frame, however it was split,
    gives the frame's data back, and encryption changes nothing but the data
    and keeps its size. *)
Theorem decrypt_encrypt (c : FrameCrypto) (frame : EncodedFrame) (chunks : list (list Z)) :
  is_null (frame_id frame) = false -> bytes_ok (data frame) ->
  exists encrypted, Encrypt c frame = Ret encrypted
    /\ CopyMetadataTo encrypted frame = frame
    /\ zlen (data encrypted) = zlen (data frame)
    /\ (chunks <> [] -> concat chunks = data encrypted ->
          Decrypt c (frame_id frame) chunks (zlen (data frame)) = Ret (data frame)).
Proof.
  intros Hid Hok. unfold Encrypt, Decrypt.
  pose proof (Crypt_concat c (frame_id frame) [data frame] Hid ltac:(done)) as Henc.
  cbn [concat] in Henc. rewrite app_nil_r in Henc. rewrite Henc. cbn [mbind outcome_bind].
  eexists. split; [done |]. split; [by destruct frame |].
  cbn [data CopyMetadataTo update]. unfold zlen at 1. rewrite ctr_length.
  split; [done |]. intros Hne Hcat.
  assert (zlen (data frame) = zlen (concat chunks)) as ->.
  { rewrite Hcat. unfold zlen. by rewrite ctr_length. }
  rewrite Crypt_concat, Hcat by done. by rewrite ctr_involutive.
Qed.
End FrameCrypto.

(** A stream cipher that meets the hypotheses: byte [i] of the stream is masked
    with [key + i]. *)
Fixpoint toy_stream (key offset : Z) (l : list Z) : list Z :=
  match l with [] => [] | b :: l => Z.lxor b (u8 (key + offset)) :: toy_stream key (offset + 1) l end.
Definition toy_ctr (key : Z) (st : ctr_state) (l : list Z) : list Z * ctr_state :=
  (toy_stream key st.2 l, (st.1, st.2 + zlen l)).

Lemma toy_stream_app k o a b :
  toy_stream k o (a ++ b) = toy_stream k o a ++ toy_stream k (o + zlen a) b.
Proof.
  revert o. induction a as [| x a IH]; intros o; simpl.
  - rewrite zlen_nil. by rewrite Z.add_0_r.
  - rewrite IH, zlen_cons. by rewrite Z.add_assoc.
Qed.

Lemma toy_ctr_laws :
  (forall k st l, length (toy_ctr k st l).1 = length l)
  /\ (forall k st a b, toy_ctr k st (a ++ b)
        = let '(x, st1) := toy_ctr k st a in let '(y, st2) := toy_ctr k st1 b in (x ++ y, st2))
  /\ (forall k st l, bytes_ok l -> (toy_ctr k st (toy_ctr k st l).1).1 = l).
Proof.
  unfold toy_ctr. split; [| split].
  - intros k [s o] l. simpl. revert o. induction l as [| b l IH]; intros o; simpl; [done |]. by rewrite IH.
  - intros k [s o] a b. simpl. rewrite toy_stream_app, zlen_app. do 2 f_equal. lia.
  - intros k [s o] l _. simpl. revert o. induction l as [| b l IH]; intros o; simpl; [done |].
    rewrite IH. f_equal. by rewrite Z.lxor_assoc, Z.lxor_nilpotent, Z.lxor_0_r.
Qed.

Lemma decrypt_encrypt_witness :
  let c := mkCrypto (AES_KEY := Z) 77 (seqZ 1 16) in
  let frame := mkFrame kKeyFrame 256 256 91000 0 250 INT64_MIN INT64_MIN [1; 2; 3; 255; 5] in
  exists encrypted, Encrypt toy_ctr c frame = Ret encrypted
    /\ CopyMetadataTo encrypted frame = frame
    /\ zlen (data encrypted) = zlen (data frame)
    /\ ([[76; 76]; [76; 175; 84]] <> [] -> concat [[76; 76]; [76; 175; 84]] = data encrypted ->
          Decrypt toy_ctr c 256 [[76; 76]; [76; 175; 84]] (zlen (data frame)) = Ret (data frame)).
Proof.
  intros c frame. destruct toy_ctr_laws as (H1 & H2 & H3).
  apply (decrypt_encrypt toy_ctr H1 H2 H3 c frame [[76; 76]; [76; 175; 84]]); [reflexivity |].
  repeat constructor; vm_compute; congruence.
Defined.

(** Two frames of a stream share a nonce exactly when their identifiers
    agree in the low 32 bits. *)
Theorem nonce_unique (mask : list Z) (f g : Z) :
  length mask = 16%nat -> aes_nonce mask f = aes_nonce mask g <-> f mod 2 ^ 32 = g mod 2 ^ 32.
Proof.
  intros Hm. unfold aes_nonce, lower_32_bits. change 32 with (8 * Z.of_nat 4) at 1 2.
  rewrite !be_encode_wrap. split.
  - intros H.
    assert (be_encode 4 f = be_encode 4 g) as Hbe.
    { assert (forall (a b m : list Z), length a = length m -> length b = length m ->
        zip_with Z.lxor a m = zip_with Z.lxor b m -> a = b) as Hinj.
      { clear. intros a b m. revert a b. induction m as [| x m IH]; intros [| y a] [| z b]; try done.
        simpl. intros [= Ha] [= Hb] [= Hx Hr]. f_equal; [| by apply IH].
        apply (f_equal (fun t => Z.lxor t x)) in Hx.
        by rewrite !Z.lxor_assoc, Z.lxor_nilpotent, !Z.lxor_0_r in Hx. }
      apply Hinj in H; [| by rewrite !length_app, length_be_encode, !length_replicate ..].
      apply app_inv_head in H. by apply app_inj_2 in H as [? _]. }
    apply (f_equal be_decode) in Hbe. rewrite !be_decode_encode in Hbe. exact Hbe.
  - intros H. assert (be_encode 4 f = be_encode 4 g) as ->; [| done].
    rewrite <- (be_encode_wrap 4 f), <- (be_encode_wrap 4 g).
    change (8 * Z.of_nat 4) with 32. unfold wrap. by rewrite H.
Qed.

Lemma nonce_unique_witness :
  aes_nonce (seqZ 0 16) 5 = aes_nonce (seqZ 0 16) (2 ^ 32 + 5)
  <-> 5 mod 2 ^ 32 = (2 ^ 32 + 5) mod 2 ^ 32.
Proof. apply (nonce_unique (seqZ 0 16) 5 (2 ^ 32 + 5)). reflexivity. Defined.
