(* ===== verification/BitVector.v ===== *)
(** The dynamic bit vector (util/bit_vector.h and .cc), the interface its
    clients rely on, and the proof that it provides it. *)

From S2P Require Import Prelude.

(** * Interface

    A vector of flags: [fs_flag] is the abstract content, meaningful below
    [fs_size].  The operations are those of the code, with its checks. *)

Class FlagSet (T : Type) := {
  fs_size : T -> Z;
  fs_resize : Z -> bool -> T -> T;
  fs_set : Z -> T -> outcome T;
  fs_clear : Z -> T -> outcome T;
  fs_is_set : Z -> T -> outcome bool;
  fs_find_first_set : T -> Z;
  fs_empty : T;
  fs_ok : T -> Prop;
  fs_flag : T -> Z -> bool;
  fs_empty_ok : fs_ok fs_empty /\ fs_size fs_empty = 0;
  fs_size_nonneg t : fs_ok t -> 0 <= fs_size t;
  fs_resize_spec n fill t : 0 <= n ->
    fs_ok (fs_resize n fill t) /\ fs_size (fs_resize n fill t) = n
    /\ forall i, 0 <= i < n -> fs_flag (fs_resize n fill t) i = fill;
  fs_set_spec i t : fs_ok t -> 0 <= i < fs_size t ->
    exists t', fs_set i t = Ret t' /\ fs_ok t' /\ fs_size t' = fs_size t
      /\ forall j, 0 <= j < fs_size t -> fs_flag t' j = (i =? j) || fs_flag t j;
  fs_clear_spec i t : fs_ok t -> 0 <= i < fs_size t ->
    exists t', fs_clear i t = Ret t' /\ fs_ok t' /\ fs_size t' = fs_size t
      /\ forall j, 0 <= j < fs_size t -> fs_flag t' j = negb (i =? j) && fs_flag t j;
  fs_is_set_spec i t : fs_ok t -> 0 <= i < fs_size t -> fs_is_set i t = Ret (fs_flag t i);
  fs_find_spec t : fs_ok t ->
    0 <= fs_find_first_set t <= fs_size t
    /\ (fs_find_first_set t < fs_size t -> fs_flag t (fs_find_first_set t) = true)
    /\ forall i, 0 <= i < fs_find_first_set t -> fs_flag t i = false }.
#[global] Hint Mode FlagSet ! : typeclass_instances.

(** * The implementation *)

Definition kBitsPerWord : Z := 64.

(** [v_] holds 64-bit words. *)
Record BitVector := mkBitVector { v_ : list Z; size_ : Z }.

Definition Resize (size : Z) (fill : bool) (bv : BitVector) : BitVector :=
  let v := replicate (Z.to_nat ((size + kBitsPerWord - 1) / kBitsPerWord))
             (if fill then Z.ones 64 else 0) in
  let v := if fill && negb (size mod kBitsPerWord =? 0)
           then alter (fun w => Z.land w (u64 (Z.shiftl 1 (size mod kBitsPerWord)) - 1))
                  (length v - 1)%nat v
           else v in
  mkBitVector v size.

Definition Set_ (pos : Z) (bv : BitVector) : outcome BitVector :=
  OSP_CHECK (pos <? size_ bv) ;;
  Ret (mkBitVector
    (alter (fun w => Z.lor w (u64 (Z.shiftl 1 (pos mod kBitsPerWord))))
       (Z.to_nat (pos / kBitsPerWord)) (v_ bv)) (size_ bv)).

Definition Clear (pos : Z) (bv : BitVector) : outcome BitVector :=
  OSP_CHECK (pos <? size_ bv) ;;
  Ret (mkBitVector
    (alter (fun w => Z.land w (u64 (Z.lnot (u64 (Z.shiftl 1 (pos mod kBitsPerWord))))))
       (Z.to_nat (pos / kBitsPerWord)) (v_ bv)) (size_ bv)).

Definition IsSet (pos : Z) (bv : BitVector) : outcome bool :=
  OSP_CHECK (pos <? size_ bv) ;;
  w ← in_bounds (v_ bv !! Z.to_nat (pos / kBitsPerWord));
  Ret (negb (Z.land (Z.shiftr w (pos mod kBitsPerWord)) 1 =? 0)).

(** [std::countr_zero] of a word that is not zero. *)
Fixpoint countr_zero_pos (p : positive) : Z :=
  match p with xO p => 1 + countr_zero_pos p | _ => 0 end.
Definition countr_zero (w : Z) : Z :=
  match w with Zpos p => countr_zero_pos p | _ => 64 end.

Fixpoint find_first_set_loop (v : list Z) (i : Z) (size : Z) : Z :=
  match v with
  | [] => size
  | w :: v =>
      if negb (w =? 0) then
        let pos := i * kBitsPerWord + countr_zero w in
        if pos <? size then pos else size
      else find_first_set_loop v (i + 1) size
  end.
Definition FindFirstSet (bv : BitVector) : Z := find_first_set_loop (v_ bv) 0 (size_ bv).

(** * Correctness *)

(** The number of words a vector of [size] bits has. *)
Definition num_words (size : Z) : nat := Z.to_nat ((size + kBitsPerWord - 1) / kBitsPerWord).

Definition bit_at (bv : BitVector) (i : Z) : bool :=
  Z.testbit (nth (Z.to_nat (i / kBitsPerWord)) (v_ bv) 0) (i mod kBitsPerWord).

Definition bv_ok (bv : BitVector) : Prop :=
  0 <= size_ bv /\ length (v_ bv) = num_words (size_ bv) /\ Forall (is_u 64) (v_ bv).

Lemma word_of size i :
  0 <= i < size ->
  (Z.to_nat (i / 64) < num_words size)%nat /\ 0 <= i mod 64 < 64 /\ i = 64 * (i / 64) + i mod 64.
Proof.
  intros Hi. unfold num_words, kBitsPerWord.
  pose proof (Z.div_pos i 64 ltac:(lia) ltac:(lia)).
  assert (i / 64 < (size + 64 - 1) / 64) by (Z.div_mod_to_equations; lia).
  split; [lia |]. split; [apply Z.mod_pos_bound; lia | apply Z.div_mod; lia].
Qed.

Lemma is_u_bits w z :
  0 <= w -> (forall n, w <= n -> Z.testbit z n = false) -> 0 <= z -> is_u w z.
Proof.
  intros Hw Hb Hz. assert (z = z mod 2 ^ w) as ->.
  { apply Z.bits_inj'. intros n Hn. destruct (decide (n < w)).
    - by rewrite Z.mod_pow2_bits_low.
    - rewrite Z.mod_pow2_bits_high by lia. apply Hb. lia. }
  apply Z.mod_pos_bound, Z.pow_pos_nonneg; lia.
Qed.

Lemma u64_shiftl_1 k : 0 <= k < 64 -> u64 (Z.shiftl 1 k) = 2 ^ k.
Proof.
  intros Hk. rewrite Z.shiftl_1_l. apply wrap_small.
  split; [apply Z.pow_nonneg; lia | apply Z.pow_lt_mono_r; lia].
Qed.

Lemma alter_ok g k l :
  (forall w, is_u 64 w -> is_u 64 (g w)) -> Forall (is_u 64) l -> Forall (is_u 64) (alter g k l).
Proof. intros Hg Hl. apply Forall_alter; [done |]. auto. Qed.

(** What an operation on one word does to the flags. *)
Lemma bit_at_alter bv g i j :
  bv_ok bv -> 0 <= i < size_ bv -> 0 <= j < size_ bv ->
  bit_at (mkBitVector (alter g (Z.to_nat (i / 64)) (v_ bv)) (size_ bv)) j
  = if i / 64 =? j / 64
    then Z.testbit (g (nth (Z.to_nat (j / 64)) (v_ bv) 0)) (j mod 64) else bit_at bv j.
Proof.
  intros (_ & Hlen & _) Hi Hj. unfold bit_at, kBitsPerWord. cbn [v_].
  destruct (word_of _ _ Hi) as (Hwi & _). destruct (word_of _ _ Hj) as (Hwj & _).
  rewrite !nth_lookup. destruct (Z.eqb_spec (i / 64) (j / 64)) as [-> | Hne].
  - destruct (lookup_lt_is_Some_2 (v_ bv) (Z.to_nat (j / 64))) as [w Hw]; [lia |].
    by rewrite list_lookup_alter_eq, Hw.
  - rewrite list_lookup_alter_ne; [done |]. intros H. apply Hne.
    apply Z2Nat.inj in H; [done | apply Z.div_pos; lia | apply Z.div_pos; lia].
Qed.

Lemma same_word i j : 0 <= i -> 0 <= j -> i / 64 = j / 64 -> (i =? j) = (i mod 64 =? j mod 64).
Proof.
  intros Hi Hj Hd. pose proof (Z.div_mod i 64 ltac:(lia)). pose proof (Z.div_mod j 64 ltac:(lia)).
  destruct (Z.eqb_spec i j), (Z.eqb_spec (i mod 64) (j mod 64)); try done; subst; lia || congruence.
Qed.

Lemma Set_spec i bv :
  bv_ok bv -> 0 <= i < size_ bv ->
  exists bv', Set_ i bv = Ret bv' /\ bv_ok bv' /\ size_ bv' = size_ bv
    /\ forall j, 0 <= j < size_ bv -> bit_at bv' j = (i =? j) || bit_at bv j.
Proof.
  intros Hok Hi. unfold Set_. rewrite OSP_CHECK_ltb by lia. cbn [mbind outcome_bind].
  destruct (word_of _ _ Hi) as (_ & Hm & _). pose proof Hok as (H0 & Hlen & Hu).
  unfold kBitsPerWord. rewrite u64_shiftl_1 by done.
  eexists. split; [done |]. split; [| split; [done |]].
  - split; [done |]. cbn [v_ size_]. split; [by rewrite length_alter |]. apply alter_ok; [| done].
    intros w Hw. apply is_u_bits; [lia | | apply Z.lor_nonneg; unfold is_u in Hw; split; lia || (apply Z.pow_nonneg; lia)].
    intros n Hn. rewrite Z.lor_spec, (testbit_high 64 w), Z.pow2_bits_eqb by (done || lia).
    simpl. lia.
  - intros j Hj. rewrite bit_at_alter by done.
    destruct (Z.eqb_spec (i / 64) (j / 64)) as [He | Hne].
    + rewrite Z.lor_spec, Z.pow2_bits_eqb by lia. rewrite (same_word i j) by lia.
      apply orb_comm.
    + destruct (Z.eqb_spec i j); [by subst | done].
Qed.

Lemma Clear_spec i bv :
  bv_ok bv -> 0 <= i < size_ bv ->
  exists bv', Clear i bv = Ret bv' /\ bv_ok bv' /\ size_ bv' = size_ bv
    /\ forall j, 0 <= j < size_ bv -> bit_at bv' j = negb (i =? j) && bit_at bv j.
Proof.
  intros Hok Hi. unfold Clear. rewrite OSP_CHECK_ltb by lia. cbn [mbind outcome_bind].
  destruct (word_of _ _ Hi) as (_ & Hm & _). pose proof Hok as (H0 & Hlen & Hu).
  unfold kBitsPerWord. rewrite u64_shiftl_1 by done.
  eexists. split; [done |]. split; [| split; [done |]].
  - split; [done |]. cbn [v_ size_]. split; [by rewrite length_alter |]. apply alter_ok; [| done].
    intros w Hw. apply is_u_bits; [lia | | apply Z.land_nonneg; unfold is_u in Hw; lia].
    intros n Hn. by rewrite Z.land_spec, (testbit_high 64 w) by (done || lia).
  - intros j Hj. rewrite bit_at_alter by done.
    destruct (word_of _ _ Hj) as (_ & Hmj & _).
    destruct (Z.eqb_spec (i / 64) (j / 64)) as [He | Hne].
    + rewrite Z.land_spec. unfold wrap. rewrite Z.mod_pow2_bits_low by lia.
      rewrite Z.lnot_spec, Z.pow2_bits_eqb by lia. rewrite (same_word i j) by lia.
      apply andb_comm.
    + destruct (Z.eqb_spec i j); [by subst | done].
Qed.

Lemma IsSet_spec i bv : bv_ok bv -> 0 <= i < size_ bv -> IsSet i bv = Ret (bit_at bv i).
Proof.
  intros (H0 & Hlen & Hu) Hi. unfold IsSet. rewrite OSP_CHECK_ltb by lia. cbn [mbind outcome_bind].
  destruct (word_of _ _ Hi) as (Hw & Hm & _). unfold bit_at, kBitsPerWord.
  destruct (lookup_lt_is_Some_2 (v_ bv) (Z.to_nat (i / 64))) as [w Hw']; [lia |].
  rewrite nth_lookup, Hw'. cbn [in_bounds mbind outcome_bind default]. f_equal.
  change 1 with (Z.ones 1). rewrite Z.land_ones by lia. change (2 ^ 1) with 2.
  rewrite <- Z.bit0_mod, Z.shiftr_spec, Z.add_0_l by lia. unfold id. by destruct (Z.testbit w (i mod 64)).
Qed.

Lemma nth_replicate {A} n k (x d : A) : (k < n)%nat -> nth k (replicate n x) d = x.
Proof. intros Hk. rewrite nth_lookup, lookup_replicate_2 by done. done. Qed.

Lemma Resize_spec n fill bv :
  0 <= n ->
  bv_ok (Resize n fill bv) /\ size_ (Resize n fill bv) = n
  /\ forall i, 0 <= i < n -> bit_at (Resize n fill bv) i = fill.
Proof.
  intros Hn. unfold Resize. cbn [size_ v_]. fold (num_words n).
  set (l := replicate (num_words n) (if fill then Z.ones 64 else 0)).
  assert (length l = num_words n) as Hlen by (unfold l; by rewrite length_replicate).
  assert (Forall (is_u 64) l) as Hu.
  { apply Forall_replicate. destruct fill; unfold is_u; rewrite ?Z.ones_equiv; lia. }
  assert (forall i, 0 <= i < n -> nth (Z.to_nat (i / 64)) l 0 = if fill then Z.ones 64 else 0) as Hw.
  { intros i Hi. unfold l. apply nth_replicate. by apply word_of. }
  destruct (fill && negb (n mod kBitsPerWord =? 0)) eqn:Hc.
  - apply andb_true_iff in Hc as [-> Hm]. unfold kBitsPerWord in *.
    pose proof (Z.mod_pos_bound n 64 ltac:(lia)) as Hr.
    destruct (Z.eqb_spec (n mod 64) 0) as [| Hne]; [done |]. clear Hm.
    rewrite u64_shiftl_1 by done.
    replace (2 ^ (n mod 64) - 1) with (Z.ones (n mod 64)) by (rewrite Z.ones_equiv; lia).
    split; [split; [done |]; cbn [v_ size_]; split; [by rewrite length_alter |] |].
    + apply alter_ok; [| done]. intros w Hwu. apply is_u_bits; [lia | | apply Z.land_nonneg; unfold is_u in Hwu; lia].
      intros k Hk. by rewrite Z.land_spec, (testbit_high 64 w) by (done || lia).
    + split; [done |]. intros i Hi. unfold bit_at, kBitsPerWord. cbn [v_].
      destruct (word_of n i Hi) as (Hwi & Hmi & Hdm).
      rewrite nth_lookup. rewrite Hlen.
      destruct (lookup_lt_is_Some_2 l (Z.to_nat (i / 64))) as [w Hlw]; [lia |].
      pose proof (Hw i Hi) as Hwe. rewrite nth_lookup, Hlw in Hwe. cbn in Hwe. unfold id in Hwe. subst w.
      destruct (decide (Z.to_nat (i / 64) = num_words n - 1)%nat) as [He | Hne'].
      * rewrite <- He, list_lookup_alter_eq, Hlw. cbn [fmap option_fmap option_map default]. unfold id.
        rewrite Z.land_spec, !Z.testbit_ones_nonneg by lia.
        rewrite (proj2 (Z.ltb_lt _ 64)) by lia. apply Z.ltb_lt.
        unfold num_words, kBitsPerWord in He, Hwi.
        assert (i / 64 = n / 64) by (Z.div_mod_to_equations; lia).
        pose proof (Z.div_mod n 64 ltac:(lia)). lia.
      * rewrite list_lookup_alter_ne, Hlw by done. cbn [default]. unfold id.
        rewrite Z.testbit_ones_nonneg by lia. apply Z.ltb_lt. lia.
  - split; [split; [done |]; split; [done | done] |]. split; [done |].
    intros i Hi. unfold bit_at, kBitsPerWord. cbn [v_]. rewrite Hw by done.
    destruct (word_of n i Hi) as (_ & Hmi & _). destruct fill.
    + rewrite Z.testbit_ones_nonneg by lia. apply Z.ltb_lt. lia.
    + apply Z.bits_0.
Qed.

Lemma countr_zero_spec w :
  is_u 64 w -> w <> 0 ->
  0 <= countr_zero w < 64 /\ Z.testbit w (countr_zero w) = true
  /\ forall i, 0 <= i < countr_zero w -> Z.testbit w i = false.
Proof.
  intros Hw Hne. destruct w as [| p | p]; [done | | unfold is_u in Hw; lia]. cbn [countr_zero].
  assert (0 <= countr_zero_pos p /\ Z.testbit (Zpos p) (countr_zero_pos p) = true
    /\ forall i, 0 <= i < countr_zero_pos p -> Z.testbit (Zpos p) i = false) as (H0 & H1 & H2).
  { clear. induction p as [p IH | p IH |]; cbn [countr_zero_pos]; [split; [done | split; [done | lia]] | |
      split; [done | split; [done | lia]]].
    destruct IH as (H0 & H1 & H2). split; [lia |]. change (Zpos p~0) with (2 * Zpos p).
    split; [rewrite Z.double_bits; by replace (Z.pred (1 + countr_zero_pos p)) with (countr_zero_pos p) by lia |].
    intros i Hi. destruct (decide (i = 0)) as [-> | Hne]; [by rewrite Z.testbit_even_0 |].
    rewrite Z.double_bits. apply H2. lia. }
  split; [| done]. split; [done |].
  destruct (decide (countr_zero_pos p < 64)) as [| Hge]; [done |].
  by rewrite (testbit_high 64) in H1 by (done || lia).
Qed.

Lemma find_loop_spec v i size :
  0 <= i -> Forall (is_u 64) v ->
  let r := find_first_set_loop v i size in
  (r = size /\ forall k, 64 * i <= k < size -> k < 64 * (i + zlen v) ->
       Z.testbit (nth (Z.to_nat (k / 64 - i)) v 0) (k mod 64) = false)
  \/ (64 * i <= r < size /\ r < 64 * (i + zlen v)
      /\ Z.testbit (nth (Z.to_nat (r / 64 - i)) v 0) (r mod 64) = true
      /\ forall k, 64 * i <= k < r ->
           Z.testbit (nth (Z.to_nat (k / 64 - i)) v 0) (k mod 64) = false).
Proof.
  intros Hi Hv. revert i Hi. induction Hv as [| w v Hw Hv IH]; intros i Hi; cbv zeta; cbn [find_first_set_loop].
  { left. split; [done |]. rewrite zlen_nil. lia. }
  assert (forall k, 64 * i <= k < 64 * (i + 1) -> k / 64 = i /\ k mod 64 = k - 64 * i) as Hdm.
  { intros k Hk. assert (k / 64 = i) as -> by (Z.div_mod_to_equations; lia).
    split; [done |]. pose proof (Z.div_mod k 64 ltac:(lia)). Z.div_mod_to_equations. lia. }
  rewrite zlen_cons. pose proof (zlen_nonneg v) as Hzv.
  destruct (Z.eqb_spec w 0) as [-> | Hne]; cbn [negb].
  - assert (forall k, 64 * (i + 1) <= k ->
      nth (Z.to_nat (k / 64 - i)) (0 :: v) 0 = nth (Z.to_nat (k / 64 - (i + 1))) v 0) as Hnth.
    { intros k Hk. assert (i + 1 <= k / 64) by (Z.div_mod_to_equations; lia).
      replace (Z.to_nat (k / 64 - i)) with (S (Z.to_nat (k / 64 - (i + 1)))) by lia. done. }
    assert (forall k, 64 * i <= k < 64 * (i + 1) ->
      Z.testbit (nth (Z.to_nat (k / 64 - i)) (0 :: v) 0) (k mod 64) = false) as Hz.
    { intros k Hk. destruct (Hdm k Hk) as [-> _]. rewrite Z.sub_diag. apply Z.bits_0. }
    destruct (IH (i + 1) ltac:(lia)) as [[-> Hall] | (Hr & Hr' & Hb & Hall)]; [left | right].
    + split; [done |]. intros k Hk1 Hk2. destruct (decide (k < 64 * (i + 1))); [apply Hz; lia |].
      rewrite Hnth by lia. apply Hall; lia.
    + split; [lia |]. split; [lia |]. split; [rewrite Hnth by lia; exact Hb |].
      intros k Hk. destruct (decide (k < 64 * (i + 1))); [apply Hz; lia |].
      rewrite Hnth by lia. apply Hall; lia.
  - destruct (countr_zero_spec w Hw Hne) as (Hc & Hb & Hlow). unfold kBitsPerWord.
    assert (forall k, 64 * i <= k < 64 * (i + 1) ->
      Z.testbit (nth (Z.to_nat (k / 64 - i)) (w :: v) 0) (k mod 64) = Z.testbit w (k - 64 * i)) as Hk.
    { intros k Hk. destruct (Hdm k Hk) as [-> ->]. by rewrite Z.sub_diag. }
    destruct (Z.ltb_spec (i * 64 + countr_zero w) size) as [Hs | Hs].
    + right. split; [lia |]. split; [lia |]. split.
      * rewrite Hk by lia. by replace (i * 64 + countr_zero w - 64 * i) with (countr_zero w) by lia.
      * intros k Hkr. rewrite Hk by lia. apply Hlow. lia.
    + left. split; [done |]. intros k Hk1 Hk2. rewrite Hk by lia. apply Hlow. lia.
Qed.

Lemma FindFirstSet_spec bv :
  bv_ok bv ->
  0 <= FindFirstSet bv <= size_ bv
  /\ (FindFirstSet bv < size_ bv -> bit_at bv (FindFirstSet bv) = true)
  /\ forall i, 0 <= i < FindFirstSet bv -> bit_at bv i = false.
Proof.
  intros (H0 & Hlen & Hu). unfold FindFirstSet, bit_at, kBitsPerWord.
  destruct (find_loop_spec (v_ bv) 0 (size_ bv) ltac:(lia) Hu) as [[-> Hall] | (Hr & _ & Hb & Hall)].
  - split; [lia |]. split; [lia |]. intros i Hi. rewrite <- (Z.sub_0_r (i / 64)). apply Hall; [lia |].
    destruct (word_of _ _ Hi) as (Hw & _). unfold zlen. pose proof (Z.div_mod i 64 ltac:(lia)).
    pose proof (Z.mod_pos_bound i 64 ltac:(lia)). lia.
  - split; [lia |]. rewrite Z.sub_0_r in Hb. split; [done |]. intros i Hi.
    rewrite <- (Z.sub_0_r (i / 64)). apply Hall. lia.
Qed.

(** The word-packed vector provides the interface. *)
#[export] Program Instance BitVector_FlagSet : FlagSet BitVector := {|
  fs_size := size_; fs_resize := Resize; fs_set := Set_; fs_clear := Clear; fs_is_set := IsSet;
  fs_find_first_set := FindFirstSet; fs_empty := mkBitVector [] 0; fs_ok := bv_ok;
  fs_flag := bit_at |}.
Next Obligation. split; [split; [done | split; [done | constructor]] | done]. Qed.
Next Obligation. intros t (H & _). exact H. Qed.
Next Obligation. intros. by apply Resize_spec. Qed.
Next Obligation. intros. by apply Set_spec. Qed.
Next Obligation. intros. by apply Clear_spec. Qed.
Next Obligation. intros. by apply IsSet_spec. Qed.
Next Obligation. intros. by apply FindFirstSet_spec. Qed.

(** The word-packed bit vector behaves as a list of flags: filling, setting,
    clearing and testing act on single positions, and the search returns the
    first set position, or the size when there is none. *)
Theorem bit_vector_refines_flags (n : Z) (fill : bool) (ops : list (bool * Z)) :
  0 <= n -> Forall (fun op => 0 <= op.2 < n) ops ->
  exists bv,
    foldl (fun m (op : bool * Z) => bv ← m; if op.1 then Set_ op.2 bv else Clear op.2 bv)
      (Ret (Resize n fill (mkBitVector [] 0))) ops = Ret bv
    /\ (forall i, 0 <= i < n ->
          IsSet i bv = Ret (foldl (fun f (op : bool * Z) => if op.2 =? i then op.1 else f) fill ops))
    /\ 0 <= FindFirstSet bv <= n
    /\ (FindFirstSet bv < n -> IsSet (FindFirstSet bv) bv = Ret true)
    /\ (forall i, 0 <= i < FindFirstSet bv -> IsSet i bv = Ret false).
Proof.
  intros Hn Hops.
  destruct (Resize_spec n fill (mkBitVector [] 0) Hn) as (Hok & Hsize & Hbits).
  set (bv0 := Resize n fill (mkBitVector [] 0)) in *. clearbody bv0.
  cut (exists bv, foldl (fun m (op : bool * Z) => bv ← m; if op.1 then Set_ op.2 bv else Clear op.2 bv)
      (Ret bv0) ops = Ret bv /\ bv_ok bv /\ size_ bv = n /\ forall i, 0 <= i < n ->
      bit_at bv i = foldl (fun f (op : bool * Z) => if op.2 =? i then op.1 else f) (bit_at bv0 i) ops).
  { intros (bv & -> & Hok' & Hs' & Hb). exists bv. split; [done |].
    destruct (FindFirstSet_spec bv Hok') as (F1 & F2 & F3). rewrite Hs' in *.
    split; [intros i Hi; rewrite IsSet_spec, Hb, Hbits by (done || lia); done |].
    split; [done |]. split; [intros; rewrite IsSet_spec by (done || lia); f_equal; auto |].
    intros i Hi. rewrite IsSet_spec by (done || lia). f_equal. auto. }
  clear Hbits. revert bv0 Hok Hsize. induction Hops as [| [b p] ops Hp Hops IH]; intros bv0 Hok Hsize.
  { by exists bv0. }
  cbn [foldl mbind outcome_bind fst snd] in *.
  assert (exists bv1, (if b then Set_ p bv0 else Clear p bv0) = Ret bv1 /\ bv_ok bv1 /\ size_ bv1 = n
    /\ forall j, 0 <= j < n -> bit_at bv1 j = if p =? j then b else bit_at bv0 j)
    as (bv1 & -> & Hok1 & Hs1 & Hb1).
  { destruct b.
    - destruct (Set_spec p bv0 Hok) as (bv1 & Hs & Hok1 & Hs1 & Hb1); [lia |].
      exists bv1. split; [done |]. split; [done |]. split; [lia |]. intros j Hj.
      rewrite Hb1 by lia. by destruct (p =? j).
    - destruct (Clear_spec p bv0 Hok) as (bv1 & Hs & Hok1 & Hs1 & Hb1); [lia |].
      exists bv1. split; [done |]. split; [done |]. split; [lia |]. intros j Hj.
      rewrite Hb1 by lia. by destruct (p =? j). }
  destruct (IH bv1 Hok1 Hs1) as (bv & Hf & Hok' & Hs' & Hb).
  exists bv. split; [done |]. split; [done |]. split; [done |]. intros i Hi. rewrite Hb by done.
  by rewrite Hb1 by done.
Qed.

Lemma bit_vector_refines_flags_witness :
  exists bv,
    foldl (fun m (op : bool * Z) => bv ← m; if op.1 then Set_ op.2 bv else Clear op.2 bv)
      (Ret (Resize 130 false (mkBitVector [] 0))) [(true, 129); (true, 70); (false, 70)] = Ret bv
    /\ (forall i, 0 <= i < 130 ->
          IsSet i bv = Ret (foldl (fun f (op : bool * Z) => if op.2 =? i then op.1 else f) false
                              [(true, 129); (true, 70); (false, 70)]))
    /\ 0 <= FindFirstSet bv <= 130
    /\ (FindFirstSet bv < 130 -> IsSet (FindFirstSet bv) bv = Ret true)
    /\ (forall i, 0 <= i < FindFirstSet bv -> IsSet i bv = Ret false).
Proof.
  apply (bit_vector_refines_flags 130 false [(true, 129); (true, 70); (false, 70)]); [lia |].
  solve_list; cbn; lia.
Defined.
