(* ===== verification/StatsTracker.v ===== *)
(** Packet arrival statistics of a receiver: loss, highest sequence number and
    jitter (cast/streaming/impl/packet_receive_stats_tracker.h and .cc).

    Until the first packet arrives, the fields other than the packet count hold
    no valid values in the code; here they start at zero. *)

From S2P Require Import Prelude Numeric Wire Ids RtpDefines RtcpCommon.

Record PacketReceiveStatsTracker := mkTracker {
  rtp_timebase_ : Z;
  num_rtp_packets_received_ : Z;
  num_rtp_packets_received_at_last_report_ : Z;
  greatest_sequence_number_ : Z;
  base_sequence_number_ : Z;
  greatest_sequence_number_at_last_report_ : Z;
  last_rtp_packet_arrival_time_ : Z;
  last_rtp_packet_timestamp_ : Z;
  jitter_ : Z }.
#[export] Instance eta_Tracker : Eta PacketReceiveStatsTracker := fun t =>
  mkTracker (rtp_timebase_ t) (num_rtp_packets_received_ t)
    (num_rtp_packets_received_at_last_report_ t) (greatest_sequence_number_ t)
    (base_sequence_number_ t) (greatest_sequence_number_at_last_report_ t)
    (last_rtp_packet_arrival_time_ t) (last_rtp_packet_timestamp_ t) (jitter_ t).

Definition new_PacketReceiveStatsTracker (rtp_timebase : Z) : PacketReceiveStatsTracker :=
  mkTracker rtp_timebase 0 0 0 0 0 0 0 0.

Definition OnReceivedValidRtpPacket (sequence_number rtp_timestamp arrival_time : Z)
    (t : PacketReceiveStatsTracker) : outcome PacketReceiveStatsTracker :=
  t ←
    (if num_rtp_packets_received_ t =? 0 then
       let t := t <| num_rtp_packets_received_at_last_report_ := 0 |> in
       let t := t <| greatest_sequence_number_ := sequence_number |> in
       let t := t <| base_sequence_number_ := greatest_sequence_number_ t - 1 |> in
       let t := t <| greatest_sequence_number_at_last_report_ := base_sequence_number_ t |> in
       Ret (t <| jitter_ := 0 |>)
     else
       let expanded_sequence_number :=
         Expand 16 (greatest_sequence_number_ t) sequence_number in
       let t :=
         if greatest_sequence_number_ t <? expanded_sequence_number then
           t <| greatest_sequence_number_ := expanded_sequence_number |>
         else t in
       let time_between_arrivals := arrival_time - last_rtp_packet_arrival_time_ t in
       media_time_difference ←
         ToDuration (rtp_timestamp - last_rtp_packet_timestamp_ t) (rtp_timebase_ t);
       let delta := time_between_arrivals - media_time_difference in
       let absolute_delta := if delta <? 0 then - delta else delta in
       Ret (t <| jitter_ := jitter_ t + Z.quot (absolute_delta - jitter_ t) 16 |>));
  let t := t <| num_rtp_packets_received_ := num_rtp_packets_received_ t + 1 |> in
  let t := t <| last_rtp_packet_arrival_time_ := arrival_time |> in
  Ret (t <| last_rtp_packet_timestamp_ := rtp_timestamp |>).

Definition PopulateNextReport (report : RtcpReportBlock) (t : PacketReceiveStatsTracker)
    : PacketReceiveStatsTracker * RtcpReportBlock :=
  if num_rtp_packets_received_ t <=? 0 then (t, report)
  else
    let report :=
      SetPacketFractionLostNumerator
        (greatest_sequence_number_ t - greatest_sequence_number_at_last_report_ t)
        (num_rtp_packets_received_ t - num_rtp_packets_received_at_last_report_ t) report in
    let t := t <| greatest_sequence_number_at_last_report_ := greatest_sequence_number_ t |> in
    let t := t <| num_rtp_packets_received_at_last_report_ := num_rtp_packets_received_ t |> in
    let report :=
      SetCumulativePacketsLost (greatest_sequence_number_ t - base_sequence_number_ t)
        (num_rtp_packets_received_ t) report in
    let report :=
      report <| extended_high_sequence_number := lower_32_bits (greatest_sequence_number_ t) |> in
    (t, report <| jitter := FromDuration (jitter_ t) (rtp_timebase_ t) |>).

(** * What the statistics mean

    A packet is described by the sequence number the sender had in mind, before
    it was truncated to 16 bits, its RTP timestamp and its arrival time. *)

Abbreviation packet := (Z * Z * Z)%type (only parsing).
Definition seq_of (p : packet) : Z := p.1.1.

Fixpoint receive_all (ps : list packet) (t : PacketReceiveStatsTracker)
    : outcome PacketReceiveStatsTracker :=
  match ps with
  | [] => Ret t
  | (seq, ts, at_) :: ps => t ← OnReceivedValidRtpPacket (u16 seq) ts at_ t; receive_all ps t
  end.

(** The greatest sequence number of a stream that starts at [m]. *)
Definition greatest (m : Z) (ps : list packet) : Z := fold_left Z.max (map seq_of ps) m.

(** Every packet is less than half the 16-bit range away from the greatest
    sequence number so far: reordering and loss are not extreme. *)
Fixpoint plausible (m : Z) (ps : list packet) : Prop :=
  match ps with
  | [] => True
  | p :: ps => m - 2 ^ 15 <= seq_of p < m + 2 ^ 15 /\ plausible (Z.max m (seq_of p)) ps
  end.

Lemma greatest_app m ps qs : greatest m (ps ++ qs) = greatest (greatest m ps) qs.
Proof. unfold greatest. by rewrite map_app, fold_left_app. Qed.

Lemma jitter_average j a : 0 <= j -> 0 <= a -> Z.min j a <= j + Z.quot (a - j) 16 <= Z.max j a.
Proof.
  intros Hj Ha. destruct (Z.le_gt_cases j a).
  - rewrite Z.quot_div_nonneg by lia. Z.div_mod_to_equations. lia.
  - replace (a - j) with (- (j - a)) by lia.
    rewrite Z.quot_opp_l, Z.quot_div_nonneg by lia. Z.div_mod_to_equations. lia.
Qed.

(** One packet of a started stream. *)
Lemma OnReceived_started seq ts at_ t :
  0 < num_rtp_packets_received_ t -> 0 < rtp_timebase_ t -> 0 <= jitter_ t ->
  greatest_sequence_number_ t - 2 ^ 15 <= seq < greatest_sequence_number_ t + 2 ^ 15 ->
  exists t', OnReceivedValidRtpPacket (u16 seq) ts at_ t = Ret t'
    /\ rtp_timebase_ t' = rtp_timebase_ t /\ 0 <= jitter_ t'
    /\ num_rtp_packets_received_ t' = num_rtp_packets_received_ t + 1
    /\ greatest_sequence_number_ t' = Z.max (greatest_sequence_number_ t) seq
    /\ base_sequence_number_ t' = base_sequence_number_ t
    /\ greatest_sequence_number_at_last_report_ t' = greatest_sequence_number_at_last_report_ t
    /\ num_rtp_packets_received_at_last_report_ t'
       = num_rtp_packets_received_at_last_report_ t.
Proof.
  intros Hn Htb Hj Hseq. unfold OnReceivedValidRtpPacket.
  rewrite (proj2 (Z.eqb_neq _ 0)) by lia.
  rewrite (Expand_recovers 16 _ seq) by lia. unfold ToDuration.
  destruct (Z.ltb_spec (greatest_sequence_number_ t) seq); cbn [update eta];
    simpl; rewrite (OSP_CHECK_ltb 0) by done; cbn [mbind outcome_bind];
    (eexists; split; [reflexivity | simpl]);
    (split; [done |]); (split; [| split_and!; lia]);
    match goal with
    | |- 0 <= _ + Z.quot (?a - _) 16 =>
        assert (0 <= a) as Ha by (case_bool; lia); pose proof (jitter_average _ _ Hj Ha); lia
    end.
Qed.

Lemma receive_all_started ps t :
  0 < num_rtp_packets_received_ t -> 0 < rtp_timebase_ t -> 0 <= jitter_ t ->
  plausible (greatest_sequence_number_ t) ps ->
  exists t', receive_all ps t = Ret t'
    /\ rtp_timebase_ t' = rtp_timebase_ t /\ 0 <= jitter_ t'
    /\ num_rtp_packets_received_ t' = num_rtp_packets_received_ t + zlen ps
    /\ greatest_sequence_number_ t' = greatest (greatest_sequence_number_ t) ps
    /\ base_sequence_number_ t' = base_sequence_number_ t
    /\ greatest_sequence_number_at_last_report_ t' = greatest_sequence_number_at_last_report_ t
    /\ num_rtp_packets_received_at_last_report_ t'
       = num_rtp_packets_received_at_last_report_ t.
Proof.
  revert t. induction ps as [| [[seq ts] at_] ps IH]; intros t Hn Htb Hj Hp.
  { exists t. split_and!; try done. unfold zlen. simpl. lia. }
  destruct Hp as [Hw Hp]. unfold seq_of in *. simpl in Hw, Hp.
  destruct (OnReceived_started seq ts at_ t Hn Htb Hj Hw)
    as (t1 & E1 & Etb & Hj1 & En & Eg & Eb & Er & Ek).
  destruct (IH t1) as (t' & E' & Etb' & Hj' & En' & Eg' & Eb' & Er' & Ek');
    [lia | lia | done | by rewrite Eg |].
  exists t'. simpl. rewrite E1. cbn [mbind outcome_bind]. rewrite E'.
  rewrite zlen_cons. unfold greatest in *. simpl.
  split_and!; try congruence; [lia | by rewrite Eg', Eg].
Qed.

Lemma receive_all_first seq ts at_ t :
  num_rtp_packets_received_ t = 0 -> is_u 16 seq ->
  exists t', OnReceivedValidRtpPacket (u16 seq) ts at_ t = Ret t'
    /\ rtp_timebase_ t' = rtp_timebase_ t /\ jitter_ t' = 0
    /\ num_rtp_packets_received_ t' = 1
    /\ greatest_sequence_number_ t' = seq /\ base_sequence_number_ t' = seq - 1
    /\ greatest_sequence_number_at_last_report_ t' = seq - 1
    /\ num_rtp_packets_received_at_last_report_ t' = 0.
Proof.
  intros Hn Hs. unfold OnReceivedValidRtpPacket. rewrite Hn. simpl.
  rewrite (wrap_small 16 seq) by done. eexists. split; [reflexivity |]. simpl.
  rewrite Hn. split_and!; done.
Qed.

Lemma PopulateNextReport_started r t :
  0 < num_rtp_packets_received_ t ->
  PopulateNextReport r t =
  (t <| greatest_sequence_number_at_last_report_ := greatest_sequence_number_ t |>
     <| num_rtp_packets_received_at_last_report_ := num_rtp_packets_received_ t |>,
   (SetCumulativePacketsLost (greatest_sequence_number_ t - base_sequence_number_ t)
      (num_rtp_packets_received_ t)
      (SetPacketFractionLostNumerator
         (greatest_sequence_number_ t - greatest_sequence_number_at_last_report_ t)
         (num_rtp_packets_received_ t - num_rtp_packets_received_at_last_report_ t) r))
     <| extended_high_sequence_number := u32 (greatest_sequence_number_ t) |>
     <| jitter := FromDuration (jitter_ t) (rtp_timebase_ t) |>).
Proof. intros Hn. unfold PopulateNextReport. by rewrite (proj2 (Z.leb_gt _ 0)) by lia. Qed.

(** The reports carry the statistics RFC 3550 defines.  Take a stream whose
    packets [p0 :: ps] arrive before one report and [qs] between it and the
    next one, in any order, with losses and duplicates, as long as no packet is
    half the sequence number range away from the greatest one so far.  Then
    nothing faults; in the second report the fraction lost is computed from
    exactly the packets expected and received since the first report, the
    cumulative loss from all packets since the first one and the highest
    sequence number is that of the untruncated numbers, modulo 2^32. *)
Theorem loss_statistics (timebase : Z) (p0 : packet) (ps qs : list packet)
    (r1 r2 : RtcpReportBlock) :
  0 < timebase -> is_u 16 (seq_of p0) -> plausible (seq_of p0) (ps ++ qs) ->
  exists t1 t2 t3 r2',
    receive_all (p0 :: ps) (new_PacketReceiveStatsTracker timebase) = Ret t1
    /\ receive_all qs (PopulateNextReport r1 t1).1 = Ret t2
    /\ PopulateNextReport r2 t2 = (t3, r2')
    /\ let before := greatest (seq_of p0) ps in
       let now := greatest (seq_of p0) (ps ++ qs) in
       packet_fraction_lost_numerator r2' =
         (if now =? before then 0
          else Z.max 0 (Z.min 255 (Z.quot ((now - before - zlen qs) * 256) (now - before))))
       /\ cumulative_packets_lost r2' =
            Z.min (Z.max (now - seq_of p0 + 1 - zlen (p0 :: ps ++ qs)) 0) (2 ^ 24 - 1)
       /\ extended_high_sequence_number r2' = now mod 2 ^ 32.
Proof.
  intros Htb Hs0 Hp. destruct p0 as [[s0 ts0] at0]. cbn [seq_of fst] in *.
  assert (plausible s0 ps /\ plausible (greatest s0 ps) qs) as [Hps Hqs].
  { clear -Hp. revert s0 Hp. induction ps as [| p ps IH]; intros m; [done |].
    simpl. intros [Hw [H1 H2]%IH]. split; [done | exact H2]. }
  destruct (receive_all_first s0 ts0 at0 (new_PacketReceiveStatsTracker timebase) eq_refl Hs0)
    as (t0 & E0 & Etb0 & Hj0 & En0 & Eg0 & Eb0 & Er0 & Ek0). simpl in Etb0.
  destruct (receive_all_started ps t0) as (t1 & E1 & Etb1 & Hj1 & En1 & Eg1 & Eb1 & Er1 & Ek1);
    [lia | lia | lia | by rewrite Eg0 |]. rewrite Eg0 in Eg1.
  pose proof (zlen_nonneg ps). pose proof (zlen_nonneg qs).
  set (t1' := (PopulateNextReport r1 t1).1).
  assert (t1' = t1 <| greatest_sequence_number_at_last_report_ := greatest_sequence_number_ t1 |>
     <| num_rtp_packets_received_at_last_report_ := num_rtp_packets_received_ t1 |>) as Et1'.
  { unfold t1'. by rewrite PopulateNextReport_started by lia. }
  destruct (receive_all_started qs t1') as (t2 & E2 & Etb2 & Hj2 & En2 & Eg2 & Eb2 & Er2 & Ek2);
    [rewrite Et1'; simpl; lia | rewrite Et1'; simpl; lia | rewrite Et1'; simpl; lia
    | rewrite Et1'; simpl; by rewrite Eg1 |].
  rewrite Et1' in Etb2, En2, Eg2, Eb2, Er2, Ek2. simpl in Etb2, En2, Eg2, Eb2, Er2, Ek2.
  assert (greatest_sequence_number_ t2 = greatest s0 (ps ++ qs)) as Eg2'
    by (rewrite Eg2, Eg1; symmetry; apply greatest_app).
  eexists t1, t2, _, _. split; [cbn [receive_all]; rewrite E0; exact E1 |]. split; [exact E2 |].
  split; [apply PopulateNextReport_started; lia |].
  cbv zeta. rewrite Eg2', Er2, Ek2, Eb2, En2, Eg1, Eb1, Eb0, En1, En0.
  assert (greatest s0 ps <= greatest s0 (ps ++ qs)) as Hmono.
  { rewrite greatest_app. generalize (greatest s0 ps). clear. intros m. unfold greatest.
    revert m. induction (map seq_of qs) as [| x l IH]; intros m; simpl; [lia |].
    specialize (IH (Z.max m x)). lia. }
  autorewrite with zlen.
  split_and!.
  - simpl. unfold SetPacketFractionLostNumerator, kPacketFractionLostDenominator.
    destruct (Z.eqb_spec (greatest s0 (ps ++ qs)) (greatest s0 ps)) as [-> | Hne].
    + by rewrite (proj2 (Z.leb_le _ 0)) by lia.
    + rewrite (proj2 (Z.leb_gt _ 0)) by lia. simpl. rewrite saturate_uint8_clamp.
      do 3 f_equal. f_equal. lia.
  - simpl. unfold seq_of. simpl. f_equal. lia.
  - done.
Qed.

(** Sequence numbers that wrap around 2^16, with one of them lost, before and
    after a first report. *)
Lemma loss_statistics_witness :
  exists t1 t2 t3 r2',
    receive_all [(65534, 0, 0); (65536, 3000, 33000)] (new_PacketReceiveStatsTracker 90000) = Ret t1
    /\ receive_all [(65535, 3000, 34000); (65539, 9000, 99000)]
         (PopulateNextReport empty_report_block t1).1 = Ret t2
    /\ PopulateNextReport empty_report_block t2 = (t3, r2')
    /\ packet_fraction_lost_numerator r2' = 85
    /\ cumulative_packets_lost r2' = 2
    /\ extended_high_sequence_number r2' = 65539.
Proof.
  destruct (loss_statistics 90000 (65534, 0, 0) [(65536, 3000, 33000)]
              [(65535, 3000, 34000); (65539, 9000, 99000)] empty_report_block empty_report_block)
    as (t1 & t2 & t3 & r2' & E1 & E2 & E3 & Hf & Hc & Hx).
  - lia.
  - unfold is_u, seq_of. simpl. lia.
  - simpl. unfold seq_of. simpl. repeat split; lia.
  - exists t1, t2, t3, r2'. split_and!; done.
Defined.
