(* ===== verification/Bandwidth.v ===== *)
(** Network bandwidth estimation from the send bursts and the acknowledged
    bytes of a recent time window (cast/streaming/impl/bandwidth_estimator.h and
    .cc). *)

From S2P Require Import Prelude Numeric.

(** * FlowTracker: amounts per timeslice, in a ring of 256 slots *)

Definition kNumTimeslices : Z := 255 + 1.

Record FlowTracker := mkFlowTracker {
  timeslice_duration_ : Z;
  begin_time_ : Z;
  history_ring_ : list Z;
  tail_ : Z }.
#[export] Instance eta_FlowTracker : Eta FlowTracker := fun t =>
  mkFlowTracker (timeslice_duration_ t) (begin_time_ t) (history_ring_ t) (tail_ t).

Definition new_FlowTracker (timeslice_duration begin_time : Z) : FlowTracker :=
  mkFlowTracker timeslice_duration begin_time (replicate (Z.to_nat kNumTimeslices) 0) 0.

Definition end_time (t : FlowTracker) : Z := begin_time_ t + timeslice_duration_ t * kNumTimeslices.

(** [history_ring_[tail_++] = 0], [shift_count] times. *)
Fixpoint shift_loop (shift_count : nat) (t : FlowTracker) : FlowTracker :=
  match shift_count with
  | O => t
  | S n =>
      let t := t <| history_ring_ := <[Z.to_nat (tail_ t) := 0]> (history_ring_ t) |> in
      shift_loop n (t <| tail_ := u8 (tail_ t + 1) |>)
  end.

Definition AdvanceToIncludeTime (until : Z) (t : FlowTracker) : FlowTracker :=
  if until <? end_time t then t
  else
    let num_periods := 1 + Z.quot (until - end_time t) (timeslice_duration_ t) in
    let t := t <| begin_time_ := begin_time_ t + num_periods * timeslice_duration_ t |> in
    let shift_count := Z.min num_periods kNumTimeslices in
    shift_loop (Z.to_nat shift_count) t.

Definition Accumulate (amount when_ : Z) (t : FlowTracker) : FlowTracker :=
  if when_ <? begin_time_ t then t
  else
    let t := AdvanceToIncludeTime when_ t in
    let offset_from_first := Z.quot (when_ - begin_time_ t) (timeslice_duration_ t) in
    let ring_index := u8 (tail_ t + offset_from_first) in
    t <| history_ring_ :=
           alter (fun timeslice => saturate_int32 (timeslice + amount))
                 (Z.to_nat ring_index) (history_ring_ t) |>.

Definition Sum (t : FlowTracker) : Z :=
  saturate_int32 (fold_left Z.add (history_ring_ t) 0).

(** * BandwidthEstimator *)

Definition ToClampedBitsPerSecond (bytes time_window : Z) : outcome Z :=
  OSP_CHECK (0 <? time_window) ;;
  let bits := bytes * 8 in
  let bits_per_second := Z.quot (bits * 1000000) time_window in
  Ret (saturate_int32 bits_per_second).

Record BandwidthEstimator := mkEstimator {
  max_packets_per_history_window_ : Z;
  history_window_ : Z;
  burst_history_ : FlowTracker;
  feedback_history_ : FlowTracker }.
#[export] Instance eta_Estimator : Eta BandwidthEstimator := fun e =>
  mkEstimator (max_packets_per_history_window_ e) (history_window_ e)
    (burst_history_ e) (feedback_history_ e).

Definition new_BandwidthEstimator (max_packets_per_timeslice timeslice_duration start_time : Z)
    : outcome BandwidthEstimator :=
  let e := mkEstimator (max_packets_per_timeslice * kNumTimeslices)
             (timeslice_duration * kNumTimeslices)
             (new_FlowTracker timeslice_duration start_time)
             (new_FlowTracker timeslice_duration start_time) in
  OSP_CHECK (0 <? max_packets_per_timeslice) ;;
  OSP_CHECK (0 <? timeslice_duration) ;;
  Ret e.

Definition OnBurstComplete (num_packets_sent when_ : Z) (e : BandwidthEstimator)
    : outcome BandwidthEstimator :=
  OSP_CHECK (0 <=? num_packets_sent) ;;
  Ret (e <| burst_history_ := Accumulate num_packets_sent when_ (burst_history_ e) |>).

Definition OnRtcpReceived (arrival_time estimated_round_trip_time : Z) (e : BandwidthEstimator)
    : outcome BandwidthEstimator :=
  OSP_CHECK (0 <=? estimated_round_trip_time) ;;
  Ret (e <| feedback_history_ :=
         AdvanceToIncludeTime (arrival_time - estimated_round_trip_time) (feedback_history_ e) |>).

Definition OnPayloadReceived
    (payload_bytes_acknowledged ack_arrival_time estimated_round_trip_time : Z)
    (e : BandwidthEstimator) : outcome BandwidthEstimator :=
  OSP_CHECK (0 <=? payload_bytes_acknowledged) ;;
  OSP_CHECK (ack_arrival_time <? INT64_MAX) ;;
  OSP_CHECK (0 <=? estimated_round_trip_time) ;;
  Ret (e <| feedback_history_ :=
         Accumulate payload_bytes_acknowledged (ack_arrival_time - estimated_round_trip_time)
           (feedback_history_ e) |>).

Definition ComputeNetworkBandwidth (e : BandwidthEstimator) : outcome Z :=
  let overlap_begin :=
    Z.max (begin_time_ (burst_history_ e)) (begin_time_ (feedback_history_ e)) in
  let overlap_end := Z.min (end_time (burst_history_ e)) (end_time (feedback_history_ e)) in
  if overlap_end - overlap_begin <? Z.quot (history_window_ e) 2 then Ret 0
  else
    let num_packets_transmitted := Sum (burst_history_ e) in
    if num_packets_transmitted <=? 0 then Ret 0
    else
      let transmit_duration :=
        Z.quot (history_window_ e * num_packets_transmitted)
               (max_packets_per_history_window_ e) in
      let num_bytes_received := Sum (feedback_history_ e) in
      ToClampedBitsPerSecond num_bytes_received transmit_duration.

(** * The ring as a window

    The slots from the oldest to the most recent. *)

Definition window (t : FlowTracker) : list Z :=
  drop (Z.to_nat (tail_ t)) (history_ring_ t) ++ take (Z.to_nat (tail_ t)) (history_ring_ t).

#[local] Arguments Nat.modulo : simpl never.

Definition ring_ok (t : FlowTracker) : Prop :=
  length (history_ring_ t) = 256%nat /\ 0 <= tail_ t < 256 /\ 0 < timeslice_duration_ t.

Definition sum (l : list Z) : Z := fold_right Z.add 0 l.

Lemma sum_app l k : sum (l ++ k) = sum l + sum k.
Proof. induction l; simpl; lia. Qed.

Lemma fold_left_sum l a : fold_left Z.add l a = a + sum l.
Proof. revert a. induction l as [| x l IH]; intros a; simpl; [lia | rewrite IH; lia]. Qed.

Lemma Sum_window t : Sum t = saturate_int32 (sum (window t)).
Proof.
  unfold Sum, window. rewrite fold_left_sum, sum_app.
  rewrite <- (take_drop (Z.to_nat (tail_ t)) (history_ring_ t)) at 1. rewrite sum_app.
  f_equal. lia.
Qed.

Lemma length_window t : ring_ok t -> length (window t) = 256%nat.
Proof. intros (Hl & ? & _). unfold window. rewrite length_app, length_drop, length_take. lia. Qed.

Lemma window_lookup t k :
  ring_ok t -> (k < 256)%nat ->
  window t !! k = history_ring_ t !! ((Z.to_nat (tail_ t) + k) mod 256)%nat.
Proof.
  intros (Hl & Ht & _) Hk. unfold window.
  destruct (decide (k < 256 - Z.to_nat (tail_ t))%nat).
  - rewrite lookup_app_l by (rewrite length_drop; lia). rewrite lookup_drop.
    by rewrite Nat.mod_small by lia.
  - rewrite lookup_app_r by (rewrite length_drop; lia). rewrite length_drop, Hl.
    rewrite lookup_take_lt by lia.
    f_equal. replace (Z.to_nat (tail_ t) + k)%nat
      with (k - (256 - Z.to_nat (tail_ t)) + 1 * 256)%nat by lia.
    rewrite Nat.Div0.mod_add, Nat.mod_small by lia. lia.
Qed.

(** Discarding the oldest slot. *)
Lemma shift_one t :
  ring_ok t ->
  let t' := t <| history_ring_ := <[Z.to_nat (tail_ t) := 0]> (history_ring_ t) |>
              <| tail_ := u8 (tail_ t + 1) |> in
  ring_ok t' /\ window t' = drop 1 (window t) ++ [0].
Proof.
  intros Hok. cbv zeta. pose proof Hok as (Hl & Ht & Hd).
  assert (ring_ok (t <| history_ring_ := <[Z.to_nat (tail_ t) := 0]> (history_ring_ t) |>
              <| tail_ := u8 (tail_ t + 1) |>)) as Hok'.
  { split_and!; simpl; try done; try (rewrite length_insert; done);
    pose proof (wrap_is_u 8 (tail_ t + 1) ltac:(lia)) as Hu; unfold is_u in Hu; lia. }
  split; [done |]. apply list_eq. intros k.
  destruct (decide (k < 256)%nat) as [Hk | Hk].
  2: { rewrite !lookup_ge_None_2; [done | rewrite length_app, length_drop, length_window by done;
         simpl; lia | rewrite length_window by done; lia]. }
  rewrite window_lookup by done. simpl.
  assert (Z.to_nat (u8 (tail_ t + 1)) = ((Z.to_nat (tail_ t) + 1) mod 256)%nat) as ->.
  { unfold wrap. rewrite <- (Z2Nat.id (tail_ t)) at 1 by lia.
    change (2 ^ 8) with (Z.of_nat 256). rewrite <- (Nat2Z.inj_add _ 1), <- Nat2Z.inj_mod. lia. }
  rewrite Nat.Div0.add_mod_idemp_l.
  destruct (decide (k = 255)%nat) as [-> | Hk'].
  - rewrite lookup_app_r by (rewrite length_drop, length_window by done; lia).
    rewrite length_drop, length_window by done. simpl.
    replace (Z.to_nat (tail_ t) + 1 + 255)%nat with (Z.to_nat (tail_ t) + 1 * 256)%nat by lia.
    rewrite Nat.Div0.mod_add, Nat.mod_small by lia. rewrite list_lookup_insert_eq by lia. done.
  - rewrite lookup_app_l by (rewrite length_drop, length_window by done; lia).
    rewrite lookup_drop, window_lookup by (done || lia).
    rewrite Nat.add_assoc. rewrite list_lookup_insert_ne; [done |].
    intros E. pose proof (Nat.Div0.div_mod (Z.to_nat (tail_ t) + 1 + k) 256). nia.
Qed.

Lemma shift_loop_window n t :
  ring_ok t -> (n <= 256)%nat ->
  ring_ok (shift_loop n t) /\ begin_time_ (shift_loop n t) = begin_time_ t
  /\ timeslice_duration_ (shift_loop n t) = timeslice_duration_ t
  /\ window (shift_loop n t) = drop n (window t) ++ replicate n 0.
Proof.
  revert t. induction n as [| n IH]; intros t Hok Hn.
  { cbn [shift_loop replicate]. by rewrite drop_0, app_nil_r. }
  pose proof (shift_one t Hok) as Hone. cbv zeta in Hone.
  set (t1 := t <| history_ring_ := _ |> <| tail_ := _ |>) in Hone. destruct Hone as [Hok1 E1].
  change (shift_loop (S n) t) with (shift_loop n t1).
  destruct (IH t1 Hok1 ltac:(lia)) as (H1 & H2 & H3 & H4).
  split; [exact H1 |]. split; [rewrite H2; done |].
  split; [rewrite H3; done |]. rewrite H4, E1. pose proof (length_window t Hok).
  rewrite drop_app_le by (rewrite length_drop; lia).
  rewrite drop_drop, <- app_assoc. f_equal.
Qed.

(** Adding to a slot. *)
Lemma alter_window f t k :
  ring_ok t -> 0 <= k < 256 ->
  let t' := t <| history_ring_ := alter f (Z.to_nat (u8 (tail_ t + k))) (history_ring_ t) |> in
  ring_ok t' /\ window t' = alter f (Z.to_nat k) (window t).
Proof.
  intros Hok Hk. cbv zeta. pose proof Hok as (Hl & Ht & Hd).
  assert (ring_ok (t <| history_ring_ :=
            alter f (Z.to_nat (u8 (tail_ t + k))) (history_ring_ t) |>)) as Hok'
    by (split_and!; simpl; try done; try (rewrite length_alter; done); lia).
  split; [done |]. apply list_eq. intros j.
  destruct (decide (j < 256)%nat) as [Hj | Hj].
  2: { rewrite !lookup_ge_None_2; [done | rewrite length_alter, length_window by done; lia
                                  | rewrite length_window by done; lia]. }
  rewrite window_lookup by done. simpl.
  assert (Z.to_nat (u8 (tail_ t + k)) = ((Z.to_nat (tail_ t) + Z.to_nat k) mod 256)%nat) as ->.
  { unfold wrap. rewrite <- (Z2Nat.id (tail_ t)) at 1 by lia. rewrite <- (Z2Nat.id k) at 1 by lia.
    change (2 ^ 8) with (Z.of_nat 256). rewrite <- Nat2Z.inj_add, <- Nat2Z.inj_mod. lia. }
  destruct (decide (j = Z.to_nat k)) as [-> | Hne].
  - rewrite !list_lookup_alter_eq, window_lookup by (done || lia). done.
  - rewrite list_lookup_alter_ne.
    + rewrite list_lookup_alter_ne by done. by rewrite window_lookup.
    + intros E. pose proof (Nat.Div0.div_mod (Z.to_nat (tail_ t) + Z.to_nat k) 256).
      pose proof (Nat.Div0.div_mod (Z.to_nat (tail_ t) + j) 256). nia.
Qed.

#[global] Arguments shift_loop : simpl never.

(** * What the tracker tracks

    A data point is an amount and its time.  [recent pts lo hi] totals the
    points from [lo] up to [hi]. *)

Definition recent (pts : list (Z * Z)) (lo hi : Z) : Z :=
  sum (map (fun p => if (lo <=? p.2) && (p.2 <? hi) then p.1 else 0) pts).
Definition total (pts : list (Z * Z)) : Z := sum (map fst pts).

(** The window covers 256 timeslices up to the one of the latest point, and
    never starts before [b0]. *)
Definition window_start (b0 d : Z) (pts : list (Z * Z)) : Z :=
  b0 + d * fold_left Z.max (map (fun p => (p.2 - b0) / d - 255) pts) 0.

Definition slots (b d : Z) (pts : list (Z * Z)) : list Z :=
  (fun k => Z.min INT_MAX (recent pts (b + k * d) (b + (k + 1) * d))) <$> seqZ 0 256.

Definition tracks (b0 d : Z) (pts : list (Z * Z)) (t : FlowTracker) : Prop :=
  ring_ok t /\ timeslice_duration_ t = d /\ begin_time_ t = window_start b0 d pts
  /\ window t = slots (begin_time_ t) d pts /\ Forall (fun p => p.2 < end_time t) pts.

Lemma recent_snoc pts p lo hi :
  recent (pts ++ [p]) lo hi =
  recent pts lo hi + (if (lo <=? p.2) && (p.2 <? hi) then p.1 else 0).
Proof. unfold recent. rewrite map_app, sum_app. simpl. lia. Qed.

Lemma recent_split pts lo mid hi :
  lo <= mid <= hi -> recent pts lo hi = recent pts lo mid + recent pts mid hi.
Proof.
  intros H. induction pts as [| p pts IH]; [done |]. unfold recent in *. simpl. rewrite IH.
  destruct (Z.leb_spec lo p.2), (Z.leb_spec mid p.2), (Z.ltb_spec p.2 mid),
    (Z.ltb_spec p.2 hi); simpl; lia.
Qed.

Lemma recent_bounds pts lo hi :
  Forall (fun p => 0 <= p.1) pts -> 0 <= recent pts lo hi <= total pts.
Proof.
  induction 1 as [| p pts Hp _ IH]; [done |]. unfold recent, total in *. simpl.
  case_match; lia.
Qed.

Lemma recent_after pts lo hi : Forall (fun p => p.2 < lo) pts -> recent pts lo hi = 0.
Proof.
  induction 1 as [| p pts Hp _ IH]; [done |]. unfold recent in *. simpl.
  rewrite (proj2 (Z.leb_gt lo p.2)) by done. simpl. lia.
Qed.

Lemma recent_upto pts lo hi hi' :
  Forall (fun p => p.2 < hi) pts -> hi <= hi' -> recent pts lo hi' = recent pts lo hi.
Proof.
  intros Hall Hh. induction Hall as [| p pts Hp _ IH]; [done |]. unfold recent in *. simpl.
  rewrite IH, !(proj2 (Z.ltb_lt p.2 _)) by lia. done.
Qed.

Lemma lookup_slots b d pts k :
  (k < 256)%nat ->
  slots b d pts !! k =
  Some (Z.min INT_MAX (recent pts (b + Z.of_nat k * d) (b + (Z.of_nat k + 1) * d))).
Proof. intros Hk. unfold slots. rewrite list_lookup_fmap, lookup_seqZ_lt by lia. done. Qed.

Lemma sum_slots_n b d pts n :
  0 <= d ->
  sum ((fun k => recent pts (b + k * d) (b + (k + 1) * d)) <$> seqZ 0 (Z.of_nat n))
  = recent pts b (b + Z.of_nat n * d).
Proof.
  intros Hd. induction n as [| n IH].
  { simpl. unfold recent. induction pts as [| p pts IHp]; [done |]. simpl.
    destruct (Z.leb_spec b p.2), (Z.ltb_spec p.2 (b + Z.of_nat 0 * d)); simpl; lia. }
  rewrite seqZ_S, fmap_app, sum_app, IH, Nat2Z.inj_succ. cbn [fmap list_fmap sum fold_right].
  rewrite (recent_split pts b (b + Z.of_nat n * d) (b + Z.succ (Z.of_nat n) * d)) by nia.
  replace (Z.succ (Z.of_nat n)) with (0 + Z.of_nat n + 1) by lia.
  replace (0 + Z.of_nat n) with (Z.of_nat n) by lia. lia.
Qed.

(** Saturating the parts of a sum before it saturates makes no difference. *)
Lemma saturated_sum l :
  Forall (fun x => 0 <= x) l ->
  Z.min INT_MAX (sum (Z.min INT_MAX <$> l)) = Z.min INT_MAX (sum l)
  /\ 0 <= sum (Z.min INT_MAX <$> l) /\ 0 <= sum l.
Proof.
  induction 1 as [| x l Hx _ (IH & H1 & H2)]; [done |].
  change (sum (x :: l)) with (x + sum l).
  change (sum (Z.min INT_MAX <$> x :: l)) with (Z.min INT_MAX x + sum (Z.min INT_MAX <$> l)).
  assert (0 <= INT_MAX) as Hmax by done. revert IH H1 H2 Hmax.
  generalize (sum l) (sum (Z.min INT_MAX <$> l)). generalize INT_MAX. lia.
Qed.

Lemma Sum_tracks b0 d pts t :
  tracks b0 d pts t -> Forall (fun p => 0 <= p.1) pts ->
  Sum t = Z.min INT_MAX (recent pts (window_start b0 d pts) (end_time t)).
Proof.
  intros (Hok & Hd & Hb & Hw & Hall) Hnn. rewrite Sum_window, Hw.
  pose proof Hok as (_ & _ & Hdp).
  set (parts := (fun k => recent pts (begin_time_ t + k * d) (begin_time_ t + (k + 1) * d)) <$> seqZ 0 256).
  assert (slots (begin_time_ t) d pts = Z.min INT_MAX <$> parts) as -> by done.
  assert (Forall (fun x => 0 <= x) parts) as Hparts.
  { apply Forall_fmap, Forall_true. intros k. by apply recent_bounds. }
  destruct (saturated_sum parts Hparts) as (Hsum & H0 & _).
  assert (sum parts = recent pts (window_start b0 d pts) (end_time t)) as Hexact.
  { unfold parts. change 256 with (Z.of_nat 256). rewrite sum_slots_n by lia.
    unfold end_time. rewrite Hb, Hd. by rewrite (Z.mul_comm d). }
  rewrite <- Hexact, <- Hsum. unfold saturate_int32. rewrite saturate_same_sign_clamp by done.
  revert H0. generalize (sum (Z.min INT_MAX <$> parts)). unfold INT_MIN, INT_MAX. lia.
Qed.

Lemma slots_snoc_zero b d pts w : slots b d (pts ++ [(0, w)]) = slots b d pts.
Proof.
  unfold slots. apply list_fmap_ext. intros k x _. rewrite recent_snoc. simpl.
  case_match; lia.
Qed.

(** Advancing drops the slots that have become too old and appends empty ones. *)
Lemma advance_slots b d pts n :
  0 < d -> 0 <= n -> Forall (fun p => p.2 < b + 256 * d) pts ->
  let m := Z.to_nat (Z.min n 256) in
  drop m (slots b d pts) ++ replicate m 0 = slots (b + n * d) d pts.
Proof.
  intros Hd Hn Hall. cbv zeta. set (m := Z.to_nat (Z.min n 256)).
  assert (length (slots b d pts) = 256%nat) as Hlen by done.
  apply list_eq. intros k. destruct (decide (k < 256)%nat) as [Hk | Hk].
  2: { rewrite !lookup_ge_None_2; [done | change (length (slots (b + n * d) d pts)) with 256%nat; lia
         | rewrite length_app, length_drop, length_replicate, Hlen; lia]. }
  rewrite (lookup_slots (b + n * d)) by done.
  destruct (decide (k + m < 256)%nat).
  - rewrite lookup_app_l by (rewrite length_drop; lia).
    rewrite lookup_drop, lookup_slots by lia. do 3 f_equal; nia.
  - rewrite lookup_app_r by (rewrite length_drop; lia).
    rewrite length_drop, Hlen. rewrite lookup_replicate_2 by lia. rewrite recent_after; [done |].
    eapply Forall_impl; [exact Hall |]. simpl. intros p Hp. nia.
Qed.

Lemma window_start_snoc b0 d pts p :
  window_start b0 d (pts ++ [p]) =
  b0 + d * Z.max ((window_start b0 d pts - b0) / d) ((p.2 - b0) / d - 255) \/ d <= 0.
Proof.
  destruct (Z.le_gt_cases d 0); [by right | left]. unfold window_start.
  rewrite map_app, fold_left_app. simpl.
  match goal with |- context [fold_left Z.max ?l 0] => set (M := fold_left Z.max l 0) end.
  replace (b0 + d * M - b0) with (M * d) by lia. by rewrite Z.div_mul by lia.
Qed.

Lemma Advance_tracks b0 d pts t until :
  tracks b0 d pts t ->
  tracks b0 d (pts ++ [(0, until)]) (AdvanceToIncludeTime until t)
  /\ begin_time_ t <= begin_time_ (AdvanceToIncludeTime until t)
  /\ until < end_time (AdvanceToIncludeTime until t).
Proof.
  intros (Hok & Hd & Hb & Hw & Hall). pose proof Hok as (_ & _ & Hdp).
  unfold AdvanceToIncludeTime, tracks. unfold end_time, kNumTimeslices in *.
  destruct (window_start_snoc b0 d pts (0, until)) as [Hws |]; [| lia]. simpl in Hws.
  assert (exists M, window_start b0 d pts = b0 + d * M) as [M HM] by (by eexists).
  rewrite HM in *. replace (b0 + d * M - b0) with (M * d) in Hws by lia.
  rewrite Z.div_mul in Hws by lia. rewrite Hd in *. rewrite Hb in *. cbv zeta. rewrite ?Hd, ?Hb.
  destruct (Z.ltb_spec until (b0 + d * M + d * (255 + 1))) as [Hlt | Hge].
  - rewrite slots_snoc_zero, ?Hd, ?Hb. split_and!; try done; try lia.
    + rewrite Hws. assert ((until - b0) / d < M + 256); [| f_equal; nia].
      apply Z.div_lt_upper_bound; lia.
    + apply Forall_app. split; [done |]. apply Forall_singleton. simpl. lia.
  - rewrite Z.quot_div_nonneg by lia.
    set (n := 1 + (until - (b0 + d * M + d * (255 + 1))) / d).
    assert ((until - b0) / d - 255 = M + n) as Hn.
    { unfold n. replace (until - b0) with (until - (b0 + d * M + d * (255 + 1)) + (M + 256) * d)
        by lia. rewrite Z.div_add by lia. lia. }
    assert (1 <= n) as Hn1 by (pose proof (Z.div_pos (until - (b0 + d * M + d * (255 + 1))) d); lia).
    set (t1 := t <| begin_time_ := b0 + d * M + n * d |>).
    destruct (shift_loop_window (Z.to_nat (Z.min n 256)) t1)
      as (H1 & H2 & H3 & H4); [exact Hok | lia |].
    change (begin_time_ t1) with (b0 + d * M + n * d) in H2.
    change (timeslice_duration_ t1) with (timeslice_duration_ t) in H3. change (Z.min n (255 + 1)) with (Z.min n 256).
    rewrite H2, H3, Hd, slots_snoc_zero.
    assert (until < b0 + d * M + n * d + d * (255 + 1)) as Hu.
    { unfold n. pose proof (Z.div_mod (until - (b0 + d * M + d * (255 + 1))) d ltac:(lia)).
      pose proof (Z.mod_pos_bound (until - (b0 + d * M + d * (255 + 1))) d ltac:(lia)). nia. }
    split_and!; try done; try nia.
    + rewrite H4. change (window t1) with (window t).
      rewrite Hw. apply advance_slots; [lia | lia |].
      eapply Forall_impl; [exact Hall |]. simpl. lia.
    + apply Forall_app. split; [| apply Forall_singleton; simpl; lia].
      eapply Forall_impl; [exact Hall |]. simpl. nia.
Qed.

Lemma window_start_amount b0 d pts a a' w :
  window_start b0 d (pts ++ [(a, w)]) = window_start b0 d (pts ++ [(a', w)]).
Proof. unfold window_start. by rewrite !map_app. Qed.

(** Adding to a count that may be saturated. *)
Lemma saturate_more x a :
  0 <= x -> 0 <= a -> saturate_int32 (Z.min INT_MAX x + a) = Z.min INT_MAX (x + a).
Proof.
  intros Hx Ha. unfold saturate_int32. rewrite saturate_same_sign_clamp by done.
  unfold INT_MIN, INT_MAX. lia.
Qed.

Lemma Accumulate_tracks b0 d pts t a w :
  tracks b0 d pts t -> Forall (fun p => 0 <= p.1) pts -> 0 <= a ->
  tracks b0 d (pts ++ [(a, w)]) (Accumulate a w t).
Proof.
  intros Ht Hnn Ha. pose proof Ht as (Hok & Hd & Hb & Hw & Hall).
  pose proof Hok as (_ & _ & Hdp). rewrite Hd in Hdp. unfold Accumulate.
  destruct (Z.ltb_spec w (begin_time_ t)) as [Hlt | Hge].
  - destruct (Advance_tracks b0 d pts t w Ht) as ((_ & _ & Hb1 & _) & _).
    unfold AdvanceToIncludeTime in Hb1. unfold end_time, kNumTimeslices in *.
    rewrite (proj2 (Z.ltb_lt w _)) in Hb1 by nia.
    split; [done |]. split; [done |].
    split; [by rewrite (window_start_amount _ _ _ a 0) |]. split.
    + rewrite Hw. apply list_fmap_ext. intros k x Hx.
      apply lookup_seqZ in Hx as [-> Hk]. rewrite recent_snoc. simpl.
      rewrite (proj2 (Z.leb_gt (begin_time_ t + (0 + Z.of_nat k) * d) w)) by nia. simpl. lia.
    + apply Forall_app. split; [done |]. apply Forall_singleton. unfold end_time, kNumTimeslices. simpl. nia.
  - destruct (Advance_tracks b0 d pts t w Ht) as (Ht1 & Hle & Hwin).
    set (t1 := AdvanceToIncludeTime w t) in *.
    destruct Ht1 as (Hok1 & Hd1 & Hb1 & Hw1 & Hall1). unfold end_time, kNumTimeslices in *.
    rewrite Hd1 in *.
    assert (0 <= w - begin_time_ t1) as Hw0.
    { unfold t1, AdvanceToIncludeTime. case_match; [lia |].
      apply Z.ltb_ge in H. rewrite Z.quot_div_nonneg by lia.
      unfold end_time, kNumTimeslices in *. rewrite Hd in *.
      match goal with |- context [shift_loop ?n ?t'] =>
        destruct (shift_loop_window n t') as (_ & -> & _); [done | lia |] end.
      simpl. rewrite ?Hd.
      pose proof (Z.mul_div_le (w - (begin_time_ t + d * 256)) d ltac:(lia)).
      change (255 + 1) with 256. nia. }
    rewrite Z.quot_div_nonneg by lia.
    set (off := (w - begin_time_ t1) / d).
    assert (0 <= off < 256 /\ off * d <= w - begin_time_ t1 < (off + 1) * d) as [Hoff Hoffd].
    { unfold off. pose proof (Z.mul_div_le (w - begin_time_ t1) d ltac:(lia)).
      pose proof (Z.mul_succ_div_gt (w - begin_time_ t1) d ltac:(lia)).
      split; [split; [apply Z.div_pos; lia | apply Z.div_lt_upper_bound; lia] | lia]. }
    destruct (alter_window (fun timeslice => saturate_int32 (timeslice + a)) t1 off Hok1 Hoff)
      as [Hok2 Hw2].
    split; [exact Hok2 |]. split; [exact Hd1 |].
    split; [simpl; by rewrite Hb1, (window_start_amount _ _ _ a 0) |]. split.
    + rewrite Hw2, Hw1. cbn [begin_time_ update eta]. rewrite slots_snoc_zero.
      apply list_eq. intros k. destruct (decide (k < 256)%nat) as [Hk | Hk].
      2: { rewrite !lookup_ge_None_2; [done | unfold slots; rewrite length_fmap, length_seqZ; lia
             | rewrite length_alter; unfold slots; rewrite length_fmap, length_seqZ; lia]. }
      rewrite (lookup_slots _ _ (pts ++ _)), recent_snoc by done. simpl.
      destruct (decide (k = Z.to_nat off)) as [-> | Hne].
      * rewrite list_lookup_alter_eq, lookup_slots by done. simpl. f_equal.
        rewrite Z2Nat.id by lia.
        rewrite (proj2 (Z.leb_le _ w)), (proj2 (Z.ltb_lt w _)) by lia. simpl.
        apply saturate_more; [| done]. by apply recent_bounds.
      * rewrite list_lookup_alter_ne, lookup_slots by done. f_equal.
        destruct (Z.leb_spec (begin_time_ t1 + Z.of_nat k * d) w),
          (Z.ltb_spec w (begin_time_ t1 + (Z.of_nat k + 1) * d)); simpl; try lia.
        exfalso. apply Hne. assert (Z.of_nat k = off) by nia. lia.
    + unfold end_time, kNumTimeslices. simpl. rewrite Hd1.
      apply Forall_app. split; [| by apply Forall_singleton].
      by apply Forall_app in Hall1 as [? _].
Qed.

Lemma new_FlowTracker_ok b0 d : 0 < d -> ring_ok (new_FlowTracker d b0).
Proof. intros Hd. split; [done | split; [simpl; lia | done]]. Qed.

Lemma new_FlowTracker_tracks b0 d : 0 < d -> tracks b0 d [] (new_FlowTracker d b0).
Proof.
  intros Hd. split; [by apply new_FlowTracker_ok |]. split; [done |].
  split; [unfold window_start; simpl; lia |]. split; [| constructor].
  unfold slots. apply list_eq. intros k. destruct (decide (k < 256)%nat) as [Hk | Hk].
  - rewrite window_lookup by (by first [apply new_FlowTracker_ok | exact Hk]). rewrite list_lookup_fmap, lookup_seqZ_lt by lia.
    change (history_ring_ (new_FlowTracker d b0)) with (replicate 256 0).
    rewrite lookup_replicate_2 by (apply Nat.mod_upper_bound; lia). done.
  - rewrite !lookup_ge_None_2; [done | rewrite length_fmap, length_seqZ; lia |].
    rewrite length_window by (by apply new_FlowTracker_ok). lia.
Qed.

(** * Runs of the estimator *)

Inductive event :=
  | BurstComplete (num_packets_sent when_ : Z)
  | RtcpReceived (arrival_time rtt : Z)
  | PayloadReceived (bytes arrival_time rtt : Z).

Definition step (ev : event) (e : BandwidthEstimator) : outcome BandwidthEstimator :=
  match ev with
  | BurstComplete n w => OnBurstComplete n w e
  | RtcpReceived at_ rtt => OnRtcpReceived at_ rtt e
  | PayloadReceived n at_ rtt => OnPayloadReceived n at_ rtt e
  end.
Fixpoint run (evs : list event) (e : BandwidthEstimator) : outcome BandwidthEstimator :=
  match evs with [] => Ret e | ev :: evs => e ← step ev e; run evs e end.

Definition event_ok (ev : event) : Prop :=
  match ev with
  | BurstComplete n _ => 0 <= n
  | RtcpReceived _ rtt => 0 <= rtt
  | PayloadReceived n at_ rtt => 0 <= n /\ at_ < INT64_MAX /\ 0 <= rtt
  end.

Definition burst_point (ev : event) : list (Z * Z) :=
  match ev with BurstComplete n w => [(n, w)] | _ => [] end.
Definition feedback_point (ev : event) : list (Z * Z) :=
  match ev with
  | RtcpReceived at_ rtt => [(0, at_ - rtt)]
  | PayloadReceived n at_ rtt => [(n, at_ - rtt)]
  | _ => []
  end.
Definition bursts (evs : list event) : list (Z * Z) := evs ≫= burst_point.
Definition feedback (evs : list event) : list (Z * Z) := evs ≫= feedback_point.

Lemma points_nonneg evs :
  Forall event_ok evs ->
  Forall (fun p => 0 <= p.1) (bursts evs) /\ Forall (fun p => 0 <= p.1) (feedback evs).
Proof.
  induction 1 as [| ev evs Hev _ [IH1 IH2]]; [by split |]. unfold bursts, feedback in *. simpl.
  destruct ev; simpl in *;
    (split; first [assumption | constructor; [simpl; lia | assumption]]).
Qed.

Lemma run_app evs evs' e : run (evs ++ evs') e = (e ← run evs e; run evs' e).
Proof.
  revert e. induction evs as [| ev evs IH]; intros e; [done |]. simpl.
  destruct (step ev e); simpl; [apply IH | done].
Qed.

Lemma run_tracks p d b0 evs :
  0 < p -> 0 < d -> Forall event_ok evs ->
  exists e, (e ← new_BandwidthEstimator p d b0; run evs e) = Ret e
    /\ max_packets_per_history_window_ e = p * 256 /\ history_window_ e = d * 256
    /\ tracks b0 d (bursts evs) (burst_history_ e)
    /\ tracks b0 d (feedback evs) (feedback_history_ e).
Proof.
  intros Hp Hd. unfold new_BandwidthEstimator. rewrite !OSP_CHECK_ltb by done.
  cbn [mbind outcome_bind]. induction evs as [| ev evs IH] using rev_ind; intros Hok.
  - eexists. split; [reflexivity |]. split; [done |]. split; [done |].
    split; by apply new_FlowTracker_tracks.
  - apply Forall_app in Hok as [Hok Hev]. apply List.Forall_inv in Hev.
    destruct (points_nonneg evs Hok) as [Hnb Hnf].
    destruct IH as (e & E & H1 & H2 & H3 & H4); [done |].
    rewrite run_app, E. cbn [mbind outcome_bind run]. unfold bursts, feedback in *.
    rewrite !bind_app.
    destruct ev as [n w | at_ rtt | n at_ rtt]; simpl in Hev; simpl;
      unfold OnBurstComplete, OnRtcpReceived, OnPayloadReceived;
      rewrite ?OSP_CHECK_leb, ?OSP_CHECK_ltb by apply Hev; cbn [mbind outcome_bind];
      (eexists; split; [reflexivity |]); simpl; rewrite ?app_nil_r;
      (split; [done |]); (split; [done |]); split; try done.
    + apply Accumulate_tracks; try done; lia.
    + by apply Advance_tracks.
    + apply Accumulate_tracks; try done; lia.
Qed.

(** The time the packets of a window take. *)
Lemma transmit_duration p d n : 0 < p -> 0 <= d * n -> Z.quot (d * 256 * n) (p * 256) = d * n / p.
Proof.
  intros Hp Hn. rewrite Z.quot_div_nonneg by lia. replace (d * 256 * n) with (d * n * 256) by lia.
  by rewrite Z.div_mul_cancel_r by lia.
Qed.

Lemma ToClampedBitsPerSecond_ok bytes time :
  0 <= bytes -> 0 < time ->
  ToClampedBitsPerSecond bytes time = Ret (Z.min INT_MAX (bytes * 8 * 1000000 / time)).
Proof.
  intros Hb Ht. unfold ToClampedBitsPerSecond. rewrite OSP_CHECK_ltb by done.
  cbn [mbind outcome_bind]. rewrite Z.quot_div_nonneg by lia.
  unfold saturate_int32. rewrite saturate_same_sign_clamp by done.
  pose proof (Z.div_pos (bytes * 8 * 1000000) time). unfold INT_MIN, INT_MAX. f_equal. lia.
Qed.

(** C36 The estimate is the rate the estimator promises, after any history of
    burst, feedback and acknowledgement events, in any order of their times.  It
    is 0 when the two recorded windows overlap by less than half or nothing was
    sent in the burst window, and otherwise the bytes acknowledged within the
    feedback window over the share of the window that the packets sent within the
    burst window took, in bits per second.  Each window covers the 256 timeslices
    up to its latest point, so points that dropped out of it, or arrived too late
    for it, do not count; the packets, the bytes and the rate saturate at the
    greatest [int].  No check fails, unless a timeslice is less than a microsecond
    for each packet it may send ([d < p]) and the packets sent take less than one
    microsecond. *)
Theorem bandwidth_estimate (p d b0 : Z) (evs : list event) :
  0 < p -> 0 < d -> Forall event_ok evs ->
  exists e, (e ← new_BandwidthEstimator p d b0; run evs e) = Ret e /\
    let burst_start := window_start b0 d (bursts evs) in
    let feedback_start := window_start b0 d (feedback evs) in
    let packets := Z.min INT_MAX (recent (bursts evs) burst_start (burst_start + d * 256)) in
    let bytes := Z.min INT_MAX (recent (feedback evs) feedback_start (feedback_start + d * 256)) in
    (p <= d -> 0 < packets -> 0 < d * packets / p) /\
    ComputeNetworkBandwidth e =
      if (d * 128 <? Z.abs (burst_start - feedback_start)) || (packets =? 0) then Ret 0
      else if d * packets / p =? 0 then Fault CheckFailed
      else Ret (Z.min INT_MAX (bytes * 8 * 1000000 / (d * packets / p))).
Proof.
  intros Hp Hdp Hok.
  destruct (run_tracks p d b0 evs Hp Hdp Hok) as (e & E & Hmax & Hwin & Htb & Htf).
  exists e. split; [exact E |]. cbv zeta. unfold ComputeNetworkBandwidth.
  destruct (points_nonneg evs Hok) as [Hnb Hnf].
  rewrite (Sum_tracks _ _ _ _ Htb), (Sum_tracks _ _ _ _ Htf), Hmax, Hwin by done.
  destruct Htb as (_ & Hdb & Eb & _), Htf as (_ & Hdf & Ef & _).
  unfold end_time, kNumTimeslices. rewrite Hdb, Hdf, Eb, Ef. change (255 + 1) with 256.
  set (bs := window_start b0 d (bursts evs)). set (fs := window_start b0 d (feedback evs)).
  pose proof (recent_bounds (bursts evs) bs (bs + d * 256) Hnb).
  pose proof (recent_bounds (feedback evs) fs (fs + d * 256) Hnf).
  set (packets := Z.min INT_MAX (recent (bursts evs) bs (bs + d * 256))).
  set (bytes := Z.min INT_MAX (recent (feedback evs) fs (fs + d * 256))).
  assert (0 <= packets /\ 0 <= bytes) as [Hpk Hby] by (unfold packets, bytes, INT_MAX; lia). clearbody packets bytes.
  split; [intros; apply Z.div_str_pos; nia |].
  rewrite Z.quot_div_nonneg by lia. replace (d * 256) with (d * 128 * 2) at 3 by lia.
  rewrite Z.div_mul by lia.
  destruct (Z.ltb_spec (d * 128) (Z.abs (bs - fs))) as [Hfar | Hnear]; cbn [orb].
  - by rewrite (proj2 (Z.ltb_lt _ (d * 128))) by lia.
  - rewrite (proj2 (Z.ltb_ge _ (d * 128))) by lia.
    destruct (Z.eqb_spec packets 0) as [-> | Hne]; [done |].
    rewrite (proj2 (Z.leb_gt _ 0)) by lia. rewrite transmit_duration by lia.
    destruct (Z.eqb_spec (d * packets / p) 0) as [-> | Htime]; [done |].
    apply ToClampedBitsPerSecond_ok; [done |]. pose proof (Z.div_pos (d * packets) p). lia.
Qed.

(** Two bursts of ten packets, the bytes of which are acknowledged in time, and
    an older acknowledgement that has left the window: 24000 bytes within the
    transmit time of 20 packets at one per millisecond. *)
Lemma bandwidth_estimate_witness :
  let evs := [PayloadReceived 500 1000 0; BurstComplete 10 2600000; RtcpReceived 2610000 5000;
              BurstComplete 10 2620000; PayloadReceived 24000 2625000 5000] in
  exists e, (e ← new_BandwidthEstimator 10 10000 0; run evs e) = Ret e
    /\ ComputeNetworkBandwidth e = Ret 9600000.
Proof.
  destruct (bandwidth_estimate 10 10000 0
    [PayloadReceived 500 1000 0; BurstComplete 10 2600000; RtcpReceived 2610000 5000;
     BurstComplete 10 2620000; PayloadReceived 24000 2625000 5000]) as (e & E & H).
  - lia.
  - lia.
  - repeat (apply List.Forall_cons || apply List.Forall_nil); simpl; unfold INT64_MAX; lia.
  - exists e. split; [exact E |]. destruct H as [_ H]. rewrite H. vm_compute. reflexivity.
Defined.
