(* ===== verification/Alarm.v ===== *)
(** Alarms (util/alarm.h and .cc): a task scheduled on a task runner that can
    be postponed, brought forward or cancelled.

    An alarm posts a functor to the task runner.  The functor points back to the
    alarm, and the alarm to the functor that is queued; a functor that is
    cancelled, or has run, forgets the alarm.  The queue of the task runner is a
    list, a functor's identity its place in it: moving a functor, which the code
    allows, keeps the place.  A functor may run at any time from the one it was
    posted for; it runs the client's task, posts another functor because the
    alarm was postponed, or does nothing.

    The second half states what a client may rely on, as a transition system
    whose state is the task scheduled and its time, and shows that the alarm
    refines it. *)

From S2P Require Import Prelude.

Section Alarm.
Context {Task : Type}.

Record CancelableFunctor := mkFunctor {
  functor_alarm : bool;     (* the pointer to the alarm is set *)
  functor_time : Z }.       (* when the task runner may run it *)

(** The alarm and the queue of its task runner. *)
Record Alarm := mkAlarm {
  scheduled_task_ : option Task;
  alarm_time_ : Z;
  queued_fire_ : option nat;
  next_fire_time_ : Z;
  posted : list CancelableFunctor }.
#[export] Instance eta_Alarm : Eta Alarm := fun a =>
  mkAlarm (scheduled_task_ a) (alarm_time_ a) (queued_fire_ a) (next_fire_time_ a) (posted a).

Definition new_Alarm : Alarm := mkAlarm None 0 None 0 [].

Definition forget (f : CancelableFunctor) : CancelableFunctor := mkFunctor false (functor_time f).

(** [CancelableFunctor::Cancel] of the functor at [i]. *)
Definition functor_Cancel (i : nat) (a : Alarm) : outcome Alarm :=
  f ← in_bounds (posted a !! i);
  if functor_alarm f then
    OSP_CHECK (bool_decide (queued_fire_ a = Some i)) ;;
    Ret (a <| queued_fire_ := None |> <| posted := <[i := forget f]> (posted a) |>)
  else Ret a.

Definition Cancel (a : Alarm) : Alarm := a <| scheduled_task_ := None |>.

Definition InvokeLater (now fire_time : Z) (a : Alarm) : outcome Alarm :=
  OSP_CHECK (bool_decide (queued_fire_ a = None)) ;;
  let a := a <| next_fire_time_ := fire_time |> in
  Ret (a <| queued_fire_ := Some (length (posted a)) |>
         <| posted := posted a ++ [mkFunctor true (now + (fire_time - now))] |>).

Definition ScheduleWithTask (now : Z) (task : Task) (desired_alarm_time : Z) (a : Alarm)
    : outcome Alarm :=
  let a := a <| scheduled_task_ := Some task |> in
  let a := a <| alarm_time_ := Z.max now desired_alarm_time |> in
  match queued_fire_ a with
  | Some i =>
      if next_fire_time_ a <=? alarm_time_ a then Ret a else
      a ← functor_Cancel i a;
      OSP_CHECK (bool_decide (queued_fire_ a = None)) ;;
      InvokeLater now (alarm_time_ a) a
  | None => InvokeLater now (alarm_time_ a) a
  end.

(** The task to run, which the code runs last. *)
Definition TryInvoke (now : Z) (a : Alarm) : outcome (option Task * Alarm) :=
  match scheduled_task_ a with
  | None => Ret (None, a)
  | Some task =>
      if now <? alarm_time_ a then a ← InvokeLater now (alarm_time_ a) a; Ret (None, a)
      else Ret (Some task, a <| scheduled_task_ := None |>)
  end.

(** The task runner calls the functor at [i]. *)
Definition functor_call (now : Z) (i : nat) (a : Alarm) : outcome (option Task * Alarm) :=
  f ← in_bounds (posted a !! i);
  if functor_alarm f then
    OSP_CHECK (bool_decide (queued_fire_ a = Some i)) ;;
    '(task, a) ← TryInvoke now (a <| queued_fire_ := None |>);
    Ret (task, a <| posted := <[i := forget f]> (posted a) |>)
  else Ret (None, a).

(** * What a client may rely on *)

Inductive AlarmEvent :=
  | Scheduled (now : Z) (task : Task) (desired : Z)
  | Cancelled
  | Ran (now : Z) (task : option Task).

(** The specification's state: the task scheduled and when it is due. *)
Definition Pending : Type := option (Task * Z).

Inductive spec_step : Pending -> AlarmEvent -> Pending -> Prop :=
  | spec_schedule p now task desired :
      spec_step p (Scheduled now task desired) (Some (task, Z.max now desired))
  | spec_cancel p : spec_step p Cancelled None
  | spec_run now task due : due <= now -> spec_step (Some (task, due)) (Ran now (Some task)) None
  | spec_wait p now : spec_step p (Ran now None) p.

Inductive spec_steps : Pending -> list AlarmEvent -> Pending -> Prop :=
  | spec_nil p : spec_steps p [] p
  | spec_cons p e q es r : spec_step p e q -> spec_steps q es r -> spec_steps p (e :: es) r.

Inductive AlarmOp :=
  | OpSchedule (now : Z) (task : Task) (desired : Z)
  | OpCancel
  | OpCall (now : Z) (i : nat).

Definition alarm_step (op : AlarmOp) (a : Alarm) : outcome (AlarmEvent * Alarm) :=
  match op with
  | OpSchedule now task desired =>
      a ← ScheduleWithTask now task desired a; Ret (Scheduled now task desired, a)
  | OpCancel => Ret (Cancelled, Cancel a)
  | OpCall now i => '(task, a) ← functor_call now i a; Ret (Ran now task, a)
  end.

(** A functor is called after it was posted, at any time and however often. *)
Definition op_valid (op : AlarmOp) (a : Alarm) : Prop :=
  match op with OpCall _ i => (i < length (posted a))%nat | _ => True end.

(** The runs of an alarm and what their client sees. *)
Inductive alarm_runs : list AlarmEvent -> Alarm -> Prop :=
  | runs_new : alarm_runs [] new_Alarm
  | runs_op es a op e a' :
      alarm_runs es a -> op_valid op a -> alarm_step op a = Ret (e, a') ->
      alarm_runs (es ++ [e]) a'.

Definition pending (a : Alarm) : Pending :=
  task ← scheduled_task_ a; Some (task, alarm_time_ a).

(** * The refinement *)

Definition none_queued (a : Alarm) : Prop :=
  queued_fire_ a = None /\ Forall (fun f => functor_alarm f = false) (posted a).

Definition one_queued (i : nat) (a : Alarm) : Prop :=
  queued_fire_ a = Some i /\ posted a !! i = Some (mkFunctor true (next_fire_time_ a)) /\
  forall j f, posted a !! j = Some f -> functor_alarm f = true -> j = i.

Definition alarm_ok (a : Alarm) : Prop :=
  (none_queued a /\ scheduled_task_ a = None) \/
  exists i, one_queued i a /\ (is_Some (scheduled_task_ a) -> next_fire_time_ a <= alarm_time_ a).

Lemma new_Alarm_ok : alarm_ok new_Alarm.
Proof. left. repeat split. constructor. Qed.

Lemma queued_last a l t :
  posted a = l ++ [mkFunctor true t] -> Forall (fun f => functor_alarm f = false) l ->
  queued_fire_ a = Some (length l) -> next_fire_time_ a = t -> one_queued (length l) a.
Proof.
  intros Hp Hl Hq Ht. unfold one_queued. rewrite Hp, Ht. split; [done |]. split.
  - by rewrite lookup_app_r, Nat.sub_diag by lia.
  - intros j f Hj Hf. apply lookup_app_Some in Hj as [Hj | [Hge Hj]].
    + by rewrite (Forall_lookup_1 _ _ _ _ Hl Hj) in Hf.
    + apply list_lookup_singleton_Some in Hj. lia.
Qed.

Lemma InvokeLater_ok now t a :
  none_queued a ->
  exists a', InvokeLater now t a = Ret a' /\ one_queued (length (posted a)) a' /\
    next_fire_time_ a' = t /\ scheduled_task_ a' = scheduled_task_ a /\
    alarm_time_ a' = alarm_time_ a.
Proof.
  intros [Hq Hp]. unfold InvokeLater. rewrite Hq. eexists. split; [reflexivity |].
  split; [| done]. apply (queued_last _ _ t); try done. cbn. do 3 f_equal. lia.
Qed.

(** Making the queued functor forget the alarm leaves none. *)
Lemma forget_queued i a f :
  posted a !! i = Some f -> (forall j g, posted a !! j = Some g -> functor_alarm g = true -> j = i) ->
  Forall (fun g => functor_alarm g = false) (<[i := forget f]> (posted a)).
Proof.
  intros Hi Ho. apply Forall_lookup. intros j g Hj.
  apply list_lookup_insert_Some in Hj as [(_ & <- & _) | [Hne Hj]]; [done |].
  destruct (functor_alarm g) eqn:E; [| done]. by destruct Hne; rewrite (Ho j g).
Qed.

Lemma functor_Cancel_ok i a :
  one_queued i a ->
  exists a', functor_Cancel i a = Ret a' /\ none_queued a' /\
    scheduled_task_ a' = scheduled_task_ a /\ alarm_time_ a' = alarm_time_ a.
Proof.
  intros (Hq & Hp & Ho). unfold functor_Cancel. rewrite Hp. cbn.
  rewrite Hq, bool_decide_eq_true_2 by done. cbn. eexists. split; [reflexivity |].
  repeat split. by apply forget_queued.
Qed.

Lemma ScheduleWithTask_ok now task desired a :
  alarm_ok a ->
  exists a', ScheduleWithTask now task desired a = Ret a' /\ alarm_ok a' /\
    pending a' = Some (task, Z.max now desired).
Proof.
  intros Hok. unfold ScheduleWithTask. cbn.
  assert (Hlater : forall b, none_queued b -> scheduled_task_ b = Some task ->
    alarm_time_ b = Z.max now desired ->
    exists a', InvokeLater now (alarm_time_ b) b = Ret a' /\ alarm_ok a' /\
      pending a' = Some (task, Z.max now desired)).
  { intros b Hb Hs Ht. destruct (InvokeLater_ok now (alarm_time_ b) b Hb)
      as (a' & -> & Ho & Hn & Hs' & Ht').
    eexists. split; [reflexivity |]. unfold pending. rewrite Hs', Ht', Hs, Ht. split; [| done].
    right. eexists. split; [exact Ho |]. intros _. lia. }
  destruct Hok as [[[Hq Hp] _] | (i & (Hq & Hp & Ho) & Hn)]; rewrite Hq.
  - by apply Hlater.
  - case_bool.
    + eexists. split; [reflexivity |]. split; [| done].
      right. exists i. split; [by repeat split |]. cbn. lia.
    + match goal with |- context [functor_Cancel i ?b] =>
        destruct (functor_Cancel_ok i b) as (c & -> & Hnone & Hs & Ht); [by repeat split |] end.
      cbn [mbind outcome_bind].
      rewrite OSP_CHECK_true by (apply bool_decide_eq_true_2, Hnone). cbn [mbind outcome_bind].
      change (Z.max now desired) with (alarm_time_ (mkAlarm (Some task) (Z.max now desired)
        (queued_fire_ a) (next_fire_time_ a) (posted a))) in Ht.
      by apply Hlater.
Qed.

(** A call before the task is due leaves it scheduled, with a functor due at
    its time; a call of the queued functor from then on runs it. *)
Lemma functor_call_ok now i a :
  alarm_ok a -> (i < length (posted a))%nat ->
  exists task a', functor_call now i a = Ret (task, a') /\ alarm_ok a' /\
    match task with
    | Some task => exists due, pending a = Some (task, due) /\ due <= now /\ pending a' = None
    | None => pending a' = pending a /\
        (queued_fire_ a = Some i -> forall task due, pending a = Some (task, due) ->
         now < due /\ next_fire_time_ a' = due)
    end.
Proof.
  intros Hok [f Hf]%lookup_lt_is_Some. unfold functor_call. rewrite Hf. cbn [mbind outcome_bind in_bounds].
  destruct (functor_alarm f) eqn:Ef.
  2: { eexists None, _. split; [reflexivity |]. split; [done |]. split; [done |].
       intros Hq. exfalso. destruct Hok as [[[Hq' _] _] | (j & (Hq' & Hp & _) & _)].
       - congruence.
       - rewrite Hq in Hq'. injection Hq' as <-. rewrite Hf in Hp. by injection Hp as ->. }
  destruct Hok as [[[_ Hno] _] | (j & (Hq & Hp & Ho) & Hn)].
  { by rewrite (Forall_lookup_1 _ _ _ _ Hno Hf) in Ef. }
  assert (j = i) as -> by (symmetry; eauto).
  rewrite Hq, OSP_CHECK_true by (by apply bool_decide_eq_true_2). cbn [mbind outcome_bind].
  pose proof (forget_queued i a f Hf Ho) as Hforget.
  unfold TryInvoke, pending. cbn. destruct (scheduled_task_ a) as [task |] eqn:Et.
  - case_bool.
    + (* early: post again *)
      eexists None, _. split; [reflexivity |]. cbn. split; [| split; [done |]].
      * right. exists (length (posted a)). split; [| cbn; lia].
        rewrite <- (length_insert (posted a) i (forget f)).
        apply (queued_last _ _ (alarm_time_ a)); [cbn | done | cbn; by rewrite length_insert | done].
        rewrite insert_app_l by (by eapply lookup_lt_Some). do 3 f_equal. lia.
      * intros _ ? ? [= <- <-]. lia.
    + (* due *)
      eexists (Some task), _. split; [reflexivity |]. cbn. split; [by left |].
      exists (alarm_time_ a). split; [done |]. split; [lia | done].
  - eexists None, _. split; [reflexivity |]. cbn. rewrite ?Et. split; [by left |]. done.
Qed.



Lemma Cancel_ok a : alarm_ok a -> alarm_ok (Cancel a).
Proof.
  intros [[Hno Hs] | (i & Ho & Hn)]; [by left | right].
  exists i. split; [exact Ho |]. by intros [? [=]].
Qed.

(** Each operation succeeds and is a step of the specification. *)
Lemma alarm_step_ok op a :
  alarm_ok a -> op_valid op a ->
  exists e a', alarm_step op a = Ret (e, a') /\ alarm_ok a' /\
    spec_step (pending a) e (pending a').
Proof.
  intros Hok Hv. destruct op as [now task desired | | now i]; cbn.
  - destruct (ScheduleWithTask_ok now task desired a Hok) as (a' & -> & Hok' & Hp).
    eexists _, _. split; [reflexivity |]. rewrite Hp. split; [done | constructor].
  - eexists _, _. split; [reflexivity |]. split; [| constructor].
    by apply Cancel_ok.
  - destruct (functor_call_ok now i a Hok Hv) as ([task |] & a' & -> & Hok' & Hp);
      eexists _, _; (split; [reflexivity |]; split; [done |]).
    + destruct Hp as (due & Hd & Hdue & Hn). rewrite Hd, Hn. by constructor.
    + destruct Hp as [Hp _]. rewrite Hp. constructor.
Qed.

Lemma spec_steps_snoc p es q e r :
  spec_steps p es q -> spec_step q e r -> spec_steps p (es ++ [e]) r.
Proof. induction 1; intros; cbn; econstructor; eauto using spec_nil. Qed.

Lemma alarm_runs_ok es a : alarm_runs es a -> alarm_ok a /\ spec_steps None es (pending a).
Proof.
  induction 1 as [| es a op e a' _ [Hok Hs] Hv Hop].
  - split; [apply new_Alarm_ok | constructor].
  - destruct (alarm_step_ok op a Hok Hv) as (e' & b & Hop' & Hok' & Hstep).
    rewrite Hop in Hop'. injection Hop' as <- <-. eauto using spec_steps_snoc.
Qed.

Lemma pending_queued a task due :
  alarm_ok a -> pending a = Some (task, due) ->
  exists i, queued_fire_ a = Some i /\
    posted a !! i = Some (mkFunctor true (next_fire_time_ a)) /\ next_fire_time_ a <= due.
Proof.
  unfold pending. intros [[_ Hn] | (i & (Hq & Hi & Ho) & Hn)] Hp; [by rewrite Hn in Hp |].
  exists i. split; [done |]. split; [done |].
  destruct (scheduled_task_ a); [| done]. injection Hp as -> <-. by apply Hn.
Qed.

(** C32 An alarm does what its specification says.  Whatever its client and the
    task runner do, no check fails, and what the client sees is a run of the
    specification: the task run is the one last scheduled, it runs once, not
    before its time and not after it was cancelled.  It is not forgotten: while
    a task is scheduled a functor is queued that is due no later than it, and
    calling it runs the task, or, when the task was postponed, queues another
    functor for exactly its time. *)
Theorem alarm_refines_spec es a :
  alarm_runs es a ->
  spec_steps None es (pending a) /\
  (forall op, op_valid op a -> returns (alarm_step op a)) /\
  forall task due, pending a = Some (task, due) ->
  exists i, queued_fire_ a = Some i /\
    posted a !! i = Some (mkFunctor true (next_fire_time_ a)) /\ next_fire_time_ a <= due /\
    forall now, if now <? due
      then exists a', functor_call now i a = Ret (None, a') /\
             pending a' = Some (task, due) /\ next_fire_time_ a' = due
      else exists a', functor_call now i a = Ret (Some task, a') /\ pending a' = None.
Proof.
  intros [Hok Hs]%alarm_runs_ok. split; [done |]. split.
  { intros op Hv. destruct (alarm_step_ok op a Hok Hv) as (e & a' & -> & _). by eexists. }
  intros task due Hp.
  destruct (pending_queued a task due Hok Hp) as (i & Hq & Hi & Hle).
  exists i. split; [done |]. split; [done |].
  split; [done |]. intros now.
  destruct (functor_call_ok now i a) as (t & a' & -> & Hok' & Ht);
    [done | by eapply lookup_lt_Some |].
  destruct t as [t |]; [destruct Ht as (d & Hp' & Hd & Hnone) | destruct Ht as [Hp' Hlate]].
  - rewrite Hp in Hp'. injection Hp' as <- <-. rewrite (proj2 (Z.ltb_ge _ _)) by lia. by exists a'.
  - destruct (Hlate Hq _ _ Hp) as [Hlt Hd]. rewrite (proj2 (Z.ltb_lt _ _)) by lia.
    exists a'. by rewrite Hp'.
Qed.
End Alarm.

(** Scheduled for 5, postponed to 9, the functor called at 6 and its successor
    at 9. *)
Definition demo_alarm : Alarm (Task := bool) :=
  mkAlarm (Some true) 9 (Some 1%nat) 9 [mkFunctor false 5; mkFunctor true 9].

Lemma demo_runs :
  alarm_runs [Scheduled 0 false 5; Scheduled 1 true 9; Ran 6 None] demo_alarm.
Proof.
  apply (runs_op [Scheduled 0 false 5; Scheduled 1 true 9]
    (mkAlarm (Some true) 9 (Some 0%nat) 5 [mkFunctor true 5]) (OpCall 6 0));
    [| cbn; lia | reflexivity].
  apply (runs_op [Scheduled 0 false 5] (mkAlarm (Some false) 5 (Some 0%nat) 5 [mkFunctor true 5])
    (OpSchedule 1 true 9)); [| exact I | reflexivity].
  apply (runs_op [] new_Alarm (OpSchedule 0 false 5)); [constructor | exact I | reflexivity].
Qed.

Lemma alarm_refines_spec_witness :
  pending demo_alarm = Some (true, 9) /\
  exists i, queued_fire_ demo_alarm = Some i /\
    posted demo_alarm !! i = Some (mkFunctor true (next_fire_time_ demo_alarm)) /\
    next_fire_time_ demo_alarm <= 9.
Proof.
  split; [reflexivity |].
  destruct (alarm_refines_spec _ _ demo_runs) as (_ & _ & H).
  destruct (H true 9 eq_refl) as (i & Hq & Hi & Hl & _). by exists i.
Defined.
