(* ===== verification/IpAddress.v ===== *)
(** IP addresses and endpoints, their order, parsing and printing
    (platform/base/ip_address.h and .cc).

    The names of network interfaces are the operating system's: the functions
    [if_nametoindex] and [if_indextoname] are parameters.  An address keeps as
    many bytes as its version has; the code's array has room for 16, and leaves
    the others out of every comparison. *)

From S2P Require Import Prelude Text.

Inductive Version := kV4 | kV6.
#[export] Instance Version_eq_dec : EqDecision Version.
Proof. solve_decision. Defined.

Record IPAddress := mkAddress { version_ : Version; bytes_ : list Z; scope_id_ : Z }.
#[export] Instance IPAddress_eq_dec : EqDecision IPAddress.
Proof. solve_decision. Defined.

Definition kV4Size : nat := 4.
Definition kV6Size : nat := 16.
Definition address_size (a : IPAddress) : nat :=
  match version_ a with kV4 => kV4Size | kV6 => kV6Size end.

(** Default construction: the address 0.0.0.0. *)
Definition new_IPAddress : IPAddress := mkAddress kV4 (replicate kV4Size 0) 0.

Definition address_set (a : IPAddress) : bool := existsb (fun b => negb (b =? 0)) (bytes_ a).

Record IPEndpoint := mkEndpoint { address : IPAddress; port : Z }.
#[export] Instance IPEndpoint_eq_dec : EqDecision IPEndpoint.
Proof. solve_decision. Defined.

Definition new_IPEndpoint : IPEndpoint := mkEndpoint new_IPAddress 0.


Definition IsV4 (a : IPAddress) : bool := bool_decide (version_ a = kV4).
Definition IsV6 (a : IPAddress) : bool := bool_decide (version_ a = kV6).

(** Link-local addresses start with fe80::/10. *)
Definition IsLinkLocal (a : IPAddress) : bool :=
  match version_ a, bytes_ a with
  | kV6, b0 :: b1 :: _ => (b0 =? 254) && (Z.land b1 192 =? 128)
  | _, _ => false
  end.

Definition IPAddress_of_hextets (hextets : list Z) : IPAddress :=
  mkAddress kV6 (concat (map (fun h => [u8 (Z.shiftr h 8); u8 h]) hextets)) 0.

(** ** Order *)

(** [memcmp] of two byte strings of the same length. *)
Fixpoint memcmp (a b : list Z) : Z :=
  match a, b with
  | x :: a, y :: b => if x =? y then memcmp a b else if x <? y then -1 else 1
  | _, _ => 0
  end.

Definition version_lt (a b : Version) : bool :=
  match a, b with kV4, kV6 => true | _, _ => false end.

Definition address_lt (a b : IPAddress) : bool :=
  if negb (bool_decide (version_ a = version_ b)) then version_lt (version_ a) (version_ b)
  else match version_ a with
       | kV4 => memcmp (bytes_ a) (bytes_ b) <? 0
       | kV6 => let cmp := memcmp (bytes_ a) (bytes_ b) in
                if negb (cmp =? 0) then cmp <? 0 else scope_id_ a <? scope_id_ b
       end.

Definition endpoint_lt (a b : IPEndpoint) : bool :=
  if negb (bool_decide (address a = address b)) then address_lt (address a) (address b)
  else port a <? port b.

(** ** Parsing *)

(** Reads [n] more numbers, each after a separator. *)
Fixpoint parse_groups (separator : ascii) (base limit : Z) (n : nat) (s : str) : option (list Z * str) :=
  match n with
  | O => Some ([], s)
  | S n =>
      match s with
      | c :: s =>
          if bool_decide (c = separator) then
            '(v, s) ← from_chars base limit s;
            '(vs, s) ← parse_groups separator base limit n s;
            Some (v :: vs, s)
          else None
      | [] => None
      end
  end.

Definition parse_first_groups (separator : ascii) (base limit : Z) (n : nat) (s : str)
    : option (list Z) :=
  '(v, s) ← from_chars base limit s;
  '(vs, s) ← parse_groups separator base limit n s;
  match s with [] => Some (v :: vs) | _ => None end.

Definition ParseV4 (s : str) : ErrorOr IPAddress :=
  match parse_first_groups "."%char 10 255 3 s with
  | Some octets => ok (mkAddress kV4 octets 0)
  | None => err (mkError kInvalidIPV4Address [])
  end.

Definition ExpandIPv6DoubleColon (s : str) : str :=
  match find_str (lit "::") s with
  | None => s
  | Some position =>
      if negb (bool_decide (Some position = rfind_str (lit "::") s)) then [] else
      let num_single_colons := count_char ":"%char s - 2 in
      let n := 8 - num_single_colons in
      let '(expanded, n) :=
        if negb (bool_decide (position = 0%nat)) then (take (position + 1) s, n - 1) else ([], n) in
      let n := if negb (bool_decide (position = (length s - 2)%nat)) then n - 1 else n in
      let expanded := expanded ++ concat (replicate (Z.to_nat (n - 1)) (lit "0:")) ++ lit "0" in
      if negb (bool_decide (position = (length s - 2)%nat)) then expanded ++ drop (position + 1) s
      else expanded
  end.

Section Interfaces.
Variable if_nametoindex : str -> Z.
Variable if_indextoname : Z -> option str.

(** What [c_str] hands to the operating system: the characters before a null. *)
Definition c_str (s : str) : str :=
  match find_char Ascii.zero s with Some n => take n s | None => s end.

(** The scope of a name after the percent sign: the index of the interface, or
    the number it is; 0 when it is neither. *)
Definition parse_scope (scope_name : str) : Z :=
  let scope_id := if_nametoindex (c_str scope_name) in
  if scope_id =? 0 then
    match from_chars 10 (2 ^ 32 - 1) scope_name with
    | Some (parsed_id, []) => parsed_id
    | _ => 0
    end
  else scope_id.

Definition parse_hextets (s : str) : option (list Z) :=
  parse_first_groups ":"%char 16 (2 ^ 16 - 1) 7 (ExpandIPv6DoubleColon s).

Definition ParseV6 (s : str) : ErrorOr IPAddress :=
  let invalid := err (mkError kInvalidIPV6Address []) in
  let '(address_part, scope) :=
    match find_char "%"%char s with
    | Some scope_pos => (take scope_pos s, Some (parse_scope (drop (scope_pos + 1) s)))
    | None => (s, None)
    end in
  if bool_decide (scope = Some 0) then invalid else
  match parse_hextets address_part with
  | None => invalid
  | Some hextets =>
      let address := IPAddress_of_hextets hextets in
      match scope with
      | Some scope_id =>
          if IsLinkLocal address then ok (mkAddress kV6 (bytes_ address) scope_id) else invalid
      | None => ok address
      end
  end.

Definition IPAddress_Parse (s : str) : ErrorOr IPAddress :=
  match ParseV4 s with
  | ok a => ok a
  | err _ => ParseV6 s
  end.

Definition IPEndpoint_Parse (s : str) : ErrorOr IPEndpoint :=
  match rfind_char ":"%char s with
  | None => err (mkError kParseError (lit "missing colon separator"))
  | Some colon_pos =>
      if bool_decide (colon_pos = 0%nat)
      then err (mkError kParseError (lit "missing address before colon")) else
      if bool_decide (colon_pos = (length s - 1)%nat)
      then err (mkError kParseError (lit "missing port after colon")) else
      let address :=
        if bool_decide (s !! 0%nat = Some "["%char)
           && bool_decide (s !! (colon_pos - 1)%nat = Some "]"%char)
        then ParseV6 (substr 1 (colon_pos - 2) s)
        else ParseV4 (take colon_pos s) in
      match address with
      | err _ => err (mkError kParseError (lit "invalid address part"))
      | ok address =>
          match from_chars_int (drop (colon_pos + 1) s) with
          | Some (port, []) =>
              if (port <? 0) || (65535 <? port) then err (mkError kParseError (lit "invalid port part"))
              else ok (mkEndpoint address port)
          | _ => err (mkError kParseError (lit "invalid port part"))
          end
      end
  end.

(** ** Printing *)

(** The loop of [operator<<] for an address, from byte [i]: a separator before
    each group. *)
Fixpoint print_bytes (separator : ascii) (values_per_separator : nat) (width : nat) (base : Z)
    (i : nat) (bytes : list Z) : str :=
  match bytes with
  | [] => []
  | b :: bytes =>
      (if bool_decide (0 < i)%nat && bool_decide (i mod values_per_separator = 0)%nat
       then [separator] else [])
      ++ pad_left width (print_number base b)
      ++ print_bytes separator values_per_separator width base (S i) bytes
  end.

(** The stream is still in hexadecimal mode when the scope's number is printed. *)
Definition print_address (a : IPAddress) : str :=
  match version_ a with
  | kV4 => print_bytes "."%char 1 0 10 0 (bytes_ a)
  | kV6 => print_bytes ":"%char 2 2 16 0 (bytes_ a)
  end
  ++ if IsLinkLocal a && negb (scope_id_ a =? 0) then
       "%"%char :: match if_indextoname (scope_id_ a) with
                   | Some ifname => ifname
                   | None => print_number 16 (scope_id_ a)
                   end
     else [].

Definition IPEndpoint_ToString (e : IPEndpoint) : str :=
  (if IsV6 (address e) then lit "[" else [])
  ++ print_address (address e)
  ++ (if IsV6 (address e) then lit "]" else [])
  ++ ":"%char :: to_string (port e).
End Interfaces.

(** * Lemmas *)

Definition colon : ascii := ":"%char.

(** Texts separated by [sep]. *)
Definition join_more (sep : ascii) (texts : list str) : str := concat (map (cons sep) texts).
Definition join (sep : ascii) (texts : list str) : str :=
  match texts with [] => [] | t :: texts => t ++ join_more sep texts end.

(** [text] is read as the number [v], whatever follows it. *)
Definition reads (base limit : Z) (text : str) (v : Z) : Prop :=
  forall rest, stops base rest -> from_chars base limit (text ++ rest) = Some (v, rest).

Lemma reads_print base limit n :
  2 <= base <= 36 -> 0 <= n <= limit -> reads base limit (print_number base n) n.
Proof. intros Hb Hn rest Hr. by apply from_chars_print. Qed.

Lemma parse_groups_join sep base limit texts vs :
  digit_value base sep = None -> Forall2 (reads base limit) texts vs ->
  parse_groups sep base limit (length vs) (join_more sep texts) = Some (vs, []).
Proof.
  intros Hsep. induction 1 as [| t v texts vs Ht Hts IH]; [done |].
  cbn [join_more map concat length parse_groups app]. rewrite bool_decide_eq_true_2 by done.
  fold (join_more sep texts). rewrite Ht by (by destruct texts). cbn. by rewrite IH.
Qed.

Lemma parse_first_groups_join sep base limit n texts vs :
  digit_value base sep = None -> Forall2 (reads base limit) texts vs -> length vs = S n ->
  parse_first_groups sep base limit n (join sep texts) = Some vs.
Proof.
  intros Hsep H Hl. destruct H as [| t v texts vs Ht Hts]; [done |]. injection Hl as <-.
  unfold parse_first_groups. cbn [join]. rewrite Ht by (by destruct texts).
  cbn. by rewrite parse_groups_join.
Qed.

(** ** Double colons *)

Definition group_text (t : str) : Prop := t <> [] /\ colon ∉ t.

Definition dc : str := lit "::".

Lemma find_dc_cons c s :
  find_str dc (c :: s) = if bool_decide (colon = c) && starts_with [colon] s then Some 0%nat else S <$> find_str dc s.
Proof. done. Qed.

Lemma rfind_dc_cons c s :
  rfind_str dc (c :: s)
  = match rfind_str dc s with
    | Some i => Some (S i)
    | None => if bool_decide (colon = c) && starts_with [colon] s then Some 0%nat else None
    end.
Proof. done. Qed.

Lemma find_dc_plain t s : colon ∉ t ->
  find_str dc (t ++ s) = (fun i => (length t + i)%nat) <$> find_str dc s.
Proof.
  induction t as [| c t IH]; intros Hc; [cbn [app]; by destruct (find_str dc s) |].
  apply not_elem_of_cons in Hc as [Hc Ht]. cbn [app]. rewrite find_dc_cons, bool_decide_eq_false_2, IH by done.
  by destruct (find_str dc s).
Qed.

Lemma rfind_dc_plain t s : colon ∉ t ->
  rfind_str dc (t ++ s) = (fun i => (length t + i)%nat) <$> rfind_str dc s.
Proof.
  induction t as [| c t IH]; intros Hc; [cbn [app]; by destruct (rfind_str dc s) |].
  apply not_elem_of_cons in Hc as [Hc Ht]. cbn [app]. rewrite rfind_dc_cons, bool_decide_eq_false_2, IH by done.
  by destruct (rfind_str dc s).
Qed.

Lemma plain_start t s : group_text t -> starts_with [colon] (t ++ s) = false.
Proof.
  intros [Hne Hc]. destruct t as [| c t]; [done |]. apply not_elem_of_cons in Hc as [Hc _].
  cbn. by rewrite bool_decide_eq_false_2.
Qed.

Lemma find_dc_group t s : group_text t ->
  find_str dc (colon :: t ++ s) = (fun i => (S (length t) + i)%nat) <$> find_str dc s.
Proof.
  intros Ht. rewrite find_dc_cons, plain_start, andb_false_r, find_dc_plain by (done || apply Ht).
  by destruct (find_str dc s).
Qed.

Lemma rfind_dc_group t s : group_text t ->
  rfind_str dc (colon :: t ++ s) = (fun i => (S (length t) + i)%nat) <$> rfind_str dc s.
Proof.
  intros Ht. rewrite rfind_dc_cons, plain_start, andb_false_r, rfind_dc_plain by (done || apply Ht).
  by destruct (rfind_str dc s).
Qed.

Lemma find_dc_more ts s : Forall group_text ts ->
  find_str dc (join_more colon ts ++ s)
  = (fun i => (length (join_more colon ts) + i)%nat) <$> find_str dc s.
Proof.
  induction 1 as [| t ts Ht _ IH]; [cbn [join_more map concat app]; by destruct (find_str dc s) |].
  unfold join_more. cbn [map concat]. cbn [app]. rewrite <- !app_assoc, find_dc_group by done.
  fold (join_more colon ts). rewrite IH. destruct (find_str dc s); [| done]. cbn. rewrite length_app. f_equal. lia.
Qed.

Lemma rfind_dc_more ts s : Forall group_text ts ->
  rfind_str dc (join_more colon ts ++ s)
  = (fun i => (length (join_more colon ts) + i)%nat) <$> rfind_str dc s.
Proof.
  induction 1 as [| t ts Ht _ IH]; [cbn [join_more map concat app]; by destruct (rfind_str dc s) |].
  unfold join_more. cbn [map concat]. cbn [app]. rewrite <- !app_assoc, rfind_dc_group by done.
  fold (join_more colon ts). rewrite IH. destruct (rfind_str dc s); [| done]. cbn. rewrite length_app. f_equal. lia.
Qed.

(** A join of groups holds no double colon. *)
Lemma find_dc_join ts s : Forall group_text ts ->
  find_str dc (join colon ts ++ s) = (fun i => (length (join colon ts) + i)%nat) <$> find_str dc s
  /\ rfind_str dc (join colon ts ++ s) = (fun i => (length (join colon ts) + i)%nat) <$> rfind_str dc s.
Proof.
  intros H. destruct H as [| t ts Ht Hts]; [cbn [join app]; by destruct (find_str dc s), (rfind_str dc s) |].
  cbn [join]. rewrite <- !app_assoc, find_dc_plain, rfind_dc_plain, find_dc_more, rfind_dc_more by (done || apply Ht).
  rewrite length_app. split; [destruct (find_str dc s) | destruct (rfind_str dc s)]; cbn; try done; f_equal; lia.
Qed.

Lemma find_dc_groups ts : Forall group_text ts ->
  find_str dc (join colon ts) = None /\ rfind_str dc (join colon ts) = None.
Proof. intros H. rewrite <- (app_nil_r (join colon ts)). by destruct (find_dc_join ts [] H) as [-> ->]. Qed.

Lemma find_dc_compressed a b : Forall group_text a -> Forall group_text b ->
  find_str dc (join colon a ++ dc ++ join colon b) = Some (length (join colon a))
  /\ rfind_str dc (join colon a ++ dc ++ join colon b) = Some (length (join colon a)).
Proof.
  intros Ha Hb. destruct (find_dc_join a (dc ++ join colon b) Ha) as [-> ->].
  assert (starts_with [colon] (join colon b) = false) as Hs.
  { destruct Hb as [| t ts Ht]; [done | by apply plain_start]. }
  change (dc ++ join colon b) with (colon :: colon :: join colon b).
  destruct (find_dc_groups b Hb) as [_ Hr].
  rewrite find_dc_cons, !rfind_dc_cons, Hr, Hs, andb_false_r.
  change (starts_with [colon] (colon :: join colon b)) with (bool_decide (colon = colon) && true).
  rewrite (bool_decide_eq_true_2 (colon = colon)) by done. cbn [andb fmap option_fmap option_map].
  split; f_equal; lia.
Qed.

Lemma count_plain t : colon ∉ t -> count_char colon t = 0.
Proof.
  intros Hc. unfold count_char. assert (filter (eq colon) t = []) as ->; [| done].
  induction t as [| c t IH]; [done |]. apply not_elem_of_cons in Hc as [Hc Ht].
  rewrite filter_cons_False by done. by apply IH.
Qed.

Lemma count_app a b : count_char colon (a ++ b) = count_char colon a + count_char colon b.
Proof. unfold count_char. by rewrite filter_app, zlen_app. Qed.

Lemma count_more ts : Forall group_text ts -> count_char colon (join_more colon ts) = zlen ts.
Proof.
  induction 1 as [| t ts [_ Ht] _ IH]; [done |]. unfold join_more. cbn [map concat].
  rewrite count_app. fold (join_more colon ts). rewrite IH, zlen_cons.
  change (count_char colon (colon :: t)) with (count_char colon ([colon] ++ t)).
  rewrite count_app, (count_plain t Ht). change (count_char colon [colon]) with 1. lia.
Qed.

Lemma count_join ts : Forall group_text ts -> count_char colon (join colon ts) = Z.max 0 (zlen ts - 1).
Proof.
  intros H. destruct H as [| t ts [_ Ht] Hts]; [done |]. cbn [join].
  rewrite count_app, count_plain, count_more, zlen_cons by done. pose proof (zlen_nonneg ts). lia.
Qed.

Lemma join_app a b : a <> [] -> b <> [] -> join colon (a ++ b) = join colon a ++ colon :: join colon b.
Proof.
  intros Ha Hb. destruct a as [| t a]; [done |]. destruct b as [| u b]; [done |]. cbn [app join].
  unfold join_more. rewrite map_app, concat_app. cbn [map concat app]. by rewrite <- app_assoc.
Qed.

Lemma join_zeros k :
  concat (replicate k (lit "0:")) ++ lit "0" = join colon (replicate (S k) (lit "0")).
Proof.
  induction k as [| k IH]; [done |]. cbn [replicate concat]. rewrite <- app_assoc, IH. done.
Qed.

Lemma join_nil ts : Forall group_text ts -> length (join colon ts) = 0%nat <-> ts = [].
Proof.
  intros H. split; [| by intros ->]. destruct H as [| t ts [Ht _] _]; [done |].
  cbn [join]. rewrite length_app. by destruct t.
Qed.

Lemma ExpandIPv6DoubleColon_ok a b :
  Forall group_text a -> Forall group_text b -> (length a + length b <= 7)%nat ->
  ExpandIPv6DoubleColon (join colon a ++ dc ++ join colon b)
  = join colon (a ++ replicate (8 - length a - length b) (lit "0") ++ b).
Proof.
  intros Ha Hb Hl. unfold ExpandIPv6DoubleColon. change (lit "::") with dc.
  destruct (find_dc_compressed a b Ha Hb) as [-> ->]. rewrite bool_decide_eq_true_2 by done.
  set (s := join colon a ++ dc ++ join colon b). cbn [negb].
  assert (count_char ":"%char s - 2 = Z.max 0 (zlen a - 1) + Z.max 0 (zlen b - 1)) as ->.
  { unfold s. change ":"%char with colon. rewrite !count_app, !count_join by done.
    change (count_char colon dc) with 2. lia. }
  assert (length s - 2 = length (join colon a) + length (join colon b))%nat as ->
    by (unfold s; rewrite !length_app; cbn; lia).
  assert (take (length (join colon a) + 1) s = join colon a ++ [colon]) as ->.
  { unfold s. rewrite take_app_add. done. }
  assert (drop (length (join colon a) + 1) s = colon :: join colon b) as ->.
  { unfold s. rewrite drop_app_add. done. }
  pose proof (join_nil a Ha) as Hna. pose proof (join_nil b Hb) as Hnb.
  assert (forall k, replicate k (lit "0") ++ b <> [] -> (0 < k)%nat -> b <> [] ->
    join colon (replicate k (lit "0") ++ b)
    = (concat (replicate (k - 1) (lit "0:")) ++ lit "0") ++ colon :: join colon b) as Hz.
  { intros [| k] _ Hk Hbne; [lia |]. rewrite join_app, join_zeros by done. do 4 f_equal. lia. }
  set (k := (8 - length a - length b)%nat) in *.
  assert (Z.of_nat k = 8 - Z.of_nat (length a) - Z.of_nat (length b) /\ (1 <= k)%nat) as [Hk Hk1]
    by (unfold k; lia).
  clearbody k.
  assert (forall n, n = Z.of_nat k -> Z.to_nat (n - 1) = (k - 1)%nat) as Hn by lia.
  unfold zlen. destruct (decide (a = [])) as [-> | Hane], (decide (b = [])) as [-> | Hbne].
  - by replace k with 8%nat by (cbn in Hk; lia).
  - assert (length b <> 0 /\ length (join colon b) <> 0)%nat as [? ?] by (split; [by destruct b | tauto]).
    cbn [length join app] in *. rewrite bool_decide_eq_true_2, bool_decide_eq_false_2 by lia. cbn [negb app].
    rewrite Hz, Hn by (done || lia || by destruct k, b). by rewrite <- app_assoc.
  - assert (length a <> 0 /\ length (join colon a) <> 0)%nat as [? ?] by (split; [by destruct a | tauto]).
    cbn [length join app] in *. rewrite bool_decide_eq_false_2, bool_decide_eq_true_2 by lia. cbn [negb app].
    rewrite Hn, app_nil_r, join_app, <- app_assoc by (done || lia || by destruct k; [lia |]). cbn [app]. do 2 f_equal.
    destruct k as [| k]; [lia |]. by rewrite <- join_zeros, Nat.sub_succ, Nat.sub_0_r.
  - assert (length a <> 0 /\ length (join colon a) <> 0)%nat as [? ?] by (split; [by destruct a | tauto]).
    assert (length b <> 0 /\ length (join colon b) <> 0)%nat as [? ?] by (split; [by destruct b | tauto]).
    rewrite !bool_decide_eq_false_2 by lia. cbn [negb].
    rewrite Hn, join_app, Hz by (done || lia || by destruct k, b). by rewrite <- !app_assoc.
Qed.

(** ** Groups of an IPv6 address *)

Lemma digit_char_ne base d c : 0 <= d < base -> base <= 36 -> digit_value base c = None -> digit_char d <> c.
Proof. intros Hd Hb Hc E. rewrite <- E, digit_value_char in Hc by done. done. Qed.

Lemma digits_not_in base ds c : digits_ok base ds -> base <= 36 -> digit_value base c = None ->
  c ∉ map digit_char ds.
Proof.
  intros Hds Hb Hc (d & -> & Hd)%list_elem_of_fmap. apply (proj1 (Forall_forall _ _) Hds) in Hd.
  by eapply (digit_char_ne base d).
Qed.

Lemma print_not_in base n c : 2 <= base <= 36 -> 0 <= n -> digit_value base c = None ->
  c ∉ print_number base n.
Proof.
  intros Hb Hn Hc. destruct (digits_spec base n ltac:(lia) Hn) as (Hds & _).
  apply (digits_not_in base); [done | lia | done].
Qed.

Lemma print_plain n : 0 <= n -> group_text (print_number 16 n).
Proof.
  intros Hn. split; [| by apply print_not_in].
  by destruct (print_first 16 n ltac:(lia) Hn) as (d & ds & -> & _).
Qed.

(** The text of the address [a :: b], the zeros between left out. *)
Definition compressed (a b : list Z) : str :=
  join colon (map (print_number 16) a) ++ dc ++ join colon (map (print_number 16) b).

Lemma parse_hextets_compressed a b :
  Forall (is_u 16) (a ++ b) -> (length a + length b <= 7)%nat ->
  parse_hextets (compressed a b) = Some (a ++ replicate (8 - length a - length b) 0 ++ b).
Proof.
  intros [Ha Hb]%Forall_app Hl. unfold parse_hextets, compressed.
  assert (forall l, Forall (is_u 16) l -> Forall group_text (map (print_number 16) l)) as Hp.
  { intros l H. apply Forall_map. eapply Forall_impl; [exact H |]. intros n [Hn _]. by apply print_plain. }
  assert (forall l, Forall (is_u 16) l ->
    Forall2 (reads 16 (2 ^ 16 - 1)) (map (print_number 16) l) l) as Hr.
  { induction 1 as [| n l Hn _ IH]; constructor; [| done]. unfold is_u in Hn. apply reads_print; lia. }
  rewrite ExpandIPv6DoubleColon_ok by (rewrite ?length_map; auto). rewrite !length_map.
  apply parse_first_groups_join; [done | |].
  - apply Forall2_app; [by apply Hr |]. apply Forall2_app; [| by apply Hr].
    change (lit "0") with (print_number 16 0).
    induction (8 - length a - length b)%nat as [| k IH]; cbn; constructor; [by apply reads_print | done].
  - rewrite !length_app, length_replicate. lia.
Qed.

(** Two bytes as four digits. *)
Definition hextet_text (hi lo : Z) : str := pad_left 2 (print_number 16 hi) ++ pad_left 2 (print_number 16 lo).

Lemma digits_16_length n : is_u 8 n -> (length (digits 16 n) <= 2)%nat.
Proof.
  intros Hn. unfold is_u in Hn. change (2 ^ 8) with 256 in Hn.
  assert (forallb (fun n => bool_decide (length (digits 16 n) <= 2)%nat) (seqZ 0 256) = true) as H by (by vm_compute).
  rewrite forallb_forall in H. specialize (H n). apply bool_decide_eq_true in H; [done |].
  apply list_elem_of_In, elem_of_seqZ. lia.
Qed.

Lemma reads_hextet hi lo : is_u 8 hi -> is_u 8 lo -> reads 16 (2 ^ 16 - 1) (hextet_text hi lo) (hi * 256 + lo).
Proof.
  intros Hhi Hlo rest Hrest. pose proof (digits_16_length lo Hlo) as Hl. unfold is_u in *.
  destruct (digits_spec 16 hi ltac:(lia) ltac:(lia)) as (Hd1 & Hv1 & Hn1).
  destruct (digits_spec 16 lo ltac:(lia) ltac:(lia)) as (Hd2 & Hv2 & Hn2).
  unfold hextet_text, print_number. rewrite !pad_left_digits, <- map_app.
  assert (forall k, digits_ok 16 (replicate k 0)) as Hz by (intros k; by apply Forall_replicate).
  assert (digits_value 16 ((replicate (2 - length (digits 16 hi)) 0 ++ digits 16 hi)
            ++ replicate (2 - length (digits 16 lo)) 0 ++ digits 16 lo) = hi * 256 + lo) as E.
  { rewrite digits_value_app, !digits_value_zeros, Hv1, Hv2.
    replace (zlen (replicate (2 - length (digits 16 lo)) 0 ++ digits 16 lo)) with 2; [done |].
    unfold zlen. rewrite length_app, length_replicate. lia. }
  rewrite from_chars_digits; [by rewrite E | | done | done | | rewrite E; lia].
  - unfold digits_ok. rewrite !Forall_app. split; split; (apply Hz || done).
  - by destruct (replicate (2 - length (digits 16 hi)) 0), (digits 16 hi).
Qed.

Lemma hextet_bytes hi lo : is_u 8 hi -> is_u 8 lo ->
  u8 (Z.shiftr (hi * 256 + lo) 8) = hi /\ u8 (hi * 256 + lo) = lo.
Proof.
  intros Hhi Hlo. unfold is_u in *. rewrite Z.shiftr_div_pow2 by done. change (2 ^ 8) with 256 in *.
  split; [rewrite Z.div_add_l, (Z.div_small lo), Z.add_0_r by lia; apply wrap_small; done |].
  unfold u8, wrap. change (2 ^ 8) with 256. rewrite Z.add_comm, Z.mod_add, Z.mod_small by lia. done.
Qed.

Fixpoint hextets_of (bytes : list Z) : list (Z * Z) :=
  match bytes with
  | hi :: lo :: bytes => (hi, lo) :: hextets_of bytes
  | _ => []
  end.
Definition hextet_texts (bytes : list Z) : list str := map (fun h => hextet_text h.1 h.2) (hextets_of bytes).

Lemma pairs_ind (P : list Z -> Prop) :
  P [] -> (forall hi lo l, P l -> P (hi :: lo :: l)) -> forall n l, length l = (2 * n)%nat -> P l.
Proof.
  intros H0 Hs n. induction n as [| n IH]; intros l Hl; [by destruct l |].
  destruct l as [| hi [| lo l]]; cbn in Hl; [lia | lia |]. apply Hs, IH. lia.
Qed.

Lemma print_bytes_v6 n k bytes : length bytes = (2 * n)%nat ->
  print_bytes ":"%char 2 2 16 (2 * k) bytes
  = (if bool_decide (0 < k)%nat then join_more colon (hextet_texts bytes) else join colon (hextet_texts bytes)).
Proof.
  intros Hl. revert k. revert n bytes Hl. apply (pairs_ind (fun bytes => forall k, _)).
  { intros k. cbn. by destruct (bool_decide _). }
  intros hi lo bytes IH k. cbn [print_bytes].
  replace (S (S (2 * k))) with (2 * S k)%nat by lia. rewrite IH, (bool_decide_eq_true_2 (0 < S k)%nat) by lia.
  replace (2 * k mod 2)%nat with 0%nat by (rewrite Nat.mul_comm, Nat.Div0.mod_mul; done).
  replace (S (2 * k) mod 2)%nat with 1%nat.
  2: { replace (S (2 * k)) with (1 + k * 2)%nat by lia. by rewrite Nat.Div0.mod_add. }
  rewrite (bool_decide_eq_false_2 (1%nat = 0%nat)), andb_false_r by done.
  rewrite (bool_decide_eq_true_2 (0%nat = 0%nat)), andb_true_r by done.
  unfold hextet_texts. cbn [hextets_of map join app]. unfold join_more. cbn [map concat app].
  rewrite (bool_decide_ext (0 < 2 * k)%nat (0 < k)%nat) by lia.
  unfold hextet_text at 2 4. cbn [fst snd].
  by destruct (bool_decide _); cbn [app]; rewrite <- !app_assoc.
Qed.

Lemma length_hextets n bytes : length bytes = (2 * n)%nat -> length (hextets_of bytes) = n.
Proof.
  revert bytes. induction n as [| n IH]; intros bytes Hl; [by destruct bytes |].
  destruct bytes as [| hi [| lo bytes]]; cbn in Hl; [lia | lia |]. cbn. rewrite IH; lia.
Qed.

Definition hextet_value (h : Z * Z) : Z := h.1 * 256 + h.2.

Lemma hextets_read n bytes : length bytes = (2 * n)%nat -> bytes_ok bytes ->
  Forall2 (reads 16 (2 ^ 16 - 1)) (hextet_texts bytes) (map hextet_value (hextets_of bytes))
  /\ Forall group_text (hextet_texts bytes)
  /\ bytes_ (IPAddress_of_hextets (map hextet_value (hextets_of bytes))) = bytes
  /\ Forall (fun t => forall c, digit_value 16 c = None -> c ∉ t) (hextet_texts bytes).
Proof.
  revert n bytes. apply (pairs_ind (fun bytes => bytes_ok bytes -> _)).
  { intros _. repeat constructor. }
  intros hi lo bytes IH [Hhi [Hlo Hb]%Forall_cons]%Forall_cons. destruct (IH Hb) as (Hr & Hp & Hbytes & Hno).
  assert (forall n c, is_u 8 n -> digit_value 16 c = None -> c ∉ pad_left 2 (print_number 16 n)) as Hnot.
  { intros m c Hm Hc. unfold is_u in Hm. unfold pad_left. rewrite elem_of_app. intros [H | H].
    - apply elem_of_replicate in H as [-> _]. done.
    - by eapply print_not_in; [| | exact Hc |]; [| | exact H]; lia. }
  unfold hextet_texts in *. cbn [hextets_of map]. split; [| split; [| split]].
  - constructor; [by apply reads_hextet | done].
  - constructor; [| done]. split; [| unfold hextet_text; rewrite elem_of_app; intros [H | H]; by eapply Hnot in H].
    unfold hextet_text, pad_left. cbn [fst snd]. destruct Hhi as [Hhi _].
    destruct (print_first 16 hi ltac:(lia) Hhi) as (d & ds & -> & _). cbn. by destruct (replicate _ _).
  - destruct (hextet_bytes hi lo Hhi Hlo) as [E1 E2]. unfold IPAddress_of_hextets in *. cbn [map concat bytes_] in *.
    unfold hextet_value at 1 2. cbn [fst snd]. rewrite E1, E2. cbn [app]. by rewrite Hbytes.
  - constructor; [| done]. intros c Hc. unfold hextet_text. rewrite elem_of_app. intros [H | H]; by eapply Hnot in H.
Qed.

Lemma not_in_join c ts : c <> colon -> Forall (fun t => c ∉ t) ts -> c ∉ join colon ts.
Proof.
  intros Hc H. destruct H as [| t ts Ht Hts]; [apply not_elem_of_nil |].
  cbn [join]. rewrite elem_of_app. intros [H | H]; [done |]. unfold join_more in H.
  induction Hts as [| u us Hu _ IH]; cbn in H; [by apply elem_of_nil in H |].
  apply elem_of_cons in H as [-> | H]; [done |]. apply elem_of_app in H as [H | H]; [done | by apply IH].
Qed.

(** ** Round trips *)

Section RoundTrip.
Variable if_nametoindex : str -> Z.
Variable if_indextoname : Z -> option str.
(** The name of an interface belongs to the interface, and is a C string. *)
Hypothesis names_agree : forall i name, if_indextoname i = Some name -> if_nametoindex name = i /\ Ascii.zero ∉ name.

Definition address_wf (a : IPAddress) : Prop :=
  length (bytes_ a) = address_size a /\ bytes_ok (bytes_ a)
  /\ (scope_id_ a = 0 \/ IsLinkLocal a = true /\ is_Some (if_indextoname (scope_id_ a))).

Definition endpoint_wf (e : IPEndpoint) : Prop := address_wf (address e) /\ is_u 16 (port e).

Lemma ParseV4_print a : address_wf a -> version_ a = kV4 -> ParseV4 (print_address if_indextoname a) = ok a.
Proof using.
  destruct a as [v bytes scope]. cbn. intros (Hl & Hb & Hs) ->. cbn in Hl.
  do 4 (destruct bytes as [| ? bytes]; [done |]). destruct bytes; [| done].
  destruct Hs as [Hs | [Hs _]]; [| done]. cbn in Hs. subst scope. rewrite app_nil_r.
  unfold bytes_ok in Hb. cbn [bytes_] in Hb. rewrite !Forall_cons in Hb. unfold is_u in Hb. change (2 ^ 8) with 256 in Hb.
  unfold ParseV4. match goal with |- context [mkAddress kV4 ?l 0] =>
    replace (parse_first_groups _ _ _ _ _) with (Some l); [done |];
    symmetry; apply (parse_first_groups_join "."%char 10 255 3 (map (print_number 10) l) l); [done | | done] end.
  repeat constructor; apply reads_print; lia.
Qed.

Lemma scope_not_zero a : address_wf a -> scope_id_ a <> 0 ->
  exists name, if_indextoname (scope_id_ a) = Some name
    /\ parse_scope if_nametoindex name = scope_id_ a /\ IsLinkLocal a = true.
Proof using names_agree.
  intros (_ & _ & [? | [Hl [name Hname]]]) Hs; [done |]. destruct (names_agree _ _ Hname) as [Hi Hz].
  exists name. split; [done |]. split; [| done]. unfold parse_scope, c_str.
  rewrite find_char_None by done. rewrite Hi. by rewrite (proj2 (Z.eqb_neq _ _)).
Qed.

Lemma ParseV6_print a : address_wf a -> version_ a = kV6 ->
  ParseV6 if_nametoindex (print_address if_indextoname a) = ok a.
Proof using names_agree.
  destruct a as [v bytes scope] eqn:Ea. rewrite <- Ea. intros Hwf Hv. pose proof Hwf as (Hl & Hb & Hs).
  unfold address_size in Hl. rewrite Hv in Hl. unfold kV6Size in Hl.
  destruct (hextets_read 8 (bytes_ a) Hl Hb) as (Hr & Hp & Hbytes & Hno).
  unfold print_address. rewrite Hv. pose proof (print_bytes_v6 8 0 _ Hl) as Hprint.
  change (2 * 0)%nat with 0%nat in Hprint. rewrite Hprint, bool_decide_eq_false_2 by lia.
  set (text := join colon (hextet_texts (bytes_ a))).
  assert ("%"%char ∉ text) as Hpc.
  { apply not_in_join; [done |]. eapply Forall_impl; [exact Hno |]. intros t Ht. by apply Ht. }
  assert (parse_hextets text = Some (map hextet_value (hextets_of (bytes_ a)))) as Hparse.
  { unfold parse_hextets, ExpandIPv6DoubleColon. change (lit "::") with dc.
    destruct (find_dc_groups _ Hp) as [E _]. unfold text. rewrite E.
    apply parse_first_groups_join; [done | done |]. by rewrite length_map, (length_hextets 8). }
  set (addr := IPAddress_of_hextets (map hextet_value (hextets_of (bytes_ a)))) in *.
  assert (IsLinkLocal addr = IsLinkLocal a) as Hll by (unfold IsLinkLocal; by rewrite Hv, Hbytes).
  unfold ParseV6. destruct (Z.eq_dec (scope_id_ a) 0) as [E0 | Hne].
  - rewrite (proj2 (Z.eqb_eq _ _) E0), andb_false_r, app_nil_r, find_char_None by done.
    rewrite bool_decide_eq_false_2, Hparse by done. fold addr. f_equal.
    rewrite Ea in *. cbn in *. subst. unfold addr in *. by rewrite <- Hbytes at 2.
  - destruct (scope_not_zero a Hwf Hne) as (name & Hname & Hscope & Hlink).
    rewrite Hlink, Hname, (proj2 (Z.eqb_neq _ _) Hne). cbn [negb andb]. rewrite find_char_app by done.
    rewrite take_app_length, drop_app_add. change (drop 1 ("%"%char :: name)) with name. rewrite Hscope.
    rewrite bool_decide_eq_false_2 by congruence. rewrite Hparse. fold addr. rewrite Hll, Hlink, Hbytes.
    rewrite Ea in *. cbn in *. by subst.
Qed.

Lemma from_chars_int_print n : 0 <= n <= INT_MAX -> from_chars_int (to_string n) = Some (n, []).
Proof using.
  intros Hn. unfold to_string. pose proof (from_chars_print 10 INT_MAX n [] ltac:(lia) Hn I) as H.
  rewrite app_nil_r in H. pose proof (print_not_in 10 n "-"%char ltac:(lia) ltac:(lia) eq_refl) as Hm.
  destruct (print_number 10 n) as [| c s]; [done |]. apply not_elem_of_cons in Hm as [Hm _].
  rewrite <- H. unfold from_chars_int. destruct c as [[] [] [] [] [] [] [] []]; done.
Qed.

Lemma print_v4_head a : address_wf a -> version_ a = kV4 ->
  exists c rest, print_address if_indextoname a = c :: rest /\ c <> "["%char.
Proof using.
  destruct a as [v bytes scope]. cbn. intros (Hl & Hb & _) ->. cbn in Hl, Hb.
  destruct bytes as [| b bytes]; [done |]. apply Forall_cons in Hb as [Hb _]. unfold is_u in Hb.
  destruct (print_first 10 b ltac:(lia) ltac:(lia)) as (d & ds & E & Hd).
  unfold print_address. cbn [version_ bytes_ print_bytes]. cbn [Nat.sub pad_left replicate app]. rewrite E.
  eexists _, _. split; [reflexivity |]. by apply (digit_char_ne 10).
Qed.

(** The shape of an endpoint's text. *)
Lemma IPEndpoint_Parse_app a p :
  a <> [] -> is_u 16 p ->
  IPEndpoint_Parse if_nametoindex (a ++ ":"%char :: to_string p)
  = match (if bool_decide (a !! 0%nat = Some "["%char) && bool_decide (last a = Some "]"%char)
           then ParseV6 if_nametoindex (substr 1 (length a - 2) a) else ParseV4 a) with
    | ok addr => ok (mkEndpoint addr p)
    | err _ => err (mkError kParseError (lit "invalid address part"))
    end.
Proof using.
  intros Ha Hp. unfold is_u in Hp. change (2 ^ 16) with 65536 in Hp.
  pose proof (print_not_in 10 p ":"%char ltac:(lia) ltac:(lia) eq_refl) as Hc.
  destruct (print_first 10 p ltac:(lia) ltac:(lia)) as (d & ds & Ep & _).
  assert (length a <> 0)%nat by (by destruct a).
  unfold IPEndpoint_Parse. rewrite rfind_char_app by done.
  assert (length (a ++ ":"%char :: to_string p) = length a + 2 + length ds)%nat as Hlen
    by (unfold to_string; rewrite Ep, length_app; cbn; rewrite length_map; lia).
  rewrite !bool_decide_eq_false_2 by lia.
  assert ((a ++ ":"%char :: to_string p) !! (length a - 1)%nat = last a) as ->
    by (rewrite last_lookup, lookup_app_l by lia; f_equal; lia).
  assert (substr 1 (length a - 2) (a ++ ":"%char :: to_string p) = substr 1 (length a - 2) a) as ->.
  { unfold substr. rewrite drop_app_le by lia. rewrite take_app_le by (rewrite length_drop; lia). done. }
  rewrite lookup_app_l, take_app_length, drop_app_add by lia.
  change (drop 1 (":"%char :: to_string p)) with (to_string p).
  rewrite from_chars_int_print by (unfold INT_MAX; lia).
  rewrite (proj2 (Z.ltb_ge _ _)), (proj2 (Z.ltb_ge _ _)) by lia. done.
Qed.

Lemma IPEndpoint_Parse_ToString e : endpoint_wf e ->
  IPEndpoint_Parse if_nametoindex (IPEndpoint_ToString if_indextoname e) = ok e.
Proof using names_agree.
  intros [Ha Hp]. destruct e as [a p]. cbn [address port] in *. unfold IPEndpoint_ToString, IsV6.
  cbn [address port]. destruct (version_ a) eqn:Hv.
  - rewrite bool_decide_eq_false_2 by done. cbn [app].
    destruct (print_v4_head a Ha Hv) as (c & rest & E & Hc).
    rewrite IPEndpoint_Parse_app by (done || by rewrite E).
    rewrite (bool_decide_eq_false_2 (_ !! 0%nat = Some "["%char)) by (rewrite E; cbn; congruence).
    cbn [andb]. by rewrite ParseV4_print.
  - rewrite bool_decide_eq_true_2 by done. set (text := print_address if_indextoname a).
    replace (lit "[" ++ text ++ lit "]" ++ ":"%char :: to_string p)
      with ((lit "[" ++ text ++ lit "]") ++ ":"%char :: to_string p) by (by rewrite <- !app_assoc).
    rewrite IPEndpoint_Parse_app by done.
    rewrite (bool_decide_eq_true_2 (_ !! _ = _)) by done.
    rewrite bool_decide_eq_true_2 by (rewrite app_assoc; apply last_snoc). cbn [andb].
    assert (substr 1 (length (lit "[" ++ text ++ lit "]") - 2) (lit "[" ++ text ++ lit "]") = text) as ->.
    { unfold substr. rewrite !length_app. change (drop 1 (lit "[" ++ text ++ lit "]")) with (text ++ lit "]").
      replace (length (lit "[") + (length text + length (lit "]")) - 2)%nat with (length text) by (cbn; lia).
      apply take_app_length. }
    unfold text. by rewrite ParseV6_print.
Qed.

Lemma take_digits_before base a c rest : digit_value base c = None ->
  exists ds a', take_digits base (a ++ c :: rest) = (ds, a' ++ c :: rest) /\ forall x, x ∈ a' -> x ∈ a.
Proof using.
  intros Hc. induction a as [| x a (ds & a' & E & H)]; cbn [app take_digits].
  - rewrite Hc. by exists [], [].
  - destruct (digit_value base x) as [d |].
    + rewrite E. exists (d :: ds), a'. split; [done |]. intros y Hy. apply elem_of_cons. auto.
    + by exists [], (x :: a).
Qed.

(** What has a colon before any period is not an IPv4 address. *)
Lemma ParseV4_colon a rest : "."%char ∉ a -> exists e, ParseV4 (a ++ colon :: rest) = err e.
Proof using.
  intros Ha. unfold ParseV4, parse_first_groups, from_chars.
  destruct (take_digits_before 10 a colon rest eq_refl) as (ds & a' & -> & H).
  destruct ds; [by eexists |]. destruct (_ <=? 255); [| by eexists]. cbn [mbind option_bind].
  destruct a' as [| x a']; cbn [app parse_groups].
  - by eexists.
  - rewrite bool_decide_eq_false_2; [by eexists |]. intros ->. apply Ha, H. left.
Qed.

Lemma ParseV6_compressed a b :
  Forall (is_u 16) (a ++ b) -> (length a + length b <= 7)%nat ->
  ParseV6 if_nametoindex (compressed a b)
  = ok (IPAddress_of_hextets (a ++ replicate (8 - length a - length b) 0 ++ b)).
Proof using.
  intros Hab Hl. unfold ParseV6. rewrite find_char_None.
  - by rewrite bool_decide_eq_false_2, parse_hextets_compressed by done.
  - apply Forall_app in Hab as [Ha Hb].
    assert (forall l, Forall (is_u 16) l -> "%"%char ∉ join colon (map (print_number 16) l)) as H.
    { intros l Hu. apply not_in_join; [done |]. apply Forall_map. eapply Forall_impl; [exact Hu |].
      intros n [Hn _]. by apply print_not_in. }
    unfold compressed. rewrite !elem_of_app. intros [Hin | [Hin | Hin]]; [exact (H a Ha Hin) | | exact (H b Hb Hin)].
    revert Hin. apply (bool_decide_unpack (~ _)). by vm_compute.
Qed.

Lemma IPAddress_Parse_print a : address_wf a ->
  IPAddress_Parse if_nametoindex (print_address if_indextoname a) = ok a.
Proof using names_agree.
  intros Ha. unfold IPAddress_Parse. destruct (version_ a) eqn:Hv; [by rewrite ParseV4_print |].
  assert (exists e, ParseV4 (print_address if_indextoname a) = err e) as [e ->]; [| by apply ParseV6_print].
  pose proof Ha as (Hl & Hb & _).
  unfold address_size in Hl. rewrite Hv in Hl. unfold kV6Size in Hl.
  destruct (hextets_read 8 (bytes_ a) Hl Hb) as (_ & Hp & _ & Hno).
  unfold print_address. rewrite Hv. pose proof (print_bytes_v6 8 0 _ Hl) as Hprint.
  change (2 * 0)%nat with 0%nat in Hprint. rewrite Hprint, bool_decide_eq_false_2 by lia.
  pose proof (length_hextets 8 _ Hl) as Hlen. unfold hextet_texts in *.
  destruct (hextets_of (bytes_ a)) as [| h [| h' l]]; [done | done |]. cbn [map join].
  unfold join_more. cbn [map concat app]. rewrite <- app_assoc. cbn [app].
  apply ParseV4_colon. apply Forall_cons in Hno as [Hno _]. by apply Hno.
Qed.

(** * Claims *)

(** What is printed is parsed.  The text of an IPv4 or IPv6 address, or of an
    endpoint, parses to that address or endpoint, with the scope of a link-local
    address when the operating system has a name for it. *)
Theorem endpoint_roundtrip e :
  endpoint_wf e ->
  IPEndpoint_Parse if_nametoindex (IPEndpoint_ToString if_indextoname e) = ok e
  /\ IPAddress_Parse if_nametoindex (print_address if_indextoname (address e)) = ok (address e).
Proof using names_agree.
  intros He. split; [by apply IPEndpoint_Parse_ToString |]. apply IPAddress_Parse_print, He.
Qed.

(** A double colon stands for the groups left out.  An IPv6 address of at most
    seven groups with one double colon between them, at the start or at the end,
    parses to those groups with as many zeros in between as make eight. *)
Theorem double_colon_expands a b :
  Forall (is_u 16) (a ++ b) -> (length a + length b <= 7)%nat ->
  IPAddress_Parse if_nametoindex (compressed a b)
  = ok (IPAddress_of_hextets (a ++ replicate (8 - length a - length b) 0 ++ b)).
Proof using.
  intros Hab Hl. unfold IPAddress_Parse. rewrite ParseV6_compressed by done.
  unfold compressed. change (dc ++ ?b) with (colon :: colon :: b).
  match goal with |- context [ParseV4 (?t ++ colon :: ?r)] => destruct (ParseV4_colon t r) as [e ->]; [| done] end.
  apply not_in_join; [done |]. apply Forall_map. apply Forall_app in Hab as [Ha _].
  eapply Forall_impl; [exact Ha |]. intros n [Hn _]. by apply print_not_in.
Qed.
End RoundTrip.

(** ** Witnesses *)

Definition demo_nametoindex (name : str) : Z := if bool_decide (name = lit "eth0.2") then 3 else 0.
Definition demo_indextoname (i : Z) : option str := if i =? 3 then Some (lit "eth0.2") else None.

Lemma demo_names i name :
  demo_indextoname i = Some name -> demo_nametoindex name = i /\ Ascii.zero ∉ name.
Proof.
  unfold demo_indextoname. destruct (Z.eqb_spec i 3) as [-> |]; [| done]. intros [= <-].
  split; [done |]. apply (bool_decide_unpack _). by vm_compute.
Qed.

(** [fe80::1%eth0.2], port 8009. *)
Definition demo_endpoint : IPEndpoint :=
  mkEndpoint (mkAddress kV6 [254; 128; 0; 0; 0; 0; 0; 0; 0; 0; 0; 0; 0; 0; 0; 1] 3) 8009.

Lemma endpoint_roundtrip_witness :
  IPEndpoint_ToString demo_indextoname demo_endpoint = lit "[fe80:0000:0000:0000:0000:0000:0000:0001%eth0.2]:8009"
  /\ IPEndpoint_Parse demo_nametoindex (IPEndpoint_ToString demo_indextoname demo_endpoint) = ok demo_endpoint.
Proof.
  split; [by vm_compute |]. apply (endpoint_roundtrip demo_nametoindex demo_indextoname demo_names).
  split; [| by vm_compute]. split; [done |]. split; [| right; by split; [| eexists]].
  by repeat (apply Forall_cons; split; [by vm_compute |]).
Defined.

Lemma double_colon_expands_witness :
  compressed [8193; 3512] [1] = lit "2001:db8::1"
  /\ IPAddress_Parse demo_nametoindex (compressed [8193; 3512] [1])
     = ok (IPAddress_of_hextets [8193; 3512; 0; 0; 0; 0; 0; 1]).
Proof.
  split; [by vm_compute |].
  apply (double_colon_expands demo_nametoindex [8193; 3512] [1]); [| cbn; lia].
  by repeat (apply Forall_cons; split; [by vm_compute |]).
Defined.

(** A scope without a name does not survive: its number is printed in
    hexadecimal, in which mode the stream still is, and read in decimal, so that
    scope 16 of a system without that interface comes back as scope 10. *)
Theorem nameless_scope_changes :
  let e := mkEndpoint (mkAddress kV6 [254; 128; 0; 0; 0; 0; 0; 0; 0; 0; 0; 0; 0; 0; 0; 1] 16) 8009 in
  IPEndpoint_ToString (fun _ => None) e = lit "[fe80:0000:0000:0000:0000:0000:0000:0001%10]:8009"
  /\ IPEndpoint_Parse (fun _ => 0) (IPEndpoint_ToString (fun _ => None) e)
     = ok (mkEndpoint (mkAddress kV6 (bytes_ (address e)) 10) 8009).
Proof. split; by vm_compute. Qed.
