(* ===== verification/Config.v ===== *)
(** The command line of the streamer_plus application
    (cast/standalone_sender/streamer_plus/config.h and .cc).

    [ParseCommandLine] takes the arguments with the program's name first.  The
    interfaces of the operating system that addresses may name are a parameter,
    as in IpAddress.v. *)

From S2P Require Import Prelude Text IpAddress.

Definition kStockCastV2ControlPort : Z := 8009.

Definition kMinWidth : Z := 64.
Definition kMaxWidth : Z := 7680.
Definition kMinHeight : Z := 64.
Definition kMaxHeight : Z := 4320.
Definition kMinFramesPerSecond : Z := 1.
Definition kMaxFramesPerSecond : Z := 240.
Definition kMinVideoBitrate : Z := 100000.
Definition kMaxVideoBitrate : Z := 100000000.
Definition kMinAudioBitrate : Z := 8000.
Definition kMaxAudioBitrate : Z := 1000000.
Definition kMinLatencyTargetMs : Z := 1.
Definition kMaxLatencyTargetMs : Z := 5000.
Definition kMinPortalTimeoutMs : Z := 1000.
Definition kMaxPortalTimeoutMs : Z := 300000.

Record Config := mkConfig {
  receiver : IPEndpoint;
  width : Z;
  height : Z;
  frames_per_second : Z;
  video_bitrate : Z;
  audio_bitrate : Z;
  latency_target_ms : Z;
  audio_source : str;
  portal_timeout_ms : Z;
  dry_run : bool;
  capture_self_test : bool }.
#[export] Instance eta_Config : Eta Config := fun c =>
  mkConfig (receiver c) (width c) (height c) (frames_per_second c) (video_bitrate c)
    (audio_bitrate c) (latency_target_ms c) (audio_source c) (portal_timeout_ms c) (dry_run c)
    (capture_self_test c).

Definition new_Config : Config :=
  mkConfig new_IPEndpoint 1920 1080 30 8000000 128000 500 (lit "@DEFAULT_MONITOR@") 120000 false false.

Inductive Command := kHelp | kRun.
Record ParsedCommandLine := mkParsed { command : Command; config : Config }.

Definition InvalidArgument (message : str) : Error := mkError kParameterInvalid message.

Definition ParseScalar (flag value : str) (minimum maximum : Z) : ErrorOr Z :=
  match from_chars 10 (2 ^ 32 - 1) value with
  | Some (parsed, []) =>
      if (parsed <? minimum) || (maximum <? parsed) then
        err (InvalidArgument (lit "--" ++ flag ++ lit " must be between " ++ to_string minimum
               ++ lit " and " ++ to_string maximum))
      else ok parsed
  | _ => err (InvalidArgument (lit "--" ++ flag ++ lit " must be an integer value"))
  end.

(** [std::iscntrl] of the C locale. *)
Definition iscntrl (c : ascii) : bool := (char_code c <? 32) || (char_code c =? 127).

Definition ParseAudioSource (value : str) : ErrorOr str :=
  if (zlen value =? 0) || (255 <? zlen value)
  then err (InvalidArgument (lit "--audio-source must contain 1 through 255 bytes")) else
  if existsb iscntrl value
  then err (InvalidArgument (lit "--audio-source must not contain ASCII control characters")) else
  if negb (bool_decide (value = lit "@DEFAULT_MONITOR@")) && negb (ends_with (lit ".monitor") value)
  then err (InvalidArgument (lit "--audio-source must be @DEFAULT_MONITOR@ or end in .monitor")) else
  ok value.

(** The variables of [ParseCommandLine]. *)
Record ParseState := mkParseState {
  parsed : Config;
  receiver_seen : bool;
  width_seen : bool;
  height_seen : bool;
  fps_seen : bool;
  video_bitrate_seen : bool;
  audio_bitrate_seen : bool;
  latency_seen : bool;
  audio_source_seen : bool;
  portal_timeout_seen : bool;
  dry_run_seen : bool;
  capture_self_test_seen : bool }.
#[export] Instance eta_ParseState : Eta ParseState := fun s =>
  mkParseState (parsed s) (receiver_seen s) (width_seen s) (height_seen s) (fps_seen s)
    (video_bitrate_seen s) (audio_bitrate_seen s) (latency_seen s) (audio_source_seen s)
    (portal_timeout_seen s) (dry_run_seen s) (capture_self_test_seen s).

Definition new_ParseState : ParseState :=
  mkParseState new_Config false false false false false false false false false false false.

Definition duplicate (name : str) : Error := InvalidArgument (lit "duplicate --" ++ name ++ lit " flag").

(** A flag that may be given once, and whose value [parse] reads. *)
Definition flag {A} (name : str) (seen : bool) (parse : ErrorOr A) (set : A -> ParseState) : ErrorOr ParseState :=
  if seen then err (duplicate name) else v ← parse; ok (set v).

Section Interfaces.
Variable if_nametoindex : str -> Z.

Definition ParseReceiver (value : str) : ErrorOr IPEndpoint :=
  match IPEndpoint_Parse if_nametoindex value with
  | ok endpoint =>
      if port endpoint =? 0 then err (InvalidArgument (lit "--receiver port must not be zero"))
      else ok endpoint
  | err _ =>
      match IPAddress_Parse if_nametoindex value with
      | ok address => ok (mkEndpoint address kStockCastV2ControlPort)
      | err _ => err (InvalidArgument (lit "--receiver must be an IP address or addr[:port]"))
      end
  end.

(** A flag with a value. *)
Definition parse_flag (name value : str) (s : ParseState) : ErrorOr ParseState :=
  let c := parsed s in
  if bool_decide (name = lit "receiver") then
    flag name (receiver_seen s) (ParseReceiver value)
      (fun v => s <| receiver_seen := true |> <| parsed := c <| receiver := v |> |>)
  else if bool_decide (name = lit "width") then
    flag name (width_seen s) (ParseScalar name value kMinWidth kMaxWidth)
      (fun v => s <| width_seen := true |> <| parsed := c <| width := v |> |>)
  else if bool_decide (name = lit "height") then
    flag name (height_seen s) (ParseScalar name value kMinHeight kMaxHeight)
      (fun v => s <| height_seen := true |> <| parsed := c <| height := v |> |>)
  else if bool_decide (name = lit "fps") then
    flag name (fps_seen s) (ParseScalar name value kMinFramesPerSecond kMaxFramesPerSecond)
      (fun v => s <| fps_seen := true |> <| parsed := c <| frames_per_second := v |> |>)
  else if bool_decide (name = lit "video-bitrate") then
    flag name (video_bitrate_seen s) (ParseScalar name value kMinVideoBitrate kMaxVideoBitrate)
      (fun v => s <| video_bitrate_seen := true |> <| parsed := c <| video_bitrate := v |> |>)
  else if bool_decide (name = lit "audio-bitrate") then
    flag name (audio_bitrate_seen s) (ParseScalar name value kMinAudioBitrate kMaxAudioBitrate)
      (fun v => s <| audio_bitrate_seen := true |> <| parsed := c <| audio_bitrate := v |> |>)
  else if bool_decide (name = lit "latency-target-ms") then
    flag name (latency_seen s) (ParseScalar name value kMinLatencyTargetMs kMaxLatencyTargetMs)
      (fun v => s <| latency_seen := true |> <| parsed := c <| latency_target_ms := v |> |>)
  else if bool_decide (name = lit "audio-source") then
    flag name (audio_source_seen s) (ParseAudioSource value)
      (fun v => s <| audio_source_seen := true |> <| parsed := c <| audio_source := v |> |>)
  else if bool_decide (name = lit "portal-timeout-ms") then
    flag name (portal_timeout_seen s) (ParseScalar name value kMinPortalTimeoutMs kMaxPortalTimeoutMs)
      (fun v => s <| portal_timeout_seen := true |> <| parsed := c <| portal_timeout_ms := v |> |>)
  else err (InvalidArgument (lit "unknown flag: --" ++ name)).

(** One argument other than [--help]. *)
Definition parse_argument (argument : str) (s : ParseState) : ErrorOr ParseState :=
  if bool_decide (argument = lit "--dry-run") then
    flag (lit "dry-run") (dry_run_seen s) (ok true)
      (fun v => s <| dry_run_seen := true |> <| parsed := (parsed s) <| dry_run := v |> |>)
  else if bool_decide (argument = lit "--capture-self-test") then
    flag (lit "capture-self-test") (capture_self_test_seen s) (ok true)
      (fun v => s <| capture_self_test_seen := true |> <| parsed := (parsed s) <| capture_self_test := v |> |>)
  else if negb (starts_with (lit "--") argument) then
    err (InvalidArgument (lit "positional arguments are not supported: " ++ argument))
  else match find_char "="%char argument with
       | None => err (InvalidArgument (lit "flag requires a value: " ++ argument))
       | Some equals =>
           parse_flag (substr 2 (equals - 2) argument) (drop (equals + 1) argument) s
       end.

(** The loop over the arguments: a command line that is complete, or what the
    arguments have set. *)
Fixpoint arguments_loop (argc : Z) (arguments : list str) (s : ParseState)
    : ErrorOr (ParsedCommandLine + ParseState) :=
  match arguments with
  | [] => ok (inr s)
  | argument :: arguments =>
      if bool_decide (argument = lit "--help") then
        if negb (argc =? 2) then err (InvalidArgument (lit "--help cannot be combined with other arguments"))
        else ok (inl (mkParsed kHelp (parsed s)))
      else s ← parse_argument argument s; arguments_loop argc arguments s
  end.

Definition ParseCommandLine (argv : list str) : ErrorOr ParsedCommandLine :=
  r ← arguments_loop (zlen argv) (drop 1 argv) new_ParseState;
  match r with
  | inl p => ok p
  | inr s =>
      let c := parsed s in
      if dry_run c && capture_self_test c
      then err (InvalidArgument (lit "--capture-self-test cannot be combined with --dry-run")) else
      if negb (width c mod 2 =? 0) || negb (height c mod 2 =? 0)
      then err (InvalidArgument (lit "--width and --height must be even for I420 video")) else
      if negb (receiver_seen s) && negb (capture_self_test c)
      then err (InvalidArgument (lit "--receiver=addr[:port] is required")) else
      ok (mkParsed kRun c)
  end.
End Interfaces.

Section Names.
Variable if_indextoname : Z -> option str.

Definition newline : str := ["010"%char].

Definition Usage (program_name : str) : str :=
  lit "Usage: " ++ program_name ++
  lit " [--capture-self-test] | --receiver=addr[:port] [--dry-run] [--width=N] [--height=N] " ++
  lit "[--fps=N] [--video-bitrate=N] [--audio-bitrate=N] " ++
  lit "[--latency-target-ms=N] [--audio-source=NAME] [--portal-timeout-ms=N]" ++ newline.

Definition FormatDryRun (c : Config) : str :=
  lit "receiver=" ++ IPEndpoint_ToString if_indextoname (receiver c) ++ newline
  ++ lit "width=" ++ to_string (width c) ++ newline
  ++ lit "height=" ++ to_string (height c) ++ newline
  ++ lit "fps=" ++ to_string (frames_per_second c) ++ newline
  ++ lit "video_bitrate=" ++ to_string (video_bitrate c) ++ newline
  ++ lit "audio_bitrate=" ++ to_string (audio_bitrate c) ++ newline
  ++ lit "latency_target_ms=" ++ to_string (latency_target_ms c) ++ newline
  ++ lit "audio_source=" ++ audio_source c ++ newline
  ++ lit "portal_timeout_ms=" ++ to_string (portal_timeout_ms c) ++ newline.
End Names.

(** * Lemmas *)

(** ** Accepted values *)

Definition audio_source_ok (source : str) : Prop :=
  1 <= zlen source <= 255 /\ existsb iscntrl source = false
  /\ (source = lit "@DEFAULT_MONITOR@" \/ ends_with (lit ".monitor") source = true).

Definition in_range (v minimum maximum : Z) : Prop := minimum <= v <= maximum.

Record values_ok (c : Config) : Prop := {
  width_ok : in_range (width c) kMinWidth kMaxWidth;
  height_ok : in_range (height c) kMinHeight kMaxHeight;
  fps_ok : in_range (frames_per_second c) kMinFramesPerSecond kMaxFramesPerSecond;
  video_bitrate_ok : in_range (video_bitrate c) kMinVideoBitrate kMaxVideoBitrate;
  audio_bitrate_ok : in_range (audio_bitrate c) kMinAudioBitrate kMaxAudioBitrate;
  latency_ok : in_range (latency_target_ms c) kMinLatencyTargetMs kMaxLatencyTargetMs;
  source_ok : audio_source_ok (audio_source c);
  portal_timeout_ok : in_range (portal_timeout_ms c) kMinPortalTimeoutMs kMaxPortalTimeoutMs }.

(** The configurations the application runs with. *)
Record config_valid (c : Config) : Prop := {
  valid_values : values_ok c;
  valid_width : width c mod 2 = 0;
  valid_height : height c mod 2 = 0;
  valid_mode : dry_run c && capture_self_test c = false;
  valid_receiver : capture_self_test c = true \/ port (receiver c) <> 0 }.

Lemma ParseScalar_ok name value lo hi v : ParseScalar name value lo hi = ok v -> in_range v lo hi.
Proof.
  unfold ParseScalar. destruct (from_chars _ _ _) as [[n [|]] |]; [| done | done].
  destruct (_ || _) eqn:E; [done |]. intros [= <-]. unfold in_range. lia.
Qed.

Lemma ParseAudioSource_ok value source : ParseAudioSource value = ok source -> source = value /\ audio_source_ok source.
Proof.
  unfold ParseAudioSource. destruct (_ || _) eqn:E1; [done |]. destruct (existsb _ _) eqn:E2; [done |].
  destruct (negb _ && _) eqn:E3; [done |]. intros [= <-]. split; [done |]. split; [pose proof (zlen_nonneg value); lia |]. split; [done |].
  apply andb_false_iff in E3 as [E3 | E3]; apply negb_false_iff in E3; [left | by right].
  by apply bool_decide_eq_true in E3.
Qed.

Lemma flag_ok {A} name seen (parse : ErrorOr A) set s :
  flag name seen parse set = ok s -> exists v, parse = ok v /\ s = set v.
Proof. unfold flag. destruct seen; [done |]. destruct parse as [v |]; [| done]. intros [= <-]. by exists v. Qed.

Lemma flag_bind {A B} name (v : A) set (k : ParseState -> ErrorOr B) : flag name false (ok v) set ≫= k = k (set v).
Proof. done. Qed.

Section Parse.
Variable if_nametoindex : str -> Z.

Definition state_ok (s : ParseState) : Prop :=
  values_ok (parsed s) /\ (receiver_seen s = true -> port (receiver (parsed s)) <> 0).

Lemma ParseReceiver_ok value e : ParseReceiver if_nametoindex value = ok e -> port e <> 0.
Proof using.
  unfold ParseReceiver. destruct (IPEndpoint_Parse _ _) as [e' | _].
  - destruct (Z.eqb_spec (port e') 0); [done |]. by intros [= <-].
  - destruct (IPAddress_Parse _ _); [| done]. by intros [= <-].
Qed.

Lemma parse_flag_ok name value s s' :
  state_ok s -> parse_flag if_nametoindex name value s = ok s' -> state_ok s'.
Proof using.
  intros [Hv Hr]. unfold parse_flag.
  repeat (case_match;
    [intros (v & E & ->)%flag_ok; split;
      [destruct Hv; constructor; cbn; try done; first [by eapply ParseScalar_ok | by apply ParseAudioSource_ok in E as [-> ?]]
      | cbn; first [done | by intros _; eapply ParseReceiver_ok]] |]).
  done.
Qed.

Lemma parse_argument_ok argument s s' :
  state_ok s -> parse_argument if_nametoindex argument s = ok s' -> state_ok s'.
Proof using.
  intros Hs. unfold parse_argument.
  do 2 (case_match; [intros (v & _ & ->)%flag_ok; destruct Hs as [[] ?]; split; [by constructor | done] |]).
  case_match; [done |]. case_match; [| done]. by apply parse_flag_ok.
Qed.

Lemma arguments_loop_ok argc arguments s r :
  state_ok s -> arguments_loop if_nametoindex argc arguments s = ok r ->
  match r with
  | inl p => command p = kHelp /\ argc = 2 /\ lit "--help" ∈ arguments
  | inr s' => state_ok s'
  end.
Proof using.
  revert s. induction arguments as [| a arguments IH]; intros s Hs; cbn; [by intros [= <-] |].
  case_bool_decide as Ha; [subst a |].
  - destruct (Z.eqb_spec argc 2); [| done]. intros [= <-]. split; [done |]. split; [done |]. by left.
  - destruct (parse_argument _ _ _) as [s1 |] eqn:E; [| done]. cbn. intros Hr.
    specialize (IH s1 (parse_argument_ok _ _ _ Hs E) Hr). destruct r; [| done].
    destruct IH as (? & ? & ?). split; [done |]. split; [done |]. by right.
Qed.

(** ** Command lines that are accepted *)

Lemma parse_argument_flag name value s :
  "="%char ∉ name ->
  parse_argument if_nametoindex (lit "--" ++ name ++ "="%char :: value) s = parse_flag if_nametoindex name value s.
Proof using.
  intros Hn. unfold parse_argument.
  assert (forall t, "="%char ∉ t -> bool_decide (lit "--" ++ name ++ "="%char :: value = t) = false) as Hne.
  { intros t Ht. apply bool_decide_eq_false_2. intros <-. apply Ht. rewrite !elem_of_app. right. right. by left. }
  rewrite !Hne by (apply (bool_decide_unpack (~ _)); by vm_compute).
  change (starts_with (lit "--") (lit "--" ++ name ++ "="%char :: value)) with true. cbn [negb].
  rewrite app_assoc, find_char_app.
  2: { rewrite elem_of_app. intros [H |]; [| done]. revert H. apply (bool_decide_unpack (~ _)). by vm_compute. }
  rewrite drop_app_add. change (drop 1 ("="%char :: value)) with value.
  f_equal. unfold substr. rewrite <- app_assoc.
  change (drop 2 (lit "--" ++ name ++ "="%char :: value)) with (name ++ "="%char :: value).
  apply take_app_length'. rewrite length_app. cbn. lia.
Qed.

(** A flag with a value, on the command line. *)
Definition with_value (name value : str) : str := lit "--" ++ name ++ "="%char :: value.

Lemma arguments_loop_flag argc name value arguments s :
  "="%char ∉ name ->
  arguments_loop if_nametoindex argc (with_value name value :: arguments) s
  = (s ← parse_flag if_nametoindex name value s; arguments_loop if_nametoindex argc arguments s).
Proof using.
  intros Hn. cbn [arguments_loop]. rewrite bool_decide_eq_false_2; [unfold with_value; by rewrite parse_argument_flag |].
  intros E. assert ("="%char ∉ lit "--help") as H by (apply (bool_decide_unpack (~ _)); by vm_compute).
  apply H. rewrite <- E. unfold with_value. rewrite !elem_of_app. right. right. by left.
Qed.

Lemma ParseScalar_print name v lo hi :
  in_range v lo hi -> 0 <= lo -> hi < 2 ^ 32 -> ParseScalar name (to_string v) lo hi = ok v.
Proof using.
  unfold in_range, ParseScalar, to_string. intros Hv Hlo Hhi.
  pose proof (from_chars_print 10 (2 ^ 32 - 1) v [] ltac:(lia) ltac:(lia) I) as H.
  rewrite app_nil_r in H. rewrite H. by rewrite (proj2 (Z.ltb_ge _ _)), (proj2 (Z.ltb_ge _ _)) by lia.
Qed.

Lemma ParseAudioSource_accepts source : audio_source_ok source -> ParseAudioSource source = ok source.
Proof using.
  intros (Hz & Hc & Hs). unfold ParseAudioSource. replace (_ || _) with false by lia. rewrite Hc.
  destruct Hs as [Hs | Hs]; [by rewrite (bool_decide_eq_true_2 _ Hs) | rewrite Hs].
  by rewrite andb_false_r.
Qed.

Section Print.
Variable if_indextoname : Z -> option str.
Hypothesis names_agree : forall i name, if_indextoname i = Some name -> if_nametoindex name = i /\ Ascii.zero ∉ name.

(** The command line that asks for a configuration. *)
Definition mode_flags (c : Config) : list str :=
  (if dry_run c then [lit "--dry-run"] else [])
  ++ (if capture_self_test c then [lit "--capture-self-test"] else []).
Definition command_line (program : str) (c : Config) : list str :=
  program :: with_value (lit "receiver") (IPEndpoint_ToString if_indextoname (receiver c))
  :: with_value (lit "width") (to_string (width c))
  :: with_value (lit "height") (to_string (height c))
  :: with_value (lit "fps") (to_string (frames_per_second c))
  :: with_value (lit "video-bitrate") (to_string (video_bitrate c))
  :: with_value (lit "audio-bitrate") (to_string (audio_bitrate c))
  :: with_value (lit "latency-target-ms") (to_string (latency_target_ms c))
  :: with_value (lit "audio-source") (audio_source c)
  :: with_value (lit "portal-timeout-ms") (to_string (portal_timeout_ms c))
  :: mode_flags c.

Lemma ParseReceiver_print e : endpoint_wf if_indextoname e -> port e <> 0 ->
  ParseReceiver if_nametoindex (IPEndpoint_ToString if_indextoname e) = ok e.
Proof using names_agree.
  intros He Hp. unfold ParseReceiver. rewrite (IPEndpoint_Parse_ToString _ _ names_agree e He).
  by rewrite (proj2 (Z.eqb_neq _ _) Hp).
Qed.

Lemma mode_flags_parsed argc c s :
  dry_run_seen s = false -> capture_self_test_seen s = false ->
  dry_run (parsed s) = false -> capture_self_test (parsed s) = false -> dry_run c && capture_self_test c = false ->
  exists s', arguments_loop if_nametoindex argc (mode_flags c) s = ok (inr s')
    /\ receiver_seen s' = receiver_seen s
    /\ parsed s' = (parsed s) <| dry_run := dry_run c |> <| capture_self_test := capture_self_test c |>.
Proof using.
  intros H1 H2 H3 H4 Hm. unfold mode_flags. destruct s as [p]. cbn in *. subst.
  destruct p. cbn in *. subst. by destruct (dry_run c), (capture_self_test c); try done; eexists; (split; [reflexivity |]).
Qed.

(** The branch of each flag. *)
Lemma parse_flag_names :
  (forall v s, parse_flag if_nametoindex (lit "receiver") v s
     = flag (lit "receiver") (receiver_seen s) (ParseReceiver if_nametoindex v)
         (fun x => s <| receiver_seen := true |> <| parsed := (parsed s) <| receiver := x |> |>))
  /\ (forall v s, parse_flag if_nametoindex (lit "width") v s
     = flag (lit "width") (width_seen s) (ParseScalar (lit "width") v kMinWidth kMaxWidth)
         (fun x => s <| width_seen := true |> <| parsed := (parsed s) <| width := x |> |>))
  /\ (forall v s, parse_flag if_nametoindex (lit "height") v s
     = flag (lit "height") (height_seen s) (ParseScalar (lit "height") v kMinHeight kMaxHeight)
         (fun x => s <| height_seen := true |> <| parsed := (parsed s) <| height := x |> |>))
  /\ (forall v s, parse_flag if_nametoindex (lit "fps") v s
     = flag (lit "fps") (fps_seen s) (ParseScalar (lit "fps") v kMinFramesPerSecond kMaxFramesPerSecond)
         (fun x => s <| fps_seen := true |> <| parsed := (parsed s) <| frames_per_second := x |> |>))
  /\ (forall v s, parse_flag if_nametoindex (lit "video-bitrate") v s
     = flag (lit "video-bitrate") (video_bitrate_seen s) (ParseScalar (lit "video-bitrate") v kMinVideoBitrate kMaxVideoBitrate)
         (fun x => s <| video_bitrate_seen := true |> <| parsed := (parsed s) <| video_bitrate := x |> |>))
  /\ (forall v s, parse_flag if_nametoindex (lit "audio-bitrate") v s
     = flag (lit "audio-bitrate") (audio_bitrate_seen s) (ParseScalar (lit "audio-bitrate") v kMinAudioBitrate kMaxAudioBitrate)
         (fun x => s <| audio_bitrate_seen := true |> <| parsed := (parsed s) <| audio_bitrate := x |> |>))
  /\ (forall v s, parse_flag if_nametoindex (lit "latency-target-ms") v s
     = flag (lit "latency-target-ms") (latency_seen s) (ParseScalar (lit "latency-target-ms") v kMinLatencyTargetMs kMaxLatencyTargetMs)
         (fun x => s <| latency_seen := true |> <| parsed := (parsed s) <| latency_target_ms := x |> |>))
  /\ (forall v s, parse_flag if_nametoindex (lit "audio-source") v s
     = flag (lit "audio-source") (audio_source_seen s) (ParseAudioSource v)
         (fun x => s <| audio_source_seen := true |> <| parsed := (parsed s) <| audio_source := x |> |>))
  /\ (forall v s, parse_flag if_nametoindex (lit "portal-timeout-ms") v s
     = flag (lit "portal-timeout-ms") (portal_timeout_seen s) (ParseScalar (lit "portal-timeout-ms") v kMinPortalTimeoutMs kMaxPortalTimeoutMs)
         (fun x => s <| portal_timeout_seen := true |> <| parsed := (parsed s) <| portal_timeout_ms := x |> |>)).
Proof using. by repeat split. Qed.

(** Parses the next flag of a command line with [parse_flag_names], and computes
    the state it leaves. *)
Ltac next_flag :=
  rewrite arguments_loop_flag by (apply (bool_decide_unpack (~ _)); by vm_compute);
  match goal with H : forall v s, parse_flag _ ?n v s = _ |- context [parse_flag _ ?n _ _] => rewrite H; clear H end;
  match goal with |- context [flag _ ?b _ _] => change b with false end;
  first [rewrite ParseScalar_print by done | rewrite ParseReceiver_print by done
        | rewrite ParseAudioSource_accepts by done];
  rewrite flag_bind;
  match goal with |- context [arguments_loop _ _ _ ?s] =>
    let s' := eval vm_compute in s in change s with s' end.

Lemma ParseCommandLine_command_line program c :
  config_valid c -> endpoint_wf if_indextoname (receiver c) -> port (receiver c) <> 0 ->
  ParseCommandLine if_nametoindex (command_line program c) = ok (mkParsed kRun c).
Proof using names_agree.
  intros [[] Hw Hh Hm Hr] He Hp. unfold ParseCommandLine, command_line.
  set (argc := zlen _). change (drop 1 (program :: ?l)) with l. clearbody argc.
  destruct parse_flag_names as (R1 & R2 & R3 & R4 & R5 & R6 & R7 & R8 & R9).
  destruct c as [e w h f vb ab l a t d cs].
  cbn [receiver width height frames_per_second video_bitrate audio_bitrate latency_target_ms audio_source
    portal_timeout_ms dry_run capture_self_test] in *.
  do 9 next_flag.
  match goal with |- context [arguments_loop _ argc (mode_flags ?c) ?s] =>
    destruct (mode_flags_parsed argc c s) as (s' & E & Hs & Hc); try done; rewrite E end.
  cbn [mbind ErrorOr_bind]. rewrite Hc, Hs. cbn [parsed receiver_seen update].
  cbn [dry_run capture_self_test width height]. by rewrite Hm, Hw, Hh.
Qed.
End Print.

(** ** Flags given twice *)

Definition seen (name : str) (s : ParseState) : bool :=
  if bool_decide (name = lit "receiver") then receiver_seen s
  else if bool_decide (name = lit "width") then width_seen s
  else if bool_decide (name = lit "height") then height_seen s
  else if bool_decide (name = lit "fps") then fps_seen s
  else if bool_decide (name = lit "video-bitrate") then video_bitrate_seen s
  else if bool_decide (name = lit "audio-bitrate") then audio_bitrate_seen s
  else if bool_decide (name = lit "latency-target-ms") then latency_seen s
  else if bool_decide (name = lit "audio-source") then audio_source_seen s
  else if bool_decide (name = lit "portal-timeout-ms") then portal_timeout_seen s
  else false.

Definition seen_more (s s' : ParseState) : Prop := forall name, seen name s = true -> seen name s' = true.

Lemma flag_seen {A} name b (parse : ErrorOr A) set s : flag name b parse set = ok s -> b = false.
Proof using. by destruct b. Qed.

(** A flag that parses was not seen before, and is afterwards. *)
Lemma parse_flag_seen name value s s' :
  parse_flag if_nametoindex name value s = ok s' ->
  seen name s = false /\ seen name s' = true /\ seen_more s s'.
Proof using.
  unfold parse_flag, seen at 1 2.
  repeat (case_match; [intros E; pose proof (flag_seen _ _ _ _ _ E) as Hs; apply flag_ok in E as (v & _ & ->);
    split; [done |]; split; [done |]; intros n; unfold seen; cbn; repeat (case_match; try done) |]).
  done.
Qed.

Lemma parse_argument_seen argument s s' :
  parse_argument if_nametoindex argument s = ok s' ->
  seen_more s s' /\ forall name value, "="%char ∉ name -> argument = with_value name value ->
    seen name s = false /\ seen name s' = true.
Proof using.
  intros E. split.
  - revert E. unfold parse_argument.
    do 2 (case_match; [intros (v & _ & ->)%flag_ok; by intros n; unfold seen; cbn |]).
    case_match; [done |]. case_match; [| done]. by intros (_ & _ & ?)%parse_flag_seen.
  - intros name value Hn ->. unfold with_value in E. rewrite parse_argument_flag in E by done.
    by apply parse_flag_seen in E as (? & ? & _).
Qed.

Lemma arguments_loop_seen argc arguments s r :
  argc <> 2 -> arguments_loop if_nametoindex argc arguments s = ok r ->
  exists s', r = inr s' /\ seen_more s s' /\ forall name value, "="%char ∉ name ->
    with_value name value ∈ arguments -> seen name s = false /\ seen name s' = true.
Proof using.
  intros Hargc. revert s. induction arguments as [| a arguments IH]; intros s; cbn.
  { intros [= <-]. exists s. split; [done |]. split; [by intros n |]. by intros name value _ Hin%elem_of_nil. }
  case_bool_decide; [by rewrite (proj2 (Z.eqb_neq _ _) Hargc) |].
  destruct (parse_argument _ a s) as [s1 |] eqn:E; [| done]. cbn. intros Hr.
  destruct (IH s1 Hr) as (s' & -> & Hmore & Hall). apply parse_argument_seen in E as [Hm1 H1].
  exists s'. split; [done |]. split; [by intros n Hn; apply Hmore, Hm1 |].
  intros name value Hn [Ha | Hin]%elem_of_cons.
  - destruct (H1 name value Hn (eq_sym Ha)) as [? ?]. split; [done | by apply Hmore].
  - destruct (Hall name value Hn Hin) as [Hf ?]. split; [| done].
    destruct (seen name s) eqn:Es; [| done]. by rewrite (Hm1 _ Es) in Hf.
Qed.

Lemma arguments_loop_app argc a b s :
  arguments_loop if_nametoindex argc (a ++ b) s
  = (r ← arguments_loop if_nametoindex argc a s;
     match r with inl p => ok (inl p) | inr s' => arguments_loop if_nametoindex argc b s' end).
Proof using.
  revert s. induction a as [| x a IH]; intros s; [done |]. cbn. case_bool_decide; [by case_match |].
  destruct (parse_argument _ x s); [apply IH | done].
Qed.

(** * Claims *)

(** What is accepted is usable.  A command line that is accepted either is the
    single flag [--help], or gives a configuration whose numbers are in their
    ranges, whose frame size is even, whose audio source is a monitor, that does
    not ask for both of the modes without a receiver, and that names a receiver
    with a port unless it only tests the capture. *)
Theorem accepted_command_line argv p :
  ParseCommandLine if_nametoindex argv = ok p ->
  match command p with
  | kHelp => exists program, argv = [program; lit "--help"]
  | kRun => config_valid (config p)
  end.
Proof using.
  unfold ParseCommandLine. destruct (arguments_loop _ _ _ _) as [r |] eqn:E; [| done]. cbn [mbind ErrorOr_bind].
  assert (state_ok new_ParseState) as H0.
  { split; [constructor; try (by vm_compute) | done]. split; [by vm_compute |]. split; [by vm_compute | by left]. }
  apply arguments_loop_ok in E; [| done]. destruct r as [p' | s].
  - intros [= <-]. destruct E as (-> & Hargc & Hin). unfold zlen in Hargc.
    destruct argv as [| program [| a [|]]]; cbn in Hargc; try lia. cbn in Hin.
    apply list_elem_of_singleton in Hin as <-. by exists program.
  - destruct E as [Hv Hr]. destruct (_ && _) eqn:Hm; [done |]. destruct (negb _ || _) eqn:Hs; [done |].
    destruct (negb (receiver_seen s) && _) eqn:Hrs; [done |]. intros [= <-]. cbn.
    apply orb_false_iff in Hs as [Hw Hh]. constructor; [done | lia | lia | done |].
    destruct (capture_self_test (parsed s)); [by left |]. right. apply Hr. by destruct (receiver_seen s).
Qed.

(** A flag counts once: a command line that gives a value to the same flag
    twice is rejected, wherever the two are. *)
Theorem duplicate_flag_rejected program a b c name v w :
  "="%char ∉ name ->
  exists e, ParseCommandLine if_nametoindex
              (program :: a ++ with_value name v :: b ++ with_value name w :: c) = err e.
Proof using.
  intros Hn. unfold ParseCommandLine. set (argc := zlen _).
  assert (argc <> 2) as Hargc
    by (unfold argc, zlen; cbn [length]; rewrite !length_app; cbn; rewrite length_app; cbn; lia).
  clearbody argc. change (drop 1 (program :: ?l)) with l. cbn [drop].
  destruct (arguments_loop _ argc _ _) as [r |] eqn:E; [exfalso | by eexists].
  rewrite app_comm_cons, app_assoc, arguments_loop_app in E.
  destruct (arguments_loop _ argc (a ++ _) _) as [r1 |] eqn:E1; [| done]. cbn [mbind ErrorOr_bind] in E.
  apply arguments_loop_seen in E1 as (s1 & -> & _ & H1); [| done].
  apply arguments_loop_seen in E as (s2 & -> & _ & H2); [| done].
  destruct (H1 name v Hn) as [_ Hs1]; [apply elem_of_app; right; by left |].
  destruct (H2 name w Hn) as [Hs2 _]; [by left |]. congruence.
Qed.

Section RoundTrip.
Variable if_indextoname : Z -> option str.
Hypothesis names_agree : forall i name, if_indextoname i = Some name -> if_nametoindex name = i /\ Ascii.zero ∉ name.

(** Every configuration that is usable and names a receiver can be asked for:
    its flags, printed, parse to that configuration. *)
Theorem command_line_roundtrip program c :
  config_valid c -> endpoint_wf if_indextoname (receiver c) -> port (receiver c) <> 0 ->
  ParseCommandLine if_nametoindex (command_line if_indextoname program c) = ok (mkParsed kRun c).
Proof using names_agree. by apply ParseCommandLine_command_line. Qed.
End RoundTrip.
End Parse.

(** ** Witnesses *)

Definition demo_config_c : Config :=
  mkConfig demo_endpoint 1280 720 60 4000000 96000 250 (lit "alsa_output.monitor") 60000 true false.

Lemma demo_config_valid : config_valid demo_config_c.
Proof. constructor; try (by vm_compute); [| by right]. constructor; try (by vm_compute). split; [by vm_compute |]. split; [by vm_compute | by right]. Qed.

Lemma demo_endpoint_wf : endpoint_wf demo_indextoname demo_endpoint.
Proof.
  split; [| by vm_compute]. split; [done |]. split; [| right; by split; [| eexists]].
  by repeat (apply Forall_cons; split; [by vm_compute |]).
Qed.

Lemma command_line_roundtrip_witness :
  command_line demo_indextoname (lit "streamer_plus") demo_config_c !! 1%nat
    = Some (lit "--receiver=[fe80:0000:0000:0000:0000:0000:0000:0001%eth0.2]:8009")
  /\ ParseCommandLine demo_nametoindex (command_line demo_indextoname (lit "streamer_plus") demo_config_c)
     = ok (mkParsed kRun demo_config_c).
Proof.
  split; [by vm_compute |].
  apply (command_line_roundtrip demo_nametoindex demo_indextoname demo_names);
    [apply demo_config_valid | apply demo_endpoint_wf | done].
Defined.

Lemma accepted_command_line_witness :
  exists p, ParseCommandLine demo_nametoindex
      [lit "streamer_plus"; lit "--receiver=10.0.0.5"; lit "--fps=60"; lit "--width=1280"] = ok p
    /\ config_valid (config p) /\ receiver (config p) = mkEndpoint (mkAddress kV4 [10; 0; 0; 5] 0) 8009.
Proof.
  eexists. split; [vm_compute; reflexivity |]. split; [| done].
  refine (accepted_command_line demo_nametoindex
    [lit "streamer_plus"; lit "--receiver=10.0.0.5"; lit "--fps=60"; lit "--width=1280"] (mkParsed kRun _) _).
  vm_compute. reflexivity.
Defined.

Lemma duplicate_flag_rejected_witness :
  exists e, ParseCommandLine demo_nametoindex
    [lit "streamer_plus"; lit "--receiver=10.0.0.5"; lit "--fps=60"; lit "--fps=30"] = err e.
Proof.
  apply (duplicate_flag_rejected demo_nametoindex (lit "streamer_plus") [lit "--receiver=10.0.0.5"] [] []
    (lit "fps") (lit "60") (lit "30")).
  apply (bool_decide_unpack (~ _)). by vm_compute.
Defined.
