(* ===== verification/Mdns.v ===== *)
(** The records of multicast DNS (discovery/mdns/public/mdns_records.h and .cc)
    and the fields of their wire format (mdns_constants.h).

    Labels and texts are bytes.  A [DnsType] or [DnsClass] may be any 16-bit
    number, as in the code, where the enumerations are casts of what was read. *)

From S2P Require Import Prelude Text IpAddress.

(** * Constants *)

Definition kMaxMulticastMessageSize : Z := 1500 - 20 - 8.

Record Header := mkHeader {
  header_id : Z; header_flags : Z; question_count : Z; answer_count : Z;
  authority_record_count : Z; additional_record_count : Z }.

Inductive MessageType := Query | Response.
#[export] Instance MessageType_eq_dec : EqDecision MessageType.
Proof. solve_decision. Defined.

Definition kFlagResponse : Z := 0x8000.
Definition kFlagAA : Z := 0x0400.
Definition kFlagTC : Z := 0x0200.
Definition kOpcodeMask : Z := 0x7800.
Definition kRcodeMask : Z := 0x000F.

Definition GetMessageType (flags : Z) : MessageType :=
  if negb (Z.land flags kFlagResponse =? 0) then Response else Query.
Definition IsMessageTruncated (flags : Z) : bool := negb (Z.land flags kFlagTC =? 0).
Definition MakeFlags (type : MessageType) (is_truncated : bool) : Z :=
  let flags := match type with Response => Z.lor kFlagResponse kFlagAA | Query => 0 end in
  if is_truncated then Z.lor flags kFlagTC else flags.
Definition IsValidFlagsSection (flags : Z) : bool := Z.land flags (Z.lor kOpcodeMask kRcodeMask) =? 0.

Definition kMaxDomainNameLength : Z := 256.
Definition kMaxLabelLength : Z := 63.

Definition kLabelTermination : Z := 0x00.
Definition kLabelTypeMask : Z := 0xC0.
Definition kLabelDirect : Z := 0x00.
Definition kLabelPointer : Z := 0xC0.
Definition kLabelLengthMask : Z := 0x3F.
Definition kLabelOffsetMask : Z := 0x3FFF.

Definition IsTerminationLabel (label : Z) : bool := label =? kLabelTermination.
Definition IsDirectLabel (label : Z) : bool := Z.land label kLabelTypeMask =? kLabelDirect.
Definition IsPointerLabel (label : Z) : bool := Z.land label kLabelTypeMask =? kLabelPointer.
Definition GetDirectLabelLength (label : Z) : Z := Z.land label kLabelLengthMask.
Definition GetPointerLabelOffset (label : Z) : Z := Z.land label kLabelOffsetMask.
Definition IsValidPointerLabelOffset (offset : Z) : bool := offset <=? kLabelOffsetMask.
Definition MakePointerLabel (offset : Z) : Z :=
  Z.lor (Z.shiftl kLabelPointer 8) (Z.land offset kLabelOffsetMask).
Definition MakeDirectLabel (length : Z) : Z := Z.lor kLabelDirect (Z.land length kLabelLengthMask).

Definition kA : Z := 1.
Definition kPTR : Z := 12.
Definition kTXT : Z := 16.
Definition kAAAA : Z := 28.
Definition kSRV : Z := 33.
Definition kOPT : Z := 41.
Definition kNSEC : Z := 47.
Definition kANY : Z := 255.
Definition kSupportedDnsTypes : list Z := [kA; kPTR; kTXT; kAAAA; kSRV; kNSEC; kANY].

Definition class_IN : Z := 1.
Definition class_ANY : Z := 255.

Inductive RecordType := kShared | kUnique.
#[export] Instance RecordType_eq_dec : EqDecision RecordType.
Proof. solve_decision. Defined.
Inductive ResponseType := kMulticast | kUnicast.
#[export] Instance ResponseType_eq_dec : EqDecision ResponseType.
Proof. solve_decision. Defined.

Definition kARecordTtl : Z := 120.
Definition kAAAARecordTtl : Z := 120.

Definition kClassMask : Z := 0x7FFF.
Definition kClassMsbMask : Z := 0x8000.
Definition kClassMsbShift : Z := 0xF.

Definition class_msb (rrclass : Z) : Z := Z.shiftr (Z.land rrclass kClassMsbMask) kClassMsbShift.
Definition GetDnsClass (rrclass : Z) : Z := Z.land rrclass kClassMask.
Definition GetRecordType (rrclass : Z) : RecordType := if class_msb rrclass =? 0 then kShared else kUnique.
Definition GetResponseType (rrclass : Z) : ResponseType :=
  if class_msb rrclass =? 0 then kMulticast else kUnicast.
Definition MakeRecordClass (dns_class : Z) (record_type : RecordType) : Z :=
  Z.lor dns_class (Z.shiftl (match record_type with kShared => 0 | kUnique => 1 end) kClassMsbShift).
Definition MakeQuestionClass (dns_class : Z) (response_type : ResponseType) : Z :=
  Z.lor dns_class (Z.shiftl (match response_type with kMulticast => 0 | kUnicast => 1 end) kClassMsbShift).

Definition kTXTMaxEntrySize : Z := 255.
Definition kTXTEmptyRdata : Z := 0.
Definition kMaxRawRecordSize : Z := 65535.
Definition kMaxMessageFieldEntryCount : Z := 65535.

(** * Domain names *)

Definition error (code : ErrorCode) {A} : ErrorOr A := err (mkError code []).

Definition tolower (c : Z) : Z := if (65 <=? c) && (c <=? 90) then c + 32 else c.

(** The comparison of labels: [char] is signed. *)
Fixpoint CompareIgnoreCase (x y : list Z) : Z :=
  match x, y with
  | [], [] => 0
  | [], _ => -1
  | _, [] => 1
  | a :: x, b :: y =>
      let x_char := swrap 8 (tolower a) in
      let y_char := swrap 8 (tolower b) in
      if x_char <? y_char then -1 else if y_char <? x_char then 1 else CompareIgnoreCase x y
  end.

Definition IsValidDomainLabel (label : list Z) : bool := (0 <? zlen label) && (zlen label <=? kMaxLabelLength).

Record DomainName := mkName { max_wire_size_ : Z; labels_ : list (list Z) }.
Definition new_DomainName : DomainName := mkName 1 [].

Definition name_wire_size (labels : list (list Z)) : Z := foldl (fun n l => n + (zlen l + 1)) 1 labels.

Definition TryCreateName (labels : list (list Z)) : ErrorOr DomainName :=
  if negb (forallb IsValidDomainLabel labels) then error kParameterInvalid else
  if kMaxDomainNameLength <? name_wire_size labels then error kIndexOutOfBounds
  else ok (mkName (name_wire_size labels) labels).

Definition name_empty (n : DomainName) : bool := match labels_ n with [] => true | _ => false end.

Fixpoint labels_lt (a b : list (list Z)) : bool :=
  match a, b with
  | [], [] => false
  | [], _ => true
  | _, [] => false
  | x :: a, y :: b =>
      let result := CompareIgnoreCase x y in
      if result <? 0 then true else if 0 <? result then false else labels_lt a b
  end.
Fixpoint labels_eq (a b : list (list Z)) : bool :=
  match a, b with
  | [], [] => true
  | x :: a, y :: b => (CompareIgnoreCase x y =? 0) && labels_eq a b
  | _, _ => false
  end.
Definition name_lt (a b : DomainName) : bool := labels_lt (labels_ a) (labels_ b).
Definition name_eq (a b : DomainName) : bool := labels_eq (labels_ a) (labels_ b).
Definition name_gt (a b : DomainName) : bool := negb (name_lt a b) && negb (name_eq a b).

(** * Record data *)

(** [TxtRecordRdata]. *)
Record TxtRdata := mkTxt { txt_max_wire_size_ : Z; texts_ : list (list Z) }.

Definition TryCreateTxt (texts : list (list Z)) : ErrorOr TxtRdata :=
  match texts with
  | [] => ok (mkTxt 3 [])
  | _ => if existsb (fun t => match t with [] => true | _ => false end) texts then error kParameterInvalid
         else ok (mkTxt (foldl (fun n t => n + (zlen t + 1)) 2 texts) texts)
  end.

(** [NsecRecordRdata]: the types and their bitmaps (RFC 4034 section 4.1.2). *)
Record NsecRdata := mkNsec { encoded_types_ : list Z; types_ : list Z; next_domain_name_ : DomainName }.

Definition write_block (block : Z) (contents encoded : list Z) : list Z :=
  match contents with
  | [] => encoded
  | _ => encoded ++ [block; u8 (zlen contents)] ++ contents
  end.

Fixpoint encode_types (types : list Z) (current_block : Z) (contents encoded : list Z) : list Z :=
  match types with
  | [] => write_block current_block contents encoded
  | type_int :: types =>
      let block := u8 (Z.shiftr type_int 8) in
      let block_position := u8 (Z.land type_int 0xFF) in
      let byte_bit_is_at := Z.shiftr block_position 3 in
      let byte_mask := Z.shiftr 0x80 (Z.land block_position 0x07) in
      let '(encoded, contents, current_block) :=
        if current_block <? block then (write_block current_block contents encoded, [], block)
        else (encoded, contents, current_block) in
      let contents := contents ++ replicate (Z.to_nat (byte_bit_is_at - zlen contents + 1)) 0 in
      let contents := alter (fun b => Z.lor b byte_mask) (Z.to_nat byte_bit_is_at) contents in
      encode_types types current_block contents encoded
  end.

Definition new_NsecRdata (next_domain_name : DomainName) (types : list Z) : NsecRdata :=
  let types := merge_sort (≤) types in
  mkNsec (encode_types types 0 [] []) types next_domain_name.

(** [OptRecordRdata::Option]. *)
Record OptOption := mkOption { code : Z; length_ : Z; data : list Z }.

Fixpoint bytes_gt (a b : list Z) : bool :=
  match a, b with
  | x :: a, y :: b => if negb (x =? y) then y <? x else bytes_gt a b
  | _, _ => false
  end.
Definition option_gt (a b : OptOption) : bool :=
  if negb (code a =? code b) then code b <? code a
  else if negb (length_ a =? length_ b) then length_ b <? length_ a
  else if negb (zlen (data a) =? zlen (data b)) then zlen (data b) <? zlen (data a)
  else bytes_gt (data a) (data b).
Definition option_eq (a b : OptOption) : bool := negb (option_gt b a) && negb (option_gt a b).

Inductive Rdata :=
  | RawRecordRdata (rdata_ : list Z)
  | SrvRecordRdata (priority weight port : Z) (target : DomainName)
  | ARecordRdata (ipv4_address : IPAddress) (interface_index : Z)
  | AAAARecordRdata (ipv6_address : IPAddress) (interface_index : Z)
  | PtrRecordRdata (ptr_domain : DomainName)
  | TxtRecordRdata (txt : TxtRdata)
  | NsecRecordRdata (nsec : NsecRdata)
  | OptRecordRdata (options_ : list OptOption).

#[export] Instance option_le_dec : RelDecision (fun a b => option_gt a b = false).
Proof. intros a b. apply _. Defined.

Definition new_OptRdata (options : list OptOption) : Rdata :=
  OptRecordRdata (merge_sort (fun a b => option_gt a b = false) options).

Definition TryCreateRaw (rdata : list Z) : ErrorOr Rdata :=
  if kMaxRawRecordSize <? zlen rdata then error kIndexOutOfBounds else ok (RawRecordRdata rdata).

(** Equality of lists up to an equality of their elements. *)
Fixpoint list_eq {T} (eq : T -> T -> bool) (a b : list T) : bool :=
  match a, b with
  | [], [] => true
  | x :: a, y :: b => eq x y && list_eq eq a b
  | _, _ => false
  end.

Definition rdata_eq (a b : Rdata) : bool :=
  match a, b with
  | RawRecordRdata x, RawRecordRdata y => bool_decide (x = y)
  | SrvRecordRdata p w q t, SrvRecordRdata p' w' q' t' =>
      (p =? p') && (w =? w') && (q =? q') && name_eq t t'
  | ARecordRdata x i, ARecordRdata y j => bool_decide (x = y) && (i =? j)
  | AAAARecordRdata x i, AAAARecordRdata y j => bool_decide (x = y) && (i =? j)
  | PtrRecordRdata x, PtrRecordRdata y => name_eq x y
  | TxtRecordRdata x, TxtRecordRdata y => bool_decide (texts_ x = texts_ y)
  | NsecRecordRdata x, NsecRecordRdata y =>
      bool_decide (types_ x = types_ y) && name_eq (next_domain_name_ x) (next_domain_name_ y)
  | OptRecordRdata x, OptRecordRdata y => list_eq option_eq x y
  | _, _ => false
  end.

(** The record length field of two bytes is part of the size. *)
Definition rdata_wire_size (r : Rdata) : Z :=
  match r with
  | RawRecordRdata rdata => 2 + zlen rdata
  | SrvRecordRdata _ _ _ target => 2 + 2 + 2 + 2 + max_wire_size_ target
  | ARecordRdata _ _ => 2 + Z.of_nat kV4Size
  | AAAARecordRdata _ _ => 2 + Z.of_nat kV6Size
  | PtrRecordRdata ptr_domain => 2 + max_wire_size_ ptr_domain
  | TxtRecordRdata txt => txt_max_wire_size_ txt
  | NsecRecordRdata nsec => max_wire_size_ (next_domain_name_ nsec) + zlen (encoded_types_ nsec)
  | OptRecordRdata options => foldl (fun n o => n + (zlen (data o) + 4)) 0 options
  end.

(** * Records, questions and messages *)

Record MdnsRecord := mkRecord {
  record_name : DomainName; record_dns_type : Z; record_dns_class : Z; record_type_ : RecordType;
  ttl_ : Z; rdata_ : Rdata }.

Definition IsValidConfig (dns_type ttl : Z) (rdata : Rdata) : bool :=
  (ttl <=? 2 ^ 32 - 1) &&
  match rdata with
  | SrvRecordRdata _ _ _ _ => dns_type =? kSRV
  | ARecordRdata _ _ => dns_type =? kA
  | AAAARecordRdata _ _ => dns_type =? kAAAA
  | PtrRecordRdata _ => dns_type =? kPTR
  | TxtRecordRdata _ => dns_type =? kTXT
  | NsecRecordRdata _ => dns_type =? kNSEC
  | OptRecordRdata _ => dns_type =? kOPT
  | RawRecordRdata _ => true
  end.

Definition TryCreateRecord (name : DomainName) (dns_type dns_class : Z) (record_type : RecordType)
    (ttl : Z) (rdata : Rdata) : ErrorOr MdnsRecord :=
  if negb (IsValidConfig dns_type ttl rdata) then error kParameterInvalid
  else ok (mkRecord name dns_type dns_class record_type ttl rdata).

Definition IsReannouncementOf (a b : MdnsRecord) : bool :=
  (record_dns_type a =? record_dns_type b) && (record_dns_class a =? record_dns_class b)
  && bool_decide (record_type_ a = record_type_ b) && name_eq (record_name a) (record_name b)
  && rdata_eq (rdata_ a) (rdata_ b).
Definition record_eq (a b : MdnsRecord) : bool := IsReannouncementOf a b && (ttl_ a =? ttl_ b).

Definition record_wire_size (r : MdnsRecord) : Z :=
  max_wire_size_ (record_name r) + rdata_wire_size (rdata_ r) + 8.

Definition CreateAddressRecord (name : DomainName) (address : IPAddress) : MdnsRecord :=
  if IsV4 address
  then mkRecord name kA class_IN kUnique kARecordTtl (ARecordRdata address 0)
  else mkRecord name kAAAA class_IN kUnique kAAAARecordTtl (AAAARecordRdata address 0).

Record MdnsQuestion := mkQuestion {
  question_name : DomainName; question_dns_type : Z; question_dns_class : Z; response_type_ : ResponseType }.

Definition TryCreateQuestion (name : DomainName) (dns_type dns_class : Z) (response_type : ResponseType)
    : ErrorOr MdnsQuestion :=
  if name_empty name then error kParameterInvalid else ok (mkQuestion name dns_type dns_class response_type).

Definition question_eq (a b : MdnsQuestion) : bool :=
  (question_dns_type a =? question_dns_type b) && (question_dns_class a =? question_dns_class b)
  && bool_decide (response_type_ a = response_type_ b) && name_eq (question_name a) (question_name b).

Definition question_wire_size (q : MdnsQuestion) : Z := max_wire_size_ (question_name q) + 4.

Record MdnsMessage := mkMessage {
  message_max_wire_size_ : Z; id_ : Z; is_truncated_ : bool; type_ : MessageType;
  questions_ : list MdnsQuestion; answers_ : list MdnsRecord;
  authority_records_ : list MdnsRecord; additional_records_ : list MdnsRecord }.
#[export] Instance eta_MdnsMessage : Eta MdnsMessage := fun m =>
  mkMessage (message_max_wire_size_ m) (id_ m) (is_truncated_ m) (type_ m) (questions_ m) (answers_ m)
    (authority_records_ m) (additional_records_ m).

Definition sum_of {T} (size : T -> Z) (l : list T) (from : Z) : Z := foldl (fun n x => n + size x) from l.

(** A new message and its size. *)
Definition message_of (id : Z) (type : MessageType) (questions : list MdnsQuestion)
    (answers authority_records additional_records : list MdnsRecord) : MdnsMessage :=
  let size := sum_of question_wire_size questions 12 in
  let size := sum_of record_wire_size answers size in
  let size := sum_of record_wire_size authority_records size in
  let size := sum_of record_wire_size additional_records size in
  mkMessage size id false type questions answers authority_records additional_records.

Definition new_MdnsMessage (id : Z) (type : MessageType) (questions : list MdnsQuestion)
    (answers authority_records additional_records : list MdnsRecord) : outcome MdnsMessage :=
  OSP_CHECK (zlen answers <? kMaxMessageFieldEntryCount) ;;
  OSP_CHECK (zlen authority_records <? kMaxMessageFieldEntryCount) ;;
  OSP_CHECK (zlen additional_records <? kMaxMessageFieldEntryCount) ;;
  Ret (message_of id type questions answers authority_records additional_records).

(** The checks of the constructor hold for the counts that are no error. *)
Definition TryCreateMessage (id : Z) (type : MessageType) (questions : list MdnsQuestion)
    (answers authority_records additional_records : list MdnsRecord) : ErrorOr MdnsMessage :=
  if (kMaxMessageFieldEntryCount <=? zlen questions) || (kMaxMessageFieldEntryCount <=? zlen answers)
     || (kMaxMessageFieldEntryCount <=? zlen authority_records)
     || (kMaxMessageFieldEntryCount <=? zlen additional_records)
  then error kParameterInvalid
  else ok (message_of id type questions answers authority_records additional_records).

Definition message_eq (a b : MdnsMessage) : bool :=
  (id_ a =? id_ b) && bool_decide (type_ a = type_ b) && list_eq question_eq (questions_ a) (questions_ b)
  && list_eq record_eq (answers_ a) (answers_ b)
  && list_eq record_eq (authority_records_ a) (authority_records_ b)
  && list_eq record_eq (additional_records_ a) (additional_records_ b).

Definition set_truncated (m : MdnsMessage) : MdnsMessage := m <| is_truncated_ := true |>.

Definition answers_question (question : MdnsQuestion) (record : MdnsRecord) : bool :=
  name_eq (question_name question) (record_name record)
  && ((question_dns_type question =? record_dns_type record) || (question_dns_type question =? kANY))
  && ((question_dns_class question =? record_dns_class record) || (question_dns_class question =? class_ANY)).

Definition IsProbeQuery (m : MdnsMessage) : bool :=
  existsb (fun question => existsb (answers_question question) (authority_records_ m)) (questions_ m).

Definition AddQuestion (question : MdnsQuestion) (m : MdnsMessage) : outcome MdnsMessage :=
  OSP_CHECK (zlen (questions_ m) <? kMaxMessageFieldEntryCount) ;;
  Ret (m <| message_max_wire_size_ := message_max_wire_size_ m + question_wire_size question |>
         <| questions_ := questions_ m ++ [question] |>).
Definition AddAnswer (record : MdnsRecord) (m : MdnsMessage) : outcome MdnsMessage :=
  OSP_CHECK (zlen (answers_ m) <? kMaxMessageFieldEntryCount) ;;
  Ret (m <| message_max_wire_size_ := message_max_wire_size_ m + record_wire_size record |>
         <| answers_ := answers_ m ++ [record] |>).
Definition AddAuthorityRecord (record : MdnsRecord) (m : MdnsMessage) : outcome MdnsMessage :=
  OSP_CHECK (zlen (authority_records_ m) <? kMaxMessageFieldEntryCount) ;;
  Ret (m <| message_max_wire_size_ := message_max_wire_size_ m + record_wire_size record |>
         <| authority_records_ := authority_records_ m ++ [record] |>).
Definition AddAdditionalRecord (record : MdnsRecord) (m : MdnsMessage) : outcome MdnsMessage :=
  OSP_CHECK (zlen (additional_records_ m) <? kMaxMessageFieldEntryCount) ;;
  Ret (m <| message_max_wire_size_ := message_max_wire_size_ m + record_wire_size record |>
         <| additional_records_ := additional_records_ m ++ [record] |>).
Definition CanAddRecord (record : MdnsRecord) (m : MdnsMessage) : bool :=
  message_max_wire_size_ m + record_wire_size record <? kMaxMulticastMessageSize.

Definition CanBePublished (type : Z) : bool := bool_decide (type ∈ [kA; kAAAA; kPTR; kTXT; kSRV]).
Definition CanBeQueried (type : Z) : bool := bool_decide (type ∈ [kA; kAAAA; kPTR; kTXT; kSRV; kANY]).
Definition CanBeProcessed (type : Z) : bool := bool_decide (type ∈ [kA; kAAAA; kPTR; kTXT; kSRV; kNSEC]).
