(* ===== verification/MdnsWriter.v ===== *)
(** Writing DNS messages (discovery/mdns/public/mdns_writer.h and .cc, over the
    [BigEndianWriter] of util/big_endian.h and the hash of util/hashing.h), with
    the compression of domain names.

    A writer keeps the bytes before its offset; what is behind is overwritten
    before it is read.  A method that fails puts the offset back, but not the
    dictionary.  [std::hash] of strings is a parameter. *)

From S2P Require Import Prelude Text Wire IpAddress Mdns.

(** * The buffer *)

Record MdnsWriter := mkWriter {
  output : list Z;              (* the bytes up to the offset *)
  length_of_buffer : Z;
  dictionary_ : gmap Z Z }.
#[export] Instance eta_MdnsWriter : Eta MdnsWriter := fun w =>
  mkWriter (output w) (length_of_buffer w) (dictionary_ w).

Definition new_MdnsWriter (length : Z) : MdnsWriter := mkWriter [] length ∅.

Definition offset (w : MdnsWriter) : Z := zlen (output w).

(** A method returns whether it wrote. *)
Definition Writes : Type := MdnsWriter -> outcome (bool * MdnsWriter).

Definition WriteBytes (bytes : list Z) : Writes := fun w =>
  if offset w + zlen bytes <=? length_of_buffer w
  then Ret (true, w <| output := output w ++ bytes |>) else Ret (false, w).
Definition WriteInteger (n : nat) (value : Z) : Writes := WriteBytes (be_encode n value).
Definition Skip (length : nat) : Writes := WriteBytes (replicate length 0).

(** [a && b]. *)
Definition and_then (a b : Writes) : Writes := fun w =>
  '(success, w) ← a w;
  if (success : bool) then b w else Ret (false, w).
Notation "a >& b" := (and_then a b) (at level 41, right associativity).

(** A [Cursor] in the scope of [body], committed if it returns true. *)
Definition WithCursor (body : Writes) : Writes := fun w =>
  '(success, w') ← body w;
  Ret (success, if (success : bool) then w' else w' <| output := output w |>).

(** [UpdateRecordLength] with the cursor's origin. *)
Definition UpdateRecordLength (origin : Z) : Writes := fun w =>
  OSP_CHECK (origin + 2 <=? offset w) ;;
  let record_length := offset w - origin - 2 in
  if record_length <=? 65535
  then Ret (true, w <| output := fill origin (be_encode 2 record_length) (output w) |>)
  else Ret (false, w).

Fixpoint WriteEach {T} (write : T -> Writes) (l : list T) : Writes := fun w =>
  match l with
  | [] => Ret (true, w)
  | x :: l => (write x >& WriteEach write l) w
  end.
Definition WriteVector {T} (write : T -> Writes) (l : list T) : Writes := WithCursor (WriteEach write l).

(** * Hashes *)

Definition kDefaultSeed : Z := 0xc3a5c85c97cb3127.
Definition kMultiplier : Z := 0x9ddfea08eb382d69.

Definition hash_combiner (current_seed hash_value : Z) : Z :=
  let a := u64 (Z.lxor hash_value current_seed * kMultiplier) in
  let a := Z.lxor a (Z.shiftr a 47) in
  let b := u64 (Z.lxor current_seed a * kMultiplier) in
  let b := Z.lxor b (Z.shiftr b 47) in
  u64 (b * kMultiplier).

Definition AsciiStrToLower (s : list Z) : list Z := map tolower s.

Section Writer.
Context (std_hash : list Z -> Z).

Definition ComputeAggregateHash (seed : Z) (s : list Z) : Z := hash_combiner seed (std_hash s).

(** The hash of every suffix of the labels, the longest first. *)
Fixpoint ComputeDomainNameSubhashes (labels : list (list Z)) : list Z :=
  match labels with
  | [] => []
  | label :: labels =>
      let subhashes := ComputeDomainNameSubhashes labels in
      ComputeAggregateHash (default kDefaultSeed (head subhashes)) (AsciiStrToLower label) :: subhashes
  end.

(** * Writing *)

(** [Write(ByteView)]. *)
Definition WriteText (value : list Z) : Writes := fun w =>
  if 255 <? zlen value then Ret (false, w)
  else WithCursor (WriteInteger 1 (zlen value) >& WriteBytes value) w.

Definition WriteTexts (texts : list (list Z)) : Writes :=
  match texts with [] => WriteInteger 1 kTXTEmptyRdata | texts => WriteEach WriteText texts end.

Fixpoint WriteLabels (labels : list (list Z)) (tentative_dictionary : gmap Z Z) : Writes := fun w =>
  match labels, ComputeDomainNameSubhashes labels with
  | label :: labels, subhash :: _ =>
      match dictionary_ w !! subhash with
      | Some pointer =>
          (WriteInteger 2 pointer >&
           (fun w => Ret (true, w <| dictionary_ := dictionary_ w ∪ tentative_dictionary |>))) w
      | None =>
          let tentative_dictionary :=
            if IsValidPointerLabelOffset (offset w)
            then tentative_dictionary ∪ {[subhash := MakePointerLabel (u16 (offset w))]}
            else tentative_dictionary in
          (WriteInteger 1 (MakeDirectLabel (u8 (zlen label))) >& WriteBytes label
           >& WriteLabels labels tentative_dictionary) w
      end
  | _, _ =>
      (WriteInteger 1 kLabelTermination >&
       (fun w => Ret (true, w <| dictionary_ := dictionary_ w ∪ tentative_dictionary |>))) w
  end.

Definition WriteName (name : DomainName) : Writes := fun w =>
  if name_empty name then Ret (false, w) else WithCursor (WriteLabels (labels_ name) ∅) w.

Definition WriteAddress (address : IPAddress) : Writes := WriteBytes (take (address_size address) (bytes_ address)).

(** A record length that is written last. *)
Definition WithRecordLength (body : Writes) : Writes := fun w =>
  WithCursor (Skip 2 >& body >& UpdateRecordLength (offset w)) w.

Definition WriteRdata (rdata : Rdata) : Writes :=
  match rdata with
  | RawRecordRdata rdata => WithCursor (WriteInteger 2 (u16 (zlen rdata)) >& WriteBytes (take (Z.to_nat (u16 (zlen rdata))) rdata))
  | SrvRecordRdata priority weight port target =>
      WithRecordLength (WriteInteger 2 priority >& WriteInteger 2 weight >& WriteInteger 2 port >& WriteName target)
  | ARecordRdata address _ => WithCursor (WriteInteger 2 (Z.of_nat kV4Size) >& WriteAddress address)
  | AAAARecordRdata address _ => WithCursor (WriteInteger 2 (Z.of_nat kV6Size) >& WriteAddress address)
  | PtrRecordRdata ptr_domain => WithRecordLength (WriteName ptr_domain)
  | TxtRecordRdata txt => WithRecordLength (WriteTexts (texts_ txt))
  | NsecRecordRdata nsec =>
      WithRecordLength (WriteName (next_domain_name_ nsec) >& WriteVector (WriteInteger 1) (encoded_types_ nsec))
  | OptRecordRdata _ => fun w => Ret (false, w)
  end.

Definition WriteRecord (record : MdnsRecord) : Writes :=
  WithCursor (WriteName (record_name record) >& WriteInteger 2 (record_dns_type record)
    >& WriteInteger 2 (MakeRecordClass (record_dns_class record) (record_type_ record))
    >& WriteInteger 4 (u32 (ttl_ record)) >& WriteRdata (rdata_ record)).

Definition WriteQuestion (question : MdnsQuestion) : Writes :=
  WithCursor (WriteName (question_name question) >& WriteInteger 2 (question_dns_type question)
    >& WriteInteger 2 (MakeQuestionClass (question_dns_class question) (response_type_ question))).

Definition WriteHeader (header : Header) : Writes :=
  WithCursor (WriteInteger 2 (header_id header) >& WriteInteger 2 (header_flags header)
    >& WriteInteger 2 (question_count header) >& WriteInteger 2 (answer_count header)
    >& WriteInteger 2 (authority_record_count header) >& WriteInteger 2 (additional_record_count header)).

Definition header_of (message : MdnsMessage) : Header :=
  mkHeader (id_ message) (MakeFlags (type_ message) (is_truncated_ message)) (u16 (zlen (questions_ message)))
    (u16 (zlen (answers_ message))) (u16 (zlen (authority_records_ message)))
    (u16 (zlen (additional_records_ message))).

Definition WriteMessage (message : MdnsMessage) : Writes :=
  WithCursor (WriteHeader (header_of message) >& WriteVector WriteQuestion (questions_ message)
    >& WriteVector WriteRecord (answers_ message) >& WriteVector WriteRecord (authority_records_ message)
    >& WriteVector WriteRecord (additional_records_ message)).

(** [MdnsSender::SendMessage]: the packet, or an error. *)
Definition SendMessage (message : MdnsMessage) : outcome (ErrorOr (list Z)) :=
  '(success, w) ← WriteMessage message (new_MdnsWriter (Z.min (message_max_wire_size_ message) kMaxMulticastMessageSize));
  Ret (if (success : bool) then ok (output w) else error kInsufficientBuffer).

(** * The order of records *)

(** The comparison of record data by their wire format; [std::get] of another
    alternative throws, which ends the process. *)
Definition same_alternative (type : Z) (rdata : Rdata) : bool :=
  match rdata with
  | ARecordRdata _ _ => type =? kA
  | PtrRecordRdata _ => type =? kPTR
  | TxtRecordRdata _ => type =? kTXT
  | AAAARecordRdata _ _ => type =? kAAAA
  | SrvRecordRdata _ _ _ _ => type =? kSRV
  | NsecRecordRdata _ => type =? kNSEC
  | RawRecordRdata _ => negb (bool_decide (type ∈ [kA; kPTR; kTXT; kAAAA; kSRV; kNSEC]))
  | OptRecordRdata _ => false
  end.

(** The first difference of two byte strings as long as both have bytes. *)
Fixpoint first_difference (a b : list Z) : option (Z * Z) :=
  match a, b with
  | x :: a, y :: b => if negb (x =? y) then Some (x, y) else first_difference a b
  | _, _ => None
  end.

Definition IsGreaterThan (type : Z) (lhs rhs : Rdata) : outcome bool :=
  OSP_CHECK (same_alternative type lhs && same_alternative type rhs) ;;
  let lhs_size := rdata_wire_size lhs + 2 in
  let rhs_size := rdata_wire_size rhs + 2 in
  '(lhs_write, lhs_writer) ← WriteRdata lhs (new_MdnsWriter lhs_size);
  '(rhs_write, rhs_writer) ← WriteRdata rhs (new_MdnsWriter rhs_size);
  OSP_CHECK lhs_write ;;
  OSP_CHECK rhs_write ;;
  Ret (match first_difference (drop 2 (output lhs_writer)) (drop 2 (output rhs_writer)) with
       | Some (x, y) => y <? x
       | None => rhs_size <? lhs_size
       end).

(** [operator>] of records. *)
Definition record_gt (a b : MdnsRecord) : outcome bool :=
  if negb (name_eq (record_name a) (record_name b)) then Ret (name_gt (record_name a) (record_name b)) else
  if negb (bool_decide (record_type_ a = record_type_ b)) then Ret (bool_decide (record_type_ a = kUnique)) else
  if negb (record_dns_class a =? record_dns_class b) then Ret (record_dns_class b <? record_dns_class a) else
  let this_type := Z.land (record_dns_type a) kClassMask in
  let other_type := Z.land (record_dns_type b) kClassMask in
  if negb (this_type =? other_type) then Ret (other_type <? this_type)
  else IsGreaterThan (record_dns_type a) (rdata_ a) (rdata_ b).
End Writer.
