(* ===== verification/MdnsReader.v ===== *)
(** Reading DNS messages (discovery/mdns/public/mdns_reader.h and .cc, over the
    [BigEndianReader] of util/big_endian.h).

    A method maps the offset to the value read and the new offset, or to none
    if it returns false, when the offset stays: every method holds a cursor, or
    moves the offset last.  Loops have fuel, which [MdnsReaderProps] shows to be
    enough; running out of it would be a fault. *)

From S2P Require Import Prelude Text Wire IpAddress Mdns.

Section Reader.
Context (buffer : list Z) (kMaximumAllowedRdataSize : Z).

Definition Reads (A : Type) : Type := Z -> outcome (option (A * Z)).
#[export] Instance reads_ret : MRet Reads := fun A a offset => Ret (Some (a, offset)).
#[export] Instance reads_bind : MBind Reads := fun A B k m offset =>
  match m offset with
  | Ret (Some (a, offset)) => k a offset
  | Ret None => Ret None
  | Fault f => Fault f
  end.

(** Reading fails. *)
Definition fails {A} : Reads A := fun _ => Ret None.
(** [if (!b) return false]. *)
Definition require (b : bool) : Reads unit := if b then mret tt else fails.
Definition get_offset : Reads Z := fun offset => Ret (Some (offset, offset)).
Definition check (b : bool) : Reads unit := fun offset => OSP_CHECK b ;; Ret (Some (tt, offset)).
(** The value of an [ErrorOr]. *)
Definition of_error_or {A} (e : ErrorOr A) : Reads A :=
  match e with ok a => mret a | err _ => fails end.

Definition size : Z := zlen buffer.
Definition slice (from n : Z) : list Z := take (Z.to_nat n) (drop (Z.to_nat from) buffer).

Definition ReadBytes (n : Z) : Reads (list Z) := fun offset =>
  if offset + n <=? size then Ret (Some (slice offset n, offset + n)) else Ret None.
Definition ReadInteger (n : nat) : Reads Z := bytes ← ReadBytes (Z.of_nat n); mret (be_decode bytes).
Definition Skip (length : Z) : Reads unit := _ ← ReadBytes length; mret tt.

(** Reading in the buffer at a position, which must be there. *)
Definition peek (position n : Z) : outcome (list Z) :=
  if (0 <=? position) && (position + n <=? size) then Ret (slice position n) else Fault OutOfBounds.

(** * Names *)

Fixpoint name_loop (fuel : nat) (current position bytes_consumed bytes_processed domain_name_length : Z)
    (labels : list (list Z)) : outcome (option (DomainName * Z)) :=
  match fuel with
  | O => Fault Undefined
  | S fuel =>
      if (0 <=? position) && (position <? size) && (bytes_processed <=? size) then
        type ← peek position 1;
        let label_type := be_decode type in
        if IsTerminationLabel label_type then
          match TryCreateName labels with
          | err _ => Ret None
          | ok domain => Ret (Some (domain, if bytes_consumed =? 0 then position + 1 - current else bytes_consumed))
          end
        else if IsPointerLabel label_type then
          if size <? position + 2 then Ret None else
          pointer ← peek position 2;
          name_loop fuel current (GetPointerLabelOffset (be_decode pointer))
            (if bytes_consumed =? 0 then position + 2 - current else bytes_consumed)
            (bytes_processed + 2) domain_name_length labels
        else if IsDirectLabel label_type then
          let label_length := GetDirectLabelLength label_type in
          OSP_CHECK (0 <? label_length) ;;
          let position := position + 1 in
          if size <=? position + label_length then Ret None else
          label ← peek position label_length;
          let domain_name_length := domain_name_length + (label_length + 1) in
          if negb (IsValidDomainLabel label) || (kMaxDomainNameLength <? domain_name_length) then Ret None else
          name_loop fuel current (position + label_length) bytes_consumed
            (bytes_processed + 1 + label_length) domain_name_length (labels ++ [label])
        else Ret None
      else Ret None
  end.

(** Every turn processes at least two bytes. *)
Definition name_fuel : nat := S (S (length buffer)).

Definition ReadName : Reads DomainName := fun offset =>
  o ← name_loop name_fuel offset offset 0 0 0 [];
  match o with
  | Some (domain, bytes_consumed) => (_ ← Skip bytes_consumed; mret domain : Reads DomainName) offset
  | None => Ret None
  end.

(** * Record data *)

Definition ReadEntry : Reads (list Z) :=
  entry_length ← ReadInteger 1; ReadBytes entry_length.

Definition ReadRaw : Reads Rdata :=
  record_length ← ReadInteger 2;
  require (record_length <=? kMaximumAllowedRdataSize) ≫= fun _ =>
  bytes ← ReadBytes record_length;
  of_error_or (TryCreateRaw bytes).

(** The data read since [start] has the length its first two bytes say. *)
Definition require_length (start record_length : Z) : Reads unit :=
  now ← get_offset; require (now - start =? 2 + record_length).

Definition ReadSrv : Reads Rdata :=
  start ← get_offset;
  record_length ← ReadInteger 2;
  priority ← ReadInteger 2;
  weight ← ReadInteger 2;
  port ← ReadInteger 2;
  target ← ReadName;
  require_length start record_length ≫= fun _ =>
  mret (SrvRecordRdata priority weight port target).

Definition ReadAddress (version : Version) : Reads IPAddress :=
  bytes ← ReadBytes (Z.of_nat (match version with IpAddress.kV6 => kV6Size | IpAddress.kV4 => kV4Size end));
  mret (mkAddress version bytes 0).

Definition ReadA : Reads Rdata :=
  record_length ← ReadInteger 2;
  require (record_length =? Z.of_nat kV4Size) ≫= fun _ =>
  address ← ReadAddress IpAddress.kV4;
  mret (ARecordRdata address 0).

Definition ReadAAAA : Reads Rdata :=
  record_length ← ReadInteger 2;
  require (record_length =? Z.of_nat kV6Size) ≫= fun _ =>
  address ← ReadAddress IpAddress.kV6;
  mret (AAAARecordRdata address 0).

Definition ReadPtr : Reads Rdata :=
  start ← get_offset;
  record_length ← ReadInteger 2;
  ptr_domain ← ReadName;
  require_length start record_length ≫= fun _ =>
  mret (PtrRecordRdata ptr_domain).

Fixpoint entries_loop (fuel : nat) (start record_length : Z) (texts : list (list Z)) : Reads (list (list Z)) :=
  fun offset =>
  match fuel with
  | O => Fault Undefined
  | S fuel =>
      if offset - start <? 2 + record_length then
        (entry ← ReadEntry;
         check (zlen entry <=? kTXTMaxEntrySize) ≫= fun _ =>
         entries_loop fuel start record_length
           (match entry with [] => texts | _ => texts ++ [entry] end)) offset
      else Ret (Some (texts, offset))
  end.

Definition ReadTxt : Reads Rdata :=
  start ← get_offset;
  record_length ← ReadInteger 2;
  require (record_length <=? kMaximumAllowedRdataSize) ≫= fun _ =>
  texts ← entries_loop (S (Z.to_nat record_length)) start record_length [];
  require_length start record_length ≫= fun _ =>
  txt ← of_error_or (TryCreateTxt texts);
  mret (TxtRecordRdata txt).

(** [NsecBitMapField]: the window and the bitmap. *)
Definition ReadBitMap : Reads (Z * list Z) :=
  window_block ← ReadInteger 1;
  bitmap_length ← ReadInteger 1;
  require (negb ((bitmap_length =? 0) || (32 <? bitmap_length))) ≫= fun _ =>
  bitmap ← ReadBytes bitmap_length;
  mret (window_block, bitmap).

Definition TryParseDnsType (to_parse : Z) : option Z :=
  if bool_decide (to_parse ∈ kSupportedDnsTypes) then Some to_parse else None.

(** The supported types whose bits are set. *)
Definition bitmap_types (window_block : Z) (bitmap : list Z) : list Z :=
  omap (fun i =>
    let bitmask := Z.shiftr 0x80 (i mod 8) in
    let type_index := u16 (Z.lor i (Z.shiftl window_block 8)) in
    if negb (Z.land (default 0 (bitmap !! Z.to_nat (i / 8))) bitmask =? 0)
    then TryParseDnsType type_index else None)
  (seqZ 0 (zlen bitmap * 8)).

Fixpoint types_loop (fuel : nat) (processed_bytes remaining_size : Z) (out : list Z) : Reads (list Z) :=
  match fuel with
  | O => fun _ => Fault Undefined
  | S fuel =>
      if processed_bytes <? remaining_size then
        '(window_block, bitmap) ← ReadBitMap;
        let processed_bytes := processed_bytes + (zlen bitmap + 2) in
        require (processed_bytes <=? remaining_size) ≫= fun _ =>
        types_loop fuel processed_bytes remaining_size (out ++ bitmap_types window_block bitmap)
      else mret out
  end.

Definition ReadTypes (remaining_size : Z) : Reads (list Z) :=
  types_loop (S (Z.to_nat remaining_size)) 0 remaining_size [].

Definition ReadNsec : Reads Rdata :=
  start ← get_offset;
  record_length ← ReadInteger 2;
  next_record_name ← ReadName;
  require (record_length <=? kMaximumAllowedRdataSize) ≫= fun _ =>
  now ← get_offset;
  let encoded_next_name_length := now - start - 2 in
  let remaining_length := record_length - encoded_next_name_length in
  require (0 <? remaining_length) ≫= fun _ =>
  types ← ReadTypes remaining_length;
  mret (NsecRecordRdata (new_NsecRdata next_record_name types)).

Definition ReadRdata (type : Z) : Reads Rdata :=
  if type =? kSRV then ReadSrv
  else if type =? kA then ReadA
  else if type =? kAAAA then ReadAAAA
  else if type =? kPTR then ReadPtr
  else if type =? kTXT then ReadTxt
  else if type =? kNSEC then ReadNsec
  else check (negb (bool_decide (type ∈ kSupportedDnsTypes))) ≫= fun _ => ReadRaw.

(** * Messages *)

Definition ReadRecord : Reads MdnsRecord :=
  name ← ReadName;
  type ← ReadInteger 2;
  rrclass ← ReadInteger 2;
  ttl ← ReadInteger 4;
  rdata ← ReadRdata type;
  of_error_or (TryCreateRecord name type (GetDnsClass rrclass) (GetRecordType rrclass) ttl rdata).

Definition ReadQuestion : Reads MdnsQuestion :=
  name ← ReadName;
  type ← ReadInteger 2;
  rrclass ← ReadInteger 2;
  of_error_or (TryCreateQuestion name type (GetDnsClass rrclass) (GetResponseType rrclass)).

Fixpoint ReadMany {T} (read : Reads T) (count : nat) : Reads (list T) :=
  match count with
  | O => mret []
  | S count => entry ← read; entries ← ReadMany read count; mret (entry :: entries)
  end.

Definition ReadHeader : Reads Header :=
  id ← ReadInteger 2;
  flags ← ReadInteger 2;
  questions ← ReadInteger 2;
  answers ← ReadInteger 2;
  authority ← ReadInteger 2;
  additional ← ReadInteger 2;
  mret (mkHeader id flags questions answers authority additional).

(** The parts of a message. *)
Definition ReadParts : Reads (Header * list MdnsQuestion * list MdnsRecord * list MdnsRecord * list MdnsRecord) :=
  header ← ReadHeader;
  questions ← ReadMany ReadQuestion (Z.to_nat (question_count header));
  answers ← ReadMany ReadRecord (Z.to_nat (answer_count header));
  authority_records ← ReadMany ReadRecord (Z.to_nat (authority_record_count header));
  additional_records ← ReadMany ReadRecord (Z.to_nat (additional_record_count header));
  mret (header, questions, answers, authority_records, additional_records).

Definition ReadMessage : outcome (ErrorOr MdnsMessage) :=
  OSP_CHECK (0 <? kMaximumAllowedRdataSize) ;;
  o ← ReadParts 0;
  match o with
  | None => Ret (error kMdnsReadFailure)
  | Some (header, questions, answers, authority_records, additional_records, _) =>
      if negb (IsValidFlagsSection (header_flags header)) then Ret (error kMdnsNonConformingFailure) else
      match TryCreateMessage (header_id header) (GetMessageType (header_flags header)) questions answers
              authority_records additional_records with
      | err e => Ret (err e)
      | ok message => Ret (ok (if IsMessageTruncated (header_flags header) then set_truncated message else message))
      end
  end.
End Reader.
