(* ===== verification/MdnsReaderProps.v ===== *)
(** Reading DNS messages (MdnsReader.v) ends, whatever the bytes: it stays in the
    buffer, the fuel of its loops is enough, and what it returns is well
    formed. *)

From S2P Require Import Prelude Text Wire IpAddress Mdns MdnsReader.

(** * Well-formed values *)

Definition label_ok (l : list Z) : Prop := bytes_ok l /\ 1 <= zlen l <= 63.
Definition name_ok (n : DomainName) : Prop :=
  Forall label_ok (labels_ n) /\ max_wire_size_ n = name_wire_size (labels_ n) /\ max_wire_size_ n <= kMaxDomainNameLength.

Definition txt_ok (t : TxtRdata) : Prop :=
  Forall (fun l => bytes_ok l /\ 1 <= zlen l <= 255) (texts_ t) /\ TryCreateTxt (texts_ t) = ok t.

Definition address_ok (version : Version) (a : IPAddress) : Prop :=
  version_ a = version /\ length (bytes_ a) = address_size a /\ bytes_ok (bytes_ a) /\ scope_id_ a = 0.

(** Data of a type as a packet can hold it. *)
Definition rdata_ok (type : Z) (r : Rdata) : Prop :=
  match r with
  | RawRecordRdata l => type ∉ kSupportedDnsTypes /\ bytes_ok l /\ zlen l <= kMaxRawRecordSize
  | SrvRecordRdata priority weight port target =>
      type = kSRV /\ is_u 16 priority /\ is_u 16 weight /\ is_u 16 port /\ name_ok target
  | ARecordRdata a i => type = kA /\ address_ok IpAddress.kV4 a /\ i = 0
  | AAAARecordRdata a i => type = kAAAA /\ address_ok IpAddress.kV6 a /\ i = 0
  | PtrRecordRdata n => type = kPTR /\ name_ok n
  | TxtRecordRdata t => type = kTXT /\ txt_ok t
  | NsecRecordRdata n =>
      type = kNSEC /\ name_ok (next_domain_name_ n) /\ Forall (.∈ kSupportedDnsTypes) (types_ n)
  | OptRecordRdata _ => False
  end.

Definition record_ok (r : MdnsRecord) : Prop :=
  name_ok (record_name r) /\ is_u 16 (record_dns_type r) /\ is_u 15 (record_dns_class r) /\ is_u 32 (ttl_ r)
  /\ rdata_ok (record_dns_type r) (rdata_ r).

Definition question_ok (q : MdnsQuestion) : Prop :=
  name_ok (question_name q) /\ name_empty (question_name q) = false /\ is_u 16 (question_dns_type q)
  /\ is_u 15 (question_dns_class q).

Definition message_ok (m : MdnsMessage) : Prop :=
  is_u 16 (id_ m) /\ Forall question_ok (questions_ m) /\ Forall record_ok (answers_ m)
  /\ Forall record_ok (authority_records_ m) /\ Forall record_ok (additional_records_ m).

(** * Facts of the wire format *)

Lemma bytes_by_cases (P : Z -> Prop) `{forall b, Decision (P b)} :
  forallb (fun b => bool_decide (P b)) (seqZ 0 256) = true -> forall b, is_u 8 b -> P b.
Proof.
  intros H0 b Hb. rewrite forallb_forall in H0. apply (bool_decide_unpack _), Is_true_true, H0.
  apply list_elem_of_In, elem_of_seqZ. unfold is_u in Hb. lia.
Qed.

Lemma direct_label_length b :
  is_u 8 b -> IsDirectLabel b = true -> IsTerminationLabel b = false -> GetDirectLabelLength b = b /\ 1 <= b <= 63.
Proof.
  revert b. refine (bytes_by_cases (fun b => IsDirectLabel b = true -> IsTerminationLabel b = false ->
    GetDirectLabelLength b = b /\ 1 <= b <= 63) _). by vm_compute.
Qed.

Lemma name_wire_size_cons_from (labels : list (list Z)) n k :
  foldl (fun n (l : list Z) => n + (zlen l + 1)) (n + k) labels = foldl (fun n (l : list Z) => n + (zlen l + 1)) n labels + k.
Proof. revert n. induction labels as [| l labels IH]; intros n; cbn; [done |]. rewrite <- IH. f_equal. lia. Qed.

Lemma name_wire_size_snoc labels l : name_wire_size (labels ++ [l]) = name_wire_size labels + (zlen l + 1).
Proof. unfold name_wire_size. by rewrite foldl_app. Qed.

Lemma name_wire_size_cons l labels : name_wire_size (l :: labels) = name_wire_size labels + (zlen l + 1).
Proof. unfold name_wire_size. cbn [foldl]. by rewrite name_wire_size_cons_from. Qed.

Lemma IsValidDomainLabel_iff l : IsValidDomainLabel l = true <-> 1 <= zlen l <= 63.
Proof.
  unfold IsValidDomainLabel, kMaxLabelLength. rewrite andb_true_iff, Z.ltb_lt, Z.leb_le. lia.
Qed.

Lemma TryCreateName_ok labels :
  Forall label_ok labels -> name_wire_size labels <= kMaxDomainNameLength ->
  TryCreateName labels = ok (mkName (name_wire_size labels) labels).
Proof.
  intros Hl Hs. unfold TryCreateName.
  assert (forallb IsValidDomainLabel labels = true) as ->.
  { apply forallb_forall. intros l Hin%list_elem_of_In. apply IsValidDomainLabel_iff.
    by apply (proj1 (Forall_forall _ _) Hl). }
  by rewrite (proj2 (Z.ltb_ge _ _)) by lia.
Qed.

Section Total.
Context (buffer : list Z) (max_rdata : Z) (Hbuffer : bytes_ok buffer).
#[local] Notation size := (size buffer).

(** The two bytes of the type ANY, which stop the reader (see
    [any_record_aborts]). *)
Definition has_any_type : Prop := exists i, 0 <= i /\ i + 2 <= size /\ slice buffer i 2 = [0; 255].

(** [m] stays in the buffer, moves forward, and what it reads has [P]. *)
Definition safe {A} (m : Reads A) (P : A -> Prop) : Prop :=
  forall offset, 0 <= offset <= size ->
  match m offset with
  | Ret (Some (a, offset')) => offset <= offset' <= size /\ P a
  | Ret None => True
  | Fault f => f = CheckFailed /\ has_any_type
  end.

Lemma safe_weaken {A} (m : Reads A) (P Q : A -> Prop) : safe m P -> (forall a, P a -> Q a) -> safe m Q.
Proof using. intros Hm HPQ offset Ho. specialize (Hm offset Ho). destruct (m offset) as [[[a o] |] |]; naive_solver. Qed.

Lemma safe_ret {A} (a : A) (P : A -> Prop) : P a -> safe (mret a) P.
Proof using. intros HP offset Ho. cbn. split; [lia | done]. Qed.

Lemma safe_bind {A B} (m : Reads A) (k : A -> Reads B) P Q :
  safe m P -> (forall a, P a -> safe (k a) Q) -> safe (m ≫= k) Q.
Proof using.
  intros Hm Hk offset Ho. specialize (Hm offset Ho). unfold mbind, reads_bind.
  destruct (m offset) as [[[a o] |] |]; [| done | done].
  destruct Hm as [Ho' HP]. specialize (Hk a HP o ltac:(lia)).
  destruct (k a o) as [[[b o'] |] |]; [| done | done]. split; [lia | apply Hk].
Qed.

Lemma safe_require b (P : Prop) : (b = true -> P) -> safe (require b) (fun _ => P).
Proof using. intros HP offset Ho. destruct b; cbn; [split; [lia | auto] | done]. Qed.

Lemma safe_check b : b = true -> safe (check b) (fun _ => True).
Proof using. intros -> offset Ho. cbn. split; [lia | done]. Qed.

Lemma safe_offset : safe get_offset (fun o => 0 <= o <= size).
Proof using. intros offset Ho. cbn. lia. Qed.

Lemma safe_of_error_or {A} (e : ErrorOr A) (P : A -> Prop) : (forall a, e = ok a -> P a) -> safe (of_error_or e) P.
Proof using. intros HP. destruct e; [by apply safe_ret, HP | by intros offset Ho]. Qed.

Lemma slice_ok from n : bytes_ok (slice buffer from n).
Proof using Hbuffer. unfold slice. by apply Forall_take, Forall_drop. Qed.

Lemma zlen_slice from n : 0 <= from -> 0 <= n -> from + n <= size -> zlen (slice buffer from n) = n.
Proof using. intros H1 H2 H3. unfold slice, size, zlen in *. rewrite length_take, length_drop. lia. Qed.

Lemma safe_ReadBytes n : 0 <= n -> safe (ReadBytes buffer n) (fun l => bytes_ok l /\ zlen l = n).
Proof using Hbuffer.
  intros Hn offset Ho. unfold ReadBytes. destruct (Z.leb_spec (offset + n) size); [| done].
  split; [lia |]. split; [apply slice_ok | by apply zlen_slice; lia].
Qed.

Lemma safe_ReadInteger n : safe (ReadInteger buffer n) (is_u (8 * Z.of_nat n)).
Proof using Hbuffer.
  apply (safe_bind _ _ _ _ (safe_ReadBytes (Z.of_nat n) ltac:(lia))). intros l [Hl Hn].
  apply safe_ret. rewrite <- Hn. by apply be_decode_bound.
Qed.

Lemma peek_Ret position n : 0 <= position -> position + n <= size -> peek buffer position n = Ret (slice buffer position n).
Proof using.
  intros. unfold peek. rewrite (proj2 (Z.leb_le _ _)), (proj2 (Z.leb_le _ _)) by lia. done.
Qed.

(** ** Names *)

(** What the loop knows of where the name ends. *)
Definition consumed_ok (current position bytes_consumed : Z) : Prop :=
  if bytes_consumed =? 0 then current <= position else 0 < bytes_consumed /\ current + bytes_consumed <= size.

Lemma name_loop_safe fuel : forall current position bytes_consumed bytes_processed len labels,
  size - bytes_processed + 2 <= Z.of_nat fuel -> (1 <= fuel)%nat -> 0 <= current -> 0 <= position ->
  consumed_ok current position bytes_consumed -> Forall label_ok labels ->
  len = name_wire_size labels - 1 -> len <= kMaxDomainNameLength ->
  match name_loop buffer fuel current position bytes_consumed bytes_processed len labels with
  | Ret (Some (domain, consumed)) => name_ok domain /\ 0 < consumed /\ current + consumed <= size
  | Ret None => True
  | Fault _ => False
  end.
Proof using Hbuffer.
  induction fuel as [| fuel IH]; intros current position consumed processed len labels Hfuel Hpos Hc Hp Hcons Hl Hlen Hmax;
    [lia |]. cbn [name_loop].
  rewrite (proj2 (Z.leb_le 0 position)) by done. cbn [andb].
  destruct (Z.ltb_spec position size) as [Hin |]; [| done].
  destruct (Z.leb_spec processed size) as [Hproc |]; [| done]. cbn [andb].
  rewrite (peek_Ret position 1) by lia. cbn [mbind outcome_bind].
  set (label_type := be_decode _).
  assert (Ht : is_u 8 label_type).
  { unfold label_type. pose proof (be_decode_bound (slice buffer position 1) (slice_ok _ _)) as Hb.
    by rewrite zlen_slice in Hb by lia. }
  clearbody label_type.
  destruct (IsTerminationLabel label_type) eqn:Eterm.
  { unfold TryCreateName. destruct (forallb _ _); cbn [negb]; [| done].
    destruct (Z.ltb_spec kMaxDomainNameLength (name_wire_size labels)) as [| Hsize]; [done |].
    split; [by split; [| split] |]. unfold consumed_ok in Hcons.
    destruct (Z.eqb_spec consumed 0); lia. }
  destruct (IsPointerLabel label_type) eqn:Eptr.
  { destruct (Z.ltb_spec size (position + 2)) as [| Hin2]; [done |].
    rewrite peek_Ret by lia. cbn [mbind outcome_bind]. apply IH; try done; try lia.
    - unfold GetPointerLabelOffset. apply Z.land_nonneg. right. done.
    - unfold consumed_ok in *. destruct (Z.eqb_spec consumed 0).
      + destruct (Z.eqb_spec (position + 2 - current) 0); lia.
      + destruct (Z.eqb_spec consumed 0); lia. }
  destruct (IsDirectLabel label_type) eqn:Edir; [| done].
  destruct (direct_label_length _ Ht Edir Eterm) as [-> Hlab].
  rewrite OSP_CHECK_true by (by apply Z.ltb_lt; lia). cbn [mbind outcome_bind].
  destruct (Z.leb_spec size (position + 1 + label_type)) as [| Hin2]; [done |].
  rewrite peek_Ret by lia. cbn [mbind outcome_bind].
  assert (Hlabel : label_ok (slice buffer (position + 1) label_type)).
  { split; [apply slice_ok |]. rewrite zlen_slice by lia. lia. }
  rewrite (proj2 (IsValidDomainLabel_iff _)) by apply Hlabel. cbn [negb orb].
  destruct (Z.ltb_spec kMaxDomainNameLength (len + (label_type + 1))); [done |].
  apply IH; try done; try lia.
  - unfold consumed_ok in *. destruct (Z.eqb_spec consumed 0); lia.
  - apply Forall_app. split; [done |]. by apply Forall_singleton.
  - rewrite name_wire_size_snoc, zlen_slice by lia. lia.
Qed.

Lemma safe_ReadName : safe (ReadName buffer) name_ok.
Proof using Hbuffer.
  intros offset Ho. unfold ReadName.
  pose proof (name_loop_safe (name_fuel buffer) offset offset 0 0 0 []) as Hloop.
  destruct (name_loop _ _ _ _ _ _ _ _) as [[[domain consumed] |] |]; cbn [mbind outcome_bind]; [| done |].
  - destruct Hloop as (Hd & Hpos & Hle); try done; try lia.
    + unfold name_fuel, size, zlen. lia.
    + unfold name_fuel. lia.
    + unfold consumed_ok. rewrite Z.eqb_refl. lia.
    + unfold Skip, ReadBytes, mbind, reads_bind. rewrite (proj2 (Z.leb_le _ _)) by lia. cbn. split; [lia | done].
  - exfalso. apply Hloop; try done; try lia.
    + unfold name_fuel, size, zlen. lia.
    + unfold name_fuel. lia.
    + unfold consumed_ok. rewrite Z.eqb_refl. lia.
Qed.

(** ** Record data *)

Ltac safe_step :=
  first
    [ apply safe_ret
    | eapply safe_bind; [first [apply safe_ReadInteger | apply safe_ReadName | apply safe_offset
        | apply safe_require; let H := fresh in intros H; exact H
        | eapply safe_of_error_or; let H := fresh in intros ? H; exact H] | intros ? ?] ].

Lemma safe_ReadEntry : safe (ReadEntry buffer) (fun l => bytes_ok l /\ zlen l <= 255).
Proof using Hbuffer.
  unfold ReadEntry. safe_step. eapply safe_weaken; [apply safe_ReadBytes; unfold is_u in *; lia |].
  intros l [Hl ->]. split; [done |]. unfold is_u in *. lia.
Qed.

Lemma safe_ReadRaw type : type ∉ kSupportedDnsTypes -> safe (ReadRaw buffer max_rdata) (rdata_ok type).
Proof using Hbuffer.
  intros Ht. unfold ReadRaw. do 2 safe_step.
  eapply safe_bind; [apply safe_ReadBytes; unfold is_u in *; lia |]. intros l [Hl Hn].
  apply safe_of_error_or. intros r. unfold TryCreateRaw, error. case_bool; [done |].
  intros [= <-]. split; [done |]. split; [done | lia].
Qed.

Lemma safe_require_length start n : safe (require_length start n) (fun _ => True).
Proof using. unfold require_length. safe_step. eapply safe_require. done. Qed.

Lemma safe_ReadSrv : safe (ReadSrv buffer) (rdata_ok kSRV).
Proof using Hbuffer.
  unfold ReadSrv. do 6 safe_step.
  eapply safe_bind; [apply safe_require_length |]. intros _ _. safe_step. by split_and!.
Qed.

Lemma safe_ReadPtr : safe (ReadPtr buffer) (rdata_ok kPTR).
Proof using Hbuffer.
  unfold ReadPtr. do 3 safe_step.
  eapply safe_bind; [apply safe_require_length |]. intros _ _. safe_step. by split_and!.
Qed.

Lemma safe_ReadAddress version : safe (ReadAddress buffer version) (address_ok version).
Proof using Hbuffer.
  unfold ReadAddress. eapply safe_bind; [apply safe_ReadBytes; by destruct version |]. intros l [Hl Hn].
  safe_step. split; [done |]. split; [| done]. unfold zlen in Hn. destruct version; cbn in *; lia.
Qed.

Lemma safe_ReadA : safe (ReadA buffer) (rdata_ok kA).
Proof using Hbuffer.
  unfold ReadA. do 2 safe_step. eapply safe_bind; [apply safe_ReadAddress |]. intros addr Haddr. safe_step. by split_and!.
Qed.

Lemma safe_ReadAAAA : safe (ReadAAAA buffer) (rdata_ok kAAAA).
Proof using Hbuffer.
  unfold ReadAAAA. do 2 safe_step. eapply safe_bind; [apply safe_ReadAddress |]. intros addr Haddr. safe_step. by split_and!.
Qed.

Lemma ReadInteger_eq n offset :
  ReadInteger buffer n offset =
  if offset + Z.of_nat n <=? size then Ret (Some (be_decode (slice buffer offset (Z.of_nat n)), offset + Z.of_nat n))
  else Ret None.
Proof using. unfold ReadInteger, ReadBytes, mbind, reads_bind. by destruct (_ <=? _). Qed.

Lemma bind_ReadInteger {B} n (k : Z -> Reads B) offset :
  (ReadInteger buffer n ≫= k) offset =
  if offset + Z.of_nat n <=? size then k (be_decode (slice buffer offset (Z.of_nat n))) (offset + Z.of_nat n) else Ret None.
Proof using. unfold mbind at 1, reads_bind. rewrite ReadInteger_eq. by destruct (_ <=? _). Qed.

Lemma byte_at offset : 0 <= offset -> offset + 1 <= size -> is_u 8 (be_decode (slice buffer offset 1)).
Proof using Hbuffer.
  intros. pose proof (be_decode_bound (slice buffer offset 1) (slice_ok _ _)) as Hb. by rewrite zlen_slice in Hb by lia.
Qed.

Lemma ReadEntry_progress offset :
  0 <= offset ->
  match ReadEntry buffer offset with
  | Ret (Some (e, offset')) => offset' = offset + 1 + zlen e /\ offset' <= size /\ bytes_ok e /\ zlen e <= 255
  | Ret None => True
  | Fault _ => False
  end.
Proof using Hbuffer.
  intros Ho. unfold ReadEntry. rewrite bind_ReadInteger. change (Z.of_nat 1) with 1.
  destruct (Z.leb_spec (offset + 1) size) as [Hin |]; [| done].
  pose proof (byte_at offset Ho Hin) as Hn. set (n := be_decode _) in *. clearbody n. unfold is_u in Hn.
  unfold ReadBytes. destruct (Z.leb_spec (offset + 1 + n) size); [| done].
  rewrite zlen_slice by lia. split; [lia |]. split; [lia |]. split; [apply slice_ok | lia].
Qed.

(** A loop that reads at least a byte each time. *)
Lemma entries_loop_safe fuel : forall start record_length texts offset,
  0 <= offset <= size -> start + 2 + record_length - offset + 1 <= Z.of_nat fuel -> (1 <= fuel)%nat ->
  Forall (fun l => bytes_ok l /\ 1 <= zlen l <= 255) texts ->
  match entries_loop buffer fuel start record_length texts offset with
  | Ret (Some (texts, offset')) => offset <= offset' <= size /\ Forall (fun l => bytes_ok l /\ 1 <= zlen l <= 255) texts
  | Ret None => True
  | Fault _ => False
  end.
Proof using Hbuffer.
  induction fuel as [| fuel IH]; intros start record_length texts offset Ho Hfuel Hpos Ht; [lia |].
  cbn [entries_loop]. destruct (Z.ltb_spec (offset - start) (2 + record_length)); [| by split; [lia |]].
  pose proof (ReadEntry_progress offset ltac:(lia)) as He. unfold mbind, reads_bind.
  destruct (ReadEntry buffer offset) as [[[e o] |] |]; [| done | done].
  destruct He as (-> & Hin & Hb & Hle). unfold check. pose proof (zlen_nonneg e).
  rewrite OSP_CHECK_true by (apply Z.leb_le; unfold kTXTMaxEntrySize; lia). cbn [mbind outcome_bind].
  specialize (IH start record_length (match e with [] => texts | _ => texts ++ [e] end) (offset + 1 + zlen e)).
  destruct (entries_loop _ _ _ _ _ _) as [[[ts o] |] |]; [| done |].
  - destruct IH as [? ?]; [lia | lia | lia | | by split; [lia |]].
    destruct e as [| b e]; [done |]. apply Forall_app. split; [done |]. apply Forall_singleton. split; [done |].
    rewrite zlen_cons in *. pose proof (zlen_nonneg e). lia.
  - apply IH; [lia | lia | lia |].
    destruct e as [| b e]; [done |]. apply Forall_app. split; [done |]. apply Forall_singleton. split; [done |].
    rewrite zlen_cons in *. pose proof (zlen_nonneg e). lia.
Qed.

Lemma safe_ReadTxt : safe (ReadTxt buffer max_rdata) (rdata_ok kTXT).
Proof using Hbuffer.
  intros offset Ho. unfold ReadTxt. unfold mbind at 1, reads_bind, get_offset.
  rewrite bind_ReadInteger. change (Z.of_nat 2) with 2.
  destruct (Z.leb_spec (offset + 2) size); [| done].
  set (n := be_decode _). assert (Hn : is_u 16 n).
  { unfold n. pose proof (be_decode_bound (slice buffer offset 2) (slice_ok _ _)) as Hb. by rewrite zlen_slice in Hb by lia. }
  clearbody n. unfold mbind at 1, reads_bind, require. destruct (n <=? max_rdata); cbn [mret reads_ret]; [| done].
  unfold mbind at 1, reads_bind. unfold is_u in Hn.
  pose proof (entries_loop_safe (S (Z.to_nat n)) offset n [] (offset + 2)) as He.
  destruct (entries_loop _ _ _ _ _ _) as [[[ts o] |] |]; [| done |].
  - destruct He as [Ho' Ht]; [lia | lia | lia | done |].
    assert (Hrest : safe (require_length offset n ≫= (fun _ => txt ← of_error_or (TryCreateTxt ts); mret (TxtRecordRdata txt)))
      (rdata_ok kTXT)).
    { eapply safe_bind; [apply safe_require_length |]. intros _ _. safe_step. safe_step. split; [done |].
      assert (texts_ a = ts) as <-; [| by split].
      unfold TryCreateTxt, error in H0. repeat case_match; try done; by injection H0 as <-. }
    specialize (Hrest o ltac:(lia)). unfold mbind, reads_bind in Hrest |- *.
    destruct (require_length offset n o) as [[[[] o2] |] |]; [| done | done].
    destruct (of_error_or _ o2) as [[[txt o3] |] |]; [| done | done].
    cbn in Hrest |- *. split; [lia | apply Hrest].
  - exfalso. apply He; [lia | lia | lia | done].
Qed.

Lemma safe_ReadBitMap : safe (ReadBitMap buffer) (fun p => 1 <= zlen p.2).
Proof using Hbuffer.
  unfold ReadBitMap. do 3 safe_step. eapply safe_bind; [apply safe_ReadBytes; unfold is_u in *; lia |].
  intros l [Hl Hn]. safe_step. cbn [snd]. apply negb_true_iff, orb_false_iff in H1 as [H1 _].
  unfold is_u in *. lia.
Qed.

Lemma bitmap_types_supported window bitmap : Forall (.∈ kSupportedDnsTypes) (bitmap_types window bitmap).
Proof using.
  apply Forall_forall. intros t (i & _ & Hi)%list_elem_of_omap. unfold TryParseDnsType in Hi.
  destruct (negb _); [| done]. case_bool_decide as Hin; [by injection Hi as <- | done].
Qed.

Lemma types_loop_safe fuel : forall processed remaining out,
  0 <= processed -> remaining - processed + 1 <= Z.of_nat fuel -> (1 <= fuel)%nat ->
  Forall (.∈ kSupportedDnsTypes) out ->
  safe (types_loop buffer fuel processed remaining out) (Forall (.∈ kSupportedDnsTypes)).
Proof using Hbuffer.
  induction fuel as [| fuel IH]; intros processed remaining out Hp Hfuel Hpos Hout; [lia |].
  cbn [types_loop]. destruct (Z.ltb_spec processed remaining); [| by apply safe_ret].
  eapply safe_bind; [apply safe_ReadBitMap |]. intros [window bitmap] Hb. cbn [snd] in Hb.
  eapply safe_bind; [apply safe_require; intros Hr; exact Hr |]. intros u Hr. cbn beta in Hr. apply Z.leb_le in Hr.
  apply IH; [lia | lia | lia |]. apply Forall_app. split; [done | apply bitmap_types_supported].
Qed.

Lemma safe_ReadNsec : safe (ReadNsec buffer max_rdata) (rdata_ok kNSEC).
Proof using Hbuffer.
  unfold ReadNsec. do 4 safe_step. eapply safe_bind; [apply safe_offset |]. intros now Hnow.
  eapply safe_bind; [apply safe_require; intros Hr; exact Hr |]. intros u Hr. cbn beta in Hr.
  unfold ReadTypes. eapply safe_bind; [apply types_loop_safe; [lia | lia | lia | by apply Forall_nil] |].
  intros types Ht. safe_step. split; [done |]. split; [done |].
  cbn. apply Forall_forall. intros t Hin. rewrite merge_sort_Permutation in Hin.
  by apply (proj1 (Forall_forall _ _) Ht).
Qed.

(** Reading data of the type ANY fails the check, and nothing else does. *)
Lemma ReadRdata_safe type offset :
  0 <= offset <= size -> is_u 16 type -> (type = kANY -> has_any_type) ->
  match ReadRdata buffer max_rdata type offset with
  | Ret (Some (r, offset')) => offset <= offset' <= size /\ rdata_ok type r
  | Ret None => True
  | Fault f => f = CheckFailed /\ has_any_type
  end.
Proof using Hbuffer.
  intros Ho Ht Hany. unfold ReadRdata.
  repeat match goal with |- context [if ?t =? ?k then _ else _] => destruct (Z.eqb_spec t k) as [-> |] end.
  - by apply safe_ReadSrv.
  - by apply safe_ReadA.
  - by apply safe_ReadAAAA.
  - by apply safe_ReadPtr.
  - by apply safe_ReadTxt.
  - by apply safe_ReadNsec.
  - case_bool_decide as Hs.
    + unfold mbind, reads_bind, check. cbn. split; [done |]. apply Hany.
      repeat (apply elem_of_cons in Hs as [Hs | Hs]; [congruence |]). by apply not_elem_of_nil in Hs.
    + assert (safe (check (negb false) ≫= (fun _ => ReadRaw buffer max_rdata)) (rdata_ok type)) as Hsafe.
      { eapply safe_bind; [by apply safe_check |]. intros _ _. by apply safe_ReadRaw. }
      by apply Hsafe.
Qed.

(** ** Messages *)

Lemma safe_ReadType : safe (ReadInteger buffer 2) (fun t => is_u 16 t /\ (t = kANY -> has_any_type)).
Proof using Hbuffer.
  intros offset Ho. rewrite ReadInteger_eq. change (Z.of_nat 2) with 2.
  destruct (Z.leb_spec (offset + 2) size) as [Hin |]; [| done]. split; [lia |].
  pose proof (slice_ok offset 2) as Hs. pose proof (be_decode_bound _ Hs) as Hb.
  rewrite zlen_slice in Hb by lia. split; [exact Hb |]. intros Hany. exists offset. split; [lia |]. split; [lia |].
  pose proof (be_encode_decode _ Hs) as He. rewrite Hany in He.
  pose proof (zlen_slice offset 2 ltac:(lia) ltac:(lia) ltac:(lia)) as Hl. unfold zlen in Hl.
  replace (length (slice buffer offset 2)) with 2%nat in He by lia. by rewrite <- He.
Qed.

Lemma GetDnsClass_bound rrclass : is_u 15 (GetDnsClass rrclass).
Proof using.
  unfold GetDnsClass. change kClassMask with (Z.ones 15). rewrite land_ones_wrap by lia. by apply wrap_is_u.
Qed.

Lemma safe_ReadRecord : safe (ReadRecord buffer max_rdata) record_ok.
Proof using Hbuffer.
  unfold ReadRecord. safe_step. eapply safe_bind; [apply safe_ReadType |]. intros type [Htype Hany]. do 2 safe_step.
  eapply safe_bind; [intros offset Ho; by apply ReadRdata_safe |]. intros rdata Hr.
  apply safe_of_error_or. intros r Hc. unfold TryCreateRecord, error in Hc. case_match; [done |].
  injection Hc as <-. split; [done |]. split; [done |]. split; [apply GetDnsClass_bound |]. by split.
Qed.

Lemma safe_ReadQuestion : safe (ReadQuestion buffer) question_ok.
Proof using Hbuffer.
  unfold ReadQuestion. do 3 safe_step. apply safe_of_error_or. intros q Hc. unfold TryCreateQuestion, error in Hc.
  case_match; [done |]. injection Hc as <-. split; [done |]. split; [done |]. split; [done | apply GetDnsClass_bound].
Qed.

Lemma safe_ReadMany {T} (read : Reads T) P count : safe read P -> safe (ReadMany read count) (Forall P).
Proof using.
  intros Hread. induction count as [| count IH]; cbn [ReadMany]; [apply safe_ret; by apply Forall_nil |].
  eapply safe_bind; [exact Hread |]. intros x Hx. eapply safe_bind; [exact IH |]. intros l Hl.
  apply safe_ret. by apply Forall_cons.
Qed.

Lemma safe_ReadParts :
  safe (ReadParts buffer max_rdata) (fun '(header, questions, answers, authority, additional) =>
    is_u 16 (header_id header) /\ Forall question_ok questions /\ Forall record_ok answers
    /\ Forall record_ok authority /\ Forall record_ok additional).
Proof using Hbuffer.
  unfold ReadParts. eapply (safe_bind _ _ (fun h => is_u 16 (header_id h))).
  { unfold ReadHeader. do 6 safe_step. by safe_step. }
  intros header Hid.
  eapply safe_bind; [apply safe_ReadMany, safe_ReadQuestion |]. intros questions Hq.
  do 3 (eapply safe_bind; [apply safe_ReadMany, safe_ReadRecord |]; intros ? ?).
  apply safe_ret. by split_and!.
Qed.

Lemma set_truncated_ok m : message_ok m -> message_ok (set_truncated m).
Proof using. done. Qed.

Lemma ReadMessage_total :
  0 < max_rdata ->
  match ReadMessage buffer max_rdata with
  | Ret (ok m) => message_ok m
  | Ret (err _) => True
  | Fault f => f = CheckFailed /\ has_any_type
  end.
Proof using Hbuffer.
  intros Hmax. unfold ReadMessage. rewrite OSP_CHECK_true by (by apply Z.ltb_lt). cbn [mbind outcome_bind].
  pose proof (safe_ReadParts 0) as Hp. specialize (Hp ltac:(unfold size; pose proof (zlen_nonneg buffer); lia)).
  destruct (ReadParts buffer max_rdata 0) as [[[[[[[header questions] answers] authority] additional] o] |] |];
    cbn [mbind outcome_bind]; [| done | done].
  destruct Hp as (_ & Hid & Hq & Ha & Hau & Had).
  destruct (IsValidFlagsSection _); cbn [negb]; [| done].
  unfold TryCreateMessage. destruct (_ || _); [done |].
  assert (message_ok (message_of (header_id header) (GetMessageType (header_flags header)) questions answers
    authority additional)) as Hm by (by split_and!).
  by destruct (IsMessageTruncated _).
Qed.
End Total.
