(* ===== verification/MdnsWriterProps.v ===== *)
(** What the writer of DNS messages (MdnsWriter.v) appends: it never looks at
    the bytes it wrote, so that a length written last might as well have been
    written first; and it appends no more bytes than the size computed for a
    value. *)

From S2P Require Import Prelude Text Wire IpAddress Mdns MdnsWriter MdnsReader MdnsReaderProps.

Lemma WriteBytes_true bytes w w' :
  WriteBytes bytes w = Ret (true, w') -> w' = mkWriter (output w ++ bytes) (length_of_buffer w) (dictionary_ w).
Proof. unfold WriteBytes. destruct (_ <=? _); [by intros [= <-] | done]. Qed.

Lemma and_then_true f g w w' :
  (f >& g) w = Ret (true, w') -> exists w1, f w = Ret (true, w1) /\ g w1 = Ret (true, w').
Proof. unfold and_then. destruct (f w) as [[[|] w1] |]; cbn; [intros; by exists w1 | done | done]. Qed.

(** * Oblivious methods *)

(** A method appends bytes that depend on the offset, the length of the buffer
    and the dictionary only. *)
Definition oblivious (f : Writes) : Prop :=
  forall w1 w2, offset w1 = offset w2 -> length_of_buffer w1 = length_of_buffer w2 -> dictionary_ w1 = dictionary_ w2 ->
  exists success bytes d,
    f w1 = Ret (success, mkWriter (output w1 ++ bytes) (length_of_buffer w1) d) /\
    f w2 = Ret (success, mkWriter (output w2 ++ bytes) (length_of_buffer w2) d).

Ltac same_writer Ho Hl Hd :=
  intros [o1 l1 d1] [o2 l2 d2] Ho Hl Hd; unfold offset in Ho; cbn in Ho, Hl, Hd; subst l2 d2.

Lemma oblivious_bytes bytes : oblivious (WriteBytes bytes).
Proof.
  same_writer Ho Hl Hd. unfold WriteBytes, offset. cbn. rewrite Ho. destruct (_ <=? _).
  - by exists true, bytes, d1.
  - exists false, [], d1. by rewrite !app_nil_r.
Qed.

Lemma oblivious_no : oblivious (fun w => Ret (false, w)).
Proof. same_writer Ho Hl Hd. exists false, [], d1. cbn. by rewrite !app_nil_r. Qed.

Lemma oblivious_yes : oblivious (fun w => Ret (true, w)).
Proof. same_writer Ho Hl Hd. exists true, [], d1. cbn. by rewrite !app_nil_r. Qed.

Lemma oblivious_dictionary t : oblivious (fun w => Ret (true, w <| dictionary_ := dictionary_ w ∪ t |>)).
Proof. same_writer Ho Hl Hd. exists true, [], (d1 ∪ t). cbn. by rewrite !app_nil_r. Qed.

Lemma oblivious_and_then f g : oblivious f -> oblivious g -> oblivious (f >& g).
Proof.
  intros Hf Hg w1 w2 Ho Hl Hd. destruct (Hf w1 w2 Ho Hl Hd) as (success & bs & d & E1 & E2).
  unfold and_then. rewrite E1, E2. cbn [mbind outcome_bind]. destruct success; [| by exists false, bs, d].
  destruct (Hg (mkWriter (output w1 ++ bs) (length_of_buffer w1) d) (mkWriter (output w2 ++ bs) (length_of_buffer w2) d))
    as (success & bs' & d' & -> & ->); [| done | done |].
  - unfold offset in *. cbn. rewrite !zlen_app. lia.
  - exists success, (bs ++ bs'), d'. cbn. by rewrite !app_assoc.
Qed.

Lemma oblivious_cursor f : oblivious f -> oblivious (WithCursor f).
Proof.
  intros Hf w1 w2 Ho Hl Hd. destruct (Hf w1 w2 Ho Hl Hd) as (success & bs & d & E1 & E2).
  unfold WithCursor. rewrite E1, E2. cbn [mbind outcome_bind]. destruct success; [by exists true, bs, d |].
  exists false, [], d. by rewrite !app_nil_r.
Qed.

Lemma oblivious_each {T} (write : T -> Writes) l : (forall x, oblivious (write x)) -> oblivious (WriteEach write l).
Proof.
  intros Hw. induction l as [| x l IH]; [apply oblivious_yes |].
  intros w1 w2 Ho Hl Hd. exact (oblivious_and_then _ _ (Hw x) IH w1 w2 Ho Hl Hd).
Qed.

Lemma oblivious_WriteLabels std_hash labels : forall t, oblivious (WriteLabels std_hash labels t).
Proof.
  induction labels as [| label labels IH]; intros t w1 w2 Ho Hl Hd.
  - apply (oblivious_and_then _ _ (oblivious_bytes _) (oblivious_dictionary t)); done.
  - cbn [WriteLabels]. destruct (ComputeDomainNameSubhashes std_hash (label :: labels)) as [| h hs] eqn:Eh; [done |].
    rewrite <- Hd. destruct (dictionary_ w1 !! h) as [pointer |].
    + apply (oblivious_and_then _ _ (oblivious_bytes _) (oblivious_dictionary t)); done.
    + rewrite <- Ho. apply oblivious_and_then; try done; [apply oblivious_bytes |].
      apply oblivious_and_then; [apply oblivious_bytes | apply IH].
Qed.

Lemma oblivious_WriteName std_hash n : oblivious (WriteName std_hash n).
Proof.
  intros w1 w2 Ho Hl Hd. unfold WriteName. destruct (name_empty n); [by apply oblivious_no |].
  by apply (oblivious_cursor _ (oblivious_WriteLabels std_hash _ ∅)).
Qed.

Lemma oblivious_WriteText t : oblivious (WriteText t).
Proof.
  intros w1 w2 Ho Hl Hd. unfold WriteText. destruct (_ <? _); [by apply oblivious_no |].
  apply (oblivious_cursor _ (oblivious_and_then _ _ (oblivious_bytes _) (oblivious_bytes _))); done.
Qed.

Lemma oblivious_WriteTexts texts : oblivious (WriteTexts texts).
Proof. destruct texts; [apply oblivious_bytes |]. apply oblivious_each, oblivious_WriteText. Qed.

(** A length written last: the bytes are those of the body behind the length. *)
Lemma fill_here (p : list Z) (x bs : list Z) n :
  length x = 2%nat -> n = zlen p -> fill n x (p ++ replicate 2 0 ++ bs) = p ++ x ++ bs.
Proof.
  intros Hx ->. unfold fill, zlen. rewrite Nat2Z.id, take_app_length, Hx. do 2 f_equal.
  rewrite drop_app_add. by destruct bs.
Qed.

Lemma WriteBytes_eq bytes p len d :
  WriteBytes bytes (mkWriter p len d) =
  if zlen p + zlen bytes <=? len then Ret (true, mkWriter (p ++ bytes) len d) else Ret (false, mkWriter p len d).
Proof. done. Qed.

Lemma record_length_first body w w' :
  oblivious body -> WithRecordLength body w = Ret (true, w') ->
  exists n, 0 <= n <= 65535 /\ (WriteInteger 2 n >& body) w = Ret (true, w') /\ n = offset w' - offset w - 2.
Proof.
  intros Hbody. destruct w as [p len d]. unfold WithRecordLength, WithCursor, and_then, MdnsWriter.Skip, WriteInteger.
  rewrite WriteBytes_eq. change (zlen (replicate 2 0)) with 2.
  destruct (zlen p + 2 <=? len) eqn:Efit; cbn [mbind outcome_bind]; [| done].
  set (w1 := mkWriter (p ++ replicate 2 0) len d).
  destruct (Hbody w1 w1) as (success & bs & d' & E & _); [done .. |]. rewrite E. cbn [mbind outcome_bind].
  destruct success; [| done]. unfold UpdateRecordLength, w1, offset. cbn [output length_of_buffer dictionary_].
  rewrite !zlen_app. change (zlen (replicate 2 0)) with 2. pose proof (zlen_nonneg bs).
  rewrite OSP_CHECK_true by (apply Z.leb_le; lia). cbn [mbind outcome_bind].
  replace (zlen p + 2 + zlen bs - zlen p - 2) with (zlen bs) by lia.
  destruct (Z.leb_spec (zlen bs) 65535) as [Hle |]; cbn [mbind outcome_bind]; [| done]. intros [= <-].
  exists (zlen bs). split; [lia |].
  rewrite WriteBytes_eq. rewrite zlen_be_encode. change (Z.of_nat 2) with 2. rewrite Efit. cbn [mbind outcome_bind].
  destruct (Hbody w1 (mkWriter (p ++ be_encode 2 (zlen bs)) len d)) as (s2 & bs2 & d2 & E1 & E2); [| done | done |].
  { unfold w1, offset. cbn [output]. by rewrite !zlen_app, zlen_be_encode. }
  rewrite E in E1. injection E1 as <- Hbs <-. apply app_inv_head in Hbs as <-. rewrite E2. cbn.
  rewrite <- !app_assoc, fill_here by (by rewrite ?length_be_encode). split; [done |].
  rewrite !zlen_app, zlen_be_encode. lia.
Qed.

(** * Sizes *)

(** A method appends at most [k] bytes, and fails only if there is no room for
    them. *)
Definition sized (f : Writes) (k : Z) : Prop :=
  forall w, exists success w', f w = Ret (success, w') /\ length_of_buffer w' = length_of_buffer w /\
  offset w <= offset w' <= offset w + k /\ (offset w + k <= length_of_buffer w -> success = true).

Lemma sized_weaken f k k' : sized f k -> k <= k' -> sized f k'.
Proof.
  intros Hf Hk w. destruct (Hf w) as (s & w' & E & Hl & Ho & Hs). exists s, w'. split; [done |]. split; [done |].
  split; [lia |]. intros. apply Hs. lia.
Qed.

Lemma sized_nonneg f k : sized f k -> 0 <= k.
Proof. intros Hf. destruct (Hf (new_MdnsWriter 0)) as (s & w' & _ & _ & Ho & _). lia. Qed.

Lemma sized_bytes bytes : sized (WriteBytes bytes) (zlen bytes).
Proof.
  intros w. unfold WriteBytes. pose proof (zlen_nonneg bytes). destruct (Z.leb_spec (offset w + zlen bytes) (length_of_buffer w)).
  - eexists true, _. split; [done |]. split; [done |]. unfold offset. cbn. rewrite zlen_app. split; [lia | done].
  - eexists false, _. split; [done |]. split; [done |]. split; [lia |]. lia.
Qed.

Lemma sized_integer n v : sized (WriteInteger n v) (Z.of_nat n).
Proof. pose proof (sized_bytes (be_encode n v)) as H. by rewrite zlen_be_encode in H. Qed.

Lemma sized_yes (f : MdnsWriter -> MdnsWriter) :
  (forall w, output (f w) = output w /\ length_of_buffer (f w) = length_of_buffer w) -> sized (fun w => Ret (true, f w)) 0.
Proof.
  intros Hf w. destruct (Hf w) as [Ho Hl]. exists true, (f w). unfold offset. rewrite Ho. split; [done |]. split; [done |].
  split; [lia | done].
Qed.

Lemma sized_dictionary t : sized (fun w => Ret (true, w <| dictionary_ := dictionary_ w ∪ t |>)) 0.
Proof. by apply (sized_yes (fun w => w <| dictionary_ := dictionary_ w ∪ t |>)). Qed.

Lemma sized_and_then f g k l : sized f k -> sized g l -> sized (f >& g) (k + l).
Proof.
  intros Hf Hg w. destruct (Hf w) as (s & w1 & E1 & Hl1 & Ho1 & Hs1). pose proof (sized_nonneg g l Hg).
  unfold and_then. rewrite E1. cbn [mbind outcome_bind]. destruct s.
  - destruct (Hg w1) as (s & w2 & E2 & Hl2 & Ho2 & Hs2). exists s, w2. split; [done |]. split; [lia |]. split; [lia |].
    intros. apply Hs2. lia.
  - exists false, w1. split; [done |]. split; [done |]. split; [lia |]. intros. by apply Hs1; lia.
Qed.

Lemma sized_cursor f k : sized f k -> sized (WithCursor f) k.
Proof.
  intros Hf w. destruct (Hf w) as (s & w1 & E1 & Hl1 & Ho1 & Hs1). unfold WithCursor. rewrite E1. cbn [mbind outcome_bind].
  destruct s; [by exists true, w1 |]. eexists false, _. split; [done |]. split; [done |]. split; [| done].
  unfold offset. cbn. lia.
Qed.

Lemma sized_each {T} (write : T -> Writes) (size : T -> Z) l :
  Forall (fun x => sized (write x) (size x)) l -> sized (WriteEach write l) (sum_of size l 0).
Proof.
  induction 1 as [| x l Hx Hl IH]; [apply (sized_yes (fun w => w)); by intros [] |].
  assert (Hsum : forall a, sum_of size l a = a + sum_of size l 0).
  { clear. unfold sum_of. induction l as [| y l IH]; intros a; cbn [foldl]; [lia |]. rewrite IH, (IH (0 + size y)). lia. }
  unfold sum_of in *. cbn [foldl]. rewrite Hsum. exact (sized_and_then _ _ _ _ Hx IH).
Qed.

Lemma zlen_fill n (bs l : list Z) : 0 <= n -> n + zlen bs <= zlen l -> zlen (fill n bs l) = zlen l.
Proof. unfold fill, zlen. intros. rewrite !length_app, length_take, length_drop. lia. Qed.

Lemma sized_record_length body k : sized body k -> k <= 65535 -> sized (WithRecordLength body) (2 + k).
Proof.
  intros Hb Hk w. pose proof (sized_nonneg _ _ Hb). unfold WithRecordLength, WithCursor, and_then, MdnsWriter.Skip.
  destruct (sized_bytes (replicate 2 0) w) as (s & w1 & E1 & Hl1 & Ho1 & Hs1). change (zlen (replicate 2 0)) with 2 in *.
  rewrite E1. cbn [mbind outcome_bind]. destruct s.
  2: { eexists false, _. split; [done |]. split; [done |]. unfold offset. cbn. fold (offset w). split; [lia |].
       intros. apply Hs1. lia. }
  apply WriteBytes_true in E1. assert (offset w1 = offset w + 2) as Ho1'.
  { rewrite E1. unfold offset. cbn [output]. by rewrite zlen_app. }
  destruct (Hb w1) as (s & w2 & E2 & Hl2 & Ho2 & Hs2). rewrite E2. cbn [mbind outcome_bind]. destruct s.
  2: { eexists false, _. split; [done |]. split; [cbn; congruence |]. unfold offset. cbn. fold (offset w). split; [lia |].
       intros. apply Hs2. lia. }
  unfold UpdateRecordLength. rewrite OSP_CHECK_true by (apply Z.leb_le; lia). cbn [mbind outcome_bind].
  rewrite (proj2 (Z.leb_le _ 65535)) by lia. cbn [mbind outcome_bind].
  eexists true, _. split; [done |]. split; [cbn; congruence |]. split; [| done].
  enough (offset (w2 <| output := fill (offset w) (be_encode 2 (offset w2 - offset w - 2)) (output w2) |>) = offset w2) by lia.
  unfold offset in *. cbn [update output]. apply zlen_fill; [apply zlen_nonneg | rewrite zlen_be_encode; lia].
Qed.

Lemma sized_WriteLabels std_hash labels : forall t,
  Forall label_ok labels -> sized (WriteLabels std_hash labels t) (name_wire_size labels).
Proof.
  induction labels as [| label labels IH]; intros t Hl.
  - exact (sized_and_then _ _ _ _ (sized_integer 1 kLabelTermination) (sized_dictionary t)).
  - apply Forall_cons in Hl as [Hl Hls]. intros w. rewrite name_wire_size_cons. cbn [WriteLabels].
    destruct (ComputeDomainNameSubhashes std_hash (label :: labels)) as [| h hs] eqn:Eh; [done |].
    assert (Hpos : forall ls, 1 <= name_wire_size ls).
    { intros ls. induction ls; [done |]. rewrite name_wire_size_cons. pose proof (zlen_nonneg a). lia. }
    pose proof (Hpos labels). destruct Hl as [Hb Hn]. destruct (dictionary_ w !! h) as [pointer |].
    + eapply sized_weaken; [exact (sized_and_then _ _ _ _ (sized_integer 2 pointer) (sized_dictionary t)) |]. lia.
    + eapply sized_weaken; [apply sized_and_then; [apply sized_integer |]; apply sized_and_then;
        [apply sized_bytes | by apply IH] |]. lia.
Qed.

Lemma sized_WriteName std_hash n :
  name_ok n -> name_empty n = false -> sized (WriteName std_hash n) (max_wire_size_ n).
Proof.
  intros (Hl & -> & _) Hempty w. unfold WriteName. rewrite Hempty.
  by apply sized_cursor, sized_WriteLabels.
Qed.

(** ** Records and messages *)

Definition rdata_names (r : Rdata) : list DomainName :=
  match r with
  | SrvRecordRdata _ _ _ target => [target]
  | PtrRecordRdata ptr_domain => [ptr_domain]
  | NsecRecordRdata nsec => [next_domain_name_ nsec]
  | _ => []
  end.
Definition record_names (r : MdnsRecord) : list DomainName := record_name r :: rdata_names (rdata_ r).
Definition message_names (m : MdnsMessage) : list DomainName :=
  map question_name (questions_ m) ++
  ((answers_ m ++ authority_records_ m ++ additional_records_ m) ≫= record_names).

(** The bytes that writing data takes: the two of the length of NSEC data are
    not part of its [MaxWireSize]. *)
Definition rdata_bound (r : Rdata) : Z :=
  rdata_wire_size r + match r with NsecRecordRdata _ => 2 | _ => 0 end.
Definition record_bound (r : MdnsRecord) : Z := max_wire_size_ (record_name r) + rdata_bound (rdata_ r) + 8.

Lemma sum_of_from {T} (size : T -> Z) l a : sum_of size l a = a + sum_of size l 0.
Proof.
  unfold sum_of. revert a. induction l as [| y l IH]; intros a; cbn [foldl]; [lia |].
  rewrite IH, (IH (0 + size y)). lia.
Qed.

Lemma sum_of_cons {T} (size : T -> Z) x l : sum_of size (x :: l) 0 = size x + sum_of size l 0.
Proof. unfold sum_of. cbn [foldl]. apply (sum_of_from size l). Qed.

Lemma sized_WriteText t : zlen t <= 255 -> sized (WriteText t) (zlen t + 1).
Proof.
  intros Ht w. unfold WriteText. rewrite (proj2 (Z.ltb_ge _ _)) by done.
  eapply sized_cursor, sized_weaken; [apply sized_and_then; [apply sized_integer | apply sized_bytes] |]. lia.
Qed.

Lemma txt_wire_size t :
  txt_ok t -> txt_max_wire_size_ t = match texts_ t with [] => 3 | texts => 2 + sum_of (fun l => zlen l + 1) texts 0 end.
Proof.
  intros [Hl Ht]. unfold TryCreateTxt, error in Ht. destruct (texts_ t) as [| x l] eqn:Et; [by injection Ht as <- |].
  destruct (existsb _ _); [done |]. injection Ht as <-. cbn [txt_max_wire_size_].
  exact (sum_of_from (fun l => zlen l + 1) (x :: l) 2).
Qed.

Lemma sized_WriteAddress version a :
  address_ok version a ->
  sized (WriteAddress a) (Z.of_nat (match version with IpAddress.kV4 => kV4Size | IpAddress.kV6 => kV6Size end)).
Proof.
  intros (Hv & Hl & _). unfold WriteAddress. rewrite take_ge by lia. unfold address_size in Hl. rewrite Hv in Hl.
  rewrite <- Hl. apply sized_bytes.
Qed.

Section Names.
Context (std_hash : list Z -> Z).

Lemma sized_WriteTexts t : txt_ok t -> sized (WriteTexts (texts_ t)) (txt_max_wire_size_ t - 2).
Proof using.
  intros Ht. rewrite txt_wire_size by done. destruct Ht as [Hl _]. unfold WriteTexts.
  destruct (texts_ t) as [| x l]; [exact (sized_integer 1 kTXTEmptyRdata) |].
  eapply sized_weaken; [apply (sized_each WriteText (fun l => zlen l + 1)) | lia].
  eapply Forall_impl; [exact Hl |]. intros y [Hb Hy]. apply sized_WriteText. lia.
Qed.

Lemma sized_vector l : sized (WriteVector (WriteInteger 1) l) (zlen l).
Proof using.
  apply sized_cursor. eapply sized_weaken; [apply (sized_each _ (fun _ => 1)) |].
  - apply Forall_forall. intros x _. apply sized_integer.
  - induction l as [| x l IH]; [done |]. rewrite sum_of_cons, zlen_cons. lia.
Qed.

Ltac size :=
  repeat first [apply sized_record_length | apply sized_vector | apply sized_cursor | apply sized_and_then | apply sized_integer
    | by eapply sized_WriteAddress | apply sized_bytes | by apply sized_WriteName | by apply sized_WriteTexts].

Lemma sized_WriteRdata type r :
  rdata_ok type r -> Forall (fun n => name_empty n = false) (rdata_names r) -> rdata_bound r <= 65535 ->
  sized (WriteRdata std_hash r) (rdata_bound r).
Proof using.
  unfold rdata_bound. intros Hr Hn Hk. destruct r as [l | p w q target | a i | a i | n | t | n | os]; cbn [WriteRdata rdata_names rdata_wire_size rdata_ok] in *;
    rewrite ?Forall_singleton in Hn.
  - destruct Hr as (_ & _ & Hr). unfold kMaxRawRecordSize in Hr. pose proof (zlen_nonneg l). rewrite wrap_small by (unfold is_u; lia).
    rewrite take_ge by (unfold zlen; lia). eapply sized_weaken; [size | lia].
  - destruct Hr as (_ & _ & _ & _ & Hr). eapply sized_weaken; [size |]; lia.
  - destruct Hr as (_ & Ha & _). eapply sized_weaken; [size | cbn; lia].
  - destruct Hr as (_ & Ha & _). eapply sized_weaken; [size | cbn; lia].
  - destruct Hr as (_ & Hr). eapply sized_weaken; [size |]; lia.
  - destruct Hr as (_ & Hr). eapply sized_weaken; [size |]; lia.
  - destruct Hr as (_ & Hr & _). eapply sized_weaken; [size |]; lia.
  - done.
Qed.

Lemma sized_WriteRecord r :
  record_ok r -> Forall (fun n => name_empty n = false) (record_names r) -> rdata_bound (rdata_ r) <= 65535 ->
  sized (WriteRecord std_hash r) (record_bound r).
Proof using.
  intros (Hn & _ & _ & _ & Hr) Hnames Hk. apply Forall_cons in Hnames as [Hname Hnames]. unfold WriteRecord, record_bound.
  eapply sized_weaken; [size; by eapply sized_WriteRdata |]. lia.
Qed.

Lemma sized_WriteQuestion q :
  question_ok q -> sized (WriteQuestion std_hash q) (question_wire_size q).
Proof using.
  intros (Hn & Hempty & _). unfold WriteQuestion, question_wire_size. eapply sized_weaken; [size |]. lia.
Qed.

(** The parts of a message and their bounds. *)
Definition message_bound (m : MdnsMessage) : Z :=
  12 + sum_of question_wire_size (questions_ m) 0 + sum_of record_bound (answers_ m) 0
  + sum_of record_bound (authority_records_ m) 0 + sum_of record_bound (additional_records_ m) 0.

Definition message_records (m : MdnsMessage) : list MdnsRecord :=
  answers_ m ++ authority_records_ m ++ additional_records_ m.

Lemma sized_WriteMessage m :
  message_ok m -> Forall (fun n => name_empty n = false) (message_names m) ->
  Forall (fun r => rdata_bound (rdata_ r) <= 65535) (message_records m) ->
  sized (WriteMessage std_hash m) (message_bound m).
Proof using.
  intros (_ & Hq & Ha & Hau & Had) Hnames Hk. unfold message_names in Hnames. apply Forall_app in Hnames as [_ Hnames].
  fold (message_records m) in Hnames. assert (Hall : Forall record_ok (message_records m)) by (unfold message_records; by rewrite !Forall_app).
  assert (Hrec : Forall (fun r => sized (WriteRecord std_hash r) (record_bound r)) (message_records m)).
  { apply Forall_forall. intros r Hin. pose proof (proj1 (Forall_forall _ _) Hnames) as Hnames'. pose proof (proj1 (Forall_forall _ _) Hall) as Hall'.
    pose proof (proj1 (Forall_forall _ _) Hk) as Hk'.
    apply sized_WriteRecord; [by apply Hall' | | by apply Hk']. apply Forall_forall. intros n Hn. apply Hnames'.
    apply list_elem_of_bind. by exists r. }
  unfold message_records in Hrec. rewrite !Forall_app in Hrec. destruct Hrec as (H1 & H2 & H3).
  unfold WriteMessage, WriteHeader, message_bound. eapply sized_weaken.
  - apply sized_cursor, sized_and_then; [apply sized_cursor; repeat first [apply sized_integer | apply sized_and_then] |].
    apply sized_and_then; [apply sized_cursor, (sized_each _ question_wire_size) |].
    + eapply Forall_impl; [exact Hq |]. intros q. apply sized_WriteQuestion.
    + repeat first [apply sized_cursor, (sized_each _ record_bound) | apply sized_and_then | done].
  - lia.
Qed.
End Names.
