(* ===== verification/MdnsNames.v ===== *)
(** Domain names survive writing with compression and reading (MdnsWriter.v,
    MdnsReader.v): the labels a chain of labels and pointers spells, the
    dictionary of the writer that keeps pointers to such chains, and the loop of
    the reader that follows them. *)

From S2P Require Import Prelude Text Numeric Wire IpAddress Mdns MdnsWriter MdnsReader MdnsReaderProps MdnsWriterProps.

(** * Case *)

(** The labels in lower case. *)
Definition lower (labels : list (list Z)) : list (list Z) := map AsciiStrToLower labels.

Lemma tolower_byte b : is_u 8 b -> is_u 8 (tolower b).
Proof.
  unfold tolower, is_u. intros. destruct (_ && _) eqn:E; [| done].
  apply andb_true_iff in E as [E1%Z.leb_le E2%Z.leb_le]. lia.
Qed.

Lemma swrap_byte b : is_u 8 b -> swrap 8 b = if b <? 128 then b else b - 256.
Proof. unfold swrap, is_u. intros. rewrite Z.mod_small by lia. done. Qed.

(** The order of labels is that of the signed characters in lower case. *)
Definition key (b : Z) : Z := swrap 8 (tolower b).

Lemma key_inj a b : is_u 8 a -> is_u 8 b -> key a = key b <-> tolower a = tolower b.
Proof.
  intros Ha%tolower_byte Hb%tolower_byte. unfold key. split; [| by intros ->].
  rewrite !swrap_byte by done. unfold is_u in *.
  destruct (Z.ltb_spec (tolower a) 128), (Z.ltb_spec (tolower b) 128); lia.
Qed.

Lemma CompareIgnoreCase_eq x y :
  bytes_ok x -> bytes_ok y -> CompareIgnoreCase x y = 0 <-> AsciiStrToLower x = AsciiStrToLower y.
Proof.
  intros Hx. revert y. induction Hx as [| a x Ha Hx IH]; intros y Hy; destruct Hy as [| b y Hb Hy]; try done.
  cbn [CompareIgnoreCase AsciiStrToLower map]. fold (key a) (key b). pose proof (key_inj a b Ha Hb) as Hk.
  destruct (Z.ltb_spec (key a) (key b)); [split; [done |]; intros [= H1 _]; apply Hk in H1; lia |].
  destruct (Z.ltb_spec (key b) (key a)); [split; [done |]; intros [= H1 _]; apply Hk in H1; lia |].
  rewrite IH by done. assert (tolower a = tolower b) as -> by (apply Hk; lia).
  split; [by unfold AsciiStrToLower; intros -> | by intros [=]].
Qed.

Lemma labels_eq_lower a b :
  Forall bytes_ok a -> Forall bytes_ok b -> labels_eq a b = true <-> lower a = lower b.
Proof.
  intros Ha. revert b. induction Ha as [| x a Hx Ha IH]; intros b Hb; destruct Hb as [| y b Hy Hb]; try done.
  cbn [labels_eq]. rewrite andb_true_iff, Z.eqb_eq, CompareIgnoreCase_eq, IH by done.
  unfold lower. cbn [map]. split; [by intros [-> ->] | by intros [=]].
Qed.

Lemma lower_wire_size a b : lower a = lower b -> name_wire_size a = name_wire_size b.
Proof.
  revert b. induction a as [| x a IH]; intros [| y b]; try done. intros [= H1 H2].
  rewrite !name_wire_size_cons. rewrite (IH _ H2). apply (f_equal length) in H1.
  unfold AsciiStrToLower, zlen in *. rewrite !length_map in H1. lia.
Qed.

Lemma name_wire_size_pos labels : 1 <= name_wire_size labels.
Proof. induction labels; [done |]. rewrite name_wire_size_cons. pose proof (zlen_nonneg a). lia. Qed.

Lemma label_ok_bytes labels : Forall label_ok labels -> Forall bytes_ok labels.
Proof. intros H. eapply Forall_impl; [exact H |]. by intros l []. Qed.

(** * Chains of labels *)

Lemma slice_app buf rest pos n :
  0 <= pos -> 0 <= n -> pos + n <= zlen buf -> slice (buf ++ rest) pos n = slice buf pos n.
Proof.
  unfold slice, zlen. intros. rewrite drop_app_le by lia. rewrite take_app_le; [done |]. rewrite length_drop. lia.
Qed.

Lemma slice_at buf bytes rest pos n :
  pos = zlen buf -> n = zlen bytes -> slice (buf ++ bytes ++ rest) pos n = bytes.
Proof. intros -> ->. unfold slice, zlen. by rewrite !Nat2Z.id, drop_app_length, take_app_length. Qed.

(** The bytes at [pos] spell [labels]; the name ends at [end_]; and following
    it processes [processed] bytes. *)
Inductive spells (buf : list Z) : Z -> list (list Z) -> Z -> Z -> Prop :=
  | spells_end pos :
      0 <= pos -> pos + 1 <= zlen buf -> slice buf pos 1 = [kLabelTermination] -> spells buf pos [] (pos + 1) 0
  | spells_label pos label labels end_ processed :
      0 <= pos -> pos + 1 + zlen label <= zlen buf -> label_ok label ->
      slice buf pos 1 = be_encode 1 (MakeDirectLabel (u8 (zlen label))) ->
      slice buf (pos + 1) (zlen label) = label ->
      spells buf (pos + 1 + zlen label) labels end_ processed ->
      spells buf pos (label :: labels) end_ (processed + 1 + zlen label)
  | spells_pointer pos target labels end_ processed :
      0 <= pos -> pos + 2 <= zlen buf -> 0 <= target <= kLabelOffsetMask ->
      slice buf pos 2 = be_encode 2 (MakePointerLabel target) ->
      spells buf target labels end_ processed ->
      spells buf pos labels (pos + 2) (processed + 2).

Lemma spells_app buf rest pos labels end_ processed :
  spells buf pos labels end_ processed -> spells (buf ++ rest) pos labels end_ processed.
Proof.
  induction 1 as [pos | pos label labels | pos target labels].
  - apply spells_end; [done | rewrite zlen_app; pose proof (zlen_nonneg rest); lia | by rewrite slice_app by lia].
  - pose proof (zlen_nonneg label). pose proof (zlen_nonneg rest).
    apply spells_label; [done | rewrite zlen_app; lia | done | by rewrite slice_app by lia | by rewrite slice_app by lia | done].
  - pose proof (zlen_nonneg rest).
    eapply spells_pointer; [done | rewrite zlen_app; lia | done | by rewrite slice_app by lia | done].
Qed.

Lemma spells_ok buf pos labels end_ processed :
  spells buf pos labels end_ processed ->
  0 <= processed /\ 0 <= pos /\ pos + 1 <= zlen buf /\ pos < end_ /\ end_ <= zlen buf /\ Forall label_ok labels.
Proof.
  induction 1 as [pos | pos label labels | pos target labels]; [split_and!; done || lia | |].
  - pose proof (zlen_nonneg label). destruct_and!. split_and!; try lia. by constructor.
  - destruct_and!. split_and!; done || lia.
Qed.

(** * Reading a chain *)

Lemma direct_label_byte n :
  1 <= n <= 63 ->
  be_decode (be_encode 1 (MakeDirectLabel (u8 n))) = n /\ IsTerminationLabel n = false /\ IsPointerLabel n = false
  /\ IsDirectLabel n = true /\ GetDirectLabelLength n = n.
Proof.
  intros Hn. assert (H : is_u 8 n) by (unfold is_u; lia). revert n H Hn.
  refine (bytes_by_cases (fun n => 1 <= n <= 63 ->
    be_decode (be_encode 1 (MakeDirectLabel (u8 n))) = n /\ IsTerminationLabel n = false /\ IsPointerLabel n = false
    /\ IsDirectLabel n = true /\ GetDirectLabelLength n = n) _). by vm_compute.
Qed.

Lemma pointer_offset target :
  0 <= target <= kLabelOffsetMask -> GetPointerLabelOffset (be_decode (be_encode 2 (MakePointerLabel target))) = target.
Proof.
  unfold kLabelOffsetMask. intros Ht. rewrite be_decode_encode. unfold GetPointerLabelOffset, MakePointerLabel.
  change kLabelOffsetMask with (Z.ones 14). change (Z.shiftl kLabelPointer 8) with (Z.shiftl 3 14).
  rewrite !land_ones_wrap by lia. unfold wrap.
  rewrite (Z.mod_small target) by lia. rewrite lor_shiftl_add by (lia || unfold is_u; lia).
  change (2 ^ (8 * Z.of_nat 2)) with 65536. change (2 ^ 14) with 16384. rewrite (Z.mod_small _ 65536) by lia.
  rewrite Z.add_comm, Z.mod_add by lia. by rewrite Z.mod_small by lia.
Qed.

Lemma pointer_byte target :
  0 <= target <= kLabelOffsetMask ->
  exists rest, be_encode 2 (MakePointerLabel target) = (192 + target / 256) :: rest /\ 192 + target / 256 < 256.
Proof.
  unfold kLabelOffsetMask. intros Ht. unfold MakePointerLabel.
  change kLabelOffsetMask with (Z.ones 14). change (Z.shiftl kLabelPointer 8) with (Z.shiftl 3 14).
  rewrite land_ones_wrap by lia. unfold wrap at 1.
  rewrite (Z.mod_small target) by lia. rewrite lor_shiftl_add by (lia || unfold is_u; lia).
  assert (0 <= target / 256 < 64) by (split; [apply Z.div_pos | apply Z.div_lt_upper_bound]; lia).
  eexists. split; [| lia]. cbn [be_encode]. f_equal. change (8 * Z.of_nat 1) with 8.
  rewrite Z.shiftr_div_pow2 by lia. unfold wrap. change (2 ^ 8) with 256. change (3 * 2 ^ 14) with (192 * 256).
  rewrite Z.div_add_l by lia. by rewrite Z.mod_small by lia.
Qed.

Lemma pointer_byte_type b : 192 <= b < 256 -> IsTerminationLabel b = false /\ IsPointerLabel b = true.
Proof.
  intros Hb. assert (H : is_u 8 b) by (unfold is_u; lia). destruct Hb as [Hb _]. revert b H Hb.
  refine (bytes_by_cases (fun b => 192 <= b -> IsTerminationLabel b = false /\ IsPointerLabel b = true) _). by vm_compute.
Qed.

Lemma slice_first buf pos n b rest : 0 < n -> slice buf pos n = b :: rest -> slice buf pos 1 = [b].
Proof.
  unfold slice. intros Hn H. change (Z.to_nat 1) with 1%nat. replace (Z.to_nat n) with (S (Z.to_nat (n - 1))) in H by lia.
  destruct (drop (Z.to_nat pos) buf); [done |]. by injection H as -> _.
Qed.

Lemma name_loop_spells buf pos labels end_ processed fuel current consumed before acc :
  spells buf pos labels end_ processed ->
  (consumed = 0 -> current <= pos) -> before + processed <= zlen buf -> 0 <= before ->
  Forall label_ok acc -> name_wire_size (acc ++ labels) <= kMaxDomainNameLength -> processed < Z.of_nat fuel ->
  name_loop buf fuel current pos consumed before (name_wire_size acc - 1) acc
  = Ret (Some (mkName (name_wire_size (acc ++ labels)) (acc ++ labels), if consumed =? 0 then end_ - current else consumed)).
Proof.
  intros Hs. revert fuel consumed before acc.
  induction Hs as [pos H0 H1 Hb | pos label labels end_ processed H0 H1 Hl Hb Hb2 Hs IH | pos target labels end_ processed H0 H1 Ht Hb Hs IH];
    intros fuel consumed before acc Hc Hbefore Hb0 Hacc Hsize Hfuel.
  - destruct fuel as [| fuel]; [lia |]. cbn [name_loop].
    rewrite (proj2 (Z.leb_le 0 pos)), (proj2 (Z.ltb_lt pos (size buf))), (proj2 (Z.leb_le before (size buf))) by (unfold size; lia). cbn [andb].
    rewrite (peek_Ret _ pos 1) by (unfold size; lia). cbn [mbind outcome_bind]. rewrite Hb.
    change (IsTerminationLabel (be_decode [kLabelTermination])) with true. cbn match.
    rewrite app_nil_r in *. by rewrite TryCreateName_ok.
  - pose proof (spells_ok _ _ _ _ _ Hs) as (? & ? & ? & ? & ? & Hls). pose proof (zlen_nonneg label).
    destruct fuel as [| fuel]; [lia |]. cbn [name_loop].
    rewrite (proj2 (Z.leb_le 0 pos)), (proj2 (Z.ltb_lt pos (size buf))), (proj2 (Z.leb_le before (size buf))) by (unfold size; lia). cbn [andb].
    rewrite (peek_Ret _ pos 1) by (unfold size; lia). cbn [mbind outcome_bind]. rewrite Hb.
    destruct (direct_label_byte (zlen label)) as (-> & -> & -> & -> & ->); [apply Hl |]. cbn match.
    rewrite OSP_CHECK_true by (apply Z.ltb_lt; destruct Hl; lia). cbn [mbind outcome_bind].
    rewrite (proj2 (Z.leb_gt _ _)) by (unfold size; lia). rewrite (peek_Ret _ (pos + 1) (zlen label)) by (unfold size; lia). cbn [mbind outcome_bind].
    rewrite Hb2. rewrite (proj2 (IsValidDomainLabel_iff _)) by apply Hl. cbn [negb orb].
    rewrite (cons_middle label acc labels), ((assoc_L (++)) acc [label] labels) in Hsize |- *.
    assert (name_wire_size (acc ++ [label]) <= kMaxDomainNameLength).
    { etransitivity; [| exact Hsize]. clear. generalize (acc ++ [label]) as a. intros a. induction a as [| x a IH]; cbn [app].
      - apply name_wire_size_pos.
      - rewrite !name_wire_size_cons. lia. }
    rewrite (name_wire_size_snoc acc) in *. rewrite (proj2 (Z.ltb_ge _ _)) by lia.
    replace (name_wire_size acc - 1 + (zlen label + 1)) with (name_wire_size (acc ++ [label]) - 1)
      by (rewrite name_wire_size_snoc; lia).
    apply IH; try lia. apply Forall_app. by split; [| apply Forall_singleton].
  - pose proof (spells_ok _ _ _ _ _ Hs) as (? & ? & ? & ? & ? & Hls). destruct fuel as [| fuel]; [lia |]. cbn [name_loop].
    rewrite (proj2 (Z.leb_le 0 pos)), (proj2 (Z.ltb_lt pos (size buf))), (proj2 (Z.leb_le before (size buf))) by (unfold size; lia). cbn [andb].
    rewrite (peek_Ret _ pos 1) by (unfold size; lia). cbn [mbind outcome_bind].
    destruct (pointer_byte target Ht) as (rest & He & Hlt).
    assert (0 <= target / 256) by (apply Z.div_pos; lia).
    pose proof Hb as Hb1. rewrite He in Hb1. apply slice_first in Hb1; [| done].
    rewrite Hb1. change (be_decode [192 + target / 256]) with (192 + target / 256).
    destruct (pointer_byte_type (192 + target / 256)) as [-> ->]; [lia |]. cbn match.
    rewrite (proj2 (Z.ltb_ge _ _)) by (unfold size; lia). rewrite (peek_Ret _ pos 2) by (unfold size; lia). cbn [mbind outcome_bind].
    rewrite Hb, pointer_offset by done. rewrite IH; try done; try lia.
    + do 3 f_equal. destruct (Z.eqb_spec consumed 0) as [-> |].
      * rewrite (proj2 (Z.eqb_neq _ _)) by lia. done.
      * by rewrite (proj2 (Z.eqb_neq _ _)) by done.
    + destruct (Z.eqb_spec consumed 0) as [-> |]; lia.
Qed.

Lemma ReadName_spells buf pos labels end_ processed :
  spells buf pos labels end_ processed -> processed <= zlen buf -> name_wire_size labels <= kMaxDomainNameLength ->
  ReadName buf pos = Ret (Some (mkName (name_wire_size labels) labels, end_)).
Proof.
  intros Hs Hp Hn. pose proof (spells_ok _ _ _ _ _ Hs) as (? & ? & ? & ? & ? & Hls). unfold ReadName.
  pose proof (name_loop_spells buf pos labels end_ processed (name_fuel buf) pos 0 0 [] Hs) as H'.
  change (name_wire_size [] - 1) with 0 in H'. rewrite H'; try done; try lia.
  - cbn [mbind outcome_bind Z.eqb app]. unfold MdnsReader.Skip, ReadBytes, mbind, reads_bind.
    replace (pos + (end_ - pos)) with end_ by lia. by rewrite (proj2 (Z.leb_le end_ (size buf))) by done.
  - unfold name_fuel, zlen in *. lia.
Qed.

(** * Writing a chain *)

Fixpoint suffixes (labels : list (list Z)) : list (list (list Z)) :=
  match labels with
  | [] => [[]]
  | _ :: labels' => labels :: suffixes labels'
  end.

Lemma suffixes_refl labels : labels ∈ suffixes labels.
Proof. destruct labels; apply elem_of_cons; by left. Qed.

Lemma suffixes_tail label labels a : label :: labels ∈ suffixes a -> labels ∈ suffixes a.
Proof.
  induction a as [| x a IH]; intros Hin.
  - by apply list_elem_of_singleton in Hin.
  - cbn [suffixes] in *. apply elem_of_cons. apply elem_of_cons in Hin as [[= -> ->] | Hin]; right; [apply suffixes_refl | auto].
Qed.

Section Dictionary.
Context (std_hash : list Z -> Z) (names : list DomainName).

(** The hash of a name, which does not depend on the case. *)
Definition subhash (labels : list (list Z)) : option Z := head (ComputeDomainNameSubhashes std_hash labels).

Definition suffixes_of_names : list (list (list Z)) := names ≫= fun n => suffixes (labels_ n).

(** No two different names that can be shared have one hash. *)
Definition collision_free : Prop :=
  forall a b, a ∈ suffixes_of_names -> b ∈ suffixes_of_names -> subhash a = subhash b -> lower a = lower b.

#[export] Instance collision_free_dec : Decision collision_free.
Proof.
  refine (cast_if (decide (Forall (fun a => Forall (fun b => subhash a = subhash b -> lower a = lower b) suffixes_of_names)
    suffixes_of_names))).
  - intros a b Ha Hb. rewrite Forall_forall in f. specialize (f a Ha). rewrite Forall_forall in f. by apply f.
  - intros Hc. apply n. apply Forall_forall. intros a Ha. apply Forall_forall. intros b Hb. by apply Hc.
Defined.

Lemma suffix_of_names_tail label labels : label :: labels ∈ suffixes_of_names -> labels ∈ suffixes_of_names.
Proof.
  unfold suffixes_of_names. rewrite !list_elem_of_bind. intros (n & Hin & Hn). exists n. split; [| done].
  by eapply suffixes_tail.
Qed.

(** A pointer of the dictionary leads to the labels with its hash. *)
Definition entry_ok (buf : list Z) (bound h pointer : Z) : Prop :=
  exists target labels spelled end_ processed,
    pointer = MakePointerLabel target /\ 0 <= target <= kLabelOffsetMask /\
    labels ∈ suffixes_of_names /\ subhash labels = Some h /\ lower spelled = lower labels /\
    spells buf target spelled end_ processed /\ processed <= bound.

Definition dictionary_ok (buf : list Z) (bound : Z) (dictionary : gmap Z Z) : Prop :=
  forall h pointer, dictionary !! h = Some pointer -> entry_ok buf bound h pointer.

Lemma entry_ok_app buf rest bound bound' h pointer :
  entry_ok buf bound h pointer -> bound <= bound' -> entry_ok (buf ++ rest) bound' h pointer.
Proof using.
  intros (target & labels & spelled & end_ & processed & H1 & H2 & H3 & H4 & H5 & H6 & H7) Hb.
  exists target, labels, spelled, end_, processed. split_and!; try done; [lia | lia | by apply spells_app | lia].
Qed.

Lemma dictionary_ok_app buf rest bound bound' d :
  dictionary_ok buf bound d -> bound <= bound' -> dictionary_ok (buf ++ rest) bound' d.
Proof using. intros Hw Hb h pointer Hd. eapply entry_ok_app; [by apply Hw | done]. Qed.

Lemma label_ok_cons (label : list Z) labels : Forall label_ok (label :: labels) -> label_ok label /\ Forall label_ok labels.
Proof using. by intros H%Forall_cons. Qed.

(** What writing labels appends spells them, and so do the positions that the
    dictionary gets. *)
Lemma WriteLabels_spells bound labels : forall tentative w w',
  collision_free -> 0 <= bound -> dictionary_ok (output w) bound (dictionary_ w) -> labels ∈ suffixes_of_names -> Forall label_ok labels ->
  WriteLabels std_hash labels tentative w = Ret (true, w') ->
  exists bytes spelled processed,
    output w' = output w ++ bytes /\ lower spelled = lower labels /\
    spells (output w') (offset w) spelled (offset w') processed /\ processed <= zlen bytes + bound /\
    forall h pointer, dictionary_ w' !! h = Some pointer ->
      dictionary_ w !! h = Some pointer \/ tentative !! h = Some pointer \/ entry_ok (output w') (zlen bytes + bound) h pointer.
Proof using.
  induction labels as [| label labels IH]; intros tentative w w' Hfree Hbound Hw Hin Hok E.
  - cbn in E. apply and_then_true in E as (w1 & E1%WriteBytes_true & [= <-]). subst w1.
    exists (be_encode 1 kLabelTermination), [], 0. split; [done |]. split; [done |]. unfold offset. cbn.
    pose proof (zlen_nonneg (output w)).
    rewrite !zlen_app, zlen_be_encode. split; [| split; [lia |]].
    + apply spells_end; [done | rewrite zlen_app, zlen_be_encode; lia |]. rewrite <- (app_nil_r (_ ++ _)), <- app_assoc. by apply slice_at.
    + intros h pointer [Hd | [_ Hd]]%lookup_union_Some_raw; auto.
  - cbn in E. set (h0 := ComputeAggregateHash _ _ _) in E.
    assert (Hh0 : subhash (label :: labels) = Some h0) by done. clearbody h0.
    destruct (dictionary_ w !! h0) as [pointer |] eqn:Hd0.
    + apply and_then_true in E as (w1 & E1%WriteBytes_true & [= <-]). subst w1.
      destruct (Hw h0 pointer Hd0) as (target & labels' & spelled & end_ & processed & -> & Ht & Hin' & Hh & Hl & Hs & Hp).
      exists (be_encode 2 (MakePointerLabel target)), spelled, (processed + 2).
      pose proof (zlen_nonneg (output w)). unfold offset. cbn [output]. split; [done |]. split.
      { rewrite Hl. apply Hfree; try done. by rewrite Hh, Hh0. }
      cbn [update output dictionary_]. rewrite !zlen_app, zlen_be_encode. split; [| split; [lia |]].
      * eapply spells_pointer; [done | rewrite zlen_app, zlen_be_encode; lia | done | | by apply spells_app].
        rewrite <- (app_nil_r (_ ++ _)), <- app_assoc. by apply slice_at.
      * intros h pointer [Hd | [_ Hd]]%lookup_union_Some_raw; auto.
    + destruct (label_ok_cons _ _ Hok) as [Hl Hls].
      apply and_then_true in E as (w1 & E1%WriteBytes_true & E).
      apply and_then_true in E as (w2 & E2%WriteBytes_true & E). subst w1 w2. cbn [output dictionary_ length_of_buffer update] in E.
      set (tentative1 := if IsValidPointerLabelOffset (offset w) then _ else _) in E.
      set (b1 := be_encode 1 (MakeDirectLabel (u8 (zlen label)))) in E.
      apply IH in E as (bytes & spelled & processed & Ho & Hsl & Hs & Hp & Hd); try done.
      * cbn [output] in Ho, Hd. rewrite <- !app_assoc in Ho.
        exists (b1 ++ label ++ bytes), (label :: spelled), (processed + 1 + zlen label).
        assert (Hs' : spells (output w') (offset w) (label :: spelled) (offset w') (processed + 1 + zlen label)).
        { pose proof (zlen_nonneg (output w)). pose proof (zlen_nonneg bytes). pose proof (zlen_nonneg label).
          assert (zlen (output w') = offset w + 1 + zlen label + zlen bytes).
          { rewrite Ho. unfold b1, offset. rewrite !zlen_app, zlen_be_encode. lia. }
          apply spells_label; [done | lia | done | | |].
          - rewrite Ho. by apply slice_at.
          - rewrite Ho. rewrite (assoc_L (++)). apply slice_at; [| done].
            unfold b1, offset. by rewrite zlen_app, zlen_be_encode.
          - replace (offset w + 1 + zlen label) with (zlen ((output w ++ b1) ++ label)); [exact Hs |].
            unfold b1, offset. by rewrite !zlen_app, zlen_be_encode. }
        split; [done |]. split; [by unfold lower; cbn [map]; f_equal |]. split; [exact Hs' |].
        assert (Hz : zlen (b1 ++ label ++ bytes) = 1 + zlen label + zlen bytes).
        { unfold b1. by rewrite !zlen_app, zlen_be_encode, Z.add_assoc. }
        rewrite Hz. pose proof (zlen_nonneg label). split; [lia |].
        intros h pointer [Hd' | [Hd' | Hd']]%Hd; [by left | | right; right].
        -- unfold tentative1 in Hd'. destruct (IsValidPointerLabelOffset (offset w)) eqn:Hv; [| auto].
           apply lookup_union_Some_raw in Hd' as [Hd' | [_ [<- <-]%lookup_singleton_Some]]; [auto | right; right].
           unfold IsValidPointerLabelOffset, kLabelOffsetMask in Hv. apply Z.leb_le in Hv.
           assert (0 <= offset w) by apply zlen_nonneg.
           exists (offset w), (label :: labels), (label :: spelled), (offset w'), (processed + 1 + zlen label).
           split; [by rewrite wrap_small by (unfold is_u; lia) |]. split; [unfold kLabelOffsetMask; lia |].
           split; [done |]. split; [done |]. split; [by unfold lower; cbn [map]; f_equal |]. split; [done | lia].
        -- rewrite <- (app_nil_r (output w')). eapply entry_ok_app; [exact Hd' | lia].
      * by do 2 (apply (dictionary_ok_app _ _ bound); [| done]).
      * by eapply suffix_of_names_tail.
Qed.
End Dictionary.
