(* ===== verification/MdnsRoundTrip.v ===== *)
(** What MdnsWriter writes, MdnsReader reads back (MdnsWriter.v, MdnsReader.v):
    names up to case, everything else exactly. *)

From S2P Require Import Prelude Text Numeric Wire IpAddress Mdns MdnsWriter MdnsReader MdnsReaderProps MdnsWriterProps MdnsNames.

(** * Bitmaps of types *)

Fixpoint sublists {T} (l : list T) : list (list T) :=
  match l with
  | [] => [[]]
  | x :: l => map (cons x) (sublists l) ++ sublists l
  end.

Lemma sorted_sublists (l : list Z) : forall types,
  StronglySorted Z.lt l -> StronglySorted Z.lt types -> Forall (.∈ l) types -> types ∈ sublists l.
Proof.
  induction l as [| x l IH]; intros types Hl Ht Hin.
  - destruct types as [| t types]; [by apply list_elem_of_singleton |]. by apply Forall_cons in Hin as [Hin%not_elem_of_nil _].
  - cbn [sublists]. apply elem_of_app. apply StronglySorted_inv in Hl as [Hl Hx].
    destruct types as [| t types].
    { right. apply IH; [done | done | by apply Forall_nil]. }
    apply Forall_cons in Hin as [Hin Hins]. pose proof (StronglySorted_inv Ht) as [Hts Htl].
    assert (Hrest : t = x \/ t ∈ l) by (by apply elem_of_cons in Hin).
    assert (x <= t).
    { destruct Hrest as [-> | Hrest]; [lia |]. pose proof (proj1 (Forall_forall _ _) Hx t Hrest). lia. }
    assert (Hins' : Forall (.∈ l) types).
    { apply Forall_forall. intros u Hu. pose proof (proj1 (Forall_forall _ _) Htl u Hu).
      pose proof (proj1 (Forall_forall _ _) Hins u Hu) as Hux. apply elem_of_cons in Hux as [-> | Hux]; [lia | done]. }
    destruct Hrest as [-> | Hrest].
    + left. apply list_elem_of_fmap. exists types. split; [done |]. by apply IH.
    + right. apply IH; [done | done | by apply Forall_cons].
Qed.

Definition bitmap_of (types : list Z) : list Z := drop 2 (encode_types types 0 [] []).

Definition bitmap_ok (types : list Z) : Prop :=
  types ≠ [] -> let bitmap := bitmap_of types in
  encode_types types 0 [] [] = 0 :: zlen bitmap :: bitmap /\ 1 <= zlen bitmap /\ zlen bitmap <= 32
  /\ bitmap_types 0 bitmap = types /\ merge_sort (≤) types = types /\ Forall (fun b => u8 b = b) bitmap.
#[export] Instance bitmap_ok_dec types : Decision (bitmap_ok types).
Proof. unfold bitmap_ok. apply _. Defined.

(** The supported types fit in one block. *)
Lemma supported_bitmap_ok types :
  StronglySorted Z.lt types -> Forall (.∈ kSupportedDnsTypes) types -> bitmap_ok types.
Proof.
  intros Hs Hin. assert (Hall : forallb (fun t => bool_decide (bitmap_ok t)) (sublists (merge_sort (≤) kSupportedDnsTypes)) = true)
    by by vm_compute.
  rewrite forallb_forall in Hall. apply (bool_decide_unpack _), Is_true_true, Hall, list_elem_of_In, sorted_sublists.
  - change (merge_sort (≤) kSupportedDnsTypes) with [kA; kPTR; kTXT; kAAAA; kSRV; kNSEC; kANY].
    repeat constructor.
  - done.
  - eapply Forall_impl; [exact Hin |]. intros t Ht. by rewrite merge_sort_Permutation.
Qed.

(** NSEC data that can be written and read: a type or more, without doubles. *)
Definition nsec_ok (n : NsecRdata) : Prop :=
  n = new_NsecRdata (next_domain_name_ n) (types_ n) /\ types_ n ≠ [] /\ StronglySorted Z.lt (types_ n).

Section Inverts.
Context (std_hash : list Z -> Z) (names : list DomainName) (Hfree : collision_free std_hash names).

(** Every pointer of the dictionary leads to labels before the offset. *)
Definition writer_ok (w : MdnsWriter) : Prop := dictionary_ok std_hash names (output w) (offset w) (dictionary_ w).

Lemma writer_ok_new length : writer_ok (new_MdnsWriter length).
Proof using. intros h pointer Hd. cbn [dictionary_ new_MdnsWriter] in Hd. by rewrite lookup_empty in Hd. Qed.

(** Where [f] writes, between offsets with [E], the reader [r] finds a value
    with [P], and ends where the writer did, whatever is written later. *)
Definition inverts {A} (E : Z -> Z -> Prop) (f : Writes) (r : list Z -> Reads A) (P : A -> Prop) : Prop :=
  forall w w', writer_ok w -> f w = Ret (true, w') -> E (offset w) (offset w') ->
  writer_ok w' /\ (exists bytes, output w' = output w ++ bytes) /\
  forall rest, exists a, r (output w' ++ rest) (offset w) = Ret (Some (a, offset w')) /\ P a.

Definition anywhere (_ _ : Z) : Prop := True.

Lemma inverts_weaken {A} (E E' : Z -> Z -> Prop) f (r : list Z -> Reads A) (P P' : A -> Prop) :
  inverts E f r P -> (forall s e, E' s e -> E s e) -> (forall a, P a -> P' a) -> inverts E' f r P'.
Proof using.
  intros Hf HE HP w w' Hw Ef He. destruct (Hf w w' Hw Ef (HE _ _ He)) as (H1 & H2 & H3). split; [done |]. split; [done |].
  intros rest. destruct (H3 rest) as (a & Hr & Ha). exists a. auto.
Qed.

Lemma bind_reads {A B} (m : Reads A) (k : A -> Reads B) o a o' : m o = Ret (Some (a, o')) -> (m ≫= k) o = k a o'.
Proof using. intros E. unfold mbind, reads_bind. by rewrite E. Qed.

Lemma inverts_seq {A B} (E : Z -> Z -> Prop) f g (m : list Z -> Reads A) (k : list Z -> A -> Reads B) P Q :
  inverts anywhere f m P ->
  (forall a s p, P a -> inverts (fun p' e => p' = p /\ E s e) g (fun buf => k buf a) Q) ->
  inverts E (f >& g) (fun buf => m buf ≫= k buf) Q.
Proof using.
  intros Hf Hg w w' Hw (w1 & Ef & Eg)%and_then_true He.
  destruct (Hf w w1 Hw Ef I) as (Hw1 & (b1 & Ho1) & Hr1).
  assert (Hg' : forall a, P a -> inverts (fun p' e => p' = offset w1 /\ E (offset w) e) g (fun buf => k buf a) Q) by eauto.
  destruct (Hr1 []) as (a0 & _ & Ha0). destruct (Hg' a0 Ha0 w1 w' Hw1 Eg (conj eq_refl He)) as (Hw' & (b2 & Ho2) & _).
  split; [done |]. split; [exists (b1 ++ b2); by rewrite Ho2, Ho1, app_assoc |]. intros rest.
  destruct (Hr1 (b2 ++ rest)) as (a & Hra & Ha). rewrite app_assoc, <- Ho2 in Hra.
  destruct (Hg' a Ha w1 w' Hw1 Eg (conj eq_refl He)) as (_ & _ & Hr2). destruct (Hr2 rest) as (b & Hrb & Hb).
  exists b. split; [| done]. by rewrite (bind_reads _ _ _ _ _ Hra).
Qed.

Lemma inverts_last {A B} (E : Z -> Z -> Prop) f (m : list Z -> Reads A) (k : list Z -> A -> Reads B) P Q :
  inverts E f m P ->
  (forall a s e, P a -> E s e -> exists b, Q b /\ forall buf, k buf a e = Ret (Some (b, e))) ->
  inverts E f (fun buf => m buf ≫= k buf) Q.
Proof using.
  intros Hf Hk w w' Hw Ef He. destruct (Hf w w' Hw Ef He) as (H1 & H2 & H3). split; [done |]. split; [done |].
  intros rest. destruct (H3 rest) as (a & Hr & Ha). destruct (Hk a _ _ Ha He) as (b & Hb & Hkb).
  exists b. split; [| done]. by rewrite (bind_reads _ _ _ _ _ Hr).
Qed.

Lemma inverts_cursor {A} E f (r : list Z -> Reads A) P : inverts E f r P -> inverts E (WithCursor f) r P.
Proof using.
  intros Hf w w' Hw Ef He. apply Hf; [done | | done]. unfold WithCursor in Ef.
  destruct (f w) as [[[|] w1] |]; cbn in Ef; congruence.
Qed.

Lemma inverts_offset {A} (E : Z -> Z -> Prop) f (k : list Z -> Z -> Reads A) P :
  (forall o, inverts (fun s e => s = o /\ E s e) f (fun buf => k buf o) P) ->
  inverts E f (fun buf => get_offset ≫= k buf) P.
Proof using.
  intros Hk w w' Hw Ef He. destruct (Hk (offset w) w w' Hw Ef (conj eq_refl He)) as (H1 & H2 & H3).
  split; [done |]. split; [done |]. intros rest. destruct (H3 rest) as (a & Hr & Ha). by exists a.
Qed.

Lemma inverts_require {A} (E : Z -> Z -> Prop) f b (k : list Z -> unit -> Reads A) P :
  (forall s e, E s e -> b = true) -> inverts E f (fun buf => k buf tt) P ->
  inverts E f (fun buf => require b ≫= k buf) P.
Proof using.
  intros Hb Hk w w' Hw Ef He. rewrite (Hb _ _ He). by apply Hk.
Qed.

(** ** Bytes and integers *)

Lemma writer_ok_bytes w bytes :
  writer_ok w -> writer_ok (mkWriter (output w ++ bytes) (length_of_buffer w) (dictionary_ w)).
Proof using.
  intros Hw. eapply dictionary_ok_app; [exact Hw |]. unfold offset. cbn. rewrite zlen_app.
  pose proof (zlen_nonneg bytes). lia.
Qed.

Lemma inverts_appends E f bytes :
  (forall w w', f w = Ret (true, w') -> w' = mkWriter (output w ++ bytes) (length_of_buffer w) (dictionary_ w)) ->
  inverts E f (fun buf => ReadBytes buf (zlen bytes)) (eq bytes).
Proof using.
  intros Hf w w' Hw ->%Hf _. split; [by apply writer_ok_bytes |]. split; [by exists bytes |].
  intros rest. exists bytes. split; [| done]. unfold ReadBytes, offset. cbn.
  rewrite <- app_assoc, slice_at by done. unfold size. rewrite !zlen_app. pose proof (zlen_nonneg rest).
  by rewrite (proj2 (Z.leb_le _ _)) by lia.
Qed.

Lemma inverts_bytes E bytes : inverts E (WriteBytes bytes) (fun buf => ReadBytes buf (zlen bytes)) (eq bytes).
Proof using. apply inverts_appends, WriteBytes_true. Qed.

Lemma inverts_integer E n v :
  is_u (8 * Z.of_nat n) v -> inverts E (WriteInteger n v) (fun buf => ReadInteger buf n) (eq v).
Proof using.
  intros Hv. pose proof (inverts_bytes E (be_encode n v)) as Hb. rewrite zlen_be_encode in Hb.
  intros w w' Hw Ef He. destruct (Hb w w' Hw Ef He) as (H1 & H2 & H3). split; [done |]. split; [done |].
  intros rest. destruct (H3 rest) as (a & Hr & <-). exists v. split; [| done].
  unfold ReadInteger. rewrite (bind_reads _ _ _ _ _ Hr). cbn. by rewrite be_decode_encode, wrap_small.
Qed.

(** A length that is written last, read first. *)
Lemma inverts_record_length {A} E body (k : list Z -> Z -> Z -> Reads A) Q :
  oblivious body ->
  (forall n o, 0 <= n <= 65535 -> inverts (fun s e => n = e - o - 2 /\ s = o + 2) body (fun buf => k buf o n) Q) ->
  inverts E (WithRecordLength body) (fun buf => start ← get_offset; n ← ReadInteger buf 2; k buf start n) Q.
Proof using.
  intros Hob Hk w w' Hw Ef He. apply record_length_first in Ef as (n & Hn & Ef & Heq); [| done].
  apply and_then_true in Ef as (w1 & E1 & E2). pose proof E1 as E0%WriteBytes_true. subst w1.
  assert (Hlen : offset (mkWriter (output w ++ be_encode 2 n) (length_of_buffer w) (dictionary_ w)) = offset w + 2)
    by (unfold offset; cbn [output]; by rewrite zlen_app, zlen_be_encode).
  destruct (Hk n (offset w) Hn _ w' (writer_ok_bytes w (be_encode 2 n) Hw) E2) as (H1 & (bytes & H2) & H3); [lia |].
  rewrite Hlen in H3. cbn [output] in H2. split; [done |]. split; [exists (be_encode 2 n ++ bytes); by rewrite H2, app_assoc |].
  intros rest. destruct (H3 rest) as (a & Hr & Ha). exists a. split; [| done].
  erewrite (bind_reads get_offset) by done. erewrite bind_reads; [exact Hr |].
  assert (Hi : inverts anywhere (WriteInteger 2 n) (fun buf => ReadInteger buf 2) (eq n)) by (apply inverts_integer; unfold is_u; cbn; lia).
  destruct (Hi w (mkWriter (output w ++ be_encode 2 n) (length_of_buffer w) (dictionary_ w)) Hw E1 I) as (_ & _ & Hri).
  destruct (Hri (bytes ++ rest)) as (n' & Hri' & <-). cbn [output] in Hri'. rewrite Hlen in Hri'.
  by rewrite H2, <- (app_assoc (output w ++ _)).
Qed.

(** ** Names *)

(** A name that was read where [n] was written. *)
Definition name_like (n m : DomainName) : Prop :=
  lower (labels_ m) = lower (labels_ n) /\ Forall bytes_ok (labels_ m) /\ name_empty m = false.

Lemma name_like_eq n m : name_ok n -> name_like n m -> name_eq n m = true.
Proof using.
  intros [Hn _] (Hl & Hm & _). apply labels_eq_lower; [by apply label_ok_bytes | done | done].
Qed.

Lemma inverts_name E n :
  n ∈ names -> name_ok n -> inverts E (WriteName std_hash n) (fun buf => ReadName buf) (name_like n).
Proof using Hfree.
  intros Hin (Hl & Hsize & Hmax) w w' Hw Ew _. unfold WriteName in Ew.
  destruct (name_empty n) eqn:Hempty; [done |]. unfold WithCursor in Ew.
  destruct (WriteLabels std_hash (labels_ n) ∅ w) as [[[|] w1] |] eqn:E1; cbn in Ew; [| done | done]. injection Ew as ->.
  apply (WriteLabels_spells std_hash names (offset w)) in E1 as (bytes & spelled & processed & Ho & Hs & Hsp & Hp & Hd);
    [| done | apply zlen_nonneg | done | | done].
  - assert (zlen bytes + offset w = offset w') as Hb by (unfold offset; rewrite Ho, zlen_app; lia). rewrite Hb in *.
    split; [| split; [by exists bytes |]].
    + intros h pointer [Hd' | [Hd' | Hd']]%Hd; [| by rewrite lookup_empty in Hd' | done].
      rewrite Ho. apply (entry_ok_app _ _ _ _ (offset w)); [by apply Hw |]. pose proof (zlen_nonneg bytes). lia.
    + intros rest. pose proof (spells_ok _ _ _ _ _ Hsp) as (_ & _ & _ & _ & _ & Hok).
      apply (spells_app _ rest) in Hsp. apply ReadName_spells in Hsp.
      * eexists. split; [exact Hsp |]. split; [done |]. split; [by apply label_ok_bytes |].
        unfold name_empty in *. cbn. destruct spelled, (labels_ n); done.
      * rewrite zlen_app. fold (offset w'). pose proof (zlen_nonneg rest). lia.
      * rewrite (lower_wire_size _ _ Hs). lia.
  - unfold suffixes_of_names. apply list_elem_of_bind. exists n. split; [apply suffixes_refl | done].
Qed.

(** ** Record data *)

Context (max_rdata : Z).

Ltac step := eapply inverts_seq; [first [apply inverts_integer; (done || unfold is_u; cbn; lia) | by apply inverts_name] |].

Lemma require_length_eq start n e : n = e - start - 2 -> require_length start n e = Ret (Some (tt, e)).
Proof using.
  intros ->. unfold require_length. rewrite (bind_reads _ _ _ e e) by done. by rewrite (proj2 (Z.eqb_eq _ _)) by lia.
Qed.

Lemma inverts_Srv E priority weight port target :
  target ∈ names -> rdata_ok kSRV (SrvRecordRdata priority weight port target) ->
  inverts E (WriteRdata std_hash (SrvRecordRdata priority weight port target)) (fun buf => ReadSrv buf)
    (fun r => rdata_eq (SrvRecordRdata priority weight port target) r = true).
Proof using Hfree.
  intros Hin (_ & H1 & H2 & H3 & Hn). cbn [WriteRdata]. unfold ReadSrv. apply inverts_record_length.
  { repeat apply oblivious_and_then; try apply oblivious_bytes. apply oblivious_WriteName. }
  intros n o Hlen. step. intros ? s p <-. step. intros ? s1 p1 <-. step. intros ? s2 p2 <-.
  eapply inverts_last; [by apply inverts_name |]. intros t s3 e Ht He.
  exists (SrvRecordRdata priority weight port t). cbn [rdata_eq]. rewrite !Z.eqb_refl, name_like_eq by done. split; [done |].
  intros buf. erewrite bind_reads; [done |]. apply require_length_eq. lia.
Qed.

Lemma inverts_Ptr E target :
  target ∈ names -> rdata_ok kPTR (PtrRecordRdata target) ->
  inverts E (WriteRdata std_hash (PtrRecordRdata target)) (fun buf => ReadPtr buf)
    (fun r => rdata_eq (PtrRecordRdata target) r = true).
Proof using Hfree.
  intros Hin (_ & Hn). cbn [WriteRdata]. unfold ReadPtr. apply inverts_record_length; [apply oblivious_WriteName |].
  intros n o Hlen. eapply inverts_last; [by apply inverts_name |]. intros t s3 e Ht He.
  exists (PtrRecordRdata t). cbn [rdata_eq]. rewrite name_like_eq by done. split; [done |].
  intros buf. erewrite bind_reads; [done |]. apply require_length_eq. lia.
Qed.

Lemma inverts_address E version address :
  address_ok version address -> inverts E (WriteAddress address) (fun buf => ReadAddress buf version) (eq address).
Proof using.
  intros (Hv & Hl & Hb & Hs). unfold WriteAddress. rewrite take_ge by lia. destruct address as [v bytes scope].
  cbn in Hv, Hs. subst v scope. unfold ReadAddress.
  replace (Z.of_nat (match version with IpAddress.kV6 => kV6Size | IpAddress.kV4 => kV4Size end)) with (zlen bytes)
    by (unfold zlen, address_size in *; cbn in Hl; by destruct version; rewrite Hl).
  eapply inverts_last; [apply inverts_bytes |]. intros l s e <- _. by eexists.
Qed.

Lemma inverts_A E address :
  rdata_ok kA (ARecordRdata address 0) ->
  inverts E (WriteRdata std_hash (ARecordRdata address 0)) (fun buf => ReadA buf)
    (fun r => rdata_eq (ARecordRdata address 0) r = true).
Proof using.
  intros (_ & Ha & _). cbn [WriteRdata]. unfold ReadA. apply inverts_cursor. step. intros ? s p <-.
  apply inverts_require; [done |]. eapply inverts_last; [by apply inverts_address |]. intros ? s1 e <- _.
  eexists. split; [| done]. cbn [rdata_eq]. by rewrite bool_decide_true.
Qed.

Lemma inverts_AAAA E address :
  rdata_ok kAAAA (AAAARecordRdata address 0) ->
  inverts E (WriteRdata std_hash (AAAARecordRdata address 0)) (fun buf => ReadAAAA buf)
    (fun r => rdata_eq (AAAARecordRdata address 0) r = true).
Proof using.
  intros (_ & Ha & _). cbn [WriteRdata]. unfold ReadAAAA. apply inverts_cursor. step. intros ? s p <-.
  apply inverts_require; [done |]. eapply inverts_last; [by apply inverts_address |]. intros ? s1 e <- _.
  eexists. split; [| done]. cbn [rdata_eq]. by rewrite bool_decide_true.
Qed.

Lemma inverts_Raw E type rdata :
  rdata_ok type (RawRecordRdata rdata) -> rdata_wire_size (RawRecordRdata rdata) <= max_rdata ->
  inverts E (WriteRdata std_hash (RawRecordRdata rdata)) (fun buf => ReadRaw buf max_rdata)
    (fun r => rdata_eq (RawRecordRdata rdata) r = true).
Proof using.
  intros (_ & Hb & Hmax) Hsize. cbn [WriteRdata rdata_wire_size] in *. unfold ReadRaw, kMaxRawRecordSize in *.
  pose proof (zlen_nonneg rdata). rewrite (wrap_small 16) by (unfold is_u; lia).
  rewrite take_ge by (unfold zlen; lia). apply inverts_cursor. step. intros ? s p <-.
  apply inverts_require; [intros ? ? _; apply Z.leb_le; lia |]. eapply inverts_last; [apply inverts_bytes |]. intros ? s1 e <- _.
  exists (RawRecordRdata rdata). split; [by apply bool_decide_true |]. intros _. unfold TryCreateRaw.
  by rewrite (proj2 (Z.ltb_ge _ _)).
Qed.
(** Where a body takes at most [k] bytes, the offsets are that close. *)
Lemma inverts_sized {A} (E : Z -> Z -> Prop) f k (r : list Z -> Reads A) P :
  sized f k -> inverts (fun s e => E s e /\ e - s <= k) f r P -> inverts E f r P.
Proof using.
  intros Hs Hf w w' Hw Ef He. apply Hf; try done. destruct (Hs w) as (s & w1 & E1 & _ & Ho & _).
  rewrite Ef in E1. injection E1 as _ <-. split; [done | lia].
Qed.

(** A number of the reader that is fixed by where the writer is. *)
Lemma inverts_number {A} (E : Z -> Z -> Prop) f a b (r : Z -> list Z -> Reads A) P :
  (forall w w', f w = Ret (true, w') -> E (offset w) (offset w') -> a = b) ->
  inverts E f (r b) P -> inverts E f (r a) P.
Proof using. intros Hab Hr w w' Hw Ef He. rewrite (Hab w w' Ef He). by apply Hr. Qed.

Lemma inverts_text E t :
  1 <= zlen t <= 255 -> inverts E (WriteText t) (fun buf => ReadEntry buf) (eq t).
Proof using.
  intros Ht w w' Hw Ew He. unfold WriteText in Ew. rewrite (proj2 (Z.ltb_ge _ _)) in Ew by lia.
  assert (Hi : inverts E (WithCursor (WriteInteger 1 (zlen t) >& WriteBytes t)) (fun buf => ReadEntry buf) (eq t)); [| by apply Hi].
  apply inverts_cursor. unfold ReadEntry. step. intros ? s p <-. apply inverts_bytes.
Qed.

Lemma WriteText_true t w w' : WriteText t w = Ret (true, w') -> offset w' = offset w + 1 + zlen t.
Proof using.
  unfold WriteText, WithCursor. destruct (_ <? _); [done |].
  destruct ((WriteInteger 1 (zlen t) >& WriteBytes t) w) as [[[|] w1] |] eqn:E; cbn; [| done | done]. intros [= <-].
  apply and_then_true in E as (w2 & ->%WriteBytes_true & ->%WriteBytes_true). unfold offset. cbn [output].
  by rewrite !zlen_app, zlen_be_encode.
Qed.

Lemma offset_prefix w w' : (exists bytes, output w' = output w ++ bytes) -> offset w <= offset w'.
Proof using. intros (bytes & Ho). unfold offset. rewrite Ho, zlen_app. pose proof (zlen_nonneg bytes). lia. Qed.

Lemma entries_loop_inverts start n texts : forall fuel acc,
  Forall (fun l => bytes_ok l /\ 1 <= zlen l <= 255) texts ->
  inverts (fun s e => n = e - start - 2 /\ e - s < Z.of_nat fuel) (WriteEach WriteText texts)
    (fun buf => entries_loop buf fuel start n acc) (eq (acc ++ texts)).
Proof using.
  induction texts as [| t texts IH]; intros fuel acc Ht w w' Hw Ew [Hn Hfuel].
  - cbn in Ew. injection Ew as <-. split; [done |]. split; [by exists []; rewrite app_nil_r |].
    intros rest. exists (acc ++ []). split; [| done]. destruct fuel as [| fuel]; [lia |]. cbn [entries_loop].
    rewrite (proj2 (Z.ltb_ge _ _)) by lia. by rewrite app_nil_r.
  - apply Forall_cons in Ht as [[Hb Ht] Hts]. cbn [WriteEach] in Ew.
    apply and_then_true in Ew as (w1 & E1 & E2). pose proof (WriteText_true _ _ _ E1) as Ho1.
    destruct (inverts_text anywhere t Ht w w1 Hw E1 I) as (Hw1 & (b1 & Hb1) & Hr1).
    destruct (IH (pred fuel) (acc ++ [t]) Hts w1 w' Hw1 E2) as (Hw' & Hb2 & Hr2).
    { split; [done |]. lia. }
    pose proof (offset_prefix _ _ Hb2). destruct Hb2 as (b2 & Hb2). split; [done |].
    split; [exists (b1 ++ b2); by rewrite Hb2, Hb1, app_assoc |]. intros rest. destruct (Hr2 rest) as (a & Hra & <-).
    exists (acc ++ t :: texts). split; [| done]. destruct fuel as [| fuel]; [lia |]. cbn [entries_loop pred] in *.
    rewrite (proj2 (Z.ltb_lt _ _)) by lia. destruct (Hr1 (b2 ++ rest)) as (t' & Hrt & <-).
    rewrite app_assoc, <- Hb2 in Hrt. rewrite (bind_reads _ _ _ _ _ Hrt).
    rewrite (bind_reads _ _ _ tt (offset w1)) by (unfold check; by rewrite OSP_CHECK_true by (apply Z.leb_le; apply Ht)).
    rewrite <- app_assoc in Hra. destruct t; [exfalso; change (zlen []) with 0 in Ht; lia |]. exact Hra.
Qed.

Lemma WriteTexts_inverts start n texts fuel :
  Forall (fun l => bytes_ok l /\ 1 <= zlen l <= 255) texts ->
  inverts (fun s e => n = e - start - 2 /\ e - s < Z.of_nat fuel) (WriteTexts texts)
    (fun buf => entries_loop buf fuel start n []) (eq texts).
Proof using.
  intros Ht. destruct texts as [| t ts]; [| by apply (entries_loop_inverts start n (t :: ts) fuel [])].
  intros w w' Hw Ew [Hn Hfuel]. cbn [WriteTexts] in Ew. pose proof Ew as E0%WriteBytes_true.
  assert (Hz : offset w' = offset w + 1) by (unfold offset; rewrite E0; cbn [output]; by rewrite zlen_app, zlen_be_encode).
  destruct (inverts_integer anywhere 1 0 ltac:(unfold is_u; cbn; lia) w w' Hw Ew I) as (H1 & H2 & H3).
  split; [done |]. split; [done |]. intros rest. exists []. split; [| done]. destruct (H3 rest) as (z & Hr & <-).
  destruct fuel as [| [| fuel]]; [lia | lia |]. cbn [entries_loop]. rewrite (proj2 (Z.ltb_lt _ _)) by lia.
  rewrite (bind_reads _ _ _ [] (offset w')).
  - rewrite (bind_reads _ _ _ tt (offset w')) by done. cbn [entries_loop]. by rewrite (proj2 (Z.ltb_ge _ _)) by lia.
  - unfold ReadEntry. rewrite (bind_reads _ _ _ _ _ Hr). unfold ReadBytes. rewrite (proj2 (Z.leb_le _ _)).
    + unfold slice. by rewrite Z.add_0_r.
    + unfold size, offset. rewrite zlen_app. pose proof (zlen_nonneg rest). lia.
Qed.

Lemma inverts_Txt E t :
  rdata_ok kTXT (TxtRecordRdata t) -> rdata_wire_size (TxtRecordRdata t) <= max_rdata ->
  inverts E (WriteRdata std_hash (TxtRecordRdata t)) (fun buf => ReadTxt buf max_rdata)
    (fun r => rdata_eq (TxtRecordRdata t) r = true).
Proof using.
  intros (_ & Ht) Hsize. cbn [WriteRdata rdata_wire_size] in *. unfold ReadTxt.
  pose proof (sized_WriteTexts t Ht) as Hsized. destruct Ht as [Hl Hc].
  apply inverts_record_length; [apply oblivious_WriteTexts |].
  intros n o Hlen. apply (inverts_sized _ _ _ _ _ Hsized).
  apply inverts_require; [intros s e ?; apply Z.leb_le; lia |].
  eapply (inverts_last _ _ _ _ (eq (texts_ t))).
  - eapply inverts_weaken; [by apply (WriteTexts_inverts o n) | | done]. cbn beta. lia.
  - intros ? s e <- He. exists (TxtRecordRdata t). split; [by apply bool_decide_true |]. intros buf.
    rewrite (bind_reads _ _ _ tt e) by (apply require_length_eq; lia). by rewrite Hc.
Qed.
Lemma WriteEach_bytes bytes w w' :
  Forall (fun b => u8 b = b) bytes -> WriteEach (WriteInteger 1) bytes w = Ret (true, w') ->
  w' = mkWriter (output w ++ bytes) (length_of_buffer w) (dictionary_ w).
Proof using.
  intros Hb. revert w. induction Hb as [| b bytes Hb Hbs IH]; intros w Ew; cbn [WriteEach] in Ew.
  - injection Ew as <-. destruct w. cbn. by rewrite app_nil_r.
  - apply and_then_true in Ew as (w1 & ->%WriteBytes_true & ->%IH). cbn [output length_of_buffer dictionary_].
    by rewrite be_encode_1, Hb, <- app_assoc.
Qed.

Lemma WriteVector_bytes bytes w w' :
  Forall (fun b => u8 b = b) bytes -> WriteVector (WriteInteger 1) bytes w = Ret (true, w') ->
  w' = mkWriter (output w ++ bytes) (length_of_buffer w) (dictionary_ w).
Proof using.
  intros Hb. unfold WriteVector, WithCursor. destruct (WriteEach _ _ _) as [[[|] w1] |] eqn:E; cbn; [| done | done].
  intros [= <-]. by apply WriteEach_bytes.
Qed.

Lemma encoded_bytes types :
  types ≠ [] -> bitmap_ok types -> Forall (fun b => u8 b = b) (encode_types types 0 [] []).
Proof using.
  intros Hne (He & H1 & H32 & _ & _ & Hb)%(fun H => H Hne). rewrite He. constructor; [done |].
  constructor; [apply wrap_small; unfold is_u; lia | done].
Qed.

Lemma inverts_types E types :
  types ≠ [] -> bitmap_ok types ->
  inverts E (WriteEach (WriteInteger 1) (encode_types types 0 [] []))
    (fun buf => ReadTypes buf (zlen (encode_types types 0 [] []))) (eq types).
Proof using.
  intros Hne (He & H1 & H32 & Ht & _ & Hb)%(fun H => H Hne). rewrite He. set (bitmap := bitmap_of types) in *.
  replace (zlen (0 :: zlen bitmap :: bitmap)) with (zlen bitmap + 2) by (rewrite !zlen_cons; lia).
  unfold ReadTypes. cbn [types_loop]. rewrite (proj2 (Z.ltb_lt 0 _)) by lia.
  eapply (inverts_last _ _ _ _ (eq (0, bitmap))).
  - change (inverts E (WriteInteger 1 0 >& WriteInteger 1 (zlen bitmap) >& WriteEach (WriteInteger 1) bitmap)
      (fun buf => ReadBitMap buf) (eq (0, bitmap))).
    unfold ReadBitMap. step. intros ? s p <-. step. intros ? s1 p1 <-. apply inverts_require.
    { intros _ _ _. apply negb_true_iff, orb_false_iff. split; [by apply Z.eqb_neq; lia | by apply Z.ltb_ge; lia]. }
    eapply inverts_last; [apply inverts_appends; intros; by apply WriteEach_bytes |]. intros l s2 e <- _. by eexists.
  - intros ? s e <- _. exists types. split; [done |]. intros buf. rewrite Z.add_0_l, Z.leb_refl.
    rewrite (bind_reads _ _ _ tt e) by done.
    replace (Z.to_nat (zlen bitmap + 2)) with (S (Z.to_nat (zlen bitmap + 1))) by lia. cbn [types_loop].
    rewrite Z.ltb_irrefl. by rewrite app_nil_l, Ht.
Qed.

Lemma inverts_Nsec E n :
  next_domain_name_ n ∈ names -> name_empty (next_domain_name_ n) = false -> nsec_ok n ->
  rdata_ok kNSEC (NsecRecordRdata n) -> rdata_wire_size (NsecRecordRdata n) <= max_rdata ->
  inverts E (WriteRdata std_hash (NsecRecordRdata n)) (fun buf => ReadNsec buf max_rdata)
    (fun r => rdata_eq (NsecRecordRdata n) r = true).
Proof using Hfree.
  intros Hin Hempty (Hn & Hne & Hsorted) (_ & Hname & Htypes) Hsize. cbn [WriteRdata rdata_wire_size] in *. unfold ReadNsec.
  pose proof (supported_bitmap_ok _ Hsorted Htypes) as Hbitmap.
  pose proof (Hbitmap Hne) as (_ & _ & _ & _ & Hsort & _).
  assert (Henc : encoded_types_ n = encode_types (types_ n) 0 [] []).
  { rewrite Hn. unfold new_NsecRdata. cbn [encoded_types_ types_ next_domain_name_]. by rewrite !Hsort. }
  apply inverts_record_length.
  { apply oblivious_and_then; [apply oblivious_WriteName |]. apply oblivious_cursor, oblivious_each. intros. apply oblivious_bytes. }
  intros k o Hk. eapply inverts_sized.
  { apply sized_and_then; [by apply sized_WriteName | apply sized_vector]. }
  eapply inverts_seq; [by apply inverts_name |]. intros name s p Hlike. apply inverts_require.
  { intros s' e (-> & He & Hle). apply Z.leb_le. lia. }
  apply inverts_offset. intros now.
  eapply (inverts_number _ _ _ (zlen (encoded_types_ n))
    (fun k buf => require (0 <? k) ≫= fun _ => types ← ReadTypes buf k; mret (NsecRecordRdata (new_NsecRdata name types)))).
  - intros w w' Ew (Hnow & _ & (Hlen & _) & _). apply WriteVector_bytes in Ew; [| rewrite Henc; by apply encoded_bytes].
    assert (offset w' = offset w + zlen (encoded_types_ n)) by (unfold offset; rewrite Ew; apply zlen_app). lia.
  - rewrite Henc. apply inverts_require.
    { intros _ _ _. destruct (Hbitmap Hne) as (He & H1 & _). rewrite He, !zlen_cons. apply Z.ltb_lt. lia. }
    eapply inverts_last; [apply inverts_cursor; by apply inverts_types |]. intros types s1 e <- _.
    eexists. split; [| done]. cbn [rdata_eq]. rewrite name_like_eq by done. unfold new_NsecRdata. cbn [types_ next_domain_name_].
    by rewrite Hsort, bool_decide_true.
Qed.
(** ** Records and questions *)

Definition nonempty (n : DomainName) : Prop := name_empty n = false.

(** A record that can be sent, with data of a size that the reader takes. *)
Definition record_sendable (r : MdnsRecord) : Prop :=
  record_ok r /\ Forall nonempty (record_names r) /\ rdata_wire_size (rdata_ r) <= max_rdata
  /\ match rdata_ r with NsecRecordRdata n => nsec_ok n | _ => True end.

Lemma inverts_rdata E type r :
  rdata_ok type r -> Forall (.∈ names) (rdata_names r) -> Forall nonempty (rdata_names r) ->
  rdata_wire_size r <= max_rdata -> match r with NsecRecordRdata n => nsec_ok n | _ => True end ->
  inverts E (WriteRdata std_hash r) (fun buf => ReadRdata buf max_rdata type) (fun r' => rdata_eq r r' = true).
Proof using Hfree.
  intros Hr Hin Hne Hsize Hnsec. unfold ReadRdata.
  destruct r as [l | pr we po target | a i | a i | n | t | n | os]; cbn [rdata_names] in Hin, Hne;
    rewrite ?Forall_singleton in Hin, Hne; pose proof Hr as Htype; cbn [rdata_ok] in Htype;
    try (destruct Htype as [-> Htype]; cbn [Z.eqb Pos.eqb kA kPTR kTXT kAAAA kSRV kNSEC]).
  - destruct Htype as (Hs & _). unfold kSupportedDnsTypes in Hs. rewrite !not_elem_of_cons in Hs. destruct_and!.
    repeat (rewrite (proj2 (Z.eqb_neq _ _)) by done).
    rewrite bool_decide_false by (unfold kSupportedDnsTypes; rewrite !not_elem_of_cons; split_and!; done || apply not_elem_of_nil).
    by apply (inverts_Raw E type).
  - by apply inverts_Srv.
  - destruct Htype as [_ ->]. by apply inverts_A.
  - destruct Htype as [_ ->]. by apply inverts_AAAA.
  - by apply inverts_Ptr.
  - by apply inverts_Txt.
  - by apply inverts_Nsec.
  - done.
Qed.

Lemma IsValidConfig_like type ttl r r' :
  rdata_ok type r -> rdata_eq r r' = true -> is_u 32 ttl -> IsValidConfig type ttl r' = true.
Proof using.
  intros Hr He Ht. unfold IsValidConfig, is_u in *. apply andb_true_iff. split; [apply Z.leb_le; lia |].
  destruct r, r'; cbn in Hr, He; try done; by destruct Hr as [-> _].
Qed.

Lemma class_split c (b : Z) : is_u 15 c -> b = 0 \/ b = 1 ->
  let rrclass := Z.lor c (Z.shiftl b kClassMsbShift) in
  is_u 16 rrclass /\ GetDnsClass rrclass = c /\ class_msb rrclass = b.
Proof using.
  intros Hc Hb. cbn zeta. rewrite Z.lor_comm. unfold kClassMsbShift, GetDnsClass, class_msb.
  change kClassMask with (Z.ones 15). change kClassMsbMask with (Z.shiftl 1 15). unfold is_u in *.
  assert (Hlow : Z.land (Z.lor (Z.shiftl b 15) c) (Z.ones 15) = c).
  { rewrite land_ones_wrap, lor_shiftl_add by (done || lia). unfold wrap. rewrite Z.add_comm, Z.mod_add by lia.
    by rewrite Z.mod_small by lia. }
  split; [rewrite lor_shiftl_add by (done || lia); lia |]. split; [done |].
  rewrite Z.shiftr_land. change (Z.shiftr (Z.shiftl 1 15) kClassMsbShift) with (Z.ones 1). change kClassMsbShift with 15. rewrite land_ones_wrap by lia.
  rewrite lor_shiftl_add by (done || lia). rewrite Z.shiftr_div_pow2 by lia. rewrite Z.div_add_l by lia.
  rewrite Z.div_small by lia. unfold wrap. destruct Hb as [-> | ->]; done.
Qed.

Lemma inverts_record r :
  record_sendable r -> Forall (.∈ names) (record_names r) ->
  inverts anywhere (WriteRecord std_hash r) (fun buf => ReadRecord buf max_rdata) (fun r' => record_eq r r' = true).
Proof using Hfree.
  intros ((Hn & Ht & Hc & Httl & Hr) & Hne & Hsize & Hnsec) Hin. apply Forall_cons in Hne as [_ Hne].
  apply Forall_cons in Hin as [Hin Hins]. unfold WriteRecord, ReadRecord. apply inverts_cursor.
  set (b := match record_type_ r with kShared => 0 | kUnique => 1 end).
  destruct (class_split (record_dns_class r) b Hc) as (H16 & Hclass & Hmsb); [unfold b; destruct (record_type_ r); auto |].
  change (Z.lor (record_dns_class r) (Z.shiftl b kClassMsbShift)) with (MakeRecordClass (record_dns_class r) (record_type_ r)) in *.
  step. intros name s p Hlike. step. intros ? s1 p1 <-. step. intros ? s2 p2 <-.
  rewrite (wrap_small 32) by done. step. intros ? s3 p3 <-.
  eapply inverts_last; [by apply inverts_rdata |]. intros r' s4 e Hr' _.
  eexists. split; [| intros buf; unfold TryCreateRecord; by erewrite IsValidConfig_like]. unfold record_eq, IsReannouncementOf. cbn.
  rewrite !Z.eqb_refl, Hr', name_like_eq, Hclass, Z.eqb_refl by done. unfold GetRecordType. rewrite Hmsb.
  unfold b. by destruct (record_type_ r).
Qed.

Lemma inverts_question q :
  question_ok q -> question_name q ∈ names ->
  inverts anywhere (WriteQuestion std_hash q) (fun buf => ReadQuestion buf) (fun q' => question_eq q q' = true).
Proof using Hfree.
  intros (Hn & _ & Ht & Hc) Hin. unfold WriteQuestion, ReadQuestion. apply inverts_cursor.
  set (b := match response_type_ q with kMulticast => 0 | kUnicast => 1 end).
  destruct (class_split (question_dns_class q) b Hc) as (H16 & Hclass & Hmsb); [unfold b; destruct (response_type_ q); auto |].
  change (Z.lor (question_dns_class q) (Z.shiftl b kClassMsbShift)) with (MakeQuestionClass (question_dns_class q) (response_type_ q)) in *.
  step. intros name s p Hlike. step. intros ? s1 p1 <-. eapply inverts_last; [by apply inverts_integer |].
  intros ? s2 e <- _. eexists. split; [| intros buf; unfold TryCreateQuestion; by rewrite (proj2 (proj2 Hlike))].
  unfold question_eq. cbn. rewrite !Z.eqb_refl, name_like_eq, Hclass, Z.eqb_refl by done. unfold GetResponseType. rewrite Hmsb.
  unfold b. by destruct (response_type_ q).
Qed.
(** ** Messages *)

Lemma inverts_each {T} (write : T -> Writes) (read : list Z -> Reads T) (eq : T -> T -> bool) l :
  Forall (fun x => inverts anywhere (write x) read (fun y => eq x y = true)) l ->
  inverts anywhere (WriteVector write l) (fun buf => ReadMany (read buf) (length l)) (fun l' => list_eq eq l l' = true).
Proof using.
  intros Hl. apply inverts_cursor. induction Hl as [| x l Hx Hl IH].
  - intros w w' Hw Ew _. cbn in Ew. injection Ew as <-. split; [done |]. split; [by exists []; rewrite app_nil_r |].
    intros rest. by exists [].
  - change (inverts anywhere (write x >& WriteEach write l)
      (fun buf => entry ← read buf; entries ← ReadMany (read buf) (length l); mret (entry :: entries))
      (fun l' => list_eq eq (x :: l) l' = true)).
    eapply inverts_seq; [exact Hx |]. intros y s p Hy. eapply inverts_last; [eapply inverts_weaken; [exact IH | done | done] |].
    intros l' s1 e Hl' _. exists (y :: l'). split; [| done]. cbn. by rewrite Hy, Hl'.
Qed.

Lemma inverts_header h :
  is_u 16 (header_id h) -> is_u 16 (header_flags h) -> is_u 16 (question_count h) -> is_u 16 (answer_count h) ->
  is_u 16 (authority_record_count h) -> is_u 16 (additional_record_count h) ->
  inverts anywhere (WriteHeader h) (fun buf => ReadHeader buf) (eq h).
Proof using.
  intros H1 H2 H3 H4 H5 H6. unfold WriteHeader, ReadHeader. apply inverts_cursor.
  step. intros ? s p <-. step. intros ? s1 p1 <-. step. intros ? s2 p2 <-. step. intros ? s3 p3 <-. step. intros ? s4 p4 <-.
  eapply inverts_last; [by apply inverts_integer |]. intros ? s5 e <- _. exists h. split; [done |]. by destruct h.
Qed.

Definition counts_ok (m : MdnsMessage) : Prop :=
  zlen (questions_ m) < kMaxMessageFieldEntryCount /\ zlen (answers_ m) < kMaxMessageFieldEntryCount
  /\ zlen (authority_records_ m) < kMaxMessageFieldEntryCount /\ zlen (additional_records_ m) < kMaxMessageFieldEntryCount.

Lemma count_length {T} (l : list T) : zlen l < kMaxMessageFieldEntryCount -> Z.to_nat (u16 (zlen l)) = length l.
Proof using.
  unfold kMaxMessageFieldEntryCount, zlen. intros. rewrite wrap_small by (unfold is_u; lia). lia.
Qed.

Lemma inverts_message m :
  names = message_names m -> message_ok m -> counts_ok m -> Forall record_sendable (message_records m) ->
  inverts anywhere (WriteMessage std_hash m) (fun buf => ReadParts buf max_rdata)
    (fun '(h, questions, answers, authority, additional) =>
      h = header_of m /\ list_eq question_eq (questions_ m) questions = true /\ list_eq record_eq (answers_ m) answers = true
      /\ list_eq record_eq (authority_records_ m) authority = true
      /\ list_eq record_eq (additional_records_ m) additional = true).
Proof using Hfree.
  intros Hnames (Hid & Hq & _) (C1 & C2 & C3 & C4) Hr.
  assert (Hq' : Forall (fun q => inverts anywhere (WriteQuestion std_hash q) (fun buf => ReadQuestion buf)
    (fun q' => question_eq q q' = true)) (questions_ m)).
  { apply Forall_forall. intros q Hin. apply inverts_question; [by apply (proj1 (Forall_forall _ _) Hq) |].
    rewrite Hnames. apply elem_of_app. left. by apply list_elem_of_fmap_2. }
  assert (Hr' : Forall (fun r => inverts anywhere (WriteRecord std_hash r) (fun buf => ReadRecord buf max_rdata)
    (fun r' => record_eq r r' = true)) (message_records m)).
  { apply Forall_forall. intros r Hin. apply inverts_record; [by apply (proj1 (Forall_forall _ _) Hr) |].
    apply Forall_forall. intros n Hn. rewrite Hnames. apply elem_of_app. right. apply list_elem_of_bind. by exists r. }
  unfold message_records in Hr'. rewrite !Forall_app in Hr'. destruct Hr' as (Ha & Hau & Had).
  unfold WriteMessage, ReadParts. apply inverts_cursor. eapply (inverts_seq _ _ _ _ _ (eq (header_of m))).
  { apply inverts_header; try (by apply wrap_is_u); [done |]. cbn. destruct (type_ m), (is_truncated_ m); done. }
  intros ? s p <-. cbn [question_count answer_count authority_record_count additional_record_count header_of].
  rewrite !count_length by done.
  eapply inverts_seq; [by apply inverts_each |]. intros questions s1 p1 Hqs.
  eapply inverts_seq; [by apply inverts_each |]. intros answers s2 p2 Has.
  eapply inverts_seq; [by apply inverts_each |]. intros authority s3 p3 Haus.
  eapply inverts_last; [eapply inverts_weaken; [by apply inverts_each | done | done] |]. intros additional s4 e Hads _.
  eexists. split; [| done]. by split_and!.
Qed.
End Inverts.

Lemma list_eq_length {T} (eq : T -> T -> bool) l l' : list_eq eq l l' = true -> zlen l' = zlen l.
Proof.
  revert l'. induction l as [| x l IH]; intros [| y l']; try done. cbn [list_eq]. rewrite andb_true_iff, !zlen_cons.
  intros [_ H]. by rewrite (IH _ H).
Qed.

(** A message that can be sent. *)
Definition message_sendable (max_rdata : Z) (m : MdnsMessage) : Prop :=
  message_ok m /\ counts_ok m /\ Forall (record_sendable max_rdata) (message_records m).
