(* ===== verification/MdnsProps.v ===== *)
(** What the reader and the writer of DNS messages promise: the theorems over
    Mdns.v, MdnsWriter.v and MdnsReader.v. *)

From S2P Require Import Prelude Text Numeric Wire IpAddress Mdns MdnsWriter MdnsReader MdnsReaderProps MdnsWriterProps MdnsNames MdnsRoundTrip.

(** * A message *)

(** A hash for the examples. *)
Definition demo_hash (s : list Z) : Z := foldl (fun h b => u64 (h * 1099511628211 + b + 1)) 14695981039346656037 s.

Definition demo_name (labels : list (list Z)) : DomainName := mkName (name_wire_size labels) labels.
Definition demo_service : DomainName := demo_name [[95; 99]; [95; 116]; [108]].
Definition demo_instance : DomainName := demo_name [[97; 66]; [95; 67]; [95; 116]; [108]].
Definition demo_host : DomainName := demo_name [[104]; [108]].

Definition demo_record (name : DomainName) (type : Z) (rdata : Rdata) : MdnsRecord :=
  mkRecord name type class_IN kUnique 120 rdata.

Definition demo_message : MdnsMessage :=
  set_truncated (message_of 1 Response
    [mkQuestion demo_service kPTR class_IN kUnicast]
    [demo_record demo_service kPTR (PtrRecordRdata demo_instance);
     demo_record demo_instance kSRV (SrvRecordRdata 0 0 8009 demo_host);
     demo_record demo_instance kTXT (TxtRecordRdata (mkTxt 6 [[105; 100; 61]]))]
    [demo_record demo_host 99 (RawRecordRdata [1; 2; 3])]
    [demo_record demo_host kA (ARecordRdata (mkAddress IpAddress.kV4 [10; 0; 0; 1] 0) 0);
     demo_record demo_host kNSEC (NsecRecordRdata (new_NsecRdata demo_host [kA; kAAAA]))]).

Definition demo_packet : list Z :=
  Eval vm_compute in match SendMessage demo_hash demo_message with Ret (ok packet) => packet | _ => [] end.

(** The message without NSEC data. *)
Definition demo_plain : MdnsMessage :=
  message_of 1 Response (questions_ demo_message) (answers_ demo_message) (authority_records_ demo_message)
    (take 1 (additional_records_ demo_message)).

Ltac bytes := repeat first [apply Forall_nil_2 | apply Forall_cons_2; [split; vm_compute; done |]].
Ltac labels :=
  repeat first [apply Forall_nil_2 | apply Forall_cons_2; [split; [bytes | split; vm_compute; done] |]].
Ltac name := split; [labels | split; [reflexivity | vm_compute; done]].
Ltac number := split; vm_compute; done.

Lemma demo_names_ok : Forall name_ok [demo_service; demo_instance; demo_host].
Proof. repeat first [apply Forall_nil_2 | apply Forall_cons_2]; name. Qed.

Lemma demo_record_ok name type rdata :
  name_ok name -> name_empty name = false -> is_u 16 type -> rdata_ok type rdata -> Forall nonempty (rdata_names rdata) ->
  rdata_wire_size rdata <= 1300 -> match rdata with NsecRecordRdata n => nsec_ok n | _ => True end ->
  record_sendable 1300 (demo_record name type rdata).
Proof.
  intros Hn He Ht Hr Hne Hs Hnsec. split; [| split; [by apply Forall_cons | by split]].
  split; [done |]. split; [done |]. split; [number |]. by split; [number |].
Qed.

Lemma demo_records_sendable : Forall (record_sendable 1300) (message_records demo_message).
Proof.
  pose proof demo_names_ok as Hn. rewrite !Forall_cons in Hn. destruct Hn as (Hs & Hi & Hh & _).
  unfold message_records. cbn [demo_message set_truncated message_of update answers_ authority_records_ additional_records_ app].
  repeat first [apply Forall_nil_2 | apply Forall_cons_2; [apply demo_record_ok; try done; try number |]].
  - by apply Forall_singleton.
  - by apply Forall_singleton.
  - split; [done |]. split; [| done]. apply Forall_singleton. split; [bytes | number].
  - split; [by vm_compute; set_solver |]. split; [bytes | done].
  - split; [done |]. split; [| done]. split; [done |]. split; [done |]. split; [bytes | done].
  - split; [done |]. split; [done |]. apply (bool_decide_unpack _). by vm_compute.
  - by apply Forall_singleton.
  - split; [done |]. split; [done |]. vm_compute. repeat constructor.
Qed.

Lemma demo_sendable : message_sendable 1300 demo_message /\ message_sendable 1300 demo_plain.
Proof.
  pose proof demo_records_sendable as Hr. pose proof demo_names_ok as Hn. rewrite !Forall_cons in Hn.
  assert (Hok : Forall record_ok (message_records demo_message)) by (eapply Forall_impl; [exact Hr | by intros r [H _]]).
  assert (Hq : Forall question_ok (questions_ demo_message)).
  { apply Forall_singleton. split; [apply Hn |]. split; [done |]. split; number. }
  unfold message_records in Hr, Hok. rewrite !Forall_app in Hr, Hok. destruct Hr as (Hr1 & Hr2 & Hr3), Hok as (H1 & H2 & H3).
  pose proof (Forall_take _ 1 _ Hr3). pose proof (Forall_take _ 1 _ H3).
  split; (split; [split; [number | done] |]; split; [done |]; unfold message_records; by rewrite !Forall_app).
Qed.

(** C10 What the sender sends, a receiver reads back: the same message up to the
    case of its names, with the same truncation flag.  This is for the messages
    of message_sendable: no name is empty; fewer than 65535 entries a section;
    the data of each record are no longer than the receiver's maximum; the types
    of an NSEC record are known ones, at least one and none twice; no raw data
    under a type the reader knows, and no OPT record, which is not written as it
    is read; addresses without an interface index, which is not sent.  The writer
    finds names to compress by their hashes alone, so it is also for names of the
    message that std::hash tells apart. *)
Theorem mdns_roundtrip (std_hash : list Z -> Z) (max_rdata : Z) (m : MdnsMessage) (packet : list Z) :
  0 < max_rdata -> message_sendable max_rdata m -> collision_free std_hash (message_names m) ->
  SendMessage std_hash m = Ret (ok packet) ->
  exists m', ReadMessage packet max_rdata = Ret (ok m') /\ message_eq m m' = true /\ is_truncated_ m' = is_truncated_ m.
Proof.
  intros Hmax (Hm & Hcounts & Hr) Hfree Hsend. unfold SendMessage in Hsend.
  destruct (WriteMessage std_hash m _) as [[success w] |] eqn:Ew; cbn [mbind outcome_bind] in Hsend; [| done].
  destruct success; [| done]. injection Hsend as <-.
  destruct (inverts_message std_hash (message_names m) Hfree max_rdata m eq_refl Hm Hcounts Hr _ w (writer_ok_new _ _ _) Ew I)
    as (_ & _ & Hread).
  destruct (Hread []) as ([[[[h questions] answers] authority] additional] & Hread' & -> & Hq & Ha & Hau & Had).
  rewrite app_nil_r in Hread'. change (offset (new_MdnsWriter _)) with 0 in Hread'.
  unfold ReadMessage. rewrite OSP_CHECK_true by (by apply Z.ltb_lt). cbn [mbind outcome_bind].
  rewrite Hread'. cbn [mbind outcome_bind header_flags header_of header_id].
  assert (Hflags : IsValidFlagsSection (MakeFlags (type_ m) (is_truncated_ m)) = true
    /\ GetMessageType (MakeFlags (type_ m) (is_truncated_ m)) = type_ m
    /\ IsMessageTruncated (MakeFlags (type_ m) (is_truncated_ m)) = is_truncated_ m)
    by (by destruct (type_ m), (is_truncated_ m)).
  destruct Hflags as (-> & -> & ->). cbn [negb]. unfold TryCreateMessage. destruct Hcounts as (C1 & C2 & C3 & C4).
  rewrite (list_eq_length _ _ _ Hq), (list_eq_length _ _ _ Ha), (list_eq_length _ _ _ Hau), (list_eq_length _ _ _ Had).
  do 4 rewrite (proj2 (Z.leb_gt kMaxMessageFieldEntryCount _)) by done. cbn [orb].
  assert (Heq : forall b, message_eq m ((message_of (id_ m) (type_ m) questions answers authority additional)
    <| is_truncated_ := b |>) = true).
  { intros b. unfold message_eq. cbn. rewrite Z.eqb_refl, bool_decide_true, Hq, Ha, Hau, Had by done. done. }
  eexists. split; [done |]. destruct (is_truncated_ m); [by split; [apply Heq |] | by split; [apply (Heq false) |]].
Qed.


Lemma mdns_roundtrip_witness :
  SendMessage demo_hash demo_message = Ret (ok demo_packet) /\
  exists m', ReadMessage demo_packet 1300 = Ret (ok m') /\ message_eq demo_message m' = true /\ is_truncated_ m' = true.
Proof.
  assert (H : SendMessage demo_hash demo_message = Ret (ok demo_packet)) by (by vm_compute).
  split; [exact H |]. apply (mdns_roundtrip demo_hash 1300 demo_message demo_packet); [done | apply demo_sendable | | exact H].
  apply (bool_decide_unpack _). by vm_compute.
Defined.

(** * Sizes *)

Definition not_nsec (r : MdnsRecord) : Prop := match rdata_ r with NsecRecordRdata _ => False | _ => True end.

Lemma sum_of_ext {T} (f g : T -> Z) l a : Forall (fun x => f x = g x) l -> sum_of f l a = sum_of g l a.
Proof. intros H. revert a. unfold sum_of. induction H as [| x l Hx Hl IH]; intros a; cbn [foldl]; [done |]. by rewrite Hx, IH. Qed.

Lemma record_bound_size r : not_nsec r -> record_bound r = record_wire_size r.
Proof. unfold not_nsec, record_bound, rdata_bound, record_wire_size. destruct (rdata_ r); done || lia. Qed.

Lemma message_bound_size m :
  Forall not_nsec (message_records m) ->
  message_bound m = message_max_wire_size_ (message_of (id_ m) (type_ m) (questions_ m) (answers_ m)
    (authority_records_ m) (additional_records_ m)).
Proof.
  unfold message_records. rewrite !Forall_app. intros (H1 & H2 & H3). unfold message_bound, message_of. cbn.
  assert (Hext : forall l, Forall not_nsec l -> Forall (fun r => record_bound r = record_wire_size r) l)
    by (intros l Hl; eapply Forall_impl; [exact Hl | apply record_bound_size]).
  rewrite (sum_of_ext _ _ _ 0 (Hext _ H1)), (sum_of_ext _ _ _ 0 (Hext _ H2)), (sum_of_ext _ _ _ 0 (Hext _ H3)).
  rewrite (sum_of_from question_wire_size (questions_ m) 12), (sum_of_from _ (answers_ m) (12 + _)),
    (sum_of_from _ (authority_records_ m) (12 + _ + _)), (sum_of_from _ (additional_records_ m) (12 + _ + _ + _)). lia.
Qed.

Lemma sum_of_bound {T} (size : T -> Z) l x : Forall (fun y => 0 <= size y) l -> x ∈ l -> size x <= sum_of size l 0.
Proof.
  induction 1 as [| y l Hy Hl IH]; [by intros ?%not_elem_of_nil |]. rewrite sum_of_cons.
  assert (0 <= sum_of size l 0) by (clear IH; induction Hl; [done |]; rewrite sum_of_cons; lia).
  intros [-> | Hin]%elem_of_cons; [lia |]. specialize (IH Hin). lia.
Qed.



(** A record for a name of one letter, with the data of its own absence. *)
Definition nsec_message : MdnsMessage :=
  message_of 0 Response [] [demo_record (demo_name [[97]]) kNSEC (NsecRecordRdata (new_NsecRdata (demo_name [[97]]) [kA]))] [] [].

(** The size computed for NSEC data leaves out its length field: a message
    of 29 bytes by that count needs 30, and is not sent. *)
Theorem nsec_size_is_short :
  message_max_wire_size_ nsec_message = 29 /\ message_bound nsec_message = 31 /\
  SendMessage demo_hash nsec_message = Ret (error kInsufficientBuffer) /\
  exists w, WriteMessage demo_hash nsec_message (new_MdnsWriter 30) = Ret (true, w) /\ offset w = 30.
Proof. split; [reflexivity |]. split; [reflexivity |]. split; [by vm_compute |]. eexists. by split; vm_compute. Qed.

(** * The reader *)

(** C11 Reading a packet ends, whatever its bytes: the loops over labels,
    entries and bitmaps have fuel enough, and no read leaves the buffer.  Only a
    packet that holds the two bytes of the type ANY can fail a check. *)
Theorem reading_terminates (packet : list Z) (max_rdata : Z) :
  bytes_ok packet -> 0 < max_rdata ->
  (exists result, ReadMessage packet max_rdata = Ret result)
  \/ (ReadMessage packet max_rdata = Fault CheckFailed /\ has_any_type packet).
Proof.
  intros Hp Hmax. pose proof (ReadMessage_total packet max_rdata Hp Hmax) as H.
  destruct (ReadMessage packet max_rdata) as [r | f]; [left; by exists r |]. right. by destruct H as [-> H].
Qed.

Lemma reading_terminates_witness :
  let packet := [192; 12; 192; 0; 0; 0; 0; 1; 0; 0; 0; 0; 192; 12] in
  (exists result, ReadMessage packet 1300 = Ret result)
  \/ (ReadMessage packet 1300 = Fault CheckFailed /\ has_any_type packet).
Proof. apply (reading_terminates _ 1300); [bytes | done]. Defined.

(** C26 What is read is well formed: labels of 1 to 63 bytes in names of at most
    256, integers of their widths, addresses of their sizes, and data of the
    alternative that the type of its record says. *)
Theorem read_message_ok (packet : list Z) (max_rdata : Z) (m : MdnsMessage) :
  bytes_ok packet -> 0 < max_rdata -> ReadMessage packet max_rdata = Ret (ok m) -> message_ok m.
Proof. intros Hp Hmax Hr. pose proof (ReadMessage_total packet max_rdata Hp Hmax) as H. by rewrite Hr in H. Qed.

Lemma read_message_ok_witness : exists m, message_ok m /\ zlen (answers_ m) = 3.
Proof.
  assert (Hp : bytes_ok demo_packet) by (unfold demo_packet; bytes).
  destruct (ReadMessage demo_packet 1300) as [[m | e] | f] eqn:E; [| by vm_compute in E | by vm_compute in E].
  exists m. split; [exact (read_message_ok demo_packet 1300 m Hp eq_refl E) |]. vm_compute in E. by injection E as <-.
Defined.

(** C37 A received record of the type ANY aborts the process: the type is one
    of the supported ones, but has no reader of its own. *)
Theorem any_record_aborts (id1 id2 c1 c2 t1 t2 t3 t4 max_rdata : Z) (rest : list Z) :
  ReadMessage ([id1; id2; 0x84; 0; 0; 0; 0; 1; 0; 0; 0; 0] ++ [0; 0; 255; c1; c2; t1; t2; t3; t4] ++ rest) max_rdata
  = Fault CheckFailed.
Proof.
  rewrite app_assoc. set (pre := [id1; id2; 0x84; 0; 0; 0; 0; 1; 0; 0; 0; 0] ++ [0; 0; 255; c1; c2; t1; t2; t3; t4]).
  unfold ReadMessage. destruct (0 <? max_rdata); [| done]. unfold OSP_CHECK at 1. cbn [mbind outcome_bind].
  enough (ReadParts (pre ++ rest) max_rdata 0 = Fault CheckFailed) as -> by done.
  assert (Hint : forall n o, 0 <= o -> o + Z.of_nat n <= 21 ->
    ReadInteger (pre ++ rest) n o = Ret (Some (be_decode (slice pre o (Z.of_nat n)), o + Z.of_nat n))).
  { intros n o H0 H1. rewrite ReadInteger_eq. rewrite slice_app by (try (change (zlen pre) with 21); lia).
    unfold size. rewrite zlen_app. change (zlen pre) with 21. pose proof (zlen_nonneg rest).
    by rewrite (proj2 (Z.leb_le _ _)) by lia. }
  assert (Hname : ReadName (pre ++ rest) 12 = Ret (Some (new_DomainName, 13))).
  { apply (ReadName_spells _ 12 [] 13 0); [| apply zlen_nonneg | done]. apply spells_app. by apply spells_end. }
  assert (Hheader : exists h, ReadHeader (pre ++ rest) 0 = Ret (Some (h, 12)) /\ question_count h = 0 /\ answer_count h = 1).
  { eexists. unfold ReadHeader. do 6 (erewrite bind_reads by (apply Hint; lia)). split; [reflexivity |]. by split. }
  destruct Hheader as (h & Hh & Hq & Ha). unfold ReadParts. rewrite (bind_reads _ _ _ _ _ Hh), Hq, Ha.
  change (Z.to_nat 0) with O. change (Z.to_nat 1) with 1%nat. cbn [ReadMany].
  rewrite (bind_reads _ _ _ [] 12) by done.
  assert (Hrecord : ReadRecord (pre ++ rest) max_rdata 12 = Fault CheckFailed).
  { unfold ReadRecord. rewrite (bind_reads _ _ _ _ _ Hname). do 3 (erewrite bind_reads by (apply Hint; lia)). by vm_compute. }
  unfold mbind, reads_bind. by rewrite Hrecord.
Qed.
