(* ===== verification/MdnsOrder.v ===== *)
(** The order of domain names and of records (Mdns.v, MdnsWriter.v), by which a
    host that probes for a name finds out whether it has to give way. *)

From S2P Require Import Prelude Text Wire IpAddress Mdns MdnsWriter MdnsReader MdnsReaderProps MdnsWriterProps MdnsNames MdnsRoundTrip MdnsProps.

(** * Lexicographic order *)

(** Three-way comparison of lists, the shorter first. *)
Fixpoint lex {T} (cmp : T -> T -> Z) (a b : list T) : Z :=
  match a, b with
  | [], [] => 0
  | [], _ => -1
  | _, [] => 1
  | x :: a, y :: b => if cmp x y <? 0 then -1 else if 0 <? cmp x y then 1 else lex cmp a b
  end.

(** Three-way comparisons of total preorders. *)
Record comparison {T} (cmp : T -> T -> Z) : Prop := {
  cmp_opp : forall x y, cmp y x = - cmp x y;
  cmp_trans : forall x y z, cmp x y <= 0 -> cmp y z <= 0 -> cmp x z <= 0 }.

Section Lex.
Context {T : Type} (cmp : T -> T -> Z) (Hcmp : comparison cmp).

Lemma cmp_refl x : cmp x x = 0.
Proof using Hcmp. pose proof (cmp_opp _ Hcmp x x). lia. Qed.

(** Strictly below one that is not above. *)
Lemma cmp_lt_trans x y z : cmp x y <= 0 -> cmp y z <= 0 -> cmp x y < 0 \/ cmp y z < 0 -> cmp x z < 0.
Proof using Hcmp.
  intros H1 H2 H3. pose proof (cmp_trans _ Hcmp x y z H1 H2). destruct (Z.eq_dec (cmp x z) 0) as [E |]; [| lia].
  pose proof (cmp_opp _ Hcmp x z). pose proof (cmp_opp _ Hcmp x y). pose proof (cmp_opp _ Hcmp y z).
  pose proof (cmp_trans _ Hcmp y z x ltac:(lia) ltac:(lia)). pose proof (cmp_trans _ Hcmp z x y ltac:(lia) ltac:(lia)). lia.
Qed.

Lemma lex_comparison : comparison (lex cmp).
Proof using Hcmp.
  split.
  - induction x as [| x a IH]; intros [| y b]; try done. cbn [lex]. rewrite (cmp_opp _ Hcmp x y), IH.
    destruct (Z.ltb_spec (cmp x y) 0), (Z.ltb_spec 0 (cmp x y)), (Z.ltb_spec (- cmp x y) 0), (Z.ltb_spec 0 (- cmp x y)); lia.
  - induction x as [| x a IH]; intros [| y b] [| z c]; try done. cbn [lex]. specialize (IH b c).
    pose proof (cmp_lt_trans x y z). pose proof (cmp_trans _ Hcmp x y z).
    destruct (Z.ltb_spec (cmp x y) 0), (Z.ltb_spec 0 (cmp x y)), (Z.ltb_spec (cmp y z) 0), (Z.ltb_spec 0 (cmp y z)),
      (Z.ltb_spec (cmp x z) 0), (Z.ltb_spec 0 (cmp x z)); lia.
Qed.
End Lex.

(** * Names *)

Definition key_compare (a b : Z) : Z := if key a <? key b then -1 else if key b <? key a then 1 else 0.

Lemma key_comparison : comparison key_compare.
Proof.
  unfold key_compare. split; intros *.
  - destruct (Z.ltb_spec (key x) (key y)), (Z.ltb_spec (key y) (key x)); lia.
  - destruct (Z.ltb_spec (key x) (key y)), (Z.ltb_spec (key y) (key x)), (Z.ltb_spec (key y) (key z)),
      (Z.ltb_spec (key z) (key y)), (Z.ltb_spec (key x) (key z)), (Z.ltb_spec (key z) (key x)); lia.
Qed.

Lemma CompareIgnoreCase_lex a b : CompareIgnoreCase a b = lex key_compare a b.
Proof.
  revert b. induction a as [| x a IH]; intros [| y b]; try done. cbn [CompareIgnoreCase lex]. rewrite IH.
  fold (key x) (key y). generalize (lex key_compare a b) as r. intros r. unfold key_compare.
  destruct (Z.ltb_spec (key x) (key y)), (Z.ltb_spec (key y) (key x)); done || lia.
Qed.

Definition name_compare (a b : DomainName) : Z := lex CompareIgnoreCase (labels_ a) (labels_ b).

Lemma label_comparison : comparison CompareIgnoreCase.
Proof.
  pose proof (lex_comparison _ key_comparison) as [H1 H2].
  split; intros *; rewrite !CompareIgnoreCase_lex; [apply H1 | apply H2].
Qed.

Lemma name_comparison : comparison name_compare.
Proof.
  pose proof (lex_comparison _ label_comparison) as [H1 H2]. split; intros *; unfold name_compare; [apply H1 | apply H2].
Qed.

Lemma name_lt_compare a b : name_lt a b = (name_compare a b <? 0).
Proof.
  unfold name_lt, name_compare. generalize (labels_ a) as x, (labels_ b) as y.
  induction x as [| x a' IH]; intros [| y b']; try done. cbn [labels_lt lex].
  destruct (CompareIgnoreCase x y <? 0); [done |]. by destruct (0 <? CompareIgnoreCase x y).
Qed.

Lemma name_eq_compare a b : name_eq a b = (name_compare a b =? 0).
Proof.
  unfold name_eq, name_compare. generalize (labels_ a) as x, (labels_ b) as y.
  induction x as [| x a' IH]; intros [| y b']; try done. cbn [labels_eq lex].
  destruct (Z.ltb_spec (CompareIgnoreCase x y) 0), (Z.ltb_spec 0 (CompareIgnoreCase x y)), (Z.eqb_spec (CompareIgnoreCase x y) 0);
    try lia; cbn [andb]; done.
Qed.

Lemma name_gt_compare a b : name_gt a b = (0 <? name_compare a b).
Proof.
  unfold name_gt. rewrite name_lt_compare, name_eq_compare.
  by destruct (Z.ltb_spec (name_compare a b) 0), (Z.eqb_spec (name_compare a b) 0), (Z.ltb_spec 0 (name_compare a b)); lia || done.
Qed.

(** Names are totally ordered up to case: of two names exactly one is
    smaller, or they are equal; the order is transitive, equal names have the
    same place in it, and [>] is its converse. *)
Theorem names_are_ordered (a b c : DomainName) :
  (name_lt a b, name_eq a b, name_lt b a) ∈ [(true, false, false); (false, true, false); (false, false, true)] /\
  implb (name_lt a b && name_lt b c) (name_lt a c) = true /\
  implb (name_eq a b) (bool_decide (name_lt a c = name_lt b c)) = true /\ name_gt a b = name_lt b a.
Proof.
  rewrite name_gt_compare, !name_lt_compare, !name_eq_compare. pose proof name_comparison as Hcmp.
  pose proof (cmp_opp _ Hcmp a b) as H1. pose proof (cmp_lt_trans _ Hcmp a b c) as H2.
  pose proof (cmp_opp _ Hcmp a c). pose proof (cmp_opp _ Hcmp b c).
  assert (H3 : name_compare a b = 0 -> (name_compare a c <? 0) = (name_compare b c <? 0)).
  { intros E. pose proof (cmp_lt_trans _ Hcmp b a c).
    destruct (Z.ltb_spec (name_compare a c) 0), (Z.ltb_spec (name_compare b c) 0); lia. }
  rewrite H1. split; [| split; [| split]].
  - destruct (Z.ltb_spec (name_compare a b) 0), (Z.eqb_spec (name_compare a b) 0), (Z.ltb_spec (- name_compare a b) 0);
      try lia; set_solver.
  - destruct (Z.ltb_spec (name_compare a b) 0), (Z.ltb_spec (name_compare b c) 0), (Z.ltb_spec (name_compare a c) 0); done || lia.
  - destruct (Z.eqb_spec (name_compare a b) 0); [| done]. cbn [implb]. apply bool_decide_eq_true_2. auto.
  - destruct (Z.ltb_spec 0 (name_compare a b)), (Z.ltb_spec (- name_compare a b) 0); done || lia.
Qed.

(** * Records *)

Lemma name_eq_sym a b : name_eq b a = name_eq a b.
Proof.
  rewrite !name_eq_compare, (cmp_opp _ name_comparison a b).
  destruct (Z.eqb_spec (name_compare a b) 0), (Z.eqb_spec (- name_compare a b) 0); done || lia.
Qed.

Lemma name_gt_asym a b : name_gt a b && name_gt b a = false.
Proof.
  rewrite !name_gt_compare, (cmp_opp _ name_comparison a b).
  destruct (Z.ltb_spec 0 (name_compare a b)), (Z.ltb_spec 0 (- name_compare a b)); done || lia.
Qed.

Lemma name_eq_refl a : name_eq a a = true.
Proof. rewrite name_eq_compare. by rewrite (cmp_refl _ name_comparison). Qed.

Lemma first_difference_sym a b :
  first_difference b a = match first_difference a b with Some (x, y) => Some (y, x) | None => None end.
Proof.
  revert b. induction a as [| x a IH]; intros [| y b]; try done. cbn [first_difference]. rewrite (Z.eqb_sym y x), IH.
  by destruct (x =? y).
Qed.

Lemma rdata_ok_alternative type r : rdata_ok type r -> same_alternative type r = true.
Proof.
  destruct r; cbn [rdata_ok same_alternative]; try (intros [-> _]; done); try done.
  intros [H _]. apply negb_true_iff, bool_decide_false. intros Hin. apply H. unfold kSupportedDnsTypes. set_solver.
Qed.

Section Compare.
Context (std_hash : list Z -> Z).

Lemma compared_data_is_written type r :
  rdata_ok type r -> Forall nonempty (rdata_names r) -> rdata_wire_size r <= 65533 ->
  exists w, WriteRdata std_hash r (new_MdnsWriter (rdata_wire_size r + 2)) = Ret (true, w).
Proof using.
  intros Hr Hne Hs. assert (Hb : rdata_bound r <= rdata_wire_size r + 2) by (unfold rdata_bound; destruct r; lia).
  destruct (sized_WriteRdata std_hash type r Hr Hne ltac:(lia) (new_MdnsWriter (rdata_wire_size r + 2)))
    as (success & w & Ew & _ & _ & Hsuccess). exists w. rewrite Ew, Hsuccess; [done | exact Hb].
Qed.

Lemma IsGreaterThan_asym type a b :
  rdata_ok type a -> rdata_ok type b -> Forall nonempty (rdata_names a) -> Forall nonempty (rdata_names b) ->
  rdata_wire_size a <= 65533 -> rdata_wire_size b <= 65533 ->
  exists r r', IsGreaterThan std_hash type a b = Ret r /\ IsGreaterThan std_hash type b a = Ret r' /\ r && r' = false.
Proof using.
  intros Ha Hb Hna Hnb Hsa Hsb. unfold IsGreaterThan. rewrite !(rdata_ok_alternative type) by done. cbn [andb].
  destruct (compared_data_is_written _ _ Ha Hna Hsa) as (wa & ->), (compared_data_is_written _ _ Hb Hnb Hsb) as (wb & ->).
  unfold OSP_CHECK. cbn [mbind outcome_bind]. rewrite (first_difference_sym (drop 2 (output wa))).
  do 2 eexists. split; [done |]. split; [done |]. destruct (first_difference _ _) as [[x y] |].
  - destruct (Z.ltb_spec y x), (Z.ltb_spec x y); done || lia.
  - destruct (Z.ltb_spec (rdata_wire_size b + 2) (rdata_wire_size a + 2)),
      (Z.ltb_spec (rdata_wire_size a + 2) (rdata_wire_size b + 2)); done || lia.
Qed.
End Compare.

Lemma class_mask_small t : is_u 15 t -> Z.land t kClassMask = t.
Proof. intros. change kClassMask with (Z.ones 15). rewrite land_ones_wrap by done. by apply wrap_small. Qed.

(** Comparing records that can be sent, of types below 2^15, gives an answer,
    and never that each of two is greater than the other. *)
Theorem records_are_ordered (std_hash : list Z -> Z) (max_rdata : Z) (a b : MdnsRecord) :
  max_rdata <= 65533 -> record_sendable max_rdata a -> record_sendable max_rdata b ->
  is_u 15 (record_dns_type a) -> is_u 15 (record_dns_type b) ->
  exists r r', record_gt std_hash a b = Ret r /\ record_gt std_hash b a = Ret r' /\ r && r' = false.
Proof.
  intros Hmax ((_ & _ & _ & _ & Hra) & Hna & Hsa & _) ((_ & _ & _ & _ & Hrb) & Hnb & Hsb & _) Hta Htb.
  apply Forall_cons in Hna as [_ Hna], Hnb as [_ Hnb]. unfold record_gt. rewrite (name_eq_sym (record_name a)).
  destruct (name_eq (record_name a) (record_name b)); cbn [negb].
  2: { do 2 eexists. split; [done |]. split; [done | apply name_gt_asym]. }
  destruct (decide (record_type_ a = record_type_ b)) as [Et | Et].
  2: { rewrite (bool_decide_false (record_type_ a = record_type_ b)), (bool_decide_false (record_type_ b = record_type_ a)) by congruence. cbn [negb]. do 2 eexists. split; [done |]. split; [done |].
       by destruct (record_type_ a), (record_type_ b); try congruence. }
  rewrite (bool_decide_true (record_type_ a = record_type_ b)), (bool_decide_true (record_type_ b = record_type_ a)) by congruence. cbn [negb]. rewrite (Z.eqb_sym (record_dns_class b)).
  destruct (record_dns_class a =? record_dns_class b); cbn [negb].
  2: { do 2 eexists. split; [done |]. split; [done |].
       destruct (Z.ltb_spec (record_dns_class b) (record_dns_class a)), (Z.ltb_spec (record_dns_class a) (record_dns_class b)); done || lia. }
  rewrite !class_mask_small, (Z.eqb_sym (record_dns_type b)) by done.
  destruct (Z.eqb_spec (record_dns_type a) (record_dns_type b)) as [E |]; cbn [negb].
  2: { do 2 eexists. split; [done |]. split; [done |].
       destruct (Z.ltb_spec (record_dns_type b) (record_dns_type a)), (Z.ltb_spec (record_dns_type a) (record_dns_type b)); done || lia. }
  rewrite <- E in *. apply IsGreaterThan_asym; done || lia.
Qed.

Lemma records_are_ordered_witness :
  let record data := demo_record demo_host kA (ARecordRdata (mkAddress IpAddress.kV4 data 0) 0) in
  record_gt demo_hash (record [10; 0; 0; 2]) (record [10; 0; 0; 1]) = Ret true /\
  exists r r', record_gt demo_hash (record [10; 0; 0; 2]) (record [10; 0; 0; 1]) = Ret r /\
    record_gt demo_hash (record [10; 0; 0; 1]) (record [10; 0; 0; 2]) = Ret r' /\ r && r' = false.
Proof.
  intros record. split; [by vm_compute |].
  assert (Hr : forall x, is_u 8 x -> record_sendable 1300 (record [10; 0; 0; x])).
  { intros x Hx. apply demo_record_ok; try done; try number.
    - pose proof demo_names_ok as Hn. rewrite !Forall_cons in Hn. apply Hn.
    - split; [done |]. split; [| done]. split; [done |]. split; [done |]. split; [| done].
      unfold bytes_ok. cbn. rewrite !Forall_cons. split_and!; try number; done. }
  apply (records_are_ordered demo_hash 1300); [done | apply Hr; number | apply Hr; number | number | number].
Defined.

(** The comparison aborts the process on two received records of one name
    that point to the root, whose name the writer refuses; and on a record of the
    type A and one of the type 0x8001, whose types are equal up to the mask of
    the class, but not their data. *)
Theorem record_comparison_aborts (std_hash : list Z -> Z) (name : DomainName) (class ttl : Z) (address : IPAddress) (bytes : list Z) :
  let pointer := mkRecord name kPTR class kShared ttl (PtrRecordRdata new_DomainName) in
  let host := mkRecord name kA class kShared ttl (ARecordRdata address 0) in
  let raw := mkRecord name 0x8001 class kShared ttl (RawRecordRdata bytes) in
  record_gt std_hash pointer pointer = Fault CheckFailed /\
  record_gt std_hash host raw = Fault CheckFailed /\ record_gt std_hash raw host = Fault CheckFailed.
Proof. unfold record_gt. cbn -[name_eq]. by rewrite name_eq_refl, Z.eqb_refl. Qed.
