(* ===== verification/Capture.v ===== *)
(** Capture in the streamer_plus application
    (cast/standalone_sender/streamer_plus/drop_old_queue.h and capture.cc): the
    queue that drops old media, and what [GstreamerCapture] makes of the samples
    GStreamer hands to it.

    What GStreamer reports of a sample (its format, whether its buffer could be
    mapped, the bytes of its planes) is the argument; starting and stopping the
    pipeline and its threads is left out.  A mutex guards each queue, so that
    the calls of the capture thread and of the sender are a sequence. *)

From S2P Require Import Prelude Numeric Wire Text.

(** * The queue *)

Section DropOldQueue.
Context {T : Type}.

Record DropOldQueue := mkQueue { capacity_ : nat; entries_ : list T; dropped_ : Z }.
#[export] Instance eta_DropOldQueue : Eta DropOldQueue := fun q =>
  mkQueue (capacity_ q) (entries_ q) (dropped_ q).

Definition new_DropOldQueue (capacity : nat) : outcome DropOldQueue :=
  OSP_CHECK (bool_decide (0 < capacity)%nat) ;;
  Ret (mkQueue capacity [] 0).

Definition Push (value : T) (q : DropOldQueue) : DropOldQueue :=
  let q := if bool_decide (length (entries_ q) = capacity_ q)
           then q <| entries_ := drop 1 (entries_ q) |> <| dropped_ := dropped_ q + 1 |>
           else q in
  q <| entries_ := entries_ q ++ [value] |>.

Definition TakeLatest (q : DropOldQueue) : option T * DropOldQueue :=
  match last (entries_ q) with
  | None => (None, q)
  | Some latest =>
      (Some latest, q <| dropped_ := dropped_ q + (zlen (entries_ q) - 1) |> <| entries_ := [] |>)
  end.

(** ** What it is for *)

Inductive QueueEvent :=
  | Pushed (value : T)
  | Taken (value : option T).

(** The specification: a cell with the last value pushed since it was taken. *)
Inductive cell_step : option T -> QueueEvent -> option T -> Prop :=
  | cell_push c v : cell_step c (Pushed v) (Some v)
  | cell_take c : cell_step c (Taken c) None.

Inductive cell_steps : option T -> list QueueEvent -> option T -> Prop :=
  | cell_nil c : cell_steps c [] c
  | cell_snoc c es d e d' : cell_steps c es d -> cell_step d e d' -> cell_steps c (es ++ [e]) d'.

(** The runs of a queue. *)
Inductive queue_runs (capacity : nat) : list QueueEvent -> DropOldQueue -> Prop :=
  | runs_new q : new_DropOldQueue capacity = Ret q -> queue_runs capacity [] q
  | runs_push es q v : queue_runs capacity es q -> queue_runs capacity (es ++ [Pushed v]) (Push v q)
  | runs_take es q o q' :
      queue_runs capacity es q -> TakeLatest q = (o, q') -> queue_runs capacity (es ++ [Taken o]) q'.

(** The values pushed, and the values taken. *)
Definition pushed_values (es : list QueueEvent) : list T :=
  omap (fun e => match e with Pushed v => Some v | Taken _ => None end) es.
Definition taken_values (es : list QueueEvent) : list T :=
  omap (fun e => match e with Pushed _ => None | Taken o => o end) es.

Record queue_ok (capacity : nat) (es : list QueueEvent) (q : DropOldQueue) : Prop := {
  queue_capacity : capacity_ q = capacity /\ (0 < capacity)%nat;
  queue_size : (length (entries_ q) <= capacity)%nat;
  queue_cell : cell_steps None es (last (entries_ q));
  queue_recent : entries_ q `suffix_of` pushed_values es;
  queue_account : zlen (pushed_values es) = zlen (taken_values es) + zlen (entries_ q) + dropped_ q }.

Lemma omap_snoc {A B} (f : A -> option B) l x : omap f (l ++ [x]) = omap f l ++ option_list (f x).
Proof. rewrite omap_app. cbn. by destruct (f x). Qed.

Lemma pushed_snoc es e :
  pushed_values (es ++ [e]) = pushed_values es ++ match e with Pushed v => [v] | Taken _ => [] end.
Proof. unfold pushed_values. rewrite omap_snoc. by destruct e. Qed.

Lemma taken_snoc es e :
  taken_values (es ++ [e]) = taken_values es ++ match e with Taken (Some v) => [v] | _ => [] end.
Proof. unfold taken_values. rewrite omap_snoc. by destruct e as [| [|]]. Qed.

Lemma queue_runs_ok capacity es q : queue_runs capacity es q -> queue_ok capacity es q.
Proof.
  induction 1 as [q E | es q v _ [[Hc Hpos] Hs Hcell Hrec Hacc] | es q o q' _ [[Hc Hpos] Hs Hcell Hrec Hacc] E].
  - unfold new_DropOldQueue in E. destruct (decide (0 < capacity)%nat) as [Hpos | Hpos].
    + rewrite bool_decide_eq_true_2 in E by done. injection E as <-.
      by constructor; [| cbn; lia | constructor | exists [] |].
    + by rewrite bool_decide_eq_false_2 in E by done.
  - assert (exists k, entries_ (Push v q) = drop k (entries_ q) ++ [v] /\ (k <= 1)%nat
      /\ capacity_ (Push v q) = capacity_ q /\ dropped_ (Push v q) = dropped_ q + Z.of_nat k
      /\ (length (drop k (entries_ q)) + 1 <= capacity)%nat
      /\ zlen (drop k (entries_ q)) = zlen (entries_ q) - Z.of_nat k) as (k & He & _ & Hcap & Hd & Hlen & Hz).
    { unfold Push. case_bool_decide; [exists 1%nat | exists 0%nat]; cbn [entries_ capacity_ dropped_ update];
        unfold zlen; rewrite ?length_drop, ?drop_0; repeat split; lia. }
    constructor; rewrite ?He.
    + by rewrite Hcap.
    + rewrite length_app. cbn. lia.
    + rewrite last_snoc. by eapply cell_snoc; [exact Hcell | constructor].
    + rewrite pushed_snoc. apply suffix_app.
      etransitivity; [apply suffix_drop | exact Hrec].
    + rewrite pushed_snoc, taken_snoc, app_nil_r, !zlen_app, Hd, Hz. change (zlen [v]) with 1. lia.
  - unfold TakeLatest in E. destruct (last (entries_ q)) as [latest |] eqn:El; injection E as <- <-.
    + constructor; cbn [capacity_ entries_ dropped_ update]; [done | cbn; lia | | by exists (pushed_values (es ++ [Taken (Some latest)])); rewrite app_nil_r |].
      * by eapply cell_snoc; [exact Hcell | constructor].
      * rewrite pushed_snoc, taken_snoc, app_nil_r, zlen_app.
        change (zlen [latest]) with 1. rewrite zlen_nil. lia.
    + constructor; [done | done | | |].
      * rewrite El. by eapply cell_snoc; [exact Hcell | constructor].
      * by rewrite pushed_snoc, app_nil_r.
      * by rewrite pushed_snoc, taken_snoc, !app_nil_r.
Qed.

(** C35 The queue never serves stale media and accounts for all of it.  After any
    sequence of pushes and takes, a take has returned the value pushed last, if
    one was pushed since the take before; the queue holds the values pushed last
    and at most as many as its capacity; and every value pushed was taken, is in
    the queue, or is counted as dropped. *)
Theorem queue_serves_latest capacity es q :
  queue_runs capacity es q ->
  cell_steps None es (last (entries_ q))
  /\ (length (entries_ q) <= capacity)%nat /\ entries_ q `suffix_of` pushed_values es
  /\ zlen (pushed_values es) = zlen (taken_values es) + zlen (entries_ q) + dropped_ q.
Proof. by intros []%queue_runs_ok. Qed.
End DropOldQueue.
Arguments DropOldQueue : clear implicits.
Arguments QueueEvent : clear implicits.

(** * The capture *)

Record VideoFrame := mkVideoFrame {
  frame_width : Z; frame_height : Z; i420_bytes : list Z; video_timestamp_ns : Z }.
Record AudioFrame := mkAudioFrame {
  channels : Z; sample_rate : Z; interleaved_samples : list Z; audio_timestamp_ns : Z }.

Record CaptureTelemetry := mkTelemetry {
  video_frames : Z; audio_frames : Z; video_dropped : Z; audio_dropped : Z;
  format_error : bool; timestamp_error : bool }.

Definition GST_CLOCK_TIME_NONE : Z := 2 ^ 64 - 1.

(** What GStreamer reports of a sample of video: its size when it is an I420
    sample, the bytes and the stride of each plane when its buffer can be mapped,
    and its presentation timestamp. *)
Record VideoSample := mkVideoSample {
  i420_size : option (Z * Z);
  mapped_planes : option (list (option (list Z) * Z));
  video_pts : Z }.

(** And of a sample of audio: whether it is interleaved 48000 Hz stereo of
    floats, its bytes when it can be mapped, and its timestamp. *)
Record AudioSample := mkAudioSample {
  f32_stereo : bool;
  mapped_bytes : option (list Z);
  audio_pts : Z }.

Record GstreamerCapture := mkCapture {
  video_queue : DropOldQueue VideoFrame;
  audio_queue : DropOldQueue AudioFrame;
  capture_error : str;
  last_video_timestamp : Z;
  last_audio_timestamp : Z;
  have_video_timestamp : bool;
  have_audio_timestamp : bool;
  num_video_frames : Z;
  num_audio_frames : Z;
  format_error_ : bool;
  timestamp_error_ : bool }.
#[export] Instance eta_GstreamerCapture : Eta GstreamerCapture := fun c =>
  mkCapture (video_queue c) (audio_queue c) (capture_error c) (last_video_timestamp c) (last_audio_timestamp c)
    (have_video_timestamp c) (have_audio_timestamp c) (num_video_frames c) (num_audio_frames c)
    (format_error_ c) (timestamp_error_ c).

Definition new_GstreamerCapture (queue_capacity : nat) : outcome GstreamerCapture :=
  v ← new_DropOldQueue queue_capacity;
  a ← new_DropOldQueue queue_capacity;
  Ret (mkCapture v a [] 0 0 false false 0 0 false false).

(** The first error is kept. *)
Definition SetError (value : str) (c : GstreamerCapture) : GstreamerCapture :=
  if bool_decide (capture_error c = []) then c <| capture_error := value |> else c.

Definition video_format_error (value : str) (c : GstreamerCapture) : GstreamerCapture :=
  SetError (lit "video capture format error: " ++ value) (c <| format_error_ := true |>).
Definition audio_format_error (value : str) (c : GstreamerCapture) : GstreamerCapture :=
  SetError (lit "audio capture format error: " ++ value) (c <| format_error_ := true |>).
Definition video_timestamp_error (value : str) (c : GstreamerCapture) : GstreamerCapture :=
  SetError (lit "video capture timestamp error: " ++ value) (c <| timestamp_error_ := true |>).
Definition audio_timestamp_error (value : str) (c : GstreamerCapture) : GstreamerCapture :=
  SetError (lit "audio capture timestamp error: " ++ value) (c <| timestamp_error_ := true |>).

(** [memcpy] of a row into the frame's bytes. *)
Definition copy_row (source : list Z) (offset width size : Z) (destination : list Z) : outcome (list Z) :=
  if (offset + width <=? zlen source) && (zlen destination + width <=? size)
  then Ret (destination ++ take (Z.to_nat width) (drop (Z.to_nat offset) source))
  else Fault OutOfBounds.

(** [n] rows from [row] on. *)
Fixpoint copy_rows (n : nat) (row : Z) (source : list Z) (stride width size : Z) (destination : list Z)
    : outcome (list Z) :=
  match n with
  | O => Ret destination
  | S n =>
      destination ← copy_row source (u32 (row * stride)) width size destination;
      copy_rows n (row + 1) source stride width size destination
  end.

(** The planes with their sizes; nothing when the layout of one is invalid. *)
Fixpoint copy_planes (planes : list (option (list Z) * Z)) (sizes : list (Z * Z)) (size : Z)
    (destination : list Z) : outcome (option (list Z)) :=
  match planes, sizes with
  | (source, stride) :: planes, (plane_width, plane_height) :: sizes =>
      match source with
      | None => Ret None
      | Some source =>
          if (stride <=? 0) || (stride <? plane_width) then Ret None else
          destination ← copy_rows (Z.to_nat plane_height) 0 source stride plane_width size destination;
          copy_planes planes sizes size destination
      end
  | _, _ => Ret (Some destination)
  end.

Definition chroma (n : Z) : Z := (n + 1) / 2.
Definition plane_sizes (width height : Z) : list (Z * Z) :=
  [(width, height); (chroma width, chroma height); (chroma width, chroma height)].

Definition CopyVideo (sample : VideoSample) (c : GstreamerCapture) : outcome GstreamerCapture :=
  match i420_size sample with
  | None => Ret (video_format_error (lit "expected an I420 sample") c)
  | Some (width, height) =>
      match mapped_planes sample with
      | None => Ret (video_format_error (lit "failed to map I420 buffer") c)
      | Some planes =>
          if video_pts sample =? GST_CLOCK_TIME_NONE
          then Ret (video_timestamp_error (lit "sample has no presentation timestamp") c) else
          let size := u32 (width * height + 2 * chroma width * chroma height) in
          bytes ← copy_planes planes (plane_sizes width height) size [];
          match bytes with
          | None => Ret (video_format_error (lit "invalid I420 plane layout") c)
          | Some bytes =>
              let frame := mkVideoFrame width height
                (bytes ++ replicate (Z.to_nat (size - zlen bytes)) 0) (video_pts sample) in
              let previous := last_video_timestamp c in
              let had := have_video_timestamp c in
              let c := c <| last_video_timestamp := video_pts sample |> <| have_video_timestamp := true |> in
              if had && (video_pts sample <=? previous)
              then Ret (video_timestamp_error (lit "presentation timestamps are not monotonic") c)
              else Ret (c <| video_queue := Push frame (video_queue c) |>
                          <| num_video_frames := num_video_frames c + 1 |>)
          end
      end
  end.

(** The floats of a buffer, as their 32 bits. *)
Fixpoint floats_of (bytes : list Z) : list Z :=
  match bytes with
  | b0 :: b1 :: b2 :: b3 :: bytes => le_value [b0; b1; b2; b3] :: floats_of bytes
  | _ => []
  end.

Definition CopyAudio (sample : AudioSample) (c : GstreamerCapture) : GstreamerCapture :=
  if negb (f32_stereo sample)
  then audio_format_error (lit "expected interleaved F32LE stereo at 48000 Hz") c else
  match mapped_bytes sample with
  | None => audio_format_error (lit "failed to map F32LE buffer") c
  | Some bytes =>
      if (zlen bytes =? 0) || negb (zlen bytes mod (4 * 2) =? 0)
      then audio_format_error (lit "malformed interleaved stereo buffer size") c else
      if audio_pts sample =? GST_CLOCK_TIME_NONE
      then audio_timestamp_error (lit "sample has no presentation timestamp") c else
      let frame := mkAudioFrame 2 48000 (floats_of bytes) (audio_pts sample) in
      let previous := last_audio_timestamp c in
      let had := have_audio_timestamp c in
      let c := c <| last_audio_timestamp := audio_pts sample |> <| have_audio_timestamp := true |> in
      if had && (audio_pts sample <=? previous)
      then audio_timestamp_error (lit "presentation timestamps are not monotonic") c
      else c <| audio_queue := Push frame (audio_queue c) |>
             <| num_audio_frames := num_audio_frames c + 1 |>
  end.

(** The end of the stream, or an error, that GStreamer's bus reports. *)
Inductive BusMessage := EndOfStream | BusError (text : str).

Definition PollRuntimeError (running : bool) (bus : option BusMessage) (c : GstreamerCapture)
    : bool * GstreamerCapture :=
  if negb (bool_decide (capture_error c = [])) then (true, c) else
  if negb running then (false, c) else
  match bus with
  | None => (false, c)
  | Some EndOfStream => (true, SetError (lit "capture pipeline reached unexpected EOS") c)
  | Some (BusError text) => (true, SetError (lit "capture pipeline error from " ++ text) c)
  end.

Definition TakeLatestVideo (c : GstreamerCapture) : option VideoFrame * GstreamerCapture :=
  let '(frame, q) := TakeLatest (video_queue c) in (frame, c <| video_queue := q |>).
Definition TakeLatestAudio (c : GstreamerCapture) : option AudioFrame * GstreamerCapture :=
  let '(frame, q) := TakeLatest (audio_queue c) in (frame, c <| audio_queue := q |>).

Definition telemetry (c : GstreamerCapture) : CaptureTelemetry :=
  mkTelemetry (num_video_frames c) (num_audio_frames c) (dropped_ (video_queue c)) (dropped_ (audio_queue c))
    (format_error_ c) (timestamp_error_ c).

(** * Copying *)

(** The first [width] bytes of each of [n] rows. *)
Definition plane_rows (source : list Z) (stride width : Z) (first n : Z) : list Z :=
  concat (map (fun row => take (Z.to_nat width) (drop (Z.to_nat (row * stride)) source)) (seqZ first n)).

(** A plane that GStreamer maps: rows of [stride] bytes, of which the last may be
    shorter. *)
Definition plane_ok (source : list Z) (stride : Z) (dimensions : Z * Z) : Prop :=
  let '(width, height) := dimensions in
  0 < width <= stride /\ 0 < height /\ height * stride < 2 ^ 32
  /\ (height - 1) * stride + width <= zlen source.

Lemma zlen_plane_rows source stride width first n :
  0 <= width -> 0 <= stride -> 0 <= first -> 0 <= n -> (0 < n -> (first + n - 1) * stride + width <= zlen source) ->
  zlen (plane_rows source stride width first n) = n * width.
Proof.
  intros Hw Hs Hf Hn. rewrite <- (Z2Nat.id n Hn). generalize (Z.to_nat n) as k. clear Hn n. intros k.
  revert first Hf. induction k as [| k IH]; intros first Hf Hlen; [done |].
  unfold plane_rows. rewrite seqZ_cons by lia. cbn [map concat]. rewrite zlen_app.
  replace (Z.pred (Z.of_nat (S k))) with (Z.of_nat k) by lia.
  change (concat _) with (plane_rows source stride width (Z.succ first) (Z.of_nat k)).
  rewrite IH by nia. unfold zlen. rewrite length_take, length_drop. unfold zlen in Hlen. nia.
Qed.

Lemma copy_rows_ok n row source stride width size destination :
  0 < width <= stride -> 0 <= row -> (row + Z.of_nat n) * stride < 2 ^ 32 ->
  ((0 < n)%nat -> (row + Z.of_nat n - 1) * stride + width <= zlen source) ->
  zlen destination + Z.of_nat n * width <= size ->
  copy_rows n row source stride width size destination
  = Ret (destination ++ plane_rows source stride width row (Z.of_nat n)).
Proof.
  intros Hw. revert row destination. induction n as [| n IH]; intros row destination Hrow Hu Hsrc Hsize.
  { cbn. by rewrite app_nil_r. }
  cbn [copy_rows]. unfold copy_row. assert (u32 (row * stride) = row * stride) as -> by (apply wrap_small; unfold is_u; nia).
  replace ((row * stride + width <=? zlen source) && (zlen destination + width <=? size)) with true
    by (symmetry; apply andb_true_iff; split; apply Z.leb_le; nia).
  cbn [mbind outcome_bind].
  assert (zlen (take (Z.to_nat width) (drop (Z.to_nat (row * stride)) source)) = width) as Hz
    by (unfold zlen in *; rewrite length_take, length_drop; nia).
  rewrite IH; [| lia | nia | nia | rewrite zlen_app, Hz; nia].
  f_equal. unfold plane_rows. rewrite (seqZ_cons row) by lia. cbn [map concat]. rewrite <- app_assoc.
  by replace (Z.pred (Z.of_nat (S n))) with (Z.of_nat n) by lia.
Qed.

Definition area (sizes : list (Z * Z)) : Z := foldr (fun d n => d.1 * d.2 + n) 0 sizes.

Definition maps_planes (planes : list (option (list Z) * Z)) (sizes : list (Z * Z)) : Prop :=
  Forall2 (fun plane d => exists source, plane.1 = Some source /\ plane_ok source plane.2 d) planes sizes.

Definition packed (planes : list (option (list Z) * Z)) (sizes : list (Z * Z)) : list Z :=
  concat (zip_with (fun plane d => plane_rows (default [] plane.1) plane.2 d.1 0 d.2) planes sizes).

Lemma area_nonneg planes sizes : maps_planes planes sizes -> 0 <= area sizes.
Proof.
  induction 1 as [| [o stride] [width height] planes sizes (source & _ & Hw & Hh & _) _ IH]; [done |].
  unfold area in *. cbn. nia.
Qed.

Lemma copy_planes_ok planes sizes size destination :
  maps_planes planes sizes -> zlen destination + area sizes <= size ->
  copy_planes planes sizes size destination = Ret (Some (destination ++ packed planes sizes))
  /\ zlen (packed planes sizes) = area sizes.
Proof.
  intros H. revert destination. induction H as [| [o stride] [width height] planes sizes (source & E & Hok) H IH];
    intros destination Hsize.
  { cbn. by rewrite app_nil_r. }
  cbn in E. subst o. destruct Hok as (Hw & Hh & Hu & Hlen). cbn [copy_planes].
  pose proof (area_nonneg _ _ H) as Hnn. unfold area in *. cbn [foldr fst snd] in *.
  rewrite (proj2 (Z.leb_gt _ _)), (proj2 (Z.ltb_ge _ _)) by lia. cbn [orb].
  rewrite copy_rows_ok by (rewrite ?Z2Nat.id by lia; lia). rewrite Z2Nat.id by lia. cbn [mbind outcome_bind].
  assert (zlen (plane_rows source stride width 0 height) = height * width) as Hz
    by (apply zlen_plane_rows; lia).
  destruct (IH (destination ++ plane_rows source stride width 0 height)) as [-> Hp]; [rewrite zlen_app; lia |].
  unfold packed in *. cbn [zip_with concat fst snd default]. rewrite <- app_assoc. split; [done |].
  rewrite zlen_app. cbn in *. lia.
Qed.

(** ** The size of a frame *)

Lemma frame_area width height :
  0 < width -> 0 < height -> area (plane_sizes width height) = width * height + 2 * chroma width * chroma height.
Proof. intros. unfold area. cbn. lia. Qed.

Lemma even_frame_area width height :
  width mod 2 = 0 -> height mod 2 = 0 ->
  width * height + 2 * chroma width * chroma height = width * height * 3 / 2.
Proof.
  intros Hw Hh. unfold chroma. apply Z.mod_divide in Hw as [w ->]; [| done]. apply Z.mod_divide in Hh as [h ->]; [| done].
  replace ((w * 2 + 1) / 2) with w by (rewrite Z.add_comm, Z.div_add by done; done).
  replace ((h * 2 + 1) / 2) with h by (rewrite Z.add_comm, Z.div_add by done; done).
  replace (w * 2 * (h * 2) * 3) with (w * h * 6 * 2) by lia. rewrite Z.div_mul by done. lia.
Qed.

(** A sample GStreamer may hand out: a non-empty I420 picture whose frame has
    less than 2^32 bytes, mapped, with a timestamp. *)
Definition sample_ok (sample : VideoSample) (width height : Z) planes : Prop :=
  i420_size sample = Some (width, height) /\ mapped_planes sample = Some planes
  /\ 0 < width /\ 0 < height /\ maps_planes planes (plane_sizes width height)
  /\ width * height + 2 * chroma width * chroma height < 2 ^ 32
  /\ video_pts sample <> GST_CLOCK_TIME_NONE.

Lemma CopyVideo_ok sample width height planes c :
  sample_ok sample width height planes ->
  let c' := c <| last_video_timestamp := video_pts sample |> <| have_video_timestamp := true |> in
  let frame := mkVideoFrame width height (packed planes (plane_sizes width height)) (video_pts sample) in
  CopyVideo sample c
  = Ret (if have_video_timestamp c && (video_pts sample <=? last_video_timestamp c)
         then video_timestamp_error (lit "presentation timestamps are not monotonic") c'
         else c' <| video_queue := Push frame (video_queue c) |> <| num_video_frames := num_video_frames c + 1 |>)
  /\ zlen (i420_bytes frame) = width * height + 2 * chroma width * chroma height.
Proof.
  intros (Hsize & Hmap & Hw & Hh & Hplanes & Hfit & Hpts) c' frame. unfold CopyVideo. rewrite Hsize, Hmap.
  rewrite (proj2 (Z.eqb_neq _ _) Hpts).
  pose proof (frame_area width height Hw Hh) as Harea. pose proof (area_nonneg _ _ Hplanes) as Hnn.
  assert (u32 (width * height + 2 * chroma width * chroma height) = area (plane_sizes width height)) as ->
    by (rewrite Harea; apply wrap_small; unfold is_u; lia).
  destruct (copy_planes_ok planes (plane_sizes width height) (area (plane_sizes width height)) []) as [-> Hz];
    [done | rewrite zlen_nil; lia |].
  cbn [mbind outcome_bind app]. rewrite Hz, Z.sub_diag. cbn [Z.to_nat replicate]. rewrite app_nil_r.
  split; [| cbn; lia]. by case_match.
Qed.

(** ** Order *)

(** The steps of a capture: samples are copied, frames are taken, errors are
    polled; with the frames taken. *)
Inductive capture_runs (queue_capacity : nat) : list VideoFrame -> list AudioFrame -> GstreamerCapture -> Prop :=
  | capture_new c : new_GstreamerCapture queue_capacity = Ret c -> capture_runs queue_capacity [] [] c
  | capture_video vs es c sample c' :
      capture_runs queue_capacity vs es c -> CopyVideo sample c = Ret c' -> capture_runs queue_capacity vs es c'
  | capture_audio vs es c sample :
      capture_runs queue_capacity vs es c -> capture_runs queue_capacity vs es (CopyAudio sample c)
  | capture_poll vs es c running bus :
      capture_runs queue_capacity vs es c -> capture_runs queue_capacity vs es (PollRuntimeError running bus c).2
  | capture_take_video vs es c o c' :
      capture_runs queue_capacity vs es c -> TakeLatestVideo c = (o, c') ->
      capture_runs queue_capacity (vs ++ option_list o) es c'
  | capture_take_audio vs es c o c' :
      capture_runs queue_capacity vs es c -> TakeLatestAudio c = (o, c') ->
      capture_runs queue_capacity vs (es ++ option_list o) c'.

(** Times in strictly increasing order, up to the last one seen. *)
Definition times_ok (times : list Z) (have : bool) (latest : Z) : Prop :=
  StronglySorted Z.lt times /\ Forall (fun t => t <= latest) times /\ (have = false -> times = []).

Lemma times_ok_snoc times have latest t :
  times_ok times have latest -> (have = true -> latest < t) -> times_ok (times ++ [t]) true t.
Proof.
  intros (Hs & Hl & Hn) Ht. assert (Forall (fun u => u < t) times) as Hlt.
  { destruct have; [| by rewrite Hn]. eapply Forall_impl; [exact Hl |]. cbn. specialize (Ht eq_refl). lia. }
  split; [| split; [| done]].
  - apply StronglySorted_app_2; [| done | by apply SSorted_cons; [apply SSorted_nil | apply Forall_nil_2]].
    intros x y Hx ->%list_elem_of_singleton. by apply (proj1 (Forall_forall _ _) Hlt).
  - apply Forall_app_2; [| by apply Forall_singleton]. eapply Forall_impl; [exact Hlt |]. cbn. lia.
Qed.

Lemma times_ok_later times have latest t : times_ok times have latest -> latest <= t -> times_ok times true t.
Proof. intros (Hs & Hl & _) Ht. split; [done |]. split; [| done]. eapply Forall_impl; [exact Hl |]. cbn. lia. Qed.

Lemma times_ok_sub times times' have latest :
  times_ok times have latest -> times' `sublist_of` times -> times_ok times' have latest.
Proof.
  intros (Hs & Hl & Hn) Hsub. split; [| split].
  - clear Hl Hn. induction Hsub; [done | |].
    + inversion Hs as [| ? ? Hs' Hf]; subst. apply SSorted_cons; [by apply IHHsub |].
      apply Forall_forall. intros y Hy. apply (proj1 (Forall_forall _ _) Hf). by eapply elem_of_sublist.
    + inversion Hs; subst. by apply IHHsub.
  - apply Forall_forall. intros y Hy. apply (proj1 (Forall_forall _ _) Hl). by eapply elem_of_sublist.
  - intros H. rewrite (Hn H) in Hsub. by apply sublist_nil_r in Hsub.
Qed.

(** A track: the times of the frames taken from its queue and of those in it. *)
Definition track_ok {T} (time : T -> Z) (taken : list T) (q : DropOldQueue T) (have : bool) (latest : Z) : Prop :=
  times_ok (map time (taken ++ entries_ q)) have latest.

Lemma track_push {T} (time : T -> Z) taken q have latest v :
  track_ok time taken q have latest -> (have = true -> latest < time v) -> track_ok time taken (Push v q) true (time v).
Proof.
  intros H Hv. unfold track_ok in *. pose proof (times_ok_snoc _ _ _ _ H Hv) as Hs.
  eapply times_ok_sub; [exact Hs |]. change [time v] with (map time [v]). rewrite <- map_app.
  apply (fmap_sublist time). rewrite <- app_assoc. apply sublist_app; [done |].
  unfold Push. cbn [entries_ update]. apply sublist_app; [| done].
  case_bool_decide; [apply sublist_drop | done].
Qed.

Lemma track_take {T} (time : T -> Z) taken q o q' have latest :
  track_ok time taken q have latest -> TakeLatest q = (o, q') -> track_ok time (taken ++ option_list o) q' have latest.
Proof.
  intros H E. unfold track_ok in *. eapply times_ok_sub; [exact H |]. apply (fmap_sublist time).
  rewrite <- app_assoc. apply sublist_app; [done |]. unfold TakeLatest in E.
  destruct (last (entries_ q)) as [v |] eqn:El; injection E as <- <-; cbn [option_list entries_ update app]; [| done].
  apply last_Some in El as [l ->]. by apply sublist_inserts_l.
Qed.

Lemma track_new {T} (time : T -> Z) capacity (q : DropOldQueue T) :
  new_DropOldQueue capacity = Ret q -> track_ok time [] q false 0.
Proof.
  unfold new_DropOldQueue, OSP_CHECK. destruct (bool_decide _); [| done]. intros [= <-].
  split; [apply SSorted_nil |]. split; [apply Forall_nil_2 | done].
Qed.

Definition capture_ok (vs : list VideoFrame) (es : list AudioFrame) (c : GstreamerCapture) : Prop :=
  track_ok video_timestamp_ns vs (video_queue c) (have_video_timestamp c) (last_video_timestamp c)
  /\ track_ok audio_timestamp_ns es (audio_queue c) (have_audio_timestamp c) (last_audio_timestamp c).

(** An error stays. *)
Lemma SetError_set value c : value <> [] -> capture_error (SetError value c) <> [].
Proof. intros Hv. unfold SetError. by case_bool_decide. Qed.

Lemma video_errors_set value c :
  capture_error (video_format_error value c) <> [] /\ capture_error (video_timestamp_error value c) <> []
  /\ capture_error (audio_format_error value c) <> [] /\ capture_error (audio_timestamp_error value c) <> [].
Proof. by repeat split; apply SetError_set. Qed.

Lemma CopyVideo_order vs es sample c c' :
  (capture_error c = [] -> capture_ok vs es c) -> CopyVideo sample c = Ret c' ->
  capture_error c' = [] -> capture_ok vs es c'.
Proof.
  intros Hok E Herr. unfold CopyVideo in E.
  destruct (i420_size sample) as [[w h] |]; [| injection E as <-; by apply video_errors_set in Herr].
  destruct (mapped_planes sample) as [planes |]; [| injection E as <-; by apply video_errors_set in Herr].
  destruct (_ =? GST_CLOCK_TIME_NONE); [injection E as <-; by apply video_errors_set in Herr |].
  destruct (copy_planes _ _ _ _) as [[bytes |] |]; [| injection E as <-; by apply video_errors_set in Herr | done].
  cbn [mbind outcome_bind] in E.
  destruct (have_video_timestamp c && _) eqn:Ht; injection E as <-; [by apply video_errors_set in Herr |].
  destruct (Hok Herr) as [Hv Ha]. split; [| exact Ha]. cbn [video_queue have_video_timestamp last_video_timestamp update].
  apply (track_push video_timestamp_ns _ _ (have_video_timestamp c) (last_video_timestamp c)); [done |].
  cbn. intros Hh. rewrite Hh in Ht. cbn in Ht. lia.
Qed.

Lemma CopyAudio_order vs es sample c :
  (capture_error c = [] -> capture_ok vs es c) -> capture_error (CopyAudio sample c) = [] ->
  capture_ok vs es (CopyAudio sample c).
Proof.
  intros Hok. unfold CopyAudio.
  destruct (negb (f32_stereo sample)); [by intros ?%video_errors_set |].
  destruct (mapped_bytes sample) as [bytes |]; [| by intros ?%video_errors_set].
  destruct (_ || _); [by intros ?%video_errors_set |].
  destruct (_ =? GST_CLOCK_TIME_NONE); [by intros ?%video_errors_set |].
  destruct (have_audio_timestamp c && _) eqn:Ht; [by intros ?%video_errors_set |]. intros Herr.
  destruct (Hok Herr) as [Hv Ha]. split; [exact Hv |]. cbn [audio_queue have_audio_timestamp last_audio_timestamp update].
  apply (track_push audio_timestamp_ns _ _ (have_audio_timestamp c) (last_audio_timestamp c)); [done |].
  cbn. intros Hh. rewrite Hh in Ht. cbn in Ht. lia.
Qed.

Lemma capture_runs_ok queue_capacity vs es c :
  capture_runs queue_capacity vs es c -> capture_error c = [] -> capture_ok vs es c.
Proof.
  induction 1 as [c E | vs es c sample c' _ IH E | vs es c sample _ IH | vs es c running bus _ IH
    | vs es c o c' _ IH E | vs es c o c' _ IH E].
  - intros _. unfold new_GstreamerCapture in E.
    destruct (@new_DropOldQueue VideoFrame queue_capacity) as [v |] eqn:Ev; cbn [mbind outcome_bind] in E; [| done].
    destruct (@new_DropOldQueue AudioFrame queue_capacity) as [a |] eqn:Ea; cbn [mbind outcome_bind] in E; [| done].
    injection E as <-.
    split; by eapply track_new.
  - by eapply CopyVideo_order.
  - by apply CopyAudio_order.
  - unfold PollRuntimeError. case_bool_decide; cbn [negb]; [| done]. destruct running; cbn [negb]; [| exact IH].
    destruct bus as [[| text] |]; [by intros ?%SetError_set | by intros ?%SetError_set | exact IH].
  - unfold TakeLatestVideo in E. destruct (TakeLatest (video_queue c)) as [o' q] eqn:Eq. injection E as <- <-.
    intros Herr. destruct (IH Herr) as [Hv Ha]. split; [| exact Ha]. by eapply track_take.
  - unfold TakeLatestAudio in E. destruct (TakeLatest (audio_queue c)) as [o' q] eqn:Eq. injection E as <- <-.
    intros Herr. destruct (IH Herr) as [Hv Ha]. split; [exact Hv |]. by eapply track_take.
Qed.

(** * Claims *)

(** C34 A captured frame is the picture, tightly packed.  For a sample that
    GStreamer maps, with rows of any stride, the frame queued has exactly the
    rows of the three planes in order, without padding and without reading
    outside of a plane; for even sizes it has the size the sender expects.  A
    sample that is not later than the one before is an error instead. *)
Theorem video_copy_packed sample width height planes c :
  sample_ok sample width height planes ->
  let frame := mkVideoFrame width height (packed planes (plane_sizes width height)) (video_pts sample) in
  CopyVideo sample c
  = (let c' := c <| last_video_timestamp := video_pts sample |> <| have_video_timestamp := true |> in
     Ret (if have_video_timestamp c && (video_pts sample <=? last_video_timestamp c)
          then video_timestamp_error (lit "presentation timestamps are not monotonic") c'
          else c' <| video_queue := Push frame (video_queue c) |> <| num_video_frames := num_video_frames c + 1 |>))
  /\ (width mod 2 = 0 -> height mod 2 = 0 -> zlen (i420_bytes frame) = width * height * 3 / 2).
Proof.
  intros Hok frame. destruct (CopyVideo_ok sample width height planes c Hok) as [E Hz].
  split; [exact E |]. intros Hw Hh. rewrite <- even_frame_area by done. exact Hz.
Qed.

(** Frames are taken in the order of their timestamps, each later than the one
    before, on both tracks, as long as no error is reported. *)
Theorem frames_taken_in_order queue_capacity vs es c :
  capture_runs queue_capacity vs es c -> capture_error c = [] ->
  StronglySorted Z.lt (map video_timestamp_ns vs) /\ StronglySorted Z.lt (map audio_timestamp_ns es).
Proof.
  intros Hruns Herr. destruct (capture_runs_ok _ _ _ _ Hruns Herr) as [Hv Ha].
  assert (forall {T} (time : T -> Z) l q have latest, track_ok time l q have latest -> StronglySorted Z.lt (map time l)) as H.
  { intros T time l q have latest Ht. apply (times_ok_sub _ (map time l)) in Ht as [Hs _]; [done |].
    apply (fmap_sublist time). by apply sublist_inserts_r. }
  split; [by eapply H, Hv | by eapply H, Ha].
Qed.

(** ** Witnesses *)

(** Three values pushed to a queue of two, then a take. *)
Lemma queue_serves_latest_witness :
  exists q, queue_runs 2 [Pushed 1; Pushed 2; Pushed 3; Taken (Some 3)] q
    /\ cell_steps None [Pushed 1; Pushed 2; Pushed 3; Taken (Some 3)] None /\ dropped_ q = 2.
Proof.
  exists (mkQueue 2 [] 2).
  assert (queue_runs 2 [Pushed 1; Pushed 2; Pushed 3; Taken (Some 3)] (mkQueue 2 [] 2)) as H.
  { apply (runs_take 2 [Pushed 1; Pushed 2; Pushed 3] (mkQueue 2 [2; 3] 1)); [| done].
    apply (runs_push 2 [Pushed 1; Pushed 2] (mkQueue 2 [1; 2] 0)).
    apply (runs_push 2 [Pushed 1] (mkQueue 2 [1] 0)). apply (runs_push 2 [] (mkQueue 2 [] 0)). by apply runs_new. }
  split; [exact H |]. split; [| done]. by apply (queue_serves_latest _ _ _ H).
Defined.

(** A 4 by 2 picture whose luma rows are 6 bytes apart. *)
Definition demo_planes : list (option (list Z) * Z) :=
  [(Some [1; 2; 3; 4; 0; 0; 5; 6; 7; 8], 6); (Some [9; 10], 2); (Some [11; 12; 0], 3)].
Definition demo_sample (pts : Z) : VideoSample := mkVideoSample (Some (4, 2)) (Some demo_planes) pts.
Definition demo_capture : GstreamerCapture := mkCapture (mkQueue 4 [] 0) (mkQueue 4 [] 0) [] 0 0 false false 0 0 false false.

Lemma demo_sample_ok pts : pts <> GST_CLOCK_TIME_NONE -> sample_ok (demo_sample pts) 4 2 demo_planes.
Proof.
  intros Hpts. repeat (split; [done |]). split; [| by split].
  repeat apply Forall2_cons_2; [.. | apply Forall2_nil_2]; eexists; (split; [reflexivity |]); by vm_compute.
Qed.

Lemma video_copy_packed_witness :
  packed demo_planes (plane_sizes 4 2) = [1; 2; 3; 4; 5; 6; 7; 8; 9; 10; 11; 12]
  /\ zlen (packed demo_planes (plane_sizes 4 2)) = 4 * 2 * 3 / 2.
Proof.
  split; [by vm_compute |].
  by apply (video_copy_packed (demo_sample 5) 4 2 demo_planes demo_capture); [by apply demo_sample_ok | |].
Defined.

Definition demo_frame (pts : Z) : VideoFrame := mkVideoFrame 4 2 [1; 2; 3; 4; 5; 6; 7; 8; 9; 10; 11; 12] pts.
Definition capture_of (m : outcome GstreamerCapture) : GstreamerCapture :=
  match m with Ret c => c | Fault _ => demo_capture end.
Definition demo_capture1 := Eval vm_compute in capture_of (CopyVideo (demo_sample 100) demo_capture).
Definition demo_capture2 := Eval vm_compute in (TakeLatestVideo demo_capture1).2.
Definition demo_capture3 := Eval vm_compute in capture_of (CopyVideo (demo_sample 200) demo_capture2).
Definition demo_capture4 := Eval vm_compute in capture_of (CopyVideo (demo_sample 300) demo_capture3).
Definition demo_capture5 := Eval vm_compute in (TakeLatestVideo demo_capture4).2.

Lemma frames_taken_in_order_witness :
  StronglySorted Z.lt (map video_timestamp_ns [demo_frame 100; demo_frame 300]).
Proof.
  refine (proj1 (frames_taken_in_order 4 [demo_frame 100; demo_frame 300] [] demo_capture5 _ _)); [| by vm_compute].
  apply (capture_take_video 4 [demo_frame 100] [] demo_capture4 (Some (demo_frame 300))); [| by vm_compute].
  apply (capture_video 4 _ _ demo_capture3 (demo_sample 300)); [| by vm_compute].
  apply (capture_video 4 _ _ demo_capture2 (demo_sample 200)); [| by vm_compute].
  apply (capture_take_video 4 [] [] demo_capture1 (Some (demo_frame 100))); [| by vm_compute].
  apply (capture_video 4 _ _ demo_capture (demo_sample 100)); [by apply capture_new | by vm_compute].
Defined.
