(* ===== verification/DesktopSender.v ===== *)
(** The media sender of the streamer_plus application
    (cast/standalone_sender/streamer_plus/desktop_media_sender.h and .cc): it
    takes captured frames, anchors their timestamps on the clock, hands them to
    the encoders one picture at a time, follows the network's bandwidth, and
    shuts down when media stop.

    The encoders are any that implement the classes below.  The clock and the
    session's bandwidth estimate are arguments; the shutdown callback and the
    printed telemetry are recorded.  Each handler ends by scheduling its alarm
    (Alarm.v) again. *)

From S2P Require Import Prelude Numeric Text Alarm Capture.

(** * Timestamps *)

Definition TIME_MAX : Z := INT64_MAX.

Definition MapCaptureTimestamp (anchor_pts_ns anchor_clock pts_ns : Z) : option Z :=
  if pts_ns <? anchor_pts_ns then None else
  let delta_ns := pts_ns - anchor_pts_ns in
  if INT64_MAX <? delta_ns then None else
  let delta := Z.quot delta_ns 1000 in
  if TIME_MAX - delta <? anchor_clock then None
  else Some (anchor_clock + delta).

Definition IsValidI420FrameSize (width height byte_count : Z) : bool :=
  if negb (width mod 2 =? 0) || negb (height mod 2 =? 0) then false
  else byte_count =? u64 (width * height * 3) / 2.

(** * The encoders *)

(** [StreamingVideoEncoder::VideoFrame]: where the planes start in the bytes. *)
Record EncoderFrame := mkEncoderFrame {
  encoder_width : Z;
  encoder_height : Z;
  yuv_bytes : list Z;
  yuv_planes : list Z;
  yuv_strides : list Z;
  duration : Z;
  capture_begin : Z;
  capture_end : Z }.

Class VideoEncoder (V : Type) := {
  GetTargetBitrate : V -> Z;
  SetTargetBitrate : Z -> V -> V;
  TryEncodeAndSend : EncoderFrame -> Z -> V -> outcome (bool * V) }.

Class AudioEncoder (A : Type) := {
  GetBitrate : A -> Z;
  SetBitrate : Z -> A -> outcome A;
  EncodeAndSend : list Z -> Z -> Z -> Z -> Z -> A -> outcome A }.

(** [StreamingVpxEncoder::Stats], what the sender reads of it. *)
Record EncodeStats := mkEncodeStats { encoded_size : Z; encode_wall_time : Z; quantizer : Z }.

(** * The state *)

Definition kPollInterval : Z := 5 * 1000.
Definition kCongestionInterval : Z := 500 * 1000.
Definition kTelemetryInterval : Z := 1000 * 1000.
Definition kInitialPairDeadline : Z := 2000 * 1000.
Definition kAudioWatchdogDeadline : Z := 1000 * 1000.
Definition kVideoWatchdogDeadline : Z := 2000 * 1000.
Definition kMinFrameDuration : Z := 1 * 1000.
Definition kMaxFrameDuration : Z := 125 * 1000.
Definition kAudioGapThreshold : Z := 10 * 1000.
Definition kMinVideoBitrate : Z := 1024.
Definition kUsableBandwidthFraction : double := ddiv (double_of_Z 8) (double_of_Z 10).
Definition kMaxBitrateGrowthFactor : double := ddiv (double_of_Z 1) (double_of_Z 10).

(** The members of [ConnectionSettings] and of the recommendations it reads. *)
Record ConnectionSettings := mkSettings {
  max_bitrate : Z; video_max_bitrate : Z; settings_audio_bitrate : Z; video_frames_per_second : Z }.
Record BitRateLimits := mkLimits { minimum : Z; maximum : Z }.
Record Recommendations := mkRecommendations { audio_limits : BitRateLimits; video_limits : BitRateLimits }.

Inductive AnchorState := kWaitingForFirstPair | kAnchored.
Inductive VideoState := kIdle | kEncoding.
#[export] Instance AnchorState_eq_dec : EqDecision AnchorState.
Proof. solve_decision. Defined.
#[export] Instance VideoState_eq_dec : EqDecision VideoState.
Proof. solve_decision. Defined.

Record Counters := mkCounters {
  video_submitted : Z;
  audio_submitted : Z;
  audio_samples : Z;
  video_pending_dropped : Z;
  video_preencode_rejected : Z;
  video_timestamp_dropped : Z;
  audio_timestamp_dropped : Z;
  audio_gaps : Z;
  video_encoded : Z;
  video_bytes : Z;
  stats_updates : Z;
  last_video_encode_wall : Z;
  last_video_quantizer : Z;
  opus_bitrate : Z;
  network_estimate_bps : Z;
  video_target_bps : Z }.
#[export] Instance eta_Counters : Eta Counters := fun c =>
  mkCounters (video_submitted c) (audio_submitted c) (audio_samples c) (video_pending_dropped c)
    (video_preencode_rejected c) (video_timestamp_dropped c) (audio_timestamp_dropped c) (audio_gaps c)
    (video_encoded c) (video_bytes c) (stats_updates c) (last_video_encode_wall c) (last_video_quantizer c)
    (opus_bitrate c) (network_estimate_bps c) (video_target_bps c).
Definition new_Counters : Counters := mkCounters 0 0 0 0 0 0 0 0 0 0 0 0 0 0 0 0.

(** A line of telemetry: the values printed. *)
Record TelemetryLine := mkLine {
  line_state : str; uptime_ms : Z; line_capture : CaptureTelemetry; line_counters : Counters;
  usable_bps : Z; line_failed : bool; line_error : str }.

Section DesktopSender.
Context {V A : Type} `{VideoEncoder V} `{AudioEncoder A}.

Record DesktopMediaSender := mkDesktopSender {
  settings_ : ConnectionSettings;
  capture_ : GstreamerCapture;
  video_encoder_ : option V;
  audio_encoder_ : option A;
  recommendations_ : Recommendations;
  anchor_state_ : AnchorState;
  anchor_pts_ns_ : Z;
  anchor_clock_ : Z;
  last_video_pts_ns_ : Z;
  last_audio_pts_ns_ : Z;
  have_last_video_pts_ : bool;
  have_last_audio_pts_ : bool;
  video_state_ : VideoState;
  pending_video_ : option VideoFrame;
  pending_audio_ : option AudioFrame;
  counters_ : Counters;
  streaming_start_ : Z;
  last_audio_submit_ : Z;
  last_video_submit_ : Z;
  watchdog_failed_ : bool;
  last_error_ : str;
  poll_alarm_ : Alarm (Task := unit);
  congestion_alarm_ : Alarm (Task := unit);
  telemetry_alarm_ : Alarm (Task := unit);
  cli_video_cap_bps_ : Z;
  cli_audio_cap_bps_ : Z;
  shutdowns : Z;
  telemetry_lines : list TelemetryLine }.
#[export] Instance eta_DesktopMediaSender : Eta DesktopMediaSender := fun s =>
  mkDesktopSender (settings_ s) (capture_ s) (video_encoder_ s) (audio_encoder_ s) (recommendations_ s)
    (anchor_state_ s) (anchor_pts_ns_ s) (anchor_clock_ s) (last_video_pts_ns_ s) (last_audio_pts_ns_ s)
    (have_last_video_pts_ s) (have_last_audio_pts_ s) (video_state_ s) (pending_video_ s) (pending_audio_ s)
    (counters_ s) (streaming_start_ s) (last_audio_submit_ s) (last_video_submit_ s) (watchdog_failed_ s)
    (last_error_ s) (poll_alarm_ s) (congestion_alarm_ s) (telemetry_alarm_ s) (cli_video_cap_bps_ s)
    (cli_audio_cap_bps_ s) (shutdowns s) (telemetry_lines s).

Implicit Types s : DesktopMediaSender.

Definition schedule_poll (now : Z) s : outcome DesktopMediaSender :=
  a ← ScheduleWithTask now tt (now + kPollInterval) (poll_alarm_ s); Ret (s <| poll_alarm_ := a |>).
Definition schedule_congestion (now : Z) s : outcome DesktopMediaSender :=
  a ← ScheduleWithTask now tt (now + kCongestionInterval) (congestion_alarm_ s);
  Ret (s <| congestion_alarm_ := a |>).
Definition schedule_telemetry (now : Z) s : outcome DesktopMediaSender :=
  a ← ScheduleWithTask now tt (now + kTelemetryInterval) (telemetry_alarm_ s);
  Ret (s <| telemetry_alarm_ := a |>).

Definition shutdown_callback s : DesktopMediaSender := s <| shutdowns := shutdowns s + 1 |>.

(** The initial bitrate of the audio encoder. *)
Definition initial_opus_bitrate (cap : Z) (limits : BitRateLimits) : Z :=
  let target := if 0 <? maximum limits then Z.min cap (maximum limits) else cap in
  if 0 <? minimum limits then Z.max target (Z.min cap (minimum limits)) else target.

Definition new_DesktopMediaSender (now : Z) (settings : ConnectionSettings) (video : option V) (audio : option A)
    (recommendations : Recommendations) (capture : GstreamerCapture) : outcome DesktopMediaSender :=
  let video_cap := if 0 <? video_max_bitrate settings then video_max_bitrate settings
                   else if 0 <? max_bitrate settings then max_bitrate settings else 8000000 in
  let audio_cap := if 0 <? settings_audio_bitrate settings then settings_audio_bitrate settings else 128000 in
  let counters := if video then new_Counters <| video_target_bps := video_cap |> else new_Counters in
  let video := SetTargetBitrate video_cap <$> video in
  '(audio, counters) ←
    match audio with
    | Some a =>
        a ← SetBitrate (initial_opus_bitrate audio_cap (audio_limits recommendations)) a;
        Ret (Some a, counters <| opus_bitrate := GetBitrate a |>)
    | None => Ret (None, counters)
    end;
  let s := mkDesktopSender settings capture video audio recommendations kWaitingForFirstPair 0 0 0 0 false false
             kIdle None None counters now 0 0 false [] new_Alarm new_Alarm new_Alarm video_cap audio_cap 0 [] in
  s ← schedule_poll now s;
  s ← schedule_congestion now s;
  schedule_telemetry now s.

Definition OnStatisticsUpdated s : DesktopMediaSender :=
  s <| counters_ := (counters_ s) <| stats_updates := stats_updates (counters_ s) + 1 |> |>.

Definition MapTimestamp (pts_ns : Z) s : option Z :=
  MapCaptureTimestamp (anchor_pts_ns_ s) (anchor_clock_ s) pts_ns.

(** The duration of a picture: from the one before it, or nominal. *)
Definition frame_duration (pts_ns : Z) s : Z :=
  let d :=
    if have_last_video_pts_ s then
      let pts_delta := swrap 64 pts_ns - swrap 64 (last_video_pts_ns_ s) in
      if 0 <? pts_delta then Z.quot pts_delta 1000 else 33 * 1000
    else if 0 <? video_frames_per_second (settings_ s)
         then Z.quot 1000 (video_frames_per_second (settings_ s)) * 1000 else 33 * 1000 in
  Z.max (Z.min d kMaxFrameDuration) kMinFrameDuration.

Definition count_video_timestamp_drop s : DesktopMediaSender :=
  s <| counters_ := (counters_ s) <| video_timestamp_dropped := video_timestamp_dropped (counters_ s) + 1 |> |>.
Definition count_video_rejected s : DesktopMediaSender :=
  s <| counters_ := (counters_ s) <| video_preencode_rejected := video_preencode_rejected (counters_ s) + 1 |> |>.

Definition encoder_frame (frame : VideoFrame) (ref_time d : Z) : EncoderFrame :=
  let w := frame_width frame in
  let h := frame_height frame in
  let y_size := w * h in
  let uv_size := Z.quot y_size 4 in
  mkEncoderFrame w h (i420_bytes frame) [0; y_size; y_size + uv_size] [w; Z.quot w 2; Z.quot w 2]
    d ref_time (ref_time + d).

(** A frame that is rejected submits the pending one, which may be rejected in
    turn; [fuel] bounds the depth. *)
Fixpoint TrySubmitVideo (fuel : nat) (now : Z) (frame : VideoFrame) s : outcome DesktopMediaSender :=
  match fuel with
  | O => Fault Undefined
  | S fuel =>
      match video_encoder_ s with
      | None => Ret s
      | Some encoder =>
          if have_last_video_pts_ s && (video_timestamp_ns frame <=? last_video_pts_ns_ s)
          then Ret (count_video_timestamp_drop s) else
          match MapTimestamp (video_timestamp_ns frame) s with
          | None => Ret (count_video_timestamp_drop s)
          | Some ref_time =>
              if bool_decide (video_state_ s = kEncoding) then
                Ret (s <| pending_video_ := Some frame |>
                       <| counters_ := (counters_ s) <| video_pending_dropped := video_pending_dropped (counters_ s) + 1 |> |>)
              else
              if negb (IsValidI420FrameSize (frame_width frame) (frame_height frame) (zlen (i420_bytes frame)))
              then Ret (count_video_rejected s) else
              let d := frame_duration (video_timestamp_ns frame) s in
              let s := s <| last_video_pts_ns_ := video_timestamp_ns frame |> <| have_last_video_pts_ := true |> in
              '(accepted, encoder) ← TryEncodeAndSend (encoder_frame frame ref_time d) ref_time encoder;
              let s := s <| video_encoder_ := Some encoder |> in
              if (accepted : bool) then
                Ret (s <| video_state_ := kEncoding |> <| last_video_submit_ := now |>
                       <| counters_ := (counters_ s) <| video_submitted := video_submitted (counters_ s) + 1 |> |>)
              else
                let s := count_video_rejected s in
                match pending_video_ s with
                | Some pending => s ← TrySubmitVideo fuel now pending s; Ret (s <| pending_video_ := None |>)
                | None => Ret s
                end
          end
      end
  end.

(** Three calls deep is enough (see [TrySubmitVideo_returns]). *)
Definition kSubmitDepth : nat := 3.

Definition OnVideoEncoded (now : Z) (stats : EncodeStats) s : outcome DesktopMediaSender :=
  let c := counters_ s in
  let s := s <| video_state_ := kIdle |>
             <| counters_ := c <| video_encoded := video_encoded c + 1 |>
                               <| video_bytes := video_bytes c + encoded_size stats |>
                               <| last_video_encode_wall := encode_wall_time stats |>
                               <| last_video_quantizer := quantizer stats |> |> in
  match pending_video_ s with
  | Some pending => s ← TrySubmitVideo kSubmitDepth now pending s; Ret (s <| pending_video_ := None |>)
  | None => Ret s
  end.

Definition SubmitAudio (now : Z) (frame : AudioFrame) s : outcome DesktopMediaSender :=
  match audio_encoder_ s with
  | None => Ret s
  | Some encoder =>
      let drop_it := s <| counters_ := (counters_ s) <| audio_timestamp_dropped := audio_timestamp_dropped (counters_ s) + 1 |> |> in
      if have_last_audio_pts_ s && (audio_timestamp_ns frame <=? last_audio_pts_ns_ s) then Ret drop_it else
      match MapTimestamp (audio_timestamp_ns frame) s with
      | None => Ret drop_it
      | Some ref_time =>
          let pts_delta := swrap 64 (audio_timestamp_ns frame) - swrap 64 (last_audio_pts_ns_ s) in
          let s := if have_last_audio_pts_ s && (0 <? pts_delta) && (kAudioGapThreshold <? Z.quot pts_delta 1000)
                   then s <| counters_ := (counters_ s) <| audio_gaps := audio_gaps (counters_ s) + 1 |> |> else s in
          let s := s <| last_audio_pts_ns_ := audio_timestamp_ns frame |> <| have_last_audio_pts_ := true |>
                     <| last_audio_submit_ := now |> in
          if channels frame =? 0 then Fault Undefined else
          let num_samples := zlen (interleaved_samples frame) / channels frame in
          if num_samples <=? 0 then Ret s else
          encoder ← EncodeAndSend (interleaved_samples frame) num_samples ref_time ref_time ref_time encoder;
          let s := s <| audio_encoder_ := Some encoder |> in
          Ret (s <| counters_ := (counters_ s) <| audio_submitted := audio_submitted (counters_ s) + 1 |>
                                               <| audio_samples := audio_samples (counters_ s) + zlen (interleaved_samples frame) |> |>)
      end
  end.

Definition fail_watchdog (message : string) s : DesktopMediaSender :=
  shutdown_callback (s <| last_error_ := lit message |> <| watchdog_failed_ := true |>).

Definition CheckWatchdog (now : Z) s : DesktopMediaSender :=
  if watchdog_failed_ s then s else
  if negb (bool_decide (anchor_state_ s = kAnchored)) then
    if kInitialPairDeadline <? now - streaming_start_ s
    then fail_watchdog "watchdog: initial A/V pair not received within deadline" s else s
  else
  let s := if bool_decide (is_Some (audio_encoder_ s)) && negb (last_audio_submit_ s =? 0)
              && (kAudioWatchdogDeadline <? now - last_audio_submit_ s)
           then fail_watchdog "watchdog: no audio submitted within deadline" s else s in
  if bool_decide (is_Some (video_encoder_ s)) && negb (last_video_submit_ s =? 0)
     && (kVideoWatchdogDeadline <? now - last_video_submit_ s)
  then fail_watchdog "watchdog: no video submitted within deadline" s else s.

(** [TakeLatestAudio] and [TakeLatestVideo] of the capture. *)
Definition take_audio s : option AudioFrame * DesktopMediaSender :=
  let '(o, c) := TakeLatestAudio (capture_ s) in (o, s <| capture_ := c |>).
Definition take_video s : option VideoFrame * DesktopMediaSender :=
  let '(o, c) := TakeLatestVideo (capture_ s) in (o, s <| capture_ := c |>).

(** The part of [PollCapture] before the first pair is complete. *)
Definition collect_first_pair (now : Z) s : outcome DesktopMediaSender :=
  let '(audio, s) := take_audio s in
  let s := if audio then s <| pending_audio_ := audio |> else s in
  let '(video, s) := take_video s in
  let s := if video then s <| pending_video_ := video |> else s in
  match pending_video_ s, pending_audio_ s with
  | Some initial_video, Some initial_audio =>
      let s := s <| anchor_pts_ns_ := Z.min (video_timestamp_ns initial_video) (audio_timestamp_ns initial_audio) |>
                 <| anchor_clock_ := now |> <| anchor_state_ := kAnchored |>
                 <| pending_video_ := None |> <| pending_audio_ := None |> in
      s ← TrySubmitVideo kSubmitDepth now initial_video s;
      SubmitAudio now initial_audio s
  | _, _ => Ret s
  end.

Definition submit_latest (now : Z) s : outcome DesktopMediaSender :=
  let '(audio, s) := take_audio s in
  s ← match audio with Some frame => SubmitAudio now frame s | None => Ret s end;
  let '(video, s) := take_video s in
  match video with Some frame => TrySubmitVideo kSubmitDepth now frame s | None => Ret s end.

Definition PollCapture (running : bool) (bus : option BusMessage) (now : Z) s : outcome DesktopMediaSender :=
  let '(failed, c) := PollRuntimeError running bus (capture_ s) in
  let s := s <| capture_ := c |> in
  if failed then
    Ret (shutdown_callback (s <| last_error_ := capture_error (capture_ s) |> <| watchdog_failed_ := true |>))
  else
  s ← (if bool_decide (anchor_state_ s = kWaitingForFirstPair) then collect_first_pair now s
       else submit_latest now s);
  schedule_poll now (CheckWatchdog now s).

(** The new target of the video encoder for an estimate of the bandwidth, and
    the target it replaces. *)
Definition new_video_target (estimated opus current cap : Z) (limits : BitRateLimits) : Z :=
  let usable_total := double_trunc (dmul (double_of_Z estimated) kUsableBandwidthFraction) in
  let actual_opus := if 0 <? opus then opus else 0 in
  let available_video := Z.max kMinVideoBitrate (usable_total - actual_opus) in
  let receiver_video_max := if 0 <? maximum limits then Z.min cap (maximum limits) else cap in
  let hard_video_cap := Z.min cap receiver_video_max in
  let new_target :=
    if available_video <? current then Z.min available_video hard_video_cap
    else
      let max_growth := double_trunc (dmul (double_of_Z current) (dadd (double_of_Z 1) kMaxBitrateGrowthFactor)) in
      Z.min (Z.min available_video hard_video_cap) max_growth in
  let new_target :=
    if 0 <? minimum limits then
      Z.max new_target (Z.min (Z.min (minimum limits) hard_video_cap) available_video)
    else new_target in
  Z.max kMinVideoBitrate new_target.

Definition ControlForNetworkCongestion (estimated now : Z) s : outcome DesktopMediaSender :=
  match video_encoder_ s with
  | None => Ret s
  | Some encoder =>
      let s := s <| counters_ := (counters_ s) <| network_estimate_bps := estimated |> |> in
      if estimated <=? 0 then schedule_congestion now s else
      let current := if 0 <? video_target_bps (counters_ s) then video_target_bps (counters_ s)
                     else GetTargetBitrate encoder in
      let target := new_video_target estimated (opus_bitrate (counters_ s)) current
                      (cli_video_cap_bps_ s) (video_limits (recommendations_ s)) in
      schedule_congestion now
        (s <| video_encoder_ := Some (SetTargetBitrate target encoder) |>
           <| counters_ := (counters_ s) <| video_target_bps := target |> |>)
  end.

Definition telemetry_line (state : string) (usable now : Z) s : TelemetryLine :=
  mkLine (lit state) (Z.quot (now - streaming_start_ s) 1000) (telemetry (capture_ s)) (counters_ s)
    usable (watchdog_failed_ s) (last_error_ s).

Definition EmitTelemetry (now : Z) s : outcome DesktopMediaSender :=
  let estimate := network_estimate_bps (counters_ s) in
  let usable := if 0 <? estimate then double_trunc (dmul (double_of_Z estimate) kUsableBandwidthFraction) else 0 in
  let line := telemetry_line (if watchdog_failed_ s then "failed" else "streaming") usable now s in
  let s := s <| telemetry_lines := telemetry_lines s ++ [line] |> in
  if watchdog_failed_ s then Ret s else schedule_telemetry now s.

(** The destructor, which cancels the alarms. *)
Definition EmitFinalTelemetry (now : Z) s : DesktopMediaSender :=
  s <| telemetry_lines := telemetry_lines s ++ [telemetry_line "stopping" 0 now s] |>.

(** ** The alarms *)

Definition poll_alarm_fires (running : bool) (bus : option BusMessage) (now : Z) (i : nat) s : outcome DesktopMediaSender :=
  '(task, a) ← functor_call now i (poll_alarm_ s);
  let s := s <| poll_alarm_ := a |> in
  match task with Some tt => PollCapture running bus now s | None => Ret s end.

Definition congestion_alarm_fires (estimated now : Z) (i : nat) s : outcome DesktopMediaSender :=
  '(task, a) ← functor_call now i (congestion_alarm_ s);
  let s := s <| congestion_alarm_ := a |> in
  match task with Some tt => ControlForNetworkCongestion estimated now s | None => Ret s end.

Definition telemetry_alarm_fires (now : Z) (i : nat) s : outcome DesktopMediaSender :=
  '(task, a) ← functor_call now i (telemetry_alarm_ s);
  let s := s <| telemetry_alarm_ := a |> in
  match task with Some tt => EmitTelemetry now s | None => Ret s end.
End DesktopSender.
Arguments DesktopMediaSender : clear implicits.
