(* ===== verification/DesktopSenderInv.v ===== *)
(** The invariant of the desktop media sender (DesktopSender.v) and that every
    handler keeps it. *)

From S2P Require Import Prelude Numeric Text Alarm Capture DesktopSender.

(** A picture in the format the video encoder is promised. *)
Record picture_ok (f : EncoderFrame) : Prop := {
  picture_size : 0 <= encoder_width f /\ 0 <= encoder_height f;
  picture_even : encoder_width f mod 2 = 0 /\ encoder_height f mod 2 = 0;
  picture_bytes : zlen (yuv_bytes f) = encoder_width f * encoder_height f * 3 / 2;
  picture_planes : yuv_planes f = [0; encoder_width f * encoder_height f;
                     encoder_width f * encoder_height f + encoder_width f * encoder_height f / 4];
  picture_strides : yuv_strides f = [encoder_width f; encoder_width f / 2; encoder_width f / 2];
  picture_duration : kMinFrameDuration <= duration f <= kMaxFrameDuration;
  picture_times : capture_end f = capture_begin f + duration f }.

(** What the sender relies on. *)
Class VideoEncoderLaws (V : Type) `{VideoEncoder V} := {
  ve_ok : V -> Prop;
  ve_set v bitrate : ve_ok v -> ve_ok (SetTargetBitrate bitrate v);
  ve_try v frame : ve_ok v -> picture_ok frame ->
    exists accepted v', TryEncodeAndSend frame (capture_begin frame) v = Ret (accepted, v') /\ ve_ok v' }.

Class AudioEncoderLaws (A : Type) `{AudioEncoder A} := {
  ae_ok : A -> Prop;
  ae_set a bitrate : ae_ok a -> 0 < bitrate -> exists a', SetBitrate bitrate a = Ret a' /\ ae_ok a';
  ae_send a samples n t : ae_ok a -> 0 < n -> exists a', EncodeAndSend samples n t t t a = Ret a' /\ ae_ok a' }.

Definition frame_sane (f : VideoFrame) : Prop :=
  0 <= frame_width f /\ 0 <= frame_height f /\ frame_width f * frame_height f * 3 < 2 ^ 64
  /\ is_u 64 (video_timestamp_ns f).
Definition audio_sane (f : AudioFrame) : Prop := 0 < channels f /\ is_u 64 (audio_timestamp_ns f).

Definition capture_sane (c : GstreamerCapture) : Prop :=
  Forall frame_sane (entries_ (video_queue c)) /\ Forall audio_sane (entries_ (audio_queue c)).

Section Invariant.
Context {V A : Type} `{!VideoEncoder V} `{!AudioEncoder A} `{!VideoEncoderLaws V} `{!AudioEncoderLaws A}.
Implicit Types s : DesktopMediaSender V A.

Definition in_flight s : Z := if bool_decide (video_state_ s = kEncoding) then 1 else 0.

Record sender_ok s : Prop := {
  so_video v : video_encoder_ s = Some v -> ve_ok v;
  so_audio a : audio_encoder_ s = Some a -> ae_ok a;
  so_alarms : alarm_ok (poll_alarm_ s) /\ alarm_ok (congestion_alarm_ s) /\ alarm_ok (telemetry_alarm_ s);
  so_capture : capture_sane (capture_ s);
  so_pending_video p : pending_video_ s = Some p -> frame_sane p;
  so_pending_audio p : pending_audio_ s = Some p -> audio_sane p;
  so_flight : video_submitted (counters_ s) = video_encoded (counters_ s) + in_flight s;
  so_waiting : anchor_state_ s = kWaitingForFirstPair -> video_state_ s = kIdle;
  so_failed : 0 <= shutdowns s /\ (watchdog_failed_ s = true <-> 0 < shutdowns s);
  so_target : is_Some (video_encoder_ s) ->
    0 < video_target_bps (counters_ s) <= Z.max kMinVideoBitrate (cli_video_cap_bps_ s);
  so_cap : 0 < cli_video_cap_bps_ s }.

(** Outside of a handler no frame is pending while the encoder is idle, once
    timestamps are anchored. *)
Definition settled s : Prop :=
  anchor_state_ s = kAnchored -> video_state_ s = kIdle -> pending_video_ s = None.

(** ** Submitting video *)

(** What submitting a picture may change. *)
Record video_step s s' : Prop := {
  vs_rest : s' = s <| video_encoder_ := video_encoder_ s' |> <| last_video_pts_ns_ := last_video_pts_ns_ s' |>
    <| have_last_video_pts_ := have_last_video_pts_ s' |> <| video_state_ := video_state_ s' |>
    <| pending_video_ := pending_video_ s' |> <| counters_ := counters_ s' |>
    <| last_video_submit_ := last_video_submit_ s' |>;
  vs_encoder v : video_encoder_ s' = Some v -> ve_ok v;
  vs_present : is_Some (video_encoder_ s') <-> is_Some (video_encoder_ s);
  vs_counters : counters_ s' = (counters_ s) <| video_submitted := video_submitted (counters_ s') |>
    <| video_pending_dropped := video_pending_dropped (counters_ s') |>
    <| video_preencode_rejected := video_preencode_rejected (counters_ s') |>
    <| video_timestamp_dropped := video_timestamp_dropped (counters_ s') |>;
  vs_flight : video_submitted (counters_ s') - in_flight s' = video_submitted (counters_ s) - in_flight s;
  vs_encoding : video_state_ s = kEncoding -> video_state_ s' = kEncoding;
  vs_pending p : pending_video_ s' = Some p -> frame_sane p }.

Lemma video_step_ok s s' :
  sender_ok s -> anchor_state_ s = kAnchored -> video_step s s' -> sender_ok s'.
Proof using.
  intros Hok Ha Hs. pose proof (vs_rest _ _ Hs) as E. pose proof (vs_counters _ _ Hs) as Ec.
  pose proof (vs_flight _ _ Hs) as Hf. destruct Hok as [Hv Hau Hal Hc Hp Hpa Hfl Hw Hfa Ht Hcap].
  assert (video_encoded (counters_ s') = video_encoded (counters_ s)
    /\ video_target_bps (counters_ s') = video_target_bps (counters_ s)) as [Ee Et] by (by rewrite Ec).
  constructor; try (rewrite E; done).
  - by apply Hs.
  - by apply Hs.
  - lia.
  - rewrite E. cbn. congruence.
  - intros Hsome. apply (vs_present _ _ Hs) in Hsome. rewrite Et, E. by apply Ht.
Qed.

Lemma video_step_refl s :
  (forall v, video_encoder_ s = Some v -> ve_ok v) -> (forall p, pending_video_ s = Some p -> frame_sane p) ->
  video_step s s.
Proof using. intros Hv Hp. by constructor; destruct s as [? ? ? ? ? ? ? ? ? ? ? ? ? ? ? []]. Qed.

Lemma video_step_trans s1 s2 s3 : video_step s1 s2 -> video_step s2 s3 -> video_step s1 s3.
Proof using.
  intros H12 H23. pose proof (vs_rest _ _ H12) as R12. pose proof (vs_rest _ _ H23) as R23.
  pose proof (vs_counters _ _ H12) as C12. pose proof (vs_counters _ _ H23) as C23. constructor.
  - rewrite R23 at 1. by rewrite R12.
  - apply H23.
  - by rewrite (vs_present _ _ H23), (vs_present _ _ H12).
  - rewrite C23 at 1. by rewrite C12.
  - by rewrite (vs_flight _ _ H23), (vs_flight _ _ H12).
  - intros H. by apply H23, H12.
  - apply H23.
Qed.

Lemma frame_duration_bounds pts s : kMinFrameDuration <= frame_duration pts s <= kMaxFrameDuration.
Proof using. unfold frame_duration, kMinFrameDuration, kMaxFrameDuration. lia. Qed.

Lemma encoder_frame_ok f t d :
  frame_sane f -> IsValidI420FrameSize (frame_width f) (frame_height f) (zlen (i420_bytes f)) = true ->
  kMinFrameDuration <= d <= kMaxFrameDuration -> picture_ok (encoder_frame f t d).
Proof using.
  intros (Hw & Hh & Hb & _) Hv Hd. unfold IsValidI420FrameSize in Hv.
  destruct (frame_width f mod 2 =? 0) eqn:Ew, (frame_height f mod 2 =? 0) eqn:Eh; cbn in Hv; try done.
  apply Z.eqb_eq in Ew, Eh, Hv. rewrite wrap_small in Hv by (unfold is_u; nia).
  unfold encoder_frame. constructor; cbn -[Z.mul Z.div Z.modulo Z.quot]; try done.
  all: rewrite !Z.quot_div_nonneg by nia; try done.
Qed.

(** How deep resubmitting a frame can go. *)
Definition submit_depth (frame : VideoFrame) s : nat :=
  if have_last_video_pts_ s && (video_timestamp_ns frame <=? last_video_pts_ns_ s) then 1
  else match pending_video_ s with
       | None => 1
       | Some p => if video_timestamp_ns frame <? video_timestamp_ns p then 3 else 2
       end.

Lemma submit_depth_bound frame s : (1 <= submit_depth frame s <= kSubmitDepth)%nat.
Proof using. unfold submit_depth, kSubmitDepth. repeat case_match; lia. Qed.

(** A step that only changes what submitting may change. *)
Lemma video_step_counters s (f : Counters -> Counters) :
  (forall v, video_encoder_ s = Some v -> ve_ok v) -> (forall p, pending_video_ s = Some p -> frame_sane p) ->
  (forall c, f c = c <| video_pending_dropped := video_pending_dropped (f c) |>
    <| video_preencode_rejected := video_preencode_rejected (f c) |>
    <| video_timestamp_dropped := video_timestamp_dropped (f c) |>) ->
  video_step s (s <| counters_ := f (counters_ s) |>).
Proof using.
  intros Hv Hp Hf. constructor; try done; cbn [counters_]; rewrite Hf; by destruct (counters_ s).
Qed.

Lemma submit_step fuel now frame s :
  (submit_depth frame s <= fuel)%nat -> frame_sane frame ->
  (forall v, video_encoder_ s = Some v -> ve_ok v) -> (forall p, pending_video_ s = Some p -> frame_sane p) ->
  exists s', TrySubmitVideo fuel now frame s = Ret s' /\ video_step s s' /\
    (pending_video_ s = None -> video_state_ s = kIdle -> pending_video_ s' = None).
Proof using.
  revert frame s. induction fuel as [| fuel IH]; intros frame s Hd Hf Hv Hp;
    [pose proof (submit_depth_bound frame s); lia |].
  pose proof (video_step_counters s (fun c => c <| video_timestamp_dropped := video_timestamp_dropped c + 1 |>)
    Hv Hp (fun _ => eq_refl)) as Hdrop.
  cbn [TrySubmitVideo]. destruct (video_encoder_ s) as [v |] eqn:Ev.
  2: { eexists. split; [done |]. split; [| done]. apply video_step_refl; [congruence | done]. }
  rewrite <- Ev in Hv. unfold submit_depth in Hd.
  destruct (have_last_video_pts_ s && _) eqn:Elast; [by eexists |].
  destruct (MapTimestamp _ s) as [t |]; [| by eexists].
  case_bool_decide as Eenc.
  { eexists. split; [done |]. split; [| congruence].
    constructor; try done. intros p [= <-]. done. }
  destruct (IsValidI420FrameSize _ _ _) eqn:Evalid; cbn [negb].
  2: { eexists. split; [done |]. split; [| done]. by apply video_step_counters. }
  pose proof (encoder_frame_ok frame t _ Hf Evalid (frame_duration_bounds (video_timestamp_ns frame) s)) as Hpic.
  destruct (ve_try v _ (Hv _ Ev) Hpic) as (acc & v' & E & Hv').
  cbn [capture_begin encoder_frame] in E. rewrite E. cbn [mbind outcome_bind].
  destruct acc.
  { eexists. split; [done |]. split; [| done]. constructor; try done.
    - by intros ? [= <-].
    - unfold in_flight. rewrite (bool_decide_eq_false_2 _ Eenc), bool_decide_eq_true_2 by done. cbn. lia. }
  set (s1 := count_video_rejected _).
  assert (H1 : video_step s s1).
  { constructor; try done. by intros ? [= <-]. }
  change (pending_video_ s1) with (pending_video_ s). destruct (pending_video_ s) as [p |] eqn:Ep.
  2: { exists s1. split; [done |]. split; [done |]. intros _ _. exact Ep. }
  destruct (IH p s1) as (s' & -> & Hs' & _).
  - unfold submit_depth. subst s1. cbn. rewrite Ep, Z.ltb_irrefl.
    destruct (Z.ltb_spec (video_timestamp_ns frame) (video_timestamp_ns p)); [by case_match; lia |].
    rewrite (proj2 (Z.leb_le _ _)) by lia. cbn. lia.
  - by apply Hp.
  - apply H1.
  - apply H1.
  - cbn [mbind outcome_bind]. eexists. split; [done |]. split; [| done].
    apply (video_step_trans _ _ _ H1). apply (video_step_trans _ _ _ Hs').
    constructor; try done; [by destruct Hs' | cbn; by destruct (counters_ s')].
Qed.

Lemma TrySubmitVideo_ok now frame s :
  sender_ok s -> settled s -> anchor_state_ s = kAnchored -> frame_sane frame ->
  exists s', TrySubmitVideo kSubmitDepth now frame s = Ret s' /\ video_step s s' /\ sender_ok s' /\ settled s'.
Proof using.
  intros Hok Hs Ha Hf. pose proof Hok as [Hv _ _ _ Hp _ _ _ _ _ _].
  destruct (submit_step kSubmitDepth now frame s) as (s' & E & Hstep & Hnone); try done.
  { apply submit_depth_bound. }
  exists s'. split; [done |]. split; [done |]. split; [by eapply video_step_ok |].
  intros _ Hidle. destruct (video_state_ s) eqn:Ev.
  - apply Hnone; [by apply Hs | done].
  - rewrite (vs_encoding _ _ Hstep Ev) in Hidle. done.
Qed.

(** ** Submitting audio *)

Lemma SubmitAudio_ok now frame s :
  sender_ok s -> settled s -> audio_sane frame ->
  exists s', SubmitAudio now frame s = Ret s' /\ sender_ok s' /\ settled s' /\
    anchor_state_ s' = anchor_state_ s /\ capture_ s' = capture_ s /\ poll_alarm_ s' = poll_alarm_ s.
Proof using.
  intros Hok Hs (Hch & _). unfold SubmitAudio. destruct (audio_encoder_ s) as [a |] eqn:Ea; [| by exists s].
  pose proof Hok as [Hv Hau Hal Hc Hp Hpa Hfl Hw Hfa Ht Hcap].
  destruct (have_last_audio_pts_ s && _).
  { eexists. split; [done |]. split; [| done]. by constructor. }
  destruct (MapTimestamp _ s) as [t |].
  2: { eexists. split; [done |]. split; [| done]. by constructor. }
  rewrite (proj2 (Z.eqb_neq _ _)) by lia.
  match goal with |- context [if ?b then ?s2 else s] => set (s1 := if b then s2 else s) end.
  assert (H1 : sender_ok s1 /\ settled s1 /\ anchor_state_ s1 = anchor_state_ s /\ capture_ s1 = capture_ s
    /\ poll_alarm_ s1 = poll_alarm_ s).
  { subst s1. case_match; [| done]. split; [| done]. by constructor. }
  clearbody s1. destruct H1 as ([] & Hs1 & <- & <- & <-).
  destruct (Z.leb_spec (zlen (interleaved_samples frame) / channels frame) 0).
  { eexists. split; [done |]. split; [| done]. by constructor. }
  destruct (ae_send a (interleaved_samples frame) (zlen (interleaved_samples frame) / channels frame) t)
    as (a' & -> & Ha'); [by apply Hau | done |].
  cbn [mbind outcome_bind]. eexists. split; [done |]. split; [| done].
  constructor; try done. by intros ? [= <-].
Qed.

(** ** Events of the encoder *)

Lemma OnVideoEncoded_ok now stats s :
  sender_ok s -> video_state_ s = kEncoding ->
  exists s', OnVideoEncoded now stats s = Ret s' /\ sender_ok s' /\ settled s' /\ pending_video_ s' = None /\
    capture_ s' = capture_ s /\ poll_alarm_ s' = poll_alarm_ s.
Proof using.
  intros Hok He. pose proof Hok as [Hv Hau Hal Hc Hp Hpa Hfl Hw Hfa Ht Hcap].
  assert (Ha : anchor_state_ s = kAnchored).
  { destruct (anchor_state_ s); [| done]. by rewrite Hw in He. }
  unfold OnVideoEncoded. set (s1 := s <| video_state_ := _ |> <| counters_ := _ |>).
  assert (sender_ok s1) as H1.
  { constructor; try done. subst s1. unfold in_flight in *. cbn.
    rewrite (bool_decide_eq_true_2 _ He) in Hfl. rewrite bool_decide_eq_false_2 by done. lia. }
  change (pending_video_ s) with (pending_video_ s1) in *. destruct (pending_video_ s1) as [p |] eqn:Ep.
  2: { exists s1. split; [done |]. split; [done |]. split; [by intros _ _ | done]. }
  destruct (submit_step kSubmitDepth now p s1) as (s' & -> & Hstep & _); [apply submit_depth_bound | ..].
  { by apply Hp. } { apply H1. } { apply H1. }
  cbn [mbind outcome_bind]. pose proof (video_step_ok _ _ H1 Ha Hstep) as [].
  eexists. split; [done |]. split; [by constructor |]. split; [done |]. split; [done |].
  by rewrite (vs_rest _ _ Hstep).
Qed.

(** ** Polling *)

Lemma TakeLatest_sane {T} (P : T -> Prop) (q q' : DropOldQueue T) o :
  TakeLatest q = (o, q') -> Forall P (entries_ q) ->
  (forall x, o = Some x -> P x) /\ Forall P (entries_ q').
Proof using.
  unfold TakeLatest. destruct (last (entries_ q)) as [x |] eqn:El; intros [= <- <-] Hq; [| done].
  split; [| by constructor]. intros ? [= <-]. apply last_Some_elem_of in El.
  by apply (proj1 (Forall_forall _ _) Hq).
Qed.

(** Taking a frame and keeping it, or not. *)
Lemma take_video_ok s o s' :
  take_video s = (o, s') -> sender_ok s ->
  s' = s <| capture_ := capture_ s' |> /\ capture_sane (capture_ s') /\ (forall f, o = Some f -> frame_sane f).
Proof using.
  unfold take_video, TakeLatestVideo. destruct (TakeLatest _) as [o' q] eqn:E. intros [= <- <-] Hok.
  destruct (so_capture _ Hok) as [Hcv Hca]. by destruct (TakeLatest_sane frame_sane _ _ _ E Hcv).
Qed.

Lemma take_audio_ok s o s' :
  take_audio s = (o, s') -> sender_ok s ->
  s' = s <| capture_ := capture_ s' |> /\ capture_sane (capture_ s') /\ (forall f, o = Some f -> audio_sane f).
Proof using.
  unfold take_audio, TakeLatestAudio. destruct (TakeLatest _) as [o' q] eqn:E. intros [= <- <-] Hok.
  destruct (so_capture _ Hok) as [Hcv Hca]. by destruct (TakeLatest_sane audio_sane _ _ _ E Hca).
Qed.

Lemma with_capture_ok s c : sender_ok s -> capture_sane c -> sender_ok (s <| capture_ := c |>).
Proof using. by intros []; constructor. Qed.

Lemma with_pending_ok s v a :
  sender_ok s -> (forall p, v = Some p -> frame_sane p) -> (forall p, a = Some p -> audio_sane p) ->
  sender_ok (s <| pending_video_ := v |> <| pending_audio_ := a |>).
Proof using. by intros []; constructor. Qed.

Lemma submit_latest_ok now s :
  sender_ok s -> settled s -> anchor_state_ s = kAnchored ->
  exists s', submit_latest now s = Ret s' /\ sender_ok s' /\ settled s' /\ anchor_state_ s' = kAnchored.
Proof using.
  intros Hok Hs Ha. unfold submit_latest.
  destruct (take_audio s) as [audio s1] eqn:E1. destruct (take_audio_ok _ _ _ E1 Hok) as (R1 & C1 & Haud).
  assert (Hok1 : sender_ok s1) by (rewrite R1; by apply with_capture_ok).
  assert (settled s1 /\ anchor_state_ s1 = kAnchored) as [Hs1 Ha1] by (by rewrite R1).
  assert (exists s2, match audio with Some frame => SubmitAudio now frame s1 | None => Ret s1 end = Ret s2
    /\ sender_ok s2 /\ settled s2 /\ anchor_state_ s2 = kAnchored) as (s2 & -> & Hok2 & Hs2 & Ha2).
  { destruct audio as [f |]; [| by exists s1].
    destruct (SubmitAudio_ok now f s1) as (s2 & -> & ? & ? & ? & _); [done | done | by apply Haud |].
    exists s2. split; [done |]. split; [done |]. split; [done |]. congruence. }
  cbn [mbind outcome_bind].
  destruct (take_video s2) as [video s3] eqn:E3. destruct (take_video_ok _ _ _ E3 Hok2) as (R3 & C3 & Hvid).
  assert (Hok3 : sender_ok s3) by (rewrite R3; by apply with_capture_ok).
  assert (settled s3 /\ anchor_state_ s3 = kAnchored) as [Hs3 Ha3] by (by rewrite R3).
  destruct video as [f |]; [| by exists s3].
  destruct (TrySubmitVideo_ok now f s3) as (s4 & -> & Hstep & Hok4 & Hs4); [done | done | done | by apply Hvid |].
  exists s4. split; [done |]. split; [done |]. split; [done |]. by rewrite (vs_rest _ _ Hstep).
Qed.

Lemma collect_first_pair_ok now s :
  sender_ok s -> anchor_state_ s = kWaitingForFirstPair ->
  exists s', collect_first_pair now s = Ret s' /\ sender_ok s' /\ settled s'.
Proof using.
  intros Hok Ha. unfold collect_first_pair.
  destruct (take_audio s) as [audio s1] eqn:E1. destruct (take_audio_ok _ _ _ E1 Hok) as (R1 & C1 & Haud).
  set (s1' := if audio then s1 <| pending_audio_ := audio |> else s1).
  assert (H1 : sender_ok s1' /\ anchor_state_ s1' = kWaitingForFirstPair).
  { assert (sender_ok s1 /\ anchor_state_ s1 = kWaitingForFirstPair) as [Hok1 Ha1]
      by (rewrite R1; split; [by apply with_capture_ok | done]).
    subst s1'. destruct audio; [| done]. split; [| done].
    by apply (with_pending_ok s1 (pending_video_ s1) _ Hok1); [apply Hok1 | done]. }
  clearbody s1'. destruct H1 as [Hok1 Ha1].
  destruct (take_video s1') as [video s2] eqn:E2. destruct (take_video_ok _ _ _ E2 Hok1) as (R2 & C2 & Hvid).
  set (s2' := if video then s2 <| pending_video_ := video |> else s2).
  assert (H2 : sender_ok s2' /\ anchor_state_ s2' = kWaitingForFirstPair).
  { assert (sender_ok s2 /\ anchor_state_ s2 = kWaitingForFirstPair) as [Hok2 Ha2]
      by (rewrite R2; split; [by apply with_capture_ok | done]).
    subst s2'. destruct video; [| done]. split; [| done].
    by apply (with_pending_ok s2 _ (pending_audio_ s2) Hok2); [done | apply Hok2]. }
  clearbody s2'. destruct H2 as [Hok2 Ha2].
  destruct (pending_video_ s2') as [v |] eqn:Ev, (pending_audio_ s2') as [a |] eqn:Eau;
    try (by exists s2'; split; [done |]; split; [done |]; intros ?; congruence).
  set (s3 := s2' <| anchor_pts_ns_ := _ |> <| anchor_clock_ := _ |> <| anchor_state_ := _ |> <| pending_video_ := _ |>
    <| pending_audio_ := _ |>).
  assert (Hok3 : sender_ok s3) by (by destruct Hok2; constructor).
  destruct (TrySubmitVideo_ok now v s3) as (s4 & -> & Hstep & Hok4 & Hs4); [done | by intros _ _ | done | by apply Hok2 |].
  cbn [mbind outcome_bind].
  destruct (SubmitAudio_ok now a s4) as (s5 & -> & Hok5 & Hs5 & _); [done | done | by apply Hok2 |].
  by exists s5.
Qed.

Lemma fail_watchdog_ok message s : sender_ok s -> sender_ok (fail_watchdog message s).
Proof using.
  intros [Hv Hau Hal Hc Hp Hpa Hfl Hw [Hn Hfa] Ht Hcap]. constructor; try done. cbn.
  split; [lia |]. split; [lia | done].
Qed.

Lemma CheckWatchdog_ok now s :
  sender_ok s -> settled s -> sender_ok (CheckWatchdog now s) /\ settled (CheckWatchdog now s).
Proof using.
  intros Hok Hs. unfold CheckWatchdog. repeat case_match; split; try done; repeat apply fail_watchdog_ok; done.
Qed.

Lemma schedule_poll_ok now s :
  sender_ok s -> settled s ->
  exists s', schedule_poll now s = Ret s' /\ sender_ok s' /\ settled s' /\
    pending (poll_alarm_ s') = Some (tt, now + kPollInterval) /\ s' = s <| poll_alarm_ := poll_alarm_ s' |>.
Proof using.
  intros [Hv Hau (H1 & H2 & H3) Hc Hp Hpa Hfl Hw Hfa Ht Hcap] Hs. unfold schedule_poll.
  destruct (ScheduleWithTask_ok now tt (now + kPollInterval) _ H1) as (a & -> & Ha & Hpend).
  cbn [mbind outcome_bind]. eexists. split; [done |]. split; [by constructor |]. split; [done |].
  cbn. rewrite Hpend, Z.max_r by (unfold kPollInterval; lia). done.
Qed.

Lemma schedule_congestion_ok now s :
  sender_ok s -> settled s ->
  exists s', schedule_congestion now s = Ret s' /\ sender_ok s' /\ settled s' /\
    s' = s <| congestion_alarm_ := congestion_alarm_ s' |>.
Proof using.
  intros [Hv Hau (H1 & H2 & H3) Hc Hp Hpa Hfl Hw Hfa Ht Hcap] Hs. unfold schedule_congestion.
  destruct (ScheduleWithTask_ok now tt (now + kCongestionInterval) _ H2) as (a & -> & Ha & Hpend).
  cbn [mbind outcome_bind]. eexists. split; [done |]. split; [by constructor |]. by split.
Qed.

Lemma schedule_telemetry_ok now s :
  sender_ok s -> settled s ->
  exists s', schedule_telemetry now s = Ret s' /\ sender_ok s' /\ settled s' /\
    s' = s <| telemetry_alarm_ := telemetry_alarm_ s' |>.
Proof using.
  intros [Hv Hau (H1 & H2 & H3) Hc Hp Hpa Hfl Hw Hfa Ht Hcap] Hs. unfold schedule_telemetry.
  destruct (ScheduleWithTask_ok now tt (now + kTelemetryInterval) _ H3) as (a & -> & Ha & Hpend).
  cbn [mbind outcome_bind]. eexists. split; [done |]. split; [by constructor |]. by split.
Qed.

Lemma SetError_sane value c : capture_sane c -> capture_sane (SetError value c).
Proof using. unfold SetError. by case_match. Qed.

Lemma PollRuntimeError_sane running bus c :
  capture_sane c -> capture_sane (PollRuntimeError running bus c).2.
Proof using. unfold PollRuntimeError. repeat case_match; cbn; auto using SetError_sane. Qed.

(** Polling either stops for good, or polls again. *)
Lemma PollCapture_ok running bus now s :
  sender_ok s -> settled s ->
  exists s', PollCapture running bus now s = Ret s' /\ sender_ok s' /\ settled s' /\
    if (PollRuntimeError running bus (capture_ s)).1 then watchdog_failed_ s' = true
    else pending (poll_alarm_ s') = Some (tt, now + kPollInterval).
Proof using.
  intros Hok Hs. unfold PollCapture.
  pose proof (PollRuntimeError_sane running bus _ (so_capture _ Hok)) as Hc.
  destruct (PollRuntimeError running bus (capture_ s)) as [failed c]. cbn [fst snd] in *.
  pose proof (with_capture_ok _ _ Hok Hc) as Hok1.
  assert (Hs1 : settled (s <| capture_ := c |>)) by done. set (s1 := s <| capture_ := c |>) in *. clearbody s1.
  destruct failed.
  { eexists. split; [done |]. split; [| by split]. destruct Hok1 as [? ? ? ? ? ? ? ? [] ? ?]. constructor; try done.
    cbn. split; [lia |]. split; [lia | done]. }
  assert (exists s2, (if bool_decide (anchor_state_ s1 = kWaitingForFirstPair) then collect_first_pair now s1
    else submit_latest now s1) = Ret s2 /\ sender_ok s2 /\ settled s2) as (s2 & -> & Hok2 & Hs2).
  { case_bool_decide as Ha.
    - by apply collect_first_pair_ok.
    - destruct (submit_latest_ok now s1) as (s2 & E & H2 & H2' & _); [done | done | by destruct (anchor_state_ s1) |].
      by exists s2. }
  cbn [mbind outcome_bind].
  destruct (CheckWatchdog_ok now _ Hok2 Hs2) as [Hok3 Hs3].
  destruct (schedule_poll_ok now _ Hok3 Hs3) as (s4 & -> & Hok4 & Hs4 & Hp & _). by exists s4.
Qed.

(** ** Bandwidth and telemetry *)

Lemma new_video_target_bounds estimated opus current cap limits :
  kMinVideoBitrate <= new_video_target estimated opus current cap limits <= Z.max kMinVideoBitrate cap.
Proof using. unfold new_video_target. repeat case_match; lia. Qed.

Lemma ControlForNetworkCongestion_ok estimated now s :
  sender_ok s -> settled s ->
  exists s', ControlForNetworkCongestion estimated now s = Ret s' /\ sender_ok s' /\ settled s' /\
    poll_alarm_ s' = poll_alarm_ s.
Proof using.
  intros Hok Hs. unfold ControlForNetworkCongestion. destruct (video_encoder_ s) as [v |] eqn:Ev; [| by exists s].
  pose proof Hok as [Hv Hau Hal Hc Hp Hpa Hfl Hw Hfa Ht Hcap].
  case_match.
  - destruct (schedule_congestion_ok now (s <| counters_ := (counters_ s) <| network_estimate_bps := estimated |> |>))
      as (s' & -> & Hok' & Hs' & R); [by constructor | done |]. exists s'. repeat (split; [done |]). by rewrite R.
  - match goal with |- context [new_video_target ?e ?o ?c ?k ?l] =>
      pose proof (new_video_target_bounds e o c k l) as Hb; set (target := new_video_target e o c k l) in * end.
    change (cli_video_cap_bps_ _) with (cli_video_cap_bps_ s) in Hb. clearbody target.
    match goal with |- context [schedule_congestion now ?s1] =>
      destruct (schedule_congestion_ok now s1) as (s' & -> & Hok' & Hs' & R) end; [| done | exists s'; repeat (split; [done |]); by rewrite R].
    constructor; try done.
    + intros ? [= <-]. by apply ve_set, Hv.
    + intros _. cbn. unfold kMinVideoBitrate in *. lia.
Qed.

Lemma EmitTelemetry_ok now s :
  sender_ok s -> settled s ->
  exists s', EmitTelemetry now s = Ret s' /\ sender_ok s' /\ settled s' /\ poll_alarm_ s' = poll_alarm_ s.
Proof using.
  intros Hok Hs. unfold EmitTelemetry.
  match goal with |- context [s <| telemetry_lines := ?l |>] => set (s1 := s <| telemetry_lines := l |>) end.
  assert (sender_ok s1) as Hok1 by (by destruct Hok; constructor).
  assert (settled s1) as Hs1 by done.
  case_match; [by exists s1 |].
  destruct (schedule_telemetry_ok now s1 Hok1 Hs1) as (s' & -> & Hok' & Hs' & R). exists s'.
  repeat (split; [done |]). by rewrite R.
Qed.

(** ** The constructor *)

Lemma initial_opus_bitrate_pos cap limits : 0 < cap -> 0 < initial_opus_bitrate cap limits <= cap.
Proof using. intros. unfold initial_opus_bitrate. repeat case_match; lia. Qed.

Lemma new_DesktopMediaSender_ok now settings video audio recommendations capture :
  (forall v, video = Some v -> ve_ok v) -> (forall a, audio = Some a -> ae_ok a) -> capture_sane capture ->
  exists s, new_DesktopMediaSender now settings video audio recommendations capture = Ret s /\
    sender_ok s /\ settled s /\ pending (poll_alarm_ s) = Some (tt, now + kPollInterval).
Proof using.
  intros Hv Ha Hc. unfold new_DesktopMediaSender.
  set (cap := if 0 <? video_max_bitrate settings then _ else _).
  assert (0 < cap) as Hcap by (subst cap; repeat case_match; lia). clearbody cap.
  set (acap := if 0 <? settings_audio_bitrate settings then _ else _).
  assert (0 < acap) as Hacap by (subst acap; repeat case_match; lia). clearbody acap.
  set (c0 := if video then _ else _).
  assert (H0 : video_submitted c0 = 0 /\ video_encoded c0 = 0 /\ (is_Some video -> video_target_bps c0 = cap)).
  { subst c0. destruct video; [done |]. by split; [| split; [| intros []]]. }
  clearbody c0. destruct H0 as (H1 & H2 & H3).
  match goal with |- context [match audio with Some a => @?f a | None => _ end] =>
    assert (exists audio' c, match audio with Some a => f a | None => Ret (None, c0) end = Ret (audio', c) /\
      (forall a, audio' = Some a -> ae_ok a) /\ video_submitted c = 0 /\ video_encoded c = 0 /\
      video_target_bps c = video_target_bps c0) as (audio' & c & -> & Ha' & Hc1 & Hc2 & Hc3) end.
  { destruct audio as [a |]; cbn beta; [| by exists None, c0].
    destruct (ae_set a (initial_opus_bitrate acap (audio_limits recommendations))) as (a' & -> & Hok);
      [by apply Ha | by apply initial_opus_bitrate_pos |].
    eexists _, _. split; [done |]. split; [by intros ? [= <-] | done]. }
  cbn [mbind outcome_bind].
  match goal with |- context [schedule_poll now ?s] => set (s0 := s) end.
  assert (Hok : sender_ok s0).
  { constructor; try done.
    - cbn. intros v (w & Hw & ->)%fmap_Some. by apply ve_set, Hv.
    - split; [| split]; apply new_Alarm_ok.
    - cbn. unfold in_flight. cbn. rewrite bool_decide_eq_false_2 by done. lia.
    - cbn. intros Hs%fmap_is_Some. rewrite Hc3, H3 by done. lia. }
  destruct (schedule_poll_ok now s0 Hok) as (s1 & -> & Hok1 & Hs1 & Hp & _); [done |]. cbn [mbind outcome_bind].
  destruct (schedule_congestion_ok now s1 Hok1 Hs1) as (s2 & -> & Hok2 & Hs2 & R2). cbn [mbind outcome_bind].
  destruct (schedule_telemetry_ok now s2 Hok2 Hs2) as (s3 & -> & Hok3 & Hs3 & R3).
  exists s3. split; [done |]. split; [done |]. split; [done |]. by rewrite R3, R2.
Qed.
End Invariant.
