(* ===== verification/DesktopSenderProps.v ===== *)
(** What the desktop media sender (DesktopSender.v) guarantees: its runs, and
    the claims about them. *)

From Stdlib Require Import SpecFloat.
From S2P Require Import Prelude Numeric Doubles Text Alarm Capture DesktopSender DesktopSenderInv.

(** * Bandwidth *)

(** The usable part of an estimate is four fifths of it, and a target grows by a
    tenth: exactly, although the code computes them in floating point. *)
Lemma usable_exact e : 0 < e < 2 ^ 31 -> double_trunc (dmul (double_of_Z e) kUsableBandwidthFraction) = 4 * e / 5.
Proof.
  intros He. pose proof (trunc_product e 7205759403792794 (-53) He) as H.
  change (S754_finite false 7205759403792794 (-53)) with kUsableBandwidthFraction in H.
  destruct H as [Hlo Hhi]; [lia | lia |].
  assert (e * 7205759403792794 / 2 ^ 53 = 4 * e / 5) as E1 by (Z.div_mod_to_equations; lia).
  assert ((e * 7205759403792794 + 2 ^ 31) / 2 ^ 53 = 4 * e / 5) as E2 by (Z.div_mod_to_equations; lia).
  change (- -53) with 53 in *. lia.
Qed.

Lemma growth_exact c :
  0 < c < 2 ^ 31 -> double_trunc (dmul (double_of_Z c) (dadd (double_of_Z 1) kMaxBitrateGrowthFactor)) = 11 * c / 10.
Proof.
  intros Hc. pose proof (trunc_product c 4953959590107546 (-52) Hc) as H.
  replace (S754_finite false 4953959590107546 (-52)) with (dadd (double_of_Z 1) kMaxBitrateGrowthFactor) in H
    by (by vm_compute).
  destruct H as [Hlo Hhi]; [lia | lia |].
  assert (c * 4953959590107546 / 2 ^ 52 = 11 * c / 10) as E1 by (Z.div_mod_to_equations; lia).
  assert ((c * 4953959590107546 + 2 ^ 31) / 2 ^ 52 = 11 * c / 10) as E2 by (Z.div_mod_to_equations; lia).
  change (- -52) with 52 in *. lia.
Qed.

Lemma new_video_target_spec estimated opus current cap limits :
  0 < estimated < 2 ^ 31 -> 0 <= opus -> 0 < current < 2 ^ 31 ->
  let target := new_video_target estimated opus current cap limits in
  kMinVideoBitrate <= target /\
  target <= Z.max kMinVideoBitrate (4 * estimated / 5 - opus) /\
  target <= Z.max kMinVideoBitrate cap /\
  (0 < maximum limits -> target <= Z.max kMinVideoBitrate (maximum limits)) /\
  (minimum limits <= 0 -> target <= Z.max kMinVideoBitrate (11 * current / 10)).
Proof.
  intros He Ho Hc. unfold new_video_target. rewrite usable_exact, growth_exact by done.
  assert (Hg : current <= 11 * current / 10) by (apply Z.div_le_lower_bound; lia).
  generalize dependent (11 * current / 10). generalize (4 * estimated / 5). clear He. intros usable growth Hg.
  replace (if 0 <? opus then opus else 0) with opus by (destruct (Z.ltb_spec 0 opus); lia).
  set (available := Z.max kMinVideoBitrate (usable - opus)). set (hard := Z.min cap (if 0 <? maximum limits then _ else cap)).
  assert (hard <= cap /\ (0 < maximum limits -> hard <= maximum limits)) as [H1 H2].
  { subst hard. destruct (Z.ltb_spec 0 (maximum limits)); lia. }
  assert (kMinVideoBitrate <= available) as H3 by lia. clearbody hard.
  set (base := if available <? current then Z.min _ _ else _).
  assert (base <= available /\ base <= hard /\ base <= growth) as (H4 & H5 & H6).
  { subst base. destruct (Z.ltb_spec available current); lia. }
  clearbody base. set (floored := if 0 <? minimum limits then _ else base).
  assert (floored <= available /\ floored <= hard /\ (minimum limits <= 0 -> floored <= growth)) as (H7 & H8 & H9).
  { subst floored. destruct (Z.ltb_spec 0 (minimum limits)); lia. }
  clearbody floored. unfold available in *. repeat split; lia.
Qed.

Section Runs.
Context {V A : Type} `{!VideoEncoder V} `{!AudioEncoder A} `{!VideoEncoderLaws V} `{!AudioEncoderLaws A}.
Implicit Types s : DesktopMediaSender V A.

(** * Runs *)

(** What happens to a sender: its alarms' functors are called, at any time from
    the one they were posted for; the encoder finishes a picture; statistics
    arrive; and the threads of GStreamer capture media. *)
Inductive DesktopEvent :=
  | PollFires (running : bool) (bus : option BusMessage) (now : Z) (i : nat)
  | CongestionFires (estimated now : Z) (i : nat)
  | TelemetryFires (now : Z) (i : nat)
  | VideoEncoded (now : Z) (stats : EncodeStats)
  | StatisticsUpdated
  | Captured (capture : GstreamerCapture).

Definition event_valid (e : DesktopEvent) s : Prop :=
  match e with
  | PollFires _ _ _ i => (i < length (posted (poll_alarm_ s)))%nat
  | CongestionFires _ _ i => (i < length (posted (congestion_alarm_ s)))%nat
  | TelemetryFires _ i => (i < length (posted (telemetry_alarm_ s)))%nat
  | VideoEncoded _ _ => video_state_ s = kEncoding
  | StatisticsUpdated => True
  | Captured capture => capture_sane capture
  end.

Definition desktop_step (e : DesktopEvent) s : outcome (DesktopMediaSender V A) :=
  match e with
  | PollFires running bus now i => poll_alarm_fires running bus now i s
  | CongestionFires estimated now i => congestion_alarm_fires estimated now i s
  | TelemetryFires now i => telemetry_alarm_fires now i s
  | VideoEncoded now stats => OnVideoEncoded now stats s
  | StatisticsUpdated => Ret (OnStatisticsUpdated s)
  | Captured capture => Ret (s <| capture_ := capture |>)
  end.

Inductive desktop_steps s : DesktopMediaSender V A -> Prop :=
  | steps_none : desktop_steps s s
  | steps_snoc s1 e s2 :
      desktop_steps s s1 -> event_valid e s1 -> desktop_step e s1 = Ret s2 -> desktop_steps s s2.

(** The states a sender reaches. *)
Definition desktop_reachable s : Prop :=
  exists now settings video audio recommendations capture s0,
    (forall v, video = Some v -> ve_ok v) /\ (forall a, audio = Some a -> ae_ok a) /\ capture_sane capture /\
    new_DesktopMediaSender now settings video audio recommendations capture = Ret s0 /\ desktop_steps s0 s.

Lemma with_alarms_ok s (a b c : Alarm (Task := unit)) :
  sender_ok s -> alarm_ok a -> alarm_ok b -> alarm_ok c ->
  sender_ok (s <| poll_alarm_ := a |> <| congestion_alarm_ := b |> <| telemetry_alarm_ := c |>).
Proof. by intros [] ? ? ?; constructor. Qed.

Lemma desktop_step_ok e s :
  sender_ok s -> settled s -> event_valid e s ->
  exists s', desktop_step e s = Ret s' /\ sender_ok s' /\ settled s'.
Proof.
  intros Hok Hs Hv. pose proof (so_alarms _ Hok) as (H1 & H2 & H3).
  destruct e as [running bus now i | estimated now i | now i | now stats | | capture];
    cbn [desktop_step event_valid] in *.
  - unfold poll_alarm_fires. destruct (functor_call_ok now i _ H1 Hv) as (task & a & -> & Ha & _).
    cbn [mbind outcome_bind]. pose proof (with_alarms_ok s a _ _ Hok Ha H2 H3) as Hok'.
    destruct task as [[] |]; [| by eexists].
    destruct (PollCapture_ok running bus now _ Hok') as (s' & E & Hok1 & Hs1 & _); [done |]. by exists s'.
  - unfold congestion_alarm_fires. destruct (functor_call_ok now i _ H2 Hv) as (task & a & -> & Ha & _).
    cbn [mbind outcome_bind]. pose proof (with_alarms_ok s _ a _ Hok H1 Ha H3) as Hok'.
    destruct task as [[] |]; [| by eexists].
    destruct (ControlForNetworkCongestion_ok estimated now _ Hok') as (s' & E & Hok1 & Hs1 & _); [done |].
    by exists s'.
  - unfold telemetry_alarm_fires. destruct (functor_call_ok now i _ H3 Hv) as (task & a & -> & Ha & _).
    cbn [mbind outcome_bind]. pose proof (with_alarms_ok s _ _ a Hok H1 H2 Ha) as Hok'.
    destruct task as [[] |]; [| by eexists].
    destruct (EmitTelemetry_ok now _ Hok') as (s' & E & Hok1 & Hs1 & _); [done |]. by exists s'.
  - destruct (OnVideoEncoded_ok now stats s Hok Hv) as (s' & E & Hok1 & Hs1 & _). by exists s'.
  - eexists. split; [done |]. split; [| done]. by destruct Hok; constructor.
  - eexists. split; [done |]. split; [by apply with_capture_ok | done].
Qed.

Lemma desktop_steps_ok s s' : desktop_steps s s' -> sender_ok s -> settled s -> sender_ok s' /\ settled s'.
Proof.
  induction 1 as [| s1 e s2 _ IH Hv Hstep]; intros Hok Hs; [done |].
  destruct (IH Hok Hs) as [Hok1 Hs1]. destruct (desktop_step_ok e s1 Hok1 Hs1 Hv) as (s3 & E & Hok3 & Hs3).
  rewrite Hstep in E. by injection E as ->.
Qed.

Lemma desktop_reachable_ok s : desktop_reachable s -> sender_ok s /\ settled s.
Proof.
  intros (now & settings & video & audio & recommendations & capture & s0 & Hv & Ha & Hc & E & Hsteps).
  destruct (new_DesktopMediaSender_ok now settings video audio recommendations capture Hv Ha Hc)
    as (s1 & E1 & Hok & Hs & _). rewrite E in E1. injection E1 as <-. by apply (desktop_steps_ok s0).
Qed.

(** * What handlers leave alone *)

(** The anchor of the timestamps, and what stopping changes. *)
Definition anchor s : AnchorState * Z * Z := (anchor_state_ s, anchor_pts_ns_ s, anchor_clock_ s).
Definition health s : Z * bool * Z * Alarm (Task := unit) :=
  (shutdowns s, watchdog_failed_ s, streaming_start_ s, poll_alarm_ s).

Lemma TrySubmitVideo_keeps fuel now frame : forall s s',
  TrySubmitVideo fuel now frame s = Ret s' -> anchor s' = anchor s /\ health s' = health s.
Proof.
  revert frame. induction fuel as [| fuel IH]; intros frame s s'; cbn [TrySubmitVideo]; [done |].
  repeat (case_match; try by intros [= <-]).
  destruct (TryEncodeAndSend _ _ _) as [[[] v'] |]; cbn [mbind outcome_bind]; try done; [by intros [= <-] |].
  set (s1 := count_video_rejected _). assert (anchor s1 = anchor s /\ health s1 = health s) as [<- <-] by done.
  destruct (pending_video_ s1) as [p |]; [| by intros [= <-]].
  destruct (TrySubmitVideo fuel now p s1) as [s2 |] eqn:E; cbn [mbind outcome_bind]; try done.
  intros [= <-]. by apply IH in E.
Qed.

Lemma SubmitAudio_keeps now frame s s' :
  SubmitAudio now frame s = Ret s' -> anchor s' = anchor s /\ health s' = health s.
Proof.
  unfold SubmitAudio. repeat (case_match; try by intros [= <-]).
  all: destruct (EncodeAndSend _ _ _ _ _ _); cbn [mbind outcome_bind]; try done; by intros [= <-].
Qed.

Lemma submit_latest_keeps now s s' :
  submit_latest now s = Ret s' -> anchor s' = anchor s /\ health s' = health s.
Proof.
  unfold submit_latest, take_audio, take_video. destruct (TakeLatestAudio _) as [audio c].
  set (s1 := s <| capture_ := c |>). assert (anchor s1 = anchor s /\ health s1 = health s) as [<- <-] by done.
  clearbody s1. intros Hs.
  assert (exists s2, (match audio with Some frame => SubmitAudio now frame s1 | None => Ret s1 end) = Ret s2 /\
    anchor s2 = anchor s1 /\ health s2 = health s1) as (s2 & E & <- & <-).
  { destruct audio as [f |]; [| by eexists]. destruct (SubmitAudio now f s1) as [s2 |] eqn:E; [| done].
    exists s2. split; [done |]. by apply (SubmitAudio_keeps now f). }
  rewrite E in Hs. cbn [mbind outcome_bind] in Hs. clear E s1.
  destruct (TakeLatestVideo _) as [video c2]. set (s3 := s2 <| capture_ := c2 |>) in *.
  assert (anchor s3 = anchor s2 /\ health s3 = health s2) as [<- <-] by done. clearbody s3.
  destruct video as [f |]; [| by injection Hs as ->]. by apply TrySubmitVideo_keeps in Hs.
Qed.

Lemma collect_first_pair_keeps now s s' : collect_first_pair now s = Ret s' -> health s' = health s.
Proof.
  unfold collect_first_pair, take_audio, take_video. destruct (TakeLatestAudio _) as [audio c].
  set (s1 := if audio then _ else _). assert (health s1 = health s) as <- by (subst s1; by destruct audio).
  clearbody s1. destruct (TakeLatestVideo _) as [video c2].
  set (s2 := if video then _ else _). assert (health s2 = health s1) as <- by (subst s2; by destruct video).
  clearbody s2. destruct (pending_video_ s2) as [v |], (pending_audio_ s2) as [a |]; try by intros [= <-].
  set (s3 := s2 <| anchor_pts_ns_ := _ |> <| anchor_clock_ := _ |> <| anchor_state_ := _ |> <| pending_video_ := _ |>
    <| pending_audio_ := _ |>). assert (health s3 = health s2) as <- by done. clearbody s3.
  destruct (TrySubmitVideo _ _ _ _) as [s4 |] eqn:E; cbn [mbind outcome_bind]; [| done].
  intros Ha%SubmitAudio_keeps. apply TrySubmitVideo_keeps in E. destruct Ha as [_ ->]. by destruct E as [_ ->].
Qed.

(** How many deadlines a sender has missed. *)
Definition stalls (now : Z) s : Z :=
  match anchor_state_ s with
  | kWaitingForFirstPair => if kInitialPairDeadline <? now - streaming_start_ s then 1 else 0
  | kAnchored =>
      (if bool_decide (is_Some (audio_encoder_ s)) && negb (last_audio_submit_ s =? 0)
          && (kAudioWatchdogDeadline <? now - last_audio_submit_ s) then 1 else 0)
      + (if bool_decide (is_Some (video_encoder_ s)) && negb (last_video_submit_ s =? 0)
            && (kVideoWatchdogDeadline <? now - last_video_submit_ s) then 1 else 0)
  end.

Lemma CheckWatchdog_counts now s :
  watchdog_failed_ s = false ->
  shutdowns (CheckWatchdog now s) = shutdowns s + stalls now s /\
  watchdog_failed_ (CheckWatchdog now s) = (0 <? stalls now s) /\
  stalls now (CheckWatchdog now s) = stalls now s /\ anchor (CheckWatchdog now s) = anchor s.
Proof.
  intros Hf. unfold CheckWatchdog, stalls. rewrite Hf. destruct (anchor_state_ s) eqn:Ea.
  - rewrite bool_decide_eq_false_2 by done. cbn [negb].
    destruct (_ <? _) eqn:E; cbn; rewrite Ea, ?E; repeat split; done || lia.
  - rewrite bool_decide_eq_true_2 by done. cbn [negb].
    destruct (bool_decide (is_Some (audio_encoder_ s)) && _ && _) eqn:E1; cbn;
      (destruct (bool_decide (is_Some (video_encoder_ s)) && _ && _) eqn:E2; cbn; rewrite ?Ea, ?E1, ?E2;
       repeat split; done || lia).
Qed.

Lemma schedule_poll_keeps now s s' :
  schedule_poll now s = Ret s' -> s' = s <| poll_alarm_ := poll_alarm_ s' |>.
Proof. unfold schedule_poll. destruct (ScheduleWithTask _ _ _ _); cbn [mbind outcome_bind]; [by intros [= <-] | done]. Qed.

(** Polling, once the capture works: the media submitted, then the deadlines. *)
Lemma PollCapture_outcome running bus now s s' :
  PollCapture running bus now s = Ret s' -> watchdog_failed_ s = false ->
  (PollRuntimeError running bus (capture_ s)).1 = false ->
  shutdowns s' = shutdowns s + stalls now s' /\ watchdog_failed_ s' = (0 <? stalls now s') /\
  (anchor_state_ s = kAnchored -> anchor s' = anchor s).
Proof.
  unfold PollCapture. destruct (PollRuntimeError _ _ _) as [failed c]. cbn [fst]. intros Hs Hw ->.
  set (s1 := s <| capture_ := c |>) in *. assert (anchor s1 = anchor s /\ shutdowns s1 = shutdowns s) as [<- <-] by done.
  assert (anchor_state_ s1 = anchor_state_ s) as <- by done.
  change (watchdog_failed_ s1 = false) in Hw. clearbody s1.
  destruct (if bool_decide _ then _ else _) as [s2 |] eqn:E; cbn [mbind outcome_bind] in Hs; [| done].
  assert (health s2 = health s1 /\ (anchor_state_ s1 = kAnchored -> anchor s2 = anchor s1)) as [Eh2 Ean].
  { case_bool_decide as Ha.
    - split; [by apply (collect_first_pair_keeps now) | congruence].
    - by apply submit_latest_keeps in E as [-> ->]. }
  injection Eh2 as <- Ew2 _ _. rewrite <- Ew2 in Hw.
  destruct (CheckWatchdog_counts now s2 Hw) as (H1 & H2 & H3 & H4).
  apply schedule_poll_keeps in Hs. rewrite Hs. set (a := poll_alarm_ s'). clearbody a.
  change (stalls now ((CheckWatchdog now s2) <| poll_alarm_ := a |>)) with (stalls now (CheckWatchdog now s2)).
  rewrite H3. split; [exact H1 |]. split; [exact H2 |]. intros Ha%Ean. by rewrite <- Ha.
Qed.

(** More fuel does not change what submitting does. *)
Lemma TrySubmitVideo_fuel now fuel frame s s' :
  TrySubmitVideo fuel now frame s = Ret s' -> forall fuel', (fuel <= fuel')%nat ->
  TrySubmitVideo fuel' now frame s = Ret s'.
Proof.
  revert frame s s'. induction fuel as [| fuel IH]; intros frame s s' E [| fuel'] Hle; try done; try lia.
  cbn [TrySubmitVideo] in *. repeat (case_match; try done).
  destruct (TryEncodeAndSend _ _ _) as [[[] v'] |]; cbn [mbind outcome_bind] in *; try done.
  case_match; [| done]. destruct (TrySubmitVideo fuel now _ _) as [s2 |] eqn:E2; [| done].
  rewrite (IH _ _ _ E2) by lia. done.
Qed.

(** ** Anchored timestamps *)

Lemma event_keeps_anchor e s s' :
  desktop_step e s = Ret s' -> anchor_state_ s = kAnchored -> anchor s' = anchor s.
Proof.
  intros Hs Ha. destruct e as [running bus now i | estimated now i | now i | now stats | | capture]; cbn in Hs.
  - unfold poll_alarm_fires in Hs. destruct (functor_call _ _ _) as [[task a] |]; cbn [mbind outcome_bind] in Hs; [| done].
    set (s1 := s <| poll_alarm_ := a |>) in *. assert (anchor s1 = anchor s) as <- by done.
    assert (anchor_state_ s1 = kAnchored) as Ha1 by done. clearbody s1. clear Ha.
    destruct task as [[] |]; [| by injection Hs as ->].
    revert Hs. unfold PollCapture. destruct (PollRuntimeError _ _ _) as [failed c].
    set (s2 := s1 <| capture_ := c |>). assert (anchor s2 = anchor s1) as <- by done.
    assert (anchor_state_ s2 = kAnchored) as Ha2 by done. clearbody s2.
    destruct failed; [by intros [= <-] |]. rewrite bool_decide_eq_false_2 by congruence.
    destruct (submit_latest now s2) as [s3 |] eqn:E; cbn [mbind outcome_bind]; [| done].
    apply submit_latest_keeps in E as [<- _]. intros ->%schedule_poll_keeps.
    assert (anchor (CheckWatchdog now s3) = anchor s3) as <-; [| done]. unfold CheckWatchdog. by repeat case_match.
  - unfold congestion_alarm_fires in Hs. destruct (functor_call _ _ _) as [[task a] |]; cbn [mbind outcome_bind] in Hs; [| done].
    destruct task as [[] |]; [| by injection Hs as <-]. revert Hs. unfold ControlForNetworkCongestion, schedule_congestion.
    repeat case_match; try (by intros [= <-]).
    all: destruct (ScheduleWithTask _ _ _ _); cbn [mbind outcome_bind]; [by intros [= <-] | done].
  - unfold telemetry_alarm_fires in Hs. destruct (functor_call _ _ _) as [[task a] |]; cbn [mbind outcome_bind] in Hs; [| done].
    destruct task as [[] |]; [| by injection Hs as <-]. revert Hs. unfold EmitTelemetry, schedule_telemetry.
    case_match; try (by intros [= <-]).
    destruct (ScheduleWithTask _ _ _ _); cbn [mbind outcome_bind]; [by intros [= <-] | done].
  - unfold OnVideoEncoded in Hs. set (s1 := s <| video_state_ := _ |> <| counters_ := _ |>) in *.
    assert (anchor s1 = anchor s) as <- by done. change (pending_video_ s) with (pending_video_ s1) in Hs.
    destruct (pending_video_ s1) as [p |]; [| by injection Hs as <-].
    destruct (TrySubmitVideo _ _ _ _) as [s2 |] eqn:E; [| done]. injection Hs as <-.
    by apply TrySubmitVideo_keeps in E as [<- _].
  - by injection Hs as <-.
  - by injection Hs as <-.
Qed.

Lemma steps_keep_anchor s s' : desktop_steps s s' -> anchor_state_ s = kAnchored -> anchor s' = anchor s.
Proof.
  induction 1 as [| s1 e s2 _ IH Hv Hstep]; intros Ha; [done |]. rewrite <- (IH Ha).
  apply (event_keeps_anchor e); [done |]. specialize (IH Ha). unfold anchor in IH; congruence.
Qed.

(** ** The end of polling *)

Lemma functor_call_idle now i (a a' : Alarm (Task := unit)) task :
  functor_call now i a = Ret (task, a') -> pending a = None -> task = None /\ pending a' = None.
Proof.
  unfold functor_call, TryInvoke, pending. intros E Hp. destruct (scheduled_task_ a) eqn:Es; [done |].
  apply bind_Ret_inv in E as (f & _ & E). destruct (functor_alarm f); [| by injection E as <- <-; rewrite ?Es].
  apply bind_Ret_inv in E as ([] & _ & E). cbn in E. rewrite Es in E. cbn in E. injection E as <- <-. cbn. by rewrite ?Es.
Qed.

Lemma event_without_poll e s s' :
  desktop_step e s = Ret s' -> pending (poll_alarm_ s) = None ->
  pending (poll_alarm_ s') = None /\ shutdowns s' = shutdowns s.
Proof.
  intros Hs Ha. destruct e as [running bus now i | estimated now i | now i | now stats | | capture]; cbn in Hs.
  - unfold poll_alarm_fires in Hs. destruct (functor_call _ _ _) as [[task a] |] eqn:E; cbn [mbind outcome_bind] in Hs; [| done].
    destruct (functor_call_idle _ _ _ _ _ E Ha) as [-> Ha']. by injection Hs as <-.
  - unfold congestion_alarm_fires in Hs. destruct (functor_call _ _ _) as [[task a] |]; cbn [mbind outcome_bind] in Hs; [| done].
    destruct task as [[] |]; [| by injection Hs as <-]. revert Hs. unfold ControlForNetworkCongestion, schedule_congestion.
    repeat case_match; try (by intros [= <-]).
    all: destruct (ScheduleWithTask _ _ _ _); cbn [mbind outcome_bind]; [by intros [= <-] | done].
  - unfold telemetry_alarm_fires in Hs. destruct (functor_call _ _ _) as [[task a] |]; cbn [mbind outcome_bind] in Hs; [| done].
    destruct task as [[] |]; [| by injection Hs as <-]. revert Hs. unfold EmitTelemetry, schedule_telemetry.
    case_match; try (by intros [= <-]).
    destruct (ScheduleWithTask _ _ _ _); cbn [mbind outcome_bind]; [by intros [= <-] | done].
  - unfold OnVideoEncoded in Hs. set (s1 := s <| video_state_ := _ |> <| counters_ := _ |>) in *.
    assert (health s1 = health s) as E1 by done. change (pending_video_ s) with (pending_video_ s1) in Hs.
    destruct (pending_video_ s1) as [p |]; [| by injection Hs as <-].
    destruct (TrySubmitVideo _ _ _ _) as [s2 |] eqn:E; [| done]. injection Hs as <-.
    apply TrySubmitVideo_keeps in E as [_ E]. rewrite E1 in E. injection E as -> _ _ ->. done.
  - by injection Hs as <-.
  - by injection Hs as <-.
Qed.

Lemma steps_without_poll s s' :
  desktop_steps s s' -> pending (poll_alarm_ s) = None ->
  pending (poll_alarm_ s') = None /\ shutdowns s' = shutdowns s.
Proof.
  induction 1 as [| s1 e s2 _ IH Hv Hstep]; intros Ha; [done |]. destruct (IH Ha) as [Ha1 <-].
  by apply (event_without_poll e).
Qed.

(** A watchdog that fired stays quiet. *)
Lemma PollCapture_failed running bus now s s' :
  PollCapture running bus now s = Ret s' -> watchdog_failed_ s = true ->
  (PollRuntimeError running bus (capture_ s)).1 = false ->
  shutdowns s' = shutdowns s /\ watchdog_failed_ s' = true.
Proof.
  unfold PollCapture. destruct (PollRuntimeError _ _ _) as [failed c]. cbn [fst]. intros Hs Hw ->.
  set (s1 := s <| capture_ := c |>) in *. assert (shutdowns s1 = shutdowns s) as <- by done.
  change (watchdog_failed_ s1 = true) in Hw. clearbody s1.
  destruct (if bool_decide _ then _ else _) as [s2 |] eqn:E; cbn [mbind outcome_bind] in Hs; [| done].
  assert (health s2 = health s1) as Eh2.
  { case_bool_decide as Ha; [by apply (collect_first_pair_keeps now) | by apply submit_latest_keeps in E as [_ ->]]. }
  injection Eh2 as <- Ew2 _ _. rewrite <- Ew2 in Hw. apply schedule_poll_keeps in Hs. rewrite Hs.
  unfold CheckWatchdog. by rewrite Hw.
Qed.

(** * Claims *)

(** C15 The sender does not abort.  Whatever happens in whatever order, with any
    encoders that keep their laws and however late the task runner is, no check
    fails in a handler and no bound on resubmission is hit. *)
Theorem desktop_sender_never_aborts s e :
  desktop_reachable s -> event_valid e s -> returns (desktop_step e s).
Proof.
  intros [Hok Hs]%desktop_reachable_ok Hv. destruct (desktop_step_ok e s Hok Hs Hv) as (s' & -> & _). by exists s'.
Qed.

(** C19 One picture is encoded at a time.  Every picture submitted was finished,
    except at most one, which the encoder is busy with; between handlers a
    picture waits only for the busy encoder, or for the first pair; and the
    target of the encoder is positive and stays within the configured cap, or at
    the floor of 1024 bits per second when the cap is lower. *)
Theorem one_picture_in_flight s :
  desktop_reachable s ->
  video_submitted (counters_ s) - video_encoded (counters_ s) = in_flight s /\
  (is_Some (pending_video_ s) -> video_state_ s = kEncoding \/ anchor_state_ s = kWaitingForFirstPair) /\
  (is_Some (video_encoder_ s) -> 0 < video_target_bps (counters_ s) <= Z.max kMinVideoBitrate (cli_video_cap_bps_ s)).
Proof.
  intros [Hok Hs]%desktop_reachable_ok. split; [pose proof (so_flight _ Hok); lia |]. split; [| apply Hok].
  intros [p Hp]. destruct (video_state_ s) eqn:Ev; [right | by left].
  destruct (anchor_state_ s) eqn:Ea; [done |]. by rewrite (Hs Ea Ev) in Hp.
Qed.

(** C16 Submitting a picture ends.  A picture that the encoder rejects submits
    the one that is waiting, which may be rejected and submit itself again; the
    third is always refused for its time, so that three calls deep is enough and
    more change nothing. *)
Theorem resubmission_terminates now frame s :
  desktop_reachable s -> frame_sane frame ->
  exists s', forall fuel, (kSubmitDepth <= fuel)%nat -> TrySubmitVideo fuel now frame s = Ret s'.
Proof.
  intros [Hok Hs]%desktop_reachable_ok Hf.
  destruct (submit_step kSubmitDepth now frame s) as (s' & E & _);
    [apply submit_depth_bound | done | apply Hok | apply Hok |].
  exists s'. by apply TrySubmitVideo_fuel.
Qed.

(** C18 Media that stop stop the sender.  When a functor of the poll alarm is
    called, either it was not time to poll, and nothing changes but the alarm; or
    the sender polls.  If the capture has failed, the shutdown callback is called
    once, with the error of the capture, and never again: no poll is scheduled,
    now or later.  Otherwise the next poll is due in 5 ms; the callback is called
    once for the first pair that did not come in time, or once for each track
    that stalled, but not if the sender had failed before. *)
Theorem stalled_tracks_stop_sender running bus now i s :
  desktop_reachable s -> (i < length (posted (poll_alarm_ s)))%nat ->
  exists task a s', functor_call now i (poll_alarm_ s) = Ret (task, a) /\ poll_alarm_fires running bus now i s = Ret s' /\
    match task with
    | None => s' = s <| poll_alarm_ := a |> /\ pending a = pending (poll_alarm_ s)
    | Some _ =>
        if (PollRuntimeError running bus (capture_ s)).1 then
          shutdowns s' = shutdowns s + 1 /\ watchdog_failed_ s' = true /\ last_error_ s' = capture_error (capture_ s') /\
          forall s'', desktop_steps s' s'' -> pending (poll_alarm_ s'') = None /\ shutdowns s'' = shutdowns s'
        else
          pending (poll_alarm_ s') = Some (tt, now + kPollInterval) /\
          if watchdog_failed_ s then shutdowns s' = shutdowns s /\ watchdog_failed_ s' = true
          else shutdowns s' = stalls now s' /\ (watchdog_failed_ s' = true <-> 0 < stalls now s')
    end.
Proof.
  intros [Hok Hs]%desktop_reachable_ok Hi. pose proof (so_alarms _ Hok) as (H1 & H2 & H3).
  destruct (functor_call_ok now i _ H1 Hi) as (task & a & E & Ha & Ht). unfold poll_alarm_fires. rewrite E.
  cbn [mbind outcome_bind]. exists task, a.
  destruct task as [[] |]; [| by eexists; split; [done |]; split; [reflexivity |]; destruct Ht].
  destruct Ht as (due & _ & _ & Hnone). pose proof (with_alarms_ok s a _ _ Hok Ha H2 H3) as Hok1.
  set (s1 := s <| poll_alarm_ := a |>). assert (sender_ok s1) as Hok1' by (by destruct s).
  assert (capture_ s1 = capture_ s /\ shutdowns s1 = shutdowns s /\ watchdog_failed_ s1 = watchdog_failed_ s
    /\ poll_alarm_ s1 = a) as (<- & <- & <- & E1) by done. assert (settled s1) as Hs1 by done. clear Hok1. clearbody s1.
  destruct (PollCapture_ok running bus now s1 Hok1' Hs1) as (s' & E' & Hok' & Hs' & H).
  exists s'. split; [done |]. split; [done |].
  destruct (PollRuntimeError running bus (capture_ s1)).1 eqn:Ef.
  - unfold PollCapture in E'. destruct (PollRuntimeError _ _ _) as [failed c]. cbn [fst] in Ef. subst failed.
    injection E' as <-. split; [done |]. split; [done |]. split; [done |]. intros s'' Hsteps.
    apply (steps_without_poll _ _ Hsteps). cbn. by rewrite E1.
  - split; [exact H |]. destruct (watchdog_failed_ s1) eqn:Hw; [by apply (PollCapture_failed running bus now) |].
    destruct (PollCapture_outcome running bus now s1 s' E' Hw Ef) as (O1 & O2 & _).
    assert (shutdowns s1 = 0) as H0.
    { destruct (so_failed _ Hok1') as [Hpos Hiff]. destruct (Z.eq_dec (shutdowns s1) 0); [done |].
      rewrite (proj2 Hiff) in Hw by lia. done. }
    split; [lia |]. rewrite O2. by rewrite Z.ltb_lt.
Qed.

(** C17 The video follows the network.  For a positive estimate the new target is
    at most what the audio leaves of four fifths of it, at most the configured
    cap and the receiver's maximum, and, unless the receiver asks for a minimum,
    at most a tenth more than before when it does not have to fall; it is never
    below 1024 bits per second, and the encoder gets exactly it. *)
Theorem video_follows_bandwidth estimated now s v :
  desktop_reachable s -> video_encoder_ s = Some v -> 0 < estimated < 2 ^ 31 -> 0 <= opus_bitrate (counters_ s) ->
  video_target_bps (counters_ s) < 2 ^ 31 ->
  let limits := video_limits (recommendations_ s) in
  let left_over := 4 * estimated / 5 - opus_bitrate (counters_ s) in
  exists s' target, ControlForNetworkCongestion estimated now s = Ret s' /\
    video_encoder_ s' = Some (SetTargetBitrate target v) /\ video_target_bps (counters_ s') = target /\
    kMinVideoBitrate <= target /\
    target <= Z.max kMinVideoBitrate left_over /\
    target <= Z.max kMinVideoBitrate (cli_video_cap_bps_ s) /\
    (0 < maximum limits -> target <= Z.max kMinVideoBitrate (maximum limits)) /\
    (minimum limits <= 0 -> target <= Z.max kMinVideoBitrate (11 * video_target_bps (counters_ s) / 10)).
Proof.
  intros [Hok Hs]%desktop_reachable_ok Hv He Hopus Ht. cbv zeta.
  pose proof (so_target _ Hok ltac:(by rewrite Hv)) as [Hpos _].
  unfold ControlForNetworkCongestion. rewrite Hv. rewrite (proj2 (Z.leb_gt _ _)) by lia.
  match goal with |- context [new_video_target _ _ ?c _ _] => set (current := c) end.
  assert (current = video_target_bps (counters_ s)) as ->.
  { subst current. cbn. by rewrite (proj2 (Z.ltb_lt _ _)) by lia. }
  set (target := new_video_target _ _ _ _ _).
  match goal with |- context [schedule_congestion now ?s1] => set (s2 := s1) end.
  assert (sender_ok s2 /\ settled s2) as [Hok2 Hs2].
  { split; [| done]. pose proof (new_video_target_bounds estimated (opus_bitrate (counters_ s))
      (video_target_bps (counters_ s)) (cli_video_cap_bps_ s) (video_limits (recommendations_ s))) as Hb.
    destruct Hok as [Hve Hau Hal Hc Hp Hpa Hfl Hw Hfa Hta Hcap]. constructor; try done.
    - intros ? [= <-]. by apply ve_set, Hve.
    - intros _. change (0 < target <= Z.max kMinVideoBitrate (cli_video_cap_bps_ s)).
      unfold kMinVideoBitrate in *. change target with (new_video_target estimated (opus_bitrate (counters_ s))
        (video_target_bps (counters_ s)) (cli_video_cap_bps_ s) (video_limits (recommendations_ s))). lia. }
  destruct (schedule_congestion_ok now s2 Hok2 Hs2) as (s' & -> & _ & _ & R). exists s', target.
  rewrite R. split; [done |]. split; [done |]. split; [done |].
  change target with (new_video_target estimated (opus_bitrate (counters_ s))
    (video_target_bps (counters_ s)) (cli_video_cap_bps_ s) (video_limits (recommendations_ s))).
  apply new_video_target_spec; lia.
Qed.

(** Audio and video share one clock.  Once the first pair has anchored the
    timestamps, whatever happens later, a timestamp maps to the same time on
    both tracks: times never run before the anchor, keep the order of the
    timestamps, and their distances to the microsecond. *)
Theorem tracks_share_an_anchor s s' p q t u :
  desktop_steps s s' -> anchor_state_ s = kAnchored -> p <= q ->
  MapTimestamp p s = Some t -> MapTimestamp q s' = Some u ->
  MapTimestamp p s' = Some t /\ anchor_clock_ s <= t <= u /\ (q - p) / 1000 <= u - t <= (q - p) / 1000 + 1 /\
  (p = anchor_pts_ns_ s -> t = anchor_clock_ s).
Proof.
  intros Hsteps Ha Hpq Hp Hq. pose proof (steps_keep_anchor s s' Hsteps Ha) as E.
  injection E as _ E1 E2. unfold MapTimestamp in *. rewrite E1, E2 in *. split; [done |].
  unfold MapCaptureTimestamp in *. destruct (Z.ltb_spec p (anchor_pts_ns_ s)); [done |].
  destruct (Z.ltb_spec q (anchor_pts_ns_ s)); [done |].
  repeat (destruct (_ <? _); [done |]). injection Hp as <-. injection Hq as <-.
  rewrite !Z.quot_div_nonneg by lia. Z.div_mod_to_equations. lia.
Qed.
End Runs.

(** * A run *)

(** An encoder that takes a picture or not as a script says, and a codec that
    takes everything. *)
#[export] Instance scripted_encoder : VideoEncoder (Z * list bool) := {
  GetTargetBitrate v := v.1;
  SetTargetBitrate b v := (b, v.2);
  TryEncodeAndSend _ _ v :=
    match v.2 with [] => Ret (true, v) | b :: rest => Ret (b, (v.1, rest)) end }.
#[export] Instance plain_codec : AudioEncoder Z := {
  GetBitrate a := a;
  SetBitrate b _ := Ret b;
  EncodeAndSend _ _ _ _ _ a := Ret a }.

#[export] Program Instance scripted_encoder_laws : VideoEncoderLaws (Z * list bool) := {| ve_ok _ := True |}.
Next Obligation. done. Qed.
Next Obligation. intros [b [| x l]] frame _ _; cbn; eauto. Qed.
#[export] Program Instance plain_codec_laws : AudioEncoderLaws Z := {| ae_ok _ := True |}.
Next Obligation. cbn. eauto. Qed.
Next Obligation. cbn. eauto. Qed.

Definition demo_video (pts : Z) : VideoFrame := mkVideoFrame 4 2 [1; 2; 3; 4; 5; 6; 7; 8; 9; 10; 11; 12] pts.
Definition demo_audio (pts : Z) : AudioFrame := mkAudioFrame 2 48000 [0; 0; 0; 0] pts.
Definition demo_media (v a : Z) : GstreamerCapture :=
  demo_capture <| video_queue := mkQueue 4 [demo_video v] 0 |> <| audio_queue := mkQueue 4 [demo_audio a] 0 |>.
Definition demo_settings : ConnectionSettings := mkSettings 0 2000000 128000 30.
Definition demo_limits : Recommendations := mkRecommendations (mkLimits 0 0) (mkLimits 0 1500000).

Definition state_of {S} (d : S) (m : outcome S) : S := match m with Ret s => s | Fault _ => d end.

(** The first pair arrives and is submitted; the next picture waits; the
    encoder finishes the first and refuses the second. *)
Definition demo_sender0 : DesktopMediaSender (Z * list bool) Z := Eval vm_compute in
  match new_DesktopMediaSender 1000 demo_settings (Some (0, [true; false])) (Some 0) demo_limits demo_capture with
  | Ret s => s
  | Fault _ => mkDesktopSender demo_settings demo_capture None None demo_limits kWaitingForFirstPair 0 0 0 0 false false
      kIdle None None new_Counters 0 0 0 false [] new_Alarm new_Alarm new_Alarm 0 0 0 []
  end.
Definition after (e : DesktopEvent) (s : DesktopMediaSender (Z * list bool) Z) := state_of s (desktop_step e s).

Definition demo_sender1 := Eval vm_compute in after (Captured (demo_media 5000000 4000000)) demo_sender0.
Definition demo_sender2 := Eval vm_compute in after (PollFires true None 6000 0) demo_sender1.
Definition demo_sender3 := Eval vm_compute in after (Captured (demo_media 38000000 14000000)) demo_sender2.
Definition demo_sender4 := Eval vm_compute in after (PollFires true None 40000 1) demo_sender3.
Definition demo_sender5 := Eval vm_compute in after (VideoEncoded 41000 (mkEncodeStats 700 5000 20)) demo_sender4.

Example demo_run :
  video_state_ demo_sender2 = kEncoding /\ anchor_pts_ns_ demo_sender2 = 4000000 /\ anchor_clock_ demo_sender2 = 6000 /\
  pending_video_ demo_sender4 = Some (demo_video 38000000) /\ pending_video_ demo_sender5 = None /\
  (let c := counters_ demo_sender5 in
   [video_submitted c; video_encoded c; audio_submitted c; video_pending_dropped c; video_preencode_rejected c;
    video_timestamp_dropped c] = [1; 1; 2; 1; 1; 1]).
Proof. vm_compute. repeat split. Qed.

Lemma demo_media_sane v a : is_u 64 v -> is_u 64 a -> capture_sane (demo_media v a).
Proof. intros Hv Ha. split; (apply Forall_cons; split; [by repeat split; cbn; first [apply Hv | apply Ha | lia] | by apply Forall_nil]). Qed.

Lemma demo_steps12 : desktop_steps demo_sender0 demo_sender2.
Proof.
  apply (steps_snoc _ demo_sender1 (PollFires true None 6000 0)); [| cbn; lia | by vm_compute].
  apply (steps_snoc _ demo_sender0 (Captured (demo_media 5000000 4000000))); [constructor | | by vm_compute].
  by apply demo_media_sane.
Qed.

Lemma demo_steps24 : desktop_steps demo_sender2 demo_sender4.
Proof.
  apply (steps_snoc _ demo_sender3 (PollFires true None 40000 1)); [| cbn; lia | by vm_compute].
  apply (steps_snoc _ demo_sender2 (Captured (demo_media 38000000 14000000))); [constructor | | by vm_compute].
  by apply demo_media_sane.
Qed.

Lemma steps_trans {V A} `{!VideoEncoder V} `{!AudioEncoder A} (s1 s2 s3 : DesktopMediaSender V A) :
  desktop_steps s1 s2 -> desktop_steps s2 s3 -> desktop_steps s1 s3.
Proof. intros H. induction 1; [done | by econstructor]. Qed.

Lemma demo_reached s : desktop_steps demo_sender0 s -> desktop_reachable s.
Proof.
  intros Hs. exists 1000, demo_settings, (Some (0, [true; false])), (Some 0), demo_limits, demo_capture, demo_sender0.
  split; [done |]. split; [done |]. split; [by split; apply Forall_nil |]. split; [by vm_compute | done].
Qed.

Lemma demo_reached4 : desktop_reachable demo_sender4.
Proof. apply demo_reached, (steps_trans _ demo_sender2); [apply demo_steps12 | apply demo_steps24]. Qed.

Lemma desktop_sender_never_aborts_witness :
  event_valid (VideoEncoded 41000 (mkEncodeStats 700 5000 20)) demo_sender4 /\
  returns (desktop_step (VideoEncoded 41000 (mkEncodeStats 700 5000 20)) demo_sender4).
Proof. split; [reflexivity |]. by apply (desktop_sender_never_aborts _ _ demo_reached4). Defined.

Lemma one_picture_in_flight_witness :
  video_submitted (counters_ demo_sender4) - video_encoded (counters_ demo_sender4) = in_flight demo_sender4 /\
  pending_video_ demo_sender4 <> None /\ video_state_ demo_sender4 = kEncoding.
Proof. split; [exact (proj1 (one_picture_in_flight _ demo_reached4)) | by split]. Defined.

Lemma resubmission_terminates_witness :
  exists s', forall fuel, (3 <= fuel)%nat -> TrySubmitVideo fuel 50000 (demo_video 50000000) demo_sender4 = Ret s'.
Proof.
  apply (resubmission_terminates 50000 (demo_video 50000000) demo_sender4 demo_reached4).
  by repeat split; cbn; lia.
Defined.

(** Two seconds later, nothing was captured: both tracks have stalled. *)
Lemma stalled_tracks_stop_sender_witness :
  exists s', poll_alarm_fires true None 3000000 2 demo_sender4 = Ret s' /\ shutdowns s' = 2 /\ watchdog_failed_ s' = true.
Proof.
  destruct (stalled_tracks_stop_sender true None 3000000 2 demo_sender4 demo_reached4) as (task & a & s' & Ec & E & H);
    [vm_compute; lia |].
  exists s'. split; [exact E |]. vm_compute in Ec. injection Ec as <- <-. destruct H as (_ & H1 & H2).
  assert (stalls 3000000 s' = 2) as E2; [| rewrite H1; split; [done | by apply H2; rewrite E2]].
  vm_compute in E. injection E as <-. by vm_compute.
Defined.

Lemma video_follows_bandwidth_witness :
  exists s' target, ControlForNetworkCongestion 1000000 500000 demo_sender4 = Ret s' /\
    video_target_bps (counters_ s') = target /\ 1024 <= target <= 672000.
Proof.
  destruct (video_follows_bandwidth 1000000 500000 demo_sender4 (2000000, [false]) demo_reached4)
    as (s' & target & E & _ & Ht & Hlo & Hhi & _); [by vm_compute | lia | by vm_compute | by vm_compute |].
  exists s', target. split; [exact E |]. split; [exact Ht |]. split; [exact Hlo | exact Hhi].
Defined.

Lemma tracks_share_an_anchor_witness :
  MapTimestamp 5000000 demo_sender2 = Some 7000 /\ MapTimestamp 38000000 demo_sender4 = Some 40000 /\
  MapTimestamp 5000000 demo_sender4 = Some 7000.
Proof.
  split; [by vm_compute |]. split; [by vm_compute |].
  apply (tracks_share_an_anchor demo_sender2 demo_sender4 5000000 38000000 7000 40000 demo_steps24);
    [by vm_compute | lia | by vm_compute | by vm_compute].
Defined.
