(* ===== verification/Environment.v ===== *)
(** The environment the routers share (cast/streaming/public/environment.h and
    .cc): the peer's endpoint, the consumer of incoming packets and the packets sent.

    The UDP socket is the operating system's: sending adds to the list of
    packets sent with their destination, and a received packet is an argument of
    the routers' [OnReceivedPacket].  The statistics collector, which is told of each
    packet sent, is in StatisticsEvents.v by itself; the metadata a packet is sent with
    for it, and the state of the socket, are left out. *)

From S2P Require Import Prelude RtpDefines.
From S2P Require Export IpAddress.

Definition kMaxRtpPacketSizeForIpv4UdpOnEthernet : Z := 1500 - 20 - 8.
Definition kMaxRtpPacketSizeForIpv6UdpOnEthernet : Z := 1500 - 40 - 8.

(** The consumer is [true] when one is set. *)
Record Environment := mkEnvironment {
  remote_endpoint_ : IPEndpoint;
  packet_consumer_ : bool;
  sent_packets : list (IPEndpoint * list Z) }.
#[export] Instance eta_Environment : Eta Environment := fun e =>
  mkEnvironment (remote_endpoint_ e) (packet_consumer_ e) (sent_packets e).

Definition new_Environment : Environment := mkEnvironment new_IPEndpoint false [].

Definition set_remote_endpoint (endpoint : IPEndpoint) (e : Environment) : Environment :=
  e <| remote_endpoint_ := endpoint |>.

Definition ConsumeIncomingPackets (e : Environment) : outcome Environment :=
  OSP_CHECK (negb (packet_consumer_ e)) ;;
  Ret (e <| packet_consumer_ := true |>).

Definition DropIncomingPackets (e : Environment) : Environment :=
  e <| packet_consumer_ := false |>.

Definition GetMaxPacketSize (e : Environment) : Z :=
  match version_ (address (remote_endpoint_ e)) with
  | kV4 => kMaxRtpPacketSizeForIpv4UdpOnEthernet
  | kV6 => kMaxRtpPacketSizeForIpv6UdpOnEthernet
  end.

Definition SendPacket (packet : list Z) (e : Environment) : outcome Environment :=
  OSP_CHECK (address_set (address (remote_endpoint_ e))) ;;
  OSP_CHECK (negb (port (remote_endpoint_ e) =? 0)) ;;
  Ret (e <| sent_packets := sent_packets e ++ [(remote_endpoint_ e, packet)] |>).

(** A peer packets can be sent to. *)
Definition peer_known (e : Environment) : Prop :=
  address_set (address (remote_endpoint_ e)) = true /\ port (remote_endpoint_ e) <> 0.

Lemma SendPacket_ok packet e :
  peer_known e ->
  SendPacket packet e =
    Ret (e <| sent_packets := sent_packets e ++ [(remote_endpoint_ e, packet)] |>).
Proof.
  intros [Ha Hp]. unfold SendPacket. rewrite (OSP_CHECK_true _ Ha). cbn [mbind outcome_bind].
  by rewrite OSP_CHECK_neqb by done.
Qed.

(** The same peer and consumer, more packets sent to it. *)
Definition sends_more (packets : list (list Z)) (e e' : Environment) : Prop :=
  e' = e <| sent_packets := sent_packets e ++ map (pair (remote_endpoint_ e)) packets |>.

Lemma sends_more_nil e : sends_more [] e e.
Proof. unfold sends_more. cbn. rewrite app_nil_r. by destruct e. Qed.

Lemma sends_more_trans p q e e' e'' :
  sends_more p e e' -> sends_more q e' e'' -> sends_more (p ++ q) e e''.
Proof. intros -> ->. unfold sends_more. cbn. by rewrite map_app, app_assoc. Qed.

Lemma sends_more_peer p e e' : sends_more p e e' -> peer_known e -> peer_known e'.
Proof. by intros ->. Qed.
Create HintDb router.
#[export] Hint Resolve sends_more_nil sends_more_trans sends_more_peer : router.
