(* ===== verification/ClockDrift.v ===== *)
(** Smoothing of the offset between two clocks
    (cast/streaming/impl/clock_drift_smoother.h and .cc): an exponential moving
    average in double precision.  [exp] is the C library's. *)

From S2P Require Import Prelude Numeric.
From Stdlib Require Import SpecFloat.

Section ClockDrift.
Context (exp : double -> double).

Definition kNullTime : Z := INT64_MIN.
(** 30 seconds, as a double number of microseconds. *)
Definition kDefaultTimeConstant : Z := 30 * 1000000.

Record ClockDriftSmoother := mkSmoother {
  time_constant_ : double;
  last_update_time_ : Z;
  estimated_tick_offset_ : double }.

Definition new_ClockDriftSmoother (time_constant : Z) : outcome ClockDriftSmoother :=
  let t := double_of_Z time_constant in
  OSP_CHECK (negb (dleb t (double_of_Z 0))) ;;
  Ret (mkSmoother t kNullTime (double_of_Z 0)).

Definition Current (s : ClockDriftSmoother) : option Z :=
  if last_update_time_ s =? kNullTime then None
  else Some (rounded_saturate_int64 (estimated_tick_offset_ s)).

Definition Smoother_Reset (now measured_offset : Z) (s : ClockDriftSmoother)
    : outcome ClockDriftSmoother :=
  OSP_CHECK (negb (now =? kNullTime)) ;;
  Ret (mkSmoother (time_constant_ s) now (double_of_Z measured_offset)).

Definition Smoother_Update (now measured_offset : Z) (s : ClockDriftSmoother)
    : outcome ClockDriftSmoother :=
  OSP_CHECK (negb (now =? kNullTime)) ;;
  if last_update_time_ s =? kNullTime then Smoother_Reset now measured_offset s else
  if now <? last_update_time_ s then Fault CheckFailed else
  let elapsed_ticks := double_of_Z (now - last_update_time_ s) in
  let alpha := dsub (double_of_Z 1) (exp (ddiv (SFopp elapsed_ticks) (time_constant_ s))) in
  Ret (mkSmoother (time_constant_ s) now
    (dadd (dmul alpha (double_of_Z measured_offset))
          (dmul (dsub (double_of_Z 1) alpha) (estimated_tick_offset_ s)))).

(** Updated with times that never decrease, the smoother returns; from the first
    update on it has an offset. *)
Lemma Smoother_Update_ok now offset s :
  kNullTime < now -> last_update_time_ s <= now ->
  exists s', Smoother_Update now offset s = Ret s' /\ last_update_time_ s' = now
    /\ is_Some (Current s').
Proof using.
  intros Hn Hl. unfold Smoother_Update, Smoother_Reset.
  rewrite OSP_CHECK_neqb by lia. cbn [mbind outcome_bind].
  assert (forall t e, is_Some (Current (mkSmoother t now e))) as Hc.
  { intros t e. unfold Current. cbn. rewrite (proj2 (Z.eqb_neq _ _)) by lia. by eexists. }
  destruct (_ =? _); [| rewrite (proj2 (Z.ltb_ge _ _)) by lia];
    eexists; (split; [reflexivity |]); done.
Qed.
End ClockDrift.
