(* ===== verification/Statistics.v ===== *)
(** The statistics a sender reports to its client (cast/streaming/public/statistics.h
    and .cc, util/enum_name_table.h): the types of statistics, histograms of
    latencies and their names.

    The JSON library is not modelled: an object is the list of its members in
    the order they are added. *)

From S2P Require Import Prelude Numeric Text.

(** * SimpleHistogram *)

Record SimpleHistogram := mkHistogram {
  histogram_min : Z;
  histogram_max : Z;
  histogram_width : Z;
  buckets : list Z }.
#[export] Instance eta_SimpleHistogram : Eta SimpleHistogram := fun h =>
  mkHistogram (histogram_min h) (histogram_max h) (histogram_width h) (buckets h).

Definition default_SimpleHistogram : SimpleHistogram := mkHistogram 1 1 1 [].

(** A negative number of buckets, as a [size_t], is more than a vector can
    have, which stops the process as a failed check does. *)
Definition new_SimpleHistogram (min max width : Z) : outcome SimpleHistogram :=
  if width =? 0 then Fault Undefined else
  let size := Z.quot (max - min) width + 2 in
  OSP_CHECK (0 <=? size) ;;
  let h := mkHistogram min max width (replicate (Z.to_nat size) 0) in
  OSP_CHECK (2 <? zlen (buckets h)) ;;
  OSP_CHECK (Z.rem (max - min) width =? 0) ;;
  Ret h.

Definition increment_bucket (index : nat) (h : SimpleHistogram) : outcome SimpleHistogram :=
  count ← in_bounds (buckets h !! index);
  Ret (h <| buckets := <[index := count + 1]> (buckets h) |>).

Definition Histogram_Add (sample : Z) (h : SimpleHistogram) : outcome SimpleHistogram :=
  if sample <? histogram_min h then increment_bucket 0 h
  else if histogram_max h <=? sample then increment_bucket (length (buckets h) - 1) h
  else if histogram_width h =? 0 then Fault Undefined
  else
    let index := u64 (1 + Z.quot (sample - histogram_min h) (histogram_width h)) in
    OSP_CHECK (index <? zlen (buckets h)) ;;
    increment_bucket (Z.to_nat index) h.

Definition Histogram_Reset (h : SimpleHistogram) : SimpleHistogram :=
  h <| buckets := replicate (length (buckets h)) 0 |>.

(** [std::to_string]. *)
Definition signed_to_string (n : Z) : str := if n <? 0 then lit "-" ++ to_string (- n) else to_string n.

Definition GetBucketName (index : nat) (h : SimpleHistogram) : str :=
  if (index =? 0)%nat then lit "<" ++ signed_to_string (histogram_min h)
  else if (index =? length (buckets h) - 1)%nat then lit ">=" ++ signed_to_string (histogram_max h)
  else
    let bucket_min := swrap 32 (histogram_min h + histogram_width h * (Z.of_nat index - 1)) in
    let bucket_max := swrap 32 (histogram_min h + Z.of_nat index * histogram_width h - 1) in
    signed_to_string bucket_min ++ lit "-" ++ signed_to_string bucket_max.

(** The buckets that are not empty, from the one at [index] on. *)
Fixpoint json_buckets (index : nat) (counts : list Z) (h : SimpleHistogram) : list (str * Z) :=
  match counts with
  | [] => []
  | count :: counts =>
      (if negb (count =? 0) then [(GetBucketName index h, count)] else []) ++ json_buckets (S index) counts h
  end.
Definition Histogram_ToJson (h : SimpleHistogram) : list (str * Z) := json_buckets 0 (buckets h) h.

(** * The types of statistics *)

Inductive StatisticType :=
  | kEnqueueFps | kAvgCaptureLatencyMs | kAvgEncodeTimeMs | kAvgQueueingLatencyMs | kAvgNetworkLatencyMs
  | kAvgPacketLatencyMs | kAvgFrameLatencyMs | kAvgEndToEndLatencyMs | kEncodeRateKbps
  | kPacketTransmissionRateKbps | kTimeSinceLastReceiverResponseMs | kNumFramesCaptured
  | kNumFramesDroppedByEncoder | kNumLateFrames | kNumPacketsSent | kNumPacketsReceived | kFirstEventTimeMs
  | kLastEventTimeMs.
#[export] Instance StatisticType_eq_dec : EqDecision StatisticType.
Proof. solve_decision. Defined.

Inductive HistogramType :=
  | kCaptureLatencyMs | kEncodeTimeMs | kQueueingLatencyMs | kNetworkLatencyMs | kPacketLatencyMs
  | kEndToEndLatencyMs | kFrameLatenessMs.
#[export] Instance HistogramType_eq_dec : EqDecision HistogramType.
Proof. solve_decision. Defined.

(** The enumerators in the order of their values. *)
Definition statistic_types : list StatisticType :=
  [kEnqueueFps; kAvgCaptureLatencyMs; kAvgEncodeTimeMs; kAvgQueueingLatencyMs; kAvgNetworkLatencyMs;
   kAvgPacketLatencyMs; kAvgFrameLatencyMs; kAvgEndToEndLatencyMs; kEncodeRateKbps;
   kPacketTransmissionRateKbps; kTimeSinceLastReceiverResponseMs; kNumFramesCaptured;
   kNumFramesDroppedByEncoder; kNumLateFrames; kNumPacketsSent; kNumPacketsReceived; kFirstEventTimeMs;
   kLastEventTimeMs].
Definition histogram_types : list HistogramType :=
  [kCaptureLatencyMs; kEncodeTimeMs; kQueueingLatencyMs; kNetworkLatencyMs; kPacketLatencyMs;
   kEndToEndLatencyMs; kFrameLatenessMs].

Definition enum_index {E} `{EqDecision E} (types : list E) (e : E) : nat :=
  default 0%nat (fst <$> list_find (e =.) types).
Definition statistic_index : StatisticType -> nat := enum_index statistic_types.
Definition histogram_index : HistogramType -> nat := enum_index histogram_types.

Definition kStatisticTypeNames : list (str * StatisticType) :=
  [(lit "EnqueueFps", kEnqueueFps); (lit "AvgCaptureLatencyMs", kAvgCaptureLatencyMs);
   (lit "AvgEncodeTimeMs", kAvgEncodeTimeMs); (lit "AvgQueueingLatencyMs", kAvgQueueingLatencyMs);
   (lit "AvgNetworkLatencyMs", kAvgNetworkLatencyMs); (lit "AvgPacketLatencyMs", kAvgPacketLatencyMs);
   (lit "AvgFrameLatencyMs", kAvgFrameLatencyMs); (lit "AvgEndToEndLatencyMs", kAvgEndToEndLatencyMs);
   (lit "EncodeRateKbps", kEncodeRateKbps); (lit "PacketTransmissionRateKbps", kPacketTransmissionRateKbps);
   (lit "TimeSinceLastReceiverResponseMs", kTimeSinceLastReceiverResponseMs);
   (lit "NumFramesCaptured", kNumFramesCaptured); (lit "NumFramesDroppedByEncoder", kNumFramesDroppedByEncoder);
   (lit "NumLateFrames", kNumLateFrames); (lit "NumPacketsSent", kNumPacketsSent);
   (lit "NumPacketsReceived", kNumPacketsReceived); (lit "FirstEventTimeMs", kFirstEventTimeMs);
   (lit "LastEventTimeMs", kLastEventTimeMs)].

Definition kHistogramTypeNames : list (str * HistogramType) :=
  [(lit "CaptureLatencyMs", kCaptureLatencyMs); (lit "EncodeTimeMs", kEncodeTimeMs);
   (lit "QueueingLatencyMs", kQueueingLatencyMs); (lit "NetworkLatencyMs", kNetworkLatencyMs);
   (lit "PacketLatencyMs", kPacketLatencyMs); (lit "EndToEndLatencyMs", kEndToEndLatencyMs);
   (lit "FrameLatenessMs", kFrameLatenessMs)].

Definition kUnknownEnumError : str := lit "Enum value not in array".

Definition GetEnumName {E} `{EqDecision E} (map : list (str * E)) (enum_ : E) : ErrorOr str :=
  match list_find (fun entry => entry.2 = enum_) map with
  | Some (_, entry) => ok entry.1
  | None => err (mkError kParameterInvalid kUnknownEnumError)
  end.

(** * SenderStats *)

Record SenderStats := mkSenderStats {
  audio_statistics : list double;
  audio_histograms : list SimpleHistogram;
  video_statistics : list double;
  video_histograms : list SimpleHistogram }.

(** The members of the object of an array, which has an element for each type. *)
Fixpoint ArrayToJson {E T J} `{EqDecision E} (to_json : T -> J) (names : list (str * E)) (types : list E)
    (values : list T) : outcome (list (str * J)) :=
  match types, values with
  | type :: types, value :: values =>
      match GetEnumName names type with
      | ok name => rest ← ArrayToJson to_json names types values; Ret ((name, to_json value) :: rest)
      | err _ => Fault CheckFailed
      end
  | _, _ => Ret []
  end.

Inductive StatsJson := JsonNumbers (members : list (str * double)) | JsonHistograms (members : list (str * list (str * Z))).

Definition SenderStats_ToJson (s : SenderStats) : outcome (list (str * StatsJson)) :=
  a ← ArrayToJson id kStatisticTypeNames statistic_types (audio_statistics s);
  b ← ArrayToJson Histogram_ToJson kHistogramTypeNames histogram_types (audio_histograms s);
  c ← ArrayToJson id kStatisticTypeNames statistic_types (video_statistics s);
  d ← ArrayToJson Histogram_ToJson kHistogramTypeNames histogram_types (video_histograms s);
  Ret [(lit "audio_statistics", JsonNumbers a); (lit "audio_histograms", JsonHistograms b);
       (lit "video_statistics", JsonNumbers c); (lit "video_histograms", JsonHistograms d)].

(** * Histograms count *)

(** The bucket documented for a sample: underflow, [width] values each, overflow. *)
Definition in_bucket (min max width : Z) (i : nat) (sample : Z) : Prop :=
  let n := Z.to_nat ((max - min) / width) in
  if (i =? 0)%nat then sample < min
  else if (i =? S n)%nat then max <= sample
  else min + (Z.of_nat i - 1) * width <= sample < min + Z.of_nat i * width.
#[export] Instance in_bucket_dec min max width i sample : Decision (in_bucket min max width i sample).
Proof. unfold in_bucket. repeat case_match; apply _. Defined.

(** A histogram as the constructor comment asks for. *)
Definition histogram_ok (h : SimpleHistogram) : Prop :=
  0 < histogram_width h /\ histogram_min h < histogram_max h /\
  (histogram_max h - histogram_min h) mod histogram_width h = 0 /\ histogram_max h - histogram_min h < 2 ^ 63 /\
  zlen (buckets h) = (histogram_max h - histogram_min h) / histogram_width h + 2.

Lemma new_SimpleHistogram_ok min max width :
  0 < width -> min < max -> (max - min) mod width = 0 -> max - min < 2 ^ 63 ->
  exists h, new_SimpleHistogram min max width = Ret h /\ histogram_ok h /\
    histogram_min h = min /\ histogram_max h = max /\ histogram_width h = width /\ Forall (fun c => c = 0) (buckets h).
Proof.
  intros Hw Hm Hd Hs. unfold new_SimpleHistogram. rewrite (proj2 (Z.eqb_neq width 0)) by lia.
  rewrite Z.quot_div_nonneg by lia.
  assert (0 < (max - min) / width) as Hq.
  { apply Z.div_str_pos. split; [done |]. destruct (Z_le_gt_dec width (max - min)); [done |].
    rewrite Z.mod_small in Hd by lia. lia. }
  rewrite OSP_CHECK_leb by lia. cbn [mbind outcome_bind buckets].
  assert (Hlen : zlen (replicate (Z.to_nat ((max - min) / width + 2)) 0) = (max - min) / width + 2).
  { unfold zlen. rewrite length_replicate. lia. }
  rewrite Hlen, OSP_CHECK_ltb by lia. cbn [mbind outcome_bind].
  rewrite Z.rem_mod_nonneg by lia. rewrite Hd. cbn. eexists. split; [reflexivity |].
  split_and!; try done. apply Forall_replicate. done.
Qed.

(** The index that a sample is counted at. *)
Definition bucket_index (h : SimpleHistogram) (sample : Z) : nat :=
  if sample <? histogram_min h then 0%nat
  else if histogram_max h <=? sample then (length (buckets h) - 1)%nat
  else Z.to_nat (1 + (sample - histogram_min h) / histogram_width h).

Lemma bucket_index_spec h sample i :
  histogram_ok h -> (i < length (buckets h))%nat ->
  in_bucket (histogram_min h) (histogram_max h) (histogram_width h) i sample <-> i = bucket_index h sample.
Proof.
  intros (Hw & Hm & Hd & _ & Hl) Hi. unfold in_bucket, bucket_index, zlen in *.
  set (min := histogram_min h) in *. set (max := histogram_max h) in *. set (w := histogram_width h) in *.
  pose proof (Z.div_mod (max - min) w ltac:(lia)) as Hq. rewrite Hd in Hq. set (n := (max - min) / w) in *.
  assert (0 < n) by nia.
  pose proof (Z.div_mod (sample - min) w ltac:(lia)) as Hq'. pose proof (Z.mod_pos_bound (sample - min) w Hw).
  set (k := (sample - min) / w) in *.
  destruct (Nat.eqb_spec i 0), (Nat.eqb_spec i (S (Z.to_nat n))), (Z.ltb_spec sample min), (Z.leb_spec max sample);
    split; intros; try lia; nia.
Qed.

Lemma bucket_index_range h sample : histogram_ok h -> (bucket_index h sample < length (buckets h))%nat.
Proof.
  intros (Hw & Hm & Hd & _ & Hl). unfold bucket_index, zlen in *.
  assert (0 < (histogram_max h - histogram_min h) / histogram_width h).
  { pose proof (Z.div_mod (histogram_max h - histogram_min h) (histogram_width h) ltac:(lia)). nia. }
  destruct (Z.ltb_spec sample (histogram_min h)); [lia |]. destruct (Z.leb_spec (histogram_max h) sample); [lia |].
  assert ((sample - histogram_min h) / histogram_width h <= (histogram_max h - histogram_min h) / histogram_width h)
    by (apply Z.div_le_mono; lia).
  pose proof (Z.div_pos (sample - histogram_min h) (histogram_width h)). lia.
Qed.

Lemma Histogram_Add_ok h sample :
  histogram_ok h ->
  Histogram_Add sample h
  = Ret (h <| buckets := <[bucket_index h sample := nth (bucket_index h sample) (buckets h) 0 + 1]> (buckets h) |>).
Proof.
  intros Hok. pose proof (bucket_index_range h sample Hok) as Hr. pose proof Hok as (Hw & Hm & Hd & Hmax & Hl).
  assert (Hinc : increment_bucket (bucket_index h sample) h
    = Ret (h <| buckets := <[bucket_index h sample := nth (bucket_index h sample) (buckets h) 0 + 1]> (buckets h) |>)).
  { unfold increment_bucket. destruct (lookup_lt_is_Some_2 _ _ Hr) as [c Hc]. rewrite Hc.
    by rewrite (nth_lookup_Some _ _ _ _ Hc). }
  rewrite <- Hinc. unfold Histogram_Add, bucket_index in *.
  destruct (Z.ltb_spec sample (histogram_min h)); [done |]. destruct (Z.leb_spec (histogram_max h) sample); [done |].
  rewrite (proj2 (Z.eqb_neq _ _)) by lia. rewrite Z.quot_div_nonneg by lia.
  pose proof (Z.div_pos (sample - histogram_min h) (histogram_width h)).
  assert ((sample - histogram_min h) / histogram_width h <= sample - histogram_min h).
  { apply Z.div_le_upper_bound; [lia |]. nia. }
  rewrite wrap_small by (unfold is_u; lia). rewrite OSP_CHECK_ltb by (unfold zlen; lia). done.
Qed.

Fixpoint add_samples (samples : list Z) (h : SimpleHistogram) : outcome SimpleHistogram :=
  match samples with
  | [] => Ret h
  | sample :: samples => h ← Histogram_Add sample h; add_samples samples h
  end.

Definition occurrences (P : Z -> Prop) `{!forall z, Decision (P z)} (samples : list Z) : Z := zlen (filter P samples).

Lemma occurrences_cons (P : Z -> Prop) `{!forall z, Decision (P z)} s l :
  occurrences P (s :: l) = (if decide (P s) then 1 else 0) + occurrences P l.
Proof. unfold occurrences. rewrite filter_cons. destruct (decide (P s)); [by rewrite zlen_cons | lia]. Qed.

Lemma histogram_ok_update h bs : histogram_ok h -> length bs = length (buckets h) -> histogram_ok (h <| buckets := bs |>).
Proof. intros (H1 & H2 & H3 & H4 & H5) Hl. unfold histogram_ok, zlen in *. cbn. rewrite Hl. by split_and!. Qed.

Lemma sum_insert (l : list Z) i v : (i < length l)%nat -> foldr Z.add 0 (<[i := v]> l) = foldr Z.add 0 l - nth i l 0 + v.
Proof.
  revert i. induction l as [| x l IH]; intros [| i] Hi; cbn in *; try lia. rewrite IH by lia. lia.
Qed.

Lemma add_samples_counts samples : forall h, histogram_ok h ->
  exists h', add_samples samples h = Ret h' /\ histogram_ok h' /\ length (buckets h') = length (buckets h) /\
    (forall i, (i < length (buckets h))%nat ->
      nth i (buckets h') 0 = nth i (buckets h) 0
        + occurrences (in_bucket (histogram_min h) (histogram_max h) (histogram_width h) i) samples) /\
    foldr Z.add 0 (buckets h') = foldr Z.add 0 (buckets h) + zlen samples.
Proof.
  induction samples as [| s samples IH]; intros h Hok; cbn [add_samples].
  { exists h. split_and!; try done; [intros; symmetry; apply Z.add_0_r | symmetry; apply Z.add_0_r]. }
  rewrite (Histogram_Add_ok h s Hok). cbn [mbind outcome_bind].
  pose proof (bucket_index_range h s Hok) as Hr. set (j := bucket_index h s) in *.
  set (bs := <[j := _]> (buckets h)). assert (Hlen : length bs = length (buckets h)) by apply length_insert.
  destruct (IH (h <| buckets := bs |>) (histogram_ok_update h bs Hok Hlen)) as (h' & E & Hok' & Hl' & Hc & Hsum).
  cbn [buckets histogram_min histogram_max histogram_width update] in *.
  exists h'. split; [exact E |]. split; [done |]. split; [by rewrite Hl' |]. split.
  - intros i Hi. rewrite Hc by lia. rewrite occurrences_cons. pose proof (bucket_index_spec h s i Hok Hi) as Hspec.
    fold j in Hspec. destruct (decide (in_bucket _ _ _ i s)) as [Hin | Hout].
    + apply Hspec in Hin as ->. unfold bs. rewrite (nth_lookup_Some _ _ _ (nth j (buckets h) 0 + 1)); [lia |].
      by apply list_lookup_insert_eq.
    + unfold bs. rewrite !nth_lookup, list_lookup_insert_ne; [lia |]. intros ->. by apply Hout, Hspec.
  - rewrite Hsum. unfold bs. rewrite sum_insert by done. autorewrite with zlen. lia.
Qed.

(** A histogram counts.  Made as its documentation asks for, it takes any
    samples without a failed check; a bucket holds the number of samples in its documented
    range, and no sample is lost. *)
Theorem histogram_counts (min max width : Z) (samples : list Z) :
  0 < width -> min < max -> (max - min) mod width = 0 -> max - min < 2 ^ 63 ->
  exists h h', new_SimpleHistogram min max width = Ret h /\ add_samples samples h = Ret h' /\
    zlen (buckets h') = (max - min) / width + 2 /\
    (forall i, (i < length (buckets h'))%nat -> nth i (buckets h') 0 = occurrences (in_bucket min max width i) samples) /\
    foldr Z.add 0 (buckets h') = zlen samples.
Proof.
  intros Hw Hm Hd Hs. destruct (new_SimpleHistogram_ok min max width Hw Hm Hd Hs) as (h & E & Hok & <- & <- & <- & H0).
  destruct (add_samples_counts samples h Hok) as (h' & E' & _ & Hl & Hc & Hsum). exists h, h'.
  assert (Hz : forall l : list Z, Forall (fun c => c = 0) l -> foldr Z.add 0 l = 0 /\ forall i, nth i l 0 = 0).
  { induction 1 as [| c l -> _ [IHs IHn]]; [split; [done | by intros []] |]. split; [cbn; lia | intros [| i]; [done | apply IHn]]. }
  destruct (Hz _ H0) as [Hs0 Hn0]. split_and!; try done.
  - unfold zlen. rewrite Hl. apply Hok.
  - intros i Hi. rewrite Hc by lia. rewrite Hn0. lia.
  - lia.
Qed.

Lemma histogram_counts_witness :
  exists h h', new_SimpleHistogram 0 800 20 = Ret h /\ add_samples [-5; 0; 19; 20; 799; 800; 4000] h = Ret h' /\
    zlen (buckets h') = (800 - 0) / 20 + 2 /\
    (forall i, (i < length (buckets h'))%nat ->
      nth i (buckets h') 0 = occurrences (in_bucket 0 800 20 i) [-5; 0; 19; 20; 799; 800; 4000]) /\
    foldr Z.add 0 (buckets h') = zlen [-5; 0; 19; 20; 799; 800; 4000].
Proof. apply (histogram_counts 0 800 20); [lia | lia | reflexivity | lia]. Defined.

(** ** Names *)

(** Every type of statistics and histograms has a name, and no two have the
    same: the object of any statistics with a value for each is made without a failed check. *)
Lemma names_distinct : NoDup kStatisticTypeNames.*1 /\ NoDup kHistogramTypeNames.*1.
Proof. split; by apply (bool_decide_unpack _); vm_compute. Qed.

Lemma SenderStats_ToJson_total s : returns (SenderStats_ToJson s).
Proof.
  assert (Ha : forall E T J (HE : EqDecision E) (to_json : T -> J) names types values,
    (forall t : E, exists name, GetEnumName names t = ok name) -> returns (ArrayToJson to_json names types values)).
  { intros E T J HE to_json names types values Hn. revert values. induction types as [| t types IH]; intros [| v values];
      cbn; try by eexists. destruct (Hn t) as [name ->]. destruct (IH values) as [r ->]. by eexists. }
  assert (Hs : forall t, exists name, GetEnumName kStatisticTypeNames t = ok name) by (intros []; by eexists).
  assert (Hh : forall t, exists name, GetEnumName kHistogramTypeNames t = ok name) by (intros []; by eexists).
  unfold SenderStats_ToJson.
  destruct (Ha _ _ _ _ id kStatisticTypeNames statistic_types (audio_statistics s) Hs) as [? ->].
  destruct (Ha _ _ _ _ Histogram_ToJson kHistogramTypeNames histogram_types (audio_histograms s) Hh) as [? ->].
  destruct (Ha _ _ _ _ id kStatisticTypeNames statistic_types (video_statistics s) Hs) as [? ->].
  destruct (Ha _ _ _ _ Histogram_ToJson kHistogramTypeNames histogram_types (video_histograms s) Hh) as [? ->].
  by eexists.
Qed.
