(* ===== verification/CastMessage.v ===== *)
(** Cast messages (cast/common/channel/proto/cast_channel.proto), what is made of
    them (message_util.h and .cc), and values of JSON (util/json/json_value).

    The protobuf and JSON libraries are parameters: classes of their operations
    with laws that state what they document. *)

From S2P Require Import Prelude Text OrderedMap Statistics.

#[export] Instance ascii_KeyOrder : KeyOrder ascii.
Proof.
  apply (KeyOrder_by char_code). intros a b Hab. unfold char_code in Hab.
  apply (f_equal ascii_of_N) in Hab || apply N2Z.inj in Hab. rewrite <- (ascii_N_embedding a), <- (ascii_N_embedding b). by rewrite Hab.
Defined.

(** * The message *)

Inductive ProtocolVersion := CASTV2_1_0 | CASTV2_1_1 | CASTV2_1_2 | CASTV2_1_3.
Inductive PayloadType := STRING | BINARY.
#[export] Instance ProtocolVersion_eq_dec : EqDecision ProtocolVersion.
Proof. solve_decision. Defined.
#[export] Instance PayloadType_eq_dec : EqDecision PayloadType.
Proof. solve_decision. Defined.

(** A field that was not set is [None] and read as its default. *)
Record CastMessage := mkCastMessage {
  set_protocol_version : option ProtocolVersion;
  set_source_id : option str;
  set_destination_id : option str;
  set_namespace_ : option str;
  set_payload_type : option PayloadType;
  set_payload_utf8 : option str;
  set_payload_binary : option str;
  set_continued : option bool;
  set_remaining_length : option Z }.
#[export] Instance CastMessage_eta : Eta CastMessage := fun m => mkCastMessage (set_protocol_version m)
  (set_source_id m) (set_destination_id m) (set_namespace_ m) (set_payload_type m) (set_payload_utf8 m)
  (set_payload_binary m) (set_continued m) (set_remaining_length m).
#[export] Instance CastMessage_eq_dec : EqDecision CastMessage.
Proof. solve_decision. Defined.

Definition new_CastMessage : CastMessage := mkCastMessage None None None None None None None None None.

Definition source_id (m : CastMessage) : str := default [] (set_source_id m).
Definition destination_id (m : CastMessage) : str := default [] (set_destination_id m).
Definition namespace_ (m : CastMessage) : str := default [] (set_namespace_ m).
Definition payload_type (m : CastMessage) : PayloadType := default STRING (set_payload_type m).
Definition payload_utf8 (m : CastMessage) : str := default [] (set_payload_utf8 m).
Definition payload_binary (m : CastMessage) : str := default [] (set_payload_binary m).
Definition remaining_length (m : CastMessage) : Z := default 0 (set_remaining_length m).

(** All required fields are set. *)
Definition IsInitialized (m : CastMessage) : Prop :=
  is_Some (set_protocol_version m) /\ is_Some (set_source_id m) /\ is_Some (set_destination_id m) /\
  is_Some (set_namespace_ m) /\ is_Some (set_payload_type m).

(** The code generated for the message: its size, writing it and reading it. *)
Class CastMessageCodec := {
  ByteSizeLong : CastMessage -> Z;
  SerializeToArray : CastMessage -> option (list Z);
  ParseFromArray : list Z -> option CastMessage }.

Class CastMessageCodecLaws (codec : CastMessageCodec) : Prop := {
  SerializeToArray_size m bytes : SerializeToArray m = Some bytes -> zlen bytes = ByteSizeLong m /\ bytes_ok bytes;
  ParseFromArray_SerializeToArray m bytes : SerializeToArray m = Some bytes -> ParseFromArray bytes = Some m;
  SerializeToArray_total m : IsInitialized m -> is_Some (SerializeToArray m);
  ByteSizeLong_pos m : IsInitialized m -> 0 < ByteSizeLong m }.

(** * JSON *)

(** [find] gives a member of an object; [asString], [asInt] and [elements] combine the test of the
    type of a value with its conversion; [json_array] gives the array filled by index. *)
Class JsonLibrary (Value : Type) := {
  objectValue : Value;
  json_string : str -> Value;
  json_int : Z -> Value;
  json_array : list Value -> Value;
  set_member : str -> Value -> Value -> Value;
  find : str -> Value -> option Value;
  isObject : Value -> bool;
  asString : Value -> option str;
  asInt : Value -> option Z;
  elements : Value -> option (list Value);
  Parse : str -> option Value;
  Stringify : Value -> option str }.

(** Values built from integers and texts of ASCII characters. *)
Inductive constant {Value} `{JsonLibrary Value} : Value -> Prop :=
  | constant_object : constant objectValue
  | constant_string s : Forall (fun c => 32 <= char_code c < 127) s -> constant (json_string s)
  | constant_int n : is_s 32 n -> constant (json_int n)
  | constant_array vs : (forall v, v ∈ vs -> constant v) -> constant (json_array vs)
  | constant_member k v x : Forall (fun c => 32 <= char_code c < 127) k -> isObject v = true ->
      constant v -> constant x -> constant (set_member k x v).

Definition quote : ascii := ascii_of_nat 34.
Definition quoted (s : str) : str := [quote] ++ s ++ [quote].

Section Json.
Context {Value : Type} `{JsonLibrary Value}.
Implicit Types value message : Value.

(** util/json/json_value.cc *)
Definition MaybeGetInt (message : Value) (key : str) : option Z := value ← find key message; asInt value.
Definition MaybeGetString (message : Value) (key : str) : option str := value ← find key message; asString value.
End Json.

(** * Constants *)

Definition kTransportNamespacePrefix : str := lit "urn:x-cast:com.google.cast.tp.".
Definition kAuthNamespace : str := lit "urn:x-cast:com.google.cast.tp.deviceauth".
Definition kConnectionNamespace : str := lit "urn:x-cast:com.google.cast.tp.connection".
Definition kReceiverNamespace : str := lit "urn:x-cast:com.google.cast.receiver".
Definition kMediaNamespace : str := lit "urn:x-cast:com.google.cast.media".
Definition kBroadcastId : str := lit "*".
Definition kDefaultOutgoingMessageVersion : ProtocolVersion := CASTV2_1_0.
Definition kMessageKeyType : str := lit "type".
Definition kMessageKeyProtocolVersion : str := lit "protocolVersion".
Definition kMessageKeyProtocolVersionList : str := lit "protocolVersionList".
Definition kMessageKeyReasonCode : str := lit "reasonCode".
Definition kMessageTypeConnect : str := lit "CONNECT".
Definition kMessageTypeClose : str := lit "CLOSE".
Definition kMessageTypeConnected : str := lit "CONNECTED".
Definition kMessageKeyBrowserVersion : str := lit "browserVersion".
Definition kMessageKeyConnType : str := lit "connType".
Definition kMessageKeyConnectionType : str := lit "connectionType".
Definition kMessageKeyUserAgent : str := lit "userAgent".
Definition kMessageKeyOrigin : str := lit "origin".
Definition kMessageKeyPlatform : str := lit "platform".
Definition kMessageKeySdkType : str := lit "skdType".
Definition kMessageKeySenderInfo : str := lit "senderInfo".
Definition kMessageKeyVersion : str := lit "version".

(** * Namespaces and payloads *)

Definition IsAuthMessage (m : CastMessage) : bool := bool_decide (namespace_ m = kAuthNamespace).

(** [find_first_of] looks for any character of its argument. *)
Definition find_first_of (chars s : str) : option nat := fst <$> list_find (fun c => c ∈ chars) s.

Definition IsTransportNamespace (namespace_ : str) : bool :=
  (length kTransportNamespacePrefix <? length namespace_)%nat &&
  bool_decide (find_first_of kTransportNamespacePrefix namespace_ = Some 0%nat).

Definition GetPayload (m : CastMessage) : outcome str :=
  OSP_CHECK (bool_decide (payload_type m = STRING)) ;;
  Ret (match payload_utf8 m with [] => payload_binary m | payload => payload end).

Definition MakeSimpleUTF8Message (namespace_ payload : str) : CastMessage :=
  new_CastMessage <| set_protocol_version := Some kDefaultOutgoingMessageVersion |> <| set_namespace_ := Some namespace_ |>
    <| set_payload_type := Some STRING |> <| set_payload_utf8 := Some payload |>.

Definition MakeConnectionMessage (source_id destination_id : str) : CastMessage :=
  new_CastMessage <| set_protocol_version := Some kDefaultOutgoingMessageVersion |> <| set_source_id := Some source_id |>
    <| set_destination_id := Some destination_id |> <| set_namespace_ := Some kConnectionNamespace |>.

(** [R"!({"type": "CLOSE"})!"] *)
Definition kClosePayload : str :=
  lit "{" ++ quoted kMessageKeyType ++ lit ": " ++ quoted kMessageTypeClose ++ lit "}".

Definition MakeCloseMessage (source_id destination_id : str) : CastMessage :=
  (MakeConnectionMessage source_id destination_id) <| set_payload_type := Some STRING |>
    <| set_payload_utf8 := Some kClosePayload |>.

(** ** Types of messages *)

Inductive CastMessageType := kUnknown | kPing | kPong | kRpc | kConnect | kCloseConnection | kBroadcast | kLaunch
  | kLaunchStatus | kLaunchError | kStop | kInvalidRequest | kGetAppAvailability | kReceiverStatus | kMediaStatus
  | kOffer | kAnswer | kGetCapabilities | kCapabilitiesResponse | kGetStatus | kStatusResponse | kInvalidPlayerState
  | kLoadCancelled | kLoadFailed | kMultizoneStatus | kPresentation | kGetDeviceInfo | kEurekaInfo | kInput.
#[export] Instance CastMessageType_eq_dec : EqDecision CastMessageType.
Proof. solve_decision. Defined.

Definition kCastMessageTypeNames : list (str * CastMessageType) :=
  [(lit "UNKNOWN", kUnknown); (lit "PING", kPing); (lit "PONG", kPong); (lit "RPC", kRpc); (lit "CONNECT", kConnect);
   (lit "CLOSE", kCloseConnection); (lit "APPLICATION_BROADCAST", kBroadcast); (lit "LAUNCH", kLaunch);
   (lit "LAUNCH_STATUS", kLaunchStatus); (lit "LAUNCH_ERROR", kLaunchError); (lit "STOP", kStop);
   (lit "INVALID_REQUEST", kInvalidRequest); (lit "GET_APP_AVAILABILITY", kGetAppAvailability);
   (lit "RECEIVER_STATUS", kReceiverStatus); (lit "MEDIA_STATUS", kMediaStatus); (lit "OFFER", kOffer);
   (lit "ANSWER", kAnswer); (lit "GET_CAPABILITIES", kGetCapabilities);
   (lit "CAPABILITIES_RESPONSE", kCapabilitiesResponse); (lit "GET_STATUS", kGetStatus);
   (lit "STATUS_RESPONSE", kStatusResponse); (lit "INVALID_PLAYER_STATE", kInvalidPlayerState);
   (lit "LOAD_CANCELLED", kLoadCancelled); (lit "LOAD_FAILED", kLoadFailed); (lit "MULTIZONE_STATUS", kMultizoneStatus);
   (lit "PRESENTATION", kPresentation); (lit "GET_DEVICE_INFO", kGetDeviceInfo); (lit "eureka_info", kEurekaInfo);
   (lit "INPUT", kInput)].

Definition CastMessageTypeToString (type : CastMessageType) : str :=
  match GetEnumName kCastMessageTypeNames type with ok name => name | err _ => lit "OTHER" end.

(** Names identify types. *)
Lemma CastMessageTypeToString_inj t t' : CastMessageTypeToString t = CastMessageTypeToString t' -> t = t'.
Proof. by destruct t, t'. Qed.

Inductive AppAvailabilityResult := kAvailable | kUnavailable | kUnknownAvailability.
Definition AppAvailabilityResult_ToString (availability : AppAvailabilityResult) : str :=
  match availability with
  | kAvailable => lit "Available" | kUnavailable => lit "Unavailable" | kUnknownAvailability => lit "Unknown"
  end.

(** The next identifier is a static variable: an argument and a result. *)
Definition MakeUniqueSessionId (prefix : str) (next_id : Z) : str * Z := (prefix ++ lit "-" ++ to_string next_id, next_id + 1).

Definition CastMessage_ToString (m : CastMessage) : str :=
  lit "CastMessage(source=" ++ source_id m ++ lit ", dest=" ++ destination_id m ++ lit ", namespace=" ++ namespace_ m
  ++ lit ", payload_utf8=" ++ payload_utf8 m ++ lit ", payload_binary=" ++ payload_binary m
  ++ lit ", remaining length=" ++ to_string (remaining_length m) ++ lit ")".

(** ** CONNECT *)

Definition kVirtualConnectSdkType : Z := 2.
Definition kVirtualConnectTypeLocal : Z := 1.

(** What the build is for (build/build_config.h). *)
Inductive BuildFlag := IS_ANDROID | IS_IOS | IS_WIN | IS_MAC | IS_CHROMEOS | IS_LINUX.
Inductive VirtualConnectPlatformValue := kOtherPlatform | kAndroid | kIOS | kWindows | kMacOSX | kChromeOS | kLinux | kCastDevice.
Definition platform_value (p : VirtualConnectPlatformValue) : Z :=
  match p with kOtherPlatform => 0 | kAndroid => 1 | kIOS => 2 | kWindows => 3 | kMacOSX => 4 | kChromeOS => 5 | kLinux => 6
  | kCastDevice => 7 end.
Definition GetVirtualConnectPlatform (BUILDFLAG : BuildFlag -> bool) : VirtualConnectPlatformValue :=
  if BUILDFLAG IS_ANDROID then kAndroid else if BUILDFLAG IS_IOS then kIOS else if BUILDFLAG IS_WIN then kWindows
  else if BUILDFLAG IS_MAC then kMacOSX else if BUILDFLAG IS_CHROMEOS then kChromeOS
  else if BUILDFLAG IS_LINUX then kLinux else kOtherPlatform.

Definition kUnknownVersion : str := lit "Unknown (Open Screen)".

Section Connect.
Context {Value : Type} `{JsonLibrary Value} (BUILDFLAG : BuildFlag -> bool).

Definition sender_info : Value :=
  set_member kMessageKeyConnectionType (json_int kVirtualConnectTypeLocal)
  (set_member kMessageKeyPlatform (json_int (platform_value (GetVirtualConnectPlatform BUILDFLAG)))
  (set_member kMessageKeyBrowserVersion (json_string kUnknownVersion)
  (set_member kMessageKeyVersion (json_string kUnknownVersion)
  (set_member kMessageKeySdkType (json_int kVirtualConnectSdkType) objectValue)))).

Definition connect_payload : Value :=
  set_member kMessageKeySenderInfo sender_info
  (set_member kMessageKeyOrigin objectValue
  (set_member kMessageKeyConnType (json_int 0)
  (set_member kMessageKeyUserAgent (json_string kUnknownVersion)
  (set_member kMessageKeyProtocolVersionList (json_array (map json_int [0; 1; 2; 3]))
  (set_member kMessageKeyType (json_string (CastMessageTypeToString kConnect)) objectValue))))).

(** [ErrorOr::value()] checks that there is one. *)
Definition MakeConnectMessage (source_id destination_id : str) : outcome CastMessage :=
  match Stringify connect_payload with
  | Some payload => Ret ((MakeConnectionMessage source_id destination_id) <| set_payload_type := Some STRING |>
                           <| set_payload_utf8 := Some payload |>)
  | None => Fault CheckFailed
  end.

Definition HasType (object : Value) (type : CastMessageType) : outcome bool :=
  OSP_CHECK (isObject object) ;;
  Ret (bool_decide (MaybeGetString object kMessageKeyType = Some (CastMessageTypeToString type))).
End Connect.

(** What JsonCpp documents of these operations. *)
Class JsonLaws (Value : Type) (json : JsonLibrary Value) : Prop := {
  isObject_object : isObject objectValue = true;
  isObject_set k x v : isObject v = true -> isObject (set_member k x v) = true;
  find_object k : find k objectValue = None;
  find_set k k' x v : isObject v = true -> find k (set_member k' x v) = if decide (k = k') then Some x else find k v;
  asString_string s : asString (json_string s) = Some s;
  asInt_int n : is_s 32 n -> asInt (json_int n) = Some n;
  elements_array vs : elements (json_array vs) = Some vs;
  Stringify_constant v : constant v -> exists s, Stringify v = Some s /\ Parse s = Some v;
  Parse_close : exists v, Parse kClosePayload = Some v /\ isObject v = true /\
    MaybeGetString v kMessageKeyType = Some kMessageTypeClose /\ find kMessageKeyReasonCode v = None }.
