(* ===== verification/CastSocket.v ===== *)
(** Sockets that carry Cast messages (cast/common/channel/cast_socket.cc,
    cast/common/public/cast_socket.h) and their frames (message_framer.h and .cc):
    a length of four bytes and the message.

    The connection below is a class: sending on it, and the endpoint at its other
    end.  The client of a socket is called with a list of messages; a client that
    destroys the socket or makes it read while it is called is not modelled. *)

From S2P Require Import Prelude Wire Text IpAddress CastMessage.

Definition error_of (code : ErrorCode) : Error := mkError code [].
Definition is_ok (e : Error) : bool := bool_decide (error_code e = kNone).

(** * Frames *)

Definition kHeaderSize : Z := 4.
Definition kMaxBodySize : Z := 65536.

Section Framer.
Context {codec : CastMessageCodec}.

Definition Serialize (m : CastMessage) : ErrorOr (list Z) :=
  let message_size := ByteSizeLong m in
  if (kMaxBodySize <? message_size) || (message_size =? 0) then err (error_of kCastV2InvalidMessage)
  else match SerializeToArray m with
       | Some body => ok (be_encode 4 message_size ++ body)
       | None => err (error_of kCastV2InvalidMessage)
       end.

(** The message and the length of its frame. *)
Definition TryDeserialize (input : list Z) : ErrorOr (CastMessage * Z) :=
  if zlen input <? kHeaderSize then err (error_of kInsufficientBuffer) else
  let message_size := be_decode (take 4 input) in
  if kMaxBodySize <? message_size then err (error_of kCastV2InvalidMessage) else
  if zlen input <? kHeaderSize + message_size then err (error_of kInsufficientBuffer) else
  match ParseFromArray (take (Z.to_nat message_size) (drop 4 input)) with
  | Some m => ok (m, kHeaderSize + message_size)
  | None => err (error_of kCastV2InvalidMessage)
  end.
End Framer.

(** * Sockets *)

Class Connection (C : Type) := {
  Connection_Send : list Z -> C -> bool * C;
  GetRemoteEndpoint : C -> IPEndpoint }.

Inductive SocketState := kOpen | kError.
#[export] Instance SocketState_eq_dec : EqDecision SocketState.
Proof. solve_decision. Defined.

Record CastSocket (C : Type) := mkCastSocket {
  connection_ : C;
  socket_id : Z;
  audio_only_ : bool;
  read_buffer_ : list Z;
  state_ : SocketState }.
Arguments mkCastSocket {C}.
Arguments connection_ {C}.
Arguments socket_id {C}.
Arguments audio_only_ {C}.
Arguments read_buffer_ {C}.
Arguments state_ {C}.
#[export] Instance CastSocket_eta {C} : Eta (CastSocket C) := fun s =>
  mkCastSocket (connection_ s) (socket_id s) (audio_only_ s) (read_buffer_ s) (state_ s).

Section CastSocket.
Context {codec : CastMessageCodec} {C : Type} `{Connection C}.
Implicit Types (s : CastSocket C).

(** The next identifier is a static variable: an argument and a result. *)
Definition new_CastSocket (connection : C) (g_next_socket_id_ : Z) : CastSocket C * Z :=
  (mkCastSocket connection g_next_socket_id_ false [] kOpen, g_next_socket_id_ + 1).

Definition CastSocket_Send (m : CastMessage) s : Error * CastSocket C :=
  if decide (state_ s = kError) then (error_of kSocketClosedFailure, s) else
  match Serialize m with
  | err e => (e, s)
  | ok out =>
      let '(sent, connection) := Connection_Send out (connection_ s) in
      (error_of (if sent then kNone else kAgain), s <| connection_ := connection |>)
  end.

Definition set_audio_only (audio_only : bool) s : CastSocket C := s <| audio_only_ := audio_only |>.

(** [bytes().last<2>()]. *)
Definition GetSanitizedIpAddress s : list Z :=
  let bytes := take (address_size (address (GetRemoteEndpoint (connection_ s)))) (bytes_ (address (GetRemoteEndpoint (connection_ s)))) in
  drop (length bytes - 2) bytes.

(** The client's [OnError] is called with this socket and the error. *)
Definition CastSocket_OnError s : CastSocket C := s <| state_ := kError |>.

(** The messages the client is called with, and the socket.  [&read_buffer_[0]] needs an element. *)
Fixpoint OnRead_loop (fuel : nat) s : outcome (list CastMessage * CastSocket C) :=
  match fuel with
  | O => Ret ([], s)
  | S fuel =>
      in_bounds (head (read_buffer_ s)) ;;
      match TryDeserialize (read_buffer_ s) with
      | err _ => Ret ([], s)
      | ok (m, length) =>
          let s := s <| read_buffer_ := drop (Z.to_nat length) (read_buffer_ s) |> in
          match read_buffer_ s with
          | [] => Ret ([m], s)
          | _ :: _ => '(ms, s) ← OnRead_loop fuel s; Ret (m :: ms, s)
          end
      end
  end.

Definition OnRead (block : list Z) s : outcome (list CastMessage * CastSocket C) :=
  let s := s <| read_buffer_ := read_buffer_ s ++ block |> in
  OnRead_loop (S (length (read_buffer_ s))) s.

(** Blocks that arrive one after the other. *)
Fixpoint OnReads (blocks : list (list Z)) s : outcome (list CastMessage * CastSocket C) :=
  match blocks with
  | [] => Ret ([], s)
  | block :: blocks =>
      '(ms, s) ← OnRead block s; '(ms', s) ← OnReads blocks s; Ret (ms ++ ms', s)
  end.

(** Messages sent one after the other: those sent without an error. *)
Fixpoint send_all (ms : list CastMessage) s : list CastMessage * CastSocket C :=
  match ms with
  | [] => ([], s)
  | m :: ms =>
      let '(e, s) := CastSocket_Send m s in
      let '(sent, s) := send_all ms s in ((if is_ok e then [m] else []) ++ sent, s)
  end.
End CastSocket.

(** What a connection transmits: the bytes of the calls that succeeded. *)
Class ConnectionLaws (C : Type) (connection : Connection C) (transmitted : C -> list Z) : Prop := {
  Connection_Send_law bytes c : let '(sent, c') := Connection_Send bytes c in
    transmitted c' = transmitted c ++ (if sent then bytes else []) }.

(** * Frames are read back *)

Section FramerProps.
#[local] Set Default Proof Using "Type*".
Context {codec : CastMessageCodec} `{!CastMessageCodecLaws codec}.

Lemma Serialize_frame m f :
  Serialize m = ok f -> exists body, f = be_encode 4 (zlen body) ++ body /\ 0 < zlen body <= 65536 /\ ParseFromArray body = Some m.
Proof.
  unfold Serialize. destruct (Z.ltb_spec kMaxBodySize (ByteSizeLong m)) as [| Hmax]; [done |]. cbn [orb].
  destruct (Z.eqb_spec (ByteSizeLong m) 0) as [| Hne]; [done |]. destruct (SerializeToArray m) as [body |] eqn:E; [| done].
  intros [= <-]. exists body. destruct (SerializeToArray_size m body E) as [Hz Hb].
  rewrite <- Hz in *. unfold kMaxBodySize in Hmax.
  pose proof (zlen_nonneg body). split; [done |]. split; [lia |]. by apply ParseFromArray_SerializeToArray.
Qed.

Lemma header_value n (body : list Z) : 0 <= n <= 65536 -> be_decode (take 4 (be_encode 4 n ++ body)) = n.
Proof.
  intros Hn. rewrite take_app_length' by (by rewrite length_be_encode). rewrite be_decode_encode.
  apply wrap_small. change (is_u 32 n). unfold is_u. change (2 ^ 32) with 4294967296. lia.
Qed.

Lemma drop_header n (body : list Z) : drop 4 (be_encode 4 n ++ body) = body.
Proof. by rewrite drop_app_length' by (by rewrite length_be_encode). Qed.

Lemma TryDeserialize_frame m f rest : Serialize m = ok f -> TryDeserialize (f ++ rest) = ok (m, zlen f).
Proof.
  intros (body & -> & Hb & Hp)%Serialize_frame. unfold TryDeserialize, kHeaderSize, kMaxBodySize.
  rewrite <- app_assoc, header_value by lia. rewrite !zlen_app, zlen_be_encode, drop_header.
  pose proof (zlen_nonneg rest). change (Z.of_nat 4) with 4.
  rewrite !(proj2 (Z.ltb_ge _ _)) by lia. unfold zlen. by rewrite Nat2Z.id, take_app_length, Hp.
Qed.

(** A part of a frame is not a frame. *)
Lemma TryDeserialize_partial m p q :
  Serialize m = ok (p ++ q) -> q <> [] -> TryDeserialize p = err (error_of kInsufficientBuffer).
Proof.
  intros (body & Hf & Hb & _)%Serialize_frame Hq. unfold TryDeserialize, kHeaderSize, kMaxBodySize.
  destruct (Z.ltb_spec (zlen p) 4); [done |].
  assert (Hlen : zlen p + zlen q = 4 + zlen body) by (by rewrite <- zlen_app, Hf, zlen_app, zlen_be_encode).
  assert (0 < zlen q) by (destruct q; [done |]; rewrite zlen_cons; pose proof (zlen_nonneg q); lia).
  assert (be_decode (take 4 p) = zlen body) as ->.
  { rewrite <- (header_value (zlen body) body) by lia. rewrite <- Hf, take_app_le; [done |]. unfold zlen in *. lia. }
  rewrite (proj2 (Z.ltb_ge _ _)) by lia. by rewrite (proj2 (Z.ltb_lt _ _)) by lia.
Qed.

Lemma TryDeserialize_length buf m n : bytes_ok buf -> TryDeserialize buf = ok (m, n) -> 4 <= n <= zlen buf.
Proof.
  intros Hok. unfold TryDeserialize, kHeaderSize, kMaxBodySize. destruct (Z.ltb_spec (zlen buf) 4); [done |].
  pose proof (be_decode_bound (take 4 buf)) as Hd. unfold bytes_ok in Hd.
  assert (0 <= be_decode (take 4 buf)) by (apply Hd; by apply Forall_take).
  destruct (Z.ltb_spec 65536 (be_decode (take 4 buf))); [done |].
  destruct (Z.ltb_spec (zlen buf) (4 + be_decode (take 4 buf))); [done |]. destruct (ParseFromArray _); [| done].
  intros [= _ <-]. lia.
Qed.

(** What a frame is does not depend on what follows it. *)
Lemma TryDeserialize_app buf x r :
  bytes_ok buf -> TryDeserialize buf = r -> r <> err (error_of kInsufficientBuffer) -> TryDeserialize (buf ++ x) = r.
Proof.
  intros Hok. unfold TryDeserialize, kHeaderSize, kMaxBodySize. rewrite zlen_app. pose proof (zlen_nonneg x).
  destruct (Z.ltb_spec (zlen buf) 4); [by intros <- |].
  rewrite take_app_le by (unfold zlen in *; lia). rewrite (proj2 (Z.ltb_ge (zlen buf + _) 4)) by lia.
  destruct (Z.ltb_spec 65536 (be_decode (take 4 buf))); [done |].
  pose proof (be_decode_bound (take 4 buf)) as Hd. assert (0 <= be_decode (take 4 buf)) by (apply Hd; by apply Forall_take).
  destruct (Z.ltb_spec (zlen buf) (4 + be_decode (take 4 buf))); [by intros <- |].
  rewrite (proj2 (Z.ltb_ge (zlen buf + _) _)) by lia.
  rewrite drop_app_le by (unfold zlen in *; lia). rewrite take_app_le; [done |]. rewrite length_drop. unfold zlen in *. lia.
Qed.
End FramerProps.
