(* ===== verification/CastDemo.v ===== *)
(** Concrete instances of the libraries the Cast channel uses (CastMessage.v,
    CastSocket.v): a codec of messages, JSON values with their text, and a
    connection.  They show that the laws of the classes can hold, and run the examples. *)

From stdpp Require Import countable.
From S2P Require Import Prelude Text IpAddress CastMessage CastSocket.

(** * Text of a countable type *)

Fixpoint bits (p : positive) : str :=
  match p with xH => [] | xO p => "0"%char :: bits p | xI p => "1"%char :: bits p end.
Fixpoint bits_value (s : str) : positive :=
  match s with [] => xH | c :: s => if ascii_dec c "0"%char then xO (bits_value s) else xI (bits_value s) end.

Lemma bits_value_bits p : bits_value (bits p) = p.
Proof. induction p as [p IH | p IH |]; cbn; by rewrite ?IH. Qed.

Definition as_text {A} `{Countable A} (a : A) : str := bits (encode a).
Definition of_text {A} `{Countable A} (s : str) : option A := decode (bits_value s).

Lemma of_text_as_text {A} `{Countable A} (a : A) : of_text (as_text a) = Some a.
Proof. unfold of_text, as_text. by rewrite bits_value_bits, decode_encode. Qed.

(** * A codec of messages *)

(** A field: its characters, each after a 1, and a 0; or a 2. *)
Definition write_field (o : option str) : list Z :=
  match o with Some s => concat (map (fun c => [1; char_code c]) s) ++ [0] | None => [2] end.

Fixpoint read_chars (bytes : list Z) : option (str * list Z) :=
  match bytes with
  | 0 :: rest => Some ([], rest)
  | 1 :: c :: rest => '(s, rest) ← read_chars rest; Some (ascii_of_N (Z.to_N c) :: s, rest)
  | _ => None
  end.
Definition read_field (bytes : list Z) : option (option str * list Z) :=
  match bytes with 2 :: rest => Some (None, rest) | _ => '(s, rest) ← read_chars bytes; Some (Some s, rest) end.

Fixpoint read_fields (n : nat) (bytes : list Z) : option (list (option str)) :=
  match n with
  | O => match bytes with [] => Some [] | _ => None end
  | S n => '(field, rest) ← read_field bytes; fields ← read_fields n rest; Some (field :: fields)
  end.

Lemma read_chars_write s rest : read_chars (concat (map (fun c => [1; char_code c]) s) ++ 0 :: rest) = Some (s, rest).
Proof.
  induction s as [| c s IH]; [done |]. cbn [map concat app read_chars]. rewrite IH. cbn.
  unfold char_code. by rewrite N2Z.id, ascii_N_embedding.
Qed.

Lemma read_field_write o rest : read_field (write_field o ++ rest) = Some (o, rest).
Proof.
  destruct o as [s |]; [| done]. cbn [write_field]. rewrite <- app_assoc. cbn [app]. unfold read_field.
  pose proof (read_chars_write s rest) as E. destruct s as [| c s]; [done |]. cbn [map concat app] in *.
  by rewrite E.
Qed.

Lemma read_fields_write fields : read_fields (length fields) (concat (map write_field fields)) = Some fields.
Proof.
  induction fields as [| o fields IH]; [done |]. cbn [length map concat read_fields]. rewrite read_field_write. cbn.
  by rewrite IH.
Qed.

Definition version_text (v : ProtocolVersion) : str :=
  match v with CASTV2_1_0 => lit "0" | CASTV2_1_1 => lit "1" | CASTV2_1_2 => lit "2" | CASTV2_1_3 => lit "3" end.
Definition text_version (s : str) : option ProtocolVersion :=
  if decide (s = lit "0") then Some CASTV2_1_0 else if decide (s = lit "1") then Some CASTV2_1_1
  else if decide (s = lit "2") then Some CASTV2_1_2 else if decide (s = lit "3") then Some CASTV2_1_3 else None.
Definition type_text (t : PayloadType) : str := match t with STRING => lit "0" | BINARY => lit "1" end.
Definition text_type (s : str) : option PayloadType :=
  if decide (s = lit "0") then Some STRING else if decide (s = lit "1") then Some BINARY else None.

Definition message_fields (m : CastMessage) : list (option str) :=
  [version_text <$> set_protocol_version m; set_source_id m; set_destination_id m; set_namespace_ m;
   type_text <$> set_payload_type m; set_payload_utf8 m; set_payload_binary m; as_text <$> set_continued m;
   as_text <$> set_remaining_length m].

Definition fields_message (fields : list (option str)) : option CastMessage :=
  match fields with
  | [version; source; destination; namespace; type; utf8; binary; continued; remaining] =>
      Some (mkCastMessage (version ≫= text_version) source destination namespace (type ≫= text_type) utf8 binary
        (continued ≫= of_text) (remaining ≫= of_text))
  | _ => None
  end.

Definition write_message (m : CastMessage) : list Z := concat (map write_field (message_fields m)).

#[export] Instance demo_codec : CastMessageCodec := {|
  ByteSizeLong m := zlen (write_message m);
  SerializeToArray m := Some (write_message m);
  ParseFromArray bytes := fields ← read_fields 9 bytes; fields_message fields |}.

Lemma fields_message_fields m : fields_message (message_fields m) = Some m.
Proof.
  destruct m as [v s d n t u b c r]. unfold fields_message, message_fields. cbn. f_equal.
  assert (forall A B (f : A -> B) (g : B -> option A) (o : option A), (forall a, g (f a) = Some a) -> (f <$> o) ≫= g = o) as E.
  { intros A B f g [a |] Hg; [apply Hg | done]. }
  rewrite !(E _ _ as_text), (E _ _ version_text), (E _ _ type_text); try done; try (by intros []); apply of_text_as_text.
Qed.

Lemma write_field_bytes o : bytes_ok (write_field o).
Proof.
  destruct o as [s |]; cbn.
  - apply Forall_app. split; [| by repeat constructor]. induction s as [| c s IH]; [constructor |]. cbn.
    apply Forall_cons. split; [done |]. apply Forall_cons. split; [| done]. unfold is_u, char_code.
    pose proof (N_ascii_bounded c). change (2 ^ 8) with 256. lia.
  - by repeat constructor.
Qed.

Lemma write_field_pos o : 0 < zlen (write_field o).
Proof.
  destruct o as [s |]; cbn; [| done]. rewrite zlen_app. pose proof (zlen_nonneg (concat (map (fun c => [1; char_code c]) s))).
  change (zlen [0]) with 1. lia.
Qed.

#[export] Instance demo_codec_laws : CastMessageCodecLaws demo_codec.
Proof.
  split; cbn [ByteSizeLong SerializeToArray ParseFromArray demo_codec].
  - intros m bytes [= <-]. split; [done |]. unfold write_message. induction (message_fields m) as [| o fs IH]; [constructor |].
    cbn. apply Forall_app. split; [apply write_field_bytes | done].
  - intros m bytes [= <-]. unfold write_message. change 9%nat with (length (message_fields m)).
    rewrite read_fields_write. apply fields_message_fields.
  - intros. by eexists.
  - intros m _. unfold write_message. cbn [message_fields map concat]. rewrite zlen_app.
    match goal with |- 0 < zlen (write_field ?o) + zlen ?l => pose proof (write_field_pos o); pose proof (zlen_nonneg l) end. lia.
Qed.

(** * JSON *)

(** A value is a tree: a text or an integer at a leaf, an object at a node with the number 0, whose
    children are its keys and members by turns, and an array at a node with the number 1; nodes with
    other numbers are other values. *)
Definition demo_json : Type := gen_tree (str + Z).

Fixpoint demo_find (key : str) (children : list demo_json) : option demo_json :=
  match children with
  | GenLeaf (inl k) :: v :: rest => if decide (key = k) then Some v else demo_find key rest
  | _ => None
  end.

Definition demo_object (children : list demo_json) : demo_json := GenNode 0 children.
Definition demo_close : demo_json := demo_object [GenLeaf (inl kMessageKeyType); GenLeaf (inl kMessageTypeClose)].

#[export] Instance demo_json_library : JsonLibrary demo_json := {|
  objectValue := demo_object [];
  json_string s := GenLeaf (inl s);
  json_int n := GenLeaf (inr n);
  json_array vs := GenNode 1 vs;
  set_member k x v := match v with GenNode O children => demo_object (GenLeaf (inl k) :: x :: children) | _ => v end;
  find k v := match v with GenNode O children => demo_find k children | _ => None end;
  isObject v := match v with GenNode O _ => true | _ => false end;
  asString v := match v with GenLeaf (inl s) => Some s | _ => None end;
  asInt v := match v with GenLeaf (inr n) => if (- 2 ^ 31 <=? n) && (n <? 2 ^ 31) then Some n else None | _ => None end;
  elements v := match v with GenNode 1 vs => Some vs | _ => None end;
  Parse s := if decide (s = kClosePayload) then Some demo_close else of_text s;
  Stringify v := Some (as_text v) |}.

Lemma bits_not_close p : bits p <> kClosePayload.
Proof. by destruct p. Qed.

#[export] Instance demo_json_laws : JsonLaws demo_json demo_json_library.
Proof.
  split; cbn.
  - done.
  - by intros k x [[] | [] vs] Hv.
  - done.
  - by intros k k' x [[] | [] vs] Hv.
  - done.
  - intros n Hn. unfold is_s in Hn. change (2 ^ (32 - 1)) with (2 ^ 31) in Hn.
    by rewrite (proj2 (Z.leb_le _ _)), (proj2 (Z.ltb_lt _ _)) by lia.
  - done.
  - intros v _. exists (as_text v). split; [done |]. rewrite decide_False by apply bits_not_close. apply of_text_as_text.
  - exists demo_close. rewrite decide_True by done. repeat split.
Qed.

(** * A connection *)

(** It keeps what it transmitted, and refuses more than 64 calls. *)
Record DemoConnection := mkDemoConnection { demo_transmitted : list Z; demo_calls : nat; demo_endpoint : IPEndpoint }.

#[export] Instance demo_connection : Connection DemoConnection := {|
  Connection_Send bytes c :=
    if (demo_calls c <? 64)%nat
    then (true, mkDemoConnection (demo_transmitted c ++ bytes) (S (demo_calls c)) (demo_endpoint c)) else (false, c);
  GetRemoteEndpoint := demo_endpoint |}.

#[export] Instance demo_connection_laws : ConnectionLaws DemoConnection demo_connection demo_transmitted.
Proof. split. intros bytes c. unfold Connection_Send, demo_connection. destruct (demo_calls c <? 64)%nat; [done |]. by rewrite app_nil_r. Qed.

Definition new_DemoConnection : DemoConnection :=
  mkDemoConnection [] 0 (mkEndpoint (mkAddress kV4 [192; 168; 1; 7] 0) 8009).
