(* ===== verification/CastSocketProps.v ===== *)
(** What sockets promise (CastSocket.v): messages sent arrive in their order and as
    soon as their last byte does, in whatever blocks the bytes come; and what
    follows a frame that is not valid never arrives. *)

From S2P Require Import Prelude Wire Text IpAddress CastMessage CastSocket CastDemo.

Section Socket.
#[local] Set Default Proof Using "Type*".
Context {codec : CastMessageCodec} `{!CastMessageCodecLaws codec} {C : Type} `{Connection C}.
Implicit Types (s : CastSocket C) (buf x : list Z).

Notation with_buffer s buf := (s <| read_buffer_ := buf |>) (only parsing).

(** * Reading *)

(** The messages whose frames a buffer starts with, and what follows them. *)
Inductive parses : list Z -> list CastMessage -> list Z -> Prop :=
  | parses_stop buf e : TryDeserialize buf = err e -> parses buf [] buf
  | parses_frame buf m n ms rest : TryDeserialize buf = ok (m, n) -> 4 <= n <= zlen buf ->
      parses (drop (Z.to_nat n) buf) ms rest -> parses buf (m :: ms) rest.

Definition readable (block : list Z) : Prop := block <> [] /\ bytes_ok block.

Lemma TryDeserialize_nil : TryDeserialize [] = err (error_of kInsufficientBuffer).
Proof. done. Qed.

Lemma parses_total buf : bytes_ok buf -> exists ms rest, parses buf ms rest.
Proof.
  remember (length buf) as k eqn:Hk. revert buf Hk. induction (lt_wf k) as [k _ IH]. intros buf -> Hok.
  destruct (TryDeserialize buf) as [[m n] | e] eqn:E; [| exists [], buf; by eapply parses_stop].
  pose proof (TryDeserialize_length _ _ _ Hok E) as Hn.
  destruct (IH (length (drop (Z.to_nat n) buf))) with (buf := drop (Z.to_nat n) buf) as (ms & rest & Hp); try done.
  - rewrite length_drop. unfold zlen in Hn. lia.
  - by apply Forall_drop.
  - exists (m :: ms), rest. by eapply parses_frame.
Qed.

(** The loop parses its buffer, with fuel for each byte. *)
Lemma OnRead_loop_parses buf ms rest : parses buf ms rest -> forall fuel s,
  buf <> [] -> (length buf < fuel)%nat -> read_buffer_ s = buf ->
  OnRead_loop fuel s = Ret (ms, with_buffer s rest).
Proof.
  induction 1 as [buf e E | buf m n ms rest E Hn Hp IH]; intros [| fuel] s Hne Hf Hs; try lia; cbn [OnRead_loop];
    rewrite Hs; (destruct buf as [| b buf]; [done |]); cbn [head in_bounds mbind outcome_bind]; rewrite E.
  - destruct s. cbn in *. by subst.
  - cbn [read_buffer_ update]. destruct (drop _ _) as [| c rest'] eqn:Er.
    + inversion Hp as [? ? _ | ? ? ? ? ? Hd]; subst; [done |]. by rewrite TryDeserialize_nil in Hd.
    + match goal with |- context [OnRead_loop fuel ?s'] => rewrite (IH fuel s'); [done | done | | done] end.
      rewrite <- Er, length_drop. unfold zlen in Hn. cbn [length] in *. lia.
Qed.

Lemma parses_det buf ms rest ms' rest' : parses buf ms rest -> parses buf ms' rest' -> ms' = ms /\ rest' = rest.
Proof.
  intros H1. revert ms' rest'. induction H1 as [buf e E | buf m n ms rest E Hn Hp IH]; intros ms' rest' H2;
    inversion H2 as [? ? E' | ? m2 n2 ms2 ? E' ? Hp']; subst; try congruence; [done |].
  rewrite E in E'. injection E' as <- <-. by destruct (IH _ _ Hp') as [-> ->].
Qed.

(** Bytes that come later are parsed later. *)
Lemma parses_app buf ms rest : parses buf ms rest -> forall x ms' rest', bytes_ok buf ->
  parses (rest ++ x) ms' rest' -> parses (buf ++ x) (ms ++ ms') rest'.
Proof.
  induction 1 as [buf e E | buf m n ms rest E Hn Hp IH]; intros x ms' rest' Hok Hx; [done |].
  cbn [app]. eapply (parses_frame _ m n).
  - by apply TryDeserialize_app.
  - rewrite zlen_app. pose proof (zlen_nonneg x). lia.
  - rewrite drop_app_le by (unfold zlen in Hn; lia). apply IH; [| done]. by apply Forall_drop.
Qed.

Lemma parses_stable buf ms rest : parses buf ms rest -> parses rest [] rest.
Proof. induction 1; [by eapply parses_stop | done]. Qed.

Lemma parses_bytes buf ms rest : parses buf ms rest -> bytes_ok buf -> bytes_ok rest.
Proof. induction 1; [done |]. intros. apply IHparses. by apply Forall_drop. Qed.

Lemma OnRead_parses block s ms rest :
  readable block -> parses (read_buffer_ s ++ block) ms rest -> OnRead block s = Ret (ms, with_buffer s rest).
Proof.
  intros [Hne _] Hp. unfold OnRead.
  rewrite (OnRead_loop_parses _ _ _ Hp (S (length (read_buffer_ s ++ block)))
    (with_buffer s (read_buffer_ s ++ block))); [done | | lia | done].
  by destruct (read_buffer_ s), block.
Qed.

Lemma OnReads_parses blocks s ms rest :
  Forall readable blocks -> bytes_ok (read_buffer_ s) -> parses (read_buffer_ s) [] (read_buffer_ s) ->
  parses (read_buffer_ s ++ concat blocks) ms rest -> OnReads blocks s = Ret (ms, with_buffer s rest).
Proof.
  intros Hb. revert s ms. induction Hb as [| block blocks Hblock Hb IH]; intros s ms Hok Hst Hp; cbn [OnReads concat] in *.
  - rewrite app_nil_r in Hp. destruct (parses_det _ _ _ _ _ Hst Hp) as [-> ->]. by destruct s.
  - destruct (parses_total (read_buffer_ s ++ block)) as (ms1 & r1 & H1).
    { apply Forall_app. split; [done |]. apply Hblock. }
    rewrite (OnRead_parses _ _ _ _ Hblock H1). cbn [mbind outcome_bind].
    assert (Hok' : bytes_ok (read_buffer_ s ++ block)) by (apply Forall_app; split; [done | apply Hblock]).
    destruct (parses_total (r1 ++ concat blocks)) as (ms2 & r2 & H2).
    { apply Forall_app. split; [by eapply parses_bytes |]. clear -Hb. induction Hb as [| b bs [_ Hb] Hbs IH]; [constructor |].
      cbn. apply Forall_app. by split. }
    rewrite (IH (with_buffer s r1) ms2); cbn [read_buffer_ update].
    + cbn [mbind outcome_bind]. rewrite app_assoc in Hp. pose proof (parses_app _ _ _ H1 _ _ _ Hok' H2) as H3.
      destruct (parses_det _ _ _ _ _ H3 Hp) as [-> ->]. done.
    + by eapply parses_bytes.
    + by eapply parses_stable.
    + destruct (parses_det _ _ _ _ _ (parses_app _ _ _ H1 _ _ _ Hok' H2) ltac:(rewrite <- app_assoc; exact Hp)) as [_ ->]. done.
Qed.

(** * Streams of frames *)

Definition frames_of (ms : list CastMessage) (fs : list (list Z)) : Prop := Forall2 (fun m f => Serialize m = ok f) ms fs.

Lemma frame_pos m f : Serialize m = ok f -> 4 < zlen f.
Proof. intros (body & -> & Hb & _)%Serialize_frame. rewrite zlen_app, zlen_be_encode. lia. Qed.

(** The start of a stream of frames is parsed into the messages it holds completely. *)
Lemma parses_frames ms fs buf later : frames_of ms fs -> buf ++ later = concat fs ->
  exists delivered waiting fs' rest, ms = delivered ++ waiting /\ parses buf delivered rest /\
    frames_of waiting fs' /\ rest ++ later = concat fs' /\
    match fs' with [] => rest = [] | f :: _ => zlen rest < zlen f end.
Proof.
  intros Hf. revert buf. induction Hf as [| m f ms fs Hm Hf IH]; intros buf Hb; cbn [concat] in Hb.
  - apply app_nil in Hb as [-> ->]. exists [], [], [], []. repeat split; try constructor. by eapply parses_stop.
  - destruct (decide (length f <= length buf)%nat) as [Hle | Hlt].
    + assert (exists buf', buf = f ++ buf' /\ buf' ++ later = concat fs) as (buf' & -> & Hb').
      { exists (drop (length f) buf). rewrite <- (take_drop (length f) buf) in Hb. rewrite <- app_assoc in Hb.
        apply app_inj_1 in Hb as [H1 H2]; [| rewrite length_take; lia]. split; [| done]. by rewrite <- H1 at 1; rewrite take_drop. }
      destruct (IH buf' Hb') as (ms1 & ms2 & fs2 & rest & -> & Hp & Hw & Hr & Hl).
      exists (m :: ms1), ms2, fs2, rest. split; [done |]. split; [| done].
      eapply (parses_frame _ m (zlen f)); [by apply TryDeserialize_frame | | ].
      * pose proof (frame_pos _ _ Hm). pose proof (zlen_nonneg buf'). rewrite zlen_app. lia.
      * unfold zlen. by rewrite Nat2Z.id, drop_app_length.
    + assert (exists q, f = buf ++ q /\ q <> []) as (q & -> & Hq).
      { exists (drop (length buf) f). split.
        - rewrite <- (take_drop (length buf) f) in Hb at 1. rewrite <- app_assoc in Hb.
          apply app_inj_1 in Hb as [H1 _]; [| rewrite length_take; lia]. by rewrite H1 at 1; rewrite take_drop.
        - intros Hd. apply (f_equal length) in Hd. rewrite length_drop in Hd. cbn in Hd. lia. }
      exists [], (m :: ms), ((buf ++ q) :: fs), buf. split; [done |]. split; [eapply parses_stop; by eapply TryDeserialize_partial |].
      split; [by constructor |]. split; [done |]. rewrite zlen_app. destruct q; [done |]. rewrite zlen_cons. pose proof (zlen_nonneg q). lia.
Qed.

(** Messages sent without an error are the frames transmitted. *)
Lemma send_all_transmits (transmitted : C -> list Z) `{!ConnectionLaws C _ transmitted} ms s :
  exists fs, frames_of (send_all ms s).1 fs /\
    transmitted (connection_ (send_all ms s).2) = transmitted (connection_ s) ++ concat fs.
Proof.
  revert s. induction ms as [| m ms IH]; intros s; cbn [send_all].
  - exists []. split; [constructor |]. by rewrite app_nil_r.
  - unfold CastSocket_Send. destruct (decide (state_ s = kError)) as [Hs | Hs].
    { destruct (IH s) as (fs & Hf & Ht). destruct (send_all ms s). by exists fs. }
    destruct (Serialize m) as [out | e] eqn:E.
    + pose proof (Connection_Send_law out (connection_ s)) as Hc. destruct (Connection_Send out (connection_ s)) as [sent c].
      destruct (IH (s <| connection_ := c |>)) as (fs & Hf & Ht). destruct (send_all ms _) as [sent' s'].
      cbn in *. destruct sent; cbn.
      * exists (out :: fs). split; [by constructor |]. cbn. by rewrite Ht, Hc, app_assoc.
      * exists fs. split; [done |]. by rewrite Ht, Hc, app_nil_r.
    + destruct (IH s) as (fs & Hf & Ht). destruct (send_all ms s). exists fs. split; [| done]. cbn in *.
      assert (is_ok e = false) as ->; [| done]. revert E. unfold Serialize. destruct (_ || _); [by intros [= <-] |].
      destruct (SerializeToArray m); [done |]. by intros [= <-].
Qed.

Lemma bytes_of_blocks blocks : Forall readable blocks -> bytes_ok (concat blocks).
Proof. induction 1 as [| block blocks [_ Hb] _ IH]; [constructor |]. by apply Forall_app. Qed.

(** C13 What was sent arrives: of the messages sent without an error, those whose bytes
    have all arrived are delivered in their order, in whatever blocks the bytes come; the next one
    waits for its last byte, and when all bytes have arrived none waits. *)
Theorem messages_cross_the_channel (transmitted : C -> list Z) `{!ConnectionLaws C _ transmitted}
    (ms : list CastMessage) (a b : CastSocket C) (blocks : list (list Z)) (later : list Z) :
  read_buffer_ b = [] -> Forall readable blocks ->
  transmitted (connection_ (send_all ms a).2) = transmitted (connection_ a) ++ concat blocks ++ later ->
  exists delivered waiting rest, (send_all ms a).1 = delivered ++ waiting /\
    OnReads blocks b = Ret (delivered, b <| read_buffer_ := rest |>) /\
    (later = [] -> waiting = []) /\
    match waiting with [] => rest = [] | m :: _ => exists f, Serialize m = ok f /\ zlen rest < zlen f end.
Proof.
  intros Hb Hblocks Ht. destruct (send_all_transmits transmitted ms a) as (fs & Hf & Ht').
  rewrite Ht' in Ht. apply app_inv_head in Ht.
  destruct (parses_frames _ _ (concat blocks) later Hf (eq_sym Ht)) as (ms1 & ms2 & fs2 & rest & E & Hp & Hw & Hr & Hl).
  exists ms1, ms2, rest. split; [done |]. split; [| split].
  - apply OnReads_parses; rewrite ?Hb; [done | constructor | | done]. by eapply parses_stop.
  - intros ->. destruct Hw as [| m f ms2 fs2 Hm Hw]; [done |]. exfalso. rewrite app_nil_r in Hr. subst rest.
    cbn [concat] in Hl. rewrite zlen_app in Hl. pose proof (zlen_nonneg (concat fs2)). lia.
  - destruct Hw as [| m f ms2 fs2 Hm Hw]; [done |]. by exists f.
Qed.

(** * Frames that are not valid *)

Definition invalid_frame (bytes : list Z) : Prop := TryDeserialize bytes = err (error_of kCastV2InvalidMessage).

(** Nothing follows a frame that is not valid: after a length above 64 KiB, or a body
    that is not a message, the socket keeps all bytes that arrive and delivers none of them, and
    stays open. *)
Theorem invalid_frame_blocks_socket (ms : list CastMessage) (fs blocks : list (list Z)) (bad later : list Z) (b : CastSocket C) :
  frames_of ms fs -> read_buffer_ b = [] -> state_ b = kOpen -> Forall readable blocks ->
  concat blocks = concat fs ++ bad ++ later -> invalid_frame bad ->
  exists b', OnReads blocks b = Ret (ms, b') /\ read_buffer_ b' = bad ++ later /\ state_ b' = kOpen.
Proof.
  intros Hf Hb Hs Hblocks Hc Hbad. exists (b <| read_buffer_ := bad ++ later |>). split; [| done].
  pose proof (bytes_of_blocks _ Hblocks) as Hok. rewrite Hc in Hok. apply Forall_app in Hok as [Hok1 Hok2].
  destruct (parses_frames ms fs (concat fs) [] Hf) as (ms1 & ms2 & fs2 & rest & -> & Hp & Hw & Hr & Hl); [by rewrite app_nil_r |].
  rewrite app_nil_r in Hr. destruct Hw as [| m f ms2 fs2 Hm Hw].
  2:{ exfalso. subst rest. cbn [concat] in Hl. rewrite zlen_app in Hl. pose proof (zlen_nonneg (concat fs2)). lia. }
  cbn in Hr. subst rest. rewrite app_nil_r.
  apply OnReads_parses; rewrite ?Hb; [done | constructor | by eapply parses_stop |]. rewrite Hc. cbn [app].
  rewrite <- (app_nil_r ms1). eapply parses_app; [exact Hp | done |].
  eapply parses_stop. apply TryDeserialize_app; [by apply Forall_app in Hok2 as [] | exact Hbad | done].
Qed.
End Socket.

(** * Examples *)

Definition demo_message (payload : str) : CastMessage :=
  (MakeSimpleUTF8Message kMediaNamespace payload) <| set_source_id := Some (lit "sender-0") |>
    <| set_destination_id := Some (lit "receiver-0") |>.
Definition demo_socket : CastSocket DemoConnection := (new_CastSocket new_DemoConnection 1).1.
Definition demo_stream (ms : list CastMessage) : list Z := demo_transmitted (connection_ (send_all ms demo_socket).2).
Definition in_blocks (n : nat) (bytes : list Z) : list (list Z) :=
  (fix go fuel bytes := match fuel, bytes with
   | S fuel, _ :: _ => take n bytes :: go fuel (drop n bytes) | _, _ => [] end) (length bytes) bytes.

Example demo_delivery :
  let ms := [demo_message (lit "LOAD"); demo_message (lit "PLAY")] in
  fst <$> (match OnReads (in_blocks 7 (demo_stream ms)) demo_socket with Ret r => Some r | Fault _ => None end) = Some ms.
Proof. vm_compute. reflexivity. Qed.

Definition readableb (block : list Z) : bool :=
  negb (zlen block =? 0) && forallb (fun b => (0 <=? b) && (b <? 256)) block.

Lemma readableb_sound blocks : forallb readableb blocks = true -> Forall readable blocks.
Proof.
  intros Hb. apply Forall_forall. intros block Hin. eapply forallb_forall in Hb; [| by apply list_elem_of_In].
  unfold readableb in Hb. apply andb_true_iff in Hb as [Hne Hall]. split; [by destruct block |].
  apply Forall_forall. intros b Hbin. eapply forallb_forall in Hall; [| by apply list_elem_of_In].
  unfold is_u. change (2 ^ 8) with 256. lia.
Qed.

(** All but three bytes of two messages: the second one waits. *)
Lemma messages_cross_the_channel_witness :
  let ms := [demo_message (lit "LOAD"); demo_message (lit "PLAY")] in
  let arrived := take (length (demo_stream ms) - 3) (demo_stream ms) in
  let later := drop (length (demo_stream ms) - 3) (demo_stream ms) in
  exists delivered waiting rest, (send_all ms demo_socket).1 = delivered ++ waiting /\
    OnReads (in_blocks 7 arrived) demo_socket = Ret (delivered, demo_socket <| read_buffer_ := rest |>) /\
    (later = [] -> waiting = []) /\
    match waiting with [] => rest = [] | m :: _ => exists f, Serialize m = ok f /\ zlen rest < zlen f end.
Proof.
  intros ms arrived later.
  apply (messages_cross_the_channel demo_transmitted ms demo_socket demo_socket (in_blocks 7 arrived) later).
  - reflexivity.
  - apply readableb_sound. vm_compute. reflexivity.
  - vm_compute. reflexivity.
Defined.

Lemma invalid_frame_blocks_socket_witness :
  let m := demo_message (lit "LOAD") in let bad := [0; 1; 0; 1] in
  exists b', OnReads (in_blocks 100 (demo_stream [m] ++ bad ++ demo_stream [m])) demo_socket = Ret ([m], b') /\
    read_buffer_ b' = bad ++ demo_stream [m] /\ state_ b' = kOpen.
Proof.
  intros m bad.
  apply (invalid_frame_blocks_socket [m] [demo_stream [m]] (in_blocks 100 (demo_stream [m] ++ bad ++ demo_stream [m])) bad
    (demo_stream [m]) demo_socket).
  - constructor; [vm_compute; reflexivity | constructor].
  - reflexivity.
  - reflexivity.
  - apply readableb_sound. vm_compute. reflexivity.
  - vm_compute. reflexivity.
  - vm_compute. reflexivity.
Defined.
