(* ===== verification/Multimap.v ===== *)
(** Maps with several entries for a key (std::multimap), as lists in the order of
    their keys, those of one key in the order of their insertion. Iterators are positions. *)

From S2P Require Import Prelude OrderedMap.

Section Multimap.
Context {K V : Type} `{KeyOrder K}.
Implicit Types (m : list (K * V)) (k : K) (v : V).

(** [equal_range] is the pair of these. *)
Fixpoint lower_bound k m : nat :=
  match m with [] => 0 | e :: m => if kcmp e.1 k is Lt then S (lower_bound k m) else 0 end.
Fixpoint upper_bound k m : nat :=
  match m with [] => 0 | e :: m => if kcmp e.1 k is Gt then 0 else S (upper_bound k m) end.

Definition slice (first last : nat) m : list (K * V) := take (last - first) (drop first m).

(** [std::find_if]: the position after the range when nothing is found. *)
Definition find_if (first last : nat) (P : K * V -> Prop) `{!forall e, Decision (P e)} m : nat :=
  match list_find P (slice first last m) with Some (i, _) => (first + i)%nat | None => last end.

Definition multimap_emplace k v m : list (K * V) := take (upper_bound k m) m ++ (k, v) :: drop (upper_bound k m) m.
Definition erase_range (first last : nat) m : list (K * V) := take first m ++ drop last m.
Definition erase_at (i : nat) m : list (K * V) := erase_range i (S i) m.

(** * Order *)

Definition key_le (a b : K * V) : Prop := kcmp a.1 b.1 <> Gt.
Definition sorted m : Prop := StronglySorted key_le m.

Lemma kcmp_gt_lt (a b : K) : kcmp a b = Gt -> kcmp b a = Lt.
Proof. intros E. by rewrite kcmp_opp, E. Qed.

Lemma kcmp_lt_gt (a b : K) : kcmp a b = Lt -> kcmp b a = Gt.
Proof. intros E. by rewrite kcmp_opp, E. Qed.

Lemma kcmp_le_trans (a b c : K) : kcmp a b <> Gt -> kcmp b c <> Gt -> kcmp a c <> Gt.
Proof.
  intros H1 H2. destruct (kcmp a b) eqn:E1; [| | done].
  - by apply kcmp_eq in E1 as ->.
  - destruct (kcmp b c) eqn:E2; [| | done].
    + apply kcmp_eq in E2 as <-. by rewrite E1.
    + by rewrite (kcmp_trans _ _ _ E1 E2).
Qed.

(** The entries before, with and after a key. *)
Lemma equal_range_split k m : sorted m ->
  exists before here after, m = before ++ here ++ after /\
    length before = lower_bound k m /\ (length before + length here)%nat = upper_bound k m /\
    Forall (fun e => kcmp e.1 k = Lt) before /\ Forall (fun e => e.1 = k) here /\
    Forall (fun e => kcmp e.1 k = Gt) after.
Proof.
  intros Hs. induction Hs as [| e m Hs IH Hall]; [by exists [], [], []; cbn; repeat split; constructor |].
  destruct IH as (a & b & c & -> & Hl & Hu & Ha & Hb & Hc). cbn [lower_bound upper_bound].
  destruct (kcmp e.1 k) eqn:E.
  - apply kcmp_eq in E. assert (a = []) as ->.
    { destruct a as [| x a]; [done |]. apply Forall_cons in Ha as [Hx _]. apply Forall_cons in Hall as [Hle _].
      exfalso. apply Hle. rewrite E. by apply kcmp_lt_gt. }
    exists [], (e :: b), c. cbn in *. repeat split; auto.
  - exists (e :: a), b, c. cbn. repeat split; auto.
  - exists [], [], (e :: a ++ b ++ c). cbn. repeat split; auto. constructor; [done |].
    eapply Forall_impl; [exact Hall |]. cbn. intros x Hle. destruct (kcmp x.1 k) eqn:Ex; [| | done]; exfalso.
    + apply kcmp_eq in Ex. apply Hle. by rewrite Ex.
    + apply Hle, kcmp_lt_gt. eapply kcmp_trans; [exact Ex |]. by apply kcmp_gt_lt.
Qed.

Lemma sorted_app l m : sorted (l ++ m) <-> sorted l /\ sorted m /\ (forall a b, a ∈ l -> b ∈ m -> key_le a b).
Proof.
  unfold sorted. induction l as [| x l IH]; cbn.
  - split; [| tauto]. intros Hm. split; [constructor |]. split; [done |]. intros a b Ha. by apply not_elem_of_nil in Ha.
  - split.
    + intros Hs. inversion Hs as [| ? ? Hs' Hall]; subst. apply IH in Hs' as (H1 & H2 & H3).
      apply Forall_app in Hall as [Ha Hb]. split; [by constructor |]. split; [done |].
      intros a b [-> | Hin]%elem_of_cons Hb'; [| by apply H3]. by eapply Forall_forall in Hb.
    + intros (H1 & H2 & H3). inversion H1 as [| ? ? H1' Hall]; subst. constructor.
      * apply IH. split; [done |]. split; [done |]. intros a b Ha Hb. apply H3; [by right | done].
      * apply Forall_app. split; [done |]. apply Forall_forall. intros b Hb. apply H3; [by left | done].
Qed.

(** The positions of the three parts. *)
Section Split.
#[local] Set Default Proof Using "All".
Context (k : K) (before here after : list (K * V)).
Let m := before ++ here ++ after.
Context (Hl : length before = lower_bound k m) (Hu : (length before + length here)%nat = upper_bound k m).

Lemma slice_range : slice (lower_bound k m) (upper_bound k m) m = here.
Proof.
  unfold slice. rewrite <- Hl, <- Hu. unfold m. rewrite drop_app_length.
  replace (length before + length here - length before)%nat with (length here) by lia. by rewrite take_app_length.
Qed.

Lemma emplace_split v : multimap_emplace k v m = before ++ here ++ (k, v) :: after.
Proof.
  unfold multimap_emplace. rewrite <- Hu. unfold m. rewrite !app_assoc.
  rewrite take_app_length', drop_app_length' by (rewrite length_app; lia). by rewrite <- app_assoc.
Qed.

Lemma erase_range_split : erase_range (lower_bound k m) (upper_bound k m) m = before ++ after.
Proof.
  unfold erase_range. rewrite <- Hl, <- Hu. unfold m. rewrite take_app_length. rewrite app_assoc.
  by rewrite drop_app_length' by (rewrite length_app; lia).
Qed.

Lemma erase_at_split i : (i < length here)%nat -> erase_at (length before + i) m = before ++ delete i here ++ after.
Proof.
  intros Hi. unfold erase_at, erase_range, m. rewrite (app_assoc before).
  rewrite !take_app_le, !drop_app_le by (rewrite length_app; lia). rewrite take_app_ge, drop_app_ge by lia.
  replace (S (length before + i) - length before)%nat with (S i) by lia.
  replace (length before + i - length before)%nat with i by lia.
  rewrite delete_take_drop, <- !app_assoc. done.
Qed.
End Split.

Lemma sorted_emplace k v m : sorted m -> sorted (multimap_emplace k v m).
Proof.
  intros Hs. destruct (equal_range_split k m Hs) as (a & b & c & -> & Hl & Hu & Ha & Hb & Hc).
  rewrite emplace_split by done. rewrite app_assoc in Hs |- *. apply sorted_app in Hs as (H1 & H2 & H3).
  apply sorted_app. split; [done |]. split.
  - constructor; [done |]. eapply Forall_impl; [exact Hc |]. intros x Hx. unfold key_le. cbn. rewrite kcmp_opp, Hx. done.
  - intros x y Hx [-> | Hy]%elem_of_cons; [| by apply H3]. unfold key_le. cbn. apply elem_of_app in Hx as [Hx | Hx].
    + eapply Forall_forall in Ha as ->; done.
    + eapply Forall_forall in Hb; [| exact Hx]. by rewrite Hb, kcmp_refl.
Qed.

Lemma sorted_sublist l m : l `sublist_of` m -> sorted m -> sorted l.
Proof.
  unfold sorted. induction 1 as [| x l m Hl IH | x l m Hl IH]; intros Hs; [constructor | |];
    inversion Hs as [| ? ? Hs' Hall]; subst; auto. constructor; [auto |]. apply Forall_forall. intros y Hy.
  eapply Forall_forall in Hall; [exact Hall |]. by eapply elem_of_sublist.
Qed.

Lemma sorted_erase_range first last m : (first <= last)%nat -> sorted m -> sorted (erase_range first last m).
Proof.
  intros Hle. apply sorted_sublist. unfold erase_range. rewrite <- (take_drop first m) at 3.
  apply sublist_app; [done |]. replace last with (first + (last - first))%nat by lia. rewrite <- drop_drop. apply sublist_drop.
Qed.

Lemma lower_le_upper k m : (lower_bound k m <= upper_bound k m)%nat.
Proof. induction m as [| e m IH]; cbn; [done |]. destruct (kcmp e.1 k); lia. Qed.
End Multimap.
