(* ===== verification/ConnectionRouter.v ===== *)
(** Routing of Cast messages (cast/common/channel): virtual connections
    (virtual_connection.h), the router (virtual_connection_router.h and .cc), the
    handler of the connection namespace (connection_namespace_handler.h and .cc), the router
    of namespaces (namespace_router.h and .cc) and message ports
    (cast_socket_message_port.h and .cc).

    The router owns its sockets and is called with the messages they read.  Message handlers,
    error handlers, results of requests and clients of ports are numbers: a call of one is
    recorded, and does not call back. *)

From S2P Require Import Prelude Text OrderedMap IpAddress CastMessage CastSocket Multimap.

(** * Virtual connections *)

Inductive ConnectionType := kStrong | kWeak | kInvisible.
Inductive ConnectionVersion := kV2_1_0 | kV2_1_1 | kV2_1_2 | kV2_1_3.
Inductive CloseReason := kUnknownReason | kTransportClosed | kTransportAborted | kTransportInvalidMessage
  | kTransportTooLongInactive | kClosedBySelf | kClosedByPeer.

Record AssociatedData := mkAssociatedData {
  data_type : ConnectionType;
  user_agent : str;
  ip_fragment : list Z;
  max_protocol_version : ConnectionVersion }.
#[export] Instance AssociatedData_eta : Eta AssociatedData := fun d =>
  mkAssociatedData (data_type d) (user_agent d) (ip_fragment d) (max_protocol_version d).

(** [AssociatedData{}] *)
Definition new_AssociatedData : AssociatedData := mkAssociatedData kStrong [] [0; 0] kV2_1_0.

Record VirtualConnection := mkVirtualConnection { local_id : str; peer_id : str; vc_socket_id : Z }.
#[export] Instance VirtualConnection_eq_dec : EqDecision VirtualConnection.
Proof. solve_decision. Defined.

Definition ConnectionType_of (n : Z) : option ConnectionType :=
  match n with 0 => Some kStrong | 1 => Some kWeak | 2 => Some kInvisible | _ => None end.
Definition ConnectionVersion_of (n : Z) : option ConnectionVersion :=
  match n with 0 => Some kV2_1_0 | 1 => Some kV2_1_1 | 2 => Some kV2_1_2 | 3 => Some kV2_1_3 | _ => None end.
Definition CloseReason_of (n : Z) : option CloseReason :=
  match n with
  | 0 => Some kUnknownReason | 1 => Some kTransportClosed | 2 => Some kTransportAborted
  | 3 => Some kTransportInvalidMessage | 4 => Some kTransportTooLongInactive | 5 => Some kClosedBySelf
  | 6 => Some kClosedByPeer | _ => None
  end.

(** * The router *)

Record VCTail := mkTail { tail_peer_id : str; tail_data : AssociatedData }.

(** Calls of a message handler (the socket is null for a message of a local peer) and of a
    socket's error handler. *)
Record HandlerCall := mkHandlerCall { called_handler : Z; called_socket : option Z; called_message : CastMessage }.
Inductive SocketCall := OnClose (handler socket_id : Z) | OnError (handler socket_id : Z) (error : Error).

Record VirtualConnectionRouter (C : Type) := mkRouter {
  connection_handler_ : bool;
  connections_ : list (Z * list (str * VCTail));
  sockets_ : list (Z * (CastSocket C * Z));
  endpoints_ : list (str * Z);
  handler_calls : list HandlerCall;
  socket_calls : list SocketCall }.
Arguments mkRouter {C}.
Arguments connection_handler_ {C}.
Arguments connections_ {C}.
Arguments sockets_ {C}.
Arguments endpoints_ {C}.
Arguments handler_calls {C}.
Arguments socket_calls {C}.
#[export] Instance VirtualConnectionRouter_eta {C} : Eta (VirtualConnectionRouter C) := fun r =>
  mkRouter (connection_handler_ r) (connections_ r) (sockets_ r) (endpoints_ r) (handler_calls r) (socket_calls r).

Definition new_VirtualConnectionRouter {C} : VirtualConnectionRouter C := mkRouter false [] [] [] [] [].

(** [std::map::emplace]: an entry that exists stays. *)
Definition map_emplace {K V} `{KeyOrder K} (k : K) (v : V) (m : list (K * V)) : bool * list (K * V) :=
  match map_find k m with Some _ => (false, m) | None => (true, map_set k v m) end.

Section Router.
Context {codec : CastMessageCodec} {C : Type} `{Connection C}.
Implicit Types (r : VirtualConnectionRouter C) (vc : VirtualConnection).

(** ** Connections *)

Definition has_peer (peer : str) (entry : str * VCTail) : Prop := tail_peer_id entry.2 = peer.
#[global] Instance has_peer_dec peer entry : Decision (has_peer peer entry).
Proof. unfold has_peer. apply _. Defined.

Definition AddConnection vc (associated_data : AssociatedData) r : VirtualConnectionRouter C :=
  let socket_map := default [] (map_find (vc_socket_id vc) (connections_ r)) in
  let it := find_if (lower_bound (local_id vc) socket_map) (upper_bound (local_id vc) socket_map)
              (has_peer (peer_id vc)) socket_map in
  let socket_map := if (it =? length socket_map)%nat
                    then multimap_emplace (local_id vc) (mkTail (peer_id vc) associated_data) socket_map else socket_map in
  r <| connections_ := map_set (vc_socket_id vc) socket_map (connections_ r) |>.

(** The place of a connection among those of its socket. *)
Definition find_connection vc (socket_map : list (str * VCTail)) : option nat :=
  let first := lower_bound (local_id vc) socket_map in
  let last := upper_bound (local_id vc) socket_map in
  if (first =? length socket_map)%nat then None else
  let it := find_if first last (has_peer (peer_id vc)) socket_map in
  if (it =? last)%nat then None else Some it.

(** A map without connections is erased. *)
Definition set_socket_map (id : Z) (socket_map : list (str * VCTail)) r : VirtualConnectionRouter C :=
  r <| connections_ := match socket_map with [] => map_erase id (connections_ r) | _ => map_set id socket_map (connections_ r) end |>.

Definition RemoveConnection vc (reason : CloseReason) r : bool * VirtualConnectionRouter C :=
  match map_find (vc_socket_id vc) (connections_ r) with
  | None => (false, r)
  | Some socket_map =>
      match find_connection vc socket_map with
      | None => (false, r)
      | Some it => (true, set_socket_map (vc_socket_id vc) (erase_at it socket_map) r)
      end
  end.

Fixpoint remove_local (local_id : str) (connections : list (Z * list (str * VCTail))) : list (Z * list (str * VCTail)) :=
  match connections with
  | [] => []
  | (id, socket_map) :: rest =>
      let first := lower_bound local_id socket_map in
      if (first =? length socket_map)%nat then (id, socket_map) :: remove_local local_id rest else
      match erase_range first (upper_bound local_id socket_map) socket_map with
      | [] => remove_local local_id rest
      | socket_map => (id, socket_map) :: remove_local local_id rest
      end
  end.
Definition RemoveConnectionsByLocalId (local_id : str) r : VirtualConnectionRouter C :=
  r <| connections_ := remove_local local_id (connections_ r) |>.

Definition RemoveConnectionsBySocketId (socket_id : Z) r : VirtualConnectionRouter C :=
  r <| connections_ := map_erase socket_id (connections_ r) |>.

Definition GetConnectionData vc r : option AssociatedData :=
  socket_map ← map_find (vc_socket_id vc) (connections_ r);
  it ← find_connection vc socket_map;
  entry ← socket_map !! it;
  Some (tail_data entry.2).

Definition has_connection vc r : bool := if GetConnectionData vc r is Some _ then true else false.

(** ** Handlers and sockets *)

Definition AddHandlerForLocalId (local_id : str) (endpoint : Z) r : bool * VirtualConnectionRouter C :=
  let '(added, endpoints) := map_emplace local_id endpoint (endpoints_ r) in (added, r <| endpoints_ := endpoints |>).

Definition RemoveHandlerForLocalId (local_id : str) r : bool * VirtualConnectionRouter C :=
  (if map_find local_id (endpoints_ r) is Some _ then true else false, r <| endpoints_ := map_erase local_id (endpoints_ r) |>).

Definition TakeSocket (error_handler : Z) (socket : CastSocket C) r : VirtualConnectionRouter C :=
  r <| sockets_ := (map_emplace (socket_id socket) (socket, error_handler) (sockets_ r)).2 |>.

Definition CloseSocket (id : Z) r : VirtualConnectionRouter C :=
  match map_find id (sockets_ r) with
  | None => r
  | Some (socket, error_handler) =>
      let r := RemoveConnectionsBySocketId id r in
      r <| sockets_ := map_erase id (sockets_ r) |> <| socket_calls := socket_calls r ++ [OnClose error_handler id] |>
  end.

(** The socket's error, and the router's [OnError]. *)
Definition Router_OnError (id : Z) (error : Error) r : VirtualConnectionRouter C :=
  match map_find id (sockets_ r) with
  | None => r
  | Some (socket, error_handler) =>
      let r := RemoveConnectionsBySocketId id r in
      r <| sockets_ := map_erase id (sockets_ r) |> <| socket_calls := socket_calls r ++ [OnError error_handler id error] |>
  end.

(** ** Sending *)

Definition call_handler (handler : Z) (socket : option Z) (m : CastMessage) r : VirtualConnectionRouter C :=
  r <| handler_calls := handler_calls r ++ [mkHandlerCall handler socket m] |>.

(** Sending on every socket gives the first error. *)
Fixpoint send_each (m : CastMessage) (sockets : list (Z * (CastSocket C * Z))) (error : Error) : Error * list (Z * (CastSocket C * Z)) :=
  match sockets with
  | [] => (error, [])
  | (id, (socket, handler)) :: rest =>
      let '(result, socket) := CastSocket_Send m socket in
      let '(error, rest) := send_each m rest (if negb (is_ok result) && is_ok error then result else error) in
      (error, (id, (socket, handler)) :: rest)
  end.

Definition BroadcastFromLocalPeer (local_id : str) (m : CastMessage) r : Error * VirtualConnectionRouter C :=
  let m := m <| set_source_id := Some local_id |> <| set_destination_id := Some kBroadcastId |> in
  let others := filter (fun entry => entry.1 <> source_id m) (endpoints_ r) in
  let r := r <| handler_calls := handler_calls r ++ map (fun entry => mkHandlerCall entry.2 None m) others |> in
  let '(error, sockets) := send_each m (sockets_ r) (error_of kNone) in
  (error, r <| sockets_ := sockets |>).

Definition Router_Send vc (m : CastMessage) r : Error * VirtualConnectionRouter C :=
  if decide (peer_id vc = kBroadcastId) then BroadcastFromLocalPeer (local_id vc) m r else
  if negb (IsTransportNamespace (namespace_ m)) && negb (has_connection vc r) then (error_of kNoActiveConnection, r) else
  match map_find (vc_socket_id vc) (sockets_ r) with
  | None => (error_of kItemNotFound, r)
  | Some (socket, handler) =>
      let m := m <| set_source_id := Some (local_id vc) |> <| set_destination_id := Some (peer_id vc) |> in
      let '(error, socket) := CastSocket_Send m socket in
      (error, r <| sockets_ := map_set (vc_socket_id vc) (socket, handler) (sockets_ r) |>)
  end.
End Router.

(** * The connection namespace *)

Record PendingRequest := mkPendingRequest { conn : VirtualConnection; result_callback : Z }.

(** A router and the handler of its connection namespace, which acts when the
    router has one; the results given to callbacks. *)
Record Channel (C : Type) := mkChannel {
  vc_router_ : VirtualConnectionRouter C;
  pending_remote_requests_ : list PendingRequest;
  results : list (Z * bool) }.
Arguments mkChannel {C}.
Arguments vc_router_ {C}.
Arguments pending_remote_requests_ {C}.
Arguments results {C}.
#[export] Instance Channel_eta {C} : Eta (Channel C) := fun c =>
  mkChannel (vc_router_ c) (pending_remote_requests_ c) (results c).

Definition is_request (vc : VirtualConnection) (request : PendingRequest) : Prop := conn request = vc.
#[export] Instance is_request_dec vc request : Decision (is_request vc request).
Proof. unfold is_request. apply _. Defined.

Section Handler.
Context {codec : CastMessageCodec} {C : Type} `{Connection C} {Value : Type} `{JsonLibrary Value}.
Context (BUILDFLAG : BuildFlag -> bool) (IsConnectionAllowed : VirtualConnection -> bool).
Implicit Types (c : Channel C) (vc : VirtualConnection) (socket : option (CastSocket C)).

Definition new_ConnectionNamespaceHandler (r : VirtualConnectionRouter C) : Channel C :=
  mkChannel (r <| connection_handler_ := true |>) [] [].
Definition destroy_ConnectionNamespaceHandler c : VirtualConnectionRouter C := (vc_router_ c) <| connection_handler_ := false |>.

Definition ToCastSocketId socket : Z := match socket with Some s => socket_id s | None => 0 end.

Definition in_router (f : VirtualConnectionRouter C -> VirtualConnectionRouter C) c : Channel C := c <| vc_router_ := f (vc_router_ c) |>.
(** The handler ignores the errors of sending. *)
Definition send vc (m : CastMessage) c : Channel C := in_router (fun r => (Router_Send vc m r).2) c.

Definition IsValidProtocolVersion (version : Z) : bool := (0 <=? version) && (version <=? 3).

Definition greatest_version (max_version : Z) (it : Value) : Z :=
  match asInt it with
  | Some version_int => if IsValidProtocolVersion version_int && (max_version <? version_int) then version_int else max_version
  | None => max_version
  end.

Definition FindMaxProtocolVersion (version version_list : option Value) : option Z :=
  let max_version := values ← version_list ≫= elements; Some (foldl greatest_version 0 values) in
  match version ≫= asInt with
  | Some version_int =>
      if IsValidProtocolVersion version_int then
        let max := default 0 max_version in Some (if max <? version_int then version_int else max)
      else max_version
  | None => max_version
  end.

Definition GetCloseReason (parsed_message : Value) : CloseReason :=
  default kClosedByPeer (MaybeGetInt parsed_message kMessageKeyReasonCode ≫= CloseReason_of).

Definition SendConnect vc c : outcome (Channel C) :=
  m ← MakeConnectMessage BUILDFLAG (local_id vc) (peer_id vc); Ret (send vc m c).

Definition SendClose vc c : Channel C := send vc (MakeCloseMessage (local_id vc) (peer_id vc)) c.

Definition connected_payload (version : Z) : Value :=
  set_member kMessageKeyProtocolVersion (json_int version)
    (set_member kMessageKeyType (json_string kMessageTypeConnected) objectValue).

Definition SendConnectedResponse vc (max_protocol_version : Z) c : Channel C :=
  match Stringify (connected_payload max_protocol_version) with
  | None => c
  | Some payload => send vc (MakeSimpleUTF8Message kConnectionNamespace payload) c
  end.

Definition OpenRemoteConnection vc (callback : Z) c : outcome (Channel C) :=
  OSP_CHECK (negb (has_connection vc (vc_router_ c))) ;;
  SendConnect vc (c <| pending_remote_requests_ := pending_remote_requests_ c ++ [mkPendingRequest vc callback] |>).

(** The first request for a connection is answered. *)
Definition answer_request vc (result : bool) c : option (Channel C) :=
  '(i, request) ← list_find (is_request vc) (pending_remote_requests_ c);
  Some (c <| pending_remote_requests_ := delete i (pending_remote_requests_ c) |>
          <| results := results c ++ [(result_callback request, result)] |>).

Definition Handler_RemoveConnection vc (reason : CloseReason) c : bool * Channel C :=
  let found := has_connection vc (vc_router_ c) in
  let c := if found then in_router (fun r => (RemoveConnection vc reason r).2) c else c in
  match answer_request vc false c with Some c => (true, c) | None => (found, c) end.

Definition CloseRemoteConnection vc c : Channel C :=
  let '(found, c) := Handler_RemoveConnection vc kClosedBySelf c in if found then SendClose vc c else c.

Definition connection_of (m : CastMessage) socket : VirtualConnection :=
  mkVirtualConnection (destination_id m) (source_id m) (ToCastSocketId socket).

Definition HandleConnect socket (m : CastMessage) (parsed_message : Value) c : Channel C :=
  if decide (destination_id m = kBroadcastId \/ source_id m = kBroadcastId) then c else
  let virtual_conn := connection_of m socket in
  if negb (IsConnectionAllowed virtual_conn) then SendClose virtual_conn c else
  match (match MaybeGetInt parsed_message kMessageKeyConnType with
         | Some int_type => ConnectionType_of int_type | None => Some kStrong end) with
  | None => SendClose virtual_conn c
  | Some conn_type =>
      let negotiated_version := FindMaxProtocolVersion (find kMessageKeyProtocolVersion parsed_message)
                                  (find kMessageKeyProtocolVersionList parsed_message) in
      let data := mkAssociatedData conn_type (default [] (MaybeGetString parsed_message kMessageKeyUserAgent))
        (match socket with Some s => GetSanitizedIpAddress s | None => [0; 0] end)
        (default kV2_1_0 (negotiated_version ≫= ConnectionVersion_of)) in
      let c := match negotiated_version with Some version => SendConnectedResponse virtual_conn version c | None => c end in
      in_router (AddConnection virtual_conn data) c
  end.

Definition HandleClose socket (m : CastMessage) (parsed_message : Value) c : Channel C :=
  (Handler_RemoveConnection (connection_of m socket) (GetCloseReason parsed_message) c).2.

Definition HandleConnectedResponse socket (m : CastMessage) (parsed_message : Value) c : Channel C :=
  let vc := connection_of m socket in
  match list_find (is_request vc) (pending_remote_requests_ c) with
  | None => c
  | Some _ =>
      let c := in_router (AddConnection vc (mkAssociatedData kStrong [] [0; 0] kV2_1_3)) c in
      default c (answer_request vc true c)
  end.

Definition Handler_OnMessage socket (m : CastMessage) c : outcome (Channel C) :=
  if decide (destination_id m = kBroadcastId \/ source_id m = kBroadcastId \/ payload_type m <> STRING) then Ret c else
  payload ← GetPayload m;
  match Parse payload with
  | None => Ret c
  | Some value =>
      if negb (isObject value) then Ret c else
      match MaybeGetString value kMessageKeyType with
      | None => Ret c
      | Some type_str =>
          Ret (if decide (type_str = kMessageTypeConnect) then HandleConnect socket m value c
               else if decide (type_str = kMessageTypeClose) then HandleClose socket m value c
               else if decide (type_str = kMessageTypeConnected) then HandleConnectedResponse socket m value c else c)
      end
  end.

(** * Messages that arrive *)

(** VirtualConnectionRouter::OnMessage *)
Definition Router_OnMessage socket (m : CastMessage) c : outcome (Channel C) :=
  OSP_CHECK (if socket is Some _ then true else false) ;;
  let id := socket_id <$> socket in
  let local_id := destination_id m in
  if decide (local_id = kBroadcastId) then
    Ret (in_router (fun r => r <| handler_calls := handler_calls r ++ map (fun entry => mkHandlerCall entry.2 id m) (endpoints_ r) |>) c)
  else if decide (namespace_ m = kConnectionNamespace) then
    if connection_handler_ (vc_router_ c) then Handler_OnMessage socket m c else Ret c
  else if negb (IsTransportNamespace (namespace_ m)) && negb (has_connection (connection_of m socket) (vc_router_ c)) then Ret c
  else match map_find local_id (endpoints_ (vc_router_ c)) with
       | Some handler => Ret (in_router (call_handler handler id m) c)
       | None => Ret c
       end.

(** The messages a socket has read, one after the other. *)
Fixpoint receive_all (id : Z) (ms : list CastMessage) c : outcome (Channel C) :=
  match ms with
  | [] => Ret c
  | m :: ms =>
      match map_find id (sockets_ (vc_router_ c)) with
      | None => Ret c
      | Some (socket, _) => c ← Router_OnMessage (Some socket) m c; receive_all id ms c
      end
  end.

(** A block read by the socket [id] of the router. *)
Definition receive_block (id : Z) (block : list Z) c : outcome (Channel C) :=
  match map_find id (sockets_ (vc_router_ c)) with
  | None => Ret c
  | Some (socket, handler) =>
      '(ms, socket) ← OnRead block socket;
      receive_all id ms (in_router (fun r => r <| sockets_ := map_set id (socket, handler) (sockets_ r) |>) c)
  end.
End Handler.
