(* ===== verification/ConnectionProps.v ===== *)
(** What the routing of Cast messages promises (ConnectionRouter.v): which
    connections exist, which messages reach which handlers, and that a connection is
    made by the exchange of CONNECT and CONNECTED. *)

From S2P Require Import Prelude Text OrderedMap IpAddress CastMessage CastSocket CastSocketProps CastDemo Multimap ConnectionRouter.

(** * The connections of a socket *)

Definition is_entry (vc : VirtualConnection) (entry : str * VCTail) : Prop :=
  entry.1 = local_id vc /\ tail_peer_id entry.2 = peer_id vc.
Definition entry_id (entry : str * VCTail) : str * str := (entry.1, tail_peer_id entry.2).

Definition socket_map_ok (m : list (str * VCTail)) : Prop := sorted m /\ NoDup (entry_id <$> m) /\ m <> [].

Definition data_in (vc : VirtualConnection) (m : list (str * VCTail)) : option AssociatedData :=
  it ← find_connection vc m; entry ← m !! it; Some (tail_data entry.2).

(** No connection of the map has a greater local identifier. *)
Definition latest_in (vc : VirtualConnection) (m : list (str * VCTail)) : bool :=
  forallb (fun entry => if kcmp entry.1 (local_id vc) is Gt then false else true) m.

Lemma find_connection_cases vc m : sorted m ->
  (find_connection vc m = None /\ (forall e, e ∈ m -> ~ is_entry vc e) /\
   find_if (lower_bound (local_id vc) m) (upper_bound (local_id vc) m) (has_peer (peer_id vc)) m = upper_bound (local_id vc) m) \/
  (exists l1 e l2, m = l1 ++ e :: l2 /\ find_connection vc m = Some (length l1) /\ is_entry vc e /\
   find_if (lower_bound (local_id vc) m) (upper_bound (local_id vc) m) (has_peer (peer_id vc)) m = length l1).
Proof.
  intros Hs. destruct (equal_range_split (local_id vc) m Hs) as (a & b & c & -> & Hl & Hu & Ha & Hb & Hc).
  unfold find_connection, find_if. rewrite slice_range by done.
  destruct (list_find (has_peer (peer_id vc)) b) as [[i e] |] eqn:E.
  - right. apply list_find_Some in E as (Hi & He & _). apply list_elem_of_split_length in Hi as (b1 & b2 & -> & Hi).
    exists (a ++ b1), e, (b2 ++ c). split; [by rewrite <- !app_assoc |].
    subst i. rewrite <- Hl, <- Hu, !length_app. cbn [length].
    rewrite !(proj2 (Nat.eqb_neq _ _)) by lia. repeat split; try done.
    apply Forall_app in Hb as [_ Hb]. by apply Forall_cons in Hb as [Hb _].
  - left. apply list_find_None in E. split; [destruct (_ =? _)%nat; [done | by rewrite Nat.eqb_refl] |]. split; [| done].
    intros e [He | [He | He]%elem_of_app]%elem_of_app [Hk Hp].
    + eapply Forall_forall in Ha; [| exact He]. rewrite Hk, kcmp_refl in Ha. done.
    + eapply Forall_forall in E; [| exact He]. done.
    + eapply Forall_forall in Hc; [| exact He]. rewrite Hk, kcmp_refl in Hc. done.
Qed.

Lemma is_entry_id vc e e' : is_entry vc e -> entry_id e' = entry_id e <-> is_entry vc e'.
Proof. unfold is_entry, entry_id. destruct e as [k t], e' as [k' t']. cbn. intros [-> ->]. split; [by intros [= -> ->] | by intros [-> ->]]. Qed.

(** A connection has the data of its entry. *)
Lemma data_in_Some vc m d : socket_map_ok m ->
  data_in vc m = Some d <-> exists e, e ∈ m /\ is_entry vc e /\ tail_data e.2 = d.
Proof.
  intros (Hs & Hnd & _). unfold data_in. destruct (find_connection_cases vc m Hs) as [(-> & Hn & _) | (l1 & e & l2 & -> & -> & He & _)].
  - split; [done |]. intros (e & Hin & He & _). by destruct (Hn e Hin).
  - cbn. rewrite list_lookup_middle by done. cbn. split.
    + intros [= <-]. exists e. split; [| done]. apply elem_of_app. right. apply list_elem_of_here.
    + intros (e' & Hin & He' & <-). f_equal. f_equal.
      rewrite fmap_app, fmap_cons in Hnd. apply NoDup_app in Hnd as (_ & Hd & Hnd). apply NoDup_cons in Hnd as [Hn2 _].
      assert (entry_id e' = entry_id e) as Eid by by apply (is_entry_id vc).
      apply elem_of_app in Hin as [Hin | [-> | Hin]%elem_of_cons]; [exfalso | done | exfalso].
      * apply (Hd (entry_id e')); [by apply list_elem_of_fmap_2 |]. rewrite Eid. left.
      * apply Hn2. rewrite <- Eid. by apply list_elem_of_fmap_2.
Qed.

Lemma data_in_None vc m : socket_map_ok m -> data_in vc m = None <-> forall e, e ∈ m -> ~ is_entry vc e.
Proof.
  intros Hok. pose proof (data_in_Some vc m) as Hd. split.
  - intros Hn e Hin He. assert (data_in vc m = Some (tail_data e.2)) by (apply Hd; [done | by exists e]). congruence.
  - intros Hn. destruct (data_in vc m) as [d |] eqn:E; [| done]. apply data_in_Some in E as (e & Hin & He & _); [| done]. by destruct (Hn e Hin).
Qed.

Lemma data_in_ext vc m m' : socket_map_ok m -> socket_map_ok m' ->
  (forall e, is_entry vc e -> e ∈ m <-> e ∈ m') -> data_in vc m = data_in vc m'.
Proof.
  intros H1 H2 He. apply option_eq. intros d. rewrite !data_in_Some by done. naive_solver.
Qed.

(** Adding an entry, as AddConnection does. *)
Definition added (vc : VirtualConnection) (d : AssociatedData) (m : list (str * VCTail)) : list (str * VCTail) :=
  let it := find_if (lower_bound (local_id vc) m) (upper_bound (local_id vc) m) (has_peer (peer_id vc)) m in
  if (it =? length m)%nat then multimap_emplace (local_id vc) (mkTail (peer_id vc) d) m else m.

Definition map_or_empty_ok (m : list (str * VCTail)) : Prop := m = [] \/ socket_map_ok m.

Lemma latest_in_spec vc m : latest_in vc m = true <-> forall e, e ∈ m -> kcmp e.1 (local_id vc) <> Gt.
Proof.
  unfold latest_in. rewrite forallb_forall. split; intros Hm e He.
  - apply list_elem_of_In in He. specialize (Hm e He). by destruct (kcmp _ _).
  - apply list_elem_of_In in He. specialize (Hm e He). by destruct (kcmp _ _).
Qed.

Lemma added_cases vc d m : map_or_empty_ok m ->
  (added vc d m = m /\ (is_Some (data_in vc m) \/ latest_in vc m = false)) \/
  (data_in vc m = None /\ latest_in vc m = true /\ socket_map_ok (added vc d m) /\
   forall e, e ∈ added vc d m <-> e ∈ m \/ e = (local_id vc, mkTail (peer_id vc) d)).
Proof.
  intros Hm. assert (Hs : sorted m) by (destruct Hm as [-> | [? _]]; [constructor | done]).
  unfold added. destruct (find_connection_cases vc m Hs) as [(Hf & Hn & ->) | (l1 & e & l2 & -> & Hf & He & ->)].
  - destruct (equal_range_split (local_id vc) m Hs) as (a & b & c & Em & Hl & Hu & Ha & Hb & Hc).
    destruct c as [| x c].
    + right. assert (upper_bound (local_id vc) m = length m) as Eu by (rewrite Em at 2; rewrite !length_app; cbn; lia).
      rewrite Eu, Nat.eqb_refl. split; [unfold data_in; by rewrite Hf |].
      split.
      { apply latest_in_spec. intros e He. rewrite Em in He.
        apply elem_of_app in He as [He | [He | He]%elem_of_app]; [| | by apply not_elem_of_nil in He].
        - eapply Forall_forall in Ha as ->; done.
        - eapply Forall_forall in Hb; [| exact He]. by rewrite Hb, kcmp_refl. }
      assert (Hel : multimap_emplace (local_id vc) (mkTail (peer_id vc) d) m = m ++ [(local_id vc, mkTail (peer_id vc) d)]).
      { unfold multimap_emplace. by rewrite Eu, take_ge, drop_ge by lia. }
      split; [| rewrite Hel; set_solver]. split; [by apply sorted_emplace |]. rewrite Hel. split; [| by destruct m].
      rewrite fmap_app. apply NoDup_app. split; [destruct Hm as [-> | (_ & ? & _)]; [constructor | done] |].
      split; [| apply NoDup_singleton]. intros x (e & -> & He)%list_elem_of_fmap Hx%list_elem_of_singleton.
      apply (Hn e He). unfold entry_id in Hx. cbn in Hx. by injection Hx.
    + left. assert (upper_bound (local_id vc) m < length m)%nat by (rewrite Em at 2; rewrite !length_app; cbn; lia).
      rewrite (proj2 (Nat.eqb_neq _ _)) by lia. split; [done |]. right. apply not_true_iff_false. rewrite latest_in_spec.
      intros Hle. apply Forall_cons in Hc as [Hx _]. apply (Hle x); [| done]. rewrite Em. set_solver.
  - left. rewrite (proj2 (Nat.eqb_neq _ _)) by (rewrite length_app; cbn; lia). split; [done |]. left.
    unfold data_in. rewrite Hf. cbn. rewrite list_lookup_middle by done. by eexists.
Qed.

Lemma added_ok vc d m : map_or_empty_ok m -> socket_map_ok (added vc d m).
Proof.
  intros Hm. destruct (added_cases vc d m Hm) as [[E Hc] | (_ & _ & Hok & _)]; [| done]. rewrite E.
  destruct Hm as [-> | Hm]; [| done]. by destruct Hc as [[? ?] | ?].
Qed.

Lemma data_in_nil vc : data_in vc [] = None.
Proof. done. Qed.

Lemma data_in_added vc d m vc' : map_or_empty_ok m -> vc_socket_id vc' = vc_socket_id vc ->
  data_in vc' (added vc d m) =
    if decide (vc' = vc) then match data_in vc m with Some old => Some old | None => if latest_in vc m then Some d else None end
    else data_in vc' m.
Proof.
  intros Hm Hid. destruct (added_cases vc d m Hm) as [[E Hc] | (Hn & Hlat & Hok & Hel)].
  - rewrite E. destruct (decide (vc' = vc)) as [-> |]; [| done]. destruct (data_in vc m); [done |].
    destruct Hc as [[? ?] | ->]; done.
  - destruct (decide (vc' = vc)) as [-> | Hne].
    + rewrite Hn, Hlat. apply data_in_Some; [done |]. exists (local_id vc, mkTail (peer_id vc) d).
      split; [apply Hel; by right |]. done.
    + assert (Hnot : ~ is_entry vc' (local_id vc, mkTail (peer_id vc) d)).
      { intros [H1 H2]. apply Hne. destruct vc, vc'. cbn in *. by subst. }
      destruct Hm as [-> | Hm].
      * rewrite data_in_nil. apply data_in_None; [done |]. intros e [He | ->]%Hel; [| done]. by apply not_elem_of_nil in He.
      * apply data_in_ext; [done | done |]. intros e He. rewrite Hel. split; [intros [? | ->]; done | by left].
Qed.

(** Removing one entry, or those of a local identifier. *)
Lemma data_in_removed vc m it vc' : socket_map_ok m -> vc_socket_id vc' = vc_socket_id vc ->
  find_connection vc m = Some it ->
  map_or_empty_ok (erase_at it m) /\
  data_in vc' (erase_at it m) = if decide (vc' = vc) then None else data_in vc' m.
Proof.
  intros Hm Hid Hit. destruct (find_connection_cases vc m (proj1 Hm)) as [[Hf _] | (l1 & e & l2 & -> & Hf & He & _)]; [congruence |].
  assert (it = length l1) as -> by congruence.
  assert (erase_at (length l1) (l1 ++ e :: l2) = l1 ++ l2) as ->.
  { unfold erase_at, erase_range. rewrite take_app_length. f_equal. rewrite drop_app_ge by lia.
    by replace (S (length l1) - length l1)%nat with 1%nat by lia. }
  assert (Hnd : forall x, x ∈ l1 ++ l2 -> ~ is_entry vc x).
  { destruct Hm as (_ & Hnd & _). rewrite fmap_app, fmap_cons in Hnd. apply NoDup_app in Hnd as (_ & Hd & Hnd).
    apply NoDup_cons in Hnd as [Hn2 _]. intros x Hx Hv. assert (entry_id x = entry_id e) as Eid by by apply (is_entry_id vc).
    apply elem_of_app in Hx as [Hx | Hx].
    - apply (Hd (entry_id x)); [by apply list_elem_of_fmap_2 |]. rewrite Eid. left.
    - apply Hn2. rewrite <- Eid. by apply list_elem_of_fmap_2. }
  assert (Hok : map_or_empty_ok (l1 ++ l2)).
  { destruct (decide (l1 ++ l2 = [])) as [-> | Hne]; [by left | right]. destruct Hm as (Hs & Hnd' & _). split; [| split; [| done]].
    - eapply sorted_sublist; [| exact Hs]. apply sublist_app; [done |]. by apply sublist_cons.
    - eapply sublist_NoDup; [exact Hnd' |]. rewrite !fmap_app, fmap_cons. apply sublist_app; [done |]. by apply sublist_cons. }
  split; [done |]. destruct Hok as [E | Hok].
  { rewrite E. destruct (decide (vc' = vc)) as [| Hne]; [done |]. symmetry. apply data_in_None; [done |].
    apply app_nil in E as [-> ->]. intros x [-> | Hx]%elem_of_cons Hv; [| by apply not_elem_of_nil in Hx].
    apply Hne. destruct He as [H1 H2], Hv as [H3 H4], vc, vc'. cbn in *. by subst. }
  destruct (decide (vc' = vc)) as [-> | Hne].
  - by apply data_in_None.
  - apply data_in_ext; [done | done |]. intros x Hx. rewrite !elem_of_app, elem_of_cons. split; [tauto |].
    intros [? | [-> | ?]]; [by left | | by right]. exfalso. apply Hne. destruct He as [H1 H2], Hx as [H3 H4], vc, vc'. cbn in *. by subst.
Qed.

Lemma data_in_erased k m vc' : socket_map_ok m ->
  let m' := erase_range (lower_bound k m) (upper_bound k m) m in
  map_or_empty_ok m' /\ data_in vc' m' = if decide (local_id vc' = k) then None else data_in vc' m.
Proof.
  intros Hm. cbn zeta. destruct (equal_range_split k m (proj1 Hm)) as (a & b & c & -> & Hl & Hu & Ha & Hb & Hc).
  rewrite erase_range_split by done.
  assert (Hsub : a ++ c `sublist_of` a ++ b ++ c) by (apply sublist_app; [done |]; by apply sublist_inserts_l).
  assert (Hne : forall e, e ∈ a ++ c -> e.1 <> k).
  { intros e [He | He]%elem_of_app Hk.
    - eapply Forall_forall in Ha; [| exact He]. by rewrite Hk, kcmp_refl in Ha.
    - eapply Forall_forall in Hc; [| exact He]. by rewrite Hk, kcmp_refl in Hc. }
  assert (Hok : map_or_empty_ok (a ++ c)).
  { destruct (decide (a ++ c = [])) as [-> | Hn]; [by left | right]. destruct Hm as (Hs & Hnd & _).
    split; [by eapply sorted_sublist |]. split; [| done]. eapply sublist_NoDup; [exact Hnd |]. rewrite !fmap_app.
    apply sublist_app; [done |]. by apply sublist_inserts_l. }
  split; [done |]. destruct (decide (local_id vc' = k)) as [Hk | Hk].
  - destruct Hok as [-> | Hok]; [done |]. apply data_in_None; [done |]. intros e He [H1 _]. apply (Hne e He). congruence.
  - assert (Hiff : forall e, is_entry vc' e -> e ∈ a ++ c <-> e ∈ a ++ b ++ c).
    { intros e [H1 _]. rewrite !elem_of_app. split; [tauto |]. intros [? | [He | ?]]; [tauto | | tauto].
      eapply Forall_forall in Hb; [| exact He]. congruence. }
    destruct Hok as [E | Hok].
    + rewrite E in *. symmetry. apply data_in_None; [done |]. intros e He Hv. apply Hiff in He; [| done]. by apply not_elem_of_nil in He.
    + by apply data_in_ext.
Qed.

(** * The connections of the router *)

Section Table.
Context {C : Type}.
Implicit Types (r : VirtualConnectionRouter C) (vc : VirtualConnection).

Definition connections_ok r : Prop :=
  ordered (connections_ r) /\ forall id m, map_find id (connections_ r) = Some m -> socket_map_ok m.

Lemma GetConnectionData_eq vc r : GetConnectionData vc r = map_find (vc_socket_id vc) (connections_ r) ≫= data_in vc.
Proof. done. Qed.

(** No connection of the same socket has a greater local identifier. *)
Definition latest vc r : bool := latest_in vc (default [] (map_find (vc_socket_id vc) (connections_ r))).

Lemma latest_false vc r : connections_ok r ->
  latest vc r = false <-> exists vc', vc_socket_id vc' = vc_socket_id vc /\ has_connection vc' r = true /\
    kcmp (local_id vc') (local_id vc) = Gt.
Proof.
  intros Hr. unfold latest, has_connection. rewrite <- not_true_iff_false, latest_in_spec. split.
  - intros Hn. destruct (map_find (vc_socket_id vc) (connections_ r)) as [m |] eqn:Em; cbn in Hn.
    2:{ exfalso. apply Hn. intros e He. by apply not_elem_of_nil in He. }
    destruct (decide (Exists (fun e => kcmp e.1 (local_id vc) = Gt) m)) as [(e & He & Hgt)%Exists_exists | Hex].
    2:{ exfalso. apply Hn. intros e He Hgt. apply Hex, Exists_exists. by exists e. }
    exists (mkVirtualConnection e.1 (tail_peer_id e.2) (vc_socket_id vc)). split; [done |]. split; [| done].
    rewrite GetConnectionData_eq. cbn. rewrite Em. cbn. assert (is_Some (data_in (mkVirtualConnection e.1 (tail_peer_id e.2) (vc_socket_id vc)) m)) as [d ->]; [| done].
    exists (tail_data e.2). apply data_in_Some; [by eapply Hr |]. by exists e.
  - intros (vc' & Hid & Hc & Hgt) Hle. destruct (GetConnectionData vc' r) as [d |] eqn:Ed; [| done].
    rewrite GetConnectionData_eq, Hid in Ed. destruct (map_find (vc_socket_id vc) (connections_ r)) as [m |] eqn:Em; [| done].
    cbn in Ed, Hle. apply data_in_Some in Ed as (e & He & [Hk _] & _); [| by eapply Hr]. apply (Hle e He). by rewrite Hk.
Qed.

Lemma default_ok id r : connections_ok r -> map_or_empty_ok (default [] (map_find id (connections_ r))).
Proof. intros [_ Hm]. destruct (map_find id (connections_ r)) as [m |] eqn:E; [right; by eapply Hm | by left]. Qed.

Lemma default_data vc r : data_in vc (default [] (map_find (vc_socket_id vc) (connections_ r))) = GetConnectionData vc r.
Proof. rewrite GetConnectionData_eq. by destruct (map_find _ _). Qed.

Lemma AddConnection_ok vc d r : connections_ok r -> connections_ok (AddConnection vc d r).
Proof.
  intros Hr. pose proof (added_ok vc d _ (default_ok (vc_socket_id vc) r Hr)) as Ha. destruct Hr as [Ho Hm].
  split; [by apply ordered_set |]. intros id m. cbn. rewrite map_find_set. destruct (kcmp id (vc_socket_id vc)); [| by apply Hm ..].
  intros [= <-]. exact Ha.
Qed.

Lemma AddConnection_data vc d r vc' : connections_ok r ->
  GetConnectionData vc' (AddConnection vc d r) =
    if decide (vc' = vc)
    then match GetConnectionData vc r with Some old => Some old | None => if latest vc r then Some d else None end
    else GetConnectionData vc' r.
Proof.
  intros Hr. pose proof (default_ok (vc_socket_id vc) r Hr) as Hok. rewrite (GetConnectionData_eq vc' (AddConnection _ _ _)).
  cbn. rewrite map_find_set. destruct (kcmp (vc_socket_id vc') (vc_socket_id vc)) eqn:E.
  - apply kcmp_eq in E. cbn [mbind option_bind]. change (data_in vc' (if _ : bool then _ else _)) with
      (data_in vc' (added vc d (default [] (map_find (vc_socket_id vc) (connections_ r))))).
    rewrite data_in_added by done. rewrite default_data. rewrite <- (default_data vc' r), E. done.
  - rewrite decide_False by (intros ->; by rewrite kcmp_refl in E). done.
  - rewrite decide_False by (intros ->; by rewrite kcmp_refl in E). done.
Qed.

Lemma set_socket_map_ok id m r : connections_ok r -> map_or_empty_ok m -> connections_ok (set_socket_map id m r).
Proof.
  intros [Ho Hr] Hm. destruct m as [| e m].
  - split; [by apply ordered_erase |]. intros id' m'. cbn. destruct (decide (id' = id)) as [-> | Hne].
    + by rewrite map_find_erase_eq.
    + rewrite map_find_erase_ne by done. apply Hr.
  - split; [by apply ordered_set |]. intros id' m'. cbn. rewrite map_find_set. destruct Hm as [| Hm]; [done |].
    destruct (kcmp id' id); [by intros [= <-] | apply Hr ..].
Qed.

Lemma set_socket_map_data id m r vc' : connections_ok r ->
  GetConnectionData vc' (set_socket_map id m r) = if decide (vc_socket_id vc' = id) then data_in vc' m else GetConnectionData vc' r.
Proof.
  intros [Ho _]. rewrite !GetConnectionData_eq. destruct m as [| e m]; cbn [set_socket_map connections_ update].
  - destruct (decide (vc_socket_id vc' = id)) as [-> | Hne]; [by rewrite map_find_erase_eq | by rewrite map_find_erase_ne].
  - rewrite map_find_set. destruct (decide (vc_socket_id vc' = id)) as [-> | Hne]; [by rewrite kcmp_refl |].
    destruct (kcmp (vc_socket_id vc') id) eqn:E; try done. by apply kcmp_eq in E.
Qed.

Lemma RemoveConnection_spec vc reason r : connections_ok r ->
  let '(found, r') := RemoveConnection vc reason r in
  connections_ok r' /\ found = has_connection vc r /\
  forall vc', GetConnectionData vc' r' = if decide (vc' = vc) then None else GetConnectionData vc' r.
Proof.
  intros Hr. unfold RemoveConnection, has_connection. rewrite (GetConnectionData_eq vc r).
  destruct (map_find (vc_socket_id vc) (connections_ r)) as [m |] eqn:Em.
  - assert (Hm : socket_map_ok m) by (by eapply Hr). destruct (find_connection vc m) as [it |] eqn:Ef.
    + destruct (data_in_removed vc m it vc Hm eq_refl Ef) as [Hok _]. split; [by apply set_socket_map_ok |]. split.
      { cbn. unfold data_in. rewrite Ef. cbn. destruct (find_connection_cases vc m (proj1 Hm)) as [[? _] | (l1 & e & l2 & -> & Hf & _)]; [congruence |].
        assert (it = length l1) as -> by congruence. by rewrite list_lookup_middle. }
      intros vc'. rewrite set_socket_map_data by done. destruct (decide (vc_socket_id vc' = vc_socket_id vc)) as [Hid | Hid].
      * destruct (data_in_removed vc m it vc' Hm Hid Ef) as [_ ->]. destruct (decide (vc' = vc)); [done |].
        by rewrite GetConnectionData_eq, Hid, Em.
      * by rewrite decide_False by (by intros ->).
    + split; [done |]. split; [cbn; unfold data_in; by rewrite Ef |]. intros vc'. destruct (decide (vc' = vc)) as [-> |]; [| done].
      rewrite GetConnectionData_eq, Em. cbn. unfold data_in. by rewrite Ef.
  - split; [done |]. split; [done |]. intros vc'. destruct (decide (vc' = vc)) as [-> |]; [| done]. by rewrite GetConnectionData_eq, Em.
Qed.

Lemma RemoveConnectionsBySocketId_spec id r : connections_ok r ->
  connections_ok (RemoveConnectionsBySocketId id r) /\
  forall vc', GetConnectionData vc' (RemoveConnectionsBySocketId id r) =
    if decide (vc_socket_id vc' = id) then None else GetConnectionData vc' r.
Proof.
  intros Hr. split; [by apply (set_socket_map_ok id []); [| left] |]. intros vc'.
  change (RemoveConnectionsBySocketId id r) with (set_socket_map id [] r). by rewrite set_socket_map_data.
Qed.

Lemma remove_local_find k (l : list (Z * list (str * VCTail))) id : ordered l -> (forall id' m, map_find id' l = Some m -> socket_map_ok m) ->
  ordered (remove_local k l) /\
  map_find id (remove_local k l) = (m ← map_find id l;
    match erase_range (lower_bound k m) (upper_bound k m) m with [] => None | m' => Some m' end).
Proof.
  intros Ho. induction Ho as [| [id0 m0] l Ho IH Hall]; intros Hm; [split; [constructor | done] |].
  assert (Hm0 : socket_map_ok m0) by (apply (Hm id0); cbn [map_find]; by rewrite kcmp_refl).
  assert (Hm' : forall id' m, map_find id' l = Some m -> socket_map_ok m).
  { intros id' m Hf. apply (Hm id'). cbn [map_find]. destruct (kcmp id' id0) eqn:E; try done. apply kcmp_eq in E as ->.
    apply map_find_elem in Hf. eapply Forall_forall in Hall; [| exact Hf]. cbn [fst] in Hall. by rewrite kcmp_refl in Hall. }
  destruct (IH Hm') as [IH1 IH2].
  assert (Hcons : forall m, ordered ((id0, m) :: remove_local k l)).
  { intros m. constructor; [done |]. apply Forall_forall. intros e He. clear -He Hall.
    assert (exists e', e' ∈ l /\ e'.1 = e.1) as (e' & He' & E).
    { clear Hall. induction l as [| [i mi] l IHl]; cbn in He; [by apply not_elem_of_nil in He |].
      destruct (_ =? _)%nat.
      - apply elem_of_cons in He as [-> | He]; [exists (i, mi); split; [left | done] |].
        destruct (IHl He) as (e' & ? & ?). exists e'. split; [by right | done].
      - destruct (erase_range _ _ _).
        + destruct (IHl He) as (e' & ? & ?). exists e'. split; [by right | done].
        + apply elem_of_cons in He as [-> | He]; [exists (i, mi); split; [left | done] |].
          destruct (IHl He) as (e' & ? & ?). exists e'. split; [by right | done]. }
    eapply Forall_forall in Hall; [| exact He']. cbn in *. by rewrite <- E. }
  cbn [remove_local map_find]. destruct (Nat.eqb_spec (lower_bound k m0) (length m0)) as [El | El].
  - split; [apply Hcons |]. cbn [map_find]. rewrite IH2. destruct (kcmp id id0); try done. cbn.
    assert (upper_bound k m0 = length m0) as Eu.
    { pose proof (lower_le_upper k m0). destruct (equal_range_split k m0 (proj1 Hm0)) as (a & b & c & -> & Hl & Hu & _).
      rewrite !length_app in *. lia. }
    unfold erase_range. rewrite El, Eu, firstn_all, drop_all, app_nil_r. destruct Hm0 as (_ & _ & Hne). by destruct m0.
  - destruct (erase_range (lower_bound k m0) (upper_bound k m0) m0) as [| e0 m'] eqn:Ee.
    + split; [done |]. rewrite IH2. destruct (kcmp id id0) eqn:E; try done. cbn. rewrite Ee. apply kcmp_eq in E as ->.
      destruct (map_find id0 l) eqn:Ef; [| done]. exfalso. apply map_find_elem in Ef. eapply Forall_forall in Hall; [| exact Ef].
      cbn [fst] in Hall. by rewrite kcmp_refl in Hall.
    + split; [apply Hcons |]. cbn [map_find]. rewrite IH2. destruct (kcmp id id0); try done. cbn. by rewrite Ee.
Qed.

Lemma RemoveConnectionsByLocalId_spec k r : connections_ok r ->
  connections_ok (RemoveConnectionsByLocalId k r) /\
  forall vc', GetConnectionData vc' (RemoveConnectionsByLocalId k r) =
    if decide (local_id vc' = k) then None else GetConnectionData vc' r.
Proof.
  intros [Ho Hm]. split.
  - split; [by apply (remove_local_find k _ 0) |]. intros id m. cbn. destruct (remove_local_find k _ id Ho Hm) as [_ ->].
    intros (m0 & Hf & He)%bind_Some. destruct (data_in_erased k m0 (mkVirtualConnection [] [] 0) (Hm _ _ Hf)) as [Hok _].
    destruct (erase_range _ _ _); [done |]. injection He as <-. by destruct Hok.
  - intros vc'. rewrite !GetConnectionData_eq. cbn. destruct (remove_local_find k _ (vc_socket_id vc') Ho Hm) as [_ ->].
    destruct (map_find (vc_socket_id vc') (connections_ r)) as [m |] eqn:Ef; cbn; [| by destruct (decide _)].
    destruct (data_in_erased k m vc' (Hm _ _ Ef)) as [_ <-]. by destruct (erase_range _ _ _).
Qed.
End Table.
