(* ===== verification/ChannelProps.v ===== *)
(** The channel of Cast messages over runs (ConnectionRouter.v): whatever its
    client and the network do, it does not abort, and its connections are those that were
    added and not removed, with one exception; and the exchange that makes a connection. *)

From S2P Require Import Prelude Wire Text OrderedMap IpAddress CastMessage CastSocket CastSocketProps CastDemo Multimap ConnectionRouter ConnectionProps.

(** * The invariant *)

Section Invariant.
#[local] Set Default Proof Using "Type*".
Context {codec : CastMessageCodec} `{!CastMessageCodecLaws codec} {C : Type} `{Connection C}.
Implicit Types (r : VirtualConnectionRouter C) (s : CastSocket C).

(** A buffer holds no complete frame. *)
Definition socket_ok s : Prop := bytes_ok (read_buffer_ s) /\ parses (read_buffer_ s) [] (read_buffer_ s).

Definition sockets_ok (m : list (Z * (CastSocket C * Z))) : Prop :=
  ordered m /\ Forall (fun entry => socket_id entry.2.1 = entry.1 /\ socket_ok entry.2.1) m.

Definition router_ok r : Prop := connections_ok r /\ sockets_ok (sockets_ r).

Lemma sockets_ok_find m id s h : sockets_ok m -> map_find id m = Some (s, h) -> socket_id s = id /\ socket_ok s.
Proof. intros [_ Hm] Hf. apply map_find_elem in Hf. eapply Forall_forall in Hm; [| exact Hf]. exact Hm. Qed.

Lemma sockets_ok_set m id s h : sockets_ok m -> socket_id s = id -> socket_ok s -> sockets_ok (map_set id (s, h) m).
Proof.
  intros [Ho Hm] Hid Hs. split; [by apply ordered_set |]. apply Forall_forall. intros e [-> | He]%map_set_elem; [done |].
  eapply Forall_forall in Hm; [exact Hm | done].
Qed.

Lemma sockets_ok_erase m id : sockets_ok m -> sockets_ok (map_erase id m).
Proof.
  intros [Ho Hm]. split; [by apply ordered_erase |]. apply Forall_forall. intros e He%map_erase_elem.
  eapply Forall_forall in Hm; [exact Hm | done].
Qed.

Lemma Send_keeps m s : socket_id (CastSocket_Send m s).2 = socket_id s /\ read_buffer_ (CastSocket_Send m s).2 = read_buffer_ s /\
  state_ (CastSocket_Send m s).2 = state_ s.
Proof.
  unfold CastSocket_Send. destruct (decide _); [done |]. destruct (Serialize m); [| done]. by destruct (Connection_Send _ _).
Qed.

Lemma Send_ok m s : socket_ok s -> socket_ok (CastSocket_Send m s).2.
Proof. unfold socket_ok. by destruct (Send_keeps m s) as (_ & -> & _). Qed.

Lemma send_each_ok m sockets e : sockets_ok sockets -> sockets_ok (send_each m sockets e).2 /\ map fst (send_each m sockets e).2 = map fst sockets.
Proof.
  intros [Ho Hs].
  assert (Hk : forall e, map fst (send_each m sockets e).2 = map fst sockets /\
    Forall (fun entry => socket_id entry.2.1 = entry.1 /\ socket_ok entry.2.1) (send_each m sockets e).2).
  { clear Ho. induction Hs as [| [id [s h]] l [H1 H2] Hs IH]; intros e'; cbn [send_each map]; [done |].
    pose proof (Send_keeps m s) as (E1 & _ & _). pose proof (Send_ok m s H2) as E2.
    destruct (CastSocket_Send m s) as [result s']. destruct (IH (if negb (is_ok result) && is_ok e' then result else e')) as [IH1 IH2].
    destruct (send_each _ _ _) as [e'' l']. cbn in *. split; [by rewrite IH1 |]. constructor; [| done]. cbn. split; [congruence | done]. }
  destruct (Hk e) as [H1 H2]. split; [| done]. split; [| done]. clear -Ho H1. unfold ordered in *.
  revert H1. generalize (send_each m sockets e).2. clear e. intros l.
  assert (forall l : list (Z * (CastSocket C * Z)), StronglySorted (fun a b => kcmp a.1 b.1 = Lt) l <-> StronglySorted (fun a b => kcmp a b = Lt) (map fst l)) as E.
  { clear. induction l as [| x l IH]; cbn; [split; constructor |]. split; intros Hl; inversion Hl as [| ? ? Hl' Hall]; subst; constructor.
    - by apply IH.
    - by apply Forall_map.
    - by apply IH.
    - by apply Forall_map in Hall. }
  intros H1. apply E. rewrite H1. by apply E.
Qed.

Lemma router_ok_connections r r' : router_ok r -> connections_ok r' -> sockets_ r' = sockets_ r -> router_ok r'.
Proof. intros [_ Hs] Hc E. split; [done |]. by rewrite E. Qed.

Lemma router_ok_sockets r m : router_ok r -> sockets_ok m -> router_ok (r <| sockets_ := m |>).
Proof. intros [Hc _] Hm. by split. Qed.

(** ** Every operation of the router keeps it *)

Lemma AddConnection_router_ok vc d r : router_ok r -> router_ok (AddConnection vc d r).
Proof. intros Hr. eapply router_ok_connections; [exact Hr | | done]. by apply AddConnection_ok, Hr. Qed.

Lemma RemoveConnection_router_ok vc reason r : router_ok r -> router_ok (RemoveConnection vc reason r).2.
Proof.
  intros Hr. pose proof (RemoveConnection_spec vc reason r (proj1 Hr)) as Hs. eapply router_ok_connections; [exact Hr | |].
  - by destruct (RemoveConnection vc reason r), Hs.
  - unfold RemoveConnection. destruct (map_find _ _); [| done]. by destruct (find_connection _ _).
Qed.

Lemma RemoveConnectionsBySocketId_router_ok id r : router_ok r -> router_ok (RemoveConnectionsBySocketId id r).
Proof. intros Hr. eapply router_ok_connections; [exact Hr | | done]. by apply RemoveConnectionsBySocketId_spec, Hr. Qed.

Lemma RemoveConnectionsByLocalId_router_ok k r : router_ok r -> router_ok (RemoveConnectionsByLocalId k r).
Proof. intros Hr. eapply router_ok_connections; [exact Hr | | done]. by apply RemoveConnectionsByLocalId_spec, Hr. Qed.

Lemma forget_socket_ok id calls r : router_ok r ->
  router_ok (RemoveConnectionsBySocketId id r <| sockets_ := map_erase id (sockets_ r) |> <| socket_calls := calls |>).
Proof. intros Hr. split; [apply (RemoveConnectionsBySocketId_router_ok id r Hr) |]. apply sockets_ok_erase, Hr. Qed.

Lemma CloseSocket_router_ok id r : router_ok r -> router_ok (CloseSocket id r).
Proof. intros Hr. unfold CloseSocket. destruct (map_find id (sockets_ r)) as [[s h] |]; [by apply forget_socket_ok | done]. Qed.

Lemma Router_OnError_router_ok id e r : router_ok r -> router_ok (Router_OnError id e r).
Proof. intros Hr. unfold Router_OnError. destruct (map_find id (sockets_ r)) as [[s h] |]; [by apply forget_socket_ok | done]. Qed.

Lemma TakeSocket_router_ok h s r : router_ok r -> socket_ok s -> router_ok (TakeSocket h s r).
Proof.
  intros Hr Hs. apply router_ok_sockets; [done |]. unfold map_emplace. destruct (map_find _ _); [apply Hr |].
  by apply sockets_ok_set; [apply Hr | |].
Qed.

Lemma Broadcast_router_ok k m r : router_ok r -> router_ok (BroadcastFromLocalPeer k m r).2.
Proof.
  intros Hr. unfold BroadcastFromLocalPeer. cbv zeta.
  match goal with |- context [send_each ?m' (sockets_ ?r') ?e] => pose proof (send_each_ok m' (sockets_ r') e) as Hs; destruct (send_each m' (sockets_ r') e) end.
  split; [exact (proj1 Hr) |]. by apply Hs, Hr.
Qed.

Lemma Router_Send_router_ok vc m r : router_ok r -> router_ok (Router_Send vc m r).2.
Proof.
  intros Hr. unfold Router_Send. destruct (decide _); [by apply Broadcast_router_ok |]. destruct (_ && _); [done |].
  destruct (map_find (vc_socket_id vc) (sockets_ r)) as [[s h] |] eqn:E; [| done].
  destruct (sockets_ok_find _ _ _ _ (proj2 Hr) E) as [Hid Hok]. cbv zeta.
  match goal with |- context [CastSocket_Send ?m' s] => pose proof (Send_keeps m' s) as (E1 & _); pose proof (Send_ok m' s Hok) as E2;
    destruct (CastSocket_Send m' s) as [e s'] end.
  apply router_ok_sockets; [done |]. apply sockets_ok_set; [apply Hr | cbn in E1; congruence | done].
Qed.

Lemma handler_calls_router_ok calls r : router_ok r -> router_ok (r <| handler_calls := calls |>).
Proof. done. Qed.
End Invariant.

(** * Runs *)

(** What a client calls, and the network does. *)
Inductive ChannelOp (C : Type) :=
  | OpAddConnection (vc : VirtualConnection) (data : AssociatedData)
  | OpRemoveConnection (vc : VirtualConnection) (reason : CloseReason)
  | OpRemoveConnectionsByLocalId (local_id : str)
  | OpRemoveConnectionsBySocketId (id : Z)
  | OpAddHandler (local_id : str) (handler : Z)
  | OpRemoveHandler (local_id : str)
  | OpTakeSocket (error_handler : Z) (socket : CastSocket C)
  | OpCloseSocket (id : Z)
  | OpError (id : Z) (error : Error)
  | OpSend (vc : VirtualConnection) (m : CastMessage)
  | OpBroadcast (local_id : str) (m : CastMessage)
  | OpOpenRemoteConnection (vc : VirtualConnection) (callback : Z)
  | OpCloseRemoteConnection (vc : VirtualConnection)
  | OpReceive (id : Z) (block : list Z).
Arguments OpAddConnection {C}.
Arguments OpRemoveConnection {C}.
Arguments OpRemoveConnectionsByLocalId {C}.
Arguments OpRemoveConnectionsBySocketId {C}.
Arguments OpAddHandler {C}.
Arguments OpRemoveHandler {C}.
Arguments OpTakeSocket {C}.
Arguments OpCloseSocket {C}.
Arguments OpError {C}.
Arguments OpSend {C}.
Arguments OpBroadcast {C}.
Arguments OpOpenRemoteConnection {C}.
Arguments OpCloseRemoteConnection {C}.
Arguments OpReceive {C}.

(** The payload of a CONNECT message is a constant value. *)
Lemma connect_payload_constant {Value} `{JsonLibrary Value} `{!JsonLaws Value _} BUILDFLAG :
  constant (connect_payload BUILDFLAG) /\ isObject (connect_payload BUILDFLAG) = true.
Proof.
  assert (Hm : forall k x v, forallb (fun c => (32 <=? char_code c) && (char_code c <? 127)) k = true ->
    constant x -> constant v /\ isObject v = true -> constant (set_member k x v) /\ isObject (set_member k x v) = true).
  { intros k x v Hk Hx [Hv Ho]. split; [| by apply isObject_set]. apply constant_member; try done. apply Forall_forall.
    intros c Hc. eapply forallb_forall in Hk; [| by apply list_elem_of_In]. lia. }
  assert (Hs : forall s, forallb (fun c => (32 <=? char_code c) && (char_code c <? 127)) s = true -> constant (json_string s)).
  { intros s Hs. apply constant_string, Forall_forall. intros c Hc. eapply forallb_forall in Hs; [| by apply list_elem_of_In]. lia. }
  assert (Ho : constant objectValue /\ isObject objectValue = true) by (split; [constructor | apply isObject_object]).
  assert (Hi : forall n, (0 <=? n) && (n <? 100) = true -> constant (json_int n)).
  { intros n Hn. apply constant_int. unfold is_s. change (2 ^ (32 - 1)) with 2147483648. lia. }
  assert (Hp : (0 <=? platform_value (GetVirtualConnectPlatform BUILDFLAG)) && (platform_value (GetVirtualConnectPlatform BUILDFLAG) <? 100) = true)
    by by destruct (GetVirtualConnectPlatform BUILDFLAG).
  assert (Hsender : constant (sender_info BUILDFLAG)).
  { unfold sender_info.
    repeat (apply Hm; [reflexivity | first [apply Hs; reflexivity | apply Hi; first [exact Hp | reflexivity]] |]). exact Ho. }
  assert (Ha : constant (json_array (map json_int [0; 1; 2; 3]))).
  { apply constant_array. intros v Hv. apply list_elem_of_In in Hv. cbn in Hv. destruct Hv as [<- | [<- | [<- | [<- | []]]]]; by apply Hi. }
  unfold connect_payload.
  repeat (apply Hm; [reflexivity | first [exact Hsender | exact Ha | exact (proj1 Ho) | apply Hs; reflexivity | apply Hi; reflexivity] |]).
  exact Ho.
Qed.

Section Runs.
#[local] Set Default Proof Using "Type*".
Context {codec : CastMessageCodec} `{!CastMessageCodecLaws codec} {C : Type} `{Connection C}.
Context {Value : Type} `{JsonLibrary Value} `{!JsonLaws Value _}.
Context (BUILDFLAG : BuildFlag -> bool) (IsConnectionAllowed : VirtualConnection -> bool).
Implicit Types (c : Channel C) (r : VirtualConnectionRouter C) (s : CastSocket C) (socket : option (CastSocket C)).

Definition channel_step (op : ChannelOp C) c : outcome (Channel C) :=
  match op with
  | OpAddConnection vc data => Ret (in_router (AddConnection vc data) c)
  | OpRemoveConnection vc reason => Ret (in_router (fun r => (RemoveConnection vc reason r).2) c)
  | OpRemoveConnectionsByLocalId k => Ret (in_router (RemoveConnectionsByLocalId k) c)
  | OpRemoveConnectionsBySocketId id => Ret (in_router (RemoveConnectionsBySocketId id) c)
  | OpAddHandler k h => Ret (in_router (fun r => (AddHandlerForLocalId k h r).2) c)
  | OpRemoveHandler k => Ret (in_router (fun r => (RemoveHandlerForLocalId k r).2) c)
  | OpTakeSocket h s => Ret (in_router (TakeSocket h s) c)
  | OpCloseSocket id => Ret (in_router (CloseSocket id) c)
  | OpError id e => Ret (in_router (Router_OnError id e) c)
  | OpSend vc m => Ret (send vc m c)
  | OpBroadcast k m => Ret (in_router (fun r => (BroadcastFromLocalPeer k m r).2) c)
  | OpOpenRemoteConnection vc callback => OpenRemoteConnection BUILDFLAG vc callback c
  | OpCloseRemoteConnection vc => Ret (CloseRemoteConnection vc c)
  | OpReceive id block => receive_block IsConnectionAllowed id block c
  end.

(** A new socket has nothing to read; a connection that exists is not opened again; a block is not empty. *)
Definition op_ok (op : ChannelOp C) c : Prop :=
  match op with
  | OpTakeSocket _ s => read_buffer_ s = []
  | OpOpenRemoteConnection vc _ => GetConnectionData vc (vc_router_ c) = None
  | OpReceive _ block => readable block
  | _ => True
  end.

Inductive channel_runs : list (ChannelOp C) -> Channel C -> Prop :=
  | runs_new : channel_runs [] (new_ConnectionNamespaceHandler new_VirtualConnectionRouter)
  | runs_step ops op c c' : channel_runs ops c -> op_ok op c -> channel_step op c = Ret c' -> channel_runs (ops ++ [op]) c'.

Definition channel_ok c : Prop := router_ok (vc_router_ c).

Lemma channel_send_ok vc m c : channel_ok c -> channel_ok (send vc m c).
Proof. apply Router_Send_router_ok. Qed.

Lemma answer_request_ok vc b c c' : channel_ok c -> answer_request vc b c = Some c' -> channel_ok c'.
Proof. unfold answer_request. destruct (list_find _ _) as [[i request] |]; [| done]. cbn. by intros Hc [= <-]. Qed.

Lemma Handler_RemoveConnection_ok vc reason c : channel_ok c -> channel_ok (Handler_RemoveConnection vc reason c).2.
Proof.
  intros Hc. unfold Handler_RemoveConnection. cbv zeta.
  match goal with |- context [answer_request vc false ?c1] => set (d := c1); assert (Hd : channel_ok d) end.
  { unfold d. destruct (has_connection vc _); [by apply RemoveConnection_router_ok | done]. }
  destruct (answer_request vc false d) as [c' |] eqn:E; [by eapply answer_request_ok | done].
Qed.

Lemma HandleConnect_ok socket m (v : Value) c : channel_ok c -> channel_ok (HandleConnect IsConnectionAllowed socket m v c).
Proof.
  intros Hc. unfold HandleConnect. destruct (decide _); [done |]. destruct (negb _); [by apply channel_send_ok |].
  destruct (match MaybeGetInt _ _ with Some _ => _ | None => _ end); [| by apply channel_send_ok]. cbv zeta. apply AddConnection_router_ok.
  destruct (FindMaxProtocolVersion _ _); [| done]. unfold SendConnectedResponse. destruct (Stringify _); [by apply channel_send_ok | done].
Qed.

Lemma HandleConnectedResponse_ok socket m (v : Value) c : channel_ok c -> channel_ok (HandleConnectedResponse socket m v c).
Proof.
  intros Hc. unfold HandleConnectedResponse. destruct (list_find _ _); [| done]. cbv zeta.
  match goal with |- context [in_router ?f c] => assert (Hd : channel_ok (in_router f c)) by by apply AddConnection_router_ok end.
  destruct (answer_request _ _ _) eqn:E; [by eapply answer_request_ok | done].
Qed.

Lemma Handler_OnMessage_ok socket m c : channel_ok c -> exists c', Handler_OnMessage IsConnectionAllowed socket m c = Ret c' /\ channel_ok c'.
Proof.
  intros Hc. unfold Handler_OnMessage. destruct (decide _) as [| Hd]; [by eexists |].
  unfold GetPayload. rewrite OSP_CHECK_true by (apply bool_decide_eq_true; destruct (decide (payload_type m = STRING)); [done | tauto]).
  cbn [mbind outcome_bind]. destruct (Parse _) as [value |]; [| by eexists]. destruct (negb _); [by eexists |].
  destruct (MaybeGetString _ _) as [type |]; [| by eexists]. eexists. split; [reflexivity |].
  destruct (decide _); [by apply HandleConnect_ok |]. destruct (decide _); [by apply Handler_RemoveConnection_ok |].
  destruct (decide _); [by apply HandleConnectedResponse_ok | done].
Qed.

Lemma Router_OnMessage_ok s m c : channel_ok c -> exists c', Router_OnMessage IsConnectionAllowed (Some s) m c = Ret c' /\ channel_ok c'.
Proof.
  intros Hc. unfold Router_OnMessage. cbn [OSP_CHECK mbind outcome_bind]. cbv zeta. destruct (decide _); [by eexists |].
  destruct (decide _).
  - destruct (connection_handler_ _); [by apply Handler_OnMessage_ok | by eexists].
  - destruct (_ && _); [by eexists |]. destruct (map_find _ _); by eexists.
Qed.

Lemma receive_all_ok id ms c : channel_ok c -> exists c', receive_all IsConnectionAllowed id ms c = Ret c' /\ channel_ok c'.
Proof.
  revert c. induction ms as [| m ms IH]; intros c Hc; cbn [receive_all]; [by eexists |].
  destruct (map_find _ _) as [[s h] |]; [| by eexists]. destruct (Router_OnMessage_ok s m c Hc) as (c' & -> & Hc'). by apply IH.
Qed.

Lemma receive_block_ok id block c : channel_ok c -> readable block ->
  exists c', receive_block IsConnectionAllowed id block c = Ret c' /\ channel_ok c'.
Proof.
  intros Hc Hb. unfold receive_block. destruct (map_find id _) as [[s h] |] eqn:E; [| by eexists].
  destruct (sockets_ok_find _ _ _ _ (proj2 Hc) E) as [Hid [Hok _]].
  destruct (parses_total (read_buffer_ s ++ block)) as (ms & rest & Hp); [apply Forall_app; split; [done | apply Hb] |].
  rewrite (OnRead_parses _ _ _ _ Hb Hp). cbn [mbind outcome_bind]. apply receive_all_ok, router_ok_sockets; [done |].
  apply sockets_ok_set; [apply Hc | done |]. split; cbn.
  - eapply parses_bytes; [exact Hp |]. apply Forall_app. split; [done | apply Hb].
  - by eapply parses_stable.
Qed.

Lemma channel_step_ok op c : channel_ok c -> op_ok op c -> exists c', channel_step op c = Ret c' /\ channel_ok c'.
Proof.
  intros Hc Hop. destruct op; cbn [channel_step]; try (eexists; split; [reflexivity |]).
  - by apply AddConnection_router_ok.
  - by apply RemoveConnection_router_ok.
  - by apply RemoveConnectionsByLocalId_router_ok.
  - by apply RemoveConnectionsBySocketId_router_ok.
  - unfold AddHandlerForLocalId, channel_ok. cbn. by destruct (map_emplace _ _ _).
  - done.
  - apply TakeSocket_router_ok; [done |]. cbn in Hop. unfold socket_ok. rewrite Hop. split; [constructor | by eapply parses_stop].
  - by apply CloseSocket_router_ok.
  - by apply Router_OnError_router_ok.
  - by apply channel_send_ok.
  - by apply Broadcast_router_ok.
  - cbn in Hop. unfold OpenRemoteConnection, has_connection. rewrite Hop. cbn [negb OSP_CHECK mbind outcome_bind].
    unfold SendConnect, MakeConnectMessage. destruct (Stringify_constant _ (proj1 (connect_payload_constant BUILDFLAG))) as (text & -> & _).
    eexists. split; [reflexivity |]. by apply channel_send_ok.
  - unfold CloseRemoteConnection. pose proof (Handler_RemoveConnection_ok vc kClosedBySelf c Hc) as Hr.
    destruct (Handler_RemoveConnection vc kClosedBySelf c) as [[] d]; [by apply channel_send_ok | done].
  - by apply receive_block_ok.
Qed.

Lemma channel_runs_ok ops c : channel_runs ops c -> channel_ok c.
Proof.
  induction 1 as [| ops op c c' _ IH Hop Hs].
  - split; [split; [constructor | done] | split; constructor].
  - destruct (channel_step_ok op c IH Hop) as (d & Hd & Hok). congruence.
Qed.
End Runs.

(** * Examples *)

Definition demo_build (flag : BuildFlag) : bool := match flag with IS_LINUX => true | _ => false end.
Definition demo_allowed (vc : VirtualConnection) : bool := bool_decide (peer_id vc <> lit "sender-9").

Definition op_okb (op : ChannelOp DemoConnection) (c : Channel DemoConnection) : bool :=
  match op with
  | OpTakeSocket _ s => bool_decide (read_buffer_ s = [])
  | OpOpenRemoteConnection vc _ => negb (has_connection vc (vc_router_ c))
  | OpReceive _ block => readableb block
  | _ => true
  end.

Lemma op_okb_sound op c : op_okb op c = true -> op_ok op c.
Proof.
  destruct op; cbn; try done.
  - apply bool_decide_eq_true.
  - unfold has_connection. by destruct (GetConnectionData vc (vc_router_ c)).
  - intros Hb. pose proof (readableb_sound [block]) as Hs. cbn [forallb] in Hs. rewrite Hb in Hs. specialize (Hs eq_refl).
    by apply Forall_cons in Hs as [Hs _].
Qed.

(** A run of operations that are in order. *)
Fixpoint demo_run (ops : list (ChannelOp DemoConnection)) (c : Channel DemoConnection) : option (Channel DemoConnection) :=
  match ops with
  | [] => Some c
  | op :: ops => if op_okb op c then match channel_step demo_build demo_allowed op c with Ret c => demo_run ops c | Fault _ => None end else None
  end.

Lemma demo_run_runs_from pre ops c c' : channel_runs demo_build demo_allowed pre c -> demo_run ops c = Some c' ->
  channel_runs demo_build demo_allowed (pre ++ ops) c'.
Proof.
  revert pre c. induction ops as [| op ops IH]; intros pre c Hr; cbn [demo_run].
  - intros [= <-]. by rewrite app_nil_r.
  - destruct (op_okb op c) eqn:Eo; [| done]. destruct (channel_step demo_build demo_allowed op c) as [d |] eqn:Es; [| done]. intros Hd.
    replace (pre ++ op :: ops) with ((pre ++ [op]) ++ ops) by by rewrite <- app_assoc.
    eapply IH; [| exact Hd]. eapply runs_step; [exact Hr | by apply op_okb_sound | exact Es].
Qed.

Definition demo_channel0 : Channel DemoConnection := new_ConnectionNamespaceHandler new_VirtualConnectionRouter.

Lemma demo_run_runs ops c : demo_run ops demo_channel0 = Some c -> channel_runs demo_build demo_allowed ops c.
Proof. intros Hd. change ops with ([] ++ ops). eapply demo_run_runs_from; [apply runs_new | exact Hd]. Qed.

(** The channel after operations that are in order. *)
Definition demo_channel (ops : list (ChannelOp DemoConnection)) : Channel DemoConnection := default demo_channel0 (demo_run ops demo_channel0).
Definition demo_take (id : Z) : ChannelOp DemoConnection := OpTakeSocket 5 (new_CastSocket new_DemoConnection id).1.

Lemma demo_channel_runs ops : (if demo_run ops demo_channel0 is Some _ then true else false) = true ->
  channel_runs demo_build demo_allowed ops (demo_channel ops).
Proof. intros Hd. apply demo_run_runs. unfold demo_channel. by destruct (demo_run ops demo_channel0). Qed.
