(* ===== verification/Handshake.v ===== *)
(** Opening a remote connection (ConnectionRouter.v): the CONNECT message of one
    side, as it is parsed by the other, and its answer. *)

From S2P Require Import Prelude Wire Text OrderedMap IpAddress CastMessage CastSocket CastSocketProps CastDemo Multimap ConnectionRouter ConnectionProps ChannelProps.

(** * What the messages say *)

Section Payloads.
#[local] Set Default Proof Using "Type*".
Context {Value : Type} `{JsonLibrary Value} `{!JsonLaws Value _}.

Lemma is_object_members k x v : isObject v = true -> isObject (set_member k x v) = true.
Proof. apply isObject_set. Qed.

Lemma find_here k x v : isObject v = true -> find k (set_member k x v) = Some x.
Proof. intros Hv. by rewrite find_set, decide_True. Qed.

Lemma find_there k k' x v : isObject v = true -> bool_decide (k = k') = false -> find k (set_member k' x v) = find k v.
Proof. intros Hv Hk. rewrite find_set, decide_False; [done | | done]. by apply bool_decide_eq_false in Hk. Qed.

Ltac find_member :=
  repeat first [rewrite find_here by (repeat apply is_object_members; apply isObject_object)
               | rewrite find_there by first [reflexivity | (repeat apply is_object_members); apply isObject_object]
               | rewrite find_object].

Lemma connect_payload_members BUILDFLAG :
  let v := connect_payload BUILDFLAG in
  MaybeGetString v kMessageKeyType = Some kMessageTypeConnect /\
  MaybeGetInt v kMessageKeyConnType = Some 0 /\
  MaybeGetString v kMessageKeyUserAgent = Some kUnknownVersion /\
  FindMaxProtocolVersion (find kMessageKeyProtocolVersion v) (find kMessageKeyProtocolVersionList v) = Some 3.
Proof.
  assert (Hi : forall n, (0 <=? n) && (n <? 100) = true -> asInt (json_int n) = Some n).
  { intros n Hn. apply asInt_int. unfold is_s. change (2 ^ (32 - 1)) with 2147483648. lia. }
  cbn zeta. unfold connect_payload, MaybeGetString, MaybeGetInt. split; [| split; [| split]].
  - find_member. apply asString_string.
  - find_member. by apply Hi.
  - find_member. apply asString_string.
  - find_member. unfold FindMaxProtocolVersion. cbn [mbind option_bind]. rewrite elements_array. cbn [mbind option_bind].
    cbn [map foldl]. unfold greatest_version. by rewrite !Hi by done.
Qed.

Lemma connected_payload_members n : is_s 32 n ->
  MaybeGetString (connected_payload n) kMessageKeyType = Some kMessageTypeConnected /\
  isObject (connected_payload n) = true /\
  exists text, Stringify (connected_payload n) = Some text /\ Parse text = Some (connected_payload n).
Proof.
  intros Hn. split; [| split].
  - unfold connected_payload, MaybeGetString. find_member. apply asString_string.
  - repeat apply is_object_members. apply isObject_object.
  - apply Stringify_constant.
    assert (Hs : forall s, forallb (fun c => (32 <=? char_code c) && (char_code c <? 127)) s = true -> Forall (fun c => 32 <= char_code c < 127) s).
    { intros s Hs. apply Forall_forall. intros c Hc. eapply forallb_forall in Hs; [| by apply list_elem_of_In]. lia. }
    apply constant_member; [by apply Hs | apply is_object_members, isObject_object | | by apply constant_int].
    apply constant_member; [by apply Hs | apply isObject_object | constructor |]. apply constant_string. by apply Hs.
Qed.
End Payloads.

(** * Messages between two channels *)

Section Handshake.
#[local] Set Default Proof Using "Type*".
Context {codec : CastMessageCodec} `{!CastMessageCodecLaws codec} {C : Type} `{Connection C} (transmitted : C -> list Z)
  `{!ConnectionLaws C _ transmitted}.
Context {Value : Type} `{JsonLibrary Value} `{!JsonLaws Value _}.
Implicit Types (c : Channel C) (r : VirtualConnectionRouter C) (s : CastSocket C) (allowed : VirtualConnection -> bool).


(** A socket that is open, has nothing to read, and whose connection takes what is sent. *)
Definition accepting s : Prop :=
  state_ s = kOpen /\ read_buffer_ s = [] /\ forall bytes, (Connection_Send bytes (connection_ s)).1 = true.

(** What the socket [id] has transmitted. *)
Definition stream (id : Z) c : list Z :=
  match map_find id (sockets_ (vc_router_ c)) with Some (s, _) => transmitted (connection_ s) | None => [] end.

(** A channel with such a socket, and a handler of the connection namespace. *)
Definition linked (id : Z) c : Prop :=
  connection_handler_ (vc_router_ c) = true /\
  exists s h, map_find id (sockets_ (vc_router_ c)) = Some (s, h) /\ accepting s.

Lemma map_set_same {K V} `{KeyOrder K} (k : K) (v : V) m : ordered m -> map_find k m = Some v -> map_set k v m = m.
Proof.
  intros Ho. induction Ho as [| [a b] m Ho IH Hall]; cbn [map_find map_set]; [done |]. destruct (kcmp k a) eqn:E.
  - apply kcmp_eq in E as ->. by intros [= ->].
  - intros Hf. exfalso. apply map_find_elem in Hf. eapply Forall_forall in Hall; [| exact Hf]. cbn [fst] in Hall.
    by rewrite kcmp_opp, E in Hall.
  - intros Hf. by rewrite IH.
Qed.

Lemma Serialize_total m : IsInitialized m -> ByteSizeLong m <= kMaxBodySize ->
  exists f, Serialize m = ok f /\ readable f.
Proof.
  intros Hi Hsize. unfold Serialize. pose proof (ByteSizeLong_pos m Hi). rewrite (proj2 (Z.ltb_ge _ _)) by lia.
  rewrite (proj2 (Z.eqb_neq _ _)) by lia. cbn [orb]. destruct (SerializeToArray_total m Hi) as [body E]. rewrite E.
  eexists. split; [reflexivity |]. split; [done |]. apply Forall_app. split; [apply be_encode_bytes |].
  by apply (SerializeToArray_size m).
Qed.

Lemma Send_accepted m s f conn : state_ s = kOpen -> Serialize m = ok f -> Connection_Send f (connection_ s) = (true, conn) ->
  CastSocket_Send m s = (error_of kNone, s <| connection_ := conn |>).
Proof.
  intros Hs Ef Ec. unfold CastSocket_Send. destruct (decide (state_ s = kError)) as [E |]; [by rewrite Hs in E |].
  by rewrite Ef, Ec.
Qed.

(** A message of the connection namespace is sent at once. *)
Lemma send_connection_message vc m c s h :
  map_find (vc_socket_id vc) (sockets_ (vc_router_ c)) = Some (s, h) -> accepting s -> peer_id vc <> kBroadcastId ->
  namespace_ m = kConnectionNamespace ->
  let m' := m <| set_source_id := Some (local_id vc) |> <| set_destination_id := Some (peer_id vc) |> in
  IsInitialized m' -> ByteSizeLong m' <= kMaxBodySize ->
  exists f s', Serialize m' = ok f /\ readable f /\ read_buffer_ s' = [] /\ socket_id s' = socket_id s /\
    transmitted (connection_ s') = transmitted (connection_ s) ++ f /\
    forall d, vc_router_ d = vc_router_ c ->
      send vc m d = in_router (fun r => r <| sockets_ := map_set (vc_socket_id vc) (s', h) (sockets_ r) |>) d.
Proof.
  intros Hf (Hs & Hb & Hc) Hp Hn m' Hi Hsize. destruct (Serialize_total m' Hi Hsize) as (f & Ef & Hr).
  pose proof (Hc f) as Ha. pose proof (Connection_Send_law f (connection_ s)) as Ht.
  destruct (Connection_Send f (connection_ s)) as [sent conn] eqn:Ec. cbn in Ha. subst sent.
  exists f, (s <| connection_ := conn |>). repeat (split; [done |]).
  intros d Ed. rewrite <- Ed in Hf. unfold send, in_router. do 2 f_equal. unfold Router_Send. rewrite decide_False by done. rewrite Hn.
  change (IsTransportNamespace kConnectionNamespace) with true. cbn [negb andb]. rewrite Hf. cbv zeta. fold m'.
  rewrite (Send_accepted m' s f conn); done.
Qed.

(** A frame that arrives at once is one message. *)
Lemma receive_frame allowed id m f c s h :
  channel_ok c -> map_find id (sockets_ (vc_router_ c)) = Some (s, h) -> read_buffer_ s = [] ->
  Serialize m = ok f -> readable f ->
  receive_block allowed id f c = Router_OnMessage allowed (Some s) m c.
Proof.
  intros Hok Hf Hb Em Hr. unfold receive_block. rewrite Hf.
  assert (Hp : parses (read_buffer_ s ++ f) [m] []).
  { rewrite Hb. cbn. pose proof (TryDeserialize_frame m f [] Em) as E. rewrite app_nil_r in E. eapply parses_frame; [exact E | |].
    - pose proof (frame_pos _ _ Em). lia.
    - unfold zlen. rewrite Nat2Z.id, drop_all. by eapply parses_stop. }
  rewrite (OnRead_parses _ _ _ _ Hr Hp). cbn [mbind outcome_bind].
  assert (s <| read_buffer_ := [] |> = s) as -> by (destruct s; cbn in *; by subst).
  assert (in_router (fun r => r <| sockets_ := map_set id (s, h) (sockets_ r) |>) c = c) as ->.
  { destruct c as [r pending results]. unfold in_router. cbn. rewrite map_set_same; [by destruct r | apply Hok | done]. }
  cbn [receive_all]. rewrite Hf. by destruct (Router_OnMessage allowed (Some s) m c).
Qed.

Lemma stream_set id s h c : stream id (in_router (fun r => r <| sockets_ := map_set id (s, h) (sockets_ r) |>) c) = transmitted (connection_ s).
Proof. unfold stream. cbn. by rewrite map_find_set, kcmp_refl. Qed.

(** ** Opening *)

Definition connect_message (BUILDFLAG : BuildFlag -> bool) (l p : str) (text : str) : CastMessage :=
  (MakeConnectionMessage l p) <| set_payload_type := Some STRING |> <| set_payload_utf8 := Some text |>.

Definition connected_message (l p : str) (text : str) : CastMessage :=
  (MakeSimpleUTF8Message kConnectionNamespace text) <| set_source_id := Some l |> <| set_destination_id := Some p |>.

Lemma connect_message_initialized BUILDFLAG l p text : IsInitialized (connect_message BUILDFLAG l p text).
Proof. repeat split; by eexists. Qed.

Lemma connected_message_initialized l p text : IsInitialized (connected_message l p text).
Proof. repeat split; by eexists. Qed.

(** The messages of the exchange are no larger than a frame. *)
Definition messages_fit (BUILDFLAG : BuildFlag -> bool) (l p : str) : Prop :=
  (forall text, Stringify (connect_payload BUILDFLAG) = Some text -> ByteSizeLong (connect_message BUILDFLAG l p text) <= kMaxBodySize) /\
  (forall text, Stringify (connected_payload 3) = Some text -> ByteSizeLong (connected_message p l text) <= kMaxBodySize).

Lemma open_sends_connect BUILDFLAG l p id callback c :
  let vc := mkVirtualConnection l p id in
  linked id c -> p <> kBroadcastId -> GetConnectionData vc (vc_router_ c) = None -> messages_fit BUILDFLAG l p ->
  exists text f s s' h, Stringify (connect_payload BUILDFLAG) = Some text /\ Parse text = Some (connect_payload BUILDFLAG) /\
    Serialize (connect_message BUILDFLAG l p text) = ok f /\ readable f /\
    map_find id (sockets_ (vc_router_ c)) = Some (s, h) /\
    read_buffer_ s' = [] /\ socket_id s' = socket_id s /\ transmitted (connection_ s') = stream id c ++ f /\
    OpenRemoteConnection BUILDFLAG vc callback c = Ret (in_router (fun r => r <| sockets_ := map_set id (s', h) (sockets_ r) |>)
      (c <| pending_remote_requests_ := pending_remote_requests_ c ++ [mkPendingRequest vc callback] |>)).
Proof.
  intros vc (Hh & s & h & Hf & Ha) Hp Hn [Hfit _].
  destruct (Stringify_constant _ (proj1 (connect_payload_constant BUILDFLAG))) as (text & Et & Ep).
  destruct (send_connection_message vc (connect_message BUILDFLAG l p text)
    c s h Hf Ha Hp eq_refl (connect_message_initialized BUILDFLAG l p text) (Hfit text Et)) as
    (f & s' & Ef & Hr & Hb & Hid & Ht & Hsend).
  exists text, f, s, s', h. repeat (split; [done |]). split; [| ].
  - unfold stream. by rewrite Hf.
  - unfold OpenRemoteConnection, has_connection. rewrite Hn. cbn [negb OSP_CHECK mbind outcome_bind].
    unfold SendConnect, MakeConnectMessage. rewrite Et. cbn [mbind outcome_bind]. f_equal. by apply Hsend.
Qed.

(** ** Answering *)

Lemma connections_in_router r m vc : GetConnectionData vc (r <| sockets_ := m |>) = GetConnectionData vc r.
Proof. done. Qed.

(** The data of a connection that a CONNECT message of this code opens. *)
Definition connect_data s : AssociatedData := mkAssociatedData kStrong kUnknownVersion (GetSanitizedIpAddress s) kV2_1_3.

Lemma connect_is_answered allowed BUILDFLAG l p id c s h text :
  let vc := mkVirtualConnection p l id in
  map_find id (sockets_ (vc_router_ c)) = Some (s, h) -> accepting s -> socket_id s = id ->
  connection_handler_ (vc_router_ c) = true -> l <> kBroadcastId -> p <> kBroadcastId -> allowed vc = true ->
  Parse text = Some (connect_payload BUILDFLAG) -> messages_fit BUILDFLAG l p ->
  exists answer f s', Serialize (connected_message p l answer) = ok f /\ readable f /\
    Parse answer = Some (connected_payload 3) /\
    read_buffer_ s' = [] /\ socket_id s' = socket_id s /\ transmitted (connection_ s') = transmitted (connection_ s) ++ f /\
    Router_OnMessage allowed (Some s) (connect_message BUILDFLAG l p text) c =
      Ret (in_router (AddConnection vc (connect_data s))
        (in_router (fun r => r <| sockets_ := map_set id (s', h) (sockets_ r) |>) c)).
Proof.
  intros vc Hf Ha Hid Hh Hl Hp Hallow Ep [_ Hfit].
  assert (H3 : is_s 32 3) by (unfold is_s; change (2 ^ (32 - 1)) with 2147483648; lia).
  destruct (connected_payload_members 3 H3) as (_ & _ & answer & Ea & Eap).
  destruct (send_connection_message vc (MakeSimpleUTF8Message kConnectionNamespace answer) c s h Hf Ha Hl eq_refl
    (connected_message_initialized p l answer) (Hfit answer Ea)) as (f & s' & Ef & Hr & Hb & Hid' & Ht & Hsend).
  exists answer, f, s'. split; [exact Ef |]. do 5 (split; [done |]).
  destruct (connect_payload_members BUILDFLAG) as (Htype & Hconn & Hagent & Hversion).
  set (m := connect_message BUILDFLAG l p text).
  assert (Em : connection_of m (Some s) = vc) by (unfold connection_of; cbn; by rewrite Hid).
  unfold Router_OnMessage. cbn [OSP_CHECK mbind outcome_bind]. cbv zeta. change (destination_id m) with p.
  rewrite decide_False by done. change (namespace_ m) with kConnectionNamespace. rewrite decide_True by done. rewrite Hh.
  unfold Handler_OnMessage. change (destination_id m) with p. change (source_id m) with l. change (payload_type m) with STRING.
  rewrite decide_False by naive_solver.
  assert (GetPayload m = Ret text) as -> by (unfold GetPayload; cbn; by destruct text).
  cbn [mbind outcome_bind]. rewrite Ep, (proj2 (connect_payload_constant BUILDFLAG)). cbn [negb]. rewrite Htype.
  rewrite decide_True by done. f_equal. unfold HandleConnect. change (destination_id m) with p. change (source_id m) with l.
  rewrite decide_False by naive_solver. cbv zeta. rewrite Em, Hallow. cbn [negb]. rewrite Hconn. cbn [ConnectionType_of].
  rewrite Hversion, Hagent. cbn [default mbind option_bind ConnectionVersion_of].
  unfold SendConnectedResponse. rewrite Ea. by rewrite Hsend.
Qed.

(** The answer completes the request. *)
Lemma answer_completes allowed l p id callback c s answer :
  let vc := mkVirtualConnection l p id in
  connections_ok (vc_router_ c) -> socket_id s = id -> l <> kBroadcastId -> p <> kBroadcastId ->
  connection_handler_ (vc_router_ c) = true -> Parse answer = Some (connected_payload 3) ->
  (exists before after, pending_remote_requests_ c = before ++ mkPendingRequest vc callback :: after /\
     Forall (fun request => conn request <> vc) before) ->
  exists c', Router_OnMessage allowed (Some s) (connected_message p l answer) c = Ret c' /\
    results c' = results c ++ [(callback, true)] /\
    GetConnectionData vc (vc_router_ c') =
      match GetConnectionData vc (vc_router_ c) with
      | Some old => Some old
      | None => if latest vc (vc_router_ c) then Some (mkAssociatedData kStrong [] [0; 0] kV2_1_3) else None
      end.
Proof.
  intros vc Hok Hid Hl Hp Hh Ep (before & after & Hpend & Hbefore).
  assert (H3 : is_s 32 3) by (unfold is_s; change (2 ^ (32 - 1)) with 2147483648; lia).
  destruct (connected_payload_members 3 H3) as (Htype & Hobj & _).
  set (m := connected_message p l answer).
  assert (Em : connection_of m (Some s) = vc) by (unfold connection_of; cbn; by rewrite Hid).
  assert (Hfind : forall d : Channel C, pending_remote_requests_ d = pending_remote_requests_ c ->
    list_find (is_request vc) (pending_remote_requests_ d) = Some (length before, mkPendingRequest vc callback)).
  { intros d ->. rewrite Hpend. apply list_find_Some. split; [by rewrite list_lookup_middle |]. split; [done |].
    intros j y Hj Hlt. rewrite lookup_app_l in Hj by done. by apply (Forall_lookup_1 _ _ _ _ Hbefore) in Hj. }
  eexists. split.
  - unfold Router_OnMessage. cbn [OSP_CHECK mbind outcome_bind]. cbv zeta. change (destination_id m) with l.
    rewrite decide_False by done. change (namespace_ m) with kConnectionNamespace. rewrite decide_True by done. rewrite Hh.
    unfold Handler_OnMessage. change (destination_id m) with l. change (source_id m) with p. change (payload_type m) with STRING.
    rewrite decide_False by naive_solver.
    assert (GetPayload m = Ret answer) as -> by (unfold GetPayload; cbn; by destruct answer).
    cbn [mbind outcome_bind]. rewrite Ep, Hobj. cbn [negb]. rewrite Htype.
    rewrite decide_False by done. rewrite decide_False by done. rewrite decide_True by done.
    unfold HandleConnectedResponse. cbv zeta. rewrite Em, Hfind by done. unfold answer_request. rewrite Hfind by done.
    cbn [mbind option_bind default]. reflexivity.
  - split; [done |]. match goal with |- ?x = _ =>
      change x with (GetConnectionData vc (AddConnection vc (mkAssociatedData kStrong [] [0; 0] kV2_1_3) (vc_router_ c))) end.
    rewrite AddConnection_data by done. by rewrite decide_True.
Qed.

(** C14 A connection is made by one exchange.  A channel requests a connection that it neither has nor
    awaits; its message, read by a channel that allows the connection, is answered, and the answer, read
    by the first, gives its callback success.  Each side then has the connection, the first with the data
    of the answer and the other with those of the request (or the data it had of it before), unless the
    socket has one with a greater local identifier: then the side has none, although the callback said
    success.  (The identifiers are not the broadcast identifier, the messages are no larger than a frame,
    and the sockets are open, have nothing else to read and send what they are given.) *)
Theorem handshake_connects (BUILDFLAG : BuildFlag -> bool) (allowedA allowedB : VirtualConnection -> bool)
    (opsA opsB : list (ChannelOp C)) (A B : Channel C) (l p : str) (ida idb callback : Z) :
  let vcA := mkVirtualConnection l p ida in let vcB := mkVirtualConnection p l idb in
  channel_runs BUILDFLAG allowedA opsA A -> channel_runs BUILDFLAG allowedB opsB B -> linked ida A -> linked idb B ->
  l <> kBroadcastId -> p <> kBroadcastId -> messages_fit BUILDFLAG l p ->
  GetConnectionData vcA (vc_router_ A) = None ->
  Forall (fun request => conn request <> vcA) (pending_remote_requests_ A) ->
  allowedB vcB = true ->
  exists A1 B1 A2 connect connected sb h,
    OpenRemoteConnection BUILDFLAG vcA callback A = Ret A1 /\ stream ida A1 = stream ida A ++ connect /\
    receive_block allowedB idb connect B = Ret B1 /\ stream idb B1 = stream idb B ++ connected /\
    receive_block allowedA ida connected A1 = Ret A2 /\ results A2 = results A ++ [(callback, true)] /\
    GetConnectionData vcA (vc_router_ A2)
    = (if latest vcA (vc_router_ A) then Some (mkAssociatedData kStrong [] [0; 0] kV2_1_3) else None) /\
    map_find idb (sockets_ (vc_router_ B)) = Some (sb, h) /\
    GetConnectionData vcB (vc_router_ B1)
    = match GetConnectionData vcB (vc_router_ B) with
      | Some old => Some old
      | None => if latest vcB (vc_router_ B) then Some (connect_data sb) else None
      end.
Proof.
  intros vcA vcB HA HB LA LB Hl Hp Hfit HnA Hpend Hallow.
  pose proof (channel_runs_ok _ _ _ _ HA) as OA. pose proof (channel_runs_ok _ _ _ _ HB) as OB.
  destruct (open_sends_connect BUILDFLAG l p ida callback A LA Hp HnA Hfit) as
    (text & f & sa & sa' & ha & Et & Ep & Ef & Hf & HfA & Hba & Hida & Hta & Hopen).
  destruct LB as (HhB & sb & hb & HfB & Hacc).
  destruct (sockets_ok_find _ _ _ _ (proj2 OB) HfB) as [Hidb _].
  destruct (connect_is_answered allowedB BUILDFLAG l p idb B sb hb text HfB Hacc Hidb HhB Hl Hp Hallow Ep Hfit) as
    (answer & g & sb' & Eg & Hg & Eanswer & Hbb & Hidb' & Htb & Hmsg).
  match type of Hopen with _ = Ret ?a => set (A1 := a) in * end.
  assert (Hsa : socket_id sa' = ida) by (rewrite Hida; by eapply (sockets_ok_find _ _ _ _ (proj2 OA))).
  assert (O1 : channel_ok A1).
  { apply router_ok_sockets; [exact OA |]. apply sockets_ok_set; [apply OA | done |].
    unfold socket_ok. rewrite Hba. split; [constructor | by eapply parses_stop]. }
  assert (F1 : map_find ida (sockets_ (vc_router_ A1)) = Some (sa', ha)) by (cbn; by rewrite map_find_set, kcmp_refl).
  destruct (answer_completes allowedA l p ida callback A1 sa' answer (proj1 O1) Hsa Hl Hp (proj1 LA) Eanswer) as
    (A2 & HA2 & Hres & Hdata); [by exists (pending_remote_requests_ A), [] |].
  exists A1. eexists. exists A2, f, g, sb, hb.
  split; [exact Hopen |]. split; [unfold A1; rewrite stream_set; exact Hta |].
  split; [rewrite (receive_frame allowedB idb _ f B sb hb OB HfB (proj1 (proj2 Hacc)) Ef Hf); exact Hmsg |].
  split; [unfold stream; cbn; rewrite map_find_set, kcmp_refl, HfB; exact Htb |].
  split; [rewrite (receive_frame allowedA ida _ g A1 sa' ha O1 F1 Hba Eg Hg); exact HA2 |].
  split; [exact Hres |]. split.
  { etransitivity; [exact Hdata |]. change (vc_router_ A1) with ((vc_router_ A) <| sockets_ := sockets_ (vc_router_ A1) |>).
    rewrite connections_in_router. fold vcA. by rewrite HnA. }
  split; [exact HfB |].
  match goal with |- GetConnectionData _ ?y = _ => change y with (AddConnection vcB (connect_data sb)
    ((vc_router_ B) <| sockets_ := map_set idb (sb', hb) (sockets_ (vc_router_ B)) |>)) end.
  rewrite AddConnection_data by apply OB. rewrite decide_True by done. by rewrite connections_in_router.
Qed.
End Handshake.

Lemma handshake_connects_witness :
  let A := demo_channel [demo_take 1] in let B := demo_channel [demo_take 2] in
  let l := lit "sender-1" in let p := lit "receiver-0" in
  exists A1 B1 A2 connect connected sb h,
    OpenRemoteConnection demo_build (mkVirtualConnection l p 1) 7 A = Ret A1 /\
    stream demo_transmitted 1 A1 = stream demo_transmitted 1 A ++ connect /\
    receive_block demo_allowed 2 connect B = Ret B1 /\ stream demo_transmitted 2 B1 = stream demo_transmitted 2 B ++ connected /\
    receive_block demo_allowed 1 connected A1 = Ret A2 /\ results A2 = results A ++ [(7, true)] /\
    GetConnectionData (mkVirtualConnection l p 1) (vc_router_ A2) = Some (mkAssociatedData kStrong [] [0; 0] kV2_1_3) /\
    map_find 2 (sockets_ (vc_router_ B)) = Some (sb, h) /\
    GetConnectionData (mkVirtualConnection p l 2) (vc_router_ B1)
    = Some (connect_data sb).
Proof.
  intros A B l p.
  apply (handshake_connects demo_transmitted demo_build demo_allowed demo_allowed [demo_take 1] [demo_take 2] A B l p 1 2 7).
  - apply demo_channel_runs. vm_compute. reflexivity.
  - apply demo_channel_runs. vm_compute. reflexivity.
  - split; [reflexivity |]. eexists _, _. split; [vm_compute; reflexivity |]. by repeat split.
  - split; [reflexivity |]. eexists _, _. split; [vm_compute; reflexivity |]. by repeat split.
  - done.
  - done.
  - split; intros text [= <-]; vm_compute; discriminate.
  - reflexivity.
  - constructor.
  - reflexivity.
Defined.
