(* ===== verification/CastChannel.v ===== *)
(** What the channel of Cast messages promises (ConnectionRouter.v), over its runs
    (ChannelProps.v), and where it does not. *)

From S2P Require Import Prelude Wire Text OrderedMap IpAddress CastMessage CastSocket CastSocketProps CastDemo Multimap ConnectionRouter ConnectionProps ChannelProps Handshake.

(** The namespace is of a transport protocol, by its prefix. *)
Definition is_transport (namespace_ : str) : bool := starts_with kTransportNamespacePrefix namespace_.

Section Channel.
#[local] Set Default Proof Using "Type*".
Context {codec : CastMessageCodec} `{!CastMessageCodecLaws codec} {C : Type} `{Connection C}.
Context {Value : Type} `{JsonLibrary Value} `{!JsonLaws Value _}.
Context (BUILDFLAG : BuildFlag -> bool) (IsConnectionAllowed : VirtualConnection -> bool).

(** C21 The channel does not abort: whatever its client does and its sockets read, no
    check fails, if a connection that exists is not requested and no block is empty. *)
Theorem channel_never_aborts (ops : list (ChannelOp C)) (c : Channel C) (op : ChannelOp C) :
  channel_runs BUILDFLAG IsConnectionAllowed ops c -> op_ok op c ->
  exists c', channel_step BUILDFLAG IsConnectionAllowed op c = Ret c'.
Proof.
  intros Hr Hop. destruct (channel_step_ok BUILDFLAG IsConnectionAllowed op c (channel_runs_ok _ _ _ _ Hr) Hop) as (c' & E & _).
  by exists c'.
Qed.

(** C22 The table of connections is a map: in every state, adding a connection keeps one
    that is there and changes no other, and adds it if no connection of its socket has a greater local
    identifier; removing one, those of a local identifier, or those of a socket removes these and no
    others. *)
Theorem connections_change (ops : list (ChannelOp C)) (c : Channel C) :
  channel_runs BUILDFLAG IsConnectionAllowed ops c ->
  let r := vc_router_ c in
  (forall vc data vc', GetConnectionData vc' (AddConnection vc data r) =
     if decide (vc' = vc)
     then match GetConnectionData vc r with Some old => Some old | None => if latest vc r then Some data else None end
     else GetConnectionData vc' r) /\
  (forall vc reason, (RemoveConnection vc reason r).1 = has_connection vc r /\
     forall vc', GetConnectionData vc' (RemoveConnection vc reason r).2 = if decide (vc' = vc) then None else GetConnectionData vc' r) /\
  (forall k vc', GetConnectionData vc' (RemoveConnectionsByLocalId k r) = if decide (local_id vc' = k) then None else GetConnectionData vc' r) /\
  (forall id vc', GetConnectionData vc' (RemoveConnectionsBySocketId id r) = if decide (vc_socket_id vc' = id) then None else GetConnectionData vc' r) /\
  (forall vc, latest vc r = false <-> exists vc', vc_socket_id vc' = vc_socket_id vc /\
     has_connection vc' r = true /\ kcmp (local_id vc') (local_id vc) = Gt).
Proof.
  intros Hr%channel_runs_ok r. assert (Hc : connections_ok r) by apply Hr. split; [| split; [| split; [| split]]].
  - intros. by apply AddConnection_data.
  - intros vc reason. pose proof (RemoveConnection_spec vc reason r Hc) as Hs. destruct (RemoveConnection vc reason r). by destruct Hs as (_ & ? & ?).
  - intros. by apply RemoveConnectionsByLocalId_spec.
  - intros. by apply RemoveConnectionsBySocketId_spec.
  - intros vc. by apply latest_false.
Qed.

(** C38 A connection with a lesser local identifier is lost: added to a socket that has a
    connection with a greater one, it does not exist, whatever was answered to its request.  What its peer
    sends to it is dropped and sending on it fails, in the namespaces that are not taken for transport
    (those that are need no connection, see long_namespaces_need_no_connection), except that messages to
    the broadcast identifier need no connection. *)
Theorem lesser_connection_is_lost (ops : list (ChannelOp C)) (c : Channel C) (vc greater : VirtualConnection) (data : AssociatedData) :
  channel_runs BUILDFLAG IsConnectionAllowed ops c ->
  has_connection greater (vc_router_ c) = true -> vc_socket_id greater = vc_socket_id vc ->
  kcmp (local_id vc) (local_id greater) = Lt -> has_connection vc (vc_router_ c) = false ->
  let c' := in_router (AddConnection vc data) c in
  has_connection vc (vc_router_ c') = false /\
  (forall (s : CastSocket C) (m : CastMessage), connection_of m (Some s) = vc -> destination_id m <> kBroadcastId ->
     IsTransportNamespace (namespace_ m) = false -> Router_OnMessage IsConnectionAllowed (Some s) m c' = Ret c') /\
  (forall m : CastMessage, peer_id vc <> kBroadcastId -> IsTransportNamespace (namespace_ m) = false ->
     Router_Send vc m (vc_router_ c') = (error_of kNoActiveConnection, vc_router_ c')).
Proof.
  intros Hr%channel_runs_ok Hg Hid Hlt Hn c'. assert (Hc : connections_ok (vc_router_ c)) by apply Hr.
  assert (Hlat : latest vc (vc_router_ c) = false).
  { apply latest_false; [done |]. exists greater. split; [done |]. split; [done |]. by apply kcmp_lt_gt. }
  assert (Hn' : has_connection vc (vc_router_ c') = false).
  { unfold has_connection in *. change (vc_router_ c') with (AddConnection vc data (vc_router_ c)).
    rewrite AddConnection_data, decide_True by done. destruct (GetConnectionData vc (vc_router_ c)); [done |]. by rewrite Hlat. }
  split; [done |]. split.
  - intros s m Em Hd Ht. unfold Router_OnMessage. cbn [OSP_CHECK mbind outcome_bind]. cbv zeta. rewrite decide_False by done.
    rewrite decide_False by (intros E; by rewrite E in Ht). by rewrite Em, Ht, Hn'.
  - intros m Hp Ht. unfold Router_Send. rewrite decide_False by done. by rewrite Ht, Hn'.
Qed.

Lemma IsTransportNamespace_spec namespace_ :
  IsTransportNamespace namespace_ = true <->
  (30 < length namespace_)%nat /\ exists c rest, namespace_ = c :: rest /\ c ∈ kTransportNamespacePrefix.
Proof.
  unfold IsTransportNamespace, find_first_of. rewrite andb_true_iff, bool_decide_eq_true, Nat.ltb_lt.
  change (length kTransportNamespacePrefix) with 30%nat. apply and_iff_compat_l. destruct namespace_ as [| c rest]; cbn [list_find].
  - split; [done |]. by intros (c & rest & ? & _).
  - destruct (decide (c ∈ kTransportNamespacePrefix)) as [Hc | Hc].
    + split; [| done]. intros _. by exists c, rest.
    + split; [| intros (c' & rest' & [= <- <-] & ?); done]. intros E.
      destruct (list_find (fun c => c ∈ kTransportNamespacePrefix) rest) as [[]|]; done.
Qed.

(** C39 Long namespaces need no connection: a message of any namespace of more than 30
    characters that starts with a character of the transport prefix, other than the connection namespace,
    reaches the endpoint it names from every socket, connected or not; among them are those of media and of
    the receiver, which do not have the transport prefix. *)
Theorem long_namespaces_need_no_connection (c : Channel C) (s : CastSocket C) (m : CastMessage) (handler : Z) :
  map_find (destination_id m) (endpoints_ (vc_router_ c)) = Some handler -> destination_id m <> kBroadcastId ->
  (30 < length (namespace_ m))%nat -> (exists first, head (namespace_ m) = Some first /\ first ∈ kTransportNamespacePrefix) ->
  namespace_ m <> kConnectionNamespace ->
  Router_OnMessage IsConnectionAllowed (Some s) m c = Ret (in_router (call_handler handler (Some (socket_id s)) m) c) /\
  is_transport kMediaNamespace = false /\ IsTransportNamespace kMediaNamespace = true /\
  is_transport kReceiverNamespace = false /\ IsTransportNamespace kReceiverNamespace = true.
Proof.
  intros Hf Hd Hlen (first & Hhead & Hfirst) Hc. split; [| by vm_compute].
  assert (Ht : IsTransportNamespace (namespace_ m) = true).
  { apply IsTransportNamespace_spec. split; [done |]. destruct (namespace_ m) as [| x rest]; [done |].
    injection Hhead as ->. by exists first, rest. }
  unfold Router_OnMessage. cbn [OSP_CHECK mbind outcome_bind]. cbv zeta.
  rewrite !decide_False by done. rewrite Ht. cbn [negb andb]. by rewrite Hf.
Qed.
End Channel.

(** * Examples *)

Definition demo_vc (l : str) : VirtualConnection := mkVirtualConnection l (lit "sender-1") 1.

(** The greater identifier first: the lesser one is lost; the other way round both exist. *)
Example demo_order :
  (fun c => (has_connection (demo_vc (lit "app-1")) (vc_router_ c), has_connection (demo_vc (lit "app-2")) (vc_router_ c))) <$>
    [demo_channel [OpAddConnection (demo_vc (lit "app-2")) new_AssociatedData; OpAddConnection (demo_vc (lit "app-1")) new_AssociatedData];
     demo_channel [OpAddConnection (demo_vc (lit "app-1")) new_AssociatedData; OpAddConnection (demo_vc (lit "app-2")) new_AssociatedData]]
  = [(false, true); (true, true)].
Proof. reflexivity. Qed.

Lemma channel_never_aborts_witness :
  exists c', channel_step demo_build demo_allowed (OpReceive 1 (demo_stream [demo_message (lit "PLAY")])) (demo_channel [demo_take 1]) = Ret c'.
Proof.
  apply (channel_never_aborts demo_build demo_allowed [demo_take 1] (demo_channel [demo_take 1])
    (OpReceive 1 (demo_stream [demo_message (lit "PLAY")]))).
  - apply demo_channel_runs. vm_compute. reflexivity.
  - apply op_okb_sound. vm_compute. reflexivity.
Defined.

Lemma connections_change_witness :
  let r := vc_router_ (demo_channel [OpAddConnection (demo_vc (lit "app-1")) new_AssociatedData]) in
  (forall vc data vc', GetConnectionData vc' (AddConnection vc data r) =
     if decide (vc' = vc)
     then match GetConnectionData vc r with Some old => Some old | None => if latest vc r then Some data else None end
     else GetConnectionData vc' r) /\
  (forall vc reason, (RemoveConnection vc reason r).1 = has_connection vc r /\
     forall vc', GetConnectionData vc' (RemoveConnection vc reason r).2 = if decide (vc' = vc) then None else GetConnectionData vc' r) /\
  (forall k vc', GetConnectionData vc' (RemoveConnectionsByLocalId k r) = if decide (local_id vc' = k) then None else GetConnectionData vc' r) /\
  (forall id vc', GetConnectionData vc' (RemoveConnectionsBySocketId id r) = if decide (vc_socket_id vc' = id) then None else GetConnectionData vc' r) /\
  (forall vc, latest vc r = false <-> exists vc', vc_socket_id vc' = vc_socket_id vc /\
     has_connection vc' r = true /\ kcmp (local_id vc') (local_id vc) = Gt).
Proof.
  apply (connections_change demo_build demo_allowed [OpAddConnection (demo_vc (lit "app-1")) new_AssociatedData]).
  apply demo_channel_runs. vm_compute. reflexivity.
Defined.

Lemma lesser_connection_is_lost_witness :
  let c' := in_router (AddConnection (demo_vc (lit "app-1")) new_AssociatedData)
              (demo_channel [OpAddConnection (demo_vc (lit "app-2")) new_AssociatedData]) in
  has_connection (demo_vc (lit "app-1")) (vc_router_ c') = false /\
  (forall (s : CastSocket DemoConnection) (m : CastMessage), connection_of m (Some s) = demo_vc (lit "app-1") ->
     destination_id m <> kBroadcastId -> IsTransportNamespace (namespace_ m) = false ->
     Router_OnMessage demo_allowed (Some s) m c' = Ret c') /\
  (forall m : CastMessage, peer_id (demo_vc (lit "app-1")) <> kBroadcastId -> IsTransportNamespace (namespace_ m) = false ->
     Router_Send (demo_vc (lit "app-1")) m (vc_router_ c') = (error_of kNoActiveConnection, vc_router_ c')).
Proof.
  apply (lesser_connection_is_lost demo_build demo_allowed [OpAddConnection (demo_vc (lit "app-2")) new_AssociatedData]
    (demo_channel [OpAddConnection (demo_vc (lit "app-2")) new_AssociatedData]) (demo_vc (lit "app-1")) (demo_vc (lit "app-2")) new_AssociatedData).
  - apply demo_channel_runs. vm_compute. reflexivity.
  - reflexivity.
  - reflexivity.
  - reflexivity.
  - reflexivity.
Defined.

Lemma long_namespaces_need_no_connection_witness :
  let c := demo_channel [demo_take 1; OpAddHandler (lit "receiver-0") 4] in let m := demo_message (lit "LAUNCH") in
  let s := (new_CastSocket new_DemoConnection 1).1 in
  Router_OnMessage demo_allowed (Some s) m c = Ret (in_router (call_handler 4 (Some 1) m) c) /\
  is_transport kMediaNamespace = false /\ IsTransportNamespace kMediaNamespace = true /\
  is_transport kReceiverNamespace = false /\ IsTransportNamespace kReceiverNamespace = true.
Proof.
  intros c m s. apply (long_namespaces_need_no_connection demo_allowed c s m 4).
  - vm_compute. reflexivity.
  - vm_compute. discriminate.
  - vm_compute. lia.
  - eexists. split; [vm_compute; reflexivity |]. by apply (bool_decide_unpack _).
  - vm_compute. discriminate.
Defined.
