(* ===== verification/CastPorts.v ===== *)
(** Handlers of Cast messages (cast/common/channel): the router of namespaces
    (namespace_router.h and .cc), and the port by which a session exchanges messages with
    its peers (cast_socket_message_port.h and .cc).

    The socket of a port is a weak pointer: its identifier, which leads to the socket as long as
    the router owns one. *)

From S2P Require Import Prelude Text OrderedMap IpAddress CastMessage CastSocket CastSocketProps CastDemo Multimap ConnectionRouter ConnectionProps ChannelProps.

(** * Namespaces *)

Record NamespaceRouter := mkNamespaceRouter { handlers_ : list (str * Z); namespace_calls : list HandlerCall }.
#[export] Instance NamespaceRouter_eta : Eta NamespaceRouter := fun r => mkNamespaceRouter (handlers_ r) (namespace_calls r).
Definition new_NamespaceRouter : NamespaceRouter := mkNamespaceRouter [] [].

Definition AddNamespaceHandler (namespace_ : str) (handler : Z) (r : NamespaceRouter) : NamespaceRouter :=
  r <| handlers_ := (map_emplace namespace_ handler (handlers_ r)).2 |>.
Definition RemoveNamespaceHandler (namespace_ : str) (r : NamespaceRouter) : NamespaceRouter :=
  r <| handlers_ := map_erase namespace_ (handlers_ r) |>.
Definition NamespaceRouter_OnMessage (socket : option Z) (m : CastMessage) (r : NamespaceRouter) : NamespaceRouter :=
  match map_find (namespace_ m) (handlers_ r) with
  | Some handler => r <| namespace_calls := namespace_calls r ++ [mkHandlerCall handler socket m] |>
  | None => r
  end.

(** * Ports *)

Record MessagePortClient := mkClient { client_number : Z; client_source_id : str }.
Inductive ClientCall :=
  | ClientMessage (client : Z) (source_id message_namespace message : str)
  | ClientError (client : Z) (error : Error).

(** [this_handler] is the port as a handler of the router. *)
Record CastSocketMessagePort := mkPort {
  this_handler : Z;
  port_source_id_ : str;
  client_ : option MessagePortClient;
  socket_ : option Z;
  client_calls : list ClientCall }.
#[export] Instance CastSocketMessagePort_eta : Eta CastSocketMessagePort := fun p =>
  mkPort (this_handler p) (port_source_id_ p) (client_ p) (socket_ p) (client_calls p).

Definition new_CastSocketMessagePort (this : Z) : CastSocketMessagePort := mkPort this [] None None [].

Section Port.
Context {codec : CastMessageCodec} {C : Type} `{Connection C}.
Implicit Types (r : VirtualConnectionRouter C) (p : CastSocketMessagePort).

(** [socket_.get()] *)
Definition socket_get p r : option Z :=
  id ← socket_ p; if map_find id (sockets_ r) is Some _ then Some id else None.

Definition GetSocketId p r : Z := default 0 (socket_get p r).

Definition ResetClient p r : CastSocketMessagePort * VirtualConnectionRouter C :=
  match client_ p with
  | None => (p, r)
  | Some _ => (p <| client_ := None |> <| port_source_id_ := [] |>,
               RemoveConnectionsByLocalId (port_source_id_ p) (RemoveHandlerForLocalId (port_source_id_ p) r).2)
  end.

Definition SetSocket (socket : option Z) p r : CastSocketMessagePort * VirtualConnectionRouter C :=
  let '(p, r) := ResetClient p r in (p <| socket_ := socket |>, r).

Definition SetClient (client : MessagePortClient) p r : CastSocketMessagePort * VirtualConnectionRouter C :=
  let '(p, r) := ResetClient p r in
  (p <| client_ := Some client |> <| port_source_id_ := client_source_id client |>,
   (AddHandlerForLocalId (client_source_id client) (this_handler p) r).2).

Definition destroy_CastSocketMessagePort p r : VirtualConnectionRouter C := (ResetClient p r).2.

Definition tell_error (client : MessagePortClient) (e : Error) p : CastSocketMessagePort :=
  p <| client_calls := client_calls p ++ [ClientError (client_number client) e] |>.

Definition PostMessage (destination_sender_id message_namespace message : str) p r : CastSocketMessagePort * VirtualConnectionRouter C :=
  match client_ p with
  | None => (p, r)
  | Some client =>
      match socket_get p r with
      | None => (tell_error client (error_of kAlreadyClosed) p, r)
      | Some id =>
          let connection := mkVirtualConnection (port_source_id_ p) destination_sender_id id in
          let r := if has_connection connection r then r else AddConnection connection new_AssociatedData r in
          let '(send_error, r) := Router_Send connection (MakeSimpleUTF8Message message_namespace message) r in
          (if is_ok send_error then p else tell_error client send_error p, r)
      end
  end.

Definition Port_OnMessage (socket : option Z) (m : CastMessage) p r : outcome CastSocketMessagePort :=
  OSP_CHECK (match socket with None => true | Some id => bool_decide (socket_get p r = Some id) end) ;;
  if decide (destination_id m = kBroadcastId) then Ret p else
  match client_ p with
  | None => Ret p
  | Some client =>
      if decide (payload_type m = STRING) then
        payload ← GetPayload m;
        Ret (p <| client_calls := client_calls p ++ [ClientMessage (client_number client) (source_id m) (namespace_ m) payload] |>)
      else Ret p
  end.
End Port.

(** * What ports promise *)

Section PortProps.
#[local] Set Default Proof Using "Type*".
Context {codec : CastMessageCodec} `{!CastMessageCodecLaws codec} {C : Type} `{Connection C}.
Context {Value : Type} `{JsonLibrary Value}.
Context (IsConnectionAllowed : VirtualConnection -> bool).

(** A posted message is sent on the port's socket, from the client to the peer it names,
    without a handshake; the client is told the error if there is one: of the socket, or that there is no
    connection, when it had to be added and the socket has one with a greater local identifier. *)
Theorem posted_message_is_sent (p : CastSocketMessagePort) (r : VirtualConnectionRouter C) (client : MessagePortClient)
    (peer message_namespace payload : str) (id : Z) (s : CastSocket C) (h : Z) :
  let vc := mkVirtualConnection (port_source_id_ p) peer id in
  let m := (MakeSimpleUTF8Message message_namespace payload) <| set_source_id := Some (port_source_id_ p) |>
             <| set_destination_id := Some peer |> in
  connections_ok r -> client_ p = Some client -> socket_ p = Some id -> map_find id (sockets_ r) = Some (s, h) ->
  peer <> kBroadcastId ->
  exists p' r', PostMessage peer message_namespace payload p r = (p', r') /\
    if IsTransportNamespace message_namespace || has_connection vc r || latest vc r
    then map_find id (sockets_ r') = Some ((CastSocket_Send m s).2, h) /\
         p' = if is_ok (CastSocket_Send m s).1 then p else tell_error client (CastSocket_Send m s).1 p
    else sockets_ r' = sockets_ r /\ p' = tell_error client (error_of kNoActiveConnection) p.
Proof.
  intros vc m Hr Hclient Hs Hf Hp. unfold PostMessage. rewrite Hclient. unfold socket_get. rewrite Hs. cbn [mbind option_bind]. rewrite Hf.
  cbv zeta. fold vc. set (r1 := if has_connection vc r then r else AddConnection vc new_AssociatedData r).
  assert (H1 : sockets_ r1 = sockets_ r) by (unfold r1; by destruct (has_connection vc r)).
  assert (H2 : has_connection vc r1 = has_connection vc r || latest vc r).
  { unfold r1. destruct (has_connection vc r) eqn:E; [done |]. cbn. unfold has_connection in *. rewrite AddConnection_data, decide_True by done.
    destruct (GetConnectionData vc r); [done |]. by destruct (latest vc r). }
  destruct (Router_Send vc (MakeSimpleUTF8Message message_namespace payload) r1) as [e r'] eqn:Es. eexists _, r'. split; [reflexivity |].
  unfold Router_Send in Es. rewrite decide_False in Es by done. change (namespace_ (MakeSimpleUTF8Message message_namespace payload)) with message_namespace in Es.
  rewrite H2 in Es. rewrite <- orb_assoc. destruct (IsTransportNamespace message_namespace || (has_connection vc r || latest vc r)) eqn:Eb.
  - replace (negb (IsTransportNamespace message_namespace) && negb (has_connection vc r || latest vc r)) with false in Es
      by (rewrite <- negb_orb, Eb; done).
    rewrite H1 in Es. change (vc_socket_id vc) with id in Es. rewrite Hf in Es. cbv zeta in Es.
    change (CastSocket_Send _ s) with (CastSocket_Send m s) in Es. destruct (CastSocket_Send m s) as [e' s']. injection Es as <- <-.
    cbn. by rewrite map_find_set, kcmp_refl.
  - replace (negb (IsTransportNamespace message_namespace) && negb (has_connection vc r || latest vc r)) with true in Es
      by (rewrite <- negb_orb, Eb; done).
    injection Es as <- <-. done.
Qed.

(** C40 A message for a port's client that comes over another socket than the port's aborts
    the process: the router gives the port what any connected socket sends to the client's identifier,
    and the port checks that the socket is its own. *)
Theorem other_socket_aborts_port (c : Channel C) (p : CastSocketMessagePort) (s : CastSocket C) (m : CastMessage) :
  map_find (port_source_id_ p) (endpoints_ (vc_router_ c)) = Some (this_handler p) ->
  destination_id m = port_source_id_ p -> port_source_id_ p <> kBroadcastId -> namespace_ m <> kConnectionNamespace ->
  has_connection (connection_of m (Some s)) (vc_router_ c) = true -> socket_ p <> Some (socket_id s) ->
  Router_OnMessage IsConnectionAllowed (Some s) m c = Ret (in_router (call_handler (this_handler p) (Some (socket_id s)) m) c) /\
  Port_OnMessage (Some (socket_id s)) m p (vc_router_ c) = Fault CheckFailed.
Proof.
  intros Hf Hd Hb Hn Hc Hs. split.
  - unfold Router_OnMessage. cbn [OSP_CHECK mbind outcome_bind]. cbv zeta. rewrite Hd, decide_False, decide_False by done.
    rewrite Hc. cbn [negb]. rewrite andb_false_r. by rewrite Hf.
  - unfold Port_OnMessage. rewrite bool_decide_eq_false_2; [done |]. unfold socket_get. intros E. apply bind_Some in E as (id & Hid & E).
    destruct (map_find id _); [| done]. apply Hs. congruence.
Qed.
End PortProps.

(** * Examples *)

Definition demo_port : CastSocketMessagePort := mkPort 4 (lit "app-1") (Some (mkClient 3 (lit "app-1"))) (Some 1) [].
Definition demo_port_channel : Channel DemoConnection :=
  demo_channel [demo_take 1; demo_take 2; OpAddHandler (lit "app-1") 4;
                OpAddConnection (mkVirtualConnection (lit "app-1") (lit "sender-1") 2) new_AssociatedData].

Lemma posted_message_is_sent_witness :
  let r := vc_router_ demo_port_channel in
  let s := (new_CastSocket new_DemoConnection 1).1 in
  let vc := mkVirtualConnection (lit "app-1") (lit "sender-1") 1 in
  let m := (MakeSimpleUTF8Message (lit "urn:x-cast:app") (lit "{}")) <| set_source_id := Some (lit "app-1") |>
             <| set_destination_id := Some (lit "sender-1") |> in
  exists p' r', PostMessage (lit "sender-1") (lit "urn:x-cast:app") (lit "{}") demo_port r = (p', r') /\
    if IsTransportNamespace (lit "urn:x-cast:app") || has_connection vc r || latest vc r
    then map_find 1 (sockets_ r') = Some ((CastSocket_Send m s).2, 5) /\
         p' = if is_ok (CastSocket_Send m s).1 then demo_port else tell_error (mkClient 3 (lit "app-1")) (CastSocket_Send m s).1 demo_port
    else sockets_ r' = sockets_ r /\ p' = tell_error (mkClient 3 (lit "app-1")) (error_of kNoActiveConnection) demo_port.
Proof.
  intros r s vc m.
  apply (posted_message_is_sent demo_port r (mkClient 3 (lit "app-1")) (lit "sender-1") (lit "urn:x-cast:app") (lit "{}") 1 s 5).
  - assert (Hr : channel_runs demo_build demo_allowed
      [demo_take 1; demo_take 2; OpAddHandler (lit "app-1") 4;
       OpAddConnection (mkVirtualConnection (lit "app-1") (lit "sender-1") 2) new_AssociatedData] demo_port_channel)
      by (apply demo_channel_runs; vm_compute; reflexivity).
    apply channel_runs_ok in Hr. apply Hr.
  - reflexivity.
  - reflexivity.
  - vm_compute. reflexivity.
  - vm_compute. discriminate.
Defined.

Lemma other_socket_aborts_port_witness :
  let s := (new_CastSocket new_DemoConnection 2).1 in
  let m := (MakeSimpleUTF8Message (lit "urn:x-cast:app") (lit "{}")) <| set_source_id := Some (lit "sender-1") |>
             <| set_destination_id := Some (lit "app-1") |> in
  Router_OnMessage demo_allowed (Some s) m demo_port_channel = Ret (in_router (call_handler 4 (Some 2) m) demo_port_channel) /\
  Port_OnMessage (Some 2) m demo_port (vc_router_ demo_port_channel) = Fault CheckFailed.
Proof.
  intros s m. apply (other_socket_aborts_port demo_allowed demo_port_channel demo_port s m).
  - vm_compute. reflexivity.
  - reflexivity.
  - vm_compute. discriminate.
  - vm_compute. discriminate.
  - vm_compute. reflexivity.
  - vm_compute. discriminate.
Defined.
