(* ===== verification/StatisticsEvents.v ===== *)
(** Statistics events (cast/streaming/impl/statistics_common.h and .cc), their
    collection (statistics_collector.h and .cc) and what the sender reports
    (statistics_dispatcher.h and .cc).

    Event types and log messages are in RtcpCommon.v. *)

From S2P Require Import Prelude Numeric Wire Ids NtpTime RtpDefines RtcpCommon SenderReport Rtp.

(** * Events *)

Inductive MediaType := kUnknownMedia | kAudioMedia | kVideoMedia.
#[export] Instance MediaType_eq_dec : EqDecision MediaType.
Proof. solve_decision. Defined.

Definition ToMediaType (type : StreamType) : MediaType :=
  match type with kUnknownStream => kUnknownMedia | kAudio => kAudioMedia | kVideo => kVideoMedia end.

(** Times are microseconds since the epoch of the clock. *)
Record StatisticsEvent := mkEvent {
  ev_frame_id : Z;
  ev_type : EventType;
  ev_media_type : MediaType;
  ev_rtp_timestamp : Z;
  ev_size : Z;
  ev_timestamp : Z;
  ev_received_timestamp : Z }.
#[export] Instance eta_StatisticsEvent : Eta StatisticsEvent := fun e =>
  mkEvent (ev_frame_id e) (ev_type e) (ev_media_type e) (ev_rtp_timestamp e) (ev_size e)
    (ev_timestamp e) (ev_received_timestamp e).
#[export] Instance StatisticsEvent_eq_dec : EqDecision StatisticsEvent.
Proof. solve_decision. Defined.

Definition new_StatisticsEvent : StatisticsEvent :=
  mkEvent null_frame_id kUnknownEvent kUnknownMedia 0 0 0 0.

Record FrameEvent := mkFrameEvent {
  frame_event : StatisticsEvent;
  ev_width : Z;
  ev_height : Z;
  ev_delay_delta : Z;
  ev_key_frame : bool;
  ev_target_bitrate : Z }.
#[export] Instance eta_FrameEvent : Eta FrameEvent := fun e =>
  mkFrameEvent (frame_event e) (ev_width e) (ev_height e) (ev_delay_delta e) (ev_key_frame e) (ev_target_bitrate e).

Definition new_FrameEvent (e : StatisticsEvent) : FrameEvent := mkFrameEvent e 0 0 0 false 0.

Record PacketEvent := mkPacketEvent {
  packet_event : StatisticsEvent;
  ev_packet_id : Z;
  ev_max_packet_id : Z }.
#[export] Instance eta_PacketEvent : Eta PacketEvent := fun e =>
  mkPacketEvent (packet_event e) (ev_packet_id e) (ev_max_packet_id e).

Definition new_PacketEvent (e : StatisticsEvent) : PacketEvent := mkPacketEvent e 0 0.

(** * The collector *)

Record PacketMetadata := mkMetadata { stream_type : StreamType; metadata_rtp_timestamp : Z }.

Record StatisticsCollector := mkCollector {
  recent_packet_events_ : list PacketEvent;
  recent_frame_events_ : list FrameEvent }.
#[export] Instance eta_StatisticsCollector : Eta StatisticsCollector := fun c =>
  mkCollector (recent_packet_events_ c) (recent_frame_events_ c).

Definition new_StatisticsCollector : StatisticsCollector := mkCollector [] [].

(** [BigEndianReader] (util/big_endian.h): the bytes that remain, [Skip] and
    [Read], which do nothing if there are too few. *)
Definition reader_Skip (length : Z) (remaining : list Z) : bool * list Z :=
  if zlen remaining <? length then (false, remaining) else (true, drop (Z.to_nat length) remaining).

Definition reader_Read (n : nat) (out : Z) (remaining : list Z) : bool * Z * list Z :=
  if (n <=? length remaining)%nat then (true, be_decode (take n remaining), drop n remaining)
  else (false, out, remaining).

Definition CollectPacketEvent (event : PacketEvent) (c : StatisticsCollector) : StatisticsCollector :=
  c <| recent_packet_events_ := recent_packet_events_ c ++ [event] |>.

Definition CollectFrameEvent (event : FrameEvent) (c : StatisticsCollector) : StatisticsCollector :=
  c <| recent_frame_events_ := recent_frame_events_ c ++ [event] |>.

Definition CollectPacketSentEvent (now : Z) (packet : list Z) (metadata : PacketMetadata) (c : StatisticsCollector)
    : outcome StatisticsCollector :=
  let '(success1, reader) := reader_Skip 4 packet in
  let '(success2, truncated_rtp_timestamp, reader) := reader_Read 4 0 reader in
  let '(success3, reader) := reader_Skip 4 reader in
  let rtp := Expand 32 (metadata_rtp_timestamp metadata) truncated_rtp_timestamp in
  let '(success4, reader) := reader_Skip 2 reader in
  let '(success5, packet_id, reader) := reader_Read 2 0 reader in
  let '(success6, max_packet_id, _) := reader_Read 2 0 reader in
  OSP_CHECK (zlen packet <=? 2 ^ 32 - 1) ;;
  OSP_CHECK (success1 && success2 && success3 && success4 && success5 && success6) ;;
  Ret (CollectPacketEvent
    (mkPacketEvent
      (mkEvent null_frame_id kPacketSentToNetwork (ToMediaType (stream_type metadata)) rtp (zlen packet) now 0)
      packet_id max_packet_id) c).

Definition TakeRecentPacketEvents (c : StatisticsCollector) : list PacketEvent * StatisticsCollector :=
  (recent_packet_events_ c, c <| recent_packet_events_ := [] |>).

Definition TakeRecentFrameEvents (c : StatisticsCollector) : list FrameEvent * StatisticsCollector :=
  (recent_frame_events_ c, c <| recent_frame_events_ := [] |>).

(** The RTP timestamp the sender gives for the packets it sends
    ([SenderImpl::GetLastRtpTimestamp]). *)
Definition GetLastRtpTimestamp : Z := 0.

(** * The dispatcher

    The environment's collector may not be set; [now] is the environment's
    clock. *)

Definition kNoTime : Z := INT64_MIN.

Definition with_collector (f : StatisticsCollector -> StatisticsCollector) (c : option StatisticsCollector)
    : option StatisticsCollector := f <$> c.

Definition capture_time (now t : Z) : Z := if kNoTime <? t then t else now.

Definition DispatchEnqueueEvents (now : Z) (type : StreamType) (frame : EncodedFrame) :=
  with_collector (fun c =>
    let media_type := ToMediaType type in
    let capture_begin_event :=
      mkEvent null_frame_id kFrameCaptureBegin media_type (rtp_timestamp frame) 0
        (capture_time now (capture_begin_time frame)) 0 in
    let c := CollectFrameEvent (new_FrameEvent capture_begin_event) c in
    let capture_end_event :=
      mkEvent null_frame_id kFrameCaptureEnd media_type (rtp_timestamp frame) 0
        (capture_time now (capture_end_time frame)) 0 in
    let c := CollectFrameEvent (new_FrameEvent capture_end_event) c in
    let encode_event :=
      mkEvent (frame_id frame) kFrameEncoded media_type (rtp_timestamp frame) (u32 (zlen (data frame))) now 0 in
    CollectFrameEvent
      (mkFrameEvent encode_event 0 0 0 (bool_decide (dependency frame = kKeyFrame)) 0) c).

Definition DispatchAckEvent (now : Z) (type : StreamType) (rtp frame : Z) :=
  with_collector
    (CollectFrameEvent (new_FrameEvent (mkEvent frame kFrameAckReceived (ToMediaType type) rtp 0 now 0))).

Definition DispatchFrameDropEvent (type : StreamType) (frame rtp drop_time : Z) :=
  with_collector
    (CollectFrameEvent (new_FrameEvent (mkEvent frame kFrameDroppedByEncoder (ToMediaType type) rtp 0 drop_time 0))).

(** One message of the receiver's log. *)
Definition DispatchLogMessage (now : Z) (media_type : MediaType) (rtp : Z) (message : RtcpReceiverEventLogMessage)
    (c : StatisticsCollector) : StatisticsCollector :=
  let event := mkEvent null_frame_id (event_type message) media_type rtp 0 (event_timestamp message) now in
  match event_type message with
  | kPacketReceived => CollectPacketEvent (mkPacketEvent event (event_packet_id message) 0) c
  | kFrameAckSent | kFrameDecoded => CollectFrameEvent (new_FrameEvent event) c
  | kFramePlayedOut => CollectFrameEvent ((new_FrameEvent event) <| ev_delay_delta := event_delay message |>) c
  | _ => c
  end.

Definition DispatchFrameLogMessages (now : Z) (type : StreamType) (messages : list RtcpReceiverFrameLogMessage) :=
  with_collector (fun c =>
    foldl (fun c log =>
      foldl (fun c message => DispatchLogMessage now (ToMediaType type) (log_rtp_timestamp log) message c)
        c (log_messages log)) c messages).

(** * What is collected for a packet *)

(** The event of an RTP packet the packetizer makes. *)
Definition sent_event (now : Z) (metadata : PacketMetadata) (p : RtpPacketizer) (frame : EncodedFrame) (i : Z)
    : PacketEvent :=
  mkPacketEvent
    (mkEvent null_frame_id kPacketSentToNetwork (ToMediaType (stream_type metadata))
      (Expand 32 (metadata_rtp_timestamp metadata) (wrap 32 (rtp_timestamp frame)))
      (zlen (packet_bytes p frame i)) now 0)
    i (ComputeNumberOfPackets p frame - 1).

Lemma reader_Skip_app a rest : reader_Skip (zlen a) (a ++ rest) = (true, rest).
Proof.
  unfold reader_Skip. rewrite zlen_app. pose proof (zlen_nonneg rest). rewrite (proj2 (Z.ltb_ge _ _)) by lia.
  unfold zlen. rewrite Nat2Z.id. by rewrite drop_app_length.
Qed.

Lemma reader_Read_encode n v out rest :
  reader_Read n out (be_encode n v ++ rest) = (true, wrap (8 * Z.of_nat n) v, rest).
Proof.
  unfold reader_Read. rewrite length_app, length_be_encode.
  rewrite (proj2 (Nat.leb_le _ _)) by lia.
  rewrite take_app_length' by (by rewrite length_be_encode).
  rewrite drop_app_length' by (by rewrite length_be_encode). by rewrite be_decode_encode.
Qed.

(** What the fields of a packet that is laid out this way give. *)
Lemma collect_fields now metadata c a rtp b d pid max_pid rest packet :
  packet = a ++ be_encode 4 rtp ++ b ++ d ++ be_encode 2 pid ++ be_encode 2 max_pid ++ rest ->
  zlen a = 4 -> zlen b = 4 -> zlen d = 2 -> zlen packet < 2 ^ 32 ->
  CollectPacketSentEvent now packet metadata c = Ret (CollectPacketEvent
    (mkPacketEvent (mkEvent null_frame_id kPacketSentToNetwork (ToMediaType (stream_type metadata))
      (Expand 32 (metadata_rtp_timestamp metadata) (wrap 32 rtp)) (zlen packet) now 0)
      (wrap 16 pid) (wrap 16 max_pid)) c).
Proof.
  intros Hp Ha Hb Hd Hlen. unfold CollectPacketSentEvent. rewrite <- Ha at 1. rewrite Hp at 1.
  rewrite reader_Skip_app, reader_Read_encode, <- Hb, reader_Skip_app, <- Hd, reader_Skip_app.
  rewrite !reader_Read_encode. rewrite OSP_CHECK_leb by lia. done.
Qed.

(** A packet of a frame: everything the analyzer needs is in its event. *)
Lemma collect_frame_packet now metadata c p frame i :
  packetizer_wf p -> frame_wf p frame -> 0 <= i < ComputeNumberOfPackets p frame ->
  zlen (packet_bytes p frame i) <= max_packet_size p ->
  CollectPacketSentEvent now (packet_bytes p frame i) metadata c
  = Ret (CollectPacketEvent (sent_event now metadata p frame i) c).
Proof.
  intros Hp Hf Hi Hlen. pose proof Hf as (Hdata & Hn & _).
  destruct (ComputeNumberOfPackets_spec p frame Hp Hdata Hn) as ([Hn1 Hn2] & _).
  set (n := ComputeNumberOfPackets p frame) in *.
  rewrite (collect_fields now metadata c
    (be_encode 1 128 ++ be_encode 1 ((if i =? n - 1 then 128 else 0) + payload_type_7bits p)
      ++ be_encode 2 (next_sequence_number p)) (rtp_timestamp frame)
    (be_encode 4 (packetizer_sender_ssrc p)) (be_encode 1 (byte12 frame i) ++ be_encode 1 (frame_id frame)) i (n - 1)
    (be_encode 1 (referenced_frame_id frame) ++ extension_bytes frame i ++ chunk_of_frame p frame i)).
  - unfold sent_event. fold n. rewrite !(wrap_small 16) by (unfold is_u; lia). done.
  - unfold packet_bytes. fold n. by rewrite <- !app_assoc.
  - by autorewrite with zlen.
  - by rewrite zlen_be_encode.
  - by autorewrite with zlen.
  - destruct Hp as (_ & _ & _ & Hmax). lia.
Qed.

Lemma be_encode_split n m v : be_encode (n + m) v = be_encode n (Z.shiftr v (8 * Z.of_nat m)) ++ be_encode m v.
Proof.
  induction n as [| n IH]; cbn [be_encode Nat.add]; [done |]. rewrite IH, Z.shiftr_shiftr by lia.
  cbn. do 2 f_equal. f_equal. lia.
Qed.

(** * Theorems *)

(** The event recorded for a packet of a frame is the frame's: whatever
    frame the packetizer splits, and whichever packet of it is sent, the
    collector recovers the packet's number and the number of the last one from
    the bytes, and its RTP timestamp too, if the timestamp the caller gives is less
    than half a period of 32 bits away; no check fails. *)
Theorem sent_packets_are_identified (now : Z) (metadata : PacketMetadata) (c : StatisticsCollector)
    (p : RtpPacketizer) (frame : EncodedFrame) (i : Z) (buffer : ByteBuffer) :
  packetizer_wf p -> frame_wf p frame -> 0 <= i < ComputeNumberOfPackets p frame ->
  written buffer = [] -> max_packet_size p <= room buffer ->
  metadata_rtp_timestamp metadata - 2 ^ 31 <= rtp_timestamp frame < metadata_rtp_timestamp metadata + 2 ^ 31 ->
  exists packet p', GeneratePacket p frame i buffer = Ret (p', packet) /\
    CollectPacketSentEvent now packet metadata c = Ret (c <| recent_packet_events_ :=
      recent_packet_events_ c ++ [mkPacketEvent
        (mkEvent null_frame_id kPacketSentToNetwork (ToMediaType (stream_type metadata)) (rtp_timestamp frame)
          (zlen packet) now 0) i (ComputeNumberOfPackets p frame - 1)] |>).
Proof.
  intros Hp Hf Hi Hw Hroom Hrtp. destruct (GeneratePacket_ok p frame i buffer Hp Hf Hi Hw Hroom) as [Hg Hz].
  eexists (packet_bytes p frame i), _. split; [exact Hg |].
  rewrite collect_frame_packet by done. unfold CollectPacketEvent, sent_event. by rewrite Expand_recovers by lia.
Qed.

Lemma sent_packets_are_identified_witness :
  let p := mkPacketizer 96 7 26 65535 in
  let frame := mkFrame kKeyFrame 256 256 91000 0 250 INT64_MIN INT64_MIN [1; 2; 3; 4; 5; 6; 7; 8] in
  exists packet p', GeneratePacket p frame 2 (new_buffer 64) = Ret (p', packet) /\
    CollectPacketSentEvent 5000 packet (mkMetadata kVideo 0) new_StatisticsCollector = Ret (mkCollector
      [mkPacketEvent (mkEvent null_frame_id kPacketSentToNetwork kVideoMedia 91000 (zlen packet) 5000 0) 2 2] []).
Proof.
  intros p frame.
  apply (sent_packets_are_identified 5000 (mkMetadata kVideo 0) new_StatisticsCollector p frame 2 (new_buffer 64)).
  - split; [reflexivity |]. unfold is_u. vm_compute. intuition congruence.
  - vm_compute. intuition congruence.
  - vm_compute. intuition congruence.
  - reflexivity.
  - vm_compute. congruence.
  - vm_compute. intuition congruence.
Defined.

(** The sender gives 0 for every packet it sends.  From the timestamp 2^31
    on (six and a half hours of video) the event of a packet no longer has the timestamp of
    its frame, and a Sender Report is recorded as a packet sent, with the
    sender's SSRC as its timestamp. *)
Theorem sender_packets_are_misidentified (now : Z) (type : StreamType) (c : StatisticsCollector) :
  let metadata := mkMetadata type GetLastRtpTimestamp in
  (forall p frame i buffer,
    packetizer_wf p -> frame_wf p frame -> 0 <= i < ComputeNumberOfPackets p frame ->
    written buffer = [] -> max_packet_size p <= room buffer -> 2 ^ 31 <= rtp_timestamp frame ->
    exists packet p' event, GeneratePacket p frame i buffer = Ret (p', packet) /\
      CollectPacketSentEvent now packet metadata c = Ret (CollectPacketEvent event c) /\
      ev_rtp_timestamp (packet_event event) < rtp_timestamp frame) /\
  (forall session report size,
    sender_report_wf report -> 52 <= size ->
    exists packet id event, SenderReportBuilder_BuildPacket session report (new_buffer size) = Ret (packet, id) /\
      CollectPacketSentEvent now packet metadata c = Ret (CollectPacketEvent event c) /\
      ev_type (packet_event event) = kPacketSentToNetwork /\
      ev_rtp_timestamp (packet_event event) = Expand 32 0 (wrap 32 (sender_ssrc session))).
Proof.
  intros metadata. split.
  - intros p frame i buffer Hp Hf Hi Hw Hroom Hrtp. destruct (GeneratePacket_ok p frame i buffer Hp Hf Hi Hw Hroom) as [Hg Hz].
    eexists (packet_bytes p frame i), _, (sent_event now metadata p frame i). split; [exact Hg |].
    split; [by apply collect_frame_packet |]. cbn.
    destruct (Expand_range 32 GetLastRtpTimestamp (wrap 32 (rtp_timestamp frame))) as [Hr _]; [lia | by apply wrap_is_u |].
    unfold GetLastRtpTimestamp in *. lia.
  - intros session report size Hwf Hsize. eexists _, _, _. split; [by apply BuildPacket_ok |].
    set (ntp := ToNtpTimestamp (ntp_converter session) (sr_reference_time report)).
    set (packet := header_encode (sender_report_header report) ++ sender_report_payload session report).
    assert (zlen packet < 2 ^ 32).
    { unfold packet. rewrite zlen_app, zlen_header_encode, zlen_sender_report_payload.
      unfold sender_report_header. by destruct (report_block report). }
    split.
    + eapply (collect_fields now metadata c (header_encode (sender_report_header report)) (sender_ssrc session)
        (be_encode 4 (Z.shiftr (Z.shiftr ntp 16) 16)) (be_encode 2 (Z.shiftr ntp 16)) ntp
        (Z.shiftr (sr_rtp_timestamp report) 16)); [| apply zlen_header_encode | by rewrite zlen_be_encode .. | done].
      unfold packet, sender_report_payload. fold ntp.
      change (be_encode 8 ntp) with (be_encode (6 + 2) ntp). rewrite be_encode_split.
      change (be_encode 6 (Z.shiftr ntp (8 * Z.of_nat 2))) with (be_encode (4 + 2) (Z.shiftr ntp 16)).
      rewrite be_encode_split. change (be_encode 4 (sr_rtp_timestamp report)) with (be_encode (2 + 2) (sr_rtp_timestamp report)).
      rewrite (be_encode_split 2 2). rewrite <- !app_assoc. reflexivity.
    + by split.
Qed.
