(* ===== verification/ClockOffset.v ===== *)
(** Estimation of the offset between the clocks of the sender and the receiver
    (cast/streaming/impl/clock_offset_estimator.h, clock_offset_estimator_impl.h
    and .cc).

    Two differences of times are filtered: of packets received and sent, which
    is the offset and a latency, and of acknowledgements received and sent,
    which is a latency less the offset.  The filter is a Kalman filter of one
    dimension in double precision, whose arithmetic is the one of Numeric.v.  The
    maps of times are in the order of their keys (OrderedMap.v). *)

From S2P Require Import Prelude Numeric Ids RtcpCommon OrderedMap StatisticsEvents.

(** What the analyzer needs of an estimator (clock_offset_estimator.h). *)
Class ClockOffsetEstimator (E : Type) := {
  OnFrameEvent : FrameEvent -> E -> E;
  OnPacketEvent : PacketEvent -> E -> E;
  GetEstimatedOffset : E -> option Z;
  GetEstimatedLatency : E -> option Z }.

(** * KalmanFilter *)

Definition kProcessNoise : Z := 5000.
Definition kMeasurementNoise : Z := 30000.

Definition nanoseconds (d : Z) : Z := d * 1000.

Record KalmanFilter := mkKalman {
  q_nanos_squared_ : double;
  r_nanos_squared_ : double;
  has_estimate_ : bool;
  estimated_latency_ : Z;
  error_covariance_nanos_squared_ : double }.
#[export] Instance eta_KalmanFilter : Eta KalmanFilter := fun k =>
  mkKalman (q_nanos_squared_ k) (r_nanos_squared_ k) (has_estimate_ k) (estimated_latency_ k)
    (error_covariance_nanos_squared_ k).

Definition squared_nanos (d : Z) : double :=
  dmul (double_of_Z (nanoseconds d)) (double_of_Z (nanoseconds d)).

Definition new_KalmanFilter (process_noise measurement_noise : Z) : KalmanFilter :=
  mkKalman (squared_nanos process_noise) (squared_nanos measurement_noise) false 0 (double_of_Z 0).

Definition Kalman_Update (measurement : Z) (k : KalmanFilter) : KalmanFilter :=
  if negb (has_estimate_ k) then
    k <| estimated_latency_ := measurement |>
      <| error_covariance_nanos_squared_ := r_nanos_squared_ k |>
      <| has_estimate_ := true |>
  else
    let predicted_error_covariance := dadd (error_covariance_nanos_squared_ k) (q_nanos_squared_ k) in
    let kalman_gain := ddiv predicted_error_covariance (dadd predicted_error_covariance (r_nanos_squared_ k)) in
    let measurement_nanos := double_of_Z (nanoseconds measurement) in
    let estimate_nanos := double_of_Z (nanoseconds (estimated_latency_ k)) in
    let new_estimate_nanos :=
      dadd estimate_nanos (dmul kalman_gain (dsub measurement_nanos estimate_nanos)) in
    k <| estimated_latency_ := Z.quot (double_trunc new_estimate_nanos) 1000 |>
      <| error_covariance_nanos_squared_ :=
           dmul (dsub (double_of_Z 1) kalman_gain) predicted_error_covariance |>.

(** * BoundCalculator *)

Definition kMaxEventTimesMapSize : nat := 500.

Definition MakeEventKey (rtp packet_id : Z) (audio : bool) : Z :=
  Z.lor (Z.lor (u64 (Z.shiftl packet_id 48)) (Z.shiftl (lower_32_bits rtp) 1)) (if audio then 1 else 0).

(** When the event of a key was sent and received. *)
Definition TimeTickPair : Type := option Z * option Z.

Record BoundCalculator := mkBound {
  events_ : list (Z * TimeTickPair);
  filter_ : KalmanFilter }.
#[export] Instance eta_BoundCalculator : Eta BoundCalculator := fun b => mkBound (events_ b) (filter_ b).

Definition new_BoundCalculator : BoundCalculator := mkBound [] (new_KalmanFilter kProcessNoise kMeasurementNoise).

Definition has_bound (b : BoundCalculator) : bool := has_estimate_ (filter_ b).
Definition bound (b : BoundCalculator) : Z := estimated_latency_ (filter_ b).

Definition UpdateBound (sent received : Z) (b : BoundCalculator) : BoundCalculator :=
  b <| filter_ := Kalman_Update (received - sent) (filter_ b) |>.

(** [events_[key]], which adds an entry if there is none. *)
Definition event_times (key : Z) (b : BoundCalculator) : TimeTickPair := default (None, None) (map_find key (events_ b)).

Definition CheckUpdate (key : Z) (b : BoundCalculator) : BoundCalculator :=
  match event_times key b with
  | (Some sent, Some received) =>
      let b := UpdateBound sent received b in
      b <| events_ := map_erase key (events_ b) |>
  | _ =>
      if (kMaxEventTimesMapSize <? length (events_ b))%nat then b <| events_ := tail (events_ b) |> else b
  end.

Definition SetSent (rtp packet_id : Z) (audio : bool) (t : Z) (b : BoundCalculator) : BoundCalculator :=
  let key := MakeEventKey rtp packet_id audio in
  CheckUpdate key (b <| events_ := map_set key (Some t, (event_times key b).2) (events_ b) |>).

Definition SetReceived (rtp packet_id : Z) (audio : bool) (t : Z) (b : BoundCalculator) : BoundCalculator :=
  let key := MakeEventKey rtp packet_id audio in
  CheckUpdate key (b <| events_ := map_set key ((event_times key b).1, Some t) (events_ b) |>).

(** * ClockOffsetEstimatorImpl *)

Record ClockOffsetEstimatorImpl := mkClockOffset {
  packet_bound_ : BoundCalculator;
  frame_bound_ : BoundCalculator }.
#[export] Instance eta_ClockOffsetEstimatorImpl : Eta ClockOffsetEstimatorImpl := fun e =>
  mkClockOffset (packet_bound_ e) (frame_bound_ e).

Definition new_ClockOffsetEstimatorImpl : ClockOffsetEstimatorImpl :=
  mkClockOffset new_BoundCalculator new_BoundCalculator.

Definition is_audio (e : StatisticsEvent) : bool := bool_decide (ev_media_type e = kAudioMedia).

Definition Impl_OnFrameEvent (event : FrameEvent) (e : ClockOffsetEstimatorImpl) : ClockOffsetEstimatorImpl :=
  let ev := frame_event event in
  match ev_type ev with
  | kFrameAckSent =>
      e <| frame_bound_ := SetSent (ev_rtp_timestamp ev) 0 (is_audio ev) (ev_timestamp ev) (frame_bound_ e) |>
  | kFrameAckReceived =>
      e <| frame_bound_ := SetReceived (ev_rtp_timestamp ev) 0 (is_audio ev) (ev_timestamp ev) (frame_bound_ e) |>
  | _ => e
  end.

Definition Impl_OnPacketEvent (event : PacketEvent) (e : ClockOffsetEstimatorImpl) : ClockOffsetEstimatorImpl :=
  let ev := packet_event event in
  match ev_type ev with
  | kPacketSentToNetwork =>
      e <| packet_bound_ :=
        SetSent (ev_rtp_timestamp ev) (ev_packet_id event) (is_audio ev) (ev_timestamp ev) (packet_bound_ e) |>
  | kPacketReceived =>
      e <| packet_bound_ :=
        SetReceived (ev_rtp_timestamp ev) (ev_packet_id event) (is_audio ev) (ev_timestamp ev) (packet_bound_ e) |>
  | _ => e
  end.

(** The bounds of the offset, from frames and from packets. *)
Definition GetReceiverOffsetBounds (e : ClockOffsetEstimatorImpl) : option (Z * Z) :=
  if negb (has_bound (frame_bound_ e)) || negb (has_bound (packet_bound_ e)) then None
  else Some (- bound (frame_bound_ e), bound (packet_bound_ e)).

Definition Impl_GetEstimatedOffset (e : ClockOffsetEstimatorImpl) : option Z :=
  '(frame_bound, packet_bound) ← GetReceiverOffsetBounds e;
  Some (Z.quot (packet_bound + frame_bound) 2).

Definition Impl_GetEstimatedLatency (e : ClockOffsetEstimatorImpl) : option Z :=
  '(frame_bound, packet_bound) ← GetReceiverOffsetBounds e;
  Some (Z.quot (packet_bound - frame_bound) 2).

#[export] Instance ClockOffsetEstimatorImpl_estimator : ClockOffsetEstimator ClockOffsetEstimatorImpl := {|
  OnFrameEvent := Impl_OnFrameEvent;
  OnPacketEvent := Impl_OnPacketEvent;
  GetEstimatedOffset := Impl_GetEstimatedOffset;
  GetEstimatedLatency := Impl_GetEstimatedLatency |}.
