(* ===== verification/ClockOffsetProps.v ===== *)
(** What the estimation of the clock offset (ClockOffset.v) promises: the filter
    stays between the measurements and follows them, so the offset is known up to half the
    range of the latencies; the maps of event times stay small. *)

From Stdlib Require Import SpecFloat.
From S2P Require Import Prelude Numeric Doubles Rounding Ids RtcpCommon OrderedMap StatisticsEvents ClockOffset.

(** * The gain of the filter *)

Lemma rounds_between num den r a b :
  rounds num den r -> represented a -> represented b -> a * den <= num <= b * den -> a <= value r <= b.
Proof. intros Hr Ha Hb [H1 H2]. split; [by apply (Hr a) | by apply (Hr b)]. Qed.

Lemma within_range lo hi f a b :
  - 3000 <= lo -> - 2900 <= a -> - 3000 <= b -> within lo hi f -> units 1 a <= Z.abs (value f) <= units 1 b ->
  within (a - 53) b f.
Proof.
  intros Hlo Ha Hb Hf [H1 H2]. eapply within_above; [| done | eapply within_below; [exact Hlo | done | exact Hf | exact H1] | done].
  lia.
Qed.

#[local] Notation Q := 25000000000000 (only parsing).
#[local] Notation Q8 := 3125000000000 (only parsing).
#[local] Notation S78 := 809375000000000 (only parsing).
#[local] Notation R := 900000000000000 (only parsing).

Lemma noises : squared_nanos kProcessNoise = double_of_Z Q /\ squared_nanos kMeasurementNoise = double_of_Z R.
Proof. by split. Qed.

(** Fractions with a power of two as denominator. *)
Lemma units_int_mul x k : 0 <= k <= 3000 -> units x (- k) * 2 ^ 3000 = int x * 2 ^ (3000 - k).
Proof.
  intros Hk. unfold int, units. rewrite <- !Z.mul_assoc, <- !Z.pow_add_r by lia. do 2 f_equal. lia.
Qed.

Lemma int_pos z : 0 < z -> 0 < int z.
Proof. intros. unfold int, units. apply Z.mul_pos_pos; lia. Qed.

Lemma represented_fraction x k : Z.abs x < 2 ^ 53 -> 0 <= k <= 3000 -> represented (units x (- k)).
Proof. intros. exists x, (- k). split_and!; [done | done | lia]. Qed.

Lemma int_add x y : int (x + y) = int x + int y.
Proof. unfold int, units. ring. Qed.
Lemma int_mul x y : int (x * y) = x * int y.
Proof. unfold int, units. ring. Qed.

Lemma int_bits z a b : 0 <= a -> 0 <= b -> 2 ^ a <= z <= 2 ^ b -> units 1 a <= Z.abs (int z) <= units 1 b.
Proof.
  intros Ha Hb Hz. assert (0 < 2 ^ a) by (apply Z.pow_pos_nonneg; lia).
  split; [| apply int_log2_bound; [done | lia]]. unfold int. rewrite Z.abs_eq; [| by apply Z.lt_le_incl, int_pos; lia].
  change a with (0 + a) at 1. rewrite units_shift by lia. unfold units. apply Z.mul_le_mono_nonneg_r; [| lia].
  apply Z.pow_nonneg; lia.
Qed.

(** A number between two integers has an exponent between theirs. *)
Lemma within_ints lo hi f x y a b :
  - 3000 <= lo -> 0 <= a -> 0 <= b -> 2 ^ a <= x -> x <= y -> y <= 2 ^ b -> within lo hi f -> int x <= value f <= int y ->
  within (a - 53) b f.
Proof.
  intros Hlo Ha Hb Hx Hxy Hy Hf Hv. assert (0 < 2 ^ a) by (apply Z.pow_pos_nonneg; lia).
  pose proof (int_bits x a b Ha Hb ltac:(lia)). pose proof (int_bits y a b Ha Hb ltac:(lia)).
  pose proof (int_pos x ltac:(lia)). apply (within_range lo hi); try done; lia.
Qed.

Lemma represented_double lo hi f : - 3000 <= lo -> within lo hi f -> represented (2 * value f).
Proof.
  intros Hlo. destruct f as [| | | s m e]; cbn [within value]; try done.
  - intros _. by exists 0, 0.
  - intros [Hm He]. exists (cond_Zopp s (Zpos m)), (e + 1). rewrite units_shift by lia.
    change (2 ^ 1) with 2. unfold units. destruct s; cbn [cond_Zopp]; split_and!; lia.
Qed.

Section Gain.
Context (P : double).
Hypotheses (HP : within (-20) 60 P) (HPv : int (Q8) <= value P <= int R).

Definition predicted : double := dadd P (double_of_Z Q).
Definition total : double := dadd predicted (double_of_Z R).
Definition gain : double := ddiv predicted total.

Lemma predicted_ok : within (-9) 50 predicted /\ int Q <= value predicted <= int (R + Q).
Proof using HP HPv.
  destruct (double_of_Z_int Q) as [Hq Eq]; [lia |].
  destruct (dadd_rounds (-52) 60 P (double_of_Z Q)) as [Hw Hr]; [lia | lia | lia | | |].
  { eapply within_weak; [| | exact HP]; lia. }
  { eapply within_weak; [| | exact Hq]; lia. }
  assert (Hb : int Q <= value predicted <= int (R + Q)).
  { eapply rounds_between; [exact Hr | apply int_represented; lia .. |]. rewrite Eq, int_add.
    pose proof (int_pos (Q8) ltac:(done)). lia. }
  split; [| exact Hb]. apply (within_ints _ _ _ _ _ 44 50) with (7 := Hw) (8 := Hb); lia.
Qed.

Lemma total_ok : within (-9) 51 total /\ value predicted <= value total /\
  int (R + Q) <= value total <= int (2 * R + Q) /\ (int R <= value predicted -> value total <= 2 * value predicted) /\
  (int (S78) <= value predicted -> int (S78 + R) <= value total).
Proof using HP HPv.
  destruct predicted_ok as [Hp Hpv]. destruct (double_of_Z_int R) as [Hw2 Er]; [lia |].
  destruct (dadd_rounds (-52) 60 predicted (double_of_Z R)) as [Hw Hr]; [lia | lia | lia | | |].
  { eapply within_weak; [| | exact Hp]; lia. }
  { eapply within_weak; [| | exact Hw2]; lia. }
  fold total in Hw, Hr. rewrite Er in Hr. pose proof (int_pos R ltac:(done)).
  assert (Hrp : represented (value predicted)) by (eapply represented_value; [| exact Hp]; lia).
  assert (Hb : int (R + Q) <= value total <= int (2 * R + Q)).
  { eapply rounds_between; [exact Hr | apply int_represented; lia .. |].
    replace (2 * R + Q) with (R + Q + R) by lia. rewrite (int_add (R + Q)). rewrite (Z.add_comm R Q) at 1. rewrite int_add. lia. }
  split_and!.
  - apply (within_ints _ _ _ _ _ 44 51) with (7 := Hw) (8 := Hb); lia.
  - apply Hr; [done | lia].
  - apply Hb.
  - apply Hb.
  - intros Hle. apply Hr; [| lia].
    eapply represented_double; [| exact Hp]. lia.
  - intros Hle. apply Hr; [apply int_represented; lia |]. rewrite int_add. lia.
Qed.

(** The gain is between 1/128 and 7/8, and at least 1/2 when the predicted
    covariance is at least the measurement's. *)
Lemma gain_ok : within (-200) 0 gain /\ units 1 (-7) <= value gain <= units 7 (-3) /\
  (int R <= value predicted -> units 1 (-1) <= value gain).
Proof using HP HPv.
  destruct predicted_ok as [Hp Hpv]. destruct total_ok as (Ht & Hpt & Htv & Hhalf & Hlarge).
  pose proof (int_pos (R + Q) ltac:(done)) as Hpos.
  destruct (ddiv_rounds (-52) 60 predicted total) as [Hw Hr]; [lia | lia | lia | | | lia |].
  { eapply within_weak; [| | exact Hp]; lia. }
  { eapply within_weak; [| | exact Ht]; lia. }
  fold gain in Hw, Hr.
  assert (Hside : forall x k, 0 <= k <= 3000 ->
    (units x (- k) * value total <= value predicted * 2 ^ 3000 <-> x * value total <= value predicted * 2 ^ k) /\
    (value predicted * 2 ^ 3000 <= units x (- k) * value total <-> value predicted * 2 ^ k <= x * value total)).
  { intros x k Hk. unfold units. replace (2 ^ 3000) with (2 ^ k * 2 ^ (- k + 3000)) by (rewrite <- Z.pow_add_r by lia; f_equal; lia).
    assert (0 < 2 ^ (- k + 3000)) as Hz by (apply Z.pow_pos_nonneg; lia). set (z := 2 ^ (- k + 3000)) in *. clearbody z.
    replace (x * z * value total) with (x * value total * z) by ring. rewrite Z.mul_assoc.
    rewrite <- !Z.mul_le_mono_pos_r by done. done. }
  assert (Hb : units 1 (-7) <= value gain <= units 7 (-3)).
  { pose proof (int_mul 2 R). pose proof (int_mul 128 Q). pose proof (int_mul 8 S78). pose proof (int_mul 7 (R + Q)).
    pose proof (int_mul 8 (R + Q)). pose proof (int_mul 7 (S78 + R)). split.
    - apply Hr; [apply (represented_fraction 1 7); lia |]. apply (Hside 1 7); [lia |].
      change (2 ^ 7) with 128. assert (int (2 * R + Q) <= int (128 * Q)) by (apply int_le; lia). lia.
    - apply Hr; [apply (represented_fraction 7 3); lia |]. apply (Hside 7 3); [lia |]. change (2 ^ 3) with 8.
      destruct (Z_le_gt_dec (int S78) (value predicted)) as [Hle | Hgt].
      + specialize (Hlarge Hle). assert (int (8 * (R + Q)) <= int (7 * (S78 + R))) by (apply int_le; lia). lia.
      + assert (int (8 * S78) = int (7 * (R + Q))) by (f_equal; lia). lia. }
  split; [| split; [exact Hb |]].
  - apply within_weak with (-7 - 53) 0; [lia | lia |]. eapply within_range; [| | | exact Hw |]; [lia | lia | lia |].
    assert (units 7 (-3) <= units 1 0) by (change 0 with (-3 + 3); rewrite (units_shift 1) by lia; unfold units; lia).
    assert (0 < units 1 (-7)) by (unfold units; lia). lia.
  - intros Hle. apply Hr; [apply (represented_fraction 1 1); lia |]. apply (Hside 1 1); [lia |]. change (2 ^ 1) with 2.
    specialize (Hhalf Hle). lia.
Qed.

(** The new covariance is at most the measurement's, and not too small. *)
Definition covariance : double := dmul (dsub (double_of_Z 1) gain) predicted.

Lemma covariance_ok : within (-20) 60 covariance /\ int Q8 <= value covariance <= int R.
Proof using HP HPv.
  destruct predicted_ok as [Hp Hpv]. destruct gain_ok as (Hg & Hgv & Hhalf).
  destruct (double_of_Z_int 1) as [Hw1 E1]; [lia |].
  destruct (dsub_rounds (-200) 60 (double_of_Z 1) gain) as [Hw Hr]; [lia | lia | lia | | |].
  { eapply within_weak; [| | exact Hw1]; lia. }
  { eapply within_weak; [| | exact Hg]; lia. }
  rewrite E1 in Hr. set (rest := dsub (double_of_Z 1) gain) in *.
  assert (Hone : int 1 = units 8 (-3)) by (unfold int; change 0 with (-3 + 3); rewrite units_shift by lia; done).
  assert (Hrv : units 1 (-3) <= value rest <= int 1).
  { eapply rounds_between; [exact Hr | apply (represented_fraction 1 3); lia | apply int_represented; lia |].
    rewrite Z.mul_1_r, Z.mul_1_r, Hone. assert (units 8 (-3) = units 7 (-3) + units 1 (-3)) by (unfold units; ring).
    assert (0 < units 1 (-7)) by (unfold units; lia). lia. }
  assert (Hrh : int R <= value predicted -> value rest <= units 1 (-1)).
  { intros Hle. specialize (Hhalf Hle). apply Hr; [apply (represented_fraction 1 1); lia |].
    assert (int 1 = units 1 (-1) + units 1 (-1)) by (unfold int; change 0 with (-1 + 1); rewrite units_shift by lia; unfold units; ring).
    lia. }
  destruct (dmul_rounds (-200) 60 rest predicted) as [Hcw Hcr]; [lia | lia | lia | | |].
  { apply within_weak with (-3 - 53) 0; [lia | lia |]. eapply within_range; [| | | exact Hw |]; [lia | lia | lia |].
    unfold int in Hrv. assert (0 < units 1 (-3)) by (unfold units; lia). lia. }
  { eapply within_weak; [| | exact Hp]; lia. }
  fold covariance in Hcw, Hcr.
  assert (Hfrac : forall x y k, 0 <= k <= 3000 -> y * 2 ^ k = x -> units 1 (- k) * int x = int y * 2 ^ 3000).
  { intros x y k Hk <-. unfold int, units. rewrite Z.mul_1_l.
    replace (2 ^ 3000) with (2 ^ k * 2 ^ (- k + 3000)) by (rewrite <- Z.pow_add_r by lia; f_equal; lia). ring. }
  pose proof (int_pos Q ltac:(done)). pose proof (int_pos R ltac:(done)).
  assert (0 < units 1 (-3) /\ 0 < units 1 (-1)) as [? ?] by (split; unfold units; lia).
  assert (Hcv : int Q8 <= value covariance <= int R).
  { eapply rounds_between; [exact Hcr | apply int_represented; lia .. |]. split.
    - rewrite <- (Hfrac Q Q8 3) by lia. change (- (3)) with (-3). apply Z.mul_le_mono_nonneg; lia.
    - destruct (Z_le_gt_dec (int R) (value predicted)) as [Hle | Hgt].
      + transitivity (units 1 (-1) * int (2 * R)).
        * specialize (Hrh Hle). assert (int (R + Q) <= int (2 * R)) by (apply int_le; lia). apply Z.mul_le_mono_nonneg; lia.
        * change (-1) with (- (1)). rewrite (Hfrac (2 * R) R 1) by lia. done.
      + transitivity (int 1 * int R); [apply Z.mul_le_mono_nonneg; lia |].
        replace (int 1) with (2 ^ 3000) by (unfold int, units; lia). lia. }
  split; [| exact Hcv]. apply within_weak with (41 - 53) 50; [lia | lia |].
  apply (within_ints _ _ _ _ _ 41 50) with (7 := Hcw) (8 := Hcv); lia.
Qed.
End Gain.

(** * The filter *)

Lemma initial_covariance_ok : within (-20) 60 (double_of_Z R) /\ int Q8 <= value (double_of_Z R) <= int R.
Proof.
  destruct (double_of_Z_int R) as [Hw E]; [lia |].
  assert (Hv : int R <= value (double_of_Z R) <= int R) by (rewrite E; lia).
  split; [apply (within_weak (44 - 53) 50); [lia | lia |] | split; [| apply Hv]].
  - apply (within_ints (-52) 53 (double_of_Z R) R R 44 50); try lia; assumption.
  - transitivity (int R); [apply int_le; lia | apply Hv].
Qed.

(** The filter of the estimator: its noises, and a covariance that stays in
    range once there is an estimate. *)
Definition kalman_ok (k : KalmanFilter) : Prop :=
  q_nanos_squared_ k = double_of_Z Q /\ r_nanos_squared_ k = double_of_Z R /\
  (has_estimate_ k = true -> let P := error_covariance_nanos_squared_ k in
    within (-20) 60 P /\ int Q8 <= value P <= int R).

Lemma new_kalman_ok : kalman_ok (new_KalmanFilter kProcessNoise kMeasurementNoise).
Proof. destruct noises as [E1 E2]. by split_and!. Qed.

Lemma Kalman_Update_has m k : has_estimate_ (Kalman_Update m k) = true.
Proof. unfold Kalman_Update. destruct (has_estimate_ k) eqn:E; cbn; [exact E | done]. Qed.

Lemma Kalman_Update_kalman_ok m k : kalman_ok k -> kalman_ok (Kalman_Update m k).
Proof.
  intros (Hq & Hr & HP). unfold Kalman_Update. destruct (has_estimate_ k) eqn:E; cbn.
  - specialize (HP eq_refl) as [HPw HPv]. split_and!; try done. intros _. rewrite Hq, Hr.
    by apply covariance_ok.
  - split_and!; try done. intros _. rewrite Hr. exact initial_covariance_ok.
Qed.

(** Times that are handled exactly: 52 days. *)
Definition time_limit : Z := 4500000000000.

(** A number between [a] and [b], which may be in either order. *)
Definition between (a b x : Z) : Prop := Z.min a b <= x <= Z.max a b.

(** An operation whose exact result is between two represented numbers. *)
Lemma rounds_within num den r a b :
  rounds num den r -> represented a -> represented b -> between (a * den) (b * den) num -> 0 < den ->
  between a b (value r).
Proof.
  intros Hr Ha Hb Hn Hden. unfold between in *. destruct (Z_le_gt_dec a b) as [Hle | Hgt].
  - assert (a * den <= b * den) by (by apply Z.mul_le_mono_pos_r).
    pose proof (rounds_between num den r a b Hr Ha Hb). lia.
  - assert (b * den <= a * den) by (apply Z.mul_le_mono_pos_r; lia).
    pose proof (rounds_between num den r b a Hr Hb Ha). lia.
Qed.

Lemma int_between a b x : between (int a) (int b) (int x) <-> between a b x.
Proof.
  unfold between. pose proof (int_le a b). pose proof (int_le b a). pose proof (int_le a x). pose proof (int_le x a).
  pose proof (int_le b x). pose proof (int_le x b). lia.
Qed.

Lemma trunc_between lo hi f a b :
  - 3000 <= lo -> within lo hi f -> between (int a) (int b) (value f) -> between a b (double_trunc f).
Proof.
  intros Hlo Hf Hv. unfold between in *. pose proof (int_le a b). pose proof (int_le b a).
  pose proof (double_trunc_between lo hi f a b Hlo Hf). pose proof (double_trunc_between lo hi f b a Hlo Hf). lia.
Qed.

Lemma quot_between a b x c : 0 < c -> between (a * c) (b * c) x -> between a b (Z.quot x c).
Proof.
  intros Hc Hx. unfold between in *.
  assert (Hq : forall z, Z.quot (z * c) c = z) by (intros; apply Z.quot_mul; lia).
  assert (Hmono : forall z, (z * c <= x -> z <= Z.quot x c) /\ (x <= z * c -> Z.quot x c <= z)).
  { intros z. rewrite <- (Hq z) at 2 4. split; intros; by apply Z.quot_le_mono. }
  pose proof (Hmono a). pose proof (Hmono b). nia.
Qed.

(** A fraction of a difference. *)
Lemma scaled_between g one d : 0 <= g <= one -> between 0 (d * one) (g * d).
Proof. unfold between. intros. destruct (Z_le_gt_dec 0 d); nia. Qed.

Section Step.
Context (g dm de : double) (m e : Z).
Hypotheses (Hg : within (-200) 0 g) (Hgv : units 1 (-7) <= value g <= units 7 (-3))
  (Hdm : within (-52) 53 dm) (Hde : within (-52) 53 de) (Em : value dm = int m) (Ee : value de = int e)
  (Hm : Z.abs m < 2 ^ 52) (He : Z.abs e < 2 ^ 52).

Lemma difference_exact : within (-104) 53 (dsub dm de) /\ value (dsub dm de) = int (m - e).
Proof using Hdm Hde Em Ee Hm He.
  destruct (dsub_rounds (-52) 53 dm de) as [Hw Hr]; [lia | lia | lia | done | done |].
  rewrite Em, Ee in Hr. assert (Hd : int m - int e = int (m - e)) by (unfold int, units; ring).
  rewrite Hd in Hr. destruct (Hr (int (m - e))) as [H1 H2]; [apply int_represented; lia |].
  assert (Ev : value (dsub dm de) = int (m - e)) by lia. split; [| done].
  apply (within_above _ 900); [lia | lia | exact Hw |]. rewrite Ev. apply int_log2_bound; lia.
Qed.

Lemma correction_between : within (-400) 53 (dmul g (dsub dm de)) /\ between 0 (int (m - e)) (value (dmul g (dsub dm de))).
Proof using Hg Hgv Hdm Hde Em Ee Hm He.
  destruct difference_exact as [Hd Ed]. set (d := dsub dm de) in *. clearbody d.
  destruct (dmul_rounds (-200) 60 g d) as [Hw Hr]; [lia | lia | lia | | |].
  { eapply within_weak; [| | exact Hg]; lia. }
  { eapply within_weak; [| | exact Hd]; lia. }
  assert (Hb : between 0 (int (m - e)) (value (dmul g d))).
  { eapply (rounds_within _ _ _ _ _ Hr); [by exists 0, 0 | apply int_represented; lia | | apply Z.pow_pos_nonneg; lia].
    rewrite Ed, Z.mul_0_l. apply scaled_between. assert (0 < units 1 (-7)) by (unfold units; lia).
    assert (units 7 (-3) <= 2 ^ 3000) by (unfold units; lia). lia. }
  split; [| exact Hb]. apply (within_above _ 900); [lia | lia | exact Hw |].
  pose proof (int_log2_bound (m - e) 53). unfold between in Hb. lia.
Qed.

Lemma step_between : between e m (double_trunc (dadd de (dmul g (dsub dm de)))).
Proof using Hg Hgv Hdm Hde Em Ee Hm He.
  destruct correction_between as [Hc Hcv]. set (c := dmul g (dsub dm de)) in *. clearbody c.
  destruct (dadd_rounds (-400) 60 de c) as [Hw Hr]; [lia | lia | lia | | |].
  { eapply within_weak; [| | exact Hde]; lia. }
  { eapply within_weak; [| | exact Hc]; lia. }
  eapply trunc_between; [| exact Hw |]; [lia |].
  eapply (rounds_within _ _ _ _ _ Hr); [apply int_represented; lia .. | | lia].
  assert (int m = int e + int (m - e)) by (unfold int, units; ring). unfold between in *. rewrite !Z.mul_1_r. lia.
Qed.
End Step.

(** The estimate moves towards the measurement, and not past it. *)
Lemma Kalman_Update_between m k :
  kalman_ok k -> has_estimate_ k = true -> Z.abs m <= time_limit -> Z.abs (estimated_latency_ k) <= time_limit ->
  between (estimated_latency_ k) m (estimated_latency_ (Kalman_Update m k)).
Proof.
  intros (Hq & Hr & HP) E Hm He. specialize (HP E) as [HPw HPv]. unfold Kalman_Update. rewrite E. cbn [negb update].
  rewrite Hq, Hr. fold (predicted (error_covariance_nanos_squared_ k)). fold (total (error_covariance_nanos_squared_ k)).
  fold (gain (error_covariance_nanos_squared_ k)). destruct (gain_ok _ HPw HPv) as (Hg & Hgv & _).
  set (g := gain _) in *. clearbody g. set (e := estimated_latency_ k) in *. clearbody e. unfold nanoseconds, time_limit in *.
  destruct (double_of_Z_int (m * 1000)) as [Hmw Em]; [lia |]. destruct (double_of_Z_int (e * 1000)) as [Hew Ee]; [lia |].
  set (dm := double_of_Z (m * 1000)) in *. set (de := double_of_Z (e * 1000)) in *. clearbody dm de.
  cbn. apply quot_between; [lia |]. apply step_between; try done; lia.
Qed.

(** * The bound of one direction *)

(** What a calculator is told: when the event of a key was sent, or received. *)
Inductive TimeEvent :=
  | SentAt (rtp packet_id : Z) (audio : bool) (t : Z)
  | ReceivedAt (rtp packet_id : Z) (audio : bool) (t : Z).

Definition bound_step (b : BoundCalculator) (ev : TimeEvent) : BoundCalculator :=
  match ev with
  | SentAt rtp packet_id audio t => SetSent rtp packet_id audio t b
  | ReceivedAt rtp packet_id audio t => SetReceived rtp packet_id audio t b
  end.

Definition sent_at (evs : list TimeEvent) (key t : Z) : Prop :=
  exists rtp packet_id audio, SentAt rtp packet_id audio t ∈ evs /\ MakeEventKey rtp packet_id audio = key.
Definition received_at (evs : list TimeEvent) (key t : Z) : Prop :=
  exists rtp packet_id audio, ReceivedAt rtp packet_id audio t ∈ evs /\ MakeEventKey rtp packet_id audio = key.

Section Bound.
Context (evs : list TimeEvent) (lo hi : Z).
Hypotheses (Hlo : - time_limit <= lo) (Hhi : hi <= time_limit)
  (Hrange : forall key s r, sent_at evs key s -> received_at evs key r -> lo <= r - s <= hi).

Definition pair_ok (kv : Z * TimeTickPair) : Prop :=
  (forall s, kv.2.1 = Some s -> sent_at evs kv.1 s) /\ (forall r, kv.2.2 = Some r -> received_at evs kv.1 r).

Record bound_ok (b : BoundCalculator) : Prop := {
  bound_filter : kalman_ok (filter_ b);
  bound_range : has_bound b = true -> lo <= bound b <= hi;
  bound_pairs : Forall pair_ok (events_ b);
  bound_ordered : ordered (events_ b);
  bound_size : (length (events_ b) <= kMaxEventTimesMapSize)%nat }.

Lemma new_bound_ok : bound_ok new_BoundCalculator.
Proof using. constructor; cbn; [apply new_kalman_ok | done | constructor | constructor | unfold kMaxEventTimesMapSize; lia]. Qed.

Lemma event_times_ok key b : Forall pair_ok (events_ b) -> pair_ok (key, event_times key b).
Proof using.
  intros Hp. unfold event_times. destruct (map_find key (events_ b)) as [p |] eqn:E; cbn; [| by split].
  apply map_find_elem in E. by eapply Forall_forall in Hp.
Qed.

Lemma UpdateBound_range s r b key :
  bound_ok b -> sent_at evs key s -> received_at evs key r ->
  kalman_ok (filter_ (UpdateBound s r b)) /\ lo <= bound (UpdateBound s r b) <= hi.
Proof using Hlo Hhi Hrange.
  intros Hb Hs Hr. specialize (Hrange key s r Hs Hr). destruct Hb as [Hk Hbr _ _ _].
  split; [by apply Kalman_Update_kalman_ok |]. unfold bound. cbn [UpdateBound filter_ update].
  destruct (has_estimate_ (filter_ b)) eqn:E.
  - specialize (Hbr E). unfold bound in Hbr.
    destruct (Kalman_Update_between (r - s) (filter_ b) Hk E) as [H1 H2]; cbn; lia.
  - cbn. unfold Kalman_Update. rewrite E. cbn. lia.
Qed.

(** One event: [set_times] is what [SetSent] and [SetReceived] do before they check. *)
Lemma CheckUpdate_ok key times b :
  bound_ok b -> pair_ok (key, times) ->
  bound_ok (CheckUpdate key (b <| events_ := map_set key times (events_ b) |>)).
Proof using Hlo Hhi Hrange.
  intros Hb Ht. pose proof Hb as [Hk Hbr Hp Ho Hn]. unfold CheckUpdate, event_times. cbn [events_ update].
  rewrite map_find_set_eq. cbn [default].
  assert (Hp' : Forall pair_ok (map_set key times (events_ b))).
  { apply Forall_forall. intros kv Hkv. apply map_set_elem in Hkv as [-> | Hkv]; [done |]. by eapply Forall_forall in Hp. }
  pose proof (ordered_set key times _ Ho) as Ho'. pose proof (length_set key times (events_ b)) as Hn'.
  set (m := map_set key times (events_ b)) in *.
  assert (Hkeep : bound_ok (if (kMaxEventTimesMapSize <? length m)%nat
    then (b <| events_ := m |>) <| events_ := tail m |> else b <| events_ := m |>)).
  { destruct (Nat.ltb_spec kMaxEventTimesMapSize (length m)); constructor; cbn; try done.
    - destruct m; [constructor | by inversion Hp'].
    - by apply ordered_tail.
    - destruct m; cbn in *; lia. }
  destruct times as [[s |] [r |]]; try exact Hkeep.
  destruct Ht as [Hs Hr]. destruct (UpdateBound_range s r b key Hb) as [Hk' Hr']; [by apply Hs | by apply Hr |].
  constructor; cbn; try done.
  - apply Forall_forall. intros kv Hkv. apply map_erase_elem in Hkv. by eapply Forall_forall in Hp'.
  - by apply ordered_erase.
  - assert (is_Some (map_find key m)) as Hf by (unfold m; rewrite map_find_set_eq; by eexists).
    pose proof (length_erase_found key m Hf). lia.
Qed.

Lemma bound_step_ok ev b : ev ∈ evs -> bound_ok b -> bound_ok (bound_step b ev).
Proof using Hlo Hhi Hrange.
  intros Hev Hb. destruct ev as [rtp pid a t | rtp pid a t]; cbn [bound_step]; unfold SetSent, SetReceived;
    apply CheckUpdate_ok; try done; destruct (event_times_ok (MakeEventKey rtp pid a) b) as [Hs Hr]; try apply Hb;
    split; cbn; try done; intros ? [= <-]; by exists rtp, pid, a.
Qed.

Lemma bound_steps_ok l b : l ⊆ evs -> bound_ok b -> bound_ok (foldl bound_step b l).
Proof using Hlo Hhi Hrange.
  revert b. induction l as [| ev l IH]; intros b Hl Hb; cbn; [done |].
  apply IH; [set_solver |]. apply bound_step_ok; [set_solver | done].
Qed.
End Bound.

(** * The estimator *)

Inductive EstimatorEvent := OfFrame (e : FrameEvent) | OfPacket (e : PacketEvent).

Definition estimator_step (e : ClockOffsetEstimatorImpl) (ev : EstimatorEvent) : ClockOffsetEstimatorImpl :=
  match ev with OfFrame f => OnFrameEvent f e | OfPacket p => OnPacketEvent p e end.

(** What the calculators of packets and of acknowledgements are told. *)
Definition packet_time (ev : EstimatorEvent) : option TimeEvent :=
  match ev with
  | OfPacket p => let e := packet_event p in
      match ev_type e with
      | kPacketSentToNetwork => Some (SentAt (ev_rtp_timestamp e) (ev_packet_id p) (is_audio e) (ev_timestamp e))
      | kPacketReceived => Some (ReceivedAt (ev_rtp_timestamp e) (ev_packet_id p) (is_audio e) (ev_timestamp e))
      | _ => None
      end
  | OfFrame _ => None
  end.
Definition ack_time (ev : EstimatorEvent) : option TimeEvent :=
  match ev with
  | OfFrame f => let e := frame_event f in
      match ev_type e with
      | kFrameAckSent => Some (SentAt (ev_rtp_timestamp e) 0 (is_audio e) (ev_timestamp e))
      | kFrameAckReceived => Some (ReceivedAt (ev_rtp_timestamp e) 0 (is_audio e) (ev_timestamp e))
      | _ => None
      end
  | OfPacket _ => None
  end.

Lemma estimator_bounds es e :
  foldl estimator_step e es
  = mkClockOffset (foldl bound_step (packet_bound_ e) (omap packet_time es))
      (foldl bound_step (frame_bound_ e) (omap ack_time es)).
Proof.
  revert e. induction es as [| ev es IH]; intros e; cbn [foldl omap list_omap]; [by destruct e |]. rewrite IH.
  destruct ev as [f | p]; cbn [estimator_step packet_time ack_time OnFrameEvent OnPacketEvent ClockOffsetEstimatorImpl_estimator].
  - unfold Impl_OnFrameEvent. by destruct (ev_type (frame_event f)).
  - unfold Impl_OnPacketEvent. by destruct (ev_type (packet_event p)).
Qed.

(** The times of the events are those of a network with latencies between
    [lmin] and [lmax], in both directions, and of clocks that are [offset] apart. *)
Definition times_explained (offset lmin lmax : Z) (es : list EstimatorEvent) : Prop :=
  (forall key s r, sent_at (omap packet_time es) key s -> received_at (omap packet_time es) key r ->
    lmin <= r - s - offset <= lmax) /\
  (forall key s r, sent_at (omap ack_time es) key s -> received_at (omap ack_time es) key r ->
    lmin <= r - s + offset <= lmax).

Definition run_estimator (es : list EstimatorEvent) : ClockOffsetEstimatorImpl :=
  foldl estimator_step new_ClockOffsetEstimatorImpl es.

Lemma run_estimator_ok offset lmin lmax es :
  times_explained offset lmin lmax es -> Z.abs offset + Z.abs lmin <= time_limit -> Z.abs offset + Z.abs lmax <= time_limit ->
  bound_ok (omap packet_time es) (offset + lmin) (offset + lmax) (packet_bound_ (run_estimator es)) /\
  bound_ok (omap ack_time es) (lmin - offset) (lmax - offset) (frame_bound_ (run_estimator es)).
Proof.
  intros [Hp Ha] H1 H2. unfold run_estimator. rewrite estimator_bounds. cbn [packet_bound_ frame_bound_].
  split; apply bound_steps_ok; try done; try apply new_bound_ok; try lia.
  - intros key s r Hs Hr. specialize (Hp key s r Hs Hr). lia.
  - intros key s r Hs Hr. specialize (Ha key s r Hs Hr). lia.
Qed.

(** C12 The offset of the receiver's clock is known as well as the network
    allows: whatever the events and their order, however many are lost or come twice, if
    every latency is between [lmin] and [lmax], the estimate is off by at most
    half of the difference (and the microsecond that is rounded), and the estimate of the
    latency is between them; no more than 500 events of each kind are kept. *)
Theorem clock_offset_is_known (offset lmin lmax : Z) (es : list EstimatorEvent) :
  times_explained offset lmin lmax es -> Z.abs offset + Z.abs lmin <= time_limit -> Z.abs offset + Z.abs lmax <= time_limit ->
  let e := run_estimator es in
  (forall x, GetEstimatedOffset e = Some x -> 2 * Z.abs (x - offset) <= lmax - lmin + 1) /\
  (forall y, GetEstimatedLatency e = Some y -> lmin <= y <= lmax) /\
  (length (events_ (packet_bound_ e)) <= 500)%nat /\ (length (events_ (frame_bound_ e)) <= 500)%nat.
Proof.
  intros Ht H1 H2 e. destruct (run_estimator_ok offset lmin lmax es Ht H1 H2) as [Hp Hf]. fold e in Hp, Hf.
  assert (Hb : forall fb pb, GetReceiverOffsetBounds e = Some (fb, pb) ->
    offset - lmax <= fb <= offset - lmin /\ offset + lmin <= pb <= offset + lmax).
  { intros fb pb. unfold GetReceiverOffsetBounds. destruct (has_bound (frame_bound_ e)) eqn:Ef; [| done].
    destruct (has_bound (packet_bound_ e)) eqn:Ep; [| done]. cbn. intros [= <- <-].
    pose proof (bound_range _ _ _ _ Hp Ep). pose proof (bound_range _ _ _ _ Hf Ef). lia. }
  cbn [GetEstimatedOffset GetEstimatedLatency ClockOffsetEstimatorImpl_estimator].
  unfold Impl_GetEstimatedOffset, Impl_GetEstimatedLatency. split_and!.
  - intros x. destruct (GetReceiverOffsetBounds e) as [[fb pb] |]; [| done]. cbn. intros [= <-].
    specialize (Hb _ _ eq_refl). pose proof (Z.quot_rem (pb + fb) 2 ltac:(done)).
    pose proof (Z.rem_bound_abs (pb + fb) 2 ltac:(done)). lia.
  - intros y. destruct (GetReceiverOffsetBounds e) as [[fb pb] |]; [| done]. cbn. intros [= <-].
    specialize (Hb _ _ eq_refl). pose proof (Z.quot_rem (pb - fb) 2 ltac:(done)).
    pose proof (Z.rem_bound_abs (pb - fb) 2 ltac:(done)). lia.
  - apply Hp.
  - apply Hf.
Qed.

(** Clocks 7 seconds apart, latencies of 10 to 30 ms; the second packet overtakes the first. *)
Definition demo_packet_event (type : EventType) (rtp t : Z) : EstimatorEvent :=
  OfPacket (new_PacketEvent (mkEvent null_frame_id type kVideoMedia rtp 1000 t 0)).
Definition demo_ack_event (type : EventType) (rtp t : Z) : EstimatorEvent :=
  OfFrame (new_FrameEvent (mkEvent null_frame_id type kVideoMedia rtp 0 t 0)).
Definition demo_times : list EstimatorEvent := [
  demo_packet_event kPacketSentToNetwork 90 1000000; demo_packet_event kPacketSentToNetwork 180 1001000;
  demo_packet_event kPacketReceived 180 8011000; demo_packet_event kPacketReceived 90 8030000;
  demo_ack_event kFrameAckSent 90 8031000; demo_ack_event kFrameAckReceived 90 1051000 ].

Lemma demo_times_explained : times_explained 7000000 10000 30000 demo_times.
Proof.
  split; intros key s r (r1 & p1 & a1 & H1 & <-) (r2 & p2 & a2 & H2 & E); cbn in H1, H2;
    repeat (rewrite ?elem_of_cons, ?elem_of_nil in H1, H2); destruct_or?; simplify_eq; try lia; vm_compute in E; done.
Qed.

Lemma clock_offset_is_known_witness :
  GetEstimatedOffset (run_estimator demo_times) = Some 7000068 /\
  (forall x, GetEstimatedOffset (run_estimator demo_times) = Some x -> 2 * Z.abs (x - 7000000) <= 30000 - 10000 + 1) /\
  (forall y, GetEstimatedLatency (run_estimator demo_times) = Some y -> 10000 <= y <= 30000) /\
  (length (events_ (packet_bound_ (run_estimator demo_times))) <= 500)%nat /\
  (length (events_ (frame_bound_ (run_estimator demo_times))) <= 500)%nat.
Proof.
  split; [vm_compute; reflexivity |].
  apply (clock_offset_is_known 7000000 10000 30000 demo_times demo_times_explained); unfold time_limit; lia.
Defined.

(** A second measurement moves the estimate by half of the difference, and a bit. *)
Example kalman_steps :
  let k := Kalman_Update 20000 (new_KalmanFilter kProcessNoise kMeasurementNoise) in
  estimated_latency_ k = 20000 /\ estimated_latency_ (Kalman_Update 30000 k) = 25068
  /\ estimated_latency_ (Kalman_Update (-30000) (Kalman_Update 30000 k)) = 5883.
Proof. vm_compute. auto. Qed.
