(* ===== verification/StatisticsAnalyzer.v ===== *)
(** The analysis of statistics events
    (cast/streaming/impl/statistics_analyzer.h and .cc).

    The analyzer takes the collector's events twice a second, keeps sums of
    what it saw and gives its client the list of statistics and the histograms.  The estimator
    of the clock offset is any instance of the class of ClockOffset.v.  The elements of
    a list of statistics that are not set are what the memory of the local variable holds:
    an argument. Counters and sums of times are exact, sums of sizes wrap at 32 bits. *)

From S2P Require Import Prelude Numeric Ids RtcpCommon OrderedMap Alarm Statistics StatisticsEvents ClockOffset.

Definition kAnalysisInterval : Z := 500000.
Definition kMaxRecentPacketInfoMapSize : nat := 1000.
Definition kMaxRecentFrameInfoMapSize : nat := 200.
Definition kDefaultMaxLatencyBucketMs : Z := 800.
Definition kDefaultBucketWidthMs : Z := 20.

Definition InMilliseconds (duration : Z) : double := double_of_Z (Z.quot duration 1000).

Definition IsReceiverEvent (event : EventType) : bool :=
  match event with kFrameAckSent | kFrameDecoded | kFramePlayedOut | kPacketReceived => true | _ => false end.

(** ** Keys of the maps *)

Definition event_type_value (type : EventType) : Z :=
  match type with
  | kUnknownEvent => 0 | kFrameCaptureBegin => 1 | kFrameCaptureEnd => 2 | kFrameEncoded => 3
  | kFrameAckReceived => 4 | kFrameAckSent => 5 | kFrameDecoded => 6 | kFramePlayedOut => 7
  | kPacketSentToNetwork => 8 | kPacketRetransmitted => 9 | kPacketRtxRejected => 10
  | kPacketReceived => 11 | kFrameDroppedByEncoder => 15
  end.
#[export] Instance EventType_order : KeyOrder EventType.
Proof. apply (KeyOrder_by event_type_value). by intros [] []. Defined.
#[export] Instance StatisticType_order : KeyOrder StatisticType.
Proof. apply (KeyOrder_by (fun type => Z.of_nat (statistic_index type))). by intros [] []. Defined.

(** * State *)

Record FrameStatsAggregate := mkFrameStats { frame_event_counter : Z; frame_sum_size : Z; frame_sum_delay : Z }.
Record PacketStatsAggregate := mkPacketStats { packet_event_counter : Z; packet_sum_size : Z }.
Record LatencyStatsAggregate := mkLatencyStats { data_point_counter : Z; sum_latency : Z }.
Record FrameInfo := mkFrameInfo { info_capture_begin : Z; info_capture_end : Z; info_encode_end : Z }.
#[export] Instance eta_FrameInfo : Eta FrameInfo := fun i =>
  mkFrameInfo (info_capture_begin i) (info_capture_end i) (info_encode_end i).
Definition new_FrameInfo : FrameInfo := mkFrameInfo kNoTime kNoTime kNoTime.
Record PacketInfo := mkPacketInfo { info_timestamp : Z; info_type : EventType }.

Record SessionStats := mkSessionStats {
  first_event_time : Z;
  last_event_time : Z;
  last_response_received_time : Z;
  late_frame_counter : Z }.
#[export] Instance eta_SessionStats : Eta SessionStats := fun s =>
  mkSessionStats (first_event_time s) (last_event_time s) (last_response_received_time s) (late_frame_counter s).
Definition new_SessionStats : SessionStats := mkSessionStats INT64_MAX kNoTime kNoTime 0.

Record AVPair (T : Type) := mkAVPair { av_audio : T; av_video : T }.
#[global] Arguments mkAVPair {T}.
#[global] Arguments av_audio {T}.
#[global] Arguments av_video {T}.

(** [Get], for reading and for the assignment through the reference. *)
Definition av_Get {T} (media_type : MediaType) (p : AVPair T) : outcome T :=
  match media_type with
  | kAudioMedia => Ret (av_audio p) | kVideoMedia => Ret (av_video p) | kUnknownMedia => Fault CheckFailed
  end.
Definition av_set {T} (media_type : MediaType) (v : T) (p : AVPair T) : AVPair T :=
  match media_type with
  | kAudioMedia => mkAVPair v (av_video p) | kVideoMedia => mkAVPair (av_audio p) v | kUnknownMedia => p
  end.

Definition FrameInfoMap : Type := list (Z * FrameInfo).
Definition PacketInfoMap : Type := list ((Z * Z) * PacketInfo).

Section Analyzer.
Context {E : Type} `{ClockOffsetEstimator E}.

Record StatisticsAnalyzer := mkAnalyzer {
  has_stats_client : bool;
  statistics_collector_ : StatisticsCollector;
  offset_estimator_ : E;
  alarm_ : Alarm (Task := unit);
  start_time_ : Z;
  recent_frame_infos_ : AVPair FrameInfoMap;
  recent_packet_infos_ : AVPair PacketInfoMap;
  frame_stats_ : AVPair (list (EventType * FrameStatsAggregate));
  packet_stats_ : AVPair (list (EventType * PacketStatsAggregate));
  latency_stats_ : AVPair (list (StatisticType * LatencyStatsAggregate));
  session_stats_ : AVPair SessionStats;
  histograms_ : AVPair (list SimpleHistogram);
  reported : list SenderStats }.
#[export] Instance eta_StatisticsAnalyzer : Eta StatisticsAnalyzer := fun a =>
  mkAnalyzer (has_stats_client a) (statistics_collector_ a) (offset_estimator_ a) (alarm_ a) (start_time_ a)
    (recent_frame_infos_ a) (recent_packet_infos_ a) (frame_stats_ a) (packet_stats_ a) (latency_stats_ a)
    (session_stats_ a) (histograms_ a) (reported a).

(** [InitHistograms]: as many histograms as there are types. *)
Definition InitHistograms : outcome (AVPair (list SimpleHistogram)) :=
  h ← new_SimpleHistogram 0 kDefaultMaxLatencyBucketMs kDefaultBucketWidthMs;
  Ret (mkAVPair (map (fun _ => h) histogram_types) (map (fun _ => h) histogram_types)).

Definition new_StatisticsAnalyzer (client : bool) (now : Z) (offset_estimator : E) : outcome StatisticsAnalyzer :=
  histograms ← InitHistograms;
  Ret (mkAnalyzer client new_StatisticsCollector offset_estimator new_Alarm now (mkAVPair [] []) (mkAVPair [] [])
    (mkAVPair [] []) (mkAVPair [] []) (mkAVPair [] []) (mkAVPair new_SessionStats new_SessionStats) histograms []).

Definition ScheduleAnalysis (now : Z) (a : StatisticsAnalyzer) : outcome StatisticsAnalyzer :=
  let next_analysis_time := now + kAnalysisInterval in
  alarm ← ScheduleWithTask now tt next_analysis_time (alarm_ a);
  Ret (a <| alarm_ := alarm |>).

(** * Recording *)

Definition ToSenderTimestamp (receiver_timestamp : Z) (a : StatisticsAnalyzer) : option Z :=
  receiver_offset ← GetEstimatedOffset (offset_estimator_ a);
  Some (receiver_timestamp - receiver_offset).

Definition AddToLatencyAggregrate (latency_stat : StatisticType) (latency_delta : Z) (media_type : MediaType)
    (a : StatisticsAnalyzer) : outcome StatisticsAnalyzer :=
  latency_stats ← av_Get media_type (latency_stats_ a);
  let entry :=
    match map_find latency_stat latency_stats with
    | None => mkLatencyStats 1 latency_delta
    | Some l => mkLatencyStats (data_point_counter l + 1) (sum_latency l + latency_delta)
    end in
  Ret (a <| latency_stats_ := av_set media_type (map_set latency_stat entry latency_stats) (latency_stats_ a) |>).

Definition AddToHistogram (histogram : HistogramType) (media_type : MediaType) (sample : Z) (a : StatisticsAnalyzer)
    : outcome StatisticsAnalyzer :=
  histograms ← av_Get media_type (histograms_ a);
  h ← in_bounds (histograms !! histogram_index histogram);
  h ← Histogram_Add sample h;
  Ret (a <| histograms_ := av_set media_type (<[histogram_index histogram := h]> histograms) (histograms_ a) |>).

(** A latency in the aggregate and in the histogram; the conversion of the
    milliseconds to an integer is the [double_trunc]. *)
Definition add_latency (stat : StatisticType) (histogram : HistogramType) (latency : Z) (media_type : MediaType)
    (a : StatisticsAnalyzer) : outcome StatisticsAnalyzer :=
  a ← AddToLatencyAggregrate stat latency media_type a;
  AddToHistogram histogram media_type (double_trunc (InMilliseconds latency)) a.

Definition RecordEventTimes (event : StatisticsEvent) (a : StatisticsAnalyzer) : outcome StatisticsAnalyzer :=
  session_stats ← av_Get (ev_media_type event) (session_stats_ a);
  let session_stats :=
    if IsReceiverEvent (ev_type event) then
      match GetEstimatedLatency (offset_estimator_ a) with
      | Some latency =>
          session_stats <| last_response_received_time :=
            Z.max (last_response_received_time session_stats) (ev_received_timestamp event - latency) |>
      | None => session_stats
      end
    else session_stats in
  let sender_timestamp :=
    if IsReceiverEvent (ev_type event) then ToSenderTimestamp (ev_timestamp event) a
    else Some (ev_timestamp event) in
  let session_stats :=
    match sender_timestamp with
    | Some t =>
        session_stats <| first_event_time := Z.min (first_event_time session_stats) t |>
          <| last_event_time := Z.max (last_event_time session_stats) t |>
    | None => session_stats
    end in
  Ret (a <| session_stats_ := av_set (ev_media_type event) session_stats (session_stats_ a) |>).

(** ** Frames *)

(** What an event says of its frame: the switch of [RecordFrameLatencies], with
    the frame's times already stored. *)
Definition update_frame_info (event : StatisticsEvent) (info : FrameInfo) : FrameInfo :=
  match ev_type event with
  | kFrameCaptureBegin => info <| info_capture_begin := ev_timestamp event |>
  | kFrameCaptureEnd => info <| info_capture_end := ev_timestamp event |>
  | kFrameEncoded => info <| info_encode_end := ev_timestamp event |>
  | _ => info
  end.

Definition record_latencies_of (event : FrameEvent) (info : FrameInfo) (a : StatisticsAnalyzer)
    : outcome StatisticsAnalyzer :=
  let e := frame_event event in
  let media_type := ev_media_type e in
  match ev_type e with
  | kFrameCaptureEnd =>
      if negb (info_capture_begin info =? kNoTime) then
        add_latency kAvgCaptureLatencyMs kCaptureLatencyMs (ev_timestamp e - info_capture_begin info) media_type a
      else Ret a
  | kFrameEncoded =>
      if negb (info_capture_end info =? kNoTime) then
        add_latency kAvgEncodeTimeMs kEncodeTimeMs (ev_timestamp e - info_capture_end info) media_type a
      else Ret a
  | kFrameAckSent =>
      match ToSenderTimestamp (ev_timestamp e) a with
      | None => Ret a
      | Some adjusted_timestamp =>
          if negb (info_encode_end info =? kNoTime) then
            AddToLatencyAggregrate kAvgFrameLatencyMs (adjusted_timestamp - info_encode_end info) media_type a
          else Ret a
      end
  | kFramePlayedOut =>
      match ToSenderTimestamp (ev_timestamp e) a with
      | None => Ret a
      | Some adjusted_timestamp =>
          a ← (if negb (info_capture_begin info =? kNoTime) then
                 add_latency kAvgEndToEndLatencyMs kEndToEndLatencyMs
                   (adjusted_timestamp - info_capture_begin info) media_type a
               else Ret a);
          if 0 <? ev_delay_delta event then
            session_stats ← av_Get media_type (session_stats_ a);
            let session_stats := session_stats <| late_frame_counter := late_frame_counter session_stats + 1 |> in
            let a := a <| session_stats_ := av_set media_type session_stats (session_stats_ a) |> in
            AddToHistogram kFrameLatenessMs media_type (double_trunc (InMilliseconds (ev_delay_delta event))) a
          else Ret a
      end
  | _ => Ret a
  end.

Definition RecordFrameLatencies (event : FrameEvent) (a : StatisticsAnalyzer) : outcome StatisticsAnalyzer :=
  let e := frame_event event in
  frame_infos ← av_Get (ev_media_type e) (recent_frame_infos_ a);
  let map_is_full := (length frame_infos =? kMaxRecentFrameInfoMapSize)%nat in
  let too_old :=
    match map_begin frame_infos with Some (first, _) => ev_rtp_timestamp e <=? first | None => false end in
  if map_is_full && too_old then Ret a else
  let '(info, frame_infos) :=
    match map_find (ev_rtp_timestamp e) frame_infos with
    | Some info => (info, frame_infos)
    | None => (new_FrameInfo, if map_is_full then tail frame_infos else frame_infos)
    end in
  let info := update_frame_info e info in
  let frame_infos := map_set (ev_rtp_timestamp e) info frame_infos in
  record_latencies_of event info
    (a <| recent_frame_infos_ := av_set (ev_media_type e) frame_infos (recent_frame_infos_ a) |>).

Definition count_frame_event (event : FrameEvent) (a : StatisticsAnalyzer) : outcome StatisticsAnalyzer :=
  let e := frame_event event in
  frame_stats_map ← av_Get (ev_media_type e) (frame_stats_ a);
  let entry :=
    match map_find (ev_type e) frame_stats_map with
    | None => mkFrameStats 1 (ev_size e) (ev_delay_delta event)
    | Some s => mkFrameStats (frame_event_counter s + 1) (u32 (frame_sum_size s + ev_size e))
                  (frame_sum_delay s + ev_delay_delta event)
    end in
  Ret (a <| frame_stats_ := av_set (ev_media_type e) (map_set (ev_type e) entry frame_stats_map) (frame_stats_ a) |>).

Definition ProcessFrameEvent (event : FrameEvent) (a : StatisticsAnalyzer) : outcome StatisticsAnalyzer :=
  let a := a <| offset_estimator_ := OnFrameEvent event (offset_estimator_ a) |> in
  a ← count_frame_event event a;
  a ← RecordEventTimes (frame_event event) a;
  RecordFrameLatencies event a.

Fixpoint ProcessFrameEvents (events : list FrameEvent) (a : StatisticsAnalyzer) : outcome StatisticsAnalyzer :=
  match events with
  | [] => Ret a
  | event :: events => a ← ProcessFrameEvent event a; ProcessFrameEvents events a
  end.

(** ** Packets *)

(** When the packet was sent and received, from the event recorded and this one. *)
Definition sent_and_received (value : PacketInfo) (e : StatisticsEvent) : option (Z * Z) :=
  match info_type value, ev_type e with
  | kPacketSentToNetwork, kPacketReceived => Some (info_timestamp value, ev_timestamp e)
  | kPacketReceived, kPacketSentToNetwork => Some (ev_timestamp e, info_timestamp value)
  | _, _ => None
  end.

(** The second half, of a packet that is recorded. *)
Definition record_packet_times (event : PacketEvent) (value : PacketInfo) (key : Z * Z) (packet_infos : PacketInfoMap)
    (frame_infos : FrameInfoMap) (a : StatisticsAnalyzer) : outcome StatisticsAnalyzer :=
  let e := packet_event event in
  let media_type := ev_media_type e in
  match sent_and_received value e with
  | None => Ret a
  | Some (packet_sent_time, packet_received_time) =>
      let a := a <| recent_packet_infos_ := av_set media_type (map_erase key packet_infos) (recent_packet_infos_ a) |> in
      match GetEstimatedOffset (offset_estimator_ a) with
      | None => Ret a
      | Some receiver_offset =>
          let packet_received_time := packet_received_time - receiver_offset in
          a ← add_latency kAvgNetworkLatencyMs kNetworkLatencyMs
            (packet_received_time - packet_sent_time) media_type a;
          match map_find (ev_rtp_timestamp e) frame_infos with
          | Some info =>
              add_latency kAvgPacketLatencyMs kPacketLatencyMs
                (packet_received_time - info_encode_end info) media_type a
          | None => Ret a
          end
      end
  end.

Definition RecordPacketLatencies (event : PacketEvent) (a : StatisticsAnalyzer) : outcome StatisticsAnalyzer :=
  let e := packet_event event in
  let media_type := ev_media_type e in
  frame_infos ← av_Get media_type (recent_frame_infos_ a);
  a ← match ev_type e, map_find (ev_rtp_timestamp e) frame_infos with
      | kPacketSentToNetwork, Some info =>
          add_latency kAvgQueueingLatencyMs kQueueingLatencyMs (ev_timestamp e - info_encode_end info) media_type a
      | _, _ => Ret a
      end;
  let key := (ev_rtp_timestamp e, ev_packet_id event) in
  packet_infos ← av_Get media_type (recent_packet_infos_ a);
  match map_find key packet_infos with
  | None =>
      let packet_infos := map_set key (mkPacketInfo (ev_timestamp e) (ev_type e)) packet_infos in
      let packet_infos :=
        if (kMaxRecentPacketInfoMapSize <? length packet_infos)%nat then tail packet_infos else packet_infos in
      Ret (a <| recent_packet_infos_ := av_set media_type packet_infos (recent_packet_infos_ a) |>)
  | Some value => record_packet_times event value key packet_infos frame_infos a
  end.

Definition ErasePacketInfo (event : PacketEvent) (a : StatisticsAnalyzer) : outcome StatisticsAnalyzer :=
  let e := packet_event event in
  packet_infos ← av_Get (ev_media_type e) (recent_packet_infos_ a);
  let packet_infos := map_erase (ev_rtp_timestamp e, ev_packet_id event) packet_infos in
  Ret (a <| recent_packet_infos_ := av_set (ev_media_type e) packet_infos (recent_packet_infos_ a) |>).

Definition count_packet_event (event : PacketEvent) (a : StatisticsAnalyzer) : outcome StatisticsAnalyzer :=
  let e := packet_event event in
  packet_stats_map ← av_Get (ev_media_type e) (packet_stats_ a);
  let entry :=
    match map_find (ev_type e) packet_stats_map with
    | None => mkPacketStats 1 (ev_size e)
    | Some s => mkPacketStats (packet_event_counter s + 1) (u32 (packet_sum_size s + ev_size e))
    end in
  Ret (a <| packet_stats_ := av_set (ev_media_type e) (map_set (ev_type e) entry packet_stats_map) (packet_stats_ a) |>).

Definition ProcessPacketEvent (event : PacketEvent) (a : StatisticsAnalyzer) : outcome StatisticsAnalyzer :=
  let a := a <| offset_estimator_ := OnPacketEvent event (offset_estimator_ a) |> in
  a ← count_packet_event event a;
  a ← RecordEventTimes (packet_event event) a;
  match ev_type (packet_event event) with
  | kPacketSentToNetwork | kPacketReceived => RecordPacketLatencies event a
  | kPacketRetransmitted => ErasePacketInfo event a
  | _ => Ret a
  end.

Fixpoint ProcessPacketEvents (events : list PacketEvent) (a : StatisticsAnalyzer) : outcome StatisticsAnalyzer :=
  match events with
  | [] => Ret a
  | event :: events => a ← ProcessPacketEvent event a; ProcessPacketEvents events a
  end.

(** * Reporting *)

Definition set_stat (stat : StatisticType) (v : double) (stats_list : list double) : list double :=
  <[statistic_index stat := v]> stats_list.

Definition PopulatePacketCountStat (event : EventType) (stat : StatisticType) (media_type : MediaType)
    (a : StatisticsAnalyzer) (stats_list : list double) : outcome (list double) :=
  stats_map ← av_Get media_type (packet_stats_ a);
  match map_find event stats_map with
  | Some s => Ret (set_stat stat (double_of_Z (packet_event_counter s)) stats_list)
  | None => Ret stats_list
  end.

Definition PopulateFrameCountStat (event : EventType) (stat : StatisticType) (media_type : MediaType)
    (a : StatisticsAnalyzer) (stats_list : list double) : outcome (list double) :=
  stats_map ← av_Get media_type (frame_stats_ a);
  match map_find event stats_map with
  | Some s => Ret (set_stat stat (double_of_Z (frame_event_counter s)) stats_list)
  | None => Ret stats_list
  end.

Definition PopulateFpsStat (event : EventType) (stat : StatisticType) (media_type : MediaType) (end_time : Z)
    (a : StatisticsAnalyzer) (stats_list : list double) : outcome (list double) :=
  stats_map ← av_Get media_type (frame_stats_ a);
  match map_find event stats_map with
  | Some s =>
      let duration := end_time - start_time_ a in
      if duration =? 0 then Ret stats_list else
      let fps := dmul (ddiv (double_of_Z (frame_event_counter s)) (InMilliseconds duration)) (double_of_Z 1000) in
      Ret (set_stat stat fps stats_list)
  | None => Ret stats_list
  end.

Definition PopulateAvgLatencyStat (stat : StatisticType) (media_type : MediaType) (a : StatisticsAnalyzer)
    (stats_list : list double) : outcome (list double) :=
  latency_map ← av_Get media_type (latency_stats_ a);
  match map_find stat latency_map with
  | Some l =>
      if 0 <? data_point_counter l then
        Ret (set_stat stat (ddiv (InMilliseconds (sum_latency l)) (double_of_Z (data_point_counter l))) stats_list)
      else Ret stats_list
  | None => Ret stats_list
  end.

Definition kbps (sum_size duration : Z) : double :=
  dmul (ddiv (double_of_Z sum_size) (InMilliseconds duration)) (double_of_Z 8).

Definition PopulateFrameBitrateStat (event : EventType) (stat : StatisticType) (media_type : MediaType) (end_time : Z)
    (a : StatisticsAnalyzer) (stats_list : list double) : outcome (list double) :=
  stats_map ← av_Get media_type (frame_stats_ a);
  match map_find event stats_map with
  | Some s =>
      let duration := end_time - start_time_ a in
      if duration =? 0 then Ret stats_list else
      Ret (set_stat stat (kbps (frame_sum_size s) duration) stats_list)
  | None => Ret stats_list
  end.

Definition PopulatePacketBitrateStat (event : EventType) (stat : StatisticType) (media_type : MediaType) (end_time : Z)
    (a : StatisticsAnalyzer) (stats_list : list double) : outcome (list double) :=
  stats_map ← av_Get media_type (packet_stats_ a);
  match map_find event stats_map with
  | Some s =>
      let duration := end_time - start_time_ a in
      if duration =? 0 then Ret stats_list else
      Ret (set_stat stat (kbps (packet_sum_size s) duration) stats_list)
  | None => Ret stats_list
  end.

Definition PopulateSessionStats (media_type : MediaType) (end_time : Z) (a : StatisticsAnalyzer)
    (stats_list : list double) : outcome (list double) :=
  session_stats ← av_Get media_type (session_stats_ a);
  let stats_list :=
    if negb (first_event_time session_stats =? kNoTime)
    then set_stat kFirstEventTimeMs (InMilliseconds (first_event_time session_stats)) stats_list else stats_list in
  let stats_list :=
    if negb (last_event_time session_stats =? kNoTime)
    then set_stat kLastEventTimeMs (InMilliseconds (last_event_time session_stats)) stats_list else stats_list in
  let stats_list :=
    if negb (last_response_received_time session_stats =? kNoTime)
    then set_stat kTimeSinceLastReceiverResponseMs
           (InMilliseconds (end_time - last_response_received_time session_stats)) stats_list
    else stats_list in
  Ret (set_stat kNumLateFrames (double_of_Z (late_frame_counter session_stats)) stats_list).

Definition kSupportedLatencyStats : list StatisticType :=
  [kAvgEncodeTimeMs; kAvgCaptureLatencyMs; kAvgQueueingLatencyMs; kAvgNetworkLatencyMs; kAvgPacketLatencyMs;
   kAvgFrameLatencyMs; kAvgEndToEndLatencyMs].

Fixpoint populate_latencies (types : list StatisticType) (media_type : MediaType) (a : StatisticsAnalyzer)
    (stats_list : list double) : outcome (list double) :=
  match types with
  | [] => Ret stats_list
  | type :: types =>
      stats_list ← PopulateAvgLatencyStat type media_type a stats_list;
      populate_latencies types media_type a stats_list
  end.

(** [stats_list] is what the list's memory holds before. *)
Definition ConstructStatisticsList (end_time : Z) (media_type : MediaType) (a : StatisticsAnalyzer)
    (stats_list : list double) : outcome (list double) :=
  stats_list ← PopulateFrameCountStat kFrameDroppedByEncoder kNumFramesDroppedByEncoder media_type a stats_list;
  stats_list ← PopulateFrameCountStat kFrameCaptureEnd kNumFramesCaptured media_type a stats_list;
  stats_list ← PopulateFpsStat kFrameEncoded kEnqueueFps media_type end_time a stats_list;
  stats_list ← populate_latencies kSupportedLatencyStats media_type a stats_list;
  stats_list ← PopulateFrameBitrateStat kFrameEncoded kEncodeRateKbps media_type end_time a stats_list;
  stats_list ← PopulatePacketBitrateStat kPacketSentToNetwork kPacketTransmissionRateKbps media_type end_time a stats_list;
  stats_list ← PopulatePacketCountStat kPacketSentToNetwork kNumPacketsSent media_type a stats_list;
  stats_list ← PopulatePacketCountStat kPacketReceived kNumPacketsReceived media_type a stats_list;
  PopulateSessionStats media_type end_time a stats_list.

(** [memory] is what the memory of the two lists holds. *)
Definition SendStatistics (now : Z) (memory : list double * list double) (a : StatisticsAnalyzer)
    : outcome StatisticsAnalyzer :=
  if negb (has_stats_client a) then Ret a else
  audio ← ConstructStatisticsList now kAudioMedia a memory.1;
  video ← ConstructStatisticsList now kVideoMedia a memory.2;
  let stats := mkSenderStats audio (av_audio (histograms_ a)) video (av_video (histograms_ a)) in
  Ret (a <| reported := reported a ++ [stats] |>).

Definition AnalyzeStatistics (now : Z) (memory : list double * list double) (a : StatisticsAnalyzer)
    : outcome StatisticsAnalyzer :=
  let '(frame_events, collector) := TakeRecentFrameEvents (statistics_collector_ a) in
  a ← ProcessFrameEvents frame_events (a <| statistics_collector_ := collector |>);
  let '(packet_events, collector) := TakeRecentPacketEvents (statistics_collector_ a) in
  a ← ProcessPacketEvents packet_events (a <| statistics_collector_ := collector |>);
  a ← SendStatistics now memory a;
  ScheduleAnalysis now a.

(** * The analyzer in use *)

Inductive AnalyzerOp :=
  | OpScheduleAnalysis (now : Z)
  | OpFrameEvent (event : FrameEvent)
  | OpPacketEvent (event : PacketEvent)
  | OpAlarm (now : Z) (i : nat) (memory : list double * list double).

(** The owner schedules the analysis, the sender collects events, and the task
    runner calls the functors of the alarm. *)
Definition analyzer_step (op : AnalyzerOp) (a : StatisticsAnalyzer) : outcome StatisticsAnalyzer :=
  match op with
  | OpScheduleAnalysis now => ScheduleAnalysis now a
  | OpFrameEvent event => Ret (a <| statistics_collector_ := CollectFrameEvent event (statistics_collector_ a) |>)
  | OpPacketEvent event => Ret (a <| statistics_collector_ := CollectPacketEvent event (statistics_collector_ a) |>)
  | OpAlarm now i memory =>
      '(task, alarm) ← functor_call now i (alarm_ a);
      let a := a <| alarm_ := alarm |> in
      match task with Some _ => AnalyzeStatistics now memory a | None => Ret a end
  end.
End Analyzer.
#[global] Arguments StatisticsAnalyzer : clear implicits.
#[global] Arguments AnalyzerOp : clear implicits.
