(* ===== verification/StatisticsProps.v ===== *)
(** What the analysis of statistics promises (StatisticsAnalyzer.v): it does not
    abort on events of audio and video, its maps stay small, it counts every event once, and it
    keeps reporting. *)

From Stdlib Require Import SpecFloat.
From S2P Require Import Prelude Numeric Ids RtpDefines RtcpCommon OrderedMap Alarm Statistics StatisticsEvents ClockOffset StatisticsAnalyzer.

(** * Pairs *)

Definition av_all {T} (P : T -> Prop) (p : AVPair T) : Prop := P (av_audio p) /\ P (av_video p).

Definition known_media (media_type : MediaType) : Prop := media_type <> kUnknownMedia.

Lemma av_Get_ok {T} (P : T -> Prop) mt p : known_media mt -> av_all P p -> exists v, av_Get mt p = Ret v /\ P v.
Proof. intros Hm [Ha Hv]. destruct mt; [done | |]; eexists; (split; [reflexivity | done]). Qed.

Lemma av_Get_any {T} mt (p : AVPair T) : known_media mt -> exists v, av_Get mt p = Ret v.
Proof. intros Hm. destruct (av_Get_ok (fun _ => True) mt p Hm) as (v & E & _); [by split | by exists v]. Qed.

Lemma av_set_all {T} (P : T -> Prop) mt v p : av_all P p -> P v -> av_all P (av_set mt v p).
Proof. intros [Ha Hv] H. by destruct mt; split. Qed.

Lemma av_Get_set {T} mt mt' (v : T) p : known_media mt' ->
  av_Get mt (av_set mt' v p) = if decide (mt = mt') then Ret v else av_Get mt p.
Proof. intros Hk. destruct mt, mt'; try done. Qed.

(** * The invariant *)

Definition frame_infos_ok (m : FrameInfoMap) : Prop := ordered m /\ (length m <= kMaxRecentFrameInfoMapSize)%nat.
Definition packet_infos_ok (m : PacketInfoMap) : Prop := ordered m /\ (length m <= kMaxRecentPacketInfoMapSize)%nat.
Definition histograms_ok (hs : list SimpleHistogram) : Prop := length hs = length histogram_types /\ Forall histogram_ok hs.

Section Props.
Context {E : Type} `{ClockOffsetEstimator E}.
Implicit Types a : StatisticsAnalyzer E.

Record analyzer_ok a : Prop := {
  ok_frames : av_all frame_infos_ok (recent_frame_infos_ a);
  ok_packets : av_all packet_infos_ok (recent_packet_infos_ a);
  ok_histograms : av_all histograms_ok (histograms_ a);
  ok_alarm : alarm_ok (alarm_ a) }.

(** A step that records: it keeps the invariant, the counters, and what is not
    about recording. *)
Record recorded a a' : Prop := {
  rec_ok : analyzer_ok a';
  rec_frame_stats : frame_stats_ a' = frame_stats_ a;
  rec_packet_stats : packet_stats_ a' = packet_stats_ a;
  rec_collector : statistics_collector_ a' = statistics_collector_ a;
  rec_alarm : alarm_ a' = alarm_ a;
  rec_reported : reported a' = reported a;
  rec_client : has_stats_client a' = has_stats_client a }.

Definition records (f : StatisticsAnalyzer E -> outcome (StatisticsAnalyzer E)) : Prop :=
  forall a, analyzer_ok a -> exists a', f a = Ret a' /\ recorded a a'.

Lemma recorded_refl a : analyzer_ok a -> recorded a a.
Proof. by constructor. Qed.

Lemma recorded_trans a b c : recorded a b -> recorded b c -> recorded a c.
Proof. intros [] []. constructor; congruence || done. Qed.

Lemma records_Ret : records Ret.
Proof. intros a Ha. exists a. split; [done | by apply recorded_refl]. Qed.

Lemma records_bind f g : records f -> records g -> records (fun a => f a ≫= g).
Proof.
  intros Hf Hg a Ha. destruct (Hf a Ha) as (b & -> & Hb). cbn [mbind outcome_bind].
  destruct (Hg b (rec_ok _ _ Hb)) as (c & -> & Hc). exists c. split; [done | by eapply recorded_trans].
Qed.

Lemma records_if (b : bool) f g : records f -> records g -> records (fun a => if b then f a else g a).
Proof. by destruct b. Qed.

Lemma AddToLatencyAggregrate_records stat d mt : known_media mt -> records (AddToLatencyAggregrate stat d mt).
Proof.
  intros Hm a Ha. unfold AddToLatencyAggregrate. destruct (av_Get_any mt (latency_stats_ a) Hm) as [v ->].
  cbn [mbind outcome_bind]. eexists. split; [reflexivity |]. constructor; try done. by destruct Ha; constructor.
Qed.

Lemma histogram_index_lt h : (histogram_index h < length histogram_types)%nat.
Proof. destruct h; vm_compute; lia. Qed.

Lemma AddToHistogram_records h mt sample : known_media mt -> records (AddToHistogram h mt sample).
Proof.
  intros Hm a Ha. unfold AddToHistogram. destruct Ha as [Hf Hp Hh Hal].
  destruct (av_Get_ok histograms_ok mt (histograms_ a) Hm Hh) as (hs & -> & Hl & Hok). cbn [mbind outcome_bind].
  destruct (lookup_lt_is_Some_2 hs (histogram_index h)) as [hist E']; [rewrite Hl; apply histogram_index_lt |].
  rewrite E'. cbn [in_bounds mbind outcome_bind].
  assert (Hhist : histogram_ok hist) by (by eapply Forall_lookup_1 in E').
  rewrite (Histogram_Add_ok hist sample Hhist). cbn [mbind outcome_bind].
  eexists. split; [reflexivity |]. constructor; try done. constructor; try done. cbn [histograms_ update].
  apply av_set_all; [done |]. split; [by rewrite length_insert |].
  apply Forall_insert; [done |]. apply histogram_ok_update; [done | apply length_insert].
Qed.

Lemma add_latency_records stat h d mt : known_media mt -> records (add_latency stat h d mt).
Proof.
  intros Hm. unfold add_latency. apply records_bind; [by apply AddToLatencyAggregrate_records | by apply AddToHistogram_records].
Qed.

Lemma RecordEventTimes_records e : known_media (ev_media_type e) -> records (RecordEventTimes e).
Proof.
  intros Hm a Ha. unfold RecordEventTimes. destruct (av_Get_any (ev_media_type e) (session_stats_ a) Hm) as [v ->].
  cbn [mbind outcome_bind]. eexists. split; [reflexivity |]. constructor; try done. by destruct Ha; constructor.
Qed.

(** ** Frames *)

Lemma late_frame_records mt delay : known_media mt -> records (fun a =>
  session_stats ← av_Get mt (session_stats_ a);
  let session_stats := session_stats <| late_frame_counter := late_frame_counter session_stats + 1 |> in
  let a := a <| session_stats_ := av_set mt session_stats (session_stats_ a) |> in
  AddToHistogram kFrameLatenessMs mt (double_trunc (InMilliseconds delay)) a).
Proof.
  intros Hm a Ha. destruct (av_Get_any mt (session_stats_ a) Hm) as [v ->]. cbn [mbind outcome_bind].
  match goal with |- exists a', AddToHistogram ?h ?t ?s ?b = _ /\ _ =>
    destruct (AddToHistogram_records h t s Hm b) as (c & -> & Hc) end; [by destruct Ha; constructor |].
  exists c. split; [done |]. by destruct Hc; constructor.
Qed.

Lemma record_latencies_of_records event info :
  known_media (ev_media_type (frame_event event)) -> records (record_latencies_of event info).
Proof.
  intros Hm a Ha. unfold record_latencies_of.
  destruct (ev_type (frame_event event)); try by apply records_Ret.
  - destruct (negb _); [by apply add_latency_records | by apply records_Ret].
  - destruct (negb _); [by apply add_latency_records | by apply records_Ret].
  - destruct (ToSenderTimestamp _ a); [| by apply records_Ret].
    destruct (negb _); [by apply AddToLatencyAggregrate_records | by apply records_Ret].
  - destruct (ToSenderTimestamp _ a); [| by apply records_Ret].
    revert a Ha. apply records_bind.
    + intros a Ha. destruct (negb _); [by apply add_latency_records | by apply records_Ret].
    + intros a Ha. destruct (0 <? ev_delay_delta event); [by apply (late_frame_records _ (ev_delay_delta event)) | by apply records_Ret].
Qed.

Lemma insert_frame_info_ok (m : FrameInfoMap) k info :
  frame_infos_ok m ->
  frame_infos_ok (map_set k info
    (match map_find k m with
     | Some _ => m | None => if (length m =? kMaxRecentFrameInfoMapSize)%nat then tail m else m end)).
Proof.
  intros [Ho Hl]. unfold frame_infos_ok. destruct (map_find k m) as [i |] eqn:Ek.
  - split; [by apply ordered_set |]. rewrite length_set_found; [done | by rewrite Ek | done].
  - destruct (Nat.eqb_spec (length m) kMaxRecentFrameInfoMapSize).
    + split; [by apply ordered_set, ordered_tail |]. pose proof (length_set k info (tail m)).
      destruct m; cbn in *; [unfold kMaxRecentFrameInfoMapSize in *; lia | lia].
    + split; [by apply ordered_set |]. pose proof (length_set k info m). lia.
Qed.

Lemma RecordFrameLatencies_records event :
  known_media (ev_media_type (frame_event event)) -> records (RecordFrameLatencies event).
Proof.
  intros Hm a Ha. unfold RecordFrameLatencies.
  destruct (av_Get_ok frame_infos_ok _ (recent_frame_infos_ a) Hm (ok_frames a Ha)) as (m & -> & Hok).
  cbn [mbind outcome_bind]. destruct (_ && _); [by apply records_Ret |].
  pose proof (insert_frame_info_ok m (ev_rtp_timestamp (frame_event event)) ) as Hins.
  destruct (map_find (ev_rtp_timestamp (frame_event event)) m) as [info |] eqn:Ek;
    match goal with |- exists a', record_latencies_of ?e ?i ?b = _ /\ _ =>
      destruct (record_latencies_of_records e i Hm b) as (c & -> & Hc) end;
    try (destruct Ha; constructor; try done; cbn [recent_frame_infos_ update]; apply av_set_all; [done | by apply Hins]);
    (exists c; split; [done |]; by destruct Hc; constructor).
Qed.

(** ** Packets *)

Lemma set_packet_infos_recorded mt m a :
  analyzer_ok a -> packet_infos_ok m ->
  recorded a (a <| recent_packet_infos_ := av_set mt m (recent_packet_infos_ a) |>).
Proof. intros [] Hm. constructor; try done. constructor; try done. by apply av_set_all. Qed.

Lemma erase_packet_infos_ok (m : PacketInfoMap) k : packet_infos_ok m -> packet_infos_ok (map_erase k m).
Proof. intros [Ho Hl]. split; [by apply ordered_erase |]. pose proof (length_erase k m). lia. Qed.

Lemma insert_packet_infos_ok (m : PacketInfoMap) k v :
  packet_infos_ok m -> let m' := map_set k v m in
  packet_infos_ok (if (kMaxRecentPacketInfoMapSize <? length m')%nat then tail m' else m').
Proof.
  intros [Ho Hl] m'. pose proof (length_set k v m) as Hl'. pose proof (ordered_set k v m Ho) as Ho'. fold m' in Hl', Ho'.
  destruct (Nat.ltb_spec kMaxRecentPacketInfoMapSize (length m')); split; try done.
  - by apply ordered_tail.
  - destruct m'; cbn in *; lia.
Qed.

Lemma record_packet_times_records event value key infos frames :
  known_media (ev_media_type (packet_event event)) -> packet_infos_ok infos ->
  records (record_packet_times event value key infos frames).
Proof.
  intros Hm Hi a Ha. unfold record_packet_times. destruct (sent_and_received value (packet_event event)) as [[t1 t2] |];
    [| by apply records_Ret].
  pose proof (set_packet_infos_recorded (ev_media_type (packet_event event)) _ a Ha (erase_packet_infos_ok _ key Hi)) as Hr.
  set (b := a <| recent_packet_infos_ := _ |>) in *.
  assert (Hb : forall f, records f -> exists c, f b = Ret c /\ recorded a c).
  { intros f Hf. destruct (Hf b (rec_ok _ _ Hr)) as (c & -> & Hc). exists c. split; [done | by eapply recorded_trans]. }
  destruct (GetEstimatedOffset _); [| by apply (Hb Ret), records_Ret].
  eapply (Hb (fun b => add_latency _ _ _ _ b ≫= _)). apply records_bind; [by apply add_latency_records |].
  destruct (map_find _ frames); [by apply add_latency_records | by apply records_Ret].
Qed.

Lemma RecordPacketLatencies_records event :
  known_media (ev_media_type (packet_event event)) -> records (RecordPacketLatencies event).
Proof.
  intros Hm a Ha. unfold RecordPacketLatencies. destruct (av_Get_any _ (recent_frame_infos_ a) Hm) as [frames ->].
  cbn [mbind outcome_bind]. revert a Ha. apply records_bind.
  - intros a Ha. destruct (ev_type _); try by apply records_Ret.
    destruct (map_find _ frames); [by apply add_latency_records | by apply records_Ret].
  - intros a Ha. destruct (av_Get_ok packet_infos_ok _ (recent_packet_infos_ a) Hm (ok_packets a Ha)) as (m & -> & Hok).
    cbn [mbind outcome_bind]. destruct (map_find _ m) as [v |].
    + by apply record_packet_times_records.
    + eexists. split; [reflexivity |]. apply set_packet_infos_recorded; [done | by apply insert_packet_infos_ok].
Qed.

Lemma ErasePacketInfo_records event :
  known_media (ev_media_type (packet_event event)) -> records (ErasePacketInfo event).
Proof.
  intros Hm a Ha. unfold ErasePacketInfo.
  destruct (av_Get_ok packet_infos_ok _ (recent_packet_infos_ a) Hm (ok_packets a Ha)) as (m & -> & Hok).
  cbn [mbind outcome_bind]. eexists. split; [reflexivity |].
  apply set_packet_infos_recorded; [done | by apply erase_packet_infos_ok].
Qed.

(** * Counting *)

(** The sums over the events of a medium and a type. *)
Definition of_kind (mt : MediaType) (t : EventType) (e : StatisticsEvent) : bool :=
  bool_decide (ev_media_type e = mt /\ ev_type e = t).
Definition total {A} (f : A -> Z) (l : list A) : Z := foldr (fun x n => f x + n) 0 l.

Definition frames_of mt t (fs : list FrameEvent) : list FrameEvent := filter (fun f => of_kind mt t (frame_event f)) fs.
Definition packets_of mt t (ps : list PacketEvent) : list PacketEvent := filter (fun p => of_kind mt t (packet_event p)) ps.

(** What the counters must be after the frame events [fs] and the packet events [ps]. *)
Definition frame_counter mt t fs : option FrameStatsAggregate :=
  match frames_of mt t fs with
  | [] => None
  | l => Some (mkFrameStats (zlen l) (u32 (total (fun f => ev_size (frame_event f)) l)) (total ev_delay_delta l))
  end.
Definition packet_counter mt t ps : option PacketStatsAggregate :=
  match packets_of mt t ps with
  | [] => None
  | l => Some (mkPacketStats (zlen l) (u32 (total (fun p => ev_size (packet_event p)) l)))
  end.

(** The maps of a pair hold what a function says. *)
Definition tallies {V} (get : MediaType -> EventType -> option V) (stats : AVPair (list (EventType * V))) : Prop :=
  forall mt t, known_media mt -> (map_find t <$> av_Get mt stats) = Ret (get mt t).

Definition counted (fs : list FrameEvent) (ps : list PacketEvent) a : Prop :=
  tallies (fun mt t => frame_counter mt t fs) (frame_stats_ a) /\
  tallies (fun mt t => packet_counter mt t ps) (packet_stats_ a).

Lemma tallies_set {V} (get get' : MediaType -> EventType -> option V) stats e v m :
  tallies get stats -> known_media (ev_media_type e) -> av_Get (ev_media_type e) stats = Ret m ->
  (forall mt t, get' mt t = if of_kind mt t e then Some v else get mt t) ->
  tallies get' (av_set (ev_media_type e) (map_set (ev_type e) v m) stats).
Proof.
  intros Ht Hm Em Hget mt t Hmt. rewrite av_Get_set by done. rewrite Hget. unfold of_kind.
  destruct (decide (mt = ev_media_type e)) as [-> | Hne].
  - specialize (Ht _ t Hm). rewrite Em in Ht. cbn [fmap outcome_fmap] in *. injection Ht as Ht. f_equal.
    rewrite map_find_set. destruct (kcmp t (ev_type e)) eqn:Ek.
    + apply kcmp_eq in Ek as ->. by rewrite bool_decide_eq_true_2.
    + rewrite bool_decide_eq_false_2; [done |]. intros [_ <-]. by rewrite kcmp_refl in Ek.
    + rewrite bool_decide_eq_false_2; [done |]. intros [_ <-]. by rewrite kcmp_refl in Ek.
  - rewrite bool_decide_eq_false_2 by naive_solver. by apply Ht.
Qed.

Lemma tallies_find {V} (get : MediaType -> EventType -> option V) stats mt t m :
  tallies get stats -> known_media mt -> av_Get mt stats = Ret m -> map_find t m = get mt t.
Proof. intros Ht Hm Em. specialize (Ht mt t Hm). rewrite Em in Ht. cbn in Ht. congruence. Qed.

Lemma total_snoc {A} (f : A -> Z) l x : total f (l ++ [x]) = total f l + f x.
Proof. induction l as [| y l IH]; cbn; [lia |]. unfold total in *. rewrite IH. lia. Qed.

Lemma frames_of_snoc mt t fs f :
  frames_of mt t (fs ++ [f]) = frames_of mt t fs ++ (if of_kind mt t (frame_event f) then [f] else []).
Proof.
  unfold frames_of. rewrite filter_app. f_equal. cbn. destruct (of_kind mt t (frame_event f)); by case_decide.
Qed.

Lemma packets_of_snoc mt t ps p :
  packets_of mt t (ps ++ [p]) = packets_of mt t ps ++ (if of_kind mt t (packet_event p) then [p] else []).
Proof.
  unfold packets_of. rewrite filter_app. f_equal. cbn. destruct (of_kind mt t (packet_event p)); by case_decide.
Qed.

(** One more event in a sum that wraps. *)
Lemma wrap_sum x y : u32 (u32 x + y) = u32 (x + y).
Proof. unfold wrap. by rewrite Zplus_mod_idemp_l. Qed.

Lemma of_kind_true mt t e : of_kind mt t e = true -> mt = ev_media_type e /\ t = ev_type e.
Proof. unfold of_kind. intros [-> ->]%bool_decide_eq_true. done. Qed.

Lemma count_frame_event_counts event fs ps a :
  known_media (ev_media_type (frame_event event)) -> is_u 32 (ev_size (frame_event event)) -> counted fs ps a ->
  exists m, count_frame_event event a = Ret (a <| frame_stats_ := m |>) /\
    counted (fs ++ [event]) ps (a <| frame_stats_ := m |>).
Proof.
  intros Hm Hs [Hf Hp]. unfold count_frame_event. destruct (av_Get_any _ (frame_stats_ a) Hm) as [m Em].
  rewrite Em. cbn [mbind outcome_bind]. eexists. split; [reflexivity |]. split; [| exact Hp].
  eapply tallies_set; [exact Hf | done | done |]. intros mt t. rewrite (tallies_find _ _ _ _ _ Hf Hm Em).
  unfold frame_counter. rewrite frames_of_snoc. destruct (of_kind mt t _) eqn:Ek; [| by rewrite app_nil_r].
  apply of_kind_true in Ek as [-> ->]. destruct (frames_of _ _ fs) as [| x l]; cbn [app].
  - cbn. rewrite wrap_small by (rewrite Z.add_0_r; done). by rewrite !Z.add_0_r.
  - cbn [frame_event_counter frame_sum_size frame_sum_delay]. rewrite wrap_sum.
    change (x :: l ++ [event]) with ((x :: l) ++ [event]). by rewrite !total_snoc, zlen_app.
Qed.

Lemma count_packet_event_counts event fs ps a :
  known_media (ev_media_type (packet_event event)) -> is_u 32 (ev_size (packet_event event)) -> counted fs ps a ->
  exists m, count_packet_event event a = Ret (a <| packet_stats_ := m |>) /\
    counted fs (ps ++ [event]) (a <| packet_stats_ := m |>).
Proof.
  intros Hm Hs [Hf Hp]. unfold count_packet_event. destruct (av_Get_any _ (packet_stats_ a) Hm) as [m Em].
  rewrite Em. cbn [mbind outcome_bind]. eexists. split; [reflexivity |]. split; [exact Hf |].
  eapply tallies_set; [exact Hp | done | done |]. intros mt t. rewrite (tallies_find _ _ _ _ _ Hp Hm Em).
  unfold packet_counter. rewrite packets_of_snoc. destruct (of_kind mt t _) eqn:Ek; [| by rewrite app_nil_r].
  apply of_kind_true in Ek as [-> ->]. destruct (packets_of _ _ ps) as [| x l]; cbn [app].
  - cbn. rewrite wrap_small by (rewrite Z.add_0_r; done). by rewrite !Z.add_0_r.
  - cbn [packet_event_counter packet_sum_size]. rewrite wrap_sum.
    change (x :: l ++ [event]) with ((x :: l) ++ [event]). by rewrite !total_snoc, zlen_app.
Qed.

(** * Analysing *)

(** The events the analyzer is made for. *)
Definition event_ok (e : StatisticsEvent) : Prop := known_media (ev_media_type e) /\ is_u 32 (ev_size e).

(** A step that counts: the events counted are now [fs] and [ps]. *)
Record counts (fs : list FrameEvent) (ps : list PacketEvent) a a' : Prop := {
  cnt_ok : analyzer_ok a';
  cnt_counted : counted fs ps a';
  cnt_collector : statistics_collector_ a' = statistics_collector_ a;
  cnt_alarm : alarm_ a' = alarm_ a;
  cnt_reported : reported a' = reported a;
  cnt_client : has_stats_client a' = has_stats_client a }.

Lemma counts_refl fs ps a : analyzer_ok a -> counted fs ps a -> counts fs ps a a.
Proof. by constructor. Qed.

Lemma counts_then fs ps a b c : counts fs ps a b -> recorded b c -> counts fs ps a c.
Proof.
  intros [H1 [H2 H3] H4 H5 H6 H7] [R1 R2 R3 R4 R5 R6 R7]. constructor; try congruence; try done.
  split; [by rewrite R2 | by rewrite R3].
Qed.

Lemma ProcessFrameEvent_counts e fs ps a :
  event_ok (frame_event e) -> analyzer_ok a -> counted fs ps a ->
  exists a', ProcessFrameEvent e a = Ret a' /\ counts (fs ++ [e]) ps a a'.
Proof.
  intros [Hm Hs] Ha Hc. unfold ProcessFrameEvent. set (b := a <| offset_estimator_ := _ |>).
  destruct (count_frame_event_counts e fs ps b Hm Hs Hc) as (m & -> & Hc'). cbn [mbind outcome_bind].
  assert (Hb : counts (fs ++ [e]) ps a (b <| frame_stats_ := m |>)) by (constructor; try done; by destruct Ha; constructor).
  destruct (records_bind _ _ (RecordEventTimes_records (frame_event e) Hm) (RecordFrameLatencies_records e Hm) _ (cnt_ok _ _ _ _ Hb))
    as (c & Ec & Hr).
  exists c. split; [exact Ec | by eapply counts_then].
Qed.

Lemma ProcessPacketEvent_counts e fs ps a :
  event_ok (packet_event e) -> analyzer_ok a -> counted fs ps a ->
  exists a', ProcessPacketEvent e a = Ret a' /\ counts fs (ps ++ [e]) a a'.
Proof.
  intros [Hm Hs] Ha Hc. unfold ProcessPacketEvent. set (b := a <| offset_estimator_ := _ |>).
  destruct (count_packet_event_counts e fs ps b Hm Hs Hc) as (m & -> & Hc'). cbn [mbind outcome_bind].
  assert (Hb : counts fs (ps ++ [e]) a (b <| packet_stats_ := m |>)) by (constructor; try done; by destruct Ha; constructor).
  assert (Hrest : records (fun a => match ev_type (packet_event e) with
    | kPacketSentToNetwork | kPacketReceived => RecordPacketLatencies e a
    | kPacketRetransmitted => ErasePacketInfo e a | _ => Ret a end)).
  { destruct (ev_type (packet_event e)); try apply records_Ret;
      [by apply RecordPacketLatencies_records | by apply ErasePacketInfo_records | by apply RecordPacketLatencies_records]. }
  destruct (records_bind _ _ (RecordEventTimes_records (packet_event e) Hm) Hrest _ (cnt_ok _ _ _ _ Hb)) as (c & Ec & Hr).
  exists c. split; [exact Ec | by eapply counts_then].
Qed.

Lemma counts_trans fs ps gs qs a b c : counts fs ps a b -> counts gs qs b c -> counts gs qs a c.
Proof. intros [] []. constructor; congruence || done. Qed.

Lemma ProcessFrameEvents_counts l : forall fs ps a,
  Forall (fun f => event_ok (frame_event f)) l -> analyzer_ok a -> counted fs ps a ->
  exists a', ProcessFrameEvents l a = Ret a' /\ counts (fs ++ l) ps a a'.
Proof.
  induction l as [| e l IH]; intros fs ps a Hl Ha Hc; cbn [ProcessFrameEvents].
  - exists a. rewrite app_nil_r. split; [done | by apply counts_refl].
  - inversion Hl as [| ? ? He Hl']; subst. destruct (ProcessFrameEvent_counts e fs ps a He Ha Hc) as (b & -> & Hb).
    cbn [mbind outcome_bind]. destruct (IH (fs ++ [e]) ps b Hl') as (c & -> & Hc'); [apply Hb | apply Hb |].
    exists c. rewrite <- app_assoc in Hc'. split; [done | by eapply counts_trans].
Qed.

Lemma ProcessPacketEvents_counts l : forall fs ps a,
  Forall (fun p => event_ok (packet_event p)) l -> analyzer_ok a -> counted fs ps a ->
  exists a', ProcessPacketEvents l a = Ret a' /\ counts fs (ps ++ l) a a'.
Proof.
  induction l as [| e l IH]; intros fs ps a Hl Ha Hc; cbn [ProcessPacketEvents].
  - exists a. rewrite app_nil_r. split; [done | by apply counts_refl].
  - inversion Hl as [| ? ? He Hl']; subst. destruct (ProcessPacketEvent_counts e fs ps a He Ha Hc) as (b & -> & Hb).
    cbn [mbind outcome_bind]. destruct (IH fs (ps ++ [e]) b Hl') as (c & -> & Hc'); [apply Hb | apply Hb |].
    exists c. rewrite <- app_assoc in Hc'. split; [done | by eapply counts_trans].
Qed.

(** ** Reporting *)

Lemma returns_bind {A B} (m : outcome A) (k : A -> outcome B) : returns m -> (forall x, returns (k x)) -> returns (m ≫= k).
Proof. intros [x ->] Hk. apply Hk. Qed.

Lemma av_Get_returns {T} mt (p : AVPair T) : known_media mt -> returns (av_Get mt p).
Proof. intros Hm. destruct (av_Get_any mt p Hm) as [v ->]. by eexists. Qed.

Ltac populate := intros Hm; apply returns_bind; [by apply av_Get_returns | intros; repeat case_match; by eexists].

Lemma PopulateFrameCountStat_returns event stat mt a l : known_media mt -> returns (PopulateFrameCountStat event stat mt a l).
Proof. unfold PopulateFrameCountStat. populate. Qed.
Lemma PopulatePacketCountStat_returns event stat mt a l : known_media mt -> returns (PopulatePacketCountStat event stat mt a l).
Proof. unfold PopulatePacketCountStat. populate. Qed.
Lemma PopulateFpsStat_returns event stat mt t a l : known_media mt -> returns (PopulateFpsStat event stat mt t a l).
Proof. unfold PopulateFpsStat. populate. Qed.
Lemma PopulateAvgLatencyStat_returns stat mt a l : known_media mt -> returns (PopulateAvgLatencyStat stat mt a l).
Proof. unfold PopulateAvgLatencyStat. populate. Qed.
Lemma PopulateFrameBitrateStat_returns event stat mt t a l : known_media mt -> returns (PopulateFrameBitrateStat event stat mt t a l).
Proof. unfold PopulateFrameBitrateStat. populate. Qed.
Lemma PopulatePacketBitrateStat_returns event stat mt t a l : known_media mt -> returns (PopulatePacketBitrateStat event stat mt t a l).
Proof. unfold PopulatePacketBitrateStat. populate. Qed.
Lemma PopulateSessionStats_returns mt t a l : known_media mt -> returns (PopulateSessionStats mt t a l).
Proof. unfold PopulateSessionStats. populate. Qed.
Lemma populate_latencies_returns types mt a l : known_media mt -> returns (populate_latencies types mt a l).
Proof.
  intros Hm. revert l. induction types as [| t types IH]; intros l; cbn [populate_latencies]; [by eexists |].
  apply returns_bind; [by apply PopulateAvgLatencyStat_returns | done].
Qed.

Lemma ConstructStatisticsList_returns t mt a l : known_media mt -> returns (ConstructStatisticsList t mt a l).
Proof.
  intros Hm. unfold ConstructStatisticsList.
  repeat (apply returns_bind; [by auto using PopulateFrameCountStat_returns, PopulatePacketCountStat_returns,
    PopulateFpsStat_returns, populate_latencies_returns, PopulateFrameBitrateStat_returns, PopulatePacketBitrateStat_returns
    | intros]). by apply PopulateSessionStats_returns.
Qed.

(** What a report made of the state [a] says. *)
Definition report_of (now : Z) (memory : list double * list double) a (stats : SenderStats) : Prop :=
  ConstructStatisticsList now kAudioMedia a memory.1 = Ret (audio_statistics stats) /\
  ConstructStatisticsList now kVideoMedia a memory.2 = Ret (video_statistics stats) /\
  audio_histograms stats = av_audio (histograms_ a) /\ video_histograms stats = av_video (histograms_ a).

Lemma SendStatistics_returns now memory a :
  exists stats, report_of now memory a stats /\
    SendStatistics now memory a = Ret (a <| reported := reported a ++ (if has_stats_client a then [stats] else []) |>).
Proof.
  destruct (ConstructStatisticsList_returns now kAudioMedia a memory.1) as [l1 E1]; [done |].
  destruct (ConstructStatisticsList_returns now kVideoMedia a memory.2) as [l2 E2]; [done |].
  exists (mkSenderStats l1 (av_audio (histograms_ a)) l2 (av_video (histograms_ a))). split; [done |].
  unfold SendStatistics. destruct (has_stats_client a) eqn:Ec; cbn [negb].
  - rewrite E1, E2. by cbn [mbind outcome_bind].
  - rewrite app_nil_r. by destruct a.
Qed.

Definition collected_ok (c : StatisticsCollector) : Prop :=
  Forall (fun f => event_ok (frame_event f)) (recent_frame_events_ c) /\
  Forall (fun p => event_ok (packet_event p)) (recent_packet_events_ c).

(** One analysis: all that was collected is counted, a report is sent and the
    next analysis is due half a second later. *)
Lemma AnalyzeStatistics_ok now memory fs ps a :
  analyzer_ok a -> counted fs ps a -> collected_ok (statistics_collector_ a) ->
  exists a' stats, AnalyzeStatistics now memory a = Ret a' /\ analyzer_ok a' /\
    counted (fs ++ recent_frame_events_ (statistics_collector_ a)) (ps ++ recent_packet_events_ (statistics_collector_ a)) a' /\
    statistics_collector_ a' = new_StatisticsCollector /\ has_stats_client a' = has_stats_client a /\
    reported a' = reported a ++ (if has_stats_client a then [stats] else []) /\
    pending (alarm_ a') = Some (tt, now + kAnalysisInterval) /\ report_of now memory a' stats.
Proof.
  intros Ha Hc [Hf Hp]. unfold AnalyzeStatistics, TakeRecentFrameEvents, TakeRecentPacketEvents.
  set (b := a <| statistics_collector_ := _ |>).
  destruct (ProcessFrameEvents_counts _ fs ps b Hf) as (c & -> & H1); [by destruct Ha; constructor | exact Hc |].
  cbn [mbind outcome_bind]. destruct H1 as [Hok1 Hc1 Hcol1 Hal1 Hrep1 Hcl1].
  assert (Hcol : statistics_collector_ c = (statistics_collector_ a) <| recent_frame_events_ := [] |>) by exact Hcol1.
  rewrite Hcol. match goal with |- context [ProcessPacketEvents ?l ?x] =>
    change l with (recent_packet_events_ (statistics_collector_ a)); set (d := x) end.
  destruct (ProcessPacketEvents_counts _ (fs ++ recent_frame_events_ (statistics_collector_ a)) ps d Hp) as (e & -> & H2);
    [by destruct Hok1; constructor | exact Hc1 |].
  cbn [mbind outcome_bind]. destruct H2 as [Hok2 Hc2 Hcol2 Hal2 Hrep2 Hcl2].
  destruct (SendStatistics_returns now memory e) as (stats & Hrep3 & ->). cbn [mbind outcome_bind].
  unfold ScheduleAnalysis. cbn [alarm_ update].
  destruct (ScheduleWithTask_ok now tt (now + kAnalysisInterval) (alarm_ e) (ok_alarm _ Hok2)) as (al & -> & Hal & Hpend).
  cbn [mbind outcome_bind]. eexists _, stats. split; [reflexivity |].
  split; [by destruct Hok2; constructor |]. split; [exact Hc2 |].
  cbn [statistics_collector_ has_stats_client reported alarm_ update]. rewrite Hcol2, Hcl2, Hrep2.
  cbn [statistics_collector_ has_stats_client reported update d]. rewrite Hcl1, Hrep1.
  split_and!; try done. rewrite Hpend. unfold kAnalysisInterval. do 2 f_equal. lia.
Qed.

(** * Runs *)

Definition op_ok (op : AnalyzerOp) (a : StatisticsAnalyzer E) : Prop :=
  match op with
  | OpScheduleAnalysis _ => True
  | OpFrameEvent e => event_ok (frame_event e)
  | OpPacketEvent e => event_ok (packet_event e)
  | OpAlarm _ i _ => (i < length (posted (alarm_ a)))%nat
  end.

Inductive analyzer_runs (client : bool) (start : Z) (estimator : E) : list AnalyzerOp -> StatisticsAnalyzer E -> Prop :=
  | analyzer_new a : new_StatisticsAnalyzer client start estimator = Ret a -> analyzer_runs client start estimator [] a
  | analyzer_op ops a op a' :
      analyzer_runs client start estimator ops a -> op_ok op a -> analyzer_step op a = Ret a' ->
      analyzer_runs client start estimator (ops ++ [op]) a'.

Definition frame_events (ops : list AnalyzerOp) : list FrameEvent :=
  omap (fun op => match op with OpFrameEvent e => Some e | _ => None end) ops.
Definition packet_events (ops : list AnalyzerOp) : list PacketEvent :=
  omap (fun op => match op with OpPacketEvent e => Some e | _ => None end) ops.
Definition scheduled (ops : list AnalyzerOp) : Prop :=
  Exists (fun op => match op with OpScheduleAnalysis _ => True | _ => False end) ops.

Lemma frame_events_snoc ops op : frame_events (ops ++ [op]) = frame_events ops ++ frame_events [op].
Proof. apply omap_app. Qed.
Lemma packet_events_snoc ops op : packet_events (ops ++ [op]) = packet_events ops ++ packet_events [op].
Proof. apply omap_app. Qed.

(** What holds after any run: what was collected is counted, or waits. *)
Record run_ok (client : bool) (ops : list AnalyzerOp) a : Prop := {
  run_analyzer : analyzer_ok a;
  run_collected : collected_ok (statistics_collector_ a);
  run_client : has_stats_client a = client;
  run_counted : exists fs ps, counted fs ps a /\
    frame_events ops = fs ++ recent_frame_events_ (statistics_collector_ a) /\
    packet_events ops = ps ++ recent_packet_events_ (statistics_collector_ a);
  run_scheduled : scheduled ops -> is_Some (pending (alarm_ a)) }.

Lemma new_analyzer_ok client start estimator :
  exists a, new_StatisticsAnalyzer client start estimator = Ret a /\ run_ok client [] a.
Proof.
  unfold new_StatisticsAnalyzer, InitHistograms, kDefaultMaxLatencyBucketMs, kDefaultBucketWidthMs.
  destruct (new_SimpleHistogram_ok 0 800 20) as (h & -> & Hok & _); [lia | lia | done | lia |].
  cbn [mbind outcome_bind]. eexists. split; [reflexivity |].
  assert (histograms_ok (map (fun _ => h) histogram_types)) by (split; [done | cbn; by rewrite !Forall_cons, Forall_nil]).
  constructor.
  - constructor; cbn; try (by split).
    + by repeat constructor.
    + by repeat constructor.
    + apply new_Alarm_ok.
  - by split; constructor.
  - done.
  - exists [], []. split; [| done]. split; intros [] t Hm; done.
  - by intros ?%Exists_nil.
Qed.

Lemma step_ok client ops op a :
  run_ok client ops a -> op_ok op a -> exists a', analyzer_step op a = Ret a' /\ run_ok client (ops ++ [op]) a'.
Proof.
  intros [Ha [Hcf Hcp] Hcl (fs & ps & Hc & Ef & Ep) Hs] Hop.
  assert (Hsch : scheduled (ops ++ [op]) -> scheduled ops \/ exists now, op = OpScheduleAnalysis now).
  { unfold scheduled. rewrite Exists_app, Exists_cons, Exists_nil. destruct op; naive_solver. }
  destruct op as [now | e | e | now i memory]; cbn [analyzer_step op_ok] in *.
  - unfold ScheduleAnalysis.
    destruct (ScheduleWithTask_ok now tt (now + kAnalysisInterval) (alarm_ a) (ok_alarm _ Ha)) as (al & -> & Hal & Hpend).
    cbn [mbind outcome_bind]. eexists. split; [reflexivity |]. constructor; try done.
    + by destruct Ha; constructor.
    + exists fs, ps. rewrite frame_events_snoc, packet_events_snoc, Ef, Ep. cbn. by rewrite !app_nil_r.
  - eexists. split; [reflexivity |]. constructor; try done.
    + by destruct Ha; constructor.
    + split; [| done]. cbn. apply Forall_app. split; [done | by apply Forall_singleton].
    + exists fs, ps. rewrite frame_events_snoc, packet_events_snoc, Ef, Ep. cbn. by rewrite !app_nil_r, app_assoc.
    + intros [Hs' | [now [=]]]%Hsch. by apply Hs.
  - eexists. split; [reflexivity |]. constructor; try done.
    + by destruct Ha; constructor.
    + split; [done |]. cbn. apply Forall_app. split; [done | by apply Forall_singleton].
    + exists fs, ps. rewrite frame_events_snoc, packet_events_snoc, Ef, Ep. cbn. by rewrite !app_nil_r, app_assoc.
    + intros [Hs' | [now [=]]]%Hsch. by apply Hs.
  - destruct (functor_call_ok now i (alarm_ a) (ok_alarm _ Ha) Hop) as (task & al & -> & Hal & Htask).
    cbn [mbind outcome_bind]. destruct task as [[] |].
    + destruct (AnalyzeStatistics_ok now memory fs ps (a <| alarm_ := al |>)) as (b & stats & -> & Hb & Hc' & Hcol & Hcl' & _ & Hpend & _);
        [by destruct Ha; constructor | exact Hc | by split |].
      eexists. split; [reflexivity |]. constructor; try done.
      * rewrite Hcol. by split; constructor.
      * by rewrite Hcl'.
      * eexists _, _. split; [exact Hc' |]. rewrite Hcol, frame_events_snoc, packet_events_snoc, Ef, Ep. by rewrite !app_nil_r.
    + eexists. split; [reflexivity |]. constructor; try done.
      * by destruct Ha; constructor.
      * exists fs, ps. rewrite frame_events_snoc, packet_events_snoc, Ef, Ep. cbn. by rewrite !app_nil_r.
      * intros [Hs' | [now' [=]]]%Hsch. cbn. destruct Htask as [-> _]. by apply Hs.
Qed.

Lemma runs_ok client start estimator ops a : analyzer_runs client start estimator ops a -> run_ok client ops a.
Proof.
  induction 1 as [a Hnew | ops a op a' _ IH Hop Hstep].
  - destruct (new_analyzer_ok client start estimator) as (b & Eb & Hb). congruence.
  - destruct (step_ok client ops op a IH Hop) as (b & Eb & Hb). congruence.
Qed.

(** * Theorems *)

(** C24 The analyzer does not abort and does not grow: whatever estimator it
    has, in whatever order events are collected, analyses scheduled and functors of its alarm
    called, if every event is of audio or video then no check fails and no
    histogram is read out of bounds; it remembers at most 200 frames and 1000 packets of
    each medium. *)
Theorem analyzer_never_aborts (client : bool) (start : Z) (estimator : E) (ops : list AnalyzerOp) a :
  analyzer_runs client start estimator ops a ->
  (forall op, op_ok op a -> returns (analyzer_step op a)) /\
  av_all (fun m => length m <= 200)%nat (recent_frame_infos_ a) /\
  av_all (fun m => length m <= 1000)%nat (recent_packet_infos_ a).
Proof.
  intros Hr%runs_ok. split.
  - intros op Hop. destruct (step_ok client ops op a Hr Hop) as (b & -> & _). by eexists.
  - destruct Hr as [[Hf Hp _ _] _ _ _ _]. unfold frame_infos_ok, packet_infos_ok, av_all in *. naive_solver.
Qed.

(** C23 Every event is counted once: in every state the events collected are
    those that wait, in their order, and those that the counters describe: for each medium and
    type of event how many there were, the sum of their sizes modulo 2^32 and of their delays. *)
Theorem events_are_counted (client : bool) (start : Z) (estimator : E) (ops : list AnalyzerOp) a :
  analyzer_runs client start estimator ops a ->
  exists fs ps, frame_events ops = fs ++ recent_frame_events_ (statistics_collector_ a) /\
    packet_events ops = ps ++ recent_packet_events_ (statistics_collector_ a) /\
    forall mt t, known_media mt ->
      (map_find t <$> av_Get mt (frame_stats_ a)) = Ret (frame_counter mt t fs) /\
      (map_find t <$> av_Get mt (packet_stats_ a)) = Ret (packet_counter mt t ps).
Proof.
  intros Hr%runs_ok. destruct (run_counted _ _ _ Hr) as (fs & ps & [Hf Hp] & Ef & Ep). exists fs, ps.
  split; [done |]. split; [done |]. intros mt t Hm. split; [by apply Hf | by apply Hp].
Qed.

(** C25 Reports keep coming.  Once an analysis was scheduled there is always one
    to come, and the task runner has a functor that is due no later than it.  Called before
    the analysis is due, the functor is posted again for exactly its time and nothing else
    happens; called from then on, it counts all the events collected in the run, sends the
    client one report, of these counts, and schedules the next analysis half a second later. *)
Theorem reports_keep_coming (client : bool) (start : Z) (estimator : E) (ops : list AnalyzerOp) a :
  analyzer_runs client start estimator ops a -> scheduled ops ->
  exists i due, pending (alarm_ a) = Some (tt, due) /\ queued_fire_ (alarm_ a) = Some i /\
    posted (alarm_ a) !! i = Some (mkFunctor true (next_fire_time_ (alarm_ a))) /\ next_fire_time_ (alarm_ a) <= due /\
    forall now memory, exists a', analyzer_step (OpAlarm now i memory) a = Ret a' /\
      if now <? due then
        a' = a <| alarm_ := alarm_ a' |> /\ pending (alarm_ a') = Some (tt, due) /\ next_fire_time_ (alarm_ a') = due
      else
        exists stats, reported a' = reported a ++ (if client then [stats] else []) /\ report_of now memory a' stats /\
          statistics_collector_ a' = new_StatisticsCollector /\
          (forall mt t, known_media mt ->
             (map_find t <$> av_Get mt (frame_stats_ a')) = Ret (frame_counter mt t (frame_events ops)) /\
             (map_find t <$> av_Get mt (packet_stats_ a')) = Ret (packet_counter mt t (packet_events ops))) /\
          pending (alarm_ a') = Some (tt, now + 500000).
Proof.
  intros Hr%runs_ok Hsch. destruct Hr as [Ha Hcol Hcl (fs & ps & Hc & Ef & Ep) Hs].
  destruct (Hs Hsch) as [[[] due] Hp]. destruct (pending_queued (alarm_ a) tt due (ok_alarm _ Ha) Hp) as (i & Hq & Hi & Hle).
  assert (Hlt : (i < length (posted (alarm_ a)))%nat) by (by eapply lookup_lt_Some).
  exists i, due. split_and!; try done. intros now memory. cbn [analyzer_step].
  destruct (functor_call_ok now i (alarm_ a) (ok_alarm _ Ha) Hlt) as (task & al & -> & Hal & Htask).
  cbn [mbind outcome_bind]. destruct task as [[] |].
  - destruct Htask as (due' & Hp' & Hle' & _). rewrite Hp in Hp'. injection Hp' as <-. rewrite (proj2 (Z.ltb_ge _ _)) by lia.
    destruct (AnalyzeStatistics_ok now memory fs ps (a <| alarm_ := al |>))
      as (b & stats & -> & Hb & [Hcf Hcp] & Hcol' & _ & Hrep & Hpend & Hof);
      [by destruct Ha; constructor | exact Hc | exact Hcol |].
    cbn [statistics_collector_ update] in Hcf, Hcp.
    exists b. split; [done |]. exists stats. split; [rewrite Hrep; cbn; by rewrite Hcl |]. split; [done |]. split; [done |].
    split; [| done]. intros mt t Hm. rewrite Ef, Ep. split; [by apply Hcf | by apply Hcp].
  - destruct Htask as [Hp' Hlate]. destruct (Hlate Hq tt due Hp) as [Hnow Hfire]. rewrite (proj2 (Z.ltb_lt _ _)) by lia.
    eexists. split; [reflexivity |]. cbn. by rewrite Hp'.
Qed.

(** An event of an unknown medium stops the analysis. *)
Lemma ProcessFrameEvents_unknown l e rest fs ps a :
  Forall (fun f => event_ok (frame_event f)) l -> ev_media_type (frame_event e) = kUnknownMedia ->
  analyzer_ok a -> counted fs ps a -> ProcessFrameEvents (l ++ e :: rest) a = Fault CheckFailed.
Proof.
  intros Hl He. revert fs a. induction l as [| x l IH]; intros fs a Ha Hc; cbn [app ProcessFrameEvents].
  - unfold ProcessFrameEvent, count_frame_event. by rewrite He.
  - inversion Hl as [| ? ? Hx Hl']; subst. destruct (ProcessFrameEvent_counts x fs ps a Hx Ha Hc) as (b & -> & Hb).
    cbn [mbind outcome_bind]. apply (IH Hl' (fs ++ [x])); apply Hb.
Qed.

(** A stream of an unknown type brings the process down: if the sender of one
    enqueues a frame, no check fails then, but the next analysis aborts. *)
Theorem unknown_stream_aborts_analysis (client : bool) (start : Z) (estimator : E) (ops : list AnalyzerOp) a
    (now : Z) (frame : Rtp.EncodedFrame) :
  analyzer_runs client start estimator ops a ->
  exists c, DispatchEnqueueEvents now kUnknownStream frame (Some (statistics_collector_ a)) = Some c /\
    forall later memory, AnalyzeStatistics later memory (a <| statistics_collector_ := c |>) = Fault CheckFailed.
Proof.
  intros Hr%runs_ok. destruct Hr as [Ha [Hcf _] _ (fs & ps & Hc & _) _].
  eexists. split; [reflexivity |]. intros later memory. unfold AnalyzeStatistics. cbn [TakeRecentFrameEvents].
  cbn [statistics_collector_ update CollectFrameEvent recent_frame_events_ recent_packet_events_]. rewrite <- !app_assoc.
  cbn [app]. match goal with |- ProcessFrameEvents (?l ++ ?e :: ?rest) ?b ≫= _ = _ =>
    rewrite (ProcessFrameEvents_unknown l e rest fs ps b Hcf) end; try done. by destruct Ha; constructor.
Qed.

(** The first report, when nothing was collected: the number of late frames is 0, the
    time of the first event is the end of time, and everything else is what the memory
    of the list happened to hold: the list is not initialised. *)
Theorem first_report_is_uninitialised (start now : Z) (estimator : E) (memory : list double * list double) a :
  new_StatisticsAnalyzer true start estimator = Ret a ->
  exists a' stats, AnalyzeStatistics now memory a = Ret a' /\ reported a' = [stats] /\
    audio_statistics stats
    = set_stat kNumLateFrames (double_of_Z 0) (set_stat kFirstEventTimeMs (InMilliseconds INT64_MAX) memory.1) /\
    video_statistics stats
    = set_stat kNumLateFrames (double_of_Z 0) (set_stat kFirstEventTimeMs (InMilliseconds INT64_MAX) memory.2).
Proof.
  intros Hnew. destruct (new_analyzer_ok true start estimator) as (b & Eb & _). assert (b = a) as -> by congruence. clear Eb.
  unfold new_StatisticsAnalyzer, InitHistograms in Hnew.
  destruct (new_SimpleHistogram _ _ _) as [h |]; [| done]. cbn [mbind outcome_bind] in Hnew. injection Hnew as <-.
  eexists _, _. split; [reflexivity |]. split; [reflexivity |]. by split.
Qed.
End Props.
#[global] Arguments AnalyzerOp : clear implicits.

(** * A session

    A video frame is captured, encoded, sent in one packet and acknowledged; the clocks are 7
    seconds apart. *)
Section Demo.
#[local] Notation Analyzer := (StatisticsAnalyzer ClockOffsetEstimatorImpl).

Definition op_okb (op : AnalyzerOp) (a : Analyzer) : bool :=
  let event_okb e := negb (bool_decide (ev_media_type e = kUnknownMedia)) && (0 <=? ev_size e) && (ev_size e <? 2 ^ 32) in
  match op with
  | OpScheduleAnalysis _ => true
  | OpFrameEvent e => event_okb (frame_event e)
  | OpPacketEvent e => event_okb (packet_event e)
  | OpAlarm _ i _ => (i <? length (posted (alarm_ a)))%nat
  end.

Lemma op_okb_ok op a : op_okb op a = true -> op_ok op a.
Proof.
  assert (Hev : forall e, negb (bool_decide (ev_media_type e = kUnknownMedia)) && (0 <=? ev_size e) && (ev_size e <? 2 ^ 32)
    = true -> event_ok e).
  { intros e [[H1 H2]%andb_prop H3]%andb_prop. apply negb_true_iff, bool_decide_eq_false in H1. split; [done |].
    unfold is_u. lia. }
  destruct op; cbn; [done | apply Hev | apply Hev | by intros ?%Nat.ltb_lt].
Qed.

Fixpoint run_ops (ops : list AnalyzerOp) (a : Analyzer) : option Analyzer :=
  match ops with
  | [] => Some a
  | op :: ops => if op_okb op a then match analyzer_step op a with Ret a => run_ops ops a | Fault _ => None end else None
  end.

Lemma run_ops_runs client start est done_ops ops a a' :
  analyzer_runs client start est done_ops a -> run_ops ops a = Some a' -> analyzer_runs client start est (done_ops ++ ops) a'.
Proof.
  revert done_ops a. induction ops as [| op ops IH]; intros done_ops a Hr; cbn [run_ops].
  - intros [= <-]. by rewrite app_nil_r.
  - destruct (op_okb op a) eqn:Eo; [| done]. destruct (analyzer_step op a) as [b |] eqn:Es; [| done].
    intros Hrun. replace (done_ops ++ op :: ops) with ((done_ops ++ [op]) ++ ops) by (by rewrite <- app_assoc).
    apply (IH _ b); [| done]. econstructor; [done | by apply op_okb_ok | done].
Qed.

Definition run_session (client : bool) (start : Z) (est : ClockOffsetEstimatorImpl) (ops : list AnalyzerOp) : option Analyzer :=
  match new_StatisticsAnalyzer client start est with
  | Ret a => run_ops ops a
  | Fault _ => None
  end.

Lemma run_session_runs client start est ops a :
  run_session client start est ops = Some a -> analyzer_runs client start est ops a.
Proof.
  unfold run_session. destruct (new_StatisticsAnalyzer client start est) as [b |] eqn:Eb; [| done].
  intros Hrun. by apply (run_ops_runs _ _ _ [] ops b); [constructor |].
Qed.

Definition demo_frame_event (type : EventType) (size t : Z) : AnalyzerOp :=
  OpFrameEvent (new_FrameEvent (mkEvent null_frame_id type kVideoMedia 90 size t 0)).
Definition demo_packet (type : EventType) (t : Z) : AnalyzerOp :=
  OpPacketEvent (new_PacketEvent (mkEvent null_frame_id type kVideoMedia 90 1000 t 0)).
Definition demo_memory : list double * list double := (replicate 18 S754_nan, replicate 18 S754_nan).
Definition demo_ops : list AnalyzerOp := [
  OpScheduleAnalysis 0; demo_frame_event kFrameCaptureBegin 0 1000; demo_frame_event kFrameCaptureEnd 0 11000;
  demo_frame_event kFrameEncoded 1000 31000; demo_packet kPacketSentToNetwork 33000;
  demo_packet kPacketReceived 7043000; demo_frame_event kFrameAckSent 0 7044000;
  demo_frame_event kFrameAckReceived 0 54000; OpAlarm 500000 0 demo_memory; demo_frame_event kFrameCaptureBegin 0 600000 ].

#[local] Notation demo_run := (run_session true 0 new_ClockOffsetEstimatorImpl demo_ops).

(** The report: one frame captured, 20 ms of encoding, 10 ms of network latency. *)
Definition demo_reported (stat : StatisticType) : option double :=
  a ← demo_run; stats ← head (reported a); video_statistics stats !! statistic_index stat.

Example demo_session_report :
  demo_reported kNumFramesCaptured = Some (double_of_Z 1) /\ demo_reported kAvgEncodeTimeMs = Some (double_of_Z 20) /\
  demo_reported kAvgNetworkLatencyMs = Some (double_of_Z 10) /\ demo_reported kNumFramesDroppedByEncoder = Some S754_nan.
Proof. vm_compute. auto. Qed.

Lemma demo_returns : (if demo_run is Some _ then true else false) = true.
Proof. vm_compute. reflexivity. Qed.

Lemma demo_session_runs : exists a, demo_run = Some a /\ analyzer_runs true 0 new_ClockOffsetEstimatorImpl demo_ops a.
Proof.
  pose proof demo_returns as Hsome. destruct demo_run as [a |] eqn:Ea; [| done]. exists a. split; [exact eq_refl |].
  apply run_session_runs. exact Ea.
Qed.

Lemma analyzer_never_aborts_witness : exists a, demo_run = Some a /\
  (forall op, op_ok op a -> returns (analyzer_step op a)) /\
  av_all (fun m => length m <= 200)%nat (recent_frame_infos_ a) /\
  av_all (fun m => length m <= 1000)%nat (recent_packet_infos_ a).
Proof.
  destruct demo_session_runs as (a & Ea & Hr). exists a. split; [exact Ea |].
  exact (analyzer_never_aborts true 0 new_ClockOffsetEstimatorImpl demo_ops a Hr).
Defined.

Lemma events_are_counted_witness : exists a, demo_run = Some a /\
  exists fs ps, frame_events demo_ops = fs ++ recent_frame_events_ (statistics_collector_ a) /\
    packet_events demo_ops = ps ++ recent_packet_events_ (statistics_collector_ a) /\
    forall mt t, known_media mt ->
      (map_find t <$> av_Get mt (frame_stats_ a)) = Ret (frame_counter mt t fs) /\
      (map_find t <$> av_Get mt (packet_stats_ a)) = Ret (packet_counter mt t ps).
Proof.
  destruct demo_session_runs as (a & Ea & Hr). exists a. split; [exact Ea |].
  exact (events_are_counted true 0 new_ClockOffsetEstimatorImpl demo_ops a Hr).
Defined.

Lemma reports_keep_coming_witness : exists a, demo_run = Some a /\
  exists i due, pending (alarm_ a) = Some (tt, due) /\ queued_fire_ (alarm_ a) = Some i /\
    exists a' stats, analyzer_step (OpAlarm due i demo_memory) a = Ret a' /\ reported a' = reported a ++ [stats] /\
      report_of due demo_memory a' stats.
Proof.
  destruct demo_session_runs as (a & Ea & Hr). exists a. split; [exact Ea |].
  destruct (reports_keep_coming true 0 new_ClockOffsetEstimatorImpl demo_ops a Hr) as (i & due & Hp & Hq & _ & _ & H); [by left |].
  exists i, due. split; [exact Hp |]. split; [exact Hq |]. destruct (H due demo_memory) as (a' & E & Ha'). exists a'.
  rewrite Z.ltb_irrefl in Ha'. destruct Ha' as (stats & Hrep & Hof & _). exists stats.
  split; [exact E |]. split; [exact Hrep | exact Hof].
Defined.

Lemma unknown_stream_aborts_analysis_witness : exists a, demo_run = Some a /\
  exists c, DispatchEnqueueEvents 700000 kUnknownStream Rtp.new_EncodedFrame (Some (statistics_collector_ a)) = Some c /\
    forall later memory, AnalyzeStatistics later memory (a <| statistics_collector_ := c |>) = Fault CheckFailed.
Proof.
  destruct demo_session_runs as (a & Ea & Hr). exists a. split; [exact Ea |].
  exact (unknown_stream_aborts_analysis true 0 new_ClockOffsetEstimatorImpl demo_ops a 700000 Rtp.new_EncodedFrame Hr).
Defined.

Lemma first_report_is_uninitialised_witness : exists a a' stats,
  new_StatisticsAnalyzer true 0 new_ClockOffsetEstimatorImpl = Ret a /\
  AnalyzeStatistics 500000 demo_memory a = Ret a' /\ reported a' = [stats] /\
  audio_statistics stats
  = set_stat kNumLateFrames (double_of_Z 0) (set_stat kFirstEventTimeMs (InMilliseconds INT64_MAX) demo_memory.1) /\
  video_statistics stats
  = set_stat kNumLateFrames (double_of_Z 0) (set_stat kFirstEventTimeMs (InMilliseconds INT64_MAX) demo_memory.2).
Proof.
  destruct (new_StatisticsAnalyzer true 0 new_ClockOffsetEstimatorImpl) as [a |] eqn:E; [| by vm_compute in E].
  destruct (first_report_is_uninitialised 0 500000 new_ClockOffsetEstimatorImpl demo_memory a E) as (a' & stats & H).
  exists a, a', stats. by split.
Defined.
End Demo.
