(* ===== verification/Receiver.v ===== *)
(** The receiver of one stream (cast/streaming/impl/receiver_impl.h and .cc):
    the frame queue, acknowledgement of frames, requests for packets, playout
    times, skipping of late frames.

    The calls a receiver makes are represented by the field [calls_], in order:
    RTCP packets handed to the packet router and notifications of the consumer.
    A consumer that calls the receiver back from [OnFramesReady] is a later
    operation.  The clock is read once for an operation.  The two alarms are
    those of Alarm.v, with one task each. *)

From S2P Require Import Prelude Numeric Wire Ids NtpTime RtpDefines RtcpCommon SenderReport.
From S2P Require Import RtcpBuilder Rtp FrameCollector FrameCrypto StatsTracker Alarm ClockDrift.

Definition kDefaultPlayerProcessingTime : Z := 50.
Definition kNackFeedbackInterval : Z := 30.
Definition kReportInterval : Z := 500.

(** The fields of [SessionConfig] a receiver reads. *)
Record SessionConfig := mkSessionConfig {
  config_sender_ssrc : Z;
  config_receiver_ssrc : Z;
  config_rtp_timebase : Z;
  config_target_playout_delay : Z;    (* milliseconds *)
  config_aes_secret_key : list Z;
  config_aes_iv_mask : list Z;
  config_is_pli_enabled : bool;
  config_are_receiver_event_logs_enabled : bool }.

Inductive ReceiverCall :=
  | CallSendRtcpPacket (packet : list Z)
  | CallOnFramesReady (next_frame_buffer_size : Z).

(** The errors of [ReportPlayoutEvent]. *)
Inductive PlayoutError := kNone | kOperationInvalid | kParameterOutOfRange.

Record PendingFrame := mkPendingFrame {
  collector : FrameCollector;
  estimated_capture_time : option Z;
  pending_rtp_timestamp : option Z }.
#[export] Instance eta_PendingFrame : Eta PendingFrame := fun e =>
  mkPendingFrame (collector e) (estimated_capture_time e) (pending_rtp_timestamp e).
Definition new_PendingFrame : PendingFrame := mkPendingFrame new_FrameCollector None None.

Section Receiver.
Context {AES_KEY : Type}.
Variable AES_set_encrypt_key : list Z -> option AES_KEY.
Variable AES_ctr128_encrypt : AES_KEY -> ctr_state -> list Z -> list Z * ctr_state.
Variable exp : double -> double.

Record ReceiverImpl := mkReceiver {
  config_ : SessionConfig;
  rtcp_session_ : RtcpSession;
  rtcp_parser_ : Z;                    (* SenderReportParser's state *)
  rtcp_builder_ : CompoundRtcpBuilder;
  stats_tracker_ : PacketReceiveStatsTracker;
  rtp_parser_ : RtpPacketParser;
  crypto_ : @FrameCrypto AES_KEY;
  rtcp_buffer_size_ : Z;
  rtcp_alarm_ : Alarm (Task := unit);
  last_rtcp_send_time_ : Z;
  last_sender_report_ : option SenderReportWithId;
  last_sender_report_arrival_time_ : Z;
  smoothed_clock_offset_ : ClockDriftSmoother;
  latest_frame_expected_ : Z;
  last_frame_consumed_ : Z;
  last_key_frame_received_ : Z;
  pending_frames_ : list PendingFrame;
  pending_frame_acks_ : list Z;
  playout_delay_changes_ : list (Z * Z);
  consumer_ : bool;
  player_processing_time_ : Z;
  consumption_alarm_ : Alarm (Task := unit);
  pending_logs_ : list RtcpReceiverFrameLogMessage;
  calls_ : list ReceiverCall }.
#[export] Instance eta_ReceiverImpl : Eta ReceiverImpl := fun s =>
  mkReceiver (config_ s) (rtcp_session_ s) (rtcp_parser_ s) (rtcp_builder_ s) (stats_tracker_ s)
    (rtp_parser_ s) (crypto_ s) (rtcp_buffer_size_ s) (rtcp_alarm_ s) (last_rtcp_send_time_ s)
    (last_sender_report_ s) (last_sender_report_arrival_time_ s) (smoothed_clock_offset_ s)
    (latest_frame_expected_ s) (last_frame_consumed_ s) (last_key_frame_received_ s)
    (pending_frames_ s) (pending_frame_acks_ s) (playout_delay_changes_ s) (consumer_ s)
    (player_processing_time_ s) (consumption_alarm_ s) (pending_logs_ s) (calls_ s).

Definition receiver_call (c : ReceiverCall) (s : ReceiverImpl) : ReceiverImpl :=
  s <| calls_ := calls_ s ++ [c] |>.

Definition checkpoint_frame (s : ReceiverImpl) : Z := checkpoint_frame_id (rtcp_builder_ s).
Definition set_checkpoint_frame (id : Z) (s : ReceiverImpl) : outcome ReceiverImpl :=
  b ← SetCheckpointFrame id (rtcp_builder_ s); Ret (s <| rtcp_builder_ := b |>).

Definition logs_enabled (s : ReceiverImpl) : bool :=
  config_are_receiver_event_logs_enabled (config_ s).

(** [since_unix_epoch] is the wall clock read by the NTP converter of the
    session. *)
Definition new_ReceiverImpl (max_packet_size now since_unix_epoch : Z) (config : SessionConfig)
    : outcome ReceiverImpl :=
  session ← new_RtcpSession (config_sender_ssrc config) (config_receiver_ssrc config)
    now since_unix_epoch;
  crypto ← new_FrameCrypto AES_set_encrypt_key (config_aes_secret_key config)
    (config_aes_iv_mask config);
  smoother ← new_ClockDriftSmoother kDefaultTimeConstant;
  OSP_CHECK (checkpoint_frame_id new_CompoundRtcpBuilder =? leader_frame_id) ;;
  OSP_CHECK (0 <? max_packet_size) ;;
  Ret (mkReceiver config session 0
    (SetPlayoutDelay (config_target_playout_delay config) new_CompoundRtcpBuilder)
    (new_PacketReceiveStatsTracker (config_rtp_timebase config))
    (new_RtpPacketParser (config_sender_ssrc config)) crypto max_packet_size new_Alarm INT64_MIN
    None 0 smoother leader_frame_id leader_frame_id null_frame_id
    (replicate (Z.to_nat kMaxUnackedFrames) new_PendingFrame) []
    [(leader_frame_id, config_target_playout_delay config)] false
    (kDefaultPlayerProcessingTime * 1000) new_Alarm [] []).

Definition queue_index (id : Z) : nat := Z.to_nat (u64 (id - first_frame_id) mod kMaxUnackedFrames).
Definition GetQueueEntry (id : Z) (s : ReceiverImpl) : outcome PendingFrame :=
  in_bounds (pending_frames_ s !! queue_index id).
Definition set_entry (id : Z) (e : PendingFrame) (s : ReceiverImpl) : ReceiverImpl :=
  s <| pending_frames_ := <[queue_index id := e]> (pending_frames_ s) |>.

Definition ScheduleFrameReadyCheck (now when_ : Z) (s : ReceiverImpl) : outcome ReceiverImpl :=
  a ← ScheduleWithTask now tt when_ (consumption_alarm_ s);
  Ret (s <| consumption_alarm_ := a |>).
Definition kImmediately : Z := INT64_MIN.

Definition SetConsumer (now : Z) (consumer : bool) (s : ReceiverImpl) : outcome ReceiverImpl :=
  ScheduleFrameReadyCheck now kImmediately (s <| consumer_ := consumer |>).

Definition SetPlayerProcessingTime (needed_time : Z) (s : ReceiverImpl) : ReceiverImpl :=
  s <| player_processing_time_ := Z.max 0 needed_time |>.

(** ** Playout delays *)

(** Entries no longer needed are dropped from the front, but for one. *)
Definition prune_delays (next_frame : Z) (changes : list (Z * Z)) : list (Z * Z) :=
  let rest := tail changes in
  let kept_from :=
    match list_find (fun e : Z * Z => next_frame < e.1) rest with
    | Some (i, _) => i
    | None => length rest
    end in
  drop kept_from changes.

Fixpoint insert_delay (as_of_frame delay : Z) (changes : list (Z * Z)) : list (Z * Z) :=
  match changes with
  | [] => [(as_of_frame, delay)]
  | e :: changes' =>
      if as_of_frame <? e.1 then (as_of_frame, delay) :: changes
      else e :: insert_delay as_of_frame delay changes'
  end.

Definition RecordNewTargetPlayoutDelay (as_of_frame delay : Z) (s : ReceiverImpl)
    : outcome ReceiverImpl :=
  OSP_CHECK (checkpoint_frame s <? as_of_frame) ;;
  let next_frame := last_frame_consumed_ s - kMaxUnackedFrames + 1 in
  Ret (s <| playout_delay_changes_ :=
         insert_delay as_of_frame delay (prune_delays next_frame (playout_delay_changes_ s)) |>).

(** In milliseconds. *)
Definition ResolveTargetPlayoutDelay (id : Z) (s : ReceiverImpl) : outcome Z :=
  let first_possible :=
    if first_frame_id + kMaxUnackedFrames <? last_frame_consumed_ s
    then last_frame_consumed_ s - kMaxUnackedFrames else first_frame_id in
  OSP_CHECK (first_possible <=? id) ;;
  match list_find (fun e : Z * Z => e.1 <= id) (reverse (playout_delay_changes_ s)) with
  | Some (_, e) => Ret e.2
  | None => Fault CheckFailed
  end.

(** ** Feedback *)

Fixpoint add_event (ts : Z) (e : RtcpReceiverEventLogMessage)
    (logs : list RtcpReceiverFrameLogMessage) : list RtcpReceiverFrameLogMessage :=
  match logs with
  | [] => [mkFrameLog ts [e]]
  | log :: logs =>
      if log_rtp_timestamp log =? ts
      then mkFrameLog ts (log_messages log ++ [e]) :: logs
      else log :: add_event ts e logs
  end.
Definition AddEventToPendingLogs (ts : Z) (e : RtcpReceiverEventLogMessage) (s : ReceiverImpl)
    : outcome ReceiverImpl :=
  OSP_CHECK (logs_enabled s) ;;
  Ret (s <| pending_logs_ := add_event ts e (pending_logs_ s) |>).
Fixpoint add_ack_events (now : Z) (timestamps : list Z) (s : ReceiverImpl) : outcome ReceiverImpl :=
  match timestamps with
  | [] => Ret s
  | ts :: timestamps =>
      s ← AddEventToPendingLogs ts (mkEventLog kFrameAckSent now 0 0) s;
      add_ack_events now timestamps s
  end.

(** What is missing, complete, and the timestamps of the complete frames, of the
    [n] frames from [f] on. *)
Fixpoint feedback_loop (n : nat) (f : Z) (s : ReceiverImpl)
    : outcome (list PacketNack * list Z * list Z) :=
  match n with
  | O => Ret ([], [], [])
  | S n =>
      entry ← GetQueueEntry f s;
      if is_complete (collector entry) then
        let timestamps := if logs_enabled s then option_list (pending_rtp_timestamp entry) else [] in
        '(nacks, acks, more) ← feedback_loop n (f + 1) s;
        Ret (nacks, f :: acks, timestamps ++ more)
      else
        missing ← GetMissingPackets (collector entry);
        '(nacks, acks, more) ← feedback_loop n (f + 1) s;
        Ret (missing ++ nacks, acks, more)
  end.

Definition SendRtcp (now : Z) (s : ReceiverImpl) : outcome ReceiverImpl :=
  '(packet_nacks, frame_acks, timestamps) ←
    feedback_loop (Z.to_nat (latest_frame_expected_ s - checkpoint_frame s))
      (checkpoint_frame s + 1) s;
  let s := s <| pending_frame_acks_ := pending_frame_acks_ s ++ timestamps |> in
  s ← (if logs_enabled s then
         s ← add_ack_events now (pending_frame_acks_ s) s;
         let s := s <| pending_frame_acks_ := [] |> in
         let b := IncludeReceiverLogsInNextPacket (pending_logs_ s) (rtcp_builder_ s) in
         Ret (s <| rtcp_builder_ := b |> <| pending_logs_ := [] |>)
       else Ret s);
  let b := IncludeFeedbackInNextPacket packet_nacks frame_acks (rtcp_builder_ s) in
  (* [packet_nacks] has been moved from: it is empty from here on. *)
  let packet_nacks := @nil PacketNack in
  let s := s <| last_rtcp_send_time_ := now |> in
  '(b, packet) ← BuildPacket (rtcp_session_ s) now b (new_buffer (rtcp_buffer_size_ s));
  let s := receiver_call (CallSendRtcpPacket packet) (s <| rtcp_builder_ := b |>) in
  let interval := match packet_nacks with [] => kReportInterval | _ => kNackFeedbackInterval end in
  a ← ScheduleWithTask now tt (last_rtcp_send_time_ s + interval * 1000) (rtcp_alarm_ s);
  Ret (s <| rtcp_alarm_ := a |>).

(** The last of the complete frames that follow [f] without a gap. *)
Fixpoint contiguous_loop (n : nat) (f : Z) (s : ReceiverImpl) : outcome Z :=
  match n with
  | O => Ret f
  | S n =>
      if f <? latest_frame_expected_ s then
        entry ← GetQueueEntry (f + 1) s;
        if is_complete (collector entry) then contiguous_loop n (f + 1) s else Ret f
      else Ret f
  end.

Definition AdvanceCheckpoint (now new_checkpoint : Z) (s : ReceiverImpl) : outcome ReceiverImpl :=
  OSP_CHECK (checkpoint_frame s <? new_checkpoint) ;;
  OSP_CHECK (new_checkpoint <=? latest_frame_expected_ s) ;;
  new_checkpoint ←
    contiguous_loop (Z.to_nat (latest_frame_expected_ s - new_checkpoint)) new_checkpoint s;
  s ← set_checkpoint_frame new_checkpoint s;
  delay ← ResolveTargetPlayoutDelay new_checkpoint s;
  SendRtcp now (s <| rtcp_builder_ := SetPlayoutDelay delay (rtcp_builder_ s) |>).

Definition RequestKeyFrame (now : Z) (s : ReceiverImpl) : outcome ReceiverImpl :=
  if negb (config_is_pli_enabled (config_ s)) then Ret s
  else if negb (is_null (last_key_frame_received_ s))
          && (last_key_frame_received_ s <=? last_frame_consumed_ s)
          && negb (picture_loss_indicator (rtcp_builder_ s))
  then SendRtcp now (s <| rtcp_builder_ := SetPictureLossIndicator true (rtcp_builder_ s) |>)
  else Ret s.

Definition ReportPlayoutEvent (id ts playout_time : Z) (s : ReceiverImpl)
    : outcome (PlayoutError * ReceiverImpl) :=
  if negb (logs_enabled s) then Ret (kOperationInvalid, s)
  else if id <=? latest_frame_expected_ s - kMaxUnackedFrames then Ret (kParameterOutOfRange, s)
  else
    entry ← GetQueueEntry id s;
    match estimated_capture_time entry with
    | None => Fault CheckFailed
    | Some capture =>
        let playout_delay := Z.max 0 (playout_time - capture) in
        s ← (if logs_enabled s
             then AddEventToPendingLogs ts
               (mkEventLog kFramePlayedOut playout_time (Z.quot playout_delay 1000 * 1000) 0) s
             else Ret s);
        Ret (kNone, s)
    end.

(** ** Packets from the sender *)

(** Prepares the entries of the frames after the latest one known, up to
    [target]. *)
Fixpoint expect_loop (n : nat) (target : Z) (s : ReceiverImpl) : outcome ReceiverImpl :=
  match n with
  | O => Ret s
  | S n =>
      let s := s <| latest_frame_expected_ := latest_frame_expected_ s + 1 |> in
      entry ← GetQueueEntry (latest_frame_expected_ s) s;
      let entry := entry <| estimated_capture_time := None |>
                         <| collector := set_frame_id (latest_frame_expected_ s) (collector entry) |> in
      let s := set_entry (latest_frame_expected_ s) entry s in
      if latest_frame_expected_ s <? target then expect_loop n target s else Ret s
  end.

(** The timing of a frame, from its first packet; [true] when the code returns
    early, which it does while no clock offset is known. *)
Definition record_timing (now : Z) (part : ParseResult) (s : ReceiverImpl)
    : outcome (bool * ReceiverImpl) :=
  let id := part_frame_id part in
  entry ← GetQueueEntry id s;
  if (packet_id part =? 0) && bool_decide (estimated_capture_time entry = None) then
    let entry := entry <| pending_rtp_timestamp := Some (part_rtp_timestamp part) |> in
    let s := set_entry id entry s in
    match Current (smoothed_clock_offset_ s) with
    | None => Ret (true, s)
    | Some smoothed_offset =>
        match last_sender_report_ s with
        | None => Fault Undefined
        | Some report =>
            media ← ToDuration
              (part_rtp_timestamp part - sr_rtp_timestamp (base_report report))
              (config_rtp_timebase (config_ s));
            let capture := sr_reference_time (base_report report) + smoothed_offset + media in
            let s := set_entry id (entry <| estimated_capture_time := Some capture |>) s in
            s ← (if 0 <? part_new_playout_delay part
                 then RecordNewTargetPlayoutDelay id (part_new_playout_delay part) s else Ret s);
            s ← ScheduleFrameReadyCheck now kImmediately s;
            Ret (false, s)
        end
    end
  else Ret (false, s).

(** What a completed frame changes. *)
Definition complete_frame (now : Z) (part : ParseResult) (c : FrameCollector) (s : ReceiverImpl)
    : outcome ReceiverImpl :=
  let id := part_frame_id part in
  metadata ← PeekFrameMetadata c;
  let s := if bool_decide (dependency metadata = kKeyFrame)
           then s <| rtcp_builder_ := SetPictureLossIndicator false (rtcp_builder_ s) |>
                  <| last_key_frame_received_ := id |>
           else s in
  s ← (if id =? checkpoint_frame s + 1 then
         let s := s <| pending_frame_acks_ := pending_frame_acks_ s ++ [part_rtp_timestamp part] |> in
         AdvanceCheckpoint now id s
       else Ret s);
  ScheduleFrameReadyCheck now kImmediately s.

(** A packet of a frame that is expected. *)
Definition collect_packet (now arrival_time : Z) (part : ParseResult) (s : ReceiverImpl)
    : outcome ReceiverImpl :=
  let id := part_frame_id part in
  entry ← GetQueueEntry id s;
  if is_complete (collector entry) then Ret s else
  '(collected, c) ← CollectRtpPacket part (collector entry);
  let s := set_entry id (entry <| collector := c |>) s in
  if negb collected then Ret s else
  '(returned, s) ← record_timing now part s;
  if returned : bool then Ret s else
  s ← (if logs_enabled s
       then AddEventToPendingLogs (part_rtp_timestamp part)
         (mkEventLog kPacketReceived arrival_time 0 (packet_id part)) s
       else Ret s);
  if negb (is_complete c) then Ret s else complete_frame now part c s.

Definition OnReceivedRtpPacket (now arrival_time : Z) (packet : list Z) (s : ReceiverImpl)
    : outcome ReceiverImpl :=
  '(part, parser) ← RtpPacketParser_Parse (rtp_parser_ s) packet;
  let s := s <| rtp_parser_ := parser |> in
  match part with
  | None => Ret s
  | Some part =>
      stats ← OnReceivedValidRtpPacket (sequence_number part) (part_rtp_timestamp part)
        arrival_time (stats_tracker_ s);
      let s := s <| stats_tracker_ := stats |> in
      if part_frame_id part <=? checkpoint_frame s then Ret s else
      let beyond := latest_frame_expected_ s <? part_frame_id part in
      if beyond && (last_frame_consumed_ s + kMaxUnackedFrames <? part_frame_id part)
      then Ret s else
      s ← (if beyond
           then expect_loop (Z.to_nat (part_frame_id part - latest_frame_expected_ s))
                  (part_frame_id part) s
           else Ret s);
      if bool_decide (last_sender_report_ s = None) && (packet_id part =? 0) then Ret s
      else collect_packet now arrival_time part s
  end.

Definition OnReceivedRtcpPacket (now arrival_time : Z) (packet : list Z) (s : ReceiverImpl)
    : outcome ReceiverImpl :=
  '(parsed_report, parser) ← SenderReportParser_Parse (rtcp_session_ s) (rtcp_parser_ s) packet;
  let s := s <| rtcp_parser_ := parser |> in
  match parsed_report with
  | None => Ret s
  | Some parsed =>
      let s := s <| last_sender_report_ := Some parsed |>
                 <| last_sender_report_arrival_time_ := arrival_time |> in
      let measured_offset := arrival_time - sr_reference_time (base_report parsed) in
      smoother ← Smoother_Update exp arrival_time measured_offset (smoothed_clock_offset_ s);
      let s := s <| smoothed_clock_offset_ := smoother |> in
      let report := empty_report_block <| ssrc := sender_ssrc (rtcp_session_ s) |> in
      let '(stats, report) := PopulateNextReport report (stats_tracker_ s) in
      let s := s <| stats_tracker_ := stats |> in
      let report := report <| last_status_report_id := report_id parsed |> in
      let report := SetDelaySinceLastReport (now - last_sender_report_arrival_time_ s) report in
      let b := IncludeReceiverReportInNextPacket report (rtcp_builder_ s) in
      SendRtcp now (s <| rtcp_builder_ := b |>)
  end.

(** ** Consumption *)

Fixpoint reset_frames (n : nat) (f : Z) (s : ReceiverImpl) : outcome ReceiverImpl :=
  match n with
  | O => Ret s
  | S n =>
      entry ← GetQueueEntry f s;
      OSP_CHECK (negb (bool_decide (estimated_capture_time entry = None))) ;;
      reset_frames n (f + 1) (set_entry f (entry <| collector := Reset (collector entry) |>) s)
  end.

Definition DropAllFramesBefore (now first_kept_frame : Z) (s : ReceiverImpl) : outcome ReceiverImpl :=
  let first_to_drop := last_frame_consumed_ s + 1 in
  OSP_CHECK (first_to_drop <? first_kept_frame) ;;
  OSP_CHECK (checkpoint_frame s <? first_kept_frame) ;;
  OSP_CHECK (first_kept_frame <=? latest_frame_expected_ s) ;;
  s ← reset_frames (Z.to_nat (first_kept_frame - first_to_drop)) first_to_drop s;
  AdvanceCheckpoint now first_kept_frame (s <| last_frame_consumed_ := first_kept_frame - 1 |>).

(** The scan of [AdvanceToNextFrame], over [n] frames from [f] on. *)
Fixpoint advance_loop (n : nat) (now f : Z) (s : ReceiverImpl) : outcome (option Z * ReceiverImpl) :=
  match n with
  | O => Ret (None, s)
  | S n =>
      entry ← GetQueueEntry f s;
      let is_next_frame := f =? last_frame_consumed_ s + 1 in
      metadata ← (if is_complete (collector entry)
                  then m ← PeekFrameMetadata (collector entry); Ret (Some m) else Ret None);
      let is_ready :=
        match metadata with
        | Some m => is_next_frame || negb (bool_decide (dependency m = kDependent))
        | None => false
        end in
      if is_ready then
        s ← (if is_next_frame then Ret s else DropAllFramesBefore now f s);
        size ← GetFramePayloadSize (collector entry);
        Ret (Some size, s)
      else
        match estimated_capture_time entry with
        | None => Ret (None, s)
        | Some capture =>
            delay ← ResolveTargetPlayoutDelay f s;
            let process_time := capture + delay * 1000 - player_processing_time_ s in
            if now <? process_time then
              s ← ScheduleFrameReadyCheck now process_time s;
              Ret (None, s)
            else advance_loop n now (f + 1) s
        end
  end.

Definition AdvanceToNextFrame (now : Z) (s : ReceiverImpl) : outcome (option Z * ReceiverImpl) :=
  advance_loop (Z.to_nat (latest_frame_expected_ s - last_frame_consumed_ s)) now
    (last_frame_consumed_ s + 1) s.

(** [buffer_size] is the size of the buffer the consumer provides. *)
Definition ConsumeNextFrame (now buffer_size : Z) (s : ReceiverImpl)
    : outcome (EncodedFrame * ReceiverImpl) :=
  let id := last_frame_consumed_ s + 1 in
  OSP_CHECK (id <=? checkpoint_frame s) ;;
  entry ← GetQueueEntry id s;
  OSP_CHECK (is_complete (collector entry)) ;;
  match estimated_capture_time entry with
  | None => Fault CheckFailed
  | Some capture =>
      metadata ← PeekFrameMetadata (collector entry);
      chunks ← GetPayloadChunks (collector entry);
      bytes ← Decrypt AES_ctr128_encrypt (crypto_ s) (frame_id metadata) chunks buffer_size;
      delay ← ResolveTargetPlayoutDelay id s;
      let frame := CopyMetadataTo metadata new_EncodedFrame in
      let frame := frame <| data := bytes |>
                         <| reference_time := capture + delay * 1000 - player_processing_time_ s |> in
      let s := set_entry id (entry <| collector := Reset (collector entry) |>) s in
      s ← ScheduleFrameReadyCheck now kImmediately (s <| last_frame_consumed_ := id |>);
      Ret (frame, s)
  end.

(** ** The alarms *)

Definition consumption_alarm_fires (now : Z) (i : nat) (s : ReceiverImpl) : outcome ReceiverImpl :=
  '(task, a) ← functor_call now i (consumption_alarm_ s);
  let s := s <| consumption_alarm_ := a |> in
  match task with
  | Some tt =>
      if consumer_ s then
        '(next_size, s) ← AdvanceToNextFrame now s;
        Ret (match next_size with
             | Some size => receiver_call (CallOnFramesReady size) s
             | None => s
             end)
      else Ret s
  | None => Ret s
  end.

Definition rtcp_alarm_fires (now : Z) (i : nat) (s : ReceiverImpl) : outcome ReceiverImpl :=
  '(task, a) ← functor_call now i (rtcp_alarm_ s);
  let s := s <| rtcp_alarm_ := a |> in
  match task with Some tt => SendRtcp now s | None => Ret s end.
End Receiver.
