(* ===== verification/ReceiverInv.v ===== *)
(** The invariant of a receiver (Receiver.v): what its queue of frames holds,
    and that every step of its operations keeps it. *)

From S2P Require Import Prelude Numeric Wire Ids NtpTime RtpDefines RtcpParser RtcpCommon SenderReport.
From S2P Require Import RtcpBuilder Rtp FrameCollector FrameCrypto StatsTracker.
From S2P Require Import Alarm ClockDrift Receiver.

(** * The queue of frames

    Between the last frame consumed, [lc], and the latest expected one, every
    frame has an entry; the frames up to [cp] are complete; the entries of the
    frames after the latest one are free. *)

Definition entry_of (frames : list PendingFrame) (f : Z) : option PendingFrame :=
  frames !! queue_index f.

(** The packets that may have been received, for the provenance of what is in
    the queue. *)
Class Origin := origin : ParseResult -> Prop.

Section Ring.
Context {O : Origin}.

Definition entry_ok (f : Z) (e : PendingFrame) : Prop :=
  collector_ok (collector e) /\ frame_id (frame_ (collector e)) = f
  /\ (has_first (collector e) -> is_Some (estimated_capture_time e))
  /\ content_ok origin f (collector e).

Definition entry_free (e : PendingFrame) : Prop := collector e = new_FrameCollector.

Definition window_ok (lc cp latest : Z) : Prop :=
  -1 <= lc <= cp /\ cp <= latest <= lc + 120 /\ latest < 2 ^ 62.

Record ring (frames : list PendingFrame) (lc cp latest : Z) : Prop := {
  ring_length : length frames = 120%nat;
  ring_window : window_ok lc cp latest;
  ring_entries f e : lc < f <= latest -> entry_of frames f = Some e -> entry_ok f e;
  ring_free f e : latest < f <= lc + 120 -> entry_of frames f = Some e -> entry_free e;
  ring_complete f e : lc < f <= cp -> entry_of frames f = Some e -> is_complete (collector e) = true;
  ring_captured f e : 0 <= f -> latest - 120 < f <= lc -> entry_of frames f = Some e ->
    is_Some (estimated_capture_time e) }.

Lemma queue_index_lt f : (queue_index f < 120)%nat.
Proof.
  unfold queue_index. change kMaxUnackedFrames with 120.
  pose proof (Z.mod_pos_bound (u64 (f - first_frame_id)) 120). lia.
Qed.

Lemma queue_index_small f : 0 <= f < 2 ^ 63 -> queue_index f = Z.to_nat (f mod 120).
Proof.
  intros Hf. unfold queue_index. change kMaxUnackedFrames with 120. change first_frame_id with 0.
  rewrite Z.sub_0_r, wrap_small; [done |]. unfold is_u. lia.
Qed.

Lemma queue_index_inj f g :
  0 <= f < 2 ^ 63 -> 0 <= g < 2 ^ 63 -> queue_index f = queue_index g -> - 120 < f - g < 120 -> f = g.
Proof.
  intros Hf Hg. rewrite !queue_index_small by done. intros H Hd.
  apply Z2Nat.inj in H; [| by apply Z.mod_pos_bound..]. Z.div_mod_to_equations. lia.
Qed.

(** Two frames share an entry only when they are 120 frames apart. *)
Lemma queue_index_ne f g :
  0 <= f < 2 ^ 63 -> 0 <= g < 2 ^ 63 -> f <> g -> - 120 < f - g < 120 -> queue_index g <> queue_index f.
Proof. intros Hf Hg Hne Hd H. apply Hne. by apply queue_index_inj. Qed.

Lemma entry_exists frames lc cp latest f : ring frames lc cp latest -> exists e, entry_of frames f = Some e.
Proof.
  intros Hr. unfold entry_of. apply lookup_lt_is_Some. rewrite (ring_length _ _ _ _ Hr).
  apply queue_index_lt.
Qed.

Lemma entry_insert_ne frames f g e :
  0 <= f < 2 ^ 63 -> 0 <= g < 2 ^ 63 -> f <> g -> - 120 < f - g < 120 ->
  entry_of (<[queue_index f := e]> frames) g = entry_of frames g.
Proof.
  intros Hf Hg Hne Hd. unfold entry_of. apply list_lookup_insert_ne.
  intros H. by apply (queue_index_ne f g Hf Hg Hne Hd).
Qed.

Lemma entry_insert_eq frames lc cp latest f e :
  ring frames lc cp latest -> entry_of (<[queue_index f := e]> frames) f = Some e.
Proof.
  intros Hr. unfold entry_of. apply list_lookup_insert_eq. rewrite (ring_length _ _ _ _ Hr).
  apply queue_index_lt.
Qed.

(** A lookup after an update, by the frame it is for. *)
Lemma entry_insert_cases frames lc cp latest f g e e' :
  ring frames lc cp latest -> 0 <= f < 2 ^ 63 -> 0 <= g < 2 ^ 63 -> - 120 < f - g < 120 ->
  entry_of (<[queue_index f := e]> frames) g = Some e' ->
  (g = f /\ e' = e) \/ (g <> f /\ entry_of frames g = Some e').
Proof.
  intros Hr Hf Hg Hd Hl. destruct (decide (g = f)) as [-> | Hne].
  - left. rewrite (entry_insert_eq frames lc cp latest) in Hl by done. by injection Hl.
  - right. rewrite entry_insert_ne in Hl by (done || congruence). done.
Qed.

(** Updating the entry of a frame in the window. *)
Lemma ring_set frames lc cp latest f e :
  ring frames lc cp latest -> lc < f <= latest -> entry_ok f e ->
  (f <= cp -> is_complete (collector e) = true) ->
  ring (<[queue_index f := e]> frames) lc cp latest.
Proof.
  intros Hr Hf He Hc. pose proof (ring_window _ _ _ _ Hr) as ((? & ?) & (? & ?) & ?).
  constructor; [by rewrite length_insert; apply Hr | by apply Hr | intros g e' Hg Hl ..].
  - destruct (entry_insert_cases frames lc cp latest f g e e') as [[-> ->] | [_ ?]];
      [done | lia.. | done | done | by eapply ring_entries].
  - rewrite entry_insert_ne in Hl by lia. by eapply ring_free.
  - destruct (entry_insert_cases frames lc cp latest f g e e') as [[-> ->] | [_ ?]];
      [done | lia.. | done | apply Hc; lia | by eapply ring_complete].
  - intros Hlook. rewrite entry_insert_ne in Hlook by lia. by eapply ring_captured.
Qed.

(** A frame is consumed or dropped. *)
Lemma ring_consume frames lc cp latest e :
  ring frames lc cp latest -> lc < latest -> entry_free e -> is_Some (estimated_capture_time e) ->
  ring (<[queue_index (lc + 1) := e]> frames) (lc + 1) (Z.max (lc + 1) cp) latest.
Proof.
  intros Hr Hlt Hfree Hcap. pose proof (ring_window _ _ _ _ Hr) as ((? & ?) & (? & ?) & ?).
  constructor; [by rewrite length_insert; apply Hr | unfold window_ok; lia | intros g e' Hg Hl ..].
  - rewrite entry_insert_ne in Hl by lia. eapply ring_entries; [done | | done]. lia.
  - destruct (decide (g = lc + 121)) as [-> | Hne].
    + assert (queue_index (lc + 121) = queue_index (lc + 1)) as Hq.
      { rewrite !queue_index_small by lia. f_equal. Z.div_mod_to_equations. lia. }
      unfold entry_of in Hl. rewrite Hq in Hl.
      assert (entry_of (<[queue_index (lc + 1) := e]> frames) (lc + 1) = Some e')
        as Hl' by exact Hl.
      erewrite entry_insert_eq in Hl' by done. by injection Hl' as <-.
    + rewrite entry_insert_ne in Hl by lia. eapply ring_free; [done | | done]. lia.
  - rewrite entry_insert_ne in Hl by lia. eapply ring_complete; [done | | done]. lia.
  - intros Hlook. destruct (entry_insert_cases frames lc cp latest (lc + 1) g e e')
      as [[-> ->] | [n ?]]; [done | lia.. | done | done |].
    eapply ring_captured; [exact Hr | exact Hg | | done].
    lia.
Qed.

(** Another frame is expected. *)
Lemma ring_expect frames lc cp latest e :
  ring frames lc cp latest -> latest < lc + 120 -> lc + 120 < 2 ^ 62 -> entry_ok (latest + 1) e ->
  ring (<[queue_index (latest + 1) := e]> frames) lc cp (latest + 1).
Proof.
  intros Hr Hlt Hmax He. pose proof (ring_window _ _ _ _ Hr) as ((? & ?) & (? & ?) & ?).
  constructor; [by rewrite length_insert; apply Hr | unfold window_ok; lia | intros g e' Hg Hl ..].
  - destruct (entry_insert_cases frames lc cp latest (latest + 1) g e e') as [[-> ->] | [? ?]];
      [done | lia.. | done | done |].
    eapply ring_entries; [done | | done]. lia.
  - rewrite entry_insert_ne in Hl by lia. eapply ring_free; [done | | done]. lia.
  - rewrite entry_insert_ne in Hl by lia. by eapply ring_complete.
  - intros Hlook. rewrite entry_insert_ne in Hlook by lia. eapply ring_captured; [done | done | | done]. lia.
Qed.

(** The checkpoint may move over complete frames. *)
Lemma ring_checkpoint frames lc cp cp' latest :
  ring frames lc cp latest -> cp <= cp' <= latest ->
  (forall f e, cp < f <= cp' -> entry_of frames f = Some e -> is_complete (collector e) = true) ->
  ring frames lc cp' latest.
Proof.
  intros Hr Hcp Hc. pose proof (ring_window _ _ _ _ Hr) as ((? & ?) & (? & ?) & ?).
  constructor; [apply Hr | unfold window_ok; lia | apply Hr | apply Hr | | apply Hr].
  intros f e Hf He. destruct (Z.le_gt_cases f cp); [eapply ring_complete; [done | | done] | eapply Hc; [| done]]; lia.
Qed.

Lemma ring_weaken frames lc cp cp' latest :
  ring frames lc cp latest -> lc <= cp' <= cp -> ring frames lc cp' latest.
Proof.
  intros Hr Hcp. pose proof (ring_window _ _ _ _ Hr) as ((? & ?) & (? & ?) & ?).
  constructor; [apply Hr | unfold window_ok; lia | apply Hr | apply Hr | | apply Hr].
  intros f e Hf He. eapply ring_complete; [done | | done]. lia.
Qed.

(** Complete frames have their first packet, so their capture time is known. *)
Lemma num_none_0 l c : num_none l = 0 -> c ∈ l -> is_Some c.
Proof.
  induction l as [| [] l IH]; simpl; [by intros _ []%elem_of_nil | |].
  - intros H [-> | ?]%elem_of_cons; [by eexists | auto].
  - pose proof (num_none_bounds l). lia.
Qed.

Lemma complete_has_first c : collector_ok c -> is_complete c = true -> has_first c.
Proof.
  unfold is_complete. intros [_ [[Hu _] | [Hm Hl]]] Hc%Z.eqb_eq.
  { rewrite Hc in Hu. discriminate. }
  rewrite Hc in Hm. symmetry in Hm. unfold has_first.
  destruct (chunks c) as [| [p |] l]; [unfold zlen in Hl; cbn in Hl; lia | by exists p |].
  simpl in Hm. pose proof (num_none_bounds l). lia.
Qed.

Lemma entry_captured f e : entry_ok f e -> is_complete (collector e) = true -> is_Some (estimated_capture_time e).
Proof. intros (Hc & _ & Hf & _) Hcomp. by apply Hf, complete_has_first. Qed.

End Ring.

(** ** The payload of a complete frame *)

Definition frame_payload (c : FrameCollector) : list Z := concat (map payload_of (chunks c)).

Lemma complete_payload c :
  is_complete c = true ->
  GetFramePayloadSize c = Ret (zlen (frame_payload c))
  /\ GetPayloadChunks c = Ret (map payload_of (chunks c)) /\ PeekFrameMetadata c = Ret (frame_ c).
Proof.
  intros Hc. unfold GetFramePayloadSize, GetPayloadChunks, PeekFrameMetadata. rewrite Hc.
  cbn [OSP_CHECK mbind outcome_bind]. by rewrite foldl_sizes.
Qed.

(** What is missing of an incomplete frame: everything, or the packets that
    have not been collected. *)
Lemma missing_from_elem id n l x :
  x ∈ missing_from id n l <-> exists i, l !! i = Some None /\ x = mkNack id (u16 (n + Z.of_nat i)).
Proof.
  revert n. induction l as [| c l IH]; intros n; cbn [missing_from].
  { split; [by intros []%elem_of_nil | by intros (i & Hi & _)]. }
  assert (forall i, n + 1 + Z.of_nat i = n + Z.of_nat (S i)) as Hsucc by lia.
  destruct c as [p |]; [| rewrite elem_of_cons]; rewrite IH; split.
  - intros (i & Hi & ->). exists (S i). by rewrite Hsucc.
  - intros ([| i] & Hi & ->); [done |]. exists i. by rewrite Hsucc.
  - intros [-> | (i & Hi & ->)]; [exists O | exists (S i); by rewrite Hsucc].
    split; [done |]. do 2 f_equal. lia.
  - intros ([| i] & Hi & ->); [left; do 2 f_equal; lia | right; exists i; by rewrite Hsucc].
Qed.

Lemma missing_from_sorted id n l :
  0 <= n -> n + zlen l <= 65535 -> StronglySorted kept_before (missing_from id n l).
Proof.
  revert n. induction l as [| c l IH]; intros n Hn Hl; cbn [missing_from]; [constructor |].
  rewrite zlen_cons in Hl. pose proof (zlen_nonneg l).
  destruct c as [p |]; [apply IH; lia |]. constructor; [apply IH; lia |].
  apply Forall_forall. intros x (i & Hi & ->)%missing_from_elem.
  apply lookup_lt_Some in Hi. unfold kept_before, zlen in *. simpl.
  rewrite !wrap_small by (unfold is_u; lia). unfold kAllPacketsLost. lia.
Qed.

(** The NACKs for a frame. *)
Definition missing_of (f : Z) (c : FrameCollector) (x : PacketNack) : Prop :=
  nack_frame_id x = f
  /\ if num_missing_packets c <? zlen (chunks c)
     then exists i, chunks c !! i = Some None /\ nack_packet_id x = Z.of_nat i
     else nack_packet_id x = kAllPacketsLost.

Lemma GetMissingPackets_ok f c :
  collector_ok c -> frame_id (frame_ c) = f -> is_complete c = false ->
  exists nacks, GetMissingPackets c = Ret nacks /\ nacks <> []
    /\ StronglySorted kept_before nacks /\ (forall x, x ∈ nacks <-> missing_of f c x).
Proof.
  intros [Hnull Hinv] Hid Hc. unfold GetMissingPackets, missing_of. rewrite Hnull, Hc, Hid.
  change (OSP_CHECK (negb false)) with (Ret tt). cbn [mbind outcome_bind].
  destruct (Z.leb_spec (zlen (chunks c)) (num_missing_packets c)).
  - rewrite (proj2 (Z.ltb_ge _ _)) by lia. eexists. split; [reflexivity |].
    split; [done |]. split; [by repeat constructor |].
    intros [a b]. rewrite list_elem_of_singleton. cbn. split; [by intros [= -> ->] | by intros [-> ->]].
  - rewrite (proj2 (Z.ltb_lt _ _)) by lia. destruct Hinv as [[Hu Hnil] | [Hm Hl]].
    { rewrite Hu, Hnil, zlen_nil in *. unfold kUnknownNumberOfPackets, INT_MAX in *. lia. }
    eexists. split; [reflexivity |]. unfold is_complete in Hc. apply Z.eqb_neq in Hc.
    assert (forall x, x ∈ missing_from f 0 (chunks c) <->
      nack_frame_id x = f /\ exists i, chunks c !! i = Some None /\ nack_packet_id x = Z.of_nat i) as Hel.
    { intros [a b]. rewrite missing_from_elem. cbn. split.
      - intros (i & Hi & [= -> ->]). split; [done |]. exists i. split; [done |].
        apply lookup_lt_Some in Hi. unfold zlen in *. apply wrap_small. unfold is_u. lia.
      - intros (-> & i & Hi & ->). exists i. split; [done |]. f_equal. symmetry.
        apply lookup_lt_Some in Hi. unfold zlen in *. apply wrap_small. unfold is_u. lia. }
    split; [| split; [by apply missing_from_sorted; lia | exact Hel]].
    intros Hnil. destruct (decide (None ∈ chunks c)) as [[i Hi]%list_elem_of_lookup_1 | Hno].
    + assert (mkNack f (Z.of_nat i) ∈ missing_from f 0 (chunks c)) as Hin
        by (apply Hel; split; [done | by exists i]).
      rewrite Hnil in Hin. by apply elem_of_nil in Hin.
    + apply Hc. rewrite Hm. clear -Hno. induction (chunks c) as [| [p |] l IH]; [done | |].
      * apply IH. by intros ?; apply Hno; right.
      * by destruct Hno; left.
Qed.
