(* ===== verification/ReceiverFeedback.v ===== *)
(** The feedback a receiver sends: building a packet never fails, and the
    feedback of [SendRtcp] says exactly which frames and packets are missing. *)

From S2P Require Import Prelude Numeric Wire Ids NtpTime RtpDefines RtcpParser RtcpRoundTrip RtcpCommon.
From S2P Require Import SenderReport RtcpBuilder Rtp FrameCollector FrameCrypto StatsTracker.
From S2P Require Import Alarm ClockDrift Receiver ReceiverInv.

(** * Building a packet with a log *)

Lemma log_events_loop_ok first events buffer :
  0 <= room buffer ->
  exists full bytes,
    log_events_loop first events buffer
    = Ret (full, mkBuffer (written buffer ++ bytes) (room buffer - zlen bytes))
    /\ zlen bytes <= room buffer /\ zlen bytes mod 4 = 0.
Proof.
  revert buffer. induction events as [| e events IH]; intros buffer Hroom; cbn [log_events_loop].
  { exists false, []. rewrite app_nil_r, zlen_nil, Z.sub_0_r. by destruct buffer. }
  unfold kRtcpReceiverFrameLogMessageBlockSize. destruct (Z.ltb_spec (room buffer) 4).
  { exists true, []. rewrite app_nil_r, zlen_nil, Z.sub_0_r. by destruct buffer. }
  append_step. append_step.
  match goal with |- context [log_events_loop first events ?b] =>
    destruct (IH b) as (full & bytes & -> & Hl & Hm); [cbn [room]; lia |] end.
  cbn [written room] in *. match goal with |- context [((written buffer ++ ?x) ++ ?y) ++ bytes] =>
    exists full, (x ++ y ++ bytes) end.
  rewrite <- !app_assoc. rewrite !zlen_app, !zlen_be_encode in *.
  change (Z.of_nat 2) with 2 in *. split; [do 3 f_equal; lia |]. split; [lia |].
  Z.div_mod_to_equations. lia.
Qed.

Lemma frame_logs_loop_ok rs logs buffer :
  Forall (fun l => log_messages l <> []) logs -> 0 <= room buffer ->
  exists bytes,
    frame_logs_loop rs logs buffer = Ret (mkBuffer (written buffer ++ bytes) (room buffer - zlen bytes))
    /\ zlen bytes <= room buffer /\ zlen bytes mod 4 = 0.
Proof.
  intros Hlogs. revert buffer. induction Hlogs as [| l logs Hl Hlogs IH]; intros buffer Hroom;
    cbn [frame_logs_loop].
  { exists []. rewrite app_nil_r, zlen_nil, Z.sub_0_r. by destruct buffer. }
  unfold kRtcpReceiverFrameLogMessageHeaderSize. destruct (Z.ltb_spec (room buffer) 8).
  { exists []. rewrite app_nil_r, zlen_nil, Z.sub_0_r. by destruct buffer. }
  append_step. destruct (log_messages l) as [| e es]; [done |]. cbn [head in_bounds mbind outcome_bind].
  append_step.
  match goal with |- context [log_events_loop ?f ?es ?b] =>
    destruct (log_events_loop_ok f es b) as (full & bytes & -> & Hlen & Hm); [cbn [room]; lia |] end.
  cbn [mbind outcome_bind written room] in *. destruct full.
  - match goal with |- context [((written buffer ++ ?x) ++ ?y) ++ bytes] => exists (x ++ y ++ bytes) end.
    rewrite <- !app_assoc. rewrite !zlen_app, !zlen_be_encode in *.
    change (Z.of_nat 4) with 4 in *. split; [do 2 f_equal; lia |]. split; [lia |].
    Z.div_mod_to_equations. lia.
  - match goal with |- context [frame_logs_loop rs logs ?b] =>
      destruct (IH b) as (bytes' & -> & Hlen' & Hm'); [cbn [room]; lia |] end.
    cbn [written room] in *.
    match goal with |- context [((written buffer ++ ?x) ++ ?y) ++ bytes] =>
      exists (x ++ y ++ bytes ++ bytes') end.
    rewrite <- !app_assoc. rewrite !zlen_app, !zlen_be_encode in *.
    change (Z.of_nat 4) with 4 in *. split; [do 2 f_equal; lia |]. split; [lia |].
    Z.div_mod_to_equations. lia.
Qed.

Lemma AppendReceiverLogPacket_ok rs b buffer :
  Forall (fun l => log_messages l <> []) (logs_for_next_packet b) ->
  12 <= room buffer < 2 ^ 18 ->
  exists bytes,
    AppendReceiverLogPacket rs b buffer
    = Ret (b <| logs_for_next_packet := [] |>,
           mkBuffer (written buffer ++ bytes) (room buffer - zlen bytes))
    /\ zlen bytes <= room buffer.
Proof.
  intros Hlogs Hroom. unfold AppendReceiverLogPacket.
  destruct (logs_for_next_packet b) as [| l logs] eqn:E.
  { exists []. rewrite app_nil_r, zlen_nil, Z.sub_0_r. split; [| lia].
    f_equal. f_equal; [destruct b; cbn in *; by subst | by destruct buffer]. }
  unfold kRtcpCommonHeaderSize. rewrite ReserveSpace_ok by lia. cbn [mbind outcome_bind written room].
  append_step. append_step.
  match goal with |- context [frame_logs_loop rs _ ?b] =>
    destruct (frame_logs_loop_ok rs (l :: logs) b) as (bytes & -> & Hlen & Hm); [done | cbn [room]; lia |] end.
  cbn [mbind outcome_bind written room] in *. change (Z.of_nat 4) with 4 in *.
  unfold FinalizeReceiverLogPacket.
  set (h := mkHeader ApplicationDefined _ _).
  pose proof (zlen_nonneg bytes) as Hpos.
  assert (header_wf h) as Hwf.
  { unfold h, header_wf. cbn. split; [lia |].
    split; [replace (_ - _) with (2 * 4 + zlen bytes) by lia; rewrite Z.add_comm, Z.mod_add by lia; done |].
    rewrite !elem_of_cons. tauto. }
  unfold kRtcpCommonHeaderSize. rewrite (header_AppendFields_ok h (new_buffer 4) Hwf) by (cbn; lia).
  cbn [mbind outcome_bind written new_buffer app].
  unfold fill_at. cbn [written room update].
  match goal with |- context [fill _ _ ((((written buffer ++ ?z) ++ ?x) ++ ?y) ++ bytes)] =>
    exists (header_encode h ++ x ++ y ++ bytes) end.
  rewrite <- !app_assoc, fill_reserved by (by rewrite length_header_encode).
  rewrite !zlen_app, zlen_header_encode, !zlen_be_encode. change (Z.of_nat 4) with 4.
  split; [do 3 f_equal; lia | lia].
Qed.

(** A packet that starts with an RTCP header and an SSRC is routed to it. *)
Lemma Inspect_chunk h s rest :
  header_wf h -> InspectPacketForRouting (header_encode h ++ be_encode 4 s ++ rest) = Ret (RTCP, u32 s).
Proof.
  intros Hwf. unfold InspectPacketForRouting.
  assert (IsRtpPayloadType (Z.land (nth 1 (header_encode h ++ be_encode 4 s ++ rest) 0) kRtpPayloadTypeMask)
          = false) as ->.
  { unfold header_encode. destruct h as [t w n]. rewrite !be_encode_1. cbn [app nth packet_type].
    destruct Hwf as (_ & _ & Ht). by destruct t. }
  rewrite andb_false_r. rewrite (proj2 (Z.leb_le _ _)).
  2: { rewrite !zlen_app, zlen_header_encode, zlen_be_encode. pose proof (zlen_nonneg rest).
       unfold kRtcpCommonHeaderSize. lia. }
  rewrite header_Parse_encode by done. cbn [mbind outcome_bind].
  replace kRtcpCommonHeaderSize with (zlen (header_encode h)) by apply zlen_header_encode.
  rewrite subspan_app. cbn [mbind outcome_bind]. by rewrite ConsumeField_encode.
Qed.

(** The feedback of a builder, its report and its log are consumed; the rest
    stays.  The packet is RTCP, from the receiver of the session. *)
Lemma compound_BuildPacket_ok rs b size send_time :
  feedback_wf b -> report_wf b -> Forall (fun l => log_messages l <> []) (logs_for_next_packet b) ->
  1452 <= size < 2 ^ 18 ->
  exists b' packet,
    BuildPacket rs send_time b (new_buffer size) = Ret (b', packet)
    /\ checkpoint_frame_id b' = checkpoint_frame_id b /\ playout_delay b' = playout_delay b
    /\ receiver_report_for_next_packet b' = None /\ logs_for_next_packet b' = []
    /\ picture_loss_indicator b' = picture_loss_indicator b
    /\ zlen packet <= size
    /\ InspectPacketForRouting packet = Ret (RTCP, u32 (receiver_ssrc rs)).
Proof.
  intros Hwf Hrep Hlogs Hsize.
  destruct (BuildPacket_prefix rs b size send_time Hwf Hrep ltac:(lia))
    as (b1 & chunks & nacks & acks & -> & Hw & (h & pl & cs & -> & Hh) & Hlen & (Hcp & Hpd & Hrr & Hpli & Hl) & _).
  cbv zeta in *. cbn [logs_for_next_packet update] in Hl.
  match goal with |- context [mkBuffer ?w ?r] => pose proof (zlen_nonneg w);
    destruct (AppendReceiverLogPacket_ok rs b1 (mkBuffer w r)) as (bytes & -> & Hb);
      [by rewrite Hl | cbn [room]; lia |] end.
  cbn [mbind outcome_bind Wire.written room] in *. eexists _, _. split; [reflexivity |].
  cbn [checkpoint_frame_id playout_delay receiver_report_for_next_packet logs_for_next_packet
    picture_loss_indicator update].
  split; [done |]. split; [done |]. split; [done |]. split; [done |]. split; [done |].
  split; [rewrite zlen_app; lia |].
  apply Forall_cons in Hw as [[Hhw _] _]. cbn [map concat fst snd] in *. unfold chunk.
  rewrite <- !app_assoc. by apply Inspect_chunk.
Qed.

(** * What the receiver reports *)

Definition frame_complete (frames : list PendingFrame) (f : Z) : Prop :=
  exists e, entry_of frames f = Some e /\ is_complete (collector e) = true.

Definition packet_missing (frames : list PendingFrame) (x : PacketNack) : Prop :=
  exists e, entry_of frames (nack_frame_id x) = Some e /\ is_complete (collector e) = false
    /\ missing_of (nack_frame_id x) (collector e) x.

(** ACKs and NACKs that say exactly what is complete and what is missing of the
    frames after [cp] up to [latest]. *)
Definition exact_feedback (frames : list PendingFrame) (cp latest : Z) (nacks : list PacketNack)
    (acks : list Z) : Prop :=
  StronglySorted kept_before nacks /\ StronglySorted Z.lt acks
  /\ (forall x, x ∈ nacks <-> cp < nack_frame_id x <= latest /\ packet_missing frames x)
  /\ (forall f, f ∈ acks <-> cp < f <= latest /\ frame_complete frames f).

Section Feedback.
Context {O : Origin} {AES_KEY : Type}.
Abbreviation Receiver := (ReceiverImpl (AES_KEY := AES_KEY)).
Implicit Types s : Receiver.

Lemma frame_entry_unique frames f e :
  entry_of frames f = Some e -> frame_complete frames f <-> is_complete (collector e) = true.
Proof.
  intros He. unfold frame_complete. rewrite He. split; [by intros (? & [= <-] & ?) | by exists e].
Qed.

Lemma feedback_loop_ok n f s :
  length (pending_frames_ s) = 120%nat ->
  (forall g e, f <= g < f + Z.of_nat n -> entry_of (pending_frames_ s) g = Some e -> entry_ok g e) ->
  exists nacks acks timestamps, feedback_loop n f s = Ret (nacks, acks, timestamps)
    /\ exact_feedback (pending_frames_ s) (f - 1) (f + Z.of_nat n - 1) nacks acks.
Proof using.
  intros Hlen. revert f. induction n as [| n IH]; intros f Hok; cbn [feedback_loop].
  { eexists [], [], []. split; [done |]. split; [constructor |]. split; [constructor |].
    split; intros x; (split; [by intros []%elem_of_nil | lia]). }
  unfold GetQueueEntry. change (pending_frames_ s !! queue_index f) with (entry_of (pending_frames_ s) f).
  destruct (entry_of (pending_frames_ s) f) as [e |] eqn:He.
  2: { unfold entry_of in He. apply lookup_ge_None in He. pose proof (queue_index_lt f). lia. }
  cbn [in_bounds mbind outcome_bind].
  destruct (IH (f + 1)) as (nacks & acks & ts & -> & Hn & Ha & Hnx & Hax).
  { intros g e' Hg. apply Hok. lia. }
  replace (f + 1 + Z.of_nat n - 1) with (f + Z.of_nat (S n) - 1) in * by lia.
  replace (f + 1 - 1) with f in * by lia.
  pose proof (frame_entry_unique _ _ _ He) as Hfe.
  destruct (Hok f e) as (Hcol & Hid & _); [lia | done |].
  destruct (is_complete (collector e)) eqn:Hc.
  - cbn [mbind outcome_bind]. eexists nacks, (f :: acks), _. split; [reflexivity |].
    split; [done |]. split; [| split].
    + constructor; [done |]. apply Forall_forall. intros g [Hg _]%Hax. lia.
    + intros x. rewrite Hnx. split; [intros []; split; [lia | done] |].
      intros [Hx Hmiss]. split; [| done].
      destruct (decide (nack_frame_id x = f)) as [E | E]; [| lia].
      destruct Hmiss as (e' & He' & Hc' & _). rewrite E, He in He'. injection He' as <-. congruence.
    + intros g. rewrite elem_of_cons, Hax. split.
      * intros [-> | [? ?]]; (split; [lia | by try apply Hfe]).
      * intros [Hg Hcg]. destruct (decide (g = f)) as [-> | ?]; [by left | right; split; [lia | done]].
  - destruct (GetMissingPackets_ok f (collector e) Hcol Hid Hc) as (missing & -> & _ & Hms & Hmx).
    cbn [mbind outcome_bind]. eexists (missing ++ nacks), acks, _. split; [reflexivity |].
    split; [| split; [done | split]].
    + apply StronglySorted_app_2; [| done..]. intros x y [Hx _]%Hmx [Hy _]%Hnx. left. lia.
    + intros x. rewrite elem_of_app, Hmx, Hnx. split.
      * intros [Hx | [? ?]]; [| split; [lia | done]]. pose proof Hx as [Hxf _]. split; [lia |].
        exists e. by rewrite Hxf.
      * intros [Hx Hmiss]. destruct (decide (nack_frame_id x = f)) as [E | E]; [left | right; split; [lia | done]].
        destruct Hmiss as (e' & He' & _ & Hm). rewrite E, He in He'. injection He' as <-. by rewrite E in Hm.
    + intros g. rewrite Hax. split; [intros []; split; [lia | done] |].
      intros [Hg Hcg]. split; [| done]. destruct (decide (g = f)) as [-> | ?]; [| lia].
      apply Hfe in Hcg. congruence.
Qed.

(** * The rest of the invariant *)

Record base_ok s : Prop := {
  base_delay : 0 < playout_delay (rtcp_builder_ s) <= 65535;
  base_known_delay : Exists (fun e => e.1 <= last_frame_consumed_ s) (playout_delay_changes_ s);
  base_sorted : StronglySorted (fun a b => a.1 <= b.1) (playout_delay_changes_ s);
  base_delays : Forall (fun e => 0 < e.2 <= 65535) (playout_delay_changes_ s);
  base_pending_logs : Forall (fun l => log_messages l <> []) (pending_logs_ s);
  base_logs : logs_for_next_packet (rtcp_builder_ s) = [];
  base_next_report : report_wf (rtcp_builder_ s);
  base_clock : is_Some (last_sender_report_ s) -> is_Some (Current (smoothed_clock_offset_ s));
  base_rtcp_alarm : alarm_ok (rtcp_alarm_ s);
  base_consumption_alarm : alarm_ok (consumption_alarm_ s);
  base_timebase : 0 < config_rtp_timebase (config_ s);
  base_stats : rtp_timebase_ (stats_tracker_ s) = config_rtp_timebase (config_ s);
  base_sender_ssrc : is_u 32 (sender_ssrc (rtcp_session_ s));
  base_size : 1452 <= rtcp_buffer_size_ s < 2 ^ 18 }.

(** What [SendRtcp] changes, and the packet it sends. *)
Record feedback_sent (now : Z) s s' : Prop := {
  sent_fields : s' = s <| pending_frame_acks_ := pending_frame_acks_ s' |>
    <| pending_logs_ := pending_logs_ s' |> <| rtcp_builder_ := rtcp_builder_ s' |>
    <| last_rtcp_send_time_ := now |> <| calls_ := calls_ s' |> <| rtcp_alarm_ := rtcp_alarm_ s' |>;
  sent_builder : checkpoint_frame s' = checkpoint_frame s
    /\ playout_delay (rtcp_builder_ s') = playout_delay (rtcp_builder_ s)
    /\ picture_loss_indicator (rtcp_builder_ s') = picture_loss_indicator (rtcp_builder_ s)
    /\ receiver_report_for_next_packet (rtcp_builder_ s') = None
    /\ logs_for_next_packet (rtcp_builder_ s') = [];
  sent_logs : pending_logs_ s' = if logs_enabled s then [] else pending_logs_ s;
  sent_alarm : alarm_ok (rtcp_alarm_ s') /\ pending (rtcp_alarm_ s') = Some (tt, Z.max now (now + 500000));
  sent_packet : exists nacks acks logs packet,
    calls_ s' = calls_ s ++ [CallSendRtcpPacket packet]
    /\ exact_feedback (pending_frames_ s) (checkpoint_frame s) (latest_frame_expected_ s) nacks acks
    /\ BuildPacket (rtcp_session_ s) now
         ((rtcp_builder_ s) <| nacks_for_next_packet := nacks |> <| acks_for_next_packet := acks |>
            <| logs_for_next_packet := logs |>) (new_buffer (rtcp_buffer_size_ s))
       = Ret (rtcp_builder_ s', packet)
    /\ (logs_enabled s = false -> logs = logs_for_next_packet (rtcp_builder_ s))
    /\ InspectPacketForRouting packet = Ret (RTCP, u32 (receiver_ssrc (rtcp_session_ s))) }.

Lemma add_event_ok ts e logs :
  Forall (fun l => log_messages l <> []) logs ->
  Forall (fun l => log_messages l <> []) (add_event ts e logs).
Proof.
  induction 1 as [| l logs Hl Hlogs IH]; cbn [add_event]; [by repeat constructor |].
  destruct (_ =? _); constructor; try done. cbn. by destruct (log_messages l).
Qed.

Lemma AddEvent_ok ts e s :
  logs_enabled s = true ->
  AddEventToPendingLogs ts e s = Ret (s <| pending_logs_ := add_event ts e (pending_logs_ s) |>).
Proof using. intros H. unfold AddEventToPendingLogs. by rewrite (OSP_CHECK_true _ H). Qed.

Lemma add_ack_events_ok now ts s :
  logs_enabled s = true -> Forall (fun l => log_messages l <> []) (pending_logs_ s) ->
  exists logs, add_ack_events now ts s = Ret (s <| pending_logs_ := logs |>)
    /\ Forall (fun l => log_messages l <> []) logs.
Proof using.
  revert s. induction ts as [| t ts IH]; intros s Hen Hl; cbn [add_ack_events].
  { exists (pending_logs_ s). split; [by destruct s | done]. }
  rewrite AddEvent_ok by done. cbn [mbind outcome_bind].
  destruct (IH (s <| pending_logs_ := add_event t (mkEventLog kFrameAckSent now 0 0) (pending_logs_ s) |>))
    as (logs & -> & Hlogs); [done | by apply add_event_ok |].
  by exists logs.
Qed.

(** The builder after the feedback was included is one [compound_BuildPacket_ok] is for. *)
Lemma exact_feedback_wf lc b frames latest nacks acks logs :
  ring frames lc (checkpoint_frame_id b) latest -> 0 < playout_delay b <= 65535 ->
  exact_feedback frames (checkpoint_frame_id b) latest nacks acks ->
  feedback_wf (b <| nacks_for_next_packet := nacks |> <| acks_for_next_packet := acks |>
                 <| logs_for_next_packet := logs |>).
Proof using.
  intros Hr Hd (Hn & Ha & Hnx & Hax).
  pose proof (ring_window _ _ _ _ Hr) as ((? & ?) & (? & ?) & ?).
  unfold feedback_wf. cbn. split; [done |]. split; [done |].
  split; [| split; [| split; [done |]]]; apply Forall_forall.
  - intros x [Hx (e & He & Hc & Hm)]%Hnx. destruct (ring_entries _ _ _ _ Hr (nack_frame_id x) e)
      as ((_ & Hcol) & _); [lia | done |].
    destruct Hm as [_ Hm]. unfold nack_ok, is_u, kAllPacketsLost in *.
    destruct (_ <? _) eqn:El; [| lia]. apply Z.ltb_lt in El. destruct Hm as (i & Hi & ->).
    apply lookup_lt_Some in Hi. destruct Hcol as [[_ Hnil] | [_ Hl]]; [rewrite Hnil in Hi; cbn in Hi; lia |].
    unfold zlen in Hl. lia.
  - intros x [Hx _]%Hnx. lia.
  - intros f [Hf _]%Hax. unfold is_s. lia.
Qed.

Lemma SendRtcp_ok now s :
  ring (pending_frames_ s) (last_frame_consumed_ s) (checkpoint_frame s) (latest_frame_expected_ s) ->
  base_ok s -> exists s', SendRtcp now s = Ret s' /\ feedback_sent now s s'.
Proof using.
  intros Hr Hb. pose proof (ring_window _ _ _ _ Hr) as ((? & ?) & (? & ?) & ?). unfold SendRtcp.
  destruct (feedback_loop_ok (Z.to_nat (latest_frame_expected_ s - checkpoint_frame s))
    (checkpoint_frame s + 1) s) as (nacks & acks & ts & -> & Hexact); [apply Hr | |].
  { intros g e Hg. eapply ring_entries; [done | lia]. }
  rewrite Z2Nat.id in Hexact by lia.
  replace (checkpoint_frame s + 1 - 1) with (checkpoint_frame s) in Hexact by lia.
  replace (checkpoint_frame s + 1 + (latest_frame_expected_ s - checkpoint_frame s) - 1)
    with (latest_frame_expected_ s) in Hexact by lia.
  cbn [mbind outcome_bind].
  cbv zeta. set (s0 := s <| pending_frame_acks_ := pending_frame_acks_ s ++ ts |>).
  match goal with |- context [if logs_enabled s0 then ?x else ?y] =>
    set (step := if logs_enabled s0 then x else y) end.
  assert (exists pfa logs pend, step
    = Ret (s <| pending_frame_acks_ := pfa |> <| pending_logs_ := pend |>
             <| rtcp_builder_ := (rtcp_builder_ s) <| logs_for_next_packet := logs |> |>)
    /\ Forall (fun l => log_messages l <> []) logs
    /\ (logs_enabled s = false -> logs = logs_for_next_packet (rtcp_builder_ s))
    /\ pend = if logs_enabled s then [] else pending_logs_ s)
    as (pfa & logs & pend & -> & Hlogs & Hdis & Hpend).
  { subst step. change (logs_enabled s0) with (logs_enabled s). destruct (logs_enabled s) eqn:Hen.
    - destruct (add_ack_events_ok now (pending_frame_acks_ s0) s0) as (logs & -> & Hl);
        [done | apply Hb |].
      cbn [mbind outcome_bind]. by exists [], logs, [].
    - exists (pending_frame_acks_ s0), (logs_for_next_packet (rtcp_builder_ s)), (pending_logs_ s).
      split; [| split; [by rewrite (base_logs _ Hb) | done]]. subst s0. by destruct s as [? ? ? []]. }
  cbn [mbind outcome_bind].
  destruct (compound_BuildPacket_ok (rtcp_session_ s)
    ((rtcp_builder_ s) <| nacks_for_next_packet := nacks |> <| acks_for_next_packet := acks |>
       <| logs_for_next_packet := logs |>) (rtcp_buffer_size_ s) now)
    as (b' & packet & Hbuild & Hcp & Hpd & Hrr & Hlg & Hpli & Hlen & Hinsp).
  { by eapply exact_feedback_wf; [| apply Hb |]. }
  { apply Hb. }
  { done. }
  { apply Hb. }
  change (BuildPacket _ _ _ _) with (BuildPacket (rtcp_session_ s) now ((rtcp_builder_ s) <| nacks_for_next_packet := nacks |> <| acks_for_next_packet := acks |>
       <| logs_for_next_packet := logs |>) (new_buffer (rtcp_buffer_size_ s))).
  rewrite Hbuild. cbn [mbind outcome_bind].
  match goal with |- context [ScheduleWithTask now tt ?t ?a] =>
    destruct (ScheduleWithTask_ok now tt t a) as (a' & -> & Hok & Hp); [apply Hb |] end.
  cbn [mbind outcome_bind]. eexists. split; [reflexivity |].
  constructor; [reflexivity | by split_and! | done | by split |].
  by exists nacks, acks, logs, packet.
Qed.

(** Sending feedback keeps the invariant. *)
Lemma feedback_sent_base now s s' : base_ok s -> feedback_sent now s s' -> base_ok s'.
Proof using.
  intros Hb Hs. destruct (sent_builder _ _ _ Hs) as (Hcp & Hpd & _ & Hrr & Hlg).
  pose proof (sent_logs _ _ _ Hs) as Hl. pose proof (sent_alarm _ _ _ Hs) as [Ha _].
  pose proof (sent_fields _ _ _ Hs) as E.
  constructor.
  - rewrite Hpd. apply Hb.
  - rewrite E. apply Hb.
  - rewrite E. apply Hb.
  - rewrite E. apply Hb.
  - rewrite Hl. destruct (logs_enabled s); [done | apply Hb].
  - done.
  - unfold report_wf. by rewrite Hrr.
  - rewrite E. apply Hb.
  - done.
  - rewrite E. apply Hb.
  - rewrite E. apply Hb.
  - rewrite E. apply Hb.
  - rewrite E. apply Hb.
  - rewrite E. apply Hb.
Qed.
End Feedback.
