(* ===== verification/ReceiverSteps.v ===== *)
(** The operations of a receiver keep its invariant, and what each does: the
    lemmas behind ReceiverProps.v. *)

From S2P Require Import Prelude Numeric Wire Ids NtpTime RtpDefines RtcpParser RtcpRoundTrip RtcpCommon.
From S2P Require Import SenderReport RtcpBuilder Rtp FrameCollector FrameCrypto StatsTracker.
From S2P Require Import Alarm ClockDrift Receiver ReceiverInv ReceiverFeedback.

(** Changes of the playout delay in the order of their frames. *)
Abbreviation by_frame := (fun a b : Z * Z => a.1 <= b.1).

Section ReceiverSteps.
Context {O : Origin} {AES_KEY : Type}.
Variable AES_set_encrypt_key : list Z -> option AES_KEY.
Variable AES_ctr128_encrypt : AES_KEY -> ctr_state -> list Z -> list Z * ctr_state.
Variable exp : double -> double.
Implicit Types s : ReceiverImpl (AES_KEY := AES_KEY).

(** The frame after the checkpoint is not complete. *)
Definition gap (frames : list PendingFrame) (cp latest : Z) : Prop :=
  forall e, cp < latest -> entry_of frames (cp + 1) = Some e -> is_complete (collector e) = false.

Abbreviation queue_ok s cp :=
  (ring (pending_frames_ s) (last_frame_consumed_ s) cp (latest_frame_expected_ s)).

Record recv_ok s : Prop := {
  recv_ring : queue_ok s (checkpoint_frame s);
  recv_gap : gap (pending_frames_ s) (checkpoint_frame s) (latest_frame_expected_ s);
  recv_base : base_ok s }.

(** [intro_ring Hr] reads the bounds of the window. *)
Ltac ring_bounds Hr :=
  let H := fresh "Hwin" in
  pose proof (ring_window _ _ _ _ Hr) as H; destruct H as ((? & ?) & (? & ?) & ?).

Lemma GetQueueEntry_ok f cp s :
  queue_ok s cp -> exists e, GetQueueEntry f s = Ret e /\ entry_of (pending_frames_ s) f = Some e.
Proof using.
  intros Hr. destruct (entry_exists _ _ _ _ f Hr) as [e He]. exists e. split; [| done].
  unfold GetQueueEntry. unfold entry_of in He. by rewrite He.
Qed.

(** * Playout delays *)

Lemma ResolveTargetPlayoutDelay_ok id s :
  base_ok s -> -1 <= last_frame_consumed_ s < id ->
  exists delay, ResolveTargetPlayoutDelay id s = Ret delay /\ 0 < delay <= 65535.
Proof using.
  intros Hb Hid. unfold ResolveTargetPlayoutDelay. change kMaxUnackedFrames with 120. change first_frame_id with 0.
  rewrite OSP_CHECK_leb by (case_bool; lia). cbn [mbind outcome_bind].
  destruct (list_find _ (reverse (playout_delay_changes_ s))) as [[i e] |] eqn:E.
  - apply list_find_Some in E as (Hi & _ & _). apply list_elem_of_lookup_2 in Hi.
    rewrite elem_of_reverse in Hi.
    exists e.2. split; [done |]. by apply (proj1 (Forall_forall _ _) (base_delays _ Hb)).
  - exfalso. apply list_find_None in E. pose proof (base_known_delay _ Hb) as (x & Hx & Hle)%Exists_exists.
    apply (proj1 (Forall_forall _ _) E x); [by apply elem_of_reverse | cbn; lia].
Qed.

Lemma insert_delay_Forall (P : Z * Z -> Prop) f d l :
  P (f, d) -> Forall P l -> Forall P (insert_delay f d l).
Proof using.
  intros Hp. induction 1 as [| e l He Hl IH]; cbn [insert_delay]; [by repeat constructor |].
  case_bool; by repeat constructor.
Qed.

Lemma insert_delay_Exists (P : Z * Z -> Prop) f d l : Exists P l -> Exists P (insert_delay f d l).
Proof using.
  induction 1 as [e l He | e l Hl IH]; cbn [insert_delay]; case_bool; auto using Exists_cons_hd, Exists_cons_tl.
Qed.

Lemma insert_delay_elem f d l x : x ∈ insert_delay f d l <-> x = (f, d) \/ x ∈ l.
Proof using.
  induction l as [| e l IH]; cbn [insert_delay]; [by rewrite list_elem_of_singleton, elem_of_nil; tauto |].
  case_bool; rewrite !elem_of_cons, ?IH; tauto.
Qed.

Lemma insert_delay_sorted f d l : StronglySorted by_frame l -> StronglySorted by_frame (insert_delay f d l).
Proof using.
  induction 1 as [| e l Hl IH He]; cbn [insert_delay]; [by apply SSorted_cons; [apply SSorted_nil | apply Forall_nil_2] |].
  destruct (Z.ltb_spec f e.1) as [Hlt | Hge].
  - apply SSorted_cons; [by apply SSorted_cons |]. apply Forall_cons. split; [cbn; lia |].
    eapply Forall_impl; [exact He |]. cbn. lia.
  - apply SSorted_cons; [done |]. apply Forall_forall. intros x [-> | Hx]%insert_delay_elem; [cbn; lia |].
    by apply (proj1 (Forall_forall _ _) He).
Qed.

Lemma prune_delays_sorted next l : StronglySorted by_frame l -> StronglySorted by_frame (prune_delays next l).
Proof using.
  intros Hs. unfold prune_delays. match goal with |- context [drop ?k l] => rewrite <- (take_drop k l) in Hs end.
  by apply StronglySorted_app_1_r in Hs.
Qed.

(** The first entry kept applies to [next] if an entry did. *)
Lemma prune_delays_head next l :
  l <> [] -> exists e l', prune_delays next l = e :: l' /\ (prune_delays next l = l \/ e.1 <= next).
Proof using.
  intros Hl. unfold prune_delays. destruct l as [| e0 rest]; [done |]. cbn [tail].
  assert (forall k, (k <= length rest)%nat -> (k = 0%nat \/ exists x, rest !! pred k = Some x /\ x.1 <= next) ->
    exists e l', drop k (e0 :: rest) = e :: l' /\ (drop k (e0 :: rest) = e0 :: rest \/ e.1 <= next)) as H.
  { intros k Hk [-> | (x & Hx & Hle)]; [by eexists _, _; split; [done | left] |].
    destruct k as [| k]; [by eexists _, _; split; [done | left] |]. cbn [drop pred] in *.
    exists x, (drop (S k) rest). rewrite (drop_S _ x) by done. split; [done | by right]. }
  destruct (list_find _ rest) as [[i e] |] eqn:E.
  - apply list_find_Some in E as (Hi & _ & Hbefore). apply H; [apply lookup_lt_Some in Hi; lia |].
    destruct i as [| i]; [by left | right]. cbn [pred].
    destruct (rest !! i) as [x |] eqn:Hx; [| apply lookup_ge_None in Hx; apply lookup_lt_Some in Hi; lia].
    exists x. split; [done |]. specialize (Hbefore i x Hx). lia.
  - apply H; [done |]. apply list_find_None in E. destruct rest as [| r rest]; [by left | right].
    cbn [length pred]. destruct (lookup_lt_is_Some_2 (r :: rest) (length rest)) as [x Hx]; [cbn; lia |].
    exists x. split; [done |]. eapply Forall_lookup in E; [| exact Hx]. cbn in E. lia.
Qed.

Lemma prune_delays_Forall (P : Z * Z -> Prop) next l : Forall P l -> Forall P (prune_delays next l).
Proof using. intros. unfold prune_delays. by apply Forall_drop. Qed.

(** A new delay for a frame after the checkpoint. *)
Lemma RecordNewTargetPlayoutDelay_ok f delay s :
  base_ok s -> checkpoint_frame s < f -> 0 < delay <= 65535 ->
  exists changes, RecordNewTargetPlayoutDelay f delay s = Ret (s <| playout_delay_changes_ := changes |>)
    /\ changes = insert_delay f delay (prune_delays (last_frame_consumed_ s - 119) (playout_delay_changes_ s))
    /\ Exists (fun e => e.1 <= last_frame_consumed_ s) changes
    /\ StronglySorted by_frame changes
    /\ Forall (fun e => 0 < e.2 <= 65535) changes.
Proof using.
  intros Hb Hf Hd. unfold RecordNewTargetPlayoutDelay. change kMaxUnackedFrames with 120.
  rewrite OSP_CHECK_ltb by done. cbn [mbind outcome_bind].
  replace (last_frame_consumed_ s - 120 + 1) with (last_frame_consumed_ s - 119) by lia.
  eexists. split; [reflexivity |]. split; [done |]. split.
  - apply insert_delay_Exists. pose proof (base_known_delay _ Hb) as Hex.
    destruct (prune_delays_head (last_frame_consumed_ s - 119) (playout_delay_changes_ s))
      as (e & l & E & [-> | Hle]); [by destruct (playout_delay_changes_ s); [inversion Hex |] | done |].
    rewrite E. left. lia.
  - split; [apply insert_delay_sorted, prune_delays_sorted, Hb |]. apply insert_delay_Forall; [done |]. apply prune_delays_Forall, Hb.
Qed.

(** * The checkpoint *)

Lemma contiguous_loop_ok n f s :
  queue_ok s f -> latest_frame_expected_ s - f = Z.of_nat n ->
  exists f', contiguous_loop n f s = Ret f' /\ f <= f' /\ queue_ok s f'
    /\ gap (pending_frames_ s) f' (latest_frame_expected_ s).
Proof using.
  revert f. induction n as [| n IH]; intros f Hr Hn; cbn [contiguous_loop]; ring_bounds Hr.
  { exists f. split; [done |]. split; [done |]. split; [done |]. intros e. lia. }
  rewrite (proj2 (Z.ltb_lt _ _)) by lia.
  destruct (GetQueueEntry_ok (f + 1) f s Hr) as (e & -> & He). cbn [mbind outcome_bind].
  destruct (is_complete (collector e)) eqn:Hc.
  - destruct (IH (f + 1)) as (f' & -> & Hf' & Hr' & Hg); [| lia |].
    + apply (ring_checkpoint _ _ f); [done | lia |]. intros g e' Hg.
      replace g with (f + 1) by lia. rewrite He. by intros [= <-].
    + exists f'. split; [done |]. split; [lia |]. by split.
  - exists f. split; [done |]. split; [done |]. split; [done |].
    intros e' _. rewrite He. by intros [= <-].
Qed.

Lemma AdvanceCheckpoint_ok now new s :
  queue_ok s new -> base_ok s -> checkpoint_frame s < new -> last_frame_consumed_ s < new ->
  exists cp delay s', AdvanceCheckpoint now new s = Ret s'
    /\ new <= cp /\ 0 < delay <= 65535
    /\ feedback_sent now (s <| rtcp_builder_ := (rtcp_builder_ s)
         <| checkpoint_frame_id := cp |> <| playout_delay := delay |> |>) s'
    /\ recv_ok s'.
Proof using.
  intros Hr Hb Hcp Hlc. ring_bounds Hr. unfold AdvanceCheckpoint.
  rewrite OSP_CHECK_ltb by done. cbn [mbind outcome_bind].
  rewrite OSP_CHECK_leb by lia. cbn [mbind outcome_bind].
  destruct (contiguous_loop_ok (Z.to_nat (latest_frame_expected_ s - new)) new s Hr ltac:(lia))
    as (cp & -> & Hle & Hr' & Hgap).
  cbn [mbind outcome_bind]. unfold set_checkpoint_frame, SetCheckpointFrame.
  change (checkpoint_frame_id (rtcp_builder_ s)) with (checkpoint_frame s).
  rewrite OSP_CHECK_leb by lia. cbn [mbind outcome_bind]. ring_bounds Hr'.
  set (s1 := s <| rtcp_builder_ := _ |>).
  assert (base_ok s1) as Hb1 by (destruct Hb; by constructor).
  destruct (ResolveTargetPlayoutDelay_ok cp s1 Hb1) as (delay & -> & Hd).
  { change (last_frame_consumed_ s1) with (last_frame_consumed_ s). lia. }
  cbn [mbind outcome_bind]. set (s2 := s1 <| rtcp_builder_ := _ |>).
  assert (base_ok s2) as Hb2 by (destruct Hb; by constructor).
  destruct (SendRtcp_ok now s2 Hr' Hb2) as (s' & -> & Hsent).
  exists cp, delay, s'. split; [done |]. split; [done |]. split; [done |]. split; [done |].
  pose proof (sent_fields _ _ _ Hsent) as E. destruct (sent_builder _ _ _ Hsent) as (Ecp & _).
  constructor; [rewrite Ecp, E; exact Hr' | rewrite Ecp, E; exact Hgap |].
  by eapply feedback_sent_base.
Qed.

(** * What every operation preserves *)

Definition receiver_call_ok (c : ReceiverCall) : Prop :=
  match c with
  | CallSendRtcpPacket packet => exists ssrc, InspectPacketForRouting packet = Ret (RTCP, ssrc)
  | CallOnFramesReady size => 0 <= size
  end.

Record advances s s' : Prop := {
  advances_config : config_ s' = config_ s;
  advances_crypto : crypto_ s' = crypto_ s;
  advances_consumed : last_frame_consumed_ s <= last_frame_consumed_ s';
  advances_checkpoint : checkpoint_frame s <= checkpoint_frame s';
  advances_latest : latest_frame_expected_ s <= latest_frame_expected_ s';
  advances_calls : exists calls, calls_ s' = calls_ s ++ calls /\ Forall receiver_call_ok calls }.

Lemma advances_trans s1 s2 s3 : advances s1 s2 -> advances s2 s3 -> advances s1 s3.
Proof using.
  intros [A1 A2 A3 A4 A5 (l & A6 & A7)] [B1 B2 B3 B4 B5 (k & B6 & B7)].
  constructor; try congruence; try lia. exists (l ++ k). rewrite B6, A6, app_assoc.
  split; [done |]. by apply Forall_app_2.
Qed.

(** All but a packet also leaves what was received as it is. *)
Record follows s s' : Prop := {
  follows_config : config_ s' = config_ s;
  follows_crypto : crypto_ s' = crypto_ s;
  follows_consumed : last_frame_consumed_ s <= last_frame_consumed_ s';
  follows_checkpoint : checkpoint_frame s <= checkpoint_frame s';
  follows_latest : latest_frame_expected_ s <= latest_frame_expected_ s';
  follows_parser : rtp_parser_ s' = rtp_parser_ s;
  follows_tracker : stats_tracker_ s' = stats_tracker_ s;
  follows_calls : exists calls, calls_ s' = calls_ s ++ calls /\ Forall receiver_call_ok calls }.

Lemma follows_refl s : follows s s.
Proof using. constructor; try done. exists []. by rewrite app_nil_r. Qed.

Lemma follows_advances s s' : follows s s' -> advances s s'.
Proof using. by intros []; constructor. Qed.

Lemma follows_trans s1 s2 s3 : follows s1 s2 -> follows s2 s3 -> follows s1 s3.
Proof using.
  intros H12 H23. destruct (advances_trans s1 s2 s3 (follows_advances _ _ H12) (follows_advances _ _ H23)).
  destruct H12, H23. constructor; try done; congruence.
Qed.

Lemma feedback_sent_follows now s s' : feedback_sent now s s' -> follows s s'.
Proof using.
  intros Hs. pose proof (sent_fields _ _ _ Hs) as E.
  destruct (sent_builder _ _ _ Hs) as (Hcp & _).
  destruct (sent_packet _ _ _ Hs) as (_ & _ & _ & packet & Hcalls & _ & _ & _ & Hi).
  constructor; [by rewrite E | by rewrite E | by rewrite E | lia | by rewrite E | by rewrite E | by rewrite E |].
  eexists. split; [exact Hcalls |]. repeat constructor. by eexists.
Qed.

(** * Packets from the sender *)

Lemma expect_loop_ok n target s cp :
  queue_ok s cp -> (0 < n)%nat -> target = latest_frame_expected_ s + Z.of_nat n ->
  target <= last_frame_consumed_ s + 120 < 2 ^ 62 ->
  exists frames, expect_loop n target s
    = Ret (s <| latest_frame_expected_ := target |> <| pending_frames_ := frames |>)
    /\ ring frames (last_frame_consumed_ s) cp target
    /\ (forall f, last_frame_consumed_ s < f <= latest_frame_expected_ s ->
          entry_of frames f = entry_of (pending_frames_ s) f)
    /\ (forall f e, latest_frame_expected_ s < f <= target -> entry_of frames f = Some e ->
          is_complete (collector e) = false).
Proof using.
  revert s. induction n as [| n IH]; intros s Hr Hn Ht Hmax; [lia |]. cbn [expect_loop]. ring_bounds Hr.
  set (s1 := s <| latest_frame_expected_ := latest_frame_expected_ s + 1 |>).
  change (latest_frame_expected_ s1) with (latest_frame_expected_ s + 1).
  destruct (GetQueueEntry_ok (latest_frame_expected_ s + 1) cp s Hr) as (e & Heq & He).
  change (GetQueueEntry (latest_frame_expected_ s + 1) s1)
    with (GetQueueEntry (latest_frame_expected_ s + 1) s).
  rewrite Heq. cbn [mbind outcome_bind].
  pose proof (ring_free _ _ _ _ Hr (latest_frame_expected_ s + 1) e ltac:(lia) He) as Hfree.
  set (e' := e <| estimated_capture_time := None |> <| collector := _ |>).
  assert (collector e' = set_frame_id (latest_frame_expected_ s + 1) new_FrameCollector) as Hc
    by (unfold e'; cbn; by rewrite Hfree).
  assert (entry_ok (latest_frame_expected_ s + 1) e') as He'.
  { unfold entry_ok. rewrite Hc. split; [| split; [done | split; [| apply content_ok_free]]].
    - split; [| by left]. cbn. unfold is_null, null_frame_id, INT64_MIN. lia.
    - by intros [? ?]. }
  set (frames1 := <[queue_index (latest_frame_expected_ s + 1) := e']> (pending_frames_ s)).
  assert (ring frames1 (last_frame_consumed_ s) cp (latest_frame_expected_ s + 1)) as Hr1
    by (apply ring_expect; [done | lia | lia | done]).
  change (set_entry (latest_frame_expected_ s + 1) e' s1)
    with (s <| latest_frame_expected_ := latest_frame_expected_ s + 1 |> <| pending_frames_ := frames1 |>).
  set (s2 := s <| latest_frame_expected_ := _ |> <| pending_frames_ := frames1 |>).
  change (latest_frame_expected_ s2) with (latest_frame_expected_ s + 1).
  assert (entry_of frames1 (latest_frame_expected_ s + 1) = Some e') as Hl1
    by (by eapply entry_insert_eq).
  assert (forall f, last_frame_consumed_ s < f <= latest_frame_expected_ s ->
    entry_of frames1 f = entry_of (pending_frames_ s) f) as Hold
    by (intros f Hf; apply entry_insert_ne; lia).
  destruct (Z.ltb_spec (latest_frame_expected_ s + 1) target).
  - destruct (IH s2) as (frames & -> & Hr' & Hsame & Hnew); [done | lia | cbn; lia | cbn; lia |].
    exists frames. split; [done |]. split; [done |].
    change (latest_frame_expected_ s2) with (latest_frame_expected_ s + 1) in *.
    change (last_frame_consumed_ s2) with (last_frame_consumed_ s) in *.
    change (pending_frames_ s2) with frames1 in *. split.
    + intros f Hf. rewrite Hsame by lia. by apply Hold.
    + intros f e0 Hf He0. destruct (decide (f = latest_frame_expected_ s + 1)) as [-> |]; [| eapply Hnew; [| done]; lia].
      rewrite Hsame, Hl1 in He0 by lia. injection He0 as <-. by rewrite Hc.
  - assert (target = latest_frame_expected_ s + 1) as -> by lia.
    exists frames1. split; [done |]. split; [done |]. split; [done |].
    intros f e0 Hf He0. replace f with (latest_frame_expected_ s + 1) in He0 by lia.
    rewrite Hl1 in He0. injection He0 as <-. by rewrite Hc.
Qed.

Lemma ScheduleFrameReadyCheck_ok now t s :
  base_ok s -> exists a, ScheduleFrameReadyCheck now t s = Ret (s <| consumption_alarm_ := a |>)
    /\ alarm_ok a /\ pending a = Some (tt, Z.max now t).
Proof using.
  intros Hb. unfold ScheduleFrameReadyCheck.
  destruct (ScheduleWithTask_ok now tt t (consumption_alarm_ s)) as (a & -> & Ha & Hp); [apply Hb |].
  by exists a.
Qed.

Lemma ToDuration_ok ticks timebase : 0 < timebase -> returns (ToDuration ticks timebase).
Proof using. intros H. unfold ToDuration. rewrite OSP_CHECK_ltb by done. by eexists. Qed.

(** The part is one the parser may return. *)
Definition part_valid (part : ParseResult) : Prop :=
  part_ok part /\ is_u 16 (part_new_playout_delay part) /\ origin part.

(** The first packet of a frame makes its capture time known. *)
Lemma record_timing_ok now part s e :
  base_ok s -> part_valid part -> checkpoint_frame s < part_frame_id part ->
  entry_of (pending_frames_ s) (part_frame_id part) = Some e ->
  (packet_id part = 0 -> is_Some (last_sender_report_ s)) ->
  exists e' changes a s', record_timing now part s = Ret (false, s')
    /\ s' = s <| pending_frames_ := <[queue_index (part_frame_id part) := e']> (pending_frames_ s) |>
           <| playout_delay_changes_ := changes |> <| consumption_alarm_ := a |>
    /\ collector e' = collector e /\ base_ok s'
    /\ (packet_id part = 0 \/ is_Some (estimated_capture_time e) -> is_Some (estimated_capture_time e')).
Proof using.
  intros Hb (_ & Hdelay & _) Hcp He Hrep. unfold record_timing, GetQueueEntry.
  change (pending_frames_ s !! queue_index (part_frame_id part))
    with (entry_of (pending_frames_ s) (part_frame_id part)).
  rewrite He. cbn [in_bounds mbind outcome_bind].
  destruct ((packet_id part =? 0) && bool_decide (estimated_capture_time e = None)) eqn:Hfirst.
  2: { exists e, (playout_delay_changes_ s), (consumption_alarm_ s), s. split; [done |].
       split; [unfold entry_of in He; rewrite list_insert_id by done; by destruct s |].
       split; [done |]. split; [done |]. intros [H0 | Hc]; [| done].
       rewrite H0 in Hfirst. cbn in Hfirst. apply bool_decide_eq_false, not_eq_None_Some in Hfirst. done. }
  apply andb_true_iff in Hfirst as [H0%Z.eqb_eq _]. specialize (Hrep H0).
  set (s1 := set_entry _ _ s).
  change (Current (smoothed_clock_offset_ s1)) with (Current (smoothed_clock_offset_ s)).
  destruct (base_clock _ Hb Hrep) as [offset ->].
  change (last_sender_report_ s1) with (last_sender_report_ s).
  destruct Hrep as [report ->].
  change (config_rtp_timebase (config_ s1)) with (config_rtp_timebase (config_ s)).
  destruct (ToDuration_ok (part_rtp_timestamp part - sr_rtp_timestamp (base_report report))
    (config_rtp_timebase (config_ s)) (base_timebase _ Hb)) as [media ->].
  cbn [mbind outcome_bind].
  set (e' := e <| pending_rtp_timestamp := _ |> <| estimated_capture_time := _ |>).
  set (s2 := set_entry (part_frame_id part) e' s1).
  assert (s2 = s <| pending_frames_ := <[queue_index (part_frame_id part) := e']> (pending_frames_ s) |>) as Hs2.
  { unfold s2, s1, set_entry. cbn. by rewrite list_insert_insert_eq. }
  assert (base_ok s2) as Hb2 by (rewrite Hs2; destruct Hb; by constructor).
  assert (exists changes s3, (if 0 <? part_new_playout_delay part
      then RecordNewTargetPlayoutDelay (part_frame_id part) (part_new_playout_delay part) s2 else Ret s2) = Ret s3
      /\ s3 = s2 <| playout_delay_changes_ := changes |> /\ base_ok s3) as (changes & s3 & -> & Hs3 & Hb3).
  { destruct (Z.ltb_spec 0 (part_new_playout_delay part)).
    - destruct (RecordNewTargetPlayoutDelay_ok (part_frame_id part) (part_new_playout_delay part) s2)
        as (changes & -> & _ & Hex & Hso & Hall); [done | by rewrite Hs2 | unfold is_u in Hdelay; lia |].
      eexists changes, _. split; [reflexivity |]. split; [done |]. destruct Hb2. by constructor.
    - exists (playout_delay_changes_ s2), s2. split; [done |]. split; [by rewrite Hs2; destruct s | done]. }
  cbn [mbind outcome_bind].
  destruct (ScheduleFrameReadyCheck_ok now kImmediately s3 Hb3) as (a & -> & Ha & _).
  cbn [mbind outcome_bind]. eexists e', changes, a, _. split; [reflexivity |].
  split; [by rewrite Hs3, Hs2 |]. split; [done |]. split; [destruct Hb3; by constructor |].
  intros _. by eexists.
Qed.

(** Scheduling a check changes nothing else. *)
Lemma ScheduleFrameReadyCheck_recv now t s :
  recv_ok s -> exists s', ScheduleFrameReadyCheck now t s = Ret s' /\ recv_ok s' /\ follows s s'
    /\ s' = s <| consumption_alarm_ := consumption_alarm_ s' |>.
Proof using.
  intros [Hr Hg Hb]. destruct (ScheduleFrameReadyCheck_ok now t s Hb) as (a & -> & Ha & _).
  eexists. split; [reflexivity |]. split; [| split; [| done]].
  - constructor; [exact Hr | exact Hg | destruct Hb; by constructor].
  - constructor; try done. exists []. by rewrite app_nil_r.
Qed.

(** What the packets from the sender leave as it is. *)
Definition same_position s s' : Prop :=
  last_frame_consumed_ s' = last_frame_consumed_ s /\ last_sender_report_ s' = last_sender_report_ s.

Lemma complete_frame_ok now part e s :
  queue_ok s (checkpoint_frame s) -> base_ok s ->
  checkpoint_frame s < part_frame_id part <= latest_frame_expected_ s ->
  entry_of (pending_frames_ s) (part_frame_id part) = Some e -> is_complete (collector e) = true ->
  (part_frame_id part <> checkpoint_frame s + 1 ->
     gap (pending_frames_ s) (checkpoint_frame s) (latest_frame_expected_ s)) ->
  exists s', complete_frame now part (collector e) s = Ret s' /\ recv_ok s' /\ follows s s'
    /\ same_position s s' /\ pending_frames_ s' = pending_frames_ s.
Proof using.
  intros Hr Hb Hid He Hc Hg. ring_bounds Hr. unfold complete_frame.
  destruct (complete_payload (collector e) Hc) as (_ & _ & ->). cbn [mbind outcome_bind].
  set (s1 := if bool_decide _ then _ else s).
  assert (base_ok s1 /\ follows s s1 /\ same_position s s1 /\ pending_frames_ s1 = pending_frames_ s
    /\ checkpoint_frame s1 = checkpoint_frame s /\ latest_frame_expected_ s1 = latest_frame_expected_ s)
    as (Hb1 & Hf1 & [Hlc1 Hrep1] & Hp1 & Hcp1 & Hl1).
  { subst s1. case_bool_decide; [| split_and!; done || apply follows_refl].
    split_and!; try done; [destruct Hb; by constructor |].
    constructor; try done. exists []. by rewrite app_nil_r. }
  clearbody s1. rewrite Hcp1. destruct (Z.eqb_spec (part_frame_id part) (checkpoint_frame s + 1)) as [E | E].
  - set (s2 := s1 <| pending_frame_acks_ := _ |>).
    assert (queue_ok s2 (part_frame_id part)) as Hr2.
    { change (ring (pending_frames_ s1) (last_frame_consumed_ s1) (part_frame_id part) (latest_frame_expected_ s1)).
      rewrite Hp1, Hlc1, Hl1. apply (ring_checkpoint _ _ (checkpoint_frame s)); [done | lia |].
      intros g e' Hg'. replace g with (part_frame_id part) by lia. rewrite He. by intros [= <-]. }
    destruct (AdvanceCheckpoint_ok now (part_frame_id part) s2) as (cp & d & s3 & -> & Hle & Hd & Hsent & Hok3);
      [done | destruct Hb1; by constructor | change (checkpoint_frame s1 < part_frame_id part); lia
      | change (last_frame_consumed_ s1 < part_frame_id part); lia |].
    cbn [mbind outcome_bind]. pose proof (sent_fields _ _ _ Hsent) as Ef.
    destruct (ScheduleFrameReadyCheck_recv now kImmediately s3 Hok3) as (s' & -> & Hok' & Hf' & Es').
    exists s'. split; [done |]. split; [done |]. split; [| split].
    + apply (follows_trans _ s3); [| done]. apply (follows_trans _ s1); [done |].
      eapply follows_trans; [| exact (feedback_sent_follows _ _ _ Hsent)].
      constructor; try done; [change (checkpoint_frame s1 <= cp); lia |].
      exists []. by rewrite app_nil_r.
    + rewrite Es', Ef. split; [exact Hlc1 | exact Hrep1].
    + rewrite Es', Ef. exact Hp1.
  - cbn [mbind outcome_bind].
    assert (recv_ok s1) as Hok1.
    { constructor; [by rewrite Hp1, Hlc1, Hcp1, Hl1 | rewrite Hp1, Hcp1, Hl1; by apply Hg | done]. }
    destruct (ScheduleFrameReadyCheck_recv now kImmediately s1 Hok1) as (s' & -> & Hok' & Hf' & Es').
    exists s'. split; [done |]. split; [done |]. split; [by eapply follows_trans |].
    rewrite Es'. split; [by split | done].
Qed.

(** An event may be logged. *)
Lemma log_event_ok ts e s :
  base_ok s -> exists logs s', (if logs_enabled s then AddEventToPendingLogs ts e s else Ret s) = Ret s'
    /\ s' = s <| pending_logs_ := logs |> /\ base_ok s'.
Proof using.
  intros Hb. destruct (logs_enabled s) eqn:Hen.
  - rewrite AddEvent_ok by done. eexists _, _. split; [reflexivity |]. split; [done |].
    pose proof (add_event_ok ts e (pending_logs_ s) (base_pending_logs _ Hb)). destruct Hb. by constructor.
  - exists (pending_logs_ s), s. split; [done |]. split; [by destruct s | done].
Qed.

Lemma gap_set lc cp latest frames f e :
  ring frames lc cp latest -> cp < f <= latest -> gap frames cp latest ->
  (f = cp + 1 -> is_complete (collector e) = false) ->
  gap (<[queue_index f := e]> frames) cp latest.
Proof using.
  intros Hr Hf Hg Hc e' Hlt Hl. ring_bounds Hr.
  destruct (entry_insert_cases frames lc cp latest f (cp + 1) e e') as [[E ->] | [? ?]];
    [done | lia.. | done | by apply Hc | by apply Hg].
Qed.

Lemma collect_packet_ok now arrival part s :
  recv_ok s -> part_valid part -> checkpoint_frame s < part_frame_id part <= latest_frame_expected_ s ->
  (packet_id part = 0 -> is_Some (last_sender_report_ s)) ->
  exists s', collect_packet now arrival part s = Ret s' /\ recv_ok s' /\ follows s s' /\ same_position s s'.
Proof using.
  intros [Hr Hg Hb] Hv Hid Hrep. pose proof Hv as (Hpart & _ & Ho). ring_bounds Hr. unfold collect_packet.
  destruct (GetQueueEntry_ok (part_frame_id part) _ s Hr) as (e & -> & He). cbn [mbind outcome_bind].
  destruct (is_complete (collector e)) eqn:Hc.
  { exists s. split; [done |]. split; [by constructor |]. by split; [apply follows_refl |]. }
  destruct (ring_entries _ _ _ _ Hr (part_frame_id part) e) as (Hcol & Hfid & Hcap & Hcont); [lia | done |].
  destruct (CollectRtpPacket_ok part (collector e) Hcol Hpart) as (ok & c & Hcollect & Hcol' & Hfid').
  destruct (CollectRtpPacket_content origin (part_frame_id part) part _ ok c Hcol Hfid Hpart Ho Hcont Hcollect)
    as (Hcont' & Hfirst & _).
  rewrite Hcollect. cbn [mbind outcome_bind].
  set (e1 := e <| collector := c |>). set (s1 := set_entry (part_frame_id part) e1 s).
  assert (base_ok s1) as Hb1 by (destruct Hb; by constructor).
  destruct ok; cbn [negb].
  2: { exists s1. split; [done |]. split; [| split; [| done]].
    - constructor; [| | done].
      + change (ring (<[queue_index (part_frame_id part) := e1]> (pending_frames_ s))
          (last_frame_consumed_ s) (checkpoint_frame s) (latest_frame_expected_ s)).
        apply ring_set; [done | lia | | intros; lia]. unfold entry_ok. change (collector e1) with c.
        split; [done |]. split; [by rewrite Hfid' |].
        split; [| done]. intros [? | [? _]]%Hfirst; [by apply Hcap | done].
      + apply (gap_set (last_frame_consumed_ s)); [done.. |]. intros _.
        by apply (CollectRtpPacket_refused part (collector e)).
    - constructor; try done. exists []. by rewrite app_nil_r. }
  destruct (record_timing_ok now part s1 e1) as (e' & changes & a & s2 & -> & Hs2 & Hce & Hb2 & Hcap');
    [done | done | apply Hid | by eapply entry_insert_eq | done |].
  cbn [mbind outcome_bind]. change (collector e1) with c in Hce.
  destruct (log_event_ok (part_rtp_timestamp part)
    (mkEventLog kPacketReceived arrival 0 (packet_id part)) s2 Hb2) as (logs & s3 & -> & Hs3 & Hb3).
  cbn [mbind outcome_bind].
  assert (pending_frames_ s3 = <[queue_index (part_frame_id part) := e']> (pending_frames_ s)) as Hp3.
  { rewrite Hs3, Hs2. cbn. by rewrite list_insert_insert_eq. }
  assert (entry_ok (part_frame_id part) e') as He'.
  { unfold entry_ok. rewrite Hce. split; [done |]. split; [by rewrite Hfid' |]. split; [| done].
    intros [Hf | [_ Hz]]%Hfirst; apply Hcap'; [right; by apply Hcap | by left]. }
  assert (queue_ok s3 (checkpoint_frame s3)) as Hr3.
  { rewrite Hp3. rewrite Hs3, Hs2. apply ring_set; [done | cbn; lia | done |].
    intros Hle. change (part_frame_id part <= checkpoint_frame s) in Hle. lia. }
  assert (follows s s3 /\ same_position s s3) as [Hf3 Hpos3].
  { rewrite Hs3, Hs2. split; [| done]. constructor; try done. exists []. by rewrite app_nil_r. }
  destruct (is_complete c) eqn:Hcc; cbn [negb].
  - rewrite <- Hce.
    destruct (complete_frame_ok now part e' s3 Hr3 Hb3) as (s' & -> & Hok & Hf & [Hpos Hpr] & _).
    + rewrite Hs3, Hs2. exact Hid.
    + rewrite Hp3. by eapply entry_insert_eq.
    + by rewrite Hce.
    + intros Hne. rewrite Hp3. rewrite Hs3, Hs2 in Hne |- *.
      apply (gap_set (last_frame_consumed_ s)); [done | done | done |].
      intros E. destruct Hne. exact E.
    + exists s'. split; [done |]. split; [done |]. split; [by eapply follows_trans |].
      destruct Hpos3. split; congruence.
  - exists s3. split; [done |]. split; [| done]. constructor; [done | | done].
    rewrite Hp3. rewrite Hs3, Hs2. apply (gap_set (last_frame_consumed_ s)); [done | done | done |].
    intros _. by rewrite Hce.
Qed.

(** * RTP packets *)

(** What the receiver may be given: bytes of a packet that may have been sent,
    at a point where frame identifiers do not overflow. *)
Definition rtp_ready (packet : list Z) s : Prop :=
  bytes_ok packet /\ last_frame_consumed_ s < 2 ^ 61
  /\ forall part parser, RtpPacketParser_Parse (rtp_parser_ s) packet = Ret (Some part, parser) -> origin part.

Lemma OnReceivedValidRtpPacket_ok seq ts arrival t :
  0 < rtp_timebase_ t ->
  exists t', OnReceivedValidRtpPacket seq ts arrival t = Ret t' /\ rtp_timebase_ t' = rtp_timebase_ t.
Proof using.
  intros Htb. unfold OnReceivedValidRtpPacket. destruct (num_rtp_packets_received_ t =? 0).
  { eexists. split; [reflexivity | done]. }
  match goal with |- context [ToDuration ?x (rtp_timebase_ ?t')] =>
    assert (rtp_timebase_ t' = rtp_timebase_ t) as E by (by case_bool);
    destruct (ToDuration_ok x (rtp_timebase_ t')) as [d ->]; [by rewrite E |] end.
  cbn [mbind outcome_bind]. eexists. split; [reflexivity |]. cbn. exact E.
Qed.

(** What a packet does to the parser and the statistics. *)
Definition tracked (arrival : Z) (packet : list Z) s s' : Prop :=
  exists o, RtpPacketParser_Parse (rtp_parser_ s) packet = Ret (o, rtp_parser_ s') /\
  match o with
  | Some part => OnReceivedValidRtpPacket (sequence_number part) (part_rtp_timestamp part) arrival (stats_tracker_ s)
                 = Ret (stats_tracker_ s')
  | None => stats_tracker_ s' = stats_tracker_ s
  end.

Lemma OnReceivedRtpPacket_ok now arrival packet s :
  recv_ok s -> rtp_ready packet s ->
  exists s', OnReceivedRtpPacket now arrival packet s = Ret s' /\ recv_ok s' /\ advances s s'
    /\ same_position s s' /\ tracked arrival packet s s'.
Proof using.
  intros Hok (Hbytes & Hmax & Hor). pose proof Hok as [Hr Hg Hb]. ring_bounds Hr. unfold OnReceivedRtpPacket.
  destruct (RtpPacketParser_Parse_ok (rtp_parser_ s) packet Hbytes) as (o & parser & Hparse & Hpok).
  rewrite Hparse. cbn [mbind outcome_bind].
  destruct o as [part |].
  2: { eexists. split; [reflexivity |]. split; [constructor; [exact Hr | exact Hg | destruct Hb; by constructor] |].
       split; [constructor; try done; exists []; by rewrite app_nil_r |]. split; [done |]. by exists None. }
  destruct (OnReceivedValidRtpPacket_ok (sequence_number part) (part_rtp_timestamp part) arrival (stats_tracker_ s))
    as (t & Ht & Htb); [by rewrite (base_stats _ Hb); apply Hb |].
  change (stats_tracker_ (s <| rtp_parser_ := parser |>)) with (stats_tracker_ s).
  rewrite Ht. cbn [mbind outcome_bind]. set (s1 := s <| rtp_parser_ := parser |> <| stats_tracker_ := t |>).
  assert (recv_ok s1) as Hok1.
  { constructor; [exact Hr | exact Hg |]. destruct Hb; constructor; try done. cbn. congruence. }
  assert (forall s', follows s1 s' -> advances s s' /\ tracked arrival packet s s') as Hadv.
  { intros s' Hf. split.
    - apply (advances_trans _ s1); [| by apply follows_advances]. constructor; try done. exists []. by rewrite app_nil_r.
    - exists (Some part). by rewrite (follows_parser _ _ Hf), (follows_tracker _ _ Hf). }
  match goal with |- exists s', ?run = _ /\ _ =>
    enough (exists s', run = Ret s' /\ recv_ok s' /\ follows s1 s' /\ same_position s s')
      as (s' & -> & ? & [? ?]%Hadv & ?) by (by exists s') end. clear Hadv.
  pose proof (follows_refl s1) as Hf1. assert (same_position s s1) as Hpos1 by done.
  change (checkpoint_frame s1) with (checkpoint_frame s).
  change (latest_frame_expected_ s1) with (latest_frame_expected_ s).
  change (last_frame_consumed_ s1) with (last_frame_consumed_ s). change kMaxUnackedFrames with 120.
  change (last_sender_report_ s1) with (last_sender_report_ s).
  destruct (Z.leb_spec (part_frame_id part) (checkpoint_frame s)); [by exists s1 |].
  destruct ((latest_frame_expected_ s <? part_frame_id part)
    && (last_frame_consumed_ s + 120 <? part_frame_id part)) eqn:Hfar; [by exists s1 |].
  assert (exists s2, (if latest_frame_expected_ s <? part_frame_id part
    then expect_loop (Z.to_nat (part_frame_id part - latest_frame_expected_ s)) (part_frame_id part) s1
    else Ret s1) = Ret s2 /\ recv_ok s2 /\ follows s1 s2 /\ same_position s s2
    /\ checkpoint_frame s2 = checkpoint_frame s /\ part_frame_id part <= latest_frame_expected_ s2)
    as (s2 & -> & Hok2 & Hf2 & Hpos2 & Hcp2 & Hl2).
  { destruct (Z.ltb_spec (latest_frame_expected_ s) (part_frame_id part)) as [Hlt | Hlt]; [| by exists s1].
    cbn [andb] in Hfar. apply Z.ltb_ge in Hfar.
    destruct (expect_loop_ok (Z.to_nat (part_frame_id part - latest_frame_expected_ s)) (part_frame_id part)
      s1 (checkpoint_frame s)) as (frames & -> & Hr2 & Hold & Hnew);
      [exact Hr | lia | cbn; lia | cbn; lia |].
    eexists. split; [reflexivity |]. split; [| split; [| split; [done | split; [done | done]]]].
    - constructor; [exact Hr2 | | destruct Hok1 as [_ _ []]; by constructor].
      intros e Hlt' He. cbn in He. change (checkpoint_frame (_ <| latest_frame_expected_ := _ |> <| pending_frames_ := _ |>))
        with (checkpoint_frame s) in *.
      destruct (decide (checkpoint_frame s + 1 <= latest_frame_expected_ s)).
      + rewrite Hold in He
          by (change (last_frame_consumed_ s < checkpoint_frame s + 1 <= latest_frame_expected_ s); lia).
        apply Hg; [lia | done].
      + apply (Hnew (checkpoint_frame s + 1)); [| done].
        change (latest_frame_expected_ s < checkpoint_frame s + 1 <= part_frame_id part). lia.
    - constructor; try done; [cbn; lia |]. exists []. by rewrite app_nil_r. }
  cbn [mbind outcome_bind]. destruct Hpos2 as [Hlc2 Hrep2]. rewrite Hrep2.
  destruct (bool_decide _ && _) eqn:Hstart; [by exists s2 |].
  destruct (collect_packet_ok now arrival part s2 Hok2) as (s' & -> & Hok' & Hf' & [Hlc' Hrep']).
  - destruct Hpok as (? & ? & _ & ? & _). split; [by split |]. split; [done |]. by eapply Hor.
  - lia.
  - intros Hz. rewrite Hrep2. rewrite Hz in Hstart. cbn in Hstart. rewrite andb_true_r in Hstart.
    apply bool_decide_eq_false in Hstart. by apply not_eq_None_Some.
  - exists s'. split; [done |]. split; [done |]. split; [by eapply follows_trans |]. split; congruence.
Qed.

(** * RTCP packets *)

(** The reported jitter has 32 bits. *)
Definition jitter_fits (t : PacketReceiveStatsTracker) : Prop :=
  is_u 32 (FromDuration (jitter_ t) (rtp_timebase_ t)).

Lemma PopulateNextReport_ok id t :
  is_u 32 id -> jitter_fits t ->
  exists t' r, PopulateNextReport (empty_report_block <| ssrc := id |>) t = (t', r)
    /\ rtp_timebase_ t' = rtp_timebase_ t /\ report_block_wf r.
Proof using.
  intros Hs Hj. unfold PopulateNextReport. destruct (_ <=? 0).
  { eexists _, _. split; [reflexivity |]. split; [done |]. unfold report_block_wf, is_u in *. cbn. lia. }
  eexists _, _. split; [reflexivity |]. split; [done |].
  match goal with |- context [SetCumulativePacketsLost ?a ?b (SetPacketFractionLostNumerator ?c ?d ?r)] =>
    destruct (report_setters_bounded c d 0 r) as (Hf & _);
    destruct (report_setters_bounded a b 0 (SetPacketFractionLostNumerator c d r)) as (_ & Hc & _) end.
  unfold report_block_wf. cbn. split; [by unfold SetPacketFractionLostNumerator; case_bool |].
  split; [exact Hf |]. split; [exact Hc |]. split; [by apply wrap_is_u |]. split; [exact Hj |].
  unfold SetPacketFractionLostNumerator. case_bool; unfold is_u; lia.
Qed.

(** A packet the receiver can handle: the clock offset is updated with times
    that do not decrease. *)
Definition rtcp_ready (arrival : Z) (packet : list Z) s : Prop :=
  bytes_ok packet /\ kNullTime < arrival /\ last_update_time_ (smoothed_clock_offset_ s) <= arrival
  /\ jitter_fits (stats_tracker_ s).

Lemma receiver_OnReceivedRtcpPacket_ok now arrival packet s :
  recv_ok s -> rtcp_ready arrival packet s ->
  exists s', Receiver.OnReceivedRtcpPacket exp now arrival packet s = Ret s' /\ recv_ok s' /\ advances s s'
    /\ last_frame_consumed_ s' = last_frame_consumed_ s /\ rtp_parser_ s' = rtp_parser_ s
    /\ (stats_tracker_ s' = stats_tracker_ s \/ exists r, stats_tracker_ s' = (PopulateNextReport r (stats_tracker_ s)).1).
Proof using.
  intros Hok (Hbytes & Hnull & Harr & Hj). destruct Hok as [Hr Hg Hb]. unfold Receiver.OnReceivedRtcpPacket.
  destruct (SenderReportParser_Parse_ok (rtcp_session_ s) (rtcp_parser_ s) packet Hbytes) as (o & last & -> & Ho).
  cbn [mbind outcome_bind]. destruct o as [report |].
  2: { eexists. split; [reflexivity |]. split; [constructor; [exact Hr | exact Hg | destruct Hb; by constructor] |].
       split; [constructor; try done; exists []; by rewrite app_nil_r |]. split; [done |]. split; [done | by left]. }
  set (s1 := _ <| last_sender_report_ := _ |> <| last_sender_report_arrival_time_ := _ |>).
  change (smoothed_clock_offset_ s1) with (smoothed_clock_offset_ s).
  destruct (Smoother_Update_ok exp arrival (arrival - sr_reference_time (base_report report))
    (smoothed_clock_offset_ s) Hnull Harr) as (sm & -> & _ & Hcur).
  cbn [mbind outcome_bind]. set (s2 := s1 <| smoothed_clock_offset_ := sm |>).
  destruct (PopulateNextReport_ok (sender_ssrc (rtcp_session_ s)) (stats_tracker_ s) (base_sender_ssrc _ Hb) Hj)
    as (t & r & Hpop & Htb & Hwf).
  change (PopulateNextReport _ (stats_tracker_ s2))
    with (PopulateNextReport (empty_report_block <| ssrc := sender_ssrc (rtcp_session_ s) |>) (stats_tracker_ s)).
  rewrite Hpop. set (s3 := s2 <| stats_tracker_ := t |>).
  set (r' := SetDelaySinceLastReport _ _).
  assert (report_block_wf r') as Hwf'.
  { match goal with r' := SetDelaySinceLastReport ?d ?x |- _ =>
      destruct (report_setters_bounded 0 0 d x) as (_ & _ & Hd & _) end.
    unfold report_block_wf in *. destruct Hwf as (W1 & W2 & W3 & W4 & W5 & _ & _).
    subst r'. revert Hd. unfold SetDelaySinceLastReport. repeat case_bool; intros Hd; by split_and!. }
  set (s4 := s3 <| rtcp_builder_ := _ |>).
  assert (base_ok s4) as Hb4.
  { destruct Hb. constructor; try done. cbn. congruence. }
  destruct (SendRtcp_ok now s4 Hr Hb4) as (s' & -> & Hsent).
  exists s'. split; [done |]. pose proof (sent_fields _ _ _ Hsent) as E.
  destruct (sent_builder _ _ _ Hsent) as (Ecp & _).
  split; [| split; [| split; [by rewrite E | split; [by rewrite E |]]]].
  - constructor; [rewrite Ecp, E; exact Hr | rewrite Ecp, E; exact Hg | by eapply feedback_sent_base].
  - eapply advances_trans; [| apply follows_advances; exact (feedback_sent_follows _ _ _ Hsent)].
    constructor; try done. exists []. by rewrite app_nil_r.
  - right. exists (empty_report_block <| ssrc := sender_ssrc (rtcp_session_ s) |>). rewrite Hpop, E. reflexivity.
Qed.

(** * Dropping frames *)

Lemma reset_frames_ok n f cp s latest :
  ring (pending_frames_ s) (f - 1) cp latest -> f - 1 + Z.of_nat n <= latest ->
  (forall g e, f <= g < f + Z.of_nat n -> entry_of (pending_frames_ s) g = Some e ->
     is_Some (estimated_capture_time e)) ->
  exists frames, reset_frames n f s = Ret (s <| pending_frames_ := frames |>)
    /\ ring frames (f - 1 + Z.of_nat n) (Z.max (f - 1 + Z.of_nat n) cp) latest
    /\ (forall g, f - 1 + Z.of_nat n < g <= latest -> entry_of frames g = entry_of (pending_frames_ s) g).
Proof using.
  revert f cp s. induction n as [| n IH]; intros f cp s Hr Hn Hcap; cbn [reset_frames]; ring_bounds Hr.
  { exists (pending_frames_ s). rewrite Z.add_0_r. rewrite Z.max_r by lia.
    split; [by destruct s | done]. }
  destruct (entry_exists _ _ _ _ f Hr) as [e He]. unfold GetQueueEntry.
  change (pending_frames_ s !! queue_index f) with (entry_of (pending_frames_ s) f).
  rewrite He. cbn [in_bounds mbind outcome_bind].
  destruct (Hcap f e) as [capture Hc]; [lia | done |].
  rewrite OSP_CHECK_true by (by rewrite bool_decide_eq_false_2 by (by rewrite Hc)).
  cbn [mbind outcome_bind]. set (e' := e <| collector := _ |>).
  set (frames1 := <[queue_index f := e']> (pending_frames_ s)).
  assert (ring frames1 f (Z.max f cp) latest) as Hr1.
  { unfold frames1. replace f with (f - 1 + 1) by lia.
    apply ring_consume; [done | lia | done |]. by exists capture. }
  destruct (IH (f + 1) (Z.max f cp) (set_entry f e' s)) as (frames & Heq & Hr' & Hsame).
  { replace (f + 1 - 1) with f by lia. exact Hr1. }
  { lia. }
  { intros g e0 Hg He0. change (entry_of frames1 g = Some e0) in He0. unfold frames1 in He0.
    rewrite entry_insert_ne in He0 by lia. eapply Hcap; [| done]. lia. }
  exists frames. rewrite Heq.
  replace (f + 1 - 1 + Z.of_nat n) with (f - 1 + Z.of_nat (S n)) in * by lia.
  split; [done |]. split.
  - by replace (Z.max (f - 1 + Z.of_nat (S n)) cp) with (Z.max (f - 1 + Z.of_nat (S n)) (Z.max f cp)) by lia.
  - intros g Hg. rewrite Hsame by done. change (entry_of frames1 g = entry_of (pending_frames_ s) g).
    unfold frames1. rewrite entry_insert_ne by lia. done.
Qed.

Lemma DropAllFramesBefore_ok now f s e :
  recv_ok s -> last_frame_consumed_ s + 1 < f <= latest_frame_expected_ s -> checkpoint_frame s < f ->
  entry_of (pending_frames_ s) f = Some e -> is_complete (collector e) = true ->
  (forall g e, last_frame_consumed_ s < g < f -> entry_of (pending_frames_ s) g = Some e ->
     is_Some (estimated_capture_time e)) ->
  exists s', DropAllFramesBefore now f s = Ret s' /\ recv_ok s' /\ follows s s'
    /\ last_frame_consumed_ s' = f - 1 /\ f <= checkpoint_frame s'
    /\ entry_of (pending_frames_ s') f = Some e.
Proof using.
  intros [Hr Hg Hb] Hf Hcp He Hc Hcap. ring_bounds Hr. unfold DropAllFramesBefore.
  rewrite !OSP_CHECK_ltb, OSP_CHECK_leb by lia. cbn [mbind outcome_bind].
  destruct (reset_frames_ok (Z.to_nat (f - (last_frame_consumed_ s + 1))) (last_frame_consumed_ s + 1)
    (checkpoint_frame s) s (latest_frame_expected_ s)) as (frames & -> & Hr' & Hsame).
  { by replace (last_frame_consumed_ s + 1 - 1) with (last_frame_consumed_ s) by lia. }
  { lia. }
  { intros g e0 Hg0. apply Hcap. lia. }
  replace (last_frame_consumed_ s + 1 - 1 + Z.of_nat (Z.to_nat (f - (last_frame_consumed_ s + 1))))
    with (f - 1) in * by lia.
  cbn [mbind outcome_bind]. set (s1 := s <| pending_frames_ := frames |> <| last_frame_consumed_ := f - 1 |>).
  assert (entry_of frames f = Some e) as He' by (rewrite Hsame by lia; done).
  destruct (AdvanceCheckpoint_ok now f s1) as (cp & d & s' & -> & Hle & Hd & Hsent & Hok').
  - apply (ring_checkpoint _ _ (f - 1)); [| change (latest_frame_expected_ s1) with (latest_frame_expected_ s); lia |].
    + rewrite Z.max_l in Hr' by lia. exact Hr'.
    + intros g e0 Hg0 He0. replace g with f in He0 by lia. change (entry_of frames f = Some e0) in He0.
      rewrite He' in He0. by injection He0 as <-.
  - destruct Hb. constructor; try done. eapply Exists_impl; [done |]. intros x Hx. cbn in *. lia.
  - exact Hcp.
  - change (f - 1 < f). lia.
  - exists s'. split; [done |]. split; [done |]. pose proof (sent_fields _ _ _ Hsent) as E.
    destruct (sent_builder _ _ _ Hsent) as (Ecp & _).
    split; [| split; [by rewrite E | split; [rewrite Ecp; exact Hle | by rewrite E]]].
    eapply follows_trans; [| exact (feedback_sent_follows _ _ _ Hsent)].
    constructor; try done; [change (last_frame_consumed_ s <= f - 1); lia | change (checkpoint_frame s <= cp); lia |].
    exists []. by rewrite app_nil_r.
Qed.
End ReceiverSteps.
