(* ===== verification/ReceiverConsume.v ===== *)
(** Consumption of frames by the client of a receiver, its alarms, its start:
    they keep the invariant, and what each does. *)

From S2P Require Import Prelude Numeric Wire Ids NtpTime RtpDefines RtcpParser RtcpRoundTrip RtcpCommon.
From S2P Require Import SenderReport RtcpBuilder Rtp FrameCollector FrameCrypto StatsTracker.
From S2P Require Import Alarm ClockDrift Receiver ReceiverInv ReceiverFeedback ReceiverSteps.

Section ReceiverConsume.
Context {O : Origin} {AES_KEY : Type}.
Variable AES_set_encrypt_key : list Z -> option AES_KEY.
Variable AES_ctr128_encrypt : AES_KEY -> ctr_state -> list Z -> list Z * ctr_state.
Implicit Types s : ReceiverImpl (AES_KEY := AES_KEY).

(** * Which frame is next *)

(** A frame that may be consumed: the next one, or one that needs no other that
    is skipped. *)
Definition ready s (f : Z) : Prop :=
  exists e, entry_of (pending_frames_ s) f = Some e /\ is_complete (collector e) = true
    /\ (f = last_frame_consumed_ s + 1 \/ dependency (frame_ (collector e)) <> kDependent).

(** A frame that is late for its playout. *)
Definition overdue (now : Z) s (f : Z) : Prop :=
  exists e capture delay, entry_of (pending_frames_ s) f = Some e
    /\ estimated_capture_time e = Some capture /\ ResolveTargetPlayoutDelay f s = Ret delay
    /\ capture + delay * 1000 - player_processing_time_ s <= now.

(** All frames before [f] are late and not ready. *)
Definition skipped_until (now : Z) s (f : Z) : Prop :=
  forall g, last_frame_consumed_ s < g < f -> ~ ready s g /\ overdue now s g.

(** The outcome of a scan. *)
Definition scan_result (now : Z) s (o : option Z) s' : Prop :=
  match o with
  | Some size => exists f e, last_frame_consumed_ s < f <= latest_frame_expected_ s
      /\ ready s f /\ skipped_until now s f
      /\ entry_of (pending_frames_ s) f = Some e /\ size = zlen (frame_payload (collector e))
      /\ last_frame_consumed_ s' = f - 1 /\ f <= checkpoint_frame s'
      /\ entry_of (pending_frames_ s') f = Some e
  | None =>
      (forall f, last_frame_consumed_ s < f <= latest_frame_expected_ s -> ready s f ->
         exists g, last_frame_consumed_ s < g < f /\ ~ overdue now s g)
      /\ s' = s <| consumption_alarm_ := consumption_alarm_ s' |>
  end.

Lemma ready_entry s f e :
  entry_of (pending_frames_ s) f = Some e ->
  ready s f <-> is_complete (collector e) = true
    /\ (f = last_frame_consumed_ s + 1 \/ dependency (frame_ (collector e)) <> kDependent).
Proof using.
  intros He. unfold ready. rewrite He. split; [by intros (? & [= <-] & ?) | by exists e].
Qed.

(** While the next frame is not complete, nothing is to be consumed. *)
Lemma nothing_consumable s :
  recv_ok s -> ~ ready s (last_frame_consumed_ s + 1) -> checkpoint_frame s = last_frame_consumed_ s.
Proof using.
  intros [Hr Hg Hb] Hn. pose proof (ring_window _ _ _ _ Hr) as ((? & ?) & (? & ?) & ?).
  destruct (decide (last_frame_consumed_ s < checkpoint_frame s)); [| lia]. exfalso. apply Hn.
  destruct (entry_exists _ _ _ _ (last_frame_consumed_ s + 1) Hr) as [e He].
  apply (ready_entry _ _ e He). split; [| by left]. eapply ring_complete; [done | | done]. lia.
Qed.

(** The scan stops at a frame that is not ready and not known to be late. *)
Lemma scan_stops now f s s' :
  skipped_until now s f -> ~ ready s f -> (f <= latest_frame_expected_ s -> ~ overdue now s f) ->
  s' = s <| consumption_alarm_ := consumption_alarm_ s' |> -> last_frame_consumed_ s < f ->
  scan_result now s None s'.
Proof using.
  intros Hs Hn Hno E Hlt. split; [| done]. intros g Hg Hready.
  destruct (Z.lt_trichotomy g f) as [H | [-> | H]].
  - destruct (Hs g) as [? _]; [lia | done].
  - done.
  - exists f. split; [lia |]. apply Hno. lia.
Qed.

Lemma advance_loop_ok n now f s :
  recv_ok s -> latest_frame_expected_ s + 1 - f = Z.of_nat n -> last_frame_consumed_ s < f ->
  skipped_until now s f ->
  exists o s', advance_loop n now f s = Ret (o, s') /\ recv_ok s' /\ follows s s' /\ scan_result now s o s'.
Proof using.
  revert f. induction n as [| n IH]; intros f Hok Hn Hlt Hs; cbn [advance_loop].
  { exists None, s. split; [done |]. split; [done |]. split; [apply follows_refl |].
    split; [| by destruct s]. intros g Hg Hready. destruct (Hs g) as [? _]; [lia | done]. }
  pose proof Hok as [Hr Hg Hb]. pose proof (ring_window _ _ _ _ Hr) as ((? & ?) & (? & ?) & ?).
  destruct (GetQueueEntry_ok f _ s Hr) as (e & -> & He). cbn [mbind outcome_bind].
  pose proof (ready_entry s f e He) as Hre.
  assert ((if is_complete (collector e) then m ← PeekFrameMetadata (collector e); Ret (Some m) else Ret None)
    = Ret (if is_complete (collector e) then Some (frame_ (collector e)) else None)) as ->.
  { destruct (is_complete (collector e)) eqn:Hc; [| done]. by destruct (complete_payload _ Hc) as (_ & _ & ->). }
  cbn [mbind outcome_bind].
  set (is_ready := match (if is_complete (collector e) then Some (frame_ (collector e)) else None) with
    | Some m => _ | None => false end).
  assert (is_ready = true <-> ready s f) as Hready.
  { rewrite Hre. subst is_ready. destruct (is_complete (collector e)); [| by split; [| intros [? _]]].
    rewrite orb_true_iff, negb_true_iff, Z.eqb_eq, bool_decide_eq_false. tauto. }
  destruct is_ready.
  - destruct (proj1 Hready eq_refl) as (e' & He' & Hc & Hdep). rewrite He in He'. injection He' as <-.
    destruct (complete_payload _ Hc) as (Hsize & _ & _).
    destruct (Z.eqb_spec f (last_frame_consumed_ s + 1)) as [-> | Hne].
    + cbn [mbind outcome_bind]. rewrite Hsize. cbn [mbind outcome_bind].
      eexists _, s. split; [reflexivity |]. split; [done |]. split; [apply follows_refl |].
      exists (last_frame_consumed_ s + 1), e. split; [lia |]. split; [by apply Hready |]. split; [done |].
      split; [done |]. split; [done |]. split; [lia |]. split; [| done].
      destruct (decide (last_frame_consumed_ s < checkpoint_frame s)); [lia | exfalso].
      assert (checkpoint_frame s = last_frame_consumed_ s) as Heq by lia.
      rewrite (Hg e) in Hc; [done | lia | by rewrite Heq].
    + assert (~ ready s (last_frame_consumed_ s + 1)) as Hnr by (apply Hs; lia).
      pose proof (nothing_consumable s Hok Hnr) as Hcp.
      destruct (DropAllFramesBefore_ok now f s e Hok) as (s' & -> & Hok' & Hf' & Hlc & Hcp' & He');
        [lia | lia | done | done | |].
      { intros g e0 Hg0 He0. destruct (Hs g) as [_ (e1 & c & d & He1 & Hcap & _)]; [lia |].
        rewrite He0 in He1. injection He1 as <-. by exists c. }
      cbn [mbind outcome_bind]. rewrite Hsize. cbn [mbind outcome_bind].
      eexists _, s'. split; [reflexivity |]. split; [done |]. split; [done |].
      exists f, e. split; [lia |]. split; [by apply Hready |]. by split_and!.
  - assert (~ ready s f) as Hnr by (intros H'; by apply Hready in H').
    destruct (estimated_capture_time e) as [capture |] eqn:Hcap.
    2: { exists None, s. split; [done |]. split; [done |]. split; [apply follows_refl |].
         apply (scan_stops now f); [done | done | | by destruct s | done].
         intros _ (e0 & c & d & He0 & Hc0 & _). rewrite He in He0. injection He0 as <-. congruence. }
    destruct (ResolveTargetPlayoutDelay_ok f s Hb) as (delay & Hd & _); [lia |].
    rewrite Hd. cbn [mbind outcome_bind].
    destruct (Z.ltb_spec now (capture + delay * 1000 - player_processing_time_ s)).
    + destruct (ScheduleFrameReadyCheck_recv now (capture + delay * 1000 - player_processing_time_ s) s Hok)
        as (s' & -> & Hok' & Hf' & E).
      cbn [mbind outcome_bind]. exists None, s'. split; [done |]. split; [done |]. split; [done |].
      apply (scan_stops now f); [done | done | | done | done].
      intros _ (e0 & c & d & He0 & Hc0 & Hd0 & Hle). rewrite He in He0. injection He0 as <-.
      rewrite Hcap in Hc0. injection Hc0 as <-. rewrite Hd in Hd0. injection Hd0 as <-. lia.
    + apply IH; [done | lia | lia |]. intros g Hg0.
      destruct (decide (g = f)) as [-> | ?]; [| apply Hs; lia]. split; [done |].
      by exists e, capture, delay.
Qed.

Lemma AdvanceToNextFrame_ok now s :
  recv_ok s ->
  exists o s', AdvanceToNextFrame now s = Ret (o, s') /\ recv_ok s' /\ follows s s' /\ scan_result now s o s'.
Proof using.
  intros Hok. pose proof (ring_window _ _ _ _ (recv_ring _ Hok)) as ((? & ?) & (? & ?) & ?).
  unfold AdvanceToNextFrame.
  apply advance_loop_ok; [done | lia | lia |]. intros g. lia.
Qed.

(** * Consuming a frame *)

(** Counter mode is a stream cipher. *)
Hypothesis ctr_length : forall k st l, length (AES_ctr128_encrypt k st l).1 = length l.
Hypothesis ctr_stream : forall k st a b,
  AES_ctr128_encrypt k st (a ++ b)
  = let '(x, st1) := AES_ctr128_encrypt k st a in
    let '(y, st2) := AES_ctr128_encrypt k st1 b in (x ++ y, st2).
Hypothesis ctr_involutive : forall k st l,
  bytes_ok l -> (AES_ctr128_encrypt k st (AES_ctr128_encrypt k st l).1).1 = l.

(** The plain text of a frame that was received. *)
Definition plain_text (crypto : FrameCrypto (AES_KEY := AES_KEY)) (f : Z) (bytes : list Z) : list Z :=
  (AES_ctr128_encrypt (aes_key crypto) (aes_nonce (cast_iv_mask crypto) f, replicate 16 0, 0) bytes).1.

(** What the client gets for the frame in the entry [e]. *)
Definition consumed_frame s (f : Z) (e : PendingFrame) (capture delay : Z) : EncodedFrame :=
  (CopyMetadataTo (frame_ (collector e)) new_EncodedFrame)
    <| data := plain_text (crypto_ s) f (frame_payload (collector e)) |>
    <| reference_time := capture + delay * 1000 - player_processing_time_ s |>.

Lemma ConsumeNextFrame_ok now s e :
  recv_ok s -> last_frame_consumed_ s < checkpoint_frame s ->
  entry_of (pending_frames_ s) (last_frame_consumed_ s + 1) = Some e ->
  exists capture delay s',
    ConsumeNextFrame AES_ctr128_encrypt now (zlen (frame_payload (collector e))) s
      = Ret (consumed_frame s (last_frame_consumed_ s + 1) e capture delay, s')
    /\ estimated_capture_time e = Some capture
    /\ ResolveTargetPlayoutDelay (last_frame_consumed_ s + 1) s = Ret delay
    /\ recv_ok s' /\ follows s s' /\ last_frame_consumed_ s' = last_frame_consumed_ s + 1.
Proof using ctr_length ctr_stream ctr_involutive.
  intros Hok Hlt He. destruct Hok as [Hr Hg Hb].
  pose proof (ring_window _ _ _ _ Hr) as ((? & ?) & (? & ?) & ?). unfold ConsumeNextFrame.
  rewrite OSP_CHECK_leb by lia. cbn [mbind outcome_bind]. unfold GetQueueEntry.
  change (pending_frames_ s !! queue_index (last_frame_consumed_ s + 1))
    with (entry_of (pending_frames_ s) (last_frame_consumed_ s + 1)).
  rewrite He. cbn [in_bounds mbind outcome_bind].
  assert (is_complete (collector e) = true) as Hc by (eapply ring_complete; [done | | done]; lia).
  destruct (ring_entries _ _ _ _ Hr (last_frame_consumed_ s + 1) e) as (Hcol & Hfid & Hcap & _); [lia | done |].
  rewrite OSP_CHECK_true by done. cbn [mbind outcome_bind].
  destruct Hcap as [capture Hcapture]; [by apply complete_has_first |]. rewrite Hcapture.
  destruct (complete_payload _ Hc) as (_ & -> & ->). cbn [mbind outcome_bind]. rewrite Hfid.
  unfold Decrypt, frame_payload at 1.
  rewrite (Crypt_concat _ ctr_length ctr_stream ctr_involutive).
  2: { unfold is_null, null_frame_id, INT64_MIN. lia. }
  2: { apply complete_has_first in Hc as [p Hp]; [| done]. by destruct (chunks (collector e)). }
  cbn [mbind outcome_bind].
  destruct (ResolveTargetPlayoutDelay_ok (last_frame_consumed_ s + 1) s Hb) as (delay & Hd & _); [lia |].
  rewrite Hd. cbn [mbind outcome_bind].
  set (e' := e <| collector := Reset (collector e) |>).
  set (s1 := (set_entry (last_frame_consumed_ s + 1) e' s) <| last_frame_consumed_ := last_frame_consumed_ s + 1 |>).
  assert (recv_ok s1) as Hok1.
  { constructor.
    - replace (checkpoint_frame s1) with (Z.max (last_frame_consumed_ s + 1) (checkpoint_frame s))
        by (change (checkpoint_frame s1) with (checkpoint_frame s); lia).
      change (ring (<[queue_index (last_frame_consumed_ s + 1) := e']> (pending_frames_ s))
        (last_frame_consumed_ s + 1) (Z.max (last_frame_consumed_ s + 1) (checkpoint_frame s))
        (latest_frame_expected_ s)).
      apply ring_consume; [exact Hr | lia | done |]. by exists capture.
    - intros e0 Hlt0 He0. change (checkpoint_frame s1) with (checkpoint_frame s) in *.
      change (latest_frame_expected_ s1) with (latest_frame_expected_ s) in *.
      change (latest_frame_expected_ s1) with (latest_frame_expected_ s) in Hlt0.
      change (entry_of (<[queue_index (last_frame_consumed_ s + 1) := e']> (pending_frames_ s))
        (checkpoint_frame s + 1) = Some e0) in He0.
      rewrite entry_insert_ne in He0 by lia. by apply Hg.
    - destruct Hb. constructor; try done. eapply Exists_impl; [done |]. intros x Hx. cbn in *. lia. }
  destruct (ScheduleFrameReadyCheck_recv now kImmediately s1 Hok1) as (s' & -> & Hok' & Hf' & E).
  cbn [mbind outcome_bind]. exists capture, delay, s'.
  split; [f_equal; f_equal; unfold consumed_frame, plain_text; by rewrite Hfid |].
  split; [done |]. split; [done |]. split; [done |]. split; [| by rewrite E].
  eapply follows_trans; [| done]. constructor; try done; [cbn; lia |]. exists []. by rewrite app_nil_r.
Qed.

(** * The client's other calls *)

Lemma SetConsumer_ok now c s :
  recv_ok s -> exists s', SetConsumer now c s = Ret s' /\ recv_ok s' /\ follows s s'
    /\ last_frame_consumed_ s' = last_frame_consumed_ s.
Proof using.
  intros [Hr Hg Hb]. set (s1 := s <| consumer_ := c |>).
  destruct (ScheduleFrameReadyCheck_recv now kImmediately s1) as (s' & Heq & Hok & Hf & E).
  { constructor; [exact Hr | exact Hg | destruct Hb; by constructor]. }
  exists s'. split; [exact Heq |]. split; [done |]. split; [| by rewrite E].
  eapply follows_trans; [| done]. constructor; try done. exists []. by rewrite app_nil_r.
Qed.

Lemma SetPlayerProcessingTime_ok t s :
  recv_ok s -> recv_ok (SetPlayerProcessingTime t s) /\ follows s (SetPlayerProcessingTime t s).
Proof using.
  intros [Hr Hg Hb]. split; [constructor; [exact Hr | exact Hg | destruct Hb; by constructor] |].
  constructor; try done. exists []. by rewrite app_nil_r.
Qed.

Lemma RequestKeyFrame_ok now s :
  recv_ok s -> exists s', RequestKeyFrame now s = Ret s' /\ recv_ok s' /\ follows s s'
    /\ last_frame_consumed_ s' = last_frame_consumed_ s.
Proof using.
  intros Hok. pose proof Hok as [Hr Hg Hb]. unfold RequestKeyFrame.
  destruct (negb (config_is_pli_enabled _)); [exists s; by split_and!; [..| apply follows_refl |] |].
  destruct (_ && _ && _); [| exists s; by split_and!; [..| apply follows_refl |]].
  set (s1 := s <| rtcp_builder_ := _ |>).
  assert (base_ok s1) as Hb1 by (destruct Hb; by constructor).
  destruct (SendRtcp_ok now s1 Hr Hb1) as (s' & -> & Hsent).
  exists s'. split; [done |]. pose proof (sent_fields _ _ _ Hsent) as E.
  destruct (sent_builder _ _ _ Hsent) as (Ecp & _). split; [| split; [| by rewrite E]].
  - constructor; [rewrite Ecp, E; exact Hr | rewrite Ecp, E; exact Hg | by eapply feedback_sent_base].
  - eapply follows_trans; [| exact (feedback_sent_follows _ _ _ Hsent)].
    constructor; try done. exists []. by rewrite app_nil_r.
Qed.

(** A playout is reported of a frame that has been consumed or skipped. *)
Lemma ReportPlayoutEvent_ok f ts t s :
  recv_ok s -> 0 <= f <= last_frame_consumed_ s ->
  exists s', ReportPlayoutEvent f ts t s
    = Ret (if negb (logs_enabled s) then kOperationInvalid
           else if f <=? latest_frame_expected_ s - 120 then kParameterOutOfRange else kNone, s')
  /\ recv_ok s' /\ follows s s' /\ last_frame_consumed_ s' = last_frame_consumed_ s.
Proof using.
  intros Hok Hf. pose proof Hok as [Hr Hg Hb]. unfold ReportPlayoutEvent. change kMaxUnackedFrames with 120.
  destruct (logs_enabled s) eqn:Hen; cbn [negb];
    [| exists s; by split_and!; [..| apply follows_refl |]].
  destruct (Z.leb_spec f (latest_frame_expected_ s - 120));
    [exists s; by split_and!; [..| apply follows_refl |] |].
  destruct (GetQueueEntry_ok f _ s Hr) as (e & -> & He). cbn [mbind outcome_bind].
  destruct (ring_captured _ _ _ _ Hr f e) as [capture ->]; [lia | lia | done |].
  pose proof (log_event_ok ts (mkEventLog kFramePlayedOut t
    (Z.quot (Z.max 0 (t - capture)) 1000 * 1000) 0) s Hb) as (logs & s' & Heq & E & Hb').
  rewrite Hen in Heq. rewrite Heq. cbn [mbind outcome_bind].
  exists s'. split; [done |]. split; [| split].
  - constructor; [rewrite E; exact Hr | rewrite E; exact Hg | done].
  - rewrite E. constructor; try done. exists []. by rewrite app_nil_r.
  - by rewrite E.
Qed.

(** * The alarms *)

Lemma rtcp_alarm_fires_ok now i s :
  recv_ok s -> (i < length (posted (rtcp_alarm_ s)))%nat ->
  exists s', rtcp_alarm_fires now i s = Ret s' /\ recv_ok s' /\ follows s s'
    /\ last_frame_consumed_ s' = last_frame_consumed_ s.
Proof using.
  intros [Hr Hg Hb] Hi. unfold rtcp_alarm_fires.
  destruct (functor_call_ok now i (rtcp_alarm_ s) (base_rtcp_alarm _ Hb) Hi) as (task & a & -> & Ha & _).
  cbn [mbind outcome_bind]. set (s1 := s <| rtcp_alarm_ := a |>).
  assert (base_ok s1) as Hb1 by (destruct Hb; by constructor).
  assert (recv_ok s1 /\ follows s s1) as [Hok1 Hf1].
  { split; [by constructor |]. constructor; try done. exists []. by rewrite app_nil_r. }
  destruct task as [[] |]; [| by exists s1].
  destruct (SendRtcp_ok now s1 Hr Hb1) as (s' & -> & Hsent).
  exists s'. split; [done |]. pose proof (sent_fields _ _ _ Hsent) as E.
  destruct (sent_builder _ _ _ Hsent) as (Ecp & _). split; [| split; [| by rewrite E]].
  - constructor; [rewrite Ecp, E; exact Hr | rewrite Ecp, E; exact Hg | by eapply feedback_sent_base].
  - eapply follows_trans; [done | exact (feedback_sent_follows _ _ _ Hsent)].
Qed.

Lemma scan_result_alarm now a s o s' :
  scan_result now (s <| consumption_alarm_ := a |>) o s' -> scan_result now s o s'.
Proof using. destruct o; [done |]. intros [H E]. split; [exact H | by rewrite E]. Qed.

Lemma consumption_alarm_fires_ok now i s :
  recv_ok s -> (i < length (posted (consumption_alarm_ s)))%nat ->
  exists s', consumption_alarm_fires now i s = Ret s' /\ recv_ok s' /\ follows s s'.
Proof using.
  intros [Hr Hg Hb] Hi. unfold consumption_alarm_fires.
  destruct (functor_call_ok now i (consumption_alarm_ s) (base_consumption_alarm _ Hb) Hi)
    as (task & a & -> & Ha & _).
  cbn [mbind outcome_bind]. set (s1 := s <| consumption_alarm_ := a |>).
  assert (recv_ok s1 /\ follows s s1) as [Hok1 Hf1].
  { split; [constructor; [exact Hr | exact Hg | destruct Hb; by constructor] |].
    constructor; try done. exists []. by rewrite app_nil_r. }
  destruct task as [[] |]; [| by exists s1]. destruct (consumer_ s1); [| by exists s1].
  destruct (AdvanceToNextFrame_ok now s1 Hok1) as (o & s2 & -> & Hok2 & Hf2 & Hres).
  cbn [mbind outcome_bind]. eexists. split; [reflexivity |].
  assert (follows s s2) as Hf by (by eapply follows_trans).
  destruct o as [size |]; [| done]. destruct Hok2 as [Hr2 Hg2 Hb2].
  split; [constructor; [exact Hr2 | exact Hg2 | destruct Hb2; by constructor] |].
  eapply follows_trans; [done |]. constructor; try done. eexists. split; [reflexivity |].
  repeat constructor. destruct Hres as (f & e & _ & _ & _ & _ & -> & _). cbn. apply zlen_nonneg.
Qed.

(** * Start *)

Definition config_ok (c : SessionConfig) : Prop :=
  is_u 32 (config_sender_ssrc c) /\ config_sender_ssrc c <> 0 /\ config_receiver_ssrc c <> 0
  /\ config_sender_ssrc c <> config_receiver_ssrc c /\ 0 < config_rtp_timebase c
  /\ 0 < config_target_playout_delay c <= 65535.

Lemma new_ReceiverImpl_ok size now epoch config :
  config_ok config -> is_Some (AES_set_encrypt_key (config_aes_secret_key config)) ->
  1452 <= size < 2 ^ 18 ->
  exists s, new_ReceiverImpl AES_set_encrypt_key size now epoch config = Ret s /\ recv_ok s
    /\ config_ s = config
    /\ new_FrameCrypto AES_set_encrypt_key (config_aes_secret_key config) (config_aes_iv_mask config)
       = Ret (crypto_ s) /\ last_frame_consumed_ s = -1 /\ checkpoint_frame s = -1
    /\ latest_frame_expected_ s = -1 /\ calls_ s = [].
Proof using.
  intros (Hs & Hs0 & Hr0 & Hne & Htb & Hd) [key Hkey] Hsize. unfold new_ReceiverImpl, new_RtcpSession, kNullSsrc.
  rewrite !OSP_CHECK_neqb by done. cbn [mbind outcome_bind]. unfold new_FrameCrypto. rewrite Hkey.
  cbn [mbind outcome_bind].
  unfold new_ClockDriftSmoother. assert (OSP_CHECK (negb (dleb (double_of_Z kDefaultTimeConstant) (double_of_Z 0))) = Ret tt) as ->
    by (by vm_compute).
  cbn [mbind outcome_bind]. change (checkpoint_frame_id new_CompoundRtcpBuilder =? leader_frame_id) with true.
  cbn [OSP_CHECK mbind outcome_bind]. rewrite OSP_CHECK_ltb by lia. cbn [mbind outcome_bind].
  eexists. split; [reflexivity |]. split; [| done]. constructor.
  - constructor.
    + done.
    + change (window_ok (-1) (-1) (-1)). unfold window_ok. lia.
    + intros f e Hf. change (-1 < f <= -1) in Hf. lia.
    + intros f e _ He. apply (lookup_replicate 120 new_PendingFrame) in He as [-> _]. reflexivity.
    + intros f e Hf. change (-1 < f <= -1) in Hf. lia.
    + intros f e H0 Hf. change (-1 - 120 < f <= -1) in Hf. lia.
  - intros e Hlt. change (-1 < -1) in Hlt. lia.
  - constructor; cbn; try done; try apply new_Alarm_ok.
    + left. cbn. lia.
    + by apply SSorted_cons; [apply SSorted_nil | apply Forall_nil_2].
    + apply Forall_singleton. exact Hd.
Qed.
End ReceiverConsume.
