(* ===== verification/ReceiverJitter.v ===== *)
(** The interarrival jitter a receiver reports has 32 bits, although it is
    computed in floating point from timestamps of any distance: packets that
    arrive less than 2^30 ticks apart keep it far below. *)

From S2P Require Import Prelude Numeric Rounding Wire Ids NtpTime RtpDefines RtcpParser RtcpRoundTrip RtcpCommon.
From S2P Require Import SenderReport RtcpBuilder Rtp FrameCollector FrameCrypto StatsTracker.
From S2P Require Import Alarm ClockDrift Receiver ReceiverInv ReceiverFeedback ReceiverSteps.

(** * Conversions between durations and ticks *)

Lemma int_split z : int z = z * (2 ^ 20 * 2 ^ 2980).
Proof. unfold int, units. by rewrite <- Z.pow_add_r by lia. Qed.

Lemma units_split k : units k (-20) = k * 2 ^ 2980.
Proof. done. Qed.

(** [a / b * c] in floating point, for a quotient of at most [k / 2^20]. *)
Lemma scaled_bounds a b c k :
  Z.abs a < 2 ^ 53 -> 0 < b < 2 ^ 32 -> 0 < c < 2 ^ 32 -> 0 <= k < 2 ^ 53 -> Z.abs a * 2 ^ 20 <= k * b ->
  k * c / 2 ^ 20 + 1 < 2 ^ 53 ->
  let r := rounded_saturate_int64 (dmul (ddiv (double_of_Z a) (double_of_Z b)) (double_of_Z c)) in
  Z.abs r <= k * c / 2 ^ 20 + 1 /\ (0 <= a -> 0 <= r).
Proof.
  intros Ha Hb Hc Hk Hak Hn. cbv zeta. set (n := k * c / 2 ^ 20 + 1) in *.
  assert (k * c <= n * 2 ^ 20) as Hkn by (unfold n; Z.div_mod_to_equations; lia).
  assert (0 <= n) as Hn0 by (unfold n; assert (0 <= k * c / 2 ^ 20) by (apply Z.div_pos; lia); lia). clearbody n.
  destruct (double_of_Z_int a) as [Wa Va]; [done |]. destruct (double_of_Z_int b) as [Wb Vb]; [lia |].
  destruct (double_of_Z_int c) as [Wc Vc]; [lia |].
  assert (0 < 2 ^ 2980) as Hp by (by apply Z.pow_pos_nonneg). assert (2 ^ 3000 = 2 ^ 20 * 2 ^ 2980) as Hsplit by done.
  destruct (ddiv_rounds (-52) 53 (double_of_Z a) (double_of_Z b)) as [Wq Rq]; [lia | lia | lia | done | done | |].
  { rewrite Vb, int_split. lia. }
  pose proof (ddiv_normal (-52) 53 _ _ ltac:(lia) ltac:(lia) ltac:(lia) Wa Wb) as Nq.
  set (q := ddiv _ _) in *. clearbody q. rewrite Va, Vb, Hsplit, !int_split in Rq.
  assert (represented (units k (-20))) as Rk by (exists k, (-20); split; [done | split; lia]).
  assert (represented 0) as R0 by (by exists 0, 0). pose proof (represented_opp _ Rk) as Rk'.
  rewrite units_split in Rk, Rk'. set (p := 2 ^ 2980) in *.
  assert (forall x y : Z, x * 2 ^ 20 <= y * b -> x * (2 ^ 20 * p) * (2 ^ 20 * p) <= y * p * (b * (2 ^ 20 * p))) as Hmul.
  { intros x y Hxy. replace (x * (2 ^ 20 * p) * (2 ^ 20 * p)) with (x * 2 ^ 20 * (p * (2 ^ 20 * p))) by ring.
    replace (y * p * (b * (2 ^ 20 * p))) with (y * b * (p * (2 ^ 20 * p))) by ring. apply Z.mul_le_mono_nonneg_r; lia. }
  assert (forall x y : Z, y * b <= x * 2 ^ 20 -> y * p * (b * (2 ^ 20 * p)) <= x * (2 ^ 20 * p) * (2 ^ 20 * p)) as Hmul'.
  { intros x y Hxy. replace (x * (2 ^ 20 * p) * (2 ^ 20 * p)) with (x * 2 ^ 20 * (p * (2 ^ 20 * p))) by ring.
    replace (y * p * (b * (2 ^ 20 * p))) with (y * b * (p * (2 ^ 20 * p))) by ring. apply Z.mul_le_mono_nonneg_r; lia. }
  assert (value q <= k * p) as Hq1 by (apply (proj1 (Rq _ Rk)), Hmul; lia).
  assert (- (k * p) <= value q) as Hq2.
  { apply (proj2 (Rq _ Rk')). replace (- (k * p)) with (- k * p) by ring. apply Hmul'. lia. }
  assert (0 <= a -> 0 <= value q) as Hq0.
  { intros H0. apply (proj2 (Rq _ R0)). rewrite Z.mul_0_l. apply Z.mul_nonneg_nonneg; [apply Z.mul_nonneg_nonneg |]; lia. }
  clear Rq Hmul Hmul'.
  assert (within (-212) 53 q) as Wq'.
  { apply (within_above _ 900); [lia | lia | done |]. apply Z.le_trans with (int (2 ^ 53)); [| by vm_compute].
    rewrite int_split. fold p. assert (k * p <= 2 ^ 53 * (2 ^ 20 * p)) by nia. lia. }
  assert (within (-212) 53 (double_of_Z c)) as Wc' by (by apply (within_weak (-52) 53)).
  destruct (dmul_rounds (-212) 53 q (double_of_Z c)) as [Wr Rr]; [lia.. | done | done |].
  pose proof (dmul_normal (-212) 53 q (double_of_Z c) ltac:(lia) ltac:(lia) ltac:(lia) Wq' Wc' Nq
    (double_of_Z_normal c ltac:(lia))) as Nr.
  set (r := dmul _ _) in *. clearbody r. rewrite Vc, Hsplit, int_split in Rr. fold p in Rr.
  assert (represented (int n)) as Rn by (apply int_represented; lia). pose proof (represented_opp _ Rn) as Rn'.
  rewrite int_split in Rn, Rn'. fold p in Rn, Rn'.
  assert (k * p * (c * (2 ^ 20 * p)) <= n * (2 ^ 20 * p) * (2 ^ 20 * p)) as Hkn'.
  { replace (k * p * (c * (2 ^ 20 * p))) with (k * c * (p * (2 ^ 20 * p))) by ring.
    replace (n * (2 ^ 20 * p) * (2 ^ 20 * p)) with (n * 2 ^ 20 * (p * (2 ^ 20 * p))) by ring. apply Z.mul_le_mono_nonneg_r; lia. }
  assert (0 < c * (2 ^ 20 * p)) as Hcp by (apply Z.mul_pos_pos; lia).
  assert (value r <= n * (2 ^ 20 * p)) as Hr1.
  { apply (proj1 (Rr _ Rn)). etransitivity; [| exact Hkn']. apply Z.mul_le_mono_pos_r; done. }
  assert (- (n * (2 ^ 20 * p)) <= value r) as Hr2.
  { apply (proj2 (Rr _ Rn')). apply Z.le_trans with (- (k * p) * (c * (2 ^ 20 * p))); [lia |]. by apply Z.mul_le_mono_pos_r. }
  split.
  - assert (- n <= rounded_saturate_int64 r <= n) as Hr; [| lia].
    apply (rounded_saturate_between (2 * -212) 900); try done; try lia. rewrite !int_split. fold p. lia.
  - intros H0. apply (rounded_saturate_between (2 * -212) 900 r 0 n); try done; try lia. rewrite !int_split. fold p.
    split; [| lia]. rewrite Z.mul_0_l. apply (proj2 (Rr _ R0)). rewrite Z.mul_0_l. apply Z.mul_nonneg_nonneg; [auto | lia].
Qed.

Lemma ToDuration_bound t tb :
  Z.abs t <= 2 ^ 31 -> 0 < tb < 2 ^ 31 ->
  exists d, ToDuration t tb = Ret d /\ Z.abs d * tb <= (2 ^ 31 + 2 ^ 13) * 1000000.
Proof.
  intros Ht Htb. unfold ToDuration. rewrite OSP_CHECK_ltb by lia. cbn [mbind outcome_bind].
  eexists. split; [reflexivity |]. set (k := Z.abs t * 2 ^ 20 / tb + 1).
  assert (Z.abs t * 2 ^ 20 <= k * tb <= Z.abs t * 2 ^ 20 + tb) as Hk
    by (unfold k; pose proof (Z.div_mod (Z.abs t * 2 ^ 20) tb ltac:(lia));
        pose proof (Z.mod_pos_bound (Z.abs t * 2 ^ 20) tb ltac:(lia)); nia).
  assert (0 <= k <= 2 ^ 51 + 1) as Hk2.
  { unfold k. split; [assert (0 <= Z.abs t * 2 ^ 20 / tb) by (apply Z.div_pos; lia); lia |].
    assert (Z.abs t * 2 ^ 20 / tb <= 2 ^ 51); [| lia]. apply Z.div_le_upper_bound; nia. }
  clearbody k. set (x := k * 1000000 / 2 ^ 20).
  assert (x * 2 ^ 20 <= k * 1000000 /\ 0 <= x) as [Hx Hx0].
  { unfold x. split; [Z.div_mod_to_equations; lia | apply Z.div_pos; lia]. }
  destruct (scaled_bounds t tb 1000000 k) as [Hr _]; try (fold x; lia). fold x in Hr. clearbody x.
  apply Z.le_trans with ((x + 1) * tb); [apply Z.mul_le_mono_nonneg_r; lia |].
  assert (x * tb * 2 ^ 20 <= (2 ^ 31 * 2 ^ 20 + tb) * 1000000) by nia. lia.
Qed.

(** The greatest jitter, in ticks: the greatest difference of two arrivals and
    of two timestamps, and what rounding adds. *)
Definition kMaxJitter : Z := 2 ^ 30 + 2 ^ 31 + 2 ^ 13.

Lemma FromDuration_bound j tb :
  0 <= j -> 0 < tb < 2 ^ 31 -> j * tb <= kMaxJitter * 1000000 -> is_u 32 (FromDuration j tb).
Proof.
  unfold kMaxJitter. intros Hj Htb Hb. set (k := j * 2 ^ 20 / 1000000 + 1).
  assert (j * 2 ^ 20 <= k * 1000000 <= j * 2 ^ 20 + 1000000) as Hk by (unfold k; Z.div_mod_to_equations; lia).
  assert (j <= (2 ^ 30 + 2 ^ 31 + 2 ^ 13) * 1000000) as Hj2 by nia.
  assert (0 <= k < 2 ^ 53) as Hk2 by lia. clearbody k.
  assert (k * tb <= (2 ^ 30 + 2 ^ 31 + 2 ^ 13) * 2 ^ 20 + tb) as Hkt by nia.
  set (x := k * tb / 2 ^ 20). assert (x <= 2 ^ 30 + 2 ^ 31 + 2 ^ 13 + 2 ^ 12) as Hx.
  { unfold x. apply Z.div_le_upper_bound; lia. }
  destruct (scaled_bounds j 1000000 tb k) as [Hr1 Hr2]; try (fold x; lia). fold x in Hr1.
  unfold FromDuration, is_u. specialize (Hr2 Hj). lia.
Qed.

(** * The jitter of a receiver *)

(** The statistics know the timestamp of the last packet parsed. *)
Record jitter_ok (p : RtpPacketParser) (t : PacketReceiveStatsTracker) : Prop := {
  jitter_timebase : 0 < rtp_timebase_ t < 2 ^ 31;
  jitter_bound : 0 <= jitter_ t /\ jitter_ t * rtp_timebase_ t <= kMaxJitter * 1000000;
  jitter_last : 0 <= num_rtp_packets_received_ t /\
    (num_rtp_packets_received_ t = 0 \/ last_rtp_packet_timestamp_ t = last_parsed_rtp_timestamp p) }.

Lemma jitter_ok_fits p t : jitter_ok p t -> jitter_fits t.
Proof. intros [Htb [Hj Hb] _]. by apply FromDuration_bound. Qed.

(** A packet arrives less than 2^30 ticks after the last one, or before it. *)
Definition arrives_soon (arrival : Z) (t : PacketReceiveStatsTracker) : Prop :=
  num_rtp_packets_received_ t = 0 \/
  Z.abs (arrival - last_rtp_packet_arrival_time_ t) * rtp_timebase_ t <= 2 ^ 30 * 1000000.

Lemma average_bound j d tb m :
  0 <= j -> 0 < tb -> j * tb <= m -> Z.abs d * tb <= m ->
  0 <= j + Z.quot (Z.abs d - j) 16 /\ (j + Z.quot (Z.abs d - j) 16) * tb <= m.
Proof. intros Hj Htb H1 H2. pose proof (jitter_average j (Z.abs d) Hj ltac:(lia)). split; [lia | nia]. Qed.

Lemma OnReceivedValidRtpPacket_jitter p p' seq ts arrival t t' :
  jitter_ok p t -> arrives_soon arrival t -> Z.abs (ts - last_parsed_rtp_timestamp p) <= 2 ^ 31 ->
  last_parsed_rtp_timestamp p' = ts -> OnReceivedValidRtpPacket seq ts arrival t = Ret t' -> jitter_ok p' t'.
Proof.
  intros [Htb [Hj Hb] [Hn Hlast]] Hsoon Hts Hp' E. unfold OnReceivedValidRtpPacket in E.
  destruct (Z.eqb_spec (num_rtp_packets_received_ t) 0) as [H0 | H0].
  { injection E as <-. constructor; cbn; [done | unfold kMaxJitter; lia | rewrite H0; split; [done | by right]]. }
  destruct Hlast as [? | Hlast]; [done |]. destruct Hsoon as [? | Hsoon]; [done |].
  set (t1 := if greatest_sequence_number_ t <? _ then _ else t) in E.
  assert (rtp_timebase_ t1 = rtp_timebase_ t /\ last_rtp_packet_timestamp_ t1 = last_rtp_packet_timestamp_ t
    /\ last_rtp_packet_arrival_time_ t1 = last_rtp_packet_arrival_time_ t /\ jitter_ t1 = jitter_ t
    /\ num_rtp_packets_received_ t1 = num_rtp_packets_received_ t) as (E1 & E2 & E3 & E4 & E5)
    by (unfold t1; case_bool; by split_and!).
  clearbody t1. rewrite E1, E2, E3, Hlast in E.
  destruct (ToDuration_bound (ts - last_parsed_rtp_timestamp p) (rtp_timebase_ t)) as (d & Ed & Hd); [done | done |].
  rewrite Ed in E. cbn [mbind outcome_bind] in E. injection E as <-. cbn.
  set (delta := arrival - last_rtp_packet_arrival_time_ t - d).
  replace (if delta <? 0 then - delta else delta) with (Z.abs delta) by (destruct (Z.ltb_spec delta 0); lia).
  rewrite E4. constructor; cbn; rewrite ?E1, ?E5; [done | | split; [lia | by right]].
  apply average_bound; [done | lia | done |]. unfold kMaxJitter.
  apply Z.le_trans with ((Z.abs (arrival - last_rtp_packet_arrival_time_ t) + Z.abs d) * rtp_timebase_ t); [| lia].
  apply Z.mul_le_mono_nonneg_r; lia.
Qed.

Lemma PopulateNextReport_jitter p r t : jitter_ok p t -> jitter_ok p (PopulateNextReport r t).1.
Proof. intros [Htb Hj Hl]. unfold PopulateNextReport. destruct (_ <=? 0); by constructor. Qed.

