(* ===== verification/ReceiverProps.v ===== *)
(** The properties of a receiver (Receiver.v): it never fails, its checkpoint
    and feedback are exact, it consumes frames in order and intact, and skips
    only late ones. *)

From S2P Require Import Prelude Numeric Wire Ids NtpTime RtpDefines RtcpParser RtcpRoundTrip RtcpCommon.
From S2P Require Import SenderReport RtcpBuilder Rtp FrameCollector FrameCrypto StatsTracker.
From S2P Require Import Alarm ClockDrift Receiver ReceiverInv ReceiverFeedback ReceiverSteps ReceiverConsume ReceiverJitter.

Section ReceiverProps.
Context {O : Origin} {AES_KEY : Type}.
Variable AES_set_encrypt_key : list Z -> option AES_KEY.
Variable AES_ctr128_encrypt : AES_KEY -> ctr_state -> list Z -> list Z * ctr_state.
Variable exp : double -> double.
Hypothesis ctr_length : forall k st l, length (AES_ctr128_encrypt k st l).1 = length l.
Hypothesis ctr_stream : forall k st a b,
  AES_ctr128_encrypt k st (a ++ b)
  = let '(x, st1) := AES_ctr128_encrypt k st a in
    let '(y, st2) := AES_ctr128_encrypt k st1 b in (x ++ y, st2).
Hypothesis ctr_involutive : forall k st l,
  bytes_ok l -> (AES_ctr128_encrypt k st (AES_ctr128_encrypt k st l).1).1 = l.
Implicit Types s : ReceiverImpl (AES_KEY := AES_KEY).

(** * Runs *)

(** The size of the buffer [ConsumeNextFrame] needs. *)
Definition next_size s : Z :=
  match entry_of (pending_frames_ s) (last_frame_consumed_ s + 1) with
  | Some e => zlen (frame_payload (collector e))
  | None => 0
  end.

(** What the client and the alarms do at the time [now]; a frame when it is
    consumed. *)
Inductive client_step (now : Z) s : option EncodedFrame -> ReceiverImpl -> Prop :=
  | step_consumer c s' : SetConsumer now c s = Ret s' -> client_step now s None s'
  | step_processing t : client_step now s None (SetPlayerProcessingTime t s)
  | step_key_frame s' : RequestKeyFrame now s = Ret s' -> client_step now s None s'
  | step_playout f ts t e s' :
      0 <= f <= last_frame_consumed_ s ->
      ReportPlayoutEvent f ts t s = Ret (e, s') -> client_step now s None s'
  | step_advance o s' : AdvanceToNextFrame now s = Ret (o, s') -> client_step now s None s'
  | step_consume frame s' :
      last_frame_consumed_ s < checkpoint_frame s ->
      ConsumeNextFrame AES_ctr128_encrypt now (next_size s) s = Ret (frame, s') ->
      client_step now s (Some frame) s'
  | step_rtcp_alarm i s' :
      (i < length (posted (rtcp_alarm_ s)))%nat ->
      rtcp_alarm_fires now i s = Ret s' -> client_step now s None s'
  | step_consumption_alarm i s' :
      (i < length (posted (consumption_alarm_ s)))%nat ->
      consumption_alarm_fires now i s = Ret s' -> client_step now s None s'.

(** One operation, or a packet. *)
Inductive recv_step (now : Z) s : option EncodedFrame -> ReceiverImpl -> Prop :=
  | step_rtp arrival packet s' :
      rtp_ready packet s -> OnReceivedRtpPacket now arrival packet s = Ret s' -> recv_step now s None s'
  | step_rtcp arrival packet s' :
      rtcp_ready arrival packet s ->
      Receiver.OnReceivedRtcpPacket exp now arrival packet s = Ret s' -> recv_step now s None s'
  | step_client o s' : client_step now s o s' -> recv_step now s o s'.

(** The runs of a receiver and the frames consumed. *)
Inductive recv_runs (config : SessionConfig) : list EncodedFrame -> ReceiverImpl -> Prop :=
  | runs_start size now epoch s :
      config_ok config -> is_Some (AES_set_encrypt_key (config_aes_secret_key config)) ->
      1452 <= size < 2 ^ 18 ->
      new_ReceiverImpl AES_set_encrypt_key size now epoch config = Ret s -> recv_runs config [] s
  | runs_step frames s now o s' :
      recv_runs config frames s -> recv_step now s o s' -> recv_runs config (frames ++ option_list o) s'.

(** The same with conditions on the packets only: an RTP packet arrives less
    than 2^30 ticks from the one before, and sender reports arrive in the order
    of their arrival times. *)
Definition rtcp_in_order (arrival : Z) (packet : list Z) s : Prop :=
  bytes_ok packet /\ kNullTime < arrival /\ last_update_time_ (smoothed_clock_offset_ s) <= arrival.

Inductive timely_step (now : Z) s : option EncodedFrame -> ReceiverImpl -> Prop :=
  | timely_rtp arrival packet s' :
      rtp_ready packet s -> arrives_soon arrival (stats_tracker_ s) ->
      OnReceivedRtpPacket now arrival packet s = Ret s' -> timely_step now s None s'
  | timely_rtcp arrival packet s' :
      rtcp_in_order arrival packet s ->
      Receiver.OnReceivedRtcpPacket exp now arrival packet s = Ret s' -> timely_step now s None s'
  | timely_client o s' : client_step now s o s' -> timely_step now s o s'.

Inductive timely_runs (config : SessionConfig) : list EncodedFrame -> ReceiverImpl -> Prop :=
  | timely_start size now epoch s :
      config_ok config -> config_rtp_timebase config < 2 ^ 31 ->
      is_Some (AES_set_encrypt_key (config_aes_secret_key config)) -> 1452 <= size < 2 ^ 18 ->
      new_ReceiverImpl AES_set_encrypt_key size now epoch config = Ret s -> timely_runs config [] s
  | timely_snoc frames s now o s' :
      timely_runs config frames s -> timely_step now s o s' -> timely_runs config (frames ++ option_list o) s'.

(** * Where a consumed frame comes from *)

(** The frame is the decryption of the payloads of its packets, in order, and
    its metadata are those of the first. *)
Definition from_packets (crypto : FrameCrypto (AES_KEY := AES_KEY)) (frame : EncodedFrame) : Prop :=
  exists parts first, head parts = Some first
    /\ (forall i part, parts !! i = Some part ->
          origin part /\ part_frame_id part = frame_id frame
          /\ packet_id part = Z.of_nat i /\ max_packet_id part + 1 = zlen parts)
    /\ data frame = plain_text AES_ctr128_encrypt crypto (frame_id frame) (concat (map payload parts))
    /\ frame = (metadata_of (frame_id frame) first)
         <| data := data frame |> <| reference_time := reference_time frame |>.

Lemma list_choice {A} (P : nat -> A -> Prop) n :
  (forall i, (i < n)%nat -> exists x, P i x) ->
  exists l, length l = n /\ forall i x, l !! i = Some x -> P i x.
Proof.
  induction n as [| n IH]; intros H; [by exists [] |].
  destruct IH as (l & Hl & Hp); [intros i Hi; apply H; lia |].
  destruct (H n) as [x Hx]; [lia |]. exists (l ++ [x]). rewrite length_app. split; [cbn; lia |].
  intros i y [Hi | [Hge Hi]]%lookup_app_Some; [by apply Hp |].
  apply list_lookup_singleton_Some in Hi as [Hi <-]. by replace i with n by lia.
Qed.

Lemma content_parts f c :
  collector_ok c -> content_ok origin f c -> is_complete c = true ->
  exists parts first, head parts = Some first
    /\ (forall i part, parts !! i = Some part ->
          origin part /\ part_frame_id part = f
          /\ packet_id part = Z.of_nat i /\ max_packet_id part + 1 = zlen parts)
    /\ frame_payload c = concat (map payload parts) /\ frame_ c = metadata_of f first.
Proof using.
  intros Hcol [Hcont _] Hc. pose proof (complete_has_first c Hcol Hc) as [p0 Hp0].
  destruct Hcol as [_ [[Hu _] | [Hm _]]].
  { unfold is_complete in Hc. by rewrite Hu in Hc. }
  unfold is_complete in Hc. apply Z.eqb_eq in Hc. rewrite Hc in Hm. symmetry in Hm.
  destruct (list_choice (fun i part => chunks c !! i = Some (Some (payload part)) /\ origin part
    /\ part_frame_id part = f /\ packet_id part = Z.of_nat i /\ max_packet_id part + 1 = zlen (chunks c)
    /\ (i = 0%nat -> frame_ c = metadata_of f part)) (length (chunks c))) as (parts & Hlen & Hparts).
  { intros i Hi. destruct (lookup_lt_is_Some_2 (chunks c) i Hi) as [o Ho].
    destruct (num_none_0 _ o Hm) as [p ->]; [by eapply list_elem_of_lookup_2 |].
    destruct (Hcont i p Ho) as (part & ? & ? & ? & ? & <- & ?). by exists part. }
  assert (zlen parts = zlen (chunks c)) as Hz by (unfold zlen; lia).
  destruct parts as [| first parts]; [apply lookup_lt_Some in Hp0; cbn in Hlen; lia |].
  exists (first :: parts), first. split; [done |]. split; [| split].
  - intros i part (_ & ? & ? & ? & ? & _)%Hparts. rewrite Hz. by split_and!.
  - unfold frame_payload. f_equal.
    change (payload_of <$> chunks c = payload <$> first :: parts). apply list_eq. intros i.
    rewrite !list_lookup_fmap. destruct ((first :: parts) !! i) as [part |] eqn:Hi.
    + destruct (Hparts i part Hi) as [-> _]. done.
    + apply lookup_ge_None in Hi. rewrite (lookup_ge_None_2 (chunks c)) by lia. done.
  - by destruct (Hparts 0%nat first eq_refl) as (_ & _ & _ & _ & _ & H); apply H.
Qed.

(** Every operation keeps the invariant; a frame consumed is the next one. *)
Lemma client_step_ok now s o s' :
  recv_ok s -> client_step now s o s' ->
  recv_ok s' /\ follows s s'
  /\ match o with
     | Some frame => last_frame_consumed_ s' = last_frame_consumed_ s + 1
         /\ frame_id frame = last_frame_consumed_ s + 1 /\ from_packets (crypto_ s) frame
     | None => True
     end.
Proof using ctr_length ctr_stream ctr_involutive.
  intros Hok Hstep. destruct Hstep as [c s' E | t | s' E
    | f ts t e s' Hf E | o s' E | frame s' Hlt E | i s' Hi E | i s' Hi E].
  - destruct (SetConsumer_ok now c s Hok) as (s1 & E1 & ? & ? & _). rewrite E in E1. by injection E1 as ->.
  - by destruct (SetPlayerProcessingTime_ok t s Hok).
  - destruct (RequestKeyFrame_ok now s Hok) as (s1 & E1 & ? & ? & _). rewrite E in E1. by injection E1 as ->.
  - destruct (ReportPlayoutEvent_ok f ts t s Hok Hf) as (s1 & E1 & ? & ? & _).
    rewrite E in E1. by injection E1 as _ ->.
  - destruct (AdvanceToNextFrame_ok now s Hok) as (o1 & s1 & E1 & ? & ? & _).
    rewrite E in E1. by injection E1 as _ ->.
  - destruct (entry_exists _ _ _ _ (last_frame_consumed_ s + 1) (recv_ring _ Hok)) as [e He].
    destruct (ConsumeNextFrame_ok AES_ctr128_encrypt ctr_length ctr_stream ctr_involutive now s e Hok Hlt He)
      as (capture & delay & s1 & E1 & Hcap & Hd & Hok1 & Hf1 & Hlc).
    unfold next_size in E. rewrite He, E1 in E. injection E as <- <-.
    pose proof (ring_window _ _ _ _ (recv_ring _ Hok)) as ((? & ?) & (? & ?) & ?).
    destruct (ring_entries _ _ _ _ (recv_ring _ Hok) (last_frame_consumed_ s + 1) e)
      as (Hcol & Hfid & _ & Hcont); [lia | done |].
    split; [done |]. split; [done |]. split; [done |]. split; [exact Hfid |].
    destruct (content_parts _ _ Hcol Hcont) as (parts & first & Hhead & Hparts & Hpay & Hmeta).
    { eapply ring_complete; [apply Hok | | done]. lia. }
    exists parts, first. unfold consumed_frame. cbn [frame_id data reference_time update CopyMetadataTo].
    rewrite Hfid. split; [done |]. split; [done |]. split; [by rewrite Hpay |].
    by rewrite Hmeta.
  - destruct (rtcp_alarm_fires_ok now i s Hok Hi) as (s1 & E1 & ? & ? & _). rewrite E in E1. by injection E1 as ->.
  - destruct (consumption_alarm_fires_ok now i s Hok Hi) as (s1 & E1 & ? & ?). rewrite E in E1. by injection E1 as ->.
Qed.

Lemma recv_step_ok now s o s' :
  recv_ok s -> recv_step now s o s' ->
  recv_ok s' /\ advances s s'
  /\ match o with
     | Some frame => last_frame_consumed_ s' = last_frame_consumed_ s + 1
         /\ frame_id frame = last_frame_consumed_ s + 1 /\ from_packets (crypto_ s) frame
     | None => True
     end.
Proof using ctr_length ctr_stream ctr_involutive.
  intros Hok Hstep. destruct Hstep as [arrival packet s' Hr E | arrival packet s' Hr E | o s' Hc].
  - destruct (OnReceivedRtpPacket_ok now arrival packet s Hok Hr) as (s1 & E1 & ? & ? & _).
    rewrite E in E1. by injection E1 as ->.
  - destruct (receiver_OnReceivedRtcpPacket_ok exp now arrival packet s Hok Hr) as (s1 & E1 & ? & ? & _).
    rewrite E in E1. by injection E1 as ->.
  - destruct (client_step_ok now s o s' Hok Hc) as (? & ? & ?). split; [done |]. split; [by apply follows_advances | done].
Qed.

Lemma recv_runs_ok config frames s :
  recv_runs config frames s ->
  recv_ok s /\ config_ s = config
  /\ new_FrameCrypto AES_set_encrypt_key (config_aes_secret_key config) (config_aes_iv_mask config)
     = Ret (crypto_ s)
  /\ StronglySorted (fun a b => frame_id a < frame_id b) frames
  /\ Forall (fun f => 0 <= frame_id f <= last_frame_consumed_ s /\ from_packets (crypto_ s) f) frames.
Proof using ctr_length ctr_stream ctr_involutive.
  induction 1 as [size now epoch s Hc Hkey Hsize E | frames s now o s' _ (Hok & Hcfg & Hkey & Hs & Hf) Hstep].
  - destruct (new_ReceiverImpl_ok AES_set_encrypt_key size now epoch config Hc Hkey Hsize)
      as (s1 & E1 & Hok & Hcfg & Hcr & _). rewrite E in E1. injection E1 as ->.
    split; [done |]. split; [done |]. split; [done |]. split; [apply SSorted_nil | apply Forall_nil_2].
  - destruct (recv_step_ok now s o s' Hok Hstep) as (Hok' & Hfol & Ho).
    pose proof (ring_window _ _ _ _ (recv_ring _ Hok)) as ((? & ?) & _).
    pose proof (advances_consumed _ _ Hfol) as Hlc. pose proof (advances_crypto _ _ Hfol) as Hcr.
    split; [done |]. split; [by rewrite (advances_config _ _ Hfol) |]. split; [by rewrite Hcr |].
    destruct o as [frame |]; cbn [option_list]; rewrite ?app_nil_r.
    + destruct Ho as (Hlc' & Hid & Hfrom). split.
      * apply StronglySorted_app_2; [| done | by apply SSorted_cons; [apply SSorted_nil | apply Forall_nil_2]].
        intros x y Hx ->%list_elem_of_singleton. apply (proj1 (Forall_forall _ _) Hf) in Hx as [Hx _]. lia.
      * apply Forall_app_2; [| apply Forall_singleton; split; [lia | by rewrite Hcr]].
        eapply Forall_impl; [exact Hf |]. intros x [Hx Hp]. rewrite Hcr. split; [lia | done].
    + split; [done |]. eapply Forall_impl; [exact Hf |]. intros x [Hx Hp]. rewrite Hcr. split; [lia | done].
Qed.

(** * The jitter *)

Abbreviation jitter_fine s := (jitter_ok (rtp_parser_ s) (stats_tracker_ s)).

(** A packet that arrives soon keeps the jitter in bounds, and the report of a
    jitter in bounds is possible. *)
Lemma timely_step_ok now s o s' :
  recv_ok s -> jitter_fine s -> timely_step now s o s' -> recv_step now s o s' /\ jitter_fine s'.
Proof using ctr_length ctr_stream ctr_involutive.
  intros Hok Hj Hstep. destruct Hstep as [arrival packet s' Hr Hsoon E | arrival packet s' (Hb & Hn & Ha) E | o s' Hc].
  - split; [by eapply step_rtp |].
    destruct (OnReceivedRtpPacket_ok now arrival packet s Hok Hr) as (s1 & E1 & _ & _ & _ & o & Ep & Ht).
    rewrite E in E1. injection E1 as <-. destruct Hr as (Hbytes & _).
    destruct (RtpPacketParser_Parse_ok (rtp_parser_ s) packet Hbytes) as (o' & q & Ep' & Hq). rewrite Ep in Ep'.
    injection Ep' as <- <-. destruct o as [part |].
    + destruct Hq as (_ & _ & _ & _ & _ & Hlast & Hnear). by eapply OnReceivedValidRtpPacket_jitter.
    + cbn in Hq. by rewrite Hq, Ht.
  - assert (rtcp_ready arrival packet s) as Hr by (split_and!; try done; by eapply jitter_ok_fits).
    split; [by eapply step_rtcp |].
    destruct (receiver_OnReceivedRtcpPacket_ok exp now arrival packet s Hok Hr) as (s1 & E1 & _ & _ & _ & Hp & Ht).
    rewrite E in E1. injection E1 as <-. rewrite Hp. destruct Ht as [-> | [r ->]]; [done |].
    by apply PopulateNextReport_jitter.
  - split; [by apply step_client |]. destruct (client_step_ok now s o s' Hok Hc) as (_ & Hf & _).
    by rewrite (follows_parser _ _ Hf), (follows_tracker _ _ Hf).
Qed.

Lemma timely_runs_ok config frames s :
  timely_runs config frames s -> recv_runs config frames s /\ jitter_fine s.
Proof using ctr_length ctr_stream ctr_involutive.
  induction 1 as [size now epoch s Hc Htb Hkey Hsize E | frames s now o s' _ (Hruns & Hj) Hstep].
  - split; [by eapply runs_start |]. destruct Hc as (_ & _ & _ & _ & Hpos & _).
    unfold new_ReceiverImpl in E. inv_outcome.
    constructor; cbn; [lia | unfold kMaxJitter; lia | split; [done | by left]].
  - destruct (timely_step_ok now s o s' (proj1 (recv_runs_ok _ _ _ Hruns)) Hj Hstep) as [Hs Hj'].
    split; [| done]. by eapply runs_step.
Qed.

(** * The playout delay in effect *)

(** The delay of the last change as of [id] or before. *)
Definition delay_change (id : Z) (changes : list (Z * Z)) : option (Z * Z) :=
  last (filter (fun e => e.1 <= id) changes).

Lemma list_find_reverse {A} (P : A -> Prop) `{!forall x, Decision (P x)} l :
  snd <$> list_find P (reverse l) = last (filter P l).
Proof.
  induction l as [| x l IH] using rev_ind; [done |]. rewrite reverse_snoc, filter_app, filter_cons.
  cbn [list_find]. destruct (decide (P x)); [by rewrite filter_nil, last_snoc |].
  rewrite filter_nil, app_nil_r, <- IH. by destruct (list_find P (reverse l)) as [[? ?] |].
Qed.

Lemma Resolve_change id s :
  recv_ok s -> last_frame_consumed_ s < id ->
  ResolveTargetPlayoutDelay id s
  = match delay_change id (playout_delay_changes_ s) with Some e => Ret e.2 | None => Fault CheckFailed end.
Proof using.
  intros Hok Hid. pose proof (ring_window _ _ _ _ (recv_ring _ Hok)) as ((? & ?) & _).
  unfold ResolveTargetPlayoutDelay, delay_change. change kMaxUnackedFrames with 120. change first_frame_id with 0.
  rewrite OSP_CHECK_leb by (case_bool; lia). cbn [mbind outcome_bind].
  rewrite <- (list_find_reverse (fun e : Z * Z => e.1 <= id)).
  by destruct (list_find _ _) as [[i e] |].
Qed.

Lemma insert_delay_split f d l :
  StronglySorted by_frame l ->
  exists l1 l2, l = l1 ++ l2 /\ insert_delay f d l = l1 ++ (f, d) :: l2
    /\ Forall (fun e => e.1 <= f) l1 /\ Forall (fun e => f < e.1) l2.
Proof.
  induction 1 as [| e l Hl IH He]; [by exists [], [] |]. cbn [insert_delay].
  destruct (Z.ltb_spec f e.1) as [Hlt | Hge].
  - exists [], (e :: l). split; [done |]. split; [done |]. split; [done |]. apply Forall_cons. split; [done |].
    eapply Forall_impl; [exact He |]. cbn. lia.
  - destruct IH as (l1 & l2 & -> & -> & H1 & H2). exists (e :: l1), l2. by repeat split; try constructor.
Qed.

Lemma filter_none {A} (P : A -> Prop) `{!forall x, Decision (P x)} l :
  filter P l = [] <-> Forall (fun x => ~ P x) l.
Proof.
  induction l as [| x l IH]; [by rewrite filter_nil |].
  rewrite filter_cons, Forall_cons, <- IH. by destruct (decide (P x)); [split; [| intros []] | split; [| intros []]].
Qed.

Lemma delay_change_insert f d id l :
  StronglySorted by_frame l ->
  delay_change id (insert_delay f d l)
  = if bool_decide (f <= id /\ Forall (fun e => f < e.1 -> id < e.1) l) then Some (f, d) else delay_change id l.
Proof.
  intros Hs. destruct (insert_delay_split f d l Hs) as (l1 & l2 & -> & -> & H1 & H2). unfold delay_change.
  rewrite !filter_app, !last_app.
  assert (filter (fun e => e.1 <= id) l2 = [] <-> Forall (fun e => id < e.1) l2) as Hnil.
  { rewrite filter_none. apply Forall_iff. intros x. lia. }
  assert (Forall (fun e => f < e.1 -> id < e.1) (l1 ++ l2) <-> Forall (fun e => id < e.1) l2) as Hiff.
  { rewrite Forall_app. split.
    - intros [_ H]. rewrite Forall_forall in *. intros x Hx. by apply H, H2.
    - intros H. split; [| eapply Forall_impl; [exact H | done]]. eapply Forall_impl; [exact H1 |]. cbn. lia. }
  destruct (decide (f <= id)) as [Hf | Hf].
  2: { rewrite bool_decide_eq_false_2 by tauto. by rewrite filter_cons_False by (cbn; lia). }
  rewrite filter_cons_True by (cbn; lia).
  case_bool_decide as Hb.
  - destruct Hb as [_ Hb%Hiff%Hnil]. by rewrite Hb.
  - destruct (filter (fun e => e.1 <= id) l2) as [| e k] eqn:E; [by destruct Hb; split; [| apply Hiff, Hnil] |].
    change ((f, d) :: e :: k) with ([(f, d)] ++ e :: k). rewrite last_app.
    by destruct (last (e :: k)) eqn:El; [| apply last_None in El].
Qed.

Lemma delay_change_prune next id l :
  l <> [] -> next <= id -> delay_change id (prune_delays next l) = delay_change id l.
Proof.
  intros Hl Hid. destruct (prune_delays_head next l Hl) as (e & l' & E & [-> | He]); [done |].
  unfold delay_change. pose proof E as E'. unfold prune_delays in E'.
  match type of E' with drop ?k l = _ => rewrite <- (take_drop k l) at 2; rewrite E' end.
  rewrite E, filter_app, last_app, filter_cons_True by lia.
  by destruct (last (e :: _)) eqn:El; [| apply last_None in El].
Qed.

(** * Claims *)

(** C3 A receiver never fails: whatever packets arrive, whatever its client and
    its alarms do, and in whatever order, no check fails and no access is out of
    bounds.  What it relies on: RTP packets with a valid header have arrived less
    than 2^30 ticks from the one before (three hours at 90 kHz; then the jitter it
    reports has 32 bits); the arrival times of sender reports do not decrease (the
    clock is monotonic); no more than 2^61 frames were consumed; the client
    reports the playout of frames that were consumed or skipped, and consumes a
    frame that is complete, with a buffer of its size.  The packets may be limited
    to those of a sender ([origin]) or not. *)
Theorem receiver_never_aborts config frames s now :
  timely_runs config frames s ->
  (forall arrival packet, rtp_ready packet s -> returns (OnReceivedRtpPacket now arrival packet s))
  /\ (forall arrival packet, rtcp_in_order arrival packet s ->
        returns (Receiver.OnReceivedRtcpPacket exp now arrival packet s))
  /\ returns (RequestKeyFrame now s) /\ (forall c, returns (SetConsumer now c s))
  /\ (forall f ts t, 0 <= f <= last_frame_consumed_ s -> returns (ReportPlayoutEvent f ts t s))
  /\ returns (AdvanceToNextFrame now s)
  /\ (last_frame_consumed_ s < checkpoint_frame s ->
        returns (ConsumeNextFrame AES_ctr128_encrypt now (next_size s) s))
  /\ (forall i, (i < length (posted (rtcp_alarm_ s)))%nat -> returns (rtcp_alarm_fires now i s))
  /\ (forall i, (i < length (posted (consumption_alarm_ s)))%nat -> returns (consumption_alarm_fires now i s)).
Proof using ctr_length ctr_stream ctr_involutive.
  intros [(Hok & _)%recv_runs_ok Hj]%timely_runs_ok.
  split; [intros arrival packet Hr; destruct (OnReceivedRtpPacket_ok now arrival packet s Hok Hr) as (s' & E & _); by exists s' |].
  split; [intros arrival packet (Hb & Hn & Ha); pose proof (conj Hb (conj Hn (conj Ha (jitter_ok_fits _ _ Hj)))) as Hr; destruct (receiver_OnReceivedRtcpPacket_ok exp now arrival packet s Hok Hr) as (s' & E & _); by exists s' |].
  split; [destruct (RequestKeyFrame_ok now s Hok) as (s' & E & _); by exists s' |].
  split; [intros c; destruct (SetConsumer_ok now c s Hok) as (s' & E & _); by exists s' |].
  split; [intros f ts t Hf; destruct (ReportPlayoutEvent_ok f ts t s Hok Hf) as (s' & E & _); by eexists |].
  split; [destruct (AdvanceToNextFrame_ok now s Hok) as (o & s' & E & _); by eexists |].
  split; [| split; intros i Hi;
    [destruct (rtcp_alarm_fires_ok now i s Hok Hi) as (s' & E & _)
    | destruct (consumption_alarm_fires_ok now i s Hok Hi) as (s' & E & _)]; by exists s'].
  intros Hlt. destruct (entry_exists _ _ _ _ (last_frame_consumed_ s + 1) (recv_ring _ Hok)) as [e He].
  destruct (ConsumeNextFrame_ok AES_ctr128_encrypt ctr_length ctr_stream ctr_involutive now s e Hok Hlt He)
    as (capture & delay & s1 & E & _).
  unfold next_size. rewrite He, E. by eexists.
Qed.


(** Feedback is exact.  What [SendRtcp] puts in its packet is the checkpoint,
    an ACK for every complete frame after it, and a NACK for every packet that is
    missing of the other frames expected, or one for the whole frame when no
    packet of it arrived; exactly one packet is sent, and the next feedback is
    scheduled 500 ms later, also when packets are missing. *)
Theorem feedback_is_exact config frames s now :
  recv_runs config frames s ->
  exists s' nacks acks logs packet, SendRtcp now s = Ret s'
    /\ calls_ s' = calls_ s ++ [CallSendRtcpPacket packet]
    /\ exact_feedback (pending_frames_ s) (checkpoint_frame s) (latest_frame_expected_ s) nacks acks
    /\ BuildPacket (rtcp_session_ s) now
         ((rtcp_builder_ s) <| nacks_for_next_packet := nacks |> <| acks_for_next_packet := acks |>
            <| logs_for_next_packet := logs |>) (new_buffer (rtcp_buffer_size_ s))
       = Ret (rtcp_builder_ s', packet)
    /\ checkpoint_frame s' = checkpoint_frame s
    /\ pending (rtcp_alarm_ s') = Some (tt, now + kReportInterval * 1000).
Proof using ctr_length ctr_stream ctr_involutive.
  intros ([Hr _ Hb] & _)%recv_runs_ok. destruct (SendRtcp_ok now s Hr Hb) as (s' & E & Hs).
  destruct (sent_packet _ _ _ Hs) as (nacks & acks & logs & packet & Hc & Hx & Hbuild & _).
  exists s', nacks, acks, logs, packet. do 4 (split; [done |]).
  split; [apply (sent_builder _ _ _ Hs) |]. destruct (sent_alarm _ _ _ Hs) as [_ ->].
  unfold kReportInterval. do 2 f_equal. lia.
Qed.

(** C9 The sender learns exactly what the receiver has.  The packet that
    [SendRtcp] sends, parsed by the sender of the session, delivers the
    checkpoint with the playout delay, an ACK for every complete frame beyond it
    and a NACK for every missing packet, when at most 255 NACKs are due (and the
    receiver's event logs are off). *)
Theorem feedback_reaches_sender config frames s now ss max p :
  recv_runs config frames s -> config_are_receiver_event_logs_enabled config = false ->
  same_session (rtcp_session_ s) ss -> max - 256 < checkpoint_frame s <= max ->
  let t := received_time (rtcp_session_ s) ss now in
  t <> kNullTimePoint -> latest_receiver_timestamp p = kNullTimePoint \/ latest_receiver_timestamp p <= t ->
  exists s' nacks acks packet, SendRtcp now s = Ret s'
    /\ calls_ s' = calls_ s ++ [CallSendRtcpPacket packet]
    /\ exact_feedback (pending_frames_ s) (checkpoint_frame s) (latest_frame_expected_ s) nacks acks
    /\ (zlen nacks <= 255 ->
          Parse ss packet max p
          = Ret (true, p <| latest_receiver_timestamp := t |>,
                 feedback_events ss (rtcp_builder_ s) t nacks acks)).
Proof using ctr_length ctr_stream ctr_involutive.
  intros (Hok & Hcfg & _)%recv_runs_ok Hlogs Hses Hcp t Ht Hlatest. pose proof Hok as [Hr Hg Hb].
  pose proof (ring_window _ _ _ _ Hr) as ((? & ?) & (? & ?) & ?).
  destruct (SendRtcp_ok now s Hr Hb) as (s' & E & Hs).
  destruct (sent_packet _ _ _ Hs) as (nacks & acks & logs & packet & Hc & Hx & Hbuild & Hdis & _).
  exists s', nacks, acks, packet. do 3 (split; [done |]). intros Hfew.
  assert (logs = []) as ->.
  { rewrite Hdis by (unfold logs_enabled; by rewrite Hcfg). apply Hb. }
  set (b := (rtcp_builder_ s) <| nacks_for_next_packet := nacks |> <| acks_for_next_packet := acks |>
              <| logs_for_next_packet := [] |>) in *.
  pose proof Hx as (_ & _ & Hnx & Hax).
  assert (expected_nacks b = nacks) as En
    by (apply filter_all, Forall_forall; intros x [Hx' _]%Hnx; unfold b; cbn; fold (checkpoint_frame s); lia).
  assert (expected_acks b = acks) as Ea.
  { apply filter_all, Forall_forall. intros f [Hf (e & He & Hcomp)]%Hax. unfold b; cbn.
    fold (checkpoint_frame s). destruct (decide (f = checkpoint_frame s + 1)) as [-> |]; [| lia].
    rewrite (Hg e) in Hcomp; [done | lia | done]. }
  destruct (BuildPacket_Parse (rtcp_session_ s) ss b (rtcp_buffer_size_ s) now max p Hses)
    as (b' & packet' & nacks' & acks' & Hbuild' & _ & _ & _ & Hfit & Hparse);
    [by eapply exact_feedback_wf; [| apply Hb |] | apply Hb | done | destruct (base_size _ Hb); lia | lia | done | done | done |].
  rewrite Hbuild in Hbuild'. injection Hbuild' as _ <-.
  destruct (Hfit 4) as [-> ->]; [| by rewrite Hparse, En, Ea].
  unfold feedback_fits. rewrite En. destruct (base_size _ Hb). split; [done |]. split; [lia |].
  split; [lia |]. split; [lia |]. apply Forall_forall. intros f [Hf _]%Hax.
  change (f < checkpoint_frame s + 2 + 8 * (2 + 4 * 4)). lia.
Qed.

(** C29 Frames are consumed in order, each at most once, and intact: the data of
    a frame are the decryption of the payloads of the packets received for it,
    one for each packet the frame has, in order, and its metadata are those of
    the first packet. *)
Theorem frames_consumed_in_order config frames s :
  recv_runs config frames s ->
  StronglySorted (fun a b => frame_id a < frame_id b) frames
  /\ Forall (from_packets (crypto_ s)) frames.
Proof using ctr_length ctr_stream ctr_involutive.
  intros (_ & _ & _ & Hs & Hf)%recv_runs_ok. split; [done |].
  eapply Forall_impl; [exact Hf |]. by intros x [_ ?].
Qed.

(** Which frame is next.  [AdvanceToNextFrame] finds the next frame if it is
    complete; otherwise it skips to the first complete frame that does not depend
    on another, but only over frames that are late for their playout, which it
    drops; it then returns the size of the frame's payload.  When it returns
    nothing, each frame that is ready is behind one that is not yet late (or
    whose time is not known), and nothing was dropped. *)
Theorem only_late_frames_are_skipped config frames s now :
  recv_runs config frames s ->
  exists o s', AdvanceToNextFrame now s = Ret (o, s') /\ scan_result now s o s'
    /\ (last_frame_consumed_ s < checkpoint_frame s -> o = Some (next_size s) /\ s' = s).
Proof using ctr_length ctr_stream ctr_involutive.
  intros (Hok & _)%recv_runs_ok.
  destruct (AdvanceToNextFrame_ok now s Hok) as (o & s' & E & _ & _ & Hres).
  exists o, s'. split; [done |]. split; [done |]. intros Hlt. pose proof Hok as [Hr _ _].
  pose proof (ring_window _ _ _ _ Hr) as ((? & ?) & (? & ?) & ?).
  destruct (entry_exists _ _ _ _ (last_frame_consumed_ s + 1) Hr) as [e He].
  assert (is_complete (collector e) = true) as Hc by (eapply ring_complete; [done | | done]; lia).
  unfold AdvanceToNextFrame, next_size in *. rewrite He.
  assert (exists n, Z.to_nat (latest_frame_expected_ s - last_frame_consumed_ s) = S n) as [n Hn]
    by (exists (pred (Z.to_nat (latest_frame_expected_ s - last_frame_consumed_ s))); lia).
  rewrite Hn in E. cbn [advance_loop] in E. unfold GetQueueEntry in E.
  change (pending_frames_ s !! queue_index (last_frame_consumed_ s + 1))
    with (entry_of (pending_frames_ s) (last_frame_consumed_ s + 1)) in E.
  destruct (complete_payload _ Hc) as (Hsize & _ & Hpeek).
  rewrite He in E. cbn [in_bounds mbind outcome_bind] in E. rewrite Hc, Hpeek, Z.eqb_refl in E.
  cbn [mbind outcome_bind orb] in E. rewrite Hsize in E. cbn [mbind outcome_bind] in E.
  by injection E as <- <-.
Qed.

(** A change of the playout delay takes effect with the frame that announced
    it, and until the next announced change: from then on it is the delay of
    every frame from that one on, and no other frame's delay changes. *)
Theorem announced_delay_applies config frames s f delay :
  recv_runs config frames s -> checkpoint_frame s < f -> 0 < delay <= 65535 ->
  exists s', RecordNewTargetPlayoutDelay f delay s = Ret s'
    /\ forall id, last_frame_consumed_ s < id ->
       ResolveTargetPlayoutDelay id s'
       = if bool_decide (f <= id /\ Forall (fun e => f < e.1 -> id < e.1) (playout_delay_changes_ s))
         then Ret delay else ResolveTargetPlayoutDelay id s.
Proof using ctr_length ctr_stream ctr_involutive.
  intros (Hok & _)%recv_runs_ok Hf Hd. pose proof Hok as [Hr Hg Hb].
  pose proof (ring_window _ _ _ _ Hr) as ((? & ?) & (? & ?) & ?).
  destruct (RecordNewTargetPlayoutDelay_ok f delay s Hb Hf Hd) as (changes & -> & -> & Hex & Hso & Hall).
  eexists. split; [reflexivity |]. intros id Hid.
  rewrite !Resolve_change; [| done | done | | done].
  2: { constructor; [exact Hr | exact Hg |]. destruct Hb. by constructor. }
  cbn [playout_delay_changes_ update].
  rewrite delay_change_insert by (apply prune_delays_sorted, Hb).
  assert (playout_delay_changes_ s <> []) as Hne
    by (pose proof (base_known_delay _ Hb) as Hx; intros E; rewrite E in Hx; inversion Hx).
  rewrite delay_change_prune by (done || lia).
  assert (Forall (fun e => f < e.1 -> id < e.1) (prune_delays (last_frame_consumed_ s - 119) (playout_delay_changes_ s))
    <-> Forall (fun e => f < e.1 -> id < e.1) (playout_delay_changes_ s)) as Hiff.
  { split; [| apply prune_delays_Forall].
    destruct (prune_delays_head (last_frame_consumed_ s - 119) (playout_delay_changes_ s) Hne) as (e & l & E & [-> | He]);
      [done |].
    intros Hp. pose proof (base_sorted _ Hb) as Hsort. rewrite E in Hp. unfold prune_delays in E.
    match type of E with drop ?k ?l = _ => rewrite <- (take_drop k l) in Hsort |- *; rewrite E in Hsort |- * end.
    apply Forall_app. split; [| done]. apply Forall_forall. intros x Hx Hfx.
    pose proof (StronglySorted_app_1_elem_of _ _ _ x e Hsort Hx ltac:(by left)) as Hle. cbn in Hle. lia. }
  rewrite (bool_decide_ext _ _ (and_iff_compat_l _ Hiff)).
  by case_bool_decide.
Qed.
End ReceiverProps.
