(* ===== verification/ReceiverStream.v ===== *)
(** A stream from its sender to the client of its receiver: the frames a sender
    encrypts and cuts into packets are the frames the receiver's client
    consumes. *)

From S2P Require Import Prelude Numeric Wire Ids NtpTime RtpDefines RtcpParser RtcpRoundTrip RtcpCommon.
From S2P Require Import SenderReport RtcpBuilder Rtp FrameCollector FrameCrypto StatsTracker.
From S2P Require Import Alarm ClockDrift Receiver ReceiverInv ReceiverFeedback ReceiverSteps ReceiverConsume ReceiverProps.

Section Stream.
Context {AES_KEY : Type}.
Variable AES_set_encrypt_key : list Z -> option AES_KEY.
Variable AES_ctr128_encrypt : AES_KEY -> ctr_state -> list Z -> list Z * ctr_state.
Variable exp : double -> double.
Hypothesis ctr_length : forall k st l, length (AES_ctr128_encrypt k st l).1 = length l.
Hypothesis ctr_stream : forall k st a b,
  AES_ctr128_encrypt k st (a ++ b)
  = let '(x, st1) := AES_ctr128_encrypt k st a in
    let '(y, st2) := AES_ctr128_encrypt k st1 b in (x ++ y, st2).
Hypothesis ctr_involutive : forall k st l,
  bytes_ok l -> (AES_ctr128_encrypt k st (AES_ctr128_encrypt k st l).1).1 = l.

(** The packets a sender makes of the frames of a stream, as the receiver's
    parser reads them; the sequence number differs each time a packet is sent. *)
Definition stream_packets (p : RtpPacketizer) (crypto : FrameCrypto (AES_KEY := AES_KEY))
    (stream : list EncodedFrame) : Origin := fun part =>
  exists frame encrypted i seq, frame ∈ stream
    /\ Encrypt AES_ctr128_encrypt crypto frame = Ret encrypted
    /\ 0 <= i < ComputeNumberOfPackets p encrypted
    /\ part = expected_part (p <| next_sequence_number := seq |>) encrypted i.

(** A frame that can be sent, whose dependency agrees with its reference. *)
Definition stream_frame_wf (p : RtpPacketizer) (frame : EncodedFrame) : Prop :=
  frame_wf p frame /\ is_null (frame_id frame) = false /\ bytes_ok (data frame)
  /\ (dependency frame = kKeyFrame
      \/ dependency frame = (if frame_id frame =? referenced_frame_id frame then kIndependent else kDependent)).

(** What arrives of a frame: not its reference time, nor when it was captured. *)
Definition same_content (sent received : EncodedFrame) : Prop :=
  frame_id received = frame_id sent /\ dependency received = dependency sent
  /\ referenced_frame_id received = referenced_frame_id sent
  /\ rtp_timestamp received = rtp_timestamp sent
  /\ new_playout_delay received = Z.max 0 (new_playout_delay sent)
  /\ data received = data sent.

Lemma Encrypt_plain_text crypto frame :
  is_null (frame_id frame) = false ->
  Encrypt AES_ctr128_encrypt crypto frame
  = Ret (frame <| data := plain_text AES_ctr128_encrypt crypto (frame_id frame) (data frame) |>).
Proof using ctr_length ctr_stream ctr_involutive.
  intros Hid. unfold Encrypt, plain_text.
  pose proof (Crypt_concat _ ctr_length ctr_stream ctr_involutive crypto (frame_id frame) [data frame] Hid ltac:(done)) as H.
  cbn [concat] in H. rewrite app_nil_r in H. by rewrite H.
Qed.

Lemma part_dependency_expected p frame enc seq :
  (dependency frame = kKeyFrame
   \/ dependency frame = (if frame_id frame =? referenced_frame_id frame then kIndependent else kDependent)) ->
  enc = frame <| data := data enc |> ->
  part_dependency (expected_part (p <| next_sequence_number := seq |>) enc 0) = dependency frame.
Proof.
  intros Hd ->. unfold part_dependency, expected_part. cbn.
  destruct Hd as [-> | ->]; [done |]. by destruct (_ =? _).
Qed.

(** The frames of a stream have different identifiers. *)
Lemma stream_unique (stream : list EncodedFrame) f g :
  NoDup (map frame_id stream) -> f ∈ stream -> g ∈ stream -> frame_id f = frame_id g -> f = g.
Proof.
  intros Hnd [i Hi]%list_elem_of_lookup_1 [j Hj]%list_elem_of_lookup_1 E.
  assert (i = j) as ->; [| congruence].
  apply (NoDup_lookup (map frame_id stream) i j (frame_id f) Hnd);
    change (map frame_id stream) with (frame_id <$> stream); rewrite list_lookup_fmap.
  - by rewrite Hi.
  - by rewrite Hj, E.
Qed.

Lemma from_stream_packets p crypto stream frame :
  packetizer_wf p -> NoDup (map frame_id stream) -> Forall (stream_frame_wf p) stream ->
  from_packets (O := stream_packets p crypto stream) AES_ctr128_encrypt crypto frame ->
  exists sent, sent ∈ stream /\ same_content sent frame.
Proof using ctr_length ctr_stream ctr_involutive.
  intros Hp Hnd Hwf (parts & first & Hhead & Hparts & Hdata & Hmeta).
  destruct parts as [| first' parts]; [done |]. injection Hhead as ->.
  destruct (Hparts 0%nat first eq_refl) as ((sent & encrypted & i & seq & Hin & Henc & Hi & ->) & Hfid & Hpid & Hmax).
  pose proof (proj1 (Forall_forall _ _) Hwf sent Hin) as ((Hlen & Hn & Hdelay) & Hnull & Hbytes & Hdep).
  rewrite (Encrypt_plain_text crypto sent Hnull) in Henc. 
  assert (encrypted = sent <| data := plain_text AES_ctr128_encrypt crypto (frame_id sent) (data sent) |>) as ->
    by congruence. clear Henc.
  set (enc := sent <| data := plain_text AES_ctr128_encrypt crypto (frame_id sent) (data sent) |>) in *.
  assert (i = 0) as -> by exact Hpid.
  assert (frame_id sent = frame_id frame) as Hid by exact Hfid.
  exists sent. split; [done |].
  assert (zlen (data enc) = zlen (data sent)) as Hze
    by (unfold enc, plain_text, zlen; cbn; by rewrite ctr_length).
  assert (ComputeNumberOfPackets p enc = ComputeNumberOfPackets p sent) as Hnum
    by (unfold ComputeNumberOfPackets; by rewrite Hze).
  set (all := expected_part (p <| next_sequence_number := seq |>) enc 0 :: parts) in *.
  assert (zlen all = ComputeNumberOfPackets p enc) as Hlen_all.
  { change (ComputeNumberOfPackets p enc - 1 + 1 = zlen all) in Hmax. lia. }
  assert (concat (map payload all) = data enc) as Hcat.
  { rewrite <- (concat_payloads p enc Hp) by (split; [lia |]; by rewrite Hnum). f_equal.
    change (payload <$> all = (fun j => payload (expected_part p enc j)) <$> seqZ 0 (ComputeNumberOfPackets p enc)).
    apply list_eq. intros j. rewrite !list_lookup_fmap.
    destruct (all !! j) as [part |] eqn:Hj.
    - destruct (Hparts j part Hj) as ((sent' & enc' & k & seq' & Hin' & Henc' & Hk & ->) & Hfid' & Hpid' & _).
      pose proof (proj1 (Forall_forall _ _) Hwf sent' Hin') as (_ & Hnull' & _).
      rewrite (Encrypt_plain_text crypto sent' Hnull') in Henc'. injection Henc' as <-.
      assert (sent' = sent) as -> by (apply (stream_unique stream); [done.. | cbn in Hfid'; congruence]).
      cbn in Hpid'. subst k. apply lookup_lt_Some in Hj. unfold zlen in Hlen_all.
      rewrite lookup_seqZ_lt by lia. cbn. rewrite Z.add_0_l. done.
    - apply lookup_ge_None in Hj. unfold zlen in Hlen_all. by rewrite lookup_seqZ_ge by lia. }
  rewrite Hcat in Hdata. rewrite Hmeta. unfold same_content. rewrite <- Hid. rewrite <- Hid in Hdata.
  cbn [frame_id dependency referenced_frame_id rtp_timestamp new_playout_delay data update metadata_of].
  split; [done |].
  split; [by apply part_dependency_expected |]. split; [done |]. split; [done |]. split.
  - unfold expected_part. cbn. unfold announces_delay. cbn. destruct (Z.ltb_spec 0 (new_playout_delay sent)); lia.
  - rewrite Hdata. unfold enc, plain_text. cbn. by apply ctr_involutive.
Qed.

(** * Claims *)

End Stream.
