(* ===== verification/ReceiverDemo.v ===== *)
(** A receiver run on concrete packets: a sender cuts two frames into three
    packets, which arrive out of order; the receiver reports the missing one,
    completes both frames and delivers the first.  Each claim of
    ReceiverProps.v and ReceiverStream.v is applied to a state of this run. *)

From S2P Require Import Prelude Numeric Wire Ids NtpTime RtpDefines RtcpParser RtcpRoundTrip RtcpCommon.
From S2P Require Import SenderReport RtcpBuilder Rtp FrameCollector FrameCrypto StatsTracker.
From S2P Require Import Alarm ClockDrift Receiver ReceiverInv ReceiverFeedback ReceiverSteps ReceiverConsume ReceiverJitter ReceiverProps ReceiverStream.

(** * The session *)

Definition demo_config : SessionConfig := mkSessionConfig 1 2 90000 400 [] (seqZ 1 16) true false.
Definition demo_set_key (_ : list Z) : option Z := Some 77.
Definition demo_crypto : FrameCrypto (AES_KEY := Z) := mkCrypto 77 (seqZ 1 16).
Definition demo_exp (_ : double) : double := double_of_Z 0.
Definition demo_packetizer : RtpPacketizer := mkPacketizer 96 1 30 500.
Definition demo_stream : list EncodedFrame :=
  [mkFrame kKeyFrame 0 0 90000 0 250 INT64_MIN INT64_MIN [1; 2; 3; 4; 5; 6; 7; 8; 9];
   mkFrame kDependent 1 0 93000 0 0 INT64_MIN INT64_MIN [10; 11]].
#[local] Instance demo_origin : Origin := stream_packets toy_ctr demo_packetizer demo_crypto demo_stream.

(** The sender's packets: a report, and packet [i] of frame [f]. *)
Definition bytes_of {A} (m : outcome (A * list Z)) : list Z := match m with Ret (_, b) => b | Fault _ => [] end.
Definition demo_report : list Z := Eval vm_compute in
  match SenderReportBuilder_BuildPacket (mkSession 1 2 0 (new_NtpTimeConverter 0 1700000000))
    (mkSenderReport 1000000 90000 0 0 None) (new_buffer 64) with Ret (b, _) => b | Fault _ => [] end.
Definition demo_packet (f : nat) (i : Z) : list Z :=
  bytes_of (frame ← in_bounds (demo_stream !! f); enc ← Encrypt toy_ctr demo_crypto frame;
            GeneratePacket demo_packetizer enc i (new_buffer 64)).

(** * The states of the run *)

Notation receiver := (ReceiverImpl (AES_KEY := Z)).
Definition value {A} (m : outcome A) : match m return Type with Ret _ => A | Fault _ => unit end :=
  match m with Ret a => a | Fault _ => tt end.

Definition received0 : receiver := Eval vm_compute in
  value (new_ReceiverImpl demo_set_key 1472 0 1700000000 demo_config).
Definition received1 : receiver := Eval vm_compute in
  value (Receiver.OnReceivedRtcpPacket demo_exp 5000 5000 demo_report received0).
Definition received2 : receiver := Eval vm_compute in
  value (OnReceivedRtpPacket 6000 6000 (demo_packet 0 1) received1).
Definition received3 : receiver := Eval vm_compute in
  value (OnReceivedRtpPacket 6000 6000 (demo_packet 1 0) received2).
Definition received4 : receiver := Eval vm_compute in
  value (OnReceivedRtpPacket 7000 7000 (demo_packet 0 0) received3).
Definition received5 : EncodedFrame * receiver := Eval vm_compute in
  value (ConsumeNextFrame toy_ctr 8000 9 received4).

Notation demo_runs := (recv_runs demo_set_key toy_ctr demo_exp demo_config).

Lemma received0_runs : demo_runs [] received0.
Proof. apply (runs_start _ _ _ _ 1472 0 1700000000); [| by eexists | lia | by vm_compute]. by vm_compute. Qed.

(** The receiver may be given packet [i] of frame [f]. *)
Lemma demo_packet_ready f frame encrypted i part parser (s : receiver) :
  demo_stream !! f = Some frame -> Encrypt toy_ctr demo_crypto frame = Ret encrypted ->
  0 <= i < ComputeNumberOfPackets demo_packetizer encrypted ->
  last_frame_consumed_ s < 2 ^ 61 -> forallb (fun b => (0 <=? b) && (b <? 256)) (demo_packet f i) = true ->
  RtpPacketParser_Parse (rtp_parser_ s) (demo_packet f i) = Ret (Some part, parser) ->
  part = expected_part (demo_packetizer <| next_sequence_number := sequence_number part |>) encrypted i ->
  rtp_ready (demo_packet f i) s.
Proof.
  intros Hf Henc Hi Hlc Hb Hparse Hpart. split; [| split; [done |]].
  - apply Forall_forall. intros b Hin. rewrite forallb_forall in Hb. specialize (Hb b).
    rewrite list_elem_of_In in Hin. specialize (Hb Hin). unfold is_u. lia.
  - intros part' parser' E. rewrite Hparse in E. injection E as <- <-.
    exists frame, encrypted, i, (sequence_number part). split; [by eapply list_elem_of_lookup_2 |]. done.
Qed.

Lemma demo_step frames s now s' :
  demo_runs frames s -> recv_step toy_ctr demo_exp now s None s' -> demo_runs frames s'.
Proof. intros Hs Hstep. rewrite <- (app_nil_r frames). by apply (runs_step _ _ _ _ frames s now None s'). Qed.

Ltac solve_ready f i :=
  eapply (demo_packet_ready f _ _ i); [reflexivity | vm_compute; reflexivity | by vm_compute ..].

Lemma report_ready : rtcp_ready 5000 demo_report received0.
Proof.
  split; [| by vm_compute]. solve_list; by vm_compute.
Qed.

Lemma received1_runs : demo_runs [] received1.
Proof.
  apply (demo_step [] received0 5000 received1 received0_runs).
  apply (step_rtcp _ _ _ _ 5000 demo_report); [apply report_ready | by vm_compute].
Qed.

Lemma packet_ready : rtp_ready (demo_packet 0 1) received1.
Proof. solve_ready 0%nat 1. Qed.

Lemma received3_runs : demo_runs [] received3.
Proof.
  apply (demo_step [] received2 6000 received3).
  - apply (demo_step [] received1 6000 received2 received1_runs).
    apply (step_rtp _ _ _ _ 6000 (demo_packet 0 1)); [apply packet_ready | by vm_compute].
  - apply (step_rtp _ _ _ _ 6000 (demo_packet 1 0)); [solve_ready 1%nat 0 | by vm_compute].
Qed.

Lemma received4_runs : demo_runs [] received4.
Proof.
  apply (demo_step [] received3 7000 received4 received3_runs).
  apply (step_rtp _ _ _ _ 7000 (demo_packet 0 0)); [solve_ready 0%nat 0 | by vm_compute].
Qed.

Lemma received5_runs : demo_runs [received5.1] received5.2.
Proof.
  apply (runs_step _ _ _ _ [] received4 8000 (Some received5.1) _ received4_runs).
  by apply step_client, step_consume; vm_compute.
Qed.

(** The packets arrive within a few milliseconds. *)
Notation demo_timely := (timely_runs demo_set_key toy_ctr demo_exp demo_config).

Lemma demo_timely_step frames s now s' :
  demo_timely frames s -> timely_step toy_ctr demo_exp now s None s' -> demo_timely frames s'.
Proof. intros Hs Hstep. rewrite <- (app_nil_r frames). by apply (timely_snoc _ _ _ _ frames s now None s'). Qed.

Lemma received0_timely : demo_timely [] received0.
Proof. apply (timely_start _ _ _ _ 1472 0 1700000000); [by vm_compute | by vm_compute | by eexists | lia | by vm_compute]. Qed.

Lemma report_in_order : rtcp_in_order 5000 demo_report received0.
Proof. destruct report_ready as (H1 & H2 & H3 & _). by split_and!. Qed.

Lemma received1_timely : demo_timely [] received1.
Proof.
  apply (demo_timely_step [] received0 5000 received1 received0_timely).
  apply (timely_rtcp _ _ _ _ 5000 demo_report); [apply report_in_order | by vm_compute].
Qed.

Lemma received4_timely : demo_timely [] received4.
Proof.
  apply (demo_timely_step [] received3 7000 received4).
  - apply (demo_timely_step [] received2 6000 received3).
    + apply (demo_timely_step [] received1 6000 received2 received1_timely).
      apply (timely_rtp _ _ _ _ 6000 (demo_packet 0 1)); [apply packet_ready | by left | by vm_compute].
    + apply (timely_rtp _ _ _ _ 6000 (demo_packet 1 0)); [solve_ready 1%nat 0 | right; by vm_compute | by vm_compute].
  - apply (timely_rtp _ _ _ _ 7000 (demo_packet 0 0)); [solve_ready 0%nat 0 | right; by vm_compute | by vm_compute].
Qed.

(** * The claims at these states *)

Lemma demo_laws :
  (forall k st l, length (toy_ctr k st l).1 = length l)
  /\ (forall k st a b, toy_ctr k st (a ++ b)
        = let '(x, st1) := toy_ctr k st a in let '(y, st2) := toy_ctr k st1 b in (x ++ y, st2))
  /\ (forall k st l, bytes_ok l -> (toy_ctr k st (toy_ctr k st l).1).1 = l).
Proof. exact toy_ctr_laws. Qed.

Lemma receiver_never_aborts_witness :
  returns (OnReceivedRtpPacket 6000 6000 (demo_packet 0 1) received1)
  /\ returns (Receiver.OnReceivedRtcpPacket demo_exp 5000 5000 demo_report received0)
  /\ returns (ConsumeNextFrame toy_ctr 8000 (next_size received4) received4).
Proof.
  destruct demo_laws as (H1 & H2 & H3).
  destruct (receiver_never_aborts demo_set_key toy_ctr demo_exp H1 H2 H3 _ _ _ 6000 received1_timely) as (Hrtp & _).
  destruct (receiver_never_aborts demo_set_key toy_ctr demo_exp H1 H2 H3 _ _ _ 5000 received0_timely) as (_ & Hrtcp & _).
  destruct (receiver_never_aborts demo_set_key toy_ctr demo_exp H1 H2 H3 _ _ _ 8000 received4_timely)
    as (_ & _ & _ & _ & _ & _ & Hc & _).
  split; [exact (Hrtp 6000 _ packet_ready) |]. split; [exact (Hrtcp 5000 _ report_in_order) |].
  apply Hc. by vm_compute.
Defined.


Definition demo_sender_session : RtcpSession := mkSession 1 2 0 (new_NtpTimeConverter 0 1700000000).

(** Frame 1 has arrived, and packet 1 of frame 0, but not packet 0. *)
Lemma feedback_is_exact_witness :
  exists s' nacks acks logs packet, SendRtcp 6500 received3 = Ret s'
    /\ calls_ s' = calls_ received3 ++ [CallSendRtcpPacket packet]
    /\ exact_feedback (pending_frames_ received3) (-1) 1 nacks acks
    /\ BuildPacket (rtcp_session_ received3) 6500
         ((rtcp_builder_ received3) <| nacks_for_next_packet := nacks |> <| acks_for_next_packet := acks |>
            <| logs_for_next_packet := logs |>) (new_buffer 1472)
       = Ret (rtcp_builder_ s', packet)
    /\ checkpoint_frame s' = -1
    /\ pending (rtcp_alarm_ s') = Some (tt, 506500).
Proof.
  destruct demo_laws as (H1 & H2 & H3).
  exact (feedback_is_exact demo_set_key toy_ctr demo_exp H1 H2 H3 _ _ _ 6500 received3_runs).
Defined.

Lemma feedback_reaches_sender_witness :
  let t := received_time (rtcp_session_ received3) demo_sender_session 6500 in
  exists s' nacks acks packet, SendRtcp 6500 received3 = Ret s'
    /\ calls_ s' = calls_ received3 ++ [CallSendRtcpPacket packet]
    /\ exact_feedback (pending_frames_ received3) (-1) 1 nacks acks
    /\ (zlen nacks <= 255 ->
          Parse demo_sender_session packet 1 new_CompoundRtcpParser
          = Ret (true, new_CompoundRtcpParser <| latest_receiver_timestamp := t |>,
                 feedback_events demo_sender_session (rtcp_builder_ received3) t nacks acks)).
Proof.
  destruct demo_laws as (H1 & H2 & H3).
  apply (feedback_reaches_sender demo_set_key toy_ctr demo_exp H1 H2 H3 _ _ _ 6500
    demo_sender_session 1 new_CompoundRtcpParser received3_runs); [done | by vm_compute .. | by left].
Defined.

Lemma frames_consumed_in_order_witness :
  data received5.1 = [1; 2; 3; 4; 5; 6; 7; 8; 9] /\ from_packets toy_ctr demo_crypto received5.1.
Proof.
  destruct demo_laws as (H1 & H2 & H3). split; [done |].
  destruct (frames_consumed_in_order demo_set_key toy_ctr demo_exp H1 H2 H3 _ _ _ received5_runs) as [_ Hf].
  exact (Forall_inv Hf).
Defined.

(** Frame 0 is not complete, and frame 1 depends on it. *)
Lemma only_late_frames_are_skipped_witness :
  AdvanceToNextFrame 10000000 received3 = Ret (None, received3)
  /\ (exists o s', AdvanceToNextFrame 8000 received4 = Ret (o, s') /\ o = Some 9 /\ s' = received4).
Proof.
  destruct demo_laws as (H1 & H2 & H3). split; [by vm_compute |].
  destruct (only_late_frames_are_skipped demo_set_key toy_ctr demo_exp H1 H2 H3 _ _ _ 8000 received4_runs)
    as (o & s' & E & _ & H).
  exists o, s'. split; [exact E |]. apply H. by vm_compute.
Defined.

(** Frame 0 announced 250 ms; a later frame announces 300 ms. *)
Lemma announced_delay_applies_witness :
  exists s', RecordNewTargetPlayoutDelay 5 300 received4 = Ret s'
    /\ ResolveTargetPlayoutDelay 4 s' = Ret 250 /\ ResolveTargetPlayoutDelay 6 s' = Ret 300.
Proof.
  destruct demo_laws as (H1 & H2 & H3).
  destruct (announced_delay_applies demo_set_key toy_ctr demo_exp H1 H2 H3 _ _ _ 5 300 received4_runs)
    as (s' & E & Hr); [by vm_compute | lia |].
  exists s'. split; [exact E |]. rewrite (Hr 4), (Hr 6) by (by vm_compute). by vm_compute.
Defined.

Lemma demo_stream_wf : Forall (stream_frame_wf demo_packetizer) demo_stream.
Proof.
  solve_list; (split; [by vm_compute |]); (split; [by vm_compute |]);
    (split; [cbn; solve_list; by vm_compute |]); [by left | by right].
Qed.

