(* ===== verification/ReceiverRouter.v ===== *)
(** The packet router of the receivers
    (cast/streaming/impl/receiver_packet_router.h and .cc) and the map it keeps
    them in (util/flat_map.h).

    A receiver is held in the map, where the code holds a pointer to it.  The
    RTCP packets it sends while it handles a packet change only the environment,
    so they are returned, in order, and sent after it. *)

From S2P Require Import Prelude Wire RtpDefines RtcpCommon Environment.

(** * FlatMap

    A vector of pairs; a key may be present more than once only if the client
    adds it again. *)

Section FlatMap.
Context {K V : Type} `{EqDecision K}.

Definition FlatMap : Type := list (K * V).

Definition find (key : K) (m : FlatMap) : option (nat * (K * V)) := list_find (fun p => key = p.1) m.

Definition emplace_back (key : K) (value : V) (m : FlatMap) : FlatMap := m ++ [(key, value)].

Definition erase_key (key : K) (m : FlatMap) : FlatMap :=
  match find key m with Some (i, _) => delete i m | None => m end.
End FlatMap.
Arguments FlatMap : clear implicits.

(** [ReceiverPacketRouter::PacketConsumer], with the clock it reads and the
    arrival time of the packet: the packets it sends are returned. *)
Class PacketConsumer (C : Type) := {
  pc_OnReceivedRtpPacket : Z -> Z -> list Z -> C -> outcome (C * list (list Z));
  pc_OnReceivedRtcpPacket : Z -> Z -> list Z -> C -> outcome (C * list (list Z)) }.

Section ReceiverRouter.
Context {C : Type} {PC : PacketConsumer C}.

Record ReceiverPacketRouter := mkReceiverRouter {
  receiver_environment_ : Environment;
  receivers_ : FlatMap Z C }.
#[export] Instance eta_ReceiverPacketRouter : Eta ReceiverPacketRouter := fun r =>
  mkReceiverRouter (receiver_environment_ r) (receivers_ r).

Definition new_ReceiverPacketRouter (environment : Environment) : ReceiverPacketRouter :=
  mkReceiverRouter environment [].

Definition destroy_ReceiverPacketRouter (r : ReceiverPacketRouter) : outcome unit :=
  OSP_CHECK (bool_decide (receivers_ r = [])).

Definition RegisterPacketConsumer (sender_ssrc : Z) (receiver : C) (r : ReceiverPacketRouter)
    : outcome ReceiverPacketRouter :=
  OSP_CHECK (bool_decide (find sender_ssrc (receivers_ r) = None)) ;;
  let r := r <| receivers_ := emplace_back sender_ssrc receiver (receivers_ r) |> in
  if zlen (receivers_ r) =? 1 then
    let env := set_remote_endpoint new_IPEndpoint (receiver_environment_ r) in
    env ← ConsumeIncomingPackets env;
    Ret (r <| receiver_environment_ := env |>)
  else Ret r.

Definition DeregisterPacketConsumer (sender_ssrc : Z) (r : ReceiverPacketRouter)
    : ReceiverPacketRouter :=
  let r := r <| receivers_ := erase_key sender_ssrc (receivers_ r) |> in
  if bool_decide (receivers_ r = [])
  then r <| receiver_environment_ := DropIncomingPackets (receiver_environment_ r) |> else r.

Definition SendRtcpPacket (packet : list Z) (r : ReceiverPacketRouter)
    : outcome ReceiverPacketRouter :=
  '(type, _) ← InspectPacketForRouting packet;
  OSP_CHECK (bool_decide (type = RTCP)) ;;
  if port (remote_endpoint_ (receiver_environment_ r)) =? 0 then Ret r else
  env ← SendPacket packet (receiver_environment_ r);
  Ret (r <| receiver_environment_ := env |>).

Fixpoint send_rtcp_packets (packets : list (list Z)) (r : ReceiverPacketRouter)
    : outcome ReceiverPacketRouter :=
  match packets with
  | [] => Ret r
  | p :: packets => r ← SendRtcpPacket p r; send_rtcp_packets packets r
  end.

Definition ReceiverRouter_OnReceivedPacket (source : IPEndpoint) (now arrival_time : Z)
    (packet : list Z) (r : ReceiverPacketRouter) : outcome ReceiverPacketRouter :=
  OSP_CHECK (negb (port source =? 0)) ;;
  if negb (port (remote_endpoint_ (receiver_environment_ r)) =? 0)
     && negb (bool_decide (source = remote_endpoint_ (receiver_environment_ r)))
  then Ret r else
  '(type, ssrc) ← InspectPacketForRouting packet;
  if bool_decide (type = UNKNOWN) then Ret r else
  match find ssrc (receivers_ r) with
  | None => Ret r
  | Some (i, (key, receiver)) =>
      let r := if port (remote_endpoint_ (receiver_environment_ r)) =? 0
               then r <| receiver_environment_ :=
                      set_remote_endpoint source (receiver_environment_ r) |>
               else r in
      '(receiver, packets) ←
        match type with
        | RTP => pc_OnReceivedRtpPacket now arrival_time packet receiver
        | RTCP => pc_OnReceivedRtcpPacket now arrival_time packet receiver
        | UNKNOWN => Ret (receiver, [])
        end;
      send_rtcp_packets packets
        (r <| receivers_ := <[i := (key, receiver)]> (receivers_ r) |>)
  end.
End ReceiverRouter.
