(* ===== verification/ReceiverRouterProps.v ===== *)
(** The properties of the receivers' packet router (ReceiverRouter.v): it
    locks on to the first peer that sends it a valid packet, talks to no other
    while it has receivers, and hands each packet to the receiver it is for. *)

From S2P Require Import Prelude Wire RtpDefines RtcpCommon Environment ReceiverRouter.

(** What a receiver may send. *)
Definition rtcp_packet (packet : list Z) : Prop :=
  exists s, InspectPacketForRouting packet = Ret (RTCP, s).

(** What the router hands a packet to. *)
Definition pc_handle {C} `{PacketConsumer C} (type : ApparentPacketType) (now arrival : Z)
    (packet : list Z) (c : C) : outcome (C * list (list Z)) :=
  match type with
  | RTP => pc_OnReceivedRtpPacket now arrival packet c
  | RTCP => pc_OnReceivedRtcpPacket now arrival packet c
  | UNKNOWN => Ret (c, [])
  end.

(** What the router expects of a receiver: in a good state, and given a packet
    it is ready for, it returns, in a good state, and sends RTCP packets. *)
Class PacketConsumerLaws (C : Type) `{PacketConsumer C} := {
  pc_ok : C -> Prop;
  pc_ready : ApparentPacketType -> Z -> Z -> list Z -> C -> Prop;
  pc_received type now arrival packet c :
    pc_ok c -> pc_ready type now arrival packet c ->
    exists c' packets, pc_handle type now arrival packet c = Ret (c', packets)
      /\ pc_ok c' /\ Forall rtcp_packet packets }.

Section ReceiverRouterProps.
Context {C : Type} {PC : PacketConsumer C} {PL : PacketConsumerLaws C}.
Implicit Types r : ReceiverPacketRouter (C := C).

Definition peer r : IPEndpoint := remote_endpoint_ (receiver_environment_ r).

(** The invariant; an endpoint with a port is one packets can be sent to. *)
Record rrouter_ok r : Prop := {
  rr_keys : NoDup (map fst (receivers_ r));
  rr_receivers : Forall (fun p => pc_ok p.2) (receivers_ r);
  rr_consumes : packet_consumer_ (receiver_environment_ r)
                = negb (bool_decide (receivers_ r = []));
  rr_peer : port (peer r) <> 0 -> peer_known (receiver_environment_ r) }.

(** One operation.  The source of a packet received has an address. *)
Inductive rr_step (r : ReceiverPacketRouter) : ReceiverPacketRouter -> Prop :=
  | rr_register key c r' :
      pc_ok c -> RegisterPacketConsumer key c r = Ret r' -> rr_step r r'
  | rr_deregister key : rr_step r (DeregisterPacketConsumer key r)
  | rr_received source now arrival packet r' :
      address_set (address source) = true -> port source <> 0 ->
      (forall type key c, (key, c) ∈ receivers_ r -> pc_ready type now arrival packet c) ->
      ReceiverRouter_OnReceivedPacket source now arrival packet r = Ret r' -> rr_step r r'
  | rr_client i key c c' packets r' :   (* a receiver acts by itself *)
      receivers_ r !! i = Some (key, c) -> pc_ok c' -> Forall rtcp_packet packets ->
      send_rtcp_packets packets (r <| receivers_ := <[i := (key, c')]> (receivers_ r) |>) = Ret r' ->
      rr_step r r'.

Inductive rr_reachable : ReceiverPacketRouter -> Prop :=
  | rr_new env :
      packet_consumer_ env = false -> (port (remote_endpoint_ env) <> 0 -> peer_known env) ->
      rr_reachable (new_ReceiverPacketRouter env)
  | rr_next r r' : rr_reachable r -> rr_step r r' -> rr_reachable r'.

(** A session: steps throughout which the router has receivers. *)
Inductive rr_session : ReceiverPacketRouter -> ReceiverPacketRouter -> Prop :=
  | rr_session_nil r : receivers_ r <> [] -> rr_session r r
  | rr_session_cons r r' r'' :
      receivers_ r <> [] -> rr_step r r' -> rr_session r' r'' -> rr_session r r''.

(** * The map *)

Lemma find_Some key (m : FlatMap Z C) i p :
  find key m = Some (i, p) -> m !! i = Some p /\ p.1 = key.
Proof. unfold find. intros (? & -> & _)%list_find_Some. by split. Qed.

Lemma find_None_notin key (m : FlatMap Z C) : find key m = None -> key ∉ map fst m.
Proof.
  unfold find. intros Hn%list_find_None (p & -> & Hp)%list_elem_of_fmap.
  by apply (proj1 (Forall_forall _ _) Hn p Hp).
Qed.

Lemma keys_insert i key (c' : C) c (m : FlatMap Z C) :
  m !! i = Some (key, c) -> map fst (<[i := (key, c')]> m) = map fst m.
Proof.
  revert i. induction m as [| p m IH]; intros [| i]; cbn; [done.. | by intros [= ->] |].
  intros Hi. by rewrite IH.
Qed.

Lemma map_delete_sub {A B} (f : A -> B) i l : map f (delete i l) = delete i (map f l).
Proof. revert i. induction l as [| a l IH]; intros [| i]; cbn; [done.. | by rewrite <- IH]. Qed.

Lemma erase_key_ok key (m : FlatMap Z C) :
  NoDup (map fst m) -> Forall (fun p => pc_ok p.2) m ->
  NoDup (map fst (erase_key key m)) /\ Forall (fun p => pc_ok p.2) (erase_key key m).
Proof.
  intros Hk Hf. unfold erase_key. destruct (find key m) as [[i p] |]; [| done].
  split; [| by apply Forall_delete].
  assert (map fst (delete i m) = delete i (map fst m)) as -> by apply map_delete_sub.
  by eapply sublist_NoDup; [| apply sublist_delete].
Qed.

(** * Sending *)

(** Replies go to the peer, if there is one. *)
Definition replies (packets : list (list Z)) (env : Environment) : Environment :=
  if port (remote_endpoint_ env) =? 0 then env
  else env <| sent_packets := sent_packets env ++ map (pair (remote_endpoint_ env)) packets |>.

Lemma replies_nil env : replies [] env = env.
Proof. unfold replies. cbn. rewrite app_nil_r. by destruct (_ =? _), env. Qed.

Lemma replies_cons p packets env :
  replies (p :: packets) env = replies packets (replies [p] env).
Proof.
  unfold replies. destruct (port (remote_endpoint_ env) =? 0) eqn:E; [by rewrite E |].
  cbn. rewrite E. cbn. by rewrite <- app_assoc.
Qed.

Lemma replies_peer packets env : remote_endpoint_ (replies packets env) = remote_endpoint_ env.
Proof. unfold replies. by destruct (_ =? _). Qed.

Lemma replies_consumer packets env : packet_consumer_ (replies packets env) = packet_consumer_ env.
Proof. unfold replies. by destruct (_ =? _). Qed.

Lemma send_rtcp_packets_ok packets r :
  Forall rtcp_packet packets -> (port (peer r) <> 0 -> peer_known (receiver_environment_ r)) ->
  send_rtcp_packets packets r
  = Ret (r <| receiver_environment_ := replies packets (receiver_environment_ r) |>).
Proof using.
  intros Hp. revert r. induction Hp as [| p packets [s Hs] Hp IH]; intros r Hr; cbn [send_rtcp_packets].
  { rewrite replies_nil. by destruct r. }
  rewrite replies_cons. unfold SendRtcpPacket. rewrite Hs. cbn [mbind outcome_bind].
  rewrite OSP_CHECK_true by (by apply bool_decide_eq_true_2). cbn [mbind outcome_bind].
  unfold replies at 2. destruct (Z.eqb_spec (port (remote_endpoint_ (receiver_environment_ r))) 0).
  - cbn [mbind outcome_bind]. by apply IH.
  - rewrite SendPacket_ok by (by apply Hr). cbn [mbind outcome_bind]. by rewrite IH by done.
Qed.

(** * The operations keep the invariant *)

Lemma rr_new_ok env :
  packet_consumer_ env = false -> (port (remote_endpoint_ env) <> 0 -> peer_known env) ->
  rrouter_ok (new_ReceiverPacketRouter env).
Proof using. intros Hc Hp. by constructor; cbn; try apply NoDup_nil. Qed.

Lemma Register_ok key c r :
  rrouter_ok r -> pc_ok c ->
  if bool_decide (key ∈ map fst (receivers_ r)) then RegisterPacketConsumer key c r = Fault CheckFailed
  else exists r', RegisterPacketConsumer key c r = Ret r' /\ rrouter_ok r'
    /\ receivers_ r' = receivers_ r ++ [(key, c)]
    /\ sent_packets (receiver_environment_ r') = sent_packets (receiver_environment_ r)
    /\ peer r' = if bool_decide (receivers_ r = []) then new_IPEndpoint else peer r.
Proof using.
  intros [Hk Hf Hc Hp] Hok. unfold RegisterPacketConsumer.
  destruct (find key (receivers_ r)) as [[i p] |] eqn:E.
  { apply find_Some in E as [Hi <-]. rewrite bool_decide_eq_true_2.
    2: { apply list_elem_of_fmap. exists p. split; [done | by apply list_elem_of_lookup_2 in Hi]. }
    by rewrite bool_decide_eq_false_2. }
  apply find_None_notin in E as Hn. rewrite bool_decide_eq_false_2 by done.
  rewrite OSP_CHECK_true by (by apply bool_decide_eq_true_2). cbn [mbind outcome_bind].
  change (receivers_ (r <| receivers_ := emplace_back key c (receivers_ r) |>))
    with (receivers_ r ++ [(key, c)]).
  assert (NoDup (map fst (receivers_ r ++ [(key, c)]))) as Hk'.
  { rewrite map_app. apply NoDup_app. split; [done |]. split; [| by apply NoDup_singleton].
    intros x Hx ->%list_elem_of_singleton. done. }
  assert (Forall (fun p => pc_ok p.2) (receivers_ r ++ [(key, c)])) as Hf'
    by (apply Forall_app_2; [done | by constructor]).
  destruct (receivers_ r) as [| p0 rs] eqn:Er.
  - change (zlen ([] ++ [(key, c)]) =? 1) with true. cbn iota.
    unfold ConsumeIncomingPackets. cbn. rewrite Hc. cbn.
    eexists. split; [reflexivity |]. by split; [constructor |].
  - rewrite (proj2 (Z.eqb_neq _ _)) by (rewrite zlen_app; unfold zlen; cbn [length]; lia).
    eexists. split; [reflexivity |]. split; [| done].
    constructor; [done | done | | exact Hp].
    by etransitivity; [exact Hc |].
Qed.

Lemma Deregister_ok key r :
  rrouter_ok r -> rrouter_ok (DeregisterPacketConsumer key r)
    /\ peer (DeregisterPacketConsumer key r) = peer r
    /\ sent_packets (receiver_environment_ (DeregisterPacketConsumer key r))
       = sent_packets (receiver_environment_ r).
Proof using.
  intros [Hk Hf Hc Hp]. unfold DeregisterPacketConsumer.
  destruct (erase_key_ok key (receivers_ r) Hk Hf) as [Hk' Hf'].
  change (receivers_ (r <| receivers_ := erase_key key (receivers_ r) |>))
    with (erase_key key (receivers_ r)).
  destruct (decide (erase_key key (receivers_ r) = [])) as [E | E].
  - rewrite (bool_decide_eq_true_2 _ E). split; [| done]. constructor; try done. cbn.
    by rewrite bool_decide_eq_true_2.
  - rewrite (bool_decide_eq_false_2 _ E). split; [| done]. constructor; try done. cbn.
    rewrite Hc, (bool_decide_eq_false_2 _ E). f_equal. apply bool_decide_eq_false_2.
    intros Hn. rewrite Hn in E. by apply E.
Qed.

Lemma receiver_moves_ok i key c c' packets r :
  rrouter_ok r -> receivers_ r !! i = Some (key, c) -> pc_ok c' -> Forall rtcp_packet packets ->
  let r1 := r <| receivers_ := <[i := (key, c')]> (receivers_ r) |> in
  let r' := r1 <| receiver_environment_ := replies packets (receiver_environment_ r) |> in
  send_rtcp_packets packets r1 = Ret r' /\ rrouter_ok r' /\ peer r' = peer r.
Proof using.
  intros [Hk Hf Hc Hp] Hi Hok Hps r1 r'.
  split; [by apply send_rtcp_packets_ok |].
  split; [| apply replies_peer].
  constructor.
  - change (NoDup (map fst (<[i := (key, c')]> (receivers_ r)))). by erewrite keys_insert.
  - by apply Forall_insert.
  - change (packet_consumer_ (replies packets (receiver_environment_ r))
            = negb (bool_decide (<[i := (key, c')]> (receivers_ r) = []))).
    rewrite replies_consumer, Hc. clear Hc. destruct (receivers_ r); [done |]. by destruct i.
  - intros Hport. change (port (remote_endpoint_ (replies packets (receiver_environment_ r))) <> 0) in Hport.
    rewrite replies_peer in Hport. unfold peer_known.
    change (receiver_environment_ r') with (replies packets (receiver_environment_ r)).
    rewrite replies_peer. by apply Hp.
Qed.

(** What a packet does. *)
Definition received_outcome (source : IPEndpoint) (now arrival : Z) (packet : list Z) r
    : outcome (ReceiverPacketRouter (C := C)) :=
  '(type, ssrc) ← InspectPacketForRouting packet;
  let accepted := bool_decide (port (peer r) = 0) || bool_decide (source = peer r) in
  match list_find (fun p => ssrc = p.1) (receivers_ r) with
  | Some (i, (key, c)) =>
      if accepted && negb (bool_decide (type = UNKNOWN)) then
        '(c', packets) ← pc_handle type now arrival packet c;
        let env := (receiver_environment_ r) <| remote_endpoint_ := source |> in
        Ret (mkReceiverRouter
          (env <| sent_packets := sent_packets env ++ map (pair source) packets |>)
          (<[i := (key, c')]> (receivers_ r)))
      else Ret r
  | None => Ret r
  end.

Lemma Received_ok source now arrival packet r :
  rrouter_ok r -> address_set (address source) = true -> port source <> 0 ->
  (forall type key c, (key, c) ∈ receivers_ r -> pc_ready type now arrival packet c) ->
  exists r', ReceiverRouter_OnReceivedPacket source now arrival packet r = Ret r' /\ rrouter_ok r'
    /\ received_outcome source now arrival packet r = Ret r'
    /\ (port (peer r) <> 0 -> peer r' = peer r)
    /\ exists packets, sent_packets (receiver_environment_ r')
         = sent_packets (receiver_environment_ r) ++ map (pair (peer r')) packets.
Proof using.
  intros Hok Ha Hport Hready. unfold ReceiverRouter_OnReceivedPacket, received_outcome.
  rewrite OSP_CHECK_neqb by done. cbn [mbind outcome_bind]. fold (peer r).
  destruct (InspectPacketForRouting_total packet) as [[type ssrc] ->]. cbn [mbind outcome_bind].
  assert (negb (port (peer r) =? 0) && negb (bool_decide (source = peer r))
          = negb (bool_decide (port (peer r) = 0) || bool_decide (source = peer r))) as ->.
  { rewrite negb_orb. do 2 f_equal.
    by destruct (Z.eqb_spec (port (peer r)) 0); [rewrite bool_decide_eq_true_2 | rewrite bool_decide_eq_false_2]. }
  set (acc := bool_decide (port (peer r) = 0) || bool_decide (source = peer r)).
  assert (Hsame : exists r', Ret (A := ReceiverPacketRouter (C := C)) r = Ret r' /\ rrouter_ok r' /\ Ret r = Ret r'
    /\ (port (peer r) <> 0 -> peer r' = peer r)
    /\ exists packets, sent_packets (receiver_environment_ r')
         = sent_packets (receiver_environment_ r) ++ map (pair (peer r')) packets).
  { exists r. do 4 (split; [done |]). exists []. by rewrite app_nil_r. }
  change (list_find _ (receivers_ r)) with (find ssrc (receivers_ r)).
  destruct acc eqn:Hacc; cbn [negb andb].
  2: { by destruct (find ssrc (receivers_ r)) as [[i [key c]] |]. }
  destruct (bool_decide (type = UNKNOWN)) eqn:Eu; cbn [negb].
  { by destruct (find ssrc (receivers_ r)) as [[i [key c]] |]. }
  destruct (find ssrc (receivers_ r)) as [[i [key c]] |] eqn:Ef; [| done].
  apply find_Some in Ef as [Hi Hkey]. clear Hsame.
  set (r1 := if _ =? 0 then _ else r).
  assert (r1 = mkReceiverRouter ((receiver_environment_ r) <| remote_endpoint_ := source |>) (receivers_ r)) as Hr1.
  { subst r1 acc. unfold peer in *. destruct (Z.eqb_spec (port (remote_endpoint_ (receiver_environment_ r))) 0); [done |].
    rewrite bool_decide_eq_false_2 in Hacc by done. apply bool_decide_eq_true in Hacc as ->.
    by destruct r as [[]]. }
  assert (rrouter_ok r1) as Hok1.
  { rewrite Hr1. destruct Hok as [Hk Hf Hc Hp]. by constructor. }
  destruct (pc_received type now arrival packet c) as (c' & packets & Hh & Hc' & Hps).
  { destruct Hok as [_ Hf _ _]. by apply (Forall_lookup_1 _ _ _ _ Hf Hi). }
  { apply (Hready type key). by apply list_elem_of_lookup_2 in Hi. }
  change (match type with RTP => _ | RTCP => _ | UNKNOWN => Ret (c, []) end)
    with (pc_handle type now arrival packet c).
  rewrite Hh. cbn [mbind outcome_bind].
  destruct (receiver_moves_ok i key c c' packets r1 Hok1) as (Hsend & Hok' & Hpeer);
    [by rewrite Hr1 | done | done |].
  rewrite Hsend. eexists. split; [reflexivity |]. split; [done |].
  rewrite Hr1. cbn. unfold replies. cbn. rewrite (proj2 (Z.eqb_neq _ _)) by done.
  split; [reflexivity |]. unfold peer. cbn. split; [| by exists packets].
  intros Hpn. subst acc. rewrite bool_decide_eq_false_2 in Hacc by done.
  by apply bool_decide_eq_true in Hacc.
Qed.

Lemma rr_step_ok r r' :
  rrouter_ok r -> rr_step r r' ->
  rrouter_ok r' /\ (receivers_ r <> [] -> port (peer r) <> 0 ->
    peer r' = peer r /\ exists packets, sent_packets (receiver_environment_ r')
      = sent_packets (receiver_environment_ r) ++ map (pair (peer r)) packets).
Proof using.
  intros Hok Hstep. destruct Hstep as [key c r' Hc E | key | source now arrival packet r' Ha Hp Hr E
    | i key c c' packets r' Hi Hc Hps E].
  - pose proof (Register_ok key c r Hok Hc) as H. destruct (bool_decide _); [by rewrite E in H |].
    destruct H as (r1 & E1 & Hok1 & _ & Hs & Hpeer). rewrite E in E1. injection E1 as <-.
    split; [done |]. intros Hn _. rewrite bool_decide_eq_false_2 in Hpeer by done.
    split; [done |]. exists []. by rewrite app_nil_r.
  - destruct (Deregister_ok key r Hok) as (Hok' & Hpeer & Hs). split; [done |].
    intros _ _. split; [done |]. exists []. by rewrite app_nil_r.
  - destruct (Received_ok source now arrival packet r Hok Ha Hp Hr) as (r1 & E1 & Hok1 & _ & Hpeer & packets & Hs).
    rewrite E in E1. injection E1 as <-. split; [done |]. intros _ Hn. rewrite (Hpeer Hn) in *.
    split; [done |]. by exists packets.
  - destruct (receiver_moves_ok i key c c' packets r Hok Hi Hc Hps) as (Hsend & Hok' & Hpeer).
    rewrite E in Hsend. injection Hsend as ->. split; [done |]. intros _ Hn. split; [done |].
    exists packets. cbn. unfold replies. unfold peer in *. by rewrite (proj2 (Z.eqb_neq _ _)).
Qed.

Lemma rr_reachable_ok r : rr_reachable r -> rrouter_ok r.
Proof using.
  induction 1 as [env Hc Hp | r r' _ IH Hstep]; [by apply rr_new_ok |].
  by apply (rr_step_ok r r' IH Hstep).
Qed.

Lemma rr_session_locked r r' :
  rr_session r r' -> rrouter_ok r -> port (peer r) <> 0 ->
  peer r' = peer r /\ exists packets, sent_packets (receiver_environment_ r')
    = sent_packets (receiver_environment_ r) ++ map (pair (peer r)) packets.
Proof using.
  induction 1 as [r Hn | r r' r'' Hn Hstep _ IH]; intros Hok Hp.
  { split; [done |]. exists []. by rewrite app_nil_r. }
  destruct (rr_step_ok r r' Hok Hstep) as [Hok' H]. destruct (H Hn Hp) as [Hpeer [ps Hs]].
  destruct IH as [Hpeer' [ps' Hs']]; [done | by rewrite Hpeer |].
  split; [congruence |]. exists (ps ++ ps'). rewrite Hs', Hs, Hpeer, map_app. by rewrite app_assoc.
Qed.

(** * Claims *)

(** The receivers' router keeps to one peer.  From the moment the endpoint of
    the peer is known, and as long as there are receivers, the endpoint does not
    change whatever is received from whomever, and every packet sent goes to
    it. *)
Theorem peer_is_locked r r' :
  rr_reachable r -> rr_session r r' -> port (peer r) <> 0 ->
  peer r' = peer r
  /\ exists packets, sent_packets (receiver_environment_ r')
       = sent_packets (receiver_environment_ r) ++ map (pair (peer r)) packets.
Proof using. intros Hok%rr_reachable_ok Hs. by apply rr_session_locked. Qed.

(** What the receivers' router does with a packet.  It never fails; a packet
    from another endpoint than the peer, neither RTP nor RTCP, or for no
    receiver, changes nothing; otherwise the source becomes the peer, exactly
    the receiver with the packet's SSRC handles it, as its type says, and what
    it sends goes to the source. *)
Theorem packets_reach_their_receiver r source now arrival packet :
  rr_reachable r -> address_set (address source) = true -> port source <> 0 ->
  (forall type key c, (key, c) ∈ receivers_ r -> pc_ready type now arrival packet c) ->
  returns (ReceiverRouter_OnReceivedPacket source now arrival packet r)
  /\ ReceiverRouter_OnReceivedPacket source now arrival packet r
     = received_outcome source now arrival packet r.
Proof using.
  intros Hok%rr_reachable_ok Ha Hp Hr.
  destruct (Received_ok source now arrival packet r Hok Ha Hp Hr) as (r' & E & _ & E' & _).
  rewrite E, E'. split; [by exists r' | done].
Qed.
End ReceiverRouterProps.

(** * Witnesses: a receiver that counts packets and acknowledges RTP packets *)

Definition toy_reply : list Z := [128; 201; 0; 1; 0; 0; 0; 7].
Definition toy_receiver : Type := Z.
#[local] Instance toy_consumer : PacketConsumer toy_receiver := {
  pc_OnReceivedRtpPacket _ _ _ n := Ret (n + 1, [toy_reply]);
  pc_OnReceivedRtcpPacket _ _ _ n := Ret (n + 1, []) }.
#[local] Instance toy_consumer_laws : PacketConsumerLaws toy_receiver.
Proof.
  refine {| pc_ok := fun _ => True; pc_ready := fun _ _ _ _ _ => True |}.
  intros [] now arrival packet c _ _; eexists _, _; (split; [reflexivity |]); repeat constructor.
  by exists 7.
Defined.

Definition demo_sender : IPEndpoint := mkEndpoint (mkAddress kV4 [10; 0; 0; 2]  0) 4000.
Definition demo_other : IPEndpoint := mkEndpoint (mkAddress kV4 [10; 0; 0; 3] 0) 4000.
(** An RTP packet for the SSRC 7, 18 bytes. *)
Definition demo_rtp : list Z := [128; 96; 0; 1; 0; 0; 0; 0; 0; 0; 0; 7; 0; 0; 0; 0; 0; 0].

Definition rrouter_of (m : outcome (ReceiverPacketRouter (C := toy_receiver))) :=
  match m with Ret r => r | Fault _ => new_ReceiverPacketRouter new_Environment end.
Definition rrouter0 : ReceiverPacketRouter (C := toy_receiver) := new_ReceiverPacketRouter new_Environment.
Definition rrouter1 := Eval vm_compute in rrouter_of (RegisterPacketConsumer 7 0 rrouter0).
Definition rrouter2 := Eval vm_compute in
  rrouter_of (ReceiverRouter_OnReceivedPacket demo_sender 0 0 demo_rtp rrouter1).

Lemma rrouter1_reachable : rr_reachable rrouter1.
Proof.
  apply (rr_next rrouter0); [apply rr_new; [done | by intros []] |]. by apply (rr_register rrouter0 7 0).
Qed.
Lemma rrouter2_step : rr_step rrouter1 rrouter2.
Proof. by apply (rr_received rrouter1 demo_sender 0 0 demo_rtp). Qed.

(** A packet from another endpoint changes nothing. *)
Lemma peer_is_locked_witness :
  rr_step rrouter2 rrouter2 /\ port (peer rrouter2) <> 0
  /\ exists packets, sent_packets (receiver_environment_ rrouter2)
       = sent_packets (receiver_environment_ rrouter2) ++ map (pair demo_sender) packets.
Proof.
  assert (rr_step rrouter2 rrouter2) as Hs
    by (by apply (rr_received rrouter2 demo_other 0 0 demo_rtp)).
  split; [exact Hs |]. split; [by vm_compute |].
  refine (proj2 (peer_is_locked rrouter2 rrouter2 _ _ _)).
  - exact (rr_next _ _ rrouter1_reachable rrouter2_step).
  - assert (receivers_ rrouter2 <> []) as Hn by discriminate.
    exact (rr_session_cons _ _ _ Hn Hs (rr_session_nil _ Hn)).
  - by vm_compute.
Defined.

Lemma packets_reach_their_receiver_witness :
  returns (ReceiverRouter_OnReceivedPacket demo_sender 0 0 demo_rtp rrouter1)
  /\ peer rrouter2 = demo_sender /\ receivers_ rrouter2 = [(7, 1)]
  /\ sent_packets (receiver_environment_ rrouter2) = [(demo_sender, toy_reply)].
Proof.
  split; [| by vm_compute].
  by apply (packets_reach_their_receiver rrouter1 demo_sender 0 0 demo_rtp rrouter1_reachable).
Defined.
