(* ===== verification/SenderRouter.v ===== *)
(** The packet router of the senders (cast/streaming/sender_packet_router.h and
    .cc): bursts of packets, paced by an alarm, in the priority order of the
    streams; dispatch of incoming packets; the interface it requires of a
    sender.

    A sender is held in its entry, where the code holds a pointer to it.  What a
    sender calls on the router while one of its operations runs changes only
    the router, so it is returned by the operation, in order, and applied after
    it.  The clock is read once for an operation of the router. *)

From S2P Require Import Prelude Numeric Wire Ids RtpDefines RtcpCommon Bandwidth Alarm Environment.

Definition kNeverSend : Z := INT64_MAX.
Definition kAlarmImmediately : Z := INT64_MIN.
Definition kDefaultBurstInterval : Z := 10.
Definition kDefaultMaxBurstBitrate : Z := Z.shiftl 24 20.
Definition kRtcpReportInterval : Z := 500.

(** What a sender calls on the router. *)
Inductive RouterCall :=
  | CallRequestRtcpSend (receiver_ssrc : Z)
  | CallRequestRtpSend (receiver_ssrc : Z)
  | CallOnRtcpReceived (arrival_time round_trip_time : Z)
  | CallOnPayloadReceived (bytes arrival_time round_trip_time : Z).

(** [SenderPacketRouter::Sender]. *)
Class RouterSender (S : Type) := {
  rs_OnReceivedRtcpPacket : Z -> list Z -> S -> outcome (S * list RouterCall);
  rs_GetRtcpPacketForImmediateSend : Z -> ByteBuffer -> S -> outcome (list Z * S);
  rs_GetRtpPacketForImmediateSend : Z -> ByteBuffer -> S -> outcome (list Z * S);
  rs_GetRtpResumeTime : S -> outcome Z }.

Definition kBitsPerByte : Z := 8.
Definition kOneSecondInMilliseconds : Z := 1000.

Definition ComputeMaxPacketsPerBurst (max_burst_bitrate packet_size burst_interval : Z)
    : outcome Z :=
  OSP_CHECK (0 <? max_burst_bitrate) ;;
  OSP_CHECK (0 <? packet_size) ;;
  OSP_CHECK (0 <? burst_interval) ;;
  OSP_CHECK (burst_interval <=? kOneSecondInMilliseconds) ;;
  let max_packets_per_second := Z.quot (Z.quot max_burst_bitrate kBitsPerByte) packet_size in
  let bursts_per_second := Z.quot kOneSecondInMilliseconds burst_interval in
  Ret (Z.max (Z.quot max_packets_per_second bursts_per_second) 1).

Definition ComputeMaxBurstBitrate (packet_size max_packets_per_burst burst_interval : Z)
    : outcome Z :=
  OSP_CHECK (0 <? packet_size) ;;
  OSP_CHECK (0 <? max_packets_per_burst) ;;
  OSP_CHECK (0 <? burst_interval) ;;
  OSP_CHECK (burst_interval <=? kOneSecondInMilliseconds) ;;
  let max_bits_per_burst := packet_size * kBitsPerByte * max_packets_per_burst in
  let bursts_per_second := Z.quot kOneSecondInMilliseconds burst_interval in
  Ret (saturate_int32 (max_bits_per_burst * bursts_per_second)).

Section SenderRouter.
Context {S : Type} {RS : RouterSender S}.

Record SenderEntry := mkEntry {
  entry_ssrc : Z;
  entry_sender : S;
  next_rtcp_send_time : Z;
  next_rtp_send_time : Z }.
#[export] Instance eta_SenderEntry : Eta SenderEntry := fun e =>
  mkEntry (entry_ssrc e) (entry_sender e) (next_rtcp_send_time e) (next_rtp_send_time e).

(** [SenderEntry::operator<] is the strict part of this order. *)
Definition entry_le (a b : SenderEntry) : Prop :=
  ComparePriority (entry_ssrc a) (entry_ssrc b) <= 0.
#[export] Instance entry_le_dec : RelDecision entry_le := fun a b =>
  ltac:(unfold entry_le; apply _).

Record SenderPacketRouter := mkRouter {
  bandwidth_ : BandwidthEstimator;      (* the base class *)
  environment_ : Environment;
  packet_buffer_size_ : Z;
  max_packets_per_burst_ : Z;
  burst_interval_ : Z;
  max_burst_bitrate_ : Z;
  alarm_ : Alarm (Task := unit);
  senders_ : list SenderEntry;
  last_burst_time_ : Z }.
#[export] Instance eta_SenderPacketRouter : Eta SenderPacketRouter := fun r =>
  mkRouter (bandwidth_ r) (environment_ r) (packet_buffer_size_ r) (max_packets_per_burst_ r)
    (burst_interval_ r) (max_burst_bitrate_ r) (alarm_ r) (senders_ r) (last_burst_time_ r).

(** The clock's unit is the microsecond, the interval's the millisecond. *)
Definition interval_duration (ms : Z) : Z := ms * 1000.

Definition new_SenderPacketRouter (environment : Environment)
    (max_packets_per_burst burst_interval now : Z) : outcome SenderPacketRouter :=
  estimator ← new_BandwidthEstimator max_packets_per_burst (interval_duration burst_interval) now;
  let packet_buffer_size := GetMaxPacketSize environment in
  max_burst_bitrate ←
    ComputeMaxBurstBitrate packet_buffer_size max_packets_per_burst burst_interval;
  OSP_CHECK (kRequiredNetworkPacketSize <? packet_buffer_size) ;;
  Ret (mkRouter estimator environment packet_buffer_size max_packets_per_burst burst_interval
    max_burst_bitrate new_Alarm [] INT64_MIN).

Definition new_DefaultSenderPacketRouter (environment : Environment) (max_burst_bitrate now : Z)
    : outcome SenderPacketRouter :=
  max_packets_per_burst ← ComputeMaxPacketsPerBurst max_burst_bitrate
    (GetMaxPacketSize environment) kDefaultBurstInterval;
  new_SenderPacketRouter environment max_packets_per_burst kDefaultBurstInterval now.

Definition destroy_SenderPacketRouter (r : SenderPacketRouter) : outcome unit :=
  OSP_CHECK (bool_decide (senders_ r = [])).

Definition FindEntry (ssrc : Z) (r : SenderPacketRouter) : option (nat * SenderEntry) :=
  list_find (fun e => entry_ssrc e = ssrc) (senders_ r).

Definition OnSenderCreated (ssrc : Z) (sender : S) (r : SenderPacketRouter)
    : outcome SenderPacketRouter :=
  OSP_CHECK (bool_decide (FindEntry ssrc r = None)) ;;
  let r := r <| senders_ := senders_ r ++ [mkEntry ssrc sender kNeverSend kNeverSend] |> in
  if zlen (senders_ r) =? 1 then
    environment ← ConsumeIncomingPackets (environment_ r);
    Ret (r <| environment_ := environment |>)
  else Ret (r <| senders_ := merge_sort entry_le (senders_ r) |>).

Definition OnSenderDestroyed (ssrc : Z) (r : SenderPacketRouter) : outcome SenderPacketRouter :=
  match FindEntry ssrc r with
  | None => Fault CheckFailed
  | Some (i, _) =>
      let r := r <| senders_ := delete i (senders_ r) |> in
      Ret (if bool_decide (senders_ r = [])
           then r <| environment_ := DropIncomingPackets (environment_ r) |> else r)
  end.

Fixpoint next_burst_loop (earliest_allowed next_burst : Z) (entries : list SenderEntry) : Z :=
  match entries with
  | [] => next_burst
  | e :: entries =>
      let next_send := Z.min (next_rtcp_send_time e) (next_rtp_send_time e) in
      if next_burst <=? next_send then next_burst_loop earliest_allowed next_burst entries
      else if next_send <=? earliest_allowed then earliest_allowed
      else next_burst_loop earliest_allowed next_send entries
  end.

Definition ScheduleNextBurst (now : Z) (r : SenderPacketRouter) : outcome SenderPacketRouter :=
  let earliest_allowed_burst_time :=
    last_burst_time_ r + interval_duration (burst_interval_ r) in
  let next_burst_time := next_burst_loop earliest_allowed_burst_time kNeverSend (senders_ r) in
  if next_burst_time =? kNeverSend then Ret (r <| alarm_ := Cancel (alarm_ r) |>)
  else
    alarm ← ScheduleWithTask now tt next_burst_time (alarm_ r);
    Ret (r <| alarm_ := alarm |>).

Definition RequestRtcpSend (now ssrc : Z) (r : SenderPacketRouter) : outcome SenderPacketRouter :=
  match FindEntry ssrc r with
  | None => Fault CheckFailed
  | Some (i, _) =>
      ScheduleNextBurst now
        (r <| senders_ :=
          alter (fun e => e <| next_rtcp_send_time := kAlarmImmediately |>) i (senders_ r) |>)
  end.

Definition RequestRtpSend (now ssrc : Z) (r : SenderPacketRouter) : outcome SenderPacketRouter :=
  match FindEntry ssrc r with
  | None => Fault CheckFailed
  | Some (i, _) =>
      ScheduleNextBurst now
        (r <| senders_ :=
          alter (fun e => e <| next_rtp_send_time := kAlarmImmediately |>) i (senders_ r) |>)
  end.

Definition router_call (now : Z) (c : RouterCall) (r : SenderPacketRouter)
    : outcome SenderPacketRouter :=
  match c with
  | CallRequestRtcpSend ssrc => RequestRtcpSend now ssrc r
  | CallRequestRtpSend ssrc => RequestRtpSend now ssrc r
  | CallOnRtcpReceived arrival_time rtt =>
      b ← OnRtcpReceived arrival_time rtt (bandwidth_ r); Ret (r <| bandwidth_ := b |>)
  | CallOnPayloadReceived bytes arrival_time rtt =>
      b ← OnPayloadReceived bytes arrival_time rtt (bandwidth_ r); Ret (r <| bandwidth_ := b |>)
  end.
Fixpoint router_calls (now : Z) (cs : list RouterCall) (r : SenderPacketRouter)
    : outcome SenderPacketRouter :=
  match cs with [] => Ret r | c :: cs => r ← router_call now c r; router_calls now cs r end.

Definition OnReceivedPacket (source : IPEndpoint) (arrival_time now : Z) (packet : list Z)
    (r : SenderPacketRouter) : outcome SenderPacketRouter :=
  OSP_CHECK (negb (port source =? 0)) ;;
  if negb (bool_decide (source = remote_endpoint_ (environment_ r))) then Ret r else
  '(type, ssrc) ← InspectPacketForRouting packet;
  if negb (bool_decide (type = RTCP)) then Ret r else
  match FindEntry ssrc r with
  | None => Ret r
  | Some (i, e) =>
      '(sender, calls) ← rs_OnReceivedRtcpPacket arrival_time packet (entry_sender e);
      router_calls now calls
        (r <| senders_ := <[i := e <| entry_sender := sender |>]> (senders_ r) |>)
  end.

(** ** Bursts *)

(** The loops of a burst run over the entries and the environment. *)
Fixpoint SendJustTheRtcpPackets (send_time size : Z) (entries : list SenderEntry)
    (env : Environment) : outcome (Z * list SenderEntry * Environment) :=
  match entries with
  | [] => Ret (0, [], env)
  | e :: entries =>
      if send_time <? next_rtcp_send_time e then
        '(n, entries, env) ← SendJustTheRtcpPackets send_time size entries env;
        Ret (n, e :: entries, env)
      else
        '(packet, sender) ←
          rs_GetRtcpPacketForImmediateSend send_time (new_buffer size) (entry_sender e);
        let e := e <| entry_sender := sender |> in
        match packet with
        | [] =>
            '(n, entries, env) ← SendJustTheRtcpPackets send_time size entries env;
            Ret (n, e :: entries, env)
        | _ =>
            env ← SendPacket packet env;
            let e := e <| next_rtcp_send_time :=
              send_time + interval_duration kRtcpReportInterval |> in
            '(n, entries, env) ← SendJustTheRtcpPackets send_time size entries env;
            Ret (n + 1, e :: entries, env)
        end
  end.

(** The inner loop: RTP packets of one sender, at most [budget]. *)
Fixpoint rtp_loop (budget : nat) (send_time size : Z) (sender : S) (env : Environment)
    : outcome (Z * S * Environment) :=
  match budget with
  | O => Ret (0, sender, env)
  | Datatypes.S budget =>
      '(packet, sender) ← rs_GetRtpPacketForImmediateSend send_time (new_buffer size) sender;
      match packet with
      | [] => Ret (0, sender, env)
      | _ =>
          env ← SendPacket packet env;
          '(n, sender, env) ← rtp_loop budget send_time size sender env;
          Ret (n + 1, sender, env)
      end
  end.

Fixpoint SendJustTheRtpPackets (send_time size num_packets_to_send : Z)
    (entries : list SenderEntry) (env : Environment)
    : outcome (Z * list SenderEntry * Environment) :=
  match entries with
  | [] => Ret (0, [], env)
  | e :: rest =>
      if num_packets_to_send <=? 0 then Ret (0, entries, env)
      else if send_time <? next_rtp_send_time e then
        '(n, rest, env) ← SendJustTheRtpPackets send_time size num_packets_to_send rest env;
        Ret (n, e :: rest, env)
      else
        '(m, sender, env) ←
          rtp_loop (Z.to_nat num_packets_to_send) send_time size (entry_sender e) env;
        resume ← rs_GetRtpResumeTime sender;
        let e := e <| entry_sender := sender |> <| next_rtp_send_time := resume |> in
        '(n, rest, env) ← SendJustTheRtpPackets send_time size (num_packets_to_send - m) rest env;
        Ret (m + n, e :: rest, env)
  end.

Definition SendBurstOfPackets (now : Z) (r : SenderPacketRouter) : outcome SenderPacketRouter :=
  let burst_time := now in
  '(num_rtcp, entries, env) ←
    SendJustTheRtcpPackets burst_time (packet_buffer_size_ r) (senders_ r) (environment_ r);
  '(num_rtp, entries, env) ←
    SendJustTheRtpPackets burst_time (packet_buffer_size_ r) (max_packets_per_burst_ r - num_rtcp)
      entries env;
  let r := r <| senders_ := entries |> <| environment_ := env |> in
  let r := r <| last_burst_time_ := burst_time |> in
  b ← OnBurstComplete (num_rtcp + num_rtp) burst_time (bandwidth_ r);
  ScheduleNextBurst now (r <| bandwidth_ := b |>).

(** The task runner calls the alarm's functor at [i], which may run the burst. *)
Definition alarm_fires (now : Z) (i : nat) (r : SenderPacketRouter)
    : outcome (bool * SenderPacketRouter) :=
  '(task, alarm) ← functor_call now i (alarm_ r);
  let r := r <| alarm_ := alarm |> in
  match task with
  | None => Ret (false, r)
  | Some tt => r ← SendBurstOfPackets now r; Ret (true, r)
  end.
End SenderRouter.
