(* ===== verification/SenderRouterInv.v ===== *)
(** The invariant of the senders' packet router (SenderRouter.v) and the proof
    that its operations keep it and do not fail, for any sender that keeps its
    side of the interface. *)

From S2P Require Import Prelude Numeric Wire Ids RtpDefines RtcpCommon Bandwidth Alarm Environment.
From S2P Require Import SenderRouter.

(** * The laws of the interface *)

(** What a sender may call on its router. *)
Definition call_ok (ssrc : Z) (c : RouterCall) : Prop :=
  match c with
  | CallRequestRtcpSend s | CallRequestRtpSend s => s = ssrc
  | CallOnRtcpReceived _ rtt => 0 <= rtt
  | CallOnPayloadReceived bytes t rtt => 0 <= bytes /\ t < kNeverSend /\ 0 <= rtt
  end.

(** [rs_ok ssrc size s]: the sender [s], for the receiver [ssrc], is in a state
    in which it can fill buffers of [size] bytes.  The only fault an operation
    may have is to read past the end of a packet received. *)
Class RouterSenderLaws (S : Type) `{RouterSender S} := {
  rs_ok : Z -> Z -> S -> Prop;
  rs_received ssrc size s t packet :
    rs_ok ssrc size s -> t < kNeverSend -> bytes_ok packet ->
    (exists s' calls, rs_OnReceivedRtcpPacket t packet s = Ret (s', calls)
       /\ rs_ok ssrc size s' /\ Forall (call_ok ssrc) calls)
    \/ rs_OnReceivedRtcpPacket t packet s = Fault OutOfBounds;
  rs_get_rtcp ssrc size s t :
    rs_ok ssrc size s -> kRequiredNetworkPacketSize < size -> t < kNeverSend ->
    exists packet s', rs_GetRtcpPacketForImmediateSend t (new_buffer size) s = Ret (packet, s')
      /\ rs_ok ssrc size s';
  rs_get_rtp ssrc size s t :
    rs_ok ssrc size s -> kRequiredNetworkPacketSize < size -> t < kNeverSend ->
    exists packet s', rs_GetRtpPacketForImmediateSend t (new_buffer size) s = Ret (packet, s')
      /\ rs_ok ssrc size s';
  rs_resume ssrc size s :
    rs_ok ssrc size s -> returns (rs_GetRtpResumeTime s) }.

Section RouterInv.
Context {S : Type} {RS : RouterSender S} {RL : RouterSenderLaws S}.
Implicit Types (r : SenderPacketRouter (S := S)) (e : SenderEntry (S := S))
  (es : list (SenderEntry (S := S))).

(** * Scheduling *)

Definition send_time e : Z := Z.min (next_rtcp_send_time e) (next_rtp_send_time e).

(** The earliest time at which a sender wants to send. *)
Definition earliest (es : list SenderEntry) : Z := foldr (fun e m => Z.min (send_time e) m) kNeverSend es.

Lemma earliest_cons e es : earliest (e :: es) = Z.min (send_time e) (earliest es).
Proof. done. Qed.

Lemma earliest_le es : earliest es <= kNeverSend.
Proof. induction es as [| e es IH]; [done | rewrite earliest_cons; lia]. Qed.

Lemma earliest_lookup es i e : es !! i = Some e -> earliest es <= send_time e.
Proof.
  revert i. induction es as [| x es IH]; intros [| i] Hi; try done; rewrite earliest_cons.
  - injection Hi as ->. lia.
  - specialize (IH _ Hi). lia.
Qed.

Lemma next_burst_loop_spec allowed next es :
  allowed < next -> next <= kNeverSend ->
  next_burst_loop allowed next es =
    if earliest es <? next then Z.max allowed (earliest es) else next.
Proof.
  revert next. induction es as [| e es IH]; intros next Ha Hn.
  - cbn. by rewrite (proj2 (Z.ltb_ge _ _)).
  - cbn [next_burst_loop]. fold (send_time e). rewrite earliest_cons.
    destruct (Z.leb_spec next (send_time e)) as [Hle | Hgt]; [| destruct (Z.leb_spec (send_time e) allowed)];
      rewrite ?IH by lia; repeat (case_bool; try lia).
Qed.

Definition allowed_time r : Z := last_burst_time_ r + interval_duration (burst_interval_ r).

Lemma ScheduleNextBurst_ok now r :
  alarm_ok (alarm_ r) -> allowed_time r < kNeverSend ->
  exists a, ScheduleNextBurst now r = Ret (r <| alarm_ := a |>) /\ alarm_ok a /\
    pending a = if earliest (senders_ r) =? kNeverSend then None
                else Some (tt, Z.max now (Z.max (allowed_time r) (earliest (senders_ r)))).
Proof.
  intros Hok Ha. unfold ScheduleNextBurst. fold (allowed_time r).
  pose proof (earliest_le (senders_ r)).
  rewrite next_burst_loop_spec by (unfold kNeverSend in *; lia).
  destruct (Z.ltb_spec (earliest (senders_ r)) kNeverSend).
  - rewrite !(proj2 (Z.eqb_neq _ _)) by lia.
    destruct (ScheduleWithTask_ok now tt (Z.max (allowed_time r) (earliest (senders_ r)))
      (alarm_ r) Hok) as (a & -> & Hok' & Hp). by exists a.
  - rewrite !(proj2 (Z.eqb_eq _ _)) by lia. exists (Cancel (alarm_ r)). split; [done |].
    split; [| done]. by apply Cancel_ok.
Qed.

(** * Bursts *)

Definition entries_ok (size : Z) (es : list SenderEntry) : Prop :=
  Forall (fun e => rs_ok (entry_ssrc e) size (entry_sender e)) es.

(** What a burst at [t] does about the RTCP of an entry: the packets sent. *)
Definition rtcp_sent (t size : Z) e (packets : list (list Z)) e' : Prop :=
  if t <? next_rtcp_send_time e then packets = [] /\ e' = e
  else exists packet s',
    rs_GetRtcpPacketForImmediateSend t (new_buffer size) (entry_sender e) = Ret (packet, s') /\
    match packet with
    | [] => packets = [] /\ e' = e <| entry_sender := s' |>
    | _ => packets = [packet] /\
           e' = e <| entry_sender := s' |>
                  <| next_rtcp_send_time := t + interval_duration kRtcpReportInterval |>
    end.

Section Burst.
Context (t size : Z) (Ht : t < kNeverSend) (Hsize : kRequiredNetworkPacketSize < size).

Lemma SendJustTheRtcpPackets_ok es env :
  entries_ok size es -> peer_known env ->
  exists pss es' env', SendJustTheRtcpPackets t size es env = Ret (zlen (concat pss), es', env')
    /\ Forall3 (rtcp_sent t size) es pss es' /\ sends_more (concat pss) env env'
    /\ entries_ok size es' /\ map entry_ssrc es' = map entry_ssrc es
    /\ zlen (concat pss) <= zlen es.
Proof using Ht Hsize RL.
  revert env. induction es as [| e es IH]; intros env Hes Hpeer; cbn [SendJustTheRtcpPackets].
  { exists [], [], env. split; [done |]. split; [constructor |]. split; [auto with router |].
    by split; [constructor |]. }
  apply Forall_cons in Hes as [He Hes]. unfold rtcp_sent.
  destruct (t <? next_rtcp_send_time e) eqn:Edue.
  - destruct (IH env Hes Hpeer) as (pss & es' & env' & -> & Hf & Hs & Hok & Hm & Hl).
    exists ([] :: pss), (e :: es'), env'. cbn [mbind outcome_bind concat app].
    split; [done |]. split; [constructor; [by rewrite Edue | done] |]. split; [done |].
    split; [by constructor |]. split; [cbn; by rewrite Hm |]. rewrite zlen_cons. lia.
  - destruct (rs_get_rtcp _ _ _ t He Hsize Ht) as (packet & s' & E & Hok'). rewrite E.
    cbn [mbind outcome_bind]. destruct packet as [| b packet].
    + destruct (IH env Hes Hpeer) as (pss & es' & env' & -> & Hf & Hs & Hok & Hm & Hl).
      exists ([] :: pss), (e <| entry_sender := s' |> :: es'), env'.
      split; [done |]. split.
      { constructor; [rewrite Edue; by exists [], s' | done]. }
      split; [done |]. split; [by constructor |]. split; [cbn; by rewrite Hm |].
      rewrite zlen_cons. cbn [concat app]. lia.
    + rewrite SendPacket_ok by done. cbn [mbind outcome_bind].
      set (env1 := env <| sent_packets := _ |>).
      assert (sends_more [b :: packet] env env1) as Hs1 by done.
      destruct (IH env1 Hes) as (pss & es' & env' & -> & Hf & Hs & Hok & Hm & Hl);
        [by eauto with router |].
      exists ([b :: packet] :: pss),
        (e <| entry_sender := s' |>
           <| next_rtcp_send_time := t + interval_duration kRtcpReportInterval |> :: es'), env'.
      cbn [mbind outcome_bind concat app]. split; [by rewrite zlen_cons, Z.add_comm |]. split.
      { constructor; [rewrite Edue; by exists (b :: packet), s' | done]. }
      split; [by apply (sends_more_trans [b :: packet] _ env env1) |].
      split; [by constructor |]. split; [cbn; by rewrite Hm |]. rewrite !zlen_cons. lia.
Qed.

(** ** RTP: the packets a sender provides one after another *)

Inductive rtp_run : S -> list (list Z) -> S -> Prop :=
  | rtp_run_nil s : rtp_run s [] s
  | rtp_run_cons s packet s1 packets s2 :
      packet <> [] -> rs_GetRtpPacketForImmediateSend t (new_buffer size) s = Ret (packet, s1) ->
      rtp_run s1 packets s2 -> rtp_run s (packet :: packets) s2.

(** All a sender has to send at [t]. *)
Definition exhausted (s : S) (packets : list (list Z)) (s' : S) : Prop :=
  exists s1, rtp_run s packets s1 /\
    rs_GetRtpPacketForImmediateSend t (new_buffer size) s1 = Ret ([], s').

Lemma rtp_loop_ok budget ssrc s env :
  rs_ok ssrc size s -> peer_known env ->
  exists packets s' env', rtp_loop budget t size s env = Ret (zlen packets, s', env')
    /\ sends_more packets env env' /\ rs_ok ssrc size s'
    /\ (length packets = budget /\ rtp_run s packets s'
        \/ (length packets < budget)%nat /\ exhausted s packets s').
Proof using Ht Hsize RL.
  revert s env. induction budget as [| budget IH]; intros s env Hs Hpeer; cbn [rtp_loop].
  { exists [], s, env. repeat split; auto using rtp_run_nil with router. }
  destruct (rs_get_rtp _ _ _ t Hs Hsize Ht) as (packet & s1 & E & Hs1). rewrite E.
  cbn [mbind outcome_bind]. destruct packet as [| b packet].
  { exists [], s1, env. repeat split; auto with router. right. split; [cbn; lia |].
    exists s. by split; [constructor |]. }
  rewrite SendPacket_ok by done. cbn [mbind outcome_bind]. set (env1 := env <| sent_packets := _ |>).
  assert (sends_more [b :: packet] env env1) as Hm1 by done.
  destruct (IH s1 env1 Hs1) as (packets & s' & env' & -> & Hm & Hs' & Hrun);
    [by eauto with router |].
  exists ((b :: packet) :: packets), s', env'. cbn [mbind outcome_bind].
  split; [by rewrite zlen_cons, Z.add_comm |].
  split; [by apply (sends_more_trans [b :: packet] _ env env1) |]. split; [done |].
  destruct Hrun as [[Hl Hrun] | [Hl (s2 & Hrun & E2)]]; [left | right].
  - split; [cbn; lia |]. by apply rtp_run_cons with s1.
  - split; [cbn; lia |]. exists s2. split; [by apply rtp_run_cons with s1 | done].
Qed.

(** The RTP packets of a burst, one list for each entry. *)
Inductive rtp_burst : Z -> list SenderEntry -> list (list (list Z)) -> list SenderEntry -> Prop :=
  | burst_none b : rtp_burst b [] [] []
  | burst_full b es : b <= 0 -> rtp_burst b es (map (fun _ => []) es) es
  | burst_later b e es pss es' :
      0 < b -> t < next_rtp_send_time e -> rtp_burst b es pss es' ->
      rtp_burst b (e :: es) ([] :: pss) (e :: es')
  | burst_serve b e packets s' resume es pss es' :
      0 < b -> next_rtp_send_time e <= t -> rs_GetRtpResumeTime s' = Ret resume ->
      zlen packets = b /\ rtp_run (entry_sender e) packets s'
      \/ zlen packets < b /\ exhausted (entry_sender e) packets s' ->
      rtp_burst (b - zlen packets) es pss es' ->
      rtp_burst b (e :: es) (packets :: pss)
        (e <| entry_sender := s' |> <| next_rtp_send_time := resume |> :: es').

Lemma concat_nils (es : list (SenderEntry (S := S))) :
  concat (map (fun _ => @nil (list Z)) es) = [].
Proof using. by induction es. Qed.

Lemma SendJustTheRtpPackets_ok b es env :
  entries_ok size es -> peer_known env ->
  exists pss es' env', SendJustTheRtpPackets t size b es env = Ret (zlen (concat pss), es', env')
    /\ rtp_burst b es pss es' /\ sends_more (concat pss) env env'
    /\ entries_ok size es' /\ map entry_ssrc es' = map entry_ssrc es.
Proof using Ht Hsize RL.
  revert b env. induction es as [| e es IH]; intros b env Hes Hpeer; cbn [SendJustTheRtpPackets].
  { exists [], [], env. split; [done |]. split; [constructor |]. split; [auto with router | done]. }
  destruct (Z.leb_spec b 0).
  { exists (map (fun _ => []) (e :: es)), (e :: es), env. rewrite concat_nils.
    split; [done |]. split; [by constructor |]. split; [auto with router | done]. }
  apply Forall_cons in Hes as [He Hes]. destruct (Z.ltb_spec t (next_rtp_send_time e)).
  - destruct (IH b env Hes Hpeer) as (pss & es' & env' & -> & Hb & Hs & Hok & Hm).
    exists ([] :: pss), (e :: es'), env'. split; [done |]. split; [by constructor |].
    split; [done |]. split; [by constructor | cbn; by rewrite Hm].
  - destruct (rtp_loop_ok (Z.to_nat b) _ _ env He Hpeer) as (ps & s1 & env1 & -> & Hs1 & Hok1 & Hrun).
    cbn [mbind outcome_bind]. pose proof (rs_resume _ _ _ Hok1) as [resume Hr]. rewrite Hr.
    cbn [mbind outcome_bind].
    destruct (IH (b - zlen ps) env1 Hes) as (pss & es' & env' & -> & Hb & Hs & Hok & Hm);
      [by eauto with router |].
    eexists (ps :: pss), (_ :: es'), env'. cbn [mbind outcome_bind concat].
    split; [by rewrite zlen_app |]. split.
    { apply burst_serve; [lia | lia | done | | done].
      unfold zlen. destruct Hrun as [[Hl Hrun] | [Hl Hrun]]; [left | right]; (split; [lia | done]). }
    split; [by eauto with router |]. split; [by constructor | cbn; by rewrite Hm].
Qed.

Lemma concat_length_le (pss : list (list (list Z))) j ps :
  pss !! j = Some ps -> zlen ps <= zlen (concat pss).
Proof using.
  intros Hj. rewrite <- (take_drop_middle pss j ps Hj), concat_app. cbn [concat].
  rewrite !zlen_app.
  pose proof (zlen_nonneg (concat (take j pss))). pose proof (zlen_nonneg (concat (drop (Datatypes.S j) pss))). lia.
Qed.

(** The budget bounds the burst; a burst within it leaves nothing unsent. *)
Lemma rtp_burst_bound b es pss es' :
  rtp_burst b es pss es' -> zlen (concat pss) <= Z.max 0 b.
Proof using.
  induction 1 as [| b es Hb | | b e packets s' resume es pss es' Hb _ _ Hrun _ IH];
    cbn [concat app]; rewrite ?concat_nils, ?zlen_nil, ?zlen_app; lia.
Qed.

Lemma rtp_burst_ssrcs b es pss es' :
  rtp_burst b es pss es' -> map entry_ssrc es' = map entry_ssrc es.
Proof using. induction 1; cbn; congruence. Qed.

Lemma rtp_burst_length b es pss es' : rtp_burst b es pss es' -> length pss = length es.
Proof using. induction 1; cbn; rewrite ?length_map; congruence. Qed.

(** When an entry sends, every due entry before it has nothing more to send. *)
Lemma rtp_burst_priority b es pss es' i j e e' packets later :
  rtp_burst b es pss es' -> es !! i = Some e -> es' !! i = Some e' -> pss !! i = Some packets ->
  next_rtp_send_time e <= t ->
  ((i < j)%nat /\ pss !! j = Some later /\ later <> []) \/ zlen (concat pss) < b ->
  exhausted (entry_sender e) packets (entry_sender e').
Proof using.
  intros Hb. revert i j. induction Hb as [b | b es Hb | b e0 es pss es' Hb Hlate Hburst IH
    | b e0 packets0 s' resume es pss es' Hb Hdue Hr Hrun Hburst IH]; intros i j Hi Hi' Hp Hd Hj.
  - done.
  - exfalso. destruct Hj as [(_ & Hj & Hne) | Hj].
    + apply list_lookup_fmap_Some in Hj as (? & -> & _). done.
    + rewrite concat_nils, zlen_nil in Hj. lia.
  - destruct i as [| i]; cbn in Hi, Hi', Hp; [injection Hi as ->; lia |].
    apply (IH i (j - 1)%nat Hi Hi' Hp Hd). destruct Hj as [(Hlt & Hj & Hne) | Hj]; [left | by right].
    destruct j as [| j]; [lia |]. rewrite Nat.sub_1_r. split; [cbn; lia | done].
  - assert (0 <= zlen (concat pss)) by apply zlen_nonneg.
    destruct i as [| i]; cbn in Hi, Hi', Hp.
    + injection Hi as ->. injection Hi' as <-. injection Hp as ->.
      destruct Hrun as [[Hl _] | [_ Hrun]]; [| done]. exfalso.
      destruct Hj as [(Hlt & Hj & Hne) | Hj].
      * destruct j as [| j]; [lia |]. cbn in Hj. apply Hne.
        pose proof (rtp_burst_bound _ _ _ _ Hburst). pose proof (concat_length_le _ _ _ Hj).
        destruct later; [done |]. rewrite zlen_cons in *. pose proof (zlen_nonneg later). lia.
      * cbn [concat] in Hj. rewrite zlen_app in Hj. lia.
    + apply (IH i (j - 1)%nat Hi Hi' Hp Hd). destruct Hj as [(Hlt & Hj & Hne) | Hj]; [left | right].
      * destruct j as [| j]; [lia |]. rewrite Nat.sub_1_r. split; [cbn; lia | done].
      * cbn [concat] in Hj. rewrite zlen_app in Hj. lia.
Qed.
End Burst.

(** * The invariant *)

Definition higher_priority (a b : Z) : Prop := ComparePriority a b < 0.

(** [now] is the latest reading of the clock; a second is kept free above it for
    the burst interval. *)
Record core_ok (now : Z) r : Prop := {
  ro_alarm : alarm_ok (alarm_ r);
  ro_size : kRequiredNetworkPacketSize < packet_buffer_size_ r;
  ro_budget : 0 < max_packets_per_burst_ r;
  ro_interval : 0 < burst_interval_ r <= 1000;
  ro_peer : peer_known (environment_ r);
  ro_consumer : packet_consumer_ (environment_ r) = negb (bool_decide (senders_ r = []));
  ro_entries : entries_ok (packet_buffer_size_ r) (senders_ r);
  ro_ssrcs : Forall (is_u 32) (map entry_ssrc (senders_ r));
  ro_order : StronglySorted higher_priority (map entry_ssrc (senders_ r));
  ro_last : last_burst_time_ r <= now;
  ro_now : now < kNeverSend - 1000000 }.

(** The next burst is as early as the pacing and the senders allow. *)
Record router_ok (now : Z) r : Prop := {
  ro_core : core_ok now r;
  ro_paced : forall due, pending (alarm_ r) = Some (tt, due) -> allowed_time r <= due;
  ro_live : earliest (senders_ r) < kNeverSend ->
    exists due, pending (alarm_ r) = Some (tt, due)
      /\ due <= Z.max now (Z.max (allowed_time r) (earliest (senders_ r))) }.

Lemma core_allowed now r : core_ok now r -> allowed_time r < kNeverSend.
Proof using. intros []. unfold allowed_time, interval_duration. lia. Qed.

Lemma router_later now now' r :
  router_ok now r -> now <= now' < kNeverSend - 1000000 -> router_ok now' r.
Proof using.
  intros [[] Hp Hl] Hn. constructor; [constructor; try done; lia | done |].
  intros He. destruct (Hl He) as (due & E & Hd). exists due. split; [done | lia].
Qed.

(** Scheduling restores the invariant. *)
Lemma schedule_ok now r :
  core_ok now r -> exists a, ScheduleNextBurst now r = Ret (r <| alarm_ := a |>)
    /\ router_ok now (r <| alarm_ := a |>).
Proof using.
  intros Hok. pose proof (core_allowed _ _ Hok) as Ha.
  destruct (ScheduleNextBurst_ok now r (ro_alarm _ _ Hok) Ha) as (a & E & Hoka & Hp).
  exists a. split; [done |]. pose proof (earliest_le (senders_ r)).
  constructor; [by destruct Hok | |]; cbn [alarm_ senders_ update]; rewrite Hp.
  - intros due Hd. change (allowed_time r <= due). destruct (_ =? _); [done |]. injection Hd as <-. lia.
  - intros He. change (earliest (senders_ r) < kNeverSend) in He.
    rewrite (proj2 (Z.eqb_neq _ _)) by lia. eexists. split; [done |].
    apply Z.le_refl.
Qed.

(** ** Entries *)

Lemma higher_priority_trans a b c : higher_priority a b -> higher_priority b c -> higher_priority a c.
Proof using. unfold higher_priority, ComparePriority. lia. Qed.

Lemma FindEntry_Some ssrc r i e :
  FindEntry ssrc r = Some (i, e) -> senders_ r !! i = Some e /\ entry_ssrc e = ssrc.
Proof using. intros H. apply list_find_Some in H as (? & ? & _). done. Qed.

Lemma FindEntry_None ssrc r : FindEntry ssrc r = None <-> ssrc ∉ map entry_ssrc (senders_ r).
Proof using.
  unfold FindEntry. rewrite list_find_None, Forall_forall. split.
  - intros H (e & -> & Hin)%list_elem_of_fmap. by apply (H e).
  - intros H e Hin <-. apply H, list_elem_of_fmap_2, Hin.
Qed.

Lemma FindEntry_is_Some ssrc r :
  ssrc ∈ map entry_ssrc (senders_ r) -> exists i e, FindEntry ssrc r = Some (i, e).
Proof using.
  intros H. destruct (FindEntry ssrc r) as [[i e] |] eqn:E; [by exists i, e |].
  by apply FindEntry_None in E.
Qed.

(** A change of one entry that keeps its SSRC and the sender's state good. *)
Lemma core_set_senders now r es :
  core_ok now r -> map entry_ssrc es = map entry_ssrc (senders_ r) ->
  entries_ok (packet_buffer_size_ r) es -> core_ok now (r <| senders_ := es |>).
Proof using.
  intros [] Hm He. constructor; try done; cbn [senders_ environment_ update]; try by rewrite Hm.
  rewrite ro_consumer0. f_equal. apply bool_decide_ext.
  split; intros E; apply (f_equal length) in Hm; rewrite !length_map in Hm;
    apply length_zero_iff_nil; [rewrite Hm | rewrite <- Hm]; by rewrite E.
Qed.

Lemma map_alter_ssrc f i (es : list SenderEntry) :
  (forall e, entry_ssrc (f e) = entry_ssrc e) ->
  map entry_ssrc (alter f i es) = map entry_ssrc es.
Proof using.
  intros Hf. revert i. induction es as [| e es IH]; intros [| i]; cbn; try done.
  - by rewrite Hf.
  - by rewrite IH.
Qed.

Lemma entries_alter size f i es :
  (forall e, entry_ssrc (f e) = entry_ssrc e /\ entry_sender (f e) = entry_sender e) ->
  entries_ok size es -> entries_ok size (alter f i es).
Proof using.
  intros Hf He. apply Forall_alter; [done |]. intros e _ H. destruct (Hf e) as [-> ->]. done.
Qed.

(** ** Operations *)

(** What operations other than bursts leave alone. *)
Definition same_pace r r' : Prop :=
  last_burst_time_ r' = last_burst_time_ r /\ burst_interval_ r' = burst_interval_ r
  /\ max_packets_per_burst_ r' = max_packets_per_burst_ r.

Record kept r r' : Prop := {
  k_ssrcs : map entry_ssrc (senders_ r') = map entry_ssrc (senders_ r);
  k_env : environment_ r' = environment_ r;
  k_pace : same_pace r r' }.

Lemma kept_refl r : kept r r.
Proof using. by constructor. Qed.
Lemma kept_trans r1 r2 r3 : kept r1 r2 -> kept r2 r3 -> kept r1 r3.
Proof using.
  intros [? ? (? & ? & ?)] [? ? (? & ? & ?)]. constructor; [congruence | congruence |].
  unfold same_pace in *. repeat split; congruence.
Qed.

(** Only the send times of the entry at [i] differ. *)
Definition only_times (i : nat) r r' : Prop :=
  forall j e, senders_ r !! j = Some e -> exists e', senders_ r' !! j = Some e'
    /\ entry_sender e' = entry_sender e /\ entry_ssrc e' = entry_ssrc e /\ (j <> i -> e' = e).

Lemma only_times_same i r r' : senders_ r' = senders_ r -> only_times i r r'.
Proof using. intros E j e Hj. exists e. by rewrite E. Qed.
Lemma only_times_trans i r1 r2 r3 : only_times i r1 r2 -> only_times i r2 r3 -> only_times i r1 r3.
Proof using.
  intros H1 H2 j e Hj. destruct (H1 j e Hj) as (e2 & Hj2 & E1 & E2 & E3).
  destruct (H2 j e2 Hj2) as (e3 & Hj3 & F1 & F2 & F3). exists e3.
  split; [done |]. split; [congruence |]. split; [congruence |]. intros Hne. by rewrite F3, E3.
Qed.

Lemma order_NoDup l : StronglySorted higher_priority l -> NoDup l.
Proof using.
  induction 1 as [| x l _ IH Hx]; constructor; [| done]. intros Hin. rewrite Forall_forall in Hx.
  specialize (Hx x Hin). unfold higher_priority, ComparePriority in Hx. lia.
Qed.

Lemma FindEntry_at now r i e :
  core_ok now r -> senders_ r !! i = Some e -> FindEntry (entry_ssrc e) r = Some (i, e).
Proof using.
  intros Hok Hi. apply list_find_Some. split; [done |]. split; [done |]. intros j y Hj Hlt Hy.
  pose proof (order_NoDup _ (ro_order _ _ Hok)) as Hnd.
  enough (j = i) by lia. apply (NoDup_lookup _ j i (entry_ssrc e) Hnd).
  - change (map entry_ssrc (senders_ r)) with (entry_ssrc <$> senders_ r).
    by rewrite list_lookup_fmap, Hj, <- Hy.
  - change (map entry_ssrc (senders_ r)) with (entry_ssrc <$> senders_ r).
    by rewrite list_lookup_fmap, Hi.
Qed.

(** A sender's request: its time is set, the burst rescheduled. *)
Lemma request_ok now f i r :
  core_ok now r -> (forall e, entry_ssrc (f e) = entry_ssrc e /\ entry_sender (f e) = entry_sender e) ->
  exists r', ScheduleNextBurst now (r <| senders_ := alter f i (senders_ r) |>) = Ret r'
    /\ router_ok now r' /\ kept r r' /\ only_times i r r'.
Proof using.
  intros Hok Hf.
  assert (map entry_ssrc (alter f i (senders_ r)) = map entry_ssrc (senders_ r)) as Hm
    by (apply map_alter_ssrc; apply Hf).
  destruct (schedule_ok now (r <| senders_ := alter f i (senders_ r) |>)) as (a & E & Hok').
  { apply core_set_senders; [done | done |]. apply entries_alter; [done |]. by destruct Hok. }
  eexists. split; [exact E |]. split; [done |]. split; [by constructor |].
  intros j e Hj. cbn [senders_ update]. destruct (decide (i = j)) as [-> | Hne].
  - exists (f e). rewrite list_lookup_alter_eq, Hj. by destruct (Hf e) as [-> ->].
  - exists e. by rewrite list_lookup_alter_ne.
Qed.

Lemma router_call_ok now c i e r :
  router_ok now r -> senders_ r !! i = Some e -> call_ok (entry_ssrc e) c ->
  exists r', router_call now c r = Ret r' /\ router_ok now r' /\ kept r r' /\ only_times i r r'.
Proof using.
  intros Hok Hi Hc. pose proof (FindEntry_at _ _ _ _ (ro_core _ _ Hok) Hi) as Hfind.
  destruct c as [s | s | t rtt | bytes t rtt]; cbn in Hc |- *; subst.
  - unfold RequestRtcpSend. rewrite Hfind. by apply request_ok; [apply Hok |].
  - unfold RequestRtpSend. rewrite Hfind. by apply request_ok; [apply Hok |].
  - unfold OnRtcpReceived. rewrite OSP_CHECK_leb by done. cbn [mbind outcome_bind].
    eexists. split; [reflexivity |]. split; [| split; [by constructor | by apply only_times_same]].
    destruct Hok as [[] Hp Hl]. by constructor; [constructor | |].
  - destruct Hc as (Hb & Ht & Hrtt). unfold OnPayloadReceived.
    rewrite (OSP_CHECK_leb 0 bytes), (OSP_CHECK_ltb t), (OSP_CHECK_leb 0 rtt) by done.
    cbn [mbind outcome_bind]. eexists. split; [reflexivity |].
    split; [| split; [by constructor | by apply only_times_same]].
    destruct Hok as [[] Hp Hl]. by constructor; [constructor | |].
Qed.

Lemma router_calls_ok now cs i e r :
  router_ok now r -> senders_ r !! i = Some e -> Forall (call_ok (entry_ssrc e)) cs ->
  exists r', router_calls now cs r = Ret r' /\ router_ok now r' /\ kept r r' /\ only_times i r r'.
Proof using.
  revert e r. induction cs as [| c cs IH]; intros e r Hok Hi Hcs; cbn [router_calls].
  { exists r. auto using kept_refl, only_times_same. }
  apply Forall_cons in Hcs as [Hc Hcs].
  destruct (router_call_ok now c i e r Hok Hi Hc) as (r1 & -> & Hok1 & Hk1 & Ho1).
  cbn [mbind outcome_bind]. destruct (Ho1 i e Hi) as (e1 & Hi1 & _ & Hssrc & _).
  destruct (IH e1 r1 Hok1 Hi1) as (r2 & -> & Hok2 & Hk2 & Ho2); [by rewrite Hssrc |].
  exists r2. split; [done |]. split; [done |].
  split; [by eapply kept_trans | by eapply only_times_trans].
Qed.

Lemma map_insert_same {A B} (g : A -> B) (l : list A) i x y :
  l !! i = Some x -> g y = g x -> map g (<[i := y]> l) = map g l.
Proof using.
  intros Hi Hg. change (g <$> <[i := y]> l = g <$> l). rewrite list_fmap_insert, Hg.
  apply list_insert_id. by rewrite list_lookup_fmap, Hi.
Qed.

Lemma earliest_map es es' : map send_time es = map send_time es' -> earliest es = earliest es'.
Proof using.
  revert es'. induction es as [| e es IH]; intros [| e' es'] H; try done.
  injection H as He H. rewrite !earliest_cons, He. by rewrite (IH es').
Qed.

(** The sender at [i] moved on to [s']. *)
Lemma set_sender_ok now i e s' r :
  router_ok now r -> senders_ r !! i = Some e -> rs_ok (entry_ssrc e) (packet_buffer_size_ r) s' ->
  let r' := r <| senders_ := <[i := e <| entry_sender := s' |>]> (senders_ r) |> in
  router_ok now r' /\ kept r r'.
Proof using.
  intros [Hok Hp Hl] Hi Hs. cbv zeta.
  set (es := <[i := e <| entry_sender := s' |>]> (senders_ r)).
  assert (map entry_ssrc es = map entry_ssrc (senders_ r)) as Hm by by apply (map_insert_same _ _ _ e).
  assert (earliest es = earliest (senders_ r)) as He
    by (apply earliest_map; by apply (map_insert_same _ _ _ e)).
  split; [| by constructor]. constructor; [| done | cbn [senders_ update]; by rewrite He].
  apply core_set_senders; [done | done |].
  apply Forall_insert; [by destruct Hok | done].
Qed.

(** A client or the network moved the sender at [i] on to [s']. *)
Lemma sender_moves_ok now i e s' calls r :
  router_ok now r -> senders_ r !! i = Some e -> rs_ok (entry_ssrc e) (packet_buffer_size_ r) s' ->
  Forall (call_ok (entry_ssrc e)) calls ->
  let r1 := r <| senders_ := <[i := e <| entry_sender := s' |>]> (senders_ r) |> in
  exists r', router_calls now calls r1 = Ret r' /\ router_ok now r' /\ kept r r' /\ only_times i r1 r'.
Proof using.
  intros Hok Hi Hs Hc. destruct (set_sender_ok now i e s' r Hok Hi Hs) as [Hok1 Hk1]. cbv zeta in *.
  set (r1 := r <| senders_ := _ |>) in *.
  destruct (router_calls_ok now calls i (e <| entry_sender := s' |>) r1 Hok1)
    as (r' & E & Hok' & Hk & Ho).
  - cbn. apply list_lookup_insert_eq. by eapply lookup_lt_Some.
  - done.
  - exists r'. split; [done |]. split; [done |]. split; [by eapply kept_trans | done].
Qed.

(** What becomes of a packet received. *)
Definition delivered (now arrival : Z) (packet : list Z) (i : nat) e r r' : Prop :=
  exists s' calls, rs_OnReceivedRtcpPacket arrival packet (entry_sender e) = Ret (s', calls)
    /\ only_times i (r <| senders_ := <[i := e <| entry_sender := s' |>]> (senders_ r) |>) r'.

Lemma OnReceivedPacket_ok now source arrival packet r :
  router_ok now r -> port source <> 0 -> arrival < kNeverSend -> bytes_ok packet ->
  exists type ssrc, InspectPacketForRouting packet = Ret (type, ssrc) /\
  (if bool_decide (source = remote_endpoint_ (environment_ r) /\ type = RTCP) then
     match FindEntry ssrc r with
     | None => OnReceivedPacket source arrival now packet r = Ret r
     | Some (i, e) =>
         (exists r', OnReceivedPacket source arrival now packet r = Ret r'
            /\ router_ok now r' /\ kept r r' /\ delivered now arrival packet i e r r')
         \/ OnReceivedPacket source arrival now packet r = Fault OutOfBounds
            /\ rs_OnReceivedRtcpPacket arrival packet (entry_sender e) = Fault OutOfBounds
     end
   else OnReceivedPacket source arrival now packet r = Ret r).
Proof using.
  intros Hok Hport Ha Hb. unfold OnReceivedPacket.
  rewrite OSP_CHECK_neqb by done. cbn [mbind outcome_bind].
  destruct (InspectPacketForRouting_total packet) as [[type ssrc] ->].
  exists type, ssrc. split; [done |]. cbn [mbind outcome_bind].
  rewrite bool_decide_and.
  destruct (bool_decide (source = _)); [| done]. destruct (bool_decide (type = RTCP)); [| done].
  cbn [negb andb].
  destruct (FindEntry ssrc r) as [[i e] |] eqn:Hfind; [| done].
  apply FindEntry_Some in Hfind as [Hi Hssrc].
  pose proof (Forall_lookup_1 _ _ _ _ (ro_entries _ _ (ro_core _ _ Hok)) Hi) as Hs.
  destruct (rs_received _ _ _ arrival packet Hs Ha Hb) as [(s' & calls & E & Hs' & Hc) | E];
    rewrite E; cbn [mbind outcome_bind]; [left | by right].
  destruct (sender_moves_ok now i e s' calls r Hok Hi Hs' Hc) as (r' & -> & Hok' & Hk & Ho).
  exists r'. split; [done |]. split; [done |]. split; [done |]. by exists s', calls.
Qed.

(** ** Registration *)

#[local] Instance entry_le_trans : Transitive (entry_le (S := S)).
Proof using. intros a b c. unfold entry_le, ComparePriority. lia. Qed.
#[local] Instance entry_le_total : Total (entry_le (S := S)).
Proof using. intros a b. unfold entry_le, ComparePriority. lia. Qed.

Lemma ComparePriority_0 a b : is_u 32 a -> is_u 32 b -> ComparePriority a b = 0 -> a = b.
Proof using.
  unfold ComparePriority, swrap, is_u. intros Ha Hb. rewrite !Z.mod_small by lia.
  repeat case_bool; lia.
Qed.

(** Sorting entries with different SSRCs puts them in strict order. *)
Lemma sorted_strictly (es : list (SenderEntry (S := S))) :
  StronglySorted entry_le es -> NoDup (map entry_ssrc es) -> Forall (is_u 32) (map entry_ssrc es) ->
  StronglySorted higher_priority (map entry_ssrc es).
Proof using.
  induction 1 as [| e es Hs IH Hle]; cbn; intros Hnd Hu; constructor;
    apply NoDup_cons in Hnd as [Hn Hnd]; apply Forall_cons in Hu as [He Hu]; [by apply IH |].
  apply Forall_map, Forall_forall. intros x Hx.
  assert (entry_ssrc x ∈ map entry_ssrc es) as Hin by by apply list_elem_of_fmap_2.
  rewrite Forall_forall in Hle. rewrite Forall_forall in Hu. specialize (Hle x Hx). unfold entry_le in Hle. unfold higher_priority.
  destruct (Z.eq_dec (ComparePriority (entry_ssrc e) (entry_ssrc x)) 0) as [E | ]; [| lia].
  apply ComparePriority_0 in E; [congruence | done | by apply Hu].
Qed.


Lemma earliest_app es es' : earliest (es ++ es') = Z.min (earliest es) (earliest es').
Proof using.
  pose proof (earliest_le es'). induction es as [| e es IH]; [cbn; unfold earliest in *; lia |].
  cbn [app]. rewrite !earliest_cons, IH. lia.
Qed.

Lemma earliest_perm es es' : es ≡ₚ es' -> earliest es = earliest es'.
Proof using. induction 1; rewrite ?earliest_cons; lia. Qed.

Lemma entries_perm size es es' : es ≡ₚ es' -> entries_ok size es -> entries_ok size es'.
Proof using. intros E H. unfold entries_ok. by rewrite <- E. Qed.

Lemma OnSenderCreated_ok now ssrc s r :
  router_ok now r -> is_u 32 ssrc -> rs_ok ssrc (packet_buffer_size_ r) s ->
  ssrc ∉ map entry_ssrc (senders_ r) ->
  exists r', OnSenderCreated ssrc s r = Ret r' /\ router_ok now r' /\ same_pace r r'
    /\ senders_ r' ≡ₚ mkEntry ssrc s kNeverSend kNeverSend :: senders_ r.
Proof using.
  intros [[] Hp Hl] Hu Hs Hn. unfold OnSenderCreated.
  rewrite OSP_CHECK_true by (by apply bool_decide_eq_true_2, FindEntry_None).
  cbn [mbind outcome_bind]. set (x := mkEntry ssrc s kNeverSend kNeverSend).
  set (es := senders_ r ++ [x]).
  assert (Hlen : zlen es = 1 + zlen (senders_ r)) by (unfold es; rewrite zlen_app; change (zlen [x]) with 1; lia).
  assert (Hperm : es ≡ₚ x :: senders_ r) by (unfold es; by rewrite Permutation_app_comm).
  assert (He : earliest es = earliest (senders_ r)).
  { unfold es. rewrite earliest_app. pose proof (earliest_le (senders_ r)). 
    change (earliest [x]) with (Z.min (Z.min kNeverSend kNeverSend) kNeverSend). lia. }
  assert (Hok : entries_ok (packet_buffer_size_ r) es) by (apply Forall_app; auto).
  change (zlen (senders_ (r <| senders_ := es |>))) with (zlen es). rewrite Hlen.
  destruct (Z.eqb_spec (1 + zlen (senders_ r)) 1) as [E | E].
  - assert (senders_ r = []) as El by (apply length_zero_iff_nil; unfold zlen in E; lia).
    assert (Hes : es = [x]) by (unfold es; by rewrite El).
    unfold ConsumeIncomingPackets. change (environment_ (r <| senders_ := es |>)) with (environment_ r).
    rewrite ro_consumer0, (bool_decide_eq_true_2 _ El).
    cbn [mbind outcome_bind OSP_CHECK negb]. eexists. split; [reflexivity |].
    split; [| by split]. rewrite Hes in *.
    constructor; [constructor; try done | exact Hp |].
    + by constructor.
    + constructor; constructor.
    + change (earliest [x] < kNeverSend -> exists due, pending (alarm_ r) = Some (tt, due)
        /\ due <= Z.max now (Z.max (allowed_time r) (earliest [x]))). by rewrite He.
  -    assert (El : senders_ r <> []) by (intros El; rewrite El in E; done).
    set (es' := merge_sort entry_le es).
    assert (Hperm' : es' ≡ₚ es) by apply merge_sort_Permutation.
    eexists. split; [reflexivity |]. split; [| split; [done | by transitivity es]].
    assert (Hne : es' <> []).
    { intros Hnil. rewrite Hnil in Hperm'. apply Permutation_length in Hperm'.
      unfold zlen in Hlen. cbn in Hperm'. lia. }
    assert (Hm : map entry_ssrc es' ≡ₚ ssrc :: map entry_ssrc (senders_ r))
      by (by rewrite Hperm', Hperm).
    assert (Hus : Forall (is_u 32) (map entry_ssrc es')) by (rewrite Hm; by constructor).
    constructor; [constructor; try done | exact Hp |]; cbn [senders_ alarm_ environment_ update].
    + rewrite ro_consumer0. by rewrite !bool_decide_eq_false_2.
    + by eapply entries_perm.
    + apply (sorted_strictly es'); [| | done].
      * apply StronglySorted_merge_sort; apply _.
      * rewrite Hm. constructor; [done | by apply order_NoDup].
    + change (earliest es' < kNeverSend -> exists due, pending (alarm_ r) = Some (tt, due)
        /\ due <= Z.max now (Z.max (allowed_time r) (earliest es'))).
      rewrite (earliest_perm _ _ Hperm'), He. done.
Qed.

Lemma StronglySorted_delete {A} (R : A -> A -> Prop) i l :
  StronglySorted R l -> StronglySorted R (delete i l).
Proof using.
  intros H. revert i. induction H as [| x l Hs IH Hx]; intros [| i]; cbn; try done; try by constructor.
  constructor; [by apply IH | by apply Forall_delete].
Qed.

Lemma OnSenderDestroyed_ok now ssrc r :
  router_ok now r -> ssrc ∈ map entry_ssrc (senders_ r) ->
  exists r', OnSenderDestroyed ssrc r = Ret r' /\ router_ok now r' /\ same_pace r r'
    /\ exists i e, FindEntry ssrc r = Some (i, e) /\ senders_ r' = delete i (senders_ r).
Proof using.
  intros [[] Hp Hl] Hin. unfold OnSenderDestroyed.
  destruct (FindEntry_is_Some _ _ Hin) as (i & e & Hf). rewrite Hf.
  apply FindEntry_Some in Hf as Hi. destruct Hi as [Hi _].
  eexists. split; [reflexivity |]. set (es := delete i (senders_ r)).
  assert (Hm : map entry_ssrc es = delete i (map entry_ssrc (senders_ r)))
    by apply (list_fmap_delete entry_ssrc).
  assert (He : earliest (senders_ r) <= earliest es).
  { unfold es. rewrite delete_take_drop. rewrite <- (take_drop_middle _ _ _ Hi) at 1.
    rewrite !earliest_app, earliest_cons. lia. }
  assert (Hlive : earliest es < kNeverSend -> exists due, pending (alarm_ r) = Some (tt, due)
    /\ due <= Z.max now (Z.max (allowed_time r) (earliest es))).
  { intros Hlt. destruct Hl as (due & E & Hd); [lia |]. exists due. split; [done | lia]. }
  assert (Hcons : packet_consumer_ (environment_ r) = true).
  { rewrite ro_consumer0, bool_decide_eq_false_2; [done |]. intros E. by rewrite E, lookup_nil in Hi. }
  split; [| split; cbn; [| exists i, e; split; [done |]]; by destruct (bool_decide (es = []))].
  change (senders_ (r <| senders_ := es |>)) with es.
  clear ro_consumer0. case_bool_decide as Hnil; (constructor; [constructor; try done | exact Hp | exact Hlive]);
    cbn [senders_ environment_ packet_buffer_size_ update];
    try (by apply Forall_delete); try (rewrite Hm; by apply Forall_delete);
    try (rewrite Hm; by apply StronglySorted_delete).
  - cbn. by rewrite Hnil.
  - cbn. rewrite Hcons. by rewrite bool_decide_eq_false_2.
Qed.

(** ** Bursts and the alarm *)

(** The burst at [t] from [r], with the packets sent for each entry. *)
Record burst (t : Z) r (rtcp rtp : list (list (list Z))) r' : Prop := {
  b_entries : exists es, Forall3 (rtcp_sent t (packet_buffer_size_ r)) (senders_ r) rtcp es
    /\ rtp_burst t (packet_buffer_size_ r) (max_packets_per_burst_ r - zlen (concat rtcp))
         es rtp (senders_ r');
  b_sent : sends_more (concat rtcp ++ concat rtp) (environment_ r) (environment_ r');
  b_rtcp : zlen (concat rtcp) <= zlen (senders_ r);
  b_last : last_burst_time_ r' = t;
  b_interval : burst_interval_ r' = burst_interval_ r;
  b_budget : max_packets_per_burst_ r' = max_packets_per_burst_ r;
  b_ssrcs : map entry_ssrc (senders_ r') = map entry_ssrc (senders_ r) }.

Lemma SendBurstOfPackets_ok now r :
  core_ok now r -> exists rtcp rtp r', SendBurstOfPackets now r = Ret r'
    /\ router_ok now r' /\ burst now r rtcp rtp r'.
Proof using.
  intros Hok. assert (now < kNeverSend) as Hnow by (destruct Hok; lia).
  unfold SendBurstOfPackets.
  destruct (SendJustTheRtcpPackets_ok now (packet_buffer_size_ r) Hnow (ro_size _ _ Hok)
    (senders_ r) (environment_ r) (ro_entries _ _ Hok) (ro_peer _ _ Hok))
    as (rtcp & es1 & env1 & -> & Hf & Hs1 & Hok1 & Hm1 & Hl). cbn [mbind outcome_bind].
  destruct (SendJustTheRtpPackets_ok now (packet_buffer_size_ r) Hnow (ro_size _ _ Hok)
    (max_packets_per_burst_ r - zlen (concat rtcp)) es1 env1 Hok1)
    as (rtp & es2 & env2 & -> & Hb & Hs2 & Hok2 & Hm2);
    [by apply (sends_more_peer _ _ _ Hs1), Hok |]. cbn [mbind outcome_bind].
  pose proof (zlen_nonneg (concat rtcp)). pose proof (zlen_nonneg (concat rtp)).
  unfold OnBurstComplete. rewrite OSP_CHECK_leb by lia. cbn [mbind outcome_bind].
  assert (sends_more (concat rtcp ++ concat rtp) (environment_ r) env2) as Hs
    by (by eapply sends_more_trans).
  match goal with |- context [ScheduleNextBurst now ?x] => set (r1 := x) end.
  assert (core_ok now r1) as Hcore.
  { pose proof (core_set_senders now r es2 Hok ltac:(congruence) Hok2) as [].
    constructor; try done.
    - by apply (sends_more_peer _ _ _ Hs).
    - cbn [environment_ senders_ r1 update]. rewrite Hs. exact ro_consumer0. }
  destruct (schedule_ok now r1 Hcore) as (a & -> & Hok').
  exists rtcp, rtp, (r1 <| alarm_ := a |>). split; [done |]. split; [done |].
  constructor; try done; [by exists es1 | cbn; congruence].
Qed.

Lemma alarm_fires_ok now i r :
  router_ok now r -> (i < length (posted (alarm_ r)))%nat ->
  exists fired r', alarm_fires now i r = Ret (fired, r') /\ router_ok now r' /\
    if (fired : bool) then allowed_time r <= now /\ exists rtcp rtp, burst now r rtcp rtp r'
    else kept r r' /\ senders_ r' = senders_ r.
Proof using.
  intros [Hok Hp Hl] Hi. unfold alarm_fires.
  destruct (functor_call_ok now i (alarm_ r) (ro_alarm _ _ Hok) Hi)
    as (task & a & -> & Ha & Ht). cbn [mbind outcome_bind].
  assert (core_ok now (r <| alarm_ := a |>)) as Hok' by (destruct Hok; by constructor).
  destruct task as [[] |].
  - destruct Ht as (due & Hd & Hdue & _).
    destruct (SendBurstOfPackets_ok now _ Hok') as (rtcp & rtp & r' & -> & Hr & Hb).
    exists true, r'. split; [done |]. split; [done |]. split; [specialize (Hp due Hd); lia |].
    exists rtcp, rtp. by destruct Hb.
  - destruct Ht as [Ht _]. exists false, (r <| alarm_ := a |>). split; [done |].
    split; [| by split; [constructor |]].
    constructor; [done | |]; cbn [alarm_ update]; rewrite Ht; done.
Qed.

End RouterInv.
