(* ===== verification/SenderRouterProps.v ===== *)
(** The properties of the senders' packet router (SenderRouter.v), from the
    lemmas of SenderRouterInv.v, for any sender that obeys the laws of the
    interface. *)

From S2P Require Import Prelude Numeric Wire Ids RtpDefines RtcpCommon Bandwidth Alarm Environment.
From S2P Require Import SenderRouter SenderRouterInv.

Section RouterProps.
Context {S : Type} {RS : RouterSender S} {RL : RouterSenderLaws S}.
Implicit Types (r : SenderPacketRouter (S := S)) (e : SenderEntry (S := S))
  (es : list (SenderEntry (S := S))).

(** * Runs *)

(** A burst that happened: its time, the packets it sent, the senders then. *)
Definition burst_event : Type := Z * Z * Z.

Definition packets_sent r : Z := zlen (sent_packets (environment_ r)).

(** One operation, at [now]. *)
Inductive router_step (now : Z) : SenderPacketRouter -> option burst_event -> SenderPacketRouter -> Prop :=
  | rstep_created r ssrc s r' :
      is_u 32 ssrc -> rs_ok ssrc (packet_buffer_size_ r) s -> ssrc ∉ map entry_ssrc (senders_ r) ->
      OnSenderCreated ssrc s r = Ret r' -> router_step now r None r'
  | rstep_destroyed r ssrc r' :
      ssrc ∈ map entry_ssrc (senders_ r) ->
      OnSenderDestroyed ssrc r = Ret r' -> router_step now r None r'
  | rstep_received r source arrival packet r' :
      port source <> 0 -> arrival < kNeverSend -> bytes_ok packet ->
      OnReceivedPacket source arrival now packet r = Ret r' -> router_step now r None r'
  | rstep_client r i e s' calls r' :   (* a call of a sender by its client *)
      senders_ r !! i = Some e -> rs_ok (entry_ssrc e) (packet_buffer_size_ r) s' ->
      Forall (call_ok (entry_ssrc e)) calls ->
      router_calls now calls
        (r <| senders_ := <[i := e <| entry_sender := s' |>]> (senders_ r) |>) = Ret r' ->
      router_step now r None r'
  | rstep_alarm r i fired r' :
      (i < length (posted (alarm_ r)))%nat -> alarm_fires now i r = Ret (fired, r') ->
      router_step now r
        (if fired then Some (now, packets_sent r' - packets_sent r, zlen (senders_ r)) else None) r'.

Inductive router_runs : Z -> SenderPacketRouter -> list burst_event -> Prop :=
  | rruns_new now env max interval r :
      INT64_MIN <= now < kNeverSend - 1000000 -> peer_known env -> packet_consumer_ env = false ->
      new_SenderPacketRouter env max interval now = Ret r -> router_runs now r []
  | rruns_step now now' r o r' bursts :
      router_runs now r bursts -> now <= now' < kNeverSend - 1000000 ->
      router_step now' r o r' -> router_runs now' r' (bursts ++ option_list o).

Ltac read_tests :=
  repeat match goal with
  | H : (_ <? _) = true |- _ => apply Z.ltb_lt in H
  | H : (_ <=? _) = true |- _ => apply Z.leb_le in H
  end.

Lemma new_router_ok now env max interval r :
  INT64_MIN <= now < kNeverSend - 1000000 -> peer_known env -> packet_consumer_ env = false ->
  new_SenderPacketRouter env max interval now = Ret r ->
  router_ok now r /\ last_burst_time_ r = INT64_MIN.
Proof using.
  intros Hn Hp Hc E. unfold new_SenderPacketRouter, new_BandwidthEstimator, ComputeMaxBurstBitrate in E.
  inv_outcome. read_tests. unfold kOneSecondInMilliseconds in *.
  split; [| done]. constructor; [| done | done].
  constructor; cbn; try done; try lia; try (by constructor); try apply new_Alarm_ok.
Qed.

(** Steps keep the invariant, and a burst is allowed by the one before. *)
Lemma router_step_ok now r o r' :
  router_ok now r -> router_step now r o r' ->
  router_ok now r' /\ burst_interval_ r' = burst_interval_ r
  /\ max_packets_per_burst_ r' = max_packets_per_burst_ r
  /\ match o with
     | None => last_burst_time_ r' = last_burst_time_ r
     | Some (t, n, k) => t = now /\ allowed_time r <= now /\ last_burst_time_ r' = now
         /\ n <= Z.max (max_packets_per_burst_ r) k
     end.
Proof using.
  intros Hok Hstep. destruct Hstep as [r ssrc s r' Hu Hs Hn E | r ssrc r' Hin E
    | r source arrival packet r' Hp Ha Hb E | r i e s' calls r' Hi Hs Hc E | r i fired r' Hi E].
  - destruct (OnSenderCreated_ok now ssrc s r Hok Hu Hs Hn) as (r1 & E1 & Hok1 & (? & ? & ?) & _).
    rewrite E in E1. by injection E1 as <-.
  - destruct (OnSenderDestroyed_ok now ssrc r Hok Hin) as (r1 & E1 & Hok1 & (? & ? & ?) & _).
    rewrite E in E1. by injection E1 as <-.
  - destruct (OnReceivedPacket_ok now source arrival packet r Hok Hp Ha Hb) as (type & ssrc & _ & H).
    assert (r' = r \/ router_ok now r' /\ kept r r') as [-> | [Hok' [_ _ (? & ? & ?)]]]; [| done | done].
    rewrite E in H. destruct (bool_decide _); [| left; congruence].
    destruct (FindEntry ssrc r) as [[i e] |]; [| left; congruence].
    destruct H as [(r1 & [= <-] & ? & ? & _) | [? _]]; [by right | done].
  - destruct (sender_moves_ok now i e s' calls r Hok Hi Hs Hc) as (r1 & E1 & Hok1 & [_ _ (? & ? & ?)] & _).
    rewrite E in E1. by injection E1 as <-.
  - destruct (alarm_fires_ok now i r Hok Hi) as (b & r1 & E1 & Hok1 & Hb).
    rewrite E in E1. injection E1 as <- <-. destruct fired.
    + destruct Hb as (Ha & rtcp & rtp & [(es & _ & Hrtp) Hs Hl ? ? ? ?]).
      repeat (split; [done |]). unfold packets_sent. rewrite Hs. cbn [sent_packets update].
      rewrite zlen_app. apply rtp_burst_bound in Hrtp.
      unfold zlen at 2. rewrite length_map, length_app. unfold zlen in *. lia.
    + by destruct Hb as [[_ _ (? & ? & ?)] _].
Qed.

Lemma router_runs_ok now r bursts :
  router_runs now r bursts ->
  router_ok now r
  /\ StronglySorted (fun a b => a.1.1 + interval_duration (burst_interval_ r) <= b.1.1) bursts
  /\ Forall (fun b => b.1.1 <= last_burst_time_ r /\ b.1.2 <= Z.max (max_packets_per_burst_ r) b.2) bursts.
Proof using.
  induction 1 as [now env max interval r Hn Hp Hc E | now now' r o r' bursts _ (Hok & Hs & Hf) Hn Hstep].
  { destruct (new_router_ok now env max interval r Hn Hp Hc E) as [Hok _].
    split; [done |]. by split; constructor. }
  apply (router_later now now') in Hok; [| done].
  destruct (router_step_ok now' r o r' Hok Hstep) as (Hok' & -> & -> & Ho). split; [done |].
  destruct o as [[[t n] k] |]; cbn [option_list]; [| rewrite app_nil_r, Ho; done].
  destruct Ho as (-> & Ha & -> & Hk). unfold allowed_time in Ha. pose proof (ro_last _ _ (ro_core _ _ Hok)). split.
  - clear Hok' Hstep. induction bursts as [| b bursts IH]; cbn; [by repeat constructor |].
    apply StronglySorted_inv in Hs as [Hs Hb]. apply Forall_cons in Hf as [[Hbl _] Hf].
    constructor; [by apply IH |]. apply Forall_app. split; [done |]. constructor; [cbn; lia | done].
  - apply Forall_app. split; [| constructor; [cbn; lia | done]].
    eapply Forall_impl; [exact Hf |]. cbn. intros b [? ?]. lia.
Qed.

(** C30 Bursts are paced.  Whatever the senders, their clients, the network and
    the task runner do, two bursts of a router are at least the burst interval
    apart, and each sends at most the maximum number of packets, or one RTCP
    packet for each sender where that is more. *)
Theorem bursts_are_paced now r bursts :
  router_runs now r bursts ->
  StronglySorted (fun a b => a.1.1 + interval_duration (burst_interval_ r) <= b.1.1) bursts
  /\ Forall (fun b => b.1.2 <= Z.max (max_packets_per_burst_ r) b.2) bursts.
Proof using.
  intros (_ & Hs & Hf)%router_runs_ok. split; [done |].
  eapply Forall_impl; [exact Hf |]. by intros ? [].
Qed.

(** C31 A sender that wants to send is served.  In every state of a router, if a
    sender has a time at which it wants to send, the alarm has a functor queued
    that is due at the latest when the sender wants to send, the pacing allows
    it, and the clock has come to it; called from then on, it sends a burst. *)
Theorem wanted_burst_happens now r bursts e :
  router_runs now r bursts -> e ∈ senders_ r -> send_time e < kNeverSend ->
  let due := Z.max now (Z.max (allowed_time r) (send_time e)) in
  exists i, queued_fire_ (alarm_ r) = Some i /\ next_fire_time_ (alarm_ r) <= due
    /\ forall later, due <= later < kNeverSend - 1000000 ->
       exists r' rtcp rtp, alarm_fires later i r = Ret (true, r') /\ burst later r rtcp rtp r'.
Proof using.
  intros [Hok _]%router_runs_ok [k Hk]%list_elem_of_lookup_1 Hsend due.
  pose proof (earliest_lookup _ _ _ Hk) as Hearly.
  destruct (ro_live _ _ Hok) as (d & Hd & Hle); [lia |].
  destruct (pending_queued _ _ _ (ro_alarm _ _ (ro_core _ _ Hok)) Hd) as (i & Hq & Hi & Hn).
  exists i. split; [done |]. split; [unfold due; lia |]. intros later Hlater.
  assert (Hil : (i < length (posted (alarm_ r)))%nat) by (by eapply lookup_lt_Some).
  destruct (alarm_fires_ok later i r) as (fired & r' & E & _ & Hb);
    [by apply (router_later now); [| unfold due in *; lia] | done |].
  destruct fired; [destruct Hb as (_ & rtcp & rtp & Hb); by exists r', rtcp, rtp |].
  exfalso. unfold alarm_fires in E.
  destruct (functor_call_ok later i (alarm_ r) (ro_alarm _ _ (ro_core _ _ Hok)) Hil)
    as (task & a & E1 & _ & Ht). rewrite E1 in E. cbn [mbind outcome_bind] in E.
  destruct task as [[] |]; [by inv_outcome |].
  destruct Ht as [_ Ht]. destruct (Ht Hq _ _ Hd). unfold due in *. lia.
Qed.

(** Streams are served in the order of their priority.  When the alarm makes
    a router send a burst, the RTCP packets of the senders go out first, then
    RTP packets within what is left of the burst's budget, the entries in the
    order of priority: if a sender's packets go out, or the budget is not used
    up, then every sender of a higher priority that was due has nothing more to
    send. *)
Theorem burst_in_priority_order now r bursts i r' :
  router_runs now r bursts -> (i < length (posted (alarm_ r)))%nat ->
  alarm_fires now i r = Ret (true, r') ->
  let size := packet_buffer_size_ r in
  exists rtcp rtp es, Forall3 (rtcp_sent now size) (senders_ r) rtcp es
    /\ sends_more (concat rtcp ++ concat rtp) (environment_ r) (environment_ r')
    /\ StronglySorted higher_priority (map entry_ssrc es)
    /\ let budget := Z.max 0 (max_packets_per_burst_ r - zlen (concat rtcp)) in
       zlen (concat rtp) <= budget
       /\ forall k e e' packets, es !! k = Some e -> senders_ r' !! k = Some e' ->
          rtp !! k = Some packets -> next_rtp_send_time e <= now ->
          zlen (concat rtp) < budget
          \/ (exists l later, (k < l)%nat /\ rtp !! l = Some later /\ later <> []) ->
          exhausted now size (entry_sender e) packets (entry_sender e').
Proof using.
  intros [Hok _]%router_runs_ok Hi E. cbv zeta.
  destruct (alarm_fires_ok now i r Hok Hi) as (fired & r1 & E1 & Hok1 & Hb).
  rewrite E in E1. injection E1 as <- <-.
  destruct Hb as (_ & rtcp & rtp & [(es & Hf & Hburst) Hs _ _ _ _ Hm]).
  exists rtcp, rtp, es. split; [done |]. split; [done |]. split.
  { rewrite <- (rtp_burst_ssrcs _ _ _ _ _ _ Hburst). apply Hok1. }
  pose proof (rtp_burst_bound _ _ _ _ _ _ Hburst) as Hbound. split; [done |].
  intros k e e' packets Hk Hk' Hp Hdue Hwhy.
  destruct Hwhy as [Hlt | (l & later & Hlt & Hl & Hne)].
  - apply (rtp_burst_priority _ _ _ _ _ _ k 0 _ _ _ packets Hburst Hk Hk' Hp Hdue). right.
    pose proof (zlen_nonneg (concat rtp)). lia.
  - apply (rtp_burst_priority _ _ _ _ _ _ k l _ _ _ later Hburst Hk Hk' Hp Hdue). by left.
Qed.

(** Packets reach the sender they are for, and no other.  A packet from
    another endpoint than the peer's, one that is not RTCP and one for an unknown
    receiver change nothing; any other is handled by the sender registered for
    its SSRC, and of the other entries nothing changes. *)
Theorem feedback_is_routed now r bursts source arrival packet r' :
  router_runs now r bursts -> port source <> 0 -> arrival < kNeverSend -> bytes_ok packet ->
  OnReceivedPacket source arrival now packet r = Ret r' ->
  exists type ssrc, InspectPacketForRouting packet = Ret (type, ssrc) /\
  (r' = r /\ (source <> remote_endpoint_ (environment_ r) \/ type <> RTCP
             \/ ssrc ∉ map entry_ssrc (senders_ r))
   \/ exists i e e' calls, source = remote_endpoint_ (environment_ r) /\ type = RTCP
        /\ entry_ssrc e = ssrc /\ senders_ r !! i = Some e /\ senders_ r' !! i = Some e'
        /\ rs_OnReceivedRtcpPacket arrival packet (entry_sender e) = Ret (entry_sender e', calls)
        /\ environment_ r' = environment_ r
        /\ forall j, j <> i -> senders_ r' !! j = senders_ r !! j).
Proof using.
  intros [Hok _]%router_runs_ok Hp Ha Hb E.
  destruct (OnReceivedPacket_ok now source arrival packet r Hok Hp Ha Hb)
    as (type & ssrc & Htype & H). rewrite E in H. exists type, ssrc. split; [done |].
  case_bool_decide as Hfrom.
  2: { left. injection H as ->. split; [done |].
       destruct (decide (source = remote_endpoint_ (environment_ r))); [| by left].
       right; left. intros Htype'. by destruct Hfrom. }
  destruct Hfrom as [-> ->]. destruct (FindEntry ssrc r) as [[i e] |] eqn:Hfind.
  2: { left. injection H as ->. split; [done |]. right; right. by apply FindEntry_None. }
  apply FindEntry_Some in Hfind as [Hi Hssrc].
  destruct H as [(r1 & [= <-] & _ & Hk & s' & calls & Hrec & Ho) | [? _]]; [| done]. right.
  assert (Hil : (i < length (senders_ r))%nat) by (by eapply lookup_lt_Some).
  destruct (Ho i (e <| entry_sender := s' |>)) as (e' & He' & Hs & _ & _);
    [by apply list_lookup_insert_eq |].
  exists i, e, e', calls. cbn in Hs. rewrite Hs. repeat (split; [done |]).
  split; [apply Hk |]. intros j Hj. destruct (senders_ r !! j) as [x |] eqn:Hx.
  - destruct (Ho j x) as (x' & Hx' & _ & _ & Hsame); [cbn; by rewrite list_lookup_insert_ne |].
    by rewrite Hx', Hsame.
  - apply lookup_ge_None in Hx. apply lookup_ge_None.
    pose proof (f_equal length (k_ssrcs _ _ Hk)) as Hlen. rewrite !length_map in Hlen. lia.
Qed.

(** The router never aborts.  In every state of a router a sender can be
    registered under an SSRC that is free, and deregistered; clients and
    functors of the alarm can run; and packets can be received, but that the
    sender they are for may read past the end of the packet. *)
Theorem router_never_aborts now r bursts :
  router_runs now r bursts ->
  (forall ssrc s, is_u 32 ssrc -> rs_ok ssrc (packet_buffer_size_ r) s ->
     if bool_decide (ssrc ∈ map entry_ssrc (senders_ r))
     then OnSenderCreated ssrc s r = Fault CheckFailed /\ returns (OnSenderDestroyed ssrc r)
     else returns (OnSenderCreated ssrc s r) /\ OnSenderDestroyed ssrc r = Fault CheckFailed)
  /\ (forall i e s' calls, senders_ r !! i = Some e ->
       rs_ok (entry_ssrc e) (packet_buffer_size_ r) s' -> Forall (call_ok (entry_ssrc e)) calls ->
       returns (router_calls now calls
         (r <| senders_ := <[i := e <| entry_sender := s' |>]> (senders_ r) |>)))
  /\ (forall i, (i < length (posted (alarm_ r)))%nat -> returns (alarm_fires now i r))
  /\ (forall source arrival packet, port source <> 0 -> arrival < kNeverSend -> bytes_ok packet ->
       returns (OnReceivedPacket source arrival now packet r)
       \/ OnReceivedPacket source arrival now packet r = Fault OutOfBounds
          /\ exists e, e ∈ senders_ r
             /\ rs_OnReceivedRtcpPacket arrival packet (entry_sender e) = Fault OutOfBounds).
Proof using.
  intros [Hok _]%router_runs_ok. split; [| split; [| split]].
  - intros ssrc s Hu Hs. case_bool_decide as Hin.
    + destruct (OnSenderDestroyed_ok now ssrc r Hok Hin) as (r' & -> & _). split; [| by eexists].
      unfold OnSenderCreated. rewrite bool_decide_eq_false_2; [done |].
      intros E. by apply FindEntry_None in E.
    + destruct (OnSenderCreated_ok now ssrc s r Hok Hu Hs Hin) as (r' & -> & _).
      split; [by eexists |]. unfold OnSenderDestroyed. by rewrite (proj2 (FindEntry_None _ _)).
  - intros i e s' calls Hi Hs Hc.
    destruct (sender_moves_ok now i e s' calls r Hok Hi Hs Hc) as (r' & -> & _). by eexists.
  - intros i Hi. destruct (alarm_fires_ok now i r Hok Hi) as (b & r' & -> & _). by eexists.
  - intros source arrival packet Hp Ha Hb.
    destruct (OnReceivedPacket_ok now source arrival packet r Hok Hp Ha Hb) as (type & ssrc & _ & H).
    destruct (bool_decide _); [| left; by eexists].
    destruct (FindEntry ssrc r) as [[i e] |] eqn:Hf; [| left; by eexists].
    destruct H as [(r' & -> & _) | [-> Hfault]]; [left; by eexists | right].
    split; [done |]. exists e. split; [| done].
    apply FindEntry_Some in Hf as [Hi _]. by eapply list_elem_of_lookup_2.
Qed.
End RouterProps.

(** * Witnesses

    A sender whose state is the RTP packets it has left to send. *)

Definition toy_queue : Type := list (list Z).

#[export] Instance toy_sender : RouterSender toy_queue := {
  rs_OnReceivedRtcpPacket _ packet q := Ret (packet :: q, []);
  rs_GetRtcpPacketForImmediateSend _ _ q := Ret ([], q);
  rs_GetRtpPacketForImmediateSend _ _ q :=
    match q with [] => Ret ([], []) | p :: q => Ret (p, q) end;
  rs_GetRtpResumeTime q := Ret (match q with [] => kNeverSend | _ => kAlarmImmediately end) }.

#[export] Instance toy_laws : RouterSenderLaws toy_queue.
Proof.
  refine {| rs_ok := fun _ _ _ => True |}.
  - intros ssrc size s t packet _ _ _. left. eexists _, _. split; [reflexivity | by split].
  - intros ssrc size s t _ _ _. eexists _, _. split; [reflexivity | exact I].
  - intros ssrc size [| p s] t _ _ _; eexists _, _; (split; [reflexivity | exact I]).
  - intros ssrc size s _. by eexists.
Defined.

Definition demo_env : Environment :=
  mkEnvironment (mkEndpoint (mkAddress kV4 [10; 0; 0; 1] 0) 2344) false [].

Definition run_of (m : outcome (SenderPacketRouter (S := toy_queue)))
    : SenderPacketRouter (S := toy_queue) :=
  match m with
  | Ret r => r
  | Fault _ => mkRouter (mkEstimator 0 0 (new_FlowTracker 0 0) (new_FlowTracker 0 0))
                 demo_env 0 0 0 0 new_Alarm [] 0
  end.

(** Two packets a burst: an audio sender with three packets, a video sender
    with one, both asking for RTP; the burst at 0 and the one at 10 ms. *)
Definition router0 := Eval vm_compute in run_of (new_SenderPacketRouter demo_env 2 10 0).
Definition router1 := Eval vm_compute in run_of (OnSenderCreated 60001 [[9]] router0).
Definition router2 := Eval vm_compute in run_of (OnSenderCreated 7 [[1]; [2]; [3]] router1).
Definition router3 := Eval vm_compute in run_of (router_calls 0 [CallRequestRtpSend 60001] router2).
Definition router4 := Eval vm_compute in run_of (router_calls 0 [CallRequestRtpSend 7] router3).
Definition router5 := Eval vm_compute in run_of (snd <$> alarm_fires 0 0 router4).
Definition router6 := Eval vm_compute in run_of (snd <$> alarm_fires 10000 1 router5).

Lemma router4_runs : router_runs 0 router4 [].
Proof.
  assert (router_runs 0 router0 []) as H0.
  { apply (rruns_new 0 demo_env 2 10); [by vm_compute | by split | done | by vm_compute]. }
  apply (rruns_step 0 0 router3 None router4 []); [| by vm_compute |].
  2: { apply (rstep_client 0 router3 0 (mkEntry 7 [[1]; [2]; [3]] kNeverSend kNeverSend)
         [[1]; [2]; [3]] [CallRequestRtpSend 7]); [done | exact I | by repeat constructor | by vm_compute]. }
  apply (rruns_step 0 0 router2 None router3 []); [| by vm_compute |].
  2: { apply (rstep_client 0 router2 1 (mkEntry 60001 [[9]] kNeverSend kNeverSend)
         [[9]] [CallRequestRtpSend 60001]); [done | exact I | by repeat constructor | by vm_compute]. }
  apply (rruns_step 0 0 router1 None router2 []); [| by vm_compute |].
  2: { apply (rstep_created 0 router1 7 [[1]; [2]; [3]]); [done | exact I | | by vm_compute].
       apply (bool_decide_unpack _). by vm_compute. }
  apply (rruns_step 0 0 router0 None router1 []); [exact H0 | by vm_compute |].
  apply (rstep_created 0 router0 60001 [[9]]); [done | exact I | | by vm_compute].
  apply (bool_decide_unpack _). by vm_compute.
Qed.

Lemma router6_runs : router_runs 10000 router6 [(0, 2, 2); (10000, 2, 2)].
Proof.
  apply (rruns_step 0 10000 router5 (Some (10000, 2, 2)) router6 [(0, 2, 2)]); [| by vm_compute |].
  2: { apply (rstep_alarm 10000 router5 1 true router6); [cbn; lia | by vm_compute]. }
  apply (rruns_step 0 0 router4 (Some (0, 2, 2)) router5 []); [exact router4_runs | by vm_compute |].
  apply (rstep_alarm 0 router4 0 true router5); [cbn; lia | by vm_compute].
Qed.

Lemma bursts_are_paced_witness :
  router_runs 10000 router6 [(0, 2, 2); (10000, 2, 2)]
  /\ StronglySorted (fun a b => a.1.1 + 10000 <= b.1.1) [(0, 2, 2); (10000, 2, 2)].
Proof.
  split; [exact router6_runs | exact (proj1 (bursts_are_paced _ _ _ router6_runs))].
Defined.

Lemma wanted_burst_happens_witness :
  exists i, queued_fire_ (alarm_ router4) = Some i
    /\ exists r' rtcp rtp, alarm_fires 0 i router4 = Ret (true, r') /\ burst 0 router4 rtcp rtp r'.
Proof.
  destruct (wanted_burst_happens 0 router4 [] (mkEntry 7 [[1]; [2]; [3]] kNeverSend kAlarmImmediately)
    router4_runs) as (i & Hi & _ & H); [left | by vm_compute |].
  exists i. split; [exact Hi |]. apply H. by vm_compute.
Defined.

Lemma burst_in_priority_order_witness :
  exists rtcp rtp, sends_more (concat rtcp ++ concat rtp) (environment_ router4) (environment_ router5)
    /\ sent_packets (environment_ router5)
       = map (pair (remote_endpoint_ demo_env)) [[1]; [2]].
Proof.
  destruct (burst_in_priority_order 0 router4 [] 0 router5 router4_runs)
    as (rtcp & rtp & es & _ & H & _); [cbn; lia | by vm_compute |].
  exists rtcp, rtp. split; [exact H | reflexivity].
Defined.

(** An RTCP packet for the SSRC 7. *)
Definition demo_feedback : list Z := [128; 201; 0; 1; 0; 0; 0; 7].
Definition router7 := Eval vm_compute in
  run_of (OnReceivedPacket (remote_endpoint_ demo_env) 5 0 demo_feedback router4).

Lemma feedback_is_routed_witness :
  exists type ssrc, InspectPacketForRouting demo_feedback = Ret (type, ssrc)
    /\ (router7 = router4 \/ exists i e, entry_ssrc e = ssrc /\ senders_ router4 !! i = Some e).
Proof.
  destruct (feedback_is_routed 0 router4 [] (remote_endpoint_ demo_env) 5 demo_feedback router7
    router4_runs) as (type & ssrc & Ht & H);
    [done | by vm_compute | by apply (bool_decide_unpack _); vm_compute | by vm_compute |].
  exists type, ssrc. split; [exact Ht |].
  destruct H as [[H _] | (i & e & _ & _ & _ & _ & Hs & Hi & _)]; [by left | right; by exists i, e].
Defined.

Lemma router_never_aborts_witness :
  returns (alarm_fires 0 0 router4) /\ OnSenderCreated 7 [] router4 = Fault CheckFailed.
Proof.
  destruct (router_never_aborts 0 router4 [] router4_runs) as (H1 & _ & H2 & _).
  split; [apply H2; cbn; lia |].
  pose proof (H1 7 [] ltac:(done) I) as H. rewrite bool_decide_eq_true_2 in H by (by vm_compute; left).
  apply H.
Defined.
