(* ===== verification/Sender.v ===== *)
(** The sender of one stream (cast/streaming/impl/sender_impl.h and .cc):
    frames in flight, acknowledgement and retransmission, pacing of the
    packets, round trip time.

    The objects the sender calls out to (packet router, statistics dispatcher,
    observer) are represented by the calls made on them, in order, in the field
    [calls_].  The router and the dispatcher only schedule or record; an
    observer that calls the sender back from [OnFrameCanceled] is not modelled
    as part of the call, only as a later operation.  Logging and tracing are
    left out. *)

From S2P Require Import Prelude Numeric Wire Ids NtpTime RtpDefines RtcpCommon SenderReport.
From S2P Require Import RtcpParser Rtp FrameCrypto BitVector.

Definition kNever : Z := INT64_MAX.
Definition kMinSenderInFlight : Z := 66 * 1000.

Inductive EnqueueFrameResult :=
  OK | PAYLOAD_TOO_LARGE | REACHED_ID_SPAN_LIMIT | MAX_DURATION_IN_FLIGHT.

Inductive Call :=
  | RouterOnSenderCreated (receiver : Z)
  | RouterRequestRtcpSend (receiver : Z)
  | RouterRequestRtpSend (receiver : Z)
  | RouterOnRtcpReceived (arrival_time round_trip_time : Z)
  | RouterOnPayloadReceived (bytes arrival_time round_trip_time : Z)
  | StatsEnqueueEvents (f : EncodedFrame)
  | StatsAckEvent (rtp_timestamp frame_id : Z)
  | StatsFrameDropEvent (frame_id rtp_timestamp drop_time : Z)
  | StatsFrameLogMessages (messages : list RtcpReceiverFrameLogMessage)
  | ObserverOnFrameCanceled (frame_id : Z)
  | ObserverOnPictureLost.

Section Sender.
Context {T : Type} `{!FlagSet T} {AES_KEY : Type}.
Variable AES_ctr128_encrypt : AES_KEY -> ctr_state -> list Z -> list Z * ctr_state.

Record PendingFrameSlot := mkSlot {
  slot_frame : option EncodedFrame;
  send_flags : T;
  packet_sent_times : list Z }.
#[export] Instance eta_PendingFrameSlot : Eta PendingFrameSlot := fun s =>
  mkSlot (slot_frame s) (send_flags s) (packet_sent_times s).
Definition empty_slot : PendingFrameSlot := mkSlot None fs_empty [].

Definition is_active_for_frame (id : Z) (slot : PendingFrameSlot) : bool :=
  match slot_frame slot with Some f => frame_id f =? id | None => false end.

Record SenderImpl := mkSender {
  rtcp_session_ : RtcpSession;
  rtcp_parser_ : CompoundRtcpParser;
  rtp_packetizer_ : RtpPacketizer;
  rtp_timebase_ : Z;
  crypto_ : @FrameCrypto AES_KEY;
  pending_frames_ : list PendingFrameSlot;
  num_frames_in_flight_ : Z;
  last_enqueued_frame_id_ : Z;
  checkpoint_frame_id_ : Z;
  latest_expected_frame_id_ : Z;
  target_playout_delay_ : Z;
  playout_delay_change_at_frame_id_ : Z;
  rtcp_packet_arrival_time_ : Z;
  round_trip_time_ : Z;
  pending_sender_report_ : RtcpSenderReport;
  picture_lost_at_frame_id_ : Z;
  last_enqueued_key_frame_id_ : Z;
  observer_ : option Z;
  pending_cancellations_ : list Z;
  calls_ : list Call }.
#[export] Instance eta_SenderImpl : Eta SenderImpl := fun s =>
  mkSender (rtcp_session_ s) (rtcp_parser_ s) (rtp_packetizer_ s) (rtp_timebase_ s) (crypto_ s)
    (pending_frames_ s) (num_frames_in_flight_ s) (last_enqueued_frame_id_ s)
    (checkpoint_frame_id_ s) (latest_expected_frame_id_ s) (target_playout_delay_ s)
    (playout_delay_change_at_frame_id_ s) (rtcp_packet_arrival_time_ s) (round_trip_time_ s)
    (pending_sender_report_ s) (picture_lost_at_frame_id_ s) (last_enqueued_key_frame_id_ s)
    (observer_ s) (pending_cancellations_ s) (calls_ s).

Definition call (c : Call) (s : SenderImpl) : SenderImpl := s <| calls_ := calls_ s ++ [c] |>.

Definition new_SenderImpl (session : outcome RtcpSession) (packetizer : outcome RtpPacketizer)
    (rtp_timebase : Z) (crypto : outcome FrameCrypto) (target_playout_delay : Z)
    : outcome SenderImpl :=
  session ← session;
  packetizer ← packetizer;
  crypto ← crypto;
  OSP_CHECK (negb (sender_ssrc session =? receiver_ssrc session)) ;;
  OSP_CHECK (0 <? rtp_timebase) ;;
  OSP_CHECK (0 <? target_playout_delay) ;;
  Ret (call (RouterOnSenderCreated (receiver_ssrc session))
    (mkSender session new_CompoundRtcpParser packetizer rtp_timebase crypto
      (replicate (Z.to_nat kMaxUnackedFrames) empty_slot) 0 leader_frame_id leader_frame_id
      leader_frame_id target_playout_delay first_frame_id kNever 0
      (mkSenderReport kNever 0 0 0 None) leader_frame_id leader_frame_id None [] [])).

(** The subtraction is converted to the unsigned type of [size()] before the
    remainder is taken. *)
Definition slot_index (id : Z) : nat :=
  Z.to_nat (u64 (id - first_frame_id) mod kMaxUnackedFrames).
Definition get_slot_for (id : Z) (s : SenderImpl) : outcome PendingFrameSlot :=
  in_bounds (pending_frames_ s !! slot_index id).
Definition set_slot (i : nat) (slot : PendingFrameSlot) (s : SenderImpl) : SenderImpl :=
  s <| pending_frames_ := <[i := slot]> (pending_frames_ s) |>.

Definition SetObserver (observer : option Z) (s : SenderImpl) : outcome SenderImpl :=
  OSP_CHECK (negb (bool_decide (observer_ s = observer))) ;;
  Ret (s <| observer_ := observer |>).

Definition GetInFlightMediaDuration (next_frame_rtp_timestamp : Z) (s : SenderImpl) : outcome Z :=
  if num_frames_in_flight_ s =? 0 then Ret 0 else
  oldest_slot ← get_slot_for (checkpoint_frame_id_ s + 1) s;
  OSP_CHECK (is_active_for_frame (checkpoint_frame_id_ s + 1) oldest_slot) ;;
  match slot_frame oldest_slot with
  | Some f => ToDuration (next_frame_rtp_timestamp - rtp_timestamp f) (rtp_timebase_ s)
  | None => Fault Undefined
  end.

Definition clamp (v lo hi : Z) : Z := if v <? lo then lo else if hi <? v then hi else v.

Definition GetMaxInFlightMediaDuration (s : SenderImpl) : Z :=
  let max_in_flight :=
    Z.max kMinSenderInFlight (Z.quot (target_playout_delay_ s * 1000) 3) in
  clamp (round_trip_time_ s * 2) kMinSenderInFlight max_in_flight.

Definition NeedsKeyFrame (s : SenderImpl) : bool :=
  last_enqueued_key_frame_id_ s <=? picture_lost_at_frame_id_ s.

Definition GetNextFrameId (s : SenderImpl) : Z := last_enqueued_frame_id_ s + 1.

(** [has_data] tells whether the frame's data pointer is not null. *)
Definition EnqueueFrame (has_data : bool) (frame : EncodedFrame) (s : SenderImpl)
    : outcome (EnqueueFrameResult * SenderImpl) :=
  OSP_CHECK (frame_id frame =? GetNextFrameId s) ;;
  OSP_CHECK (first_frame_id <=? referenced_frame_id frame) ;;
  (if negb (frame_id frame =? first_frame_id)
   then OSP_CHECK (sr_rtp_timestamp (pending_sender_report_ s) <? rtp_timestamp frame)
   else Ret tt) ;;
  OSP_CHECK has_data ;;
  if kMaxUnackedFrames <? frame_id frame - checkpoint_frame_id_ s
  then Ret (REACHED_ID_SPAN_LIMIT, s) else
  in_flight ← GetInFlightMediaDuration (rtp_timestamp frame) s;
  if GetMaxInFlightMediaDuration s <? in_flight then Ret (MAX_DURATION_IN_FLIGHT, s) else
  slot ← get_slot_for (frame_id frame) s;
  OSP_CHECK (bool_decide (slot_frame slot = None)) ;;
  encrypted ← Encrypt AES_ctr128_encrypt (crypto_ s) frame;
  let slot := slot <| slot_frame := Some encrypted |> in
  let packet_count := ComputeNumberOfPackets (rtp_packetizer_ s) encrypted in
  if packet_count <=? 0
  then Ret (PAYLOAD_TOO_LARGE,
            set_slot (slot_index (frame_id frame)) (slot <| slot_frame := None |>) s)
  else
  let slot := slot <| send_flags := fs_resize packet_count true (send_flags slot) |> in
  let slot := slot <| packet_sent_times := replicate (Z.to_nat packet_count) kNever |> in
  let s := set_slot (slot_index (frame_id frame)) slot s in
  let s := s <| num_frames_in_flight_ := num_frames_in_flight_ s + 1 |> in
  let s := s <| last_enqueued_frame_id_ := frame_id encrypted |> in
  OSP_CHECK (num_frames_in_flight_ s <=? last_enqueued_frame_id_ s - checkpoint_frame_id_ s) ;;
  let s := if bool_decide (dependency encrypted = kKeyFrame)
           then s <| last_enqueued_key_frame_id_ := frame_id encrypted |> else s in
  let s := if 0 <? new_playout_delay encrypted
           then s <| target_playout_delay_ := new_playout_delay encrypted |>
                  <| playout_delay_change_at_frame_id_ := frame_id encrypted |> else s in
  let report := pending_sender_report_ s in
  let report := report <| sr_reference_time :=
    if frame_id frame =? first_frame_id then reference_time encrypted
    else Z.max (reference_time encrypted) (sr_reference_time report) |> in
  let report := report <| sr_rtp_timestamp := rtp_timestamp encrypted |> in
  let s := s <| pending_sender_report_ := report |> in
  let s := if round_trip_time_ s =? 0
           then call (RouterRequestRtcpSend (receiver_ssrc (rtcp_session_ s))) s else s in
  let s := call (RouterRequestRtpSend (receiver_ssrc (rtcp_session_ s))) s in
  Ret (OK, call (StatsEnqueueEvents frame) s).

Definition CancelPendingFrame (id : Z) (was_acked : bool) (s : SenderImpl)
    : outcome SenderImpl :=
  slot ← get_slot_for id s;
  if negb (is_active_for_frame id slot) then Ret s else
  match slot_frame slot with
  | None => Fault Undefined
  | Some f =>
      let s := if was_acked
               then call (RouterOnPayloadReceived (zlen (data f))
                            (rtcp_packet_arrival_time_ s) (round_trip_time_ s)) s
               else s in
      let s := set_slot (slot_index id) (slot <| slot_frame := None |>) s in
      OSP_CHECK (0 <? num_frames_in_flight_ s) ;;
      let s := s <| num_frames_in_flight_ := num_frames_in_flight_ s - 1 |> in
      Ret (match observer_ s with
           | Some _ => s <| pending_cancellations_ := pending_cancellations_ s ++ [id] |>
           | None => s
           end)
  end.

Definition DispatchCancellations (s : SenderImpl) : SenderImpl :=
  let s := match observer_ s with
           | Some _ => s <| calls_ := calls_ s ++ map ObserverOnFrameCanceled (pending_cancellations_ s) |>
           | None => s
           end in
  s <| pending_cancellations_ := [] |>.

(** The loop runs once per frame from the checkpoint to the last frame. *)
Fixpoint cancel_loop (fuel : nat) (s : SenderImpl) : outcome SenderImpl :=
  match fuel with
  | O => Ret s
  | S fuel =>
      if checkpoint_frame_id_ s <? last_enqueued_frame_id_ s then
        let s := s <| checkpoint_frame_id_ := checkpoint_frame_id_ s + 1 |> in
        s ← CancelPendingFrame (checkpoint_frame_id_ s) false s;
        cancel_loop fuel s
      else Ret s
  end.

Definition CancelInFlightData (s : SenderImpl) : outcome SenderImpl :=
  s ← cancel_loop (Z.to_nat (last_enqueued_frame_id_ s - checkpoint_frame_id_ s)) s;
  Ret (DispatchCancellations s).

Definition ReportFrameDropEvent (id ts drop_time : Z) (s : SenderImpl) : SenderImpl :=
  call (StatsFrameDropEvent id ts drop_time) s.

(** ** Sending *)

Definition GetRtcpPacketForImmediateSend (send_time : Z) (buffer : ByteBuffer) (s : SenderImpl)
    : outcome (list Z) :=
  if sr_reference_time (pending_sender_report_ s) =? kNever then Ret [] else
  let sender_report := pending_sender_report_ s in
  let sender_report := sender_report <| sr_reference_time := send_time |> in
  let sender_report := sender_report <| sr_rtp_timestamp :=
    sr_rtp_timestamp sender_report
    + FromDuration (sr_reference_time sender_report
                    - sr_reference_time (pending_sender_report_ s)) (rtp_timebase_ s) |> in
  '(packet, _) ← SenderReportBuilder_BuildPacket (rtcp_session_ s) sender_report buffer;
  Ret packet.

(** The slot a packet is chosen from, by its index, and the packet. *)
Definition ChosenPacket : Type := nat * Z.

Fixpoint choose_loop (fuel : nat) (id : Z) (s : SenderImpl) : outcome (option ChosenPacket) :=
  match fuel with
  | O => Ret None
  | S fuel =>
      if id <=? last_enqueued_frame_id_ s then
        slot ← get_slot_for id s;
        if negb (is_active_for_frame id slot) then choose_loop fuel (id + 1) s else
        let packet_id := u16 (fs_find_first_set (send_flags slot)) in
        if packet_id <? fs_size (send_flags slot) then Ret (Some (slot_index id, packet_id))
        else choose_loop fuel (id + 1) s
      else Ret None
  end.

Definition ChooseNextRtpPacketNeedingSend (s : SenderImpl) : outcome (option ChosenPacket) :=
  choose_loop (Z.to_nat (last_enqueued_frame_id_ s - checkpoint_frame_id_ s))
    (checkpoint_frame_id_ s + 1) s.

(** The chosen packet, if any, and when to send it. *)
Definition ChooseKickstartPacket (s : SenderImpl) : outcome (option ChosenPacket * Z) :=
  if last_enqueued_frame_id_ s <=? latest_expected_frame_id_ s then Ret (None, kNever) else
  slot ← get_slot_for (last_enqueued_frame_id_ s) s;
  OSP_CHECK (is_active_for_frame (last_enqueued_frame_id_ s) slot) ;;
  let packet_id := u16 (fs_size (send_flags slot) - 1) in
  time_last_sent ← in_bounds (packet_sent_times slot !! Z.to_nat packet_id);
  OSP_CHECK (negb (time_last_sent =? kNever)) ;;
  let desired_kickstart_interval := Z.quot (target_playout_delay_ s * 1000 * 1) 20 in
  let kickstart_interval := Z.max desired_kickstart_interval (round_trip_time_ s * 2) in
  Ret (Some (slot_index (last_enqueued_frame_id_ s), packet_id),
       time_last_sent + kickstart_interval).

(** Generates and records the chosen packet. *)
Definition send_chosen (send_time : Z) (buffer : ByteBuffer) (chosen : ChosenPacket)
    (s : SenderImpl) : outcome (list Z * SenderImpl) :=
  let '(i, packet_id) := chosen in
  slot ← in_bounds (pending_frames_ s !! i);
  match slot_frame slot with
  | None => Fault Undefined
  | Some f =>
      '(packetizer, result) ← GeneratePacket (rtp_packetizer_ s) f packet_id buffer;
      let s := s <| rtp_packetizer_ := packetizer |> in
      flags ← fs_clear packet_id (send_flags slot);
      let slot := slot <| send_flags := flags |> in
      _ ← in_bounds (packet_sent_times slot !! Z.to_nat packet_id);
      let slot := slot <| packet_sent_times :=
        <[Z.to_nat packet_id := send_time]> (packet_sent_times slot) |> in
      let s := set_slot i slot s in
      let report := pending_sender_report_ s in
      let report := report <| send_packet_count := u32 (send_packet_count report + 1) |> in
      let approximate_octet_count := zlen result - kBaseRtpHeaderSize in
      OSP_CHECK (0 <=? approximate_octet_count) ;;
      let report := report <| send_octet_count :=
        u32 (send_octet_count report + approximate_octet_count) |> in
      Ret (result, s <| pending_sender_report_ := report |>)
  end.

Definition GetRtpPacketForImmediateSend (send_time : Z) (buffer : ByteBuffer) (s : SenderImpl)
    : outcome (list Z * SenderImpl) :=
  chosen ← ChooseNextRtpPacketNeedingSend s;
  match chosen with
  | Some chosen => send_chosen send_time buffer chosen s
  | None =>
      '(kickstart, when_) ← ChooseKickstartPacket s;
      if send_time <? when_ then Ret ([], s) else
      match kickstart with
      | Some chosen => send_chosen send_time buffer chosen s
      | None => Fault CheckFailed
      end
  end.

(** [Alarm::kImmediately] is the earliest time point. *)
Definition kImmediately : Z := INT64_MIN.
Definition GetRtpResumeTime (s : SenderImpl) : outcome Z :=
  chosen ← ChooseNextRtpPacketNeedingSend s;
  match chosen with
  | Some _ => Ret kImmediately
  | None => '(_, when_) ← ChooseKickstartPacket s; Ret when_
  end.

(** ** Feedback from the receiver *)

Definition SmoothRoundTripTime (estimate measurement : Z) : Z :=
  if estimate =? 0 then measurement
  else if estimate <? measurement then Z.quot (estimate + measurement) 2
  else Z.quot (7 * estimate + measurement) (7 + 1).

Definition HandleReceiverReport (receiver_report : RtcpReportBlock) (s : SenderImpl)
    : outcome SenderImpl :=
  OSP_CHECK (negb (rtcp_packet_arrival_time_ s =? kNever)) ;;
  let total_delay :=
    rtcp_packet_arrival_time_ s
    - GetRecentReportTime (rtcp_session_ s) (last_status_report_id receiver_report)
        (rtcp_packet_arrival_time_ s) in
  let non_network_delay := delay_to_duration (delay_since_last_report receiver_report) in
  let measurement := Z.max (total_delay - non_network_delay) 75 in
  let clamped_measurement :=
    if target_playout_delay_ s * 1000 <? measurement then target_playout_delay_ s * 1000
    else measurement in
  Ret (s <| round_trip_time_ := SmoothRoundTripTime (round_trip_time_ s) clamped_measurement |>).

Definition HandlePictureLoss (s : SenderImpl) : SenderImpl :=
  if checkpoint_frame_id_ s <? last_enqueued_key_frame_id_ s then s else
  let s := s <| picture_lost_at_frame_id_ := checkpoint_frame_id_ s |> in
  match observer_ s with Some _ => call ObserverOnPictureLost s | None => s end.

Definition ack_slot (id : Z) (s : SenderImpl) : outcome SenderImpl :=
  slot ← get_slot_for id s;
  match slot_frame slot with
  | Some f =>
      if is_active_for_frame id slot
      then Ret (call (StatsAckEvent (rtp_timestamp f) id) s) else Ret s
  | None => Ret s
  end.

Fixpoint checkpoint_loop (fuel : nat) (id : Z) (s : SenderImpl) : outcome SenderImpl :=
  match fuel with
  | O => Ret s
  | S fuel =>
      if checkpoint_frame_id_ s <? id then
        let s := s <| checkpoint_frame_id_ := checkpoint_frame_id_ s + 1 |> in
        slot ← get_slot_for (checkpoint_frame_id_ s) s;
        s ← (if is_active_for_frame (checkpoint_frame_id_ s) slot then
               s ← ack_slot (checkpoint_frame_id_ s) s;
               CancelPendingFrame (checkpoint_frame_id_ s) true s
             else Ret s);
        checkpoint_loop fuel id s
      else Ret s
  end.

Definition HandleCheckpoint (id playout_delay : Z) (s : SenderImpl) : outcome SenderImpl :=
  if last_enqueued_frame_id_ s <? id then Ret s else
  OSP_CHECK (0 <=? playout_delay) ;;
  s ← checkpoint_loop (Z.to_nat (id - checkpoint_frame_id_ s)) id s;
  let s := s <| latest_expected_frame_id_ := Z.max (latest_expected_frame_id_ s) id |> in
  Ret (DispatchCancellations s).

Fixpoint acks_loop (acks : list Z) (s : SenderImpl) : outcome SenderImpl :=
  match acks with
  | [] => Ret s
  | id :: acks =>
      s ← ack_slot id s;
      s ← CancelPendingFrame id true s;
      acks_loop acks s
  end.

Definition HandleHasFrames (acks : list Z) (s : SenderImpl) : outcome SenderImpl :=
  match last acks with
  | None => Fault Undefined
  | Some back =>
      if last_enqueued_frame_id_ s <? back then Ret s else
      s ← acks_loop acks s;
      let s := s <| latest_expected_frame_id_ := Z.max (latest_expected_frame_id_ s) back |> in
      Ret (DispatchCancellations s)
  end.

(** [HandleIndividualNack], on the slot and the flag whether anything needs
    to be sent. *)
Definition HandleIndividualNack (too_recent_a_send_time packet_id : Z)
    (acc : PendingFrameSlot * bool) : outcome (PendingFrameSlot * bool) :=
  let '(slot, need_to_send) := acc in
  sent ← in_bounds (packet_sent_times slot !! Z.to_nat packet_id);
  if sent <=? too_recent_a_send_time then
    flags ← fs_set packet_id (send_flags slot);
    Ret (slot <| send_flags := flags |>, true)
  else Ret (slot, need_to_send).

Fixpoint nack_each (too_recent : Z) (ids : list Z) (acc : PendingFrameSlot * bool)
    : outcome (PendingFrameSlot * bool) :=
  match ids with
  | [] => Ret acc
  | id :: ids => acc ← HandleIndividualNack too_recent id acc; nack_each too_recent ids acc
  end.

(** The NACKs at the front of the list that are for [id], and the rest. *)
Fixpoint same_frame (id : Z) (nacks : list PacketNack) : list PacketNack * list PacketNack :=
  match nacks with
  | n :: rest =>
      if nack_frame_id n =? id then let '(a, b) := same_frame id rest in (n :: a, b)
      else ([], nacks)
  | [] => ([], [])
  end.

Fixpoint nacks_loop (fuel : nat) (too_recent : Z) (nacks : list PacketNack) (need_to_send : bool)
    (s : SenderImpl) : outcome (SenderImpl * bool) :=
  match nacks with
  | [] => Ret (s, need_to_send)
  | nack :: rest =>
    match fuel with
    | O => Fault Undefined
    | S fuel =>
      let id := nack_frame_id nack in
      candidate ← (if id <=? last_enqueued_frame_id_ s
                   then slot ← get_slot_for id s;
                        Ret (if is_active_for_frame id slot then Some slot else None)
                   else Ret None);
      match candidate with
      | None => nacks_loop fuel too_recent (same_frame id rest).2 need_to_send s
      | Some slot =>
          let s := s <| latest_expected_frame_id_ := Z.max (latest_expected_frame_id_ s) id |> in
          let range_end := u16 (zlen (packet_sent_times slot)) in
          if nack_packet_id nack =? kAllPacketsLost then
            '(slot, need_to_send) ←
              nack_each too_recent (seqZ 0 range_end) (slot, need_to_send);
            nacks_loop fuel too_recent rest need_to_send (set_slot (slot_index id) slot s)
          else
            let '(mine, rest) := same_frame id (nack :: rest) in
            '(slot, need_to_send) ←
              nack_each too_recent
                (filter (fun i => i < range_end) (map nack_packet_id mine)) (slot, need_to_send);
            nacks_loop fuel too_recent rest need_to_send (set_slot (slot_index id) slot s)
      end
    end
  end.

Definition HandleMissingPackets (nacks : list PacketNack) (s : SenderImpl)
    : outcome SenderImpl :=
  OSP_CHECK (negb (rtcp_packet_arrival_time_ s =? kNever)) ;;
  let too_recent_a_send_time := rtcp_packet_arrival_time_ s - round_trip_time_ s in
  '(s, need_to_send) ← nacks_loop (length nacks) too_recent_a_send_time nacks false s;
  Ret (if (need_to_send : bool) then call (RouterRequestRtpSend (receiver_ssrc (rtcp_session_ s))) s else s).

Definition handle_event (e : ClientEvent) (s : SenderImpl) : outcome SenderImpl :=
  match e with
  | OnReceiverReferenceTimeAdvanced _ => Ret s
  | OnReceiverReport r => HandleReceiverReport r s
  | OnCastReceiverFrameLogMessages ms => Ret (call (StatsFrameLogMessages ms) s)
  | OnReceiverIndicatesPictureLoss => Ret (HandlePictureLoss s)
  | OnReceiverCheckpoint id delay => HandleCheckpoint id delay s
  | OnReceiverHasFrames acks => HandleHasFrames acks s
  | OnReceiverIsMissingPackets nacks => HandleMissingPackets nacks s
  end.
Fixpoint handle_events (es : list ClientEvent) (s : SenderImpl) : outcome SenderImpl :=
  match es with [] => Ret s | e :: es => s ← handle_event e s; handle_events es s end.

(** The parser calls the client after it has updated its own state. *)
Definition OnReceivedRtcpPacket (arrival_time : Z) (packet : list Z) (s : SenderImpl)
    : outcome SenderImpl :=
  let s := s <| rtcp_packet_arrival_time_ := arrival_time |> in
  '(ok, parser, events) ←
    Parse (rtcp_session_ s) packet (last_enqueued_frame_id_ s) (rtcp_parser_ s);
  s ← handle_events events (s <| rtcp_parser_ := parser |>);
  Ret (if ok : bool then call (RouterOnRtcpReceived arrival_time (round_trip_time_ s)) s else s).
End Sender.
