(* ===== verification/SenderInv.v ===== *)
(** The invariant of the sender (Sender.v) and the proof that its operations
    keep it and do not fail. *)

From S2P Require Import Prelude Numeric Wire Ids NtpTime RtpDefines RtcpCommon SenderReport.
From S2P Require Import RtcpParser Rtp FrameCrypto BitVector Sender.

Section SenderInv.
Context {T : Type} {FS : FlagSet T} {AES_KEY : Type}.
Implicit Types (s : @SenderImpl T AES_KEY) (slot : @PendingFrameSlot T).

(** ** The invariant *)

Definition active_ids (pf : list (@PendingFrameSlot T)) : list Z :=
  omap (fun slot => frame_id <$> slot_frame slot) pf.

(** An occupied slot holds a packetized frame; what has not been sent is
    flagged. *)
Record slot_ok (p : RtpPacketizer) (f : EncodedFrame) slot : Prop := {
  so_frame : frame_wf p f;
  so_flags : fs_ok (send_flags slot);
  so_size : fs_size (send_flags slot) = ComputeNumberOfPackets p f;
  so_times : zlen (packet_sent_times slot) = ComputeNumberOfPackets p f;
  so_unsent : forall i, 0 <= i < ComputeNumberOfPackets p f ->
    packet_sent_times slot !! Z.to_nat i = Some kNever -> fs_flag (send_flags slot) i = true }.

(** The frames in flight lie between [lo] and the last enqueued one, each in
    the slot of its identifier. *)
Record core (lo : Z) (s : @SenderImpl T AES_KEY) : Prop := {
  c_packetizer : packetizer_wf (rtp_packetizer_ s);
  c_timebase : 0 < rtp_timebase_ s;
  c_len : length (pending_frames_ s) = 120%nat;
  c_window : 0 <= lo <= last_enqueued_frame_id_ s + 1
             /\ last_enqueued_frame_id_ s - lo < 120 /\ last_enqueued_frame_id_ s < INT64_MAX;
  c_slots : forall i slot f, pending_frames_ s !! i = Some slot -> slot_frame slot = Some f ->
    lo <= frame_id f <= last_enqueued_frame_id_ s /\ slot_index (frame_id f) = i
    /\ slot_ok (rtp_packetizer_ s) f slot;
  c_count : num_frames_in_flight_ s = zlen (active_ids (pending_frames_ s)) }.

Record inv (s : @SenderImpl T AES_KEY) : Prop := {
  i_core : core (checkpoint_frame_id_ s + 1) s;
  i_latest : latest_expected_frame_id_ s <= last_enqueued_frame_id_ s;
  i_cancel : pending_cancellations_ s = [];
  i_rtt : 0 <= round_trip_time_ s;
  i_delay : 0 < target_playout_delay_ s;
  i_key : last_enqueued_key_frame_id_ s <= last_enqueued_frame_id_ s
          /\ picture_lost_at_frame_id_ s <= checkpoint_frame_id_ s;
  i_report : sender_report_wf (pending_sender_report_ s) }.

(** ** The ring *)

Lemma slot_index_lt id : (slot_index id < 120)%nat.
Proof.
  unfold slot_index, kMaxUnackedFrames.
  pose proof (Z.mod_pos_bound (u64 (id - first_frame_id)) 120 ltac:(lia)). lia.
Qed.

Lemma slot_index_small id : 0 <= id <= INT64_MAX -> slot_index id = Z.to_nat (id mod 120).
Proof.
  intros H. unfold slot_index, kMaxUnackedFrames, first_frame_id. rewrite Z.sub_0_r.
  by rewrite wrap_small by (unfold is_u, INT64_MAX in *; lia).
Qed.

Lemma slot_index_inj a b :
  0 <= a <= INT64_MAX -> 0 <= b <= INT64_MAX -> Z.abs (a - b) < 120 ->
  slot_index a = slot_index b -> a = b.
Proof.
  intros Ha Hb Hd. rewrite !slot_index_small by done. intros E.
  pose proof (Z.div_mod a 120 ltac:(lia)). pose proof (Z.div_mod b 120 ltac:(lia)).
  pose proof (Z.mod_pos_bound a 120 ltac:(lia)). pose proof (Z.mod_pos_bound b 120 ltac:(lia)). lia.
Qed.

Lemma get_slot_ok id s :
  length (pending_frames_ s) = 120%nat ->
  exists slot, pending_frames_ s !! slot_index id = Some slot /\ get_slot_for id s = Ret slot.
Proof.
  intros Hl. destruct (lookup_lt_is_Some_2 (pending_frames_ s) (slot_index id)) as [slot E].
  { rewrite Hl. apply slot_index_lt. }
  exists slot. split; [done |]. unfold get_slot_for. by rewrite E.
Qed.

Lemma active_Some id (slot : @PendingFrameSlot T) :
  is_active_for_frame id slot = true <-> exists f, slot_frame slot = Some f /\ frame_id f = id.
Proof.
  unfold is_active_for_frame. destruct (slot_frame slot) as [f |].
  - rewrite Z.eqb_eq. naive_solver.
  - naive_solver.
Qed.

(** The abstract content of the ring: the slot of each frame in flight. *)
Definition in_flight (id : Z) s : option (@PendingFrameSlot T) :=
  slot ← pending_frames_ s !! slot_index id;
  if is_active_for_frame id slot then Some slot else None.

Lemma in_flight_Some id s slot :
  in_flight id s = Some slot <->
  pending_frames_ s !! slot_index id = Some slot /\ is_active_for_frame id slot = true.
Proof.
  unfold in_flight. destruct (pending_frames_ s !! slot_index id) as [slot' |]; simpl.
  2: { split; [done | by intros []]. }
  destruct (is_active_for_frame id slot') eqn:E.
  - split; [by intros [= <-] | by intros [[= ->] _]].
  - split; [done | intros [[= ->] ?]; congruence].
Qed.

Lemma in_flight_window lo s id slot :
  core lo s -> in_flight id s = Some slot -> lo <= id <= last_enqueued_frame_id_ s.
Proof.
  intros Hc [E (f & Ef & <-)%active_Some]%in_flight_Some.
  destruct (c_slots lo s Hc _ _ _ E Ef) as (Hw & _). exact Hw.
Qed.

(** Within the window a slot is active for a frame as soon as it is
    occupied. *)
Lemma core_occupied lo s id slot f :
  core lo s -> lo <= id < lo + 120 -> id <= INT64_MAX ->
  pending_frames_ s !! slot_index id = Some slot -> slot_frame slot = Some f ->
  frame_id f = id.
Proof.
  intros Hc Hid Hm E Ef. destruct (c_slots lo s Hc _ _ _ E Ef) as (Hw & Hi & _).
  destruct (c_window lo s Hc) as (? & ? & ?).
  apply slot_index_inj; [lia | lia | lia | done].
Qed.

Lemma active_ids_insert pf i (old new : @PendingFrameSlot T) :
  pf !! i = Some old ->
  zlen (active_ids (<[i := new]> pf)) =
  zlen (active_ids pf) - (if slot_frame old then 1 else 0) + (if slot_frame new then 1 else 0).
Proof.
  revert i. induction pf as [| x pf IH]; intros [| i]; try done; simpl; intros E.
  - injection E as ->. unfold active_ids. simpl.
    destruct (slot_frame old), (slot_frame new); simpl; rewrite ?zlen_cons; lia.
  - specialize (IH i E). unfold active_ids in *. simpl.
    destruct (slot_frame x); simpl; rewrite ?zlen_cons; lia.
Qed.

(** There are at most as many frames in flight as identifiers in the
    window. *)
Lemma active_ids_NoDup k pf :
  (forall i slot f, pf !! i = Some slot -> slot_frame slot = Some f ->
     slot_index (frame_id f) = (k + i)%nat) ->
  NoDup (active_ids pf)
  /\ (forall x, x ∈ active_ids pf -> (k <= slot_index x)%nat).
Proof.
  revert k. induction pf as [| slot pf IH]; intros k H.
  { split; [constructor |]. intros x []%not_elem_of_nil. }
  destruct (IH (S k)) as [Hnd Hge].
  { intros i slot' f E Ef. rewrite (H (S i) slot' f E Ef). lia. }
  unfold active_ids in *. simpl. destruct (slot_frame slot) as [f |] eqn:Ef; simpl.
  - pose proof (H 0%nat slot f eq_refl Ef) as H0. split.
    + constructor; [| done]. intros Hin%Hge. lia.
    + intros x [-> | Hin]%elem_of_cons; [lia |]. apply Hge in Hin. lia.
  - split; [done |]. intros x Hin%Hge. lia.
Qed.

Lemma core_count lo s : core lo s -> num_frames_in_flight_ s <= last_enqueued_frame_id_ s - lo + 1.
Proof.
  intros Hc. rewrite (c_count lo s Hc). destruct (c_window lo s Hc) as (Hw1 & Hw2 & _).
  destruct (active_ids_NoDup 0 (pending_frames_ s)) as [Hnd _].
  { intros i slot f E Ef. by destruct (c_slots lo s Hc i slot f E Ef) as (_ & -> & _). }
  assert (active_ids (pending_frames_ s) ⊆+ seqZ lo (last_enqueued_frame_id_ s - lo + 1)) as Hsub.
  { apply NoDup_submseteq; [done |]. intros x Hx. unfold active_ids in Hx.
    apply list_elem_of_omap in Hx as (slot & Hs & Ex).
    destruct (slot_frame slot) as [f |] eqn:Ef; [| done]. injection Ex as <-.
    apply list_elem_of_lookup in Hs as [i Hi].
    destruct (c_slots lo s Hc i slot f Hi Ef) as (? & _). apply elem_of_seqZ. lia. }
  apply submseteq_length in Hsub. rewrite length_seqZ in Hsub. unfold zlen. lia.
Qed.

(** ** Cancelling frames *)

(** [s'] is [s] after some frames have left their slots; only the ring, the
    count, the pending cancellations and the calls have changed. *)
Definition after_cancel s s' : Prop :=
  exists pf n pend cs, s' = s <| pending_frames_ := pf |> <| num_frames_in_flight_ := n |>
     <| pending_cancellations_ := pend |> <| calls_ := cs |>.

Lemma after_cancel_refl s : after_cancel s s.
Proof.
  exists (pending_frames_ s), (num_frames_in_flight_ s), (pending_cancellations_ s), (calls_ s).
  by destruct s.
Qed.

Lemma after_cancel_trans s1 s2 s3 : after_cancel s1 s2 -> after_cancel s2 s3 -> after_cancel s1 s3.
Proof. intros (pf & n & pend & cs & ->) (pf' & n' & pend' & cs' & ->). by eexists _, _, _, _. Qed.

Lemma after_cancel_call c s : after_cancel s (call c s).
Proof.
  exists (pending_frames_ s), (num_frames_in_flight_ s), (pending_cancellations_ s), (calls_ s ++ [c]).
  by destruct s.
Qed.

Lemma core_call lo c s : core lo s -> core lo (call c s).
Proof. intros []; by constructor. Qed.

Lemma CancelPendingFrame_ok lo id acked s :
  core lo s ->
  exists s', CancelPendingFrame id acked s = Ret s' /\ core lo s' /\ after_cancel s s'
    /\ forall j, in_flight j s' = if j =? id then None else in_flight j s.
Proof.
  intros Hc. unfold CancelPendingFrame.
  destruct (get_slot_ok id s (c_len lo s Hc)) as (slot & Eslot & ->). cbn [mbind outcome_bind].
  destruct (is_active_for_frame id slot) eqn:Ha; cbn [negb].
  2: { exists s. split; [done |]. split; [done |]. split; [apply after_cancel_refl |].
       intros j. destruct (Z.eqb_spec j id) as [-> |]; [| done].
       unfold in_flight. by rewrite Eslot; simpl; rewrite Ha. }
  pose proof Ha as (f & Ef & Eid)%active_Some. rewrite Ef.
  set (s1 := if acked then _ else s).
  assert (core lo s1 /\ after_cancel s s1 /\ pending_frames_ s1 = pending_frames_ s
          /\ num_frames_in_flight_ s1 = num_frames_in_flight_ s) as (Hc1 & Ha1 & Ep & En).
  { unfold s1. destruct acked.
    - split; [by apply core_call |]. split; [apply after_cancel_call | done].
    - split; [done |]. split; [apply after_cancel_refl | done]. }
  clearbody s1. rewrite <- Ep in Eslot. clear En. rename Ep into Ep0.
  set (s2 := set_slot (slot_index id) _ s1).
  assert (num_frames_in_flight_ s1 = 1 + zlen (active_ids (pending_frames_ s2))) as En.
  { rewrite (c_count lo s1 Hc1). unfold s2. cbn [set_slot pending_frames_ update eta].
    rewrite (active_ids_insert _ _ slot) by done. rewrite Ef. simpl. lia. }
  pose proof (zlen_nonneg (active_ids (pending_frames_ s2))).
  change (num_frames_in_flight_ s2) with (num_frames_in_flight_ s1).
  rewrite OSP_CHECK_ltb by lia. cbn [mbind outcome_bind].
  eexists. split; [reflexivity |].
  match goal with |- core lo ?t /\ _ => set (s3 := t) end.
  assert (pending_frames_ s3 = pending_frames_ s2
          /\ num_frames_in_flight_ s3 = num_frames_in_flight_ s1 - 1
          /\ rtp_packetizer_ s3 = rtp_packetizer_ s1 /\ rtp_timebase_ s3 = rtp_timebase_ s1
          /\ last_enqueued_frame_id_ s3 = last_enqueued_frame_id_ s1) as (E1 & E2 & E3 & E4 & E5).
  { unfold s3. by destruct (observer_ _). }
  split; [| split].
  - destruct Hc1 as [H1 H2 H3 H4 H5 H6]. constructor; rewrite ?E1, ?E2, ?E3, ?E4, ?E5; try done.
    + unfold s2. simpl. by rewrite length_insert.
    + intros i slot' f' E Ef'. unfold s2 in E. simpl in E.
      destruct (decide (slot_index id = i)) as [<- | Hne].
      * rewrite list_lookup_insert_eq in E by (rewrite H3; apply slot_index_lt).
        injection E as <-. done.
      * rewrite list_lookup_insert_ne in E by done. by eapply H5.
    + lia.
  - eapply after_cancel_trans; [exact Ha1 |].
    exists (pending_frames_ s3), (num_frames_in_flight_ s3), (pending_cancellations_ s3),
      (calls_ s3). unfold s3. destruct (observer_ _); by destruct s1.
  - intros j. unfold in_flight. rewrite E1. unfold s2. simpl. rewrite Ep0.
    destruct (decide (slot_index id = slot_index j)) as [Hi | Hne].
    + rewrite <- Hi, list_lookup_insert_eq by (rewrite (c_len lo s Hc); apply slot_index_lt).
      rewrite Ep0 in Eslot. rewrite Eslot. simpl. unfold is_active_for_frame. simpl. rewrite Ef.
      destruct (Z.eqb_spec j id); [done |]. by rewrite (proj2 (Z.eqb_neq (frame_id f) j)) by lia.
    + rewrite list_lookup_insert_ne by done.
      destruct (Z.eqb_spec j id) as [-> |]; [done | done].
Qed.

(** Once the oldest identifier of the window is not in flight, the window
    starts after it. *)
Lemma core_advance lo s :
  core lo s -> lo <= last_enqueued_frame_id_ s ->
  in_flight lo s = None -> core (lo + 1) s.
Proof.
  intros Hc Hlo Hfree. pose proof Hc as [H1 H2 H3 H4 H5 H6]. constructor; try done; [lia |].
  intros i slot f E Ef. destruct (H5 i slot f E Ef) as (Hw & Hi & Hok).
  split; [| done]. assert (frame_id f <> lo); [| lia]. intros Heq.
  assert (in_flight lo s = Some slot); [| congruence].
  apply in_flight_Some. rewrite <- Heq at 1. rewrite Hi. split; [done |].
  apply active_Some. by exists f.
Qed.

Lemma DispatchCancellations_core lo s : core lo s -> core lo (DispatchCancellations s).
Proof. unfold DispatchCancellations. destruct (observer_ s), 1; by constructor. Qed.

(** What a series of cancellations changes besides: the checkpoint. *)
Definition cancelled (cp : Z) s s' : Prop :=
  after_cancel (s <| checkpoint_frame_id_ := cp |>) s'.

Lemma cancel_step_core s :
  core (checkpoint_frame_id_ s + 1) s ->
  core (checkpoint_frame_id_ s + 1) (s <| checkpoint_frame_id_ := checkpoint_frame_id_ s + 1 |>).
Proof. intros []; by constructor. Qed.

Lemma after_cancel_checkpoint cp s s' :
  after_cancel s s' -> after_cancel (s <| checkpoint_frame_id_ := cp |>)
                         (s' <| checkpoint_frame_id_ := cp |>).
Proof. intros (pf & n & pend & cs & ->). by eexists _, _, _, _. Qed.

Lemma after_cancel_fields s s' :
  after_cancel s s' ->
  checkpoint_frame_id_ s' = checkpoint_frame_id_ s
  /\ last_enqueued_frame_id_ s' = last_enqueued_frame_id_ s
  /\ latest_expected_frame_id_ s' = latest_expected_frame_id_ s
  /\ round_trip_time_ s' = round_trip_time_ s /\ rtp_packetizer_ s' = rtp_packetizer_ s
  /\ pending_sender_report_ s' = pending_sender_report_ s.
Proof. intros (pf & n & pend & cs & ->). done. Qed.

Lemma cancel_loop_ok fuel s :
  core (checkpoint_frame_id_ s + 1) s ->
  checkpoint_frame_id_ s + Z.of_nat fuel = last_enqueued_frame_id_ s ->
  exists s', cancel_loop fuel s = Ret s' /\ core (last_enqueued_frame_id_ s + 1) s'
    /\ cancelled (last_enqueued_frame_id_ s) s s' /\ forall j, in_flight j s' = None.
Proof.
  revert s. induction fuel as [| fuel IH]; intros s Hc Hf.
  - exists s. split; [done |]. replace (last_enqueued_frame_id_ s) with (checkpoint_frame_id_ s) by lia.
    split; [done |]. split; [unfold cancelled; destruct s; apply after_cancel_refl |].
    intros j. destruct (in_flight j s) eqn:E; [| done]. apply (in_flight_window _ _ _ _ Hc) in E. lia.
  - cbn [cancel_loop]. rewrite (proj2 (Z.ltb_lt _ _)) by lia. cbv zeta.
    set (s1 := s <| checkpoint_frame_id_ := _ |>).
    change (checkpoint_frame_id_ s1) with (checkpoint_frame_id_ s + 1).
    destruct (CancelPendingFrame_ok _ (checkpoint_frame_id_ s + 1) false s1 (cancel_step_core s Hc))
      as (s2 & -> & Hc2 & Ha & Hfree). cbn [mbind outcome_bind].
    destruct (after_cancel_fields _ _ Ha) as (E1 & E2 & _). cbn in E1, E2.
    destruct (IH s2) as (s' & E' & Hc' & Ha' & Hin').
    + rewrite E1. apply core_advance; [done | rewrite E2; lia |]. by rewrite Hfree, Z.eqb_refl.
    + rewrite E1, E2. lia.
    + exists s'. split; [done |]. rewrite E2 in Hc', Ha'. split; [done |]. split; [| done].
      unfold cancelled in *. eapply after_cancel_trans; [| exact Ha'].
      apply (after_cancel_checkpoint (last_enqueued_frame_id_ s)) in Ha. exact Ha.
Qed.

Lemma checkpoint_loop_ok fuel id s :
  core (checkpoint_frame_id_ s + 1) s -> id <= last_enqueued_frame_id_ s ->
  Z.of_nat fuel = Z.max 0 (id - checkpoint_frame_id_ s) ->
  exists s', checkpoint_loop fuel id s = Ret s'
    /\ core (Z.max id (checkpoint_frame_id_ s) + 1) s'
    /\ cancelled (Z.max id (checkpoint_frame_id_ s)) s s'
    /\ forall j, in_flight j s' = if j <=? id then None else in_flight j s.
Proof.
  revert s. induction fuel as [| fuel IH]; intros s Hc Hid Hf.
  - exists s. split; [done |]. rewrite Z.max_r by lia. split; [done |].
    split; [unfold cancelled; destruct s; apply after_cancel_refl |].
    intros j. destruct (Z.leb_spec j id); [| done].
    destruct (in_flight j s) eqn:E; [| done]. apply (in_flight_window _ _ _ _ Hc) in E. lia.
  - cbn [checkpoint_loop]. rewrite (proj2 (Z.ltb_lt _ _)) by lia. cbv zeta.
    set (s1 := s <| checkpoint_frame_id_ := _ |>).
    change (checkpoint_frame_id_ s1) with (checkpoint_frame_id_ s + 1).
    pose proof (cancel_step_core s Hc) as Hc1. fold s1 in Hc1.
    destruct (get_slot_ok (checkpoint_frame_id_ s + 1) s1 (c_len _ s1 Hc1)) as (slot & Eslot & Hget).
    rewrite Hget. cbn [mbind outcome_bind].
    assert (exists s2, (if is_active_for_frame (checkpoint_frame_id_ s + 1) slot then
               s ← ack_slot (checkpoint_frame_id_ s + 1) s1;
               CancelPendingFrame (checkpoint_frame_id_ s) true s
             else Ret s1) = Ret s2
      /\ core (checkpoint_frame_id_ s + 1) s2 /\ after_cancel s1 s2
      /\ forall j, in_flight j s2
           = if j =? checkpoint_frame_id_ s + 1 then None else in_flight j s) as (s2 & -> & Hc2 & Ha & Hfree).
    { destruct (is_active_for_frame _ slot) eqn:Hact.
      - unfold ack_slot. rewrite Hget. cbn [mbind outcome_bind].
        pose proof Hact as (f & Ef & _)%active_Some. rewrite Ef, Hact. cbn [mbind outcome_bind].
        destruct (CancelPendingFrame_ok _ (checkpoint_frame_id_ s + 1) true
          (call (StatsAckEvent (rtp_timestamp f) (checkpoint_frame_id_ s + 1)) s1)
          (core_call _ _ _ Hc1)) as (s2 & E & Hc2 & Ha & Hfree).
        exists s2. split; [exact E |]. split; [done |]. split; [| done].
        eapply after_cancel_trans; [apply after_cancel_call | exact Ha].
      - exists s1. split; [done |]. split; [done |]. split; [apply after_cancel_refl |].
        intros j. destruct (Z.eqb_spec j (checkpoint_frame_id_ s + 1)) as [-> |]; [| done].
        unfold in_flight. rewrite Eslot. simpl. by rewrite Hact. }
    cbn [mbind outcome_bind].
    destruct (after_cancel_fields _ _ Ha) as (E1 & E2 & _). cbn in E1, E2.
    destruct (IH s2) as (s' & E' & Hc' & Ha' & Hin').
    + rewrite E1. apply core_advance; [done | rewrite E2; lia |]. by rewrite Hfree, Z.eqb_refl.
    + by rewrite E2.
    + rewrite E1. lia.
    + exists s'. split; [done |]. rewrite E1 in Hc', Ha'.
      replace (Z.max id (checkpoint_frame_id_ s + 1)) with (Z.max id (checkpoint_frame_id_ s))
        in Hc', Ha' by lia.
      split; [done |]. split.
      2: { intros j. rewrite Hin', Hfree. destruct (Z.leb_spec j id); [done |].
           by rewrite (proj2 (Z.eqb_neq _ _)) by lia. }
      unfold cancelled in *. eapply after_cancel_trans; [| exact Ha'].
      apply (after_cancel_checkpoint (Z.max id (checkpoint_frame_id_ s))) in Ha. exact Ha.
Qed.

Lemma ack_slot_ok id s :
  length (pending_frames_ s) = 120%nat ->
  exists s', ack_slot id s = Ret s' /\ (s' = s \/ exists c, s' = call c s).
Proof.
  intros Hl. unfold ack_slot. destruct (get_slot_ok id s Hl) as (slot & _ & ->).
  cbn [mbind outcome_bind]. destruct (slot_frame slot); [| by eauto].
  destruct (is_active_for_frame id slot); eauto.
Qed.

Lemma acks_loop_ok lo acks s :
  core lo s ->
  exists s', acks_loop acks s = Ret s' /\ core lo s' /\ after_cancel s s'
    /\ forall j, in_flight j s' = if bool_decide (j ∈ acks) then None else in_flight j s.
Proof.
  revert s. induction acks as [| id acks IH]; intros s Hc.
  { exists s. split; [done |]. split; [done |]. split; [apply after_cancel_refl | done]. }
  cbn [acks_loop]. destruct (ack_slot_ok id s (c_len lo s Hc)) as (s1 & -> & Hs1).
  cbn [mbind outcome_bind].
  assert (core lo s1 /\ after_cancel s s1 /\ forall j, in_flight j s1 = in_flight j s)
    as (Hc1 & Ha1 & Hin1).
  { destruct Hs1 as [-> | [c ->]].
    - split; [done |]. split; [apply after_cancel_refl | done].
    - split; [by apply core_call |]. split; [apply after_cancel_call | done]. }
  destruct (CancelPendingFrame_ok lo id true s1 Hc1) as (s2 & -> & Hc2 & Ha2 & Hin2).
  cbn [mbind outcome_bind]. destruct (IH s2 Hc2) as (s' & -> & Hc' & Ha' & Hin').
  exists s'. split; [done |]. split; [done |].
  split; [by eapply after_cancel_trans; [| eapply after_cancel_trans] |].
  intros j. rewrite Hin', Hin2, Hin1.
  destruct (Z.eqb_spec j id) as [-> | Hne].
  - rewrite (bool_decide_eq_true_2 (id ∈ id :: acks)) by apply list_elem_of_here.
    by destruct (bool_decide _).
  - destruct (decide (j ∈ acks)) as [Hj | Hj].
    + rewrite !bool_decide_eq_true_2; [done | by apply elem_of_cons; right | done].
    + rewrite !bool_decide_eq_false_2; [done | | done]. by intros [? | ?]%elem_of_cons.
Qed.

(** A kickstart packet can be chosen: while the receiver may not know of the
    last frame, that frame is in flight. *)
Definition kick_ok s : Prop :=
  latest_expected_frame_id_ s < last_enqueued_frame_id_ s ->
  in_flight (last_enqueued_frame_id_ s) s <> None.

Lemma in_flight_Dispatch j s : in_flight j (DispatchCancellations s) = in_flight j s.
Proof. unfold DispatchCancellations. by destruct (observer_ s). Qed.

Lemma inv_cancelled cp latest s s1 :
  inv s -> checkpoint_frame_id_ s <= cp -> core (cp + 1) s1 -> cancelled cp s s1 ->
  latest <= last_enqueued_frame_id_ s ->
  inv (DispatchCancellations (s1 <| latest_expected_frame_id_ := latest |>)).
Proof.
  intros [H1 H2 H3 H4 H5 [H6 H7] H8] Hcp Hc (pf & n & pend & cs & ->) Hl.
  assert (core (cp + 1) (DispatchCancellations
    ((s <| checkpoint_frame_id_ := cp |> <| pending_frames_ := pf |>
       <| num_frames_in_flight_ := n |> <| pending_cancellations_ := pend |> <| calls_ := cs |>)
       <| latest_expected_frame_id_ := latest |>))) as Hc'.
  { apply DispatchCancellations_core. destruct Hc; by constructor. }
  unfold DispatchCancellations in *. destruct (observer_ _); constructor; try done; simpl in *; lia.
Qed.

Lemma HandleCheckpoint_ok id delay s :
  inv s -> 0 <= delay ->
  exists s', HandleCheckpoint id delay s = Ret s' /\ inv s' /\ (kick_ok s -> kick_ok s')
    /\ last_enqueued_frame_id_ s' = last_enqueued_frame_id_ s
    /\ rtcp_packet_arrival_time_ s' = rtcp_packet_arrival_time_ s
    /\ (last_enqueued_frame_id_ s < id -> s' = s)
    /\ (id <= last_enqueued_frame_id_ s ->
          checkpoint_frame_id_ s' = Z.max id (checkpoint_frame_id_ s)
          /\ latest_expected_frame_id_ s' = Z.max (latest_expected_frame_id_ s) id
          /\ forall j, in_flight j s' = if j <=? id then None else in_flight j s).
Proof.
  intros Hi Hd. unfold HandleCheckpoint.
  destruct (Z.ltb_spec (last_enqueued_frame_id_ s) id) as [Hlt | Hge].
  { exists s. split; [done |]. split; [done |]. split_and!; try done. lia. }
  rewrite OSP_CHECK_leb by done. cbn [mbind outcome_bind].
  destruct (checkpoint_loop_ok (Z.to_nat (id - checkpoint_frame_id_ s)) id s (i_core s Hi) Hge)
    as (s1 & -> & Hc1 & Ha1 & Hin1); [lia |].
  cbn [mbind outcome_bind].
  assert (latest_expected_frame_id_ s1 = latest_expected_frame_id_ s
          /\ checkpoint_frame_id_ s1 = Z.max id (checkpoint_frame_id_ s)
          /\ last_enqueued_frame_id_ s1 = last_enqueued_frame_id_ s
          /\ rtcp_packet_arrival_time_ s1 = rtcp_packet_arrival_time_ s) as (El & Ecp & Elast & Earr).
  { destruct Ha1 as (? & ? & ? & ? & ->). done. }
  set (s2 := s1 <| latest_expected_frame_id_ := _ |>).
  assert (forall j, in_flight j (DispatchCancellations s2)
            = if j <=? id then None else in_flight j s) as Hin.
  { intros j. rewrite in_flight_Dispatch. apply Hin1. }
  assert (latest_expected_frame_id_ (DispatchCancellations s2)
            = Z.max (latest_expected_frame_id_ s) id
          /\ last_enqueued_frame_id_ (DispatchCancellations s2) = last_enqueued_frame_id_ s
          /\ checkpoint_frame_id_ (DispatchCancellations s2) = Z.max id (checkpoint_frame_id_ s)
          /\ rtcp_packet_arrival_time_ (DispatchCancellations s2) = rtcp_packet_arrival_time_ s)
    as (F1 & F2 & F3 & F4).
  { unfold DispatchCancellations, s2. destruct (observer_ _); simpl; rewrite El; done. }
  eexists. split; [reflexivity |]. split.
  { eapply inv_cancelled; [exact Hi | | exact Hc1 | exact Ha1 |]; [lia |].
    rewrite El. pose proof (i_latest s Hi). lia. }
  split; [| split_and!; try done; lia].
  intros Hk. unfold kick_ok. rewrite F1, F2, Hin. intros Hlt.
  rewrite (proj2 (Z.leb_gt _ id)) by lia. apply Hk. lia.
Qed.

Lemma HandleHasFrames_ok acks s :
  inv s -> acks <> [] -> StronglySorted Z.lt acks ->
  exists s', HandleHasFrames acks s = Ret s' /\ inv s' /\ (kick_ok s -> kick_ok s')
    /\ last_enqueued_frame_id_ s' = last_enqueued_frame_id_ s
    /\ rtcp_packet_arrival_time_ s' = rtcp_packet_arrival_time_ s
    /\ (Forall (fun a => a <= last_enqueued_frame_id_ s) acks ->
          checkpoint_frame_id_ s' = checkpoint_frame_id_ s
          /\ forall j, in_flight j s' = if bool_decide (j ∈ acks) then None else in_flight j s)
    /\ (~ Forall (fun a => a <= last_enqueued_frame_id_ s) acks -> s' = s).
Proof.
  intros Hi Hne Hs. unfold HandleHasFrames.
  destruct (last acks) as [back |] eqn:Eback; [| by apply last_None in Eback].
  assert (forall a, a ∈ acks -> a <= back) as Hback.
  { apply last_Some in Eback as [l ->]. intros a [Ha | ->%list_elem_of_singleton]%elem_of_app; [| lia].
    clear -Hs Ha. induction l as [| x l IH]; [by apply not_elem_of_nil in Ha |].
    simpl in Hs. inversion Hs as [| ? ? Hs' Hx]; subst. apply elem_of_cons in Ha as [-> | Ha]; [| auto].
    rewrite Forall_forall in Hx. specialize (Hx back).
    rewrite elem_of_app, list_elem_of_singleton in Hx. specialize (Hx (or_intror eq_refl)). lia. }
  destruct (Z.ltb_spec (last_enqueued_frame_id_ s) back) as [Hlt | Hge].
  { exists s. split; [done |]. split; [done |]. split_and!; try done. intros Hall.
    rewrite Forall_forall in Hall. apply last_Some_elem_of in Eback. apply Hall in Eback. lia. }
  assert (Forall (fun a => a <= last_enqueued_frame_id_ s) acks) as Hall
    by (apply Forall_forall; intros a Ha; apply Hback in Ha; lia).
  destruct (acks_loop_ok _ acks s (i_core s Hi)) as (s1 & -> & Hc1 & Ha1 & Hin1).
  cbn [mbind outcome_bind].
  assert (latest_expected_frame_id_ s1 = latest_expected_frame_id_ s
          /\ checkpoint_frame_id_ s1 = checkpoint_frame_id_ s
          /\ last_enqueued_frame_id_ s1 = last_enqueued_frame_id_ s
          /\ rtcp_packet_arrival_time_ s1 = rtcp_packet_arrival_time_ s) as (El & Ecp & Elast & Earr).
  { destruct Ha1 as (? & ? & ? & ? & ->). done. }
  set (s2 := s1 <| latest_expected_frame_id_ := _ |>).
  assert (latest_expected_frame_id_ (DispatchCancellations s2)
            = Z.max (latest_expected_frame_id_ s) back
          /\ last_enqueued_frame_id_ (DispatchCancellations s2) = last_enqueued_frame_id_ s
          /\ checkpoint_frame_id_ (DispatchCancellations s2) = checkpoint_frame_id_ s
          /\ rtcp_packet_arrival_time_ (DispatchCancellations s2) = rtcp_packet_arrival_time_ s)
    as (F1 & F2 & F3 & F4).
  { unfold DispatchCancellations, s2. destruct (observer_ _); simpl; rewrite El; done. }
  eexists. split; [reflexivity |]. split.
  { eapply (inv_cancelled (checkpoint_frame_id_ s)); [exact Hi | lia | exact Hc1 | |].
    - unfold cancelled. assert (s <| checkpoint_frame_id_ := checkpoint_frame_id_ s |> = s) as ->
        by by destruct s. done.
    - rewrite El. pose proof (i_latest s Hi). lia. }
  split; [| split_and!; try done; intros _; split; [done |]; intros j; rewrite in_flight_Dispatch; apply Hin1].
  intros Hk. unfold kick_ok. rewrite F1, F2, in_flight_Dispatch. intros Hlt.
  change (in_flight (last_enqueued_frame_id_ s) s2) with (in_flight (last_enqueued_frame_id_ s) s1).
  rewrite Hin1, bool_decide_eq_false_2; [apply Hk; lia |].
  intros Hin%Hback. lia.
Qed.

(** ** Retransmission requests *)

Definition time_at slot (i : Z) : Z := nth (Z.to_nat i) (packet_sent_times slot) kNever.

(** [new] is [old] with more flags set. *)
Definition flags_set (ids : list Z) (too_recent : Z) (old new : @PendingFrameSlot T) : Prop :=
  slot_frame new = slot_frame old /\ packet_sent_times new = packet_sent_times old
  /\ forall i, 0 <= i < fs_size (send_flags old) ->
       fs_flag (send_flags new) i =
       fs_flag (send_flags old) i || (bool_decide (i ∈ ids) && (time_at old i <=? too_recent)).

Lemma nack_each_ok p f too_recent ids slot b :
  slot_ok p f slot -> Forall (fun i => 0 <= i < ComputeNumberOfPackets p f) ids ->
  exists slot', nack_each too_recent ids (slot, b)
      = Ret (slot', b || existsb (fun i => time_at slot i <=? too_recent) ids)
    /\ slot_ok p f slot' /\ flags_set ids too_recent slot slot'.
Proof.
  revert slot b. induction ids as [| id ids IH]; intros slot b Hok Hids.
  { exists slot. rewrite orb_false_r. split; [done |]. split; [done |]. split; [done |]. split; [done |].
    intros i _. rewrite bool_decide_eq_false_2 by apply not_elem_of_nil.
    by rewrite orb_false_r. }
  apply Forall_cons in Hids as [Hid Hids]. cbn [nack_each HandleIndividualNack].
  pose proof Hok as [Hf Hfs Hsz Ht Hu].
  destruct (lookup_lt_is_Some_2 (packet_sent_times slot) (Z.to_nat id)) as [sent Es].
  { unfold zlen in Ht. lia. }
  rewrite Es. cbn [mbind outcome_bind in_bounds].
  assert (time_at slot id = sent) as Et by (by apply nth_lookup_Some).
  assert (exists slot1 b1, (if sent <=? too_recent then
            flags ← fs_set id (send_flags slot); Ret (slot <| send_flags := flags |>, true)
          else Ret (slot, b)) = Ret (slot1, b1)
          /\ b1 = b || (time_at slot id <=? too_recent)
          /\ slot_ok p f slot1 /\ flags_set [id] too_recent slot slot1) as (slot1 & b1 & -> & -> & Hok1 & Hfl1).
  { rewrite Et. destruct (Z.leb_spec sent too_recent).
    - destruct (fs_set_spec id (send_flags slot) Hfs) as (fl & -> & Hfl & Hsz' & Hflag); [by rewrite Hsz |].
      cbn [mbind outcome_bind]. eexists _, _. split; [reflexivity |].
      split; [by rewrite orb_true_r |]. split.
      + constructor; try done; simpl; [congruence |]. intros i Hi Hn.
        rewrite Hflag by (rewrite Hsz; lia). rewrite Hu by done. apply orb_true_r.
      + split; [done |]. split; [done |]. intros i Hi. simpl. rewrite Hflag by done.
        destruct (Z.eqb_spec id i) as [<- |].
        * rewrite bool_decide_eq_true_2 by apply list_elem_of_here.
          rewrite Et, (proj2 (Z.leb_le sent _)) by done. by rewrite orb_true_r.
        * rewrite bool_decide_eq_false_2 by (rewrite list_elem_of_singleton; congruence).
          by rewrite orb_false_r.
    - eexists _, _. split; [reflexivity |]. rewrite orb_false_r. split; [done |]. split; [done |].
      split; [done |]. split; [done |]. intros i Hi.
      destruct (decide (i = id)) as [-> |].
      + rewrite Et, (proj2 (Z.leb_gt sent _)) by done. by rewrite andb_false_r, orb_false_r.
      + rewrite bool_decide_eq_false_2 by (by rewrite list_elem_of_singleton).
        by rewrite orb_false_r. }
  cbn [mbind outcome_bind].
  destruct (IH slot1 (b || (time_at slot id <=? too_recent)) Hok1 Hids) as (slot' & -> & Hok' & Hfl').
  destruct Hfl1 as (F1 & F2 & F3), Hfl' as (G1 & G2 & G3).
  assert (forall i, time_at slot1 i = time_at slot i) as Etime by (intros i; unfold time_at; by rewrite F2).
  exists slot'. split.
  { f_equal. f_equal. simpl. rewrite orb_assoc. f_equal. clear -Etime.
    induction ids as [| x ids IHl]; simpl; [done |]. by rewrite Etime, IHl. }
  split; [done |]. split; [congruence |]. split; [congruence |]. intros i Hi.
  rewrite G3 by (destruct Hok1 as [_ _ -> _ _]; by rewrite <- Hsz).
  rewrite F3, Etime by done.
  rewrite (bool_decide_ext (i ∈ id :: ids) (i ∈ [id] \/ i ∈ ids))
    by (by rewrite elem_of_cons, list_elem_of_singleton).
  rewrite bool_decide_or. by rewrite andb_orb_distrib_l, orb_assoc.
Qed.

(** Replacing a slot by one with the same frame. *)
Lemma core_set_slot lo s i old new f :
  core lo s -> pending_frames_ s !! i = Some old -> slot_frame old = Some f ->
  slot_frame new = Some f -> slot_ok (rtp_packetizer_ s) f new -> core lo (set_slot i new s).
Proof.
  intros [H1 H2 H3 H4 H5 H6] E Ef Ef' Hok. constructor; try done; simpl.
  - by rewrite length_insert.
  - intros k slot g Ek Eg. destruct (decide (i = k)) as [<- | Hne].
    + rewrite list_lookup_insert_eq in Ek by (by eapply lookup_lt_Some). injection Ek as <-.
      rewrite Ef' in Eg. injection Eg as <-. destruct (H5 i old f E Ef) as (? & ? & _). done.
    + rewrite list_lookup_insert_ne in Ek by done. by eapply H5.
  - rewrite (active_ids_insert _ _ old) by done. rewrite Ef, Ef'. lia.
Qed.

Lemma in_flight_set_slot s id old new j :
  in_flight id s = Some old -> slot_frame new = slot_frame old ->
  in_flight j (set_slot (slot_index id) new s) = if j =? id then Some new else in_flight j s.
Proof.
  intros [E Ha]%in_flight_Some Ef. unfold in_flight. simpl.
  destruct (decide (slot_index id = slot_index j)) as [Hi | Hne].
  - rewrite <- Hi, list_lookup_insert_eq by (by eapply lookup_lt_Some). rewrite E. simpl.
    assert (is_active_for_frame j new = is_active_for_frame j old) as ->
      by (unfold is_active_for_frame; by rewrite Ef).
    apply active_Some in Ha as (f & Ef' & <-). unfold is_active_for_frame. rewrite Ef'.
    rewrite (Z.eqb_sym j). by destruct (Z.eqb_spec (frame_id f) j).
  - rewrite list_lookup_insert_ne by done. by destruct (Z.eqb_spec j id) as [-> |].
Qed.

Lemma in_flight_slot_ok lo s id slot :
  core lo s -> in_flight id s = Some slot ->
  exists f, slot_frame slot = Some f /\ frame_id f = id /\ slot_ok (rtp_packetizer_ s) f slot.
Proof.
  intros Hc [E (f & Ef & <-)%active_Some]%in_flight_Some.
  destruct (c_slots lo s Hc _ _ _ E Ef) as (_ & _ & Hok). by exists f.
Qed.

(** The packets [nacks] asks for in frame [id]. *)
Definition requested (nacks : list PacketNack) (id i : Z) : bool :=
  existsb (fun n => (nack_frame_id n =? id)
                    && ((nack_packet_id n =? i) || (nack_packet_id n =? kAllPacketsLost))) nacks.

(** An entry for all packets of a frame is the frame's only entry. *)
Definition all_lost_alone (nacks : list PacketNack) : Prop :=
  forall n m, n ∈ nacks -> m ∈ nacks -> nack_packet_id n = kAllPacketsLost ->
    nack_frame_id m = nack_frame_id n -> m = n.

(** What happened to the slot of one frame. *)
Definition reflagged (req : Z -> bool) (too_recent : Z)
    (o n : option (@PendingFrameSlot T)) : Prop :=
  match o, n with
  | Some old, Some new =>
      slot_frame new = slot_frame old /\ packet_sent_times new = packet_sent_times old
      /\ fs_size (send_flags new) = fs_size (send_flags old)
      /\ forall i, 0 <= i < fs_size (send_flags old) ->
           fs_flag (send_flags new) i =
           fs_flag (send_flags old) i || (req i && (time_at old i <=? too_recent))
  | None, None => True
  | _, _ => False
  end.

Lemma same_frame_spec id nacks :
  nacks = (same_frame id nacks).1 ++ (same_frame id nacks).2
  /\ Forall (fun n => nack_frame_id n = id) (same_frame id nacks).1
  /\ match (same_frame id nacks).2 with [] => True | n :: _ => nack_frame_id n <> id end.
Proof.
  induction nacks as [| n nacks IH]; [done |]. simpl.
  destruct (Z.eqb_spec (nack_frame_id n) id) as [E |].
  - destruct (same_frame id nacks) as [a b]. simpl in *. destruct IH as (-> & Ha & Hb).
    split; [done |]. split; [by constructor | done].
  - done.
Qed.

Lemma reflagged_none t o : reflagged (fun _ => false) t o o.
Proof.
  destruct o; [| done]. split; [done |]. split; [done |]. split; [done |].
  intros i _. by rewrite orb_false_r.
Qed.

Lemma reflagged_trans r1 r2 t a b c :
  reflagged r1 t a b -> reflagged r2 t b c -> reflagged (fun i => r1 i || r2 i) t a c.
Proof.
  destruct a as [a |], b as [b |], c as [c |]; try done.
  intros (E1 & E2 & E3 & E4) (F1 & F2 & F3 & F4).
  split; [congruence |]. split; [congruence |]. split; [congruence |]. intros i Hi.
  rewrite F4, E4 by (rewrite ?E3; done).
  assert (time_at b i = time_at a i) as -> by (unfold time_at; by rewrite E2).
  by rewrite andb_orb_distrib_l, orb_assoc.
Qed.

Lemma reflagged_ext r1 r2 t a b :
  (forall slot i, a = Some slot -> 0 <= i < fs_size (send_flags slot) -> r1 i = r2 i) ->
  reflagged r1 t a b -> reflagged r2 t a b.
Proof.
  intros Hr. destruct a as [a |], b as [b |]; try done.
  intros (E1 & E2 & E3 & E4). split; [done |]. split; [done |]. split; [done |]. intros i Hi.
  by rewrite E4, (Hr a i) by done.
Qed.

Lemma slot_ok_count p f slot :
  packetizer_wf p -> slot_ok p f slot -> 1 <= ComputeNumberOfPackets p f < kAllPacketsLost.
Proof.
  intros Hp [(Hl & Hn & _) _ _ _ _].
  destruct (ComputeNumberOfPackets_spec p f Hp Hl Hn) as [? _]. unfold kAllPacketsLost. lia.
Qed.

Lemma requested_app a b id i :
  requested (a ++ b) id i = requested a id i || requested b id i.
Proof. unfold requested. by rewrite existsb_app. Qed.

Lemma requested_other a id j i :
  Forall (fun n => nack_frame_id n = id) a -> j <> id -> requested a j i = false.
Proof.
  intros Ha Hj. induction Ha as [| n a Hn _ IH]; [done |]. unfold requested in *. simpl.
  rewrite IH, (proj2 (Z.eqb_neq _ j)) by lia. done.
Qed.

Lemma requested_single a id i :
  Forall (fun n => nack_frame_id n = id /\ nack_packet_id n <> kAllPacketsLost) a ->
  requested a id i = bool_decide (i ∈ map nack_packet_id a).
Proof.
  induction 1 as [| n a [Hn Hp] _ IH]; [by rewrite bool_decide_eq_false_2 by apply not_elem_of_nil |].
  unfold requested in *. simpl.
  rewrite IH, Hn, Z.eqb_refl, (proj2 (Z.eqb_neq _ kAllPacketsLost)) by done. simpl.
  rewrite orb_false_r, (bool_decide_ext (i ∈ nack_packet_id n :: _)
    (i = nack_packet_id n \/ i ∈ map nack_packet_id a)) by apply elem_of_cons.
  rewrite bool_decide_or. f_equal. rewrite Z.eqb_sym. destruct (Z.eqb_spec i (nack_packet_id n)).
  - by rewrite bool_decide_eq_true_2.
  - by rewrite bool_decide_eq_false_2.
Qed.

Lemma core_latest lo l s : core lo s -> core lo (s <| latest_expected_frame_id_ := l |>).
Proof. intros []; by constructor. Qed.

Definition after_nacks s s' : Prop :=
  exists pf l, s' = s <| pending_frames_ := pf |> <| latest_expected_frame_id_ := l |>
    /\ latest_expected_frame_id_ s <= l
         <= Z.max (latest_expected_frame_id_ s) (last_enqueued_frame_id_ s).

Lemma after_nacks_refl s : after_nacks s s.
Proof.
  exists (pending_frames_ s), (latest_expected_frame_id_ s). split; [by destruct s | lia].
Qed.

Lemma after_nacks_trans s1 s2 s3 : after_nacks s1 s2 -> after_nacks s2 s3 -> after_nacks s1 s3.
Proof.
  intros (pf & l & -> & Hl) (pf' & l' & -> & Hl'). exists pf', l'. simpl in Hl'.
  split; [done | lia].
Qed.

(** One frame's requests, on its slot. *)
Lemma nacks_frame_ok lo s id slot ids too_recent b :
  core lo s -> in_flight id s = Some slot -> id <= last_enqueued_frame_id_ s ->
  Forall (fun i => 0 <= i < zlen (packet_sent_times slot)) ids ->
  exists slot' b', nack_each too_recent ids (slot, b) = Ret (slot', b')
    /\ let s' := set_slot (slot_index id) slot'
                   (s <| latest_expected_frame_id_ := Z.max (latest_expected_frame_id_ s) id |>) in
       core lo s' /\ after_nacks s s'
       /\ forall j, reflagged (fun i => (j =? id) && bool_decide (i ∈ ids)) too_recent
                      (in_flight j s) (in_flight j s').
Proof.
  intros Hc Hin Hid Hids. destruct (in_flight_slot_ok lo s id slot Hc Hin) as (f & Ef & Eid & Hok).
  rewrite (so_times _ _ _ Hok) in Hids.
  destruct (nack_each_ok _ f too_recent ids slot b Hok Hids) as (slot' & -> & Hok' & Hf1 & Hf2 & Hf3).
  eexists _, _. split; [reflexivity |]. cbv zeta. split.
  { eapply core_set_slot; [by apply core_latest | by apply in_flight_Some in Hin as [? _] | exact Ef
                          | by rewrite Hf1 | done]. }
  split.
  { exists (<[slot_index id := slot']> (pending_frames_ s)), (Z.max (latest_expected_frame_id_ s) id).
    split; [by destruct s | lia]. }
  intros j. change (in_flight j s) with
    (in_flight j (s <| latest_expected_frame_id_ := Z.max (latest_expected_frame_id_ s) id |>)).
  rewrite (in_flight_set_slot _ _ slot) by done.
  destruct (Z.eqb_spec j id) as [-> | Hne].
  - change (in_flight id (s <| latest_expected_frame_id_ := _ |>)) with (in_flight id s).
    rewrite Hin. simpl. split; [done |]. split; [done |].
    split; [by rewrite (so_size _ _ _ Hok), (so_size _ _ _ Hok') | exact Hf3].
  - apply reflagged_none.
Qed.

Lemma nacks_loop_ok fuel too_recent lo nacks b s :
  core lo s -> (length nacks <= fuel)%nat -> Forall nack_ok nacks -> all_lost_alone nacks ->
  exists s' b', nacks_loop fuel too_recent nacks b s = Ret (s', b')
    /\ core lo s' /\ after_nacks s s'
    /\ forall id, reflagged (requested nacks id) too_recent (in_flight id s) (in_flight id s').
Proof.
  revert nacks b s. induction fuel as [| fuel IH]; intros nacks b s Hc Hl Hok Hal.
  { destruct nacks as [| n nacks]; [| simpl in Hl; lia].
    eexists _, _. split; [reflexivity |]. split; [done |]. split; [apply after_nacks_refl |].
    intros id. apply reflagged_none. }
  destruct nacks as [| nack rest].
  { eexists _, _. split; [reflexivity |]. split; [done |]. split; [apply after_nacks_refl |].
    intros id. apply reflagged_none. }
  cbn [nacks_loop]. set (id := nack_frame_id nack).
  (* the candidate slot *)
  set (cand := if id <=? last_enqueued_frame_id_ s then _ else _).
  assert (cand = Ret (in_flight id s)) as ->.
  { unfold cand. destruct (Z.leb_spec id (last_enqueued_frame_id_ s)).
    - destruct (get_slot_ok id s (c_len lo s Hc)) as (slot & E & ->). cbn [mbind outcome_bind].
      unfold in_flight. by rewrite E.
    - destruct (in_flight id s) eqn:E; [| done]. apply (in_flight_window _ _ _ _ Hc) in E. lia. }
  cbn [mbind outcome_bind].
  destruct (same_frame_spec id rest) as (Erest & Hsame & _).
  assert (forall l, (exists k, k ++ l = nack :: rest) -> Forall nack_ok l /\ all_lost_alone l) as Hsuf.
  { intros l [k Hk]. rewrite <- Hk in Hok, Hal. apply Forall_app in Hok as [_ Hok]. split; [done |].
    intros n m Hn Hm. apply Hal; apply elem_of_app; by right. }
  destruct (in_flight id s) as [slot |] eqn:Hin.
  2: { assert (nack :: rest = (nack :: (same_frame id rest).1) ++ (same_frame id rest).2) as Esplit
         by (simpl; by rewrite <- Erest).
       destruct (Hsuf (same_frame id rest).2) as [Hok2 Hal2]; [by eexists |].
       destruct (IH (same_frame id rest).2 b s Hc) as (s' & b' & -> & Hc' & Ha' & Hr'); [| done | done |].
       { apply (f_equal length) in Esplit. rewrite length_app in Esplit. simpl in *. lia. }
       eexists _, _. split; [reflexivity |]. split; [done |]. split; [done |]. intros j.
       destruct (decide (j = id)) as [-> | Hne].
       - specialize (Hr' id). rewrite Hin in *. by destruct (in_flight id s').
       - rewrite Esplit. specialize (Hr' j).
         apply (reflagged_ext (requested (same_frame id rest).2 j)); [| exact Hr'].
         intros sl i _ _. rewrite requested_app, (requested_other (nack :: _) id); [done | | done].
         by constructor. }
  destruct (in_flight_slot_ok lo s id slot Hc Hin) as (f & _ & _ & Hslok).
  pose proof (slot_ok_count _ f slot (c_packetizer lo s Hc) Hslok) as Hcount.
  pose proof (so_times _ _ _ Hslok) as Htimes.
  pose proof (in_flight_window lo s id slot Hc Hin) as Hw.
  assert (u16 (zlen (packet_sent_times slot)) = zlen (packet_sent_times slot)) as Hu.
  { apply wrap_small. unfold is_u, kAllPacketsLost in *. lia. }
  cbv zeta. rewrite Hu. destruct (Z.eqb_spec (nack_packet_id nack) kAllPacketsLost) as [Hall | Hone].
  - destruct (nacks_frame_ok lo s id slot (seqZ 0 (zlen (packet_sent_times slot))) too_recent b)
      as (slot' & b1 & -> & Hc1 & Ha1 & Hr1); [done | done | lia | |].
    { apply Forall_forall. intros i Hi. apply elem_of_seqZ in Hi. lia. }
    cbn [mbind outcome_bind].
    destruct (Hsuf rest) as [Hok2 Hal2]; [by exists [nack] |].
    destruct (IH rest b1 _ Hc1) as (s' & b' & -> & Hc' & Ha' & Hr'); [simpl in Hl; lia | done | done |].
    eexists _, _. split; [reflexivity |]. split; [done |].
    split; [by eapply after_nacks_trans |]. intros j.
    eapply reflagged_ext; [| eapply reflagged_trans; [apply Hr1 | apply Hr']].
    intros sl i Hsl Hi. change (nack :: rest) with ([nack] ++ rest). rewrite requested_app.
    simpl. fold id. rewrite Hall, Z.eqb_refl, orb_true_r, orb_false_r, andb_true_r.
    rewrite (Z.eqb_sym id j). destruct (Z.eqb_spec j id) as [-> |]; [| done]. simpl.
    rewrite Hin in Hsl. injection Hsl as <-. rewrite bool_decide_eq_true_2; [done |].
    apply elem_of_seqZ. rewrite (so_size _ _ _ Hslok) in Hi. lia.
  - cbn [same_frame]. fold id. rewrite Z.eqb_refl.
    destruct (same_frame id rest) as [mine rest'] eqn:Esf. cbn [fst snd] in *.
    destruct (nacks_frame_ok lo s id slot
        (filter (fun i => i < zlen (packet_sent_times slot)) (map nack_packet_id (nack :: mine)))
        too_recent b) as (slot' & b1 & -> & Hc1 & Ha1 & Hr1); [done | done | lia | |].
    { apply Forall_forall. intros i Hi. apply list_elem_of_filter in Hi as [Hlt Hi].
      apply list_elem_of_fmap in Hi as (n & -> & Hn). split; [| done].
      rewrite Forall_forall in Hok. assert (nack_ok n) as [? _]; [| done].
      apply Hok. rewrite Erest. apply elem_of_cons in Hn as [-> | Hn];
        [apply list_elem_of_here |]. apply elem_of_cons. right. apply elem_of_app. by left. }
    cbn [mbind outcome_bind].
    destruct (Hsuf rest') as [Hok2 Hal2]; [exists (nack :: mine); simpl; by rewrite <- Erest |].
    destruct (IH rest' b1 _ Hc1) as (s' & b' & -> & Hc' & Ha' & Hr'); [| done | done |].
    { rewrite Erest in Hl. simpl in Hl. rewrite length_app in Hl. lia. }
    eexists _, _. split; [reflexivity |]. split; [done |].
    split; [by eapply after_nacks_trans |]. intros j.
    eapply reflagged_ext; [| eapply reflagged_trans; [apply Hr1 | apply Hr']].
    intros sl i Hsl Hi. rewrite Erest. change (nack :: mine ++ rest') with ((nack :: mine) ++ rest').
    rewrite requested_app. f_equal.
    destruct (Z.eqb_spec j id) as [-> | Hne].
    2: { rewrite (requested_other (nack :: mine) id); [done | by constructor | done]. }
    rewrite requested_single.
    + simpl. apply bool_decide_ext. rewrite list_elem_of_filter.
      rewrite Hin in Hsl. injection Hsl as <-. rewrite (so_size _ _ _ Hslok), <- Htimes in Hi.
      split; [by intros [_ ?] | by split; [apply Hi |]].
    + apply Forall_forall. intros n Hn.
      assert (nack_frame_id n = id) as En.
      { apply elem_of_cons in Hn as [-> | Hn]; [done |]. rewrite Forall_forall in Hsame. auto. }
      split; [done |]. intros Hp.
      assert (nack = n); [| congruence].
      apply (Hal n nack); [| apply list_elem_of_here | done | done].
      rewrite Erest. apply elem_of_cons in Hn as [-> | Hn];
        [apply list_elem_of_here |]. apply elem_of_cons. right. apply elem_of_app. by left.
Qed.

Lemma HandleMissingPackets_ok nacks s :
  inv s -> rtcp_packet_arrival_time_ s <> kNever -> Forall nack_ok nacks -> all_lost_alone nacks ->
  exists s', HandleMissingPackets nacks s = Ret s' /\ inv s' /\ (kick_ok s -> kick_ok s')
    /\ last_enqueued_frame_id_ s' = last_enqueued_frame_id_ s
    /\ rtcp_packet_arrival_time_ s' = rtcp_packet_arrival_time_ s
    /\ forall id, reflagged (requested nacks id) (rtcp_packet_arrival_time_ s - round_trip_time_ s)
                    (in_flight id s) (in_flight id s').
Proof.
  intros Hi Harr Hok Hal. unfold HandleMissingPackets. rewrite OSP_CHECK_neqb by done.
  cbn [mbind outcome_bind].
  destruct (nacks_loop_ok (length nacks) (rtcp_packet_arrival_time_ s - round_trip_time_ s) _ nacks
              false s (i_core s Hi) ltac:(lia) Hok Hal) as (s1 & b & -> & Hc & (pf & l & Es1 & Hl) & Hr).
  cbn [mbind outcome_bind].
  assert (inv s1) as Hi1.
  { subst s1. destruct Hi as [H1 H2 H3 H4 H5 H6 H7]. constructor; try done. simpl in *. lia. }
  assert (kick_ok s -> kick_ok s1) as Hk.
  { unfold kick_ok. subst s1. simpl in *. intros Hk Hlt Hnone.
    apply Hk; [lia |]. specialize (Hr (last_enqueued_frame_id_ s)). rewrite Hnone in Hr.
    by destruct (in_flight (last_enqueued_frame_id_ s) s). }
  eexists. split; [reflexivity |].
  destruct b; (split; [destruct Hi1; constructor; try done; by apply core_call |]);
    (split; [exact Hk |]); subst s1; split_and!; done.
Qed.

(** ** Choosing packets *)

(** Nothing of frame [j] needs to be sent. *)
Definition idle (j : Z) s : Prop :=
  forall slot, in_flight j s = Some slot ->
    forall i, 0 <= i < fs_size (send_flags slot) -> fs_flag (send_flags slot) i = false.

(** The oldest packet that needs to be sent, from frame [from] on. *)
Definition next_packet (from : Z) s (j pid : Z) : Prop :=
  from <= j <= last_enqueued_frame_id_ s
  /\ (exists slot, in_flight j s = Some slot /\ 0 <= pid < fs_size (send_flags slot)
        /\ fs_flag (send_flags slot) pid = true
        /\ forall q, 0 <= q < pid -> fs_flag (send_flags slot) q = false)
  /\ forall j', from <= j' < j -> idle j' s.

Lemma choose_loop_ok fuel lo id s :
  core lo s -> lo <= id -> id + Z.of_nat fuel = last_enqueued_frame_id_ s + 1 ->
  exists o, choose_loop fuel id s = Ret o
    /\ match o with
       | Some (i, pid) => exists j, i = slot_index j /\ next_packet id s j pid
       | None => forall j, id <= j <= last_enqueued_frame_id_ s -> idle j s
       end.
Proof.
  intros Hc. revert id. induction fuel as [| fuel IH]; intros id Hlo Hf.
  { exists None. split; [done |]. intros j Hj. lia. }
  cbn [choose_loop]. rewrite (proj2 (Z.leb_le id _)) by lia.
  destruct (get_slot_ok id s (c_len lo s Hc)) as (slot & E & ->). cbn [mbind outcome_bind].
  destruct (IH (id + 1)) as (o & Eo & Ho); [lia | lia |].
  assert (idle id s -> exists o0 : option ChosenPacket, choose_loop fuel (id + 1) s = Ret o0
    /\ match o0 with
       | Some (i, pid) => exists j, i = slot_index j /\ next_packet id s j pid
       | None => forall j, id <= j <= last_enqueued_frame_id_ s -> idle j s
       end) as Hskip.
  { intros Hidle. exists o. split; [done |]. destruct o as [[i pid] |].
    - destruct Ho as (j & -> & Hj & Hs & Hb). exists j. split; [done |].
      split; [lia |]. split; [done |]. intros j' Hj'.
      destruct (decide (j' = id)) as [-> |]; [done | apply Hb; lia].
    - intros j Hj. destruct (decide (j = id)) as [-> |]; [done | apply Ho; lia]. }
  destruct (is_active_for_frame id slot) eqn:Ha; cbn [negb].
  2: { apply Hskip. intros sl [E' Ha']%in_flight_Some. rewrite E in E'. congruence. }
  assert (in_flight id s = Some slot) as Hin by (by apply in_flight_Some).
  destruct (in_flight_slot_ok lo s id slot Hc Hin) as (f & _ & _ & Hok).
  pose proof (slot_ok_count _ f slot (c_packetizer lo s Hc) Hok) as Hcnt.
  pose proof (so_size _ _ _ Hok) as Hsz.
  destruct (fs_find_spec (send_flags slot) (so_flags _ _ _ Hok)) as (Hr & Hset & Hbefore).
  rewrite wrap_small by (unfold is_u, kAllPacketsLost in *; lia).
  destruct (Z.ltb_spec (fs_find_first_set (send_flags slot)) (fs_size (send_flags slot))) as [Hlt | Hge].
  - eexists. split; [reflexivity |]. exists id. split; [done |]. split; [lia |]. split.
    + exists slot. split; [done |]. split; [lia |]. split; [auto | done].
    + intros j' Hj'. lia.
  - apply Hskip. intros sl Hsl i Hi. rewrite Hin in Hsl. injection Hsl as <-.
    apply Hbefore. lia.
Qed.

Lemma ChooseNext_ok s :
  core (checkpoint_frame_id_ s + 1) s ->
  exists o, ChooseNextRtpPacketNeedingSend s = Ret o
    /\ match o with
       | Some (i, pid) => exists j, i = slot_index j
           /\ next_packet (checkpoint_frame_id_ s + 1) s j pid
       | None => forall j, idle j s
       end.
Proof.
  intros Hc. unfold ChooseNextRtpPacketNeedingSend. destruct (c_window _ s Hc) as (Hw & _).
  destruct (choose_loop_ok (Z.to_nat (last_enqueued_frame_id_ s - checkpoint_frame_id_ s))
              _ (checkpoint_frame_id_ s + 1) s Hc) as (o & -> & Ho); [lia | lia |].
  exists o. split; [done |]. destruct o as [[i pid] |]; [done |].
  intros j slot Hin. apply (Ho j); [| done]. by apply (in_flight_window _ _ _ _ Hc) in Hin.
Qed.

(** What the kickstart packet is, when nothing needs to be sent. *)
Lemma ChooseKickstart_ok s :
  inv s -> kick_ok s -> (forall j, idle j s) ->
  exists o when_, ChooseKickstartPacket s = Ret (o, when_)
    /\ match o with
       | None => when_ = kNever /\ latest_expected_frame_id_ s = last_enqueued_frame_id_ s
       | Some (i, pid) => latest_expected_frame_id_ s < last_enqueued_frame_id_ s
           /\ i = slot_index (last_enqueued_frame_id_ s)
           /\ exists slot, in_flight (last_enqueued_frame_id_ s) s = Some slot
                /\ pid = fs_size (send_flags slot) - 1 /\ 0 <= pid
                /\ when_ = time_at slot pid
                     + Z.max (target_playout_delay_ s * 50) (round_trip_time_ s * 2)
       end.
Proof.
  intros Hi Hk Hidle. unfold ChooseKickstartPacket. pose proof (i_latest s Hi) as Hl.
  destruct (Z.leb_spec (last_enqueued_frame_id_ s) (latest_expected_frame_id_ s)) as [Hge | Hlt].
  { eexists _, _. split; [reflexivity |]. split; [done | lia]. }
  pose proof (i_core s Hi) as Hc.
  destruct (in_flight (last_enqueued_frame_id_ s) s) as [slot |] eqn:Hin; [| by destruct (Hk Hlt)].
  pose proof Hin as [E Ha]%in_flight_Some. unfold get_slot_for. rewrite E.
  cbn [in_bounds mbind outcome_bind]. rewrite Ha. cbn [OSP_CHECK mbind outcome_bind].
  destruct (in_flight_slot_ok _ s _ slot Hc Hin) as (f & _ & _ & Hok).
  pose proof (slot_ok_count _ f slot (c_packetizer _ s Hc) Hok) as Hcnt.
  pose proof (so_size _ _ _ Hok) as Hsz. pose proof (so_times _ _ _ Hok) as Ht.
  rewrite wrap_small by (unfold is_u, kAllPacketsLost in *; lia).
  destruct (lookup_lt_is_Some_2 (packet_sent_times slot) (Z.to_nat (fs_size (send_flags slot) - 1)))
    as [sent Es]; [unfold zlen in Ht; lia |].
  rewrite Es. cbn [in_bounds mbind outcome_bind].
  assert (time_at slot (fs_size (send_flags slot) - 1) = sent) as Et by (by apply nth_lookup_Some).
  rewrite OSP_CHECK_neqb.
  2: { intros ->.
       assert (0 <= fs_size (send_flags slot) - 1 < ComputeNumberOfPackets (rtp_packetizer_ s) f)
         as Hr by lia.
       pose proof (so_unsent _ _ _ Hok _ Hr Es) as Hf.
       rewrite (Hidle _ _ Hin) in Hf by lia. done. }
  cbn [mbind outcome_bind]. eexists _, _. split; [reflexivity |]. split; [done |]. split; [done |].
  exists slot. split; [done |]. split; [done |]. split; [lia |]. rewrite Et. f_equal. f_equal.
  pose proof (i_delay s Hi). rewrite Z.quot_div_nonneg by lia.
  replace (target_playout_delay_ s * 1000 * 1) with (target_playout_delay_ s * 50 * 20) by lia.
  by rewrite Z.div_mul by lia.
Qed.

(** ** Sending a packet *)

(** The slot after packet [pid] was sent at [t]. *)
Definition packet_sent (t pid : Z) (old new : @PendingFrameSlot T) : Prop :=
  slot_frame new = slot_frame old
  /\ packet_sent_times new = <[Z.to_nat pid := t]> (packet_sent_times old)
  /\ fs_size (send_flags new) = fs_size (send_flags old)
  /\ forall i, 0 <= i < fs_size (send_flags old) ->
       fs_flag (send_flags new) i = negb (pid =? i) && fs_flag (send_flags old) i.

Lemma slot_ok_sequence p q f slot :
  slot_ok p f slot -> slot_ok (p <| next_sequence_number := q |>) f slot.
Proof. intros [[]]. by constructor. Qed.

Lemma send_chosen_ok t buffer j pid slot f s :
  inv s -> in_flight j s = Some slot -> slot_frame slot = Some f ->
  0 <= pid < fs_size (send_flags slot) -> t <> kNever ->
  written buffer = [] -> max_packet_size (rtp_packetizer_ s) <= room buffer ->
  exists s' slot', send_chosen t buffer (slot_index j, pid) s
      = Ret (packet_bytes (rtp_packetizer_ s) f pid, s')
    /\ inv s' /\ packet_sent t pid slot slot'
    /\ last_enqueued_frame_id_ s' = last_enqueued_frame_id_ s
    /\ checkpoint_frame_id_ s' = checkpoint_frame_id_ s
    /\ latest_expected_frame_id_ s' = latest_expected_frame_id_ s
    /\ rtp_packetizer_ s' = (rtp_packetizer_ s)
         <| next_sequence_number := u16 (next_sequence_number (rtp_packetizer_ s) + 1) |>
    /\ forall k, in_flight k s' = if k =? j then Some slot' else in_flight k s.
Proof.
  intros Hi Hin Ef Hpid Ht Hw Hroom. pose proof (i_core s Hi) as Hc.
  destruct (in_flight_slot_ok _ s _ slot Hc Hin) as (f' & Ef' & Ej & Hok).
  rewrite Ef in Ef'. injection Ef' as <-.
  pose proof Hin as [E Ha]%in_flight_Some. unfold send_chosen. rewrite E.
  cbn [in_bounds mbind outcome_bind]. rewrite Ef.
  pose proof Hok as [Hfw Hfs Hsz Htm Hun]. rewrite Hsz in Hpid.
  destruct (GeneratePacket_ok (rtp_packetizer_ s) f pid buffer (c_packetizer _ s Hc) Hfw Hpid Hw Hroom)
    as [-> _].
  cbn [mbind outcome_bind].
  destruct (fs_clear_spec pid (send_flags slot) Hfs) as (fl & -> & Hfl & Hsz' & Hflag); [lia |].
  cbn [mbind outcome_bind].
  destruct (lookup_lt_is_Some_2 (packet_sent_times slot) (Z.to_nat pid)) as [sent Es];
    [unfold zlen in Htm; lia |].
  change (packet_sent_times (slot <| send_flags := fl |>)) with (packet_sent_times slot).
  rewrite Es. cbn [in_bounds mbind outcome_bind].
  set (slot' := (slot <| send_flags := fl |>) <| packet_sent_times := _ |>).
  set (s1 := s <| rtp_packetizer_ := _ |>).
  assert (core (checkpoint_frame_id_ s + 1) s1) as Hc1.
  { destruct Hc as [H1 H2 H3 H4 H5 H6]. constructor; try done.
    - destruct H1 as (? & ? & ? & ?). split; [done |]. split; [done |].
      split; [| done]. apply wrap_is_u. lia.
    - intros i sl g Ei Eg. destruct (H5 i sl g Ei Eg) as (? & ? & ?).
      split; [done |]. split; [done |]. by apply slot_ok_sequence. }
  assert (packet_sent t pid slot slot') as Hps.
  { split; [done |]. split; [done |]. split; [exact Hsz' |]. intros i Hi'. simpl. by rewrite Hflag. }
  assert (slot_ok (rtp_packetizer_ s1) f slot') as Hok'.
  { apply slot_ok_sequence. constructor; try done; simpl.
    - by rewrite Hsz'.
    - unfold zlen. by rewrite length_insert.
    - intros i Hi' Hn. rewrite Hflag by lia.
      destruct (Z.eqb_spec pid i) as [<- | Hne].
      + rewrite list_lookup_insert_eq in Hn by (unfold zlen in Htm; lia). congruence.
      + rewrite list_lookup_insert_ne in Hn by lia. by rewrite Hun. }
  assert (core (checkpoint_frame_id_ s + 1) (set_slot (slot_index j) slot' s1)) as Hc2
    by (eapply core_set_slot; [exact Hc1 | exact E | exact Ef | done | done]).
  change (pending_sender_report_ (set_slot (slot_index j) slot' s1)) with (pending_sender_report_ s).
  rewrite OSP_CHECK_leb.
  2: { rewrite zlen_packet_bytes. pose proof (zlen_nonneg (chunk_of_frame (rtp_packetizer_ s) f pid)).
       unfold kBaseRtpHeaderSize, kRtpPacketMinValidSize. case_match; lia. }
  cbn [mbind outcome_bind]. eexists _, slot'. split; [reflexivity |]. split.
  { destruct Hi as [H1 H2 H3 H4 H5 H6 H7]. constructor; try done.
    - destruct Hc2. by constructor.
    - destruct H7 as (? & ? & ?). split; [apply wrap_is_u; lia |]. split; [apply wrap_is_u; lia | done]. }
  split; [exact Hps |]. split; [done |]. split; [done |]. split; [done |]. split; [done |].
  intros k. change (in_flight k s) with (in_flight k s1).
  rewrite <- (in_flight_set_slot s1 j slot slot' k); [done | exact Hin | done].
Qed.

Lemma kick_ok_kept s s' :
  last_enqueued_frame_id_ s' = last_enqueued_frame_id_ s ->
  latest_expected_frame_id_ s' = latest_expected_frame_id_ s ->
  (in_flight (last_enqueued_frame_id_ s) s <> None ->
   in_flight (last_enqueued_frame_id_ s) s' <> None) ->
  kick_ok s -> kick_ok s'.
Proof. unfold kick_ok. intros -> ->. auto. Qed.

(** ** Enqueueing a frame *)

Variable AES_ctr128_encrypt : AES_KEY -> ctr_state -> list Z -> list Z * ctr_state.
Hypothesis ctr_length : forall k st l, length (AES_ctr128_encrypt k st l).1 = length l.

Lemma Encrypt_ok c f :
  is_null (frame_id f) = false ->
  exists enc, Encrypt AES_ctr128_encrypt c f = Ret enc
    /\ zlen (data enc) = zlen (data f) /\ enc = f <| data := data enc |>.
Proof using ctr_length.
  intros Hid. unfold Encrypt, Crypt. rewrite Hid. change (OSP_CHECK (negb false)) with (Ret tt).
  cbn [mbind outcome_bind crypt_loop]. rewrite OSP_CHECK_leb by (unfold zlen; simpl; lia).
  cbn [mbind outcome_bind].
  set (st := (_, _, 0)). pose proof (ctr_length (aes_key c) st (data f)) as Hl.
  destruct (AES_ctr128_encrypt _ st (data f)) as [bytes st']. cbn [crypt_loop mbind outcome_bind app].
  assert (zlen bytes = zlen (data f)) as Hz by (unfold zlen; simpl in Hl; by rewrite Hl).
  rewrite OSP_CHECK_eqb by done. cbn [mbind outcome_bind].
  eexists. split; [reflexivity |]. split; [done |]. by destruct f.
Qed.

(** What a caller of [EnqueueFrame] has to respect. *)
Record enqueue_pre (has_data : bool) (f : EncodedFrame) s : Prop := {
  ep_id : frame_id f = last_enqueued_frame_id_ s + 1;
  ep_max : frame_id f < INT64_MAX;
  ep_ref : 0 <= referenced_frame_id f;
  ep_time : frame_id f <> 0 -> sr_rtp_timestamp (pending_sender_report_ s) < rtp_timestamp f;
  ep_data : has_data = true;
  ep_len : zlen (data f) < 2 ^ 31;
  ep_delay : new_playout_delay f <= 65535 }.

(** The frame after the checkpoint has not been acknowledged on its own. *)
Definition oldest_ok s : Prop :=
  num_frames_in_flight_ s = 0 \/ in_flight (checkpoint_frame_id_ s + 1) s <> None.

Lemma GetInFlightMediaDuration_ok ts s :
  inv s -> oldest_ok s -> exists d, GetInFlightMediaDuration ts s = Ret d.
Proof using.
  intros Hi Ho. unfold GetInFlightMediaDuration.
  destruct (Z.eqb_spec (num_frames_in_flight_ s) 0); [by eexists |].
  destruct Ho as [| Ho]; [done |].
  destruct (in_flight _ s) as [slot |] eqn:Hin; [| done].
  pose proof Hin as [E Ha]%in_flight_Some. unfold get_slot_for. rewrite E.
  cbn [in_bounds mbind outcome_bind]. rewrite Ha. cbn [OSP_CHECK mbind outcome_bind].
  pose proof Ha as (f & -> & _)%active_Some. unfold ToDuration.
  rewrite OSP_CHECK_ltb by apply (c_timebase _ _ (i_core s Hi)). by eexists.
Qed.

(** A newly enqueued frame: all its packets are to be sent, none was. *)
Definition fresh_slot p (f : EncodedFrame) slot : Prop :=
  (exists enc, slot_frame slot = Some enc /\ enc = f <| data := data enc |>
     /\ zlen (data enc) = zlen (data f))
  /\ fs_size (send_flags slot) = ComputeNumberOfPackets p f
  /\ (forall i, 0 <= i < fs_size (send_flags slot) -> fs_flag (send_flags slot) i = true)
  /\ packet_sent_times slot = replicate (Z.to_nat (ComputeNumberOfPackets p f)) kNever.

Lemma slot_free s id slot :
  core (checkpoint_frame_id_ s + 1) s -> id = last_enqueued_frame_id_ s + 1 ->
  id < INT64_MAX -> id - checkpoint_frame_id_ s <= kMaxUnackedFrames ->
  pending_frames_ s !! slot_index id = Some slot -> slot_frame slot = None.
Proof using.
  intros Hc Hid Hmax Hspan E. destruct (slot_frame slot) as [f |] eqn:Ef; [| done]. exfalso.
  destruct (c_slots _ s Hc _ _ _ E Ef) as (Hw & _).
  destruct (c_window _ s Hc) as (? & _). unfold kMaxUnackedFrames in Hspan.
  assert (frame_id f = id) as Heq; [| lia].
  eapply core_occupied; [exact Hc | lia | lia | exact E | exact Ef].
Qed.

Lemma active_ids_free pf i (slot new : @PendingFrameSlot T) enc :
  pf !! i = Some slot -> slot_frame slot = None -> slot_frame new = Some enc ->
  zlen (active_ids (<[i := new]> pf)) = zlen (active_ids pf) + 1.
Proof using. intros E Ef Ef'. rewrite (active_ids_insert pf i slot) by done. rewrite Ef, Ef'. lia. Qed.

(** The state after the slot is filled, before the bookkeeping. *)
Lemma core_enqueued s slot new enc :
  core (checkpoint_frame_id_ s + 1) s ->
  frame_id enc = last_enqueued_frame_id_ s + 1 -> frame_id enc < INT64_MAX ->
  frame_id enc - checkpoint_frame_id_ s <= kMaxUnackedFrames ->
  pending_frames_ s !! slot_index (frame_id enc) = Some slot ->
  slot_frame new = Some enc -> slot_ok (rtp_packetizer_ s) enc new ->
  let s' := (set_slot (slot_index (frame_id enc)) new s)
              <| num_frames_in_flight_ := num_frames_in_flight_ s + 1 |>
              <| last_enqueued_frame_id_ := frame_id enc |> in
  core (checkpoint_frame_id_ s + 1) s'
  /\ (forall j, in_flight j s' = if j =? frame_id enc then Some new else in_flight j s).
Proof using.
  intros Hc Hid Hmax Hspan E Ef Hok.
  pose proof (slot_free s (frame_id enc) slot Hc Hid Hmax Hspan E) as Efree.
  destruct Hc as [H1 H2 H3 (H4 & H4' & H4'') H5 H6]. unfold kMaxUnackedFrames in Hspan.
  assert (forall j sl, j <> frame_id enc -> pending_frames_ s !! slot_index j = Some sl ->
            slot_index (frame_id enc) = slot_index j -> is_active_for_frame j sl = false) as Hother.
  { intros j sl Hj Ej Hi. rewrite <- Hi, E in Ej. injection Ej as <-.
    unfold is_active_for_frame. by rewrite Efree. }
  cbv zeta. split.
  - constructor; try done; simpl.
    + by rewrite length_insert.
    + lia.
    + intros i sl f Ei Ef'. destruct (decide (slot_index (frame_id enc) = i)) as [<- | Hne].
      * rewrite list_lookup_insert_eq in Ei by (by eapply lookup_lt_Some). injection Ei as <-.
        rewrite Ef in Ef'. injection Ef' as <-. split; [lia | done].
      * rewrite list_lookup_insert_ne in Ei by done.
        destruct (H5 i sl f Ei Ef') as (? & ? & ?). split; [lia | done].
    + rewrite (active_ids_free _ _ slot new enc) by done. lia.
  - intros j. unfold in_flight. simpl.
    destruct (decide (slot_index (frame_id enc) = slot_index j)) as [Hi | Hne].
    + rewrite <- Hi, list_lookup_insert_eq by (by eapply lookup_lt_Some). rewrite E. simpl.
      unfold is_active_for_frame. rewrite Ef, Efree, Z.eqb_sym. done.
    + rewrite list_lookup_insert_ne by done. by destruct (Z.eqb_spec j (frame_id enc)) as [-> |].
Qed.

(** The state but for the bookkeeping of playout delay, key frames, sender
    report and calls. *)
Definition same_ring s s' : Prop :=
  rtp_packetizer_ s' = rtp_packetizer_ s /\ rtp_timebase_ s' = rtp_timebase_ s
  /\ pending_frames_ s' = pending_frames_ s
  /\ last_enqueued_frame_id_ s' = last_enqueued_frame_id_ s
  /\ num_frames_in_flight_ s' = num_frames_in_flight_ s
  /\ checkpoint_frame_id_ s' = checkpoint_frame_id_ s
  /\ latest_expected_frame_id_ s' = latest_expected_frame_id_ s
  /\ round_trip_time_ s' = round_trip_time_ s /\ rtcp_session_ s' = rtcp_session_ s.

Lemma same_ring_core s s' lo : same_ring s s' -> core lo s -> core lo s'.
Proof using.
  intros (E1 & E2 & E3 & E4 & E5 & _) [H1 H2 H3 H4 H5 H6].
  constructor; rewrite ?E1, ?E2, ?E3, ?E4, ?E5; done.
Qed.

(** What the answer of [EnqueueFrame] says. *)
Definition enqueue_result (f : EncodedFrame) s (r : EnqueueFrameResult) s' : Prop :=
  match r with
  | REACHED_ID_SPAN_LIMIT => s' = s /\ 120 < frame_id f - checkpoint_frame_id_ s
  | MAX_DURATION_IN_FLIGHT =>
      s' = s /\ exists d, GetInFlightMediaDuration (rtp_timestamp f) s = Ret d
        /\ GetMaxInFlightMediaDuration s < d
  | PAYLOAD_TOO_LARGE => s' = s /\ ComputeNumberOfPackets (rtp_packetizer_ s) f <= 0
  | OK =>
      frame_id f - checkpoint_frame_id_ s <= 120
      /\ last_enqueued_frame_id_ s' = frame_id f
      /\ checkpoint_frame_id_ s' = checkpoint_frame_id_ s
      /\ latest_expected_frame_id_ s' = latest_expected_frame_id_ s
      /\ num_frames_in_flight_ s' = num_frames_in_flight_ s + 1
      /\ rtp_packetizer_ s' = rtp_packetizer_ s
      /\ RouterRequestRtpSend (receiver_ssrc (rtcp_session_ s)) ∈ calls_ s'
      /\ exists slot, fresh_slot (rtp_packetizer_ s) f slot
           /\ forall j, in_flight j s' = if j =? frame_id f then Some slot else in_flight j s
  end.

Lemma EnqueueFrame_ok has_data f s :
  inv s -> oldest_ok s -> enqueue_pre has_data f s ->
  exists r s', EnqueueFrame AES_ctr128_encrypt has_data f s = Ret (r, s') /\ inv s'
    /\ (r = OK -> kick_ok s') /\ enqueue_result f s r s'.
Proof using ctr_length.
  intros Hi Ho [Pid Pmax Pref Ptime Pdata Plen Pdelay]. pose proof (i_core s Hi) as Hc.
  destruct (c_window _ s Hc) as (Hw1 & Hw2 & Hw3).
  unfold EnqueueFrame, GetNextFrameId, first_frame_id.
  rewrite OSP_CHECK_eqb by done. rewrite (OSP_CHECK_leb 0 (referenced_frame_id f)) by done.
  assert ((if negb (frame_id f =? 0)
           then OSP_CHECK (sr_rtp_timestamp (pending_sender_report_ s) <? rtp_timestamp f)
           else Ret tt) = Ret tt) as ->.
  { destruct (Z.eqb_spec (frame_id f) 0); [done |]. cbn [negb]. by rewrite OSP_CHECK_ltb by auto. }
  rewrite (OSP_CHECK_true has_data) by done. cbn [mbind outcome_bind].
  destruct (Z.ltb_spec kMaxUnackedFrames (frame_id f - checkpoint_frame_id_ s)) as [Hspan | Hspan].
  { eexists _, s. split; [reflexivity |]. split; [done |]. split; [done |]. done. }
  destruct (GetInFlightMediaDuration_ok (rtp_timestamp f) s Hi Ho) as [d Hd]. rewrite Hd.
  cbn [mbind outcome_bind].
  destruct (Z.ltb_spec (GetMaxInFlightMediaDuration s) d) as [Hmax | Hmax].
  { eexists _, s. split; [reflexivity |]. split; [done |]. split; [done |]. split; [done | by exists d]. }
  destruct (get_slot_ok (frame_id f) s (c_len _ s Hc)) as (slot & E & Hget). rewrite Hget.
  cbn [mbind outcome_bind].
  pose proof (slot_free s (frame_id f) slot Hc Pid Pmax Hspan E) as Efree.
  rewrite OSP_CHECK_true by (by apply bool_decide_eq_true_2). cbn [mbind outcome_bind].
  destruct (Encrypt_ok (crypto_ s) f) as (enc & -> & Hlen & Henc).
  { unfold is_null, null_frame_id, INT64_MIN. lia. }
  cbn [mbind outcome_bind].
  assert (frame_id enc = frame_id f /\ new_playout_delay enc = new_playout_delay f) as [Eid Edelay]
    by (rewrite Henc; done).
  assert (ComputeNumberOfPackets (rtp_packetizer_ s) enc = ComputeNumberOfPackets (rtp_packetizer_ s) f)
    as Ecount by (unfold ComputeNumberOfPackets; by rewrite Hlen).
  rewrite Ecount. set (n := ComputeNumberOfPackets (rtp_packetizer_ s) f) in *.
  destruct (Z.leb_spec n 0) as [Hn | Hn].
  { eexists _, s. split.
    - do 2 f_equal. unfold set_slot. destruct slot as [fr fl ts]. simpl in Efree. subst fr. simpl.
      rewrite list_insert_id by done. by destruct s.
    - split; [done |]. split; [done |]. done. }
  set (slot' := ((slot <| slot_frame := _ |>) <| send_flags := _ |>) <| packet_sent_times := _ |>).
  destruct (fs_resize_spec n true (send_flags slot)) as (R1 & R2 & R3); [lia |].
  assert (slot_ok (rtp_packetizer_ s) enc slot') as Hok.
  { constructor; simpl; fold n; rewrite ?Ecount.
    - split; [by rewrite Hlen |]. rewrite Ecount. split; [done | by rewrite Edelay].
    - done.
    - done.
    - unfold zlen. rewrite length_replicate. lia.
    - intros i Hi' _. by apply R3. }
  assert (fresh_slot (rtp_packetizer_ s) f slot') as Hfresh.
  { split; [by exists enc |]. split; [done |]. split; [| done]. intros i Hi'. simpl in *.
    apply R3. by rewrite R2 in Hi'. }
  destruct (core_enqueued s slot slot' enc Hc) as [Hc' Hin']; try done; [lia | lia | lia | by rewrite Eid |].
  rewrite <- Eid. cbv zeta in Hc', Hin'.
  change (num_frames_in_flight_ (set_slot (slot_index (frame_id enc)) slot' s))
    with (num_frames_in_flight_ s).
  set (s1 := ((set_slot (slot_index (frame_id enc)) slot' s)
              <| num_frames_in_flight_ := num_frames_in_flight_ s + 1 |>)
              <| last_enqueued_frame_id_ := frame_id enc |>) in *.
  pose proof (core_count _ s1 Hc') as Hcount.
  rewrite OSP_CHECK_leb by (simpl in *; lia). cbn [mbind outcome_bind].
  set (s2 := if bool_decide (dependency enc = kKeyFrame) then _ else s1).
  set (s3 := if 0 <? new_playout_delay enc then _ else s2).
  set (s4 := s3 <| pending_sender_report_ := _ |>).
  set (s5 := if round_trip_time_ s4 =? 0 then _ else s4).
  eexists OK, _. split; [reflexivity |].
  assert (same_ring s1 s5 /\ pending_cancellations_ s5 = [] /\ 0 < target_playout_delay_ s5
    /\ last_enqueued_key_frame_id_ s5 <= frame_id enc
    /\ picture_lost_at_frame_id_ s5 = picture_lost_at_frame_id_ s
    /\ sender_report_wf (pending_sender_report_ s5)) as (Hring & Hpend & Hdel & Hkey & Hpic & Hrep).
  { destruct Hi as [_ _ I1 _ I2 [I3 _] I4].
    assert (same_ring s1 s2 /\ pending_cancellations_ s2 = [] /\ 0 < target_playout_delay_ s2
      /\ last_enqueued_key_frame_id_ s2 <= frame_id enc
      /\ picture_lost_at_frame_id_ s2 = picture_lost_at_frame_id_ s
      /\ sender_report_wf (pending_sender_report_ s2)) as (A1 & A2 & A3 & A4 & A5 & A6).
    { unfold s2. destruct (bool_decide _);
        (split; [done |]); (split; [exact I1 |]); (split; [exact I2 |]);
        (split; [simpl; lia |]); (split; [done | exact I4]). }
    assert (same_ring s1 s3 /\ pending_cancellations_ s3 = [] /\ 0 < target_playout_delay_ s3
      /\ last_enqueued_key_frame_id_ s3 <= frame_id enc
      /\ picture_lost_at_frame_id_ s3 = picture_lost_at_frame_id_ s
      /\ sender_report_wf (pending_sender_report_ s3)) as (B1 & B2 & B3 & B4 & B5 & B6).
    { unfold s3. destruct (Z.ltb_spec 0 (new_playout_delay enc)); [| done]. clearbody s2.
      (split; [exact A1 |]); (split; [exact A2 |]); (split; [done |]); done. }
    clearbody s3. unfold s5, s4. destruct (round_trip_time_ _ =? 0);
      (split; [exact B1 |]); (split; [exact B2 |]); (split; [exact B3 |]);
      (split; [exact B4 |]); (split; [exact B5 |]); exact B6. }
  clearbody s5. clear s2 s3 s4. destruct Hring as (E1 & E2 & E3 & E4 & E5 & E6 & E7 & E8 & E9).
  set (s6 := call _ (call _ s5)).
  assert (same_ring s1 s6) as Hring6 by done.
  assert (forall j, in_flight j s6 = if j =? frame_id enc then Some slot' else in_flight j s) as Hin6.
  { intros j. rewrite <- Hin'. unfold in_flight. simpl. by rewrite E3. }
  split.
  { destruct Hi as [_ I1 _ I2 _ [_ I3] _]. constructor; try done.
    - change (checkpoint_frame_id_ s6) with (checkpoint_frame_id_ s5). rewrite E6.
      by apply (same_ring_core s1 s6).
    - change (latest_expected_frame_id_ s5 <= last_enqueued_frame_id_ s5). rewrite E7, E4. simpl. lia.
    - change (0 <= round_trip_time_ s5). rewrite E8. exact I2.
    - change (last_enqueued_key_frame_id_ s5 <= last_enqueued_frame_id_ s5
              /\ picture_lost_at_frame_id_ s5 <= checkpoint_frame_id_ s5).
      rewrite Hpic, E4, E6. split; [exact Hkey | exact I3]. }
  split.
  { intros _ _. change (last_enqueued_frame_id_ s6) with (last_enqueued_frame_id_ s5).
    rewrite E4, Hin6. change (last_enqueued_frame_id_ s1) with (frame_id enc).
    by rewrite Z.eqb_refl. }
  split; [unfold kMaxUnackedFrames in *; lia |].
  split; [exact (eq_trans E4 Eid) |]. split; [exact E6 |]. split; [exact E7 |].
  split; [exact E5 |]. split; [exact E1 |]. split.
  { unfold s6, call. simpl. rewrite E9. apply elem_of_app. left. apply elem_of_app. right.
    apply list_elem_of_here. }
  exists slot'. split; [exact Hfresh |]. intros j. rewrite Hin6, Eid. done.
Qed.

(** ** Cancelling everything *)

Lemma CancelInFlightData_ok s :
  inv s ->
  exists s', CancelInFlightData s = Ret s' /\ inv s'
    /\ checkpoint_frame_id_ s' = last_enqueued_frame_id_ s
    /\ last_enqueued_frame_id_ s' = last_enqueued_frame_id_ s
    /\ latest_expected_frame_id_ s' = latest_expected_frame_id_ s
    /\ num_frames_in_flight_ s' = 0 /\ forall j, in_flight j s' = None.
Proof using.
  intros Hi. pose proof (i_core s Hi) as Hc. destruct (c_window _ s Hc) as (Hw & _).
  unfold CancelInFlightData.
  destruct (cancel_loop_ok (Z.to_nat (last_enqueued_frame_id_ s - checkpoint_frame_id_ s)) s Hc)
    as (s1 & -> & Hc1 & Ha1 & Hin1); [lia |].
  cbn [mbind outcome_bind]. eexists. split; [reflexivity |].
  assert (inv (DispatchCancellations s1)) as Hi'.
  { assert (s1 = s1 <| latest_expected_frame_id_ := latest_expected_frame_id_ s |>) as E.
    { destruct Ha1 as (? & ? & ? & ? & ->). by destruct s. }
    rewrite E. eapply (inv_cancelled (last_enqueued_frame_id_ s)); try done; [lia |].
    apply (i_latest s Hi). }
  split; [done |].
  assert (forall j, in_flight j (DispatchCancellations s1) = None) as Hnone.
  { intros j. by rewrite in_flight_Dispatch. }
  assert (checkpoint_frame_id_ (DispatchCancellations s1) = last_enqueued_frame_id_ s
    /\ last_enqueued_frame_id_ (DispatchCancellations s1) = last_enqueued_frame_id_ s
    /\ latest_expected_frame_id_ (DispatchCancellations s1) = latest_expected_frame_id_ s)
    as (E1 & E2 & E3).
  { destruct Ha1 as (? & ? & ? & ? & ->). unfold DispatchCancellations.
    by destruct (observer_ _). }
  split; [done |]. split; [done |]. split; [done |]. split; [| done].
  pose proof (core_count _ _ (i_core _ Hi')) as Hcount. rewrite E1, E2 in Hcount.
  pose proof (c_count _ _ (i_core _ Hi')) as Hn.
  pose proof (zlen_nonneg (active_ids (pending_frames_ (DispatchCancellations s1)))). lia.
Qed.

(** ** Packets from the receiver *)

Lemma SmoothRoundTripTime_bounds e m :
  0 <= e -> 0 <= m -> 0 <= SmoothRoundTripTime e m
  /\ (0 < e -> Z.min e m <= SmoothRoundTripTime e m <= Z.max e m).
Proof using.
  intros He Hm. unfold SmoothRoundTripTime.
  destruct (Z.eqb_spec e 0); [lia |].
  destruct (Z.ltb_spec e m); rewrite Z.quot_div_nonneg by lia; Z.div_mod_to_equations; lia.
Qed.

Definition event_ok (e : ClientEvent) : Prop :=
  match e with
  | OnReceiverCheckpoint _ d => 0 <= d
  | OnReceiverHasFrames acks => acks <> [] /\ StronglySorted Z.lt acks
  | OnReceiverIsMissingPackets nacks => Forall nack_ok nacks /\ all_lost_alone nacks
  | _ => True
  end.

Lemma handle_event_ok e s :
  inv s -> rtcp_packet_arrival_time_ s <> kNever -> event_ok e ->
  exists s', handle_event e s = Ret s' /\ inv s' /\ (kick_ok s -> kick_ok s')
    /\ rtcp_packet_arrival_time_ s' = rtcp_packet_arrival_time_ s.
Proof using.
  intros Hi Harr He. destruct e as [t | r | ms | | id d | acks | nacks]; simpl.
  - by exists s.
  - unfold HandleReceiverReport. rewrite OSP_CHECK_neqb by done. cbn [mbind outcome_bind].
    eexists. split; [reflexivity |]. split; [| by split].
    destruct Hi as [H1 H2 H3 H4 H5 H6 H7]. constructor; try done; [by destruct H1 |].
    simpl. match goal with |- 0 <= SmoothRoundTripTime ?e ?m =>
      destruct (SmoothRoundTripTime_bounds e m) as [? _]; [done | case_match; lia | done] end.
  - eexists. split; [reflexivity |]. split; [| by split].
    destruct Hi as [H1]. constructor; try done. by apply core_call.
  - eexists. split; [reflexivity |]. unfold HandlePictureLoss. destruct (_ <? _); [by split |].
    destruct Hi as [H1 H2 H3 H4 H5 [H6 H7] H8].
    destruct (observer_ _); (split; [| by split]); constructor; try done;
      try (by destruct H1); simpl; lia.
  - destruct (HandleCheckpoint_ok id d s Hi He) as (s' & -> & Hi' & Hk & _ & Ha & _).
    exists s'. by split_and!.
  - destruct He as [Hne Hs].
    destruct (HandleHasFrames_ok acks s Hi Hne Hs) as (s' & -> & Hi' & Hk & _ & Ha & _).
    exists s'. by split_and!.
  - destruct He as [Hok Hal].
    destruct (HandleMissingPackets_ok nacks s Hi Harr Hok Hal) as (s' & -> & Hi' & Hk & _ & Ha & _).
    exists s'. by split_and!.
Qed.

Lemma handle_events_ok es s :
  inv s -> rtcp_packet_arrival_time_ s <> kNever -> Forall event_ok es ->
  exists s', handle_events es s = Ret s' /\ inv s' /\ (kick_ok s -> kick_ok s').
Proof using.
  intros Hi Harr Hes. revert s Hi Harr. induction Hes as [| e es He _ IH]; intros s Hi Harr.
  { by exists s. }
  cbn [handle_events]. destruct (handle_event_ok e s Hi Harr He) as (s1 & -> & Hi1 & Hk1 & Ha1).
  cbn [mbind outcome_bind]. destruct (IH s1 Hi1) as (s' & -> & Hi' & Hk'); [congruence |].
  exists s'. split; [done |]. split; [done | auto].
Qed.

(** ** Reports to the receiver *)

Lemma GetRtcpPacket_ok t size s :
  inv s -> 52 <= size -> exists packet, GetRtcpPacketForImmediateSend t (new_buffer size) s = Ret packet.
Proof using.
  intros Hi Hsize. unfold GetRtcpPacketForImmediateSend.
  destruct (_ =? kNever); [by eexists |].
  rewrite BuildPacket_ok; [| exact (i_report s Hi) | done]. cbn [mbind outcome_bind]. by eexists.
Qed.
End SenderInv.
