(* ===== verification/SenderProps.v ===== *)
(** The properties of the sender (Sender.v), from the lemmas of SenderInv.v. *)

From S2P Require Import Prelude Numeric Wire Ids NtpTime RtpDefines RtcpCommon SenderReport.
From S2P Require Import RtcpParser Rtp FrameCrypto BitVector Sender SenderInv.

Section SenderProps.
Context {T : Type} {FS : FlagSet T} {AES_KEY : Type}.
Implicit Types (s : @SenderImpl T AES_KEY) (slot : @PendingFrameSlot T).
Variable AES_ctr128_encrypt : AES_KEY -> ctr_state -> list Z -> list Z * ctr_state.

(** ** Runs

    The public operations and those the packet router calls, and what a
    caller has to respect.  [stale] tells whether frames were cancelled since
    the last one was enqueued. *)

Inductive step : bool -> @SenderImpl T AES_KEY -> bool -> @SenderImpl T AES_KEY -> Prop :=
  | step_observer stale s o s' : SetObserver o s = Ret s' -> step stale s stale s'
  | step_enqueue stale s has_data f r s' :
      enqueue_pre has_data f s -> EnqueueFrame AES_ctr128_encrypt has_data f s = Ret (r, s') ->
      step stale s (match r with OK => false | _ => stale end) s'
  | step_cancel stale s s' : CancelInFlightData s = Ret s' -> step stale s true s'
  | step_drop stale s id ts t : step stale s stale (ReportFrameDropEvent id ts t s)
  | step_rtcp stale s arrival packet s' :
      arrival < kNever -> bytes_ok packet ->
      OnReceivedRtcpPacket arrival packet s = Ret s' -> step stale s stale s'
  | step_rtp stale s t size bytes s' :
      t < kNever -> max_packet_size (rtp_packetizer_ s) <= size ->
      GetRtpPacketForImmediateSend t (new_buffer size) s = Ret (bytes, s') ->
      step stale s stale s'.

Inductive reachable : bool -> @SenderImpl T AES_KEY -> Prop :=
  | reachable_new session packetizer timebase crypto delay s :
      (forall p, packetizer = Ret p -> packetizer_wf p) ->
      new_SenderImpl session packetizer timebase crypto delay = Ret s -> reachable false s
  | reachable_step stale s stale' s' :
      reachable stale s -> step stale s stale' s' -> reachable stale' s'.

Lemma new_inv session packetizer timebase crypto delay s :
  (forall p, packetizer = Ret p -> packetizer_wf p) ->
  new_SenderImpl session packetizer timebase crypto delay = Ret s ->
  inv s /\ kick_ok s.
Proof.
  intros Hp H. unfold new_SenderImpl in H. inv_outcome. apply Z.ltb_lt in Hm3, Hm4.
  split; [| by intros ?]. constructor; try done.
  constructor; try done; [by apply Hp |].
  intros i slot f E Ef. change (replicate (Z.to_nat kMaxUnackedFrames) empty_slot !! i = Some slot) in E.
  by apply lookup_replicate in E as [-> _].
Qed.

(** ** The operations on the invariant *)

Lemma Parse_events_ok session packet max p ok p' events :
  bytes_ok packet -> -1 <= max -> Parse session packet max p = Ret (ok, p', events) ->
  Forall event_ok events.
Proof.
  intros Hb Hmax E.
  destruct (Parse_cases session packet max p Hb Hmax) as [(ok' & p1 & es & E' & Hc & _) | [E' _]];
    [| congruence].
  rewrite E in E'. injection E' as <- <- <-. destruct Hc as (H1 & H2 & H3).
  apply Forall_forall. intros e He. destruct e as [t | r | ms | | id d | acks | nacks]; simpl; try done.
  - destruct (H1 id d He) as [_ Hd]. unfold is_u in Hd. lia.
  - by destruct (H2 acks He) as (f & d & _ & ? & ? & _).
  - destruct (H3 nacks He) as (f & d & _ & Hs & Hn). split.
    + eapply Forall_impl; [exact Hn |]. simpl. tauto.
    + intros n m Hin Him Hall Hf.
      destruct (StronglySorted_related _ _ _ _ Hs Hin Him) as [? | [Hr | Hr]]; [done | |];
        unfold kept_before in Hr; lia.
Qed.

Lemma OnReceivedRtcpPacket_ok arrival packet s :
  inv s -> arrival < kNever -> bytes_ok packet ->
  (exists s', OnReceivedRtcpPacket arrival packet s = Ret s' /\ inv s' /\ (kick_ok s -> kick_ok s'))
  \/ (OnReceivedRtcpPacket arrival packet s = Fault OutOfBounds
      /\ has_short_application_packet packet).
Proof.
  intros Hi Ha Hb. unfold OnReceivedRtcpPacket.
  set (s1 := s <| rtcp_packet_arrival_time_ := arrival |>).
  destruct (c_window _ _ (i_core s Hi)) as (Hw & _ & _).
  assert (-1 <= last_enqueued_frame_id_ s) as Hmax by lia.
  change (rtcp_session_ s1) with (rtcp_session_ s).
  change (last_enqueued_frame_id_ s1) with (last_enqueued_frame_id_ s).
  pose proof (Parse_cases (rtcp_session_ s) packet (last_enqueued_frame_id_ s) (rtcp_parser_ s1)
    Hb Hmax) as Hcases.
  destruct Hcases as [(ok & p' & events & E & _) | [-> Hs]]; [| by right].
  left. pose proof (Parse_events_ok _ _ _ _ _ _ _ Hb Hmax E) as Hev. rewrite E.
  cbn [mbind outcome_bind].
  destruct (handle_events_ok events (s1 <| rtcp_parser_ := p' |>)) as (s2 & -> & Hi2 & Hk2);
    [destruct Hi as [H1]; constructor; try done; by destruct H1 | simpl; lia | done |].
  cbn [mbind outcome_bind]. eexists. split; [reflexivity |].
  assert (kick_ok s -> kick_ok s2) as Hk by auto.
  destruct ok; [| done]. split; [| done].
  destruct Hi2; constructor; try done. by apply core_call.
Qed.

(** The packet sent, with its frame, slot and the state after. *)
Definition sends (j pid t : Z) s (bytes : list Z) s' : Prop :=
  exists slot slot' f, in_flight j s = Some slot /\ slot_frame slot = Some f
    /\ bytes = packet_bytes (rtp_packetizer_ s) f pid
    /\ packet_sent t pid slot slot'
    /\ forall k, in_flight k s' = if k =? j then Some slot' else in_flight k s.

Definition kickstart_time s slot pid : Z :=
  time_at slot pid + Z.max (target_playout_delay_ s * 50) (round_trip_time_ s * 2).

(** What [GetRtpPacketForImmediateSend] does. *)
Definition rtp_result (t : Z) s (bytes : list Z) s' : Prop :=
  (exists j pid, next_packet (checkpoint_frame_id_ s + 1) s j pid /\ sends j pid t s bytes s')
  \/ ((forall j, idle j s) /\ latest_expected_frame_id_ s < last_enqueued_frame_id_ s
      /\ exists slot pid, in_flight (last_enqueued_frame_id_ s) s = Some slot
           /\ pid = fs_size (send_flags slot) - 1 /\ kickstart_time s slot pid <= t
           /\ sends (last_enqueued_frame_id_ s) pid t s bytes s')
  \/ ((forall j, idle j s) /\ bytes = [] /\ s' = s
      /\ (latest_expected_frame_id_ s = last_enqueued_frame_id_ s
          \/ exists slot, in_flight (last_enqueued_frame_id_ s) s = Some slot
               /\ t < kickstart_time s slot (fs_size (send_flags slot) - 1))).

Lemma send_ok t size j pid s slot :
  inv s -> in_flight j s = Some slot -> 0 <= pid < fs_size (send_flags slot) -> t < kNever ->
  max_packet_size (rtp_packetizer_ s) <= size ->
  exists bytes s', send_chosen t (new_buffer size) (slot_index j, pid) s = Ret (bytes, s')
    /\ inv s' /\ (kick_ok s -> kick_ok s') /\ sends j pid t s bytes s'
    /\ checkpoint_frame_id_ s' = checkpoint_frame_id_ s
    /\ last_enqueued_frame_id_ s' = last_enqueued_frame_id_ s
    /\ max_packet_size (rtp_packetizer_ s') = max_packet_size (rtp_packetizer_ s).
Proof.
  intros Hi Hin Hpid Ht Hsz.
  destruct (in_flight_slot_ok _ s j slot (i_core s Hi) Hin) as (f & Ef & _).
  destruct (send_chosen_ok t (new_buffer size) j pid slot f s Hi Hin Ef Hpid)
    as (s' & slot' & E & Hi' & Hps & E1 & E2 & E3 & E4 & E5); [lia | done | done |].
  eexists _, s'. split; [exact E |]. split; [done |]. split.
  { apply kick_ok_kept; [done | done |]. intros Hlast. rewrite E5.
    by destruct (Z.eqb_spec (last_enqueued_frame_id_ s) j). }
  split; [by exists slot, slot', f |]. rewrite E4. done.
Qed.

Lemma GetRtpPacket_ok t size s :
  inv s -> kick_ok s -> t < kNever -> max_packet_size (rtp_packetizer_ s) <= size ->
  exists bytes s', GetRtpPacketForImmediateSend t (new_buffer size) s = Ret (bytes, s')
    /\ inv s' /\ kick_ok s' /\ rtp_result t s bytes s'
    /\ checkpoint_frame_id_ s' = checkpoint_frame_id_ s
    /\ last_enqueued_frame_id_ s' = last_enqueued_frame_id_ s
    /\ max_packet_size (rtp_packetizer_ s') = max_packet_size (rtp_packetizer_ s).
Proof.
  intros Hi Hk Ht Hsz. unfold GetRtpPacketForImmediateSend.
  destruct (ChooseNext_ok s (i_core s Hi)) as ([[i pid] |] & -> & Ho); cbn [mbind outcome_bind].
  - destruct Ho as (j & -> & Hnext). pose proof Hnext as (_ & (slot & Hin & Hpid & _) & _).
    destruct (send_ok t size j pid s slot Hi Hin Hpid Ht Hsz)
      as (bytes & s' & -> & Hi' & Hk' & Hs & E1 & E2 & E3).
    exists bytes, s'. split; [done |]. split; [done |]. split; [auto |].
    split; [left; by exists j, pid | done].
  - destruct (ChooseKickstart_ok s Hi Hk Ho) as (o & when_ & -> & Hres).
    cbn [mbind outcome_bind]. destruct o as [[i pid] |].
    + destruct Hres as (Hlt & -> & slot & Hin & Epid & Hpid & Ewhen).
      destruct (Z.ltb_spec t when_) as [Hearly | Hlate].
      * exists [], s. split; [done |]. split; [done |]. split; [done |]. split; [| done].
        right; right. split; [done |]. split; [done |]. split; [done |]. right.
        exists slot. split; [done |]. unfold kickstart_time. rewrite <- Epid. lia.
      * destruct (send_ok t size (last_enqueued_frame_id_ s) pid s slot Hi Hin ltac:(lia) Ht Hsz)
          as (bytes & s' & -> & Hi' & Hk' & Hs & E1 & E2 & E3).
        exists bytes, s'. split; [done |]. split; [done |]. split; [auto |].
        split; [| done]. right; left. split; [done |]. split; [done |].
        exists slot, pid. split; [done |]. split; [done |].
        split; [unfold kickstart_time; lia | done].
    + destruct Hres as [-> Heq]. rewrite (proj2 (Z.ltb_lt t _)) by done.
      exists [], s. split; [done |]. split; [done |]. split; [done |]. split; [| done].
      right; right. split; [done |]. split; [done |]. split; [done |]. by left.
Qed.

(** ** Draining the send queue *)

(** Sending packets at [t] as long as some need to be sent. *)
Fixpoint send_all (n : nat) (t size : Z) s : outcome (list (list Z) * @SenderImpl T AES_KEY) :=
  match n with
  | O => Ret ([], s)
  | S n =>
      chosen ← ChooseNextRtpPacketNeedingSend s;
      match chosen with
      | None => Ret ([], s)
      | Some _ =>
          '(packet, s) ← GetRtpPacketForImmediateSend t (new_buffer size) s;
          '(packets, s) ← send_all n t size s;
          Ret (packet :: packets, s)
      end
  end.

(** The sum of [f] over a list. *)
Definition total {A} (f : A -> Z) (l : list A) : Z := foldr (fun x n => f x + n) 0 l.

(** How many packets of a slot are flagged, and how many packets of all frames
    in flight are: those that wait to be sent. *)
Definition flagged slot : Z :=
  total (fun i => Z.b2z (fs_flag (send_flags slot) i)) (seqZ 0 (fs_size (send_flags slot))).
Definition window s : list Z :=
  seqZ (checkpoint_frame_id_ s + 1) (last_enqueued_frame_id_ s - checkpoint_frame_id_ s).
Definition packets_waiting s : Z := total (fun j => from_option flagged 0 (in_flight j s)) (window s).

Lemma total_ext {A} (f g : A -> Z) l : (forall x, x ∈ l -> f x = g x) -> total f l = total g l.
Proof.
  intros H. induction l as [| x l IH]; [done |]. cbn [total foldr]. fold (total f l) (total g l).
  rewrite H by (by left). f_equal. apply IH. intros y Hy. apply H. by right.
Qed.

Lemma total_decreases {A} (f g : A -> Z) l a :
  NoDup l -> a ∈ l -> f a = g a + 1 -> (forall x, x ∈ l -> x <> a -> f x = g x) -> total f l = total g l + 1.
Proof.
  induction 1 as [| x l Hx Hl IH]; [by intros []%not_elem_of_nil |]. cbn [total foldr].
  fold (total f l) (total g l). intros [-> | Hin]%elem_of_cons Ha Hne.
  - rewrite (total_ext f g l); [lia |]. intros y Hy. apply Hne; [by right |]. by intros ->.
  - rewrite IH, Hne; [lia | by left | by intros -> | done | done |]. intros y Hy. apply Hne. by right.
Qed.

Lemma total_bound {A} (f : A -> Z) (P : A -> Prop) `{!forall x, Decision (P x)} c l :
  (forall x, x ∈ l -> 0 <= f x <= if decide (P x) then c else 0) ->
  0 <= total f l <= c * zlen (filter P l).
Proof.
  intros Hall. induction l as [| x l IH]; [unfold zlen; cbn; lia |]. cbn [total foldr]. fold (total f l).
  destruct IH as [IH1 IH2]; [intros y Hy; apply Hall; by right |]. specialize (Hall x ltac:(by left)).
  rewrite filter_cons. destruct (decide (P x)); rewrite ?zlen_cons; lia.
Qed.

Lemma total_ge {A} (f : A -> Z) l a : (forall x, 0 <= f x) -> a ∈ l -> f a <= total f l.
Proof.
  intros Hf. assert (forall k, 0 <= total f k) as Hk.
  { intros k. induction k as [| x k IH]; [done |]. cbn [total foldr]. fold (total f k). specialize (Hf x). lia. }
  induction l as [| x l IH]; [by intros []%not_elem_of_nil |]. cbn [total foldr]. fold (total f l).
  pose proof (Hf x). specialize (Hk l). intros [-> | Ha%IH]%elem_of_cons; lia.
Qed.

Lemma flagged_bound slot :
  0 <= fs_size (send_flags slot) -> 0 <= flagged slot <= fs_size (send_flags slot).
Proof.
  intros H. unfold flagged.
  pose proof (total_bound (fun i => Z.b2z (fs_flag (send_flags slot) i)) (fun _ => True) 1
    (seqZ 0 (fs_size (send_flags slot)))) as Hb.
  pose proof (length_filter (fun _ : Z => True) (seqZ 0 (fs_size (send_flags slot)))) as Hf.
  rewrite length_seqZ in Hf. unfold zlen in Hb. destruct Hb as [? Hb]; [| lia].
  intros i _. destruct (fs_flag _ _), (decide True); cbn; lia || tauto.
Qed.

(** A frame in flight has less than 65536 packets. *)
Lemma packets_waiting_bound s :
  inv s -> 0 <= packets_waiting s <= 65535 * num_frames_in_flight_ s.
Proof.
  intros Hi. pose proof (i_core s Hi) as Hc. unfold packets_waiting.
  pose proof (total_bound (fun j => from_option flagged 0 (in_flight j s)) (fun j => is_Some (in_flight j s))
    65535 (window s)) as [H0 Hb].
  { intros j _. destruct (in_flight j s) as [slot |] eqn:E; cbn.
    - destruct (in_flight_slot_ok _ s j slot Hc E) as (g & _ & _ & Hok).
      pose proof (slot_ok_count _ g slot (c_packetizer _ s Hc) Hok) as Hcnt.
      pose proof (so_size _ _ _ Hok) as Hsz. unfold kAllPacketsLost in Hcnt.
      pose proof (flagged_bound slot). case_decide as Hd; [lia | by destruct Hd].
    - case_decide; lia. }
  split; [done |]. rewrite (c_count _ s Hc). etrans; [exact Hb |].
  assert (filter (fun j => is_Some (in_flight j s)) (window s) ⊆+ active_ids (pending_frames_ s)) as Hsub.
  { apply NoDup_submseteq; [apply NoDup_filter, NoDup_seqZ |].
    intros j [[slot Hs] _]%list_elem_of_filter. apply in_flight_Some in Hs as [Hs (f & Ef & <-)%active_Some].
    apply list_elem_of_omap. exists slot. split; [by eapply list_elem_of_lookup_2 |]. by rewrite Ef. }
  apply submseteq_length in Hsub. unfold zlen. lia.
Qed.

(** Sending a packet that is flagged leaves one less. *)
Lemma sends_one s s' j pid t bytes :
  inv s -> next_packet (checkpoint_frame_id_ s + 1) s j pid -> sends j pid t s bytes s' ->
  checkpoint_frame_id_ s' = checkpoint_frame_id_ s ->
  last_enqueued_frame_id_ s' = last_enqueued_frame_id_ s ->
  packets_waiting s = packets_waiting s' + 1.
Proof.
  intros Hi (Hj & (slot0 & Hin0 & Hpid & Hflag & _) & _) (slot & slot' & f & Hin & _ & _ & Hps & Hk) Ecp Elast.
  rewrite Hin in Hin0. injection Hin0 as <-. destruct Hps as (_ & _ & Es & Hfl).
  unfold packets_waiting, window. rewrite Ecp, Elast.
  apply (total_decreases _ _ _ j); [apply NoDup_seqZ | apply elem_of_seqZ; lia | |].
  - rewrite Hk, Z.eqb_refl, Hin. cbn. unfold flagged. rewrite Es.
    apply (total_decreases _ _ _ pid); [apply NoDup_seqZ | apply elem_of_seqZ; lia | |].
    + rewrite Hfl, Z.eqb_refl, Hflag by done. done.
    + intros i Hi' Hne. apply elem_of_seqZ in Hi'. rewrite Hfl by lia.
      by rewrite (proj2 (Z.eqb_neq pid i)) by congruence.
  - intros k _ Hne. by rewrite Hk, (proj2 (Z.eqb_neq k j)).
Qed.

Lemma nothing_waits s : inv s -> packets_waiting s = 0 -> forall j pid, ~ next_packet (checkpoint_frame_id_ s + 1) s j pid.
Proof.
  intros Hi H0 j pid (Hj & (slot & Hin & Hpid & Hflag & _) & _).
  set (g := fun k => from_option flagged 0 (in_flight k s)).
  assert (forall a, 0 <= g a) as Hg.
  { intros a. unfold g. destruct (in_flight a s) as [x |] eqn:E; cbn; [| lia].
    destruct (in_flight_slot_ok _ s a x (i_core s Hi) E) as (y & _ & _ & Hok).
    pose proof (slot_ok_count _ y x (c_packetizer _ s (i_core s Hi)) Hok).
    pose proof (so_size _ _ _ Hok). apply flagged_bound. lia. }
  assert (g j <= packets_waiting s) as H1 by (apply total_ge; [done | apply elem_of_seqZ; lia]).
  assert (Z.b2z (fs_flag (send_flags slot) pid) <= flagged slot) as H2.
  { apply (total_ge (fun i => Z.b2z (fs_flag (send_flags slot) i))); [| apply elem_of_seqZ; lia].
    intros i. by destruct (fs_flag (send_flags slot) i). }
  rewrite Hflag in H2. unfold g in H1. rewrite Hin in H1. cbn in H1, H2. lia.
Qed.

Lemma send_all_drains (m : nat) t size s :
  inv s -> kick_ok s -> t < kNever -> max_packet_size (rtp_packetizer_ s) <= size ->
  packets_waiting s = Z.of_nat m ->
  exists packets s', length packets = m
    /\ (forall fuel, (m <= fuel)%nat -> send_all fuel t size s = Ret (packets, s'))
    /\ inv s' /\ (forall j, idle j s')
    /\ (forall j, slot_frame <$> in_flight j s' = slot_frame <$> in_flight j s).
Proof.
  revert s. induction m as [| m IH]; intros s Hi Hk Ht Hsz Hm;
    destruct (ChooseNext_ok s (i_core s Hi)) as ([[i pid] |] & Ech & Ho).
  - exfalso. destruct Ho as (j & _ & Hn). by apply (nothing_waits s Hi Hm) in Hn.
  - exists [], s. split; [done |]. split; [| by split].
    intros [| fuel] _; [done |]. cbn [send_all]. by rewrite Ech.
  - destruct Ho as (j & _ & Hnext).
    destruct (GetRtpPacket_ok t size s Hi Hk Ht Hsz)
      as (bytes & s1 & E & Hi1 & Hk1 & Hres & E1 & E2 & E3).
    assert (exists j pid, next_packet (checkpoint_frame_id_ s + 1) s j pid
              /\ sends j pid t s bytes s1) as (j1 & pid1 & Hn1 & Hs1).
    { destruct Hres as [H | [(Hall & _) | (Hall & _)]]; [exact H | |];
        destruct Hnext as (_ & (slot & Hin & Hp & Hf & _) & _);
        rewrite (Hall j slot Hin) in Hf by done; done. }
    pose proof (sends_one s s1 j1 pid1 t bytes Hi Hn1 Hs1 E1 E2) as Hone.
    destruct (IH s1 Hi1 Hk1 Ht) as (packets & s' & Hlen & E' & Hi' & Hidle & Hfr); [by rewrite E3 | lia |].
    exists (bytes :: packets), s'. split; [cbn; lia |]. split.
    { intros [| fuel] Hfuel; [lia |]. cbn [send_all]. rewrite Ech. cbn [mbind outcome_bind]. rewrite E.
      cbn [mbind outcome_bind]. by rewrite E' by lia. }
    split; [done |]. split; [done |]. intros k. rewrite Hfr.
    destruct Hs1 as (slot & slot' & f & Hin & _ & _ & (Hsf & _) & Hk').
    rewrite Hk'. destruct (Z.eqb_spec k j1) as [-> |]; [| done]. rewrite Hin. simpl. by rewrite Hsf.
  - exfalso. assert (packets_waiting s = 0) as H0; [| lia].
    unfold packets_waiting. rewrite (total_ext _ (fun _ => 0)).
    { induction (window s) as [| x l IHl]; [done |]. cbn. exact IHl. }
    intros j _. destruct (in_flight j s) as [slot |] eqn:Hin; [| done]. cbn. unfold flagged.
    rewrite (total_ext _ (fun _ => 0)); [| intros i Hi'%elem_of_seqZ; by rewrite (Ho j slot Hin) by lia].
    induction (seqZ 0 _) as [| x l IHl]; [done |]. cbn. exact IHl.
Qed.

(** ** Claims *)

Hypothesis ctr_length : forall k st l, length (AES_ctr128_encrypt k st l).1 = length l.

(** A frame is only enqueued past a frame that was acknowledged out of order
    if a check fails. *)
Lemma EnqueueFrame_returned has_data f s r s' :
  inv s -> enqueue_pre has_data f s ->
  EnqueueFrame AES_ctr128_encrypt has_data f s = Ret (r, s') ->
  (r = REACHED_ID_SPAN_LIMIT /\ s' = s) \/ oldest_ok s.
Proof using.
  intros Hi _ E. unfold EnqueueFrame in E.
  do 4 (apply bind_Ret_inv in E as ([] & _ & E)).
  destruct (kMaxUnackedFrames <? _); [left; by injection E as <- <- |]. right.
  apply bind_Ret_inv in E as (d & Hd & _). unfold GetInFlightMediaDuration in Hd.
  destruct (Z.eqb_spec (num_frames_in_flight_ s) 0) as [| Hn]; [by left | right].
  apply bind_Ret_inv in Hd as (slot & Hs & Hd). apply bind_Ret_inv in Hd as ([] & Ha & _).
  apply OSP_CHECK_Ret_inv in Ha. apply in_bounds_Ret_inv in Hs.
  unfold in_flight. rewrite Hs. simpl. by rewrite Ha.
Qed.

Lemma GetRtpPacket_returned t size s bytes s' :
  inv s -> t < kNever -> max_packet_size (rtp_packetizer_ s) <= size ->
  GetRtpPacketForImmediateSend t (new_buffer size) s = Ret (bytes, s') -> inv s'.
Proof using.
  intros Hi Ht Hsz E. unfold GetRtpPacketForImmediateSend in E.
  destruct (ChooseNext_ok s (i_core s Hi)) as ([[i pid] |] & Ech & Ho); rewrite Ech in E;
    cbn [mbind outcome_bind] in E.
  - destruct Ho as (j & -> & _ & (slot & Hin & Hpid & _) & _).
    destruct (send_ok t size j pid s slot Hi Hin Hpid Ht Hsz) as (b & s1 & E1 & Hi1 & _).
    rewrite E in E1. by injection E1 as <- <-.
  - assert (kick_ok s) as Hk.
    { intros Hlt. unfold ChooseKickstartPacket in E. rewrite (proj2 (Z.leb_gt _ _)) in E by done.
      apply bind_Ret_inv in E as (x & E & _). apply bind_Ret_inv in E as (slot & Hs & E).
      apply bind_Ret_inv in E as ([] & Ha & _). apply OSP_CHECK_Ret_inv in Ha.
      apply in_bounds_Ret_inv in Hs. unfold in_flight. rewrite Hs. simpl. by rewrite Ha. }
    destruct (GetRtpPacket_ok t size s Hi Hk Ht Hsz) as (b1 & s1 & E1 & Hi1 & _).
    unfold GetRtpPacketForImmediateSend in E1. rewrite Ech in E1. cbn [mbind outcome_bind] in E1.
    rewrite E in E1. by injection E1 as <- <-.
Qed.

Lemma reachable_inv stale s :
  reachable stale s -> inv s /\ (stale = false -> kick_ok s).
Proof using ctr_length.
  induction 1 as [session packetizer timebase crypto delay s Hp E
                 | stale s stale' s' _ [Hi Hk] Hstep].
  { destruct (new_inv _ _ _ _ _ _ Hp E). by split. }
  destruct Hstep as [stale s o s' E | stale s has_data f r s' Hpre E | stale s s' E | stale s id ts t
                    | stale s arrival packet s' Ha Hb E | stale s t size bytes s' Ht Hsz E].
  - unfold SetObserver in E. inv_outcome. split; [| exact Hk].
    destruct Hi; constructor; try done. by destruct i_core.
  - destruct (EnqueueFrame_returned has_data f s r s' Hi Hpre E) as [[-> ->] | Ho]; [by split |].
    destruct (EnqueueFrame_ok AES_ctr128_encrypt ctr_length has_data f s Hi Ho Hpre)
      as (r1 & s1 & E1 & Hi1 & Hk1 & Hres). rewrite E in E1. injection E1 as <- <-.
    split; [done |]. destruct r; [auto | by destruct Hres as [-> _] ..].
  - destruct (CancelInFlightData_ok s Hi) as (s1 & E1 & Hi1 & _). rewrite E in E1.
    injection E1 as <-. by split.
  - split; [| exact Hk]. destruct Hi; constructor; try done. by apply core_call.
  - destruct (OnReceivedRtcpPacket_ok arrival packet s Hi Ha Hb) as [(s1 & E1 & Hi1 & Hk1) | [E1 _]];
      [| congruence].
    rewrite E in E1. injection E1 as <-. split; [done | auto].
  - destruct stale.
    + split; [by eapply GetRtpPacket_returned | done].
    + destruct (GetRtpPacket_ok t size s Hi (Hk eq_refl) Ht Hsz) as (b1 & s1 & E1 & Hi1 & Hk1 & _).
      rewrite E in E1. injection E1 as <- <-. by split.
Qed.

(** C5 In every reachable state of a sender the frames in flight lie between
    the checkpoint and the last enqueued frame, at most 120 of them, each in
    the slot of its identifier and counted; every packet that was never sent
    is flagged; and unless frames were cancelled since the last one was
    enqueued, the frame a kickstart packet would be taken from is in flight
    while the receiver may not know of it. *)
Theorem sender_invariant (stale : bool) (s : @SenderImpl T AES_KEY) :
  reachable stale s ->
  inv s /\ (stale = false -> kick_ok s)
  /\ 0 <= num_frames_in_flight_ s <= last_enqueued_frame_id_ s - checkpoint_frame_id_ s
  /\ last_enqueued_frame_id_ s - checkpoint_frame_id_ s <= 120
  /\ forall j slot, in_flight j s = Some slot ->
       checkpoint_frame_id_ s < j <= last_enqueued_frame_id_ s
       /\ exists f, slot_frame slot = Some f /\ frame_id f = j
            /\ slot_ok (rtp_packetizer_ s) f slot.
Proof using ctr_length.
  intros Hr. destruct (reachable_inv stale s Hr) as [Hi Hk]. pose proof (i_core s Hi) as Hc.
  split; [done |]. split; [done |]. split; [| split].
  - pose proof (core_count _ s Hc) as Hcount. pose proof (c_count _ s Hc) as Hn.
    pose proof (zlen_nonneg (active_ids (pending_frames_ s))).
    destruct (c_window _ s Hc) as (? & ? & _). lia.
  - destruct (c_window _ s Hc) as (? & ? & _). lia.
  - intros j slot Hin. pose proof (in_flight_window _ s j slot Hc Hin).
    split; [lia | by eapply in_flight_slot_ok].
Qed.

(** C2 No check of a reachable sender fails: it accepts any bytes from the
    network (but for the parser's fault on a short application-defined
    packet), cancels, reports, and chooses and builds packets; [EnqueueFrame]
    returns when its caller respects its contract and the frame after the
    checkpoint was not acknowledged on its own.  Sending needs that frames
    were not cancelled since the last one was enqueued. *)
Theorem sender_never_aborts (stale : bool) (s : @SenderImpl T AES_KEY) :
  reachable stale s ->
  (forall arrival packet, arrival < kNever -> bytes_ok packet ->
     returns (OnReceivedRtcpPacket arrival packet s)
     \/ OnReceivedRtcpPacket arrival packet s = Fault OutOfBounds
        /\ has_short_application_packet packet)
  /\ returns (CancelInFlightData s)
  /\ (forall t size, 52 <= size -> returns (GetRtcpPacketForImmediateSend t (new_buffer size) s))
  /\ (stale = false -> forall t size, t < kNever -> max_packet_size (rtp_packetizer_ s) <= size ->
        returns (GetRtpPacketForImmediateSend t (new_buffer size) s)
        /\ returns (GetRtpResumeTime s))
  /\ (forall has_data f, oldest_ok s -> enqueue_pre has_data f s ->
        returns (EnqueueFrame AES_ctr128_encrypt has_data f s)).
Proof using ctr_length.
  intros Hr. destruct (reachable_inv stale s Hr) as [Hi Hk]. split; [| split; [| split; [| split]]].
  - intros arrival packet Ha Hb.
    destruct (OnReceivedRtcpPacket_ok arrival packet s Hi Ha Hb) as [(s' & E & _) | ?]; [left | by right].
    by exists s'.
  - destruct (CancelInFlightData_ok s Hi) as (s' & E & _). by exists s'.
  - intros t size Hsize. by apply GetRtcpPacket_ok.
  - intros Hfresh t size Ht Hsz. specialize (Hk Hfresh). split.
    + destruct (GetRtpPacket_ok t size s Hi Hk Ht Hsz) as (b & s' & E & _). by exists (b, s').
    + unfold GetRtpResumeTime.
      destruct (ChooseNext_ok s (i_core s Hi)) as ([[i pid] |] & -> & Ho); [by eexists |].
      destruct (ChooseKickstart_ok s Hi Hk Ho) as (o & w & -> & _). by eexists.
  - intros has_data f Ho Hpre.
    destruct (EnqueueFrame_ok AES_ctr128_encrypt ctr_length has_data f s Hi Ho Hpre)
      as (r & s' & E & _). by exists (r, s').
Qed.

(** The answer of [EnqueueFrame]: the frame is rejected exactly for the
    reason given, leaving the sender as it was, or it is accepted; then it is
    the only new frame in flight, encrypted, with all its packets to be sent
    and none sent, and RTP sending is requested. *)
Theorem enqueue_frame_outcome (stale : bool) (s : @SenderImpl T AES_KEY) (has_data : bool)
    (f : EncodedFrame) :
  reachable stale s -> oldest_ok s -> enqueue_pre has_data f s ->
  exists r s', EnqueueFrame AES_ctr128_encrypt has_data f s = Ret (r, s')
    /\ enqueue_result f s r s'.
Proof using ctr_length.
  intros Hr Ho Hpre. destruct (reachable_inv stale s Hr) as [Hi _].
  destruct (EnqueueFrame_ok AES_ctr128_encrypt ctr_length has_data f s Hi Ho Hpre)
    as (r & s' & E & _ & _ & Hres). by exists r, s'.
Qed.

(** C27 Acknowledgements release exactly the frames they name: a checkpoint all
    frames up to it, advancing the checkpoint monotonically, individual ACKs
    the frames listed.  A checkpoint beyond the last frame enqueued is ignored,
    and so are all individual ACKs of a packet of which one is for a frame that
    was not enqueued.  (The parser gives the ACKs in ascending order.) *)
Theorem feedback_releases_frames (stale : bool) (s : @SenderImpl T AES_KEY) (id delay : Z)
    (acks : list Z) :
  reachable stale s -> 0 <= delay -> acks <> [] -> StronglySorted Z.lt acks ->
  (exists s', HandleCheckpoint id delay s = Ret s' /\
     (last_enqueued_frame_id_ s < id -> s' = s) /\
     (id <= last_enqueued_frame_id_ s ->
        checkpoint_frame_id_ s' = Z.max id (checkpoint_frame_id_ s)
        /\ forall j, in_flight j s' = if j <=? id then None else in_flight j s))
  /\ (exists s', HandleHasFrames acks s = Ret s' /\
        (Forall (fun a => a <= last_enqueued_frame_id_ s) acks ->
           checkpoint_frame_id_ s' = checkpoint_frame_id_ s
           /\ forall j, in_flight j s' =
                if bool_decide (j ∈ acks) then None else in_flight j s)
        /\ (Exists (fun a => last_enqueued_frame_id_ s < a) acks -> s' = s)).
Proof using ctr_length.
  intros Hr Hd Hne Hs. destruct (reachable_inv stale s Hr) as [Hi _]. split.
  - destruct (HandleCheckpoint_ok id delay s Hi Hd) as (s' & E & _ & _ & _ & _ & H1 & H2).
    exists s'. split; [done |]. split; [done |]. intros Hid. by destruct (H2 Hid) as (? & _ & ?).
  - destruct (HandleHasFrames_ok acks s Hi Hne Hs) as (s' & E & _ & _ & _ & _ & H1 & H2).
    exists s'. split; [done |]. split; [done |]. intros (a & Ha & Hlt)%Exists_exists. apply H2.
    intros Hall. apply (proj1 (Forall_forall _ _) Hall) in Ha. lia.
Qed.

(** C28 NACKs request retransmissions selectively: of each frame in flight the
    packets flagged afterwards are those flagged before and those named by
    the NACKs (all of them for a frame reported as wholly lost) that were last
    sent at least one round trip before the feedback arrived.  Nothing else
    about any frame changes. *)
Theorem nacks_request_retransmission (stale : bool) (s : @SenderImpl T AES_KEY)
    (nacks : list PacketNack) :
  reachable stale s -> rtcp_packet_arrival_time_ s <> kNever -> Forall nack_ok nacks ->
  all_lost_alone nacks ->
  exists s', HandleMissingPackets nacks s = Ret s'
    /\ forall id, reflagged (requested nacks id)
         (rtcp_packet_arrival_time_ s - round_trip_time_ s) (in_flight id s) (in_flight id s').
Proof using ctr_length.
  intros Hr Harr Hok Hal. destruct (reachable_inv stale s Hr) as [Hi _].
  destruct (HandleMissingPackets_ok nacks s Hi Harr Hok Hal) as (s' & E & _ & _ & _ & _ & H).
  by exists s'.
Qed.

(** The packet sent is the lowest flagged packet of the oldest frame that
    has one, its bytes those of the packetizer; its flag is cleared and its
    time recorded and nothing else changes.  When nothing is flagged, the last
    packet of the last frame is sent again as a kickstart, but only while the
    receiver may not know of that frame and after the kickstart interval;
    otherwise nothing is sent. *)
Theorem oldest_packet_first (s : @SenderImpl T AES_KEY) (t size : Z) :
  reachable false s -> t < kNever -> max_packet_size (rtp_packetizer_ s) <= size ->
  exists bytes s', GetRtpPacketForImmediateSend t (new_buffer size) s = Ret (bytes, s')
    /\ rtp_result t s bytes s'.
Proof using ctr_length.
  intros Hr Ht Hsz. destruct (reachable_inv false s Hr) as [Hi Hk].
  destruct (GetRtpPacket_ok t size s Hi (Hk eq_refl) Ht Hsz) as (b & s' & E & _ & _ & Hres & _).
  by exists b, s'.
Qed.

(** C4 The queue drains: when no frame was cancelled since the last one was
    enqueued, sending packet after packet sends as many packets as were waiting,
    at most 65535 for each frame in flight, and then no packet of any frame needs
    to be sent; the frames in flight stay the same. *)
Theorem send_queue_drains (s : @SenderImpl T AES_KEY) (t size : Z) :
  reachable false s -> t < kNever -> max_packet_size (rtp_packetizer_ s) <= size ->
  exists packets s', zlen packets = packets_waiting s
    /\ packets_waiting s <= 65535 * num_frames_in_flight_ s
    /\ (forall fuel, packets_waiting s <= Z.of_nat fuel -> send_all fuel t size s = Ret (packets, s'))
    /\ (forall j, idle j s')
    /\ forall j, slot_frame <$> in_flight j s' = slot_frame <$> in_flight j s.
Proof using ctr_length.
  intros Hr Ht Hsz. destruct (reachable_inv false s Hr) as [Hi Hk].
  destruct (packets_waiting_bound s Hi) as [H0 Hb].
  destruct (send_all_drains (Z.to_nat (packets_waiting s)) t size s Hi (Hk eq_refl) Ht Hsz)
    as (packets & s' & Hlen & E & _ & Hidle & Hfr); [lia |].
  exists packets, s'. unfold zlen. split; [lia |]. split; [done |]. split; [| done].
  intros fuel Hf. apply E. lia.
Qed.

(** The round trip time follows the receiver reports.  A measurement lies
    between 75 microseconds and the playout delay; the first one is adopted, a
    greater one is averaged in with weight one half and a smaller one with
    weight one eighth, so the estimate stays between the old value and the
    measurement. *)
Theorem round_trip_time_follows (stale : bool) (s : @SenderImpl T AES_KEY)
    (report : RtcpReportBlock) :
  reachable stale s -> rtcp_packet_arrival_time_ s <> kNever ->
  exists s' m, HandleReceiverReport report s = Ret s'
    /\ 75 <= m <= target_playout_delay_ s * 1000
    /\ round_trip_time_ s' =
         (if round_trip_time_ s =? 0 then m
          else if round_trip_time_ s <? m then (round_trip_time_ s + m) / 2
          else (7 * round_trip_time_ s + m) / 8)
    /\ (0 < round_trip_time_ s ->
          Z.min (round_trip_time_ s) m <= round_trip_time_ s' <= Z.max (round_trip_time_ s) m).
Proof using ctr_length.
  intros Hr Harr. destruct (reachable_inv stale s Hr) as [Hi _].
  pose proof (i_rtt s Hi). pose proof (i_delay s Hi).
  unfold HandleReceiverReport. rewrite OSP_CHECK_neqb by done. cbn [mbind outcome_bind].
  match goal with |- context [SmoothRoundTripTime ?e ?x] => set (m := x) end.
  assert (75 <= m <= target_playout_delay_ s * 1000) as Hm.
  { unfold m. destruct (Z.ltb_spec (target_playout_delay_ s * 1000)
      (Z.max (rtcp_packet_arrival_time_ s -
              GetRecentReportTime (rtcp_session_ s) (last_status_report_id report)
                (rtcp_packet_arrival_time_ s) -
              delay_to_duration (delay_since_last_report report)) 75)); lia. }
  eexists _, m. split; [reflexivity |]. split; [done |]. simpl. clearbody m. split.
  - unfold SmoothRoundTripTime. destruct (_ =? 0); [done |].
    destruct (_ <? _); rewrite Z.quot_div_nonneg by lia; reflexivity.
  - intros Hpos. destruct (SmoothRoundTripTime_bounds (round_trip_time_ s) m) as [_ Hb];
      [lia | lia | auto].
Qed.
End SenderProps.

(** * A concrete run

    A sender with the bit vector of BitVector.v and the toy cipher of
    FrameCrypto.v, packets of at most 64 bytes, and three frames of two packets
    each. *)

Definition demo_init : outcome (@SenderImpl BitVector Z) :=
  new_SenderImpl (new_RtcpSession 1 2 0 1700000000) (new_RtpPacketizer kVideoVp8 1 64 65535)
    90000 (new_FrameCrypto (fun _ => Some 77) [] (seqZ 0 16)) 400.

Definition demo_frame (id : Z) : EncodedFrame :=
  mkFrame (if id =? 0 then kKeyFrame else kDependent) id (Z.max 0 (id - 1)) (1800 * id)
    (20000 * id) 0 INT64_MIN INT64_MIN (seqZ 0 50).

Definition demo_enqueue (id : Z) (s : @SenderImpl BitVector Z) : outcome (@SenderImpl BitVector Z) :=
  '(_, s) ← EnqueueFrame toy_ctr true (demo_frame id) s; Ret s.
Definition demo_send (t : Z) (s : @SenderImpl BitVector Z) : outcome (@SenderImpl BitVector Z) :=
  '(_, s) ← GetRtpPacketForImmediateSend t (new_buffer 64) s; Ret s.

(** [value_of] of a run that returns. *)
Definition value_of {A} (d : A) (m : outcome A) : A := match m with Ret a => a | Fault _ => d end.
Definition demo_default : @SenderImpl BitVector Z :=
  mkSender (mkSession 1 2 0 (new_NtpTimeConverter 0 0)) new_CompoundRtcpParser
    (mkPacketizer 0 0 0 0) 1 (mkCrypto 77 []) [] 0 0 0 0 1 0 0 0 (mkSenderReport 0 0 0 0 None)
    0 0 None [] [].

Definition demo0 : @SenderImpl BitVector Z := Eval vm_compute in value_of demo_default demo_init.
Definition demo1 : @SenderImpl BitVector Z :=
  Eval vm_compute in value_of demo_default (demo_enqueue 0 demo0).
Definition demo2 : @SenderImpl BitVector Z :=
  Eval vm_compute in value_of demo_default (demo_send 1000 demo1).
Definition demo3 : @SenderImpl BitVector Z :=
  Eval vm_compute in value_of demo_default (demo_enqueue 1 demo2).

(** A picture loss indication and feedback for frame 0, both well formed. *)
Definition demo_feedback : list Z :=
  [143; 206; 0; 4; 0; 0; 0; 2; 0; 0; 0; 1; 67; 65; 83; 84; 0; 0; 1; 144].
Definition demo4 : @SenderImpl BitVector Z :=
  Eval vm_compute in value_of demo_default (OnReceivedRtcpPacket 60000 demo_feedback demo3).

Lemma demo_packetizer_wf p : new_RtpPacketizer kVideoVp8 1 64 65535 = Ret p -> packetizer_wf p.
Proof.
  intros E. vm_compute in E. injection E as <-.
  split; [reflexivity |]. unfold is_u, kMaxRtpHeaderSize, kBaseRtpHeaderSize, kRtpPacketMinValidSize,
    kAdaptiveLatencyHeaderSize. simpl. lia.
Qed.

Lemma demo_enqueue_pre (id : Z) (s : @SenderImpl BitVector Z) :
  0 <= id < 1000 -> last_enqueued_frame_id_ s = id - 1 ->
  (id <> 0 -> sr_rtp_timestamp (pending_sender_report_ s) < 1800 * id) ->
  enqueue_pre true (demo_frame id) s.
Proof.
  intros Hid Hlast Hts. unfold demo_frame. constructor; simpl; try done; unfold INT64_MAX; lia.
Qed.

Lemma demo0_reachable : reachable toy_ctr false demo0.
Proof.
  apply (reachable_new toy_ctr (new_RtcpSession 1 2 0 1700000000)
           (new_RtpPacketizer kVideoVp8 1 64 65535) 90000
           (new_FrameCrypto (fun _ => Some 77) [] (seqZ 0 16)) 400);
    [exact demo_packetizer_wf | vm_compute; reflexivity].
Qed.

Lemma demo3_reachable : reachable toy_ctr false demo3.
Proof.
  assert (reachable toy_ctr false demo1) as H1.
  { eapply reachable_step; [apply demo0_reachable |].
    apply (step_enqueue toy_ctr false demo0 true (demo_frame 0) OK demo1);
      [| vm_compute; reflexivity]. apply demo_enqueue_pre; [lia | reflexivity | done]. }
  assert (reachable toy_ctr false demo2) as H2.
  { eapply reachable_step; [apply H1 |].
    eapply (step_rtp toy_ctr false demo1 1000 64 _ demo2);
      [reflexivity | vm_compute; congruence | vm_compute; reflexivity]. }
  eapply reachable_step; [apply H2 |].
  apply (step_enqueue toy_ctr false demo2 true (demo_frame 1) OK demo3);
    [| vm_compute; reflexivity]. apply demo_enqueue_pre; [lia | reflexivity | reflexivity].
Qed.

Lemma demo4_reachable : reachable toy_ctr false demo4.
Proof.
  eapply reachable_step; [apply demo3_reachable |].
  apply (step_rtcp toy_ctr false demo3 60000 demo_feedback demo4);
    [reflexivity | repeat constructor; vm_compute; congruence | vm_compute; reflexivity].
Qed.

Lemma toy_ctr_length : forall k st l, length (toy_ctr k st l).1 = length l.
Proof. exact (proj1 toy_ctr_laws). Qed.

(** ** Two states the sender cannot handle *)

(** Cancelling the frames in flight leaves the sender unable to send: the
    frame a kickstart packet is to be taken from is gone, while the latest frame
    the receiver is expected to know of still lies before it, so that the next
    call of [GetRtpPacketForImmediateSend] fails a check. *)
Theorem cancel_then_send_aborts :
  exists s, CancelInFlightData demo3 = Ret s /\ reachable toy_ctr true s
    /\ GetRtpPacketForImmediateSend 100000 (new_buffer 64) s = Fault CheckFailed.
Proof.
  assert (exists s, CancelInFlightData demo3 = Ret s
            /\ GetRtpPacketForImmediateSend 100000 (new_buffer 64) s = Fault CheckFailed)
    as (s & E & Hf) by (eexists; split; [vm_compute; reflexivity | vm_compute; reflexivity]).
  exists s. split; [exact E |]. split; [| exact Hf].
  eapply reachable_step; [exact demo3_reachable |]. by apply step_cancel.
Qed.

(** Feedback with a checkpoint before frame 0 and an ACK of frame 1. *)
Definition demo_ack_ahead : list Z :=
  [143; 206; 0; 6; 0; 0; 0; 2; 0; 0; 0; 1; 67; 65; 83; 84; 255; 0; 1; 144;
   67; 83; 84; 50; 0; 2; 1; 0].

(** A receiver can make the sender abort: an ACK of the frame after the next
    one, then a checkpoint just before that frame, and the sender's next
    [EnqueueFrame] fails a check, the frame after the checkpoint being gone
    while later ones are in flight. *)
Theorem ack_ahead_then_checkpoint_aborts :
  (s ← demo_enqueue 2 demo3;
   s ← OnReceivedRtcpPacket 60000 demo_ack_ahead s;
   s ← OnReceivedRtcpPacket 61000 demo_feedback s;
   demo_enqueue 3 s) = Fault CheckFailed
  /\ (s ← demo_enqueue 2 demo3;
      s ← OnReceivedRtcpPacket 60000 demo_ack_ahead s;
      s ← OnReceivedRtcpPacket 61000 demo_feedback s;
      Ret (num_frames_in_flight_ s, checkpoint_frame_id_ s)) = Ret (1, 0).
Proof. split; vm_compute; reflexivity. Qed.

(** ** Witnesses *)

Lemma sender_invariant_witness :
  reachable toy_ctr false demo4 /\ kick_ok demo4
  /\ 0 <= num_frames_in_flight_ demo4 <= last_enqueued_frame_id_ demo4 - checkpoint_frame_id_ demo4.
Proof.
  split; [exact demo4_reachable |].
  destruct (sender_invariant toy_ctr toy_ctr_length false demo4 demo4_reachable) as (_ & Hk & Hn & _).
  split; [exact (Hk eq_refl) | exact Hn].
Defined.

Lemma sender_never_aborts_witness :
  returns (OnReceivedRtcpPacket 70000 demo_feedback demo4)
    \/ OnReceivedRtcpPacket 70000 demo_feedback demo4 = Fault OutOfBounds
       /\ has_short_application_packet demo_feedback.
Proof.
  apply (sender_never_aborts toy_ctr toy_ctr_length false demo4 demo4_reachable).
  - reflexivity.
  - repeat constructor; vm_compute; congruence.
Defined.

Lemma enqueue_frame_outcome_witness :
  exists r s', EnqueueFrame toy_ctr true (demo_frame 2) demo4 = Ret (r, s')
    /\ enqueue_result (demo_frame 2) demo4 r s'.
Proof.
  apply (enqueue_frame_outcome toy_ctr toy_ctr_length false demo4 true (demo_frame 2)).
  - exact demo4_reachable.
  - right. vm_compute. discriminate.
  - apply demo_enqueue_pre; [lia | reflexivity | reflexivity].
Defined.

Lemma feedback_releases_frames_witness :
  exists s', HandleCheckpoint 1 400 demo4 = Ret s'
    /\ checkpoint_frame_id_ s' = 1 /\ in_flight 1 s' = None.
Proof.
  destruct (feedback_releases_frames toy_ctr toy_ctr_length false demo4 1 400 [1])
    as [(s' & E & _ & H) _].
  - exact demo4_reachable.
  - lia.
  - discriminate.
  - repeat constructor.
  - exists s'. split; [exact E |]. destruct H as [Hcp Hin]; [vm_compute; discriminate |].
    split; [rewrite Hcp; reflexivity | apply (Hin 1)].
Defined.

Lemma nacks_request_retransmission_witness :
  exists s', HandleMissingPackets [mkNack 1 0] demo4 = Ret s'
    /\ reflagged (requested [mkNack 1 0] 1)
         (rtcp_packet_arrival_time_ demo4 - round_trip_time_ demo4)
         (in_flight 1 demo4) (in_flight 1 s').
Proof.
  destruct (nacks_request_retransmission toy_ctr toy_ctr_length false demo4 [mkNack 1 0])
    as (s' & E & H).
  - exact demo4_reachable.
  - vm_compute. discriminate.
  - repeat constructor; vm_compute; congruence.
  - intros n m Hn%list_elem_of_singleton Hm%list_elem_of_singleton _ _. congruence.
  - exists s'. split; [exact E | exact (H 1)].
Defined.

Lemma oldest_packet_first_witness :
  exists bytes s', GetRtpPacketForImmediateSend 65000 (new_buffer 64) demo4 = Ret (bytes, s')
    /\ rtp_result 65000 demo4 bytes s'.
Proof.
  apply (oldest_packet_first toy_ctr toy_ctr_length demo4 65000 64 demo4_reachable);
    vm_compute; congruence.
Defined.

Lemma send_queue_drains_witness :
  exists packets s', zlen packets = 2 /\ send_all 3 65000 64 demo4 = Ret (packets, s')
    /\ forall j, idle j s'.
Proof.
  destruct (send_queue_drains toy_ctr toy_ctr_length demo4 65000 64 demo4_reachable)
    as (packets & s' & Hn & _ & E & Hidle & _); [vm_compute; congruence .. |].
  exists packets, s'. split; [rewrite Hn; vm_compute; reflexivity |].
  split; [apply E; vm_compute; congruence | exact Hidle].
Defined.

Lemma round_trip_time_follows_witness :
  exists s' m, HandleReceiverReport empty_report_block demo4 = Ret s'
    /\ 75 <= m <= 400000 /\ round_trip_time_ s' = m.
Proof.
  destruct (round_trip_time_follows toy_ctr toy_ctr_length false demo4 empty_report_block)
    as (s' & m & E & Hm & Hr & _).
  - exact demo4_reachable.
  - vm_compute. discriminate.
  - exists s', m. split; [exact E |]. split; [exact Hm | exact Hr].
Defined.
