(* ===== verification/SenderInstance.v ===== *)
(** [SenderImpl] as a sender of the packet router: the instance of the
    interface, and the proof of its laws from the sender's invariant. *)

From S2P Require Import Prelude Numeric Wire Ids NtpTime RtpDefines RtcpCommon SenderReport.
From S2P Require Import RtcpParser Rtp FrameCrypto BitVector Alarm Environment Sender SenderInv SenderProps.
From S2P Require Import Bandwidth SenderRouter SenderRouterInv SenderRouterProps.

Section SenderInstance.
Context {T : Type} {FS : FlagSet T} {AES_KEY : Type}.
Implicit Types (s : @SenderImpl T AES_KEY) (slot : @PendingFrameSlot T).

(** Of the calls a sender makes, those on its router. *)
Definition router_of_call (c : Call) : option RouterCall :=
  match c with
  | RouterRequestRtcpSend ssrc => Some (CallRequestRtcpSend ssrc)
  | RouterRequestRtpSend ssrc => Some (CallRequestRtpSend ssrc)
  | RouterOnRtcpReceived t rtt => Some (CallOnRtcpReceived t rtt)
  | RouterOnPayloadReceived bytes t rtt => Some (CallOnPayloadReceived bytes t rtt)
  | _ => None
  end.

Definition new_calls s s' : list RouterCall :=
  omap router_of_call (drop (length (calls_ s)) (calls_ s')).

#[export] Instance SenderImpl_RouterSender : RouterSender (@SenderImpl T AES_KEY) := {
  rs_OnReceivedRtcpPacket arrival_time packet s :=
    s' ← OnReceivedRtcpPacket arrival_time packet s; Ret (s', new_calls s s');
  rs_GetRtcpPacketForImmediateSend send_time buffer s :=
    packet ← GetRtcpPacketForImmediateSend send_time buffer s; Ret (packet, s);
  rs_GetRtpPacketForImmediateSend := GetRtpPacketForImmediateSend;
  rs_GetRtpResumeTime := GetRtpResumeTime }.

(** ** The calls made *)

Definition calls_good (ssrc : Z) (cs : list Call) : Prop := Forall (call_ok ssrc) (omap router_of_call cs).

(** What an operation on feedback keeps, and the calls it adds. *)
Record grows s s' : Prop := {
  g_session : rtcp_session_ s' = rtcp_session_ s;
  g_packetizer : rtp_packetizer_ s' = rtp_packetizer_ s;
  g_arrival : rtcp_packet_arrival_time_ s' = rtcp_packet_arrival_time_ s;
  g_delay : target_playout_delay_ s' = target_playout_delay_ s;
  g_rtt : 0 <= round_trip_time_ s';
  g_calls : exists cs, calls_ s' = calls_ s ++ cs
    /\ calls_good (receiver_ssrc (rtcp_session_ s)) cs }.

(** The round trip times are durations, and the arrival time is set. *)
Record timed s : Prop := {
  t_rtt : 0 <= round_trip_time_ s;
  t_delay : 0 < target_playout_delay_ s;
  t_arrival : rtcp_packet_arrival_time_ s < kNever }.

Lemma grows_timed s s' : grows s s' -> timed s -> timed s'.
Proof. intros [] []. by constructor; congruence. Qed.

Lemma grows_quiet s s' :
  timed s -> rtcp_session_ s' = rtcp_session_ s -> rtp_packetizer_ s' = rtp_packetizer_ s ->
  rtcp_packet_arrival_time_ s' = rtcp_packet_arrival_time_ s ->
  target_playout_delay_ s' = target_playout_delay_ s -> round_trip_time_ s' = round_trip_time_ s ->
  calls_ s' = calls_ s -> grows s s'.
Proof.
  intros [] ? ? ? ? E Ec. constructor; try done; [by rewrite E |].
  exists []. rewrite app_nil_r. split; [done | constructor].
Qed.

Lemma grows_refl s : timed s -> grows s s.
Proof. intros. by apply grows_quiet. Qed.

Lemma grows_trans s1 s2 s3 : grows s1 s2 -> grows s2 s3 -> grows s1 s3.
Proof.
  intros [E1 ? ? ? ? (cs1 & Hc1 & Hg1)] [? ? ? ? ? (cs2 & Hc2 & Hg2)].
  constructor; try congruence. exists (cs1 ++ cs2). rewrite Hc2, Hc1, app_assoc.
  split; [done |]. unfold calls_good. rewrite omap_app. apply Forall_app. by rewrite E1 in Hg2.
Qed.

Lemma grows_call c s :
  timed s -> calls_good (receiver_ssrc (rtcp_session_ s)) [c] -> grows s (call c s).
Proof. intros [] Hc. constructor; try done. by exists [c]. Qed.

Lemma calls_good_other ssrc c : router_of_call c = None -> calls_good ssrc [c].
Proof. intros E. unfold calls_good. cbn. rewrite E. constructor. Qed.

Lemma calls_good_router ssrc c rc : router_of_call c = Some rc -> call_ok ssrc rc -> calls_good ssrc [c].
Proof. intros E H. unfold calls_good. cbn. rewrite E. by constructor. Qed.

(** Composition of the steps of an operation. *)
Lemma grows_then s1 s2 s3 : grows s1 s2 -> (timed s2 -> grows s2 s3) -> timed s1 -> grows s1 s3.
Proof. eauto using grows_trans, grows_timed. Qed.

Ltac quiet := apply grows_quiet; [assumption | reflexivity ..].

Lemma ack_slot_grows id s s' : timed s -> ack_slot id s = Ret s' -> grows s s'.
Proof.
  intros Ht E. unfold ack_slot in E. inv_outcome.
  destruct (slot_frame a); [destruct (is_active_for_frame id a) |]; inv_outcome;
    [by apply grows_call; [| apply calls_good_other] | by apply grows_refl ..].
Qed.

Lemma CancelPendingFrame_grows id acked s s' :
  timed s -> CancelPendingFrame id acked s = Ret s' -> grows s s'.
Proof.
  intros Ht E. unfold CancelPendingFrame in E. inv_outcome.
  destruct (negb _); [inv_outcome; by apply grows_refl |].
  destruct (slot_frame a) as [f |]; [| done]. inv_outcome.
  set (c := RouterOnPayloadReceived (zlen (data f)) (rtcp_packet_arrival_time_ s) (round_trip_time_ s)) in *.
  assert (calls_good (receiver_ssrc (rtcp_session_ s)) [c]) as Hc.
  { eapply calls_good_router; [reflexivity |]. destruct Ht. repeat split; [apply zlen_nonneg | done | done]. }
  apply (grows_then s (if acked then call c s else s)); [| | done].
  - destruct acked; [by apply grows_call | by apply grows_refl].
  - intros Ht1. clear Hm0 Hm. destruct acked; cbn; destruct (observer_ s); quiet.
Qed.

Lemma DispatchCancellations_grows s : timed s -> grows s (DispatchCancellations s).
Proof.
  intros Ht. unfold DispatchCancellations. destruct (observer_ s); [| quiet].
  destruct Ht. constructor; try done.
  exists (map ObserverOnFrameCanceled (pending_cancellations_ s)). split; [done |].
  unfold calls_good. enough (omap router_of_call (map ObserverOnFrameCanceled (pending_cancellations_ s)) = [])
    as -> by constructor. by induction (pending_cancellations_ s).
Qed.

Lemma checkpoint_loop_grows fuel id s s' :
  timed s -> checkpoint_loop fuel id s = Ret s' -> grows s s'.
Proof.
  revert s. induction fuel as [| fuel IH]; intros s Ht E; cbn [checkpoint_loop] in E.
  { inv_outcome. by apply grows_refl. }
  destruct (_ <? _); [| inv_outcome; by apply grows_refl]. inv_outcome.
  set (s1 := s <| checkpoint_frame_id_ := _ |>) in *.
  assert (grows s s1) as H1 by quiet.
  assert (timed s1) as Ht1 by (by apply (grows_timed s)).
  assert (grows s1 a0) as H2.
  { destruct (is_active_for_frame _ _); inv_outcome; [| by apply grows_refl].
    apply (grows_then s1 a1); [by apply ack_slot_grows in Hm1 | | done].
    intros. by eapply CancelPendingFrame_grows. }
  apply (grows_trans s a0); [by eapply grows_trans |].
  apply IH; [by apply (grows_timed s1) | done].
Qed.

Lemma acks_loop_grows acks s s' : timed s -> acks_loop acks s = Ret s' -> grows s s'.
Proof.
  revert s. induction acks as [| id acks IH]; intros s Ht E; cbn [acks_loop] in E.
  { inv_outcome. by apply grows_refl. }
  inv_outcome. apply ack_slot_grows in Hm; [| done]. apply (grows_then s a); [done | | done].
  intros Ht1. apply (grows_then a a0); [by eapply CancelPendingFrame_grows | | done]. auto.
Qed.

Lemma nacks_loop_grows fuel t nacks b s s' b' :
  timed s -> nacks_loop fuel t nacks b s = Ret (s', b') -> grows s s'.
Proof.
  revert nacks b s. induction fuel as [| fuel IH]; intros [| nack nacks] b s Ht E;
    cbn [nacks_loop] in E; try done; try (injection E as <- <-; by apply grows_refl).
  inv_outcome. destruct a as [slot |]; [| by eapply IH].
  set (s1 := s <| latest_expected_frame_id_ := _ |>) in *.
  assert (forall i sl, grows s (set_slot i sl s1)) as H1 by (intros; quiet).
  destruct (nack_packet_id nack =? kAllPacketsLost).
  - inv_outcome. destruct a as [sl b2]. apply (grows_then s (set_slot (slot_index (nack_frame_id nack)) sl s1));
      [apply H1 | | done]. intros. by eapply IH.
  - destruct (same_frame _ _) as [mine rest]. inv_outcome. destruct a as [sl b2].
    apply (grows_then s (set_slot (slot_index (nack_frame_id nack)) sl s1)); [apply H1 | | done].
    intros. by eapply IH.
Qed.

Lemma handle_event_grows e s s' : timed s -> handle_event e s = Ret s' -> grows s s'.
Proof.
  intros Ht E. destruct e as [t | report | ms | | id d | acks | nacks]; cbn [handle_event] in E.
  - inv_outcome. by apply grows_refl.
  - unfold HandleReceiverReport in E. inv_outcome. destruct Ht as [H1 H2 H3].
    constructor; try done; [| exists []; rewrite app_nil_r; split; [done | constructor]].
    cbn [round_trip_time_ update]. apply SmoothRoundTripTime_bounds; [done |].
    destruct (_ <? _); lia.
  - inv_outcome. by apply grows_call; [| apply calls_good_other].
  - inv_outcome. unfold HandlePictureLoss. destruct (_ <? _); [by apply grows_refl |].
    destruct (observer_ _); [| quiet].
    apply (grows_then s (s <| picture_lost_at_frame_id_ := checkpoint_frame_id_ s |>)); [quiet | | done].
    intros. by apply grows_call; [| apply calls_good_other].
  - unfold HandleCheckpoint in E. destruct (_ <? _); inv_outcome; [by apply grows_refl |].
    apply checkpoint_loop_grows in Hm0; [| done]. apply (grows_then s a0); [done | | done]. intros Ht1.
    apply (grows_then a0 (a0 <| latest_expected_frame_id_ := Z.max (latest_expected_frame_id_ a0) id |>));
      [quiet | | done]. apply DispatchCancellations_grows.
  - unfold HandleHasFrames in E. destruct (last acks) as [back |]; [| done].
    destruct (_ <? _); inv_outcome; [by apply grows_refl |].
    apply acks_loop_grows in Hm; [| done]. apply (grows_then s a); [done | | done]. intros Ht1.
    apply (grows_then a (a <| latest_expected_frame_id_ := Z.max (latest_expected_frame_id_ a) back |>));
      [quiet | | done]. apply DispatchCancellations_grows.
  - unfold HandleMissingPackets in E. inv_outcome. destruct a0 as [s1 need].
    apply nacks_loop_grows in Hm0 as Hg; [| done]. inv_outcome. destruct need; [| done].
    apply (grows_then s s1); [done | | done]. intros. apply grows_call; [done |].
    by eapply calls_good_router.
Qed.

Lemma handle_events_grows es s s' : timed s -> handle_events es s = Ret s' -> grows s s'.
Proof.
  revert s. induction es as [| e es IH]; intros s Ht E; cbn [handle_events] in E; inv_outcome.
  - by apply grows_refl.
  - apply handle_event_grows in Hm; [| done]. apply (grows_then s a); [done | | done]. auto.
Qed.

(** ** The laws *)

(** The sender's invariant, a buffer that holds its packets, and its SSRC.
    [kick_ok] holds unless frames were cancelled since the last one was
    enqueued. *)
Record sender_ok (ssrc size : Z) s : Prop := {
  s_inv : inv s;
  s_kick : kick_ok s;
  s_size : max_packet_size (rtp_packetizer_ s) <= size;
  s_ssrc : receiver_ssrc (rtcp_session_ s) = ssrc }.

Lemma OnReceivedRtcpPacket_grows t packet s s' :
  inv s -> t < kNever -> OnReceivedRtcpPacket t packet s = Ret s' ->
  grows (s <| rtcp_packet_arrival_time_ := t |>) s'.
Proof.
  intros Hi Ht E. unfold OnReceivedRtcpPacket in E. inv_outcome.
  destruct a as [[ok parser] events]. inv_outcome.
  set (s1 := s <| rtcp_packet_arrival_time_ := t |>) in *.
  assert (timed s1) as Ht1 by (constructor; [apply Hi | apply Hi | done]).
  apply handle_events_grows in Hm0; [| by destruct Ht1].
  apply (grows_then s1 (s1 <| rtcp_parser_ := parser |>)); [quiet | | done]. intros Ht2.
  apply (grows_then _ a); [done | | done]. intros Ht3. destruct ok; [| by apply grows_refl].
  apply grows_call; [done |]. eapply calls_good_router; [reflexivity |]. apply Ht3.
Qed.

Lemma received_law ssrc size s t packet :
  sender_ok ssrc size s -> t < kNeverSend -> bytes_ok packet ->
  (exists s' calls, rs_OnReceivedRtcpPacket t packet s = Ret (s', calls)
     /\ sender_ok ssrc size s' /\ Forall (call_ok ssrc) calls)
  \/ rs_OnReceivedRtcpPacket t packet s = Fault OutOfBounds.
Proof.
  intros [Hi Hk Hsz Hssrc] Ht Hb. cbn [rs_OnReceivedRtcpPacket SenderImpl_RouterSender].
  destruct (OnReceivedRtcpPacket_ok t packet s Hi Ht Hb) as [(s' & E & Hi' & Hk') | [-> _]]; [| by right].
  left. rewrite E. cbn [mbind outcome_bind]. eexists s', _. split; [reflexivity |].
  destruct (OnReceivedRtcpPacket_grows t packet s s' Hi Ht E) as [E1 E2 _ _ _ (cs & Ec & Hc)].
  cbn [rtcp_session_ rtp_packetizer_ calls_ update] in E1, E2, Ec, Hc. split.
  - constructor; [done | auto | by rewrite E2 | by rewrite E1].
  - unfold new_calls. rewrite Ec, drop_app_length. by rewrite <- Hssrc.
Qed.

Lemma GetRtpPacket_session t b s bytes s' :
  GetRtpPacketForImmediateSend t b s = Ret (bytes, s') -> rtcp_session_ s' = rtcp_session_ s.
Proof.
  assert (forall c, send_chosen t b c s = Ret (bytes, s') -> rtcp_session_ s' = rtcp_session_ s) as Hsend.
  { intros [i pid] E. unfold send_chosen in E. inv_outcome. destruct (slot_frame a); [| done].
    inv_outcome. destruct a0 as [p result]. by inv_outcome. }
  unfold GetRtpPacketForImmediateSend. intros E. inv_outcome. destruct a; [by eapply Hsend |].
  inv_outcome. destruct a as [kick when_]. destruct (_ <? _); [by inv_outcome |].
  destruct kick; [by eapply Hsend | done].
Qed.

#[export] Instance SenderImpl_laws : RouterSenderLaws (@SenderImpl T AES_KEY).
Proof.
  refine {| rs_ok := sender_ok |}.
  - exact received_law.
  - intros ssrc size s t Hok Hsize Ht. cbn [rs_GetRtcpPacketForImmediateSend SenderImpl_RouterSender].
    destruct (GetRtcpPacket_ok t size s (s_inv _ _ _ Hok)) as [packet ->];
      [unfold kRequiredNetworkPacketSize in Hsize; lia |].
    eexists _, _. by split.
  - intros ssrc size s t [Hi Hk Hsz Hssrc] Hsize Ht.
    destruct (GetRtpPacket_ok t size s Hi Hk Ht Hsz) as (bytes & s' & E & Hi' & Hk' & _ & _ & _ & Esz).
    exists bytes, s'. split; [exact E |]. constructor; [done | done | lia |].
    by rewrite (GetRtpPacket_session _ _ _ _ _ E).
  - intros ssrc size s [Hi Hk _ _]. cbn [rs_GetRtpResumeTime SenderImpl_RouterSender].
    unfold GetRtpResumeTime.
    destruct (ChooseNext_ok s (i_core s Hi)) as ([c |] & -> & Ho); [by eexists |].
    cbn [mbind outcome_bind].
    destruct (ChooseKickstart_ok s Hi Hk Ho) as (o & when_ & -> & _). by eexists.
Defined.

(** * Sending, from the queue to the network *)

Lemma sends_some j pid t s bytes s' : sends j pid t s bytes s' -> bytes <> [].
Proof.
  intros (slot & slot' & f & _ & _ & -> & _) E. apply (f_equal zlen) in E.
  rewrite zlen_packet_bytes in E. pose proof (zlen_nonneg (chunk_of_frame (rtp_packetizer_ s) f pid)).
  unfold kBaseRtpHeaderSize, kRtpPacketMinValidSize, zlen in *. cbn in E.
  destruct (announces_delay f pid); lia.
Qed.

Lemma rtp_run_ok t size ssrc s packets s' :
  rtp_run t size s packets s' -> kRequiredNetworkPacketSize < size -> t < kNever ->
  sender_ok ssrc size s -> sender_ok ssrc size s'.
Proof.
  intros Hrun Hsize Ht. induction Hrun as [s | s packet s1 packets s2 _ E _ IH]; intros Hok; [done |].
  apply IH. destruct (rs_get_rtp (RouterSenderLaws := SenderImpl_laws) _ _ _ t Hok Hsize Ht)
    as (p & s1' & E' & Hok'). rewrite E in E'. by injection E' as <- <-.
Qed.

(** A sender that has nothing more to send has sent all packets of the frames
    in flight that need to be sent. *)
Lemma exhausted_idle t size ssrc s packets s' :
  exhausted t size s packets s' -> kRequiredNetworkPacketSize < size -> t < kNever ->
  sender_ok ssrc size s -> forall j, idle j s'.
Proof.
  intros (s1 & Hrun & E) Hsize Ht Hok.
  apply (rtp_run_ok t size ssrc) in Hrun as [Hi Hk Hsz _]; [| done ..].
  destruct (GetRtpPacket_ok t size s1 Hi Hk Ht Hsz) as (bytes & s2 & E2 & _ & _ & Hres & _).
  cbn in E. rewrite E in E2. injection E2 as <- <-.
  destruct Hres as [(j & pid & _ & Hs) | [(_ & _ & slot & pid & _ & _ & _ & Hs) | (Hidle & _ & -> & _)]];
    [by destruct (sends_some _ _ _ _ _ _ Hs) | by destruct (sends_some _ _ _ _ _ _ Hs) | done].
Qed.

(** C6 Packets get sent.  When a burst of the router does not use up its budget,
    every packet that needed to be sent, of every frame in flight of every
    sender whose RTP was due, has been sent. *)
Theorem burst_empties_queues now (r : SenderPacketRouter (S := @SenderImpl T AES_KEY)) bursts i r' :
  router_runs now r bursts -> (i < length (posted (alarm_ r)))%nat ->
  alarm_fires now i r = Ret (true, r') ->
  packets_sent r' - packets_sent r < max_packets_per_burst_ r ->
  forall k e e', senders_ r !! k = Some e -> senders_ r' !! k = Some e' ->
  next_rtp_send_time e <= now -> forall j, idle j (entry_sender e').
Proof.
  intros [Hok _]%router_runs_ok Hi E Hn k e e' Hk Hk' Hdue.
  pose proof (ro_size _ _ (ro_core _ _ Hok)) as Hsize.
  pose proof (ro_now _ _ (ro_core _ _ Hok)) as Hnow.
  destruct (alarm_fires_ok now i r Hok Hi) as (fired & r1 & E1 & Hok1 & Hb).
  rewrite E in E1. injection E1 as <- <-.
  destruct Hb as (_ & rtcp & rtp & [(es & Hf & Hburst) Hs _ _ _ _ Hm]).
  assert (zlen (concat rtcp) + zlen (concat rtp) < max_packets_per_burst_ r) as Hlt.
  { unfold packets_sent in Hn. rewrite Hs in Hn. cbn [sent_packets update] in Hn.
    unfold zlen in *. rewrite length_app, length_map, length_app in Hn. lia. }
  destruct (Forall3_lookup_l _ _ _ _ k e Hf Hk) as (ps & e1 & Hps & Hk1 & Hsent).
  assert (exists qs, rtp !! k = Some qs) as [qs Hqs].
  { apply lookup_lt_is_Some. rewrite (rtp_burst_length _ _ _ _ _ _ Hburst).
    by eapply lookup_lt_Some. }
  assert (next_rtp_send_time e1 = next_rtp_send_time e /\ sender_ok (entry_ssrc e) (packet_buffer_size_ r) (entry_sender e1))
    as [Hdue1 Hok2].
  { pose proof (Forall_lookup_1 _ _ _ _ (ro_entries _ _ (ro_core _ _ Hok)) Hk) as Hs0.
    unfold rtcp_sent in Hsent. destruct (_ <? _); [by destruct Hsent as [_ ->] |].
    destruct Hsent as (packet & s1 & Es & Hp). cbn in Es. inv_outcome.
    destruct packet; destruct Hp as [_ ->]; done. }
  apply (exhausted_idle now (packet_buffer_size_ r) (entry_ssrc e) (entry_sender e1) qs);
    [| done | unfold kNeverSend, kNever in *; lia | done].
  apply (rtp_burst_priority now (packet_buffer_size_ r) _ es rtp (senders_ r') k 0 e1 e' qs []
    Hburst Hk1 Hk' Hqs); [lia | right; lia].
Qed.
End SenderInstance.

(** * A run of both *)

Definition run_of' (m : outcome (SenderPacketRouter (S := @SenderImpl BitVector Z)))
    : SenderPacketRouter (S := @SenderImpl BitVector Z) :=
  match m with
  | Ret r => r
  | Fault _ => mkRouter (mkEstimator 0 0 (new_FlowTracker 0 0) (new_FlowTracker 0 0))
                 demo_env 0 0 0 0 new_Alarm [] 0
  end.

(** The sender of SenderProps.v is registered, its client enqueues a frame, the
    burst sends a Sender Report and the two packets of the frame. *)
Definition system0 := Eval vm_compute in run_of' (new_SenderPacketRouter demo_env 10 10 0).
Definition system1 := Eval vm_compute in run_of' (OnSenderCreated 2 demo0 system0).
Definition system2 := Eval vm_compute in
  run_of' (router_calls 0 (new_calls demo0 demo1)
    (system1 <| senders_ :=
       <[0%nat := mkEntry 2 demo1 kNeverSend kNeverSend]> (senders_ system1) |>)).
Definition system3 := Eval vm_compute in run_of' (snd <$> alarm_fires 1000 0 system2).

Lemma demo0_sender_ok : sender_ok 2 1472 demo0.
Proof.
  destruct (reachable_inv toy_ctr toy_ctr_length false demo0 demo0_reachable) as [Hi Hk].
  constructor; [done | by apply Hk | by vm_compute | reflexivity].
Qed.

Lemma demo1_sender_ok : sender_ok 2 1472 demo1.
Proof.
  assert (reachable toy_ctr false demo1) as H1.
  { eapply reachable_step; [apply demo0_reachable |].
    apply (step_enqueue toy_ctr false demo0 true (demo_frame 0) OK demo1);
      [| vm_compute; reflexivity]. apply demo_enqueue_pre; [lia | reflexivity | done]. }
  destruct (reachable_inv toy_ctr toy_ctr_length false demo1 H1) as [Hi Hk].
  constructor; [done | by apply Hk | by vm_compute | reflexivity].
Qed.

Lemma system2_runs : router_runs 0 system2 [].
Proof.
  assert (router_runs 0 system0 []) as H0.
  { apply (rruns_new 0 demo_env 10 10); [by vm_compute | by split | done | by vm_compute]. }
  apply (rruns_step 0 0 system1 None system2 []); [| by vm_compute |].
  2: { apply (rstep_client 0 system1 0 (mkEntry 2 demo0 kNeverSend kNeverSend) demo1
         (new_calls demo0 demo1)); [done | exact demo1_sender_ok | by repeat constructor | by vm_compute]. }
  apply (rruns_step 0 0 system0 None system1 []); [exact H0 | by vm_compute |].
  apply (rstep_created 0 system0 2 demo0); [done | exact demo0_sender_ok | | by vm_compute].
  apply (bool_decide_unpack _). by vm_compute.
Qed.

Lemma burst_empties_queues_witness :
  router_runs 1000 system2 [] /\ packets_sent system3 = 3
  /\ forall e', senders_ system3 !! 0%nat = Some e' -> forall j, idle j (entry_sender e').
Proof.
  assert (router_runs 1000 system2 []) as H.
  { apply (rruns_step 0 1000 system2 None system2 []); [exact system2_runs | by vm_compute |].
    apply (rstep_client 1000 system2 0 (mkEntry 2 demo1 kAlarmImmediately kAlarmImmediately) demo1 []);
      [reflexivity | exact demo1_sender_ok | constructor | by vm_compute]. }
  split; [exact H |]. split; [by vm_compute |]. intros e' He'.
  apply (burst_empties_queues 1000 system2 [] 0 system3 H) with (k := 0%nat)
    (e := mkEntry 2 demo1 kAlarmImmediately kAlarmImmediately);
    [cbn; lia | by vm_compute | by vm_compute | reflexivity | exact He' | by vm_compute].
Defined.
