(* ===== verification/Json.v ===== *)
(** Reading and writing values of JSON (util/json/json_helpers.h), fractions
    (util/simple_fraction.h and .cc), and the text functions they use
    (util/string_util, util/string_parse.h, util/enum_name_table.h, util/stringprintf).

    The values are the JSON library's (class [JsonLibrary] of CastMessage.v); here
    are the operations of the library that negotiation needs beside those. *)

From S2P Require Import Prelude Numeric Text IpAddress Wire Statistics CastMessage.

(** * Values *)

(** [at_key] is [operator[]] of a constant object: the null value when there is no such member.
    [convertString] is [asString] of any value, [None] when the library fails. *)
Class JsonValues (Value : Type) (json : JsonLibrary Value) := {
  nullValue : Value;
  isNull : Value -> bool;
  json_bool : bool -> Value;
  json_uint : Z -> Value;
  json_int64 : Z -> Value;
  json_double : double -> Value;
  asBool : Value -> option bool;
  asUInt : Value -> option Z;
  asDouble : Value -> option double;
  convertString : Value -> option str }.

Class JsonValuesLaws (Value : Type) (json : JsonLibrary Value) (values : JsonValues Value json) : Prop := {
  isNull_null : isNull nullValue = true;
  isNull_string s : isNull (json_string s) = false;
  isNull_object v : isObject v = true -> isNull v = false;
  isObject_string s : isObject (json_string s) = false;
  asString_null : asString nullValue = None;
  asInt_null : asInt nullValue = None;
  asBool_null : asBool nullValue = None;
  asDouble_null : asDouble nullValue = None;
  elements_null : elements nullValue = None;
  asInt_string s : asInt (json_string s) = None;
  asBool_bool b : asBool (json_bool b) = Some b;
  asUInt_uint n : is_u 32 n -> asUInt (json_uint n) = Some n;
  asInt_int64 n : is_s 32 n -> asInt (json_int64 n) = Some n;
  asDouble_double d : asDouble (json_double d) = Some d;
  asInt_range v n : asInt v = Some n -> is_s 32 n;
  asUInt_range v n : asUInt v = Some n -> is_u 32 n;
  convertString_string s : convertString (json_string s) = Some s;
  convertString_array vs : convertString (json_array vs) = None }.

Section Json.
Context {Value : Type} {json : JsonLibrary Value} {values : JsonValues Value json}.
Implicit Types (value : Value).

Definition at_key (key : str) value : Value := default nullValue (find key value).

(** [operator[]] of a value that may be something other than an object. *)
Definition member (key : str) value : outcome Value := OSP_CHECK (isObject value || isNull value) ;; Ret (at_key key value).

(** A null value becomes an object when a member is assigned to it, one after the other, and an
    array when an element is appended. *)
Fixpoint set_members (members : list (str * option Value)) value : Value :=
  match members with
  | [] => value
  | (key, o) :: members => set_members members (match o with Some x => set_member key x value | None => value end)
  end.
Definition object_of (members : list (str * option Value)) : Value := set_members members objectValue.
Definition appended (vs : list Value) : Value := match vs with [] => nullValue | _ => json_array vs end.

Definition TryParseBool value : option bool := asBool value.
Definition TryParseDouble value : option double :=
  d ← asDouble value;
  match d with
  | SpecFloat.S754_nan => None
  | _ => if SpecFloat.SFltb d (double_of_Z 0) then None else Some d
  end.
Definition TryParseInt value : option Z := i ← asInt value; if i <? 0 then None else Some i.
Definition TryParseUint value : option Z := asUInt value.
Definition TryParseString value : option str := asString value.
Definition TryParseMilliseconds value : option Z := out_ms ← TryParseInt value; if out_ms <? 0 then None else Some out_ms.

Fixpoint parse_all {T} (parser : Value -> option T) (vs : list Value) : option (list T) :=
  match vs with [] => Some [] | v :: vs => t ← parser v; ts ← parse_all parser vs; Some (t :: ts) end.

(** An empty array is an error. *)
Definition TryParseArray {T} (parser : Value -> option T) value : option (list T) :=
  vs ← elements value; match vs with [] => None | _ => parse_all parser vs end.
Definition TryParseIntArray : Value -> option (list Z) := TryParseArray TryParseInt.
Definition TryParseUintArray : Value -> option (list Z) := TryParseArray TryParseUint.
Definition TryParseStringArray : Value -> option (list str) := TryParseArray TryParseString.
Definition TryParseNestedStringArray : Value -> option (list (list str)) := TryParseArray TryParseStringArray.

Definition PrimitiveVectorToJson {T} (to_json : T -> Value) (vec : list T) : Value := json_array (map to_json vec).
Definition NestedStringArrayToJson (vec : list (list str)) : Value := json_array (map (PrimitiveVectorToJson json_string) vec).
End Json.

(** * Text *)

Definition ascii_tolower (c : ascii) : ascii :=
  let k := char_code c in if (65 <=? k) && (k <=? 90) then ascii_of_N (Z.to_N (k + 32)) else c.
Definition EqualsIgnoreCase (a b : str) : bool := bool_decide (map ascii_tolower a = map ascii_tolower b).

Definition GetEnum {E} (map : list (str * E)) (name : str) : ErrorOr E :=
  match list_find (fun entry => Is_true (EqualsIgnoreCase entry.1 name)) map with
  | Some (_, entry) => ok entry.2
  | None => err (mkError kParameterInvalid kUnknownEnumError)
  end.

(** The parts between delimiters, and those that are not empty. *)
Fixpoint split_views (delim : ascii) (s : str) : list str :=
  match s with
  | [] => [[]]
  | c :: s =>
      if ascii_dec c delim then [] :: split_views delim s
      else match split_views delim s with t :: ts => (c :: t) :: ts | [] => [[c]] end
  end.
Definition Split (value : str) (delim : ascii) : list str := filter (fun t => t <> []) (split_views delim value).

(** What follows the number is not looked at. *)
Definition ParseAsciiNumber (number : str) : option Z :=
  match number with [] => None | _ => fst <$> from_chars_int number end.

Definition HexEncode (bytes : list Z) : str := concat (map (fun b => pad_left 2 (print_number 16 b)) bytes).

(** * Fractions *)

Record SimpleFraction := mkFraction { numerator_ : Z; denominator_ : Z }.
#[export] Instance SimpleFraction_eq_dec : EqDecision SimpleFraction.
Proof. solve_decision. Defined.

Definition is_defined (f : SimpleFraction) : bool := negb (denominator_ f =? 0).
Definition is_positive (f : SimpleFraction) : bool := (0 <=? numerator_ f) && (0 <? denominator_ f).
Definition fraction_double (f : SimpleFraction) : double :=
  if denominator_ f =? 0 then SpecFloat.S754_nan else ddiv (double_of_Z (numerator_ f)) (double_of_Z (denominator_ f)).

Definition SimpleFraction_FromString (value : str) : ErrorOr SimpleFraction :=
  let invalid := err (mkError kParameterInvalid []) in
  match value with
  | "/"%char :: _ => invalid
  | _ =>
      match Split value "/" with
      | [a] => match ParseAsciiNumber a with Some n => ok (mkFraction n 1) | None => invalid end
      | [a; b] =>
          match ParseAsciiNumber a, ParseAsciiNumber b with
          | Some n, Some d => ok (mkFraction n d)
          | _, _ => invalid
          end
      | _ => invalid
      end
  end.

Definition SimpleFraction_ToString (f : SimpleFraction) : str :=
  if denominator_ f =? 1 then signed_to_string (numerator_ f)
  else signed_to_string (numerator_ f) ++ lit "/" ++ signed_to_string (denominator_ f).

Definition TryParseSimpleFraction {Value} `{JsonLibrary Value} (value : Value) : option SimpleFraction :=
  match asInt value with
  | Some parsed => if parsed <? 0 then None else Some (mkFraction parsed 1)
  | None =>
      s ← asString value;
      match SimpleFraction_FromString s with
      | ok f => if is_positive f && is_defined f then Some f else None
      | err _ => None
      end
  end.

(** * Keys of AES

    [sscanf] with "%16lx%16lx%n" and a test for white space: two fields of 16 characters, each a sign
    if there is one, "0x" if it is there, and digits of base 16. *)

Definition isspace (c : ascii) : bool := (char_code c =? 32) || (9 <=? char_code c) && (char_code c <=? 13).

Definition scan_hex (field : str) : option Z :=
  let negative := starts_with (lit "-") field in
  let s := if negative || starts_with (lit "+") field then drop 1 field else field in
  let s := if starts_with (lit "0x") s || starts_with (lit "0X") s then drop 2 s else s in
  match take_digits 16 s with
  | ([], _) => None
  | (ds, []) => Some (if negative then u64 (- digits_value 16 ds) else digits_value 16 ds)
  | (_, _) => None
  end.

Definition kAesBytesSize : Z := 16.
Definition kAesStringLength : Z := kAesBytesSize * 2.

Definition AesHexBytes (hex_string : str) : option (list Z) :=
  if negb (zlen hex_string =? kAesStringLength) || existsb isspace hex_string then None
  else q0 ← scan_hex (take 16 hex_string); q1 ← scan_hex (drop 16 hex_string);
       Some (be_encode 8 q0 ++ be_encode 8 q1).

Definition TryParseAesHexBytes {Value} `{JsonLibrary Value} (value : Value) : option (list Z) :=
  s ← asString value; AesHexBytes s.

(** * Lemmas *)

(** ** Members *)

Fixpoint assoc {V} (key : str) (members : list (str * option V)) : option V :=
  match members with
  | [] => None
  | (k, o) :: members => if bool_decide (key = k) then o else assoc key members
  end.

Lemma assoc_not_in {V} key (members : list (str * option V)) : key ∉ members.*1 -> assoc key members = None.
Proof.
  induction members as [| [k o] ms IH]; [done |]. cbn. intros [Hk Hms]%not_elem_of_cons.
  rewrite bool_decide_eq_false_2 by done. by apply IH.
Qed.

(** ** Fractions are read as printed *)

Lemma split_views_not_in c s : c ∉ s -> split_views c s = [s].
Proof.
  induction s as [| d s IH]; [done |]. intros [Hd Hs]%not_elem_of_cons. cbn. destruct (ascii_dec d c); [congruence |]. by rewrite IH.
Qed.

Lemma split_views_app c s t : c ∉ s -> split_views c (s ++ c :: t) = s :: split_views c t.
Proof.
  induction s as [| d s IH]; cbn; intros Hs.
  - by destruct (ascii_dec c c).
  - apply not_elem_of_cons in Hs as [Hd Hs]. destruct (ascii_dec d c); [congruence |]. by rewrite IH.
Qed.

Lemma Split_one c s : s <> [] -> c ∉ s -> Split s c = [s].
Proof. intros Hs Hc. unfold Split. rewrite split_views_not_in by done. by destruct s. Qed.

Lemma Split_two c s t : s <> [] -> t <> [] -> c ∉ s -> c ∉ t -> Split (s ++ c :: t) c = [s; t].
Proof. intros Hs Ht Hcs Hct. unfold Split. rewrite split_views_app, split_views_not_in by done. by destruct s, t. Qed.

Lemma signed_print n : 0 <= n -> signed_to_string n = to_string n.
Proof. intros. unfold signed_to_string. by rewrite (proj2 (Z.ltb_ge _ _)). Qed.

Lemma to_string_nonempty n : 0 <= n -> to_string n <> [].
Proof. intros Hn. unfold to_string. by destruct (print_first 10 n ltac:(lia) Hn) as (d & ds & -> & _). Qed.

Lemma ParseAsciiNumber_print n : 0 <= n <= INT_MAX -> ParseAsciiNumber (to_string n) = Some n.
Proof.
  intros Hn. unfold ParseAsciiNumber. pose proof (to_string_nonempty n ltac:(lia)) as Hs.
  rewrite (from_chars_int_print n Hn). by destruct (to_string n).
Qed.

Lemma Split_numbers c m n : digit_value 10 c = None -> 0 <= m -> 0 <= n ->
  Split (to_string m ++ c :: to_string n) c = [to_string m; to_string n].
Proof. intros Hc Hm Hn. apply Split_two; try (by apply to_string_nonempty); by apply print_not_in. Qed.

(** A fraction that can be read back: not negative, in the range of [int]. *)
Definition fraction_fits (f : SimpleFraction) : Prop := 0 <= numerator_ f <= INT_MAX /\ 0 < denominator_ f <= INT_MAX.

Lemma FromString_ToString f : fraction_fits f -> SimpleFraction_FromString (SimpleFraction_ToString f) = ok f.
Proof.
  destruct f as [n d]. unfold fraction_fits, SimpleFraction_ToString. cbn. intros [Hn Hd]. rewrite !signed_print by lia.
  pose proof (to_string_nonempty n ltac:(lia)) as Hne.
  pose proof (print_not_in 10 n "/"%char ltac:(lia) ltac:(lia) eq_refl) as Hs. fold (to_string n) in Hs.
  assert (forall rest (a b : ErrorOr SimpleFraction), match to_string n ++ rest with "/"%char :: _ => a | _ => b end = b) as E.
  { intros rest a b. destruct (to_string n) as [| c s]; [done |]. apply not_elem_of_cons in Hs as [Hc _]. cbn [app].
    destruct c as [[] [] [] [] [] [] [] []]; done. }
  unfold SimpleFraction_FromString. destruct (Z.eqb_spec d 1) as [-> |].
  - rewrite <- (app_nil_r (to_string n)), E, app_nil_r, Split_one by done. by rewrite ParseAsciiNumber_print.
  - rewrite E. change (lit "/" ++ to_string d) with ("/"%char :: to_string d).
    rewrite Split_numbers by (done || lia). by rewrite !ParseAsciiNumber_print by lia.
Qed.

Lemma from_chars_range base limit s v rest : 0 <= base -> from_chars base limit s = Some (v, rest) -> 0 <= v <= limit.
Proof.
  intros Hb. unfold from_chars. destruct (take_digits base s) as [ds r] eqn:E. destruct ds as [| d ds]; [done |].
  destruct (Z.leb_spec (digits_value base (d :: ds)) limit); [| done]. intros [= <- _]. split; [| lia].
  apply digits_value_nonneg; [lia |]. clear -E. revert d ds r E.
  induction s as [| c s IH]; [done |]. intros d ds r. cbn [take_digits]. destruct (digit_value base c) eqn:Hc; [| done].
  destruct (take_digits base s) as [ds' r'] eqn:E. intros [= <- <- <-]. constructor.
  - unfold digit_value in Hc. destruct (_ <? base) eqn:Hlt in Hc; [| done]. injection Hc as <-. apply Z.ltb_lt in Hlt.
    split; [| done]. clear. repeat case_match; lia.
  - destruct ds'; [constructor | by apply (IH _ _ _ eq_refl)].
Qed.

(** ** Keys are read as printed *)

Definition nibbles (bytes : list Z) : list Z := concat (map (fun b => [b / 16; b mod 16]) bytes).

Lemma pad_print_byte b : is_u 8 b -> pad_left 2 (print_number 16 b) = map digit_char [b / 16; b mod 16].
Proof.
  intros Hb. unfold is_u in Hb. change (2 ^ 8) with 256 in Hb.
  assert (forallb (fun b => bool_decide (pad_left 2 (print_number 16 b) = map digit_char [b / 16; b mod 16])) (seqZ 0 256) = true)
    as H by (by vm_compute).
  rewrite forallb_forall in H. specialize (H b). apply bool_decide_eq_true in H; [done |].
  apply list_elem_of_In, elem_of_seqZ. lia.
Qed.

Lemma HexEncode_nibbles bytes : bytes_ok bytes -> HexEncode bytes = map digit_char (nibbles bytes).
Proof.
  unfold HexEncode, nibbles. induction 1 as [| b bytes Hb Hbs IH]; [done |]. cbn [map concat].
  by rewrite IH, pad_print_byte, map_app by done.
Qed.

Lemma nibbles_ok bytes : bytes_ok bytes -> digits_ok 16 (nibbles bytes).
Proof.
  induction 1 as [| b bytes Hb Hbs IH]; [constructor |]. unfold is_u in Hb. change (2 ^ 8) with 256 in Hb.
  unfold nibbles in *. cbn. constructor; [| constructor; [| done]].
  - split; [apply Z.div_pos; lia | apply Z.div_lt_upper_bound; lia].
  - apply Z.mod_pos_bound. lia.
Qed.

Lemma length_nibbles bytes : length (nibbles bytes) = (2 * length bytes)%nat.
Proof. induction bytes as [| b bytes IH]; [done |]. unfold nibbles in *. cbn [map concat app length]. rewrite IH. lia. Qed.

Lemma nibbles_value bytes : bytes_ok bytes -> digits_value 16 (nibbles bytes) = be_decode bytes.
Proof.
  induction bytes as [| b bytes IH] using rev_ind; [done |]. intros [Hbs Hb]%Forall_app. apply Forall_cons in Hb as [Hb _].
  rewrite be_decode_app, lor_shiftl_add by (done || lia). unfold nibbles in *. rewrite map_app, concat_app, digits_value_app, IH by done.
  cbn [map concat app]. change (zlen [b / 16; b mod 16]) with 2. unfold digits_value. cbn [foldl].
  pose proof (Z.div_mod b 16 ltac:(lia)). change (16 ^ 2) with 256. change (2 ^ 8) with 256. lia.
Qed.

Lemma starts_with_digits base pre c rest ds : digits_ok base ds -> base <= 36 -> digit_value base c = None ->
  starts_with (pre ++ c :: rest) (map digit_char ds) = false.
Proof.
  intros Hds Hb Hc. revert pre. induction Hds as [| d ds Hd Hds IH]; intros pre; [by destruct pre |]. cbn [map].
  destruct pre as [| p pre]; cbn [app starts_with].
  - rewrite bool_decide_eq_false_2; [done |]. intros ->. by rewrite digit_value_char in Hc.
  - rewrite IH. apply andb_false_r.
Qed.

Lemma scan_hex_digits ds : digits_ok 16 ds -> ds <> [] -> scan_hex (map digit_char ds) = Some (digits_value 16 ds).
Proof.
  intros Hds Hne. unfold scan_hex.
  rewrite (starts_with_digits 16 [] "-"%char []), (starts_with_digits 16 [] "+"%char []) by done. cbn [orb].
  rewrite (starts_with_digits 16 (lit "0") "x"%char []), (starts_with_digits 16 (lit "0") "X"%char []) by done. cbn [orb].
  rewrite <- (app_nil_r (map digit_char ds)), take_digits_app by done. by destruct ds.
Qed.

Lemma AesHexBytes_HexEncode bytes : bytes_ok bytes -> zlen bytes = kAesBytesSize -> AesHexBytes (HexEncode bytes) = Some bytes.
Proof.
  intros Hbs Hl. unfold AesHexBytes. rewrite HexEncode_nibbles by done. unfold zlen, kAesBytesSize in *.
  rewrite length_map, length_nibbles, Nat2Z.inj_mul, Hl. cbn [negb orb].
  assert (existsb isspace (map digit_char (nibbles bytes)) = false) as ->.
  { apply not_true_iff_false. intros (c & (d & <- & Hd)%in_map_iff & Hc)%existsb_exists. apply list_elem_of_In in Hd.
    apply (proj1 (Forall_forall _ _) (nibbles_ok bytes Hbs)) in Hd.
    assert (forallb (fun d => negb (isspace (digit_char d))) (seqZ 0 16) = true) as H by done.
    rewrite forallb_forall in H. specialize (H d). rewrite Hc in H. discriminate H. apply list_elem_of_In, elem_of_seqZ. lia. }
  assert (forall l, bytes_ok l -> length l = 8%nat -> scan_hex (map digit_char (nibbles l)) = Some (be_decode l)) as E.
  { intros l Hok H8. rewrite scan_hex_digits, nibbles_value; [done | done | by apply nibbles_ok |].
    intros E%(f_equal length). by rewrite length_nibbles, H8 in E. }
  rewrite <- (take_drop 8 bytes) in Hbs. apply Forall_app in Hbs as [H0 H1].
  assert (nibbles bytes = nibbles (take 8 bytes) ++ nibbles (drop 8 bytes)) as ->.
  { unfold nibbles. by rewrite <- concat_app, <- map_app, take_drop. }
  rewrite map_app, take_app_length', drop_app_length' by (rewrite length_map, length_nibbles, length_take; lia).
  assert (forall l, bytes_ok l -> length l = 8%nat -> be_encode 8 (be_decode l) = l) as E'.
  { intros l Hok H8. rewrite <- H8. by apply be_encode_decode. }
  assert (length (take 8 bytes) = 8 /\ length (drop 8 bytes) = 8)%nat as [L0 L1] by (rewrite length_take, length_drop; lia).
  rewrite (E _ H0 L0), (E _ H1 L1). cbn [mbind option_bind]. by rewrite (E' _ H0 L0), (E' _ H1 L1), take_drop.
Qed.

Lemma ParseAsciiNumber_range s n : ParseAsciiNumber s = Some n -> INT_MIN <= n <= INT_MAX.
Proof.
  unfold ParseAsciiNumber. destruct s as [| c s]; [done |]. destruct (from_chars_int (c :: s)) as [[v rest] |] eqn:E; [| done].
  intros [= <-]. cbn. unfold from_chars_int in E.
  assert (from_chars 10 INT_MAX (c :: s) = Some (v, rest) \/ exists v', from_chars 10 (INT_MAX + 1) s = Some (v', rest) /\ v = - v')
    as [H | (v' & H & ->)].
  { destruct c as [[] [] [] [] [] [] [] []]; try (by left). right.
    destruct (from_chars 10 (INT_MAX + 1) s) as [[v' rest'] |]; [| done]. injection E as <- <-. by eexists. }
  - apply from_chars_range in H; [| done]. unfold INT_MIN, INT_MAX in *. lia.
  - apply from_chars_range in H; [| done]. unfold INT_MIN, INT_MAX in *. lia.
Qed.

Lemma FromString_range s f : SimpleFraction_FromString s = ok f -> numerator_ f <= INT_MAX /\ denominator_ f <= INT_MAX.
Proof.
  unfold SimpleFraction_FromString. intros H.
  assert (match Split s "/" with
          | [a] => match ParseAsciiNumber a with Some n => Some (mkFraction n 1) | None => None end
          | [a; b] => match ParseAsciiNumber a, ParseAsciiNumber b with Some n, Some d => Some (mkFraction n d) | _, _ => None end
          | _ => None end = Some f) as E.
  { repeat case_match; congruence. }
  clear H. repeat case_match; try done; injection E as <-; cbn;
    repeat match goal with H : ParseAsciiNumber _ = Some _ |- _ => apply ParseAsciiNumber_range in H end; unfold INT_MAX in *; lia.
Qed.

(** ** What is read from the members of an object *)

Section Members.
Context {Value : Type} {json : JsonLibrary Value} {values : JsonValues Value json}
        {laws : JsonLaws Value json} {value_laws : JsonValuesLaws Value json values}.
#[local] Set Default Proof Using "Type*".

Lemma find_members (members : list (str * option Value)) key v : isObject v = true -> NoDup members.*1 ->
  let v' := set_members members v in
  isObject v' = true /\ find key v' = match assoc key members with Some x => Some x | None => find key v end.
Proof using laws.
  revert v. induction members as [| [k o] ms IH]; [done |]. intros v Hv [Hk Hms]%NoDup_cons. cbn [set_members assoc].
  destruct (IH (match o with Some x => set_member k x v | None => v end)) as [Ho Hf]; [| done |].
  { destruct o; [by apply isObject_set | done]. }
  split; [exact Ho |]. cbn zeta in Hf. rewrite Hf. destruct o as [x |].
  - rewrite find_set by done. case_bool_decide as E; [subst key | by rewrite decide_False].
    by rewrite assoc_not_in, decide_True.
  - case_bool_decide as E; [subst key | done]. by rewrite assoc_not_in.
Qed.

Lemma set_members_app members more v : set_members (members ++ more) v = set_members more (set_members members v).
Proof using. revert v. induction members as [| [k o] ms IH]; [done |]. intros v. apply IH. Qed.

Lemma object_of_object members : NoDup members.*1 -> isObject (object_of members) = true.
Proof using laws. intros H. by destruct (find_members members [] objectValue isObject_object H). Qed.

Lemma find_object_of members key : NoDup members.*1 -> find key (object_of members) = assoc key members.
Proof using laws.
  intros H. destruct (find_members members key objectValue isObject_object H) as [_ E].
  unfold object_of. cbn zeta in E. rewrite E, find_object. by destruct (assoc key members).
Qed.

Lemma at_object_of members key : NoDup members.*1 -> at_key key (object_of members) = default nullValue (assoc key members).
Proof using laws. intros H. unfold at_key. by rewrite find_object_of. Qed.

Lemma parse_all_map {A T} (parser : Value -> option T) (to_json : A -> Value) (g : A -> T) l :
  (forall x, x ∈ l -> parser (to_json x) = Some (g x)) -> parse_all parser (map to_json l) = Some (map g l).
Proof using.
  induction l as [| x l IH]; [done |]. intros H. cbn. rewrite H, IH; [done | | by left]. intros y Hy. apply H. by right.
Qed.

Lemma TryParseArray_vector {A} (parser : Value -> option A) (to_json : A -> Value) l : l <> [] ->
  (forall x, x ∈ l -> parser (to_json x) = Some x) -> TryParseArray parser (PrimitiveVectorToJson to_json l) = Some l.
Proof using laws.
  intros Hl H. unfold TryParseArray, PrimitiveVectorToJson. rewrite elements_array. cbn.
  rewrite (parse_all_map parser to_json id) by done. rewrite map_id. by destruct l.
Qed.

Lemma TryParseInt_int n : 0 <= n <= INT_MAX -> TryParseInt (json_int n) = Some n.
Proof using laws.
  intros H. unfold TryParseInt. rewrite asInt_int by (unfold is_s, INT_MAX in *; change (2 ^ (32 - 1)) with (2 ^ 31); lia).
  cbn. by rewrite (proj2 (Z.ltb_ge _ _)) by lia.
Qed.

Lemma TryParseInt_range v n : TryParseInt v = Some n -> 0 <= n <= INT_MAX.
Proof using value_laws.
  unfold TryParseInt. destruct (asInt v) as [i |] eqn:E; [| done]. apply asInt_range in E. cbn.
  destruct (Z.ltb_spec i 0); intros [= <-]. unfold is_s, INT_MAX in *. change (32 - 1) with 31 in E. lia.
Qed.

Lemma TryParseMilliseconds_int64 n : 0 <= n <= INT_MAX -> TryParseMilliseconds (json_int64 n) = Some n.
Proof using value_laws.
  intros H. unfold TryParseMilliseconds, TryParseInt.
  rewrite asInt_int64 by (unfold is_s, INT_MAX in *; change (2 ^ (32 - 1)) with (2 ^ 31); lia).
  cbn. rewrite (proj2 (Z.ltb_ge _ _)) by lia. cbn. by rewrite (proj2 (Z.ltb_ge _ _)) by lia.
Qed.

Lemma TryParseMilliseconds_range v n : TryParseMilliseconds v = Some n -> 0 <= n <= INT_MAX.
Proof using value_laws.
  unfold TryParseMilliseconds. destruct (TryParseInt v) as [i |] eqn:E; [| done]. apply TryParseInt_range in E. cbn.
  by destruct (i <? 0); intros [= <-].
Qed.

Lemma null_members :
  TryParseInt nullValue = None /\ TryParseMilliseconds nullValue = None /\ TryParseDouble nullValue = None
  /\ TryParseBool nullValue = None /\ TryParseString nullValue = None
  /\ forall {T} (parser : Value -> option T), TryParseArray parser nullValue = None.
Proof using value_laws.
  unfold TryParseMilliseconds, TryParseInt, TryParseDouble, TryParseBool, TryParseString, TryParseArray.
  rewrite asInt_null, asDouble_null, asBool_null, asString_null, elements_null. done.
Qed.

Lemma TryParseDouble_double d : SpecFloat.SFltb (double_of_Z 0) d = true -> TryParseDouble (json_double d) = Some d.
Proof using value_laws.
  unfold TryParseDouble. rewrite asDouble_double. change (double_of_Z 0) with (SpecFloat.S754_zero false).
  by destruct d as [| [] | | []].
Qed.

Lemma TryParseSimpleFraction_text f : fraction_fits f -> TryParseSimpleFraction (json_string (SimpleFraction_ToString f)) = Some f.
Proof using laws value_laws.
  intros Hf. unfold TryParseSimpleFraction. rewrite asInt_string, asString_string. cbn. rewrite FromString_ToString by done.
  destruct Hf as [Hn Hd]. unfold is_positive, is_defined.
  rewrite (proj2 (Z.leb_le _ _)), (proj2 (Z.ltb_lt _ _)), (proj2 (Z.eqb_neq _ _)) by lia. done.
Qed.

Lemma TryParseSimpleFraction_range v f : TryParseSimpleFraction v = Some f -> fraction_fits f.
Proof using value_laws.
  unfold TryParseSimpleFraction. destruct (asInt v) as [i |] eqn:E.
  - apply asInt_range in E. unfold is_s in E. change (2 ^ (32 - 1)) with (INT_MAX + 1) in E.
    destruct (Z.ltb_spec i 0); [done |]. intros [= <-]. unfold fraction_fits, INT_MAX in *. cbn. lia.
  - destruct (asString v) as [s |]; [| done]. cbn. destruct (SimpleFraction_FromString s) as [g |] eqn:Hs; [| done].
    destruct (is_positive g && is_defined g) eqn:Hg; [| done]. intros [= <-].
    apply FromString_range in Hs. unfold is_positive in Hg. unfold fraction_fits. lia.
Qed.
End Members.

(** [read_members] replaces the members of objects that are written out by their values. *)
Ltac member_of key members :=
  lazymatch members with
  | cons (pair ?key' ?o) ?members =>
      let b := eval vm_compute in (bool_decide (key = key')) in
      lazymatch b with true => o | false => member_of key members end
  | @nil (_ * ?O) => constr:(None : O)
  end.
Ltac distinct_keys := apply (bool_decide_unpack _); vm_compute; exact I.
Ltac read_members_by distinct :=
  repeat match goal with
  | |- context [at_key ?key (object_of ?members)] =>
      let o := member_of key members in
      replace (at_key key (object_of members)) with (default nullValue o)
        by (symmetry; exact (at_object_of members key ltac:(distinct)))
  end; cbn [from_option id].
Ltac read_members := read_members_by distinct_keys.
