(* ===== verification/Answer.v ===== *)
(** Resolutions (cast/streaming/resolution) and the ANSWER of a receiver
    (public/answer_messages): what is read from JSON, what is valid, and what is written. *)

From S2P Require Import Prelude Numeric Text Statistics CastMessage Json.

Definition kDefaultAudioMinBitRate : Z := 32 * 1000.
Definition kDefaultVideoMinBitRate : Z := 300 * 1000.

Definition json_error (text : string) : Error := mkError kJsonParseError (lit text).
Definition required {A} (text : string) (o : option A) : ErrorOr A :=
  match o with Some a => ok a | None => err (json_error text) end.
Definition checked {A} (IsValid : A -> bool) (text : string) (a : A) : ErrorOr A :=
  if IsValid a then ok a else err (json_error text).
Definition valid_if_present {A} (IsValid : A -> bool) (o : option A) : bool :=
  match o with Some a => IsValid a | None => true end.
Definition write_optional {A Value} (ToJson : A -> outcome Value) (o : option A) : outcome (option Value) :=
  match o with Some a => v ← ToJson a; Ret (Some v) | None => Ret None end.
Arguments required {A} text%_string o.
Arguments checked {A} IsValid text%_string a.

(** * Data *)

Record Resolution := mkResolution { width : Z; height : Z }.
Record Dimensions := mkDimensions { dimensions_width : Z; dimensions_height : Z; frame_rate : SimpleFraction }.

Record AudioConstraints := mkAudioConstraints {
  max_sample_rate : Z; max_channels : Z; audio_min_bit_rate : Z; audio_max_bit_rate : Z; audio_max_delay : option Z }.
Record VideoConstraints := mkVideoConstraints {
  max_pixels_per_second : option double; min_resolution : option Dimensions; max_dimensions : Dimensions;
  video_min_bit_rate : Z; video_max_bit_rate : Z; video_max_delay : option Z }.
Record Constraints := mkConstraints { audio : AudioConstraints; video : VideoConstraints }.

Inductive AspectRatioConstraint := kVariable | kFixed.
#[export] Instance AspectRatioConstraint_eq_dec : EqDecision AspectRatioConstraint.
Proof. solve_decision. Defined.
Definition kAspectRatioConstraintNames : list (str * AspectRatioConstraint) :=
  [(lit "receiver", kVariable); (lit "sender", kFixed)].

Record AspectRatio := mkAspectRatio { aspect_width : Z; aspect_height : Z }.
Record DisplayDescription := mkDisplay {
  dimensions : option Dimensions; aspect_ratio : option AspectRatio; aspect_ratio_constraint : option AspectRatioConstraint }.

Record Answer := mkAnswer {
  udp_port : Z; send_indexes : list Z; ssrcs : list Z; constraints : option Constraints; display : option DisplayDescription;
  answer_rtcp_event_log : list Z; answer_rtcp_dscp : list Z; answer_rtp_extensions : list (list str) }.

(** * Validity *)

Definition Resolution_IsValid (r : Resolution) : bool := (0 <? width r) && (0 <? height r).
Definition Dimensions_IsValid (d : Dimensions) : bool :=
  (0 <? dimensions_width d) && (0 <? dimensions_height d) && is_positive (frame_rate d).

Definition AudioConstraints_IsValid (c : AudioConstraints) : bool :=
  (0 <? max_sample_rate c) && (0 <? max_channels c) && (0 <? audio_min_bit_rate c)
  && (audio_min_bit_rate c <=? audio_max_bit_rate c).
(** An absent [std::optional] is less than every number. *)
Definition VideoConstraints_IsValid (c : VideoConstraints) : bool :=
  match max_pixels_per_second c with Some d => SpecFloat.SFltb (double_of_Z 0) d | None => false end
  && (0 <? video_min_bit_rate c) && (video_min_bit_rate c <? video_max_bit_rate c)
  && valid_if_present (fun delay => 0 <? delay) (video_max_delay c)
  && Dimensions_IsValid (max_dimensions c) && valid_if_present Dimensions_IsValid (min_resolution c)
  && (0 <? numerator_ (frame_rate (max_dimensions c))).
Definition Constraints_IsValid (c : Constraints) : bool :=
  AudioConstraints_IsValid (audio c) && VideoConstraints_IsValid (video c).

Definition AspectRatio_IsValid (r : AspectRatio) : bool := (0 <? aspect_width r) && (0 <? aspect_height r).
Definition DisplayDescription_IsValid (d : DisplayDescription) : bool :=
  if negb (valid_if_present AspectRatio_IsValid (aspect_ratio d)) then false
  else if negb (valid_if_present Dimensions_IsValid (dimensions d)) then false
  else if bool_decide (aspect_ratio_constraint d = Some kFixed) && negb (bool_decide (is_Some (dimensions d)))
          && negb (bool_decide (is_Some (aspect_ratio d))) then false
  else bool_decide (is_Some (aspect_ratio d)) || bool_decide (is_Some (dimensions d))
       || bool_decide (is_Some (aspect_ratio_constraint d)).

Definition kUdpPortMin : Z := 1.
Definition kUdpPortMax : Z := 65535.

Definition Answer_IsValid (a : Answer) : bool :=
  if bool_decide (ssrcs a = []) || bool_decide (send_indexes a = []) then false
  else if existsb (fun index => index <? 0) (send_indexes a) then false
  else if negb (valid_if_present Constraints_IsValid (constraints a)) then false
  else if negb (valid_if_present DisplayDescription_IsValid (display a)) then false
  else (kUdpPortMin <=? udp_port a) && (udp_port a <=? kUdpPortMax).

(** [operator==] compares the rates of frames up to a ten-thousandth; [IsSupersetOf] does not. *)
Definition FrameRateEquals (a b : double) : bool := SpecFloat.SFltb (SpecFloat.SFabs (dsub a b)) (ddiv (double_of_Z 1) (double_of_Z 10000)).
Definition Resolution_IsSupersetOf (r other : Resolution) : bool := (width other <=? width r) && (height other <=? height r).
Definition ToResolution (d : Dimensions) : Resolution := mkResolution (dimensions_width d) (dimensions_height d).
Definition Dimensions_equal (d other : Dimensions) : bool :=
  (dimensions_width d =? dimensions_width other) && (dimensions_height d =? dimensions_height other)
  && FrameRateEquals (fraction_double (frame_rate d)) (fraction_double (frame_rate other)).
Definition Dimensions_IsSupersetOf (d other : Dimensions) : bool :=
  let a := fraction_double (frame_rate d) in let b := fraction_double (frame_rate other) in
  if negb (SpecFloat.SFeqb a b) then SpecFloat.SFleb b a
  else Resolution_IsSupersetOf (ToResolution d) (ToResolution other).

(** * Reading *)

Section Answer.
Context {Value : Type} {json : JsonLibrary Value} {values : JsonValues Value json}.
Implicit Types (value root : Value).

Definition ParseOptional {T} (TryParse : Value -> ErrorOr T) value : ErrorOr (option T) :=
  if isNull value then ok None else out ← TryParse value; ok (Some out).

Definition kWidth : str := lit "width".
Definition kHeight : str := lit "height".
Definition kFrameRate : str := lit "frameRate".

Definition Resolution_TryParse root : ErrorOr Resolution :=
  if negb (isObject root) then err (json_error "Resolution is not a JSON object") else
  width ← required "Invalid resolution" (TryParseInt (at_key kWidth root));
  height ← required "Invalid resolution" (TryParseInt (at_key kHeight root));
  checked Resolution_IsValid "Invalid resolution values" (mkResolution width height).

Definition Dimensions_TryParse root : ErrorOr Dimensions :=
  if negb (isObject root) then err (json_error "Dimensions is not a JSON object") else
  width ← required "Invalid dimensions" (TryParseInt (at_key kWidth root));
  height ← required "Invalid dimensions" (TryParseInt (at_key kHeight root));
  frame_rate ← (if isNull (at_key kFrameRate root) then ok (mkFraction 0 1)
                else required "Invalid frame rate" (TryParseSimpleFraction (at_key kFrameRate root)));
  checked Dimensions_IsValid "Invalid dimensions values" (mkDimensions width height frame_rate).

Definition kMinBitRate : str := lit "minBitRate".
Definition kMaxBitRate : str := lit "maxBitRate".
Definition kMaxDelay : str := lit "maxDelay".
Definition kMaxPixelsPerSecond : str := lit "maxPixelsPerSecond".
Definition kMinResolution : str := lit "minResolution".
Definition kMaxDimensions : str := lit "maxDimensions".
Definition kMaxSampleRate : str := lit "maxSampleRate".
Definition kMaxChannels : str := lit "maxChannels".

Definition AudioConstraints_TryParse root : ErrorOr AudioConstraints :=
  if negb (isObject root) then err (json_error "Audio constraints is not a JSON object") else
  sample_rate ← required "Invalid audio constraints" (TryParseInt (at_key kMaxSampleRate root));
  channels ← required "Invalid audio constraints" (TryParseInt (at_key kMaxChannels root));
  bit_rate ← required "Invalid audio constraints" (TryParseInt (at_key kMaxBitRate root));
  let delay := TryParseMilliseconds (at_key kMaxDelay root) in
  let min_bit_rate := default kDefaultAudioMinBitRate (TryParseInt (at_key kMinBitRate root)) in
  checked AudioConstraints_IsValid "Invalid audio constraints"
    (mkAudioConstraints sample_rate channels min_bit_rate bit_rate delay).

Definition VideoConstraints_TryParse root : ErrorOr VideoConstraints :=
  if negb (isObject root) then err (json_error "Video constraints is not a JSON object") else
  max_dimensions ← Dimensions_TryParse (at_key kMaxDimensions root);
  bit_rate ← required "Invalid video constraints: missing maxBitRate" (TryParseInt (at_key kMaxBitRate root));
  min_resolution ← ParseOptional Dimensions_TryParse (at_key kMinResolution root);
  let delay := TryParseMilliseconds (at_key kMaxDelay root) in
  let pixels := TryParseDouble (at_key kMaxPixelsPerSecond root) in
  let min_bit_rate := default kDefaultVideoMinBitRate (TryParseInt (at_key kMinBitRate root)) in
  checked VideoConstraints_IsValid "Invalid video constraints"
    (mkVideoConstraints pixels min_resolution max_dimensions min_bit_rate bit_rate delay).

Definition kAudio_key : str := lit "audio".
Definition kVideo_key : str := lit "video".

Definition Constraints_TryParse root : ErrorOr Constraints :=
  if negb (isObject root) then err (json_error "Constraints is not a JSON object") else
  audio ← AudioConstraints_TryParse (at_key kAudio_key root);
  video ← VideoConstraints_TryParse (at_key kVideo_key root);
  checked Constraints_IsValid "Invalid constraints" (mkConstraints audio video).

Definition kDimensions : str := lit "dimensions".
Definition kAspectRatio : str := lit "aspectRatio".
Definition kAspectRatioDelimiter : ascii := ":".
Definition kScaling : str := lit "scaling".

Definition TryParseAspectRatioConstraint value : option AspectRatioConstraint :=
  aspect_ratio ← TryParseString value;
  match GetEnum kAspectRatioConstraintNames aspect_ratio with ok constraint => Some constraint | err _ => None end.

Definition AspectRatio_TryParse value : ErrorOr AspectRatio :=
  parsed_value ← required "Invalid aspect ratio string" (TryParseString value);
  match Split parsed_value kAspectRatioDelimiter with
  | [a; b] =>
      width ← required "Invalid aspect ratio values" (ParseAsciiNumber a);
      height ← required "Invalid aspect ratio values" (ParseAsciiNumber b);
      checked AspectRatio_IsValid "Invalid aspect ratio" (mkAspectRatio width height)
  | _ => err (json_error "Invalid aspect ratio format")
  end.

Definition DisplayDescription_TryParse root : ErrorOr DisplayDescription :=
  if negb (isObject root) then err (json_error "Display description is not a JSON object") else
  dimensions ← ParseOptional Dimensions_TryParse (at_key kDimensions root);
  aspect_ratio ← ParseOptional AspectRatio_TryParse (at_key kAspectRatio root);
  let constraint := TryParseAspectRatioConstraint (at_key kScaling root) in
  checked DisplayDescription_IsValid "Invalid display description" (mkDisplay dimensions aspect_ratio constraint).

Definition kUdpPort : str := lit "udpPort".
Definition kSendIndexes : str := lit "sendIndexes".
Definition kSsrcs : str := lit "ssrcs".
Definition kConstraints : str := lit "constraints".
Definition kDisplay : str := lit "display".
Definition kReceiverRtcpEventLog : str := lit "receiverRtcpEventLog".
Definition kReceiverRtcpDscp : str := lit "receiverRtcpDscp".
Definition kRtpExtensions : str := lit "rtpExtensions".

Definition Answer_TryParse root : ErrorOr Answer :=
  if negb (isObject root) then err (json_error "Answer is not a JSON object") else
  let missing := "Invalid answer: missing or invalid mandatory fields"%string in
  udp_port ← required missing (TryParseInt (at_key kUdpPort root));
  send_indexes ← required missing (TryParseIntArray (at_key kSendIndexes root));
  ssrcs ← required missing (TryParseUintArray (at_key kSsrcs root));
  constraints ← ParseOptional Constraints_TryParse (at_key kConstraints root);
  display ← ParseOptional DisplayDescription_TryParse (at_key kDisplay root);
  let event_log := default [] (TryParseIntArray (at_key kReceiverRtcpEventLog root)) in
  let dscp := default [] (TryParseIntArray (at_key kReceiverRtcpDscp root)) in
  let extensions := default [] (TryParseNestedStringArray (at_key kRtpExtensions root)) in
  checked Answer_IsValid "Invalid answer"
    (mkAnswer udp_port send_indexes ssrcs constraints display event_log dscp extensions).

(** * Writing *)

Definition Resolution_ToJson (r : Resolution) : outcome Value :=
  OSP_CHECK (Resolution_IsValid r) ;;
  Ret (object_of [(kWidth, Some (json_int (width r))); (kHeight, Some (json_int (height r)))]).

Definition Dimensions_ToJson (d : Dimensions) : outcome Value :=
  OSP_CHECK (Dimensions_IsValid d) ;;
  Ret (object_of [(kWidth, Some (json_int (dimensions_width d))); (kHeight, Some (json_int (dimensions_height d)));
                  (kFrameRate, Some (json_string (SimpleFraction_ToString (frame_rate d))))]).

(** Delays are in milliseconds. *)
Definition delay_json (delay : option Z) : option Value := json_int64 <$> delay.

Definition AudioConstraints_ToJson (c : AudioConstraints) : outcome Value :=
  OSP_CHECK (AudioConstraints_IsValid c) ;;
  Ret (object_of [(kMaxSampleRate, Some (json_int (max_sample_rate c))); (kMaxChannels, Some (json_int (max_channels c)));
                  (kMinBitRate, Some (json_int (audio_min_bit_rate c))); (kMaxBitRate, Some (json_int (audio_max_bit_rate c)));
                  (kMaxDelay, delay_json (audio_max_delay c))]).

Definition VideoConstraints_ToJson (c : VideoConstraints) : outcome Value :=
  OSP_CHECK (VideoConstraints_IsValid c) ;;
  dimensions ← Dimensions_ToJson (max_dimensions c);
  resolution ← write_optional Dimensions_ToJson (min_resolution c);
  Ret (object_of [(kMaxDimensions, Some dimensions); (kMinBitRate, Some (json_int (video_min_bit_rate c)));
                  (kMaxBitRate, Some (json_int (video_max_bit_rate c)));
                  (kMaxPixelsPerSecond, json_double <$> max_pixels_per_second c);
                  (kMinResolution, resolution); (kMaxDelay, delay_json (video_max_delay c))]).

Definition Constraints_ToJson (c : Constraints) : outcome Value :=
  OSP_CHECK (Constraints_IsValid c) ;;
  audio ← AudioConstraints_ToJson (audio c);
  video ← VideoConstraints_ToJson (video c);
  Ret (object_of [(kAudio_key, Some audio); (kVideo_key, Some video)]).

Definition AspectRatioConstraintToJson (aspect_ratio : AspectRatioConstraint) : Value :=
  json_string (match GetEnumName kAspectRatioConstraintNames aspect_ratio with ok name => name | err _ => lit "sender" end).

Definition AspectRatio_text (r : AspectRatio) : str :=
  signed_to_string (aspect_width r) ++ kAspectRatioDelimiter :: signed_to_string (aspect_height r).

Definition DisplayDescription_ToJson (d : DisplayDescription) : outcome Value :=
  OSP_CHECK (DisplayDescription_IsValid d) ;;
  dimensions ← write_optional Dimensions_ToJson (dimensions d);
  Ret (object_of [(kAspectRatio, (fun r => json_string (AspectRatio_text r)) <$> aspect_ratio d);
                  (kDimensions, dimensions); (kScaling, AspectRatioConstraintToJson <$> aspect_ratio_constraint d)]).

(** Arrays that are empty are left out. *)
Definition unless_empty {A} (write : list A -> Value) (l : list A) : option Value :=
  match l with [] => None | _ => Some (write l) end.

Definition Answer_ToJson (a : Answer) : outcome Value :=
  OSP_CHECK (Answer_IsValid a) ;;
  constraints ← write_optional Constraints_ToJson (constraints a);
  display ← write_optional DisplayDescription_ToJson (display a);
  Ret (object_of [(kConstraints, constraints); (kDisplay, display); (kUdpPort, Some (json_int (udp_port a)));
                  (kSendIndexes, Some (PrimitiveVectorToJson json_int (send_indexes a)));
                  (kSsrcs, Some (PrimitiveVectorToJson json_uint (ssrcs a)));
                  (kReceiverRtcpEventLog, unless_empty (PrimitiveVectorToJson json_int) (answer_rtcp_event_log a));
                  (kReceiverRtcpDscp, unless_empty (PrimitiveVectorToJson json_int) (answer_rtcp_dscp a));
                  (kRtpExtensions, unless_empty NestedStringArrayToJson (answer_rtp_extensions a))]).
End Answer.
