(* ===== verification/Offer.v ===== *)
(** The OFFER of a sender (public/offer_messages): streams of audio and video, what is read from JSON,
    what is valid, and what is written; and the names of codecs (cast/streaming/message_fields). *)

From S2P Require Import Prelude Numeric Text RtpDefines Statistics CastMessage Json Answer.

#[export] Instance AudioCodec_eq_dec : EqDecision AudioCodec.
Proof. solve_decision. Defined.
#[export] Instance VideoCodec_eq_dec : EqDecision VideoCodec.
Proof. solve_decision. Defined.

(** * Names *)

Definition kAudioCodecNames : list (str * AudioCodec) :=
  [(lit "aac", AacCodec); (lit "opus", OpusCodec); (lit "REMOTE_AUDIO", AudioNotSpecified)].
Definition kVideoCodecNames : list (str * VideoCodec) :=
  [(lit "h264", H264Codec); (lit "vp8", Vp8Codec); (lit "hevc", HevcCodec); (lit "REMOTE_VIDEO", VideoNotSpecified);
   (lit "vp9", Vp9Codec); (lit "av1", Av1Codec)].

(** [ErrorOr::value()] checks that there is one. *)
Definition value_of {A} (m : ErrorOr A) : outcome A := match m with ok a => Ret a | err _ => Fault CheckFailed end.

Definition AudioCodecToString (codec : AudioCodec) : outcome str := value_of (GetEnumName kAudioCodecNames codec).
Definition StringToAudioCodec (name : str) : ErrorOr AudioCodec := GetEnum kAudioCodecNames name.
Definition VideoCodecToString (codec : VideoCodec) : outcome str := value_of (GetEnumName kVideoCodecNames codec).
Definition StringToVideoCodec (name : str) : ErrorOr VideoCodec := GetEnum kVideoCodecNames name.

Inductive CastMode := kMirroring | kRemoting.
#[export] Instance CastMode_eq_dec : EqDecision CastMode.
Proof. solve_decision. Defined.
Definition kCastModeNames : list (str * CastMode) := [(lit "mirroring", kMirroring); (lit "remoting", kRemoting)].

Inductive OfferedType := kAudioSource | kVideoSource.
#[export] Instance OfferedType_eq_dec : EqDecision OfferedType.
Proof. solve_decision. Defined.
Definition kAudioSourceType : str := lit "audio_source".
Definition kVideoSourceType : str := lit "video_source".
Definition OfferedType_ToString (type : OfferedType) : str :=
  match type with kAudioSource => kAudioSourceType | kVideoSource => kVideoSourceType end.

(** * Data *)

(** Delays are in milliseconds. *)
Record Stream := mkStream {
  index : Z; type : OfferedType; channels : Z; offered_payload_type : Z; ssrc : Z; target_delay : Z;
  aes_key : list Z; aes_iv_mask : list Z; receiver_rtcp_event_log : bool; receiver_rtcp_dscp : option Z;
  rtp_timebase : Z; codec_parameter : str; rtp_extensions : list str }.

Record AudioStream := mkAudioStream { audio_stream : Stream; audio_codec : AudioCodec; bit_rate : Z }.
Record VideoStream := mkVideoStream {
  video_stream : Stream; video_codec : VideoCodec; max_frame_rate : SimpleFraction; max_bit_rate : Z;
  protection : str; profile : str; level : str; resolutions : list Resolution; error_recovery_mode : str }.

Record Offer := mkOffer { cast_mode : CastMode; audio_streams : list AudioStream; video_streams : list VideoStream }.

(** * Validity *)

Definition AudioCodecParameterIsValid (codec : AudioCodec) (codec_parameter : str) : bool :=
  if bool_decide (codec_parameter = []) then true
  else match codec with
       | AacCodec => starts_with (lit "mp4a.") codec_parameter
       | OpusCodec | AudioNotSpecified => false
       end.

Definition VideoCodecParameterIsValid (codec : VideoCodec) (parameter : str) : bool :=
  if bool_decide (parameter = []) then true
  else match codec with
       | Vp8Codec => starts_with (lit "vp08") parameter
       | Vp9Codec => starts_with (lit "vp09") parameter
       | Av1Codec => starts_with (lit "av01") parameter
       | HevcCodec => starts_with (lit "hev1") parameter
       | H264Codec => starts_with (lit "avc1") parameter
       | VideoNotSpecified => false
       end.

Definition Stream_IsValid (s : Stream) : bool :=
  (1 <=? channels s) && (0 <=? index s) && (0 <? target_delay s) && (target_delay s <=? INT_MAX) && (1 <=? rtp_timebase s).
Definition AudioStream_IsValid (s : AudioStream) : bool := (0 <=? bit_rate s) && Stream_IsValid (audio_stream s).
Definition VideoStream_IsValid (s : VideoStream) : bool := (0 <? max_bit_rate s) && is_positive (max_frame_rate s).
Definition Offer_IsValid (o : Offer) : bool :=
  forallb AudioStream_IsValid (audio_streams o) && forallb VideoStream_IsValid (video_streams o).

(** * Reading *)

Definition kMinTargetPlayoutDelay : Z := 0.
Definition kMaxTargetPlayoutDelay : Z := 5000.
Definition kDefaultTargetPlayoutDelay : Z := 400.
Definition kDefaultMaxFrameRate : Z := 30.
Definition kDefaultNumVideoChannels : Z := 1.
Definition kDefaultNumAudioChannels : Z := 2.
Definition kDefaultAudioMinSampleRate : Z := 16000.
Definition kRtpVideoTimebase : Z := 90000.

Section Offer.
Context {Value : Type} {json : JsonLibrary Value} {values : JsonValues Value json}.
Implicit Types (value root fields : Value).

Definition kSupportedStreams : str := lit "supportedStreams".
Definition kStreamType : str := lit "type".
Definition kCodecName : str := lit "codecName".

Definition TryParseRtpPayloadType value : option Z :=
  t ← TryParseInt value;
  let t_small := u8 t in
  if negb (t_small =? t) || negb (IsRtpPayloadType t_small) then None else Some t_small.

Definition TryParseRtpTimebase value : option Z :=
  raw_timebase ← TryParseString value;
  match SimpleFraction_FromString raw_timebase with
  | ok fraction => if negb (is_positive fraction) || negb (numerator_ fraction =? 1) then None else Some (denominator_ fraction)
  | err _ => None
  end.

Fixpoint parse_resolutions (vs : list Value) : option (list Resolution) :=
  match vs with
  | [] => Some []
  | v :: vs => match Resolution_TryParse v with ok r => rs ← parse_resolutions vs; Some (r :: rs) | err _ => None end
  end.
Definition TryParseResolutions value : option (list Resolution) :=
  vs ← elements value; match vs with [] => None | _ => parse_resolutions vs end.

Definition unencrypted : Error := mkError kUnencryptedOffer (lit "Offer stream must have both a valid aesKey and aesIvMask").

Definition Stream_TryParse value (type : OfferedType) : ErrorOr Stream :=
  if negb (isObject value) then err (json_error "Stream is not a JSON object") else
  let missing := "Offer stream has missing or invalid mandatory field"%string in
  index ← required missing (TryParseInt (at_key (lit "index") value));
  ssrc ← required missing (TryParseUint (at_key (lit "ssrc") value));
  payload_type ← required missing (TryParseRtpPayloadType (at_key (lit "rtpPayloadType") value));
  timebase ← required missing (TryParseRtpTimebase (at_key (lit "timeBase") value));
  channels ← match TryParseInt (at_key (lit "channels") value) with
             | None => ok (if bool_decide (type = kAudioSource) then kDefaultNumAudioChannels else kDefaultNumVideoChannels)
             | Some channels => if channels <=? 0 then err (json_error "Invalid channel count") else ok channels
             end;
  match TryParseAesHexBytes (at_key (lit "aesKey") value), TryParseAesHexBytes (at_key (lit "aesIvMask") value) with
  | Some key, Some mask =>
      if (timebase <? Z.min kDefaultAudioMinSampleRate kRtpVideoTimebase) || (kRtpVideoTimebase <? timebase)
      then err (json_error "rtp_timebase (sample rate)") else
      let delay := match TryParseInt (at_key (lit "targetDelay") value) with
                   | Some d => if (kMinTargetPlayoutDelay <=? d) && (d <=? kMaxTargetPlayoutDelay) then d else kDefaultTargetPlayoutDelay
                   | None => kDefaultTargetPlayoutDelay
                   end in
      let event_log := default true (TryParseBool (at_key (lit "receiverRtcpEventLog") value)) in
      dscp ← match TryParseInt (at_key (lit "receiverRtcpDscp") value) with
             | Some dscp => if (dscp <? 0) || (63 <? dscp) then err (json_error "receiverRtcpDscp (invalid DSCP value)") else ok (Some dscp)
             | None => ok None
             end;
      let extensions := default [] (TryParseStringArray (at_key (lit "rtpExtensions") value)) in
      let codec_parameter := default [] (TryParseString (at_key (lit "codecParameter") value)) in
      ok (mkStream index type channels payload_type ssrc delay key mask event_log dscp timebase codec_parameter extensions)
  | _, _ => err unencrypted
  end.

Definition unknown_codec : Error := mkError kUnknownCodec (lit "Codec is not known, can't use stream").
(** [StringFormat] of the parameter and the name of the codec. *)
Definition invalid_parameter (kind : string) (parameter : str) (codec : outcome str) : outcome Error :=
  name ← codec;
  Ret (mkError kInvalidCodecParameter (lit "Invalid " ++ lit kind ++ lit " codec parameter (" ++ parameter ++ lit " for codec " ++ name ++ lit ")")).

Definition AudioStream_TryParse value : outcome (ErrorOr AudioStream) :=
  if negb (isObject value) then Ret (err (json_error "Audio stream is not a JSON object")) else
  match Stream_TryParse value kAudioSource with
  | err e => Ret (err e)
  | ok stream =>
      match TryParseInt (at_key (lit "bitRate") value), TryParseString (at_key kCodecName value) with
      | Some bit_rate, Some codec_name =>
          if bit_rate <? 0 then Ret (err (json_error "Invalid audio stream field")) else
          match StringToAudioCodec codec_name with
          | err _ => Ret (err unknown_codec)
          | ok codec =>
              if negb (AudioCodecParameterIsValid codec (codec_parameter stream))
              then e ← invalid_parameter "audio" (codec_parameter stream) (AudioCodecToString codec); Ret (err e)
              else Ret (ok (mkAudioStream stream codec bit_rate))
          end
      | _, _ => Ret (err (json_error "Invalid audio stream field"))
      end
  end.

Definition VideoStream_TryParse value : outcome (ErrorOr VideoStream) :=
  if negb (isObject value) then Ret (err (json_error "Video stream is not a JSON object")) else
  match Stream_TryParse value kVideoSource with
  | err e => Ret (err e)
  | ok stream =>
      match TryParseString (at_key kCodecName value) with
      | None => Ret (err (json_error "Video stream missing codec"))
      | Some codec_name =>
          match StringToVideoCodec codec_name with
          | err _ => Ret (err unknown_codec)
          | ok codec =>
              if negb (VideoCodecParameterIsValid codec (codec_parameter stream))
              then e ← invalid_parameter "video" (codec_parameter stream) (VideoCodecToString codec); Ret (err e)
              else
                let frame_rate :=
                  match TryParseString (at_key (lit "maxFrameRate") value) with
                  | Some raw => match SimpleFraction_FromString raw with
                                | ok parsed => if is_positive parsed then parsed else mkFraction kDefaultMaxFrameRate 1
                                | err _ => mkFraction kDefaultMaxFrameRate 1
                                end
                  | None => mkFraction kDefaultMaxFrameRate 1
                  end in
                let text key := default [] (TryParseString (at_key (lit key) value)) in
                Ret (ok (mkVideoStream stream codec frame_rate
                  (default (Z.shiftl 4 20) (TryParseInt (at_key (lit "maxBitRate") value)))
                  (text "protection"%string) (text "profile"%string) (text "level"%string)
                  (default [] (TryParseResolutions (at_key (lit "resolutions") value))) (text "errorRecoveryMode"%string)))
          end
      end
  end.
(** What the loop over the streams has so far: those of audio and of video, and the DSCP value of the first. *)
Record ParsedStreams := mkParsed { parsed_audio : list AudioStream; parsed_video : list VideoStream; parsed_dscp : option (option Z) }.

(** The stream is kept when its DSCP value is that of the first. *)
Definition keep (dscp : option Z) (keep_stream : ParsedStreams -> ParsedStreams) (p : ParsedStreams) : ErrorOr ParsedStreams :=
  match parsed_dscp p with
  | Some first => if bool_decide (dscp = first) then ok (keep_stream p) else err (json_error "Mixed DSCP values in offer")
  | None => ok (keep_stream (mkParsed (parsed_audio p) (parsed_video p) (Some dscp)))
  end.
Definition keep_audio (s : AudioStream) (p : ParsedStreams) : ErrorOr ParsedStreams :=
  keep (receiver_rtcp_dscp (audio_stream s)) (fun p => mkParsed (parsed_audio p ++ [s]) (parsed_video p) (parsed_dscp p)) p.
Definition keep_video (s : VideoStream) (p : ParsedStreams) : ErrorOr ParsedStreams :=
  keep (receiver_rtcp_dscp (video_stream s)) (fun p => mkParsed (parsed_audio p) (parsed_video p ++ [s]) (parsed_dscp p)) p.

(** A stream with an unknown codec is passed over. *)
Definition drop_unknown {S} (stream : ErrorOr S) (keep_stream : S -> ParsedStreams -> ErrorOr ParsedStreams) (p : ParsedStreams) :
    ErrorOr ParsedStreams :=
  match stream with
  | ok s => keep_stream s p
  | err e => if bool_decide (error_code e = kUnknownCodec) then ok p else err e
  end.

Definition parse_stream fields (p : ParsedStreams) : outcome (ErrorOr ParsedStreams) :=
  type ← member kStreamType fields;
  match TryParseString type with
  | None => Ret (err (json_error "Missing stream type"))
  | Some type =>
      if bool_decide (type = kAudioSourceType)
      then stream_or_error ← AudioStream_TryParse fields; Ret (drop_unknown stream_or_error keep_audio p)
      else if bool_decide (type = kVideoSourceType)
      then stream_or_error ← VideoStream_TryParse fields; Ret (drop_unknown stream_or_error keep_video p)
      else Ret (ok p)
  end.

Fixpoint parse_streams (streams : list Value) (p : ParsedStreams) : outcome (ErrorOr ParsedStreams) :=
  match streams with
  | [] => Ret (ok p)
  | fields :: streams =>
      p ← parse_stream fields p;
      match p with ok p => parse_streams streams p | err e => Ret (err e) end
  end.

(** [asString] of an array or an object fails. *)
Definition Offer_TryParse root : outcome (ErrorOr Offer) :=
  if negb (isObject root) then Ret (err (json_error "null offer")) else
  match convertString (at_key (lit "castMode") root) with
  | None => Fault CheckFailed
  | Some mode =>
      match elements (at_key kSupportedStreams root) with
      | None => Ret (err (json_error "supported streams in offer"))
      | Some supported_streams =>
          p ← parse_streams supported_streams (mkParsed [] [] None);
          Ret (match p with
               | ok p => ok (mkOffer (match GetEnum kCastModeNames mode with ok mode => mode | err _ => kMirroring end)
                               (parsed_audio p) (parsed_video p))
               | err e => err e
               end)
      end
  end.

(** * Writing *)

Definition stream_members (s : Stream) : list (str * option Value) :=
  [(lit "index", Some (json_int (index s))); (lit "type", Some (json_string (OfferedType_ToString (type s))));
   (lit "channels", Some (json_int (channels s))); (lit "rtpPayloadType", Some (json_int (offered_payload_type s)));
   (lit "rtpProfile", Some (json_string (lit "cast"))); (lit "ssrc", Some (json_uint (ssrc s)));
   (lit "targetDelay", Some (json_int (swrap 32 (target_delay s))));
   (lit "aesKey", Some (json_string (HexEncode (aes_key s)))); (lit "aesIvMask", Some (json_string (HexEncode (aes_iv_mask s))));
   (lit "receiverRtcpEventLog", Some (json_bool (receiver_rtcp_event_log s)));
   (lit "receiverRtcpDscp", json_int <$> receiver_rtcp_dscp s);
   (lit "timeBase", Some (json_string (lit "1/" ++ signed_to_string (rtp_timebase s))));
   (lit "codecParameter", Some (json_string (codec_parameter s)));
   (lit "rtpExtensions", unless_empty (PrimitiveVectorToJson json_string) (rtp_extensions s))].

Definition Stream_ToJson (s : Stream) : outcome Value := OSP_CHECK (Stream_IsValid s) ;; Ret (object_of (stream_members s)).

Definition AudioStream_ToJson (s : AudioStream) : outcome Value :=
  OSP_CHECK (AudioStream_IsValid s) ;;
  out ← Stream_ToJson (audio_stream s);
  name ← AudioCodecToString (audio_codec s);
  Ret (set_members [(kCodecName, Some (json_string name)); (lit "bitRate", Some (json_int (bit_rate s)))] out).

Fixpoint write_all {A} (ToJson : A -> outcome Value) (l : list A) : outcome (list Value) :=
  match l with [] => Ret [] | a :: l => v ← ToJson a; vs ← write_all ToJson l; Ret (v :: vs) end.

Definition VideoStream_ToJson (s : VideoStream) : outcome Value :=
  OSP_CHECK (VideoStream_IsValid s) ;;
  out ← Stream_ToJson (video_stream s);
  name ← VideoCodecToString (video_codec s);
  rs ← write_all Resolution_ToJson (resolutions s);
  Ret (set_members
    [(lit "codecName", Some (json_string name)); (lit "maxFrameRate", Some (json_string (SimpleFraction_ToString (max_frame_rate s))));
     (lit "maxBitRate", Some (json_int (max_bit_rate s))); (lit "protection", Some (json_string (protection s)));
     (lit "profile", Some (json_string (profile s))); (lit "level", Some (json_string (level s)));
     (lit "errorRecoveryMode", Some (json_string (error_recovery_mode s))); (lit "resolutions", Some (appended rs))] out).

Definition Offer_ToJson (o : Offer) : outcome Value :=
  OSP_CHECK (Offer_IsValid o) ;;
  mode ← value_of (GetEnumName kCastModeNames (cast_mode o));
  audio ← write_all AudioStream_ToJson (audio_streams o);
  video ← write_all VideoStream_ToJson (video_streams o);
  Ret (object_of [(lit "castMode", Some (json_string mode)); (kSupportedStreams, Some (appended (audio ++ video)))]).
End Offer.
