(* ===== verification/NegotiationDemo.v ===== *)
(** A concrete library of JSON values for the messages of negotiation, which shows that the laws of Json.v
    can hold, and the ANSWER and OFFER of the examples. *)

From stdpp Require Import countable.
From S2P Require Import Prelude Numeric Text RtpDefines Statistics CastMessage CastSocket CastDemo Json Answer Offer.

(** * Values: nodes with the numbers 2 to 4 are null, booleans and numbers that are not integers *)

Definition demo_bit (b : bool) : Z := if b then 1 else 0.
Definition demo_double (d : double) : demo_json :=
  GenNode 4 (map (fun n => GenLeaf (inr n))
    (match d with
     | SpecFloat.S754_zero s => [0; demo_bit s]
     | SpecFloat.S754_infinity s => [1; demo_bit s]
     | SpecFloat.S754_nan => [2]
     | SpecFloat.S754_finite s m e => [3; demo_bit s; Z.pos m; e]
     end)).
Definition demo_asDouble (v : demo_json) : option double :=
  match v with
  | GenNode 4 [GenLeaf (inr 0); GenLeaf (inr s)] => Some (SpecFloat.S754_zero (s =? 1))
  | GenNode 4 [GenLeaf (inr 1); GenLeaf (inr s)] => Some (SpecFloat.S754_infinity (s =? 1))
  | GenNode 4 [GenLeaf (inr 2)] => Some SpecFloat.S754_nan
  | GenNode 4 [GenLeaf (inr 3); GenLeaf (inr s); GenLeaf (inr m); GenLeaf (inr e)] => Some (SpecFloat.S754_finite (s =? 1) (Z.to_pos m) e)
  | GenLeaf (inr n) => Some (double_of_Z n)
  | _ => None
  end.

#[export] Instance demo_json_values : JsonValues demo_json demo_json_library := {|
  nullValue := GenNode 2 [];
  isNull v := match v with GenNode 2 _ => true | _ => false end;
  json_bool b := GenNode 3 [GenLeaf (inr (demo_bit b))];
  json_uint n := GenLeaf (inr n);
  json_int64 n := GenLeaf (inr n);
  json_double := demo_double;
  asBool v := match v with GenNode 3 [GenLeaf (inr n)] => Some (n =? 1) | _ => None end;
  asUInt v := match v with GenLeaf (inr n) => if (0 <=? n) && (n <? 2 ^ 32) then Some n else None | _ => None end;
  asDouble := demo_asDouble;
  convertString v := match v with GenLeaf (inl s) => Some s | GenNode 2 _ => Some [] | GenLeaf (inr n) => Some (signed_to_string n) | _ => None end |}.

#[export] Instance demo_json_values_laws : JsonValuesLaws demo_json demo_json_library demo_json_values.
Proof.
  split; try done.
  - by intros [| [| [| [|]]] ?].
  - by intros [].
  - intros n Hn. unfold is_u in Hn. cbn. by rewrite (proj2 (Z.leb_le _ _)), (proj2 (Z.ltb_lt _ _)) by lia.
  - intros n Hn. unfold is_s in Hn. change (2 ^ (32 - 1)) with (2 ^ 31) in Hn. unfold asInt, json_int64. cbn.
    by rewrite (proj2 (Z.leb_le _ _)), (proj2 (Z.ltb_lt _ _)) by lia.
  - by intros [[] | [] | | []].
  - intros v n. unfold asInt, demo_json_library. destruct v as [[| z] |]; [done | | done].
    destruct (_ && _) eqn:E; [| done]. intros [= <-]. unfold is_s. change (2 ^ (32 - 1)) with (2 ^ 31). lia.
  - intros v n. cbn. destruct v as [[| z] |]; [done | | done]. destruct (_ && _) eqn:E; [| done]. intros [= <-]. unfold is_u. lia.
Qed.

(** * An ANSWER and an OFFER *)

Definition demo_dimensions : Dimensions := mkDimensions 1920 1080 (mkFraction 30000 1001).
Definition demo_answer : Answer :=
  mkAnswer 2344 [0; 2] [4294967295; 7]
    (Some (mkConstraints (mkAudioConstraints 48000 2 32000 256000 None)
             (mkVideoConstraints (Some (double_of_Z 62208000)) (Some (mkDimensions 320 180 (mkFraction 0 1))) demo_dimensions
                300000 10000000 (Some 800))))
    (Some (mkDisplay (Some demo_dimensions) (Some (mkAspectRatio 16 9)) (Some kFixed)))
    [0] [] [[lit "adaptive_playout_delay"]].

Definition demo_stream (i : Z) (t : OfferedType) (delay : Z) : Stream :=
  mkStream i t 2 (match t with kAudioSource => 97 | kVideoSource => 100 end) (19088743 + i) delay
    (map (fun b => 200 + Z.of_nat b) (seq 0 16)) (map Z.of_nat (seq 0 16)) true (Some 46) 90000 [] [lit "adaptive_playout_delay"].
Definition demo_offer (delay : Z) : Offer :=
  mkOffer kRemoting [mkAudioStream (demo_stream 0 kAudioSource delay) OpusCodec 128000]
    [mkVideoStream (demo_stream 1 kVideoSource 400) Vp8Codec (mkFraction 60 1) 5000000 (lit "aes") [] (lit "4") [mkResolution 1280 720] (lit "castv2")].

(** Entries that are a stream of audio, one with an unknown codec, and one of another type. *)
Definition demo_entry (codec : str) (delay : Z) : demo_json :=
  object_of (stream_members (demo_stream 0 kAudioSource delay)
             ++ [(kCodecName, Some (json_string codec)); (lit "bitRate", Some (json_int 128000))]).
Definition demo_root (mode : demo_json) (entries : list demo_json) : demo_json :=
  object_of [(lit "castMode", Some mode); (kSupportedStreams, Some (json_array entries))].
Definition demo_entries : list demo_json :=
  [demo_entry (lit "OPUS") 400; demo_entry (lit "mp3") 400; object_of [(kStreamType, Some (json_string (lit "data")))]].
Definition demo_kept (delay : Z) : Offer := mkOffer kRemoting [mkAudioStream (demo_stream 0 kAudioSource delay) OpusCodec 128000] [].
Definition value_or_null (m : outcome demo_json) : demo_json := match m with Ret v => v | Fault _ => nullValue end.
