(* ===== verification/AnswerProps.v ===== *)
(** Theorems about ANSWERs (Answer.v): what is written is read back. *)

From S2P Require Import Prelude Numeric Text Statistics CastMessage CastDemo Json Answer NegotiationDemo.

(** * What fits in the integers of the messages *)

Definition dimensions_fit (d : Dimensions) : Prop :=
  dimensions_width d <= INT_MAX /\ dimensions_height d <= INT_MAX
  /\ numerator_ (frame_rate d) <= INT_MAX /\ denominator_ (frame_rate d) <= INT_MAX.
Definition delay_fits (delay : option Z) : Prop := match delay with Some ms => 0 <= ms <= INT_MAX | None => True end.
Definition audio_fits (c : AudioConstraints) : Prop :=
  max_sample_rate c <= INT_MAX /\ max_channels c <= INT_MAX /\ audio_max_bit_rate c <= INT_MAX /\ delay_fits (audio_max_delay c).
Definition video_fits (c : VideoConstraints) : Prop :=
  dimensions_fit (max_dimensions c) /\ (forall d, min_resolution c = Some d -> dimensions_fit d)
  /\ video_max_bit_rate c <= INT_MAX /\ delay_fits (video_max_delay c).
Definition display_fits (d : DisplayDescription) : Prop :=
  (forall m, dimensions d = Some m -> dimensions_fit m)
  /\ (forall r, aspect_ratio d = Some r -> aspect_width r <= INT_MAX /\ aspect_height r <= INT_MAX).

(** Beyond the widths of the types: numbers of streams are not negative, and a list of extensions is not empty. *)
Definition answer_fits (a : Answer) : Prop :=
  Forall (fun i => i <= INT_MAX) (send_indexes a) /\ Forall (is_u 32) (ssrcs a)
  /\ (forall c, constraints a = Some c -> audio_fits (audio c) /\ video_fits (video c))
  /\ (forall d, display a = Some d -> display_fits d)
  /\ Forall (fun i => 0 <= i <= INT_MAX) (answer_rtcp_event_log a)
  /\ Forall (fun i => 0 <= i <= INT_MAX) (answer_rtcp_dscp a)
  /\ Forall (fun extensions => extensions <> []) (answer_rtp_extensions a).

Lemma checked_ok {A} IsValid text (a b : A) : checked IsValid text a = ok b -> a = b /\ IsValid b = true.
Proof. unfold checked. destruct (IsValid a) eqn:E; [| done]. by intros [= <-]. Qed.

Lemma checked_valid {A} (IsValid : A -> bool) text a : IsValid a = true -> checked IsValid text a = ok a.
Proof. unfold checked. by intros ->. Qed.

Lemma required_ok {A} text (o : option A) a : required text o = ok a -> o = Some a.
Proof. destruct o; cbn; congruence. Qed.

Lemma bind_ok {A B} (m : ErrorOr A) (k : A -> ErrorOr B) b : (m ≫= k) = ok b -> exists a, m = ok a /\ k a = ok b.
Proof. destruct m; [by eexists | done]. Qed.

Ltac inv_ok :=
  repeat match goal with
  | H : (_ ≫= _) = ok _ |- _ => let a := fresh "x" in let E := fresh "E" in apply bind_ok in H as (a & E & H)
  | H : required _ _ = ok _ |- _ => apply required_ok in H
  | H : checked _ _ _ = ok _ |- _ => apply checked_ok in H as [<- ?]
  | H : (if ?b then err _ else _) = ok _ |- _ => destruct b eqn:?; [discriminate H |]
  end.

(** * Writing and reading *)

Section AnswerProps.
Context {Value : Type} {json : JsonLibrary Value} {values : JsonValues Value json}
        {laws : JsonLaws Value json} {value_laws : JsonValuesLaws Value json values}.
#[local] Set Default Proof Using "Type*".

(** What is written is an object, which [TryParse] reads as it was. *)
Definition reads_back {A} (ToJson : A -> outcome Value) (TryParse : Value -> ErrorOr A) (a : A) : Prop :=
  exists v, ToJson a = Ret v /\ isObject v = true /\ TryParse v = ok a.

Lemma write_optional_back {A} (ToJson : A -> outcome Value) TryParse (o : option A) :
  (forall a, o = Some a -> reads_back ToJson TryParse a) ->
  exists v, write_optional ToJson o = Ret v /\ ParseOptional TryParse (default nullValue v) = ok o.
Proof.
  intros H. destruct o as [a |]; cbn.
  - destruct (H a eq_refl) as (v & -> & Hv & E). exists (Some v). split; [done |]. unfold ParseOptional. cbn.
    by rewrite isNull_object, E by done.
  - exists None. split; [done |]. unfold ParseOptional. cbn. by rewrite isNull_null.
Qed.

Lemma parse_delay delay : delay_fits delay -> TryParseMilliseconds (default nullValue (delay_json delay)) = delay.
Proof.
  destruct delay as [ms |]; cbn; intros H; [by apply TryParseMilliseconds_int64 | by apply null_members].
Qed.

Lemma dimensions_back d : dimensions_fit d -> Dimensions_IsValid d = true -> reads_back Dimensions_ToJson Dimensions_TryParse d.
Proof.
  intros (Hw & Hh & Hn & Hd) Hv. unfold Dimensions_ToJson, reads_back. rewrite Hv. eexists. split; [done |].
  rewrite object_of_object by distinct_keys. split; [done |]. unfold Dimensions_TryParse.
  rewrite object_of_object by distinct_keys. cbn [negb]. read_members.
  pose proof Hv as Hv'. unfold Dimensions_IsValid, is_positive in Hv'. rewrite !TryParseInt_int by lia.
  cbn [required mbind ErrorOr_bind].
  rewrite isNull_string, TryParseSimpleFraction_text by (unfold fraction_fits; lia). destruct d. by apply checked_valid.
Qed.

Lemma audio_back c : audio_fits c -> AudioConstraints_IsValid c = true -> reads_back AudioConstraints_ToJson AudioConstraints_TryParse c.
Proof.
  intros (Hs & Hc & Hb & Hd) Hv. unfold AudioConstraints_ToJson, reads_back. rewrite Hv. eexists. split; [done |].
  rewrite object_of_object by distinct_keys. split; [done |]. unfold AudioConstraints_TryParse.
  rewrite object_of_object by distinct_keys. cbn [negb]. read_members.
  pose proof Hv as Hv'. unfold AudioConstraints_IsValid in Hv'. rewrite !TryParseInt_int, parse_delay by (done || lia).
  destruct c. by apply checked_valid.
Qed.

Lemma video_back c : video_fits c -> VideoConstraints_IsValid c = true -> reads_back VideoConstraints_ToJson VideoConstraints_TryParse c.
Proof.
  intros (Hm & Hr & Hb & Hd) Hv. unfold VideoConstraints_ToJson, reads_back. rewrite Hv.
  pose proof Hv as Hv'. unfold VideoConstraints_IsValid in Hv'.
  destruct (max_pixels_per_second c) as [pixels |] eqn:Hp; [| done].
  rewrite !andb_true_iff in Hv'. destruct Hv' as ((((((Hpx & Hmin) & Hmax) & _) & Hdv) & Hrv) & _).
  destruct (dimensions_back _ Hm Hdv) as (dv & -> & Hdo & Hdr).
  destruct (write_optional_back Dimensions_ToJson Dimensions_TryParse (min_resolution c)) as (rv & -> & Hrr).
  { intros d E. apply dimensions_back; [by apply Hr |]. by rewrite E in Hrv. }
  eexists. split; [done |]. rewrite object_of_object by distinct_keys. split; [done |]. unfold VideoConstraints_TryParse.
  rewrite object_of_object by distinct_keys. cbn [negb]. read_members. rewrite Hdr.
  rewrite !TryParseInt_int, Hrr, parse_delay by (done || lia).
  cbn [required mbind ErrorOr_bind from_option fmap option_fmap option_map id]. 
  assert (TryParseDouble (json_double pixels) = max_pixels_per_second c) as -> by (rewrite Hp; by apply TryParseDouble_double).
  destruct c. by apply checked_valid.
Qed.

Lemma constraints_back c : audio_fits (audio c) /\ video_fits (video c) -> Constraints_IsValid c = true ->
  reads_back Constraints_ToJson Constraints_TryParse c.
Proof.
  intros [Ha Hw] Hv. unfold Constraints_ToJson, reads_back. rewrite Hv. pose proof Hv as Hv'. unfold Constraints_IsValid in Hv'.
  apply andb_true_iff in Hv' as [Hva Hvv].
  destruct (audio_back _ Ha Hva) as (av & -> & _ & Ea). destruct (video_back _ Hw Hvv) as (vv & -> & _ & Ev).
  eexists. split; [done |]. rewrite object_of_object by distinct_keys. split; [done |]. unfold Constraints_TryParse.
  rewrite object_of_object by distinct_keys. cbn [negb]. read_members. rewrite Ea, Ev. destruct c. by apply checked_valid.
Qed.

Lemma aspect_ratio_back r : aspect_width r <= INT_MAX /\ aspect_height r <= INT_MAX -> AspectRatio_IsValid r = true ->
  AspectRatio_TryParse (json_string (AspectRatio_text r)) = ok r.
Proof.
  intros [Hw Hh] Hv. pose proof Hv as Hv'. unfold AspectRatio_IsValid in Hv'. unfold AspectRatio_TryParse, TryParseString, AspectRatio_text.
  rewrite asString_string, !signed_print by lia. cbn [required mbind ErrorOr_bind].
  rewrite Split_numbers by (done || lia). rewrite !ParseAsciiNumber_print by lia. destruct r. by apply checked_valid.
Qed.

Lemma display_back d : display_fits d -> DisplayDescription_IsValid d = true ->
  reads_back DisplayDescription_ToJson DisplayDescription_TryParse d.
Proof.
  intros [Hd Hr] Hv. unfold DisplayDescription_ToJson, reads_back. rewrite Hv. pose proof Hv as Hv'.
  unfold DisplayDescription_IsValid in Hv'. destruct (valid_if_present AspectRatio_IsValid _) eqn:Hrv; [| done].
  destruct (valid_if_present Dimensions_IsValid _) eqn:Hdv; [| done]. clear Hv'.
  destruct (write_optional_back Dimensions_ToJson Dimensions_TryParse (dimensions d)) as (dv & -> & Hdr).
  { intros m E. apply dimensions_back; [by apply Hd |]. by rewrite E in Hdv. }
  eexists. split; [done |]. rewrite object_of_object by distinct_keys. split; [done |]. unfold DisplayDescription_TryParse.
  rewrite object_of_object by distinct_keys. cbn [negb]. read_members. rewrite Hdr. cbn [mbind ErrorOr_bind].
  assert (ParseOptional AspectRatio_TryParse (default nullValue ((fun r => json_string (AspectRatio_text r)) <$> aspect_ratio d))
          = ok (aspect_ratio d)) as ->.
  { destruct (aspect_ratio d) as [r |]; unfold ParseOptional; cbn; [| by rewrite isNull_null].
    rewrite isNull_string, aspect_ratio_back by (done || by apply Hr). done. }
  assert (TryParseAspectRatioConstraint (default nullValue (AspectRatioConstraintToJson <$> aspect_ratio_constraint d))
          = aspect_ratio_constraint d) as E.
  { unfold TryParseAspectRatioConstraint, TryParseString. destruct (aspect_ratio_constraint d) as [[] |]; cbn; [..| by rewrite asString_null];
      unfold AspectRatioConstraintToJson; by rewrite asString_string. }
  cbn [from_option id] in E. rewrite E. destruct d. by apply checked_valid.
Qed.
Lemma parse_array_back {A} (parser : Value -> option A) (to_json : A -> Value) l :
  (forall x, x ∈ l -> parser (to_json x) = Some x) ->
  default [] (TryParseArray parser (default nullValue (unless_empty (PrimitiveVectorToJson to_json) l))) = l.
Proof.
  intros H. destruct l as [| x l]; cbn [unless_empty from_option id].
  - by rewrite (proj2 (proj2 (proj2 (proj2 (proj2 null_members))))).
  - by rewrite TryParseArray_vector.
Qed.

Lemma answer_back a : answer_fits a -> Answer_IsValid a = true -> reads_back Answer_ToJson Answer_TryParse a.
Proof.
  intros (Hi & Hs & Hc & Hd & Hlog & Hdscp & Hext) Hv. unfold Answer_ToJson, reads_back. rewrite Hv.
  pose proof Hv as Hv'. unfold Answer_IsValid in Hv'. unfold kUdpPortMin, kUdpPortMax in Hv'.
  case_bool_decide as Hse; [done |]. case_bool_decide as Hie; [done |]. cbn [orb] in Hv'.
  destruct (existsb _ _) eqn:Hneg; [done |].
  destruct (valid_if_present Constraints_IsValid _) eqn:Hcv; [| done].
  destruct (valid_if_present DisplayDescription_IsValid _) eqn:Hdv; [| done]. cbn [negb] in Hv'.
  destruct (write_optional_back Constraints_ToJson Constraints_TryParse (constraints a)) as (cv & -> & Ec).
  { intros c E. apply constraints_back; [by apply Hc |]. by rewrite E in Hcv. }
  destruct (write_optional_back DisplayDescription_ToJson DisplayDescription_TryParse (display a)) as (dv & -> & Ed).
  { intros d E. apply display_back; [by apply Hd |]. by rewrite E in Hdv. }
  eexists. split; [done |]. rewrite object_of_object by distinct_keys. split; [done |]. unfold Answer_TryParse.
  rewrite object_of_object by distinct_keys. cbn [negb]. read_members.
  assert (forall i, i ∈ send_indexes a -> TryParseInt (json_int i) = Some i) as Ei.
  { intros i Hin. apply TryParseInt_int. split; [| by apply (proj1 (Forall_forall _ _) Hi)].
    destruct (Z.ltb_spec i 0) as [Hlt |]; [| done]. apply Z.ltb_lt in Hlt.
    assert (existsb (fun i => i <? 0) (send_indexes a) = true) as E; [| congruence].
    apply existsb_exists. exists i. by rewrite <- list_elem_of_In. }
  rewrite TryParseInt_int by (unfold INT_MAX; lia). unfold TryParseIntArray, TryParseUintArray, TryParseNestedStringArray.
  rewrite (TryParseArray_vector TryParseInt json_int) by done.
  rewrite (TryParseArray_vector TryParseUint json_uint); [| done |].
  2: { intros n Hn. apply asUInt_uint. by apply (proj1 (Forall_forall _ _) Hs). }
  cbn [required mbind ErrorOr_bind]. rewrite Ec, Ed. cbn [mbind ErrorOr_bind].
  assert (forall l, Forall (fun i => 0 <= i <= INT_MAX) l ->
    default [] (TryParseArray TryParseInt (default nullValue (unless_empty (PrimitiveVectorToJson json_int) l))) = l) as El.
  { intros l Hl. apply parse_array_back. intros i Hin. apply TryParseInt_int. by apply (proj1 (Forall_forall _ _) Hl). }
  pose proof (parse_array_back TryParseStringArray (PrimitiveVectorToJson json_string) (answer_rtp_extensions a)) as Ee.
  cbn [from_option id] in El, Ee. rewrite !El by done.
  change (@NestedStringArrayToJson Value json) with (PrimitiveVectorToJson (PrimitiveVectorToJson json_string)). rewrite Ee.
  - destruct a. by apply checked_valid.
  - intros t Ht. apply TryParseArray_vector; [by apply (proj1 (Forall_forall _ _) Hext) |]. intros x _. apply asString_string.
Qed.

(** What is accepted fits, and is valid. *)

Lemma dimensions_accepted v d : Dimensions_TryParse v = ok d -> dimensions_fit d /\ Dimensions_IsValid d = true.
Proof.
  unfold Dimensions_TryParse. intros H. inv_ok. split; [| done].
  apply TryParseInt_range in E, E0. unfold dimensions_fit. cbn. split; [lia |]. split; [lia |].
  destruct (isNull _); [by injection E1 as <- |]. apply required_ok, TryParseSimpleFraction_range in E1. unfold fraction_fits in E1. lia.
Qed.

Lemma optional_accepted {A} (TryParse : Value -> ErrorOr A) v o (P : A -> Prop) :
  ParseOptional TryParse v = ok o -> (forall a, TryParse v = ok a -> P a) -> forall a, o = Some a -> P a.
Proof.
  unfold ParseOptional. intros H HP a ->. destruct (isNull v); [done |]. inv_ok. injection H as <-. by apply HP.
Qed.

Lemma delay_accepted v : delay_fits (TryParseMilliseconds v).
Proof. destruct (TryParseMilliseconds v) as [ms |] eqn:E; cbn; [by eapply TryParseMilliseconds_range | done]. Qed.

Lemma constraints_accepted v c : Constraints_TryParse v = ok c -> audio_fits (audio c) /\ video_fits (video c).
Proof.
  unfold Constraints_TryParse. intros H. inv_ok. cbn. unfold AudioConstraints_TryParse, VideoConstraints_TryParse in *. inv_ok.
  repeat match goal with H : TryParseInt _ = Some _ |- _ => apply TryParseInt_range in H end.
  split; [unfold audio_fits | unfold video_fits]; cbn.
  - split_and!; [lia.. | apply delay_accepted].
  - split_and!; [by eapply dimensions_accepted | | lia | apply delay_accepted].
    eapply (optional_accepted Dimensions_TryParse); [eassumption |]. intros d Hd. by eapply dimensions_accepted.
Qed.

Lemma display_accepted v d : DisplayDescription_TryParse v = ok d -> display_fits d.
Proof.
  unfold DisplayDescription_TryParse. intros H. inv_ok. split; cbn.
  - eapply (optional_accepted Dimensions_TryParse); [eassumption |]. intros m Hm. by eapply dimensions_accepted.
  - eapply (optional_accepted AspectRatio_TryParse); [eassumption |]. intros r Hr. unfold AspectRatio_TryParse in Hr. inv_ok.
    repeat case_match; try done. inv_ok. cbn.
    repeat match goal with H : ParseAsciiNumber _ = Some _ |- _ => apply ParseAsciiNumber_range in H end. lia.
Qed.

Lemma array_accepted {A} (parser : Value -> option A) (P : A -> Prop) v l :
  (forall v a, parser v = Some a -> P a) -> TryParseArray parser v = Some l -> l <> [] /\ Forall P l.
Proof.
  intros HP. unfold TryParseArray. destruct (elements v) as [vs |]; [| done]. cbn. intros H.
  assert (parse_all parser vs = Some l /\ vs <> []) as [E Hvs] by (by destruct vs). clear H. split.
  { destruct vs as [| v' vs]; [done |]. cbn in E. destruct (parser v'); [| done]. cbn in E.
    destruct (parse_all parser vs); [| done]. by injection E as <-. }
  clear Hvs. revert l E. induction vs as [| v' vs IH]; cbn; intros l E; [by injection E as <- |].
  destruct (parser v') eqn:Hp; [| done]. cbn in E. destruct (parse_all parser vs) eqn:Hr; [| done]. injection E as <-.
  constructor; [by eapply HP | by apply IH].
Qed.

Lemma default_accepted {A} (P : A -> Prop) (o : option (list A)) : (forall l, o = Some l -> Forall P l) -> Forall P (default [] o).
Proof. destruct o; cbn; [auto | constructor]. Qed.

Lemma answer_accepted v a : Answer_TryParse v = ok a -> answer_fits a /\ Answer_IsValid a = true.
Proof.
  unfold Answer_TryParse. intros H. inv_ok. split; [| done]. unfold answer_fits. cbn. split_and!.
  - eapply (array_accepted TryParseInt); [| done]. intros ? ? ?%TryParseInt_range. lia.
  - eapply (array_accepted TryParseUint); [| done]. intros ? ?. apply asUInt_range.
  - eapply (optional_accepted Constraints_TryParse); [eassumption |]. intros c Hc. by eapply constraints_accepted.
  - eapply (optional_accepted DisplayDescription_TryParse); [eassumption |]. intros c Hc. by eapply display_accepted.
  - apply default_accepted. intros l Hl. eapply (array_accepted TryParseInt); [| done]. intros ? ? ?%TryParseInt_range. lia.
  - apply default_accepted. intros l Hl. eapply (array_accepted TryParseInt); [| done]. intros ? ? ?%TryParseInt_range. lia.
  - apply default_accepted. intros l Hl. eapply (array_accepted TryParseStringArray); [| done]. intros ? ? ?.
    by eapply (array_accepted TryParseString (fun _ => True)).
Qed.
(** An ANSWER that is valid, and fits in the integers of its message, is written, and reading it gives
    the same ANSWER; one that is not valid is never written. *)
Theorem answer_roundtrip (a : Answer) : answer_fits a ->
  if Answer_IsValid a then exists v, Answer_ToJson a = Ret v /\ Answer_TryParse v = ok a
  else Answer_ToJson a = Fault CheckFailed.
Proof.
  intros Hf. destruct (Answer_IsValid a) eqn:Hv.
  - destruct (answer_back a Hf Hv) as (v & Hw & _ & Hr). by exists v.
  - unfold Answer_ToJson. by rewrite Hv.
Qed.

(** Whatever ANSWER is accepted is valid, can be written, and is read again as it was: nothing that
    was accepted makes writing fail. *)
Theorem accepted_answers_can_be_written (v : Value) (a : Answer) : Answer_TryParse v = ok a ->
  Answer_IsValid a = true /\ exists v', Answer_ToJson a = Ret v' /\ Answer_TryParse v' = ok a.
Proof.
  intros H. destruct (answer_accepted v a H) as [Hf Hv]. split; [done |].
  destruct (answer_back a Hf Hv) as (v' & Hw & _ & Hr). by exists v'.
Qed.

(** The pixel rate, an optional member, is required. *)
Lemma pixel_rate_is_required (v : Value) (a : Answer) (c : Constraints) :
  Answer_TryParse v = ok a -> constraints a = Some c -> is_Some (max_pixels_per_second (video c)).
Proof.
  intros H Hc. destruct (answer_accepted v a H) as [_ Hv]. unfold Answer_IsValid in Hv. rewrite Hc in Hv. cbn in Hv.
  repeat case_match; try done. unfold Constraints_IsValid, VideoConstraints_IsValid in *.
  destruct (max_pixels_per_second (video c)); [done |]. by rewrite andb_false_r in *.
Qed.
End AnswerProps.

(** * Examples *)

Lemma demo_answer_fits : answer_fits demo_answer.
Proof.
  unfold answer_fits, demo_answer, audio_fits, video_fits, display_fits, dimensions_fit, is_u, INT_MAX. cbn.
  split_and!; try (by repeat constructor); intros ? [= <-]; cbn; split_and!; try done; intros ? [= <-]; done.
Qed.

Lemma answer_roundtrip_witness :
  answer_fits demo_answer /\ exists v : demo_json, Answer_ToJson demo_answer = Ret v /\ Answer_TryParse v = ok demo_answer.
Proof. split; [exact demo_answer_fits |]. exact (answer_roundtrip demo_answer demo_answer_fits). Defined.

Lemma accepted_answers_can_be_written_witness :
  exists v : demo_json, Answer_TryParse v = ok demo_answer /\ exists v' : demo_json, Answer_ToJson demo_answer = Ret v' /\ Answer_TryParse v' = ok demo_answer.
Proof.
  exists (value_or_null (Answer_ToJson demo_answer)).
  assert (Answer_TryParse (value_or_null (Answer_ToJson demo_answer)) = ok demo_answer) as H by (vm_compute; reflexivity).
  split; [exact H | exact (proj2 (accepted_answers_can_be_written _ _ H))].
Defined.
