(* ===== verification/OfferProps.v ===== *)
(** Theorems about OFFERs (Offer.v): what is written is read back, which streams are kept, and which
    OFFERs stop the process that reads them. *)

From S2P Require Import Prelude Numeric Text RtpDefines Wire Rtp Statistics CastMessage CastDemo Json Answer Offer NegotiationDemo AnswerProps.

(** * What fits in the messages *)

Definition stream_fits (s : Stream) : Prop :=
  index s <= INT_MAX /\ channels s <= INT_MAX /\ IsRtpPayloadType (offered_payload_type s) = true /\ is_u 32 (ssrc s)
  /\ target_delay s <= kMaxTargetPlayoutDelay
  /\ (bytes_ok (aes_key s) /\ zlen (aes_key s) = kAesBytesSize) /\ (bytes_ok (aes_iv_mask s) /\ zlen (aes_iv_mask s) = kAesBytesSize)
  /\ (forall dscp, receiver_rtcp_dscp s = Some dscp -> 0 <= dscp <= 63)
  /\ kDefaultAudioMinSampleRate <= rtp_timebase s <= kRtpVideoTimebase.

Definition audio_stream_fits (s : AudioStream) : Prop :=
  stream_fits (audio_stream s) /\ type (audio_stream s) = kAudioSource /\ bit_rate s <= INT_MAX
  /\ AudioCodecParameterIsValid (audio_codec s) (codec_parameter (audio_stream s)) = true.

Definition video_stream_fits (s : VideoStream) : Prop :=
  stream_fits (video_stream s) /\ type (video_stream s) = kVideoSource /\ max_bit_rate s <= INT_MAX
  /\ VideoCodecParameterIsValid (video_codec s) (codec_parameter (video_stream s)) = true
  /\ numerator_ (max_frame_rate s) <= INT_MAX /\ denominator_ (max_frame_rate s) <= INT_MAX
  /\ Forall (fun r => Resolution_IsValid r = true /\ width r <= INT_MAX /\ height r <= INT_MAX) (resolutions s).

Section OfferProps.
Context {Value : Type} {json : JsonLibrary Value} {values : JsonValues Value json}
        {laws : JsonLaws Value json} {value_laws : JsonValuesLaws Value json values}.
#[local] Set Default Proof Using "Type*".

Lemma timebase_back n : 1 <= n <= INT_MAX -> TryParseRtpTimebase (json_string (lit "1/" ++ signed_to_string n)) = Some n.
Proof.
  intros Hn. unfold TryParseRtpTimebase, TryParseString. rewrite asString_string, signed_print by lia.
  cbn [mbind option_bind]. unfold SimpleFraction_FromString.
  change (lit "1/" ++ to_string n) with (to_string 1 ++ "/"%char :: to_string n).
  rewrite Split_numbers by (done || lia). rewrite !ParseAsciiNumber_print by (unfold INT_MAX in *; lia).
  change (to_string 1) with ["1"%char]. cbn [app]. cbv beta iota.
  assert (is_positive (mkFraction 1 n) = true) as -> by (unfold is_positive; cbn [numerator_ denominator_]; lia). done.
Qed.

Lemma payload_type_back t : IsRtpPayloadType t = true -> TryParseRtpPayloadType (json_int t) = Some t.
Proof.
  intros Ht. unfold TryParseRtpPayloadType.
  pose proof (payload_type_bounds t Ht).
  rewrite TryParseInt_int by (unfold INT_MAX; lia). cbn [mbind option_bind].
  assert (u8 t = t) as -> by (apply wrap_small; unfold is_u; lia).
  by rewrite Z.eqb_refl, Ht.
Qed.

Lemma aes_back key : bytes_ok key /\ zlen key = kAesBytesSize -> TryParseAesHexBytes (json_string (HexEncode key)) = Some key.
Proof. intros [Hok Hl]. unfold TryParseAesHexBytes. rewrite asString_string. by apply AesHexBytes_HexEncode. Qed.

Lemma stream_back s more : stream_fits s -> Stream_IsValid s = true -> NoDup (stream_members s ++ more).*1 ->
  Stream_TryParse (object_of (stream_members s ++ more)) (type s) = ok s.
Proof.
  intros (Hi & Hc & Hp & Hs & Hd & Hk & Hm & Hdscp & Ht) Hv Hnd. unfold Stream_IsValid in Hv.
  unfold kMaxTargetPlayoutDelay, kDefaultAudioMinSampleRate, kRtpVideoTimebase in *.
  unfold Stream_TryParse. rewrite object_of_object by done. cbn [negb]. unfold stream_members in Hnd |- *. cbn [app] in Hnd |- *.
  read_members_by ltac:(exact Hnd).
  rewrite payload_type_back, timebase_back, !aes_back by (done || unfold INT_MAX in *; lia).
  assert (swrap 32 (target_delay s) = target_delay s) as ->.
  { unfold swrap. change (2 ^ 32) with 4294967296. change (2 ^ (32 - 1)) with 2147483648.
    rewrite Z.mod_small by lia. by rewrite (proj2 (Z.ltb_lt _ _)) by lia. }
  rewrite !TryParseInt_int by (unfold INT_MAX in *; lia). unfold TryParseUint. rewrite asUInt_uint by done.
  cbn [required mbind ErrorOr_bind]. 
  rewrite (proj2 (Z.leb_gt (channels s) 0)) by lia. cbn [ErrorOr_bind].
  change (Z.min kDefaultAudioMinSampleRate kRtpVideoTimebase) with 16000. change kRtpVideoTimebase with 90000.
  rewrite (proj2 (Z.ltb_ge (rtp_timebase s) 16000)), (proj2 (Z.ltb_ge 90000 (rtp_timebase s))) by lia. cbn [orb].
  unfold kMinTargetPlayoutDelay, kMaxTargetPlayoutDelay.
  rewrite (proj2 (Z.leb_le 0 (target_delay s))), (proj2 (Z.leb_le (target_delay s) _)) by lia. cbn [andb].
  unfold TryParseBool. rewrite asBool_bool. unfold TryParseString. rewrite asString_string. cbn [from_option id].
  pose proof (parse_array_back TryParseString json_string (rtp_extensions s) ltac:(intros; apply asString_string)) as Ee.
  cbn [from_option id] in Ee. unfold TryParseStringArray. rewrite Ee. clear Ee.
  destruct (receiver_rtcp_dscp s) as [dscp |] eqn:Ed; cbn [fmap option_fmap option_map from_option id].
  - specialize (Hdscp dscp eq_refl). rewrite TryParseInt_int by (unfold INT_MAX; lia).
    rewrite (proj2 (Z.ltb_ge dscp 0)), (proj2 (Z.ltb_ge 63 dscp)) by lia. cbn. destruct s. cbn in *. by rewrite Ed.
  - rewrite (proj1 null_members). cbn. destruct s. cbn in *. by rewrite Ed.
Qed.

Lemma audio_codec_back codec : exists name, AudioCodecToString codec = Ret name /\ StringToAudioCodec name = ok codec.
Proof. destruct codec; by eexists. Qed.
Lemma video_codec_back codec : exists name, VideoCodecToString codec = Ret name /\ StringToVideoCodec name = ok codec.
Proof. destruct codec; by eexists. Qed.

(** A stream that is written is an object with its type, from which the stream is read. *)
Definition written {S} (ToJson : S -> outcome Value) (TryParse : Value -> outcome (ErrorOr S)) (t : OfferedType) (s : S) : Prop :=
  exists v, ToJson s = Ret v /\ isObject v = true /\ at_key kStreamType v = json_string (OfferedType_ToString t)
    /\ TryParse v = Ret (ok s).

Lemma Stream_ToJson_valid s : Stream_IsValid s = true -> Stream_ToJson s = Ret (object_of (stream_members s)).
Proof using. unfold Stream_ToJson. by intros ->. Qed.

Lemma set_members_object members more : set_members more (object_of members) = object_of (members ++ more).
Proof using. symmetry. apply set_members_app. Qed.

Lemma audio_stream_back s : audio_stream_fits s -> AudioStream_IsValid s = true ->
  written AudioStream_ToJson AudioStream_TryParse kAudioSource s.
Proof.
  intros (Hs & Ht & Hb & Hp) Hv. unfold AudioStream_ToJson, written. rewrite Hv. unfold AudioStream_IsValid in Hv.
  apply andb_true_iff in Hv as [Hr Hv]. destruct (audio_codec_back (audio_codec s)) as (name & Hn & Hn').
  cbn [OSP_CHECK mbind outcome_bind]. rewrite Stream_ToJson_valid, Hn by done. cbn [mbind outcome_bind].
  eexists. split; [done |]. rewrite set_members_object. split; [by apply object_of_object; distinct_keys |].
  split; [unfold stream_members; cbn [app]; read_members; by rewrite Ht |].
  unfold AudioStream_TryParse. rewrite object_of_object by distinct_keys. cbn [negb]. rewrite <- Ht.
  rewrite stream_back by (done || distinct_keys). unfold stream_members. cbn [app]. read_members.
  rewrite TryParseInt_int by (unfold INT_MAX in *; lia). unfold TryParseString. rewrite asString_string, Hn', Hp.
  rewrite (proj2 (Z.ltb_ge _ _)) by lia. by destruct s.
Qed.

Lemma resolutions_back rs : Forall (fun r => Resolution_IsValid r = true /\ width r <= INT_MAX /\ height r <= INT_MAX) rs ->
  exists vs, write_all Resolution_ToJson rs = Ret vs /\ default [] (TryParseResolutions (appended vs)) = rs.
Proof.
  intros H.
  assert (exists vs, write_all Resolution_ToJson rs = Ret vs /\ length vs = length rs /\ parse_resolutions vs = Some rs)
    as (vs & Hw & Hl & Hp).
  { induction H as [| r rs (Hv & Hw & Hh) Hrs IH]; [by exists [] |]. destruct IH as (vs & IHw & IHl & IHp).
    cbn [write_all]. rewrite IHw.
    assert (Resolution_ToJson r = Ret (object_of [(kWidth, Some (json_int (width r))); (kHeight, Some (json_int (height r)))])) as -> by (unfold Resolution_ToJson; by rewrite Hv). eexists. split; [reflexivity |]. split; [cbn [length]; by rewrite IHl |].
    cbn [parse_resolutions]. unfold Resolution_TryParse. rewrite object_of_object by distinct_keys. cbn [negb]. read_members.
    pose proof Hv as Hv'. unfold Resolution_IsValid in Hv'. rewrite !TryParseInt_int by lia. cbn [required mbind ErrorOr_bind].
    rewrite checked_valid by (by destruct r). rewrite IHp. by destruct r. }
  exists vs. split; [done |]. unfold TryParseResolutions. destruct vs as [| v vs]; cbn [appended].
  - rewrite elements_null. by destruct rs.
  - rewrite elements_array. cbn [mbind option_bind]. by rewrite Hp.
Qed.

Lemma video_stream_back s : video_stream_fits s -> VideoStream_IsValid s = true -> Stream_IsValid (video_stream s) = true ->
  written VideoStream_ToJson VideoStream_TryParse kVideoSource s.
Proof.
  intros (Hs & Ht & Hb & Hp & Hfn & Hfd & Hrs) Hv Hsv. unfold VideoStream_ToJson, written. rewrite Hv. unfold VideoStream_IsValid in Hv.
  apply andb_true_iff in Hv as [Hr Hf]. destruct (video_codec_back (video_codec s)) as (name & Hn & Hn').
  destruct (resolutions_back _ Hrs) as (vs & Hw & Hrp).
  cbn [OSP_CHECK mbind outcome_bind]. rewrite Stream_ToJson_valid, Hn, Hw by done. cbn [mbind outcome_bind].
  eexists. split; [done |]. rewrite set_members_object. split; [by apply object_of_object; distinct_keys |].
  split; [unfold stream_members; cbn [app]; read_members; by rewrite Ht |].
  unfold VideoStream_TryParse. rewrite object_of_object by distinct_keys. cbn [negb]. rewrite <- Ht.
  rewrite stream_back by (done || distinct_keys). unfold stream_members. cbn [app]. read_members.
  rewrite TryParseInt_int by (unfold INT_MAX in *; lia). unfold TryParseString. rewrite !asString_string, Hn', Hp.
  rewrite FromString_ToString by (unfold fraction_fits, is_positive in *; lia). rewrite Hf.
  cbn [from_option id] in Hrp |- *. rewrite Hrp. by destruct s.
Qed.

(** * Which streams are kept *)

Abbreviation offered := (AudioStream + VideoStream)%type.
Definition offered_dscp (x : offered) : option Z :=
  match x with inl s => receiver_rtcp_dscp (audio_stream s) | inr s => receiver_rtcp_dscp (video_stream s) end.
Definition audio_of (x : offered) : option AudioStream := match x with inl s => Some s | inr _ => None end.
Definition video_of (x : offered) : option VideoStream := match x with inl _ => None | inr s => Some s end.

Definition type_of (fields : Value) (t : str) : Prop := exists v, member kStreamType fields = Ret v /\ TryParseString v = Some t.

(** An entry of the array is a stream that is kept, or it is passed over: its codec is unknown, or its type is. *)
Inductive entry_is (fields : Value) : option offered -> Prop :=
  | entry_audio s : type_of fields kAudioSourceType -> AudioStream_TryParse fields = Ret (ok s) -> entry_is fields (Some (inl s))
  | entry_video s : type_of fields kVideoSourceType -> VideoStream_TryParse fields = Ret (ok s) -> entry_is fields (Some (inr s))
  | entry_audio_codec e : type_of fields kAudioSourceType -> AudioStream_TryParse fields = Ret (err e) ->
      error_code e = kUnknownCodec -> entry_is fields None
  | entry_video_codec e : type_of fields kVideoSourceType -> VideoStream_TryParse fields = Ret (err e) ->
      error_code e = kUnknownCodec -> entry_is fields None
  | entry_other t : type_of fields t -> t <> kAudioSourceType -> t <> kVideoSourceType -> entry_is fields None.

Definition add_offered (p : ParsedStreams) (x : offered) : ParsedStreams :=
  mkParsed (parsed_audio p ++ option_list (audio_of x)) (parsed_video p ++ option_list (video_of x)) (Some (offered_dscp x)).
Definition agrees (p : ParsedStreams) (x : offered) : Prop := forall d, parsed_dscp p = Some d -> offered_dscp x = d.

Lemma keep_spec dscp f p p' : keep dscp f p = ok p' <->
  (forall d, parsed_dscp p = Some d -> dscp = d) /\ p' = f (mkParsed (parsed_audio p) (parsed_video p) (Some dscp)).
Proof using.
  unfold keep. destruct p as [a v [d |]]; cbn.
  - case_bool_decide as E; [subst d | split; [done |]; intros [H _]; by destruct E; apply H].
    split; [intros [= <-]; split; [congruence | done] | by intros [_ ->]].
  - split; [by intros [= <-] | by intros [_ ->]].
Qed.

Lemma drop_unknown_spec {S} (stream : ErrorOr S) (keep_stream : S -> ParsedStreams -> ErrorOr ParsedStreams) p p' :
  drop_unknown stream keep_stream p = ok p' <->
  (exists s, stream = ok s /\ keep_stream s p = ok p') \/ (exists e, stream = err e /\ error_code e = kUnknownCodec /\ p' = p).
Proof using.
  destruct stream as [s | e]; cbn.
  - split; [intros H; left; by exists s | intros [(s' & [= <-] & H) | (e & H & _)]; done].
  - case_bool_decide as E.
    + split; [intros [= <-]; right; by exists e | intros [(s & H & _) | (e' & _ & _ & ->)]; done].
    + split; [done | intros [(s & H & _) | (e' & [= <-] & H & _)]; done].
Qed.

Lemma parse_stream_spec fields p p' : parse_stream fields p = Ret (ok p') <->
  exists item, entry_is fields item /\ match item with Some x => agrees p x /\ p' = add_offered p x | None => p' = p end.
Proof using.
  unfold parse_stream. split.
  - intros H. apply bind_Ret_inv in H as (v & Hm & H). destruct (TryParseString v) as [t |] eqn:Ht; [| done].
    assert (type_of fields t) as Htype by (by exists v).
    case_bool_decide as Ea; [| case_bool_decide as Ev].
    + subst t. apply bind_Ret_inv in H as (r & Hr & [= H]). apply drop_unknown_spec in H as [(s & -> & H) | (e & -> & He & ->)].
      * exists (Some (inl s)). split; [by constructor |]. apply keep_spec in H as [Hd ->]. split; [done |].
        unfold add_offered. cbn. by rewrite app_nil_r.
      * exists None. split; [by eapply entry_audio_codec | done].
    + subst t. apply bind_Ret_inv in H as (r & Hr & [= H]). apply drop_unknown_spec in H as [(s & -> & H) | (e & -> & He & ->)].
      * exists (Some (inr s)). split; [by constructor |]. apply keep_spec in H as [Hd ->]. split; [done |].
        unfold add_offered. cbn. by rewrite app_nil_r.
      * exists None. split; [by eapply entry_video_codec | done].
    + injection H as <-. exists None. split; [by eapply entry_other | done].
  - intros (item & Hitem & H).
    destruct Hitem as [s (v & Hm & Ht) Hr | s (v & Hm & Ht) Hr | e (v & Hm & Ht) Hr He | e (v & Hm & Ht) Hr He | t (v & Hm & Ht) Ha Hv];
      rewrite Hm; cbn [mbind outcome_bind]; rewrite Ht.
    + rewrite bool_decide_eq_true_2, Hr by done. cbn. f_equal. apply keep_spec. destruct H as [Hd ->]. split; [done |].
      unfold add_offered. cbn. by rewrite app_nil_r.
    + rewrite bool_decide_eq_false_2, bool_decide_eq_true_2, Hr by done. cbn. f_equal. apply keep_spec. destruct H as [Hd ->].
      split; [done |]. unfold add_offered. cbn. by rewrite app_nil_r.
    + rewrite bool_decide_eq_true_2, Hr by done. cbn [mbind outcome_bind]. f_equal. apply drop_unknown_spec. right. by exists e.
    + rewrite bool_decide_eq_false_2, bool_decide_eq_true_2, Hr by done. cbn [mbind outcome_bind]. f_equal. apply drop_unknown_spec. right. by exists e.
    + rewrite !bool_decide_eq_false_2 by done. by subst.
Qed.

Fixpoint all_agree (p : ParsedStreams) (xs : list offered) : Prop :=
  match xs with [] => True | x :: xs => agrees p x /\ all_agree (add_offered p x) xs end.

Lemma parse_streams_spec vs p p' : parse_streams vs p = Ret (ok p') <->
  exists items, Forall2 entry_is vs items /\ all_agree p (omap id items) /\ p' = foldl add_offered p (omap id items).
Proof using.
  revert p. induction vs as [| v vs IH]; intros p; cbn [parse_streams].
  - split; [intros [= <-]; by exists [] | intros (items & H & _ & ->)]. by inversion H.
  - split.
    + intros H. apply bind_Ret_inv in H as ([q | e] & Hq & H); [| done]. apply parse_stream_spec in Hq as (item & Hi & Hq).
      apply IH in H as (items & Hitems & Ha & ->). exists (item :: items). split; [by constructor |].
      destruct item as [x |]; cbn; [destruct Hq as [Hx ->]; by split | by subst].
    + intros (items & H & Ha & ->). inversion H as [| ? item ? items' Hi His]; subst.
      destruct item as [x |]; cbn in Ha |- *.
      * destruct Ha as [Hx Ha]. rewrite (proj2 (parse_stream_spec v p (add_offered p x))) by (by exists (Some x)).
        cbn. apply IH. by exists items'.
      * rewrite (proj2 (parse_stream_spec v p p)) by (by exists None). cbn. apply IH. by exists items'.
Qed.

Lemma all_agree_spec xs : all_agree (mkParsed [] [] None) xs <-> (forall x y, x ∈ xs -> y ∈ xs -> offered_dscp x = offered_dscp y).
Proof using.
  assert (forall xs p d, parsed_dscp p = Some d -> all_agree p xs <-> forall x, x ∈ xs -> offered_dscp x = d) as E.
  { clear. induction xs as [| x xs IH]; intros p d Hp; cbn; [split; [by intros _ ? ?%not_elem_of_nil | done] |].
    split.
    - intros [Hx Ha] y [-> | Hy]%elem_of_cons; [by apply Hx |]. eapply IH in Ha; [| done |]; [| done]. rewrite Ha. by apply Hx.
    - intros H. assert (offered_dscp x = d) as Hx by (apply H; by left). split; [intros d' Hd'; congruence |].
      eapply IH; [done |]. intros y Hy. cbn. rewrite Hx. apply H. by right. }
  destruct xs as [| x xs]; cbn; [split; [by intros _ ? ? ?%not_elem_of_nil | done] |].
  rewrite (E xs _ (offered_dscp x)) by done. split.
  - intros [_ H]. assert (forall y, y ∈ x :: xs -> offered_dscp y = offered_dscp x) as H'.
    { intros y [-> | Hy]%elem_of_cons; [done | by apply H]. }
    intros y z Hy Hz. by rewrite (H' y), (H' z).
  - intros H. split; [by intros ? ? |]. intros y Hy. apply H; [by right | by left].
Qed.

Lemma add_offered_all xs p : let q := foldl add_offered p xs in
  parsed_audio q = parsed_audio p ++ omap audio_of xs /\ parsed_video q = parsed_video p ++ omap video_of xs.
Proof using.
  revert p. induction xs as [| x xs IH]; intros p; cbn; [by rewrite !app_nil_r |].
  destruct (IH (add_offered p x)) as [-> ->]. unfold add_offered. cbn. rewrite <- !app_assoc. by destruct x.
Qed.

(** * The theorems *)

Definition mode_of (mode : str) : CastMode := match GetEnum kCastModeNames mode with ok mode => mode | err _ => kMirroring end.

Lemma Offer_TryParse_spec root mode vs o : isObject root = true -> convertString (at_key (lit "castMode") root) = Some mode ->
  elements (at_key kSupportedStreams root) = Some vs ->
  Offer_TryParse root = Ret (ok o) <->
  cast_mode o = mode_of mode
  /\ exists items, Forall2 entry_is vs items
       /\ (forall x y, x ∈ omap id items -> y ∈ omap id items -> offered_dscp x = offered_dscp y)
       /\ audio_streams o = omap audio_of (omap id items) /\ video_streams o = omap video_of (omap id items).
Proof using.
  intros Ho Hm He. unfold Offer_TryParse. rewrite Ho, Hm, He. cbn [negb]. fold (mode_of mode). split.
  - intros H. apply bind_Ret_inv in H as ([p | e] & Hp & [= <-]). cbn. split; [done |].
    apply parse_streams_spec in Hp as (items & Hitems & Ha & ->). exists items.
    destruct (add_offered_all (omap id items) (mkParsed [] [] None)) as [-> ->]. by rewrite <- all_agree_spec.
  - intros (Hmode & items & Hitems & Ha & Haudio & Hvideo).
    rewrite (proj2 (parse_streams_spec vs (mkParsed [] [] None) (foldl add_offered (mkParsed [] [] None) (omap id items)))).
    2: { exists items. by rewrite all_agree_spec. }
    cbn [mbind outcome_bind]. destruct (add_offered_all (omap id items) (mkParsed [] [] None)) as [-> ->].
    cbn [parsed_audio parsed_video app]. rewrite <- Haudio, <- Hvideo, <- Hmode. by destruct o.
Qed.

Lemma write_all_back {S} (ToJson : S -> outcome Value) TryParse t (f : S -> offered) (l : list S) :
  (forall s, s ∈ l -> written ToJson TryParse t s) ->
  (forall v s, type_of v (OfferedType_ToString t) -> TryParse v = Ret (ok s) -> entry_is v (Some (f s))) ->
  exists vs, write_all ToJson l = Ret vs /\ Forall2 entry_is vs (map (fun s => Some (f s)) l).
Proof.
  intros H Hf. induction l as [| s l IH]; [by exists [] |]. destruct IH as (vs & Hvs & Hes); [intros x Hx; apply H; by right |].
  destruct (H s) as (v & Hv & Ho & Ht & Hr); [by left |]. exists (v :: vs). cbn. rewrite Hv. cbn. rewrite Hvs. split; [done |].
  constructor; [| done]. apply Hf; [| done]. exists (json_string (OfferedType_ToString t)). split; [| apply asString_string].
  unfold member. by rewrite Ho, Ht.
Qed.

(** What an OFFER must be to be read back: all streams fit, there is one, and they have one DSCP value. *)
Definition offer_fits (o : Offer) : Prop :=
  Forall audio_stream_fits (audio_streams o) /\ Forall video_stream_fits (video_streams o)
  /\ Forall (fun s => Stream_IsValid (video_stream s) = true) (video_streams o)
  /\ (audio_streams o <> [] \/ video_streams o <> [])
  /\ exists d, Forall (fun s => receiver_rtcp_dscp (audio_stream s) = d) (audio_streams o)
          /\ Forall (fun s => receiver_rtcp_dscp (video_stream s) = d) (video_streams o).

Lemma omap_some {A B} (f : A -> B) l : omap id (map (fun s => Some (f s)) l) = map f l.
Proof using. induction l as [| a l IH]; cbn; [done | by rewrite IH]. Qed.

Lemma omap_map {A B C} (f : A -> B) (g : B -> option C) (h : A -> option C) l : (forall a, g (f a) = h a) -> omap g (map f l) = omap h l.
Proof using. intros E. induction l as [| a l IH]; cbn; [done |]. by rewrite E, IH. Qed.

Lemma omap_id {A} (l : list A) : omap Some l = l.
Proof using. induction l as [| a l IH]; cbn; [done | by rewrite IH]. Qed.
Lemma omap_none {A B} (l : list A) : omap (fun _ => @None B) l = [].
Proof using. by induction l. Qed.

Lemma offer_back o : offer_fits o -> Offer_IsValid o = true -> exists v, Offer_ToJson o = Ret v /\ Offer_TryParse v = Ret (ok o).
Proof.
  intros (Ha & Hw & Hsv & Hne & d & Hda & Hdw) Hv. unfold Offer_ToJson. rewrite Hv. unfold Offer_IsValid in Hv.
  apply andb_true_iff in Hv as [Hva Hvw]. rewrite forallb_forall in Hva, Hvw.
  destruct (write_all_back AudioStream_ToJson AudioStream_TryParse kAudioSource inl (audio_streams o)) as (avs & Hwa & Hea);
    [| by apply entry_audio |].
  { intros s Hs. apply audio_stream_back; [by apply (proj1 (Forall_forall _ _) Ha) | by apply Hva, list_elem_of_In]. }
  destruct (write_all_back VideoStream_ToJson VideoStream_TryParse kVideoSource inr (video_streams o)) as (wvs & Hww & Hew);
    [| by apply entry_video |].
  { intros s Hs. apply video_stream_back; [by apply (proj1 (Forall_forall _ _) Hw) | by apply Hvw, list_elem_of_In |
      by apply (proj1 (Forall_forall _ _) Hsv)]. }
  cbn [OSP_CHECK mbind outcome_bind]. assert (exists name, GetEnumName kCastModeNames (cast_mode o) = ok name /\ mode_of name = cast_mode o)
    as (name & Hname & Hmode) by (destruct (cast_mode o); by eexists).
  rewrite Hname, Hwa, Hww. cbn [value_of mbind outcome_bind]. eexists. split; [done |].
  assert (appended (avs ++ wvs) = json_array (avs ++ wvs)) as E.
  { apply Forall2_length in Hea, Hew. rewrite length_map in Hea, Hew.
    destruct Hne as [H | H]; [destruct avs | destruct avs, wvs]; try done.
    - by destruct (audio_streams o).
    - by destruct (video_streams o). }
  rewrite E. apply (Offer_TryParse_spec _ name (avs ++ wvs)).
  - apply object_of_object. distinct_keys.
  - read_members. apply convertString_string.
  - read_members. apply elements_array.
  - split; [done |]. exists (map (fun s => Some (inl s)) (audio_streams o) ++ map (fun s => Some (inr s)) (video_streams o)).
    split; [by apply Forall2_app |]. rewrite omap_app, !omap_some.
    assert (forall x, x ∈ map inl (audio_streams o) ++ map inr (video_streams o) -> offered_dscp x = d) as Hd.
    { intros x [(s & -> & Hs)%list_elem_of_fmap | (s & -> & Hs)%list_elem_of_fmap]%elem_of_app.
      - by apply (proj1 (Forall_forall _ _) Hda).
      - by apply (proj1 (Forall_forall _ _) Hdw). }
    split; [intros x y Hx Hy; by rewrite (Hd x), (Hd y) |]. rewrite !omap_app.
    rewrite (omap_map inl audio_of Some), (omap_map inr audio_of (fun _ => None)), (omap_map inl video_of (fun _ => None)),
      (omap_map inr video_of Some) by done.
    by rewrite !omap_id, !omap_none, app_nil_r.
Qed.

(** ** What is accepted *)

Lemma AesHexBytes_ok s bytes : AesHexBytes s = Some bytes -> bytes_ok bytes /\ zlen bytes = kAesBytesSize.
Proof using.
  unfold AesHexBytes. destruct (_ || _); [done |]. destruct (scan_hex (take 16 s)) as [q0 |]; [| done]. cbn [mbind option_bind].
  destruct (scan_hex (drop 16 s)) as [q1 |]; [| done]. cbn [mbind option_bind]. intros [= <-]. split.
  - apply Forall_app. split; apply be_encode_bytes.
  - unfold zlen. by rewrite length_app, !length_be_encode.
Qed.

Lemma stream_accepted v t s : Stream_TryParse v t = ok s ->
  stream_fits s /\ type s = t /\ 1 <= channels s /\ 0 <= index s /\ 0 <= target_delay s.
Proof.
  unfold Stream_TryParse. intros H. inv_ok.
  destruct (TryParseAesHexBytes (at_key (lit "aesKey") v)) as [key |] eqn:Hkey; [| done].
  destruct (TryParseAesHexBytes (at_key (lit "aesIvMask") v)) as [mask |] eqn:Hmask; [| done]. inv_ok. injection H as <-.
  unfold TryParseAesHexBytes in Hkey, Hmask.
  destruct (asString (at_key (lit "aesKey") v)); [| done]. destruct (asString (at_key (lit "aesIvMask") v)); [| done].
  cbn [mbind option_bind] in Hkey, Hmask. apply AesHexBytes_ok in Hkey, Hmask.
  apply TryParseInt_range in E. apply asUInt_range in E0.
  assert (0 <= x3 <= INT_MAX /\ 1 <= x3) as [Hc Hc1].
  { destruct (TryParseInt (at_key (lit "channels") v)) as [c |] eqn:Hch.
    - apply TryParseInt_range in Hch. destruct (Z.leb_spec c 0); [done |]. injection E3 as <-. lia.
    - injection E3 as <-. unfold INT_MAX. by case_bool_decide. }
  assert (IsRtpPayloadType x1 = true) as Hp.
  { unfold TryParseRtpPayloadType in E1. destruct (TryParseInt _) as [n |]; [| done]. cbn [mbind option_bind] in E1.
    destruct (u8 n =? n); [| done]. cbn [negb orb] in E1. destruct (IsRtpPayloadType (u8 n)) eqn:Hp; [| done]. by injection E1 as <-. }
  assert (forall d, x4 = Some d -> 0 <= d <= 63) as Hd.
  { intros d ->. destruct (TryParseInt (at_key (lit "receiverRtcpDscp") v)) as [n |]; [| done].
    destruct (Z.ltb_spec n 0); [done |]. destruct (Z.ltb_spec 63 n); [done |]. injection E4 as <-. lia. }
  unfold stream_fits. cbn. change (Z.min kDefaultAudioMinSampleRate kRtpVideoTimebase) with kDefaultAudioMinSampleRate in *.
  assert (forall o, 0 <= match o with
    | Some d => if (kMinTargetPlayoutDelay <=? d) && (d <=? kMaxTargetPlayoutDelay) then d else kDefaultTargetPlayoutDelay
    | None => kDefaultTargetPlayoutDelay end <= kMaxTargetPlayoutDelay) as Hdelay.
  { intros [d |]; [| done]. destruct (_ && _) eqn:Hb; [| done]. unfold kMinTargetPlayoutDelay in Hb. lia. }
  specialize (Hdelay (TryParseInt (at_key (lit "targetDelay") v))). split_and!; first [done | lia | apply Hkey | apply Hmask | apply Hdelay].
Qed.

Lemma audio_stream_accepted v s : AudioStream_TryParse v = Ret (ok s) ->
  audio_stream_fits s /\ AudioStream_IsValid s = (0 <? target_delay (audio_stream s)).
Proof.
  unfold AudioStream_TryParse. intros H. destruct (isObject v); [| done]. cbn [negb] in H.
  destruct (Stream_TryParse v kAudioSource) as [stream |] eqn:Hs; [| done]. apply stream_accepted in Hs as (Hs & Ht & Hc & Hi & Hd).
  destruct (TryParseInt _) as [rate |] eqn:Hr; [| done]. apply TryParseInt_range in Hr.
  destruct (TryParseString _) as [name |]; [| done]. destruct (rate <? 0); [done |].
  destruct (StringToAudioCodec name) as [codec |]; [| done]. destruct (AudioCodecParameterIsValid _ _) eqn:Hp.
  2: { cbn [negb] in H. by apply bind_Ret_inv in H as (? & _ & ?). }
  cbn [negb] in H. injection H as <-. unfold audio_stream_fits, AudioStream_IsValid, Stream_IsValid. cbn. split; [split_and!; done || lia |].
  destruct Hs as (_ & _ & _ & _ & Hm & _ & _ & _ & Htb). unfold kMaxTargetPlayoutDelay, kDefaultAudioMinSampleRate, INT_MAX in *. lia.
Qed.

Lemma parse_resolutions_accepted vs rs : parse_resolutions vs = Some rs ->
  Forall (fun r => Resolution_IsValid r = true /\ width r <= INT_MAX /\ height r <= INT_MAX) rs.
Proof.
  revert rs. induction vs as [| v vs IH]; cbn; intros rs H; [by injection H as <- |].
  destruct (Resolution_TryParse v) as [r |] eqn:Hr; [| done]. destruct (parse_resolutions vs) as [rs' |]; [| done].
  injection H as <-. constructor; [| by apply IH]. unfold Resolution_TryParse in Hr. inv_ok.
  apply TryParseInt_range in E, E0. cbn. lia || (split; [done | lia]).
Qed.

Lemma video_stream_accepted v s : VideoStream_TryParse v = Ret (ok s) ->
  video_stream_fits s /\ VideoStream_IsValid s = (0 <? max_bit_rate s)
  /\ Stream_IsValid (video_stream s) = (0 <? target_delay (video_stream s)).
Proof.
  unfold VideoStream_TryParse. intros H. destruct (isObject v); [| done]. cbn [negb] in H.
  destruct (Stream_TryParse v kVideoSource) as [stream |] eqn:Hs; [| done]. apply stream_accepted in Hs as (Hs & Ht & Hc & Hi & Hd).
  destruct (TryParseString (at_key kCodecName v)) as [name |]; [| done].
  destruct (StringToVideoCodec name) as [codec |]; [| done]. destruct (VideoCodecParameterIsValid _ _) eqn:Hp.
  2: { cbn [negb] in H. by apply bind_Ret_inv in H as (? & _ & ?). }
  cbn [negb] in H. injection H as <-. unfold video_stream_fits, VideoStream_IsValid, Stream_IsValid. cbn.
  set (rate := match TryParseString _ with Some raw => _ | None => _ end).
  assert (is_positive rate = true /\ numerator_ rate <= INT_MAX /\ denominator_ rate <= INT_MAX) as (Hpos & Hn & Hde).
  { subst rate. destruct (TryParseString _) as [raw |]; [| done].
    destruct (SimpleFraction_FromString raw) as [f |] eqn:Hf; [| done]. apply FromString_range in Hf.
    destruct (is_positive f) eqn:Hpf; done. }
  rewrite Hpos, andb_true_r. split_and!; try done.
  - destruct (TryParseInt _) as [n |] eqn:Hb; [apply TryParseInt_range in Hb; cbn; lia | by vm_compute].
  - destruct (TryParseResolutions _) as [rs |] eqn:Hr; [| constructor]. unfold TryParseResolutions in Hr.
    destruct (elements _) as [[| x vs] |]; try done. by eapply parse_resolutions_accepted.
  - destruct Hs as (_ & _ & _ & _ & Hm & _ & _ & _ & Htb). unfold kMaxTargetPlayoutDelay, kDefaultAudioMinSampleRate, INT_MAX in *. lia.
Qed.

(** ** Writing fails in one way *)

Lemma forallb_agree {A} (f g : A -> bool) l : (forall a, a ∈ l -> f a = g a) -> forallb f l = forallb g l.
Proof using. induction l as [| a l IH]; intros H; cbn; [done |]. rewrite H, IH; [done | intros b Hb; apply H; by right | by left]. Qed.

Lemma write_all_fault {A} (ToJson : A -> outcome Value) l :
  (forall a, a ∈ l -> (exists v, ToJson a = Ret v) \/ ToJson a = Fault CheckFailed) ->
  (exists a, a ∈ l /\ ToJson a = Fault CheckFailed) -> write_all ToJson l = Fault CheckFailed.
Proof using.
  induction l as [| a l IH]; intros H (b & Hb & Hf); [by apply not_elem_of_nil in Hb |]. cbn.
  destruct (H a) as [[v E] | ->]; [by left | | done]. rewrite E. cbn. rewrite IH; [done | intros x Hx; apply H; by right |].
  apply elem_of_cons in Hb as [-> | Hb]; [congruence | by exists b].
Qed.

Lemma offer_accepted root o : Offer_TryParse root = Ret (ok o) ->
  Forall (fun s => audio_stream_fits s /\ AudioStream_IsValid s = (0 <? target_delay (audio_stream s))) (audio_streams o)
  /\ Forall (fun s => video_stream_fits s /\ VideoStream_IsValid s = (0 <? max_bit_rate s)
               /\ Stream_IsValid (video_stream s) = (0 <? target_delay (video_stream s))) (video_streams o)
  /\ exists d, Forall (fun s => receiver_rtcp_dscp (audio_stream s) = d) (audio_streams o)
          /\ Forall (fun s => receiver_rtcp_dscp (video_stream s) = d) (video_streams o).
Proof.
  intros H. pose proof H as H'. unfold Offer_TryParse in H'. destruct (isObject root) eqn:Ho; [| done]. cbn [negb] in H'.
  destruct (convertString _) as [mode |] eqn:Hm; [| done]. destruct (elements _) as [vs |] eqn:He; [| done]. clear H'.
  apply (Offer_TryParse_spec _ mode vs) in H as (_ & items & Hitems & Hd & Ha & Hw); try done.
  assert (forall x, x ∈ omap id items -> exists v, entry_is v (Some x)) as Hin.
  { intros x (y & Hy & Hyx)%list_elem_of_omap. cbn in Hyx. subst y.
    apply list_elem_of_lookup in Hy as (i & Hi). by destruct (Forall2_lookup_r _ _ _ _ _ Hitems Hi) as (v & _ & Hv); exists v. }
  rewrite Ha, Hw. split; [| split].
  - apply Forall_forall. intros s (x & Hx & Hxs)%list_elem_of_omap. destruct (Hin x Hx) as (v & Hv).
    destruct x; [| done]. injection Hxs as ->. inversion Hv; subst. by eapply audio_stream_accepted.
  - apply Forall_forall. intros s (x & Hx & Hxs)%list_elem_of_omap. destruct (Hin x Hx) as (v & Hv).
    destruct x; [done |]. injection Hxs as ->. inversion Hv; subst. by eapply video_stream_accepted.
  - exists (match omap id items with x :: _ => offered_dscp x | [] => None end).
    assert (forall x, x ∈ omap id items -> offered_dscp x = match omap id items with x :: _ => offered_dscp x | [] => None end) as E.
    { intros x Hx. destruct (omap id items) as [| y ys]; [by apply not_elem_of_nil in Hx |]. apply Hd; [done | by left]. }
    split; apply Forall_forall; intros s (x & Hx & Hxs)%list_elem_of_omap; rewrite <- (E x Hx); by destruct x; inversion Hxs.
Qed.

(** An OFFER whose streams fit in the integers and formats of the message, of which there is at least
    one, with one DSCP value, and that is valid with valid streams, is written, and reading it gives the same OFFER. *)
Theorem offer_roundtrip (o : Offer) : offer_fits o -> Offer_IsValid o = true ->
  exists v, Offer_ToJson o = Ret v /\ Offer_TryParse v = Ret (ok o).
Proof. apply offer_back. Qed.

(** The streams of an OFFER are those entries of the array of supported streams, in their order, that are
    streams with a known codec; entries of another type or with an unknown codec are passed over; every
    other entry, and a DSCP value that differs, makes the OFFER be refused.  An unknown mode is mirroring. *)
Theorem offered_streams (root : Value) (mode : str) (entries : list Value) (o : Offer) :
  isObject root = true -> convertString (at_key (lit "castMode") root) = Some mode ->
  elements (at_key kSupportedStreams root) = Some entries ->
  Offer_TryParse root = Ret (ok o) <->
  cast_mode o = mode_of mode
  /\ exists items, Forall2 entry_is entries items
       /\ (forall x y, x ∈ omap id items -> y ∈ omap id items -> offered_dscp x = offered_dscp y)
       /\ audio_streams o = omap audio_of (omap id items) /\ video_streams o = omap video_of (omap id items).
Proof using. apply Offer_TryParse_spec. Qed.

Definition writable (o : Offer) : bool :=
  forallb (fun s => 0 <? target_delay (audio_stream s)) (audio_streams o)
  && forallb (fun s => (0 <? max_bit_rate s) && (0 <? target_delay (video_stream s))) (video_streams o).

(** An accepted OFFER with streams can be written and is read again as it was, if the delays of all its streams
    and the bit rates of its video are positive; otherwise, although it was accepted, writing it stops the process. *)
Theorem accepted_offers (root : Value) (o : Offer) :
  Offer_TryParse root = Ret (ok o) -> (audio_streams o <> [] \/ video_streams o <> []) ->
  if writable o then exists v, Offer_ToJson o = Ret v /\ Offer_TryParse v = Ret (ok o)
  else Offer_ToJson o = Fault CheckFailed.
Proof.
  intros H Hne. destruct (offer_accepted root o H) as (Ha & Hw & Hd). unfold writable.
  pose proof (proj1 (Forall_forall _ _) Ha) as Ha'. pose proof (proj1 (Forall_forall _ _) Hw) as Hw'. cbv beta in Ha', Hw'.
  destruct (forallb (fun s => 0 <? _) _) eqn:Hda.
  2: { unfold Offer_ToJson. assert (Offer_IsValid o = false) as ->; [| done]. unfold Offer_IsValid. apply andb_false_iff. left.
       rewrite <- Hda. apply forallb_agree. intros s Hs. by apply Ha'. }
  assert (forallb AudioStream_IsValid (audio_streams o) = true) as Hva.
  { rewrite <- Hda. apply forallb_agree. intros s Hs. by apply Ha'. }
  cbn [andb]. destruct (forallb _ (video_streams o)) eqn:Hdw.
  - rewrite forallb_forall in Hdw. apply offer_back.
    + split_and!; [eapply Forall_impl; [exact Ha |]; by intros s [] | eapply Forall_impl; [exact Hw |]; by intros s [] | | done..].
      apply Forall_forall. intros s Hs. rewrite (proj2 (proj2 (Hw' s Hs))).
      apply list_elem_of_In, Hdw, andb_true_iff in Hs. apply Hs.
    + unfold Offer_IsValid. rewrite Hva. apply forallb_forall. intros s Hs. pose proof (Hdw s Hs) as Hb. apply list_elem_of_In in Hs.
      rewrite (proj1 (proj2 (Hw' s Hs))). by apply andb_true_iff in Hb as [].
  - unfold Offer_ToJson. destruct (Offer_IsValid o) eqn:Hv; [| done]. unfold Offer_IsValid in Hv.
    apply andb_true_iff in Hv as [_ Hvw]. rewrite forallb_forall in Hva, Hvw. cbn [OSP_CHECK mbind outcome_bind].
    assert (exists name, GetEnumName kCastModeNames (cast_mode o) = ok name) as (name & ->) by (destruct (cast_mode o); by eexists).
    cbn [value_of mbind outcome_bind].
    destruct (write_all_back AudioStream_ToJson AudioStream_TryParse kAudioSource inl (audio_streams o)) as (avs & -> & _);
      [| by apply entry_audio |].
    { intros s Hs. apply audio_stream_back; [by apply Ha' | by apply Hva, list_elem_of_In]. }
    cbn [mbind outcome_bind].
    assert (exists s, s ∈ video_streams o /\ Stream_IsValid (video_stream s) = false) as (bad & Hbad & Hbv).
    { apply not_true_iff_false in Hdw. destruct (decide (Exists (fun s => Stream_IsValid (video_stream s) = false) (video_streams o)))
        as [E | E]; [by apply Exists_exists in E |]. destruct Hdw. apply forallb_forall. intros s Hs.
      pose proof (Hvw s Hs) as Hvs. apply list_elem_of_In in Hs. destruct (Hw' s Hs) as (_ & Eb & Et).
      rewrite <- Eb, <- Et, Hvs. destruct (Stream_IsValid (video_stream s)) eqn:Es; [done |]. destruct E. apply Exists_exists. by exists s. }
    rewrite write_all_fault; [done | |].
    + intros s Hs. destruct (Stream_IsValid (video_stream s)) eqn:Es; [left | right].
      * destruct (video_stream_back s) as (v & Hv' & _); [by apply Hw' | by apply Hvw, list_elem_of_In | done |]. by exists v.
      * unfold VideoStream_ToJson, Stream_ToJson. rewrite Es. rewrite Hvw by by apply list_elem_of_In. done.
    + exists bad. split; [done |]. unfold VideoStream_ToJson, Stream_ToJson. rewrite Hbv, Hvw by by apply list_elem_of_In. done.
Qed.

(** A message can stop the process that reads it: a mode that is an array, or an entry of the array of
    streams that is a text, after entries that are read. *)
Theorem malformed_offers_abort (root : Value) (modes read rest : list Value) (text : str) (p : ParsedStreams) :
  isObject root = true ->
  (at_key (lit "castMode") root = json_array modes -> Offer_TryParse root = Fault CheckFailed)
  /\ (is_Some (convertString (at_key (lit "castMode") root)) -> parse_streams read (mkParsed [] [] None) = Ret (ok p) ->
      at_key kSupportedStreams root = json_array (read ++ json_string text :: rest) -> Offer_TryParse root = Fault CheckFailed).
Proof.
  intros Ho. unfold Offer_TryParse. rewrite Ho. cbn [negb]. split.
  - intros ->. by rewrite convertString_array.
  - intros [mode ->] Hp ->. rewrite elements_array.
    assert (forall q, parse_streams read q = Ret (ok p) ->
      parse_streams (read ++ json_string text :: rest) q = Fault CheckFailed) as E; [| by rewrite (E _ Hp)].
    clear Hp. induction read as [| v read IH]; intros q; cbn [app parse_streams].
    + intros _. unfold parse_stream, member. by rewrite isObject_string, isNull_string.
    + intros H. apply bind_Ret_inv in H as ([q' | e] & -> & H); [| done]. cbn. by apply IH.
Qed.
End OfferProps.

(** * Examples *)

Lemma demo_stream_fits i t delay : 0 <= i <= 1 -> delay <= 5000 -> stream_fits (demo_stream i t delay).
Proof.
  intros Hi Hd. unfold stream_fits, demo_stream. cbn [index channels offered_payload_type ssrc target_delay aes_key aes_iv_mask
    receiver_rtcp_dscp rtp_timebase]. unfold INT_MAX, is_u.
  split_and!; try done; try lia; [by destruct t | by repeat constructor | by repeat constructor | intros ? [= <-]; lia].
Qed.

Lemma demo_offer_fits : offer_fits (demo_offer 400).
Proof.
  unfold offer_fits, demo_offer. cbn [audio_streams video_streams]. split_and!.
  - constructor; [| constructor]. unfold audio_stream_fits. split; [by apply demo_stream_fits | done].
  - constructor; [| constructor]. unfold video_stream_fits. split; [by apply demo_stream_fits | split_and!; try done]. by repeat constructor.
  - by repeat constructor.
  - by left.
  - exists (Some 46). by repeat constructor.
Qed.

Lemma offer_roundtrip_witness :
  offer_fits (demo_offer 400) /\ exists v : demo_json, Offer_ToJson (demo_offer 400) = Ret v /\ Offer_TryParse v = Ret (ok (demo_offer 400)).
Proof. split; [exact demo_offer_fits |]. exact (offer_roundtrip (demo_offer 400) demo_offer_fits eq_refl). Defined.

Lemma offered_streams_witness :
  let root := demo_root (json_string (lit "remoting")) demo_entries in
  Offer_TryParse root = Ret (ok (demo_kept 400))
  /\ exists items, Forall2 entry_is demo_entries items /\ audio_streams (demo_kept 400) = omap audio_of (omap id items).
Proof.
  assert (Offer_TryParse (demo_root (json_string (lit "remoting")) demo_entries) = Ret (ok (demo_kept 400))) as H by (vm_compute; reflexivity).
  split; [exact H |].
  apply (offered_streams (demo_root (json_string (lit "remoting")) demo_entries) (lit "remoting") demo_entries (demo_kept 400)) in H;
    [| vm_compute; reflexivity..]. destruct H as (_ & items & Hi & _ & Ha & _). by exists items.
Defined.

Lemma accepted_offers_witness :
  let root delay := demo_root (json_string (lit "remoting")) [demo_entry (lit "opus") delay] in
  (Offer_TryParse (root 0) = Ret (ok (demo_kept 0)) /\ Offer_ToJson (Value := demo_json) (demo_kept 0) = Fault CheckFailed)
  /\ Offer_TryParse (root 400) = Ret (ok (demo_kept 400))
  /\ exists v : demo_json, Offer_ToJson (demo_kept 400) = Ret v /\ Offer_TryParse v = Ret (ok (demo_kept 400)).
Proof.
  set (root delay := demo_root (json_string (lit "remoting")) [demo_entry (lit "opus") delay]).
  assert (Offer_TryParse (root 0) = Ret (ok (demo_kept 0))) as H0 by (vm_compute; reflexivity).
  assert (Offer_TryParse (root 400) = Ret (ok (demo_kept 400))) as H1 by (vm_compute; reflexivity).
  split; split; [exact H0 | | exact H1 |].
  - apply (accepted_offers (root 0) (demo_kept 0) H0). by left.
  - apply (accepted_offers (root 400) (demo_kept 400) H1). by left.
Defined.

Lemma malformed_offers_abort_witness :
  Offer_TryParse (demo_root (json_array []) []) = Fault CheckFailed
  /\ Offer_TryParse (demo_root (json_string (lit "mirroring")) [demo_entry (lit "opus") 400; json_string (lit "opus")]) = Fault CheckFailed.
Proof.
  split.
  - assert (isObject (demo_root (json_array []) []) = true) as Ho by (vm_compute; reflexivity).
    apply (proj1 (malformed_offers_abort (demo_root (json_array []) []) [] [] [] [] (mkParsed [] [] None) Ho)). vm_compute. reflexivity.
  - set (root := demo_root (json_string (lit "mirroring")) [demo_entry (lit "opus") 400; json_string (lit "opus")]).
    assert (isObject root = true) as Ho by (vm_compute; reflexivity).
    apply (proj2 (malformed_offers_abort root [] [demo_entry (lit "opus") 400] [] (lit "opus")
      (mkParsed (audio_streams (demo_kept 400)) [] (Some (Some 46))) Ho)); [by eexists | |]; vm_compute; reflexivity.
Defined.
